(* ===== verification/_CoqProject ===== *)
-Q . S2P
Prelude.v
Sdk.v
Schedule.v
ClawbackAccount.v
Keepers.v
VestingMsg.v
VestingKeeper.v
LiquidSchedule.v
TokenPair.v
LiquidVesting.v
Epochs.v
FeeMarket.v
AccessList.v
StateDB.v
Precompile.v
StateRevert.v
StateCommit.v
EvmParams.v
EvmKeeper.v
Ucdao.v
UcdaoInvariant.v
EthiqData.v
EthiqCurve.v
Ethiq.v
EthiqTheory.v
EthiqInvariant.v
EthiqQuery.v
DaoEthiq.v
Coinomics.v
EvmMachine.v
EvmCode.v
Evm.v
EvmInstructions.v
EvmGas.v
EvmTable.v
EvmDb.v
EvmTheory.v
PrecompileRun.v
EvmRun.v
EvmOps.v
EvmMemory.v
EvmCopies.v
EvmStorage.v
EvmCallOps.v
EvmSafety.v
EvmConfig.v
StateTransition.v
TxSafety.v
TxData.v
EvmAnte.v
EvmAnteTheory.v
CosmosAnte.v
EvmQuery.v
Erc20.v
Erc20Theory.v
Erc20Backing.v
Erc20Example.v
PrecompileAuthz.v
Erc20Precompile.v
Erc20Standard.v
LiquidPrecompile.v
PrecompileSettle.v
DaoPrecompile.v
DaoSettle.v
EthiqPrecompile.v
SdkWrappers.v
StakingPrecompile.v
