(* ===== verification/Prelude.v ===== *)
(** * A verification library for the HAQQ chain

    HAQQ is a Cosmos SDK chain with an EVM.  This library models its own core
    logic (the Go packages under x/, app/ante, the precompiled contracts of its
    own modules and of x/staking, and the types they share) as executable definitions, and proves the properties that make
    each part correct.

    ** The parts of the program and how they interact

    - x/vesting: accounts whose coins are released by two schedules, a lockup and
      a vesting schedule.  A funder creates a grant, adds to it, claws the unvested
      coins back, or hands control to another funder.  x/bank asks the account for
      its locked coins, x/staking reports delegations to it.
    - x/liquidvesting: turns locked coins of a vesting account into a liquid token
      with a schedule of its own, and back.  It works on the accounts of x/vesting,
      calls [ApplyVestingSchedule] of its keeper, mints and burns through x/bank and
      registers the token as an ERC-20 pair with x/erc20.
    - x/epochs: timers that call hooks of other modules.
    - x/feemarket: the EIP-1559 base fee, from the gas the previous block wanted.
    - x/evm/statedb: the journalled state of an EVM transaction: state objects,
      a journal that [RevertToSnapshot] replays backwards, and [Commit], which writes
      to the keeper.  Stateful precompiles (precompiles/common) work on the
      same StateDB through a cached store and snapshots of the multi-store.
    - x/evm/keeper/statedb.go: the keeper under the StateDB, over x/auth and x/bank.
    - x/evm/core/vm: the interpreter, a fork of go-ethereum's.  It runs code on the StateDB,
      with a hook before each call and creation that the module installs.
    - x/evm/types and x/evm/keeper: the parameters (forks, extra EIPs, permissions, active
      precompiles), the hooks that enforce them, and the state transition, which runs a
      transaction in a new EVM over a new StateDB and settles its gas with x/bank.  The base
      fee and the minimal gas come from x/feemarket.
    - x/evm/types: the data of a signed Ethereum transaction in its three types, its fees and
      its conversion to go-ethereum's transaction; app/ante/evm: the decorators that a
      transaction passes before it runs: validity, signature, balance, fees to the collector,
      nonce, gas wanted for x/feemarket; app/ante: the choice between them and the handlers of
      Cosmos transactions, which keep Ethereum messages out.
    - x/evm/keeper/grpc_query.go: queries and calls that write nothing, and the search for the gas of a call.
    - x/erc20: the registry of pairs of a denomination and a contract, the conversion of tokens
      to coins of the bank and back, the IBC middleware that registers and converts received
      coins, and the precompiled contracts of the pairs.  It calls contracts through x/evm, and
      x/liquidvesting and x/ethiq register their tokens with it.
    - precompiles/erc20, liquid, ucdao, ethiq and staking: contracts of the EVM whose methods run the
      messages of x/bank, x/liquidvesting, x/ucdao, x/ethiq and x/staking, with grants of x/authz
      (precompiles/authorization) when a contract acts for the origin of a transaction, and give the
      journal of the StateDB the balances that they changed.
    - x/ucdao: owners put coins into escrow accounts of the DAO, transfer shares of
      them, and convert them into aHAQQ through x/ethiq; liquid tokens in escrow are
      redeemed through x/liquidvesting.
    - x/ethiq: burns aISLM and mints aHAQQ along a price curve; the start of the
      curve is reserved for registered applications, each at a place of its own.
      It redeems liquid tokens, unlocks coins of vesting accounts, and takes the
      coins of DAO applications from the escrow accounts of x/ucdao.
    - x/coinomics: mints the block rewards for the bonded tokens up to a maximal
      supply.
    - x/staking/keeper and x/bank/keeper: wrappers of the SDK's keepers, which refuse to delegate
      unvested coins and give what governance burns to the community pool.

    ** Files

    - [Prelude] (this file): [int64] and [uint64] arithmetic with wrap-around,
      the monads [res] of fallible code (a value, an error or a panic) and [M] of
      code over a chain state, tactics, hint databases and shared lemmas.
    - [Sdk]: [sdk.Coin], [sdk.Coins] and [Period].  The data is written out; the
      methods belong to the SDK, so they are operations of a class [SdkOps] with
      their documented behaviour as the class [SdkLaws].
    - [Schedule]: x/vesting/types/schedule.go and utils.go.
    - [ClawbackAccount]: x/vesting/types/clawback_vesting_account.go.
    - [Keepers]: the interfaces of the other modules (expected_keepers.go,
      interfaces.go) as classes over a chain state [W], with their laws, and
      one reference implementation for concrete runs.
    - [VestingMsg]: x/vesting/types/msg.go.
    - [VestingKeeper]: x/vesting/keeper/msg_server.go, schedule.go, utils.go and
      grpc_query.go.
    - [LiquidSchedule]: x/liquidvesting/types/schedule.go and denom.go.
    - [TokenPair]: x/erc20/types/token_pair.go and the IBC helpers of
      utils/utils.go.
    - [LiquidVesting]: x/liquidvesting/keeper, types and genesis.go.
    - [Epochs]: x/epochs/keeper, types and genesis.go.
    - [FeeMarket]: x/feemarket/keeper, types and genesis.go.
    - [AccessList]: x/evm/statedb/access_list.go.
    - [StateDB]: x/evm/statedb/state_object.go, journal.go, statedb.go, config.go
      and interfaces.go.
    - [Precompile]: precompiles/common/precompile.go and the shape of [Run] in
      precompiles/staking/staking.go.
    - [StateRevert] and [StateCommit]: the theory of snapshots and of commits.
    - [EvmKeeper]: x/evm/keeper/statedb.go and the account readers of keeper.go,
      as an instance of the interface of [StateDB].
    - [EvmParams]: the parameters of x/evm and their defaults.
    - [EvmMachine], [EvmCode], [Evm], [EvmInstructions], [EvmGas] and [EvmTable]:
      x/evm/core/vm (the machine's data and errors; jump destinations; calls, creations
      and the loop; the opcodes; gas.go, gas_table.go and operations_acl.go; the jump tables
      and EIPs).
    - [EvmDb], [EvmTheory], [EvmRun], [EvmOps], [EvmMemory], [EvmCopies], [EvmStorage],
      [EvmCallOps] and [EvmSafety]: what the operations of the StateDB keep; the contract of an
      operation and of a call; the loop; and that every opcode of every table meets the
      contract.
    - [PrecompileRun]: the stateful precompiles behind the interpreter's interface of a precompiled contract.
    - [EvmConfig]: x/evm/types/params.go, chain_config.go, permissions.go, opcodes_hooks.go,
      x/evm/keeper/params.go, precompiles.go and static_precompiles.go.
    - [StateTransition]: x/evm/keeper/state_transition.go, gas.go, config.go, block_proposer.go,
      msg_server.go, the transient store of keeper.go, types/gasmeter.go and types/block.go;
      [TxSafety]: its theory.
    - [TxData]: x/evm/types/tx_data.go, dynamic_fee_tx.go, access_list_tx.go, legacy_tx.go,
      access_list.go, tx.go, msg.go and utils.go; [EvmAnte]: app/ante/evm, app/ante/utils/claim_rewards.go and x/evm/keeper/fees.go;
      [EvmAnteTheory]: its theory, with the state transition behind it; [CosmosAnte]: app/ante/ante.go, cosmos.go,
      community_pool_spend.go, app/ante/cosmos and app/ante/evm/fee_checker.go.
    - [EvmQuery]: x/evm/keeper/grpc_query.go, x/evm/types/tx_args.go, [BinSearch] and types/chain_id.go.
    - [Erc20]: x/erc20/keeper, types, genesis.go and ibc_middleware.go, x/ibc/transfer/keeper/msg_server.go and
      ibc/utils.go; [Erc20Theory]: the registry's invariant and the parameters; [Erc20Backing]: the
      conversions; [Erc20Example]: a concrete chain.
    - [PrecompileAuthz]: precompiles/authorization and what the contracts share;
      [Erc20Precompile], [LiquidPrecompile], [DaoPrecompile] and [EthiqPrecompile]: precompiles/erc20,
      liquid, ucdao and ethiq; [Erc20Standard]: ERC-20 as a specification and the refinement;
      [PrecompileSettle]: what the commit leaves of a contract's balance changes; [DaoSettle]: the
      DAO's contract in a transaction; [StakingPrecompile]: precompiles/staking over
      [SdkWrappers], x/staking/keeper/msg_server.go and x/bank/keeper/keeper.go.
    - [Ucdao] and [UcdaoInvariant]: x/ucdao/keeper and types, and their theory.
    - [EthiqData]: the tables x/ethiq/types/prices.json and waitlist.go.
    - [EthiqCurve]: keeper/calculate.go and types/prices.go of x/ethiq, with the curve
      as the specification.
    - [Ethiq]: the rest of x/ethiq/keeper, types and genesis.go; [EthiqQuery]: its
      queries and authorizations.
    - [EthiqTheory] and [EthiqInvariant]: the runs of x/ethiq and its invariant.
    - [DaoEthiq]: x/ucdao and x/ethiq wired to each other as in app/app.go; each
      discharges the interface the other was verified against.
    - [Coinomics]: x/coinomics/keeper, types and genesis.go.

    Definitions have the names of the source.  A Go method that changes its
    receiver returns the changed value.  A handler is a function [M W A] from
    the chain state to a result and the state it leaves, also after an error: the
    transaction is rolled back by its caller.  A loop of the source is a
    [Fixpoint] named after its function with the suffix [_loop].

    ** What the theorems show

    - Schedules: [ReadSchedule] computes the step function of the periods; it is
      monotone and bounded; [DisjunctPeriods] is the pointwise sum of two schedules
      and [ConjunctPeriods] their pointwise minimum.
    - Accounts: the original vesting amount is partitioned at each time; locked
      coins are bounded and end; [ComputeClawback] and [AddGrant] keep the
      account invariant, and [Validate] decides it.
    - x/vesting keeper: each handler's effect on accounts and balances, that only
      the funder controls an account, and that every sequence of messages keeps
      each clawback account well-formed, as long as the times in the messages fit.
    - x/liquidvesting: a liquidation splits the schedule without losing a coin or
      moving an event; [Liquidate] and [Redeem] move exactly the coins they
      announce; every liquid token stays backed by coins in the module's
      account; identifiers are never reused; names round-trip; genesis
      round-trips.
    - x/epochs: the timer's invariant, one tick per block, hook order, catching up
      after a gap.
    - x/feemarket: when the base fee calculation panics, how it responds to the
      gas wanted, its floor, and the gas an ended block reports.
    - x/evm/statedb: [RevertToSnapshot] restores everything observable, whatever
      operations (precompile calls included, failed and refused ones too) ran since the snapshot, and the cached
      store of the precompiles if none was refused in its setup; [Commit]
      leaves exactly the dirty accounts changed; the x/evm keeper satisfies the
      laws [Commit] relies on.
    - x/evm/core: a call or creation returns for every code unless a precompile panics, with bounded gas and refunds,
      and one that fails leaves the state as it was; the chain's precompiles keep the laws that this rests on; the bitmap of a code marks exactly the
      arguments of its pushes.
    - x/evm parameters: every change keeps them valid; who is not permitted cannot call or
      create; each call finds its own precompile.
    - x/evm state transition: a message is answered, by an error if its commit fails, unless a precompile (or the
      commit) panics, and is charged gas within the limit; a transaction refunds exactly what it does not charge and keeps nothing of a
      failed execution.
    - x/evm transaction data: a signed transaction survives the conversions; the fee deducted is the
      message's price for the gas limit.
    - app/ante/evm: a transaction that passes has paid its fees and its nonces are taken in order, so
      that no message passes twice; with the state transition, a failed one pays exactly its gas.
    - app/ante: an Ethereum message runs only behind the EVM's handler, also when others wrap it, and a
      Cosmos transaction pays its fee at a price not below the base fee.
    - x/evm queries: the search for the gas of a call ends with a limit that is enough while one unit less is not;
      queries report the store; chain identifiers round-trip.
    - x/erc20: contracts and denominations stay paired one to one in every state that is reached, also by registrations
      of other modules; the
      coins of a pair stay backed by tokens; parameters round-trip; an IBC transfer converts what
      is missing; the keeper implements the interface that x/liquidvesting was verified against.
    - Precompiles: the commit keeps a contract's balance change exactly if the journal has it or nobody
      else touched the account; precompiles/erc20 refines the ERC-20 standard; precompiles/liquid mirrors
      every change of a contract's call and precompiles/ucdao none, which multiplies coins of touched escrow accounts; who
      must consent to a call, and that a grant loses what it spends and an application it lists once.
    - x/ucdao: every sequence of messages keeps the tracked totals equal to the
      escrow balances, and the index of holders exact while no conversion pays into an escrow account; when an exported genesis can
      be imported; authorizations are not exceeded.
    - x/ethiq: the walk over the price levels computes the curve; no place of the
      curve is sold twice, so the supply of aHAQQ is bounded by what was burnt; the
      effect of a mint and of an application, which runs at most once; genesis and
      authorizations; that a conversion of the DAO is a mint on the curve, and that
      an application paid by the DAO leaves the DAO's books wrong.
    - x/coinomics: the supply stays below the maximum, the amount of a block, the
      end of the minting, and that a pause is minted afterwards.

    The main theorems with hypotheses have a witness, a concrete run at which the
    hypotheses hold.  A theorem about code behind an interface is
    proved for every implementation that satisfies the interface's laws; the
    reference implementations show the laws satisfiable.

    ** Bounds and recursion

    Timestamps are [int64] with wrap-around.  Theorems about schedules assume
    [time_ok]: every time lies within 2^62 seconds of the epoch, so that sums and
    differences are exact; the messages' checks do not ensure it.  Gas and epoch
    numbers keep their width.  Recursion is structural on the data the source
    iterates over, with two exceptions in x/ethiq: the bytes of a [uint64] (fuel 8,
    its number of bytes) and the loop over a page (fuel: the applications that
    are left).  The interpreter has 1025 nested runs, one more than the depth that a call
    may have, and a round of the loop for each unit of gas that the run has, with one more to stop: every
    opcode that does not stop costs gas.  [evm_returns] shows that this is enough for gas below 2^54, which
    also keeps the refund counter within 64 bits.  Lists of precompiles are read from a text in steps of 42
    bytes, with its length as the fuel.  Every operation is total.

    ** What is not modelled

    - the panic of [sdkmath.Int] above 256 bits, the text of errors, events, telemetry,
      logging and the SDK's gas metering (the gas of the EVM is modelled);
    - the panic of [LegacyDec] above 315 bits;
    - protobuf and amino codecs, CLI, gRPC gateways, migrations, and the paginated
      queries of the SDK (those of x/ethiq page by themselves and are modelled);
    - [time.Time] below a second in x/vesting (the code truncates with [Unix]);
    - the aliasing of multi-store snapshots: the StateDB keeps a snapshot as a value, so that a precompile cannot write
      to one that it has taken, and the error of a snapshot that is missing does not arise;
    - the caches of jump destinations of x/evm/core (their results are computed anew);
    - the tracer and the bodies of the native contracts of x/evm/core (cryptography), the tracing queries of
      x/evm, the SDK's own ante decorators, EIP-712 signatures, the precompiled contracts
      over other modules of the SDK and of ibc-go (distribution, bank, ics20), ABI encoding, the
      JSON-RPC server, the wallets, the application wiring and generated code. *)

From Stdlib Require Import Ascii.
From stdpp Require Import pretty.
From Stdlib Require Export ZArith Lia.
From stdpp Require Export prelude list gmap strings sorting numbers.

Declare Scope haqq_scope.
Delimit Scope haqq_scope with haqq.

#[export] Set Warnings "-notation-overridden".

(** ** Machine integers

    Go's [int64] and [uint64] are kept as [Z] with their wrap-around. *)

Definition min_i64 : Z := (- 2 ^ 63)%Z.
Definition max_i64 : Z := (2 ^ 63 - 1)%Z.

Definition wrap_i64 (z : Z) : Z := ((z + 2 ^ 63) mod 2 ^ 64 - 2 ^ 63)%Z.
Definition wrap_u64 (z : Z) : Z := (z mod 2 ^ 64)%Z.

Definition i64_add (a b : Z) : Z := wrap_i64 (a + b).
Definition i64_sub (a b : Z) : Z := wrap_i64 (a - b).
Definition u64_add (a b : Z) : Z := wrap_u64 (a + b).
Definition u64_sub (a b : Z) : Z := wrap_u64 (a - b).

Notation "a +64 b" := (i64_add a b) (at level 50, left associativity) : haqq_scope.
Notation "a -64 b" := (i64_sub a b) (at level 50, left associativity) : haqq_scope.

(** Timestamps are [int64] seconds.  [time_ok] is the range in which neither a
    sum of a timestamp and a period nor a difference of two timestamps leaves
    [int64]; it holds for every date up to the year 146 138 511 000. *)
Definition time_ok (t : Z) : Prop := (- 2 ^ 62 <= t < 2 ^ 62)%Z.

Section widths.
Local Open Scope Z_scope.

Lemma wrap_i64_id z : min_i64 <= z <= max_i64 -> wrap_i64 z = z.
Proof.
  unfold min_i64, max_i64, wrap_i64. intros H.
  rewrite Z.mod_small; lia.
Qed.

Lemma wrap_i64_range z : min_i64 <= wrap_i64 z <= max_i64.
Proof.
  unfold min_i64, max_i64, wrap_i64.
  pose proof (Z.mod_pos_bound (z + 2 ^ 63) (2 ^ 64)). lia.
Qed.

Lemma wrap_u64_id z : 0 <= z < 2 ^ 64 -> wrap_u64 z = z.
Proof. intros. by apply Z.mod_small. Qed.

Lemma wrap_u64_range z : 0 <= wrap_u64 z < 2 ^ 64.
Proof. apply Z.mod_pos_bound. lia. Qed.

Lemma i64_add_ok a b : time_ok (a + b) -> i64_add a b = a + b.
Proof.
  unfold time_ok. intros. apply wrap_i64_id.
  unfold min_i64, max_i64. lia.
Qed.

Lemma i64_sub_ok a b : time_ok a -> time_ok b -> i64_sub a b = a - b.
Proof.
  unfold time_ok. intros. apply wrap_i64_id.
  unfold min_i64, max_i64. lia.
Qed.
End widths.

(** ** Results

    A Go function that returns an [error] or may panic returns a [res].  Only
    the sentinel of a wrapped error is kept, its message is not. *)

Inductive err :=
  (* cosmos-sdk errors the handlers wrap *)
  | ErrUnauthorized
  | ErrInvalidRequest
  | ErrNotSupported
  | ErrUnknownAddress
  | ErrInvalidAddress
  | ErrInvalidCoins
  | ErrNotFound
  | ErrLogic
  (* x/vesting/types/errors.go *)
  | ErrVestingLockup
  | ErrNotSubjectToClawback
  | ErrApplyShedule
  (* x/liquidvesting/types/errors.go *)
  | ErrModuleIsDisabled
  | ErrLiquidationFailed
  | ErrRedeemFailed
  | ErrDenomNotFound
  (* x/ucdao/types/errors.go *)
  | ErrInvalidKey
  | ErrModuleDisabled
  | ErrInvalidDenom
  | ErrNotEligible
  | ErrInvalidRatio
  | ErrInsufficientFunds
  (* x/ethiq/types/errors.go *)
  | ErrEthiqDisabled
  | ErrEthiqAddress
  | ErrInvalidAmount
  | ErrCalculationFailed
  | ErrInvalidFundsSource
  | ErrInvalidApplicationID
  | ErrUnlockCoins
  | ErrBurnCoins
  | ErrMintCoins
  | ErrExceedsMaxSupply
  | ErrExceedsPricingCurve
  (* errors.New / fmt.Errorf with a literal message *)
  | ErrText (msg : string)
  (* an error returned by a library *)
  | ErrExternal (msg : string).

#[export] Instance err_eq_dec : EqDecision err.
Proof. solve_decision. Defined.

Inductive res (A : Type) :=
  | Ok (a : A)
  | Err (e : err)
  | Panic.
Arguments Ok {A} a.
Arguments Err {A} e.
Arguments Panic {A}.

#[export] Instance res_ret : MRet res := fun A a => Ok a.
#[export] Instance res_bind : MBind res := fun A B f m =>
  match m with Ok a => f a | Err e => Err e | Panic => Panic end.

(** [err == nil] *)
Definition no_error {A} (r : res A) : bool := match r with Ok _ => true | _ => false end.

Lemma res_bind_ok {A B} (m : res A) (f : A -> res B) b :
  m ≫= f = Ok b -> exists a, m = Ok a /\ f a = Ok b.
Proof. destruct m; simpl; naive_solver. Qed.

(** Stateful Go code: the state is threaded and survives an error, since a
    caller may log the error and go on. *)
Definition M (W A : Type) : Type := W -> res A * W.

#[export] Instance M_ret {W} : MRet (M W) := fun A a w => (Ok a, w).
#[export] Instance M_bind {W} : MBind (M W) := fun A B f m w =>
  match m w with
  | (Ok a, w') => f a w'
  | (Err e, w') => (Err e, w')
  | (Panic, w') => (Panic, w')
  end.

Definition mraise {W A} (e : err) : M W A := fun w => (Err e, w).
Definition mlift {W A} (r : res A) : M W A := fun w => (r, w).
Definition mgets {W A} (f : W -> A) : M W A := fun w => (Ok (f w), w).
Definition mmodify {W} (f : W -> W) : M W unit := fun w => (Ok tt, f w).

(** An operation of another component that returns a value and the new state. *)
Definition mstate {W A} (f : W -> A * W) : M W A := fun w => let '(a, w') := f w in (Ok a, w').

(** [errorsmod.Wrapf(e, "...: %s", err)]: the error of [m] becomes [e]. *)
Definition mwrap {W A} (e : err) (m : M W A) : M W A := fun w =>
  match m w with (Err _, w') => (Err e, w') | r => r end.

Lemma mwrap_ok {W A} e (m : M W A) w a w' : mwrap e m w = (Ok a, w') -> m w = (Ok a, w').
Proof. unfold mwrap. by destruct (m w) as [[] ?]. Qed.

Lemma M_bind_ok {W A B} (m : M W A) (f : A -> M W B) w b w' :
  (m ≫= f) w = (Ok b, w') -> exists a w1, m w = (Ok a, w1) /\ f a w1 = (Ok b, w').
Proof.
  unfold mbind, M_bind. destruct (m w) as [[a|e|] w1]; naive_solver.
Qed.

(** ** Strings

    What the modules use of Go's [strings], [strconv] and [fmt]. *)

(** Drops a prefix when the string has it. *)
Fixpoint strip_prefix (p s : string) : option string :=
  match p, s with
  | EmptyString, _ => Some s
  | String a p', String b s' => if Ascii.eqb a b then strip_prefix p' s' else None
  | String _ _, EmptyString => None
  end.

(** [strings.TrimPrefix] *)
Definition TrimPrefix (s p : string) : string := default s (strip_prefix p s).

(** [fmt.Sprintf("%d", n)] of an unsigned number. *)
Definition format_u64 (n : Z) : string := pretty (Z.to_N n).

Lemma format_u64_inj m n : (0 <= m)%Z -> (0 <= n)%Z -> format_u64 m = format_u64 n -> m = n.
Proof.
  unfold format_u64. intros Hm Hn E. apply (inj (pretty (A:=N))) in E. lia.
Qed.

Definition digit_val (c : Ascii.ascii) : option Z :=
  let n := Z.of_N (Ascii.N_of_ascii c) in
  if ((48 <=? n) && (n <=? 57))%Z then Some (n - 48)%Z else None.

Fixpoint parse_digits (acc : Z) (s : string) : option Z :=
  match s with
  | EmptyString => Some acc
  | String c rest => d ← digit_val c; parse_digits (acc * 10 + d)%Z rest
  end.

(** [strconv.Atoi]: an optional sign, at least one digit, the range of [int]. *)
Definition Atoi (s : string) : option Z :=
  let '(sign, ds) :=
    match s with
    | String "-"%char rest => ((-1)%Z, rest)
    | String "+"%char rest => (1%Z, rest)
    | _ => (1%Z, s)
    end in
  match ds with
  | EmptyString => None
  | _ =>
      n ← parse_digits 0 ds;
      let z := (sign * n)%Z in
      if ((min_i64 <=? z) && (z <=? max_i64))%Z then Some z else None
  end.

Lemma strip_prefix_app p s : strip_prefix p (p +:+ s) = Some s.
Proof.
  induction p as [|a p IH]; simpl; [done|]. by rewrite Ascii.eqb_refl.
Qed.

Lemma digit_val_char x : (x < 10)%N -> digit_val (pretty_N_char x) = Some (Z.of_N x).
Proof.
  intros H. assert (x = 0 \/ x = 1 \/ x = 2 \/ x = 3 \/ x = 4 \/ x = 5 \/ x = 6 \/ x = 7
    \/ x = 8 \/ x = 9)%N as Hx by lia.
  by destruct Hx as [->|[->|[->|[->|[->|[->|[->|[->|[->| ->]]]]]]]]].
Qed.

Lemma parse_pretty_go x s : parse_digits 0 (pretty_N_go x s) = parse_digits (Z.of_N x) s.
Proof.
  revert s. induction (N.lt_wf_0 x) as [x _ IH]; intros s.
  destruct (decide (x = 0)%N) as [->|N]; [by rewrite pretty_N_go_0|].
  rewrite pretty_N_go_step by lia. rewrite IH by (apply N.div_lt; lia). simpl.
  rewrite digit_val_char by (apply N.mod_lt; done). simpl. f_equal.
  pose proof (N.div_mod x 10). lia.
Qed.

(** The first character of a printed number is a digit. *)
Lemma pretty_go_head x s c rest : (0 < x)%N -> pretty_N_go x s = String c rest ->
  exists d, (d < 10)%N /\ c = pretty_N_char d.
Proof.
  revert s. induction (N.lt_wf_0 x) as [x _ IH]; intros s Hx E.
  rewrite pretty_N_go_step in E by lia.
  destruct (decide (x / 10 = 0)%N) as [Z0|Nz].
  - rewrite Z0, pretty_N_go_0 in E. injection E as <- _. exists (x mod 10)%N.
    split; [apply N.mod_lt; done|done].
  - eapply IH; [|  |exact E]; [by apply N.div_lt|by apply N.neq_0_lt_0].
Qed.

Lemma pretty_go_nonempty x s : (0 < x)%N -> pretty_N_go x s <> EmptyString.
Proof.
  revert s. induction (N.lt_wf_0 x) as [x _ IH]; intros s Hx.
  rewrite pretty_N_go_step by lia.
  destruct (decide (x / 10 = 0)%N) as [->|Nz]; [by rewrite pretty_N_go_0|].
  apply IH; [by apply N.div_lt|by apply N.neq_0_lt_0].
Qed.

Lemma Atoi_format n : (0 <= n <= max_i64)%Z -> Atoi (format_u64 n) = Some n.
Proof.
  intros Hn. unfold format_u64, pretty, pretty_N.
  case_decide as Z0; [replace n with 0%Z by lia; done|].
  destruct (pretty_N_go (Z.to_N n) "") as [|c rest] eqn:E.
  { by apply pretty_go_nonempty in E; [|lia]. }
  destruct (pretty_go_head (Z.to_N n) _ _ _ ltac:(lia) E) as (d & Hd & Hc).
  assert (Es : Atoi (String c rest)
    = (m ← parse_digits 0 (String c rest);
       if (min_i64 <=? 1 * m)%Z && (1 * m <=? max_i64)%Z then Some (1 * m)%Z else None)).
  { assert (d = 0 \/ d = 1 \/ d = 2 \/ d = 3 \/ d = 4 \/ d = 5 \/ d = 6 \/ d = 7
      \/ d = 8 \/ d = 9)%N as Hx by lia. rewrite Hc.
    by destruct Hx as [->|[->|[->|[->|[->|[->|[->|[->|[->| ->]]]]]]]]]. }
  rewrite Es, <- E, parse_pretty_go. simpl (parse_digits _ EmptyString). simpl (Some _ ≫= _).
  rewrite Z2N.id, Z.mul_1_l by lia. unfold min_i64, max_i64 in *.
  by rewrite (proj2 (Z.leb_le _ _)), (proj2 (Z.leb_le _ _)) by lia.
Qed.

(** ** Automation *)

(** Case analysis on an inequality test of [Z]. *)
Ltac zcases :=
  repeat match goal with
  | |- context [(?a <? ?b)%Z] => destruct (Z.ltb_spec a b)
  | |- context [(?a <=? ?b)%Z] => destruct (Z.leb_spec a b)
  | |- context [(?a =? ?b)%Z] => destruct (Z.eqb_spec a b)
  | H : context [(?a <? ?b)%Z] |- _ => destruct (Z.ltb_spec a b)
  | H : context [(?a <=? ?b)%Z] |- _ => destruct (Z.leb_spec a b)
  | H : context [(?a =? ?b)%Z] |- _ => destruct (Z.eqb_spec a b)
  end.

(** Opens a run [H : prog w = (Ok b, w')] of the state monad or
    [H : prog = Ok b] of the result monad: every bind gives its
    intermediate results, every test of a guard its outcome. *)
Ltac run_step H :=
  match type of H with
  | (_ ≫= _) _ = (Ok _, _) =>
      let a := fresh "a" in let w := fresh "w" in let H1 := fresh "Hrun" in
      apply M_bind_ok in H; destruct H as (a & w & H1 & H); cbv beta in H
  | _ ≫= _ = Ok _ =>
      let a := fresh "a" in let H1 := fresh "Hrun" in
      apply res_bind_ok in H; destruct H as (a & H1 & H); cbv beta in H
  end.

(** Successful runs of the primitive operations. *)
Lemma mret_ok {W A} (a b : A) (w w' : W) : mret (M:=M W) a w = (Ok b, w') -> b = a /\ w' = w.
Proof. by intros [= -> ->]. Qed.

Lemma mlift_ok {W A} (r : res A) (w w' : W) a : mlift r w = (Ok a, w') -> r = Ok a /\ w' = w.
Proof. unfold mlift. by intros [= -> ->]. Qed.

Lemma mgets_ok {W A} (f : W -> A) (w w' : W) a : mgets f w = (Ok a, w') -> a = f w /\ w' = w.
Proof. unfold mgets. by intros [= -> ->]. Qed.

Lemma mmodify_ok {W} (f : W -> W) (w w' : W) u : mmodify f w = (Ok u, w') -> w' = f w.
Proof. unfold mmodify. by intros [= _ <-]. Qed.

Lemma mstate_ok {W A} (f : W -> A * W) (w w' : W) a : mstate f w = (Ok a, w') -> f w = (a, w').
Proof. unfold mstate. destruct (f w). by intros [= -> ->]. Qed.

Lemma mread_ok {W A} (f : W -> res A) e (w w' : W) a :
  mwrap e (fun w => (f w, w)) w = (Ok a, w') -> f w = Ok a /\ w' = w.
Proof. intros E. apply mwrap_ok in E. by injection E as -> ->. Qed.

(** Runs a successful handler in a hypothesis down to its calls. *)
Ltac mrun :=
  repeat match goal with
  | H : (_ ≫= _) _ = (Ok _, _) |- _ => run_step H
  | H : mret _ _ = (Ok _, _) |- _ => apply mret_ok in H; destruct H as [? ?]; subst
  | H : mlift _ _ = (Ok _, _) |- _ => apply mlift_ok in H; destruct H as [H ?]; subst
  | H : mgets _ _ = (Ok _, _) |- _ => apply mgets_ok in H; destruct H as [H ?]; subst
  | H : mmodify _ _ = (Ok _, _) |- _ => apply mmodify_ok in H; subst
  | H : mstate _ _ = (Ok _, _) |- _ => apply mstate_ok in H
  | H : mwrap _ (fun w => (_, w)) _ = (Ok _, _) |- _ =>
      apply mread_ok in H; destruct H as [H ?]; subst
  | H : mwrap _ _ _ = (Ok _, _) |- _ => apply mwrap_ok in H
  | H : mraise _ _ = (Ok _, _) |- _ => discriminate H
  | H : (Err _, _) = (Ok _, _) |- _ => discriminate H
  | H : (Panic, _) = (Ok _, _) |- _ => discriminate H
  | H : (match ?p with (x, y) => _ end) _ = (Ok _, _) |- _ =>
      let E := fresh "Epair" in destruct p eqn:E
  | H : (if ?b then _ else _) _ = (Ok _, _) |- _ =>
      let E := fresh "Eif" in destruct b eqn:E
  end.

Create HintDb coins.
Create HintDb sched.
Create HintDb world.
