(* ===== verification/Sdk.v ===== *)
(** * The cosmos-sdk value types the modules compute with

    [sdk.Coin], [sdk.Coins] and the vesting [Period] are plain Go structs and
    slices, so their data is written out.  Their methods are code of another
    package: they are the operations of the class [SdkOps], and the class
    [SdkLaws] states the documented behaviour the modules rely on.  The
    section [Reference] gives one implementation that satisfies the laws; it is
    used to evaluate the model on concrete inputs, never in a proof.

    [sdkmath.Int] amounts are mathematical integers ([Z]): the library's panic
    above 256 bits is outside the model. *)

From S2P Require Import Prelude.

Local Open Scope Z_scope.

Record coin := mkCoin { Denom : string; Amount : Z }.

#[export] Instance coin_eq_dec : EqDecision coin.
Proof. solve_decision. Defined.

(** [sdkvesting.Period]: a length in seconds and the coins released at its end. *)
Record Period := mkPeriod { Length : Z; PAmount : list coin }.

#[export] Instance period_eq_dec : EqDecision Period.
Proof. solve_decision. Defined.

(** The amount of a denomination in a slice of coins. *)
Fixpoint amt (cs : list coin) (d : string) : Z :=
  match cs with
  | [] => 0
  | c :: cs' => (if decide (Denom c = d) then Amount c else 0) + amt cs' d
  end.

(** Strict order of denominations. *)
Definition denom_lt (x y : coin) : Prop := strict String.le (Denom x) (Denom y).

(** A slice the coin arithmetic accepts: sorted by denomination, no
    denomination twice, no negative amount. *)
Definition operand (cs : list coin) : Prop :=
  StronglySorted denom_lt cs /\ Forall (fun c => 0 <= Amount c) cs.

(** A valid [sdk.Coins] moreover holds no zero amount. *)
Definition valid (cs : list coin) : Prop :=
  StronglySorted denom_lt cs /\ Forall (fun c => 0 < Amount c) cs.

(** Pointwise order of coins. *)
Definition coins_le (a b : list coin) : Prop := forall d, amt a d <= amt b d.

(** ** The library interface *)

Class SdkOps := {
  (** [Coins.AmountOf] *)
  AmountOf : list coin -> string -> Z;
  (** [Coins.Add(coins...)] *)
  coins_add : list coin -> list coin -> list coin;
  (** [Coins.Sub(coins...)], which panics on a negative result *)
  coins_sub : list coin -> list coin -> res (list coin);
  (** [Coins.SafeSub(coins...)], the flag tells a negative result *)
  SafeSub : list coin -> list coin -> list coin * bool;
  (** [Coins.Min] *)
  coins_min : list coin -> list coin -> list coin;
  (** [Coins.IsAllLTE] *)
  IsAllLTE : list coin -> list coin -> bool;
  (** [Coins.IsZero] *)
  IsZero : list coin -> bool;
  (** [Coins.IsValid] *)
  IsValid : list coin -> bool;
  (** [Coins.Find] *)
  Find : list coin -> string -> option coin;
  (** [sdk.NewCoin], which panics on a negative amount or a bad denomination *)
  NewCoin : string -> Z -> res coin;
  (** [sdk.NewCoins(coins...)], which drops zero coins, sorts and validates *)
  NewCoins : list coin -> res (list coin);
  (** [sdk.ValidateDenom(denom) == nil] *)
  ValidDenom : string -> bool;
  (** [Periods.TotalLength], an [int64] sum *)
  TotalLength : list Period -> Z;
  (** [Periods.TotalAmount] *)
  TotalAmount : list Period -> list coin
}.

Class SdkLaws `{SdkOps} : Prop := {
  amount_of_spec cs d : operand cs -> AmountOf cs d = amt cs d;
  add_spec a b : operand a -> operand b ->
    valid (coins_add a b) /\ forall d, amt (coins_add a b) d = amt a d + amt b d;
  sub_ok a b : operand a -> operand b -> coins_le b a ->
    exists c, coins_sub a b = Ok c /\ valid c /\ forall d, amt c d = amt a d - amt b d;
  sub_panic a b : operand a -> operand b -> ~ coins_le b a -> coins_sub a b = Panic;
  safe_sub_ok a b : operand a -> operand b -> coins_le b a ->
    exists c, SafeSub a b = (c, false) /\ valid c /\ forall d, amt c d = amt a d - amt b d;
  safe_sub_neg a b : operand a -> operand b -> ~ coins_le b a -> snd (SafeSub a b) = true;
  min_spec a b : valid a -> valid b ->
    valid (coins_min a b) /\ forall d, amt (coins_min a b) d = Z.min (amt a d) (amt b d);
  lte_spec a b : valid a -> valid b -> IsAllLTE a b = true <-> coins_le a b;
  is_zero_spec a : operand a -> IsZero a = true <-> forall d, amt a d = 0;
  is_valid_spec a : IsValid a = true -> valid a;
  is_valid_nil : IsValid [] = true;
  find_spec a d : valid a ->
    Find a d = if decide (amt a d = 0) then None else Some (mkCoin d (amt a d));
  new_coin_ok d x : ValidDenom d = true -> 0 <= x -> NewCoin d x = Ok (mkCoin d x);
  new_coin_neg d x : x < 0 -> NewCoin d x = Panic;
  new_coin_inv d x c : NewCoin d x = Ok c -> c = mkCoin d x /\ 0 <= x /\ ValidDenom d = true;
  new_coins_nil : NewCoins [] = Ok [];
  new_coins_one d x : ValidDenom d = true -> 0 <= x ->
    NewCoins [mkCoin d x] = Ok (if decide (x = 0) then [] else [mkCoin d x]);
  total_length_spec ps : TotalLength ps = foldl (fun acc p => i64_add acc (Length p)) 0 ps;
  total_amount_spec ps : Forall (fun p => operand (PAmount p)) ps ->
    valid (TotalAmount ps) /\
    forall d, amt (TotalAmount ps) d = foldr (fun p acc => amt (PAmount p) d + acc) 0 ps
}.

(** ** Facts on coins that need no library *)

Lemma valid_operand cs : valid cs -> operand cs.
Proof. intros [? H]. split; [done|]. eapply Forall_impl; [|exact H]. simpl. lia. Qed.

Lemma valid_nil : valid [].
Proof. split; constructor. Qed.

Lemma operand_single d x : 0 <= x -> operand [mkCoin d x].
Proof. intros. split; repeat constructor. done. Qed.

Lemma valid_single d x : 0 < x -> valid [mkCoin d x].
Proof. intros. split; repeat constructor. done. Qed.

Lemma amt_nonneg cs d : operand cs -> 0 <= amt cs d.
Proof.
  intros [_ H]. induction H; simpl; [lia|]. case_decide; lia.
Qed.

Lemma amt_single d x d' : amt [mkCoin d x] d' = if decide (d = d') then x else 0.
Proof. simpl. case_decide; lia. Qed.

Lemma amt_absent c cs : Forall (denom_lt c) cs -> amt cs (Denom c) = 0.
Proof.
  induction 1 as [|x cs [_ Hx] _ IH]; simpl; [done|].
  rewrite decide_False; [lia|]. intros E. apply Hx. by rewrite E.
Qed.

Lemma amt_ne_elem cs d : amt cs d <> 0 -> exists c, c ∈ cs /\ Denom c = d.
Proof.
  induction cs as [|z cs IH]; simpl; [done|]. intros H.
  destruct (decide (Denom z = d)) as [E|E].
  - exists z. split; [apply list_elem_of_here|done].
  - destruct IH as (c & ? & ?); [lia|]. exists c. split; [by apply list_elem_of_further|done].
Qed.

Lemma amt_head x a : Forall (denom_lt x) a -> amt (x :: a) (Denom x) = Amount x.
Proof. intros Ha. simpl. rewrite decide_True, amt_absent by done. lia. Qed.

Lemma amt_head_ne x a y : Denom x <> Denom y -> amt (x :: a) (Denom y) = amt a (Denom y).
Proof. intros N. simpl. by rewrite decide_False by congruence. Qed.

(** The heads of two slices with the same nonzero amounts coincide. *)
Lemma head_unique x a y b :
  Forall (denom_lt x) a -> Forall (denom_lt y) b -> Amount x <> 0 -> Amount y <> 0 ->
  (forall d, amt (x :: a) d = amt (y :: b) d) -> x = y.
Proof.
  intros Ha Hb Px Py E.
  assert (Exy : Denom x = Denom y).
  { destruct (decide (Denom x = Denom y)) as [|N]; [done|]. exfalso.
    pose proof (E (Denom x)) as E1. pose proof (E (Denom y)) as E2.
    rewrite (amt_head x a Ha), amt_head_ne in E1 by congruence.
    rewrite (amt_head y b Hb), amt_head_ne in E2 by congruence.
    destruct (amt_ne_elem b (Denom x)) as (y' & Hy' & Ey); [lia|].
    destruct (amt_ne_elem a (Denom y)) as (x' & Hx' & Ex); [lia|].
    rewrite list.Forall_forall in Ha, Hb.
    destruct (Ha _ Hx') as [L1 _], (Hb _ Hy') as [L2 _].
    apply N. apply (anti_symm String.le); [by rewrite <- Ex|by rewrite <- Ey]. }
  specialize (E (Denom x)). rewrite (amt_head x a Ha), Exy, (amt_head y b Hb) in E.
  destruct x, y; simpl in *; congruence.
Qed.

(** Two valid slices with the same amounts are the same slice. *)
Lemma valid_ext a b : valid a -> valid b -> (forall d, amt a d = amt b d) -> a = b.
Proof.
  intros [Sa Pa] [Sb Pb]. revert b Sb Pb.
  induction Sa as [|x a Sa IH Ha]; intros b Sb Pb E; destruct Sb as [|y b Sb Hb].
  - done.
  - exfalso. specialize (E (Denom y)). rewrite amt_head in E by done.
    apply list.Forall_cons in Pb as [? _]. simpl in E. lia.
  - exfalso. specialize (E (Denom x)). rewrite amt_head in E by done.
    apply list.Forall_cons in Pa as [? _]. simpl in E. lia.
  - apply list.Forall_cons in Pa as [Px Pa], Pb as [Py Pb].
    assert (x = y) as <- by (apply (head_unique x a y b); auto; lia).
    f_equal. apply IH; [done..|]. intros d. specialize (E d). simpl in E. lia.
Qed.

(** The pointwise order is decidable: only the denominations of the smaller
    side matter. *)
Definition coins_leb (a b : list coin) : bool :=
  forallb (fun c => amt a (Denom c) <=? amt b (Denom c)) a.

Lemma coins_leb_spec a b : operand b -> coins_leb a b = true <-> coins_le a b.
Proof.
  intros Hb. unfold coins_leb. rewrite forallb_forall. split.
  - intros H d. destruct (decide (amt a d = 0)) as [->|N]; [by apply amt_nonneg|].
    destruct (amt_ne_elem a d N) as (c & Hc & <-).
    apply Z.leb_le, H. by apply list_elem_of_In.
  - intros H c _. apply Z.leb_le, H.
Qed.

Lemma coins_le_dec a b : operand b -> {coins_le a b} + {~ coins_le a b}.
Proof.
  intros Hb. destruct (coins_leb a b) eqn:E.
  - left. by apply coins_leb_spec.
  - right. intros H. apply coins_leb_spec in H; [congruence|done].
Defined.

#[export] Hint Resolve valid_operand valid_nil : coins.

(** ** Derived laws in the form the proofs use *)

Section laws.
Context `{SdkLaws}.

Lemma add_valid a b : operand a -> operand b -> valid (coins_add a b).
Proof. intros. by apply add_spec. Qed.

Lemma amt_add a b d : operand a -> operand b -> amt (coins_add a b) d = amt a d + amt b d.
Proof. intros. by apply add_spec. Qed.

Lemma min_valid a b : valid a -> valid b -> valid (coins_min a b).
Proof. intros. by apply min_spec. Qed.

Lemma amt_min a b d : valid a -> valid b -> amt (coins_min a b) d = Z.min (amt a d) (amt b d).
Proof. intros. by apply min_spec. Qed.

Lemma valid_nonneg a d : valid a -> 0 <= amt a d.
Proof. auto using amt_nonneg, valid_operand. Qed.

Lemma add_nil_l a : valid a -> coins_add [] a = a.
Proof.
  intros. apply valid_ext; auto using add_valid with coins.
  intros. rewrite amt_add by auto with coins. done.
Qed.

Lemma total_valid ps : Forall (fun p => operand (PAmount p)) ps -> valid (TotalAmount ps).
Proof. intros. by apply total_amount_spec. Qed.

(** A run of [Coins.Sub] that does not panic. *)
Lemma sub_inv a b c : operand a -> operand b -> coins_sub a b = Ok c ->
  valid c /\ coins_le b a /\ forall d, amt c d = amt a d - amt b d.
Proof.
  intros Ha Hb E. destruct (coins_le_dec b a Ha) as [L|L].
  - destruct (sub_ok a b Ha Hb L) as (c' & E' & ? & ?). rewrite E' in E. injection E as <-. auto.
  - rewrite sub_panic in E by done. done.
Qed.

Lemma sub_no_err a b e : operand a -> operand b -> coins_sub a b <> Err e.
Proof.
  intros Ha Hb E. destruct (coins_le_dec b a Ha) as [L|L].
  - destruct (sub_ok a b Ha Hb L) as (c' & E' & ? & ?). congruence.
  - rewrite sub_panic in E by done. done.
Qed.
End laws.

#[export] Hint Resolve add_valid min_valid total_valid : coins.

(** ** A reference implementation *)

Section Reference.

(** Puts a nonzero coin in front. *)
Definition ref_put (d : string) (x : Z) (cs : list coin) : list coin :=
  if decide (x = 0) then cs else mkCoin d x :: cs.

(** Adds [x] of [d] to a sorted slice. *)
Fixpoint ref_ins (d : string) (x : Z) (cs : list coin) : list coin :=
  match cs with
  | [] => ref_put d x []
  | c :: cs' =>
      if decide (d = Denom c) then ref_put d (x + Amount c) cs'
      else if decide (String.le d (Denom c)) then ref_put d x (c :: cs')
      else c :: ref_ins d x cs'
  end.

Definition ref_norm (cs : list coin) : list coin :=
  foldr (fun c acc => ref_ins (Denom c) (Amount c) acc) [] cs.

Definition ref_neg (cs : list coin) : list coin :=
  map (fun c => mkCoin (Denom c) (- Amount c)) cs.

Definition ref_posb (cs : list coin) : bool := forallb (fun c => 0 <? Amount c) cs.

Fixpoint ref_sortedb (d : string) (cs : list coin) : bool :=
  match cs with
  | [] => true
  | c :: cs' => bool_decide (String.le d (Denom c)) && bool_decide (d <> Denom c)
                && ref_sortedb (Denom c) cs'
  end.

Definition ref_validb (cs : list coin) : bool :=
  match cs with
  | [] => true
  | c :: cs' => ref_sortedb (Denom c) cs' && ref_posb cs
  end.

Definition ref_min (a b : list coin) : list coin :=
  ref_norm (map (fun c => mkCoin (Denom c) (Z.min (Amount c) (amt b (Denom c)))) a).

Definition ref_valid_denom (d : string) : bool := negb (String.eqb d EmptyString).

#[local] Instance RefOps : SdkOps := {
  AmountOf := amt;
  coins_add a b := ref_norm (a ++ b);
  coins_sub a b := let c := ref_norm (a ++ ref_neg b) in if ref_posb c then Ok c else Panic;
  SafeSub a b := let c := ref_norm (a ++ ref_neg b) in (c, negb (ref_posb c));
  coins_min := ref_min;
  IsAllLTE := coins_leb;
  IsZero a := forallb (fun c => Amount c =? 0) a;
  IsValid := ref_validb;
  Find a d := if decide (amt a d = 0) then None else Some (mkCoin d (amt a d));
  NewCoin d x := if (x <? 0) || negb (ref_valid_denom d) then Panic else Ok (mkCoin d x);
  NewCoins cs :=
    if forallb (fun c => (0 <=? Amount c) && ref_valid_denom (Denom c)) cs
    then Ok (ref_norm cs) else Panic;
  ValidDenom := ref_valid_denom;
  TotalLength ps := foldl (fun acc p => i64_add acc (Length p)) 0 ps;
  TotalAmount ps := ref_norm (concat (map PAmount ps))
}.

(** Sorted with nonzero amounts: what [ref_norm] always returns. *)
Definition ref_inv (cs : list coin) : Prop :=
  StronglySorted denom_lt cs /\ Forall (fun c => Amount c <> 0) cs.

Lemma amt_put d x cs d' : amt (ref_put d x cs) d' = (if decide (d = d') then x else 0) + amt cs d'.
Proof. unfold ref_put. case_decide; simpl; [subst; by case_decide|done]. Qed.

Lemma put_inv d x cs :
  ref_inv cs -> Forall (denom_lt (mkCoin d x)) cs -> ref_inv (ref_put d x cs).
Proof.
  intros [S P] L. unfold ref_put. case_decide; [done|]. split; by constructor.
Qed.

Lemma amt_ins d x cs d' : amt (ref_ins d x cs) d' = (if decide (d = d') then x else 0) + amt cs d'.
Proof.
  induction cs as [|c cs IH]; simpl; [apply amt_put|].
  repeat case_decide; rewrite ?amt_put; simpl; subst; repeat case_decide; try lia; try congruence.
Qed.

Lemma ins_lower z d x cs :
  denom_lt z (mkCoin d x) -> Forall (denom_lt z) cs -> Forall (denom_lt z) (ref_ins d x cs).
Proof.
  intros Hz. induction 1 as [|c cs Hc Hcs IH]; simpl; unfold ref_put;
    repeat case_decide; subst; auto using list.Forall_cons_2.
Qed.

Lemma ins_inv d x cs : ref_inv cs -> ref_inv (ref_ins d x cs).
Proof.
  intros [S P]. induction S as [|c cs S IH Hc]; simpl.
  - apply put_inv; repeat constructor.
  - apply list.Forall_cons in P as [Pc P]. repeat case_decide; subst.
    + apply put_inv; [by split|]. eapply Forall_impl; [|exact Hc]. done.
    + apply put_inv; [by split; constructor|].
      assert (L : denom_lt (mkCoin d x) c) by (split; [done|]; intros ?; apply H; by apply (anti_symm String.le)).
      constructor; [done|]. eapply Forall_impl; [|exact Hc].
      intros y Hy. unfold denom_lt in *. by etrans.
    + destruct (IH P) as [S' P']. split; [|by constructor]. constructor; [done|].
      apply ins_lower; [|done]. split; simpl.
      * destruct (total String.le d (Denom c)); [done|done].
      * done.
Qed.

Lemma amt_app a b d : amt (a ++ b) d = amt a d + amt b d.
Proof. induction a; simpl; lia. Qed.

Lemma amt_norm cs d : amt (ref_norm cs) d = amt cs d.
Proof. induction cs; simpl; [done|]. rewrite amt_ins. lia. Qed.

Lemma norm_inv cs : ref_inv (ref_norm cs).
Proof. induction cs; simpl; [split; constructor|]. by apply ins_inv. Qed.

Lemma amt_neg cs d : amt (ref_neg cs) d = - amt cs d.
Proof. induction cs; simpl; [done|]. case_decide; lia. Qed.

(** In a sorted slice an element's amount is the amount of its denomination. *)
Lemma amt_elem cs c : StronglySorted denom_lt cs -> c ∈ cs -> amt cs (Denom c) = Amount c.
Proof.
  induction 1 as [|x cs S IH Hx]; intros Hc; [by apply not_elem_of_nil in Hc|].
  apply elem_of_cons in Hc as [->|Hc]; [by apply amt_head|].
  rewrite amt_head_ne; [auto|]. rewrite list.Forall_forall in Hx.
  destruct (Hx _ Hc) as [_ N]. intros E. apply N. by rewrite E.
Qed.

Lemma inv_valid cs : ref_inv cs -> (forall d, 0 <= amt cs d) -> valid cs.
Proof.
  intros [S P] N. split; [done|]. rewrite list.Forall_forall in P |- *. intros c Hc.
  specialize (P c Hc). specialize (N (Denom c)). rewrite amt_elem in N by done. lia.
Qed.

Lemma norm_valid cs : (forall d, 0 <= amt cs d) -> valid (ref_norm cs).
Proof. intros. apply inv_valid; [apply norm_inv|]. intros. by rewrite amt_norm. Qed.

Lemma posb_spec cs : ref_posb cs = true <-> Forall (fun c => 0 < Amount c) cs.
Proof.
  unfold ref_posb. rewrite forallb_forall, list.Forall_forall.
  split; intros H c Hc; [apply Z.ltb_lt|apply Z.ltb_lt]; apply H; by apply list_elem_of_In.
Qed.

Lemma sub_norm a b : operand a -> operand b ->
  ref_posb (ref_norm (a ++ ref_neg b)) = true <-> coins_le b a.
Proof.
  intros Ha Hb. rewrite posb_spec. split.
  - intros P d.
    assert (V : valid (ref_norm (a ++ ref_neg b))) by (split; [apply norm_inv|done]).
    apply valid_operand in V. apply (amt_nonneg _ d) in V.
    rewrite amt_norm, amt_app, amt_neg in V. lia.
  - intros L. apply norm_valid. intros d. rewrite amt_app, amt_neg. specialize (L d). lia.
Qed.

Lemma sortedb_spec cs c : ref_sortedb (Denom c) cs = true -> StronglySorted denom_lt (c :: cs).
Proof.
  revert c. induction cs as [|x cs IH]; intros c Hb; simpl in Hb; [repeat constructor|].
  apply andb_true_iff in Hb as [Hb Hs]. apply andb_true_iff in Hb as [H1 H2].
  apply bool_decide_eq_true in H1, H2.
  assert (L : denom_lt c x) by (split; [done|]; intros ?; apply H2; by apply (anti_symm String.le)).
  specialize (IH x Hs). constructor; [done|]. constructor; [done|].
  inversion IH; subst. eapply Forall_impl; [|eassumption]. intros y Hy. unfold denom_lt in *. by etrans.
Qed.

Lemma ref_amt_min a b d : operand a -> operand b ->
  amt (ref_min a b) d = Z.min (amt a d) (amt b d).
Proof.
  intros [S P] Hb. unfold ref_min. rewrite amt_norm.
  induction S as [|c a S IH Hc]; simpl; [pose proof (amt_nonneg b d Hb); lia|].
  apply list.Forall_cons in P as [P1 P2]. rewrite IH by done.
  case_decide as E; [|done]. subst. rewrite (amt_absent c a Hc).
  pose proof (amt_nonneg b (Denom c) Hb). lia.
Qed.

Lemma norm_single d x : ref_norm [mkCoin d x] = if decide (x = 0) then [] else [mkCoin d x].
Proof. done. Qed.

Lemma amt_concat ps d :
  amt (concat (map PAmount ps)) d = foldr (fun p acc => amt (PAmount p) d + acc) 0 ps.
Proof. induction ps; simpl; [done|]. rewrite amt_app. lia. Qed.

Lemma ref_valid cs : ref_validb cs = true -> valid cs.
Proof.
  destruct cs as [|c a]; intros V; [apply valid_nil|]. unfold ref_validb in V.
  apply andb_true_iff in V as [V1 V2]. split; [by apply sortedb_spec|by apply posb_spec].
Qed.

Lemma RefLaws : SdkLaws.
Proof.
  constructor; simpl.
  - done.
  - intros a b Ha Hb. split.
    + apply norm_valid. intros d. rewrite amt_app.
      pose proof (amt_nonneg a d Ha). pose proof (amt_nonneg b d Hb). lia.
    + intros d. by rewrite amt_norm, amt_app.
  - intros a b Ha Hb L. rewrite (proj2 (sub_norm a b Ha Hb) L). eexists. split; [done|].
    split; [split; [apply norm_inv|by apply posb_spec, sub_norm]|].
    intros. rewrite amt_norm, amt_app, amt_neg. lia.
  - intros a b Ha Hb L. rewrite <- (sub_norm a b Ha Hb) in L. by destruct (ref_posb _).
  - intros a b Ha Hb L. rewrite (proj2 (sub_norm a b Ha Hb) L). eexists. split; [done|].
    split; [split; [apply norm_inv|by apply posb_spec, sub_norm]|].
    intros. rewrite amt_norm, amt_app, amt_neg. lia.
  - intros a b Ha Hb L. rewrite <- (sub_norm a b Ha Hb) in L. by destruct (ref_posb _).
  - intros a b Ha%valid_operand Hb%valid_operand. split; [|intros; by apply ref_amt_min].
    apply inv_valid; [apply norm_inv|]. intros d.
    change (0 <= amt (ref_min a b) d). rewrite ref_amt_min by done.
    pose proof (amt_nonneg a d Ha). pose proof (amt_nonneg b d Hb). lia.
  - intros a b _ Hb. apply coins_leb_spec. by apply valid_operand.
  - intros a [S _]. rewrite forallb_forall. split.
    + intros Z0 d. destruct (decide (amt a d = 0)) as [|N]; [done|].
      destruct (amt_ne_elem a d N) as (c & Hc & <-). rewrite amt_elem by done.
      apply Z.eqb_eq, Z0. by apply list_elem_of_In.
    + intros Z0 c Hc. apply list_elem_of_In in Hc. apply Z.eqb_eq.
      rewrite <- (amt_elem a c S Hc). apply Z0.
  - apply ref_valid.
  - done.
  - done.
  - intros d x Hd Hx. rewrite Hd. zcases; [lia|done].
  - intros d x Hx. zcases; [done|lia].
  - intros d x c. zcases; [done|]. destruct (ref_valid_denom d); simpl; [|done].
    intros [= <-]. by split_and!.
  - done.
  - intros d x Hd Hx. rewrite Hd. zcases; [done|lia].
  - done.
  - intros ps Hps. split.
    + apply norm_valid. intros d. rewrite amt_concat. induction Hps; simpl; [lia|].
      pose proof (amt_nonneg (PAmount x) d H). lia.
    + intros d. by rewrite amt_norm, amt_concat.
Qed.
End Reference.
