(* ===== verification/Schedule.v ===== *)
(** * Vesting schedules: x/vesting/types/schedule.go and utils.go

    A schedule is a start time and a list of relative periods.  The operations
    are the source's, on [int64] times with wrap-around; what they compute is
    stated against [steps], the amount released by an absolute time. *)

From S2P Require Import Prelude.
From S2P Require Import Sdk.

Local Open Scope Z_scope.
Local Open Scope haqq_scope.

(** [Max64] and [Min64] *)
Definition Max64 (i j : Z) : Z := if j <? i then i else j.
Definition Min64 (i j : Z) : Z := if i <? j then i else j.

Section operations.
Context `{SdkOps}.

(** [CoinEq] *)
Definition CoinEq (a b : list coin) : bool := IsAllLTE a b && IsAllLTE b a.

(** The loop of [ReadSchedule]; the [break] ends it. *)
Fixpoint read_loop (readTime elapsedTime : Z) (coins : list coin) (periods : list Period)
    : list coin :=
  match periods with
  | [] => coins
  | period :: rest =>
      if readTime <? elapsedTime +64 Length period then coins
      else read_loop readTime (elapsedTime +64 Length period)
             (coins_add coins (PAmount period)) rest
  end.

Definition ReadSchedule (startTime endTime : Z) (periods : list Period)
    (totalCoins : list coin) (readTime : Z) : list coin :=
  if readTime <=? startTime then []
  else if endTime <=? readTime then totalCoins
  else read_loop readTime startTime [] periods.

(** The loop of [ReadPastPeriodCount]. *)
Fixpoint count_loop (readTime elapsedTime : Z) (passed : nat) (periods : list Period) : nat :=
  match periods with
  | [] => passed
  | period :: rest =>
      if readTime <? elapsedTime +64 Length period then passed
      else count_loop readTime (elapsedTime +64 Length period) (S passed) rest
  end.

Definition ReadPastPeriodCount (startTime endTime : Z) (periods : list Period)
    (readTime : Z) : nat :=
  if readTime <=? startTime then 0%nat
  else if endTime <=? readTime then length periods
  else count_loop readTime startTime 0 periods.

(** ** DisjunctPeriods *)

(** The variables the closures of [DisjunctPeriods] write: the end time of the
    last event and the resulting periods. *)
Record disj_st := mkDisj { m_end : Z; m_periods : list Period }.

(** [emit] *)
Definition emit (nextTime : Z) (amount : list coin) (m : disj_st) : disj_st :=
  mkDisj nextTime (m_periods m ++ [mkPeriod (nextTime -64 m_end m) amount]).

(** A loop that consumes what is left of one schedule. *)
Fixpoint consume_rest (time : Z) (periods : list Period) (m : disj_st) : disj_st :=
  match periods with
  | [] => m
  | p :: rest =>
      let next := time +64 Length p in
      consume_rest next rest (emit next (PAmount p) m)
  end.

(** The main loop: the next event of A, of B, or of both is consumed. *)
Fixpoint disjunct_loop (timeA : Z) (psA : list Period)
    : Z -> list Period -> disj_st -> disj_st :=
  match psA with
  | [] => fun timeB psB m => consume_rest timeB psB m
  | pA :: restA =>
      fix loopB (timeB : Z) (psB : list Period) (m : disj_st) {struct psB} : disj_st :=
        match psB with
        | [] => consume_rest timeA (pA :: restA) m
        | pB :: restB =>
            let nextA := timeA +64 Length pA in
            let nextB := timeB +64 Length pB in
            if nextA <? nextB then
              disjunct_loop nextA restA timeB psB (emit nextA (PAmount pA) m)
            else if nextB <? nextA then
              loopB nextB restB (emit nextB (PAmount pB) m)
            else
              disjunct_loop nextA restA nextA restB
                (emit nextA (coins_add (PAmount pA) (PAmount pB)) m)
        end
  end.

Definition DisjunctPeriods (startA startB : Z) (psA psB : list Period)
    : Z * Z * list Period :=
  let startTime := Min64 startA startB in
  let m := disjunct_loop startA psA startB psB (mkDisj startTime []) in
  (startTime, m_end m, m_periods m).

(** ** ConjunctPeriods *)

(** The variables the closures of [ConjunctPeriods] write. *)
Record conj_st := mkConj {
  resultingAmount : list coin;
  totalAmountA : list coin;
  totalAmountB : list coin;
  lastTime : Z;
  conjPeriods : list Period
}.

(** The common tail of [consumeA], [consumeB] and [consumeBoth]: with the
    totals updated, emit what the minimum has gained. *)
Definition conj_emit (endTime : Z) (totA totB : list coin) (c : conj_st) : res conj_st :=
  let minAmount := coins_min totA totB in
  if IsAllLTE (resultingAmount c) minAmount then
    diff ← coins_sub minAmount (resultingAmount c);
    if IsZero diff then
      Ok (mkConj (resultingAmount c) totA totB (lastTime c) (conjPeriods c))
    else
      Ok (mkConj (coins_add (resultingAmount c) diff) totA totB endTime
            (conjPeriods c ++ [mkPeriod (endTime -64 lastTime c) diff]))
  else Ok (mkConj (resultingAmount c) totA totB (lastTime c) (conjPeriods c)).

Definition conj_consumeA (endTime : Z) (p : Period) (c : conj_st) : res conj_st :=
  conj_emit endTime (coins_add (totalAmountA c) (PAmount p)) (totalAmountB c) c.

Definition conj_consumeB (endTime : Z) (p : Period) (c : conj_st) : res conj_st :=
  conj_emit endTime (totalAmountA c) (coins_add (totalAmountB c) (PAmount p)) c.

Definition conj_consumeBoth (endTime : Z) (pA pB : Period) (c : conj_st) : res conj_st :=
  conj_emit endTime (coins_add (totalAmountA c) (PAmount pA))
    (coins_add (totalAmountB c) (PAmount pB)) c.

Fixpoint conj_rest (consume : Z -> Period -> conj_st -> res conj_st) (time : Z)
    (periods : list Period) (c : conj_st) : res conj_st :=
  match periods with
  | [] => Ok c
  | p :: rest =>
      let next := time +64 Length p in
      c' ← consume next p c;
      conj_rest consume next rest c'
  end.

Fixpoint conj_loop (timeA : Z) (psA : list Period)
    : Z -> list Period -> conj_st -> res conj_st :=
  match psA with
  | [] => fun timeB psB c => conj_rest conj_consumeB timeB psB c
  | pA :: restA =>
      fix loopB (timeB : Z) (psB : list Period) (c : conj_st) {struct psB} : res conj_st :=
        match psB with
        | [] => conj_rest conj_consumeA timeA (pA :: restA) c
        | pB :: restB =>
            let nextA := timeA +64 Length pA in
            let nextB := timeB +64 Length pB in
            if nextA <? nextB then
              c' ← conj_consumeA nextA pA c;
              conj_loop nextA restA timeB psB c'
            else if nextB <? nextA then
              c' ← conj_consumeB nextB pB c;
              loopB nextB restB c'
            else
              c' ← conj_consumeBoth nextA pA pB c;
              conj_loop nextA restA nextA restB c'
        end
  end.

Definition ConjunctPeriods (startA startB : Z) (psA psB : list Period)
    : res (Z * Z * list Period) :=
  let startTime := Min64 startA startB in
  c ← conj_loop startA psA startB psB (mkConj [] [] [] startTime []);
  Ok (startTime, lastTime c, conjPeriods c).

(** ** AlignSchedules

    The source lengthens the first period of both slices in place; the model
    returns the two slices after the update. *)
Definition shift_first (delta : Z) (ps : list Period) : list Period :=
  match ps with
  | [] => []
  | p :: rest => mkPeriod (Length p +64 delta) (PAmount p) :: rest
  end.

Definition AlignSchedules (startA startB : Z) (psA psB : list Period)
    : Z * Z * list Period * list Period :=
  let startTime := Min64 startA startB in
  let psA' := shift_first (startA -64 startTime) psA in
  let psB' := shift_first (startB -64 startTime) psB in
  let endA := startTime +64 TotalLength psA' in
  let endB := startTime +64 TotalLength psB' in
  (startTime, Max64 endA endB, psA', psB').

End operations.

(** ** What a schedule releases *)

(** The amount of [d] released by the absolute time [t]. *)
Fixpoint steps (start : Z) (ps : list Period) (t : Z) (d : string) : Z :=
  match ps with
  | [] => 0
  | p :: rest =>
      (if start + Length p <=? t then amt (PAmount p) d else 0)
      + steps (start + Length p) rest t d
  end.

(** The time of the last event, and the amount of all events. *)
Fixpoint sched_end (start : Z) (ps : list Period) : Z :=
  match ps with
  | [] => start
  | p :: rest => sched_end (start + Length p) rest
  end.

Fixpoint sched_total (ps : list Period) (d : string) : Z :=
  match ps with
  | [] => 0
  | p :: rest => amt (PAmount p) d + sched_total rest d
  end.

(** A well-formed schedule: no negative length, valid amounts, and every event
    at a time the [int64] arithmetic can handle. *)
Fixpoint sched_ok (start : Z) (ps : list Period) : Prop :=
  time_ok start /\
  match ps with
  | [] => True
  | p :: rest => 0 <= Length p /\ valid (PAmount p) /\ sched_ok (start + Length p) rest
  end.

Lemma sched_ok_time start ps : sched_ok start ps -> time_ok start.
Proof. destruct ps; by intros [? _]. Qed.

Lemma sched_ok_cons start p ps :
  sched_ok start (p :: ps) ->
  time_ok start /\ 0 <= Length p /\ valid (PAmount p) /\ sched_ok (start + Length p) ps /\
  start +64 Length p = start + Length p.
Proof.
  simpl. intros (? & ? & ? & Hok). split_and!; try done.
  apply i64_add_ok. by apply sched_ok_time in Hok.
Qed.

Lemma sched_end_ge start ps : sched_ok start ps -> start <= sched_end start ps.
Proof.
  revert start. induction ps as [|p ps IH]; intros start Hok; simpl; [lia|].
  apply sched_ok_cons in Hok as (? & ? & ? & Hok & _). apply IH in Hok. lia.
Qed.

Lemma sched_ok_end start ps : sched_ok start ps -> time_ok (sched_end start ps).
Proof.
  revert start. induction ps as [|p ps IH]; intros start Hok; simpl.
  - by apply sched_ok_time in Hok.
  - apply IH. by apply sched_ok_cons in Hok as (? & ? & ? & ? & _).
Qed.

Lemma steps_nonneg start ps t d : sched_ok start ps -> 0 <= steps start ps t d.
Proof.
  revert start. induction ps as [|p ps IH]; intros start Hok; simpl; [lia|].
  apply sched_ok_cons in Hok as (_ & _ & Hv & Hok & _). apply IH in Hok.
  pose proof (valid_nonneg _ d Hv). zcases; lia.
Qed.

Lemma sched_total_nonneg start ps d : sched_ok start ps -> 0 <= sched_total ps d.
Proof.
  revert start. induction ps as [|p ps IH]; intros start Hok; simpl; [lia|].
  apply sched_ok_cons in Hok as (_ & _ & Hv & Hok & _). apply IH in Hok.
  pose proof (valid_nonneg _ d Hv). lia.
Qed.

(** Nothing is released before the first event. *)
Lemma steps_early start ps t d : sched_ok start ps ->
  (match ps with [] => True | p :: _ => t < start + Length p end) -> steps start ps t d = 0.
Proof.
  revert start. induction ps as [|p ps IH]; intros start Hok Ht; simpl; [done|].
  apply sched_ok_cons in Hok as (_ & _ & _ & Hok & _).
  rewrite IH; [zcases; lia|done|]. destruct ps; [done|].
  apply sched_ok_cons in Hok as (_ & ? & _). lia.
Qed.

Lemma steps_before start ps t d : sched_ok start ps -> t < start -> steps start ps t d = 0.
Proof.
  intros Hok Ht. apply steps_early; [done|]. destruct ps; [done|].
  apply sched_ok_cons in Hok as (_ & ? & _). lia.
Qed.

(** Everything is released from the last event on. *)
Lemma steps_late start ps t d :
  sched_ok start ps -> sched_end start ps <= t -> steps start ps t d = sched_total ps d.
Proof.
  revert start. induction ps as [|p ps IH]; intros start Hok Ht; simpl in *; [done|].
  apply sched_ok_cons in Hok as (_ & ? & _ & Hok & _).
  pose proof (sched_end_ge _ _ Hok). rewrite IH by done. zcases; lia.
Qed.

Lemma steps_mono start ps t t' d :
  sched_ok start ps -> t <= t' -> steps start ps t d <= steps start ps t' d.
Proof.
  revert start. induction ps as [|p ps IH]; intros start Hok Ht; simpl; [lia|].
  apply sched_ok_cons in Hok as (_ & _ & Hv & Hok & _). apply IH in Hok; [|done].
  pose proof (valid_nonneg _ d Hv). zcases; lia.
Qed.

Lemma steps_le_total start ps t d : sched_ok start ps -> steps start ps t d <= sched_total ps d.
Proof.
  intros Hok. rewrite <- (steps_late start ps (Z.max t (sched_end start ps)) d Hok) by lia.
  apply steps_mono; [done|lia].
Qed.

Lemma steps_app start ps qs t d :
  steps start (ps ++ qs) t d = steps start ps t d + steps (sched_end start ps) qs t d.
Proof. revert start. induction ps; intros; simpl; [done|]. rewrite IHps. lia. Qed.

Lemma sched_end_app start ps qs : sched_end start (ps ++ qs) = sched_end (sched_end start ps) qs.
Proof. revert start. induction ps; intros; simpl; auto. Qed.

Lemma sched_total_app ps qs d : sched_total (ps ++ qs) d = sched_total ps d + sched_total qs d.
Proof. induction ps; simpl; lia. Qed.

Lemma sched_ok_app start ps qs :
  sched_ok start (ps ++ qs) <-> sched_ok start ps /\ sched_ok (sched_end start ps) qs.
Proof.
  revert start. induction ps as [|p ps IH]; intros start; simpl.
  - split; [|tauto]. intros Hok. split; [|done]. split; [|done]. by apply sched_ok_time in Hok.
  - rewrite IH. tauto.
Qed.

Lemma sched_ok_snoc start ps t a :
  sched_ok start ps -> sched_end start ps <= t -> time_ok t -> valid a ->
  sched_ok start (ps ++ [mkPeriod (t - sched_end start ps) a]).
Proof.
  intros. apply sched_ok_app. split; [done|]. simpl.
  replace (sched_end start ps + (t - sched_end start ps)) with t by lia.
  split_and!; auto using sched_ok_end. lia.
Qed.

Lemma sched_valids start ps : sched_ok start ps -> Forall (fun p => valid (PAmount p)) ps.
Proof.
  revert start. induction ps as [|p ps IH]; intros start Hok; constructor;
    apply sched_ok_cons in Hok as (_ & _ & Hv & Hok & _); eauto.
Qed.

Lemma sched_operands start ps : sched_ok start ps -> Forall (fun p => operand (PAmount p)) ps.
Proof.
  revert start. induction ps as [|p ps IH]; intros start Hok; constructor;
    apply sched_ok_cons in Hok as (_ & _ & ? & ? & _); eauto with coins.
Qed.

(** A schedule together with the end time and total an account stores for it. *)
Record schedule_of (start endT : Z) (ps : list Period) (total : list coin) : Prop := {
  so_ok : sched_ok start ps;
  so_end : sched_end start ps <= endT;
  so_valid : valid total;
  so_total : forall d, amt total d = sched_total ps d
}.

(** Number of events a schedule has had by time [t]. *)
Fixpoint passed (start : Z) (ps : list Period) (t : Z) : nat :=
  match ps with
  | [] => 0
  | p :: rest => if start + Length p <=? t then S (passed (start + Length p) rest t) else 0
  end.

Section read.
Context `{SdkLaws}.

Lemma read_loop_spec t start coins ps :
  sched_ok start ps -> valid coins ->
  valid (read_loop t start coins ps) /\
  forall d, amt (read_loop t start coins ps) d = amt coins d + steps start ps t d.
Proof.
  revert start coins. induction ps as [|p ps IH]; intros start coins Hok Hc; simpl.
  - split; [done|lia].
  - pose proof Hok as Hok'.
    apply sched_ok_cons in Hok as (_ & Hl & Hv & Hok & ->).
    destruct (Z.ltb_spec t (start + Length p)) as [Ht|Ht].
    + split; [done|]. intros d. pose proof (steps_early start (p :: ps) t d Hok' Ht) as E.
      simpl in E. lia.
    + destruct (IH (start + Length p) (coins_add coins (PAmount p)) Hok) as [IHv IHa];
        [by auto with coins|].
      split; [done|]. intros d. rewrite IHa, amt_add by auto with coins.
      zcases; lia.
Qed.

Lemma read_valid start endT ps total t :
  schedule_of start endT ps total -> valid (ReadSchedule start endT ps total t).
Proof.
  intros [? ? ? ?]. unfold ReadSchedule. zcases; auto with coins.
  by apply read_loop_spec; auto with coins.
Qed.

Lemma read_early start endT ps total t d :
  t <= start -> amt (ReadSchedule start endT ps total t) d = 0.
Proof. intros. unfold ReadSchedule. zcases; [done|lia|lia]. Qed.

Lemma read_steps start endT ps total t d :
  schedule_of start endT ps total -> start < t ->
  amt (ReadSchedule start endT ps total t) d = steps start ps t d.
Proof.
  intros [Hok He Hv Ht] Hs. unfold ReadSchedule. zcases; [lia| |].
  - rewrite Ht, steps_late by (done || lia). done.
  - destruct (read_loop_spec t start [] ps) as [_ ->]; auto with coins.
Qed.

Lemma read_le_total start endT ps total t d :
  schedule_of start endT ps total ->
  amt (ReadSchedule start endT ps total t) d <= amt total d.
Proof.
  intros Hs. destruct (Z.le_gt_cases t start).
  - rewrite read_early by done. apply valid_nonneg, Hs.
  - rewrite read_steps by done. rewrite (so_total _ _ _ _ Hs). apply steps_le_total, Hs.
Qed.

Lemma read_nonneg start endT ps total t d :
  schedule_of start endT ps total -> 0 <= amt (ReadSchedule start endT ps total t) d.
Proof. intros. apply valid_nonneg. by apply read_valid. Qed.

Lemma read_mono start endT ps total t t' d :
  schedule_of start endT ps total -> t <= t' ->
  amt (ReadSchedule start endT ps total t) d <= amt (ReadSchedule start endT ps total t') d.
Proof.
  intros Hs Ht. destruct (Z.le_gt_cases t start).
  - rewrite read_early by done. by apply read_nonneg.
  - rewrite !read_steps by (done || lia). apply steps_mono; [apply Hs|done].
Qed.

(** *** Counting passed periods *)

Lemma count_loop_spec t start n ps :
  sched_ok start ps -> count_loop t start n ps = (n + passed start ps t)%nat.
Proof.
  revert start n. induction ps as [|p ps IH]; intros start n Hok; simpl; [lia|].
  apply sched_ok_cons in Hok as (_ & _ & _ & Hok & ->). zcases; try lia.
  rewrite IH by done. lia.
Qed.

Lemma passed_all start ps t : sched_ok start ps -> sched_end start ps <= t -> passed start ps t = length ps.
Proof.
  revert start. induction ps as [|p ps IH]; intros start Hok Ht; simpl in *; [done|].
  apply sched_ok_cons in Hok as (_ & _ & _ & Hok & _).
  pose proof (sched_end_ge _ _ Hok). rewrite IH by done. zcases; lia.
Qed.

Lemma passed_none start ps t : sched_ok start ps -> t < start -> passed start ps t = 0%nat.
Proof.
  destruct ps as [|p ps]; intros Hok Ht; simpl; [done|].
  apply sched_ok_cons in Hok as (_ & ? & _). zcases; [lia|done].
Qed.

Lemma count_passed start endT ps t :
  sched_ok start ps -> sched_end start ps <= endT -> start < t ->
  ReadPastPeriodCount start endT ps t = passed start ps t.
Proof.
  intros Hok He Ht. unfold ReadPastPeriodCount. zcases; [lia| |].
  - rewrite passed_all; [done|done|lia].
  - by rewrite count_loop_spec.
Qed.

Lemma passed_le start ps t : (passed start ps t <= length ps)%nat.
Proof. revert start. induction ps; intros; simpl; [lia|]. zcases; [specialize (IHps (start + Length a))|]; lia. Qed.

(** The passed periods carry exactly what has been released. *)
Lemma passed_total start ps t d :
  sched_ok start ps -> sched_total (take (passed start ps t) ps) d = steps start ps t d.
Proof.
  revert start. induction ps as [|p ps IH]; intros start Hok; [done|].
  pose proof Hok as Hok'. apply sched_ok_cons in Hok as (_ & _ & _ & Hok & _). simpl.
  destruct (Z.leb_spec (start + Length p) t) as [L|L]; simpl.
  - by rewrite IH.
  - pose proof (steps_early start (p :: ps) t d Hok' L) as E. simpl in E.
    destruct (Z.leb_spec (start + Length p) t); lia.
Qed.

Lemma passed_end start ps t :
  sched_ok start ps -> start <= t -> sched_end start (take (passed start ps t) ps) <= t.
Proof.
  revert start. induction ps as [|p ps IH]; intros start Hok Ht; [done|].
  apply sched_ok_cons in Hok as (_ & _ & _ & Hok & _). simpl.
  destruct (Z.leb_spec (start + Length p) t); simpl; [by apply IH|lia].
Qed.

Lemma sched_ok_take n start ps : sched_ok start ps -> sched_ok start (take n ps).
Proof. intros Hok. rewrite <- (take_drop n ps) in Hok. by apply sched_ok_app in Hok as [? _]. Qed.

Lemma sched_end_take n start ps : sched_ok start ps -> sched_end start (take n ps) <= sched_end start ps.
Proof.
  intros Hok. rewrite <- (take_drop n ps) in Hok. apply sched_ok_app in Hok as [_ Hok].
  apply sched_end_ge in Hok. rewrite <- (take_drop n ps) at 2. by rewrite sched_end_app.
Qed.

Lemma amt_total start ps d : sched_ok start ps -> amt (TotalAmount ps) d = sched_total ps d.
Proof.
  intros Hok. destruct (total_amount_spec ps) as [_ ->]; [by eapply sched_operands|].
  clear. induction ps; simpl; [done|]. by rewrite IHps.
Qed.

Lemma total_amount_valid start ps : sched_ok start ps -> valid (TotalAmount ps).
Proof. intros. apply total_valid. by eapply sched_operands. Qed.

(** *** Total length *)

Lemma foldl_length acc start ps :
  sched_ok start ps -> 0 <= acc -> acc + (sched_end start ps - start) <= max_i64 ->
  foldl (fun acc p => acc +64 Length p) acc ps = acc + (sched_end start ps - start).
Proof.
  revert acc start. induction ps as [|p ps IH]; intros acc start Hok Ha Hb; simpl in *; [lia|].
  apply sched_ok_cons in Hok as (_ & ? & _ & Hok & _). pose proof (sched_end_ge _ _ Hok).
  assert (acc +64 Length p = acc + Length p) as ->.
  { apply wrap_i64_id. unfold min_i64. lia. }
  rewrite (IH _ (start + Length p)); [lia|done|lia|lia].
Qed.

Lemma total_length_end start ps : sched_ok start ps -> start +64 TotalLength ps = sched_end start ps.
Proof.
  intros Hok. rewrite total_length_spec, (foldl_length 0 start); [| |lia|].
  - rewrite i64_add_ok; [lia|]. replace (start + _) with (sched_end start ps) by lia.
    by apply sched_ok_end.
  - done.
  - pose proof (sched_ok_end _ _ Hok). pose proof (sched_ok_time _ _ Hok).
    unfold time_ok, max_i64 in *. lia.
Qed.
End read.

(** ** The union of two schedules *)

(** The next event of a schedule is not before [e]. *)
Definition next_ge (e start : Z) (ps : list Period) : Prop :=
  match ps with [] => True | p :: _ => e <= start + Length p end.

Lemma next_ge_start e start ps : e <= start -> sched_ok start ps -> next_ge e start ps.
Proof.
  intros He Hok. destruct ps; simpl; [done|].
  apply sched_ok_cons in Hok as (_ & ? & _). lia.
Qed.

Lemma next_ge_weaken e e' start ps : next_ge e start ps -> e' <= e -> next_ge e' start ps.
Proof. destruct ps; simpl; [done|lia]. Qed.

(** From the state [m] to the state [m'] the merge has emitted periods that
    release [f]. *)
Definition emits (m m' : disj_st) (f : Z -> string -> Z) : Prop :=
  exists out, m_periods m' = m_periods m ++ out /\ m_end m' = sched_end (m_end m) out /\
    sched_ok (m_end m) out /\ forall t d, steps (m_end m) out t d = f t d.

Section disjunct.
Context `{SdkLaws}.

Lemma emits_refl m f : time_ok (m_end m) -> (forall t d, f t d = 0) -> emits m m f.
Proof. intros Ht Hf. exists []. rewrite app_nil_r. split_and!; simpl; auto. Qed.

Lemma emits_emit m m' nt a f g :
  time_ok (m_end m) -> time_ok nt -> m_end m <= nt -> valid a ->
  emits (emit nt a m) m' f ->
  (forall t d, g t d = (if nt <=? t then amt a d else 0) + f t d) ->
  emits m m' g.
Proof.
  intros Hm Hn Hle Ha (out & E1 & E2 & E3 & E4) Hg. simpl in *.
  exists (mkPeriod (nt - m_end m) a :: out).
  rewrite i64_sub_ok in E1 by done. simpl.
  replace (m_end m + (nt - m_end m)) with nt by lia.
  rewrite <- app_assoc in E1. split_and!; auto; [lia|].
  intros t d. by rewrite E4, Hg.
Qed.

Lemma consume_rest_emits time ps m :
  sched_ok time ps -> next_ge (m_end m) time ps -> time_ok (m_end m) ->
  emits m (consume_rest time ps m) (steps time ps).
Proof.
  revert time m. induction ps as [|p ps IH]; intros time m Hok Hn Hm; simpl.
  - by apply emits_refl.
  - apply sched_ok_cons in Hok as (_ & Hl & Hv & Hok & ->). simpl in Hn.
    pose proof (sched_ok_time _ _ Hok) as Ht.
    eapply emits_emit; [done|exact Ht|done|exact Hv| |done].
    apply IH; [done|by apply next_ge_start|done].
Qed.

Lemma disjunct_nil_r timeA psA timeB m :
  disjunct_loop timeA psA timeB [] m = consume_rest timeA psA m.
Proof. by destruct psA. Qed.

Lemma disjunct_cons timeA pA psA timeB pB psB m :
  disjunct_loop timeA (pA :: psA) timeB (pB :: psB) m =
  (let nextA := timeA +64 Length pA in
   let nextB := timeB +64 Length pB in
   if nextA <? nextB then
     disjunct_loop nextA psA timeB (pB :: psB) (emit nextA (PAmount pA) m)
   else if nextB <? nextA then
     disjunct_loop timeA (pA :: psA) nextB psB (emit nextB (PAmount pB) m)
   else
     disjunct_loop nextA psA nextA psB
       (emit nextA (coins_add (PAmount pA) (PAmount pB)) m)).
Proof. done. Qed.

Lemma disjunct_emits psA timeA timeB psB m :
  sched_ok timeA psA -> sched_ok timeB psB ->
  next_ge (m_end m) timeA psA -> next_ge (m_end m) timeB psB -> time_ok (m_end m) ->
  emits m (disjunct_loop timeA psA timeB psB m)
    (fun t d => steps timeA psA t d + steps timeB psB t d).
Proof.
  revert timeA timeB psB m. induction psA as [|pA psA IHA]; intros timeA timeB psB m HA HB NA NB Hm.
  { destruct (consume_rest_emits timeB psB m HB NB Hm) as (out & ? & ? & ? & ?). by exists out. }
  revert timeB m HB NA NB Hm. induction psB as [|pB psB IHB]; intros timeB m HB NA NB Hm.
  { rewrite disjunct_nil_r.
    destruct (consume_rest_emits timeA (pA :: psA) m HA NA Hm) as (out & ? & ? & ? & E).
    exists out. split_and!; try done. intros. rewrite E. simpl. lia. }
  rewrite disjunct_cons. pose proof HA as HA'. pose proof HB as HB'.
  apply sched_ok_cons in HA as (_ & LA & VA & HA & EA).
  apply sched_ok_cons in HB as (_ & LB & VB & HB & EB).
  pose proof (sched_ok_time _ _ HA) as TA. pose proof (sched_ok_time _ _ HB) as TB.
  simpl in NA, NB. rewrite EA, EB. cbv zeta. zcases.
  - eapply emits_emit; [done|exact TA|done|exact VA|apply IHA; simpl; try done|].
    + by apply next_ge_start.
    + lia.
    + intros t d. simpl. lia.
  - eapply emits_emit; [done|exact TB|done|exact VB|apply IHB; simpl; try done|].
    + by apply next_ge_start.
    + intros t d. simpl. lia.
  - assert (Eq : timeA + Length pA = timeB + Length pB) by lia.
    assert (VAB : valid (coins_add (PAmount pA) (PAmount pB))) by auto with coins.
    rewrite <- Eq in HB.
    eapply emits_emit; [done|exact TA|done|exact VAB
                       |apply IHA; try done; simpl; by apply next_ge_start|].
    intros t d. simpl. rewrite amt_add, <- Eq by auto with coins. zcases; lia.
Qed.

(** The facts about [DisjunctPeriods] its callers use. *)
Lemma disjunct_facts startA startB psA psB start endT ps :
  sched_ok startA psA -> sched_ok startB psB ->
  DisjunctPeriods startA startB psA psB = (start, endT, ps) ->
  start = Z.min startA startB /\ sched_ok start ps /\ endT = sched_end start ps /\
  (forall t d, steps start ps t d = steps startA psA t d + steps startB psB t d) /\
  (forall d, sched_total ps d = sched_total psA d + sched_total psB d).
Proof.
  intros HA HB E. unfold DisjunctPeriods in E.
  assert (Es : Min64 startA startB = Z.min startA startB) by (unfold Min64; zcases; lia).
  rewrite Es in E. injection E as <- <- <-.
  pose proof (sched_ok_time _ _ HA) as TA. pose proof (sched_ok_time _ _ HB) as TB.
  set (m := mkDisj (Z.min startA startB) []).
  destruct (disjunct_emits psA startA startB psB m) as (out & E1 & E2 & E3 & E4); simpl; try done.
  1,2: apply next_ge_start; [lia|done].
  { unfold time_ok in *. lia. }
  simpl in *. rewrite E1, E2. split_and!; try done.
  intros d. set (T := Z.max (sched_end (Z.min startA startB) out)
                        (Z.max (sched_end startA psA) (sched_end startB psB))).
  rewrite <- (steps_late _ _ T d E3), E4, !steps_late by (done || lia). done.
Qed.
End disjunct.

(** ** The minimum of two schedules *)

(** The running amounts of [ConjunctPeriods]: what has been emitted is the
    minimum of the two totals. *)
Record conj_inv (c : conj_st) : Prop := {
  ci_res : valid (resultingAmount c);
  ci_A : valid (totalAmountA c);
  ci_B : valid (totalAmountB c);
  ci_time : time_ok (lastTime c);
  ci_min : forall d, amt (resultingAmount c) d
                     = Z.min (amt (totalAmountA c) d) (amt (totalAmountB c) d)
}.

(** Between [c] and [c'] periods are emitted so that the emitted total is [f]. *)
Definition conj_out (c c' : conj_st) (f : Z -> string -> Z) : Prop :=
  exists out, conjPeriods c' = conjPeriods c ++ out /\
    lastTime c' = sched_end (lastTime c) out /\ sched_ok (lastTime c) out /\
    forall t d, amt (resultingAmount c) d + steps (lastTime c) out t d = f t d.

Section conjunct.
Context `{SdkLaws}.

(** One step of the conjunction, with the totals grown to [totA] and [totB]. *)
Lemma conj_emit_step endT totA totB c :
  conj_inv c -> valid totA -> valid totB ->
  coins_le (totalAmountA c) totA -> coins_le (totalAmountB c) totB ->
  lastTime c <= endT -> time_ok endT ->
  exists c1, conj_emit endT totA totB c = Ok c1 /\ conj_inv c1 /\
    totalAmountA c1 = totA /\ totalAmountB c1 = totB /\ lastTime c1 <= endT /\
    forall c' f g, conj_out c1 c' f ->
      (forall t d, t < endT -> f t d = amt (resultingAmount c1) d) ->
      (forall t d, g t d = if endT <=? t then f t d else amt (resultingAmount c) d) ->
      conj_out c c' g.
Proof.
  intros [Vr VA VB Ht Hmin] HvA HvB LA LB Hle Hte.
  assert (Lmin : coins_le (resultingAmount c) (coins_min totA totB)).
  { intros d. rewrite Hmin, amt_min by done. specialize (LA d). specialize (LB d). lia. }
  assert (Vm : valid (coins_min totA totB)) by auto with coins.
  destruct (sub_ok (coins_min totA totB) (resultingAmount c)) as (diff & Ed & Vd & Ad);
    auto with coins.
  unfold conj_emit. rewrite (proj2 (lte_spec _ _ Vr Vm) Lmin), Ed. simpl.
  destruct (IsZero diff) eqn:Ez; eexists; (split; [done|]); simpl.
  - assert (Zd : forall d, amt diff d = 0) by (apply is_zero_spec; auto with coins).
    split_and!; try done.
    + constructor; simpl; try done. intros d. specialize (Ad d). rewrite Zd, amt_min in Ad by done. lia.
    + intros c' f g (out & E1 & E2 & E3 & E4) Hf Hg. exists out. split_and!; try done.
      intros t d. rewrite Hg, E4. simpl. zcases; [done|]. by apply Hf.
  - split_and!; try done.
    + constructor; simpl; try done; [auto with coins|].
      intros d. rewrite amt_add by auto with coins. rewrite Ad, amt_min by done. lia.
    + intros c' f g (out & E1 & E2 & E3 & E4) Hf Hg. simpl in *.
      rewrite i64_sub_ok in E1 by done.
      exists (mkPeriod (endT - lastTime c) diff :: out). simpl.
      replace (lastTime c + (endT - lastTime c)) with endT by lia.
      rewrite <- app_assoc in E1. split_and!; auto; [lia|].
      intros t d. rewrite Hg, <- E4, amt_add by auto with coins. zcases; [lia|].
      rewrite steps_before by done. lia.
Qed.

Lemma conj_out_refl c f :
  conj_inv c -> (forall t d, f t d = amt (resultingAmount c) d) -> conj_out c c f.
Proof.
  intros [? ? ? ? ?] Hf. exists []. rewrite app_nil_r. simpl. split_and!; auto.
  intros. rewrite Hf. lia.
Qed.

(** A step of the loop followed by the rest of it: before the step's time the
    released amounts are the old totals, from it on those of the rest. *)
Lemma conj_step endT totA totB c (k : conj_st -> res conj_st) (fA fB gA gB : Z -> string -> Z) :
  conj_inv c -> valid totA -> valid totB ->
  coins_le (totalAmountA c) totA -> coins_le (totalAmountB c) totB ->
  lastTime c <= endT -> time_ok endT ->
  (forall c1, conj_inv c1 -> totalAmountA c1 = totA -> totalAmountB c1 = totB ->
     lastTime c1 <= endT ->
     exists c', k c1 = Ok c' /\ conj_out c1 c' (fun t d => Z.min (fA t d) (fB t d))) ->
  (forall t d, t < endT -> fA t d = amt totA d /\ fB t d = amt totB d) ->
  (forall t d, t < endT -> gA t d = amt (totalAmountA c) d /\ gB t d = amt (totalAmountB c) d) ->
  (forall t d, endT <= t -> gA t d = fA t d /\ gB t d = fB t d) ->
  exists c', (c1 ← conj_emit endT totA totB c; k c1) = Ok c' /\
    conj_out c c' (fun t d => Z.min (gA t d) (gB t d)).
Proof.
  intros Hc VA VB LA LB Hle Ht Hk Hf Hg Hfg.
  destruct (conj_emit_step endT totA totB c) as (c1 & E1 & Hc1 & EA & EB & L1 & Hout); try done.
  destruct (Hk c1) as (c' & E' & Hc'); try done.
  exists c'. split; [by rewrite E1|]. eapply Hout; [exact Hc'| |]; intros t d; simpl.
  - intros L. destruct (Hf t d L) as [-> ->]. by rewrite (ci_min c1 Hc1), EA, EB.
  - zcases.
    + by destruct (Hfg t d) as [-> ->].
    + rewrite (ci_min c Hc). by destruct (Hg t d) as [-> ->].
Qed.

(** Consuming what is left of one schedule, A or B. *)
Lemma conj_rest_out (sideA : bool) time ps c :
  sched_ok time ps -> next_ge (lastTime c) time ps -> conj_inv c ->
  exists c', conj_rest (if sideA then conj_consumeA else conj_consumeB) time ps c = Ok c' /\
    conj_out c c' (fun t d =>
      Z.min (amt (totalAmountA c) d + if sideA then steps time ps t d else 0)
            (amt (totalAmountB c) d + if sideA then 0 else steps time ps t d)).
Proof.
  revert time c. induction ps as [|p ps IH]; intros time c Hok Hn Hc.
  { exists c. split; [done|]. apply conj_out_refl; [done|]. intros t d. simpl.
    rewrite (ci_min c Hc). destruct sideA; f_equal; lia. }
  pose proof Hok as Hok'. apply sched_ok_cons in Hok as (_ & Hl & Hv & Hok & E). simpl in Hn.
  pose proof (sched_ok_time _ _ Hok) as Ht. pose proof Hc as [Vr VA VB _ Hmin].
  set (totA := if sideA then coins_add (totalAmountA c) (PAmount p) else totalAmountA c).
  set (totB := if sideA then totalAmountB c else coins_add (totalAmountB c) (PAmount p)).
  assert (Hstep : (if sideA then conj_consumeA else conj_consumeB) (time + Length p) p c
                  = conj_emit (time + Length p) totA totB c) by (by destruct sideA).
  cbn [conj_rest]. rewrite E, Hstep.
  assert (AA : forall d, amt totA d = amt (totalAmountA c) d + if sideA then amt (PAmount p) d else 0)
    by (intros; unfold totA; destruct sideA; rewrite ?amt_add by auto with coins; lia).
  assert (AB : forall d, amt totB d = amt (totalAmountB c) d + if sideA then 0 else amt (PAmount p) d)
    by (intros; unfold totB; destruct sideA; rewrite ?amt_add by auto with coins; lia).
  eapply (conj_step _ _ _ _ _
    (fun t d => amt totA d + if sideA then steps (time + Length p) ps t d else 0)
    (fun t d => amt totB d + if sideA then 0 else steps (time + Length p) ps t d)); try done.
  1,2: unfold totA, totB; destruct sideA; auto with coins.
  1,2: intros d; rewrite ?AA, ?AB; pose proof (valid_nonneg _ d Hv); destruct sideA; lia.
  - intros c1 Hc1 <- <- L1. apply IH; [done|by apply next_ge_start|done].
  - intros t d L. rewrite steps_before by done. destruct sideA; lia.
  - intros t d L. rewrite (steps_early time) by done. destruct sideA; lia.
  - intros t d L. rewrite AA, AB. simpl. zcases; destruct sideA; lia.
Qed.

Lemma conj_nil_r timeA psA timeB c :
  conj_loop timeA psA timeB [] c = conj_rest conj_consumeA timeA psA c.
Proof. by destruct psA. Qed.

Lemma conj_cons timeA pA psA timeB pB psB c :
  conj_loop timeA (pA :: psA) timeB (pB :: psB) c =
  (let nextA := timeA +64 Length pA in
   let nextB := timeB +64 Length pB in
   if nextA <? nextB then
     c' ← conj_consumeA nextA pA c; conj_loop nextA psA timeB (pB :: psB) c'
   else if nextB <? nextA then
     c' ← conj_consumeB nextB pB c; conj_loop timeA (pA :: psA) nextB psB c'
   else
     c' ← conj_consumeBoth nextA pA pB c; conj_loop nextA psA nextA psB c').
Proof. done. Qed.

(** Side conditions of [conj_step] in the main loop. *)
Local Ltac conj_side :=
  match goal with
  | |- valid _ => by auto with coins
  | |- coins_le _ _ => intros ?d; rewrite ?amt_add by auto with coins;
      repeat match goal with V : forall d, 0 <= _ |- _ => specialize (V d) end; lia
  | |- forall c1, conj_inv c1 -> _ => intros ? ? <- <- ?
  | |- forall t d, _ -> _ => intros ?t ?d ?L; rewrite ?steps_early, ?amt_add by
        (auto with coins; simpl; lia); simpl; zcases; lia
  end.

Lemma conj_loop_out psA timeA timeB psB c :
  sched_ok timeA psA -> sched_ok timeB psB ->
  next_ge (lastTime c) timeA psA -> next_ge (lastTime c) timeB psB -> conj_inv c ->
  exists c', conj_loop timeA psA timeB psB c = Ok c' /\
    conj_out c c' (fun t d => Z.min (amt (totalAmountA c) d + steps timeA psA t d)
                                    (amt (totalAmountB c) d + steps timeB psB t d)).
Proof.
  revert timeA timeB psB c. induction psA as [|pA psA IHA]; intros timeA timeB psB c HA HB NA NB Hc.
  { exact (conj_rest_out false timeB psB c HB NB Hc). }
  revert timeB c HB NA NB Hc. induction psB as [|pB psB IHB]; intros timeB c HB NA NB Hc.
  { rewrite conj_nil_r. exact (conj_rest_out true timeA (pA :: psA) c HA NA Hc). }
  rewrite conj_cons. pose proof HA as HA'. pose proof HB as HB'.
  apply sched_ok_cons in HA as (_ & LA & VA & HA & EA).
  apply sched_ok_cons in HB as (_ & LB & VB & HB & EB).
  pose proof (sched_ok_time _ _ HA) as TA. pose proof (sched_ok_time _ _ HB) as TB.
  pose proof Hc as [Vr VtA VtB _ Hmin].
  pose proof (fun d => valid_nonneg _ d VA) as PA. pose proof (fun d => valid_nonneg _ d VB) as PB.
  simpl in NA, NB. rewrite EA, EB. cbv zeta.
  destruct (Z.ltb_spec (timeA + Length pA) (timeB + Length pB)) as [Lt|Ge];
    [|destruct (Z.ltb_spec (timeB + Length pB) (timeA + Length pA)) as [Lt|Ge']].
  - eapply (conj_step _ _ _ _ _
      (fun t d => amt (coins_add (totalAmountA c) (PAmount pA)) d + steps (timeA + Length pA) psA t d)
      (fun t d => amt (totalAmountB c) d + steps timeB (pB :: psB) t d)); try done; try conj_side.
    + apply IHA; simpl; try done; [by apply next_ge_start|lia].
    + intros t d L. rewrite (steps_before (timeA + Length pA)), (steps_early timeB) by (done || simpl; lia). lia.
  - eapply (conj_step _ _ _ _ _
      (fun t d => amt (totalAmountA c) d + steps timeA (pA :: psA) t d)
      (fun t d => amt (coins_add (totalAmountB c) (PAmount pB)) d + steps (timeB + Length pB) psB t d));
      try done; try conj_side.
    + apply IHB; simpl; try done; [lia|by apply next_ge_start].
    + intros t d L. rewrite (steps_before (timeB + Length pB)), (steps_early timeA) by (done || simpl; lia). lia.
  - assert (Eq : timeA + Length pA = timeB + Length pB) by lia. rewrite <- Eq in HB.
    eapply (conj_step _ _ _ _ _
      (fun t d => amt (coins_add (totalAmountA c) (PAmount pA)) d + steps (timeA + Length pA) psA t d)
      (fun t d => amt (coins_add (totalAmountB c) (PAmount pB)) d + steps (timeA + Length pA) psB t d));
      try done; try conj_side.
    + apply IHA; try done; by apply next_ge_start.
    + intros t d L. rewrite !steps_before by done. lia.
    + intros t d L. rewrite !amt_add by auto with coins. simpl. rewrite <- Eq. zcases; lia.
Qed.

(** The facts about [ConjunctPeriods] its callers use. *)
Lemma conjunct_facts startA startB psA psB :
  sched_ok startA psA -> sched_ok startB psB ->
  exists ps, let start := Z.min startA startB in
    ConjunctPeriods startA startB psA psB = Ok (start, sched_end start ps, ps) /\
    sched_ok start ps /\
    (forall t d, steps start ps t d = Z.min (steps startA psA t d) (steps startB psB t d)) /\
    (forall d, sched_total ps d = Z.min (sched_total psA d) (sched_total psB d)).
Proof.
  intros HA HB.
  assert (Es : Min64 startA startB = Z.min startA startB) by (unfold Min64; zcases; lia).
  pose proof (sched_ok_time _ _ HA) as TA. pose proof (sched_ok_time _ _ HB) as TB.
  set (c := mkConj [] [] [] (Z.min startA startB) []).
  destruct (conj_loop_out psA startA startB psB c) as (c' & E & out & E1 & E2 & E3 & E4); try done.
  1,2: apply next_ge_start; [simpl; lia|done].
  { constructor; simpl; auto with coins. unfold time_ok in *. lia. }
  simpl in *.
  assert (E5 : forall t d, steps (Z.min startA startB) out t d
                 = Z.min (steps startA psA t d) (steps startB psB t d))
    by (intros t d; specialize (E4 t d); lia).
  exists out. unfold ConjunctPeriods. rewrite Es. fold c. rewrite E. simpl.
  rewrite E1, E2. split_and!; try done.
  intros d. set (T := Z.max (sched_end (Z.min startA startB) out)
                        (Z.max (sched_end startA psA) (sched_end startB psB))).
  rewrite <- (steps_late _ _ T d E3), E5, !steps_late by (done || lia). done.
Qed.

End conjunct.

(** ** Alignment *)

Section align.
Context `{SdkLaws}.

Lemma shift_first_ok delta start ps :
  sched_ok (start + delta) ps -> time_ok start -> 0 <= delta ->
  sched_ok start (shift_first delta ps) /\
  (forall t d, steps start (shift_first delta ps) t d = steps (start + delta) ps t d) /\
  (ps <> [] -> sched_end start (shift_first delta ps) = sched_end (start + delta) ps).
Proof.
  intros Hok Hs Hd. destruct ps as [|p ps]; simpl; [done|].
  apply sched_ok_cons in Hok as (Ht & Hl & Hv & Hok & _).
  pose proof (sched_ok_time _ _ Hok) as Ht'.
  assert (E : Length p +64 delta = Length p + delta).
  { apply wrap_i64_id. unfold time_ok, min_i64, max_i64 in *. lia. }
  rewrite E. replace (start + (Length p + delta)) with (start + delta + Length p) by lia.
  split_and!; try done. lia.
Qed.

Lemma align_facts startA startB psA psB start endT psA' psB' :
  sched_ok startA psA -> sched_ok startB psB ->
  AlignSchedules startA startB psA psB = (start, endT, psA', psB') ->
  start = Z.min startA startB /\ sched_ok start psA' /\ sched_ok start psB' /\
  endT = Z.max (sched_end start psA') (sched_end start psB') /\
  (forall t d, steps start psA' t d = steps startA psA t d) /\
  (forall t d, steps start psB' t d = steps startB psB t d).
Proof.
  intros HA HB E. unfold AlignSchedules in E.
  assert (Es : Min64 startA startB = Z.min startA startB) by (unfold Min64; zcases; lia).
  pose proof (sched_ok_time _ _ HA) as TA. pose proof (sched_ok_time _ _ HB) as TB.
  assert (TS : time_ok (Z.min startA startB)) by (unfold time_ok in *; lia).
  rewrite Es, !i64_sub_ok in E by done. injection E as <- <- <- <-.
  destruct (shift_first_ok (startA - Z.min startA startB) (Z.min startA startB) psA)
    as (OA & SA & _); [by rewrite Zplus_minus|done|lia|].
  destruct (shift_first_ok (startB - Z.min startA startB) (Z.min startA startB) psB)
    as (OB & SB & _); [by rewrite Zplus_minus|done|lia|].
  split_and!; try done.
  - rewrite !total_length_end by done. unfold Max64. zcases; lia.
  - intros. rewrite SA. f_equal. lia.
  - intros. rewrite SB. f_equal. lia.
Qed.
End align.

(** ** Checking a concrete schedule *)

Fixpoint sched_okb (start : Z) (ps : list Period) : bool :=
  (- 2 ^ 62 <=? start) && (start <? 2 ^ 62) &&
  match ps with
  | [] => true
  | p :: rest => (0 <=? Length p) && ref_validb (PAmount p) && sched_okb (start + Length p) rest
  end.

Lemma sched_okb_ok start ps : sched_okb start ps = true -> sched_ok start ps.
Proof.
  revert start. induction ps as [|p ps IH]; intros start Hb; simpl in *;
    repeat (apply andb_true_iff in Hb as [Hb ?]); unfold time_ok.
  - split; [lia|done].
  - repeat match goal with Hx : _ && _ = true |- _ => apply andb_true_iff in Hx as [? ?] end.
    split_and!; auto using ref_valid; lia.
Qed.

Lemma schedule_of_total `{SdkLaws} start endT ps total :
  sched_ok start ps -> sched_end start ps <= endT -> TotalAmount ps = total ->
  schedule_of start endT ps total.
Proof.
  intros Hok He <-. constructor; eauto using total_amount_valid, amt_total.
Qed.

(** ** Properties *)

Section properties.
Context `{SdkLaws}.

(** [ReadSchedule] computes the step function of its schedule: nothing up
    to the start time and afterwards exactly the coins of the events that have
    happened, also through the short cut at the stored end time. *)
Theorem ReadSchedule_refines_steps start endT ps total t d :
  schedule_of start endT ps total ->
  amt (ReadSchedule start endT ps total t) d
  = if t <=? start then 0 else steps start ps t d.
Proof.
  intros Hs. zcases; [by apply read_early|by apply read_steps].
Qed.

(** What [ReadSchedule] returns is a valid coin set that only grows with
    time and never exceeds the schedule's total. *)
Theorem ReadSchedule_monotone start endT ps total t t' :
  schedule_of start endT ps total -> t <= t' ->
  valid (ReadSchedule start endT ps total t) /\
  coins_le (ReadSchedule start endT ps total t) (ReadSchedule start endT ps total t') /\
  coins_le (ReadSchedule start endT ps total t') total.
Proof.
  intros Hs Ht. split_and!; [by apply read_valid| |]; intros d;
    [by apply read_mono|by apply read_le_total].
Qed.

(** Reading the schedule and counting its passed periods agree: the coins
    read are the total of the periods [ReadPastPeriodCount] counts. *)
Theorem ReadPastPeriodCount_agrees start endT ps total t :
  schedule_of start endT ps total ->
  ReadSchedule start endT ps total t
  = TotalAmount (take (ReadPastPeriodCount start endT ps t) ps).
Proof.
  intros Hs. pose proof Hs as [Hok He Hv Htot].
  apply valid_ext; [by apply read_valid|by eapply total_amount_valid, sched_ok_take|].
  intros d. erewrite amt_total by (by apply sched_ok_take).
  destruct (Z.le_gt_cases t start) as [L|L].
  - rewrite read_early by done. unfold ReadPastPeriodCount.
    destruct (Z.leb_spec t start); [done|lia].
  - rewrite read_steps, count_passed, passed_total by done. done.
Qed.

(** [DisjunctPeriods] is the union of two schedules: the result starts at
    the earlier start, its end is its last event, it is well-formed, and at
    every time it has released the sum of what both have. *)
Theorem DisjunctPeriods_is_union startA startB psA psB :
  sched_ok startA psA -> sched_ok startB psB ->
  let '(start, endT, ps) := DisjunctPeriods startA startB psA psB in
  start = Z.min startA startB /\ sched_ok start ps /\ endT = sched_end start ps /\
  forall t d, steps start ps t d = steps startA psA t d + steps startB psB t d.
Proof.
  intros HA HB. destruct (DisjunctPeriods _ _ _ _) as [[start endT] ps] eqn:E.
  by destruct (disjunct_facts _ _ _ _ _ _ _ HA HB E) as (? & ? & ? & ? & _).
Qed.

(** [ConjunctPeriods] never panics and is the minimum of two schedules: at
    every time it has released, of each denomination, the smaller of the two
    amounts. *)
Theorem ConjunctPeriods_is_min startA startB psA psB :
  sched_ok startA psA -> sched_ok startB psB ->
  exists ps, let start := Z.min startA startB in
    ConjunctPeriods startA startB psA psB = Ok (start, sched_end start ps, ps) /\
    sched_ok start ps /\
    forall t d, steps start ps t d = Z.min (steps startA psA t d) (steps startB psB t d).
Proof.
  intros HA HB. destruct (conjunct_facts _ _ _ _ HA HB) as (ps & ? & ? & ? & _).
  by exists ps.
Qed.

(** [AlignSchedules] gives both schedules the earlier start time without
    moving an event, and the later of their ends. *)
Theorem AlignSchedules_preserves startA startB psA psB :
  sched_ok startA psA -> sched_ok startB psB ->
  let '(start, endT, psA', psB') := AlignSchedules startA startB psA psB in
  start = Z.min startA startB /\
  endT = Z.max (sched_end start psA') (sched_end start psB') /\
  (forall t d, steps start psA' t d = steps startA psA t d) /\
  (forall t d, steps start psB' t d = steps startB psB t d).
Proof.
  intros HA HB. destruct (AlignSchedules _ _ _ _) as [[[start endT] psA'] psB'] eqn:E.
  by destruct (align_facts _ _ _ _ _ _ _ _ HA HB E) as (? & _ & _ & ? & ? & ?).
Qed.
End properties.

(** ** The properties on concrete schedules *)

Definition ex_lockup : list Period :=
  [mkPeriod 100 [mkCoin "aISLM" 30]; mkPeriod 50 [mkCoin "aISLM" 20; mkCoin "aTEST" 5]].
Definition ex_vesting : list Period :=
  [mkPeriod 10 [mkCoin "aISLM" 25]; mkPeriod 90 [mkCoin "aISLM" 25; mkCoin "aTEST" 5]].
Definition ex_total : list coin := [mkCoin "aISLM" 50; mkCoin "aTEST" 5].

Lemma ex_lockup_ok : sched_ok 1000 ex_lockup.
Proof. by apply sched_okb_ok. Qed.

Lemma ex_vesting_ok : sched_ok 1040 ex_vesting.
Proof. by apply sched_okb_ok. Qed.

Lemma ex_schedule : schedule_of 1000 1150 ex_lockup ex_total.
Proof. by apply (schedule_of_total (H:=RefOps) (H0:=RefLaws)); [apply ex_lockup_ok| |]. Qed.

Lemma ReadSchedule_refines_steps_witness :
  amt (@ReadSchedule RefOps 1000 1150 ex_lockup ex_total 1120) "aISLM" = 30.
Proof.
  rewrite (@ReadSchedule_refines_steps RefOps RefLaws); [reflexivity|apply ex_schedule].
Defined.

Lemma ReadSchedule_monotone_witness :
  coins_le (@ReadSchedule RefOps 1000 1150 ex_lockup ex_total 1100)
           (@ReadSchedule RefOps 1000 1150 ex_lockup ex_total 1149).
Proof.
  apply (@ReadSchedule_monotone RefOps RefLaws 1000 1150 ex_lockup ex_total 1100 1149);
    [apply ex_schedule|lia].
Defined.

Lemma ReadPastPeriodCount_agrees_witness :
  @ReadSchedule RefOps 1000 1150 ex_lockup ex_total 1149 = [mkCoin "aISLM" 30].
Proof.
  rewrite (@ReadPastPeriodCount_agrees RefOps RefLaws); [reflexivity|apply ex_schedule].
Defined.

Definition ex_union : list Period :=
  [mkPeriod 50 [mkCoin "aISLM" 25]; mkPeriod 50 [mkCoin "aISLM" 30];
   mkPeriod 40 [mkCoin "aISLM" 25; mkCoin "aTEST" 5];
   mkPeriod 10 [mkCoin "aISLM" 20; mkCoin "aTEST" 5]].

Lemma DisjunctPeriods_is_union_witness :
  1000 = Z.min 1000 1040 /\ sched_ok 1000 ex_union /\ 1150 = sched_end 1000 ex_union /\
  forall t d, steps 1000 ex_union t d = steps 1000 ex_lockup t d + steps 1040 ex_vesting t d.
Proof.
  exact (@DisjunctPeriods_is_union RefOps RefLaws 1000 1040 ex_lockup ex_vesting
           ex_lockup_ok ex_vesting_ok).
Defined.

Lemma ConjunctPeriods_is_min_witness :
  exists endT ps, @ConjunctPeriods RefOps 1000 1040 ex_lockup ex_vesting = Ok (1000, endT, ps) /\
    forall d, steps 1000 ps 1120 d = Z.min (steps 1000 ex_lockup 1120 d) (steps 1040 ex_vesting 1120 d).
Proof.
  destruct (@ConjunctPeriods_is_min RefOps RefLaws 1000 1040 ex_lockup ex_vesting
              ex_lockup_ok ex_vesting_ok) as (ps & E & _ & Hps).
  exists (sched_end 1000 ps), ps. split; [exact E|]. intros d. apply (Hps 1120 d).
Defined.

Definition ex_aligned : list Period :=
  [mkPeriod 50 [mkCoin "aISLM" 25]; mkPeriod 90 [mkCoin "aISLM" 25; mkCoin "aTEST" 5]].

Lemma AlignSchedules_preserves_witness :
  1000 = Z.min 1000 1040 /\
  1150 = Z.max (sched_end 1000 ex_lockup) (sched_end 1000 ex_aligned) /\
  (forall t d, steps 1000 ex_lockup t d = steps 1000 ex_lockup t d) /\
  (forall t d, steps 1000 ex_aligned t d = steps 1040 ex_vesting t d).
Proof.
  exact (@AlignSchedules_preserves RefOps RefLaws 1000 1040 ex_lockup ex_vesting
           ex_lockup_ok ex_vesting_ok).
Defined.
