(* ===== verification/ClawbackAccount.v ===== *)
(** * Clawback vesting accounts: x/vesting/types/clawback_vesting_account.go

    The account record with its schedule queries, its validation and the two
    operations that rewrite its schedules.  [acc_ok] is the account invariant. *)

From S2P Require Import Prelude.
From S2P Require Import Sdk.
From S2P Require Import Schedule.

Local Open Scope Z_scope.
Local Open Scope haqq_scope.

(** ** Library code: addresses and go-ethereum hashes

    An [sdk.AccAddress], a [common.Address] and a [common.Hash] are byte
    strings; their textual forms are the libraries'. *)
Class EthOps := {
  (** [AccAddress.String] *)
  AddrString : string -> string;
  (** [sdk.AccAddressFromBech32] *)
  AccAddressFromBech32 : string -> option string;
  (** [crypto.Keccak256] *)
  Keccak256 : string -> string;
  (** [common.Hash.Hex] and [common.HexToHash] *)
  HashHex : string -> string;
  HexToHash : string -> string
}.

(** The SDK's addresses have between 1 and 255 bytes. *)
Definition addr_ok (a : string) : Prop := (0 < String.length a <= 255)%nat.

Class EthLaws `{EthOps} : Prop := {
  addr_roundtrip a : addr_ok a -> AccAddressFromBech32 (AddrString a) = Some a;
  addr_parses a b : AccAddressFromBech32 (AddrString a) = Some b -> b = a;
  addr_string_inj a b : AddrString a = AddrString b -> a = b;
  hash_roundtrip h : String.length h = 32%nat -> HexToHash (HashHex h) = h;
  keccak_length s : String.length (Keccak256 s) = 32%nat
}.

(** ** Data *)

(** The fields of [authtypes.BaseAccount] the modules use. *)
Record BaseAccount := mkBaseAccount { Address : string; AccountNumber : Z; Sequence : Z }.

(** [sdkvesting.BaseVestingAccount] *)
Record BaseVestingAccount := mkBVA {
  BaseAcc : BaseAccount;
  OriginalVesting : list coin;
  DelegatedFree : list coin;
  DelegatedVesting : list coin;
  EndTime : Z
}.

(** [ClawbackVestingAccount]; the start time is read in seconds only. *)
Record ClawbackVestingAccount := mkCVA {
  BVA : BaseVestingAccount;
  FunderAddress : string;
  StartTime : Z;
  LockupPeriods : list Period;
  VestingPeriods : list Period;
  CodeHash : string
}.

#[export] Instance base_account_eq_dec : EqDecision BaseAccount.
Proof. solve_decision. Defined.
#[export] Instance base_vesting_account_eq_dec : EqDecision BaseVestingAccount.
Proof. solve_decision. Defined.
#[export] Instance clawback_vesting_account_eq_dec : EqDecision ClawbackVestingAccount.
Proof. solve_decision. Defined.

Inductive AccountType := AccountTypeEOA | AccountTypeContract.

Abbreviation OV va := (OriginalVesting (BVA va)).
Abbreviation acc_end va := (EndTime (BVA va)).

Section account.
Context `{SdkOps} `{EthOps}.

Definition emptyCodeHash : string := Keccak256 "".

(** [NewClawbackVestingAccount] *)
Definition NewClawbackVestingAccount (baseAcc : BaseAccount) (funder : string)
    (originalVesting : list coin) (startTime : Z) (lockupPeriods vestingPeriods : list Period)
    (code : option string) : ClawbackVestingAccount :=
  let '(_, endTime, lp, vp) := AlignSchedules startTime startTime lockupPeriods vestingPeriods in
  let baseVestingAcc := mkBVA baseAcc originalVesting [] [] endTime in
  let codeHash := match code with
                  | Some h => HashHex h
                  | None => HashHex (Keccak256 "")
                  end in
  mkCVA baseVestingAcc (AddrString funder) startTime lp vp codeHash.

Definition GetStartTime (va : ClawbackVestingAccount) : Z := StartTime va.
Definition GetEndTime (va : ClawbackVestingAccount) : Z := acc_end va.
Definition GetVestingPeriods (va : ClawbackVestingAccount) : list Period := VestingPeriods va.

Definition GetUnlockedCoins (va : ClawbackVestingAccount) (blockTime : Z) : list coin :=
  ReadSchedule (GetStartTime va) (acc_end va) (LockupPeriods va) (OV va) blockTime.

Definition GetLockedUpCoins (va : ClawbackVestingAccount) (blockTime : Z) : res (list coin) :=
  coins_sub (OV va) (GetUnlockedCoins va blockTime).

Definition GetVestedCoins (va : ClawbackVestingAccount) (blockTime : Z) : list coin :=
  ReadSchedule (GetStartTime va) (acc_end va) (VestingPeriods va) (OV va) blockTime.

Definition GetPassedPeriodCount (va : ClawbackVestingAccount) (blockTime : Z) : nat :=
  ReadPastPeriodCount (GetStartTime va) (acc_end va) (VestingPeriods va) blockTime.

Definition GetUnlockedVestedCoins (va : ClawbackVestingAccount) (blockTime : Z) : list coin :=
  let coins := coins_min (GetUnlockedCoins va blockTime) (GetVestedCoins va blockTime) in
  if IsZero coins then [] else coins.

Definition GetLockedUpVestedCoins (va : ClawbackVestingAccount) (blockTime : Z)
    : res (list coin) :=
  coins_sub (GetVestedCoins va blockTime) (GetUnlockedVestedCoins va blockTime).

Definition GetVestingCoins (va : ClawbackVestingAccount) (blockTime : Z) : res (list coin) :=
  coins_sub (OV va) (GetVestedCoins va blockTime).

Definition LockedCoins (va : ClawbackVestingAccount) (blockTime : Z) : res (list coin) :=
  lockedUpVested ← GetLockedUpVestedCoins va blockTime;
  let lockedUpVestedDelegatedCoins :=
    coins_min (coins_add (DelegatedFree (BVA va)) (DelegatedVesting (BVA va))) lockedUpVested in
  let '(r, isNeg) :=
    SafeSub (OV va)
      (coins_add (GetUnlockedVestedCoins va blockTime) lockedUpVestedDelegatedCoins) in
  if (isNeg : bool) then Ok [] else Ok r.

(** [TrackDelegation]: the loop updates [DelegatedFree] coin by coin. *)
Fixpoint track_loop (balance amount delegatedFree : list coin) : res (list coin) :=
  match amount with
  | [] => Ok delegatedFree
  | c :: rest =>
      let baseAmt := AmountOf balance (Denom c) in
      if (Amount c =? 0) || (baseAmt <? Amount c) then Panic
      else track_loop balance rest (coins_add delegatedFree [c])
  end.

Definition set_delegated_free (df : list coin) (va : ClawbackVestingAccount)
    : ClawbackVestingAccount :=
  mkCVA (mkBVA (BaseAcc (BVA va)) (OV va) df (DelegatedVesting (BVA va)) (acc_end va))
    (FunderAddress va) (StartTime va) (LockupPeriods va) (VestingPeriods va) (CodeHash va).

Definition TrackDelegation (va : ClawbackVestingAccount) (balance amount : list coin)
    : res ClawbackVestingAccount :=
  df ← track_loop balance amount (DelegatedFree (BVA va));
  Ok (set_delegated_free df va).

(** The loops of [Validate]: the end time and the sum of a schedule. *)
Fixpoint validate_loop (endT : Z) (coins : list coin) (ps : list Period) : Z * list coin :=
  match ps with
  | [] => (endT, coins)
  | p :: rest => validate_loop (endT +64 Length p) (coins_add coins (PAmount p)) rest
  end.

(** [Validate]; the embedded account's own check is the SDK's. *)
Definition Validate (base_validate : BaseVestingAccount -> res unit)
    (va : ClawbackVestingAccount) : res unit :=
  if GetEndTime va <=? GetStartTime va then
    Err (ErrText "vesting start-time must be before end-time")
  else
    let '(lockupEnd, lockupCoins) := validate_loop (GetStartTime va) [] (LockupPeriods va) in
    if acc_end va <? lockupEnd then
      Err (ErrText "lockup schedule extends beyond account end time")
    else if negb (CoinEq lockupCoins (OV va)) then
      Err (ErrText "original vesting coins does not match the sum of all coins in lockup periods")
    else
      let '(vestingEnd, vestingCoins) :=
        validate_loop (GetStartTime va) [] (VestingPeriods va) in
      if acc_end va <? vestingEnd then
        Err (ErrText "vesting schedule extends beyond account end time")
      else if negb (CoinEq vestingCoins (OV va)) then
        Err (ErrText "original vesting coins does not match the sum of all coins in vesting periods")
      else base_validate (BVA va).

(** Writes the fields a schedule change touches. *)
Definition set_schedule (start endT : Z) (original : list coin)
    (lockup vesting : list Period) (va : ClawbackVestingAccount) : ClawbackVestingAccount :=
  mkCVA (mkBVA (BaseAcc (BVA va)) original (DelegatedFree (BVA va))
           (DelegatedVesting (BVA va)) endT)
    (FunderAddress va) start lockup vesting (CodeHash va).

(** [ComputeClawback] *)
Definition ComputeClawback (va : ClawbackVestingAccount) (clawbackTime : Z)
    : res (ClawbackVestingAccount * list coin) :=
  let totalVested := GetVestedCoins va clawbackTime in
  totalUnvested ← GetVestingCoins va clawbackTime;
  let passedPeriodID := GetPassedPeriodCount va clawbackTime in
  let newVestingPeriods := take passedPeriodID (VestingPeriods va) in
  let newVestingEnd := GetStartTime va +64 TotalLength newVestingPeriods in
  let capPeriods := [mkPeriod 0 totalVested] in
  '(_, newLockingEnd, newLockupPeriods) ←
    ConjunctPeriods (GetStartTime va) (GetStartTime va) (LockupPeriods va) capPeriods;
  Ok (set_schedule (StartTime va) (Max64 newVestingEnd newLockingEnd) totalVested
        newLockupPeriods newVestingPeriods va, totalUnvested).

(** [HasLockedCoins] *)
Definition HasLockedCoins (va : ClawbackVestingAccount) (blockTime : Z) : res bool :=
  locked ← GetLockedUpCoins va blockTime;
  Ok (negb (IsZero locked)).

(** The start time [AddGrant] gives an account that was never funded. *)
Definition init_start (grantStartTime : Z) (va : ClawbackVestingAccount)
    : ClawbackVestingAccount :=
  if bool_decide (LockupPeriods va = []) && bool_decide (VestingPeriods va = []) then
    set_schedule grantStartTime (acc_end va) (OV va) (LockupPeriods va) (VestingPeriods va) va
  else va.

(** [AddGrant] *)
Definition AddGrant (va : ClawbackVestingAccount) (grantStartTime : Z)
    (grantLockupPeriods grantVestingPeriods : list Period) (grantCoins : list coin)
    : res ClawbackVestingAccount :=
  let va := init_start grantStartTime va in
  let accStartTime := GetStartTime va in
  let '(newLockupStart, newLockupEnd, newLockupPeriods) :=
    DisjunctPeriods accStartTime grantStartTime (LockupPeriods va) grantLockupPeriods in
  let '(newVestingStart, newVestingEnd, newVestingPeriods) :=
    DisjunctPeriods accStartTime grantStartTime (GetVestingPeriods va) grantVestingPeriods in
  if negb (newLockupStart =? newVestingStart) then Err ErrVestingLockup
  else
    Ok (set_schedule newLockupStart (Max64 newLockupEnd newVestingEnd)
          (coins_add (OV va) grantCoins) newLockupPeriods newVestingPeriods va).

(** [GetCodeHash], [SetCodeHash], [Type] *)
Definition GetCodeHash (va : ClawbackVestingAccount) : string := HexToHash (CodeHash va).

Definition SetCodeHash (codeHash : string) (va : ClawbackVestingAccount)
    : ClawbackVestingAccount :=
  mkCVA (BVA va) (FunderAddress va) (StartTime va) (LockupPeriods va) (VestingPeriods va)
    (HashHex codeHash).

Definition account_type (va : ClawbackVestingAccount) : AccountType :=
  if bool_decide (emptyCodeHash = HexToHash (CodeHash va)) then AccountTypeEOA
  else AccountTypeContract.

End account.

(** ** The account invariant *)

(** Both schedules are well-formed, end by the account's end time and describe
    the original vesting amount. *)
Record acc_ok (va : ClawbackVestingAccount) : Prop := {
  ao_lock : schedule_of (StartTime va) (acc_end va) (LockupPeriods va) (OV va);
  ao_vest : schedule_of (StartTime va) (acc_end va) (VestingPeriods va) (OV va);
  ao_free : valid (DelegatedFree (BVA va));
  ao_dv : valid (DelegatedVesting (BVA va))
}.

(** A grant: two schedules of the same coins from the same start time. *)
Record grant_ok (start : Z) (lockup vesting : list Period) (coins : list coin) : Prop := {
  go_lock : sched_ok start lockup;
  go_vest : sched_ok start vesting;
  go_valid : valid coins;
  go_lock_total : forall d, amt coins d = sched_total lockup d;
  go_vest_total : forall d, amt coins d = sched_total vesting d
}.

Section facts.
Context `{SdkLaws}.

Lemma max64_max i j : Max64 i j = Z.max i j.
Proof. unfold Max64. zcases; lia. Qed.

Lemma ov_valid va : acc_ok va -> valid (OV va).
Proof. intros [[] _ _ _]. done. Qed.

Lemma unlocked_valid va t : acc_ok va -> valid (GetUnlockedCoins va t).
Proof. intros []. by apply read_valid. Qed.

Lemma vested_valid va t : acc_ok va -> valid (GetVestedCoins va t).
Proof. intros []. by apply read_valid. Qed.

Lemma vested_le va t d : acc_ok va -> 0 <= amt (GetVestedCoins va t) d <= amt (OV va) d.
Proof. intros []. split; [by apply read_nonneg|by apply read_le_total]. Qed.

Lemma unlocked_le va t d : acc_ok va -> 0 <= amt (GetUnlockedCoins va t) d <= amt (OV va) d.
Proof. intros []. split; [by apply read_nonneg|by apply read_le_total]. Qed.

Lemma vested_early va t d : t <= StartTime va -> amt (GetVestedCoins va t) d = 0.
Proof. apply read_early. Qed.

Lemma unlocked_early va t d : t <= StartTime va -> amt (GetUnlockedCoins va t) d = 0.
Proof. apply read_early. Qed.

Lemma vested_steps va t d : acc_ok va -> StartTime va < t ->
  amt (GetVestedCoins va t) d = steps (StartTime va) (VestingPeriods va) t d.
Proof. intros []. by apply read_steps. Qed.

Lemma unlocked_steps va t d : acc_ok va -> StartTime va < t ->
  amt (GetUnlockedCoins va t) d = steps (StartTime va) (LockupPeriods va) t d.
Proof. intros []. by apply read_steps. Qed.

#[local] Hint Resolve ov_valid unlocked_valid vested_valid : coins.

Lemma is_zero_nil cs : valid cs -> (if IsZero cs then [] else cs) = cs.
Proof.
  intros Hv. destruct (IsZero cs) eqn:E; [|done].
  assert (Z0 : forall d, amt cs d = 0) by (apply is_zero_spec; auto with coins).
  apply valid_ext; auto with coins.
Qed.

Lemma unlocked_vested_min va t : acc_ok va ->
  GetUnlockedVestedCoins va t = coins_min (GetUnlockedCoins va t) (GetVestedCoins va t).
Proof. intros. apply is_zero_nil. auto with coins. Qed.

Lemma amt_unlocked_vested va t d : acc_ok va ->
  amt (GetUnlockedVestedCoins va t) d
  = Z.min (amt (GetUnlockedCoins va t) d) (amt (GetVestedCoins va t) d).
Proof. intros. rewrite unlocked_vested_min by done. apply amt_min; auto with coins. Qed.

Lemma unlocked_vested_valid va t : acc_ok va -> valid (GetUnlockedVestedCoins va t).
Proof. intros. rewrite unlocked_vested_min by done. auto with coins. Qed.

#[local] Hint Resolve unlocked_vested_valid : coins.

Lemma vesting_coins_ok va t : acc_ok va ->
  exists c, GetVestingCoins va t = Ok c /\ valid c /\
    forall d, amt c d = amt (OV va) d - amt (GetVestedCoins va t) d.
Proof.
  intros Hva. apply sub_ok; auto with coins. intros d. by apply vested_le.
Qed.

Lemma locked_up_ok va t : acc_ok va ->
  exists c, GetLockedUpCoins va t = Ok c /\ valid c /\
    forall d, amt c d = amt (OV va) d - amt (GetUnlockedCoins va t) d.
Proof.
  intros Hva. apply sub_ok; auto with coins. intros d. by apply unlocked_le.
Qed.

Lemma locked_up_vested_ok va t : acc_ok va ->
  exists c, GetLockedUpVestedCoins va t = Ok c /\ valid c /\
    forall d, amt c d = amt (GetVestedCoins va t) d - amt (GetUnlockedVestedCoins va t) d.
Proof.
  intros Hva. apply sub_ok; auto with coins. intros d.
  rewrite amt_unlocked_vested by done. lia.
Qed.

(** What [LockedCoins] returns, and that its negative branch is never taken. *)
Lemma locked_coins_ok va t : acc_ok va ->
  exists c, LockedCoins va t = Ok c /\ valid c /\
    forall d, amt c d
      = amt (OV va) d - amt (GetUnlockedVestedCoins va t) d
        - Z.min (amt (DelegatedFree (BVA va)) d + amt (DelegatedVesting (BVA va)) d)
                (amt (GetVestedCoins va t) d - amt (GetUnlockedVestedCoins va t) d).
Proof.
  intros Hva. destruct (locked_up_vested_ok va t Hva) as (lv & El & Vl & Al).
  pose proof Hva as [_ _ Vf Vd]. unfold LockedCoins. rewrite El. simpl.
  set (del := coins_min (coins_add (DelegatedFree (BVA va)) (DelegatedVesting (BVA va))) lv).
  assert (Vdel : valid del) by (unfold del; auto with coins).
  assert (Adel : forall d, amt del d
    = Z.min (amt (DelegatedFree (BVA va)) d + amt (DelegatedVesting (BVA va)) d) (amt lv d)).
  { intros d. unfold del. by rewrite amt_min, amt_add by auto with coins. }
  destruct (safe_sub_ok (OV va) (coins_add (GetUnlockedVestedCoins va t) del))
    as (c & Ec & Vc & Ac); auto with coins.
  { intros d. rewrite amt_add, Adel, Al by auto with coins.
    pose proof (vested_le va t d Hva). lia. }
  rewrite Ec. exists c. split_and!; [done..|].
  intros d. rewrite Ac, amt_add, Adel, Al by auto with coins. lia.
Qed.

(** *** Clawback *)

Lemma steps_take_passed start ps t t' d : sched_ok start ps ->
  steps start (take (passed start ps t) ps) t' d = steps start ps (Z.min t t') d.
Proof.
  revert start. induction ps as [|p ps IH]; intros start Hok; [done|].
  pose proof Hok as Hok'. apply sched_ok_cons in Hok as (_ & _ & _ & Hok & _). simpl.
  destruct (Z.leb_spec (start + Length p) t) as [L|L]; simpl.
  - rewrite IH by done. zcases; lia.
  - pose proof (steps_early start (p :: ps) (Z.min t t') d Hok') as E.
    simpl in E. lia.
Qed.

(** The vesting schedule cut at the clawback time. *)
Lemma cut_vesting start endT ps total t d :
  schedule_of start endT ps total ->
  let n := ReadPastPeriodCount start endT ps t in
  sched_total (take n ps) d = amt (ReadSchedule start endT ps total t) d /\
  forall t', start < t' ->
    steps start (take n ps) t' d
    = Z.min (steps start ps t' d) (amt (ReadSchedule start endT ps total t) d).
Proof.
  intros Hs. pose proof Hs as [Hok He Hv Ht]. cbv zeta.
  destruct (Z.le_gt_cases t start) as [L|L].
  - assert (ReadPastPeriodCount start endT ps t = 0%nat) as ->
      by (unfold ReadPastPeriodCount; destruct (Z.leb_spec t start); [done|lia]).
    rewrite read_early by done. split; [done|]. intros t' _.
    pose proof (steps_nonneg start ps t' d Hok). simpl. lia.
  - rewrite count_passed, read_steps by done. split; [by apply passed_total|].
    intros t' L'. rewrite steps_take_passed by done.
    destruct (Z.le_ge_cases t t') as [C|C].
    + rewrite Z.min_l by done. pose proof (steps_mono start ps t t' d Hok C). lia.
    + rewrite (Z.min_r t t') by done. pose proof (steps_mono start ps t' t d Hok C). lia.
Qed.

Lemma cap_ok va t : acc_ok va -> sched_ok (StartTime va) [mkPeriod 0 (GetVestedCoins va t)].
Proof.
  intros Hva. pose proof (sched_ok_time _ _ (so_ok _ _ _ _ (ao_lock va Hva))) as Ht.
  simpl. rewrite Z.add_0_r. split_and!; auto with coins. lia.
Qed.

(** The account [ComputeClawback] returns. *)
Lemma clawback_facts va t : acc_ok va ->
  exists va' unvested, ComputeClawback va t = Ok (va', unvested) /\
    acc_ok va' /\ valid unvested /\ OV va' = GetVestedCoins va t /\
    (forall d, amt unvested d = amt (OV va) d - amt (GetVestedCoins va t) d) /\
    (forall t', GetVestedCoins va' t' = coins_min (GetVestedCoins va t') (GetVestedCoins va t)) /\
    (forall t', GetUnlockedCoins va' t' = coins_min (GetUnlockedCoins va t') (GetVestedCoins va t)) /\
    FunderAddress va' = FunderAddress va /\ BaseAcc (BVA va') = BaseAcc (BVA va) /\
    DelegatedFree (BVA va') = DelegatedFree (BVA va) /\
    DelegatedVesting (BVA va') = DelegatedVesting (BVA va) /\
    StartTime va' = StartTime va /\ CodeHash va' = CodeHash va.
Proof.
  intros Hva. pose proof Hva as [Hl Hv Vf Vd].
  destruct (vesting_coins_ok va t Hva) as (unv & Eu & Vu & Au).
  destruct (conjunct_facts (StartTime va) (StartTime va) (LockupPeriods va)
              [mkPeriod 0 (GetVestedCoins va t)] (so_ok _ _ _ _ Hl) (cap_ok va t Hva))
    as (ps & Ec & Okps & Sps & Tps).
  rewrite Z.min_id in *.
  set (vs := take (GetPassedPeriodCount va t) (VestingPeriods va)).
  assert (Okvs : sched_ok (StartTime va) vs) by (apply sched_ok_take, Hv).
  pose proof (fun d => cut_vesting _ _ _ _ t d Hv) as Hcut.
  set (va' := set_schedule (StartTime va) (Max64 (sched_end (StartTime va) vs)
                (sched_end (StartTime va) ps)) (GetVestedCoins va t) ps vs va).
  assert (Hva' : acc_ok va').
  { constructor; simpl; try done; constructor; simpl; rewrite ?max64_max; try lia; auto with coins.
    - intros d. rewrite Tps. simpl. pose proof (vested_le va t d Hva).
      rewrite <- (so_total _ _ _ _ Hl). lia.
    - intros d. symmetry. apply Hcut. }
  exists va', unv. split; [|split_and!; try done].
  - unfold ComputeClawback, GetStartTime. rewrite Eu. simpl. rewrite Ec. simpl.
    by rewrite (total_length_end _ vs Okvs).
  - intros t'. apply valid_ext; auto with coins. intros d. rewrite amt_min by auto with coins.
    destruct (Z.le_gt_cases t' (StartTime va)) as [L|L].
    + rewrite !(vested_early _ t') by done. pose proof (vested_le va t d Hva). lia.
    + rewrite !(vested_steps _ t') by done. by apply Hcut.
  - intros t'. apply valid_ext; auto with coins. intros d. rewrite amt_min by auto with coins.
    destruct (Z.le_gt_cases t' (StartTime va)) as [L|L].
    + rewrite !(unlocked_early _ t') by done. pose proof (vested_le va t d Hva). lia.
    + rewrite !(unlocked_steps _ t') by done. simpl. rewrite Sps. simpl.
      zcases; [|lia]. f_equal. lia.
Qed.

(** *** Grants *)

(** Merging a grant into the schedules of an account. *)
Lemma merge_grant va gs gl gv gc ls le lps vs ve vps :
  sched_ok (StartTime va) (LockupPeriods va) -> sched_ok (StartTime va) (VestingPeriods va) ->
  valid (OV va) -> (forall d, amt (OV va) d = sched_total (LockupPeriods va) d) ->
  (forall d, amt (OV va) d = sched_total (VestingPeriods va) d) ->
  grant_ok gs gl gv gc ->
  DisjunctPeriods (StartTime va) gs (LockupPeriods va) gl = (ls, le, lps) ->
  DisjunctPeriods (StartTime va) gs (VestingPeriods va) gv = (vs, ve, vps) ->
  ls = Z.min (StartTime va) gs /\ vs = Z.min (StartTime va) gs /\
  schedule_of ls (Max64 le ve) lps (coins_add (OV va) gc) /\
  schedule_of ls (Max64 le ve) vps (coins_add (OV va) gc) /\
  (forall t d, steps ls lps t d = steps (StartTime va) (LockupPeriods va) t d + steps gs gl t d) /\
  (forall t d, steps ls vps t d = steps (StartTime va) (VestingPeriods va) t d + steps gs gv t d).
Proof.
  intros Ol Ov Vo Tl Tv [Gl Gv Gc GTl GTv] El Ev.
  destruct (disjunct_facts _ _ _ _ _ _ _ Ol Gl El) as (-> & Okl & -> & Sl & TTl).
  destruct (disjunct_facts _ _ _ _ _ _ _ Ov Gv Ev) as (-> & Okv & -> & Sv & TTv).
  split_and!; try done; constructor; rewrite ?max64_max; try done; try lia; auto with coins.
  - intros d. rewrite amt_add, TTl, Tl, GTl by auto with coins. done.
  - intros d. rewrite amt_add, TTv, Tv, GTv by auto with coins. done.
Qed.

Lemma sched_total_nil_ov va : acc_ok va -> LockupPeriods va = [] -> forall d, amt (OV va) d = 0.
Proof. intros Hva E d. rewrite (so_total _ _ _ _ (ao_lock va Hva)), E. done. Qed.

(** [init_start] keeps everything but possibly the start of an empty account. *)
Lemma init_start_facts va gs : acc_ok va -> time_ok gs ->
  let va1 := init_start gs va in
  sched_ok (StartTime va1) (LockupPeriods va1) /\ sched_ok (StartTime va1) (VestingPeriods va1) /\
  OV va1 = OV va /\ LockupPeriods va1 = LockupPeriods va /\
  VestingPeriods va1 = VestingPeriods va /\ BVA va1 = BVA va /\ CodeHash va1 = CodeHash va /\
  (forall t d, steps (StartTime va1) (LockupPeriods va1) t d
               = steps (StartTime va) (LockupPeriods va) t d) /\
  (forall t d, steps (StartTime va1) (VestingPeriods va1) t d
               = steps (StartTime va) (VestingPeriods va) t d) /\
  (StartTime va1 = StartTime va \/ StartTime va1 = gs).
Proof.
  intros [[] [] _ _] Ht. cbv zeta. unfold init_start. destruct va as [bva f st lp vp ch].
  destruct bva. simpl in *. repeat case_bool_decide; subst; simpl; split_and!; eauto using sched_ok_time.
Qed.

(** *** Validation *)

Lemma coin_eq_spec a b : valid a -> valid b -> CoinEq a b = true <-> forall d, amt a d = amt b d.
Proof.
  intros Ha Hb. unfold CoinEq. rewrite andb_true_iff, !lte_spec by done. unfold coins_le.
  split; [intros [L1 L2] d; specialize (L1 d); specialize (L2 d); lia|].
  intros E. split; intros d; rewrite (E d); lia.
Qed.

Lemma validate_loop_spec start coins ps : sched_ok start ps -> valid coins ->
  exists c, validate_loop start coins ps = (sched_end start ps, c) /\ valid c /\
    forall d, amt c d = amt coins d + sched_total ps d.
Proof.
  revert start coins. induction ps as [|p ps IH]; intros start coins Hok Hc; simpl.
  - exists coins. split_and!; auto. intros. lia.
  - apply sched_ok_cons in Hok as (_ & _ & Hv & Hok & ->).
    destruct (IH (start + Length p) (coins_add coins (PAmount p)) Hok) as (c & -> & Vc & Ac);
      [auto with coins|].
    exists c. split_and!; auto. intros d. rewrite Ac, amt_add by auto with coins. lia.
Qed.

(** One half of [Validate]: the two tests on a schedule. *)
Lemma validate_schedule start endT ps total : sched_ok start ps -> valid total ->
  forall e c, validate_loop start [] ps = (e, c) ->
  ((endT <? e) = false /\ CoinEq c total = true <-> schedule_of start endT ps total).
Proof.
  intros Hok Hv e c E. destruct (validate_loop_spec start [] ps Hok) as (c' & E' & Vc & Ac);
    [auto with coins|].
  rewrite E' in E. injection E as <- <-. rewrite Z.ltb_ge, coin_eq_spec by done. split.
  - intros [L T]. constructor; auto. intros d. by rewrite <- T, Ac.
  - intros [_ L _ T]. split; [done|]. intros d. by rewrite T, Ac.
Qed.

(** *** Delegation *)

Lemma track_loop_ok balance amount df : operand balance -> valid amount -> valid df ->
  (forall d, amt amount d <= amt balance d) ->
  exists df', track_loop balance amount df = Ok df' /\ valid df' /\
    forall d, amt df' d = amt df d + amt amount d.
Proof.
  intros Hb [Sa Pa] Hd. revert df Hd.
  induction Sa as [|c amount Sa IH Hc]; intros df Hd Hle; simpl.
  - exists df. split_and!; auto. intros. lia.
  - apply list.Forall_cons in Pa as [Pc Pa]. rewrite amount_of_spec by done.
    assert (Hcb : Amount c <= amt balance (Denom c)).
    { specialize (Hle (Denom c)). rewrite amt_head in Hle by done. lia. }
    destruct (Z.eqb_spec (Amount c) 0); [lia|].
    destruct (Z.ltb_spec (amt balance (Denom c)) (Amount c)); [lia|]. simpl.
    assert (Oc : operand [c]) by (destruct c; apply operand_single; simpl in *; lia).
    assert (Aa : forall d, 0 <= amt amount d) by (intros; apply valid_nonneg; by split).
    destruct (IH Pa (coins_add df [c])) as (df' & -> & Vd' & Ad').
    { auto with coins. }
    { intros d. specialize (Hle d). simpl in Hle. case_decide; [lia|lia]. }
    exists df'. split_and!; auto. intros d. rewrite Ad', amt_add by auto with coins.
    simpl. case_decide; lia.
Qed.

(** *** New accounts *)

(** Two schedules of one start are aligned already. *)
Lemma shift_first_zero start ps : sched_ok start ps -> shift_first 0 ps = ps.
Proof.
  destruct ps as [|p ps]; [done|]. intros Hok. apply sched_ok_cons in Hok as (T1 & L & _ & Ok2 & _).
  apply sched_ok_time in Ok2. simpl. f_equal. destruct p. simpl in *. f_equal.
  unfold i64_add. rewrite Z.add_0_r. apply wrap_i64_id.
  unfold time_ok, min_i64, max_i64 in *. lia.
Qed.

Lemma new_account_facts `{EthOps} base funder start lockup vesting coins code :
  grant_ok start lockup vesting coins ->
  let va := mkCVA (mkBVA base coins [] [] (Z.max (sched_end start lockup) (sched_end start vesting)))
              (AddrString funder) start lockup vesting
              (HashHex (default (Keccak256 "") code)) in
  NewClawbackVestingAccount base funder coins start lockup vesting code = va /\ acc_ok va.
Proof.
  intros [Gl Gv Vc Tl Tv] va. split.
  - unfold NewClawbackVestingAccount, AlignSchedules, Min64. rewrite Z.ltb_irrefl.
    rewrite i64_sub_ok, Z.sub_diag by (eapply sched_ok_time; done).
    rewrite !(shift_first_zero start), !total_length_end, max64_max by done.
    by destruct code.
  - constructor; simpl; auto with coins; constructor; auto; simpl; lia.
Qed.
End facts.

(** ** Properties *)

Section properties.
Context `{SdkLaws} `{EthLaws}.

(** At every time the original vesting amount is partitioned into the
    unvested coins, the vested coins still locked up and the vested and
    unlocked coins; none of the three queries panics. *)
Theorem vesting_partition va t :
  acc_ok va ->
  exists unvested locked,
    GetVestingCoins va t = Ok unvested /\ GetLockedUpVestedCoins va t = Ok locked /\
    valid unvested /\ valid locked /\ valid (GetUnlockedVestedCoins va t) /\
    forall d, amt (OV va) d
      = amt unvested d + amt locked d + amt (GetUnlockedVestedCoins va t) d.
Proof.
  intros Hva. destruct (vesting_coins_ok va t Hva) as (u & Eu & Vu & Au).
  destruct (locked_up_vested_ok va t Hva) as (l & El & Vl & Al).
  exists u, l. split_and!; auto using unlocked_vested_valid. intros d. rewrite Au, Al. lia.
Qed.

(** [LockedCoins] never panics; it is what is neither vested and unlocked
    nor delegated out of the locked vested coins, lies between zero and the
    original vesting amount, and is zero from the end time on. *)
Theorem LockedCoins_bounds va t :
  acc_ok va ->
  exists c, LockedCoins va t = Ok c /\ valid c /\ coins_le c (OV va) /\
    (forall d, amt c d = amt (OV va) d - amt (GetUnlockedVestedCoins va t) d
       - Z.min (amt (DelegatedFree (BVA va)) d + amt (DelegatedVesting (BVA va)) d)
               (amt (GetVestedCoins va t) d - amt (GetUnlockedVestedCoins va t) d)) /\
    (StartTime va < t -> acc_end va <= t -> c = []).
Proof.
  intros Hva. destruct (locked_coins_ok va t Hva) as (c & Ec & Vc & Ac).
  pose proof Hva as [Hl Hv Vf Vd].
  pose proof (fun d => valid_nonneg _ d Vf) as Pf. pose proof (fun d => valid_nonneg _ d Vd) as Pd.
  exists c. split_and!; auto.
  - intros d. rewrite Ac. specialize (Pf d). specialize (Pd d).
    rewrite amt_unlocked_vested by done.
    pose proof (vested_le va t d Hva). pose proof (unlocked_le va t d Hva). lia.
  - intros L1 L2. apply valid_ext; auto with coins. intros d. rewrite Ac.
    specialize (Pf d). specialize (Pd d).
    rewrite amt_unlocked_vested, vested_steps, unlocked_steps by done.
    destruct Hl as [Ol El _ Tl], Hv as [Ov Ev _ Tv].
    rewrite !steps_late by (done || lia). rewrite <- Tl, <- Tv. simpl. lia.
Qed.

(** [ComputeClawback] never panics and keeps the account invariant.  The
    coins it claws back are exactly the unvested ones; afterwards the vested
    and the unlocked coins are, at every time, those of before capped by what
    was vested at the clawback; owner, funder, delegations, start and code stay. *)
Theorem ComputeClawback_correct va t :
  acc_ok va ->
  exists va' unvested, ComputeClawback va t = Ok (va', unvested) /\
    acc_ok va' /\ GetVestingCoins va t = Ok unvested /\
    OV va' = GetVestedCoins va t /\
    (forall t', GetVestedCoins va' t' = coins_min (GetVestedCoins va t') (GetVestedCoins va t)) /\
    (forall t', GetUnlockedCoins va' t' = coins_min (GetUnlockedCoins va t') (GetVestedCoins va t)) /\
    FunderAddress va' = FunderAddress va /\ BaseAcc (BVA va') = BaseAcc (BVA va) /\
    DelegatedFree (BVA va') = DelegatedFree (BVA va) /\
    DelegatedVesting (BVA va') = DelegatedVesting (BVA va) /\
    StartTime va' = StartTime va /\ CodeHash va' = CodeHash va.
Proof.
  intros Hva.
  destruct (clawback_facts va t Hva) as (va' & u & E & Hva' & Vu & Eo & Au & Hrest).
  exists va', u. split_and!; try tauto.
  destruct (vesting_coins_ok va t Hva) as (u' & Eu & Vu' & Au').
  rewrite Eu. f_equal. apply valid_ext; auto. intros d. by rewrite Au, Au'.
Qed.

(** [AddGrant] merges a well-formed grant without failing: the invariant
    holds again, the original vesting amount grows by the grant, and after both
    start times the vested and the unlocked coins are the sums of the account's
    and the grant's. *)
Theorem AddGrant_correct va gs gl gv gc :
  acc_ok va -> grant_ok gs gl gv gc ->
  exists va', AddGrant va gs gl gv gc = Ok va' /\ acc_ok va' /\
    OV va' = coins_add (OV va) gc /\
    forall t d, StartTime va < t -> gs < t ->
      amt (GetVestedCoins va' t) d = amt (GetVestedCoins va t) d + steps gs gv t d /\
      amt (GetUnlockedCoins va' t) d = amt (GetUnlockedCoins va t) d + steps gs gl t d.
Proof.
  intros Hva Hg. pose proof (sched_ok_time _ _ (go_lock _ _ _ _ Hg)) as Tg.
  pose proof (init_start_facts va gs Hva Tg) as Hi. cbv zeta in Hi.
  unfold AddGrant, GetStartTime, GetVestingPeriods. set (va1 := init_start gs va) in *.
  destruct Hi as (Ol & Ov & Eo & El & Ev & Eb & _ & Sl & Sv & Hst).
  destruct (DisjunctPeriods (StartTime va1) gs (LockupPeriods va1) gl) as [[ls le] lps] eqn:E1.
  destruct (DisjunctPeriods (StartTime va1) gs (VestingPeriods va1) gv) as [[vs ve] vps] eqn:E2.
  destruct (merge_grant va1 gs gl gv gc ls le lps vs ve vps) as (E3 & E4 & Hl' & Hv' & S1 & S2);
    auto.
  { rewrite Eo. by apply ov_valid. }
  { intros d. rewrite Eo, El. apply (so_total _ _ _ _ (ao_lock va Hva)). }
  { intros d. rewrite Eo, Ev. apply (so_total _ _ _ _ (ao_vest va Hva)). }
  rewrite E3, E4, Z.eqb_refl. simpl. rewrite <- E3.
  eexists. split; [done|].
  match goal with |- acc_ok ?v /\ _ => set (va' := v) end.
  assert (Hva' : acc_ok va').
  { constructor; simpl; try done; rewrite Eb; apply Hva. }
  split_and!; [done|simpl; by rewrite Eo|].
  intros t d L1 L2. assert (L3 : StartTime va' < t) by (simpl; destruct Hst; lia).
  rewrite !vested_steps, !unlocked_steps by done. simpl. rewrite S1, S2, Sl, Sv. done.
Qed.

(** On an account whose schedules are well-formed, [Validate] succeeds
    exactly when the account invariant holds on them, the start precedes the
    end and the embedded account is valid. *)
Theorem Validate_iff_invariant base_validate va :
  sched_ok (StartTime va) (LockupPeriods va) -> sched_ok (StartTime va) (VestingPeriods va) ->
  valid (OV va) ->
  Validate base_validate va = Ok tt <->
    (StartTime va < acc_end va /\
     schedule_of (StartTime va) (acc_end va) (LockupPeriods va) (OV va) /\
     schedule_of (StartTime va) (acc_end va) (VestingPeriods va) (OV va) /\
     base_validate (BVA va) = Ok tt).
Proof.
  intros Ol Ov Vo. unfold Validate, GetEndTime, GetStartTime.
  destruct (validate_loop (StartTime va) [] (LockupPeriods va)) as [le lc] eqn:E1.
  destruct (validate_loop (StartTime va) [] (VestingPeriods va)) as [ve vc] eqn:E2.
  rewrite <- (validate_schedule _ (acc_end va) _ (OV va) Ol Vo le lc E1).
  rewrite <- (validate_schedule _ (acc_end va) _ (OV va) Ov Vo ve vc E2).
  destruct (Z.leb_spec (acc_end va) (StartTime va)); [split; [done|lia]|].
  destruct (acc_end va <? le); [split; [done|intuition discriminate]|].
  destruct (CoinEq lc (OV va)); [|split; [done|intuition discriminate]].
  destruct (acc_end va <? ve); [split; [done|intuition discriminate]|].
  destruct (CoinEq vc (OV va)); simpl; [|split; [done|intuition discriminate]].
  tauto.
Qed.

(** [NewClawbackVestingAccount] on a well-formed grant builds an account
    that satisfies the invariant, ends with the later of its schedules, has no
    delegations, and is an externally owned account when given no code. *)
Theorem NewClawbackVestingAccount_ok base funder start lockup vesting coins :
  grant_ok start lockup vesting coins ->
  let va := NewClawbackVestingAccount base funder coins start lockup vesting None in
  acc_ok va /\ OV va = coins /\ FunderAddress va = AddrString funder /\
  acc_end va = Z.max (sched_end start lockup) (sched_end start vesting) /\
  account_type va = AccountTypeEOA.
Proof.
  intros Hg. destruct (new_account_facts base funder start lockup vesting coins None Hg)
    as (-> & Hok). split_and!; try done.
  unfold account_type, emptyCodeHash. simpl.
  rewrite hash_roundtrip by apply keccak_length. by rewrite bool_decide_eq_true_2.
Qed.

(** [TrackDelegation] of a valid amount covered by the balance does not
    panic and adds exactly that amount to the delegated free coins, touching
    nothing else of the account. *)
Theorem TrackDelegation_adds va balance amount :
  acc_ok va -> operand balance -> valid amount -> coins_le amount balance ->
  exists df, TrackDelegation va balance amount = Ok (set_delegated_free df va) /\
    valid df /\ acc_ok (set_delegated_free df va) /\
    forall d, amt df d = amt (DelegatedFree (BVA va)) d + amt amount d.
Proof.
  intros Hva Hb Ha Hle. destruct Hva as [Hl Hv Vf Vd].
  destruct (track_loop_ok balance amount (DelegatedFree (BVA va))) as (df & E & V & A); auto.
  exists df. unfold TrackDelegation. rewrite E. split_and!; auto. by constructor.
Qed.
End properties.

(** ** A reference instance of the address and hash functions *)

Section RefEthSection.

#[local] Instance RefEth : EthOps := {
  AddrString a := "haqq1" +:+ a;
  AccAddressFromBech32 s := strip_prefix "haqq1" s;
  Keccak256 s := "0123456789abcdef0123456789abcdef";
  HashHex h := "0x" +:+ h;
  HexToHash s := default s (strip_prefix "0x" s)
}.

Lemma RefEthLaws : EthLaws.
Proof.
  constructor; [done| | |done|done]; intros a b E.
  - change (Some a = Some b) in E. congruence.
  - apply (f_equal AccAddressFromBech32) in E. change (Some a = Some b) in E. congruence.
Qed.
End RefEthSection.

(** ** The properties on a concrete account *)

Definition ex_base : BaseAccount := mkBaseAccount "alice" 7 3.
Definition ex_ov : list coin := [mkCoin "aISLM" 50; mkCoin "aTEST" 5].
Definition ex_account : ClawbackVestingAccount :=
  mkCVA (mkBVA ex_base ex_ov [mkCoin "aISLM" 4] [] 1150) "haqq1funder" 1000
    ex_lockup ex_vesting "0x0123456789abcdef0123456789abcdef".
Definition ex_grant : list Period := [mkPeriod 200 [mkCoin "aISLM" 8]].

Lemma ex_account_ok : acc_ok ex_account.
Proof.
  constructor; [| |by apply ref_valid|by apply ref_valid];
    apply (schedule_of_total (H:=RefOps) (H0:=RefLaws)); try done; by apply sched_okb_ok.
Qed.

Lemma ex_grant_ok : grant_ok 900 ex_grant ex_grant [mkCoin "aISLM" 8].
Proof.
  constructor; [by apply sched_okb_ok|by apply sched_okb_ok|by apply ref_valid| |];
    intros d; simpl; lia.
Qed.

Lemma vesting_partition_witness :
  exists unvested locked,
    @GetVestingCoins RefOps ex_account 1105 = Ok unvested /\
    @GetLockedUpVestedCoins RefOps ex_account 1105 = Ok locked /\
    50 = amt unvested "aISLM" + amt locked "aISLM" + 30.
Proof.
  destruct (@vesting_partition RefOps RefLaws ex_account 1105 ex_account_ok)
    as (u & l & E1 & E2 & _ & _ & _ & Hp).
  exists u, l. split; [exact E1|split; [exact E2|exact (Hp "aISLM")]].
Defined.

Lemma LockedCoins_bounds_witness :
  exists c, @LockedCoins RefOps ex_account 1150 = Ok c /\ c = [].
Proof.
  destruct (@LockedCoins_bounds RefOps RefLaws ex_account 1150 ex_account_ok)
    as (c & E & _ & _ & _ & Hc).
  exists c. split; [exact E|]. apply Hc; vm_compute; congruence.
Defined.

Lemma ComputeClawback_correct_witness :
  exists va' u, @ComputeClawback RefOps ex_account 1050 = Ok (va', u) /\
    OV va' = [mkCoin "aISLM" 25] /\ acc_ok va'.
Proof.
  destruct (@ComputeClawback_correct RefOps RefLaws ex_account 1050 ex_account_ok)
    as (va' & u & E & Hok & _ & Eo & _).
  exists va', u. split; [exact E|]. split; [|exact Hok]. rewrite Eo. reflexivity.
Defined.

Lemma AddGrant_correct_witness :
  exists va', @AddGrant RefOps ex_account 900 ex_grant ex_grant [mkCoin "aISLM" 8] = Ok va' /\
    OV va' = [mkCoin "aISLM" 58; mkCoin "aTEST" 5].
Proof.
  destruct (@AddGrant_correct RefOps RefLaws ex_account 900 ex_grant ex_grant
              [mkCoin "aISLM" 8] ex_account_ok ex_grant_ok) as (va' & E & _ & Eo & _).
  exists va'. split; [exact E|]. rewrite Eo. reflexivity.
Defined.

Lemma Validate_iff_invariant_witness :
  @Validate RefOps (fun _ => Ok tt) ex_account = Ok tt /\ 1000 < 1150.
Proof.
  assert (E : @Validate RefOps (fun _ => Ok tt) ex_account = Ok tt) by reflexivity.
  split; [exact E|].
  apply (proj1 (@Validate_iff_invariant RefOps RefLaws (fun _ => Ok tt) ex_account
    (so_ok _ _ _ _ (ao_lock _ ex_account_ok)) (so_ok _ _ _ _ (ao_vest _ ex_account_ok))
    (so_valid _ _ _ _ (ao_lock _ ex_account_ok))) E).
Defined.

Lemma NewClawbackVestingAccount_ok_witness :
  acc_end (@NewClawbackVestingAccount RefOps RefEth ex_base "bob" [mkCoin "aISLM" 8] 900
             ex_grant ex_grant None) = 1100.
Proof.
  destruct (@NewClawbackVestingAccount_ok RefOps RefLaws RefEth RefEthLaws ex_base "bob" 900
              ex_grant ex_grant [mkCoin "aISLM" 8] ex_grant_ok) as (_ & _ & _ & E & _).
  exact E.
Defined.

Lemma TrackDelegation_adds_witness :
  exists df, @TrackDelegation RefOps ex_account [mkCoin "aISLM" 9] [mkCoin "aISLM" 6]
    = Ok (set_delegated_free df ex_account) /\ amt df "aISLM" = 10.
Proof.
  destruct (@TrackDelegation_adds RefOps RefLaws ex_account [mkCoin "aISLM" 9] [mkCoin "aISLM" 6]
              ex_account_ok) as (df & E & _ & _ & A).
  - apply operand_single. lia.
  - apply valid_single. lia.
  - intros d. rewrite !amt_single. case_decide; lia.
  - exists df. split; [exact E|]. rewrite A. reflexivity.
Defined.
