(* ===== verification/Keepers.v ===== *)
(** * The keepers the modules are given

    The modules' expected-keeper interfaces (x/*/types/interfaces.go,
    expected_keepers.go) as classes over the chain state [W]: what another
    module offers is an operation of a class, and [KeeperLaws] states the
    documented behaviour that the handlers' theorems use.  [RefWorld] is one
    implementation, for concrete runs. *)

From S2P Require Import Prelude.
From S2P Require Import Sdk.
From S2P Require Import Schedule.
From S2P Require Import ClawbackAccount.

Local Open Scope Z_scope.

(** The account types a handler can meet behind [sdk.AccountI]: its type
    assertions distinguish [EthAccount] and [ClawbackVestingAccount]. *)
Inductive Account :=
  | EthAcc (base : BaseAccount) (codeHash : string)
  | ClawbackAcc (va : ClawbackVestingAccount)
  | OtherAcc (base : BaseAccount).

Definition acc_base (acc : Account) : BaseAccount :=
  match acc with
  | EthAcc b _ => b
  | ClawbackAcc va => BaseAcc (BVA va)
  | OtherAcc b => b
  end.

Definition acc_address (acc : Account) : string := Address (acc_base acc).

(** [SetAccountNumber] on the base account. *)
Definition renumber (n : Z) (b : BaseAccount) : BaseAccount :=
  mkBaseAccount (Address b) n (Sequence b).

Definition renumber_va (n : Z) (va : ClawbackVestingAccount) : ClawbackVestingAccount :=
  mkCVA (mkBVA (renumber n (BaseAcc (BVA va))) (OV va) (DelegatedFree (BVA va))
           (DelegatedVesting (BVA va)) (acc_end va))
    (FunderAddress va) (StartTime va) (LockupPeriods va) (VestingPeriods va) (CodeHash va).

Definition renumber_acc (n : Z) (acc : Account) : Account :=
  match acc with
  | EthAcc b h => EthAcc (renumber n b) h
  | ClawbackAcc va => ClawbackAcc (renumber_va n va)
  | OtherAcc b => OtherAcc (renumber n b)
  end.

(** ** Interfaces *)

(** The block's context. *)
Class Ctx (W : Type) := { BlockTime : W -> Z }.

Class AccountKeeper (W : Type) := {
  GetAccount : string -> W -> option Account;
  SetAccount : Account -> W -> W;
  NewAccount : Account -> W -> Account * W;
  GetModuleAddress : string -> string;
  (** the address of a module's account, when there is one *)
  GetModuleAccount : string -> W -> option string;
  (** the accounts [IterateAccounts] visits *)
  AllAccounts : W -> list Account
}.

Class BankKeeper (W : Type) := {
  BlockedAddr : string -> bool;
  GetBalance : string -> string -> W -> Z;
  SendCoins : string -> string -> list coin -> M W unit
}.

Class StakingKeeper (W : Type) := {
  Validator : Type;
  GetDelegatorBonded : string -> W -> res Z;
  GetDelegatorUnbonding : string -> W -> res Z;
  BondDenom : W -> res string;
  ValAddressFromBech32 : string -> option string;
  GetValidator : string -> W -> res Validator;
  (** [Delegate] from unbonded tokens of the delegator's account *)
  Delegate : string -> Z -> Validator -> M W Z
}.

Class DistributionKeeper (W : Type) := {
  FundCommunityPool : list coin -> string -> M W unit
}.

(** Address checks of the SDK and go-ethereum. *)
Class AddrCheck := {
  VerifyAddressFormat : string -> bool;
  HexToAddress : string -> string
}.

(** What a transfer of [cs] from [from] to [to] does to the balances. *)
Definition moved (from to : string) (cs : list coin) (bal bal' : string -> string -> Z) : Prop :=
  forall a d, bal' a d = bal a d - (if decide (a = from) then amt cs d else 0)
                                 + (if decide (a = to) then amt cs d else 0).

(** A transfer leaves the accounts alone, except that it may create the
    recipient's account, with the chain's account prototype. *)
Definition accounts_grow {W} `{AccountKeeper W} (w w' : W) : Prop :=
  forall a, GetAccount a w' = GetAccount a w \/
    (GetAccount a w = None /\ exists b h, GetAccount a w' = Some (EthAcc b h)).

Class KeeperLaws (W : Type) `{Ctx W, AccountKeeper W, BankKeeper W, DistributionKeeper W}
    : Prop := {
  get_set_eq acc w : GetAccount (acc_address acc) (SetAccount acc w) = Some acc;
  get_set_ne acc a w : acc_address acc <> a -> GetAccount a (SetAccount acc w) = GetAccount a w;
  get_address a acc w : GetAccount a w = Some acc -> acc_address acc = a;
  set_balance acc a d w : GetBalance a d (SetAccount acc w) = GetBalance a d w;
  set_time acc w : BlockTime (SetAccount acc w) = BlockTime w;
  new_account_spec acc w : exists n w',
    NewAccount acc w = (renumber_acc n acc, w') /\
    (forall a, GetAccount a w' = GetAccount a w) /\
    (forall a d, GetBalance a d w' = GetBalance a d w) /\ BlockTime w' = BlockTime w;
  send_ok from to cs w w' : operand cs -> SendCoins from to cs w = (Ok tt, w') ->
    moved from to cs (fun a d => GetBalance a d w) (fun a d => GetBalance a d w') /\
    accounts_grow w w' /\
    BlockTime w' = BlockTime w;
  fund_ok cs from w w' : operand cs -> FundCommunityPool cs from w = (Ok tt, w') ->
    moved from (GetModuleAddress "distribution") cs
      (fun a d => GetBalance a d w) (fun a d => GetBalance a d w') /\
    accounts_grow w w' /\
    BlockTime w' = BlockTime w;
  all_accounts_spec acc w : acc ∈ AllAccounts w -> GetAccount (acc_address acc) w = Some acc
}.

(** Staked amounts are not negative, and delegating tracks the delegation on a
    vesting account (cosmos-sdk x/bank [DelegateCoins]). *)
Class StakingLaws (W : Type) `{SdkOps} `{AccountKeeper W} `{StakingKeeper W} : Prop := {
  bonded_nonneg a w x : GetDelegatorBonded a w = Ok x -> 0 <= x;
  unbonding_nonneg a w x : GetDelegatorUnbonding a w = Ok x -> 0 <= x;
  bond_denom_valid w d : BondDenom w = Ok d -> ValidDenom d = true;
  delegate_accounts a x v w y w' : Delegate a x v w = (Ok y, w') ->
    forall a', GetAccount a' w' = GetAccount a' w \/
      (exists va df, GetAccount a' w = Some (ClawbackAcc va) /\ valid df /\
         GetAccount a' w' = Some (ClawbackAcc (set_delegated_free df va)))
}.

(** The bank's module operations, as x/liquidvesting and x/ethiq use them. *)
Record Metadata := mkMetadata {
  md_Description : string;
  md_DenomUnits : list (string * Z);
  md_Base : string;
  md_Display : string;
  md_Name : string;
  md_Symbol : string
}.

Class ModuleBank (W : Type) := {
  SendCoinsFromAccountToModule : string -> string -> list coin -> M W unit;
  SendCoinsFromModuleToAccount : string -> string -> list coin -> M W unit;
  MintCoins : string -> list coin -> M W unit;
  BurnCoins : string -> list coin -> M W unit;
  SetDenomMetaData : Metadata -> W -> W
}.

(** What an operation leaves alone besides the balances it is about. *)
Record quiet {W} `{Ctx W, AccountKeeper W} (w w' : W) : Prop := {
  q_accounts : accounts_grow w w';
  q_time : BlockTime w' = BlockTime w
}.

(** [cs] is added to ([sign] 1) or taken from ([sign] -1) the balance of [who]. *)
Definition issued (sign : Z) (who : string) (cs : list coin) (bal bal' : string -> string -> Z)
    : Prop :=
  forall a d, bal' a d = bal a d + (if decide (a = who) then sign * amt cs d else 0).

Class ModuleBankLaws (W : Type) `{Ctx W, AccountKeeper W, BankKeeper W, ModuleBank W} : Prop := {
  to_module_ok from m cs w w' : operand cs ->
    SendCoinsFromAccountToModule from m cs w = (Ok tt, w') ->
    moved from (GetModuleAddress m) cs (fun a d => GetBalance a d w) (fun a d => GetBalance a d w')
    /\ quiet w w';
  from_module_ok m to cs w w' : operand cs ->
    SendCoinsFromModuleToAccount m to cs w = (Ok tt, w') ->
    moved (GetModuleAddress m) to cs (fun a d => GetBalance a d w) (fun a d => GetBalance a d w')
    /\ quiet w w';
  mint_ok m cs w w' : operand cs -> MintCoins m cs w = (Ok tt, w') ->
    issued 1 (GetModuleAddress m) cs (fun a d => GetBalance a d w) (fun a d => GetBalance a d w')
    /\ quiet w w';
  burn_ok m cs w w' : operand cs -> BurnCoins m cs w = (Ok tt, w') ->
    issued (-1) (GetModuleAddress m) cs (fun a d => GetBalance a d w) (fun a d => GetBalance a d w')
    /\ quiet w w';
  metadata_balance md a d w : GetBalance a d (SetDenomMetaData md w) = GetBalance a d w;
  metadata_quiet md w : quiet w (SetDenomMetaData md w)
}.

(** The supply of a denomination, and whether it has metadata. *)
Class SupplyKeeper (W : Type) := {
  GetSupply : string -> W -> Z;
  HasDenomMetaData : string -> W -> bool
}.

(** The supply changes by minting and burning only. *)
Class SupplyLaws (W : Type) `{AccountKeeper W, ModuleBank W, SupplyKeeper W} : Prop := {
  mint_supply m cs d (w w' : W) : operand cs -> MintCoins m cs w = (Ok tt, w') ->
    GetSupply d w' = GetSupply d w + amt cs d;
  burn_supply m cs d (w w' : W) : operand cs -> BurnCoins m cs w = (Ok tt, w') ->
    GetSupply d w' = GetSupply d w - amt cs d;
  to_module_supply a m cs d (w w' : W) r : SendCoinsFromAccountToModule a m cs w = (r, w') ->
    GetSupply d w' = GetSupply d w;
  from_module_supply m a cs d (w w' : W) r : SendCoinsFromModuleToAccount m a cs w = (r, w') ->
    GetSupply d w' = GetSupply d w;
  account_supply acc d (w : W) : GetSupply d (SetAccount acc w) = GetSupply d w
}.

(** ** The state of a module inside the chain state *)

Class Lens (W S : Type) := { view : W -> S; update : S -> W -> W }.

(** A module's state is its own: writing it changes nothing of the accounts and
    balances, and the other keepers do not change it. *)
Class ModuleState (W S : Type) `{Ctx W, AccountKeeper W, BankKeeper W, ModuleBank W, Lens W S}
    : Prop := {
  view_update (s : S) w : view (update s w) = s;
  update_account (s : S) a w : GetAccount a (update s w) = GetAccount a w;
  update_balance (s : S) a d w : GetBalance a d (update s w) = GetBalance a d w;
  update_time (s : S) w : BlockTime (update s w) = BlockTime w;
  set_account_view acc w : view (SetAccount acc w) = view w;
  new_account_view acc w : view (snd (NewAccount acc w)) = view w;
  metadata_view md w : view (SetDenomMetaData md w) = view w;
  to_module_view from m cs w r w' :
    SendCoinsFromAccountToModule from m cs w = (r, w') -> view w' = view w;
  from_module_view m to cs w r w' :
    SendCoinsFromModuleToAccount m to cs w = (r, w') -> view w' = view w;
  mint_view m cs w r w' : MintCoins m cs w = (r, w') -> view w' = view w;
  burn_view m cs w r w' : BurnCoins m cs w = (r, w') -> view w' = view w
}.

(** Two modules with separate states. *)
Class Separate (W S T : Type) `{Lens W S, Lens W T} : Prop := {
  view_update_sep (s : S) w : view (S:=T) (update s w) = view w
}.

(** ** A reference chain state *)

Record RefWorld {X : Type} := mkWorld {
  rw_time : Z;
  rw_accounts : gmap string Account;
  rw_next : Z;
  rw_balances : gmap (string * string) N;
  rw_bonded : gmap string N;
  rw_unbonding : gmap string N;
  (** the states of the modules under study *)
  rw_ext : X
}.
Arguments RefWorld X : clear implicits.
Arguments mkWorld {X} _ _ _ _ _ _ _.

Section RefWorldSection.
Context {X : Type}.
#[local] Abbreviation RefWorld := (RefWorld X).

Definition rw_balance (w : RefWorld) (a d : string) : Z :=
  Z.of_N (default 0%N (rw_balances w !! (a, d))).

Definition rw_set_balance (a d : string) (x : Z) (w : RefWorld) : RefWorld :=
  mkWorld (rw_time w) (rw_accounts w) (rw_next w) (<[(a, d) := Z.to_N x]> (rw_balances w))
    (rw_bonded w) (rw_unbonding w) (rw_ext w).

(** The account map is keyed by the address of the stored account. *)
Definition rw_get_account (a : string) (w : RefWorld) : option Account :=
  acc ← rw_accounts w !! a; if decide (acc_address acc = a) then Some acc else None.

Fixpoint rw_send (from to : string) (cs : list coin) : M RefWorld unit :=
  match cs with
  | [] => mret tt
  | c :: rest => fun w =>
      let b := rw_balance w from (Denom c) in
      if (Amount c <? 0) || (b <? Amount c) then (Err (ErrExternal "insufficient funds"), w)
      else
        let w1 := rw_set_balance from (Denom c) (b - Amount c) w in
        let w2 := rw_set_balance to (Denom c) (rw_balance w1 to (Denom c) + Amount c) w1 in
        rw_send from to rest w2
  end.

#[export] Instance account_eq_dec : EqDecision Account.
Proof. solve_decision. Defined.

#[local] Instance RefCtx : Ctx RefWorld := { BlockTime := rw_time }.

#[local] Instance RefAccountKeeper : AccountKeeper RefWorld := {
  GetAccount := rw_get_account;
  SetAccount acc w :=
    mkWorld (rw_time w) (<[acc_address acc := acc]> (rw_accounts w)) (rw_next w)
      (rw_balances w) (rw_bonded w) (rw_unbonding w) (rw_ext w);
  NewAccount acc w :=
    (renumber_acc (rw_next w) acc,
     mkWorld (rw_time w) (rw_accounts w) (rw_next w + 1) (rw_balances w)
       (rw_bonded w) (rw_unbonding w) (rw_ext w));
  GetModuleAddress m := "module/" +:+ m;
  GetModuleAccount m w := Some ("module/" +:+ m);
  AllAccounts w := filter (fun acc => rw_get_account (acc_address acc) w = Some acc)
                     (map_to_list (rw_accounts w)).*2
}.

#[local] Instance RefBankKeeper : BankKeeper RefWorld := {
  BlockedAddr a := String.prefix "module/" a;
  GetBalance a d w := rw_balance w a d;
  SendCoins from to cs :=
    if ref_validb cs then rw_send from to cs else mraise (ErrExternal "invalid coins")
}.

#[local] Instance RefStakingKeeper : StakingKeeper RefWorld := {
  Validator := string;
  GetDelegatorBonded a w := Ok (Z.of_N (default 0%N (rw_bonded w !! a)));
  GetDelegatorUnbonding a w := Ok (Z.of_N (default 0%N (rw_unbonding w !! a)));
  BondDenom w := Ok "aISLM";
  ValAddressFromBech32 s := strip_prefix "haqqvaloper1" s;
  GetValidator a w := Ok a;
  Delegate a x v w :=
    let b := rw_balance w a "aISLM" in
    if b <? x then (Err (ErrExternal "insufficient funds"), w)
    else (Ok x, rw_set_balance a "aISLM" (b - x) w)
}.

#[local] Instance RefDistributionKeeper : DistributionKeeper RefWorld := {
  FundCommunityPool cs from := rw_send from "module/distribution" cs
}.

#[local] Instance RefAddrCheck : AddrCheck := {
  VerifyAddressFormat a := negb (String.eqb a "");
  HexToAddress s := s
}.

Lemma rw_balance_set a d x w a' d' : 0 <= x ->
  rw_balance (rw_set_balance a d x w) a' d'
  = if decide ((a, d) = (a', d')) then x else rw_balance w a' d'.
Proof.
  intros Hx. unfold rw_balance, rw_set_balance. simpl. rewrite lookup_insert.
  case_decide; simpl; [lia|done].
Qed.

Lemma rw_balance_nonneg w a d : 0 <= rw_balance w a d.
Proof. unfold rw_balance. lia. Qed.

Lemma rw_send_ok from to cs w w' : rw_send from to cs w = (Ok tt, w') ->
  moved from to cs (rw_balance w) (rw_balance w') /\
  rw_accounts w' = rw_accounts w /\ rw_time w' = rw_time w.
Proof.
  revert w. induction cs as [|c cs IH]; intros w E; simpl in E.
  { injection E as <-. split; [|done]. intros a d. simpl. repeat case_decide; lia. }
  destruct (Z.ltb_spec (Amount c) 0); [done|].
  destruct (Z.ltb_spec (rw_balance w from (Denom c)) (Amount c)); [done|]. simpl in E.
  apply IH in E as (Hm & Ha & Ht). split; [|done]. intros a d. rewrite Hm. simpl.
  rewrite !rw_balance_set by (rewrite ?rw_balance_set by lia; try case_decide;
    pose proof (rw_balance_nonneg w to (Denom c)); lia).
  repeat case_decide; simplify_eq; try lia; congruence.
Qed.

Lemma RefKeeperLaws : KeeperLaws RefWorld.
Proof.
  constructor; simpl.
  - intros acc w. unfold rw_get_account. simpl. rewrite lookup_insert_eq. simpl.
    by rewrite decide_True.
  - intros acc a w Hne. unfold rw_get_account. simpl. by rewrite lookup_insert_ne.
  - intros a acc w. unfold rw_get_account. destruct (rw_accounts w !! a); simpl; [|done].
    case_decide; [|done]. by intros [= <-].
  - done.
  - done.
  - intros acc w. by eexists _, _.
  - intros from to cs w w' _ E. destruct (ref_validb cs); [|done].
    apply rw_send_ok in E as (Hm & Ha & Ht). split_and!; [done| |done].
    intros a. left. simpl. unfold rw_get_account. by rewrite Ha.
  - intros cs from w w' _ E. apply rw_send_ok in E as (Hm & Ha & Ht). split_and!; [done| |done].
    intros a. left. simpl. unfold rw_get_account. by rewrite Ha.
  - intros acc w. rewrite list_elem_of_filter. by intros [? _].
Qed.

Lemma RefStakingLaws : @StakingLaws RefWorld RefOps RefAccountKeeper RefStakingKeeper.
Proof.
  constructor; simpl.
  - intros a w x [= <-]. lia.
  - intros a w x [= <-]. lia.
  - by intros w d [= <-].
  - intros a x v w y w'. destruct (_ <? _); [done|]. intros [= <- <-] a'. by left.
Qed.

(** Module operations of the reference state. *)
Fixpoint rw_issue (sign : Z) (who : string) (cs : list coin) : M RefWorld unit :=
  match cs with
  | [] => mret tt
  | c :: rest => fun w =>
      let b := rw_balance w who (Denom c) + sign * Amount c in
      if b <? 0 then (Err (ErrExternal "insufficient funds"), w)
      else rw_issue sign who rest (rw_set_balance who (Denom c) b w)
  end.

#[local] Instance RefModuleBank : ModuleBank RefWorld := {
  SendCoinsFromAccountToModule from m := rw_send from ("module/" +:+ m);
  SendCoinsFromModuleToAccount m to := rw_send ("module/" +:+ m) to;
  MintCoins m := rw_issue 1 ("module/" +:+ m);
  BurnCoins m := rw_issue (-1) ("module/" +:+ m);
  SetDenomMetaData _ w := w
}.

Definition rw_same (w w' : RefWorld) : Prop :=
  rw_accounts w' = rw_accounts w /\ rw_time w' = rw_time w.

Lemma rw_same_quiet w w' : rw_same w w' -> quiet w w'.
Proof.
  intros [Ea Et]. constructor; [|done]. intros a. left. simpl. unfold rw_get_account. by rewrite Ea.
Qed.

Lemma rw_issue_ok sign who cs w w' : rw_issue sign who cs w = (Ok tt, w') ->
  issued sign who cs (rw_balance w) (rw_balance w') /\ rw_same w w'.
Proof.
  revert w. induction cs as [|c cs IH]; intros w E; simpl in E.
  { injection E as <-. split; [|done]. intros a d. simpl. case_decide; lia. }
  destruct (Z.ltb_spec (rw_balance w who (Denom c) + sign * Amount c) 0); [done|].
  apply IH in E as (Hm & Hs). split; [|done]. intros a d. rewrite Hm. simpl.
  rewrite !rw_balance_set by lia. repeat case_decide; simplify_eq; try lia; congruence.
Qed.

Lemma rw_send_ext from to cs w r w' : rw_send from to cs w = (r, w') -> rw_ext w' = rw_ext w.
Proof.
  revert w. induction cs as [|c cs IH]; intros w; simpl; [by intros [= <- <-]|].
  destruct (_ || _); [by intros [= <- <-]|]. by intros ->%IH.
Qed.

Lemma rw_issue_ext sign who cs w r w' : rw_issue sign who cs w = (r, w') -> rw_ext w' = rw_ext w.
Proof.
  revert w. induction cs as [|c cs IH]; intros w; simpl; [by intros [= <- <-]|].
  destruct (_ <? _); [by intros [= <- <-]|]. by intros ->%IH.
Qed.

Lemma RefModuleBankLaws : ModuleBankLaws RefWorld.
Proof.
  assert (Hsend : forall from to cs (w w' : RefWorld), rw_send from to cs w = (Ok tt, w') ->
    moved from to cs (rw_balance w) (rw_balance w') /\ quiet w w').
  { intros from to cs w w' E. apply rw_send_ok in E as (? & ? & ?). split; [done|].
    by apply rw_same_quiet. }
  assert (Hiss : forall sign who cs (w w' : RefWorld), rw_issue sign who cs w = (Ok tt, w') ->
    issued sign who cs (rw_balance w) (rw_balance w') /\ quiet w w').
  { intros sign who cs w w' E. apply rw_issue_ok in E as (? & ?). split; [done|].
    by apply rw_same_quiet. }
  constructor; simpl; auto. intros md w. by apply rw_same_quiet.
Qed.

(** The nonzero balances of an account. *)
Definition rw_coins (a : string) (m : gmap (string * string) N) : list coin :=
  omap (fun '((b, d), n) => if decide (b = a) then Some (mkCoin d (Z.of_N n)) else None)
    (map_to_list m).

Definition rw_all_balances (a : string) (w : RefWorld) : list coin :=
  ref_norm (rw_coins a (rw_balances w)).

Lemma rw_coins_amt a m d : amt (rw_coins a m) d = Z.of_N (default 0%N (m !! (a, d))).
Proof.
  assert (Hp : forall l l', l ≡ₚ l' -> amt l d = amt l' d)
    by (induction 1; simpl in *; lia).
  unfold rw_coins. induction m as [|[b e] n m Hm IH] using map_ind; [by rewrite map_to_list_empty|].
  rewrite (Hp _ _ (omap_Permutation _ _ _ (map_to_list_insert _ _ _ Hm))). csimpl.
  rewrite lookup_insert. destruct (decide (b = a)) as [->|N].
  - cbn [amt Denom Amount]. rewrite IH. repeat case_decide; simplify_eq; [|done].
    by rewrite Hm, Z.add_0_r.
  - rewrite IH, decide_False by naive_solver. done.
Qed.

Lemma rw_all_balances_spec a w :
  valid (rw_all_balances a w) /\ forall d, amt (rw_all_balances a w) d = rw_balance w a d.
Proof.
  unfold rw_all_balances. assert (E : forall d, amt (rw_coins a (rw_balances w)) d = rw_balance w a d)
    by (intros; apply rw_coins_amt).
  split; [|intros d; by rewrite amt_norm]. apply norm_valid. intros d. rewrite E. apply rw_balance_nonneg.
Qed.

(** The supply of a denomination: the sum of its balances. *)
Definition rw_held (d : string) (m : gmap (string * string) N) : Z :=
  map_fold (fun k n acc => (if decide (k.2 = d) then Z.of_N n else 0) + acc) 0 m.

Definition rw_supply (d : string) (w : RefWorld) : Z := rw_held d (rw_balances w).

Lemma rw_held_insert d m k n :
  rw_held d (<[k := n]> m)
  = rw_held d m + if decide (k.2 = d) then Z.of_N n - Z.of_N (default 0%N (m !! k)) else 0.
Proof.
  assert (F : forall n m, m !! k = None ->
    rw_held d (<[k := n]> m) = (if decide (k.2 = d) then Z.of_N n else 0) + rw_held d m).
  { clear. intros n m Hm. unfold rw_held. rewrite map_fold_insert_L; [done| |done]. intros. lia. }
  rewrite <- insert_delete_eq, F by apply lookup_delete_eq.
  destruct (m !! k) as [y|] eqn:E; simpl.
  - rewrite <- (insert_delete_id m k y E) at 2. rewrite F by apply lookup_delete_eq.
    case_decide; lia.
  - rewrite delete_id by done. case_decide; lia.
Qed.

Lemma rw_supply_set d a e x w : 0 <= x ->
  rw_supply d (rw_set_balance a e x w)
  = rw_supply d w + if decide (e = d) then x - rw_balance w a e else 0.
Proof.
  intros Hx. unfold rw_supply, rw_set_balance, rw_balance. cbn [rw_balances].
  rewrite rw_held_insert. cbn [snd]. case_decide; [|done]. rewrite Z2N.id; lia.
Qed.

Lemma rw_send_supply from to cs d w r w' : rw_send from to cs w = (r, w') ->
  rw_supply d w' = rw_supply d w.
Proof.
  revert w. induction cs as [|c cs IH]; intros w; cbn [rw_send]; [by intros [= <- <-]|].
  destruct (Z.ltb_spec (Amount c) 0), (Z.ltb_spec (rw_balance w from (Denom c)) (Amount c));
    cbn [orb]; try by intros [= <- <-].
  intros ->%IH. set (w1 := rw_set_balance from (Denom c) _ w).
  rewrite rw_supply_set by (pose proof (rw_balance_nonneg w1 to (Denom c)); lia).
  subst w1. rewrite rw_supply_set by lia. case_decide; lia.
Qed.

Lemma rw_issue_supply sign who cs d w w' : rw_issue sign who cs w = (Ok tt, w') ->
  rw_supply d w' = rw_supply d w + sign * amt cs d.
Proof.
  revert w. induction cs as [|c cs IH]; intros w E; cbn [rw_issue] in E.
  { injection E as <-. simpl. lia. }
  destruct (Z.ltb_spec (rw_balance w who (Denom c) + sign * Amount c) 0); [done|].
  apply IH in E. rewrite E, rw_supply_set by lia. cbn [amt]. case_decide; lia.
Qed.

#[local] Instance RefSupply : SupplyKeeper RefWorld := {
  GetSupply := rw_supply; HasDenomMetaData _ _ := true
}.

Lemma RefSupplyLaws : SupplyLaws RefWorld.
Proof.
  constructor; simpl.
  - intros m cs d w w' _ E%(rw_issue_supply _ _ _ d). lia.
  - intros m cs d w w' _ E%(rw_issue_supply _ _ _ d). lia.
  - intros a m cs d w w' r. apply rw_send_supply.
  - intros m a cs d w w' r. apply rw_send_supply.
  - done.
Qed.

(** The part [S] of the modules' states. *)
Definition ref_lens {S} (f : X -> S) (g : S -> X -> X) : Lens RefWorld S := {|
  view w := f (rw_ext w);
  update s w := mkWorld (rw_time w) (rw_accounts w) (rw_next w) (rw_balances w)
                  (rw_bonded w) (rw_unbonding w) (g s (rw_ext w))
|}.

Lemma ref_module_state {S} (f : X -> S) g : (forall s x, f (g s x) = s) ->
  @ModuleState RefWorld S _ _ _ _ (ref_lens f g).
Proof.
  intros Hfg. constructor; simpl; auto.
  - by intros from m cs w r w' ->%rw_send_ext.
  - by intros m to cs w r w' ->%rw_send_ext.
  - by intros m cs w r w' ->%rw_issue_ext.
  - by intros m cs w r w' ->%rw_issue_ext.
Qed.
End RefWorldSection.
