(* ===== verification/VestingMsg.v ===== *)
(** * The messages of x/vesting and their stateless checks: x/vesting/types/msg.go

    One record per message, [ValidateBasic] of each, and the completion of an
    absent schedule the handlers perform.  The main result: a message that
    passes its check gives the keeper a well-formed grant. *)

From S2P Require Import Prelude.
From S2P Require Import Sdk.
From S2P Require Import Schedule.
From S2P Require Import ClawbackAccount.
From S2P Require Import Keepers.

Local Open Scope Z_scope.

Record MsgCreateClawbackVestingAccount := mkMsgCreate {
  mc_FromAddress : string;
  mc_ToAddress : string;
  mc_StartTime : Z;
  mc_LockupPeriods : list Period;
  mc_VestingPeriods : list Period;
  mc_Merge : bool
}.

Record MsgClawback := mkMsgClawback {
  mcl_FunderAddress : string;
  mcl_AccountAddress : string;
  mcl_DestAddress : string
}.

Record MsgUpdateVestingFunder := mkMsgUpdate {
  mu_FunderAddress : string;
  mu_NewFunderAddress : string;
  mu_VestingAddress : string
}.

Record MsgConvertVestingAccount := mkMsgConvert { mcv_VestingAddress : string }.

Record MsgConvertIntoVestingAccount := mkMsgInto {
  mi_FromAddress : string;
  mi_ToAddress : string;
  mi_StartTime : Z;
  mi_LockupPeriods : list Period;
  mi_VestingPeriods : list Period;
  mi_Merge : bool;
  mi_Stake : bool;
  mi_ValidatorAddress : string
}.

(** [common.Address{}.Bytes()]: twenty zero bytes. *)
Definition zero_address : string := Nat.iter 20 (String (Ascii.ascii_of_nat 0)) EmptyString.

Section messages.
Context `{SdkOps} `{EthOps} `{AddrCheck}.

(** [sdk.AccAddressFromBech32] with its error, and [sdk.MustAccAddressFromBech32]. *)
Definition parse_addr (s : string) : res string :=
  match AccAddressFromBech32 s with
  | Some a => Ok a
  | None => Err (ErrExternal "bech32")
  end.

Definition must_addr (s : string) : res string :=
  match AccAddressFromBech32 s with Some a => Ok a | None => Panic end.

(** The address of a recipient given in bech32 or in hexadecimal form. *)
Definition target_address (s : string) : string :=
  match AccAddressFromBech32 s with Some a => a | None => HexToAddress s end.

(** The period loops of [ValidateBasic]. *)
Fixpoint check_periods (coins : list coin) (periods : list Period) : res (list coin) :=
  match periods with
  | [] => Ok coins
  | period :: rest =>
      if Length period <? 1 then Err ErrInvalidRequest
      else if negb (IsValid (PAmount period)) then Err ErrInvalidCoins
      else check_periods (coins_add coins (PAmount period)) rest
  end.

(** The checks on the two schedules that end both [ValidateBasic]s. *)
Definition check_schedules (lockupPeriods vestingPeriods : list Period) : res unit :=
  lockupCoins ← check_periods [] lockupPeriods;
  vestingCoins ← check_periods [] vestingPeriods;
  if bool_decide (lockupCoins = []) && bool_decide (vestingCoins = []) then
    Err ErrInvalidRequest
  else if bool_decide (lockupPeriods <> []) && bool_decide (vestingPeriods <> [])
          && negb (CoinEq lockupCoins vestingCoins) then
    Err ErrInvalidRequest
  else Ok tt.

Definition ValidateBasic_Create (msg : MsgCreateClawbackVestingAccount) : res unit :=
  _ ← parse_addr (mc_FromAddress msg);
  vestingAddr ← parse_addr (mc_ToAddress msg);
  if bool_decide (vestingAddr = zero_address) then Err ErrInvalidAddress
  else check_schedules (mc_LockupPeriods msg) (mc_VestingPeriods msg).

Definition ValidateBasic_Clawback (msg : MsgClawback) : res unit :=
  _ ← parse_addr (mcl_FunderAddress msg);
  _ ← parse_addr (mcl_AccountAddress msg);
  if bool_decide (mcl_DestAddress msg <> EmptyString) then
    _ ← parse_addr (mcl_DestAddress msg); Ok tt
  else Ok tt.

Definition ValidateBasic_UpdateVestingFunder (msg : MsgUpdateVestingFunder) : res unit :=
  _ ← parse_addr (mu_FunderAddress msg);
  newFunderAddr ← parse_addr (mu_NewFunderAddress msg);
  if bool_decide (newFunderAddr = zero_address) then Err ErrInvalidAddress
  else if bool_decide (mu_FunderAddress msg = mu_NewFunderAddress msg) then
    Err ErrInvalidRequest
  else _ ← parse_addr (mu_VestingAddress msg); Ok tt.

Definition ValidateBasic_ConvertVestingAccount (msg : MsgConvertVestingAccount) : res unit :=
  _ ← parse_addr (mcv_VestingAddress msg); Ok tt.

Definition ValidateBasic_ConvertIntoVestingAccount (msg : MsgConvertIntoVestingAccount)
    : res unit :=
  _ ← parse_addr (mi_FromAddress msg);
  let vestingAddr := target_address (mi_ToAddress msg) in
  if negb (VerifyAddressFormat vestingAddr) then Err (ErrExternal "address format")
  else if bool_decide (vestingAddr = zero_address) then Err ErrInvalidAddress
  else check_schedules (mi_LockupPeriods msg) (mi_VestingPeriods msg).

(** What the handlers do with the schedules of a message before they use them:
    an absent lockup or vesting schedule becomes an instant one, and both must
    describe the same amount.  Gives the two schedules and their coins. *)
Definition complete_schedules (lockupPeriods vestingPeriods : list Period)
    : res (list Period * list Period * list coin) :=
  let vestingCoins := TotalAmount vestingPeriods in
  let lockupCoins := TotalAmount lockupPeriods in
  let '(lockupPeriods, lockupCoins) :=
    if negb (IsZero vestingCoins) && bool_decide (lockupPeriods = [])
    then ([mkPeriod 0 vestingCoins], vestingCoins) else (lockupPeriods, lockupCoins) in
  let '(vestingPeriods, vestingCoins) :=
    if negb (IsZero lockupCoins) && bool_decide (vestingPeriods = [])
    then ([mkPeriod 0 lockupCoins], lockupCoins) else (vestingPeriods, vestingCoins) in
  if negb (IsAllLTE vestingCoins lockupCoins && IsAllLTE lockupCoins vestingCoins) then
    Err ErrInvalidRequest
  else Ok (lockupPeriods, vestingPeriods, vestingCoins).

End messages.

(** ** Facts *)

(** A period a message may carry. *)
Definition msg_period (p : Period) : Prop := 1 <= Length p /\ valid (PAmount p).

(** The schedules of a message stay in the time range of the arithmetic. *)
Definition times_fit (start : Z) (ps : list Period) : Prop :=
  time_ok start /\ time_ok (sched_end start ps).

Section facts.
Context `{SdkLaws}.

Lemma check_periods_ok coins ps c : valid coins -> check_periods coins ps = Ok c ->
  Forall msg_period ps /\ valid c /\ forall d, amt c d = amt coins d + sched_total ps d.
Proof.
  revert coins. induction ps as [|p ps IH]; intros coins Hc; simpl.
  - intros [= <-]. split_and!; auto. intros. lia.
  - destruct (Z.ltb_spec (Length p) 1); [done|].
    destruct (IsValid (PAmount p)) eqn:E; simpl; [|done].
    apply is_valid_spec in E. intros Hr.
    apply IH in Hr as (Hps & Vc & Ac); [|auto with coins].
    split_and!; auto.
    + constructor; [split; [lia|done]|done].
    + intros d. rewrite Ac, amt_add by auto with coins. lia.
Qed.

Lemma msg_end_ge start ps : Forall msg_period ps -> start <= sched_end start ps.
Proof.
  intros Hps. revert start. induction Hps as [|p ps [Hl _] _ IH]; intros start; simpl; [lia|].
  specialize (IH (start + Length p)). lia.
Qed.

Lemma msg_sched_ok start ps : Forall msg_period ps -> times_fit start ps -> sched_ok start ps.
Proof.
  intros Hps. revert start.
  induction Hps as [|p ps [Hl Hv] Hps IH]; intros start [T1 T2]; simpl in *; [done|].
  split_and!; [done|lia|done|]. apply IH. split; [|done].
  pose proof (msg_end_ge (start + Length p) ps Hps). unfold time_ok in *. lia.
Qed.

Lemma instant_ok start c : time_ok start -> valid c -> sched_ok start [mkPeriod 0 c].
Proof. intros. simpl. rewrite Z.add_0_r. by split_and!. Qed.

(** What the handlers use after completing the schedules is a grant. *)
Lemma complete_grant start lp vp lp' vp' c :
  sched_ok start lp -> sched_ok start vp ->
  complete_schedules lp vp = Ok (lp', vp', c) -> grant_ok start lp' vp' c.
Proof.
  intros Hl Hv. unfold complete_schedules.
  pose proof (total_amount_valid _ _ Hl) as Vl. pose proof (total_amount_valid _ _ Hv) as Vv.
  pose proof (fun d => amt_total _ _ d Hl) as Al. pose proof (fun d => amt_total _ _ d Hv) as Av.
  pose proof (sched_ok_time _ _ Hl) as Ht.
  set (vc := TotalAmount vp) in *. set (lc := TotalAmount lp) in *.
  destruct (negb (IsZero vc) && bool_decide (lp = [])) eqn:E1.
  - destruct (negb (IsZero vc) && bool_decide (vp = [])) eqn:E2.
    + apply andb_true_iff in E2 as [E2 E3]. apply bool_decide_eq_true in E3. subst vp.
      apply negb_true_iff in E2. assert (IsZero vc = true) as F; [|congruence].
      apply is_zero_spec; auto with coins.
    + destruct (IsAllLTE _ _ && _); simpl; [|done]. intros [= <- <- <-].
      constructor; auto using instant_ok. intros d. simpl. lia.
  - destruct (negb (IsZero lc) && bool_decide (vp = [])) eqn:E2.
    + destruct (IsAllLTE _ _ && _); simpl; [|done]. intros [= <- <- <-].
      constructor; auto using instant_ok. intros d. simpl. lia.
    + destruct (IsAllLTE _ _ && _) eqn:E3; simpl; [|done]. intros [= <- <- <-].
      rewrite andb_comm in E3. pose proof (proj1 (coin_eq_spec lc vc Vl Vv) E3) as Eq.
      constructor; auto. intros d. by rewrite <- Eq.
Qed.

Lemma absent_total ps : ps = [] -> forall d, sched_total ps d = 0.
Proof. by intros ->. Qed.

Lemma is_zero_false cs : valid cs -> cs <> [] -> IsZero cs = false.
Proof.
  intros Hv Hn. destruct (IsZero cs) eqn:E; [|done].
  rewrite <- (is_zero_nil cs Hv), E in Hn. done.
Qed.

Lemma total_nil : TotalAmount [] = [].
Proof.
  destruct (total_amount_spec []) as [Hv Ha]; [constructor|].
  apply valid_ext; auto using valid_nil.
Qed.

Lemma coin_eq_refl c : valid c -> CoinEq c c = true.
Proof. intros. by apply coin_eq_spec. Qed.

(** A message that passes the checks is not rejected when its schedules are
    completed, and grants something. *)
Lemma check_complete start lp vp : check_schedules lp vp = Ok tt ->
  times_fit start lp -> times_fit start vp ->
  exists lp' vp' c, complete_schedules lp vp = Ok (lp', vp', c) /\ c <> [] /\
    grant_ok start lp' vp' c /\
    (lp <> [] -> lp' = lp) /\ (vp <> [] -> vp' = vp).
Proof.
  unfold check_schedules. intros E Tl Tv. run_step E. run_step E.
  apply check_periods_ok in Hrun as (Pl & Val & Al), Hrun0 as (Pv & Vav & Av);
    try apply valid_nil. simpl in Al, Av.
  pose proof (msg_sched_ok _ _ Pl Tl) as Hl. pose proof (msg_sched_ok _ _ Pv Tv) as Hv.
  assert (a = TotalAmount lp) as ->.
  { apply valid_ext; eauto using total_amount_valid. intros d. by rewrite Al, (amt_total start). }
  assert (a0 = TotalAmount vp) as ->.
  { apply valid_ext; eauto using total_amount_valid. intros d. by rewrite Av, (amt_total start). }
  assert (exists lp' vp' c, complete_schedules lp vp = Ok (lp', vp', c) /\ c <> [] /\
    (lp <> [] -> lp' = lp) /\ (vp <> [] -> vp' = vp)) as (lp' & vp' & c & Ec & Hc & Kl & Kv);
    [|exists lp', vp', c; split_and!; eauto using complete_grant].
  unfold complete_schedules.
  destruct (decide (lp = [])) as [->|Nl]; [|destruct (decide (vp = [])) as [->|Nv]].
  - rewrite total_nil in *.
    case_bool_decide; [|done]. case_bool_decide as Ez; [done|]. simpl in E.
    rewrite (is_zero_false _ Vav Ez). simpl. rewrite (is_zero_false _ Vav Ez). simpl.
    rewrite bool_decide_eq_false_2 by (intros ->; by rewrite total_nil in Ez).
    change (IsAllLTE ?x ?y && IsAllLTE ?y ?x) with (CoinEq x y). rewrite coin_eq_refl by done.
    eexists _, _, _. by split_and!.
  - rewrite total_nil in *. rewrite andb_comm in E.
    case_bool_decide; [|done]. case_bool_decide as Ez; [done|]. simpl in E.
    rewrite (bool_decide_eq_false_2 (lp = [])), andb_false_r by done.
    rewrite (is_zero_false _ Val Ez). simpl.
    change (IsAllLTE ?x ?y && IsAllLTE ?y ?x) with (CoinEq x y). rewrite coin_eq_refl by done.
    eexists _, _, _. by split_and!.
  - rewrite (bool_decide_eq_true_2 (lp <> [])), (bool_decide_eq_true_2 (vp <> [])) in E by done.
    destruct (CoinEq (TotalAmount lp) (TotalAmount vp)) eqn:Eq; simpl in E; [|by destruct (_ && _) in E].
    rewrite (bool_decide_eq_false_2 (lp = [])), andb_false_r by done.
    rewrite (bool_decide_eq_false_2 (vp = [])), andb_false_r by done.
    unfold CoinEq in Eq. rewrite andb_comm in Eq. rewrite Eq. simpl.
    eexists _, _, _. split_and!; [done| |done|done].
    intros Z0. rewrite Z0 in *. rewrite andb_comm in Eq.
    pose proof (proj1 (coin_eq_spec _ _ Val Vav) Eq) as Hz.
    assert (TotalAmount lp = []) as Z1 by (apply valid_ext; auto). rewrite Z1 in E.
    done.
Qed.
End facts.

(** ** Properties *)

Section properties.
Context `{SdkLaws} `{EthLaws} `{AddrCheck}.

(** A [MsgCreateClawbackVestingAccount] that passes [ValidateBasic], and whose
    schedules stay in the time range, reaches the keeper with addresses that
    parse, and its completed schedules form a well-formed, nonzero grant in
    which the schedules the message gives are unchanged. *)
Theorem ValidateBasic_Create_sound msg :
  ValidateBasic_Create msg = Ok tt ->
  times_fit (mc_StartTime msg) (mc_LockupPeriods msg) ->
  times_fit (mc_StartTime msg) (mc_VestingPeriods msg) ->
  (exists from to, must_addr (mc_FromAddress msg) = Ok from /\
     must_addr (mc_ToAddress msg) = Ok to /\ to <> zero_address) /\
  exists lp vp c,
    complete_schedules (mc_LockupPeriods msg) (mc_VestingPeriods msg) = Ok (lp, vp, c) /\
    c <> [] /\ grant_ok (mc_StartTime msg) lp vp c /\
    (mc_LockupPeriods msg <> [] -> lp = mc_LockupPeriods msg) /\
    (mc_VestingPeriods msg <> [] -> vp = mc_VestingPeriods msg).
Proof.
  intros E Tl Tv. unfold ValidateBasic_Create in E. run_step E. run_step E.
  case_bool_decide; [done|]. split; [|by apply check_complete].
  unfold parse_addr, must_addr in *.
  destruct (AccAddressFromBech32 (mc_FromAddress msg)); [|done].
  destruct (AccAddressFromBech32 (mc_ToAddress msg)); [|done]. simplify_eq. eauto.
Qed.
End properties.

(** ** Concrete messages *)

Definition ex_msg_create : MsgCreateClawbackVestingAccount :=
  mkMsgCreate "haqq1funder" "haqq1alice" 1000 [] [mkPeriod 60 [mkCoin "aISLM" 40]] false.

Lemma ValidateBasic_Create_sound_witness :
  exists lp vp c,
    @complete_schedules RefOps [] [mkPeriod 60 [mkCoin "aISLM" 40]] = Ok (lp, vp, c) /\
    grant_ok 1000 lp vp c /\ c <> [].
Proof.
  destruct (@ValidateBasic_Create_sound RefOps RefLaws RefEth ex_msg_create)
    as (_ & lp & vp & c & E & Hc & Hg & _).
  - vm_compute. reflexivity.
  - vm_compute. intuition congruence.
  - vm_compute. intuition congruence.
  - exists lp, vp, c. split; [exact E|split; [exact Hg|exact Hc]].
Defined.

(** The lower bound on the lengths is the only one: two periods of 2^62 seconds
    pass the check, the account's end time wraps to a negative date, and one
    second after the start everything is unlocked and vested. *)
Definition ex_msg_overflow : MsgCreateClawbackVestingAccount :=
  let ps := [mkPeriod (2 ^ 62) [mkCoin "aISLM" 1]; mkPeriod (2 ^ 62) [mkCoin "aISLM" 99]] in
  mkMsgCreate "haqq1funder" "haqq1alice" 1000 ps ps false.

Lemma ValidateBasic_allows_overflow :
  let msg := ex_msg_overflow in
  let va := @NewClawbackVestingAccount RefOps RefEth ex_base "funder" [mkCoin "aISLM" 100]
              (mc_StartTime msg) (mc_LockupPeriods msg) (mc_VestingPeriods msg) None in
  @ValidateBasic_Create RefOps RefEth msg = Ok tt /\ acc_end va < 0 /\
  @GetUnlockedVestedCoins RefOps va 1001 = [mkCoin "aISLM" 100].
Proof. by vm_compute. Qed.
