(* ===== verification/VestingKeeper.v ===== *)
(** * The keeper of x/vesting: msg_server.go, schedule.go, utils.go, grpc_query.go

    The message handlers over the chain state [W] behind the keepers' classes.
    The invariant [accounts_ok] says every clawback account of the state is
    well-formed; every delivered message preserves it. *)

From S2P Require Import Prelude.
From S2P Require Import Sdk.
From S2P Require Import Schedule.
From S2P Require Import ClawbackAccount.
From S2P Require Import Keepers.
From S2P Require Import VestingMsg.

Local Open Scope Z_scope.

(** [authtypes.NewBaseAccountWithAddress] *)
Definition NewBaseAccountWithAddress (a : string) : BaseAccount := mkBaseAccount a 0 0.

(** Writes the delegation fields of an account. *)
Definition set_delegated (free vesting : list coin) (va : ClawbackVestingAccount)
    : ClawbackVestingAccount :=
  mkCVA (mkBVA (BaseAcc (BVA va)) (OV va) free vesting (acc_end va))
    (FunderAddress va) (StartTime va) (LockupPeriods va) (VestingPeriods va) (CodeHash va).

Definition set_funder (funder : string) (va : ClawbackVestingAccount) : ClawbackVestingAccount :=
  mkCVA (BVA va) funder (StartTime va) (LockupPeriods va) (VestingPeriods va) (CodeHash va).

Definition va_address (va : ClawbackVestingAccount) : string := acc_address (ClawbackAcc va).

Section keeper.
Context {W : Type} `{SdkOps} `{EthOps} `{AddrCheck}
  `{Ctx W} `{AccountKeeper W} `{BankKeeper W} `{StakingKeeper W} `{DistributionKeeper W}.

(** types/account.go: [EthAccount.Type] and utils.go: [IsContractAccount]; the
    error is nil exactly for a contract.  A clawback account is an
    [EthAccountI] as well. *)
Definition IsContractAccount (acc : Account) : res unit :=
  let check codeHash :=
    if bool_decide (emptyCodeHash = HexToHash codeHash)
    then Err (ErrText "account is not a contract account") else Ok tt in
  match acc with
  | EthAcc _ codeHash => check codeHash
  | ClawbackAcc va => check (CodeHash va)
  | OtherAcc _ => Err (ErrText "account is not an eth account")
  end.

(** types/account.go: the account [ConvertVestingAccount] builds from
    [ProtoAccount] and its two assignments. *)
Definition eth_account_of (base : BaseAccount) (codeHash : string) : Account :=
  EthAcc base (HashHex codeHash).

Definition GetClawbackVestingAccount (addr : string) : M W ClawbackVestingAccount := fun w =>
  match GetAccount addr w with
  | None => (Err ErrUnknownAddress, w)
  | Some (ClawbackAcc va) => (Ok va, w)
  | Some _ => (Err ErrNotSubjectToClawback, w)
  end.

(** [bondedAmt.Add(unbondingAmt)], with the wrapped errors of both queries. *)
Definition delegated_amount (addr : string) : M W Z :=
  bondedAmt ← mwrap ErrInvalidRequest (fun w => (GetDelegatorBonded addr w, w));
  unbondingAmt ← mwrap ErrInvalidRequest (fun w => (GetDelegatorUnbonding addr w, w));
  mret (bondedAmt + unbondingAmt).

Definition bond_denom : M W string :=
  mwrap ErrInvalidRequest (fun w => (BondDenom w, w)).

(** [sdk.NewCoins(sdk.NewCoin(denom, amount))] *)
Definition new_coins_of (denom : string) (amount : Z) : res (list coin) :=
  c ← NewCoin denom amount; NewCoins [c].

Definition addGrant (va : ClawbackVestingAccount) (grantStartTime : Z)
    (grantLockupPeriods grantVestingPeriods : list Period) (grantCoins : list coin)
    : M W ClawbackVestingAccount :=
  delegatedAmt ← delegated_amount (va_address va);
  let accStartTime := GetStartTime va in
  let '(newLockupStart, newLockupEnd, newLockupPeriods) :=
    DisjunctPeriods accStartTime grantStartTime (LockupPeriods va) grantLockupPeriods in
  let '(newVestingStart, newVestingEnd, newVestingPeriods) :=
    DisjunctPeriods accStartTime grantStartTime (GetVestingPeriods va) grantVestingPeriods in
  if negb (newLockupStart =? newVestingStart) then mraise ErrVestingLockup
  else
    let va := set_schedule newLockupStart (Max64 newLockupEnd newVestingEnd)
                (coins_add (OV va) grantCoins) newLockupPeriods newVestingPeriods va in
    bondDenom ← bond_denom;
    delegatedVesting ← mlift (NewCoins []);
    delegatedFree ← mlift (new_coins_of bondDenom delegatedAmt);
    mret (set_delegated delegatedFree delegatedVesting va).

Definition CreateClawbackVestingAccount (msg : MsgCreateClawbackVestingAccount) : M W unit :=
  funderAddress ← mlift (must_addr (mc_FromAddress msg));
  vestingAddress ← mlift (must_addr (mc_ToAddress msg));
  if BlockedAddr (W:=W) vestingAddress then mraise ErrUnauthorized else
  '(lockupPeriods, vestingPeriods, vestingCoins) ←
    mlift (complete_schedules (mc_LockupPeriods msg) (mc_VestingPeriods msg));
  acc ← mgets (GetAccount vestingAddress);
  _ ← match acc with
      | Some (ClawbackAcc vestingAcc) =>
          if negb (mc_Merge msg) then mraise ErrInvalidRequest
          else if bool_decide (mc_FromAddress msg <> FunderAddress vestingAcc) then
            mraise ErrInvalidRequest
          else
            vestingAcc ← addGrant vestingAcc (mc_StartTime msg) lockupPeriods vestingPeriods
                           vestingCoins;
            mmodify (SetAccount (ClawbackAcc vestingAcc))
      | Some _ =>
          if negb (mc_Merge msg) then mraise ErrInvalidRequest else mraise ErrNotSupported
      | None =>
          let codeHash := Keccak256 "" in
          let baseAcc := NewBaseAccountWithAddress vestingAddress in
          let vestingAcc := NewClawbackVestingAccount baseAcc funderAddress vestingCoins
                              (mc_StartTime msg) lockupPeriods vestingPeriods (Some codeHash) in
          acc ← mstate (NewAccount (ClawbackAcc vestingAcc));
          mmodify (SetAccount acc)
      end;
  SendCoins funderAddress vestingAddress vestingCoins.

Definition transferClawback (va : ClawbackVestingAccount) (dest : string) : M W unit :=
  now ← mgets BlockTime;
  '(updatedAcc, toClawBack) ← mlift (ComputeClawback va now);
  if IsZero toClawBack then mret tt
  else
    _ ← mmodify (SetAccount (ClawbackAcc updatedAcc));
    let addr := va_address updatedAcc in
    if bool_decide (AddrString dest = AddrString (GetModuleAddress (W:=W) "distribution")) then
      FundCommunityPool toClawBack addr
    else SendCoins addr dest toClawBack.

Definition Clawback (msg : MsgClawback) : M W unit :=
  addr ← mlift (must_addr (mcl_AccountAddress msg));
  funder ← mlift (must_addr (mcl_FunderAddress msg));
  let dest := default EmptyString (AccAddressFromBech32 (mcl_DestAddress msg)) in
  let dest := if bool_decide (mcl_DestAddress msg = EmptyString) then funder else dest in
  if BlockedAddr (W:=W) dest then mraise ErrUnauthorized else
  va ← GetClawbackVestingAccount addr;
  if bool_decide (VestingPeriods va = []) && bool_decide (LockupPeriods va = []) then
    mraise ErrInvalidRequest
  else if bool_decide (FunderAddress va <> AddrString funder) then mraise ErrUnauthorized
  else transferClawback va dest.

Definition UpdateVestingFunder (msg : MsgUpdateVestingFunder) : M W unit :=
  newFunder ← mlift (must_addr (mu_NewFunderAddress msg));
  vestingAccAddr ← mlift (must_addr (mu_VestingAddress msg));
  if BlockedAddr (W:=W) newFunder then mraise ErrUnauthorized else
  va ← GetClawbackVestingAccount vestingAccAddr;
  if bool_decide (FunderAddress va <> mu_FunderAddress msg) then mraise ErrUnauthorized
  else mmodify (SetAccount (ClawbackAcc (set_funder (mu_NewFunderAddress msg) va))).

Definition ConvertVestingAccount (msg : MsgConvertVestingAccount) : M W unit :=
  address ← mlift (must_addr (mcv_VestingAddress msg));
  vestingAcc ← GetClawbackVestingAccount address;
  now ← mgets BlockTime;
  vestingCoins ← mlift (GetVestingCoins vestingAcc now);
  if negb (IsZero vestingCoins) then mraise ErrInvalidRequest else
  locked ← mlift (HasLockedCoins vestingAcc now);
  if (locked : bool) then mraise ErrInvalidRequest
  else mmodify (SetAccount (eth_account_of (BaseAcc (BVA vestingAcc)) (GetCodeHash vestingAcc))).

(** [ApplyVestingSchedule] returns the account, whether it was created and
    whether the schedule was merged.  [NewAccount] numbers the account in place,
    so the returned account is the stored one. *)
Definition ApplyVestingSchedule (funder funded : string) (coins : list coin) (startTime : Z)
    (lockupPeriods vestingPeriods : list Period) (merge : bool)
    : M W (ClawbackVestingAccount * bool * bool) :=
  targetAccount ← mgets (GetAccount funded);
  match targetAccount with
  | None =>
      let vestingAcc := NewClawbackVestingAccount (NewBaseAccountWithAddress funded) funder coins
                          startTime lockupPeriods vestingPeriods (Some (Keccak256 "")) in
      acc ← mstate (NewAccount (ClawbackAcc vestingAcc));
      _ ← mmodify (SetAccount acc);
      mret (match acc with ClawbackAcc va => va | _ => vestingAcc end, true, false)
  | Some (OtherAcc _) => mraise ErrApplyShedule
  | Some (EthAcc baseAcc hash) =>
      let codeHash := HexToHash hash in
      let vestingAcc := NewClawbackVestingAccount baseAcc funder coins startTime
                          lockupPeriods vestingPeriods (Some codeHash) in
      bondedAmt ← mwrap ErrInvalidRequest
                    (fun w => (GetDelegatorBonded (va_address vestingAcc) w, w));
      unbondingAmt ← mwrap ErrInvalidRequest
                       (fun w => (GetDelegatorUnbonding (va_address vestingAcc) w, w));
      bondedDenom ← bond_denom;
      delegatedFree ← mlift (new_coins_of bondedDenom (bondedAmt + unbondingAmt));
      let vestingAcc := set_delegated_free delegatedFree vestingAcc in
      _ ← mmodify (SetAccount (ClawbackAcc vestingAcc));
      mret (vestingAcc, false, false)
  | Some (ClawbackAcc vestingAcc) =>
      if negb merge then mraise ErrApplyShedule
      else if bool_decide (AddrString funder <> FunderAddress vestingAcc) then
        mraise ErrApplyShedule
      else
        vestingAcc ← addGrant vestingAcc (Min64 startTime (StartTime vestingAcc))
                       lockupPeriods vestingPeriods coins;
        _ ← mmodify (SetAccount (ClawbackAcc vestingAcc));
        mret (vestingAcc, false, true)
  end.

Definition delegateVestedCoins (delegator : string) (msg : MsgConvertIntoVestingAccount)
    (vestingPeriods : list Period) : M W unit :=
  valAddress ← mlift (match ValAddressFromBech32 (W:=W) (mi_ValidatorAddress msg) with
                      | Some v => Ok v | None => Err ErrInvalidAddress end);
  validator ← mwrap ErrInvalidRequest (fun w => (GetValidator valAddress w, w));
  let '(newVestingStart, newVestingEnd, _) :=
    DisjunctPeriods (mi_StartTime msg) (mi_StartTime msg) vestingPeriods vestingPeriods in
  now ← mgets BlockTime;
  let vestedCoins := ReadSchedule newVestingStart newVestingEnd vestingPeriods
                       (TotalAmount vestingPeriods) now in
  if IsZero vestedCoins then mraise ErrInvalidRequest else
  bondDenom ← bond_denom;
  match Find vestedCoins bondDenom with
  | None => mraise ErrInvalidRequest
  | Some amountToDelegate =>
      if Amount amountToDelegate =? 0 then mraise ErrInvalidRequest
      else _ ← Delegate delegator (Amount amountToDelegate) validator; mret tt
  end.

Definition ConvertIntoVestingAccount (msg : MsgConvertIntoVestingAccount) : M W unit :=
  from ← mlift (must_addr (mi_FromAddress msg));
  let to := target_address (mi_ToAddress msg) in
  if negb (VerifyAddressFormat to) then mraise ErrInvalidAddress
  else if BlockedAddr (W:=W) to then mraise ErrUnauthorized else
  acc ← mgets (GetAccount to);
  if match acc with
     | Some (EthAcc b h) => no_error (IsContractAccount (EthAcc b h))
     | _ => false
     end then mraise ErrInvalidRequest else
  '(lockupPeriods, vestingPeriods, vestingCoins) ←
    mlift (complete_schedules (mi_LockupPeriods msg) (mi_VestingPeriods msg));
  _ ← mwrap ErrInvalidRequest
        (ApplyVestingSchedule from to vestingCoins (mi_StartTime msg) lockupPeriods
           vestingPeriods (mi_Merge msg));
  _ ← SendCoins from to vestingCoins;
  if mi_Stake msg then
    mwrap ErrInvalidRequest (delegateVestedCoins to msg vestingPeriods)
  else mret tt.

(** ** Queries *)

Definition Balances (address : string) (w : W) : res (list coin * list coin * list coin) :=
  match AccAddressFromBech32 address with
  | None => Err (ErrText "InvalidArgument")
  | Some addr =>
      match fst (GetClawbackVestingAccount addr w) with
      | Ok clawbackAccount =>
          locked ← GetLockedUpCoins clawbackAccount (BlockTime w);
          unvested ← GetVestingCoins clawbackAccount (BlockTime w);
          Ok (locked, unvested, GetVestedCoins clawbackAccount (BlockTime w))
      | Err _ => Err (ErrText "InvalidArgument")
      | Panic => Panic
      end
  end.

(** The callback of [TotalLocked] over the accounts. *)
Fixpoint total_locked_loop (now : Z) (accs : list Account)
    (totalLocked totalUnvested totalVested : list coin)
    : res (list coin * list coin * list coin) :=
  match accs with
  | [] => Ok (totalLocked, totalUnvested, totalVested)
  | ClawbackAcc va :: rest =>
      locked ← GetLockedUpCoins va now;
      unvested ← GetVestingCoins va now;
      let vested := GetVestedCoins va now in
      total_locked_loop now rest (coins_add totalLocked locked)
        (coins_add totalUnvested unvested) (coins_add totalVested vested)
  | _ :: rest => total_locked_loop now rest totalLocked totalUnvested totalVested
  end.

(** [enabled] is the value of the environment variable that enables the query. *)
Definition TotalLocked (enabled : bool) (w : W) : res (list coin * list coin * list coin) :=
  if negb enabled then Err (ErrText "vesting stats is disabled") else
  '(totalLocked, totalUnvested, totalVested) ←
    total_locked_loop (BlockTime w) (AllAccounts w) [] [] [];
  let totalLocked :=
    match GetModuleAccount "liquidvesting" w with
    | Some addr => coins_add totalLocked [mkCoin "aISLM" (GetBalance addr "aISLM" w)]
    | None => totalLocked
    end in
  Ok (totalLocked, totalUnvested, totalVested).

End keeper.

(** ** The state invariant *)

Definition accounts_ok {W} `{AccountKeeper W} (w : W) : Prop :=
  forall a va, GetAccount a w = Some (ClawbackAcc va) -> acc_ok va.

Section facts.
Context {W : Type} `{SdkLaws} `{EthLaws} `{AddrCheck} `{KeeperLaws W} `{!StakingKeeper W}
  `{!StakingLaws W}.

Lemma clawback_account_ok addr (w w' : W) va : GetClawbackVestingAccount addr w = (Ok va, w') ->
  GetAccount addr w = Some (ClawbackAcc va) /\ w' = w.
Proof.
  unfold GetClawbackVestingAccount. destruct (GetAccount addr w) as [[]|]; try done.
  by intros [= -> ->].
Qed.

Lemma new_coins_of_ok d x : ValidDenom d = true -> 0 <= x ->
  exists c, new_coins_of d x = Ok c /\ valid c /\ forall d', amt c d' = if decide (d = d') then x else 0.
Proof.
  intros Hd Hx. unfold new_coins_of. rewrite new_coin_ok by done. simpl.
  rewrite new_coins_one by done. eexists. split; [done|].
  case_decide; subst; split.
  - apply valid_nil.
  - intros. simpl. by case_decide.
  - apply valid_single. lia.
  - intros. by rewrite amt_single.
Qed.

Lemma set_account_ok acc (w : W) : accounts_ok w ->
  (forall va, acc = ClawbackAcc va -> acc_ok va) -> accounts_ok (SetAccount acc w).
Proof.
  intros Hw Ha a va. destruct (decide (acc_address acc = a)) as [<-|N].
  - rewrite get_set_eq. intros [= ->]. by apply Ha.
  - rewrite get_set_ne by done. apply Hw.
Qed.

Lemma accounts_grow_ok (w w' : W) : accounts_grow w w' -> accounts_ok w -> accounts_ok w'.
Proof.
  intros Hg Hw a va E. destruct (Hg a) as [Ea|(_ & b & h & Ea)]; rewrite Ea in E; [by eapply Hw|done].
Qed.

Lemma accounts_grow_some (w w' : W) a acc :
  accounts_grow w w' -> GetAccount a w = Some acc -> GetAccount a w' = Some acc.
Proof. intros Hg E. destruct (Hg a) as [->|(E' & _)]; [done|congruence]. Qed.

Lemma accounts_same_ok (w w' : W) :
  (forall a, GetAccount a w' = GetAccount a w) -> accounts_ok w -> accounts_ok w'.
Proof. intros E Hw a va. rewrite E. apply Hw. Qed.

Lemma set_delegated_ok df dv va : acc_ok va -> valid df -> valid dv ->
  acc_ok (set_delegated df dv va).
Proof. intros [] ? ?. by constructor. Qed.

(** [addGrant] keeps the account invariant and adds the grant's amounts. *)
Lemma addGrant_facts va gs gl gv gc (w w' : W) va' :
  acc_ok va -> grant_ok gs gl gv gc -> addGrant va gs gl gv gc w = (Ok va', w') ->
  w' = w /\ acc_ok va' /\ OV va' = coins_add (OV va) gc /\
  FunderAddress va' = FunderAddress va /\ BaseAcc (BVA va') = BaseAcc (BVA va) /\
  StartTime va' = Z.min (StartTime va) gs /\ CodeHash va' = CodeHash va /\
  forall t d, Z.min (StartTime va) gs < t ->
    amt (GetVestedCoins va' t) d = steps (StartTime va) (VestingPeriods va) t d + steps gs gv t d /\
    amt (GetUnlockedCoins va' t) d = steps (StartTime va) (LockupPeriods va) t d + steps gs gl t d.
Proof.
  intros Hva Hg E. unfold addGrant, delegated_amount, bond_denom, GetStartTime, GetVestingPeriods in E.
  mrun. apply negb_false_iff, Z.eqb_eq in Eif.
  match goal with |- _ /\ acc_ok ?v /\ _ => set (va' := v) end.
  destruct (merge_grant va gs gl gv gc z z0 l z1 z2 l0) as (E3 & E4 & Hl' & Hv' & S1 & S2);
    [apply Hva..|done|done|done|].
  destruct (new_coins_of_ok a (a0 + a1)) as (c & E5 & Vc & _).
  { by eapply bond_denom_valid. }
  { apply bonded_nonneg in Hrun0. apply unbonding_nonneg in Hrun1. lia. }
  rewrite E5 in Hrun3. injection Hrun3 as <-. rewrite new_coins_nil in Hrun2. injection Hrun2 as <-.
  assert (Hva' : acc_ok va') by (constructor; simpl; auto with coins).
  split_and!; try done. intros t d L.
  rewrite vested_steps, unlocked_steps by (done || (simpl; lia)). simpl. by rewrite S1, S2.
Qed.

(** The account a creation stores. *)
Lemma new_clawback_facts base funder start lp vp c h (w : W) acc w' :
  grant_ok start lp vp c ->
  NewAccount (ClawbackAcc (NewClawbackVestingAccount base funder c start lp vp (Some h))) w = (acc, w') ->
  exists va, acc = ClawbackAcc va /\ acc_ok va /\ OV va = c /\ StartTime va = start /\
    FunderAddress va = AddrString funder /\ LockupPeriods va = lp /\ VestingPeriods va = vp /\
    va_address va = Address base /\ (forall a, GetAccount a w' = GetAccount a w) /\
    (forall a d, GetBalance a d w' = GetBalance a d w) /\ BlockTime w' = BlockTime w.
Proof.
  intros Hg E. destruct (new_account_facts base funder start lp vp c (Some h) Hg) as (En & [? ? ? ?]).
  rewrite En in E. match type of E with NewAccount ?a _ = _ =>
    destruct (new_account_spec a w) as (n & w1 & En' & Ga & Gb & Gt) end.
  rewrite En' in E. injection E as <- <-. eexists. split; [done|]. split_and!; try done.
Qed.

Lemma set_grow acc (w w' : W) : accounts_grow (SetAccount acc w) w' ->
  GetAccount (acc_address acc) w' = Some acc /\
  forall a, a <> acc_address acc ->
    GetAccount a w' = GetAccount a w \/
    (GetAccount a w = None /\ exists b h, GetAccount a w' = Some (EthAcc b h)).
Proof.
  intros Hg. split.
  - apply (accounts_grow_some _ _ _ _ Hg), get_set_eq.
  - intros a Na. specialize (Hg a). by rewrite get_set_ne in Hg by done.
Qed.

(** What a grant of [c] with schedules [lp], [vp] made of the account [old]. *)
Definition granted (old : option Account) (start : Z) (lp vp : list Period) (c : list coin)
    (va' : ClawbackVestingAccount) : Prop :=
  match old with
  | Some (ClawbackAcc va) =>
      OV va' = coins_add (OV va) c /\ FunderAddress va' = FunderAddress va /\
      BaseAcc (BVA va') = BaseAcc (BVA va) /\
      StartTime va' = Z.min (StartTime va) start /\ CodeHash va' = CodeHash va /\
      forall t d, StartTime va' < t ->
        amt (GetVestedCoins va' t) d
        = steps (StartTime va) (VestingPeriods va) t d + steps start vp t d /\
        amt (GetUnlockedCoins va' t) d
        = steps (StartTime va) (LockupPeriods va) t d + steps start lp t d
  | _ => OV va' = c /\ StartTime va' = start /\ LockupPeriods va' = lp /\ VestingPeriods va' = vp
  end.

(** [w1] is [w] with the account [va'] stored at [to]. *)
Definition stored (to : string) (va' : ClawbackVestingAccount) (w w1 : W) : Prop :=
  exists w0, w1 = SetAccount (ClawbackAcc va') w0 /\
    (forall a, GetAccount a w0 = GetAccount a w) /\
    (forall a d, GetBalance a d w0 = GetBalance a d w) /\ BlockTime w0 = BlockTime w /\
    acc_ok va' /\ va_address va' = to.

Lemma stored_ok to va' (w w1 : W) : accounts_ok w -> stored to va' w w1 -> accounts_ok w1.
Proof.
  intros Hw (w0 & -> & Ga & _ & _ & Hva & _). apply set_account_ok.
  - by apply (accounts_same_ok w).
  - by intros ? [= <-].
Qed.

Lemma stored_send from to c va' (w w1 w' : W) :
  accounts_ok w -> stored to va' w w1 -> operand c -> SendCoins from to c w1 = (Ok tt, w') ->
  accounts_ok w' /\ GetAccount to w' = Some (ClawbackAcc va') /\
  moved from to c (fun a d => GetBalance a d w) (fun a d => GetBalance a d w').
Proof.
  intros Hw Hs Hc E. pose proof (stored_ok _ _ _ _ Hw Hs) as Hw1.
  destruct Hs as (w0 & -> & Ga & Gb & _ & Hva & <-).
  destruct (send_ok _ _ _ _ _ Hc E) as (Hm & Hgrow & _).
  split_and!; [by eapply accounts_grow_ok|by apply (set_grow _ w0)|].
  intros a d. specialize (Hm a d). cbv beta in *. by rewrite Hm, !set_balance, !Gb.
Qed.

Lemma stored_grant to va va' start lp vp c (w : W) w1 :
  accounts_ok w -> grant_ok start lp vp c -> GetAccount to w = Some (ClawbackAcc va) ->
  addGrant va start lp vp c w = (Ok va', w1) ->
  stored to va' w (SetAccount (ClawbackAcc va') w1) /\
  granted (Some (ClawbackAcc va)) start lp vp c va'.
Proof.
  intros Hw Hg Ea E. destruct (addGrant_facts _ _ _ _ _ _ _ _ (Hw _ _ Ea) Hg E)
    as (-> & Hok & Eo & Ef & Eb & Es & Ec & Hst).
  split; [|split_and!; auto; by rewrite Es].
  eexists. split_and!; try done. rewrite <- (get_address _ _ _ Ea).
  unfold va_address, acc_address. simpl. by rewrite Eb.
Qed.

Lemma stored_new to base funder start lp vp c h (w : W) acc w1 :
  grant_ok start lp vp c -> Address base = to ->
  NewAccount (ClawbackAcc (NewClawbackVestingAccount base funder c start lp vp (Some h))) w = (acc, w1) ->
  exists va', acc = ClawbackAcc va' /\ stored to va' w (SetAccount acc w1) /\
    granted None start lp vp c va' /\ FunderAddress va' = AddrString funder.
Proof.
  intros Hg <- E. destruct (new_clawback_facts _ _ _ _ _ _ _ _ _ _ Hg E)
    as (va' & -> & Hok & Eo & Es & Ef & El & Ev & Eb & Ga & Gb & Gt).
  exists va'. split_and!; try done. eexists. by split_and!.
Qed.

Lemma create_facts msg (w w' : W) :
  accounts_ok w ->
  sched_ok (mc_StartTime msg) (mc_LockupPeriods msg) ->
  sched_ok (mc_StartTime msg) (mc_VestingPeriods msg) ->
  CreateClawbackVestingAccount msg w = (Ok tt, w') ->
  accounts_ok w' /\ exists from to lp vp c va',
    AccAddressFromBech32 (mc_FromAddress msg) = Some from /\
    AccAddressFromBech32 (mc_ToAddress msg) = Some to /\
    complete_schedules (mc_LockupPeriods msg) (mc_VestingPeriods msg) = Ok (lp, vp, c) /\
    GetAccount to w' = Some (ClawbackAcc va') /\ acc_ok va' /\
    granted (GetAccount to w) (mc_StartTime msg) lp vp c va' /\
    match GetAccount to w with
    | None => FunderAddress va' = AddrString from
    | Some (ClawbackAcc va) => mc_Merge msg = true /\ mc_FromAddress msg = FunderAddress va
    | _ => False
    end /\
    moved from to c (fun a d => GetBalance a d w) (fun a d => GetBalance a d w').
Proof.
  intros Hw Hl Hv E. unfold CreateClawbackVestingAccount, must_addr in E. mrun.
  destruct (AccAddressFromBech32 (mc_FromAddress msg)) as [from|]; [|done].
  destruct (AccAddressFromBech32 (mc_ToAddress msg)) as [to|]; [|done]. simplify_eq.
  pose proof (complete_grant _ _ _ _ _ _ Hl Hv Hrun1) as Hg.
  rename a into from, a0 into to, l into c.
  assert (exists va', stored to va' w w1 /\ granted (GetAccount to w) (mc_StartTime msg) l0 l1 c va' /\
    match GetAccount to w with
    | None => FunderAddress va' = AddrString from
    | Some (ClawbackAcc va) => mc_Merge msg = true /\ mc_FromAddress msg = FunderAddress va
    | _ => False
    end) as (va' & Hs & Hgr & Hm).
  { destruct (GetAccount to w) as [[b h|va|b]|] eqn:Ea; mrun.
    - destruct (stored_grant _ _ _ _ _ _ _ _ _ Hw Hg Ea Hrun) as [Hs Hgr].
      exists a. split_and!; auto; [by apply negb_false_iff|].
      apply bool_decide_eq_false in Eif1. by destruct (decide (mc_FromAddress msg = FunderAddress va)).
    - destruct (stored_new to (NewBaseAccountWithAddress to) _ _ _ _ _ _ _ _ _ Hg eq_refl Hrun) as (va' & -> & Hs & Hgr & Hf).
      by exists va'. }
  destruct (stored_send from to c va' w w1 w') as (Hw' & Ea' & Hmv); auto.
  { apply valid_operand, Hg. }
  split; [done|]. exists from, to, l0, l1, c, va'. split_and!; try done.
  by destruct Hs as (? & _ & _ & _ & _ & ? & _).
Qed.

(** Equal textual addresses are equal addresses. *)

(** The destination of a clawback message. *)
Definition clawback_dest (msg : MsgClawback) (funder : string) : string :=
  if bool_decide (mcl_DestAddress msg = EmptyString) then funder
  else default EmptyString (AccAddressFromBech32 (mcl_DestAddress msg)).

Lemma clawback_moved va va' dest u (w w' : W) :
  accounts_ok w -> acc_ok va' -> va_address va' = va_address va -> IsZero u = false ->
  moved (va_address va') dest u (fun a d => GetBalance a d (SetAccount (ClawbackAcc va') w))
    (fun a d => GetBalance a d w') ->
  accounts_grow (SetAccount (ClawbackAcc va') w) w' ->
  accounts_ok w' /\ u <> [] /\ GetAccount (va_address va) w' = Some (ClawbackAcc va') /\
  moved (va_address va) dest u (fun a d => GetBalance a d w) (fun a d => GetBalance a d w').
Proof.
  intros Hw Hva' <- Hz Hm Hgrow. split_and!.
  - eapply accounts_grow_ok; [done|]. apply set_account_ok; [done|]. by intros ? [= <-].
  - intros ->. assert (IsZero [] = true) by (apply is_zero_spec; auto with coins). congruence.
  - by apply (set_grow _ w).
  - intros a d. specialize (Hm a d). cbv beta in *. by rewrite Hm, !set_balance.
Qed.

Lemma transfer_facts va dest (w w' : W) :
  accounts_ok w -> GetAccount (va_address va) w = Some (ClawbackAcc va) ->
  transferClawback va dest w = (Ok tt, w') ->
  accounts_ok w' /\ exists va' unvested,
    ComputeClawback va (BlockTime w) = Ok (va', unvested) /\
    ((unvested = [] /\ w' = w) \/
     (unvested <> [] /\ GetAccount (va_address va) w' = Some (ClawbackAcc va') /\
      moved (va_address va) dest unvested
        (fun a d => GetBalance a d w) (fun a d => GetBalance a d w'))).
Proof.
  intros Hw Ea E. pose proof (Hw _ _ Ea) as Hva.
  destruct (clawback_facts va (BlockTime w) Hva)
    as (va' & u & Ec & Hva' & Vu & Eo & Au & _ & _ & Ef & Eb & _).
  assert (Eaddr : va_address va' = va_address va).
  { unfold va_address, acc_address. simpl. by rewrite Eb. }
  unfold transferClawback in E. mrun; rewrite Ec in Hrun0; injection Hrun0 as <- <-.
  { split; [done|]. exists va', u. split; [done|]. left. split; [|done].
    rewrite <- (is_zero_nil u Vu). by rewrite Eif. }
  - apply bool_decide_eq_true, addr_string_inj in Eif0. subst dest.
    apply fund_ok in E as (Hm & Hgrow & _); [|auto with coins].
    destruct (clawback_moved va va' _ u w w' Hw Hva' Eaddr Eif Hm Hgrow) as (? & ? & ? & ?).
    split; [done|]. exists va', u. auto.
  - apply send_ok in E as (Hm & Hgrow & _); [|auto with coins].
    destruct (clawback_moved va va' _ u w w' Hw Hva' Eaddr Eif Hm Hgrow) as (? & ? & ? & ?).
    split; [done|]. exists va', u. auto.
Qed.

Lemma clawback_run msg (w w' : W) :
  accounts_ok w -> Clawback msg w = (Ok tt, w') ->
  accounts_ok w' /\ exists addr funder va va' unvested,
    AccAddressFromBech32 (mcl_AccountAddress msg) = Some addr /\
    AccAddressFromBech32 (mcl_FunderAddress msg) = Some funder /\
    BlockedAddr (W:=W) (clawback_dest msg funder) = false /\
    GetAccount addr w = Some (ClawbackAcc va) /\ FunderAddress va = AddrString funder /\
    ComputeClawback va (BlockTime w) = Ok (va', unvested) /\
    ((unvested = [] /\ w' = w) \/
     (unvested <> [] /\ GetAccount addr w' = Some (ClawbackAcc va') /\
      moved addr (clawback_dest msg funder) unvested
        (fun a d => GetBalance a d w) (fun a d => GetBalance a d w'))).
Proof.
  intros Hw E. unfold Clawback, must_addr in E. mrun.
  destruct (AccAddressFromBech32 (mcl_AccountAddress msg)) as [addr|]; [|done].
  destruct (AccAddressFromBech32 (mcl_FunderAddress msg)) as [funder|]; [|done]. simplify_eq.
  apply clawback_account_ok in Hrun1 as [Ea ->].
  apply bool_decide_eq_false in Eif1. pose proof (get_address _ _ _ Ea) as Eaddr.
  rewrite <- Eaddr in Ea.
  destruct (transfer_facts _ _ _ _ Hw Ea E) as (Hw' & va' & u & Ec & Hcases).
  rewrite Eaddr in Ea. change (va_address a1) with (acc_address (ClawbackAcc a1)) in Hcases.
  rewrite Eaddr in Hcases.
  split; [done|]. exists a, a0, a1, va', u. split_and!; try done.
  by destruct (decide (FunderAddress a1 = AddrString a0)).
Qed.

(** A schedule moved to an earlier start stays well-formed. *)
Lemma sched_ok_earlier s s' ps : sched_ok s ps -> time_ok s' -> s' <= s -> sched_ok s' ps.
Proof.
  revert s s'. induction ps as [|p ps IH]; intros s s' Hok Ht L; [done|].
  apply sched_ok_cons in Hok as (T & Lp & Hv & Hok & _). simpl. split_and!; try done.
  apply (IH (s + Length p)); [done| |lia]. apply sched_ok_time in Hok.
  unfold time_ok in *. lia.
Qed.

Lemma grant_ok_earlier s s' lp vp c : grant_ok s lp vp c -> time_ok s' -> s' <= s ->
  grant_ok s' lp vp c.
Proof. intros [] ? ?. constructor; eauto using sched_ok_earlier. Qed.

Lemma min64_min i j : Min64 i j = Z.min i j.
Proof. unfold Min64. zcases; lia. Qed.

(** The start [ApplyVestingSchedule] gives the schedule of a grant. *)
Definition apply_start (old : option Account) (start : Z) : Z :=
  match old with
  | Some (ClawbackAcc va) => Z.min start (StartTime va)
  | _ => start
  end.

Lemma apply_facts funder funded c start lp vp merge (w w' : W) va' created merged :
  accounts_ok w -> grant_ok start lp vp c ->
  ApplyVestingSchedule funder funded c start lp vp merge w = (Ok (va', created, merged), w') ->
  stored funded va' w w' /\
  granted (GetAccount funded w) (apply_start (GetAccount funded w) start) lp vp c va' /\
  FunderAddress va' = AddrString funder /\
  match GetAccount funded w with
  | None => created = true /\ merged = false
  | Some (EthAcc b h) => created = false /\ merged = false
  | Some (ClawbackAcc va) => merge = true /\ created = false /\ merged = true
  | Some (OtherAcc _) => False
  end.
Proof.
  intros Hw Hg E. unfold ApplyVestingSchedule in E. mrun.
  destruct (GetAccount funded w) as [[b h|va|b]|] eqn:Ea; unfold bond_denom in *; mrun.
  - destruct (new_account_facts b funder start lp vp c (Some (HexToHash h)) Hg) as (En & Hn).
    simplify_eq. rewrite En in *.
    destruct (new_coins_of_ok a1 (a + a0)) as (df & E5 & Vc & _).
    { by eapply bond_denom_valid. }
    { apply bonded_nonneg in Hrun. apply unbonding_nonneg in Hrun0. lia. }
    simplify_eq. split_and!; try done. eexists. split_and!; try done.
    + destruct Hn. constructor; simpl in *; auto. congruence.
    + apply (get_address _ _ _ Ea).
  - simplify_eq. apply negb_false_iff in Eif. apply bool_decide_eq_false in Eif0.
    rewrite min64_min in Hrun.
    assert (Hg' : grant_ok (start `min` StartTime va) lp vp c).
    { apply (grant_ok_earlier start); [done| |lia].
      pose proof (sched_ok_time _ _ (go_lock _ _ _ _ Hg)).
      pose proof (sched_ok_time _ _ (so_ok _ _ _ _ (ao_lock _ (Hw _ _ Ea)))).
      unfold time_ok in *. lia. }
    destruct (stored_grant _ _ _ _ _ _ _ _ _ Hw Hg' Ea Hrun) as [Hs Hgr].
    pose proof Hgr as (_ & Ef & _). split_and!; try done. rewrite Ef.
    by destruct (decide (AddrString funder = FunderAddress va)).
  - destruct (stored_new funded (NewBaseAccountWithAddress funded) _ _ _ _ _ _ _ _ _ Hg eq_refl Hrun)
      as (va1 & -> & Hs & Hgr & Hf). simplify_eq. by split_and!.
Qed.

Lemma delegate_vested_run a msg vp (w w' : W) : accounts_ok w ->
  delegateVestedCoins a msg vp w = (Ok tt, w') -> accounts_ok w'.
Proof.
  intros Hw E. unfold delegateVestedCoins, bond_denom in E. mrun.
  destruct (Find _ _) as [ca|]; mrun. intros b va Eb.
  match goal with Hd : Delegate _ _ _ _ = _ |- _ =>
    destruct (delegate_accounts _ _ _ _ _ _ Hd b) as [Es|(va0 & df & Es & Vdf & Es')] end.
  - rewrite Es in Eb. by eapply Hw.
  - rewrite Es' in Eb. injection Eb as <-. destruct (Hw _ _ Es). by constructor.
Qed.

Lemma into_facts msg (w w' : W) :
  accounts_ok w ->
  sched_ok (mi_StartTime msg) (mi_LockupPeriods msg) ->
  sched_ok (mi_StartTime msg) (mi_VestingPeriods msg) ->
  ConvertIntoVestingAccount msg w = (Ok tt, w') ->
  let to := target_address (mi_ToAddress msg) in
  accounts_ok w' /\ exists from lp vp c va' w1,
    AccAddressFromBech32 (mi_FromAddress msg) = Some from /\
    complete_schedules (mi_LockupPeriods msg) (mi_VestingPeriods msg) = Ok (lp, vp, c) /\
    (forall b h, GetAccount to w = Some (EthAcc b h) -> emptyCodeHash = HexToHash h) /\
    GetAccount to w1 = Some (ClawbackAcc va') /\ acc_ok va' /\
    granted (GetAccount to w) (apply_start (GetAccount to w) (mi_StartTime msg)) lp vp c va' /\
    FunderAddress va' = AddrString from /\
    moved from to c (fun a d => GetBalance a d w) (fun a d => GetBalance a d w1) /\
    (if mi_Stake msg then delegateVestedCoins to msg vp w1 = (Ok tt, w') else w' = w1).
Proof.
  intros Hw Hl Hv E to. unfold ConvertIntoVestingAccount, must_addr in E. fold to in E.
  apply M_bind_ok in E as (from & w0 & Hf & E). apply mlift_ok in Hf as [Hf ->].
  destruct (AccAddressFromBech32 (mi_FromAddress msg)) as [from'|]; [|done]. injection Hf as ->.
  destruct (negb (VerifyAddressFormat to)); [done|].
  destruct (BlockedAddr to); [done|].
  apply M_bind_ok in E as (acc & w0 & Ha & E). apply mgets_ok in Ha as [-> ->].
  destruct (match GetAccount to w with Some (EthAcc b h) => _ | _ => _ end) eqn:Ec; [done|].
  apply M_bind_ok in E as ([[lp vp] c] & w0 & Hc & E). apply mlift_ok in Hc as [Hc ->].
  apply M_bind_ok in E as ([[va' created] merged] & w1 & Happ & E). apply mwrap_ok in Happ.
  apply M_bind_ok in E as ([] & w2 & Hsend & E).
  pose proof (complete_grant _ _ _ _ _ _ Hl Hv Hc) as Hg.
  destruct (apply_facts _ _ _ _ _ _ _ _ _ _ _ _ Hw Hg Happ) as (Hs & Hgr & Hfu & _).
  destruct (stored_send from to c va' w w1 w2) as (Hw2 & Ea2 & Hm); auto.
  { apply valid_operand, Hg. }
  split.
  - destruct (mi_Stake msg); mrun; [by eapply delegate_vested_run|done].
  - exists from, lp, vp, c, va', w2. split_and!; try done.
    + intros b h Eb. rewrite Eb in Ec. simpl in Ec.
      destruct (decide (emptyCodeHash = HexToHash h)) as [|N]; [done|].
      by rewrite bool_decide_eq_false_2 in Ec.
    + by destruct Hs as (? & _ & _ & _ & _ & ? & _).
    + destruct (mi_Stake msg); mrun; done.
Qed.

Lemma update_facts msg (w w' : W) : accounts_ok w -> UpdateVestingFunder msg w = (Ok tt, w') ->
  accounts_ok w' /\ exists addr newFunder va,
    AccAddressFromBech32 (mu_VestingAddress msg) = Some addr /\
    AccAddressFromBech32 (mu_NewFunderAddress msg) = Some newFunder /\
    BlockedAddr (W:=W) newFunder = false /\
    GetAccount addr w = Some (ClawbackAcc va) /\ FunderAddress va = mu_FunderAddress msg /\
    w' = SetAccount (ClawbackAcc (set_funder (mu_NewFunderAddress msg) va)) w /\
    GetAccount addr w' = Some (ClawbackAcc (set_funder (mu_NewFunderAddress msg) va)).
Proof.
  intros Hw E. unfold UpdateVestingFunder, must_addr in E. mrun.
  destruct (AccAddressFromBech32 (mu_VestingAddress msg)) as [addr|]; [|done].
  destruct (AccAddressFromBech32 (mu_NewFunderAddress msg)) as [nf|]; [|done]. simplify_eq.
  apply clawback_account_ok in Hrun1 as [Ea ->]. apply bool_decide_eq_false in Eif0.
  split.
  - apply set_account_ok; [done|]. intros ? [= <-]. destruct (Hw _ _ Ea). by constructor.
  - eexists _, _, _. split_and!; try done.
    + by destruct (decide (FunderAddress a1 = mu_FunderAddress msg)).
    + rewrite <- (get_address _ _ _ Ea).
      apply (get_set_eq (ClawbackAcc (set_funder (mu_NewFunderAddress msg) a1))).
Qed.

(** A difference is zero exactly when both sides are equal. *)
Lemma diff_zero a b c : valid a -> valid b -> valid c ->
  (forall d, amt c d = amt a d - amt b d) -> IsZero c = bool_decide (b = a).
Proof.
  intros Va Vb Vc Hc. case_bool_decide as E.
  - subst. apply is_zero_spec; [auto with coins|]. intros d. rewrite Hc. lia.
  - destruct (IsZero c) eqn:Ez; [|done]. exfalso. apply E, valid_ext; auto. intros d.
    assert (Hz : forall d, amt c d = 0) by (apply is_zero_spec; auto with coins).
    specialize (Hz d). rewrite Hc in Hz. lia.
Qed.

Lemma convert_exact msg addr va (w : W) :
  AccAddressFromBech32 (mcv_VestingAddress msg) = Some addr ->
  GetAccount addr w = Some (ClawbackAcc va) -> acc_ok va ->
  ConvertVestingAccount msg w
  = if bool_decide (GetVestedCoins va (BlockTime w) = OV va)
       && bool_decide (GetUnlockedCoins va (BlockTime w) = OV va)
    then (Ok tt, SetAccount (eth_account_of (BaseAcc (BVA va)) (GetCodeHash va)) w)
    else (Err ErrInvalidRequest, w).
Proof.
  intros Eaddr Ea Hva. unfold ConvertVestingAccount, must_addr, mlift, mgets, mraise.
  rewrite Eaddr. unfold mbind, M_bind, GetClawbackVestingAccount. rewrite Ea.
  destruct (vesting_coins_ok va (BlockTime w) Hva) as (u & Eu & Vu & Au).
  destruct (locked_up_ok va (BlockTime w) Hva) as (l & El & Vl & Al).
  rewrite Eu. unfold HasLockedCoins. rewrite El. simpl.
  rewrite (diff_zero (OV va) (GetVestedCoins va (BlockTime w)) u)
    by auto using ov_valid, vested_valid.
  case_bool_decide; simpl; [|done].
  rewrite (diff_zero (OV va) (GetUnlockedCoins va (BlockTime w)) l)
    by auto using ov_valid, unlocked_valid.
  by case_bool_decide.
Qed.

Lemma convert_run msg (w w' : W) : accounts_ok w -> ConvertVestingAccount msg w = (Ok tt, w') ->
  accounts_ok w'.
Proof.
  intros Hw E. pose proof E as E0. unfold ConvertVestingAccount, must_addr in E0.
  apply M_bind_ok in E0 as (addr & w0 & Hf & E0). apply mlift_ok in Hf as [Hf ->].
  destruct (AccAddressFromBech32 (mcv_VestingAddress msg)) as [addr'|] eqn:Eaddr; [|done].
  injection Hf as ->. apply M_bind_ok in E0 as (va & w0 & Hc & _).
  apply clawback_account_ok in Hc as [Ea ->].
  rewrite (convert_exact msg addr va w Eaddr Ea (Hw _ _ Ea)) in E.
  destruct (_ && _); [|done]. injection E as <-. by apply set_account_ok.
Qed.

(** Sum of a quantity over the clawback accounts of a list. *)
Fixpoint sum_accounts (f : ClawbackVestingAccount -> Z) (accs : list Account) : Z :=
  match accs with
  | [] => 0
  | ClawbackAcc va :: rest => f va + sum_accounts f rest
  | _ :: rest => sum_accounts f rest
  end.

Lemma total_locked_loop_ok now accs l u v :
  (forall va, ClawbackAcc va ∈ accs -> acc_ok va) -> valid l -> valid u -> valid v ->
  exists l' u' v', total_locked_loop now accs l u v = Ok (l', u', v') /\
    valid l' /\ valid u' /\ valid v' /\ forall d,
    amt l' d = amt l d + sum_accounts (fun va => amt (OV va) d - amt (GetUnlockedCoins va now) d) accs /\
    amt u' d = amt u d + sum_accounts (fun va => amt (OV va) d - amt (GetVestedCoins va now) d) accs /\
    amt v' d = amt v d + sum_accounts (fun va => amt (GetVestedCoins va now) d) accs.
Proof.
  revert l u v. induction accs as [|acc accs IH]; intros l u v Hok Vl Vu Vv.
  { exists l, u, v. split_and!; try done. intros d. simpl. lia. }
  assert (Hok' : forall va, ClawbackAcc va ∈ accs -> acc_ok va).
  { intros va Hin. apply Hok. by apply list_elem_of_further. }
  destruct acc as [b h|va|b]; simpl; [by apply IH| |by apply IH].
  assert (Hva : acc_ok va) by apply Hok, list_elem_of_here.
  destruct (locked_up_ok va now Hva) as (cl & -> & Vcl & Acl).
  destruct (vesting_coins_ok va now Hva) as (cu & -> & Vcu & Acu). simpl.
  pose proof (vested_valid va now Hva) as Vcv.
  destruct (IH (coins_add l cl) (coins_add u cu) (coins_add v (GetVestedCoins va now)))
    as (l' & u' & v' & -> & Vl' & Vu' & Vv' & HA); auto with coins.
  exists l', u', v'. split_and!; try done. intros d.
  destruct (HA d) as (-> & -> & ->). rewrite !amt_add by auto with coins.
  rewrite Acl, Acu. lia.
Qed.

Lemma check_sched_ok start lp vp : check_schedules lp vp = Ok tt ->
  times_fit start lp -> times_fit start vp -> sched_ok start lp /\ sched_ok start vp.
Proof.
  unfold check_schedules. intros E Tl Tv. run_step E. run_step E.
  apply check_periods_ok in Hrun as (Pl & _), Hrun0 as (Pv & _); try apply valid_nil.
  split; by apply msg_sched_ok.
Qed.
End facts.

(** ** Delivery of messages *)

Inductive vesting_msg :=
  | VCreate (m : MsgCreateClawbackVestingAccount)
  | VClawback (m : MsgClawback)
  | VUpdate (m : MsgUpdateVestingFunder)
  | VConvert (m : MsgConvertVestingAccount)
  | VInto (m : MsgConvertIntoVestingAccount).

Section delivery.
Context {W : Type} `{SdkOps} `{EthOps} `{AddrCheck}
  `{Ctx W} `{AccountKeeper W} `{BankKeeper W} `{StakingKeeper W} `{DistributionKeeper W}.

Definition vesting_check (m : vesting_msg) : res unit :=
  match m with
  | VCreate m => ValidateBasic_Create m
  | VClawback m => ValidateBasic_Clawback m
  | VUpdate m => ValidateBasic_UpdateVestingFunder m
  | VConvert m => ValidateBasic_ConvertVestingAccount m
  | VInto m => ValidateBasic_ConvertIntoVestingAccount m
  end.

Definition vesting_handle (m : vesting_msg) : M W unit :=
  match m with
  | VCreate m => CreateClawbackVestingAccount m
  | VClawback m => Clawback m
  | VUpdate m => UpdateVestingFunder m
  | VConvert m => ConvertVestingAccount m
  | VInto m => ConvertIntoVestingAccount m
  end.

(** The schedules of a message stay in the time range. *)
Definition vesting_times (m : vesting_msg) : Prop :=
  match m with
  | VCreate m => times_fit (mc_StartTime m) (mc_LockupPeriods m) /\
                 times_fit (mc_StartTime m) (mc_VestingPeriods m)
  | VInto m => times_fit (mi_StartTime m) (mi_LockupPeriods m) /\
               times_fit (mi_StartTime m) (mi_VestingPeriods m)
  | _ => True
  end.

(** A transaction checks its message, runs the handler on a cached state and
    keeps the result only when it succeeded. *)
Definition deliver (m : vesting_msg) (w : W) : W :=
  match vesting_check m with
  | Ok _ => match vesting_handle m w with (Ok _, w') => w' | _ => w end
  | _ => w
  end.

(** A run of the chain that delivers the messages [ms]; in between the rest of the chain
    (transfers, the clock) leaves the existing accounts alone. *)
Inductive vesting_run : list vesting_msg -> W -> W -> Prop :=
  | run_end w : vesting_run [] w w
  | run_deliver m ms w w' : vesting_run ms (deliver m w) w' -> vesting_run (m :: ms) w w'
  | run_other ms w w1 w' : accounts_grow w w1 -> vesting_run ms w1 w' -> vesting_run ms w w'.
End delivery.

(** ** Properties *)

Section properties.
Context {W : Type} `{SdkLaws} `{EthLaws} `{AddrCheck} `{KeeperLaws W} `{!StakingKeeper W}
  `{!StakingLaws W}.

(** In a well-formed state, a checked [MsgCreateClawbackVestingAccount]
    that succeeds leaves at the recipient a well-formed clawback account that
    holds the grant: a new account of the sender, or, only with [Merge] and
    from the account's funder, the old account with the grant's schedules
    added.  Exactly the granted coins move from the sender to the recipient. *)
Theorem CreateClawbackVestingAccount_correct msg (w w' : W) :
  accounts_ok w -> ValidateBasic_Create msg = Ok tt -> vesting_times (VCreate msg) ->
  CreateClawbackVestingAccount msg w = (Ok tt, w') ->
  exists from to lp vp c va',
    AccAddressFromBech32 (mc_FromAddress msg) = Some from /\
    AccAddressFromBech32 (mc_ToAddress msg) = Some to /\
    complete_schedules (mc_LockupPeriods msg) (mc_VestingPeriods msg) = Ok (lp, vp, c) /\
    GetAccount to w' = Some (ClawbackAcc va') /\ acc_ok va' /\
    granted (GetAccount to w) (mc_StartTime msg) lp vp c va' /\
    match GetAccount to w with
    | None => FunderAddress va' = AddrString from
    | Some (ClawbackAcc va) => mc_Merge msg = true /\ mc_FromAddress msg = FunderAddress va
    | _ => False
    end /\
    moved from to c (fun a d => GetBalance a d w) (fun a d => GetBalance a d w').
Proof.
  intros Hw Hb [Tl Tv] E. unfold ValidateBasic_Create in Hb. run_step Hb. run_step Hb.
  case_bool_decide; [done|]. destruct (check_sched_ok _ _ _ Hb Tl Tv).
  by apply (create_facts msg w w').
Qed.

(** What the vesting schedule has released at [t], by its periods: nothing until its start. *)
Definition vested_by (va : ClawbackVestingAccount) (t : Z) (d : string) : Z :=
  if StartTime va <? t then steps (StartTime va) (VestingPeriods va) t d else 0.

Lemma vested_by_spec va t d : acc_ok va -> amt (GetVestedCoins va t) d = vested_by va t d.
Proof.
  intros Hva. unfold vested_by. destruct (Z.ltb_spec (StartTime va) t); [by apply vested_steps|by apply vested_early].
Qed.

(** C24: A [Clawback] that succeeds was requested by the account's funder; of every denomination it moves
    exactly what the vesting schedule has not released at the block time
    from the account to the destination (the funder
    unless the message names another), and leaves a well-formed account whose coins are those that were released, and that unlocks
    what it unlocked before but no more than those; or it changes nothing when no coin is
    unvested. *)
Theorem Clawback_correct msg (w w' : W) :
  accounts_ok w -> Clawback msg w = (Ok tt, w') ->
  exists addr funder va va' unvested,
    AccAddressFromBech32 (mcl_AccountAddress msg) = Some addr /\
    AccAddressFromBech32 (mcl_FunderAddress msg) = Some funder /\
    BlockedAddr (W:=W) (clawback_dest msg funder) = false /\
    GetAccount addr w = Some (ClawbackAcc va) /\ FunderAddress va = AddrString funder /\
    ComputeClawback va (BlockTime w) = Ok (va', unvested) /\
    (forall d, amt unvested d = amt (OV va) d - vested_by va (BlockTime w) d) /\
    acc_ok va' /\ FunderAddress va' = FunderAddress va /\
    (forall t d, amt (OV va') d = vested_by va (BlockTime w) d /\
       amt (GetUnlockedCoins va' t) d = Z.min (amt (GetUnlockedCoins va t) d) (vested_by va (BlockTime w) d)) /\
    ((unvested = [] /\ w' = w) \/
     (unvested <> [] /\ GetAccount addr w' = Some (ClawbackAcc va') /\
      moved addr (clawback_dest msg funder) unvested
        (fun a d => GetBalance a d w) (fun a d => GetBalance a d w'))).
Proof.
  intros Hw E. destruct (clawback_run msg w w' Hw E) as (_ & addr & funder & va & va' & u & Ea & Ef & Hb & Eg & Hf & Ec & Hcases).
  pose proof (Hw _ _ Eg) as Hva.
  destruct (clawback_facts va (BlockTime w) Hva) as (va1 & u1 & Ec1 & Hva' & _ & Eo & Au & _ & Hu & Efn & _).
  rewrite Ec in Ec1. injection Ec1 as <- <-. exists addr, funder, va, va', u. split_and!; try done.
  - intros d. by rewrite Au, vested_by_spec.
  - intros t d. rewrite Eo, Hu, amt_min by auto using unlocked_valid, vested_valid, valid_operand. by rewrite vested_by_spec.
Qed.

(** Nobody but the funder claws back or names a new funder: with any other
    requester both handlers fail and leave the state as it is. *)
Theorem only_funder_controls addr va funder other newFunder dest (w : W) :
  GetAccount addr w = Some (ClawbackAcc va) -> FunderAddress va = AddrString funder ->
  other <> funder -> addr_ok other -> addr_ok addr -> addr_ok newFunder ->
  (exists e, Clawback (mkMsgClawback (AddrString other) (AddrString addr) dest) w = (Err e, w)) /\
  (exists e, UpdateVestingFunder
     (mkMsgUpdate (AddrString other) (AddrString newFunder) (AddrString addr)) w = (Err e, w)).
Proof.
  intros Ea Ef Hne Oo Oa On.
  assert (N : FunderAddress va <> AddrString other).
  { rewrite Ef. intros E. apply Hne. symmetry. by apply addr_string_inj. }
  unfold Clawback, UpdateVestingFunder, must_addr, mlift, mraise, GetClawbackVestingAccount,
    mbind, M_bind. simpl. rewrite !addr_roundtrip by done. split.
  - destruct (BlockedAddr _); [eauto|]. rewrite Ea.
    destruct (_ && _); [eauto|]. rewrite bool_decide_eq_true_2 by done. eauto.
  - destruct (BlockedAddr _); [eauto|]. rewrite Ea. rewrite bool_decide_eq_true_2 by done. eauto.
Qed.

(** [ConvertVestingAccount] on a well-formed clawback account succeeds
    exactly when everything is vested and unlocked at the block time; it then
    stores a plain account with the same base account and code hash, and
    otherwise it fails and changes nothing. *)
Theorem ConvertVestingAccount_exact msg addr va (w : W) :
  AccAddressFromBech32 (mcv_VestingAddress msg) = Some addr ->
  GetAccount addr w = Some (ClawbackAcc va) -> acc_ok va ->
  ConvertVestingAccount msg w
  = if bool_decide (GetVestedCoins va (BlockTime w) = OV va)
       && bool_decide (GetUnlockedCoins va (BlockTime w) = OV va)
    then (Ok tt, SetAccount (eth_account_of (BaseAcc (BVA va)) (GetCodeHash va)) w)
    else (Err ErrInvalidRequest, w).
Proof. apply convert_exact. Qed.

(** A successful [ConvertIntoVestingAccount] turns the recipient, never a
    contract, into a well-formed clawback account of the sender that holds the
    grant (merged into the schedules of an existing clawback account of that
    funder), moves exactly the granted coins, and delegates only on request. *)
Theorem ConvertIntoVestingAccount_correct msg (w w' : W) :
  accounts_ok w -> ValidateBasic_ConvertIntoVestingAccount msg = Ok tt ->
  vesting_times (VInto msg) -> ConvertIntoVestingAccount msg w = (Ok tt, w') ->
  let to := target_address (mi_ToAddress msg) in
  exists from lp vp c va' w1,
    AccAddressFromBech32 (mi_FromAddress msg) = Some from /\
    complete_schedules (mi_LockupPeriods msg) (mi_VestingPeriods msg) = Ok (lp, vp, c) /\
    (forall b h, GetAccount to w = Some (EthAcc b h) -> emptyCodeHash = HexToHash h) /\
    GetAccount to w1 = Some (ClawbackAcc va') /\ acc_ok va' /\
    granted (GetAccount to w) (apply_start (GetAccount to w) (mi_StartTime msg)) lp vp c va' /\
    FunderAddress va' = AddrString from /\
    moved from to c (fun a d => GetBalance a d w) (fun a d => GetBalance a d w1) /\
    (if mi_Stake msg then delegateVestedCoins to msg vp w1 = (Ok tt, w') else w' = w1).
Proof.
  intros Hw Hb [Tl Tv] E to. unfold ValidateBasic_ConvertIntoVestingAccount in Hb. run_step Hb.
  destruct (negb _); [done|]. case_bool_decide; [done|].
  destruct (check_sched_ok _ _ _ Hb Tl Tv). by apply into_facts.
Qed.

(** C23: Every sequence of delivered vesting messages, failed ones included,
    interleaved with any transfers of the rest of the chain, keeps every
    clawback account of the state well-formed, provided that the starts and ends of the schedules in the
    messages are times that fit ([vesting_times]): neither the check nor the handlers bound the sum of the
    period lengths, which wraps around in [int64] for schedules that do not. *)
Theorem vesting_messages_preserve_accounts ms (w w' : W) :
  accounts_ok w -> Forall vesting_times ms -> vesting_run ms w w' -> accounts_ok w'.
Proof.
  intros Hw Hts Hr. induction Hr as [w|m ms w w' Hr IH|ms w w1 w' Hg Hr IH]; [done| |].
  2:{ apply IH; [by eapply accounts_grow_ok|done]. }
  apply list.Forall_cons in Hts as [Ht Hts]. apply IH; [|done]. clear IH Hr.
  unfold deliver. destruct (vesting_check m) as [[]| |] eqn:Ec; try done.
  destruct (vesting_handle m w) as [[[]| |] w1] eqn:E; try done.
  destruct m; simpl in *.
  - unfold ValidateBasic_Create in Ec. run_step Ec. run_step Ec. case_bool_decide; [done|].
    destruct Ht as [T1 T2], (check_sched_ok _ _ _ Ec T1 T2). by apply (create_facts m w w1).
  - by apply (clawback_run m w w1).
  - by apply (update_facts m w w1).
  - by apply (convert_run m w w1).
  - unfold ValidateBasic_ConvertIntoVestingAccount in Ec. run_step Ec.
    destruct (negb _); [done|]. case_bool_decide; [done|].
    destruct Ht as [T1 T2], (check_sched_ok _ _ _ Ec T1 T2). by apply (into_facts m w w1).
Qed.

(** On a well-formed state the [TotalLocked] query succeeds: the unvested
    and vested totals add up to the original vesting amounts of all clawback
    accounts, and the locked total is what their lockups withhold plus the coins
    escrowed by the liquid vesting module. *)
Theorem TotalLocked_sums (w : W) :
  accounts_ok w -> (forall a, 0 <= GetBalance a "aISLM" w) ->
  exists l u v, TotalLocked true w = Ok (l, u, v) /\ forall d,
    amt u d + amt v d = sum_accounts (fun va => amt (OV va) d) (AllAccounts w) /\
    amt l d = sum_accounts (fun va => amt (OV va) d - amt (GetUnlockedCoins va (BlockTime w)) d)
                (AllAccounts w)
      + match GetModuleAccount "liquidvesting" w with
        | Some a => if decide ("aISLM" = d) then GetBalance a "aISLM" w else 0
        | None => 0
        end.
Proof.
  intros Hw Hb. destruct (total_locked_loop_ok (BlockTime w) (AllAccounts w) [] [] [])
    as (l & u & v & E & Vl & Vu & Vv & HA); auto with coins.
  { intros va Hin. by apply all_accounts_spec, Hw in Hin. }
  unfold TotalLocked. simpl. rewrite E. simpl. eexists _, u, v. split; [done|].
  intros d. destruct (HA d) as (Hl & Hu & Hv). rewrite Hu, Hv. split.
  - simpl. clear. induction (AllAccounts w) as [|[] ? IH]; simpl; lia.
  - destruct (GetModuleAccount "liquidvesting" w).
    + rewrite amt_add by auto using operand_single with coins.
      rewrite Hl, amt_single. simpl. done.
    + rewrite Hl. simpl. lia.
Qed.
End properties.

(** ** Concrete runs *)

Section runs.
#[local] Existing Instances RefOps RefLaws RefEth RefEthLaws RefCtx RefAccountKeeper RefBankKeeper
  RefStakingKeeper RefDistributionKeeper RefAddrCheck RefKeeperLaws RefStakingLaws.

Definition ex_world : RefWorld unit :=
  mkWorld 1050 {[ "alice" := ClawbackAcc ex_account ]} 8
    {[ ("funder", "aISLM") := 1000%N; ("alice", "aISLM") := 50%N; ("alice", "aTEST") := 5%N ]}
    ∅ ∅ tt.

Lemma ex_world_ok : accounts_ok ex_world.
Proof.
  intros a va. unfold GetAccount; simpl. unfold rw_get_account, ex_world. simpl.
  destruct (decide (a = "alice")) as [->|N].
  - rewrite lookup_singleton_eq. simpl. intros [= <-]. apply ex_account_ok.
  - by rewrite lookup_singleton_ne.
Qed.

Definition ex_msg_merge : MsgCreateClawbackVestingAccount :=
  mkMsgCreate "haqq1funder" "haqq1alice" 900 [mkPeriod 200 [mkCoin "aISLM" 8]] [] true.

Lemma CreateClawbackVestingAccount_correct_witness :
  exists w' va', CreateClawbackVestingAccount ex_msg_merge ex_world = (Ok tt, w') /\
    rw_get_account "alice" w' = Some (ClawbackAcc va') /\ acc_ok va' /\ amt (OV va') "aISLM" = 58.
Proof.
  destruct (CreateClawbackVestingAccount ex_msg_merge ex_world) as [r w'] eqn:E.
  assert (r = Ok tt) as -> by (vm_compute in E; injection E as <- _; reflexivity).
  destruct (CreateClawbackVestingAccount_correct ex_msg_merge ex_world w' ex_world_ok)
    as (from & to & lp & vp & c & va' & _ & Et & Ec & Ea & Hok & Hgr & _).
  - vm_compute. reflexivity.
  - vm_compute. intuition congruence.
  - exact E.
  - vm_compute in Et. injection Et as <-. vm_compute in Ec. injection Ec as <- <- <-.
    exists w', va'. split_and!; [reflexivity|exact Ea|exact Hok|].
    destruct Hgr as [-> _]. vm_compute. reflexivity.
Defined.

Lemma Clawback_correct_witness :
  exists w' u, Clawback (mkMsgClawback "haqq1funder" "haqq1alice" "") ex_world = (Ok tt, w') /\
    (forall d, amt u d = amt (OV ex_account) d - vested_by ex_account 1050 d) /\
    GetBalance "funder" "aISLM" w' = GetBalance "funder" "aISLM" ex_world + amt u "aISLM".
Proof.
  destruct (Clawback (mkMsgClawback "haqq1funder" "haqq1alice" "") ex_world) as [r w'] eqn:E.
  assert (r = Ok tt) as -> by (vm_compute in E; injection E as <- _; reflexivity).
  destruct (Clawback_correct
    (mkMsgClawback "haqq1funder" "haqq1alice" "") ex_world w' ex_world_ok E)
    as (addr & funder & va & va' & u & Ea & Ef & _ & Eg & _ & Ec & Au & _ & _ & _ & Hc).
  vm_compute in Ea. injection Ea as <-. vm_compute in Ef. injection Ef as <-. vm_compute in Eg. injection Eg as <-.
  exists w', u. split_and!; [reflexivity|exact Au|].
  destruct Hc as [[-> _]|(_ & _ & Hm)].
  - vm_compute in Ec. discriminate Ec.
  - rewrite (Hm "funder" "aISLM"). rewrite decide_False, decide_True by (vm_compute; congruence). lia.
Defined.

Lemma only_funder_controls_witness :
  exists e, Clawback (mkMsgClawback "haqq1mallory" "haqq1alice" "haqq1mallory") ex_world
            = (Err e, ex_world).
Proof.
  destruct (only_funder_controls
    "alice" ex_account "funder" "mallory" "mallory" "haqq1mallory" ex_world) as [H _].
  - vm_compute. reflexivity.
  - vm_compute. reflexivity.
  - congruence.
  - unfold addr_ok. simpl. lia.
  - unfold addr_ok. simpl. lia.
  - unfold addr_ok. simpl. lia.
  - exact H.
Defined.

Lemma ConvertVestingAccount_exact_witness :
  ConvertVestingAccount
    (mkMsgConvert "haqq1alice") ex_world = (Err ErrInvalidRequest, ex_world).
Proof.
  rewrite (ConvertVestingAccount_exact (mkMsgConvert "haqq1alice") "alice" ex_account ex_world).
  - vm_compute. reflexivity.
  - vm_compute. reflexivity.
  - vm_compute. reflexivity.
  - exact ex_account_ok.
Defined.

Definition ex_msg_into : MsgConvertIntoVestingAccount :=
  mkMsgInto "haqq1funder" "haqq1alice" 5000 [mkPeriod 100 [mkCoin "aISLM" 8]] [] true false "".

Lemma ConvertIntoVestingAccount_correct_witness :
  exists w' va', ConvertIntoVestingAccount ex_msg_into ex_world = (Ok tt, w') /\
    rw_get_account "alice" w' = Some (ClawbackAcc va') /\ acc_ok va'.
Proof.
  destruct (ConvertIntoVestingAccount ex_msg_into ex_world) as [r w'] eqn:E.
  assert (r = Ok tt) as -> by (vm_compute in E; injection E as <- _; reflexivity).
  destruct (ConvertIntoVestingAccount_correct ex_msg_into ex_world w' ex_world_ok)
    as (from & lp & vp & c & va' & w1 & _ & _ & _ & Ea & Hok & _ & _ & _ & Hst).
  - vm_compute. reflexivity.
  - vm_compute. intuition congruence.
  - exact E.
  - simpl in Hst. subst w1. exists w', va'. split_and!; [reflexivity|exact Ea|exact Hok].
Defined.

Lemma vesting_messages_preserve_accounts_witness :
  accounts_ok
    (deliver
       (VClawback (mkMsgClawback "haqq1funder" "haqq1alice" "")) ex_world).
Proof.
  apply (vesting_messages_preserve_accounts [VClawback (mkMsgClawback "haqq1funder" "haqq1alice" "")] ex_world).
  - exact ex_world_ok.
  - constructor; [exact I|constructor].
  - apply run_deliver, run_end.
Defined.

Lemma TotalLocked_sums_witness :
  exists l u v, TotalLocked true ex_world
    = Ok (l, u, v) /\ amt u "aISLM" + amt v "aISLM" = 50.
Proof.
  destruct (TotalLocked_sums ex_world ex_world_ok)
    as (l & u & v & E & HA).
  - intros a. apply rw_balance_nonneg.
  - exists l, u, v. split; [exact E|]. destruct (HA "aISLM") as [-> _]. vm_compute. reflexivity.
Defined.

(** The merge of [ApplyVestingSchedule] starts a later grant at the account's
    start: a grant due at 5100 merged into an account that started at 1000 is
    vested and unlocked at 1100. *)
Lemma ApplyVestingSchedule_advances_grant :
  steps 5000 (mi_LockupPeriods ex_msg_into) 1150 "aISLM" = 0 /\
  match ConvertIntoVestingAccount ex_msg_into ex_world with
  | (Ok _, w') =>
      match rw_get_account "alice" w' with
      | Some (ClawbackAcc va') => amt (GetUnlockedVestedCoins va' 1150) "aISLM"
          = amt (GetUnlockedVestedCoins ex_account 1150) "aISLM" + 8
      | _ => False
      end
  | _ => False
  end.
Proof. by vm_compute. Qed.
End runs.
