(* ===== verification/LiquidSchedule.v ===== *)
(** * Schedules of liquid tokens: x/liquidvesting/types/schedule.go, denom.go

    A liquidation takes an amount out of the upcoming periods of a lockup
    schedule, in proportion and with the rounding residue from the tail, and
    gives it a schedule of its own.  [splits] is the specification: no period
    loses or gains a coin, and no event moves. *)

From S2P Require Import Prelude.
From S2P Require Import Sdk.
From S2P Require Import Schedule.
From S2P Require Import ClawbackAccount.

Local Open Scope Z_scope.
Local Open Scope haqq_scope.

Section schedule.
Context `{SdkOps}.

(** The first loop of [SubtractAmountFromPeriods]: the decreased periods, the
    differences and the amount subtracted so far. *)
Fixpoint subtract_loop (denom : string) (total sub totalSubtracted : Z) (periods : list Period)
    : res (list Period * list Period * Z) :=
  match periods with
  | [] => Ok ([], [], totalSubtracted)
  | minuendPeriod :: rest =>
      let minuendCoinAmount := AmountOf (PAmount minuendPeriod) denom in
      let subtractedAmount := Z.quot (minuendCoinAmount * sub) total in
      subtrahendCoin ← NewCoin denom subtractedAmount;
      decreased ← coins_sub (PAmount minuendPeriod) [subtrahendCoin];
      diff ← NewCoins [subtrahendCoin];
      '(ds, fs, tot) ← subtract_loop denom total sub (totalSubtracted + subtractedAmount) rest;
      Ok (mkPeriod (Length minuendPeriod) decreased :: ds,
          mkPeriod (Length minuendPeriod) diff :: fs, tot)
  end.

(** The second loop, from the last period on: [rps] holds the pairs of decreased
    and difference periods in reverse. *)
Fixpoint residue_loop (denom : string) (residue : Z) (rps : list (Period * Period))
    : res (list (Period * Period)) :=
  match rps with
  | [] => Ok []
  | (dec, diff) :: rest =>
      let amount := AmountOf (PAmount dec) denom in
      if amount <? residue then
        c ← NewCoin denom amount;
        decAmount ← coins_sub (PAmount dec) [c];
        rest' ← residue_loop denom (residue - amount) rest;
        Ok ((mkPeriod (Length dec) decAmount,
             mkPeriod (Length diff) (coins_add (PAmount diff) [c])) :: rest')
      else
        c ← NewCoin denom residue;
        decAmount ← coins_sub (PAmount dec) [c];
        Ok ((mkPeriod (Length dec) decAmount,
             mkPeriod (Length diff) (coins_add (PAmount diff) [c])) :: rest)
  end.

Definition SubtractAmountFromPeriods (minuendPeriods : list Period) (subtrahend : coin)
    : res (list Period * list Period) :=
  let minuendDenom := Denom subtrahend in
  let minuendTotalAmount := AmountOf (TotalAmount minuendPeriods) minuendDenom in
  let subtrahendAmount := Amount subtrahend in
  if (minuendTotalAmount <? subtrahendAmount) || (minuendTotalAmount =? 0) then
    Err (ErrText "insufficient locked up funds")
  else
    '(decreasedPeriods, diffPeriods, totalSubtracted) ←
      subtract_loop minuendDenom minuendTotalAmount subtrahendAmount 0 minuendPeriods;
    if bool_decide (decreasedPeriods = []) then Ok (decreasedPeriods, diffPeriods)
    else
      let residue := subtrahendAmount - totalSubtracted in
      rps ← residue_loop minuendDenom residue (reverse (zip decreasedPeriods diffPeriods));
      Ok ((reverse rps).*1, (reverse rps).*2).

Definition ExtractUpcomingPeriods (startDate endDate : Z) (periods : list Period) (readTime : Z)
    : list Period :=
  drop (ReadPastPeriodCount startDate endDate periods readTime) periods.

Definition ExtractPastPeriods (startDate endDate : Z) (periods : list Period) (readTime : Z)
    : list Period :=
  take (ReadPastPeriodCount startDate endDate periods readTime) periods.

Definition ReplacePeriodsTail (periods replacement : list Period) : list Period :=
  if (length periods <=? length replacement)%nat then replacement
  else take (length periods - length replacement) periods ++ replacement.

Fixpoint shift_loop (elapsedTime currentTime : Z) (periods : list Period) : Z :=
  match periods with
  | [] => 0
  | period :: rest =>
      if currentTime <? elapsedTime +64 Length period then currentTime -64 elapsedTime
      else shift_loop (elapsedTime +64 Length period) currentTime rest
  end.

Definition CurrentPeriodShift (startTime currentTime : Z) (periods : list Period) : Z :=
  if currentTime <=? startTime then 0 else shift_loop startTime currentTime periods.

End schedule.

(** ** Names of liquid denominations *)

Definition denomBaseNamePrefix : string := "aLIQUID".
Definition denomDisplayNamePrefix : string := "LIQUID".

Definition DenomBaseNameFromID (id : Z) : string := denomBaseNamePrefix +:+ format_u64 id.
Definition DenomDisplayNameFromID (id : Z) : string := denomDisplayNamePrefix +:+ format_u64 id.

Definition DenomIDFromBaseName (baseName : string) : res Z :=
  let stringID := TrimPrefix baseName denomBaseNamePrefix in
  match Atoi stringID with
  | None => Err (ErrExternal "strconv.Atoi")
  | Some result =>
      if result <? 0 then Err (ErrText "denom id out of range") else Ok (wrap_u64 result)
  end.

(** ** Specification *)

(** [p] splits into [dec] and [diff], and [diff] holds only the coin [d]. *)
Record splits (d : string) (p dec diff : Period) : Prop := {
  sp_dec_length : Length dec = Length p;
  sp_diff_length : Length diff = Length p;
  sp_dec_valid : valid (PAmount dec);
  sp_diff_valid : valid (PAmount diff);
  sp_sum : forall d', amt (PAmount p) d' = amt (PAmount dec) d' + amt (PAmount diff) d';
  sp_other : forall d', d' <> d -> amt (PAmount diff) d' = 0
}.

Abbreviation splits_all d := (Forall3 (splits d)).

Section facts.
Context `{SdkLaws}.

Lemma splits_ok d start ps dec diff : splits_all d ps dec diff -> sched_ok start ps ->
  sched_ok start dec /\ sched_ok start diff /\
  sched_end start dec = sched_end start ps /\ sched_end start diff = sched_end start ps.
Proof.
  intros Hs. revert start. induction Hs as [|p x y ps dec diff [El Ef Vd Vf _ _] _ IH];
    intros start Hok; [by split_and!|].
  apply sched_ok_cons in Hok as (T & L & _ & Hok & _). destruct (IH _ Hok) as (? & ? & ? & ?).
  simpl. rewrite El, Ef. by split_and!.
Qed.

Lemma splits_steps d start ps dec diff t d' : splits_all d ps dec diff ->
  steps start ps t d' = steps start dec t d' + steps start diff t d'.
Proof.
  intros Hs. revert start. induction Hs as [|p x y ps dec diff [El Ef _ _ Es _] _ IH];
    intros start; [done|].
  simpl. rewrite El, Ef, (IH (start + Length p)), Es. zcases; lia.
Qed.

Lemma splits_total d ps dec diff d' : splits_all d ps dec diff ->
  sched_total ps d' = sched_total dec d' + sched_total diff d'.
Proof.
  induction 1 as [|p x y ps dec diff [_ _ _ _ Es _] _ IH]; [done|]. simpl. rewrite Es. lia.
Qed.

Lemma splits_other d ps dec diff d' : splits_all d ps dec diff -> d' <> d ->
  sched_total diff d' = 0.
Proof.
  intros Hs N. induction Hs as [|p x y ps dec diff [_ _ _ _ _ Eo] _ IH]; [done|].
  simpl. rewrite (Eo d' N). lia.
Qed.

Lemma splits_length d ps dec diff : splits_all d ps dec diff ->
  length dec = length ps /\ length diff = length ps.
Proof. induction 1; simpl; [done|]. lia. Qed.

Lemma splits_reverse d ps dec diff : splits_all d ps dec diff ->
  splits_all d (reverse ps) (reverse dec) (reverse diff).
Proof.
  induction 1 as [|p x y ps dec diff Hp _ IH]; [constructor|].
  rewrite !reverse_cons. apply Forall3_app; [done|]. constructor; [done|constructor].
Qed.

Lemma sched_total_reverse ps d : sched_total (reverse ps) d = sched_total ps d.
Proof.
  induction ps as [|p ps IH]; [done|]. rewrite reverse_cons, sched_total_app, IH. simpl. lia.
Qed.

(** Taking [x] of [d] out of valid coins. *)
Lemma take_coin a d x : valid a -> 0 <= x <= amt a d ->
  exists b, coins_sub a [mkCoin d x] = Ok b /\ valid b /\
    forall d', amt b d' = amt a d' - (if decide (d = d') then x else 0).
Proof.
  intros Va Hx. destruct (sub_ok a [mkCoin d x]) as (b & E & Vb & Ab).
  - auto with coins.
  - apply operand_single. lia.
  - intros d'. rewrite amt_single. case_decide; subst; [lia|by apply valid_nonneg].
  - exists b. split_and!; auto. intros d'. by rewrite Ab, amt_single.
Qed.

Lemma new_coins_single d x : ValidDenom d = true -> 0 <= x ->
  exists c, NewCoins [mkCoin d x] = Ok c /\ valid c /\
    forall d', amt c d' = if decide (d = d') then x else 0.
Proof.
  intros Hd Hx. rewrite new_coins_one by done. eexists. split; [done|].
  case_decide; subst; split.
  - apply valid_nil.
  - intros. simpl. by case_decide.
  - apply valid_single. lia.
  - intros. by rewrite amt_single.
Qed.

(** The share of a period. *)
Lemma share_bounds a s t : 0 <= a -> 0 <= s <= t -> 0 < t ->
  0 <= Z.quot (a * s) t <= a /\ t * Z.quot (a * s) t <= a * s.
Proof.
  intros. rewrite Z.quot_div_nonneg by nia. split_and!.
  - apply Z.div_pos; nia.
  - apply Z.div_le_upper_bound; nia.
  - apply Z.mul_div_le. lia.
Qed.

Lemma subtract_loop_ok d total sub acc ps :
  ValidDenom d = true -> 0 <= sub <= total -> 0 < total -> Forall (fun p => valid (PAmount p)) ps ->
  exists ds fs, subtract_loop d total sub acc ps = Ok (ds, fs, acc + sched_total fs d) /\
    splits_all d ps ds fs /\ total * sched_total fs d <= sub * sched_total ps d.
Proof.
  intros Hd Hs Ht Hps. revert acc. induction Hps as [|p ps Hp _ IH]; intros acc; simpl.
  { exists [], []. rewrite Z.add_0_r. split_and!; [done|constructor|simpl; lia]. }
  rewrite amount_of_spec by auto with coins. set (x := Z.quot (amt (PAmount p) d * sub) total).
  destruct (share_bounds (amt (PAmount p) d) sub total) as [Hx Hxt];
    [by apply valid_nonneg|done|done|]. fold x in Hx, Hxt.
  rewrite new_coin_ok by (done || lia). simpl.
  destruct (take_coin (PAmount p) d x Hp Hx) as (b & -> & Vb & Ab). simpl.
  destruct (new_coins_single d x Hd) as (c & -> & Vc & Ac); [lia|]. simpl.
  destruct (IH (acc + x)) as (ds & fs & -> & Hsp & Hle). simpl.
  eexists _, _. split_and!.
  - f_equal. f_equal. simpl. rewrite Ac, decide_True by done. lia.
  - constructor; [|done]. constructor; simpl; try done.
    + intros d'. rewrite Ab, Ac. lia.
    + intros d' N. rewrite Ac. by rewrite decide_False by congruence.
  - simpl. rewrite Ac, decide_True by done. nia.
Qed.

(** Moving [x] of [d] from the decreased to the difference period. *)
Lemma splits_move d p dec diff x b :
  splits d p dec diff -> 0 <= x -> valid b ->
  (forall d', amt b d' = amt (PAmount dec) d' - (if decide (d = d') then x else 0)) ->
  splits d p (mkPeriod (Length dec) b)
    (mkPeriod (Length diff) (coins_add (PAmount diff) [mkCoin d x])).
Proof.
  intros [] Hx Vb Ab. pose proof (operand_single d x Hx).
  constructor; simpl; auto with coins; intros d'.
  - rewrite amt_add, amt_single, Ab, sp_sum0 by auto with coins. lia.
  - intros N. rewrite amt_add, amt_single, sp_other0 by auto with coins.
    by rewrite decide_False by congruence.
Qed.

Lemma residue_loop_ok d residue ps rps :
  ValidDenom d = true -> splits_all d ps rps.*1 rps.*2 ->
  0 <= residue <= sched_total rps.*1 d ->
  exists rps', residue_loop d residue rps = Ok rps' /\
    splits_all d ps rps'.*1 rps'.*2 /\
    sched_total rps'.*2 d = sched_total rps.*2 d + residue.
Proof.
  intros Hd. revert residue ps. induction rps as [|[dec diff] rps IH]; intros residue ps Hs Hr.
  { exists []. split_and!; [done|done|]. simpl in *. lia. }
  rewrite !fmap_cons in *. cbn [fst snd sched_total residue_loop] in *.
  inversion Hs as [|p ? ? ps' ? ? Hp Hs']; subst. pose proof Hp as [_ _ Vd Vf _ _].
  pose proof (valid_nonneg _ d Vd) as Hpos.
  assert (Amt : forall x, 0 <= x -> amt (coins_add (PAmount diff) [mkCoin d x]) d
    = amt (PAmount diff) d + x).
  { intros x Hx. pose proof (operand_single d x Hx).
    by rewrite amt_add, amt_single, decide_True by auto with coins. }
  rewrite amount_of_spec by auto with coins.
  destruct (Z.ltb_spec (amt (PAmount dec) d) residue) as [L|L].
  - rewrite new_coin_ok by done. simpl.
    destruct (take_coin (PAmount dec) d (amt (PAmount dec) d) Vd) as (b & -> & Vb & Ab); [lia|].
    simpl. destruct (IH (residue - amt (PAmount dec) d) ps' Hs') as (rps' & -> & Hs2 & Ht); [lia|].
    simpl. eexists. split_and!; [done| |].
    + constructor; [|done]. by apply splits_move.
    + rewrite !fmap_cons. cbn [snd sched_total PAmount]. rewrite Ht, Amt by done. lia.
  - rewrite new_coin_ok by (done || lia). simpl.
    destruct (take_coin (PAmount dec) d residue Vd) as (b & -> & Vb & Ab); [lia|].
    simpl. eexists. split_and!; [done| |].
    + constructor; [|done]. apply splits_move; auto with lia.
    + rewrite !fmap_cons. cbn [snd sched_total PAmount]. rewrite Amt by lia. lia.
Qed.

(** [SubtractAmountFromPeriods] on every branch. *)
Lemma subtract_facts ps c start :
  sched_ok start ps -> ValidDenom (Denom c) = true -> 0 <= Amount c ->
  if (sched_total ps (Denom c) <? Amount c) || (sched_total ps (Denom c) =? 0)
  then SubtractAmountFromPeriods ps c = Err (ErrText "insufficient locked up funds")
  else exists dec diff, SubtractAmountFromPeriods ps c = Ok (dec, diff) /\
    splits_all (Denom c) ps dec diff /\ sched_total diff (Denom c) = Amount c.
Proof.
  intros Hok Hd Hc. unfold SubtractAmountFromPeriods.
  rewrite amount_of_spec by (apply valid_operand; by eapply total_amount_valid).
  rewrite (amt_total start) by done.
  pose proof (sched_total_nonneg start ps (Denom c) Hok) as Hnn.
  destruct (Z.ltb_spec (sched_total ps (Denom c)) (Amount c)); [done|].
  destruct (Z.eqb_spec (sched_total ps (Denom c)) 0) as [|Nz]; [done|]. simpl.
  destruct (subtract_loop_ok (Denom c) (sched_total ps (Denom c)) (Amount c) 0 ps)
    as (ds & fs & E & Hsp & Hle); [done|lia|lia|by eapply sched_valids|].
  rewrite Z.add_0_l in E. rewrite E. simpl. pose proof (splits_length _ _ _ _ Hsp) as [Ld Lf].
  rewrite bool_decide_eq_false_2 by (intros ->; destruct ps; done).
  assert (Ef : (zip ds fs).*1 = ds /\ (zip ds fs).*2 = fs).
  { split; [apply fst_zip|apply snd_zip]; lia. } destruct Ef as [Ef1 Ef2].
  destruct (residue_loop_ok (Denom c) (Amount c - sched_total fs (Denom c)) (reverse ps)
    (reverse (zip ds fs))) as (rps' & -> & Hs' & Ht).
  - done.
  - rewrite !fmap_reverse, Ef1, Ef2. by apply splits_reverse.
  - rewrite fmap_reverse, Ef1, sched_total_reverse.
    pose proof (splits_total _ _ _ _ (Denom c) Hsp). split; [nia|lia].
  - simpl. eexists _, _. split; [done|]. rewrite !fmap_reverse in *. split.
    + apply splits_reverse in Hs'. by rewrite reverse_involutive in Hs'.
    + rewrite !sched_total_reverse in *. rewrite Ht, Ef2. lia.
Qed.

(** *** Upcoming periods *)

(** The current period of a running schedule: what is past, the time its first
    upcoming period began, and that the first upcoming event is in the future. *)
Lemma upcoming_facts start endT ps now : sched_ok start ps -> sched_end start ps <= endT ->
  start < now -> now < sched_end start ps ->
  let n := passed start ps now in
  let e := sched_end start (take n ps) in
  ExtractUpcomingPeriods start endT ps now = drop n ps /\
  start <= e <= now /\
  (exists p rest, drop n ps = p :: rest /\ now < e + Length p) /\
  CurrentPeriodShift start now ps = now - e.
Proof.
  intros Hok He L1 L2 n e. unfold ExtractUpcomingPeriods. rewrite count_passed by done.
  split; [done|]. unfold CurrentPeriodShift.
  destruct (Z.leb_spec now start); [lia|]. subst n e.
  assert (L0 : start <= now) by lia. clear L1 H1 He endT. revert start Hok L0 L2.
  induction ps as [|p ps IH]; intros start Hok L0 L2; simpl in *; [lia|].
  apply sched_ok_cons in Hok as (T & L & _ & Hok & Eadd). rewrite Eadd.
  destruct (Z.leb_spec (start + Length p) now) as [L3|L3]; simpl.
  - destruct (IH _ Hok L3 L2) as (? & ? & ?). split; [lia|]. split; [done|].
    by destruct (Z.ltb_spec now (start + Length p)); [lia|].
  - split; [lia|]. split; [by exists p, ps|].
    destruct (Z.ltb_spec now (start + Length p)); [|lia]. apply i64_sub_ok; [|done].
    apply sched_ok_time in Hok. unfold time_ok in *. lia.
Qed.

Lemma replace_tail n ps dec : (n <= length ps)%nat -> length dec = length (drop n ps) ->
  ReplacePeriodsTail ps dec = take n ps ++ dec.
Proof.
  intros Hn Hd. unfold ReplacePeriodsTail. rewrite length_drop in Hd.
  destruct (Nat.leb_spec (length ps) (length dec)) as [L|L].
  - assert (n = 0%nat \/ length ps = 0%nat) as [->|E] by lia; [done|].
    apply nil_length_inv in E. subst ps. by rewrite take_nil.
  - rewrite Hd. by replace (length ps - (length ps - n))%nat with n by lia.
Qed.

Lemma take_drop_split d n ps dec diff : splits_all d (drop n ps) dec diff ->
  (n <= length ps)%nat -> ReplacePeriodsTail ps dec = take n ps ++ dec.
Proof. intros Hs Hn. apply replace_tail; [done|]. by apply splits_length in Hs as [-> _]. Qed.

(** The schedule of the liquid token: the differences from now on. *)
Definition from_now (shift : Z) (diff : list Period) : list Period :=
  match diff with
  | [] => []
  | p :: rest => mkPeriod (Length p -64 shift) (PAmount p) :: rest
  end.

Lemma from_now_facts e now diff p rest : diff = p :: rest -> sched_ok e diff -> time_ok now ->
  e <= now -> now < e + Length p ->
  sched_ok now (from_now (now - e) diff) /\
  sched_end now (from_now (now - e) diff) = sched_end e diff /\
  forall t d, steps now (from_now (now - e) diff) t d = steps e diff t d.
Proof.
  intros -> Hok Tn L1 L2. apply sched_ok_cons in Hok as (T & L & Hv & Hok & _).
  pose proof (sched_ok_time _ _ Hok) as T2.
  assert (Hl : Length p -64 (now - e) = e + Length p - now).
  { unfold i64_sub. rewrite wrap_i64_id; [lia|]. unfold time_ok, min_i64, max_i64 in *. lia. }
  simpl. rewrite Hl. replace (now + (e + Length p - now)) with (e + Length p) by lia.
  split_and!; try done. lia.
Qed.

Lemma from_now_total shift diff d : sched_total (from_now shift diff) d = sched_total diff d.
Proof. by destruct diff. Qed.

(** A liquidation leaves every amount where it is in time: what the account
    unlocks together with what the liquid schedule unlocks is what was
    unlocked before. *)
Lemma liquidate_schedule start endT ps now d dec diff :
  sched_ok start ps -> sched_end start ps <= endT -> start < now -> now < sched_end start ps ->
  splits_all d (ExtractUpcomingPeriods start endT ps now) dec diff ->
  let ps' := ReplacePeriodsTail ps dec in
  let liquid := from_now (CurrentPeriodShift start now ps) diff in
  diff <> [] /\ sched_ok start ps' /\ sched_ok now liquid /\
  sched_end start ps' = sched_end start ps /\ sched_end now liquid = sched_end start ps /\
  (forall t d', steps start ps t d' = steps start ps' t d' + steps now liquid t d') /\
  (forall d', sched_total ps d' = sched_total ps' d' + sched_total diff d').
Proof.
  intros Hok He L1 L2 Hs. destruct (upcoming_facts start endT ps now) as (Eu & Le & (p & rest & Ed & Lp) & Es);
    auto. rewrite Eu in Hs. rewrite Es. set (n := passed start ps now) in *.
  set (e := sched_end start (take n ps)) in *.
  rewrite (take_drop_split d n ps dec diff Hs) by apply passed_le.
  assert (Ops : ps = take n ps ++ drop n ps) by (symmetry; apply take_drop).
  rewrite Ops in Hok. apply sched_ok_app in Hok as [Okt Okd]. fold e in Okd.
  destruct (splits_ok d e _ _ _ Hs Okd) as (Od & Of & Ed1 & Ef1).
  destruct diff as [|q diff]; [rewrite Ed in Hs; inversion Hs|].
  assert (Hq : Length q = Length p).
  { rewrite Ed in Hs. inversion Hs as [|? ? ? ? ? ? [_ Hl _ _ _ _]]. by subst. }
  destruct (from_now_facts e now (q :: diff) q diff) as (On & En & Sn); auto; [|lia|lia|].
  { pose proof (sched_ok_end _ _ Of) as T1. pose proof (sched_ok_time _ _ Of) as T2.
    rewrite Ef1 in T1. rewrite Ops, sched_end_app in L2. fold e in L2.
    unfold time_ok in *. lia. }
  split_and!; [done| |done| | | |].
  - apply sched_ok_app. by split.
  - rewrite Ops at 2. rewrite !sched_end_app. done.
  - rewrite En, Ef1. rewrite Ops at 2. by rewrite sched_end_app.
  - intros t d'. rewrite Sn. rewrite Ops at 1. rewrite !steps_app. fold e.
    rewrite (splits_steps d e _ _ _ t d' Hs). lia.
  - intros d'. rewrite Ops at 1. rewrite !sched_total_app, (splits_total d _ _ _ d' Hs). lia.
Qed.
End facts.

(** ** Properties *)

Section properties.
Context `{SdkLaws}.

(** [SubtractAmountFromPeriods] on a well-formed schedule fails exactly when
    the schedule holds less than the amount or none of the coin, and never
    panics.  Otherwise every period splits into its decreased part and its
    difference (same lengths, same coins in sum, the difference only in that
    coin), and the differences add up to exactly the amount: the rounding
    residue is neither lost nor taken twice. *)
Theorem SubtractAmountFromPeriods_splits start ps c :
  sched_ok start ps -> ValidDenom (Denom c) = true -> 0 <= Amount c ->
  if (sched_total ps (Denom c) <? Amount c) || (sched_total ps (Denom c) =? 0)
  then SubtractAmountFromPeriods ps c = Err (ErrText "insufficient locked up funds")
  else exists dec diff, SubtractAmountFromPeriods ps c = Ok (dec, diff) /\
    splits_all (Denom c) ps dec diff /\ sched_total diff (Denom c) = Amount c.
Proof. apply subtract_facts. Qed.

(** The base name of a liquid denomination determines its id: parsing the
    printed name gives the id back, for every id up to the largest [int]; beyond
    it the name does not parse although the counter is a [uint64]. *)
Theorem DenomIDFromBaseName_roundtrip id :
  0 <= id <= max_i64 -> DenomIDFromBaseName (DenomBaseNameFromID id) = Ok id.
Proof.
  intros Hid. unfold DenomIDFromBaseName, DenomBaseNameFromID, TrimPrefix.
  rewrite strip_prefix_app. simpl. rewrite Atoi_format by done.
  destruct (Z.ltb_spec id 0); [lia|]. f_equal. apply wrap_u64_id. unfold max_i64 in Hid. lia.
Qed.
End properties.

Definition ex_upcoming : list Period :=
  [mkPeriod 10 [mkCoin "aISLM" 3; mkCoin "aTEST" 1]; mkPeriod 20 [mkCoin "aISLM" 4];
   mkPeriod 30 [mkCoin "aISLM" 4]].

Lemma SubtractAmountFromPeriods_splits_witness :
  exists dec diff,
    @SubtractAmountFromPeriods RefOps ex_upcoming (mkCoin "aISLM" 10) = Ok (dec, diff) /\
    sched_total diff "aISLM" = 10.
Proof.
  pose proof (@SubtractAmountFromPeriods_splits RefOps RefLaws 0 ex_upcoming (mkCoin "aISLM" 10)) as H.
  destruct H as (dec & diff & E & _ & Ht).
  - apply sched_okb_ok. vm_compute. reflexivity.
  - vm_compute. reflexivity.
  - vm_compute. congruence.
  - exists dec, diff. split; [exact E|exact Ht].
Defined.

Lemma DenomIDFromBaseName_roundtrip_witness :
  DenomIDFromBaseName (DenomBaseNameFromID 75) = Ok 75.
Proof. apply DenomIDFromBaseName_roundtrip. unfold max_i64. lia. Defined.

(** Above the range of [int] the name of a possible counter value is refused. *)
Lemma DenomID_beyond_int :
  no_error (DenomIDFromBaseName (DenomBaseNameFromID (2 ^ 63))) = false.
Proof. by vm_compute. Qed.
