(* ===== verification/TokenPair.v ===== *)
(** * Token pairs: x/erc20/types/token_pair.go and the IBC helpers of utils/utils.go

    The pair of a Cosmos denomination and an ERC-20 contract, as x/erc20 and
    x/liquidvesting build it, and the interface x/erc20 offers to other
    modules. *)

From S2P Require Import Prelude.
From S2P Require Import Sdk.
From S2P Require Import Schedule.
From S2P Require Import ClawbackAccount.
From S2P Require Import Keepers.

Local Open Scope Z_scope.

Inductive Owner := OWNER_UNSPECIFIED | OWNER_MODULE | OWNER_EXTERNAL.

Record TokenPair := mkPair {
  Erc20Address : string;
  PairDenom : string;
  Enabled : bool;
  ContractOwner : Owner
}.

#[export] Instance owner_eq_dec : EqDecision Owner.
Proof. solve_decision. Defined.
#[export] Instance token_pair_eq_dec : EqDecision TokenPair.
Proof. solve_decision. Defined.

(** Library code: ibc-go's denomination traces, cometbft's hash and the
    textual forms of go-ethereum addresses. *)
Class IbcOps := {
  (** [DenomTrace{Path, BaseDenom}.IBCDenom()] *)
  IBCDenom : string -> string -> string;
  ParseHexHash : string -> option string;
  (** [common.BytesToAddress], [Address.String] and [common.IsHexAddress] *)
  BytesToAddress : string -> string;
  AddressString : string -> string;
  IsHexAddress : string -> bool;
  TrimSpace : string -> string;
  (** [tmhash.Sum] *)
  TmHash : string -> string
}.

Section pairs.
Context `{IbcOps} `{AddrCheck}.

(** utils.go *)
Definition ComputeIBCDenom (portID channelID denom : string) : string :=
  IBCDenom (portID +:+ "/" +:+ channelID) denom.

Definition GetIBCDenomAddress (denom : string) : res string :=
  match strip_prefix "ibc/" denom with
  | None => Err (ErrExternal "ErrInvalidDenomForTransfer")
  | Some hash =>
      if bool_decide (hash = EmptyString) || bool_decide (TrimSpace hash = EmptyString) then
        Err (ErrExternal "ErrInvalidDenomForTransfer")
      else
        match ParseHexHash hash with
        | None => Err (ErrExternal "ErrInvalidDenomForTransfer")
        | Some bz => Ok (BytesToAddress bz)
        end
  end.

(** token_pair.go *)
Definition NewTokenPairSTRv2 (denom : string) : res TokenPair :=
  address ← GetIBCDenomAddress denom;
  Ok (mkPair (AddressString address) denom true OWNER_MODULE).

Definition NewTokenPair (erc20Address denom : string) (contractOwner : Owner) : TokenPair :=
  mkPair (AddressString erc20Address) denom true contractOwner.

Definition GetID (tp : TokenPair) : string :=
  TmHash (Erc20Address tp +:+ "|" +:+ PairDenom tp).

Definition GetERC20Contract (tp : TokenPair) : string := HexToAddress (Erc20Address tp).

Definition IsNativeCoin (tp : TokenPair) : bool := bool_decide (ContractOwner tp = OWNER_MODULE).
Definition IsNativeERC20 (tp : TokenPair) : bool :=
  bool_decide (ContractOwner tp = OWNER_EXTERNAL).

(** The assignment [tokenPair.Denom = denom]. *)
Definition set_pair_denom (denom : string) (tp : TokenPair) : TokenPair :=
  mkPair (Erc20Address tp) denom (Enabled tp) (ContractOwner tp).

Definition set_enabled (b : bool) (tp : TokenPair) : TokenPair :=
  mkPair (Erc20Address tp) (PairDenom tp) b (ContractOwner tp).
End pairs.

(** What x/erc20 offers: the operations of [types.ERC20Keeper] that
    x/liquidvesting calls. *)
Class Erc20Keeper (W : Type) := {
  GetTokenPairID : string -> W -> string;
  GetTokenPair : string -> W -> option TokenPair;
  SetTokenPair : TokenPair -> W -> W;
  SetDenomMap : string -> string -> W -> W;
  SetERC20Map : string -> string -> W -> W;
  EnableDynamicPrecompiles : list string -> M W unit;
  (** [ToggleConversion] with its authority and token *)
  ToggleConversion : string -> string -> M W unit
}.

(** The registry of pairs is separate from accounts and balances; enabling a
    precompile writes the account of its address only. *)
Class Erc20Frame (W S : Type) `{Ctx W, AccountKeeper W, BankKeeper W, Erc20Keeper W, Lens W S} `{AddrCheck}
    : Prop := {
  set_pair_frame tp w :
    (forall a, GetAccount a (SetTokenPair tp w) = GetAccount a w) /\
    (forall a d, GetBalance a d (SetTokenPair tp w) = GetBalance a d w) /\
    BlockTime (SetTokenPair tp w) = BlockTime w /\ view (SetTokenPair tp w) = view w;
  set_denom_frame d id w :
    (forall a, GetAccount a (SetDenomMap d id w) = GetAccount a w) /\
    (forall a d', GetBalance a d' (SetDenomMap d id w) = GetBalance a d' w) /\
    BlockTime (SetDenomMap d id w) = BlockTime w /\ view (SetDenomMap d id w) = view w;
  set_erc20_frame c id w :
    (forall a, GetAccount a (SetERC20Map c id w) = GetAccount a w) /\
    (forall a d, GetBalance a d (SetERC20Map c id w) = GetBalance a d w) /\
    BlockTime (SetERC20Map c id w) = BlockTime w /\ view (SetERC20Map c id w) = view w;
  enable_frame tps w w' : EnableDynamicPrecompiles (map GetERC20Contract tps) w = (Ok tt, w') ->
    (forall a, a ∉ map GetERC20Contract tps -> GetAccount a w' = GetAccount a w) /\
    (forall a d, GetBalance a d w' = GetBalance a d w) /\
    BlockTime w' = BlockTime w /\ view w' = view w;
  toggle_frame auth token w r w' : ToggleConversion auth token w = (r, w') ->
    (forall a, GetAccount a w' = GetAccount a w) /\
    (forall a d, GetBalance a d w' = GetBalance a d w) /\
    BlockTime w' = BlockTime w /\ view w' = view w
}.
