(* ===== verification/LiquidVesting.v ===== *)
(** * x/liquidvesting: keeper/denom.go, keeper/params.go, keeper/keeper.go,
    keeper/msg_server.go, types/msg.go, types/params.go, types/genesis.go, genesis.go

    Locked coins of a fully vested account become a liquid token that carries
    its own unlock schedule ([Liquidate]); burning the token gives the coins
    back, locked by the rest of that schedule ([Redeem]).  The module's state is
    the record [LiquidState] behind a lens of the chain state. *)

From S2P Require Import Prelude.
From S2P Require Import Sdk.
From S2P Require Import Schedule.
From S2P Require Import ClawbackAccount.
From S2P Require Import Keepers.
From S2P Require Import VestingMsg.
From S2P Require Import VestingKeeper.
From S2P Require Import LiquidSchedule.
From S2P Require Import TokenPair.

Local Open Scope Z_scope.
Local Open Scope haqq_scope.

(** ** Data *)

Record LiquidDenom := mkDenom {
  BaseDenom : string;
  DisplayDenom : string;
  OriginalDenom : string;
  ld_StartTime : Z;
  ld_EndTime : Z;
  ld_LockupPeriods : list Period
}.

Record Params := mkParams { MinimumLiquidationAmount : Z; EnableLiquidVesting : bool }.

(** The module's store: parameters, the denomination counter (a [uint64]) and
    the liquid denominations by base name. *)
Record LiquidState := mkLiquid {
  lv_params : Params;
  lv_counter : Z;
  lv_denoms : gmap string LiquidDenom
}.

Record MsgLiquidate := mkMsgLiquidate {
  LiquidateFrom : string; LiquidateTo : string; ml_Amount : coin
}.
Record MsgRedeem := mkMsgRedeem { RedeemFrom : string; RedeemTo : string; mr_Amount : coin }.

Record GenesisState := mkGenesis {
  gs_Params : Params; gs_DenomCounter : Z; gs_Denoms : list LiquidDenom
}.

Definition utils_BaseDenom : string := "aISLM".
Definition ModuleName : string := "liquidvesting".

(** ** Parameters *)

Definition DefaultMinimumLiquidationAmount : Z := 1000 * 10 ^ 18.
Definition DefaultParams : Params := mkParams DefaultMinimumLiquidationAmount true.

Definition Params_Validate (p : Params) : res unit :=
  if 0 <? MinimumLiquidationAmount p then Ok tt
  else Err (ErrText "parameter value must be positive").

Section keeper.
Context {W : Type} `{SdkOps} `{EthOps} `{AddrCheck} `{IbcOps}
  `{Ctx W} `{AccountKeeper W} `{BankKeeper W} `{ModuleBank W} `{StakingKeeper W}
  `{Erc20Keeper W} `{Lens W LiquidState}.

Definition GetParams (w : W) : Params := lv_params (view w).

Definition SetParams (params : Params) : M W unit := fun w =>
  match Params_Validate params with
  | Ok _ => (Ok tt, update (mkLiquid params (lv_counter (view w)) (lv_denoms (view w))) w)
  | Err e => (Err e, w)
  | Panic => (Panic, w)
  end.

Definition IsLiquidVestingEnabled (w : W) : bool := EnableLiquidVesting (GetParams w).

(** A failed write of the parameters panics in these two setters. *)
Definition must {A} (m : M W A) : M W A := fun w =>
  match m w with (Err _, w') => (Panic, w') | r => r end.

Definition SetLiquidVestingEnabled (enable : bool) : M W unit :=
  params ← mgets GetParams;
  must (SetParams (mkParams (MinimumLiquidationAmount params) enable)).

Definition ResetParamsToDefault : M W unit := must (SetParams DefaultParams).

(** ** The store of liquid denominations *)

Definition GetDenomCounter (w : W) : Z := lv_counter (view w).

Definition SetDenomCounter (counter : Z) (w : W) : W :=
  update (mkLiquid (lv_params (view w)) counter (lv_denoms (view w))) w.

Definition GetDenom (baseDenom : string) (w : W) : option LiquidDenom :=
  lv_denoms (view w) !! baseDenom.

Definition SetDenom (denom : LiquidDenom) (w : W) : W :=
  update (mkLiquid (lv_params (view w)) (lv_counter (view w))
            (<[BaseDenom denom := denom]> (lv_denoms (view w)))) w.

Definition DeleteDenom (baseDenom : string) (w : W) : W :=
  update (mkLiquid (lv_params (view w)) (lv_counter (view w))
            (delete baseDenom (lv_denoms (view w)))) w.

Definition CreateDenom (originalDenom : string) (startTime : Z) (periods : list Period)
    (w : W) : LiquidDenom * W :=
  let counter := GetDenomCounter w in
  let denom := mkDenom (DenomBaseNameFromID counter) (DenomDisplayNameFromID counter)
                 originalDenom startTime (startTime +64 TotalLength periods) periods in
  (denom, SetDenomCounter (u64_add counter 1) (SetDenom denom w)).

Definition UpdateDenomPeriods (baseDenom : string) (newPeriods : list Period) : M W unit := fun w =>
  match GetDenom baseDenom w with
  | None => (Err ErrDenomNotFound, w)
  | Some d =>
      (Ok tt, SetDenom (mkDenom (BaseDenom d) (DisplayDenom d) (OriginalDenom d)
                          (ld_StartTime d) (ld_EndTime d) newPeriods) w)
  end.

(** The store iterates in the order of its keys. *)
Definition GetAllDenoms (w : W) : list LiquidDenom :=
  omap (fun k => lv_denoms (view w) !! k)
    (merge_sort String.le (elements (dom (lv_denoms (view w))))).

(** ** Liquidate *)

(** [Coin.IsLT], which panics on different denominations. *)
Definition IsLT (a b : coin) : res bool :=
  if bool_decide (Denom a = Denom b) then Ok (Amount a <? Amount b) else Panic.

Definition liquid_metadata (d : LiquidDenom) : Metadata :=
  mkMetadata "Liquid vesting token" [(BaseDenom d, 0); (DisplayDenom d, 18)]
    (BaseDenom d) (DisplayDenom d) (DisplayDenom d) (DisplayDenom d).

(** The checks of [Liquidate] up to the schedules: the vesting account. *)
Definition liquidate_checks (liquidateFromAddress : string) (amount : coin)
    : M W ClawbackVestingAccount :=
  enabled ← mgets IsLiquidVestingEnabled;
  if negb enabled then mraise ErrModuleIsDisabled
  else if bool_decide (Denom amount <> utils_BaseDenom) then mraise ErrInvalidRequest else
  params ← mgets GetParams;
  minCoin ← mlift (NewCoin utils_BaseDenom (MinimumLiquidationAmount params));
  small ← mlift (IsLT amount minCoin);
  if (small : bool) then mraise ErrInvalidRequest else
  acc ← mgets (GetAccount liquidateFromAddress);
  match acc with
  | None => mraise ErrNotFound
  | Some (ClawbackAcc va) =>
      now ← mgets BlockTime;
      vestingCoins ← mlift (GetVestingCoins va now);
      if negb (IsZero vestingCoins) then mraise ErrInvalidRequest else
      lockedUp ← mlift (GetLockedUpCoins va now);
      match Find lockedUp (Denom amount) with
      | None => mraise ErrInvalidRequest
      | Some lockedBalance =>
          short ← mlift (IsLT lockedBalance amount);
          if (short : bool) then mraise ErrInvalidRequest else mret va
      end
  | Some _ => mraise ErrInvalidRequest
  end.

(** The new schedules: the account with the amount taken out of its upcoming
    lockup periods and its vesting periods, and the periods of the liquid token
    before their first length is cut. *)
Definition liquidate_schedules (now : Z) (amount : coin) (va : ClawbackVestingAccount)
    : res (ClawbackVestingAccount * list Period) :=
  let upcomingPeriods :=
    ExtractUpcomingPeriods (GetStartTime va) (GetEndTime va) (LockupPeriods va) now in
  '(decreasedPeriods, diffPeriods) ← SubtractAmountFromPeriods upcomingPeriods amount;
  let lockup := ReplacePeriodsTail (LockupPeriods va) decreasedPeriods in
  ov ← coins_sub (OV va) [amount];
  '(decreasedVestingPeriods, _) ← SubtractAmountFromPeriods (VestingPeriods va) amount;
  let vesting := ReplacePeriodsTail (VestingPeriods va) decreasedVestingPeriods in
  Ok (set_schedule (StartTime va) (acc_end va) ov lockup vesting va, diffPeriods).

(** Binds the new denomination to an ERC-20 address. *)
Definition bind_erc20 (base original : string) : M W TokenPair :=
  let fakeIBCDenom := ComputeIBCDenom ModuleName base original in
  pair ← mwrap ErrLiquidationFailed (mlift (NewTokenPairSTRv2 fakeIBCDenom));
  let tokenPair := set_pair_denom base pair in
  _ ← mmodify (SetTokenPair tokenPair);
  _ ← mmodify (SetDenomMap (PairDenom tokenPair) (GetID tokenPair));
  _ ← mmodify (SetERC20Map (GetERC20Contract tokenPair) (GetID tokenPair));
  _ ← EnableDynamicPrecompiles [GetERC20Contract tokenPair];
  mret tokenPair.

Definition Liquidate (liquidateFromAddress liquidateToAddress : string) (amount : coin)
    : M W (coin * string) :=
  va ← liquidate_checks liquidateFromAddress amount;
  now ← mgets BlockTime;
  '(va, diffPeriods) ← mwrap ErrLiquidationFailed (mlift (liquidate_schedules now amount va));
  _ ← mmodify (SetAccount (ClawbackAcc va));
  amountCoins ← mlift (NewCoins [amount]);
  _ ← mwrap ErrLiquidationFailed
        (SendCoinsFromAccountToModule liquidateFromAddress ModuleName amountCoins);
  (* diffPeriods[0] *)
  diffPeriods ← mlift (match diffPeriods with
                       | [] => Panic
                       | _ => Ok (from_now (CurrentPeriodShift (StartTime va) now (LockupPeriods va))
                                    diffPeriods)
                       end);
  liquidDenom ← mstate (CreateDenom (Denom amount) now diffPeriods);
  liquidTokenCoin ← mlift (NewCoin (BaseDenom liquidDenom) (Amount amount));
  liquidTokenCoins ← mlift (NewCoins [liquidTokenCoin]);
  _ ← mwrap ErrLiquidationFailed (MintCoins ModuleName liquidTokenCoins);
  _ ← mmodify (SetDenomMetaData (liquid_metadata liquidDenom));
  _ ← mwrap ErrLiquidationFailed
        (SendCoinsFromModuleToAccount ModuleName liquidateToAddress liquidTokenCoins);
  tokenPair ← bind_erc20 (BaseDenom liquidDenom) (Denom amount);
  mret (liquidTokenCoin, Erc20Address tokenPair).

(** ** Redeem *)

(** The liquid denomination, its enabled pair and the sender's balance. *)
Definition redeem_checks (fromAddress : string) (amount : coin) : M W (LiquidDenom * TokenPair) :=
  enabled ← mgets IsLiquidVestingEnabled;
  if negb enabled then mraise ErrModuleIsDisabled else
  acc ← mgets (GetAccount fromAddress);
  if bool_decide (acc = None) then mraise ErrNotFound else
  found ← mgets (GetDenom (Denom amount));
  match found with
  | None => mraise ErrNotFound
  | Some liquidDenom =>
      tokenPairID ← mgets (GetTokenPairID (Denom amount));
      if bool_decide (tokenPairID = EmptyString) then mraise ErrNotFound else
      pair ← mgets (GetTokenPair tokenPairID);
      match pair with
      | None => mraise ErrNotFound
      | Some tokenPair =>
          if negb (Enabled tokenPair) then mraise ErrNotFound else
          balance ← mgets (GetBalance fromAddress (Denom amount));
          if balance <? Amount amount then mraise ErrRedeemFailed
          else mret (liquidDenom, tokenPair)
      end
  end.

(** Stores the schedule that is left, or drops the denomination and disables its
    pair when nothing is left. *)
Definition redeem_store (liquidDenom : LiquidDenom) (tokenPair : TokenPair) (denom : string)
    (decreasedPeriods : list Period) : M W unit :=
  if IsZero (TotalAmount decreasedPeriods) then
    _ ← mmodify (DeleteDenom (BaseDenom liquidDenom));
    if Enabled tokenPair then
      mwrap ErrRedeemFailed
        (ToggleConversion (AddrString (GetModuleAddress (W:=W) "gov")) denom)
    else mret tt
  else
    mwrap ErrRedeemFailed (UpdateDenomPeriods (BaseDenom liquidDenom) decreasedPeriods).

(** Locks the redeemed coins on the target account by the schedule.  The [nil] address is the empty one. *)
Definition redeem_lock (toAddress : string) (liquidDenom : LiquidDenom)
    (originalDenomCoin : coin) (diffPeriods : list Period) : M W unit :=
  if bool_decide (GetModuleAddress (W:=W) ModuleName = EmptyString) then mraise ErrRedeemFailed else
  toAccount ← mgets (GetAccount toAddress);
  if bool_decide (toAccount = None) then mraise ErrNotFound else
  funder ← match toAccount with
           | Some (ClawbackAcc va) => mlift (must_addr (FunderAddress va))
           | _ => mret (GetModuleAddress (W:=W) ModuleName)
           end;
  coins ← mlift (NewCoins [originalDenomCoin]);
  _ ← mwrap ErrRedeemFailed
        (ApplyVestingSchedule funder toAddress coins (ld_StartTime liquidDenom) diffPeriods
           [mkPeriod 0 coins] true);
  mret tt.

Definition Redeem (fromAddress toAddress : string) (amount : coin) : M W unit :=
  '(liquidDenom, tokenPair) ← redeem_checks fromAddress amount;
  amountCoins ← mlift (NewCoins [amount]);
  _ ← mwrap ErrRedeemFailed (SendCoinsFromAccountToModule fromAddress ModuleName amountCoins);
  _ ← mwrap ErrRedeemFailed (BurnCoins ModuleName amountCoins);
  originalDenomCoin ← mlift (NewCoin (OriginalDenom liquidDenom) (Amount amount));
  '(decreasedPeriods, diffPeriods) ← mwrap ErrRedeemFailed
    (mlift (SubtractAmountFromPeriods (ld_LockupPeriods liquidDenom) originalDenomCoin));
  _ ← redeem_store liquidDenom tokenPair (Denom amount) decreasedPeriods;
  originalCoins ← mlift (NewCoins [originalDenomCoin]);
  _ ← mwrap ErrRedeemFailed (SendCoinsFromModuleToAccount ModuleName toAddress originalCoins);
  now ← mgets BlockTime;
  let upcomingPeriods := ExtractUpcomingPeriods (ld_StartTime liquidDenom) (ld_EndTime liquidDenom)
                           diffPeriods now in
  if bool_decide (upcomingPeriods = []) then mret tt
  else redeem_lock toAddress liquidDenom originalDenomCoin diffPeriods.

(** ** Messages *)

Definition ValidateBasic_Liquidate (msg : MsgLiquidate) : res unit :=
  if Amount (ml_Amount msg) <=? 0 then Err ErrInvalidCoins else
  _ ← parse_addr (LiquidateFrom msg);
  _ ← parse_addr (LiquidateTo msg); Ok tt.

Definition ValidateBasic_Redeem (msg : MsgRedeem) : res unit :=
  if Amount (mr_Amount msg) <=? 0 then Err ErrInvalidCoins else
  _ ← parse_addr (RedeemFrom msg);
  _ ← parse_addr (RedeemTo msg); Ok tt.

Definition msgServer_Liquidate (msg : MsgLiquidate) : M W (coin * string) :=
  _ ← mlift (ValidateBasic_Liquidate msg);
  liquidateFromAddress ← mlift (must_addr (LiquidateFrom msg));
  liquidateToAddress ←
    (if bool_decide (LiquidateTo msg <> LiquidateFrom msg)
     then mlift (must_addr (LiquidateTo msg)) else mret liquidateFromAddress);
  Liquidate liquidateFromAddress liquidateToAddress (ml_Amount msg).

Definition msgServer_Redeem (msg : MsgRedeem) : M W unit :=
  _ ← mlift (ValidateBasic_Redeem msg);
  fromAddress ← mlift (must_addr (RedeemFrom msg));
  toAddress ← mlift (must_addr (RedeemTo msg));
  Redeem fromAddress toAddress (mr_Amount msg).

(** ** Genesis *)

(** [validateDenoms]: [seen] are the base names so far. *)
Fixpoint validateDenoms (counter : Z) (seen : gset string) (denoms : list LiquidDenom) : res unit :=
  match denoms with
  | [] => Ok tt
  | elem :: rest =>
      if ld_EndTime elem <? ld_StartTime elem then
        Err (ErrText "denom start time cannot be after end time")
      else if existsb (fun p => existsb (fun c => Amount c <? 0) (PAmount p)) (ld_LockupPeriods elem)
      then Err (ErrText "denom periods cannot contain negative amount")
      else if bool_decide (BaseDenom elem ∈ seen) then
        Err (ErrText "duplicated denom base name for liquid denom")
      else
        match DenomIDFromBaseName (BaseDenom elem) with
        | Ok denomID =>
            if counter <=? denomID then Err (ErrText "denom id should be lower than the last id")
            else validateDenoms counter ({[BaseDenom elem]} ∪ seen) rest
        | _ => Err (ErrText "invalid denom base name")
        end
  end.

Definition GenesisState_Validate (gs : GenesisState) : res unit :=
  _ ← Params_Validate (gs_Params gs);
  validateDenoms (gs_DenomCounter gs) ∅ (gs_Denoms gs).

Definition InitGenesis (data : GenesisState) : M W unit :=
  _ ← must (SetParams (gs_Params data));
  _ ← mmodify (SetDenomCounter (gs_DenomCounter data));
  mmodify (fun w => foldl (fun w d => SetDenom d w) w (gs_Denoms data)).

Definition ExportGenesis (w : W) : GenesisState :=
  mkGenesis (GetParams w) (GetDenomCounter w) (GetAllDenoms w).

End keeper.

(** ** Facts *)

Section facts.
Context `{SdkLaws}.

Lemma upcoming_total start ps t d : sched_ok start ps ->
  sched_total (drop (passed start ps t) ps) d = sched_total ps d - steps start ps t d.
Proof.
  intros Hok. rewrite <- (passed_total start ps t d Hok).
  assert (E : forall n, sched_total ps d = sched_total (take n ps) d + sched_total (drop n ps) d).
  { intros n. by rewrite <- sched_total_app, take_drop. }
  specialize (E (passed start ps t)). lia.
Qed.

(** The times at which a liquidation is possible. *)
Lemma liquidate_times va now d : acc_ok va ->
  GetVestedCoins va now = OV va -> 0 < amt (OV va) d - amt (GetUnlockedCoins va now) d ->
  StartTime va < now /\ now < sched_end (StartTime va) (LockupPeriods va) /\
  sched_total (ExtractUpcomingPeriods (GetStartTime va) (GetEndTime va) (LockupPeriods va) now) d
  = amt (OV va) d - amt (GetUnlockedCoins va now) d.
Proof.
  intros Hva Hv Hx. pose proof Hva as [[Ol El Vo Tl] _ _ _].
  assert (L1 : StartTime va < now).
  { destruct (Z.lt_ge_cases (StartTime va) now) as [|L]; [done|]. exfalso.
    pose proof (vested_early va now d L) as E. rewrite Hv in E.
    pose proof (unlocked_le va now d Hva). lia. }
  rewrite unlocked_steps in Hx |- * by done.
  assert (L2 : now < sched_end (StartTime va) (LockupPeriods va)).
  { destruct (Z.lt_ge_cases now (sched_end (StartTime va) (LockupPeriods va))) as [|L]; [done|].
    rewrite steps_late, Tl in Hx by (done || lia). lia. }
  split_and!; [done|done|]. unfold GetStartTime, GetEndTime.
  destruct (upcoming_facts (StartTime va) (acc_end va) (LockupPeriods va) now) as (-> & _); auto.
  rewrite upcoming_total by done. by rewrite Tl.
Qed.

(** What the schedules of a liquidation are. *)
Record liquidated (now : Z) (amount : coin) (va va' : ClawbackVestingAccount) (liquid : list Period)
    : Prop := {
  lq_acc : acc_ok va';
  lq_base : BaseAcc (BVA va') = BaseAcc (BVA va);
  lq_funder : FunderAddress va' = FunderAddress va;
  lq_ov : forall d, amt (OV va') d = amt (OV va) d - amt [amount] d;
  lq_liquid : sched_ok now liquid;
  lq_end : sched_end now liquid = sched_end (StartTime va) (LockupPeriods va);
  lq_total : forall d, sched_total liquid d = amt [amount] d;
  (** no coin is unlocked earlier or later than before *)
  lq_unlock : forall t d, now <= t -> amt (GetUnlockedCoins va t) d
    = amt (GetUnlockedCoins va' t) d + steps now liquid t d;
  (** everything stays vested *)
  lq_vested : GetVestedCoins va' now = OV va'
}.

(** A schedule with a part split off is a schedule of the rest. *)
Lemma schedule_of_rest start endT ps ps' total total' diff amount :
  schedule_of start endT ps total -> sched_ok start ps' ->
  sched_end start ps' = sched_end start ps -> valid total' ->
  (forall d, amt total' d = amt total d - amt [amount] d) ->
  (forall d, sched_total ps d = sched_total ps' d + sched_total diff d) ->
  (forall d, sched_total diff d = amt [amount] d) ->
  schedule_of start endT ps' total'.
Proof.
  intros [_ He _ Ht] Hok Ee Vt Ht' Hs Hd. constructor; [done|by rewrite Ee|done|].
  intros d. rewrite Ht', Ht, Hs, Hd. lia.
Qed.

Lemma diff_total d x ps dec diff : splits_all d ps dec diff -> sched_total diff d = x ->
  forall d', sched_total diff d' = amt [mkCoin d x] d'.
Proof.
  intros Hs Hx d'. rewrite amt_single. case_decide as E; [by subst|].
  eapply splits_other; [done|congruence].
Qed.

Lemma liquidate_vesting va now d x : acc_ok va -> ValidDenom d = true -> 0 < x ->
  GetVestedCoins va now = OV va -> StartTime va < now -> x <= amt (OV va) d ->
  exists dec diff, SubtractAmountFromPeriods (VestingPeriods va) (mkCoin d x) = Ok (dec, diff) /\
    ReplacePeriodsTail (VestingPeriods va) dec = dec /\ sched_ok (StartTime va) dec /\
    sched_end (StartTime va) dec = sched_end (StartTime va) (VestingPeriods va) /\
    (forall d', sched_total (VestingPeriods va) d' = sched_total dec d' + sched_total diff d') /\
    (forall d', sched_total diff d' = amt [mkCoin d x] d') /\
    (forall d', steps (StartTime va) dec now d' = sched_total dec d').
Proof.
  intros Hva Hd Hx Hv L1 Hle. pose proof Hva as [_ [Ov Ev Vo Tv] _ _].
  pose proof (subtract_facts (VestingPeriods va) (mkCoin d x) (StartTime va) Ov Hd ltac:(simpl; lia))
    as Hs. simpl in Hs. rewrite <- Tv in Hs.
  destruct (Z.ltb_spec (amt (OV va) d) x); [lia|]. destruct (Z.eqb_spec (amt (OV va) d) 0); [lia|].
  destruct Hs as (dec & diff & E & Hsp & Ht). exists dec, diff.
  destruct (splits_ok d (StartTime va) _ _ _ Hsp Ov) as (Od & Of & Ed & _).
  split_and!; try done.
  - rewrite (replace_tail 0); [done|lia|]. by destruct (splits_length _ _ _ _ Hsp) as [-> _].
  - intros d'. by eapply splits_total.
  - by eapply diff_total.
  - intros d'. pose proof (splits_steps d (StartTime va) _ _ _ now d' Hsp) as E1.
    pose proof (splits_total d _ _ _ d' Hsp) as E2.
    rewrite <- vested_steps, Hv, Tv in E1 by done.
    pose proof (steps_le_total (StartTime va) dec now d' Od).
    pose proof (steps_le_total (StartTime va) diff now d' Of). lia.
Qed.

Lemma shift_lengths start now ps ps' : Length <$> ps' = Length <$> ps ->
  CurrentPeriodShift start now ps' = CurrentPeriodShift start now ps.
Proof.
  intros E. unfold CurrentPeriodShift. destruct (now <=? start); [done|].
  revert start ps' E. induction ps as [|p ps IH]; intros start [|p' ps'] E; try done.
  rewrite !fmap_cons in E. injection E as E1 E2. cbn [shift_loop]. rewrite E1.
  destruct (now <? start +64 Length p); [done|]. by apply IH.
Qed.

Lemma splits_lengths d ps dec diff : splits_all d ps dec diff -> Length <$> dec = Length <$> ps.
Proof.
  induction 1 as [|p x y ps dec diff [E _ _ _ _ _] _ IH]; [done|].
  rewrite !fmap_cons. by rewrite E, IH.
Qed.

Lemma replace_lengths start endT ps now d dec diff :
  splits_all d (ExtractUpcomingPeriods start endT ps now) dec diff ->
  Length <$> ReplacePeriodsTail ps dec = Length <$> ps.
Proof.
  unfold ExtractUpcomingPeriods. set (n := ReadPastPeriodCount start endT ps now). intros Hs.
  destruct (decide (n <= length ps)%nat) as [L|L].
  - rewrite (take_drop_split d n ps dec diff Hs L), fmap_app, (splits_lengths _ _ _ _ Hs).
    by rewrite <- fmap_app, take_drop.
  - rewrite drop_ge in Hs by lia. inversion Hs; subst.
    unfold ReplacePeriodsTail. destruct ps; [done|]. simpl.
    rewrite app_nil_r. f_equal. f_equal. by apply take_ge.
Qed.

Lemma liquidate_schedules_ok va now d x :
  acc_ok va -> ValidDenom d = true -> 0 < x ->
  GetVestedCoins va now = OV va -> x <= amt (OV va) d - amt (GetUnlockedCoins va now) d ->
  exists va' diff, liquidate_schedules now (mkCoin d x) va = Ok (va', diff) /\ diff <> [] /\
    liquidated now (mkCoin d x) va va'
      (from_now (CurrentPeriodShift (StartTime va') now (LockupPeriods va')) diff).
Proof.
  intros Hva Hd Hx Hv Hle. pose proof Hva as [[Ol El Vo Tl] Hvs Vf Vd].
  destruct (liquidate_times va now d Hva Hv ltac:(lia)) as (L1 & L2 & Hup).
  pose proof (unlocked_le va now d Hva) as Hun.
  destruct (liquidate_vesting va now d x) as (vdec & vdiff & Ev1 & Ev2 & Ov & Ee & Ts & Td & Hall);
    auto; [lia|].
  unfold GetStartTime, GetEndTime in Hup.
  destruct (upcoming_facts (StartTime va) (acc_end va) (LockupPeriods va) now) as (Eu & Le & _); auto.
  assert (Ou : sched_ok (sched_end (StartTime va) (take (passed (StartTime va) (LockupPeriods va) now)
    (LockupPeriods va))) (ExtractUpcomingPeriods (StartTime va) (acc_end va) (LockupPeriods va) now)).
  { rewrite Eu. apply sched_ok_app. by rewrite take_drop. }
  pose proof (subtract_facts _ (mkCoin d x) _ Ou Hd ltac:(simpl; lia)) as Hs. cbn [Denom Amount] in Hs.
  rewrite Hup in Hs. destruct (Z.ltb_spec (amt (OV va) d - amt (GetUnlockedCoins va now) d) x); [lia|].
  destruct (Z.eqb_spec (amt (OV va) d - amt (GetUnlockedCoins va now) d) 0); [lia|].
  destruct Hs as (dec & diff & Es & Hsp & Ht).
  destruct (take_coin (OV va) d x Vo ltac:(lia)) as (ov & Eov & Vov & Aov).
  assert (Aov' : forall d', amt ov d' = amt (OV va) d' - amt [mkCoin d x] d').
  { intros d'. by rewrite Aov, amt_single. }
  destruct (liquidate_schedule (StartTime va) (acc_end va) (LockupPeriods va) now d dec diff)
    as (Nd & Ol' & On & Ee' & En & St & Tt); auto.
  unfold liquidate_schedules, GetStartTime, GetEndTime. rewrite Es. simpl. rewrite Eov. simpl.
  rewrite Ev1. simpl. rewrite Ev2. eexists _, diff. split; [done|]. split; [done|]. simpl.
  rewrite (shift_lengths _ _ _ _ (replace_lengths _ _ _ _ _ _ _ Hsp)).
  match goal with |- liquidated _ _ _ ?v ?l => set (va' := v); set (lq := l) end.
  assert (Hva' : acc_ok va').
  { constructor; simpl; [| |done|done].
    - eapply (schedule_of_rest _ _ (LockupPeriods va)); eauto using diff_total, Build_schedule_of.
    - eapply (schedule_of_rest _ _ (VestingPeriods va)); eauto. }
  constructor; try done.
  - intros d'. unfold lq. rewrite from_now_total. by eapply diff_total.
  - intros t d' L. rewrite !unlocked_steps by (done || (simpl; lia)). apply St.
  - apply valid_ext; [by apply vested_valid|done|]. intros d'.
    rewrite vested_steps by (done || (simpl; lia)). simpl.
    rewrite Hall. symmetry. apply (so_total _ _ _ _ (ao_vest _ Hva')).
Qed.
End facts.

Section runs.
Context {W : Type} `{SdkLaws} `{EthLaws} `{AddrCheck} `{IbcOps}
  `{KeeperLaws W} `{!ModuleBank W} `{!ModuleBankLaws W} `{!StakingKeeper W} `{!StakingLaws W}
  `{!Erc20Keeper W} `{!Lens W LiquidState} `{!ModuleState W LiquidState}
  `{!Erc20Frame W LiquidState}.

Lemma find_some cs d c : valid cs -> Find cs d = Some c -> c = mkCoin d (amt cs d) /\ amt cs d <> 0.
Proof.
  intros Hv E. rewrite find_spec in E by done. case_decide; [done|]. by injection E as <-.
Qed.

Lemma checks_ok from amount (w w' : W) va : accounts_ok w ->
  liquidate_checks from amount w = (Ok va, w') ->
  w' = w /\ GetAccount from w = Some (ClawbackAcc va) /\ Denom amount = utils_BaseDenom /\
  ValidDenom utils_BaseDenom = true /\ IsLiquidVestingEnabled w = true /\
  MinimumLiquidationAmount (GetParams w) <= Amount amount /\
  GetVestedCoins va (BlockTime w) = OV va /\
  Amount amount <= amt (OV va) (Denom amount) - amt (GetUnlockedCoins va (BlockTime w)) (Denom amount).
Proof.
  intros Hw E. unfold liquidate_checks in E. mrun.
  match goal with Hc : NewCoin _ _ = _ |- _ => apply new_coin_inv in Hc as (-> & _ & Hvd) end.
  match goal with Hc : IsLT _ _ = _ |- _ => rename Hc into Hlt0 end.
  apply bool_decide_eq_false in Eif0.
  assert (Ed : Denom amount = utils_BaseDenom).
  { by destruct (decide (Denom amount = utils_BaseDenom)). }
  unfold IsLT in Hlt0. simpl in Hlt0. rewrite bool_decide_eq_true_2 in Hlt0 by done.
  injection Hlt0 as Hmin. apply Z.ltb_ge in Hmin.
  destruct (GetAccount from w) as [[b h|va'|b]|] eqn:Ea; mrun.
  pose proof (Hw _ _ Ea) as Hva.
  destruct (vesting_coins_ok va' (BlockTime w) Hva) as (u & Eu & Vu & Au).
  destruct (locked_up_ok va' (BlockTime w) Hva) as (l & El & Vl & Al).
  match goal with Hc : GetVestingCoins _ _ = Ok ?a |- _ => assert (a = u) as -> by congruence end.
  match goal with Hc : GetLockedUpCoins _ _ = Ok ?a |- _ => assert (a = l) as -> by congruence end.
  destruct (Find l (Denom amount)) as [lb|] eqn:Ef; mrun.
  apply find_some in Ef as [-> Nz]; [|done].
  match goal with Hc : IsLT _ _ = _ |- _ => rename Hc into Hlt1 end.
  unfold IsLT in Hlt1. simpl in Hlt1. rewrite bool_decide_eq_true_2 in Hlt1 by done.
  injection Hlt1 as Hlt. apply Z.ltb_ge in Hlt. apply negb_false_iff in Eif.
  split_and!; try done; [|by rewrite <- Al].
  match goal with Hz : negb (IsZero _) = false |- _ => apply negb_false_iff in Hz; rename Hz into Ez end.
  rewrite (diff_zero (OV va') (GetVestedCoins va' (BlockTime w)) u) in Ez
    by auto using ov_valid, vested_valid.
  by apply bool_decide_eq_true in Ez.
Qed.

(** Nothing of the accounts outside [cs], of the balances, of the time and of the
    module's state changes. *)
Definition framed (cs : list string) (w w' : W) : Prop :=
  (forall a, a ∉ cs -> GetAccount a w' = GetAccount a w) /\
  (forall a d, GetBalance a d w' = GetBalance a d w) /\
  BlockTime w' = BlockTime w /\ view (S:=LiquidState) w' = view w.

Lemma framed_trans cs w1 w2 w3 : framed cs w1 w2 -> framed cs w2 w3 -> framed cs w1 w3.
Proof.
  intros (A1 & B1 & T1 & V1) (A2 & B2 & T2 & V2). split_and!; [| |congruence|congruence].
  - intros a Ha. by rewrite A2, A1.
  - intros a d. by rewrite B2, B1.
Qed.

Lemma bind_framed base orig (w w' : W) tp : bind_erc20 base orig w = (Ok tp, w') ->
  PairDenom tp = base /\ Enabled tp = true /\ framed [HexToAddress (Erc20Address tp)] w w'.
Proof.
  intros E. unfold bind_erc20 in E. mrun.
  match goal with He : EnableDynamicPrecompiles _ _ = (Ok ?u, _) |- _ =>
    destruct u; pose proof (enable_frame (S:=LiquidState) [set_pair_denom base a] _ _ He) as F4 end.
  assert (Ht : Enabled a = true).
  { unfold NewTokenPairSTRv2 in *. destruct (GetIBCDenomAddress _); [|done..]. by simplify_eq/=. }
  split_and!; [done|done|].
  set (tp := set_pair_denom base a) in *.
  assert (F1 : framed [HexToAddress (Erc20Address tp)] w (SetTokenPair tp w)).
  { destruct (set_pair_frame (S:=LiquidState) tp w) as (? & ? & ? & ?). by split_and!. }
  set (w1 := SetTokenPair tp w) in *.
  assert (F2 : framed [HexToAddress (Erc20Address tp)] w1 (SetDenomMap (PairDenom tp) (GetID tp) w1)).
  { destruct (set_denom_frame (S:=LiquidState) (PairDenom tp) (GetID tp) w1) as (? & ? & ? & ?).
    by split_and!. }
  set (w2 := SetDenomMap (PairDenom tp) (GetID tp) w1) in *.
  assert (F3 : framed [HexToAddress (Erc20Address tp)] w2
    (SetERC20Map (GetERC20Contract tp) (GetID tp) w2)).
  { destruct (set_erc20_frame (S:=LiquidState) (GetERC20Contract tp) (GetID tp) w2) as (? & ? & ? & ?).
    by split_and!. }
  eauto using framed_trans.
Qed.

(** The effect of [CreateDenom]. *)
Lemma create_denom_facts orig start ps (w w' : W) d : CreateDenom orig start ps w = (d, w') ->
  let base := DenomBaseNameFromID (GetDenomCounter w) in
  d = mkDenom base (DenomDisplayNameFromID (GetDenomCounter w)) orig start
        (start +64 TotalLength ps) ps /\
  view w' = mkLiquid (lv_params (view w)) (u64_add (GetDenomCounter w) 1)
              (<[base := d]> (lv_denoms (view w))) /\
  (forall a, GetAccount a w' = GetAccount a w) /\
  (forall a x, GetBalance a x w' = GetBalance a x w) /\ BlockTime w' = BlockTime w.
Proof.
  unfold CreateDenom, SetDenomCounter, SetDenom. intros [= <- <-].
  split_and!; intros; by rewrite ?view_update, ?update_account, ?update_balance, ?update_time,
    ?view_update, ?update_account, ?update_balance, ?update_time.
Qed.

Lemma new_coins_pos d x c : 0 < x -> ValidDenom d = true -> NewCoins [mkCoin d x] = Ok c ->
  c = [mkCoin d x].
Proof. intros Hx Hd. rewrite new_coins_one, decide_False by (done || lia). by intros [= <-]. Qed.

Lemma quiet_account (w w' : W) a acc : quiet w w' -> GetAccount a w = Some acc ->
  GetAccount a w' = Some acc.
Proof. intros [Hg _]. by apply accounts_grow_some. Qed.

(** The liquid token: minted on the module and sent to the recipient. *)
Lemma mint_facts to base x md (w w1 w2 : W) cs :
  0 < x -> NewCoins [mkCoin base x] = Ok cs -> ValidDenom base = true ->
  MintCoins ModuleName cs w = (Ok tt, w1) ->
  SendCoinsFromModuleToAccount ModuleName to cs (SetDenomMetaData md w1) = (Ok tt, w2) ->
  (forall a acc, GetAccount a w = Some acc -> GetAccount a w2 = Some acc) /\
  view (S:=LiquidState) w2 = view w /\ BlockTime w2 = BlockTime w /\
  forall a d, GetBalance a d w2
    = GetBalance a d w + (if decide (a = to) then amt [mkCoin base x] d else 0).
Proof.
  intros Hx Ec Hd Em Es. apply new_coins_pos in Ec as ->; [|done..].
  assert (Oc : operand [mkCoin base x]) by (apply operand_single; lia).
  destruct (mint_ok _ _ _ _ Oc Em) as [Bm Qm].
  destruct (from_module_ok _ _ _ _ _ Oc Es) as [Bs Qs].
  pose proof (metadata_quiet md w1) as Qd. split_and!.
  - intros a acc Ea. by eapply quiet_account, quiet_account, quiet_account.
  - by rewrite (from_module_view (S:=LiquidState) _ _ _ _ _ _ Es), metadata_view,
      (mint_view (S:=LiquidState) _ _ _ _ _ Em).
  - by rewrite (q_time _ _ Qs), (q_time _ _ Qd), (q_time _ _ Qm).
  - intros a d. specialize (Bm a d). specialize (Bs a d). cbv beta in *.
    rewrite Bs, metadata_balance, Bm. repeat case_decide; lia.
Qed.

Lemma liquidate_run from to amount (w w' : W) c contract :
  accounts_ok w -> 0 < Amount amount -> from <> HexToAddress contract ->
  Liquidate from to amount w = (Ok (c, contract), w') ->
  let now := BlockTime w in
  let base := DenomBaseNameFromID (GetDenomCounter w) in
  exists va va' liquid,
    GetAccount from w = Some (ClawbackAcc va) /\ GetAccount from w' = Some (ClawbackAcc va') /\
    Denom amount = utils_BaseDenom /\ MinimumLiquidationAmount (GetParams w) <= Amount amount /\
    GetVestedCoins va now = OV va /\ liquidated now amount va va' liquid /\
    c = mkCoin base (Amount amount) /\
    GetDenom base w' = Some (mkDenom base (DenomDisplayNameFromID (GetDenomCounter w)) (Denom amount)
                               now (sched_end now liquid) liquid) /\
    GetDenomCounter w' = u64_add (GetDenomCounter w) 1 /\
    (forall b, b <> base -> GetDenom b w' = GetDenom b w) /\
    forall a d, GetBalance a d w' = GetBalance a d w
      - (if decide (a = from) then amt [amount] d else 0)
      + (if decide (a = GetModuleAddress (W:=W) ModuleName) then amt [amount] d else 0)
      + (if decide (a = to) then amt [c] d else 0).
Proof.
  intros Hw Hx Hne E now base. unfold Liquidate in E.
  apply M_bind_ok in E as (va & w0 & Hchk & E).
  destruct (checks_ok _ _ _ _ _ Hw Hchk) as (-> & Ea & Ed & Hvd & _ & Hmin & Hv & Hle).
  destruct amount as [d x]. simpl in Ed, Hx, Hle, Hmin. subst d.
  destruct (liquidate_schedules_ok va now utils_BaseDenom x) as (va' & diff & Es & Nd & Hlq);
    auto; [by eapply Hw|].
  subst now. mrun.
  match goal with Hc : (_, _) = (_, _) |- _ => injection Hc as -> -> end.
  assert (Ep : (c0, l) = (va', diff)) by congruence. injection Ep as -> ->. clear Es.
  destruct diff as [|p rest]; [done|]. injection Hrun3 as <-.
  set (liquid := from_now _ _) in *. cbn [Denom Amount] in *.
  apply new_coins_pos in Hrun1 as ->; [|done..]. destruct a2, a7, a9.
  assert (Oc : operand [mkCoin utils_BaseDenom x]) by (apply operand_single; lia).
  destruct (to_module_ok _ _ _ _ _ Oc Hrun2) as [B2 Q2].
  pose proof (to_module_view (S:=LiquidState) _ _ _ _ _ _ Hrun2) as V2.
  rewrite set_account_view in V2. pose proof (q_time _ _ Q2) as T2. rewrite set_time in T2.
  apply create_denom_facts in Hrun4 as (-> & V4 & A4 & B4 & T4).
  unfold GetDenomCounter in *. rewrite V2 in *. cbn [BaseDenom] in *. fold base in V4, Hrun5, Hrun10.
  apply new_coin_inv in Hrun5 as (-> & _ & Hvb).
  destruct (mint_facts to base x _ _ _ _ _ Hx Hrun6 Hvb Hrun7 Hrun9) as (A9 & V9 & T9 & B9).
  apply bind_framed in Hrun10 as (_ & _ & A10 & B10 & _ & V10).
  exists va, va', liquid. split_and!; try done.
  - rewrite A10 by (by rewrite list_elem_of_singleton). apply A9. rewrite A4.
    eapply quiet_account; [exact Q2|].
    assert (Eaddr : acc_address (ClawbackAcc va') = from).
    { rewrite <- (get_address _ _ _ Ea). unfold acc_address. simpl. by rewrite (lq_base _ _ _ _ _ Hlq). }
    rewrite <- Eaddr. apply get_set_eq.
  - unfold GetDenom. rewrite V10, V9, V4. simpl. rewrite lookup_insert_eq.
    by rewrite (total_length_end (BlockTime w)) by apply (lq_liquid _ _ _ _ _ Hlq).
  - by rewrite V10, V9, V4.
  - intros b Nb. unfold GetDenom. rewrite V10, V9, V4. by apply lookup_insert_ne.
  - intros a0 d. rewrite B10, B9, B4. specialize (B2 a0 d). cbv beta in B2.
    rewrite B2, set_balance. repeat case_decide; lia.
Qed.

(** *** Redeem *)

Lemma quiet_trans (w1 w2 w3 : W) : quiet w1 w2 -> quiet w2 w3 -> quiet w1 w3.
Proof.
  intros [G1 T1] [G2 T2]. constructor; [|congruence]. intros a.
  destruct (G2 a) as [->|(E2 & b & h & E3)].
  - apply G1.
  - destruct (G1 a) as [E1|(_ & b' & h' & E1)]; [|congruence].
    right. rewrite <- E1. eauto.
Qed.

Lemma quiet_same (w w' : W) : (forall a, GetAccount a w' = GetAccount a w) ->
  BlockTime w' = BlockTime w -> quiet w w'.
Proof. intros Ha Ht. constructor; [|done]. intros a. by left. Qed.

Lemma update_quiet (st : LiquidState) (w : W) : quiet w (update st w).
Proof. apply quiet_same; [intros; apply update_account|apply update_time]. Qed.

(** The amount taken from the sender's liquid tokens is burned. *)
Lemma burn_facts from amount (w w1 w2 : W) cs :
  0 < Amount amount -> ValidDenom (Denom amount) = true -> NewCoins [amount] = Ok cs ->
  SendCoinsFromAccountToModule from ModuleName cs w = (Ok tt, w1) ->
  BurnCoins ModuleName cs w1 = (Ok tt, w2) ->
  quiet w w2 /\ view (S:=LiquidState) w2 = view w /\
  forall a d, GetBalance a d w2
    = GetBalance a d w - (if decide (a = from) then amt [amount] d else 0).
Proof.
  intros Hx Hd Ec Es Eb. destruct amount as [dn x]. cbn [Amount Denom] in *.
  apply new_coins_pos in Ec as ->; [|done..].
  assert (Oc : operand [mkCoin dn x]) by (apply operand_single; lia).
  destruct (to_module_ok _ _ _ _ _ Oc Es) as [Bs Qs]. destruct (burn_ok _ _ _ _ Oc Eb) as [Bb Qb].
  split_and!.
  - by eapply quiet_trans.
  - by rewrite (burn_view (S:=LiquidState) _ _ _ _ _ Eb),
      (to_module_view (S:=LiquidState) _ _ _ _ _ _ Es).
  - intros a d. specialize (Bs a d). specialize (Bb a d). cbv beta in *. rewrite Bb, Bs.
    repeat case_decide; lia.
Qed.

(** What is left of a denomination's schedule. *)
Definition left_over (ld : LiquidDenom) (dec : list Period) : option LiquidDenom :=
  if IsZero (TotalAmount dec) then None
  else Some (mkDenom (BaseDenom ld) (DisplayDenom ld) (OriginalDenom ld) (ld_StartTime ld)
               (ld_EndTime ld) dec).

Lemma redeem_store_facts ld tp dec (w w' : W) :
  GetDenom (BaseDenom ld) w = Some ld -> redeem_store ld tp (BaseDenom ld) dec w = (Ok tt, w') ->
  GetDenom (BaseDenom ld) w' = left_over ld dec /\ quiet w w' /\
  (forall b, b <> BaseDenom ld -> GetDenom b w' = GetDenom b w) /\
  (forall a d, GetBalance a d w' = GetBalance a d w).
Proof.
  intros Hd E. unfold redeem_store, left_over in *. destruct (IsZero (TotalAmount dec)).
  - apply M_bind_ok in E as ([] & w1 & E1 & E). apply mmodify_ok in E1.
    assert (F : (forall a, GetAccount a w' = GetAccount a w1) /\
      (forall a d, GetBalance a d w' = GetBalance a d w1) /\
      BlockTime w' = BlockTime w1 /\ view (S:=LiquidState) w' = view w1).
    { destruct (Enabled tp); mrun; [|done]. by eapply toggle_frame. }
    destruct F as (A & B & T & V). unfold GetDenom. rewrite V, E1. unfold DeleteDenom.
    rewrite view_update. simpl. rewrite lookup_delete_eq. split_and!; [done| | |].
    + apply (quiet_trans _ w1); [subst w1; apply update_quiet|by apply quiet_same].
    + intros b Nb. by rewrite lookup_delete_ne.
    + intros a d. rewrite B, E1. apply update_balance.
  - apply mwrap_ok in E. unfold UpdateDenomPeriods in E. rewrite Hd in E. injection E as <-.
    unfold GetDenom, SetDenom. simpl. rewrite view_update. simpl. rewrite lookup_insert_eq.
    split_and!; [done|apply update_quiet| |intros; apply update_balance].
    intros b Nb. by rewrite lookup_insert_ne.
Qed.

Lemma apply_view funder funded c start lp vp merge (w w' : W) r :
  ApplyVestingSchedule funder funded c start lp vp merge w = (Ok r, w') ->
  view (S:=LiquidState) w' = view w.
Proof.
  intros E. unfold ApplyVestingSchedule in E. mrun.
  destruct (GetAccount funded w) as [[b h|va|b]|]; unfold bond_denom in *; mrun;
    rewrite ?set_account_view.
  - done.
  - unfold addGrant, delegated_amount, bond_denom in *. mrun. done.
  - match goal with Hn : NewAccount ?a w = (_, ?w1) |- _ =>
      pose proof (new_account_view (S:=LiquidState) a w) as V; by rewrite Hn in V end.
Qed.

(** The invariant of the store: every denomination is stored under its name with
    a well-formed schedule that ends by its end time. *)
Record denom_ok (b : string) (ld : LiquidDenom) : Prop := {
  do_base : BaseDenom ld = b;
  do_sched : sched_ok (ld_StartTime ld) (ld_LockupPeriods ld);
  do_end : sched_end (ld_StartTime ld) (ld_LockupPeriods ld) <= ld_EndTime ld
}.

Definition denoms_ok (w : W) : Prop := forall b ld, GetDenom b w = Some ld -> denom_ok b ld.

Lemma redeem_checks_ok from amount (w w' : W) ld tp : redeem_checks from amount w = (Ok (ld, tp), w') ->
  w' = w /\ GetDenom (Denom amount) w = Some ld /\ Enabled tp = true /\
  Amount amount <= GetBalance from (Denom amount) w.
Proof.
  intros E. unfold redeem_checks in E. mrun.
  destruct (GetDenom (Denom amount) w) as [ld'|]; mrun.
  destruct (GetTokenPair _ _) as [tp'|]; mrun. simplify_eq.
  split_and!; try done; [by apply negb_false_iff|by apply Z.ltb_ge].
Qed.

Lemma redeem_grant ld x coins dec diff :
  denom_ok (BaseDenom ld) ld -> 0 < x -> ValidDenom (OriginalDenom ld) = true ->
  NewCoins [mkCoin (OriginalDenom ld) x] = Ok coins ->
  splits_all (OriginalDenom ld) (ld_LockupPeriods ld) dec diff ->
  sched_total diff (OriginalDenom ld) = x ->
  grant_ok (ld_StartTime ld) diff [mkPeriod 0 coins] coins.
Proof.
  intros [_ Hok _] Hx Hd Ec Hs Ht. apply new_coins_pos in Ec as ->; [|done..].
  destruct (splits_ok _ _ _ _ _ Hs Hok) as (_ & Of & _ & _).
  constructor; [done| |by apply valid_single| |].
  - apply instant_ok; [by eapply sched_ok_time|by apply valid_single].
  - intros d. symmetry. by eapply diff_total.
  - intros d. cbn [sched_total PAmount]. lia.
Qed.

(** What the lockup of an account had released, and by how much a clawback account has started before a schedule. *)
Definition unlocked_before (old : option Account) (t : Z) (d : string) : Z :=
  match old with Some (ClawbackAcc va) => steps (StartTime va) (LockupPeriods va) t d | _ => 0 end.
Definition head_start (old : option Account) (start : Z) : Z :=
  match old with Some (ClawbackAcc va) => Z.max 0 (start - StartTime va) | _ => 0 end.

Lemma steps_shift k start ps t d : steps (start - k) ps t d = steps start ps (t + k) d.
Proof.
  revert start. induction ps as [|p ps IH]; intros start; simpl; [done|].
  replace (start - k + Length p) with (start + Length p - k) by lia. rewrite IH. f_equal.
  destruct (Z.leb_spec (start + Length p - k) t), (Z.leb_spec (start + Length p) (t + k)); lia.
Qed.

(** The account the redeemed coins are locked on: they unlock as the token's schedule says, and earlier by the
    head start of a recipient that was a clawback account before. *)
Definition relocked (ld : LiquidDenom) (diff : list Period) (x : Z) (to : string) (w w' : W) : Prop :=
  exists old va' coins, (GetAccount to w <> None -> GetAccount to w = old) /\
    NewCoins [mkCoin (OriginalDenom ld) x] = Ok coins /\
    GetAccount to w' = Some (ClawbackAcc va') /\ acc_ok va' /\
    granted old (apply_start old (ld_StartTime ld)) diff [mkPeriod 0 coins] coins va' /\
    forall t d, StartTime va' < t -> amt (GetUnlockedCoins va' t) d =
      unlocked_before old t d + steps (ld_StartTime ld) diff (t + head_start old (ld_StartTime ld)) d.

Lemma granted_unlocks old start diff vp c va' t d : acc_ok va' -> granted old (apply_start old start) diff vp c va' ->
  StartTime va' < t -> amt (GetUnlockedCoins va' t) d =
    unlocked_before old t d + steps start diff (t + head_start old start) d.
Proof.
  intros Hok Hg Ht. rewrite <- steps_shift. unfold granted, apply_start, head_start, unlocked_before in *.
  destruct old as [[b h|va|b]|].
  2:{ destruct Hg as (_ & _ & _ & _ & _ & Hs). rewrite (proj2 (Hs t d Ht)). do 2 f_equal. lia. }
  all: destruct Hg as (_ & Es & El & _); rewrite unlocked_steps, Es, El by done; by rewrite Z.sub_0_r.
Qed.

Lemma redeem_lock_facts ld x dec diff to (w0 w w' : W) :
  accounts_ok w -> quiet w0 w -> denom_ok (BaseDenom ld) ld -> 0 < x ->
  ValidDenom (OriginalDenom ld) = true ->
  splits_all (OriginalDenom ld) (ld_LockupPeriods ld) dec diff ->
  sched_total diff (OriginalDenom ld) = x ->
  redeem_lock to ld (mkCoin (OriginalDenom ld) x) diff w = (Ok tt, w') ->
  relocked ld diff x to w0 w' /\ accounts_ok w' /\ view (S:=LiquidState) w' = view w /\
  forall a d, GetBalance a d w' = GetBalance a d w.
Proof.
  intros Hw [Hgrow _] Hld Hx Hd Hs Ht E. unfold redeem_lock in E. destruct (bool_decide _) in E; [done|].
  apply M_bind_ok in E as (acc & w1 & E1 & E). apply mgets_ok in E1 as [-> ->].
  destruct (bool_decide (GetAccount to w = None)); [done|].
  apply M_bind_ok in E as (funder & w1 & Ef & E).
  assert (w1 = w) as ->.
  { destruct (GetAccount to w) as [[]|]; mrun; done. }
  apply M_bind_ok in E as (coins & w1 & Ec & E). apply mlift_ok in Ec as [Ec ->].
  apply M_bind_ok in E as ([[va' created] merged] & w1 & Ea & E). apply mwrap_ok in Ea.
  apply mret_ok in E as [_ ->].
  pose proof (redeem_grant ld x coins dec diff Hld Hx Hd Ec Hs Ht) as Hg.
  pose proof (apply_view _ _ _ _ _ _ _ _ _ _ Ea) as V.
  destruct (apply_facts _ _ _ _ _ _ _ _ _ _ _ _ Hw Hg Ea) as (Hst & Hgr & _ & _).
  pose proof (stored_ok _ _ _ _ Hw Hst) as Hw1.
  destruct Hst as (w2 & -> & A & B & T & Hok & Haddr). split_and!; [|done|done|].
  - exists (GetAccount to w), va', coins. split_and!; try done.
    + intros Hn. destruct (Hgrow to) as [->|(E0 & _)]; [done|]. by rewrite E0 in Hn.
    + rewrite <- Haddr. apply (get_set_eq (ClawbackAcc va')).
    + intros t d. by apply (granted_unlocks _ _ _ [mkPeriod 0 coins] coins).
  - intros a d. by rewrite set_balance, B.
Qed.

Lemma redeem_run from to amount (w w' : W) :
  accounts_ok w -> denoms_ok w -> 0 < Amount amount -> ValidDenom (Denom amount) = true ->
  Redeem from to amount w = (Ok tt, w') ->
  exists ld dec diff,
    GetDenom (Denom amount) w = Some ld /\ accounts_ok w' /\
    splits_all (OriginalDenom ld) (ld_LockupPeriods ld) dec diff /\
    sched_total diff (OriginalDenom ld) = Amount amount /\
    GetDenom (Denom amount) w' = left_over ld dec /\
    (forall b, b <> Denom amount -> GetDenom b w' = GetDenom b w) /\
    (forall a d, GetBalance a d w' = GetBalance a d w
      - (if decide (a = from) then amt [amount] d else 0)
      - (if decide (a = GetModuleAddress (W:=W) ModuleName)
         then amt [mkCoin (OriginalDenom ld) (Amount amount)] d else 0)
      + (if decide (a = to) then amt [mkCoin (OriginalDenom ld) (Amount amount)] d else 0)) /\
    (ExtractUpcomingPeriods (ld_StartTime ld) (ld_EndTime ld) diff (BlockTime w) <> [] ->
     relocked ld diff (Amount amount) to w w').
Proof.
  intros Hw Hdn Hx Hvd E. unfold Redeem in E.
  apply M_bind_ok in E as ([ld tp] & w1 & E1 & E).
  apply redeem_checks_ok in E1 as (-> & Ed & _ & _). pose proof (Hdn _ _ Ed) as Hld.
  pose proof (do_base _ _ Hld) as Eb. rewrite <- Eb in Hld.
  apply M_bind_ok in E as (cs & w1 & Ec & E). apply mlift_ok in Ec as [Ec ->].
  apply M_bind_ok in E as ([] & w1 & Es & E). apply mwrap_ok in Es.
  apply M_bind_ok in E as ([] & w2 & Ebn & E). apply mwrap_ok in Ebn.
  destruct (burn_facts _ _ _ _ _ _ Hx Hvd Ec Es Ebn) as (Q2 & V2 & B2).
  apply M_bind_ok in E as (oc & w3 & Eo & E). apply mlift_ok in Eo as [Eo ->].
  apply new_coin_inv in Eo as (-> & _ & Hvo).
  apply M_bind_ok in E as ([dec diff] & w3 & Esub & E). apply mwrap_ok, mlift_ok in Esub as [Esub ->].
  pose proof (subtract_facts (ld_LockupPeriods ld) (mkCoin (OriginalDenom ld) (Amount amount))
    (ld_StartTime ld) (do_sched _ _ Hld) Hvo ltac:(simpl; lia)) as Hs.
  cbn [Denom Amount] in Hs. destruct (_ || _); [congruence|].
  destruct Hs as (dec' & diff' & Esub' & Hsp & Ht). assert (dec' = dec /\ diff' = diff) as [-> ->].
  { rewrite Esub' in Esub. by injection Esub as -> ->. }
  apply M_bind_ok in E as ([] & w3 & Est & E). rewrite <- Eb in Est.
  apply redeem_store_facts in Est as (G3 & Q3 & N3 & B3);
    [|unfold GetDenom in *; by rewrite V2, Eb].
  apply M_bind_ok in E as (ocs & w4 & Eoc & E). apply mlift_ok in Eoc as [Eoc ->].
  apply new_coins_pos in Eoc as ->; [|done..].
  apply M_bind_ok in E as ([] & w4 & Esd & E). apply mwrap_ok in Esd.
  assert (Oc : operand [mkCoin (OriginalDenom ld) (Amount amount)]) by (apply operand_single; lia).
  destruct (from_module_ok _ _ _ _ _ Oc Esd) as [B4 Q4].
  pose proof (from_module_view (S:=LiquidState) _ _ _ _ _ _ Esd) as V4.
  apply M_bind_ok in E as (now & w5 & En & E). apply mgets_ok in En as [-> ->].
  assert (Q : quiet w w4) by eauto using quiet_trans.
  assert (Hw4 : accounts_ok w4) by (eapply accounts_grow_ok; [apply Q|done]).
  rewrite (q_time _ _ Q) in E.
  assert (Hbal : forall a d, GetBalance a d w4 = GetBalance a d w
      - (if decide (a = from) then amt [amount] d else 0)
      - (if decide (a = GetModuleAddress (W:=W) ModuleName)
         then amt [mkCoin (OriginalDenom ld) (Amount amount)] d else 0)
      + (if decide (a = to) then amt [mkCoin (OriginalDenom ld) (Amount amount)] d else 0)).
  { intros a d. specialize (B4 a d). cbv beta in B4. by rewrite B4, B3, B2. }
  rewrite Eb in G3, N3. unfold GetDenom in G3, N3. rewrite <- V4 in G3, N3. rewrite V2 in N3.
  exists ld, dec, diff. case_bool_decide as Eu.
  - apply mret_ok in E as [_ ->]. by split_and!.
  - apply (redeem_lock_facts ld (Amount amount) dec diff to w) in E as (Hr & Hw' & V5 & B5); auto.
    split_and!; try done.
    + unfold GetDenom. by rewrite V5.
    + intros b Nb. unfold GetDenom. rewrite V5. by apply N3.
    + intros a d. by rewrite B5, Hbal.
Qed.

(** *** Backing of the liquid tokens *)

(** The coins [d] that all liquid schedules together still promise. *)
Definition promised (d : string) (w : W) : Z :=
  map_fold (fun _ ld acc => sched_total (ld_LockupPeriods ld) d + acc) 0 (lv_denoms (view w)).

Lemma promised_insert d b ld (m : gmap string LiquidDenom) : m !! b = None ->
  map_fold (fun _ ld acc => sched_total (ld_LockupPeriods ld) d + acc) 0 (<[b := ld]> m)
  = sched_total (ld_LockupPeriods ld) d
    + map_fold (fun _ ld acc => sched_total (ld_LockupPeriods ld) d + acc) 0 m.
Proof. intros Hb. rewrite map_fold_insert_L; [done| |done]. intros. lia. Qed.

Lemma promised_lookup d b ld (m : gmap string LiquidDenom) : m !! b = Some ld ->
  map_fold (fun _ ld acc => sched_total (ld_LockupPeriods ld) d + acc) 0 m
  = sched_total (ld_LockupPeriods ld) d
    + map_fold (fun _ ld acc => sched_total (ld_LockupPeriods ld) d + acc) 0 (delete b m).
Proof.
  intros Hb. rewrite <- (insert_delete_id m b ld Hb) at 1. apply promised_insert, lookup_delete_eq.
Qed.

(** Two stores that differ at [b] only. *)
Lemma promised_differ d b (w w' : W) : (forall b', b' <> b -> GetDenom b' w' = GetDenom b' w) ->
  promised d w' - from_option (fun ld => sched_total (ld_LockupPeriods ld) d) 0 (GetDenom b w')
  = promised d w - from_option (fun ld => sched_total (ld_LockupPeriods ld) d) 0 (GetDenom b w).
Proof.
  intros Hd. unfold promised, GetDenom in *.
  assert (E : delete b (lv_denoms (view w')) = delete b (lv_denoms (view w))).
  { apply map_eq. intros b'. destruct (decide (b' = b)) as [->|N].
    - by rewrite !lookup_delete_eq.
    - rewrite !lookup_delete_ne by done. by apply Hd. }
  assert (P : forall w0 : W, map_fold (fun _ ld acc => sched_total (ld_LockupPeriods ld) d + acc) 0
      (lv_denoms (view w0))
    - from_option (fun ld => sched_total (ld_LockupPeriods ld) d) 0 (lv_denoms (view w0) !! b)
    = map_fold (fun _ ld acc => sched_total (ld_LockupPeriods ld) d + acc) 0
        (delete b (lv_denoms (view w0)))).
  { intros w0. destruct (lv_denoms (view w0) !! b) as [ld|] eqn:El; simpl.
    - rewrite (promised_lookup d b ld _ El). lia.
    - rewrite delete_id by done. lia. }
  by rewrite !P, E.
Qed.

(** Names the counter has handed out. *)
Definition names_ok (w : W) : Prop :=
  forall b ld, GetDenom b w = Some ld ->
    exists id, 0 <= id < GetDenomCounter w /\ b = DenomBaseNameFromID id.

Lemma base_name_inj i j : 0 <= i -> 0 <= j -> DenomBaseNameFromID i = DenomBaseNameFromID j -> i = j.
Proof.
  intros Hi Hj E. unfold DenomBaseNameFromID, denomBaseNamePrefix in E.
  apply (inj (String.append "aLIQUID")) in E.
  by apply format_u64_inj in E.
Qed.

Lemma fresh_name (w : W) : names_ok w -> 0 <= GetDenomCounter w ->
  GetDenom (DenomBaseNameFromID (GetDenomCounter w)) w = None.
Proof.
  intros Hn Hc. destruct (GetDenom _ w) as [ld|] eqn:E; [|done].
  destruct (Hn _ _ E) as (id & Hid & Eb). apply base_name_inj in Eb; lia.
Qed.

Lemma liquidate_denoms from to amount (w w' : W) c contract :
  accounts_ok w -> denoms_ok w -> names_ok w -> 0 <= GetDenomCounter w < 2 ^ 64 - 1 ->
  0 < Amount amount -> from <> HexToAddress contract ->
  Liquidate from to amount w = (Ok (c, contract), w') ->
  GetDenom (Denom c) w = None /\ denoms_ok w' /\ names_ok w' /\
  GetDenomCounter w' = GetDenomCounter w + 1.
Proof.
  intros Hw Hd Hn Hc Hx Hk E.
  apply liquidate_run in E as (va & va' & lq & _ & _ & _ & _ & _ & Hl & -> & Eg & Ec & Eo & _);
    [|done..].
  assert (Ec' : GetDenomCounter w' = GetDenomCounter w + 1).
  { rewrite Ec. apply wrap_u64_id. lia. }
  split_and!; [apply fresh_name; [done|lia]| | |done].
  - intros b ld. destruct (decide (b = DenomBaseNameFromID (GetDenomCounter w))) as [->|N].
    + rewrite Eg. intros [= <-]. constructor; simpl; [done|apply (lq_liquid _ _ _ _ _ Hl)|lia].
    + rewrite (Eo _ N). apply Hd.
  - intros b ld. destruct (decide (b = DenomBaseNameFromID (GetDenomCounter w))) as [->|N].
    + intros _. exists (GetDenomCounter w). split; [lia|done].
    + rewrite (Eo _ N). intros Eb. destruct (Hn _ _ Eb) as (id & Hid & ->). exists id. split; [lia|done].
Qed.
End runs.

(** *** Genesis *)

Section genesis.
Context {W : Type} `{Ctx W} `{AccountKeeper W} `{BankKeeper W} `{!ModuleBank W}
  `{!Lens W LiquidState} `{!ModuleState W LiquidState}.

Lemma omap_same {A B} (f g : A -> option B) (l : list A) :
  (forall x, x ∈ l -> f x = g x) -> omap f l = omap g l.
Proof.
  induction l as [|x l IH]; intros Hfg; [done|]. simpl.
  rewrite (Hfg x) by apply list_elem_of_here.
  assert (E : omap f l = omap g l) by (apply IH; intros; apply Hfg; by apply list_elem_of_further).
  unfold omap in E. by rewrite E.
Qed.

Lemma keys_values (m : gmap string LiquidDenom) :
  omap (fun k => m !! k) (elements (dom m)) ≡ₚ (map_to_list m).*2.
Proof.
  induction m as [|k x m Hk IH] using map_ind.
  - by rewrite dom_empty_L, elements_empty, map_to_list_empty.
  - rewrite map_to_list_insert, dom_insert_L by done.
    rewrite elements_union_singleton by by apply not_elem_of_dom.
    cbn [omap list_omap]. rewrite lookup_insert_eq. simpl. apply Permutation_skip.
    rewrite <- IH. erewrite omap_same; [done|]. intros y Hy.
    apply lookup_insert_ne. intros <-. apply elem_of_elements, elem_of_dom in Hy as [? Hy]. congruence.
Qed.

Lemma all_denoms_perm (w : W) : GetAllDenoms w ≡ₚ (map_to_list (lv_denoms (view w))).*2.
Proof.
  unfold GetAllDenoms. etrans; [|apply keys_values].
  apply omap_Permutation, merge_sort_Permutation.
Qed.

(** The base names of a checked list are distinct. *)
Lemma validate_nodup counter seen ds : validateDenoms counter seen ds = Ok tt ->
  NoDup (BaseDenom <$> ds) /\ (forall d, d ∈ ds -> BaseDenom d ∉ seen).
Proof.
  revert seen. induction ds as [|d ds IH]; intros seen; simpl.
  { intros _. split; [constructor|]. intros d Hd. by apply elem_of_nil in Hd. }
  destruct (_ <? _); [done|]. destruct (existsb _ _); [done|]. case_bool_decide as Hs; [done|].
  destruct (DenomIDFromBaseName _); [|done..]. destruct (_ <=? _); [done|].
  intros E. apply IH in E as [Hn Hd]. split.
  - constructor; [|done]. rewrite list_elem_of_fmap. intros (d' & Ed & Hin).
    apply (Hd d' Hin). rewrite <- Ed. apply elem_of_union_l, elem_of_singleton. done.
  - intros d' [->|Hin]%elem_of_cons; [done|]. specialize (Hd d' Hin). by apply not_elem_of_union in Hd as [_ ?].
Qed.

Lemma foldl_set ds (w : W) :
  view (foldl (fun w d => SetDenom d w) w ds)
  = mkLiquid (lv_params (view w)) (lv_counter (view w))
      (foldl (fun m d => <[BaseDenom d := d]> m) (lv_denoms (view w)) ds).
Proof.
  revert w. induction ds as [|d ds IH]; intros w; simpl; [by destruct (view w)|].
  rewrite IH. unfold SetDenom. by rewrite view_update.
Qed.

Lemma foldl_insert_perm ds (m : gmap string LiquidDenom) :
  NoDup (BaseDenom <$> ds) -> (forall d, d ∈ ds -> m !! BaseDenom d = None) ->
  (map_to_list (foldl (fun m d => <[BaseDenom d := d]> m) m ds)).*2 ≡ₚ ds ++ (map_to_list m).*2.
Proof.
  revert m. induction ds as [|d ds IH]; intros m Hn Hm; simpl; [done|].
  rewrite fmap_cons in Hn. apply list.NoDup_cons in Hn as [Hd Hn]. rewrite IH; [|done|].
  - rewrite map_to_list_insert by (apply Hm, list_elem_of_here). simpl.
    by rewrite Permutation_middle.
  - intros d' Hin. rewrite lookup_insert_ne; [by apply Hm, list_elem_of_further|].
    intros Ed. apply Hd. rewrite Ed. apply list_elem_of_fmap. eauto.
Qed.
End genesis.

(** ** Properties *)

Section properties.
Context {W : Type} `{SdkLaws} `{EthLaws} `{AddrCheck} `{IbcOps}
  `{KeeperLaws W} `{!ModuleBank W} `{!ModuleBankLaws W} `{!StakingKeeper W} `{!StakingLaws W}
  `{!Erc20Keeper W} `{!Lens W LiquidState} `{!ModuleState W LiquidState}
  `{!Erc20Frame W LiquidState}.

(** C5: A successful [Liquidate] of a positive amount was requested by a fully
    vested clawback account with that much locked aISLM, at least the minimum.
    The account stays well-formed and loses exactly the amount; the new liquid
    denomination has a schedule from now on such that at every later time the
    account and the liquid token together unlock exactly what the account
    alone unlocked before.  The coins move to the module, the recipient gets as
    many liquid tokens, the counter advances, other denominations stay. *)
Theorem Liquidate_correct from to amount (w w' : W) c contract :
  accounts_ok w -> 0 < Amount amount -> from <> HexToAddress contract ->
  Liquidate from to amount w = (Ok (c, contract), w') ->
  let now := BlockTime w in
  let base := DenomBaseNameFromID (GetDenomCounter w) in
  exists va va' liquid,
    GetAccount from w = Some (ClawbackAcc va) /\ GetAccount from w' = Some (ClawbackAcc va') /\
    Denom amount = utils_BaseDenom /\ MinimumLiquidationAmount (GetParams w) <= Amount amount /\
    GetVestedCoins va now = OV va /\ liquidated now amount va va' liquid /\
    c = mkCoin base (Amount amount) /\
    GetDenom base w' = Some (mkDenom base (DenomDisplayNameFromID (GetDenomCounter w)) (Denom amount)
                               now (sched_end now liquid) liquid) /\
    GetDenomCounter w' = u64_add (GetDenomCounter w) 1 /\
    (forall b, b <> base -> GetDenom b w' = GetDenom b w) /\
    forall a d, GetBalance a d w' = GetBalance a d w
      - (if decide (a = from) then amt [amount] d else 0)
      + (if decide (a = GetModuleAddress (W:=W) ModuleName) then amt [amount] d else 0)
      + (if decide (a = to) then amt [c] d else 0).
Proof. apply liquidate_run. Qed.

(** C6: A successful [Redeem] burns the sender's liquid tokens and gives the
    recipient as many original coins from the module.  The denomination's
    schedule loses exactly that amount, period by period, and is dropped when
    nothing is left.  While periods are upcoming the recipient becomes, or
    stays, a well-formed clawback account whose lockup gained the redeemed
    schedule: what it has unlocked at any time is what its lockup unlocks without the redeemed coins
    and what their schedule releases from the token's start on.  A recipient that
    was a clawback account with an earlier start gets them earlier by the difference of the
    two starts ([head_start], [redeemed_coins_unlock_early]). *)
Theorem Redeem_correct from to amount (w w' : W) :
  accounts_ok w -> denoms_ok w -> 0 < Amount amount -> ValidDenom (Denom amount) = true ->
  Redeem from to amount w = (Ok tt, w') ->
  exists ld dec diff,
    GetDenom (Denom amount) w = Some ld /\ accounts_ok w' /\
    splits_all (OriginalDenom ld) (ld_LockupPeriods ld) dec diff /\
    sched_total diff (OriginalDenom ld) = Amount amount /\
    GetDenom (Denom amount) w' = left_over ld dec /\
    (forall b, b <> Denom amount -> GetDenom b w' = GetDenom b w) /\
    (forall a d, GetBalance a d w' = GetBalance a d w
      - (if decide (a = from) then amt [amount] d else 0)
      - (if decide (a = GetModuleAddress (W:=W) ModuleName)
         then amt [mkCoin (OriginalDenom ld) (Amount amount)] d else 0)
      + (if decide (a = to) then amt [mkCoin (OriginalDenom ld) (Amount amount)] d else 0)) /\
    (ExtractUpcomingPeriods (ld_StartTime ld) (ld_EndTime ld) diff (BlockTime w) <> [] ->
     relocked ld diff (Amount amount) to w w').
Proof. apply redeem_run. Qed.

(** C7: Liquid tokens stay backed: liquidations and redemptions by accounts
    other than the module change the module's aISLM balance by exactly what they
    change of the amount all liquid schedules together promise. *)
Theorem liquid_tokens_backed from to amount (w w' : W) :
  accounts_ok w -> denoms_ok w -> names_ok w -> 0 <= GetDenomCounter w -> 0 < Amount amount ->
  from <> GetModuleAddress (W:=W) ModuleName -> to <> GetModuleAddress (W:=W) ModuleName ->
  (exists c contract, from <> HexToAddress contract /\
     Liquidate from to amount w = (Ok (c, contract), w')) \/
  (ValidDenom (Denom amount) = true /\ Redeem from to amount w = (Ok tt, w') /\
   forall ld, GetDenom (Denom amount) w = Some ld -> OriginalDenom ld = utils_BaseDenom) ->
  GetBalance (GetModuleAddress (W:=W) ModuleName) utils_BaseDenom w' - promised utils_BaseDenom w'
  = GetBalance (GetModuleAddress (W:=W) ModuleName) utils_BaseDenom w - promised utils_BaseDenom w.
Proof.
  intros Hw Hd Hn Hc Hx Hf Ht [(c & k & Hk & E)|(Hv & E & Ho)].
  - apply liquidate_run in E as (va & va' & lq & _ & _ & Ed & _ & _ & Hl & _ & Eg & _ & Eo & Eb);
      [|done..].
    pose proof (promised_differ utils_BaseDenom _ w w' Eo) as P. rewrite Eg in P.
    rewrite (fresh_name w Hn Hc) in P. simpl in P. rewrite (lq_total _ _ _ _ _ Hl) in P.
    rewrite Eb, decide_False, decide_True, decide_False by congruence. lia.
  - apply redeem_run in E as (ld & dec & diff & El & _ & Hs & Htot & Eg & Eo & Eb & _); [|done..].
    specialize (Ho _ El). rewrite Ho in *.
    pose proof (promised_differ utils_BaseDenom _ w w' Eo) as P. rewrite El in P. simpl in P.
    rewrite (splits_total _ _ _ _ utils_BaseDenom Hs), Htot in P.
    assert (Hleft : from_option (fun ld => sched_total (ld_LockupPeriods ld) utils_BaseDenom) 0
      (GetDenom (Denom amount) w') = sched_total dec utils_BaseDenom).
    { rewrite Eg. unfold left_over. destruct (IsZero (TotalAmount dec)) eqn:Ez; [|done]. simpl.
      destruct (splits_ok _ _ _ _ _ Hs (do_sched _ _ (Hd _ _ El))) as (Od & _).
      rewrite <- (amt_total _ _ utils_BaseDenom Od).
      assert (Hz : forall d, amt (TotalAmount dec) d = 0).
      { apply is_zero_spec; [|done]. apply valid_operand. by eapply total_amount_valid. }
      by rewrite Hz. }
    rewrite Eb, decide_False, decide_True, decide_False by congruence.
    rewrite amt_single, decide_True by done. lia.
Qed.

(** The store of denominations stays well-formed under [Liquidate]: the new
    name was never used, the names stay below the counter, and every schedule
    ends by the end time of its denomination. *)
Theorem Liquidate_keeps_denoms from to amount (w w' : W) c contract :
  accounts_ok w -> denoms_ok w -> names_ok w -> 0 <= GetDenomCounter w < 2 ^ 64 - 1 ->
  0 < Amount amount -> from <> HexToAddress contract ->
  Liquidate from to amount w = (Ok (c, contract), w') ->
  GetDenom (Denom c) w = None /\ denoms_ok w' /\ names_ok w' /\
  GetDenomCounter w' = GetDenomCounter w + 1.
Proof. apply liquidate_denoms. Qed.

(** A genesis state that passes its validation is imported without a panic,
    and exporting it again gives its parameters, its counter and, in some
    order, its denominations. *)
Theorem genesis_roundtrip gs (w : W) :
  GenesisState_Validate gs = Ok tt -> lv_denoms (view w) = ∅ ->
  exists w', InitGenesis gs w = (Ok tt, w') /\
    gs_Params (ExportGenesis w') = gs_Params gs /\
    gs_DenomCounter (ExportGenesis w') = gs_DenomCounter gs /\
    gs_Denoms (ExportGenesis w') ≡ₚ gs_Denoms gs.
Proof.
  intros Hv He. unfold GenesisState_Validate in Hv. run_step Hv. destruct a.
  apply validate_nodup in Hv as [Hnd _].
  unfold InitGenesis, must, SetParams, mmodify, mbind, M_bind. rewrite Hrun.
  eexists. split; [done|]. simpl. unfold GetParams, GetDenomCounter.
  rewrite all_denoms_perm, foldl_set. unfold SetDenomCounter. rewrite !view_update. simpl.
  split_and!; [done|done|]. rewrite foldl_insert_perm; [|done|].
  - rewrite He, map_to_list_empty. by rewrite app_nil_r.
  - intros d _. by rewrite He.
Qed.
End properties.

(** ** Concrete runs *)

Section examples.

(** A reference registry of pairs: by id, and ids by denomination. *)
#[local] Abbreviation X := (LiquidState * (gmap string TokenPair * gmap string string))%type.

#[local] Instance RefIbc : IbcOps := {
  IBCDenom path base := "ibc/" +:+ path +:+ "/" +:+ base;
  ParseHexHash s := Some s;
  BytesToAddress s := "erc20:" +:+ s;
  AddressString s := s;
  IsHexAddress s := false;
  TrimSpace s := s;
  TmHash s := s
}.

Definition set_registry (r : gmap string TokenPair * gmap string string) (w : RefWorld X) : RefWorld X :=
  mkWorld (rw_time w) (rw_accounts w) (rw_next w) (rw_balances w) (rw_bonded w) (rw_unbonding w)
    (fst (rw_ext w), r).

Definition ref_pairs (w : RefWorld X) := fst (snd (rw_ext w)).
Definition ref_ids (w : RefWorld X) := snd (snd (rw_ext w)).

#[local] Instance RefErc20 : Erc20Keeper (RefWorld X) := {
  GetTokenPairID d w := default EmptyString (ref_ids w !! d);
  GetTokenPair id w := ref_pairs w !! id;
  SetTokenPair tp w := set_registry (<[GetID (H:=RefIbc) tp := tp]> (ref_pairs w), ref_ids w) w;
  SetDenomMap d id w := set_registry (ref_pairs w, <[d := id]> (ref_ids w)) w;
  SetERC20Map _ _ w := w;
  EnableDynamicPrecompiles _ := mret tt;
  ToggleConversion _ d w :=
    match ref_ids w !! d ≫= fun id => ref_pairs w !! id with
    | None => (Err (ErrExternal "token pair not found"), w)
    | Some tp => (Ok tt, set_registry (<[GetID (H:=RefIbc) tp := set_enabled (negb (Enabled tp)) tp]>
                                         (ref_pairs w), ref_ids w) w)
    end
}.

#[local] Instance RefLiquidLens : Lens (RefWorld X) LiquidState :=
  ref_lens fst (fun s x => (s, snd x)).

#[local] Existing Instances RefOps RefLaws RefEth RefEthLaws RefCtx RefAccountKeeper RefBankKeeper
  RefStakingKeeper RefDistributionKeeper RefAddrCheck RefKeeperLaws RefStakingLaws
  RefModuleBank RefModuleBankLaws.

#[local] Instance RefLiquidState : ModuleState (RefWorld X) LiquidState.
Proof. by apply ref_module_state. Qed.

#[local] Instance RefErc20Frame : Erc20Frame (RefWorld X) LiquidState.
Proof.
  constructor; simpl; try done.
  - by intros cs w w' [= <-].
  - intros auth token w r w'. destruct (_ ≫= _); by intros [= <- <-].
Qed.

Definition ex_islm (x : Z) : list coin := [mkCoin "aISLM" x].
Definition ex_locked : ClawbackVestingAccount :=
  mkCVA (mkBVA (mkBaseAccount "carol" 3 0) (ex_islm 80) [] [] 1300) "haqq1funder" 1000
    [mkPeriod 100 (ex_islm 40); mkPeriod 100 (ex_islm 25); mkPeriod 100 (ex_islm 15)]
    [mkPeriod 0 (ex_islm 80)] "0x".

Definition ex_liquid_state : LiquidState := mkLiquid (mkParams 5 true) 0 ∅.

Definition ex_liquid_world : RefWorld X :=
  mkWorld 1150 {[ "carol" := ClawbackAcc ex_locked; "dave" := EthAcc (mkBaseAccount "dave" 4 0) "0x" ]}
    8 {[ ("carol", "aISLM") := 80%N ]} ∅ ∅ (ex_liquid_state, (∅, ∅)).

Lemma ex_locked_ok : acc_ok ex_locked.
Proof.
  constructor; [| |by apply ref_valid|by apply ref_valid];
    apply schedule_of_total; try done; by apply sched_okb_ok.
Qed.

Lemma ex_liquid_accounts : accounts_ok ex_liquid_world.
Proof.
  intros a va. unfold GetAccount; simpl. unfold rw_get_account, ex_liquid_world. simpl.
  destruct (decide (a = "carol")) as [->|N].
  - rewrite lookup_insert_eq. simpl. intros [= <-]. apply ex_locked_ok.
  - rewrite lookup_insert_ne by done. destruct (decide (a = "dave")) as [->|N'].
    + rewrite lookup_singleton_eq. done.
    + by rewrite lookup_singleton_ne.
Qed.

Lemma ex_liquid_denoms : denoms_ok ex_liquid_world.
Proof. intros b ld. unfold GetDenom. simpl. by rewrite lookup_empty. Qed.

Lemma ex_liquid_names : names_ok ex_liquid_world.
Proof. intros b ld. unfold GetDenom. simpl. by rewrite lookup_empty. Qed.

(** The state after carol liquidated 10 of her 40 locked coins to dave. *)
Definition ex_after : RefWorld X := snd (Liquidate "carol" "dave" (mkCoin "aISLM" 10) ex_liquid_world).

Lemma ex_liquidate_runs : exists contract, "carol" <> HexToAddress contract /\
  Liquidate "carol" "dave" (mkCoin "aISLM" 10) ex_liquid_world
  = (Ok (mkCoin "aLIQUID0" 10, contract), ex_after).
Proof. eexists. split; [|vm_compute; reflexivity]. done. Qed.

Lemma Liquidate_correct_witness :
  exists va' liquid, rw_get_account "carol" ex_after = Some (ClawbackAcc va') /\ acc_ok va' /\
    sched_ok 1150 liquid /\ sched_total liquid "aISLM" = 10.
Proof.
  destruct ex_liquidate_runs as (k & Hk & E).
  destruct (Liquidate_correct "carol" "dave" (mkCoin "aISLM" 10) ex_liquid_world ex_after
    (mkCoin "aLIQUID0" 10) k ex_liquid_accounts) as (va & va' & lq & _ & Ea & _ & _ & _ & Hl & _).
  - simpl. lia.
  - exact Hk.
  - exact E.
  - exists va', lq. split; [exact Ea|]. split; [exact (lq_acc _ _ _ _ _ Hl)|].
    split; [exact (lq_liquid _ _ _ _ _ Hl)|]. rewrite (lq_total _ _ _ _ _ Hl). reflexivity.
Defined.

Lemma Liquidate_keeps_denoms_witness : denoms_ok ex_after /\ names_ok ex_after.
Proof.
  destruct ex_liquidate_runs as (k & Hk & E).
  destruct (Liquidate_keeps_denoms "carol" "dave" (mkCoin "aISLM" 10) ex_liquid_world ex_after
    (mkCoin "aLIQUID0" 10) k ex_liquid_accounts ex_liquid_denoms ex_liquid_names)
    as (_ & Hd & Hn & _).
  - split; vm_compute; congruence.
  - simpl. lia.
  - exact Hk.
  - exact E.
  - split; [exact Hd|exact Hn].
Defined.

Lemma liquid_tokens_backed_witness :
  GetBalance "module/liquidvesting" "aISLM" ex_after - promised "aISLM" ex_after = 0.
Proof.
  rewrite (liquid_tokens_backed "carol" "dave" (mkCoin "aISLM" 10) ex_liquid_world ex_after
    ex_liquid_accounts ex_liquid_denoms ex_liquid_names).
  - vm_compute. reflexivity.
  - vm_compute. congruence.
  - simpl. lia.
  - discriminate.
  - discriminate.
  - left. destruct ex_liquidate_runs as (k & Hk & E). exists (mkCoin "aLIQUID0" 10), k.
    split; [exact Hk|exact E].
Defined.

(** Dave redeems four of his liquid tokens and becomes a vesting account. *)
Definition ex_redeemed : RefWorld X := snd (Redeem "dave" "dave" (mkCoin "aLIQUID0" 4) ex_after).

Lemma ex_after_accounts : accounts_ok ex_after.
Proof.
  intros a va. unfold GetAccount; simpl.
  destruct (decide (a = "carol")) as [->|N].
  - destruct ex_liquidate_runs as (k & Hk & E).
    apply liquidate_run in E as (va0 & va' & lq & _ & Ea & _ & _ & _ & Hl & _); [|apply ex_liquid_accounts|simpl; lia|done].
    simpl in Ea. rewrite Ea. intros [= <-]. apply (lq_acc _ _ _ _ _ Hl).
  - destruct (decide (a = "dave")) as [->|N'].
    + vm_compute. discriminate.
    + unfold rw_get_account.
      assert (rw_accounts ex_after !! a = None) as ->; [|done].
      assert (Hdom : dom (rw_accounts ex_after) = {["carol"; "dave"]}) by by vm_compute.
      apply not_elem_of_dom. rewrite Hdom.
      by rewrite not_elem_of_union, !not_elem_of_singleton.
Qed.

Lemma ex_after_denoms : denoms_ok ex_after.
Proof.
  destruct ex_liquidate_runs as (k & Hk & E).
  apply liquidate_denoms in E as (_ & Hd & _).
  - exact Hd.
  - exact ex_liquid_accounts.
  - exact ex_liquid_denoms.
  - exact ex_liquid_names.
  - split; vm_compute; congruence.
  - simpl. lia.
  - exact Hk.
Qed.

Lemma Redeem_correct_witness :
  exists ld, lv_denoms (view ex_after) !! "aLIQUID0" = Some ld /\ accounts_ok ex_redeemed.
Proof.
  destruct (Redeem_correct "dave" "dave" (mkCoin "aLIQUID0" 4) ex_after ex_redeemed
    ex_after_accounts) as (ld & _ & _ & El & Hw & _).
  - exact ex_after_denoms.
  - simpl. lia.
  - vm_compute. reflexivity.
  - vm_compute. reflexivity.
  - exists ld. split; [exact El|exact Hw].
Defined.

(** Carol's account started before the token: of the four tokens that she redeems, coins are unlocked
    at a time at which the token's schedule has released none. *)
Example redeemed_coins_unlock_early :
  let w := snd (Redeem "dave" "carol" (mkCoin "aLIQUID0" 4) ex_after) in
  match lv_denoms (view ex_after) !! "aLIQUID0", GetAccount "carol" ex_after, GetAccount "carol" w with
  | Some ld, Some (ClawbackAcc before), Some (ClawbackAcc va) =>
      StartTime before = 1000 /\ ld_StartTime ld = 1150 /\ steps (ld_StartTime ld) (ld_LockupPeriods ld) 1199 "aISLM" = 0 /\
      amt (GetUnlockedCoins before 1199) "aISLM" < amt (GetUnlockedCoins va 1199) "aISLM"
  | _, _, _ => False
  end.
Proof. vm_compute. done. Qed.

Definition ex_genesis : GenesisState :=
  mkGenesis (mkParams 5 true) 3
    [mkDenom "aLIQUID2" "LIQUID2" "aISLM" 0 10 [mkPeriod 10 (ex_islm 4)];
     mkDenom "aLIQUID0" "LIQUID0" "aISLM" 5 25 [mkPeriod 20 (ex_islm 7)]].

Lemma genesis_roundtrip_witness :
  exists w', InitGenesis ex_genesis ex_liquid_world = (Ok tt, w') /\
    gs_Denoms (ExportGenesis w') ≡ₚ gs_Denoms ex_genesis.
Proof.
  destruct (genesis_roundtrip ex_genesis ex_liquid_world) as (w' & E & _ & _ & Hp).
  - vm_compute. reflexivity.
  - reflexivity.
  - exists w'. split; [exact E|exact Hp].
Defined.
End examples.
