(* ===== verification/Epochs.v ===== *)
(** * x/epochs: keeper/abci.go, keeper/epoch_infos.go, keeper/hooks.go,
    types/epoch_info.go, types/identifier.go, types/genesis.go, genesis.go

    Timers that tick at most once per block.  Times and durations are kept in
    nanoseconds.  [epoch_ok] is the invariant of a timer: its current epoch
    begins a whole number of durations after its start time. *)

From S2P Require Import Prelude.

Local Open Scope Z_scope.
Local Open Scope haqq_scope.

Record EpochInfo := mkEpoch {
  Identifier : string;
  StartTime : Z;
  Duration : Z;
  CurrentEpoch : Z;
  CurrentEpochStartTime : Z;
  EpochCountingStarted : bool;
  CurrentEpochStartHeight : Z
}.

(** The module's store, by identifier. *)
Abbreviation EpochsState := (gmap string EpochInfo).

(** A registered hook acts on the rest of the chain. *)
Record EpochHooks (W : Type) := mkHooks {
  hook_AfterEpochEnd : string -> Z -> W -> W;
  hook_BeforeEpochStart : string -> Z -> W -> W
}.
Arguments mkHooks {W}.
Arguments hook_AfterEpochEnd {W}.
Arguments hook_BeforeEpochStart {W}.

(** The block and the module's store inside the chain state. *)
Class EpochsWorld (W : Type) := {
  block_time : W -> Z;
  block_height : W -> Z;
  epochs : W -> EpochsState;
  set_epochs : EpochsState -> W -> W;
  (** [strings.TrimSpace(s) == ""] *)
  is_blank : string -> bool;
  (** the hooks of the application, in order *)
  hooks : list (EpochHooks W)
}.

(** The store reads back what was written, and neither a write nor a hook of
    another module touches the block or, for hooks, the timers. *)
Class EpochsLaws (W : Type) `{EpochsWorld W} : Prop := {
  epochs_set m w : epochs (set_epochs m w) = m;
  time_set m w : block_time (set_epochs m w) = block_time w;
  height_set m w : block_height (set_epochs m w) = block_height w;
  hooks_frame h : h ∈ hooks -> forall id n w,
    (epochs (hook_AfterEpochEnd h id n w) = epochs w /\
     block_time (hook_AfterEpochEnd h id n w) = block_time w /\
     block_height (hook_AfterEpochEnd h id n w) = block_height w) /\
    (epochs (hook_BeforeEpochStart h id n w) = epochs w /\
     block_time (hook_BeforeEpochStart h id n w) = block_time w /\
     block_height (hook_BeforeEpochStart h id n w) = block_height w)
}.

Abbreviation GenesisState := (list EpochInfo).

(** [time.Time{}]: the first instant of the year 1. *)
Definition zero_time : Z := -62135596800 * 10 ^ 9.

(** ** Epoch infos *)

Definition StartInitialEpoch (ei : EpochInfo) : EpochInfo :=
  mkEpoch (Identifier ei) (StartTime ei) (Duration ei) 1 (StartTime ei) true
    (CurrentEpochStartHeight ei).

Definition EndEpoch (ei : EpochInfo) : EpochInfo :=
  mkEpoch (Identifier ei) (StartTime ei) (Duration ei) (CurrentEpoch ei +64 1)
    (CurrentEpochStartTime ei + Duration ei) (EpochCountingStarted ei)
    (CurrentEpochStartHeight ei).

(** The assignment [epochInfo.CurrentEpochStartHeight = height]. *)
Definition set_start_height (h : Z) (ei : EpochInfo) : EpochInfo :=
  mkEpoch (Identifier ei) (StartTime ei) (Duration ei) (CurrentEpoch ei)
    (CurrentEpochStartTime ei) (EpochCountingStarted ei) h.

Definition set_start_time (t : Z) (ei : EpochInfo) : EpochInfo :=
  mkEpoch (Identifier ei) t (Duration ei) (CurrentEpoch ei)
    (CurrentEpochStartTime ei) (EpochCountingStarted ei) (CurrentEpochStartHeight ei).

(** What a block does to a timer: nothing, start it, or end its epoch. *)
Inductive tick := TickNone | TickStart | TickEnd.

Definition epoch_tick (now : Z) (epochInfo : EpochInfo) : tick :=
  let shouldInitialEpochStart :=
    negb (EpochCountingStarted epochInfo) && negb (now <? StartTime epochInfo) in
  let epochEndTime := CurrentEpochStartTime epochInfo + Duration epochInfo in
  let shouldEpochEnd :=
    (epochEndTime <? now) && negb shouldInitialEpochStart && negb (now <? StartTime epochInfo) in
  if shouldInitialEpochStart then TickStart else if shouldEpochEnd then TickEnd else TickNone.

Section keeper.
Context {W : Type} `{EpochsWorld W}.

Definition EpochInfo_Validate (ei : EpochInfo) : res unit :=
  if is_blank (W:=W) (Identifier ei) then Err (ErrText "epoch identifier cannot be blank")
  else if Duration ei =? 0 then Err (ErrText "epoch duration cannot be 0")
  else if CurrentEpoch ei <? 0 then Err (ErrText "current epoch cannot be negative")
  else if CurrentEpochStartHeight ei <? 0 then
    Err (ErrText "current epoch start height cannot be negative")
  else Ok tt.

Definition ValidateEpochIdentifierString (s : string) : res unit :=
  if is_blank (W:=W) s then Err (ErrText "blank epoch identifier") else Ok tt.

(** ** The store *)

Definition GetEpochInfo (identifier : string) (w : W) : option EpochInfo := epochs w !! identifier.

Definition SetEpochInfo (epoch : EpochInfo) (w : W) : W :=
  set_epochs (<[Identifier epoch := epoch]> (epochs w)) w.

Definition DeleteEpochInfo (identifier : string) (w : W) : W :=
  set_epochs (delete identifier (epochs w)) w.

(** [AllEpochInfos], in the order of the store's keys. *)
Definition AllEpochInfos (w : W) : list EpochInfo :=
  omap (fun k => epochs w !! k) (merge_sort String.le (elements (dom (epochs w)))).

(** ** Hooks *)

Definition AfterEpochEnd (identifier : string) (epochNumber : Z) (w : W) : W :=
  foldl (fun w h => hook_AfterEpochEnd h identifier epochNumber w) w hooks.

Definition BeforeEpochStart (identifier : string) (epochNumber : Z) (w : W) : W :=
  foldl (fun w h => hook_BeforeEpochStart h identifier epochNumber w) w hooks.

(** ** BeginBlocker *)

(** The callback of the iteration. *)
Definition begin_epoch (epochInfo : EpochInfo) (w : W) : W :=
  let now := block_time w in
  let t := epoch_tick now epochInfo in
  let epochInfo := set_start_height (block_height w) epochInfo in
  match t with
  | TickNone => w
  | TickStart =>
      let epochInfo := StartInitialEpoch epochInfo in
      BeforeEpochStart (Identifier epochInfo) (CurrentEpoch epochInfo) (SetEpochInfo epochInfo w)
  | TickEnd =>
      let epochInfo := EndEpoch epochInfo in
      let w := AfterEpochEnd (Identifier epochInfo) (CurrentEpoch epochInfo) w in
      BeforeEpochStart (Identifier epochInfo) (CurrentEpoch epochInfo) (SetEpochInfo epochInfo w)
  end.

(** [BeginBlocker]: the iterator runs over the timers of the store. *)
Definition BeginBlocker (w : W) : W :=
  foldl (fun w epochInfo => begin_epoch epochInfo w) w (AllEpochInfos w).

(** ** Genesis *)

Fixpoint validate_epochs (seen : gset string) (gs : GenesisState) : res unit :=
  match gs with
  | [] => Ok tt
  | epoch :: rest =>
      if bool_decide (Identifier epoch ∈ seen) then Err (ErrText "duplicated epoch entry")
      else
        _ ← EpochInfo_Validate epoch;
        validate_epochs ({[Identifier epoch]} ∪ seen) rest
  end.

Definition GenesisState_Validate (gs : GenesisState) : res unit := validate_epochs ∅ gs.

Definition DefaultGenesisState : GenesisState :=
  let day := 24 * 3600 * 10 ^ 9 in
  [mkEpoch "week" zero_time (day * 7) 0 zero_time false 0;
   mkEpoch "day" zero_time day 0 zero_time false 0].

Definition InitGenesis (genState : GenesisState) (w : W) : W :=
  foldl (fun w epoch =>
    let epoch := if StartTime epoch =? zero_time then set_start_time (block_time w) epoch
                 else epoch in
    SetEpochInfo (set_start_height (block_height w) epoch) w) w genState.

Definition ExportGenesis (w : W) : GenesisState := AllEpochInfos w.

(** ** Queries *)

Definition query_CurrentEpoch (identifier : string) (w : W) : res Z :=
  match GetEpochInfo identifier w with
  | None => Err ErrNotFound
  | Some info => Ok (CurrentEpoch info)
  end.
End keeper.

(** ** The invariant of a timer *)

(** The current epoch of a started timer begins [CurrentEpoch - 1] durations
    after its start. *)
Record epoch_ok (ei : EpochInfo) : Prop := {
  eo_number : EpochCountingStarted ei = true -> 1 <= CurrentEpoch ei <= max_i64;
  eo_time : EpochCountingStarted ei = true ->
    CurrentEpochStartTime ei = StartTime ei + (CurrentEpoch ei - 1) * Duration ei
}.

Definition infos_ok (m : EpochsState) : Prop :=
  forall k ei, m !! k = Some ei -> Identifier ei = k /\ epoch_ok ei.

(** The step of one timer in one block at time [now] and height [h]. *)
Definition epoch_step (now h : Z) (ei : EpochInfo) : EpochInfo :=
  match epoch_tick now ei with
  | TickNone => ei
  | TickStart => StartInitialEpoch (set_start_height h ei)
  | TickEnd => EndEpoch (set_start_height h ei)
  end.

Section facts.

Lemma step_id now h ei : Identifier (epoch_step now h ei) = Identifier ei.
Proof. unfold epoch_step. by destruct (epoch_tick now ei). Qed.

Lemma step_ok now h ei : CurrentEpoch ei < max_i64 -> epoch_ok ei -> epoch_ok (epoch_step now h ei).
Proof.
  intros Hm [Hn Ht]. unfold epoch_step. destruct (epoch_tick now ei) eqn:E; [done| |].
  - constructor; simpl; intros _; unfold max_i64; lia.
  - unfold EndEpoch, set_start_height. simpl.
    assert (Hst : forall b, EpochCountingStarted ei = b -> b = true -> CurrentEpoch ei +64 1 = CurrentEpoch ei + 1).
    { intros b Eb ->. specialize (Hn Eb). apply wrap_i64_id. unfold min_i64, max_i64 in *. lia. }
    constructor; simpl; intros Hs; rewrite (Hst _ eq_refl Hs); specialize (Hn Hs); [lia|].
    rewrite (Ht Hs). lia.
Qed.

(** A started timer in its running time ends its epoch exactly when the block
    is past the epoch's end. *)
Lemma tick_started now ei : EpochCountingStarted ei = true -> StartTime ei <= now ->
  epoch_tick now ei = if CurrentEpochStartTime ei + Duration ei <? now then TickEnd else TickNone.
Proof.
  intros Hs Hl. unfold epoch_tick. rewrite Hs. simpl.
  destruct (Z.ltb_spec now (StartTime ei)); [lia|]. simpl.
  by destruct (_ <? now).
Qed.

Context {W : Type} `{EpochsLaws W}.

Lemma foldl_frame {A B} (g : W -> B) (f : A -> W -> W) (l : list A) w :
  (forall x w, x ∈ l -> g (f x w) = g w) -> g (foldl (fun w x => f x w) w l) = g w.
Proof.
  revert w. induction l as [|x l IH]; intros w Hf; simpl; [done|].
  rewrite IH; [apply Hf, list_elem_of_here|]. intros y w' Hy. by apply Hf, list_elem_of_further.
Qed.

Lemma after_frame id n (w : W) :
  epochs (AfterEpochEnd id n w) = epochs w /\ block_time (AfterEpochEnd id n w) = block_time w /\
  block_height (AfterEpochEnd id n w) = block_height w.
Proof.
  unfold AfterEpochEnd. split_and!; apply (foldl_frame _ (fun h => hook_AfterEpochEnd h id n));
    intros h w' Hh; by apply hooks_frame.
Qed.

Lemma before_frame id n (w : W) :
  epochs (BeforeEpochStart id n w) = epochs w /\ block_time (BeforeEpochStart id n w) = block_time w /\
  block_height (BeforeEpochStart id n w) = block_height w.
Proof.
  unfold BeforeEpochStart. split_and!; apply (foldl_frame _ (fun h => hook_BeforeEpochStart h id n));
    intros h w' Hh; by apply hooks_frame.
Qed.

Lemma begin_epoch_facts ei (w : W) : epochs w !! Identifier ei = Some ei ->
  epochs (begin_epoch ei w)
  = <[Identifier ei := epoch_step (block_time w) (block_height w) ei]> (epochs w) /\
  block_time (begin_epoch ei w) = block_time w /\ block_height (begin_epoch ei w) = block_height w.
Proof.
  intros He. unfold begin_epoch, epoch_step. destruct (epoch_tick (block_time w) ei); cbv zeta.
  - split_and!; [|done|done]. by rewrite insert_id.
  - match goal with |- context [BeforeEpochStart ?i ?n ?w1] =>
      destruct (before_frame i n w1) as (-> & -> & ->) end.
    unfold SetEpochInfo. by rewrite epochs_set, time_set, height_set.
  - match goal with |- context [BeforeEpochStart ?i ?n ?w1] =>
      destruct (before_frame i n w1) as (-> & -> & ->) end.
    unfold SetEpochInfo. rewrite epochs_set, time_set, height_set.
    match goal with |- context [AfterEpochEnd ?i ?n ?w1] =>
      destruct (after_frame i n w1) as (-> & -> & ->) end. done.
Qed.

Lemma begin_loop (m : EpochsState) ks (w : W) :
  NoDup ks -> (forall k, k ∈ ks -> epochs w !! k = m !! k) ->
  (forall k ei, m !! k = Some ei -> Identifier ei = k) ->
  let w' := foldl (fun w ei => begin_epoch ei w) w (omap (fun k => m !! k) ks) in
  block_time w' = block_time w /\ block_height w' = block_height w /\
  forall k, epochs w' !! k
    = if decide (k ∈ ks) then epoch_step (block_time w) (block_height w) <$> m !! k
      else epochs w !! k.
Proof.
  revert w. induction ks as [|k ks IH]; intros w Hnd Hks Hid; cbn [omap list_omap foldl].
  { split_and!; [done|done|]. intros k.
    destruct (decide (k ∈ [])) as [Hk|]; [by apply elem_of_nil in Hk|done]. }
  apply list.NoDup_cons in Hnd as [Hk Hnd].
  assert (Ek : epochs w !! k = m !! k) by apply Hks, list_elem_of_here.
  assert (Hks' : forall k0, k0 ∈ ks -> epochs w !! k0 = m !! k0)
    by (intros; by apply Hks, list_elem_of_further).
  destruct (m !! k) as [ei|] eqn:Em; simpl.
  - pose proof (Hid _ _ Em) as Ei. rewrite <- Ei in Ek.
    destruct (begin_epoch_facts ei w Ek) as (Ee & Et & Eh). rewrite Ei in Ee.
    destruct (IH (begin_epoch ei w)) as (T & Hh & L); [done| |done|].
    { intros k0 Hk0. rewrite Ee, lookup_insert_ne by (intros ->; done). by apply Hks'. }
    rewrite T, Hh, Et, Eh. split_and!; [done|done|]. intros k0. rewrite L, Et, Eh, Ee.
    destruct (decide (k0 = k)) as [->|N].
    + rewrite decide_False, decide_True by (done || apply list_elem_of_here).
      by rewrite lookup_insert_eq, Em.
    + rewrite lookup_insert_ne by done.
      destruct (decide (k0 ∈ ks)), (decide (k0 ∈ k :: ks)) as [Hin|Hin]; try done.
      * exfalso. by apply Hin, list_elem_of_further.
      * exfalso. by apply elem_of_cons in Hin as [|].
  - destruct (IH w Hnd Hks' Hid) as (T & Hh & L). split_and!; [done|done|]. intros k0. rewrite L.
    destruct (decide (k0 = k)) as [->|N].
    + rewrite decide_False, decide_True by (done || apply list_elem_of_here). by rewrite Ek, Em.
    + destruct (decide (k0 ∈ ks)), (decide (k0 ∈ k :: ks)) as [Hin|Hin]; try done.
      * exfalso. by apply Hin, list_elem_of_further.
      * exfalso. by apply elem_of_cons in Hin as [|].
Qed.

Lemma begin_blocker_lookup (w : W) : infos_ok (epochs w) ->
  block_time (BeginBlocker w) = block_time w /\ block_height (BeginBlocker w) = block_height w /\
  forall k, GetEpochInfo k (BeginBlocker w)
    = epoch_step (block_time w) (block_height w) <$> GetEpochInfo k w.
Proof.
  intros Hok. unfold BeginBlocker, AllEpochInfos, GetEpochInfo.
  destruct (begin_loop (epochs w) (merge_sort String.le (elements (dom (epochs w)))) w)
    as (T & Hh & L).
  - rewrite merge_sort_Permutation. apply NoDup_elements.
  - done.
  - intros k ei E. by apply Hok in E as [? _].
  - split_and!; [done|done|]. intros k. rewrite L.
    destruct (decide _) as [Hin|Hin]; [done|].
    rewrite merge_sort_Permutation, elem_of_elements, not_elem_of_dom in Hin. by rewrite Hin.
Qed.
End facts.

(** ** Catching up *)

Lemma step_late now h ei : EpochCountingStarted ei = true -> StartTime ei <= now ->
  CurrentEpochStartTime ei + Duration ei < now ->
  EpochCountingStarted (epoch_step now h ei) = true /\
  StartTime (epoch_step now h ei) = StartTime ei /\ Duration (epoch_step now h ei) = Duration ei /\
  CurrentEpochStartTime (epoch_step now h ei) = CurrentEpochStartTime ei + Duration ei.
Proof.
  intros Hs Hl Hlate. unfold epoch_step. rewrite tick_started by done.
  destruct (Z.ltb_spec (CurrentEpochStartTime ei + Duration ei) now); [done|lia].
Qed.

Lemma catch_up n now h ei : EpochCountingStarted ei = true -> StartTime ei <= now ->
  0 < Duration ei -> now - CurrentEpochStartTime ei <= Z.of_nat n * Duration ei ->
  exists k, (k <= n)%nat /\
    epoch_tick now (Nat.iter k (epoch_step now h) ei) = TickNone /\
    CurrentEpochStartTime (Nat.iter k (epoch_step now h) ei)
    = CurrentEpochStartTime ei + Z.of_nat k * Duration ei.
Proof.
  revert ei. induction n as [|n IH]; intros ei Hs Hl Hd Hn.
  - exists 0%nat. simpl. rewrite tick_started by done.
    destruct (Z.ltb_spec (CurrentEpochStartTime ei + Duration ei) now); split_and!; lia || done.
  - destruct (Z.lt_ge_cases (CurrentEpochStartTime ei + Duration ei) now) as [L|L].
    + destruct (step_late now h ei Hs Hl L) as (Hs' & Est & Ed & Ec).
      destruct (IH (epoch_step now h ei)) as (k & Hk & Ht & Hc).
      { done. } { by rewrite Est. } { by rewrite Ed. } { rewrite Ec, Ed. lia. }
      exists (S k). rewrite Nat.iter_succ_r. split_and!; [lia|done|].
      rewrite Hc, Ec, Ed. lia.
    + exists 0%nat. simpl. rewrite tick_started by done.
      destruct (Z.ltb_spec (CurrentEpochStartTime ei + Duration ei) now); split_and!; lia || done.
Qed.

(** ** Properties *)

(** A block of the chain for this module: whatever the other modules did since
    the last block, the timers are as they were; then [BeginBlocker] runs. *)
Inductive epochs_block {W} `{EpochsWorld W} : W -> W -> Prop :=
  | epochs_next w w0 : epochs w0 = epochs w ->
      (forall k ei, epochs w !! k = Some ei -> CurrentEpoch ei < max_i64) ->
      epochs_block w (BeginBlocker w0).

Section properties.
Context {W : Type} `{EpochsLaws W}.

(** [BeginBlocker] refines the one-timer step: afterwards every timer of
    the store is its step at the block's time and height, no timer appears or
    disappears, and the timers do not influence each other. *)
Theorem BeginBlocker_refines_step (w : W) :
  infos_ok (epochs w) ->
  forall k, GetEpochInfo k (BeginBlocker w)
    = epoch_step (block_time w) (block_height w) <$> GetEpochInfo k w.
Proof. intros Hok. by apply begin_blocker_lookup. Qed.

(** C39: Over any sequence of blocks every started timer's current epoch begins
    exactly [CurrentEpoch - 1] durations after the timer's start: epochs do not
    drift, whatever the block times are. *)
Theorem epochs_never_drift (w w' : W) :
  infos_ok (epochs w) -> rtc epochs_block w w' -> infos_ok (epochs w').
Proof.
  intros Hok Hr. induction Hr as [|w w1 w' Hb _ IH]; [done|]. apply IH. clear IH.
  destruct Hb as [w w0 E Hm]. intros k ei.
  rewrite <- E in Hok, Hm. destruct (begin_blocker_lookup w0 Hok) as (_ & _ & L).
  specialize (L k). unfold GetEpochInfo in L. rewrite L.
  destruct (epochs w0 !! k) as [ei0|] eqn:E0; simpl; [|done]. intros [= <-].
  destruct (Hok _ _ E0) as [Hi Ho]. split; [by rewrite step_id|].
  apply step_ok; [by eapply Hm|done].
Qed.

(** A timer that is behind catches up: at one epoch per block, after at most
    as many steps as durations have passed it does not tick any more, and its
    epoch start has moved by whole durations. *)
Theorem epoch_catches_up now h ei :
  EpochCountingStarted ei = true -> StartTime ei <= now -> 0 < Duration ei ->
  CurrentEpochStartTime ei <= now ->
  exists k, Z.of_nat k <= (now - CurrentEpochStartTime ei) / Duration ei + 1 /\
    epoch_tick now (Nat.iter k (epoch_step now h) ei) = TickNone /\
    CurrentEpochStartTime (Nat.iter k (epoch_step now h) ei)
    = CurrentEpochStartTime ei + Z.of_nat k * Duration ei.
Proof.
  intros Hs Hl Hd Hc. set (q := (now - CurrentEpochStartTime ei) / Duration ei).
  assert (Hq : 0 <= q) by (apply Z.div_pos; lia).
  destruct (catch_up (Z.to_nat (q + 1)) now h ei Hs Hl Hd) as (k & Hk & Ht & E).
  - rewrite Z2Nat.id by lia. pose proof (Z.mul_succ_div_gt (now - CurrentEpochStartTime ei) (Duration ei) Hd).
    fold q in H1. lia.
  - exists k. split_and!; [lia|done|done].
Qed.
End properties.

(** ** Concrete runs *)

(** A chain state with no other module, whose hook records its calls. *)
Record RefEpochs := mkRefEpochs {
  re_time : Z; re_height : Z; re_infos : EpochsState; re_calls : list (bool * string * Z)
}.

Section examples.
#[local] Instance RefEpochsWorld : EpochsWorld RefEpochs := {
  block_time := re_time;
  block_height := re_height;
  epochs := re_infos;
  set_epochs m w := mkRefEpochs (re_time w) (re_height w) m (re_calls w);
  is_blank s := bool_decide (s = EmptyString);
  hooks := [mkHooks
    (fun id n w => mkRefEpochs (re_time w) (re_height w) (re_infos w) (re_calls w ++ [(true, id, n)]))
    (fun id n w => mkRefEpochs (re_time w) (re_height w) (re_infos w) (re_calls w ++ [(false, id, n)]))]
}.

#[local] Instance RefEpochsLaws : EpochsLaws RefEpochs.
Proof.
  constructor; try done. intros h Hh. apply list_elem_of_singleton in Hh as ->. done.
Qed.

Definition ex_day : EpochInfo := mkEpoch "day" 100 50 3 200 true 7.
Definition ex_week : EpochInfo := mkEpoch "week" 100 350 0 0 false 0.
Definition ex_epochs : RefEpochs :=
  mkRefEpochs 420 9 {[ "day" := ex_day; "week" := ex_week ]} [].

Lemma ex_epochs_ok : infos_ok (epochs ex_epochs).
Proof.
  intros k ei. simpl. destruct (decide (k = "day")) as [->|N].
  - rewrite lookup_insert_eq. intros [= <-]. split; [done|]. by constructor.
  - rewrite lookup_insert_ne by done. destruct (decide (k = "week")) as [->|N'].
    + rewrite lookup_singleton_eq. intros [= <-]. split; [done|]. by constructor.
    + by rewrite lookup_singleton_ne.
Qed.

Lemma BeginBlocker_refines_step_witness :
  GetEpochInfo "day" (BeginBlocker ex_epochs) = Some (mkEpoch "day" 100 50 4 250 true 9).
Proof. rewrite (BeginBlocker_refines_step ex_epochs ex_epochs_ok "day"). reflexivity. Defined.

Lemma epochs_never_drift_witness : infos_ok (epochs (BeginBlocker ex_epochs)).
Proof.
  apply (epochs_never_drift ex_epochs _ ex_epochs_ok). apply rtc_once.
  apply (epochs_next ex_epochs ex_epochs); [reflexivity|].
  intros k ei. simpl. destruct (decide (k = "day")) as [->|N].
  - rewrite lookup_insert_eq. intros [= <-]. reflexivity.
  - rewrite lookup_insert_ne by done. destruct (decide (k = "week")) as [->|N'].
    + rewrite lookup_singleton_eq. intros [= <-]. reflexivity.
    + by rewrite lookup_singleton_ne.
Defined.

Lemma epoch_catches_up_witness :
  exists k, epoch_tick 420 (Nat.iter k (epoch_step 420 9) ex_day) = TickNone.
Proof.
  destruct (epoch_catches_up 420 9 ex_day) as (k & _ & Ht & _).
  - reflexivity.
  - simpl. lia.
  - simpl. lia.
  - simpl. lia.
  - exists k. exact Ht.
Defined.

(** The number the hooks get at the end of epoch 3 is 4. *)
Lemma after_epoch_end_number :
  re_calls (begin_epoch ex_day ex_epochs) = [(true, "day", 4); (false, "day", 4)] /\
  CurrentEpoch ex_day = 3.
Proof. by vm_compute. Qed.
End examples.
