(* ===== verification/FeeMarket.v ===== *)
(** * x/feemarket: keeper/eip1559.go, keeper/abci.go, keeper/params.go,
    keeper/keeper.go, keeper/msg_server.go, types/params.go, types/msg.go, genesis.go

    The EIP-1559 base fee: recomputed at the beginning of a block from the gas
    the previous block wanted.  [big.Int] values are [Z]; its Euclidean division
    is [Z.div] here, since every divisor is a positive number or the code panics.
    An [sdkmath.LegacyDec] is its raw value, scaled by 10^18. *)

From S2P Require Import Prelude.

Local Open Scope Z_scope.

(** ** Data *)

(** A nil [sdkmath.Int] or [LegacyDec] is [None]. *)
Record Params := mkParams {
  NoBaseFee : bool;
  BaseFeeChangeDenominator : Z;
  ElasticityMultiplier : Z;
  BaseFee : option Z;
  EnableHeight : Z;
  MinGasPrice : option Z;
  MinGasMultiplier : option Z
}.

(** The module's stores: parameters (with the legacy parameter space as a
    fallback), the gas wanted by the block, the transient gas wanted and the
    base fee of the first version. *)
Record State := mkState {
  fm_params : option Params;
  fm_legacy : Params;
  fm_gas_wanted : Z;
  fm_transient : Z;
  fm_base_fee_v1 : option Z
}.

(** What the keeper reads of the context: the height, the block's maximal gas
    when there are consensus parameters, and the block gas meter. *)
Record Context := mkContext {
  BlockHeight : Z;
  MaxGas : option Z;
  GasConsumedToLimit : option Z
}.

Record MsgUpdateParams := mkMsgUpdateParams { Authority : string; mup_Params : Params }.
Record GenesisState := mkGenesis { gs_Params : Params; gs_BlockGas : Z }.

Definition dec_one : Z := 10 ^ 18.

(** [sdkmath.LegacyDec] arithmetic of the library. *)
Class DecOps := { DecMul : Z -> Z -> Z }.
Class DecLaws `{DecOps} : Prop := {
  (** no rounding when one factor is an integer *)
  dec_mul_int n x : DecMul (n * dec_one) x = n * x
}.

Definition TruncateInt (x : Z) : Z := Z.quot x dec_one.

(** ** Parameters *)

Definition IsBaseFeeEnabled (p : Params) (height : Z) : bool :=
  negb (NoBaseFee p) && (EnableHeight p <=? height).

Definition validateMinGasPrice (v : option Z) : res unit :=
  match v with
  | None => Err (ErrText "invalid parameter: nil")
  | Some v => if v <? 0 then Err (ErrText "value cannot be negative") else Ok tt
  end.

Definition validateMinGasMultiplier (v : option Z) : res unit :=
  match v with
  | None => Err (ErrText "invalid parameter: nil")
  | Some v =>
      if v <? 0 then Err (ErrText "value cannot be negative")
      else if dec_one <? v then Err (ErrText "value cannot be greater than 1") else Ok tt
  end.

(** [Int.IsNegative] panics on a nil [Int]. *)
Definition Validate (p : Params) : res unit :=
  if BaseFeeChangeDenominator p =? 0 then Err (ErrText "base fee change denominator cannot be 0")
  else
    match BaseFee p with
    | None => Panic
    | Some fee =>
        if fee <? 0 then Err (ErrText "initial base fee cannot be negative")
        else if EnableHeight p <? 0 then Err (ErrText "enable height cannot be negative")
        else _ ← validateMinGasMultiplier (MinGasMultiplier p); validateMinGasPrice (MinGasPrice p)
    end.

(** go-ethereum's [params]: denominator 8, elasticity 2, initial fee 10^9. *)
Definition DefaultParams : Params :=
  mkParams false 8 2 (Some (10 ^ 9)) 0 (Some 0) (Some (dec_one / 2)).

(** ** Stores *)

Definition GetParams (st : State) : Params :=
  let params := match fm_params st with None => fm_legacy st | Some p => p end in
  mkParams (NoBaseFee params) (BaseFeeChangeDenominator params) (ElasticityMultiplier params)
    (BaseFee params) (EnableHeight params)
    (Some (default 0 (MinGasPrice params))) (Some (default 0 (MinGasMultiplier params))).

Definition SetParams (params : Params) (st : State) : State :=
  mkState (Some params) (fm_legacy st) (fm_gas_wanted st) (fm_transient st) (fm_base_fee_v1 st).

Definition GetBaseFeeEnabled (ctx : Context) (st : State) : bool :=
  let params := GetParams st in
  negb (NoBaseFee params) && (EnableHeight params <=? BlockHeight ctx).

Definition GetBaseFee (st : State) : option Z :=
  let params := GetParams st in
  if NoBaseFee params then None
  else
    match BaseFee params with
    | Some fee => if fee =? 0 then fm_base_fee_v1 st else Some fee
    | None => fm_base_fee_v1 st
    end.

Definition SetBaseFee (baseFee : Z) (st : State) : State :=
  let params := GetParams st in
  SetParams (mkParams (NoBaseFee params) (BaseFeeChangeDenominator params)
               (ElasticityMultiplier params) (Some baseFee) (EnableHeight params)
               (MinGasPrice params) (MinGasMultiplier params)) st.

Definition SetBlockGasWanted (gas : Z) (st : State) : State :=
  mkState (fm_params st) (fm_legacy st) gas (fm_transient st) (fm_base_fee_v1 st).

Definition GetBlockGasWanted (st : State) : Z := fm_gas_wanted st.
Definition GetTransientGasWanted (st : State) : Z := fm_transient st.

Definition SetTransientBlockGasWanted (gasWanted : Z) (st : State) : State :=
  mkState (fm_params st) (fm_legacy st) (fm_gas_wanted st) gasWanted (fm_base_fee_v1 st).

Definition AddTransientGasWanted (gasWanted : Z) (st : State) : Z * State :=
  let result := u64_add (GetTransientGasWanted st) gasWanted in
  (result, SetTransientBlockGasWanted result st).

(** ** The base fee *)

(** [big.Int.Div], which panics on a zero divisor. *)
Definition big_div (x y : Z) : res Z := if y =? 0 then Panic else Ok (x / y).

Definition gas_limit (ctx : Context) : Z :=
  match MaxGas ctx with
  | Some g => if -1 <? g then g else 2 ^ 64 - 1
  | None => 2 ^ 64 - 1
  end.

Definition CalculateBaseFee (ctx : Context) (st : State) : res (option Z) :=
  let params := GetParams st in
  if negb (IsBaseFeeEnabled params (BlockHeight ctx)) then Ok None
  else if BlockHeight ctx =? EnableHeight params then Ok (BaseFee params)
  else
    match BaseFee params with
    | None => Ok None
    | Some parentBaseFee =>
        let parentGasUsed := GetBlockGasWanted st in
        let gasLimit := gas_limit ctx in
        parentGasTarget ← big_div gasLimit (ElasticityMultiplier params);
        if negb ((0 <=? parentGasTarget) && (parentGasTarget <? 2 ^ 64)) then Ok None
        else if parentGasUsed =? parentGasTarget then Ok (Some parentBaseFee)
        else if parentGasTarget <? parentGasUsed then
          let gasUsedDelta := u64_sub parentGasUsed parentGasTarget in
          let x := parentBaseFee * gasUsedDelta in
          y ← big_div x parentGasTarget;
          z ← big_div y (BaseFeeChangeDenominator params);
          let baseFeeDelta := Z.max z 1 in
          Ok (Some (parentBaseFee + baseFeeDelta))
        else
          let gasUsedDelta := u64_sub parentGasTarget parentGasUsed in
          let x := parentBaseFee * gasUsedDelta in
          y ← big_div x parentGasTarget;
          baseFeeDelta ← big_div y (BaseFeeChangeDenominator params);
          let minGasPrice := TruncateInt (default 0 (MinGasPrice params)) in
          Ok (Some (Z.max (parentBaseFee - baseFeeDelta) minGasPrice))
    end.

(** ** Blocks *)

Definition BeginBlock (ctx : Context) (st : State) : res State :=
  baseFee ← CalculateBaseFee ctx st;
  match baseFee with
  | None => Ok st
  | Some fee => Ok (SetBaseFee fee st)
  end.

Definition IsInt64 (z : Z) : bool := (min_i64 <=? z) && (z <=? max_i64).

Definition EndBlock `{DecOps} (ctx : Context) : M State unit := fun st =>
  match GasConsumedToLimit ctx with
  | None => (Err (ErrText "block gas meter is nil when setting block gas wanted"), st)
  | Some gasUsed =>
      let gasWanted := GetTransientGasWanted st in
      if negb (IsInt64 gasWanted) then (Err (ErrText "gas wanted > MaxInt64"), st)
      else if negb (IsInt64 gasUsed) then (Err (ErrText "gas used > MaxInt64"), st)
      else
        let minGasMultiplier := default 0 (MinGasMultiplier (GetParams st)) in
        let limitedGasWanted := DecMul (gasWanted * dec_one) minGasMultiplier in
        let updated := TruncateInt (Z.max limitedGasWanted (gasUsed * dec_one)) in
        (* [Uint64] panics out of range *)
        if (0 <=? updated) && (updated <? 2 ^ 64) then (Ok tt, SetBlockGasWanted updated st)
        else (Panic, st)
  end.

(** ** Governance and genesis *)

Definition UpdateParams (authority : string) (req : MsgUpdateParams) : M State unit := fun st =>
  if bool_decide (authority <> Authority req) then (Err ErrUnauthorized, st)
  else (Ok tt, SetParams (mup_Params req) st).

Definition InitGenesis (data : GenesisState) (st : State) : State :=
  SetBlockGasWanted (gs_BlockGas data) (SetParams (gs_Params data) st).

Definition ExportGenesis (st : State) : GenesisState :=
  mkGenesis (GetParams st) (GetBlockGasWanted st).

(** ** The rule in ideal arithmetic *)

(** EIP-1559's update of the base fee, on unbounded integers. *)
Definition next_fee (parent used target denominator floor : Z) : Z :=
  if used =? target then parent
  else if target <? used then
    parent + Z.max (parent * (used - target) / target / denominator) 1
  else Z.max (parent - parent * (target - used) / target / denominator) floor.

(** The floor of the base fee: the minimal gas price in whole units. *)
Definition fee_floor (p : Params) : Z := TruncateInt (default 0 (MinGasPrice p)).

(** The block computes a base fee from the parent's: the market is enabled and
    past its first block, and the gas target is positive. *)
Record fee_ready (ctx : Context) (st : State) (parent target : Z) : Prop := {
  ready_enabled : IsBaseFeeEnabled (GetParams st) (BlockHeight ctx) = true;
  ready_height : BlockHeight ctx <> EnableHeight (GetParams st);
  ready_parent : BaseFee (GetParams st) = Some parent;
  ready_parent_nonneg : 0 <= parent;
  ready_denominator : 1 <= BaseFeeChangeDenominator (GetParams st);
  ready_elasticity : 1 <= ElasticityMultiplier (GetParams st);
  ready_limit : gas_limit ctx < 2 ^ 64;
  ready_target : target = gas_limit ctx / ElasticityMultiplier (GetParams st);
  ready_positive : 0 < target
}.

Lemma big_div_pos x y : 0 < y -> big_div x y = Ok (x / y).
Proof. intros H. unfold big_div. by destruct (Z.eqb_spec y 0); [lia|]. Qed.

Lemma div_small_mul a b c : 0 <= a -> 0 <= b <= c -> 0 < c -> 0 <= a * b / c <= a.
Proof.
  intros. split; [apply Z.div_pos; nia|]. apply Z.div_le_upper_bound; nia.
Qed.

Lemma target_range l e : l < 2 ^ 64 -> 1 <= e -> 0 < l / e -> 0 < l / e < 2 ^ 64.
Proof.
  intros Hl He Ht. split; [done|]. apply Z.div_lt_upper_bound; [lia|].
  assert (0 < l) by (destruct (Z.lt_ge_cases 0 l); [done|];
    assert (l / e <= 0) by (apply Z.div_le_upper_bound; nia); lia). nia.
Qed.

Lemma CalculateBaseFee_ready ctx st parent target g :
  fee_ready ctx st parent target -> 0 <= g < 2 ^ 64 ->
  CalculateBaseFee ctx (SetBlockGasWanted g st) =
    Ok (Some (next_fee parent g target (BaseFeeChangeDenominator (GetParams st))
                (fee_floor (GetParams st)))).
Proof.
  intros [He Hh Hp Hnn Hd Hel Hlim Ht Hpos] Hg.
  unfold CalculateBaseFee, next_fee, fee_floor.
  change (GetParams (SetBlockGasWanted g st)) with (GetParams st).
  change (GetBlockGasWanted (SetBlockGasWanted g st)) with g.
  rewrite He. simpl negb. cbn iota. destruct (Z.eqb_spec (BlockHeight ctx) (EnableHeight (GetParams st))); [done|].
  rewrite Hp, big_div_pos by lia. cbn [mbind res_bind]. rewrite <- Ht.
  assert (Hr : 0 < target < 2 ^ 64) by (subst; by apply target_range).
  destruct (Z.leb_spec 0 target), (Z.ltb_spec target (2 ^ 64)); try lia. cbn [andb negb].
  destruct (Z.eqb_spec g target); [done|]. unfold u64_sub.
  destruct (Z.ltb_spec target g); rewrite wrap_u64_id by lia;
    rewrite big_div_pos by lia; cbn [mbind res_bind]; rewrite big_div_pos by lia; done.
Qed.

Lemma next_fee_monotone parent target d fl g1 g2 :
  0 <= parent -> 0 < target -> 1 <= d -> fl <= parent -> 0 <= g1 <= g2 ->
  next_fee parent g1 target d fl <= next_fee parent g2 target d fl.
Proof.
  intros Hp Ht Hd Hf Hg. unfold next_fee.
  assert (Hmono : forall a b, 0 <= a <= b -> parent * a / target / d <= parent * b / target / d).
  { intros a b Hab. apply Z.div_le_mono; [lia|]. apply Z.div_le_mono; nia. }
  assert (Hdn : forall a, 0 <= a -> 0 <= parent * a / target / d).
  { intros a Ha. apply Z.div_pos; [|lia]. apply Z.div_pos; nia. }
  destruct (Z.eqb_spec g1 target), (Z.eqb_spec g2 target), (Z.ltb_spec target g1),
    (Z.ltb_spec target g2); try lia.
  all: try (pose proof (Hdn (target - g1) ltac:(lia)); lia).
  - pose proof (Hmono (g1 - target) (g2 - target) ltac:(lia)). lia.
  - pose proof (Hmono (target - g2) (target - g1) ltac:(lia)). lia.
Qed.

Lemma next_fee_bounds parent target d fl e g :
  0 <= parent -> 0 < target -> 1 <= d -> fl <= parent -> 0 <= g -> 1 <= e ->
  let f := next_fee parent g target d fl in
  parent - parent / d <= f /\ fl <= f /\
  (g < target -> f <= parent) /\ (g = target -> f = parent) /\ (target < g -> parent < f) /\
  (g <= e * target -> f <= parent + Z.max 1 (parent * (e - 1) / d)).
Proof.
  intros Hp Ht Hd Hf Hg He. simpl. unfold next_fee.
  pose proof (Z.div_pos parent d Hp ltac:(lia)).
  assert (0 <= parent * (e - 1) / d) by (apply Z.div_pos; nia).
  destruct (Z.eqb_spec g target); [lia|]. destruct (Z.ltb_spec target g).
  - split_and!; try lia. intros Hle.
    assert (parent * (g - target) / target / d <= parent * (e - 1) / d); [|lia].
    apply Z.div_le_mono; [lia|]. apply Z.div_le_upper_bound; nia.
  - pose proof (div_small_mul parent (target - g) target Hp ltac:(lia) Ht) as [Hlo Hhi].
    pose proof (Z.div_pos _ d Hlo ltac:(lia)).
    assert (parent * (target - g) / target / d <= parent / d) by (apply Z.div_le_mono; lia).
    split_and!; lia.
Qed.

(** ** Properties *)

(** Machine widths of the stored values: two uint32 parameters, the uint64 block
    gas, and an int64 gas limit or the uint64 maximum. *)
Record widths (ctx : Context) (st : State) : Prop := {
  width_denominator : 0 <= BaseFeeChangeDenominator (GetParams st) < 2 ^ 32;
  width_elasticity : 0 <= ElasticityMultiplier (GetParams st) < 2 ^ 32;
  width_gas : 0 <= fm_gas_wanted st < 2 ^ 64;
  width_limit : forall g, MaxGas ctx = Some g -> min_i64 <= g <= max_i64
}.

Lemma gas_limit_range ctx st : widths ctx st -> 0 <= gas_limit ctx < 2 ^ 64.
Proof.
  intros [_ _ _ Hl]. unfold gas_limit. destruct (MaxGas ctx) as [g|]; [|lia].
  specialize (Hl g eq_refl). unfold max_i64 in Hl. destruct (Z.ltb_spec (-1) g); lia.
Qed.

Lemma Validate_inv p :
  Validate p = Ok tt ->
  BaseFeeChangeDenominator p <> 0 /\ (exists fee, BaseFee p = Some fee /\ 0 <= fee) /\
  0 <= EnableHeight p /\ (exists m, MinGasMultiplier p = Some m /\ 0 <= m <= dec_one) /\
  (exists m, MinGasPrice p = Some m /\ 0 <= m).
Proof.
  unfold Validate, validateMinGasMultiplier, validateMinGasPrice. intros H.
  destruct (Z.eqb_spec (BaseFeeChangeDenominator p) 0); [done|].
  destruct (BaseFee p) as [fee|]; [|done].
  destruct (Z.ltb_spec fee 0); [done|]. destruct (Z.ltb_spec (EnableHeight p) 0); [done|].
  destruct (MinGasMultiplier p) as [m|]; [|done].
  destruct (Z.ltb_spec m 0); [done|]. destruct (Z.ltb_spec dec_one m); [done|]. cbn in H.
  destruct (MinGasPrice p) as [mp|]; [|done]. destruct (Z.ltb_spec mp 0); [done|].
  split_and!; eauto.
Qed.

(** With parameters that pass [Params.Validate], computing the base fee halts
    the block with a division by zero exactly when the market is enabled, the
    block is past its first one, and the elasticity multiplier is zero or the gas
    limit is below it while the parent block used gas. *)
Theorem CalculateBaseFee_panics_iff ctx st :
  Validate (GetParams st) = Ok tt -> widths ctx st ->
  CalculateBaseFee ctx st = Panic <->
  IsBaseFeeEnabled (GetParams st) (BlockHeight ctx) = true /\
  BlockHeight ctx <> EnableHeight (GetParams st) /\
  (ElasticityMultiplier (GetParams st) = 0 \/
   gas_limit ctx < ElasticityMultiplier (GetParams st) /\ 0 < fm_gas_wanted st).
Proof.
  intros (Hd & (fee & Hfee & Hnn) & _)%Validate_inv W.
  pose proof (gas_limit_range _ _ W) as Hl. destruct W as [Wd We Wg _].
  unfold CalculateBaseFee, GetBlockGasWanted.
  destruct (IsBaseFeeEnabled _ _); cbn [negb]; [|by split; [|intros [? _]]].
  destruct (Z.eqb_spec (BlockHeight ctx) (EnableHeight (GetParams st))) as [Eh|Eh].
  { split; [done|]. by intros (_ & Hn & _). }
  rewrite Hfee. unfold big_div.
  destruct (Z.eqb_spec (ElasticityMultiplier (GetParams st)) 0) as [E0|E0].
  { split; [|done]. intros _. split_and!; [done..|by left]. }
  cbn [mbind res_bind]. set (t := gas_limit ctx / ElasticityMultiplier (GetParams st)).
  assert (Ht : 0 <= t < 2 ^ 64).
  { split; [apply Z.div_pos; lia|]. apply Z.div_lt_upper_bound; nia. }
  assert (Hz : t = 0 <-> gas_limit ctx < ElasticityMultiplier (GetParams st)).
  { split; [|intros; apply Z.div_small; lia]. intros H0.
    apply Z.div_small_iff in H0; lia. }
  destruct (Z.leb_spec 0 t), (Z.ltb_spec t (2 ^ 64)); try lia. cbn [andb negb].
  destruct (Z.eqb_spec (fm_gas_wanted st) t); [split; [done|lia]|].
  destruct (Z.eqb_spec t 0), (Z.eqb_spec (BaseFeeChangeDenominator (GetParams st)) 0);
    destruct (Z.ltb_spec t (fm_gas_wanted st)); try lia; cbn [mbind res_bind]; split; try done; lia.
Qed.

(** C38: EIP-1559's response: with a positive gas target and a parent fee at or
    above the floor, a block that wanted more gas never gets a lower base fee; the
    fee strictly rises above the target, stays put at it, does not rise below it;
    it falls by at most [1/denominator] and never under the floor, and a block within its
    limit raises it by at most [(elasticity - 1)/denominator], or by one. *)
Theorem base_fee_responds ctx st parent target g1 g2 :
  fee_ready ctx st parent target -> 0 <= g1 <= g2 -> g2 < 2 ^ 64 ->
  fee_floor (GetParams st) <= parent ->
  let d := BaseFeeChangeDenominator (GetParams st) in
  let e := ElasticityMultiplier (GetParams st) in
  exists f1 f2,
    CalculateBaseFee ctx (SetBlockGasWanted g1 st) = Ok (Some f1) /\
    CalculateBaseFee ctx (SetBlockGasWanted g2 st) = Ok (Some f2) /\
    f1 <= f2 /\ parent - parent / d <= f1 /\ fee_floor (GetParams st) <= f1 /\
    (g1 < target -> f1 <= parent) /\ (g1 = target -> f1 = parent) /\ (target < g1 -> parent < f1) /\
    (g1 <= e * target -> f1 <= parent + Z.max 1 (parent * (e - 1) / d)).
Proof.
  intros R Hg Hg2 Hfl d e. do 2 eexists.
  rewrite !(CalculateBaseFee_ready _ _ _ _ _ R) by lia. do 2 (split; [done|]).
  destruct R as [_ _ _ Hp Hd He _ _ Hpos].
  split; [by apply next_fee_monotone|]. apply next_fee_bounds; done || lia.
Qed.

(** A base fee at or above the floor, under valid parameters. *)
Definition fee_ok (p : Params) : Prop :=
  Validate p = Ok tt /\ forall fee, BaseFee p = Some fee -> fee_floor p <= fee.

Inductive market_step `{DecOps} (authority : string) : State -> State -> Prop :=
| market_begin ctx st st' :
    widths ctx st -> BeginBlock ctx st = Ok st' -> market_step authority st st'
| market_tx g st : market_step authority st (snd (AddTransientGasWanted g st))
| market_end ctx st st' :
    EndBlock ctx st = (Ok tt, st') -> market_step authority st st'
| market_commit st : market_step authority st (SetTransientBlockGasWanted 0 st)
| market_governance req st st' :
    UpdateParams authority req st = (Ok tt, st') -> fee_ok (mup_Params req) ->
    market_step authority st st'.

Lemma GetParams_SetBaseFee fee st :
  GetParams (SetBaseFee fee st) =
  let p := GetParams st in
  mkParams (NoBaseFee p) (BaseFeeChangeDenominator p) (ElasticityMultiplier p) (Some fee)
    (EnableHeight p) (MinGasPrice p) (MinGasMultiplier p).
Proof. done. Qed.

Lemma GetParams_valid p st : Validate p = Ok tt -> GetParams (SetParams p st) = p.
Proof.
  intros (_ & _ & _ & (m & Hm & _) & (mp & Hmp & _))%Validate_inv.
  unfold GetParams. cbn. rewrite Hm, Hmp. destruct p; cbn in *. by subst.
Qed.

Lemma Validate_set_fee p fee :
  Validate p = Ok tt -> 0 <= fee ->
  Validate (mkParams (NoBaseFee p) (BaseFeeChangeDenominator p) (ElasticityMultiplier p) (Some fee)
    (EnableHeight p) (MinGasPrice p) (MinGasMultiplier p)) = Ok tt.
Proof.
  intros H Hf. pose proof (Validate_inv _ H) as (_ & (f & Ef & Hnn) & _).
  unfold Validate in *. cbn. rewrite Ef in H.
  destruct (Z.ltb_spec f 0); [lia|]. destruct (Z.ltb_spec fee 0); [lia|]. done.
Qed.

Lemma fee_floor_nonneg p : Validate p = Ok tt -> 0 <= fee_floor p.
Proof.
  intros (_ & _ & _ & _ & (m & Hm & Hp))%Validate_inv. unfold fee_floor, TruncateInt.
  rewrite Hm. apply Z.quot_pos; [done|]. by unfold dec_one.
Qed.

Lemma CalculateBaseFee_floor ctx st fee :
  fee_ok (GetParams st) -> widths ctx st ->
  CalculateBaseFee ctx st = Ok (Some fee) -> fee_floor (GetParams st) <= fee.
Proof.
  intros [Hv Hf] W. pose proof (gas_limit_range _ _ W) as Hl.
  destruct (Validate_inv _ Hv) as (Hd & (parent & Hp & Hnn) & _). specialize (Hf _ Hp).
  destruct W as [Wd We Wg _]. unfold CalculateBaseFee, GetBlockGasWanted.
  set (p := GetParams st) in *. clearbody p.
  destruct (IsBaseFeeEnabled _ _); cbn [negb]; [|done].
  destruct (_ =? EnableHeight _); [rewrite Hp; by intros [= <-]|]. rewrite Hp. unfold big_div.
  destruct (ElasticityMultiplier _ =? 0); [done|]. cbn [mbind res_bind].
  destruct (negb _); [done|]. destruct (fm_gas_wanted st =? _); [intros [= <-]; done|].
  destruct (_ <? fm_gas_wanted st), (_ / _ =? 0); try done; cbn [mbind res_bind];
    destruct (_ =? 0); try done; cbn [mbind res_bind]; intros [= <-]; unfold fee_floor in *. all: lia.
Qed.

Lemma market_step_fee_ok `{DecOps} authority st st' :
  market_step authority st st' -> fee_ok (GetParams st) -> fee_ok (GetParams st').
Proof.
  intros [ctx s s' W Hb|g s|ctx s s' He|s|req s s' Hu Hok] Hfee; [| done | | done |].
  - unfold BeginBlock in Hb. destruct (CalculateBaseFee ctx s) as [[fee|]| |] eqn:Ec;
      cbn in Hb; simplify_eq; [|done].
    pose proof (CalculateBaseFee_floor _ _ _ Hfee W Ec) as Hfl. destruct Hfee as [Hv _].
    pose proof (fee_floor_nonneg _ Hv). rewrite GetParams_SetBaseFee. split.
    + apply Validate_set_fee; [done|lia].
    + cbn. by intros ? [= <-].
  - unfold EndBlock in He. destruct (GasConsumedToLimit ctx); [|done].
    destruct (negb _); [done|]. destruct (negb _); [done|].
    destruct (_ && _); simplify_eq. done.
  - unfold UpdateParams in Hu. case_bool_decide; simplify_eq.
    destruct Hok as [Hv Hf]. by rewrite (GetParams_valid _ _ Hv).
Qed.

(** Through any sequence of begin blocks, transactions, end blocks, commits and
    governance updates that themselves respect the floor, the parameters stay
    valid and the base fee never drops below the minimal gas price. *)
Theorem base_fee_never_below_floor `{DecOps} authority st st' :
  rtc (market_step authority) st st' -> fee_ok (GetParams st) ->
  fee_ok (GetParams st') /\ exists fee, BaseFee (GetParams st') = Some fee /\
    0 <= fee_floor (GetParams st') <= fee.
Proof.
  intros Hr Hok. assert (Hok' : fee_ok (GetParams st')).
  { induction Hr; eauto using market_step_fee_ok. }
  split; [done|]. destruct Hok' as [Hv Hf].
  destruct (Validate_inv _ Hv) as (_ & (fee & Ef & _) & _). exists fee.
  auto using fee_floor_nonneg.
Qed.

Lemma truncate_max a b : 0 <= b -> 
  TruncateInt (Z.max a (b * dec_one)) = Z.max (a / dec_one) b.
Proof.
  intros Hb. unfold TruncateInt. rewrite Z.quot_div_nonneg by (unfold dec_one; lia).
  assert (0 < dec_one) by done. destruct (Z.max_spec a (b * dec_one)) as [[? ->]|[? ->]].
  - rewrite Z.div_mul by lia. rewrite Z.max_r; [done|]. apply Z.lt_le_incl, Z.div_lt_upper_bound; lia.
  - rewrite Z.max_l; [done|]. apply Z.div_le_lower_bound; lia.
Qed.

(** At the end of a block the gas stored for the next base fee is the larger of the gas
    used and the multiplier's share of the gas wanted, so wanted gas that is not
    used is never ignored and never counts more than in full.  The narrowing to
    int64 is guarded: amounts beyond it are errors, and nothing panics. *)
Theorem EndBlock_gas_wanted `{DecLaws} ctx st used m :
  GasConsumedToLimit ctx = Some used -> MinGasMultiplier (GetParams st) = Some m ->
  0 <= m <= dec_one -> 0 <= used < 2 ^ 64 -> 0 <= fm_transient st < 2 ^ 64 ->
  if (fm_transient st <=? max_i64) && (used <=? max_i64) then
    EndBlock ctx st =
      (Ok tt, SetBlockGasWanted (Z.max (fm_transient st * m / dec_one) used) st) /\
    used <= Z.max (fm_transient st * m / dec_one) used <= Z.max (fm_transient st) used
  else exists e, EndBlock ctx st = (Err e, st).
Proof.
  intros Hc Hm Hr Hu Ht. unfold EndBlock, GetTransientGasWanted, IsInt64, min_i64, max_i64.
  rewrite Hc, Hm. cbn [from_option]. unfold id.
  destruct (Z.leb_spec (- 2 ^ 63) (fm_transient st)), (Z.leb_spec (fm_transient st) (2 ^ 63 - 1));
    try lia; cbn [andb negb]; [|eauto].
  destruct (Z.leb_spec (- 2 ^ 63) used), (Z.leb_spec used (2 ^ 63 - 1)); try lia; cbn [andb negb]; [|eauto].
  rewrite dec_mul_int, truncate_max by lia.
  assert (Hq : 0 <= fm_transient st * m / dec_one <= fm_transient st).
  { split; [apply Z.div_pos; unfold dec_one in *; nia|]. apply Z.div_le_upper_bound; [done|nia]. }
  destruct (Z.leb_spec 0 (Z.max (fm_transient st * m / dec_one) used)); [|lia].
  destruct (Z.ltb_spec (Z.max (fm_transient st * m / dec_one) used) (2 ^ 64)); [|lia].
  split; [reflexivity|lia].
Qed.

(** ** Runs *)
Section runs.
#[local] Instance RefDec : DecOps := {| DecMul a b := Z.quot (a * b) dec_one |}.
#[local] Instance RefDecLaws : DecLaws.
Proof.
  constructor. intros n x. cbn. replace (n * dec_one * x) with (n * x * dec_one) by lia.
  by apply Z.quot_mul.
Qed.

Definition ex_params : Params := mkParams false 8 2 (Some 1000) 0 (Some (20 * dec_one)) (Some (dec_one / 2)).
Definition ex_market : State := mkState (Some ex_params) DefaultParams 9 8 None.
Definition ex_block : Context := mkContext 5 (Some 10) (Some 3).

Lemma ex_widths : widths ex_block ex_market.
Proof. constructor; [cbn; lia..|]. by intros g [= <-]. Qed.

Lemma ex_fee_ok : fee_ok (GetParams ex_market).
Proof. split; [done|]. intros fee [= <-]. by vm_compute. Qed.

Lemma CalculateBaseFee_panics_iff_witness :
  CalculateBaseFee ex_block
    (SetParams (mkParams false 8 0 (Some 1000) 0 (Some 0) (Some 0)) ex_market) = Panic.
Proof.
  apply CalculateBaseFee_panics_iff.
  - reflexivity.
  - constructor; [cbn; lia..|]. by intros g [= <-].
  - split_and!; [reflexivity|vm_compute; congruence|left; reflexivity].
Defined.

Lemma base_fee_responds_witness :
  exists f1 f2, CalculateBaseFee ex_block (SetBlockGasWanted 4 ex_market) = Ok (Some f1) /\
    CalculateBaseFee ex_block (SetBlockGasWanted 9 ex_market) = Ok (Some f2) /\ f1 <= f2.
Proof.
  destruct (base_fee_responds ex_block ex_market 1000 5 4 9) as (f1 & f2 & H1 & H2 & H3 & _).
  - constructor; vm_compute; congruence.
  - lia.
  - lia.
  - vm_compute; congruence.
  - eauto.
Defined.

Lemma base_fee_never_below_floor_witness :
  fee_ok (GetParams (snd (AddTransientGasWanted 7 ex_market))).
Proof.
  apply (base_fee_never_below_floor "gov" ex_market); [|exact ex_fee_ok].
  apply rtc_once, market_tx.
Defined.

Lemma EndBlock_gas_wanted_witness :
  EndBlock ex_block ex_market = (Ok tt, SetBlockGasWanted 4 ex_market).
Proof.
  destruct (EndBlock_gas_wanted ex_block ex_market 3 (dec_one / 2)) as [-> _]; try reflexivity;
    vm_compute; split; congruence.
Defined.
End runs.
