(* ===== verification/AccessList.v ===== *)
(** * x/evm/statedb/access_list.go

    The access list of EIP-2929 and EIP-2930: [addresses] maps an address to the
    index of its slots in [slots], or to -1 when it has none.  The journal undoes
    additions in the opposite order; [DeleteSlot_AddSlot] and
    [DeleteAddress_AddAddress] say that each deletion then gives back the list
    before the addition. *)

From S2P Require Import Prelude.

Local Open Scope Z_scope.

(** [common.Address] and [common.Hash]: strings of 20 and of 32 bytes. *)
Abbreviation Address := string.
Abbreviation Hash := string.

Record accessList := mkAccessList {
  addresses : gmap Address Z;
  slots : list (gset Hash)
}.

#[export] Instance access_list_eq_dec : EqDecision accessList.
Proof. solve_decision. Defined.

Definition newAccessList : accessList := mkAccessList ∅ [].

Definition ContainsAddress (al : accessList) (address : Address) : bool :=
  bool_decide (is_Some (addresses al !! address)).

(** [al.slots[idx]], which panics out of range. *)
Definition slot_at (al : accessList) (idx : Z) : option (gset Hash) :=
  if idx <? 0 then None else slots al !! Z.to_nat idx.

Definition Contains (al : accessList) (address : Address) (slot : Hash) : res (bool * bool) :=
  match addresses al !! address with
  | None => Ok (false, false)
  | Some idx =>
      if idx =? -1 then Ok (true, false)
      else
        match slot_at al idx with
        | None => Panic
        | Some slotmap => Ok (true, bool_decide (slot ∈ slotmap))
        end
  end.

Definition AddAddress (al : accessList) (address : Address) : bool * accessList :=
  match addresses al !! address with
  | Some _ => (false, al)
  | None => (true, mkAccessList (<[address := -1]> (addresses al)) (slots al))
  end.

(** Returns whether the address and the slot were added. *)
Definition AddSlot (al : accessList) (address : Address) (slot : Hash)
    : res (bool * bool * accessList) :=
  let idx := addresses al !! address in
  if bool_decide (idx = None) || bool_decide (idx = Some (-1)) then
    Ok (bool_decide (idx = None), true,
        mkAccessList (<[address := Z.of_nat (length (slots al))]> (addresses al))
          (slots al ++ [{[slot]}]))
  else
    let i := default 0 idx in
    match slot_at al i with
    | None => Panic
    | Some slotmap =>
        if bool_decide (slot ∈ slotmap) then Ok (false, false, al)
        else Ok (false, true,
                 mkAccessList (addresses al) (<[Z.to_nat i := {[slot]} ∪ slotmap]> (slots al)))
    end.

Definition DeleteSlot (al : accessList) (address : Address) (slot : Hash) : res accessList :=
  match addresses al !! address with
  | None => Panic
  | Some idx =>
      match slot_at al idx with
      | None => Panic
      | Some slotmap =>
          let slotmap := slotmap ∖ {[slot]} in
          if bool_decide (size slotmap = 0%nat) then
            Ok (mkAccessList (<[address := -1]> (addresses al)) (take (Z.to_nat idx) (slots al)))
          else Ok (mkAccessList (addresses al) (<[Z.to_nat idx := slotmap]> (slots al)))
      end
  end.

Definition DeleteAddress (al : accessList) (address : Address) : accessList :=
  mkAccessList (delete address (addresses al)) (slots al).

(** ** Invariant *)

(** Every index points at a non-empty set of slots. *)
Definition al_ok (al : accessList) : Prop :=
  forall a idx, addresses al !! a = Some idx ->
    idx = -1 \/ 0 <= idx /\ exists ss, slots al !! Z.to_nat idx = Some ss /\ ss <> ∅.

Lemma slot_at_pos al idx : 0 <= idx -> slot_at al idx = slots al !! Z.to_nat idx.
Proof. intros H. unfold slot_at. by destruct (Z.ltb_spec idx 0); [lia|]. Qed.

Lemma newAccessList_ok : al_ok newAccessList.
Proof. intros a idx. simpl. by rewrite lookup_empty. Qed.

Lemma AddAddress_ok al a : al_ok al -> al_ok (snd (AddAddress al a)).
Proof.
  intros H. unfold AddAddress. destruct (addresses al !! a) eqn:E; [done|]. simpl.
  intros b idx. simpl. destruct (decide (a = b)) as [->|N].
  - rewrite lookup_insert_eq. intros [= <-]. by left.
  - rewrite lookup_insert_ne by done. by apply H.
Qed.

(** An address with an index of its own, over more slots than before. *)
Lemma al_ok_slots al m ss : al_ok al ->
  (forall a idx, m !! a = Some idx -> idx = -1 \/ addresses al !! a = Some idx \/
     0 <= idx /\ exists s, ss !! Z.to_nat idx = Some s /\ s <> ∅) ->
  (forall i s, slots al !! i = Some s -> s <> ∅ -> exists s', ss !! i = Some s' /\ s' <> ∅) ->
  al_ok (mkAccessList m ss).
Proof.
  intros H Hm Hs a idx Ha. destruct (Hm a idx Ha) as [->|[Ho|Hi]]; [by left| |by right].
  destruct (H a idx Ho) as [->|(Hp & s & Es & Hn)]; [by left|]. right. split; [done|].
  by eapply Hs.
Qed.

Lemma AddSlot_total al a k : al_ok al -> exists r, AddSlot al a k = Ok r.
Proof.
  intros H. unfold AddSlot. destruct (addresses al !! a) as [idx|] eqn:E.
  2:{ rewrite bool_decide_eq_true_2 by done. eauto. }
  rewrite (bool_decide_eq_false_2 (Some idx = None)) by done. simpl.
  case_bool_decide as C; [eauto|]. cbn [default from_option]. unfold id.
  destruct (H a idx E) as [->|(Hp & ss & Es & _)]; [done|].
  rewrite slot_at_pos, Es by done. case_bool_decide; eauto.
Qed.

Lemma AddSlot_ok al a k r : al_ok al -> AddSlot al a k = Ok r -> al_ok r.2.
Proof.
  intros H. unfold AddSlot. destruct (_ || _) eqn:C.
  - intros [= <-]. simpl. eapply al_ok_slots; [done|..].
    + intros b idx. destruct (decide (a = b)) as [->|N].
      * rewrite lookup_insert_eq. intros [= <-]. right; right. split; [lia|].
        exists {[k]}. rewrite Nat2Z.id, lookup_app_r, Nat.sub_diag by lia. split; [done|].
        apply non_empty_singleton_L.
      * rewrite lookup_insert_ne by done. auto.
    + intros i s Hi Hn. exists s. split; [by apply lookup_app_l_Some|done].
  - destruct (slot_at al _) as [ss|] eqn:Es; [|done].
    destruct (bool_decide (k ∈ ss)); intros [= <-]; simpl; [done|]. eapply al_ok_slots; [done|auto|].
    intros i s Hi Hn. destruct (decide (i = Z.to_nat (default 0 (addresses al !! a)))) as [->|N].
    + eexists. rewrite list_lookup_insert_eq by (by eapply lookup_lt_Some). split; [done|].
      set_solver.
    + exists s. by rewrite list_lookup_insert_ne.
Qed.

(** ** Undoing *)

Lemma DeleteAddress_AddAddress al a : addresses al !! a = None ->
  DeleteAddress (snd (AddAddress al a)) a = al.
Proof.
  intros E. unfold AddAddress, DeleteAddress. rewrite E. destruct al as [m ss]. simpl in *. f_equal.
  by apply delete_insert_id.
Qed.

(** The slot's addition undone: the address stays with the index it had, or -1. *)
Lemma DeleteSlot_AddSlot al a k ca al' : al_ok al ->
  AddSlot al a k = Ok (ca, true, al') ->
  ca = bool_decide (addresses al !! a = None) /\
  DeleteSlot al' a k = Ok (if ca then snd (AddAddress al a) else al).
Proof.
  intros H. unfold AddSlot, DeleteSlot, AddAddress. destruct (_ || _) eqn:C.
  - intros [= <- <-]. split; [done|]. simpl. rewrite lookup_insert_eq.
    rewrite slot_at_pos by lia. cbn [slots].
    rewrite Nat2Z.id, lookup_app_r, Nat.sub_diag by lia. cbn [lookup list_lookup].
    rewrite difference_diag_L, size_empty, bool_decide_eq_true_2 by done.
    rewrite take_app_length, insert_insert_eq. destruct al as [m ss]. simpl in *.
    destruct (m !! a) as [idx|] eqn:E; simpl in *.
    + apply bool_decide_eq_true in C as [= ->]. by rewrite insert_id.
    + done.
  - destruct (addresses al !! a) as [idx|] eqn:E; [|done]. simpl in *. unfold id.
    destruct (slot_at al idx) as [ss|] eqn:Es; [|done].
    destruct (bool_decide_reflect (k ∈ ss)) as [Hk|Hk]; [done|].
    intros [= <- <-]. split; [done|]. simpl. rewrite E.
    destruct (H a idx E) as [->|(Hp & ss' & Hl & Hn)]; [done|].
    rewrite slot_at_pos in Es by done. simplify_eq. unfold slot_at. simpl.
    destruct (Z.ltb_spec idx 0); [lia|].
    rewrite list_lookup_insert_eq by (by eapply lookup_lt_Some).
    replace (({[k]} ∪ ss) ∖ {[k]}) with ss by set_solver.
    rewrite bool_decide_eq_false_2 by (rewrite size_empty_iff; set_solver).
    rewrite list_insert_insert_eq, list_insert_id by done. by destruct al.
Qed.
