(* ===== verification/StateDB.v ===== *)
(** * x/evm/statedb: state_object.go, journal.go, statedb.go, config.go, interfaces.go

    The journalled state of an EVM transaction over the keeper of x/evm.

    The objects of [stateObjects] are pointers in the code: a method changes the
    object the map holds.  Here a method returns the changed object and the
    caller writes it back at its address; an object that a reset has replaced is
    only referred to by the journal, and no method changes it.  A [*big.Int] is never
    changed in place.  The context is the store [W] of the transaction; [cache] is
    the store that [cacheCtx] points to once [writeCache] is set, and [Commit]
    writes it back.  Journal entries are kept with the newest first. *)

From S2P Require Import Prelude.
From S2P Require Import AccessList.

Local Open Scope Z_scope.

(** [common.Hash{}] *)
Definition zero_hash : Hash := Nat.iter 32 (String Ascii.zero) EmptyString.

(** Code is [[]byte]; [None] is nil. *)
Abbreviation Code := (option string).

Record Account := mkAccount {
  Nonce : Z;
  Balance : Z;
  CodeHash : Hash
}.

#[export] Instance account_eq_dec : EqDecision Account.
Proof. solve_decision. Defined.

(** [statedb.Keeper], the storage under the StateDB. *)
Class StateKeeper (W : Type) := {
  keeper_GetAccount : Address -> W -> option Account;
  keeper_GetState : Address -> Hash -> W -> Hash;
  keeper_GetCode : Hash -> W -> Code;
  keeper_SetAccount : Address -> Account -> M W unit;
  (** the value's bytes; [None] is an empty slice *)
  keeper_SetState : Address -> Hash -> option Hash -> W -> W;
  keeper_SetCode : Hash -> Code -> W -> W;
  keeper_DeleteAccount : Address -> M W unit
}.

(** go-ethereum's Keccak-256. *)
Class Keccak := { Keccak256Hash : string -> Hash }.

Section objects.
Context `{Keccak}.

Definition emptyCodeHash : Hash := Keccak256Hash EmptyString.

Definition NewEmptyAccount : Account := mkAccount 0 0 emptyCodeHash.

Definition IsContract (acct : Account) : bool := negb (bool_decide (CodeHash acct = emptyCodeHash)).
End objects.

(** ** State objects *)

Abbreviation Storage := (gmap Hash Hash).

(** [Storage.SortedKeys] *)
Definition SortedKeys (s : Storage) : list Hash := merge_sort String.le (elements (dom s)).

Record stateObject := mkObject {
  address : Address;
  account : Account;
  code : Code;
  originStorage : Storage;
  dirtyStorage : Storage;
  dirtyCode : bool;
  suicided : bool
}.

(** The nil fields of an [Account{}] become those of [NewEmptyAccount], which is
    what callers pass here for it. *)
Definition newObject (address : Address) (account : Account) : stateObject :=
  mkObject address account None ∅ ∅ false false.

Definition setAccount (acct : Account) (o : stateObject) : stateObject :=
  mkObject (address o) acct (code o) (originStorage o) (dirtyStorage o) (dirtyCode o) (suicided o).

Definition setBalance (amount : Z) (o : stateObject) : stateObject :=
  setAccount (mkAccount (Nonce (account o)) amount (CodeHash (account o))) o.

Definition setNonce (nonce : Z) (o : stateObject) : stateObject :=
  setAccount (mkAccount nonce (Balance (account o)) (CodeHash (account o))) o.

Definition setCode (codeHash : Hash) (c : Code) (o : stateObject) : stateObject :=
  mkObject (address o) (mkAccount (Nonce (account o)) (Balance (account o)) codeHash) c
    (originStorage o) (dirtyStorage o) true (suicided o).

Definition setState (key value : Hash) (o : stateObject) : stateObject :=
  mkObject (address o) (account o) (code o) (originStorage o) (<[key := value]> (dirtyStorage o))
    (dirtyCode o) (suicided o).

Definition setSuicided (b : bool) (o : stateObject) : stateObject :=
  mkObject (address o) (account o) (code o) (originStorage o) (dirtyStorage o) (dirtyCode o) b.

Definition markSuicided (o : stateObject) : stateObject := setSuicided true o.

Definition cacheCode (c : Code) (o : stateObject) : stateObject :=
  mkObject (address o) (account o) c (originStorage o) (dirtyStorage o) (dirtyCode o) (suicided o).

Definition cacheState (key value : Hash) (o : stateObject) : stateObject :=
  mkObject (address o) (account o) (code o) (<[key := value]> (originStorage o)) (dirtyStorage o)
    (dirtyCode o) (suicided o).

Definition empty `{Keccak} (o : stateObject) : bool :=
  (Nonce (account o) =? 0) && (Balance (account o) =? 0) &&
  bool_decide (CodeHash (account o) = emptyCodeHash).

Section stored.
Context {W : Type} `{StateKeeper W, Keccak}.

(** [stateObject.Code]: the code and the object with the code it has loaded. *)
Definition object_Code (ctx : W) (o : stateObject) : Code * stateObject :=
  match code o with
  | Some c => (Some c, o)
  | None =>
      if bool_decide (CodeHash (account o) = emptyCodeHash) then (None, o)
      else
        let c := keeper_GetCode (CodeHash (account o)) ctx in
        (c, cacheCode c o)
  end.

Definition object_GetCommittedState (ctx : W) (key : Hash) (o : stateObject) : Hash * stateObject :=
  match originStorage o !! key with
  | Some value => (value, o)
  | None =>
      let value := keeper_GetState (address o) key ctx in
      (value, cacheState key value o)
  end.

Definition object_GetState (ctx : W) (key : Hash) (o : stateObject) : Hash * stateObject :=
  match dirtyStorage o !! key with
  | Some value => (value, o)
  | None => object_GetCommittedState ctx key o
  end.
End stored.

(** ** The journal *)

Inductive JournalEntry {W : Type} :=
  | createObjectChange (account : Address)
  | resetObjectChange (prev : stateObject)
  | suicideChange (account : Address) (prev : bool) (prevbalance : Z)
  | balanceChange (account : Address) (prev : Z)
  | nonceChange (account : Address) (prev : Z)
  | storageChange (account : Address) (key prevalue : Hash)
  | codeChange (account : Address) (prevcode : Code) (prevhash : Hash)
  | refundChange (prev : Z)
  | addLogChange
  | accessListAddAccountChange (address : Address)
  | accessListAddSlotChange (address : Address) (slot : Hash)
  | precompileCallChange (multiStore : W).
Arguments JournalEntry W : clear implicits.

Definition Dirtied {W} (e : JournalEntry W) : option Address :=
  match e with
  | createObjectChange a | suicideChange a _ _ | balanceChange a _ | nonceChange a _
  | storageChange a _ _ | codeChange a _ _ => Some a
  | _ => None
  end.

Record journal {W : Type} := mkJournal {
  entries : list (JournalEntry W);
  dirties : gmap Address Z
}.
Arguments journal W : clear implicits.
Arguments mkJournal {W}.

Definition newJournal {W} : journal W := mkJournal [] ∅.

Definition sortedDirties {W} (j : journal W) : list Address :=
  merge_sort String.le (elements (dom (dirties j))).

Definition journal_append {W} (entry : JournalEntry W) (j : journal W) : journal W :=
  mkJournal (entry :: entries j)
    match Dirtied entry with
    | Some addr => <[addr := default 0 (dirties j !! addr) + 1]> (dirties j)
    | None => dirties j
    end.

Definition journal_length {W} (j : journal W) : nat := length (entries j).

(** One entry's dirty tracking dropped. *)
Definition undirty {W} (entry : JournalEntry W) (d : gmap Address Z) : gmap Address Z :=
  match Dirtied entry with
  | Some addr =>
      let n := default 0 (d !! addr) - 1 in
      if n =? 0 then delete addr d else <[addr := n]> d
  | None => d
  end.

(** ** The StateDB *)

Record Log := mkLog {
  log_Address : Address;
  log_Topics : list Hash;
  log_Data : string;
  log_BlockNumber : Z;
  log_TxHash : Hash;
  log_BlockHash : Hash;
  log_TxIndex : Z;
  log_Index : Z
}.

Record TxConfig := mkTxConfig {
  BlockHash : Hash;
  TxHash : Hash;
  TxIndex : Z;
  LogIndex : Z
}.

Definition NewEmptyTxConfig (bhash : Hash) : TxConfig := mkTxConfig bhash zero_hash 0 0.

Record revision := mkRevision { rev_id : Z; rev_journalIndex : nat }.

Record StateDB {W : Type} := mkStateDB {
  ctx : W;
  cache : option W;
  db_journal : journal W;
  validRevisions : list revision;
  nextRevisionID : Z;
  stateObjects : gmap Address stateObject;
  txConfig : TxConfig;
  refund : Z;
  logs : list Log;
  access : accessList;
  precompileCallsCounter : Z
}.
Arguments StateDB W : clear implicits.
Arguments mkStateDB {W}.

Section db.
Context {W : Type} `{StateKeeper W, Keccak}.

Definition New (c : W) (config : TxConfig) : StateDB W :=
  mkStateDB c None newJournal [] 0 ∅ config 0 [] newAccessList 0.

Definition with_cache (c : option W) (s : StateDB W) : StateDB W :=
  mkStateDB (ctx s) c (db_journal s) (validRevisions s) (nextRevisionID s) (stateObjects s)
    (txConfig s) (refund s) (logs s) (access s) (precompileCallsCounter s).
Definition with_journal (j : journal W) (s : StateDB W) : StateDB W :=
  mkStateDB (ctx s) (cache s) j (validRevisions s) (nextRevisionID s) (stateObjects s)
    (txConfig s) (refund s) (logs s) (access s) (precompileCallsCounter s).
Definition with_revisions (r : list revision) (n : Z) (s : StateDB W) : StateDB W :=
  mkStateDB (ctx s) (cache s) (db_journal s) r n (stateObjects s)
    (txConfig s) (refund s) (logs s) (access s) (precompileCallsCounter s).
Definition with_objects (m : gmap Address stateObject) (s : StateDB W) : StateDB W :=
  mkStateDB (ctx s) (cache s) (db_journal s) (validRevisions s) (nextRevisionID s) m
    (txConfig s) (refund s) (logs s) (access s) (precompileCallsCounter s).
Definition with_refund (r : Z) (s : StateDB W) : StateDB W :=
  mkStateDB (ctx s) (cache s) (db_journal s) (validRevisions s) (nextRevisionID s) (stateObjects s)
    (txConfig s) r (logs s) (access s) (precompileCallsCounter s).
Definition with_logs (l : list Log) (s : StateDB W) : StateDB W :=
  mkStateDB (ctx s) (cache s) (db_journal s) (validRevisions s) (nextRevisionID s) (stateObjects s)
    (txConfig s) (refund s) l (access s) (precompileCallsCounter s).
Definition with_access (al : accessList) (s : StateDB W) : StateDB W :=
  mkStateDB (ctx s) (cache s) (db_journal s) (validRevisions s) (nextRevisionID s) (stateObjects s)
    (txConfig s) (refund s) (logs s) al (precompileCallsCounter s).
Definition with_calls (n : Z) (s : StateDB W) : StateDB W :=
  mkStateDB (ctx s) (cache s) (db_journal s) (validRevisions s) (nextRevisionID s) (stateObjects s)
    (txConfig s) (refund s) (logs s) (access s) n.

Definition append (entry : JournalEntry W) (s : StateDB W) : StateDB W :=
  with_journal (journal_append entry (db_journal s)) s.

Definition setStateObject (o : stateObject) (s : StateDB W) : StateDB W :=
  with_objects (<[address o := o]> (stateObjects s)) s.

(** Loads the object into the live set. *)
Definition getStateObject (addr : Address) (s : StateDB W) : option stateObject * StateDB W :=
  match stateObjects s !! addr with
  | Some obj => (Some obj, s)
  | None =>
      match keeper_GetAccount addr (ctx s) with
      | None => (None, s)
      | Some acct => let obj := newObject addr acct in (Some obj, setStateObject obj s)
      end
  end.

Definition createObject (addr : Address) (s : StateDB W)
    : stateObject * option stateObject * StateDB W :=
  let '(prev, s) := getStateObject addr s in
  let newobj := newObject addr NewEmptyAccount in
  let s :=
    match prev with
    | None => append (createObjectChange addr) s
    | Some prev => append (resetObjectChange prev) s
    end in
  (newobj, prev, setStateObject newobj s).

Definition getOrNewStateObject (addr : Address) (s : StateDB W) : stateObject * StateDB W :=
  let '(obj, s) := getStateObject addr s in
  match obj with
  | Some obj => (obj, s)
  | None => let '(obj, _, s) := createObject addr s in (obj, s)
  end.

Definition CreateAccount (addr : Address) (s : StateDB W) : StateDB W :=
  let '(newObj, prev, s) := createObject addr s in
  match prev with
  | Some prev => setStateObject (setBalance (Balance (account prev)) newObj) s
  | None => s
  end.

(** ** Readers *)

Definition Exist (addr : Address) (s : StateDB W) : bool * StateDB W :=
  let '(obj, s) := getStateObject addr s in (bool_decide (is_Some obj), s).

Definition Empty (addr : Address) (s : StateDB W) : bool * StateDB W :=
  let '(so, s) := getStateObject addr s in
  (match so with None => true | Some so => empty so end, s).

Definition GetBalance (addr : Address) (s : StateDB W) : Z * StateDB W :=
  let '(so, s) := getStateObject addr s in
  (match so with Some so => Balance (account so) | None => 0 end, s).

Definition GetNonce (addr : Address) (s : StateDB W) : Z * StateDB W :=
  let '(so, s) := getStateObject addr s in
  (match so with Some so => Nonce (account so) | None => 0 end, s).

Definition GetCode (addr : Address) (s : StateDB W) : Code * StateDB W :=
  let '(so, s) := getStateObject addr s in
  match so with
  | Some so => let '(c, so) := object_Code (ctx s) so in (c, setStateObject so s)
  | None => (None, s)
  end.

Definition GetCodeSize (addr : Address) (s : StateDB W) : nat * StateDB W :=
  let '(so, s) := getStateObject addr s in
  match so with
  | Some so =>
      let '(c, so) := object_Code (ctx s) so in
      (String.length (default EmptyString c), setStateObject so s)
  | None => (0%nat, s)
  end.

Definition GetCodeHash (addr : Address) (s : StateDB W) : Hash * StateDB W :=
  let '(so, s) := getStateObject addr s in
  (match so with Some so => CodeHash (account so) | None => zero_hash end, s).

Definition GetState (addr : Address) (hash : Hash) (s : StateDB W) : Hash * StateDB W :=
  let '(so, s) := getStateObject addr s in
  match so with
  | Some so => let '(v, so) := object_GetState (ctx s) hash so in (v, setStateObject so s)
  | None => (zero_hash, s)
  end.

Definition GetCommittedState (addr : Address) (hash : Hash) (s : StateDB W) : Hash * StateDB W :=
  let '(so, s) := getStateObject addr s in
  match so with
  | Some so => let '(v, so) := object_GetCommittedState (ctx s) hash so in (v, setStateObject so s)
  | None => (zero_hash, s)
  end.

Definition GetRefund (s : StateDB W) : Z := refund s.

Definition HasSuicided (addr : Address) (s : StateDB W) : bool * StateDB W :=
  let '(so, s) := getStateObject addr s in
  (match so with Some so => suicided so | None => false end, s).

(** ** Setters *)

(** [stateObject.SetBalance], on the object the live set holds. *)
Definition object_SetBalance (amount : Z) (o : stateObject) (s : StateDB W) : StateDB W :=
  let s := append (balanceChange (address o) (Balance (account o))) s in
  setStateObject (setBalance amount o) s.

Definition object_AddBalance (amount : Z) (o : stateObject) (s : StateDB W) : StateDB W :=
  if amount =? 0 then s else object_SetBalance (Balance (account o) + amount) o s.

Definition object_SubBalance (amount : Z) (o : stateObject) (s : StateDB W) : StateDB W :=
  if amount =? 0 then s else object_SetBalance (Balance (account o) - amount) o s.

Definition object_SetNonce (nonce : Z) (o : stateObject) (s : StateDB W) : StateDB W :=
  let s := append (nonceChange (address o) (Nonce (account o))) s in
  setStateObject (setNonce nonce o) s.

Definition object_SetCode (codeHash : Hash) (c : Code) (o : stateObject) (s : StateDB W) : StateDB W :=
  let '(prevcode, o) := object_Code (ctx s) o in
  let s := append (codeChange (address o) prevcode (CodeHash (account o))) s in
  setStateObject (setCode codeHash c o) s.

Definition object_SetState (key value : Hash) (o : stateObject) (s : StateDB W) : StateDB W :=
  let '(prev, o) := object_GetState (ctx s) key o in
  if bool_decide (prev = value) then setStateObject o s
  else
    let s := append (storageChange (address o) key prev) s in
    setStateObject (setState key value o) s.

Definition AddBalance (addr : Address) (amount : Z) (s : StateDB W) : StateDB W :=
  let '(o, s) := getOrNewStateObject addr s in object_AddBalance amount o s.

Definition SubBalance (addr : Address) (amount : Z) (s : StateDB W) : StateDB W :=
  let '(o, s) := getOrNewStateObject addr s in object_SubBalance amount o s.

Definition SetNonce (addr : Address) (nonce : Z) (s : StateDB W) : StateDB W :=
  let '(o, s) := getOrNewStateObject addr s in object_SetNonce nonce o s.

Definition SetCode (addr : Address) (c : Code) (s : StateDB W) : StateDB W :=
  let '(o, s) := getOrNewStateObject addr s in
  object_SetCode (Keccak256Hash (default EmptyString c)) c o s.

Definition SetState (addr : Address) (key value : Hash) (s : StateDB W) : StateDB W :=
  let '(o, s) := getOrNewStateObject addr s in object_SetState key value o s.

Definition Suicide (addr : Address) (s : StateDB W) : bool * StateDB W :=
  let '(o, s) := getStateObject addr s in
  match o with
  | None => (false, s)
  | Some o =>
      let s := append (suicideChange addr (suicided o) (Balance (account o))) s in
      (true, setStateObject (setBalance 0 (markSuicided o)) s)
  end.

(** The index is a [uint]; a transaction's logs are far fewer than 2^64. *)
Definition AddLog (log : Log) (s : StateDB W) : StateDB W :=
  let s := append addLogChange s in
  let cfg := txConfig s in
  with_logs (logs s ++
    [mkLog (log_Address log) (log_Topics log) (log_Data log) (log_BlockNumber log) (TxHash cfg) (BlockHash cfg)
       (TxIndex cfg) (u64_add (LogIndex cfg) (Z.of_nat (length (logs s))))]) s.

Definition AddRefund (gas : Z) (s : StateDB W) : StateDB W :=
  let s := append (refundChange (refund s)) s in
  with_refund (u64_add (refund s) gas) s.

Definition SubRefund (gas : Z) (s : StateDB W) : res (StateDB W) :=
  let s := append (refundChange (refund s)) s in
  if refund s <? gas then Panic else Ok (with_refund (u64_sub (refund s) gas) s).

Definition AddAddressToAccessList (addr : Address) (s : StateDB W) : StateDB W :=
  let '(changed, al) := AddAddress (access s) addr in
  let s := with_access al s in
  if changed then append (accessListAddAccountChange addr) s else s.

Definition AddSlotToAccessList (addr : Address) (slot : Hash) (s : StateDB W) : res (StateDB W) :=
  '(addrMod, slotMod, al) ← AddSlot (access s) addr slot;
  let s := with_access al s in
  let s := if addrMod : bool then append (accessListAddAccountChange addr) s else s in
  Ok (if slotMod : bool then append (accessListAddSlotChange addr slot) s else s).

Fixpoint add_slots (addr : Address) (keys : list Hash) (s : StateDB W) : res (StateDB W) :=
  match keys with
  | [] => Ok s
  | key :: rest => s ← AddSlotToAccessList addr key s; add_slots addr rest s
  end.

Fixpoint add_tuples (l : list (Address * list Hash)) (s : StateDB W) : res (StateDB W) :=
  match l with
  | [] => Ok s
  | (addr, keys) :: rest => s ← add_slots addr keys (AddAddressToAccessList addr s); add_tuples rest s
  end.

Definition PrepareAccessList (sender : Address) (dst : option Address) (precompiles : list Address)
    (l : list (Address * list Hash)) (s : StateDB W) : res (StateDB W) :=
  let s := AddAddressToAccessList sender s in
  let s := match dst with Some dst => AddAddressToAccessList dst s | None => s end in
  let s := foldl (fun s addr => AddAddressToAccessList addr s) s precompiles in
  add_tuples l s.

(** ** The multi store of precompile calls *)

Definition GetCacheContext (s : StateDB W) : W * StateDB W :=
  match cache s with
  | Some c => (c, s)
  | None => (ctx s, with_cache (Some (ctx s)) s)
  end.

Definition MultiStoreSnapshot (s : StateDB W) : W * StateDB W := GetCacheContext s.

Definition RevertMultiStore (cms : W) (s : StateDB W) : StateDB W := with_cache (Some cms) s.

Definition MaxPrecompileCalls : Z := 7.

Definition AddPrecompileFn (addr : Address) (cms : W) (s : StateDB W) : res unit * StateDB W :=
  let '(_, s) := getOrNewStateObject addr s in
  let s := append (precompileCallChange cms) s in
  let s := with_calls ((precompileCallsCounter s + 1) mod 2 ^ 8) s in
  if MaxPrecompileCalls <? precompileCallsCounter s then
    (Err (ErrText "max calls to precompiles reached"), s)
  else (Ok tt, s).

(** ** Snapshots *)

Definition Snapshot (s : StateDB W) : Z * StateDB W :=
  let id := nextRevisionID s in
  (id, with_revisions (validRevisions s ++ [mkRevision id (journal_length (db_journal s))])
         (nextRevisionID s + 1) s).

(** [JournalEntry.Revert]; a nil object and an index out of range panic. *)
Definition on_object (addr : Address) (f : stateObject -> stateObject) (s : StateDB W)
    : res (StateDB W) :=
  let '(o, s) := getStateObject addr s in
  match o with Some o => Ok (setStateObject (f o) s) | None => Panic end.

Definition revert_entry (e : JournalEntry W) (s : StateDB W) : res (StateDB W) :=
  match e with
  | createObjectChange addr => Ok (with_objects (delete addr (stateObjects s)) s)
  | resetObjectChange prev => Ok (setStateObject prev s)
  | suicideChange addr prev prevbalance =>
      let '(o, s) := getStateObject addr s in
      Ok match o with
         | Some o => setStateObject (setBalance prevbalance (setSuicided prev o)) s
         | None => s
         end
  | balanceChange addr prev => on_object addr (setBalance prev) s
  | nonceChange addr prev => on_object addr (setNonce prev) s
  | codeChange addr prevcode prevhash => on_object addr (setCode prevhash prevcode) s
  | storageChange addr key prevalue => on_object addr (setState key prevalue) s
  | refundChange prev => Ok (with_refund prev s)
  | addLogChange =>
      if bool_decide (logs s = []) then Panic
      else Ok (with_logs (take (length (logs s) - 1) (logs s)) s)
  | accessListAddAccountChange addr => Ok (with_access (DeleteAddress (access s) addr) s)
  | accessListAddSlotChange addr slot => al ← DeleteSlot (access s) addr slot; Ok (with_access al s)
  | precompileCallChange cms => Ok (RevertMultiStore cms s)
  end.

(** The loop of [journal.Revert] over the entries above the snapshot, with the
    dirty tracking of each dropped. *)
Fixpoint revert_loop (es : list (JournalEntry W)) (s : StateDB W) : res (StateDB W) :=
  match es with
  | [] => Ok s
  | e :: rest =>
      s ← revert_entry e s;
      let j := db_journal s in
      revert_loop rest (with_journal (mkJournal (entries j) (undirty e (dirties j))) s)
  end.

(** [journal.Revert]: [j.entries[:snapshot]] keeps the oldest ones. *)
Definition journal_Revert (snapshot : nat) (s : StateDB W) : res (StateDB W) :=
  let es := entries (db_journal s) in
  let n := (length es - snapshot)%nat in
  s ← revert_loop (take n es) s;
  if bool_decide (length es < snapshot)%nat then Panic
  else Ok (with_journal (mkJournal (drop n es) (dirties (db_journal s))) s).

(** [sort.Search] finds the first revision from [revid] on. *)
Definition RevertToSnapshot (revid : Z) (s : StateDB W) : res (StateDB W) :=
  match list_find (fun r => revid <= rev_id r) (validRevisions s) with
  | None => Panic
  | Some (idx, r) =>
      if negb (rev_id r =? revid) then Panic
      else
        s ← journal_Revert (rev_journalIndex r) s;
        Ok (with_revisions (take idx (validRevisions s)) (nextRevisionID s) s)
  end.

(** ** Commit *)

Definition commit_object (obj : stateObject) : M W unit :=
  if suicided obj then keeper_DeleteAccount (address obj)
  else
    mmodify (fun w => if bool_decide (code obj <> None) && dirtyCode obj
                      then keeper_SetCode (CodeHash (account obj)) (code obj) w else w);;
    keeper_SetAccount (address obj) (account obj);;
    mmodify (fun w => foldl (fun w key =>
               keeper_SetState (address obj) key (dirtyStorage obj !! key) w) w
               (SortedKeys (dirtyStorage obj))).

Fixpoint commit_loop (m : gmap Address stateObject) (addrs : list Address) : M W unit :=
  match addrs with
  | [] => mret tt
  | addr :: rest =>
      match m !! addr with
      | None => mlift Panic
      | Some obj => commit_object obj;; commit_loop m rest
      end
  end.

Definition commitWithCtx (s : StateDB W) : M W unit :=
  commit_loop (stateObjects s) (sortedDirties (db_journal s)).

Definition Commit (s : StateDB W) : res unit * StateDB W :=
  let c := default (ctx s) (cache s) in
  let '(r, c) := commitWithCtx s c in
  (r, mkStateDB c (cache s) (db_journal s) (validRevisions s) (nextRevisionID s) (stateObjects s)
        (txConfig s) (refund s) (logs s) (access s) (precompileCallsCounter s)).

(** Without a cache the context is empty and has no store. *)
Definition CommitWithCacheCtx (s : StateDB W) : res unit * StateDB W :=
  match cache s with
  | None => (Panic, s)
  | Some c => let '(r, c) := commitWithCtx s c in (r, with_cache (Some c) s)
  end.
End db.
