(* ===== verification/Precompile.v ===== *)
(** * precompiles/common/precompile.go and the [Run] of a stateful precompile

    How a precompiled contract works on the StateDB: [RunSetup] commits the
    journalled state to the cached store and selects the method, [RunAtomic]
    runs it and restores the store on an error, [AddJournalEntries] records the call in
    the journal.  The ABI is a parameter, and so is the body of the method: a
    function of the cached store that returns the balance changes and the logs
    to mirror in the StateDB.  Gas is kept as far as it decides an error. *)

From S2P Require Import Prelude.
From S2P Require Import AccessList.
From S2P Require Import StateDB.

Local Open Scope Z_scope.

Inductive Operation := Sub | Add.

Record balanceChangeEntry := NewBalanceChangeEntry {
  bce_Account : Address;
  bce_Amount : Z;
  bce_Op : Operation
}.

Inductive FunctionType := Constructor | Fallback | Receive | Function.

(** go-ethereum's [abi.Method] and [abi.ABI]. *)
Record Method := mkMethod {
  method_Name : string;
  method_Type : FunctionType;
  (** [Inputs.Unpack] accepts the argument bytes *)
  method_Unpacks : string -> bool
}.

Record ABI := mkABI {
  abi_Receive : option Method;
  abi_Fallback : option Method;
  MethodById : string -> option Method
}.

(** What [Run] reads of [vm.Contract]. *)
Record Contract := mkContract { Input : string; Value : Z; Gas : Z }.

Definition ErrExecutionReverted : err := ErrText "execution reverted".
Definition ErrWriteProtection : err := ErrText "write protection".
Definition ErrOutOfGas : err := ErrText "out of gas".

Definition emptyCallData (p : ABI) (c : Contract) : res Method :=
  match abi_Receive p, abi_Fallback p with
  | Some m, _ => if 0 <? Value c then Ok m
                 else match abi_Fallback p with Some f => Ok f | None => Err ErrExecutionReverted end
  | None, Some f => Ok f
  | None, None => Err ErrExecutionReverted
  end.

Definition methodIDCallData (p : ABI) : res Method :=
  match abi_Fallback p with Some f => Ok f | None => Err ErrExecutionReverted end.

Definition standardCallData (p : ABI) (c : Contract) : res Method :=
  match MethodById p (String.substring 0 4 (Input c)), abi_Fallback p with
  | Some m, _ => Ok m
  | None, Some f => Ok f
  | None, None => Err (ErrExternal "no method with id")
  end.

Definition argument_bytes (s : string) : string := String.substring 4 (String.length s - 4) s.

(** The checks of [RunSetup] between the commit and the gas meter. *)
Definition select_method (p : ABI) (c : Contract) (readOnly : bool) (isTransaction : string -> bool)
    : res Method :=
  let len := String.length (Input c) in
  method ← (if bool_decide (len = 0)%nat then emptyCallData p c
            else if bool_decide (len < 4)%nat then methodIDCallData p
            else standardCallData p c);
  if readOnly && isTransaction (method_Name method) then Err ErrWriteProtection
  else
    match method_Type method with
    | Function =>
        if method_Unpacks method (argument_bytes (Input c)) then Ok method
        else Err (ErrExternal "abi: cannot unmarshal")
    | _ => Ok method
    end.

Section precompiles.
Context {W : Type} `{StateKeeper W, Keccak}.

Definition RunSetup (p : ABI) (c : Contract) (readOnly : bool) (isTransaction : string -> bool)
    (initialGas : Z) : M (StateDB W) (W * Method) := fun s =>
  let '(_, s) := GetCacheContext s in
  let '(snapshot, s) := MultiStoreSnapshot s in
  match CommitWithCacheCtx s with
  | (Err e, s) => (Err e, s)
  | (Panic, s) => (Panic, s)
  | (Ok _, s) =>
      match select_method p c readOnly isTransaction with
      | Err e => (Err e, s)
      | Panic => (Panic, s)
      | Ok method =>
          (* the EVM's gas on the new meter: [HandleGasError] on an overrun *)
          if Gas c <? initialGas then (Err ErrOutOfGas, RevertMultiStore snapshot s)
          else (Ok (snapshot, method), s)
      end
  end.

Definition RunAtomic (snapshot : W) (fn : M (StateDB W) unit) : M (StateDB W) unit := fun s =>
  match fn s with
  | (Err e, s) => (Err e, RevertMultiStore snapshot s)
  | r => r
  end.

Definition add_balance_change (s : StateDB W) (entry : balanceChangeEntry) : StateDB W :=
  match bce_Op entry with
  | Sub => SubBalance (bce_Account entry) (bce_Amount entry) s
  | Add => AddBalance (bce_Account entry) (bce_Amount entry) s
  end.

Definition AddJournalEntries (addr : Address) (journalEntries : list balanceChangeEntry)
    (snapshot : W) : M (StateDB W) unit := fun s =>
  AddPrecompileFn addr snapshot (foldl add_balance_change s journalEntries).

(** The store effect of a method, with the balance changes, the logs and
    whether the gas of the contract covers the cost. *)
Record effect := mkEffect {
  ef_changes : list balanceChangeEntry;
  ef_logs : list Log;
  ef_gas_ok : bool
}.

(** The method's body on the cached store. *)
Definition run_method (method : M W effect) : M (StateDB W) effect := fun s =>
  match cache s with
  | None => (Panic, s)
  | Some c => let '(r, c) := method c in (r, with_cache (Some c) s)
  end.

Definition precompile_body (addr : Address) (snapshot : W) (method : M W effect)
    : M (StateDB W) unit :=
  ef ← run_method method;
  mmodify (fun s => foldl (fun s l => AddLog l s) s (ef_logs ef));;
  if ef_gas_ok ef then AddJournalEntries addr (ef_changes ef) snapshot else mraise ErrOutOfGas.

(** [Run] of a stateful precompile at [addr]. *)
Definition Run (addr : Address) (p : ABI) (c : Contract) (readOnly : bool)
    (isTransaction : string -> bool) (initialGas : Z) (methods : Method -> M W effect)
    : M (StateDB W) unit :=
  '(snapshot, method) ← RunSetup p c readOnly isTransaction initialGas;
  RunAtomic snapshot (precompile_body addr snapshot (methods method)).
End precompiles.
