(* ===== verification/StateRevert.v ===== *)
(** * Snapshots of the StateDB

    [below s t]: [t] answers every question as [s] does, and may have loaded more.
    [back]: undoing a list of journal entries leads from one state back to
    another.  Every operation is undone by the entries it appends ([ext]), and
    so [RevertToSnapshot] gives back the state of the snapshot whatever happened
    since. *)

From S2P Require Import Prelude.
From S2P Require Import AccessList.
From S2P Require Import StateDB.
From S2P Require Import Precompile.

Local Open Scope Z_scope.

Create HintDb statedb.

(** Whether the store of the precompiles takes part in what a revert restores.
    The setup of a precompile call commits the journalled state to that store before
    it checks the call, and a call it refuses leaves no journal entry: the store is
    restored only where no call was refused. *)
Class StoreWatch := store_watched : Prop.

Section revert.
Context {W : Type} `{StateKeeper W, Keccak} {watch : StoreWatch}.
Implicit Types s t : StateDB W.
Implicit Types o : stateObject.
Implicit Types es : list (JournalEntry W).

(** ** What a state answers *)

Definition lookup_obj (s : StateDB W) (a : Address) : option stateObject := fst (getStateObject a s).

(** The values the object's readers return. *)
Definition code_val (c : W) (o : stateObject) : Code :=
  match code o with
  | Some x => Some x
  | None => if bool_decide (CodeHash (account o) = emptyCodeHash) then None
            else keeper_GetCode (CodeHash (account o)) c
  end.
Definition committed_val (c : W) (k : Hash) (o : stateObject) : Hash :=
  default (keeper_GetState (address o) k c) (originStorage o !! k).
Definition state_val (c : W) (k : Hash) (o : stateObject) : Hash :=
  default (committed_val c k o) (dirtyStorage o !! k).

Lemma object_Code_val c o : fst (object_Code c o) = code_val c o.
Proof. unfold object_Code, code_val. destruct (code o); [done|]. by case_bool_decide. Qed.
Lemma object_GetCommittedState_val c k o :
  fst (object_GetCommittedState c k o) = committed_val c k o.
Proof. unfold object_GetCommittedState, committed_val. by destruct (originStorage o !! k). Qed.
Lemma object_GetState_val c k o : fst (object_GetState c k o) = state_val c k o.
Proof.
  unfold object_GetState, state_val. destruct (dirtyStorage o !! k); [done|].
  apply object_GetCommittedState_val.
Qed.

(** Two objects with the same fields and the same answers over the store [c]. *)
Record obj_eq (c : W) (o o' : stateObject) : Prop := {
  oe_address : address o = address o';
  oe_account : account o = account o';
  oe_suicided : suicided o = suicided o';
  oe_code : code_val c o = code_val c o';
  oe_committed k : committed_val c k o = committed_val c k o';
  oe_state k : state_val c k o = state_val c k o'
}.

#[local] Instance obj_eq_equiv c : Equivalence (obj_eq c).
Proof.
  split.
  - intros o. by constructor.
  - intros o o' [? ? ? ? Hc Hs]. constructor; eauto.
  - intros o1 o2 o3 [? ? ? ? Hc Hs] [? ? ? ? Hc' Hs']. constructor; congruence.
Qed.

(** The store that precompiles see and that a commit starts from. *)
Definition cache_view (s : StateDB W) : W := default (ctx s) (cache s).

Record below (s t : StateDB W) : Prop := {
  be_ctx : ctx t = ctx s;
  be_cache : store_watched -> cache_view t = cache_view s;
  be_refund : refund t = refund s;
  be_logs : logs t = logs s;
  be_access : access t = access s;
  be_config : txConfig t = txConfig s;
  be_obj a : option_Forall2 (obj_eq (ctx s)) (lookup_obj s a) (lookup_obj t a);
  be_dom a : is_Some (stateObjects s !! a) -> is_Some (stateObjects t !! a)
}.

Lemma option_forall2_refl c (x : option stateObject) : option_Forall2 (obj_eq c) x x.
Proof. destruct x; constructor. reflexivity. Qed.

#[local] Instance below_preorder : PreOrder below.
Proof.
  split.
  - intros s. constructor; auto using option_forall2_refl.
  - intros s t u [? Hc ? ? ? ? Ho Hd] [? Hc' ? ? ? ? Ho' Hd']. constructor; try congruence; auto.
    { intros Hw. by rewrite Hc', Hc. }
    intros a. specialize (Ho a). specialize (Ho' a). replace (ctx t) with (ctx s) in Ho' by auto.
    inversion Ho as [o1 o2 He E1 E2|E1 E2]; inversion Ho' as [o3 o4 He' E3 E4|E3 E4];
      rewrite <- E2 in *; simplify_eq; constructor. by etransitivity.
Qed.

(** ** Loading and storing objects *)

Lemma lookup_set o s a :
  lookup_obj (setStateObject o s) a = if decide (address o = a) then Some o else lookup_obj s a.
Proof.
  unfold lookup_obj, getStateObject. simpl. case_decide as E.
  - by rewrite E, lookup_insert_eq.
  - rewrite lookup_insert_ne by done. destruct (stateObjects s !! a); [done|].
    by destruct (keeper_GetAccount a (ctx s)).
Qed.

Definition keyed (s : StateDB W) : Prop := forall a o, stateObjects s !! a = Some o -> address o = a.

Lemma lookup_address s a o : keyed s -> lookup_obj s a = Some o -> address o = a.
Proof.
  unfold lookup_obj, getStateObject. intros K. destruct (stateObjects s !! a) as [o'|] eqn:E; simpl.
  - intros [= <-]. by apply K.
  - destruct (keeper_GetAccount a (ctx s)); simpl; [|done]. by intros [= <-].
Qed.

Lemma with_objects_id s : with_objects (stateObjects s) s = s.
Proof. by destruct s. Qed.

(** Loading is writing the object that is looked up. *)
Lemma getStateObject_eq a s : keyed s ->
  getStateObject a s =
    (lookup_obj s a, match lookup_obj s a with Some o => setStateObject o s | None => s end).
Proof.
  intros K. unfold lookup_obj, getStateObject. destruct (stateObjects s !! a) as [o|] eqn:E; simpl.
  - f_equal. unfold setStateObject. rewrite insert_id by (by rewrite (K _ _ E)).
    by rewrite with_objects_id.
  - by destruct (keeper_GetAccount a (ctx s)).
Qed.

Lemma setStateObject_twice o o' s : address o = address o' ->
  setStateObject o (setStateObject o' s) = setStateObject o s.
Proof. intros E. unfold setStateObject. simpl. by rewrite E, insert_insert_eq. Qed.

Lemma on_object_eq a f s : keyed s -> (forall o, address (f o) = address o) ->
  on_object a f s = match lookup_obj s a with Some o => Ok (setStateObject (f o) s) | None => Panic end.
Proof.
  intros K Hf. unfold on_object. rewrite getStateObject_eq by done.
  destruct (lookup_obj s a); [|done]. by rewrite setStateObject_twice.
Qed.

Lemma below_set o o' s t :
  below s t -> obj_eq (ctx s) o o' -> below (setStateObject o s) (setStateObject o' t).
Proof.
  intros B E. pose proof (oe_address _ _ _ E) as Ea. destruct B. constructor; try done.
  - intros a. rewrite !lookup_set, Ea. case_decide; [by constructor|auto].
  - intros a. simpl. rewrite !lookup_insert_is_Some', Ea. intros [?|?]; auto.
Qed.

Lemma keyed_set o s : keyed s -> keyed (setStateObject o s).
Proof.
  intros K b o'. simpl. rewrite lookup_insert_Some. intros [[<- <-]|[_ Hb]]; [done|by apply K].
Qed.

(** ** The objects' setters respect [obj_eq] *)

Lemma setBalance_eq c x o o' : obj_eq c o o' -> obj_eq c (setBalance x o) (setBalance x o').
Proof. intros [Ea Ec Es Eco Ecm Est]. constructor; try done. simpl. by rewrite Ec. Qed.

Lemma setNonce_eq c x o o' : obj_eq c o o' -> obj_eq c (setNonce x o) (setNonce x o').
Proof. intros [Ea Ec Es Eco Ecm Est]. constructor; try done. simpl. by rewrite Ec. Qed.

Lemma setSuicided_eq c b o o' : obj_eq c o o' -> obj_eq c (setSuicided b o) (setSuicided b o').
Proof. intros [Ea Ec Es Eco Ecm Est]. by constructor. Qed.

Lemma setCode_eq c h x o o' : obj_eq c o o' -> obj_eq c (setCode h x o) (setCode h x o').
Proof. intros [Ea Ec Es Eco Ecm Est]. constructor; try done. simpl. by rewrite Ec. Qed.

Lemma setState_eq c k v o o' : obj_eq c o o' -> obj_eq c (setState k v o) (setState k v o').
Proof.
  intros [Ea Ec Es Eco Ecm Est]. constructor; try done.
  intros k'. specialize (Est k'). specialize (Ecm k'). unfold state_val in *. simpl.
  destruct (decide (k = k')) as [->|N]; [by rewrite !lookup_insert_eq|].
  by rewrite !lookup_insert_ne.
Qed.

#[local] Hint Resolve setBalance_eq setNonce_eq setSuicided_eq setCode_eq setState_eq : statedb.

(** ** Undoing one entry *)

Lemma below_lookup s t a o : below s t -> lookup_obj s a = Some o ->
  exists o', lookup_obj t a = Some o' /\ obj_eq (ctx s) o o'.
Proof.
  intros B E. pose proof (be_obj _ _ B a) as F. rewrite E in F. inversion F as [? o' He|]; subst. eauto.
Qed.

Lemma below_none s t a : below s t -> lookup_obj s a = None -> lookup_obj t a = None.
Proof. intros B E. pose proof (be_obj _ _ B a) as F. rewrite E in F. by inversion F. Qed.

(** Writing what is looked up changes no answer. *)
Lemma below_load s a o : keyed s -> lookup_obj s a = Some o -> below s (setStateObject o s).
Proof.
  intros K E. pose proof (lookup_address _ _ _ K E) as Ea. constructor; try done.
  - intros b. rewrite lookup_set. case_decide as D; [|by apply option_forall2_refl].
    rewrite <- D, Ea, E. by apply option_forall2_refl.
  - intros b Hb. simpl. rewrite lookup_insert_is_Some'. auto.
Qed.

Lemma on_object_sim a f s t s1 :
  below s t -> keyed s -> keyed t ->
  (forall o, address (f o) = address o) ->
  (forall o o', obj_eq (ctx s) o o' -> obj_eq (ctx s) (f o) (f o')) ->
  on_object a f s = Ok s1 -> exists t1, on_object a f t = Ok t1 /\ below s1 t1.
Proof.
  intros B Ks Kt Ha Hf. rewrite !on_object_eq by done.
  destruct (lookup_obj s a) as [o|] eqn:E; [|done]. intros [= <-].
  destruct (below_lookup _ _ _ _ B E) as (o' & -> & Eo). eexists. split; [done|].
  apply below_set; auto.
Qed.

(** A change of the other fields on both sides. *)
Lemma below_fields s t s1 t1 :
  below s t -> ctx s1 = ctx s -> ctx t1 = ctx t ->
  stateObjects s1 = stateObjects s -> stateObjects t1 = stateObjects t ->
  txConfig s1 = txConfig s -> txConfig t1 = txConfig t ->
  (store_watched -> cache_view t1 = cache_view s1) -> refund t1 = refund s1 -> logs t1 = logs s1 ->
  access t1 = access s1 -> below s1 t1.
Proof.
  intros B C1 C2 O1 O2 T1 T2 Hc Hr Hl Ha.
  assert (L1 : forall a, lookup_obj s1 a = lookup_obj s a).
  { intros a. unfold lookup_obj, getStateObject. rewrite O1, C1.
    destruct (stateObjects s !! a); [done|]. by destruct (keeper_GetAccount a (ctx s)). }
  assert (L2 : forall a, lookup_obj t1 a = lookup_obj t a).
  { intros a. unfold lookup_obj, getStateObject. rewrite O2, C2.
    destruct (stateObjects t !! a); [done|]. by destruct (keeper_GetAccount a (ctx t)). }
  destruct B. constructor; try (exact Hc || congruence).
  - intros a. rewrite L1, L2, C1. apply be_obj0.
  - intros a. rewrite O1, O2. apply be_dom0.
Qed.

Lemma lookup_delete_obj s a b :
  lookup_obj (with_objects (delete a (stateObjects s)) s) b
  = if decide (a = b) then newObject b <$> keeper_GetAccount b (ctx s) else lookup_obj s b.
Proof.
  unfold lookup_obj, getStateObject. simpl. case_decide as D.
  - subst. rewrite lookup_delete_eq. by destruct (keeper_GetAccount b (ctx s)).
  - rewrite lookup_delete_ne by done. destruct (stateObjects s !! b); [done|].
    by destruct (keeper_GetAccount b (ctx s)).
Qed.

Lemma revert_entry_keyed e s s1 : keyed s -> revert_entry e s = Ok s1 -> keyed s1.
Proof.
  intros K. destruct e as [a|prev|a p b|a p|a p|a k p|a c h|r| |a|a k|w]; simpl; try (rewrite on_object_eq by done;
    destruct (lookup_obj s a); [|done]; intros [= <-]; by apply keyed_set).
  - intros [= <-] b o. simpl. rewrite lookup_delete_Some. intros [_ E]. by apply K.
  - intros [= <-]. by apply keyed_set.
  - rewrite getStateObject_eq by done. destruct (lookup_obj s a); intros [= <-]; [|done].
    by do 2 apply keyed_set.
  - by intros [= <-].
  - case_bool_decide; [done|]. by intros [= <-].
  - by intros [= <-].
  - destruct (DeleteSlot _ _ _); simpl; try done. by intros [= <-].
  - by intros [= <-].
Qed.

Lemma revert_entry_sim e s t s1 :
  below s t -> keyed s -> keyed t -> revert_entry e s = Ok s1 ->
  exists t1, revert_entry e t = Ok t1 /\ below s1 t1.
Proof.
  intros B Ks Kt. destruct e as [a|prev|a p b|a p|a p|a k p|a c h|r| |a|a k|w]; simpl;
    try (apply on_object_sim; auto with statedb; fail).
  - intros [= <-]. eexists. split; [done|]. destruct B. constructor; try done.
    + intros b. rewrite !lookup_delete_obj. case_decide; [|auto].
      rewrite be_ctx0. apply option_forall2_refl.
    + intros b. simpl. destruct (decide (a = b)) as [->|N].
      * rewrite lookup_delete_eq. by intros [? ?].
      * rewrite !lookup_delete_ne by done. auto.
  - intros [= <-]. eexists. split; [done|]. by apply below_set.
  - rewrite !getStateObject_eq by done. destruct (lookup_obj s a) as [o|] eqn:E.
    + destruct (below_lookup _ _ _ _ B E) as (o' & -> & Eo). intros [= <-]. eexists. split; [done|].
      rewrite !setStateObject_twice by done. apply below_set; auto with statedb.
    + rewrite (below_none _ _ _ B E). intros [= <-]. eauto.
  - intros [= <-]. eexists. split; [done|]. apply (below_fields s t); done || apply B.
  - rewrite (be_logs _ _ B). case_bool_decide; [done|]. intros [= <-]. eexists. split; [done|].
    apply (below_fields s t); done || apply B.
  - intros [= <-]. eexists. split; [done|]. rewrite (be_access _ _ B). apply (below_fields s t); done || apply B.
  - rewrite (be_access _ _ B). destruct (DeleteSlot _ _ _); try done. intros [= <-].
    eexists. split; [done|]. apply (below_fields s t); done || apply B.
  - intros [= <-]. eexists. split; [done|]. apply (below_fields s t); done || apply B.
Qed.

(** ** Undoing several entries *)

(** The access list is well formed and every account an entry has dirtied is live. *)
Definition level (es : list (JournalEntry W)) (s : StateDB W) : Prop :=
  al_ok (access s) /\ keyed s /\
  forall e a, e ∈ es -> Dirtied e = Some a -> is_Some (stateObjects s !! a).

(** The entries can be undone one after the other. *)
Fixpoint winds (es : list (JournalEntry W)) (s : StateDB W) : Prop :=
  level es s /\
  match es with
  | [] => True
  | e :: rest => exists s1, revert_entry e s = Ok s1 /\ winds rest s1
  end.

(** Undoing [es], on top of the entries [base], leads from [s'] back to [s]. *)
Fixpoint back (base es : list (JournalEntry W)) (s' s : StateDB W) : Prop :=
  match es with
  | [] => below s s' /\ keyed s'
  | e :: rest =>
      level (e :: rest ++ base) s' /\
      exists s1, revert_entry e s' = Ok s1 /\ back base rest s1 s
  end.

Lemma level_mono es s t : below s t -> keyed t -> level es s -> level es t.
Proof.
  intros B K (Ha & _ & Hd). split_and!; [by rewrite (be_access _ _ B)|done|].
  intros e a He Ea. eapply be_dom; eauto.
Qed.

Lemma winds_level es s : winds es s -> level es s.
Proof. by destruct es; intros [? _]. Qed.

Lemma winds_mono es s t : below s t -> keyed t -> winds es s -> winds es t.
Proof.
  revert s t. induction es as [|e es IH]; intros s t B K [L R]; (split; [exact (level_mono _ _ _ B K L)|]);
    [done|].
  destruct R as (s1 & E & R). pose proof L as (_ & Ks & _).
  destruct (revert_entry_sim _ _ _ _ B Ks K E) as (t1 & Et & B1). exists t1. split; [done|].
  eapply IH; [done| |done]. exact (revert_entry_keyed _ _ _ K Et).
Qed.

Lemma back_mono base es s1 t s : below s1 t -> keyed t -> back base es s1 s -> back base es t s.
Proof.
  revert s1 t. induction es as [|e es IH]; intros s1 t B K; simpl.
  - intros [B' _]. split; [by etransitivity|done].
  - intros [L (s2 & E & R)]. split; [exact (level_mono _ _ _ B K L)|]. pose proof L as (_ & Ks & _).
    destruct (revert_entry_sim _ _ _ _ B Ks K E) as (t1 & Et & B1). exists t1. split; [done|].
    eapply IH; [done| |done]. exact (revert_entry_keyed _ _ _ K Et).
Qed.

Lemma winds_back base es s' s : winds base s -> back base es s' s -> winds (es ++ base) s'.
Proof.
  intros Hw. revert s'. induction es as [|e es IH]; intros s'; simpl.
  - intros [B K]. by eapply winds_mono.
  - intros [L (s1 & E & R)]. eauto.
Qed.

Lemma back_app base es1 es2 s2 s1 s :
  back base es1 s1 s -> back (es1 ++ base) es2 s2 s1 -> back base (es2 ++ es1) s2 s.
Proof.
  intros H1. revert s2. induction es2 as [|e es2 IH]; intros s2; simpl.
  - intros [B K]. by eapply back_mono.
  - rewrite app_assoc. intros [L (s3 & E & R)]. eauto.
Qed.

(** ** Extensions of the journal *)

Definition journal_entries (s : StateDB W) : list (JournalEntry W) := entries (db_journal s).

(** The dirty counts of a list of entries. *)
Fixpoint dirty_map (es : list (JournalEntry W)) : gmap Address Z :=
  match es with
  | [] => ∅
  | e :: rest => dirties (journal_append e (mkJournal rest (dirty_map rest)))
  end.

Definition dirties_ok (s : StateDB W) : Prop := dirties (db_journal s) = dirty_map (journal_entries s).

(** [s'] is [s] with more entries, which undo what happened. *)
Record ext (s s' : StateDB W) : Prop := {
  ext_back : exists es, journal_entries s' = es ++ journal_entries s /\
    back (journal_entries s) es s' s;
  ext_dirties : dirties_ok s -> dirties_ok s';
  ext_revisions : validRevisions s' = validRevisions s;
  ext_next : nextRevisionID s' = nextRevisionID s
}.

Lemma ext_below s s' : below s s' -> keyed s' -> db_journal s' = db_journal s ->
  validRevisions s' = validRevisions s -> nextRevisionID s' = nextRevisionID s -> ext s s'.
Proof.
  intros B K J R N. constructor; [|unfold dirties_ok, journal_entries; by rewrite J|done|done].
  exists []. split; [unfold journal_entries; by rewrite J|done].
Qed.

Lemma ext_trans s1 s2 s3 : ext s1 s2 -> ext s2 s3 -> ext s1 s3.
Proof.
  intros [(es1 & E1 & B1) D1 R1 N1] [(es2 & E2 & B2) D2 R2 N2]. constructor; try congruence; auto.
  exists (es2 ++ es1). split; [by rewrite E2, E1, app_assoc|].
  eapply back_app; [done|]. by rewrite <- E1.
Qed.

Lemma ext_one e s s' s1 :
  db_journal s' = journal_append e (db_journal s) ->
  validRevisions s' = validRevisions s -> nextRevisionID s' = nextRevisionID s ->
  level (e :: journal_entries s) s' -> revert_entry e s' = Ok s1 -> below s s1 -> ext s s'.
Proof.
  intros J R N L E B. constructor; try done.
  - exists [e]. split; [unfold journal_entries; by rewrite J|]. simpl. split; [done|].
    exists s1. split; [done|]. split; [done|]. eapply revert_entry_keyed; [|done]. apply L.
  - unfold dirties_ok, journal_entries. rewrite J. simpl. intros D. by rewrite D.
Qed.

Lemma ext_winds s s' : winds (journal_entries s) s -> ext s s' -> winds (journal_entries s') s'.
Proof. intros Hw [(es & -> & B) _ _ _]. by eapply winds_back. Qed.

(** ** The operations extend the journal *)

Definition good (s : StateDB W) : Prop := winds (journal_entries s) s.

Lemma good_ext s s' : good s -> ext s s' -> good s'.
Proof. apply ext_winds. Qed.

Lemma good_keyed s : good s -> keyed s.
Proof. intros G. apply winds_level in G. apply G. Qed.

Lemma good_al s : good s -> al_ok (access s).
Proof. intros G. apply winds_level in G. apply G. Qed.

Lemma ext_refl s : good s -> ext s s.
Proof. intros G. apply ext_below; try done. by apply good_keyed. Qed.

Lemma live_lookup s a o : stateObjects s !! a = Some o -> lookup_obj s a = Some o.
Proof. unfold lookup_obj, getStateObject. by intros ->. Qed.

Lemma load_ext a s r s' : good s -> getStateObject a s = (r, s') ->
  ext s s' /\ r = lookup_obj s a /\ ctx s' = ctx s /\
  (forall o, r = Some o -> stateObjects s' !! a = Some o /\ address o = a) /\
  (r = None -> s' = s /\ stateObjects s !! a = None).
Proof.
  intros G E. pose proof (good_keyed _ G) as K. rewrite getStateObject_eq in E by done.
  simplify_eq. destruct (lookup_obj s a) as [o|] eqn:Eo.
  - pose proof (lookup_address _ _ _ K Eo) as Ea. split_and!; try done.
    + apply ext_below; try done; [by eapply below_load|by apply keyed_set].
    + intros o' [= <-]. simpl. by rewrite Ea, lookup_insert_eq.
  - split_and!; try done; [by apply ext_refl|]. intros _. split; [done|].
    unfold lookup_obj, getStateObject in Eo. by destruct (stateObjects s !! a).
Qed.

(** Dirtied accounts stay live when an object is written at [a]. *)
Lemma level_set e s o :
  good s -> Dirtied e = Some (address o) \/ Dirtied e = None ->
  level (e :: journal_entries s) (setStateObject o (append e s)).
Proof.
  intros G D. pose proof (winds_level _ _ G) as (Ha & K & Hd). split_and!; [done| |].
  - by apply keyed_set.
  - intros e' a He Ea. simpl. rewrite lookup_insert_is_Some'. apply elem_of_cons in He as [->|He].
    + destruct D as [D|D]; [left; congruence|congruence].
    + right. by eapply Hd.
Qed.

Lemma lookup_append e s a : lookup_obj (append e s) a = lookup_obj s a.
Proof.
  unfold lookup_obj, getStateObject. simpl. destruct (stateObjects s !! a); [done|].
  by destruct (keeper_GetAccount a (ctx s)).
Qed.

(** An object that is live in [s] changes to [o']; undoing writes [o'']. *)
Lemma object_ext e s o o' o'' :
  good s -> stateObjects s !! address o = Some o -> address o' = address o ->
  Dirtied e = Some (address o) \/ Dirtied e = None ->
  revert_entry e (setStateObject o' (append e s)) =
    Ok (setStateObject o'' (setStateObject o' (append e s))) ->
  obj_eq (ctx s) o o'' -> ext s (setStateObject o' (append e s)).
Proof.
  intros G Hl Ea D E Eq. eapply ext_one; [done|done|done| |exact E|].
  - apply level_set; [done|]. by rewrite Ea.
  - pose proof (oe_address _ _ _ Eq) as Ea'. rewrite setStateObject_twice by congruence.
    constructor; try done.
    + intros b. rewrite lookup_set. case_decide as C.
      * rewrite <- C, <- Ea', (live_lookup _ _ _ Hl). by constructor.
      * rewrite lookup_append. apply option_forall2_refl.
    + intros b Hb. simpl. rewrite lookup_insert_is_Some'. auto.
Qed.

(** The common case: the entry's undo is a setter of the object. *)
Lemma setter_ext e f s o o' :
  good s -> stateObjects s !! address o = Some o -> address o' = address o ->
  Dirtied e = Some (address o) ->
  (forall t, revert_entry e t = on_object (address o) f t) -> (forall x, address (f x) = address x) ->
  obj_eq (ctx s) o (f o') -> ext s (setStateObject o' (append e s)).
Proof.
  intros G Hl Ea D R Hf Eq. apply (object_ext e s o o' (f o')); auto.
  rewrite R. assert (K : keyed (setStateObject o' (append e s))).
  { apply keyed_set. by apply (good_keyed s). }
  rewrite on_object_eq by done. rewrite lookup_set, decide_True by done. done.
Qed.

Lemma setStateObject_set_append o o' e s : address o = address o' ->
  setStateObject o (append e (setStateObject o' s)) = setStateObject o (append e s).
Proof. intros E. unfold setStateObject, append. simpl. by rewrite E, insert_insert_eq. Qed.

Lemma create_ext a s newobj prev s' : good s -> createObject a s = (newobj, prev, s') ->
  ext s s' /\ newobj = newObject a NewEmptyAccount /\ stateObjects s' !! a = Some newobj.
Proof.
  intros G. unfold createObject. destruct (getStateObject a s) as [r s1] eqn:Eg.
  destruct (load_ext _ _ _ _ G Eg) as (X & _ & _ & Hs & Hn). intros [= <- <- <-].
  split_and!; [|done|simpl; by rewrite lookup_insert_eq]. destruct r as [o|].
  - destruct (Hs _ eq_refl) as [Hl Ha]. eapply ext_trans; [exact X|]. pose proof (good_ext _ _ G X).
    apply (object_ext _ _ o _ o); auto; [by rewrite Ha|reflexivity].
  - destruct (Hn eq_refl) as [-> Hno]. eapply ext_one; [done|done|done| |done|].
    + apply level_set; [done|by left].
    + unfold append, setStateObject. simpl. rewrite delete_insert_id by done.
      by apply (below_fields s s).
Qed.

Lemma getOrNew_ext a s o s' : good s -> getOrNewStateObject a s = (o, s') ->
  ext s s' /\ stateObjects s' !! a = Some o /\ address o = a.
Proof.
  intros G. unfold getOrNewStateObject. destruct (getStateObject a s) as [r s1] eqn:Eg.
  destruct (load_ext _ _ _ _ G Eg) as (X & _ & _ & Hs & Hn). destruct r as [o'|].
  - intros [= <- <-]. split; [done|]. by apply Hs.
  - destruct (createObject a s1) as [[n p] s2] eqn:Ec. intros [= <- <-].
    pose proof (good_ext _ _ G X) as G1. destruct (create_ext _ _ _ _ _ G1 Ec) as (X2 & -> & Hl).
    split_and!; [by eapply ext_trans|done|done].
Qed.

Lemma code_fields c o x o1 : object_Code c o = (x, o1) ->
  address o1 = address o /\ account o1 = account o /\ suicided o1 = suicided o /\
  originStorage o1 = originStorage o /\ dirtyStorage o1 = dirtyStorage o /\ code_val c o = x /\
  code_val c o1 = x.
Proof.
  intros E. pose proof (object_Code_val c o) as Hv. rewrite E in Hv. simpl in Hv.
  unfold object_Code in E. destruct (code o) eqn:Ec; [injection E as <- <-; by split_and!|].
  case_bool_decide as C; injection E as <- <-; split_and!; try done.
  clear Hv. unfold code_val. simpl. destruct (keeper_GetCode _ c) eqn:Ek; [done|].
  by rewrite bool_decide_eq_false_2.
Qed.

Lemma committed_fields c k o v o1 : object_GetCommittedState c k o = (v, o1) ->
  address o1 = address o /\ account o1 = account o /\ suicided o1 = suicided o /\
  code o1 = code o /\ dirtyStorage o1 = dirtyStorage o /\ committed_val c k o = v /\
  forall k', committed_val c k' o1 = committed_val c k' o.
Proof.
  unfold object_GetCommittedState, committed_val. intros E.
  destruct (originStorage o !! k) eqn:Ec; simplify_eq; [done|]. split_and!; try done.
  intros k'. simpl. destruct (decide (k = k')) as [->|N].
  - by rewrite lookup_insert_eq, Ec.
  - by rewrite lookup_insert_ne.
Qed.

Lemma state_fields c k o v o1 : object_GetState c k o = (v, o1) ->
  address o1 = address o /\ account o1 = account o /\ suicided o1 = suicided o /\
  code o1 = code o /\ dirtyStorage o1 = dirtyStorage o /\ state_val c k o = v /\
  forall k', committed_val c k' o1 = committed_val c k' o.
Proof.
  unfold object_GetState, state_val. intros E. destruct (dirtyStorage o !! k); [by simplify_eq|].
  by apply committed_fields.
Qed.

(** The readers only load. *)
Lemma code_load_eq c o x o1 : object_Code c o = (x, o1) -> obj_eq c o o1.
Proof.
  intros E. apply code_fields in E as (Ea & Eac & Es & Eo & Ed & Ev & Ev1).
  constructor; try congruence; intros k; unfold state_val, committed_val; by rewrite ?Ed, ?Eo, ?Ea.
Qed.

Lemma code_val_fields c o o1 : account o1 = account o -> code o1 = code o ->
  code_val c o1 = code_val c o.
Proof. unfold code_val. by intros -> ->. Qed.

Lemma state_load_eq c k o v o1 : object_GetState c k o = (v, o1) -> obj_eq c o o1.
Proof.
  intros E. apply state_fields in E as (Ea & Eac & Es & Eco & Ed & Ev & Ec).
  constructor; try congruence.
  - symmetry. by apply code_val_fields.
  - intros k'. unfold state_val. by rewrite Ed, Ec.
Qed.

Lemma committed_load_eq c k o v o1 : object_GetCommittedState c k o = (v, o1) -> obj_eq c o o1.
Proof.
  intros E. apply committed_fields in E as (Ea & Eac & Es & Eco & Ed & Ev & Ec).
  constructor; try congruence.
  - symmetry. by apply code_val_fields.
  - intros k'. unfold state_val. by rewrite Ed, Ec.
Qed.

(** Writing an equivalent object back. *)
Lemma reload_ext s o o1 : good s -> stateObjects s !! address o = Some o -> obj_eq (ctx s) o o1 ->
  ext s (setStateObject o1 s).
Proof.
  intros G Hl Eq. pose proof (good_keyed _ G) as K. pose proof (oe_address _ _ _ Eq) as Ea.
  apply ext_below; try done; [|by apply keyed_set]. constructor; try done.
  - intros b. rewrite lookup_set. case_decide as C; [|apply option_forall2_refl].
    rewrite <- C, <- Ea, (live_lookup _ _ _ Hl). by constructor.
  - intros b Hb. simpl. rewrite lookup_insert_is_Some'. auto.
Qed.

Lemma SetBalance_ext x o s : good s -> stateObjects s !! address o = Some o ->
  ext s (object_SetBalance x o s).
Proof.
  intros G Hl. apply (setter_ext _ (setBalance (Balance (account o))) s o); try done.
  destruct o as [a [n b h] c os ds dc su]. by constructor.
Qed.

Lemma AddBalance_ext a x s : good s -> ext s (AddBalance a x s).
Proof.
  intros G. unfold AddBalance, object_AddBalance.
  destruct (getOrNewStateObject a s) as [o s1] eqn:E.
  destruct (getOrNew_ext _ _ _ _ G E) as (X & Hl & Ha). destruct (x =? 0); [done|].
  eapply ext_trans; [done|]. apply SetBalance_ext; [by eapply good_ext|by rewrite Ha].
Qed.

Lemma SubBalance_ext a x s : good s -> ext s (SubBalance a x s).
Proof.
  intros G. unfold SubBalance, object_SubBalance.
  destruct (getOrNewStateObject a s) as [o s1] eqn:E.
  destruct (getOrNew_ext _ _ _ _ G E) as (X & Hl & Ha). destruct (x =? 0); [done|].
  eapply ext_trans; [done|]. apply SetBalance_ext; [by eapply good_ext|by rewrite Ha].
Qed.

Lemma SetNonce_ext a x s : good s -> ext s (SetNonce a x s).
Proof.
  intros G. unfold SetNonce, object_SetNonce. destruct (getOrNewStateObject a s) as [o s1] eqn:E.
  destruct (getOrNew_ext _ _ _ _ G E) as (X & Hl & Ha). eapply ext_trans; [done|].
  apply (setter_ext _ (setNonce (Nonce (account o))) s1 o); try done; [by eapply good_ext|by rewrite Ha|].
  destruct o as [a' [n b h] c os ds dc su]. by constructor.
Qed.

Lemma SetCode_ext a x s : good s -> ext s (SetCode a x s).
Proof.
  intros G. unfold SetCode, object_SetCode. destruct (getOrNewStateObject a s) as [o s1] eqn:E.
  destruct (getOrNew_ext _ _ _ _ G E) as (X & Hl & Ha). eapply ext_trans; [done|].
  destruct (object_Code (ctx s1) o) as [pc o1] eqn:Ec.
  apply code_fields in Ec as (Ea & Eac & Es & Eo & Ed & Ev & Ev1).
  apply (setter_ext _ (setCode (CodeHash (account o1)) pc) s1 o); try done;
    [by eapply good_ext|by rewrite Ha|simpl; by rewrite Ea|simpl; by rewrite Ea|].
  constructor; try done; simpl; try congruence.
  - rewrite Eac. by destruct (account o).
  - rewrite Ev. unfold code_val in *. simpl. destruct pc; [done|]. rewrite Eac.
    destruct (code o); [done|]. done.
  - intros k. unfold committed_val. simpl. by rewrite Eo, Ea.
  - intros k. unfold state_val, committed_val. simpl. by rewrite Eo, Ea, Ed.
Qed.

Lemma SetState_ext a k v s : good s -> ext s (SetState a k v s).
Proof.
  intros G. unfold SetState, object_SetState. destruct (getOrNewStateObject a s) as [o s1] eqn:E.
  destruct (getOrNew_ext _ _ _ _ G E) as (X & Hl & Ha). eapply ext_trans; [done|].
  pose proof (good_ext _ _ G X) as G1. rewrite <- Ha in Hl.
  destruct (object_GetState (ctx s1) k o) as [pv o1] eqn:Ec. pose proof (state_load_eq _ _ _ _ _ Ec).
  apply state_fields in Ec as (Ea & Eac & Es & Eco & Ed & Ev & Ecm). case_bool_decide.
  - by apply (reload_ext s1 o).
  - apply (setter_ext _ (setState k pv) s1 o); try done; simpl; try (by rewrite Ea).
    constructor; simpl; try congruence.
    + symmetry. by apply code_val_fields.
    + intros k'. symmetry. apply Ecm.
    + intros k'. unfold state_val at 2. simpl. destruct (decide (k = k')) as [->|N].
      * by rewrite lookup_insert_eq.
      * rewrite !lookup_insert_ne by done. unfold state_val. rewrite Ed.
        destruct (dirtyStorage o !! k'); [done|]. symmetry. apply Ecm.
Qed.

Lemma CreateAccount_ext a s : good s -> ext s (CreateAccount a s).
Proof.
  intros G. unfold CreateAccount, createObject. destruct (getStateObject a s) as [r s1] eqn:Eg.
  destruct (load_ext _ _ _ _ G Eg) as (X & _ & _ & Hs & Hn). destruct r as [o|].
  - destruct (Hs _ eq_refl) as [Hl Ha]. rewrite setStateObject_twice by done.
    eapply ext_trans; [exact X|]. pose proof (good_ext _ _ G X).
    apply (object_ext _ _ o _ o); rewrite ?Ha; auto; reflexivity.
  - assert (E : createObject a s = (newObject a NewEmptyAccount, None,
      setStateObject (newObject a NewEmptyAccount) (append (createObjectChange a) s1)))
      by (unfold createObject; by rewrite Eg).
    by apply create_ext in E as [? _].
Qed.

Lemma Suicide_ext a s b s' : good s -> Suicide a s = (b, s') -> ext s s'.
Proof.
  intros G. unfold Suicide. destruct (getStateObject a s) as [r s1] eqn:Eg.
  destruct (load_ext _ _ _ _ G Eg) as (X & _ & _ & Hs & Hn).
  destruct r as [o|]; intros [= <- <-]; [|done]. destruct (Hs _ eq_refl) as [Hl Ha].
  eapply ext_trans; [exact X|]. pose proof (good_ext _ _ G X) as G1.
  set (o' := setBalance 0 (markSuicided o)).
  assert (K : keyed (setStateObject o' (append (suicideChange a (suicided o) (Balance (account o))) s1)))
    by (apply keyed_set; by apply (good_keyed s1)).
  apply (object_ext _ _ o _ (setBalance (Balance (account o)) (setSuicided (suicided o) o')));
    rewrite ?Ha; auto.
  - simpl revert_entry. rewrite getStateObject_eq by done.
    rewrite lookup_set, decide_True by done. by rewrite (setStateObject_twice _ o') by done.
  - destruct o as [a' [n x h] c os ds dc su]. by constructor.
Qed.

(** A change of a field that is not an object. *)
Lemma field_ext e s s1 s2 :
  good s -> db_journal s1 = db_journal s -> stateObjects s1 = stateObjects s ->
  validRevisions s1 = validRevisions s -> nextRevisionID s1 = nextRevisionID s ->
  al_ok (access s1) -> Dirtied e = None ->
  revert_entry e (append e s1) = Ok s2 -> below s s2 -> ext s (append e s1).
Proof.
  intros G J O R N A D E B. pose proof (winds_level _ _ G) as (_ & K & Hd).
  eapply ext_one; [simpl; by rewrite J|done|done| |exact E|done].
  split_and!; [done|intros b o; simpl; rewrite O; apply K|].
  intros e' a He Ea. simpl. rewrite O. apply elem_of_cons in He as [->|He]; [congruence|].
  by eapply Hd.
Qed.

Lemma AddLog_ext l s : good s -> ext s (AddLog l s).
Proof.
  intros G. unfold AddLog. cbn zeta. set (x := mkLog _ _ _ _ _ _ _ _).
  change (with_logs (logs (append addLogChange s) ++ [x]) (append addLogChange s))
    with (append addLogChange (with_logs (logs s ++ [x]) s)).
  eapply field_ext; [done..|exact (good_al _ G)|done| |].
  - simpl. rewrite bool_decide_eq_false_2 by (by destruct (logs s)). reflexivity.
  - apply (below_fields s s); try done. simpl.
    by rewrite length_app, Nat.add_sub, take_app_length.
Qed.

Lemma AddRefund_ext x s : good s -> ext s (AddRefund x s).
Proof.
  intros G. eapply (field_ext _ _ (with_refund (u64_add (refund s) x) s)); try done.
  - exact (good_al _ G).
  - by apply (below_fields s s).
Qed.

Lemma SubRefund_ext x s s' : good s -> SubRefund x s = Ok s' -> ext s s'.
Proof.
  intros G. unfold SubRefund. simpl. destruct (_ <? _); [done|]. intros [= <-].
  eapply (field_ext _ _ (with_refund (u64_sub (refund s) x) s)); try done.
  - exact (good_al _ G).
  - by apply (below_fields s s).
Qed.

Lemma with_access_id s : with_access (access s) s = s.
Proof. by destruct s. Qed.

Lemma AddAddressToAccessList_ext a s : good s -> ext s (AddAddressToAccessList a s).
Proof.
  intros G. unfold AddAddressToAccessList. pose proof (AddAddress_ok _ a (good_al _ G)) as Hok.
  pose proof (DeleteAddress_AddAddress (access s) a) as Hdel.
  destruct (AddAddress (access s) a) as [b al] eqn:E. unfold AddAddress in E.
  destruct (addresses (access s) !! a) eqn:Ea; simplify_eq.
  - rewrite with_access_id. by apply ext_refl.
  - eapply field_ext; try done. apply (below_fields s s); try done. simpl in *. by apply Hdel.
Qed.

(** Adding a slot of an unknown address is adding the address first. *)
Lemma AddSlot_address_first a k s : addresses (access s) !! a = None ->
  AddSlotToAccessList a k (AddAddressToAccessList a s) = AddSlotToAccessList a k s.
Proof.
  intros E. unfold AddSlotToAccessList, AddAddressToAccessList, AddAddress, AddSlot. rewrite E. simpl.
  rewrite lookup_insert_eq. simpl. by rewrite insert_insert_eq.
Qed.

Lemma AddSlot_known_ext a k s s' : good s -> addresses (access s) !! a <> None ->
  AddSlotToAccessList a k s = Ok s' -> ext s s'.
Proof.
  intros G Hn. unfold AddSlotToAccessList. pose proof (good_al _ G) as Hal.
  destruct (AddSlot (access s) a k) as [[[ca cs] al]| |] eqn:E; try done. simpl.
  pose proof (AddSlot_ok _ _ _ _ Hal E) as Hok. destruct cs.
  - destruct (DeleteSlot_AddSlot _ _ _ _ _ Hal E) as [-> Hdel].
    rewrite bool_decide_eq_false_2 in * by done. intros [= <-].
    eapply field_ext; [done..|done|done|simpl; by rewrite Hdel|]. by apply (below_fields s s).
  - intros [= <-]. unfold AddSlot in E. destruct (_ || _); [done|].
    destruct (slot_at _ _); [|done]. case_bool_decide; simplify_eq.
    rewrite with_access_id. by apply ext_refl.
Qed.

Lemma AddSlotToAccessList_ext a k s : good s ->
  exists s', AddSlotToAccessList a k s = Ok s' /\ ext s s'.
Proof.
  intros G. assert (T : forall t, good t -> exists t', AddSlotToAccessList a k t = Ok t').
  { intros t Gt. unfold AddSlotToAccessList.
    destruct (AddSlot_total (access t) a k (good_al _ Gt)) as ([[ca cs] al] & ->). simpl. eauto. }
  destruct (addresses (access s) !! a) eqn:E.
  - destruct (T s G) as [s' Es]. exists s'. split; [done|].
    eapply AddSlot_known_ext; [done| |done]. by rewrite E.
  - rewrite <- (AddSlot_address_first a k s) by done.
    pose proof (AddAddressToAccessList_ext a s G) as X. pose proof (good_ext _ _ G X) as G1.
    destruct (T _ G1) as [s' Es]. exists s'. split; [done|]. eapply ext_trans; [exact X|].
    eapply AddSlot_known_ext; [done| |done]. unfold AddAddressToAccessList, AddAddress. rewrite E.
    simpl. by rewrite lookup_insert_eq.
Qed.

Lemma add_slots_ext a ks s : good s -> exists s', add_slots a ks s = Ok s' /\ ext s s'.
Proof.
  revert s. induction ks as [|k ks IH]; intros s G; simpl; [eauto using ext_refl|].
  destruct (AddSlotToAccessList_ext a k s G) as (s1 & -> & X). simpl.
  destruct (IH s1) as (s' & -> & X'); [by eapply good_ext|]. eauto using ext_trans.
Qed.

Lemma add_tuples_ext l s : good s -> exists s', add_tuples l s = Ok s' /\ ext s s'.
Proof.
  revert s. induction l as [|[a ks] l IH]; intros s G; simpl; [eauto using ext_refl|].
  pose proof (AddAddressToAccessList_ext a s G) as X0. pose proof (good_ext _ _ G X0) as G0.
  destruct (add_slots_ext a ks _ G0) as (s1 & -> & X1). simpl.
  destruct (IH s1) as (s' & -> & X'); [by eapply good_ext|]. eauto using ext_trans.
Qed.

Lemma PrepareAccessList_ext sender dst ps l s : good s ->
  exists s', PrepareAccessList sender dst ps l s = Ok s' /\ ext s s'.
Proof.
  intros G. unfold PrepareAccessList. pose proof (AddAddressToAccessList_ext sender s G) as X0.
  set (s0 := AddAddressToAccessList sender s) in *. pose proof (good_ext _ _ G X0) as G0.
  set (s1 := match dst with Some d => AddAddressToAccessList d s0 | None => s0 end).
  assert (X1 : ext s0 s1).
  { subst s1. destruct dst; [by apply AddAddressToAccessList_ext|by apply ext_refl]. }
  assert (X2 : ext s1 (foldl (fun s addr => AddAddressToAccessList addr s) s1 ps)).
  { clearbody s1. pose proof (good_ext _ _ G0 X1) as G1. clear -G1. revert s1 G1.
    induction ps as [|p ps IH]; intros s1 G1; simpl; [by apply ext_refl|].
    pose proof (AddAddressToAccessList_ext p s1 G1) as X. eapply ext_trans; [exact X|].
    apply IH. by eapply good_ext. }
  pose proof (ext_trans _ _ _ X0 (ext_trans _ _ _ X1 X2)) as X.
  destruct (add_tuples_ext l _ (good_ext _ _ G X)) as (s' & E & X'). exists s'.
  split; [exact E|]. by eapply ext_trans.
Qed.

(** The readers. *)
Lemma GetState_ext a k s v s' : good s -> GetState a k s = (v, s') -> ext s s'.
Proof.
  intros G. unfold GetState. destruct (getStateObject a s) as [r s1] eqn:Eg.
  destruct (load_ext _ _ _ _ G Eg) as (X & _ & _ & Hs & _). destruct r as [o|]; [|by intros [= <- <-]].
  destruct (Hs _ eq_refl) as [Hl Ha]. destruct (object_GetState (ctx s1) k o) as [x o1] eqn:E.
  intros [= <- <-]. eapply ext_trans; [exact X|].
  apply (reload_ext _ o); [by eapply good_ext|by rewrite Ha|by eapply state_load_eq].
Qed.

Lemma GetCommittedState_ext a k s v s' : good s -> GetCommittedState a k s = (v, s') -> ext s s'.
Proof.
  intros G. unfold GetCommittedState. destruct (getStateObject a s) as [r s1] eqn:Eg.
  destruct (load_ext _ _ _ _ G Eg) as (X & _ & _ & Hs & _). destruct r as [o|]; [|by intros [= <- <-]].
  destruct (Hs _ eq_refl) as [Hl Ha].
  destruct (object_GetCommittedState (ctx s1) k o) as [x o1] eqn:E.
  intros [= <- <-]. eapply ext_trans; [exact X|].
  apply (reload_ext _ o); [by eapply good_ext|by rewrite Ha|by eapply committed_load_eq].
Qed.

Lemma GetCode_ext a s v s' : good s -> GetCode a s = (v, s') -> ext s s'.
Proof.
  intros G. unfold GetCode. destruct (getStateObject a s) as [r s1] eqn:Eg.
  destruct (load_ext _ _ _ _ G Eg) as (X & _ & _ & Hs & _). destruct r as [o|]; [|by intros [= <- <-]].
  destruct (Hs _ eq_refl) as [Hl Ha]. destruct (object_Code (ctx s1) o) as [x o1] eqn:E.
  intros [= <- <-]. eapply ext_trans; [exact X|].
  apply (reload_ext _ o); [by eapply good_ext|by rewrite Ha|by eapply code_load_eq].
Qed.

(** ** Precompile calls *)

(** An operation that neither reads nor writes the cached store. *)
Definition oblivious (f : StateDB W -> StateDB W) : Prop :=
  forall s, (forall c, f (with_cache c s) = with_cache c (f s)) /\ ctx (f s) = ctx s.

Lemma with_cache_id s : with_cache (cache s) s = s.
Proof. by destruct s. Qed.

Lemma oblivious_cache f s : oblivious f -> cache (f s) = cache s.
Proof. intros O. rewrite <- (with_cache_id s) at 1. by rewrite (proj1 (O s)). Qed.

Lemma oblivious_view f s : oblivious f -> cache_view (f s) = cache_view s.
Proof. intros O. unfold cache_view. by rewrite (oblivious_cache f), (proj2 (O s)). Qed.

Lemma oblivious_foldl {A} (f : StateDB W -> A -> StateDB W) l :
  (forall x, oblivious (fun s => f s x)) -> oblivious (fun s => foldl f s l).
Proof.
  intros O. induction l as [|x l IH]; intros s; simpl; [done|]. split.
  - intros c. rewrite (proj1 (O x s)). apply IH.
  - rewrite (proj2 (IH (f s x))). apply (O x s).
Qed.

Lemma AddLog_oblivious l : oblivious (AddLog l).
Proof. done. Qed.

Lemma getStateObject_cache a s : forall c,
  getStateObject a (with_cache c s)
  = (fst (getStateObject a s), with_cache c (snd (getStateObject a s))).
Proof.
  intros c. unfold getStateObject. simpl. destruct (stateObjects s !! a); [done|].
  by destruct (keeper_GetAccount a (ctx s)).
Qed.

Lemma getStateObject_ctx a s : ctx (snd (getStateObject a s)) = ctx s.
Proof.
  unfold getStateObject. destruct (stateObjects s !! a); [done|].
  by destruct (keeper_GetAccount a (ctx s)).
Qed.

Lemma getOrNew_cache a s c :
  getOrNewStateObject a (with_cache c s)
  = (fst (getOrNewStateObject a s), with_cache c (snd (getOrNewStateObject a s))).
Proof.
  unfold getOrNewStateObject. rewrite getStateObject_cache.
  destruct (getStateObject a s) as [[o|] s1]; [done|]. unfold createObject. simpl.
  rewrite getStateObject_cache. by destruct (getStateObject a s1) as [[o|] s2].
Qed.

Lemma getOrNew_ctx a s : ctx (snd (getOrNewStateObject a s)) = ctx s.
Proof.
  unfold getOrNewStateObject. pose proof (getStateObject_ctx a s) as E.
  destruct (getStateObject a s) as [[o|] s1]; [done|]. unfold createObject. simpl in E.
  pose proof (getStateObject_ctx a s1) as E1. destruct (getStateObject a s1) as [[o|] s2];
    simpl in *; congruence.
Qed.

Lemma getOrNew_oblivious a : oblivious (fun s => snd (getOrNewStateObject a s)).
Proof. intros s. split; [intros c; by rewrite getOrNew_cache|apply getOrNew_ctx]. Qed.

Lemma balance_oblivious x : oblivious (fun s => add_balance_change s x).
Proof.
  intros s. unfold add_balance_change, AddBalance, SubBalance, object_AddBalance, object_SubBalance.
  pose proof (getOrNew_ctx (bce_Account x) s) as Ec.
  split; [intros c|]; destruct (bce_Op x); rewrite ?getOrNew_cache;
    destruct (getOrNewStateObject (bce_Account x) s) as [o s1]; simpl in *; by destruct (_ =? 0).
Qed.

Lemma foldl_ext {A} (f : StateDB W -> A -> StateDB W) l s :
  (forall t x, good t -> ext t (f t x)) -> good s -> ext s (foldl f s l).
Proof.
  intros Hf. revert s. induction l as [|x l IH]; intros s G; simpl; [by apply ext_refl|].
  pose proof (Hf s x G) as X. eapply ext_trans; [exact X|]. apply IH. by eapply good_ext.
Qed.

Lemma balance_change_ext s x : good s -> ext s (add_balance_change s x).
Proof.
  intros G. unfold add_balance_change.
  destruct (bce_Op x); [by apply SubBalance_ext|by apply AddBalance_ext].
Qed.

(** Restoring the store a state has already is no change. *)
Lemma restore_ext s c : good s -> (store_watched -> c = cache_view s) -> ext s (with_cache (Some c) s).
Proof.
  intros G Hc. apply ext_below; try done; [by apply (below_fields s s)|by apply (good_keyed s)].
Qed.

(** The call's entry, with whatever the method has left in the store. *)
Lemma call_entry_ext s snapshot c n : good s -> snapshot = cache_view s ->
  ext s (append (precompileCallChange snapshot) (with_calls n (with_cache c s))).
Proof.
  intros G ->. eapply field_ext; [done..|exact (good_al _ G)|done|reflexivity|].
  by apply (below_fields s s).
Qed.

Lemma GetCacheContext_eq s :
  GetCacheContext s = (cache_view s, with_cache (Some (cache_view s)) s).
Proof.
  unfold GetCacheContext, cache_view. destruct (cache s) as [c|] eqn:E; [|done]. simpl.
  rewrite <- E. by rewrite with_cache_id.
Qed.

(** A setup that reaches the method: the commit to the cached store succeeds and
    the call data selects a method. *)
Definition setup_clean (p : ABI) (c : Contract) (readOnly : bool) (isTx : string -> bool) s : Prop :=
  no_error (fst (commitWithCtx s (cache_view s))) = true /\
  no_error (select_method p c readOnly isTx) = true.

Lemma AddJournalEntries_ext addr l snapshot s w r s' :
  good s -> snapshot = cache_view s ->
  AddJournalEntries addr l snapshot (with_cache (Some w) s) = (r, s') ->
  ext s (match r with Err _ => RevertMultiStore snapshot s' | _ => s' end).
Proof.
  intros G Es. unfold AddJournalEntries, AddPrecompileFn.
  pose proof (oblivious_foldl add_balance_change l balance_oblivious) as O.
  rewrite (proj1 (O s)). set (u := foldl add_balance_change s l) in *.
  assert (Xu : ext s u) by (apply foldl_ext; [apply balance_change_ext|done]).
  rewrite getOrNew_cache. destruct (getOrNewStateObject addr u) as [o v] eqn:E. simpl.
  pose proof (good_ext _ _ G Xu) as Gu. destruct (getOrNew_ext _ _ _ _ Gu E) as (Xv & _ & _).
  assert (Ev : snapshot = cache_view v).
  { pose proof (oblivious_view _ u (getOrNew_oblivious addr)) as Hv. cbv beta in Hv. rewrite E in Hv. simpl in Hv.
    rewrite Hv, Es. symmetry. apply (oblivious_view _ s O). }
  assert (X : ext s v) by (by eapply ext_trans). pose proof (good_ext _ _ G X) as Gv.
  intros Er. eapply ext_trans; [exact X|].
  set (n := (precompileCallsCounter v + 1) mod 2 ^ 8) in *.
  destruct (MaxPrecompileCalls <? n); injection Er as <- <-.
  - exact (call_entry_ext v snapshot (Some snapshot) n Gv Ev).
  - exact (call_entry_ext v snapshot (Some w) n Gv Ev).
Qed.

(** The setup in one step. *)
Lemma RunSetup_eq p c ro isTx gas s :
  RunSetup p c ro isTx gas s =
  match commitWithCtx s (cache_view s) with
  | (Err e, w) => (Err e, with_cache (Some w) s)
  | (Panic, w) => (Panic, with_cache (Some w) s)
  | (Ok _, w) =>
      match select_method p c ro isTx with
      | Err e => (Err e, with_cache (Some w) s)
      | Panic => (Panic, with_cache (Some w) s)
      | Ok m => if Gas c <? gas then (Err ErrOutOfGas, with_cache (Some (cache_view s)) s)
                else (Ok (cache_view s, m), with_cache (Some w) s)
      end
  end.
Proof.
  unfold RunSetup, MultiStoreSnapshot. rewrite GetCacheContext_eq. cbv beta iota.
  rewrite GetCacheContext_eq. change (cache_view (with_cache (Some (cache_view s)) s)) with (cache_view s).
  unfold CommitWithCacheCtx. cbn [cache with_cache].
  change (commitWithCtx (with_cache (Some (cache_view s)) _)) with (commitWithCtx s).
  destruct (commitWithCtx s (cache_view s)) as [[[]| |] w]; done.
Qed.

Lemma Run_ext addr p c ro isTx gas methods s r s' :
  good s -> (store_watched -> setup_clean p c ro isTx s) ->
  Run addr p c ro isTx gas methods s = (r, s') -> r <> Panic -> ext s s'.
Proof.
  intros G Hclean. unfold Run, mbind, M_bind. rewrite RunSetup_eq. unfold setup_clean in Hclean.
  destruct (commitWithCtx s (cache_view s)) as [[[]|e|] w1];
    [|intros [= <- <-] _; apply restore_ext; [done|by intros [? _]%Hclean]|by intros [= <- <-]].
  destruct (select_method p c ro isTx) as [m|e|];
    [|intros [= <- <-] _; apply restore_ext; [done|by intros [_ ?]%Hclean]|by intros [= <- <-]].
  destruct (Gas c <? gas); [intros [= <- <-] _; by apply restore_ext|].
  unfold RunAtomic, precompile_body, run_method, mbind, M_bind. simpl.
  destruct (methods m w1) as [[ef|e|] w2].
  2:{ intros [= <- <-] _. by apply (restore_ext s). }
  2:{ by intros [= <- <-]. }
  simpl. pose proof (oblivious_foldl (fun s l => AddLog l s) (ef_logs ef) AddLog_oblivious) as O.
  change (with_cache (Some w2) (with_cache (Some w1) s)) with (with_cache (Some w2) s).
  rewrite (proj1 (O s)). set (u := foldl (fun s l => AddLog l s) s (ef_logs ef)) in *.
  assert (Xu : ext s u) by (apply foldl_ext; [intros; by apply AddLog_ext|done]).
  assert (Eu : cache_view s = cache_view u) by (symmetry; apply (oblivious_view _ s O)).
  pose proof (good_ext _ _ G Xu) as Gu. destruct (ef_gas_ok ef).
  - destruct (AddJournalEntries _ _ _ _) as [r1 s1] eqn:Ej. intros Er Hr.
    pose proof (AddJournalEntries_ext _ _ _ _ _ _ _ Gu Eu Ej) as Xj.
    eapply ext_trans; [exact Xu|]. destruct r1; injection Er as <- <-; [done|done|done].
  - intros [= <- <-] _. eapply ext_trans; [exact Xu|]. by apply (restore_ext u).
Qed.

(** ** Reverting *)

Fixpoint undo (es : list (JournalEntry W)) (s : StateDB W) : res (StateDB W) :=
  match es with
  | [] => Ok s
  | e :: rest => s ← revert_entry e s; undo rest s
  end.

Lemma getStateObject_journal a s j :
  getStateObject a (with_journal j s)
  = (fst (getStateObject a s), with_journal j (snd (getStateObject a s))).
Proof.
  unfold getStateObject. simpl. destruct (stateObjects s !! a); [done|].
  by destruct (keeper_GetAccount a (ctx s)).
Qed.

(** Undoing an entry neither reads nor writes the journal. *)
Lemma revert_entry_journal e s j :
  revert_entry e (with_journal j s) = (s1 ← revert_entry e s; Ok (with_journal j s1)).
Proof.
  destruct e as [a|prev|a p b|a p|a p|a k p|a c h|r| |a|a k|w]; simpl; try done;
    unfold on_object; rewrite ?getStateObject_journal;
    try (by destruct (getStateObject a s) as [[o|] s1]).
  - by case_bool_decide.
  - by destruct (DeleteSlot _ _ _).
Qed.

Lemma getStateObject_frame a s :
  db_journal (snd (getStateObject a s)) = db_journal s /\
  validRevisions (snd (getStateObject a s)) = validRevisions s /\
  nextRevisionID (snd (getStateObject a s)) = nextRevisionID s.
Proof.
  unfold getStateObject. destruct (stateObjects s !! a); [done|].
  by destruct (keeper_GetAccount a (ctx s)).
Qed.

Lemma revert_entry_frame e s s1 : revert_entry e s = Ok s1 ->
  db_journal s1 = db_journal s /\ validRevisions s1 = validRevisions s /\
  nextRevisionID s1 = nextRevisionID s.
Proof.
  destruct e as [a|prev|a p b|a p|a p|a k p|a c h|r| |a|a k|w]; simpl; unfold on_object;
    try (by intros [= <-]);
    try (pose proof (getStateObject_frame a s) as F;
         destruct (getStateObject a s) as [[o|] s2]; intros [= <-]; exact F).
  - case_bool_decide; [done|]. by intros [= <-].
  - destruct (DeleteSlot _ _ _); try done. by intros [= <-].
Qed.

Lemma revert_loop_undo es s u : undo es s = Ok u ->
  revert_loop es s =
    Ok (with_journal (mkJournal (journal_entries s)
          (foldl (fun d e => undirty e d) (dirties (db_journal s)) es)) u) /\
  validRevisions u = validRevisions s /\ nextRevisionID u = nextRevisionID s.
Proof.
  revert s u. induction es as [|e es IH]; intros s u; simpl.
  - intros [= <-]. split; [|done]. by destruct s as [? ? [? ?]].
  - intros (s1 & E & Hu)%res_bind_ok. rewrite E. simpl.
    destruct (revert_entry_frame _ _ _ E) as (J & R & N).
    set (s2 := with_journal _ s1).
    assert (Hu2 : undo es s2 = Ok (with_journal (db_journal s2) u)).
    { subst s2. generalize (mkJournal (entries (db_journal s1)) (undirty e (dirties (db_journal s1)))).
      clear -Hu. intros j. revert s1 Hu. induction es as [|e' es IH']; intros s1; simpl.
      - by intros [= <-].
      - intros (s3 & E' & Hu)%res_bind_ok. rewrite revert_entry_journal, E'. simpl. by apply IH'. }
    destruct (IH _ _ Hu2) as (-> & R2 & N2). split; [|simpl in *; split; congruence].
    f_equal. unfold journal_entries. subst s2. simpl. by rewrite J.
Qed.

Lemma dirty_map_pos es a n : dirty_map es !! a = Some n -> 1 <= n.
Proof.
  revert n. induction es as [|e es IH]; intros n; simpl; [by rewrite lookup_empty|].
  destruct (Dirtied e) as [b|]; [|apply IH]. destruct (decide (b = a)) as [->|N].
  - rewrite lookup_insert_eq. intros [= <-]. destruct (dirty_map es !! a) as [m|] eqn:E; simpl; [|lia].
    unfold id. specialize (IH m eq_refl). lia.
  - rewrite lookup_insert_ne by done. apply IH.
Qed.

Lemma undirty_cons e es : undirty e (dirty_map (e :: es)) = dirty_map es.
Proof.
  unfold undirty. simpl. destruct (Dirtied e) as [a|]; [|done]. rewrite lookup_insert_eq. simpl.
  unfold id. destruct (dirty_map es !! a) as [m|] eqn:E; simpl; unfold id.
  - pose proof (dirty_map_pos _ _ _ E). destruct (Z.eqb_spec (m + 1 - 1) 0); [lia|].
    rewrite insert_insert_eq. apply insert_id. rewrite E. f_equal. lia.
  - by apply delete_insert_id.
Qed.

Lemma undirty_all n es :
  foldl (fun d e => undirty e d) (dirty_map es) (take n es) = dirty_map (drop n es).
Proof.
  revert es. induction n as [|n IH]; intros [|e es]; try done.
  cbn [take drop foldl]. rewrite undirty_cons. apply IH.
Qed.

Lemma winds_undo n es s : winds es s -> exists u, undo (take n es) s = Ok u /\ winds (drop n es) u.
Proof.
  revert n s. induction es as [|e es IH]; intros [|n] s Hw; simpl; try by exists s.
  destruct Hw as [_ (s1 & -> & Hw)]. simpl. by apply IH.
Qed.

Lemma back_undo n base es s' s u : (n <= length es)%nat ->
  back base es s' s -> undo (take n es) s' = Ok u -> back base (drop n es) u s.
Proof.
  revert n s'. induction es as [|e es IH]; intros [|n] s' Hn; simpl in *; try (by intros ? [= <-]).
  intros [_ (s1 & -> & R)]. simpl. apply IH; [lia|done].
Qed.

(** The revisions' ids and depths grow. *)
Definition revs_ok (s : StateDB W) : Prop :=
  StronglySorted (fun r r' => rev_id r < rev_id r' /\ (rev_journalIndex r <= rev_journalIndex r')%nat)
    (validRevisions s) /\
  Forall (fun r => rev_id r < nextRevisionID s /\
                   (rev_journalIndex r <= length (journal_entries s))%nat) (validRevisions s).

Record db_ok (s : StateDB W) : Prop := {
  ok_good : good s;
  ok_dirties : dirties_ok s;
  ok_revs : revs_ok s
}.

Lemma ext_ok s s' : db_ok s -> ext s s' -> db_ok s'.
Proof.
  intros [G D [Rs Rf]] X. constructor; [by eapply good_ext|by apply X|].
  destruct X as [(es & E & _) _ R N]. unfold revs_ok. rewrite R, N, E. split; [done|].
  eapply (list.Forall_impl _ _ _ Rf). intros r [? ?]. rewrite length_app. split; [done|lia].
Qed.

Lemma sorted_lookup {A} (R : A -> A -> Prop) l i j x y :
  StronglySorted R l -> l !! i = Some x -> l !! j = Some y -> (i < j)%nat -> R x y.
Proof.
  intros Hs. revert i j. induction Hs as [|z l Hs IH Hf]; intros i j Hi Hj Hij; [done|].
  destruct j as [|j]; [lia|]. destruct i as [|i]; simpl in *.
  - simplify_eq. rewrite Forall_lookup in Hf. by eapply Hf.
  - eapply IH; [done|done|lia].
Qed.

Lemma sorted_take {A} (R : A -> A -> Prop) l n : StronglySorted R l -> StronglySorted R (take n l).
Proof.
  intros Hs. revert n. induction Hs as [|z l Hs IH Hf]; intros [|n]; simpl; constructor; auto.
  by apply Forall_take.
Qed.

(** Reverting to a valid revision, in one step. *)
Lemma RevertToSnapshot_run s i r : db_ok s -> validRevisions s !! i = Some r ->
  let es := journal_entries s in
  let n := (length es - rev_journalIndex r)%nat in
  exists u, undo (take n es) s = Ok u /\ winds (drop n es) u /\
    RevertToSnapshot (rev_id r) s =
      Ok (with_revisions (take i (validRevisions s)) (nextRevisionID s)
            (with_journal (mkJournal (drop n es) (dirty_map (drop n es))) u)).
Proof.
  intros [G D [Rs Rf]] Hi es n. destruct (winds_undo n es _ G) as (u & Hu & Hw). exists u.
  split_and!; [done|done|]. unfold RevertToSnapshot.
  assert (F : list_find (fun x => rev_id r <= rev_id x) (validRevisions s) = Some (i, r)).
  { apply list_find_Some. split_and!; [done|done|]. intros j y Hj Hij.
    destruct (sorted_lookup _ _ _ _ _ _ Rs Hj Hi Hij). lia. }
  rewrite F, Z.eqb_refl. simpl. unfold journal_Revert.
  change (entries (db_journal s)) with es. change (length es - _)%nat with n.
  destruct (revert_loop_undo _ _ _ Hu) as (-> & R & N). simpl.
  rewrite Forall_lookup in Rf. destruct (Rf _ _ Hi) as [_ Hlen].
  rewrite bool_decide_eq_false_2 by (subst es; lia). simpl. rewrite R, N. f_equal.
  unfold dirties_ok in D. rewrite D. subst es n. by rewrite undirty_all.
Qed.

Lemma RevertToSnapshot_inv s id s' : db_ok s -> RevertToSnapshot id s = Ok s' ->
  exists i r, validRevisions s !! i = Some r /\ rev_id r = id.
Proof.
  intros _. unfold RevertToSnapshot. destruct (list_find _ _) as [[i r]|] eqn:F; [|done].
  apply list_find_Some in F as (Hi & _ & _). destruct (Z.eqb_spec (rev_id r) id); [|done]. eauto.
Qed.

(** The changes of revisions and journal that [below] ignores. *)
Lemma winds_fields es s rv n j : winds es s -> winds es (with_revisions rv n (with_journal j s)).
Proof.
  intros Hw. eapply winds_mono; [|by apply (proj1 (proj2 (winds_level _ _ Hw)))|done].
  by apply (below_fields s s).
Qed.

Lemma revert_ok s id s' : db_ok s -> RevertToSnapshot id s = Ok s' -> db_ok s'.
Proof.
  intros Hok E. destruct (RevertToSnapshot_inv _ _ _ Hok E) as (i & r & Hi & <-).
  destruct (RevertToSnapshot_run _ _ _ Hok Hi) as (u & Hu & Hw & E'). rewrite E' in E.
  injection E as <-. destruct Hok as [G D [Rs Rf]]. constructor.
  - unfold good, journal_entries. simpl. by apply winds_fields.
  - done.
  - split; simpl; [by apply sorted_take|]. unfold journal_entries. simpl.
    apply Forall_lookup. intros j r' Hj. apply lookup_take_Some in Hj as [Hj Hlt].
    rewrite Forall_lookup in Rf. pose proof (Rf _ _ Hj) as [? _]. pose proof (Rf _ _ Hi) as [_ Hl].
    split; [done|]. destruct (sorted_lookup _ _ _ _ _ _ Rs Hj Hi Hlt).
    unfold journal_entries in *. rewrite length_drop. lia.
Qed.

Lemma snapshot_ok s : db_ok s -> db_ok (snd (Snapshot s)).
Proof.
  intros [G D [Rs Rf]]. constructor; [|done|].
  - exact (winds_fields _ s _ _ (db_journal s) G).
  - split; simpl.
    + apply StronglySorted_app. split_and!; [|done|by repeat constructor].
      intros r r' Hr Hr'. apply list_elem_of_singleton in Hr' as ->.
      rewrite list.Forall_forall in Rf. exact (Rf r Hr).
    + apply Forall_app. split.
      * eapply (list.Forall_impl _ _ _ Rf). intros r [? ?]. unfold journal_entries in *. simpl. lia.
      * constructor; [|done]. simpl. unfold journal_entries, journal_length. simpl. lia.
Qed.

(** ** Transactions *)

(** What the EVM and the precompiles do to a StateDB during a transaction.  A
    precompile call that panics ends the transaction, all others are steps; where
    the store is watched, only those whose setup is clean. *)
Inductive db_step : StateDB W -> StateDB W -> Prop :=
| step_AddBalance a x s : db_step s (AddBalance a x s)
| step_SubBalance a x s : db_step s (SubBalance a x s)
| step_SetNonce a n s : db_step s (SetNonce a n s)
| step_SetCode a c s : db_step s (SetCode a c s)
| step_SetState a k v s : db_step s (SetState a k v s)
| step_Suicide a s : db_step s (snd (Suicide a s))
| step_CreateAccount a s : db_step s (CreateAccount a s)
| step_AddLog l s : db_step s (AddLog l s)
| step_AddRefund x s : db_step s (AddRefund x s)
| step_SubRefund x s s' : SubRefund x s = Ok s' -> db_step s s'
| step_AddAddress a s : db_step s (AddAddressToAccessList a s)
| step_AddSlot a k s s' : AddSlotToAccessList a k s = Ok s' -> db_step s s'
| step_PrepareAccessList a d ps l s s' : PrepareAccessList a d ps l s = Ok s' -> db_step s s'
| step_load a s : db_step s (snd (getStateObject a s))
| step_GetCode a s : db_step s (snd (GetCode a s))
| step_GetState a k s : db_step s (snd (GetState a k s))
| step_GetCommittedState a k s : db_step s (snd (GetCommittedState a k s))
| step_Run addr p c ro isTx gas methods s r s' :
    (store_watched -> setup_clean p c ro isTx s) -> Run addr p c ro isTx gas methods s = (r, s') -> r <> Panic ->
    db_step s s'
| step_Snapshot s : db_step s (snd (Snapshot s))
| step_Revert id s s' : RevertToSnapshot id s = Ok s' -> db_step s s'.

(** A step extends the journal, takes a snapshot or reverts. *)
Lemma db_step_cases s s' : good s -> db_step s s' ->
  ext s s' \/ s' = snd (Snapshot s) \/ exists id, RevertToSnapshot id s = Ok s'.
Proof.
  intros G Hs. revert G.
  destruct Hs as [ | | | | |a t| | | |x t t' E| |a k t t' E|a d ps l t t' E|a t|a t|a k t|a k t
           |addr p c ro isTx gas methods t r t' Hc E Hr| |id t t' E]; intros G; eauto; left.
  - by apply AddBalance_ext.
  - by apply SubBalance_ext.
  - by apply SetNonce_ext.
  - by apply SetCode_ext.
  - by apply SetState_ext.
  - eapply (Suicide_ext a); [done|]. apply surjective_pairing.
  - by apply CreateAccount_ext.
  - by apply AddLog_ext.
  - by apply AddRefund_ext.
  - by eapply SubRefund_ext.
  - by apply AddAddressToAccessList_ext.
  - destruct (AddSlotToAccessList_ext a k t G) as (u & E' & X). congruence.
  - destruct (PrepareAccessList_ext a d ps l t G) as (u & E' & X). congruence.
  - eapply (load_ext a); [done|]. apply surjective_pairing.
  - eapply (GetCode_ext a); [done|]. apply surjective_pairing.
  - eapply (GetState_ext a k); [done|]. apply surjective_pairing.
  - eapply (GetCommittedState_ext a k); [done|]. apply surjective_pairing.
  - by eapply Run_ext.
Qed.

Lemma New_ok c cfg : db_ok (New c cfg).
Proof.
  constructor; [|done|by repeat constructor]. split; [|done]. split_and!.
  - apply newAccessList_ok.
  - intros a o. simpl. by rewrite lookup_empty.
  - intros e a He. by apply elem_of_nil in He.
Qed.

Lemma db_step_ok s s' : db_ok s -> db_step s s' -> db_ok s'.
Proof.
  intros Hok Hs. destruct (db_step_cases _ _ (ok_good _ Hok) Hs) as [X|[->|(id & E)]].
  - by eapply ext_ok.
  - by apply snapshot_ok.
  - by eapply revert_ok.
Qed.

Lemma reachable_ok c cfg s : rtc db_step (New c cfg) s -> db_ok s.
Proof.
  intros Hr. assert (Hn := New_ok c cfg). induction Hr; [done|]. eauto using db_step_ok.
Qed.

(** The snapshot [id] of the state [s0], as long as it is valid. *)
Record tracks (id : Z) (s0 s : StateDB W) : Prop := {
  tr_ok : db_ok s;
  tr_next : id < nextRevisionID s;
  tr_valid i r : validRevisions s !! i = Some r -> rev_id r = id ->
    rev_journalIndex r = length (journal_entries s0) /\
    take i (validRevisions s) = validRevisions s0 /\
    exists es, journal_entries s = es ++ journal_entries s0 /\ back (journal_entries s0) es s s0
}.

Lemma tracks_start s id s1 : db_ok s -> Snapshot s = (id, s1) -> tracks id s s1.
Proof.
  intros Hok. intros [= <- <-]. constructor.
  - exact (snapshot_ok _ Hok).
  - simpl. lia.
  - simpl. intros i r Hi Hr. apply lookup_app_Some in Hi as [Hi|[Hle Hi]].
    + destruct Hok as [_ _ [_ Rf]]. rewrite Forall_lookup in Rf. destruct (Rf _ _ Hi). lia.
    + apply list_lookup_singleton_Some in Hi as [Hz <-].
      assert (i = length (validRevisions s)) as -> by lia.
      split_and!; [done|by rewrite take_app_length|]. exists []. split; [done|]. split.
      * by apply (below_fields s s).
      * by apply (good_keyed s), ok_good.
Qed.

Lemma tracks_step id s0 s s' : tracks id s0 s -> db_step s s' -> tracks id s0 s'.
Proof.
  intros [Hok Hn Hv] Hs. pose proof (db_step_ok _ _ Hok Hs) as Hok'.
  destruct (db_step_cases _ _ (ok_good _ Hok) Hs) as [X|[->|(id' & E)]].
  - destruct X as [(es' & E' & B') _ R N]. constructor; [done|by rewrite N|]. intros i r. rewrite R.
    intros Hi Hr. destruct (Hv _ _ Hi Hr) as (Hk & Ht & es & Ee & B). split_and!; [done|done|].
    exists (es' ++ es). rewrite E', Ee. split; [by rewrite app_assoc|].
    eapply back_app; [exact B|]. by rewrite <- Ee.
  - constructor; [done|simpl; lia|]. simpl. intros i r Hi Hr.
    apply lookup_app_Some in Hi as [Hi|[Hle Hi]].
    + destruct (Hv _ _ Hi Hr) as (Hk & Ht & es & Ee & B). split_and!; [done| |].
      * rewrite take_app_le; [done|]. apply lookup_lt_Some in Hi. lia.
      * exists es. split; [done|]. eapply back_mono; [|by apply (good_keyed s), ok_good|exact B].
        by apply (below_fields s s).
    + apply list_lookup_singleton_Some in Hi as [_ <-]. simpl in Hr. lia.
  - destruct (RevertToSnapshot_inv _ _ _ Hok E) as (j & r' & Hj & <-).
    destruct (RevertToSnapshot_run _ _ _ Hok Hj) as (u & Hu & Hw & E'). rewrite E' in E.
    injection E as <-. constructor; [done|done|]. simpl. intros i r Hi Hr.
    apply lookup_take_Some in Hi as [Hi Hlt].
    destruct (Hv _ _ Hi Hr) as (Hk & Ht & es & Ee & B). split_and!; [done| |].
    + by rewrite take_take, Nat.min_l by lia.
    + pose proof Hok as [_ _ [Rs Rf]]. destruct (sorted_lookup _ _ _ _ _ _ Rs Hi Hj Hlt) as [_ Hle].
      set (n := (length (journal_entries s) - rev_journalIndex r')%nat) in *.
      assert (Hne : (n <= length es)%nat).
      { subst n. rewrite Ee, length_app, Hk in *. lia. }
      exists (drop n es). unfold journal_entries at 1. simpl. rewrite Ee. split.
      * by rewrite drop_app_le.
      * rewrite Ee, take_app_le in Hu by done.
        pose proof (back_undo _ _ _ _ _ _ Hne B Hu) as B'.
        eapply back_mono; [| |exact B'].
        -- by apply (below_fields u u).
        -- by apply (proj1 (proj2 (winds_level _ _ Hw))).
Qed.

(** Reverting to a snapshot that is tracked and valid. *)
Lemma tracks_revert id s s2 : db_ok s -> tracks id s s2 -> id ∈ map rev_id (validRevisions s2) ->
  exists s3, RevertToSnapshot id s2 = Ok s3 /\ below s s3 /\
    db_journal s3 = db_journal s /\ validRevisions s3 = validRevisions s.
Proof.
  intros Hok [Hok2 _ Hv] Hid.
  apply list_elem_of_fmap in Hid as (r & -> & Hr'). apply list_elem_of_lookup in Hr' as [i Hi].
  destruct (Hv _ _ Hi eq_refl) as (Hk & Ht & es & Ee & B).
  destruct (RevertToSnapshot_run _ _ _ Hok2 Hi) as (u & Hu & Hw & ->). eexists. split; [done|].
  assert (Hn : (length (journal_entries s2) - rev_journalIndex r)%nat = length es).
  { rewrite Ee, length_app, Hk. lia. }
  rewrite Hn, Ee in *. rewrite take_app_length in Hu. rewrite drop_app_length in *.
  pose proof (back_undo (length es) _ _ _ _ u (le_n _) B) as Bu.
  rewrite take_ge, drop_ge in Bu by done. destruct (Bu Hu) as [Hb _]. split_and!.
  - etransitivity; [exact Hb|]. by apply (below_fields u u).
  - simpl. destruct Hok as [_ D _]. unfold dirties_ok, journal_entries in *.
    rewrite <- D. by destruct (db_journal s).
  - done.
Qed.

Lemma tracks_steps id s0 s s' : tracks id s0 s -> rtc db_step s s' -> tracks id s0 s'.
Proof. intros T Hr. induction Hr; eauto using tracks_step. Qed.

End revert.

(** The steps of a transaction: every precompile call is one, refused or not. *)
#[export] Instance unwatched : StoreWatch := False.

Section transactions.
Context {W : Type} `{StateKeeper W, Keccak}.
Implicit Types s : StateDB W.

(** The steps without the calls that a precompile's setup refuses. *)
Definition clean_step : StateDB W -> StateDB W -> Prop := let watched : StoreWatch := True in db_step.

(** C1: Reverting to a snapshot undoes everything that happened since: after any
    sequence of state changes, reads, logs, refunds, access-list additions, precompile
    calls that return (refused, failing or not; a panic ends the transaction)
    and nested snapshots and reverts, as long as the snapshot is still valid,
    [RevertToSnapshot] does not panic and every balance, nonce, code, storage slot,
    self-destruct flag, the refund, the logs and the access list are those of the
    snapshot; so are the journal, its dirty accounts and the list of valid snapshots.
    The store of the precompiles is that of the snapshot too when the setup refused
    none of the calls since (a refused call leaves what it committed there). *)
Theorem RevertToSnapshot_restores c cfg s id s1 s2 :
  rtc db_step (New c cfg) s -> Snapshot s = (id, s1) -> rtc db_step s1 s2 ->
  id ∈ map rev_id (validRevisions s2) ->
  exists s3, RevertToSnapshot id s2 = Ok s3 /\ below s s3 /\
    db_journal s3 = db_journal s /\ validRevisions s3 = validRevisions s /\
    (rtc clean_step s1 s2 -> cache_view s3 = cache_view s).
Proof.
  intros Hr Hs Hr2 Hid. pose proof (reachable_ok _ _ _ Hr) as Hok.
  destruct (tracks_revert id s s2 Hok) as (s3 & E & B & J & R); [|done|].
  { eapply tracks_steps; [|done]. by apply tracks_start. }
  exists s3. split_and!; try done. intros Hc.
  destruct (tracks_revert (watch := True) id s s2 Hok) as (s3' & E' & B' & _); [|done|].
  { eapply tracks_steps; [|exact Hc]. by apply tracks_start. }
  assert (s3' = s3) as -> by congruence. by apply (be_cache _ _ B').
Qed.
End transactions.
