(* ===== verification/StateCommit.v ===== *)
(** * Committing the StateDB

    [StateKeeperLaws] is what [Commit] relies on from the keeper under the
    StateDB; [Commit_writes] shows that a commit leaves the dirty accounts in
    the store as the StateDB has them.  The last part has a small keeper for
    concrete runs, and the run of a failed precompile setup. *)

From S2P Require Import Prelude.
From S2P Require Import AccessList.
From S2P Require Import StateDB.
From S2P Require Import Precompile.
From S2P Require Import StateRevert.

Local Open Scope Z_scope.

(** An account that a store can hold: a balance and a hash of 32 bytes. *)
Definition storable (acct : Account) : Prop :=
  0 <= Balance acct /\ String.length (CodeHash acct) = 32%nat.

#[export] Instance storable_dec acct : Decision (storable acct).
Proof. unfold storable. apply _. Defined.

(** [eth a w]: the account at [a], if there is one, keeps a code hash.  [own] is the
    account of the module that mints and burns. *)
Class StateKeeperLaws (W : Type) `{StateKeeper W} (eth : Address -> W -> Prop) (own : Address)
    : Prop := {
  set_account_get a acct w w' : eth a w -> storable acct ->
    keeper_SetAccount a acct w = (Ok tt, w') -> keeper_GetAccount a w' = Some acct;
  set_account_other a acct w w' b x : keeper_SetAccount a acct w = (Ok tt, w') -> a <> b ->
    keeper_GetAccount b w = Some x -> keeper_GetAccount b w' = Some x;
  set_account_gone a acct w w' b : keeper_SetAccount a acct w = (Ok tt, w') -> a <> b -> b <> own ->
    keeper_GetAccount b w = None -> keeper_GetAccount b w' = None;
  set_account_eth a acct w w' b : keeper_SetAccount a acct w = (Ok tt, w') -> eth b w -> eth b w';
  set_account_state a acct w w' : keeper_SetAccount a acct w = (Ok tt, w') ->
    forall b k, keeper_GetState b k w' = keeper_GetState b k w;
  set_account_code a acct w w' : keeper_SetAccount a acct w = (Ok tt, w') ->
    forall h, keeper_GetCode h w' = keeper_GetCode h w;
  set_state_state a k v w b k' : keeper_GetState b k' (keeper_SetState a k v w) =
    if decide (a = b /\ k = k') then default zero_hash v else keeper_GetState b k' w;
  set_state_account a k v w b : keeper_GetAccount b (keeper_SetState a k v w) = keeper_GetAccount b w;
  set_state_eth a k v w b : eth b w -> eth b (keeper_SetState a k v w);
  set_state_code a k v w h : keeper_GetCode h (keeper_SetState a k v w) = keeper_GetCode h w;
  set_code_code h c w h' : keeper_GetCode h' (keeper_SetCode h c w) =
    if decide (h = h') then (if decide (c = Some EmptyString) then None else c)
    else keeper_GetCode h' w;
  set_code_account h c w b : keeper_GetAccount b (keeper_SetCode h c w) = keeper_GetAccount b w;
  set_code_eth h c w b : eth b w -> eth b (keeper_SetCode h c w);
  set_code_state h c w b k : keeper_GetState b k (keeper_SetCode h c w) = keeper_GetState b k w;
  delete_account_get a w w' : keeper_DeleteAccount a w = (Ok tt, w') ->
    keeper_GetAccount a w' = None /\
    (keeper_GetAccount a w <> None -> forall k, keeper_GetState a k w' = zero_hash);
  delete_account_other a w w' b x : keeper_DeleteAccount a w = (Ok tt, w') -> a <> b ->
    keeper_GetAccount b w = Some x -> keeper_GetAccount b w' = Some x;
  delete_account_gone a w w' b : keeper_DeleteAccount a w = (Ok tt, w') -> a <> b -> b <> own ->
    keeper_GetAccount b w = None -> keeper_GetAccount b w' = None;
  delete_account_eth a w w' b : keeper_DeleteAccount a w = (Ok tt, w') -> eth b w -> eth b w';
  delete_account_state a w w' b k : keeper_DeleteAccount a w = (Ok tt, w') -> a <> b ->
    keeper_GetState b k w' = keeper_GetState b k w;
  delete_account_code a w w' h : keeper_DeleteAccount a w = (Ok tt, w') ->
    keeper_GetCode h w' = keeper_GetCode h w
}.

Section commit.
Context {W : Type} `{StateKeeper W, Keccak} {eth : Address -> W -> Prop} {own : Address}
  `{!StateKeeperLaws W eth own}.
Implicit Types w : W.
Implicit Types o : stateObject.

(** ** One object *)

(** What the commit of [o] leaves alone. *)
Record commit_frame (o : stateObject) (w w' : W) : Prop := {
  cf_account b x : address o <> b -> keeper_GetAccount b w = Some x -> keeper_GetAccount b w' = Some x;
  cf_gone b : address o <> b -> b <> own -> keeper_GetAccount b w = None -> keeper_GetAccount b w' = None;
  cf_state b k : address o <> b -> keeper_GetState b k w' = keeper_GetState b k w;
  cf_eth b : eth b w -> eth b w';
  cf_code h : keeper_GetCode h w' =
    if decide (suicided o = false /\ code o <> None /\ dirtyCode o = true /\ CodeHash (account o) = h)
    then (if decide (code o = Some EmptyString) then None else code o) else keeper_GetCode h w
}.

(** The store holds the object. *)
Definition committed (o : stateObject) (w w' : W) : Prop :=
  if suicided o then
    keeper_GetAccount (address o) w' = None /\
    (keeper_GetAccount (address o) w <> None -> forall k, keeper_GetState (address o) k w' = zero_hash)
  else
    keeper_GetAccount (address o) w' = Some (account o) /\
    forall k, keeper_GetState (address o) k w' =
      default (keeper_GetState (address o) k w) (dirtyStorage o !! k).

Definition write_states (o : stateObject) (w : W) (keys : list Hash) : W :=
  foldl (fun w key => keeper_SetState (address o) key (dirtyStorage o !! key) w) w keys.

Lemma write_states_frame o w keys :
  (forall b, keeper_GetAccount b (write_states o w keys) = keeper_GetAccount b w) /\
  (forall h, keeper_GetCode h (write_states o w keys) = keeper_GetCode h w) /\
  (forall b, eth b w -> eth b (write_states o w keys)) /\
  (forall b k, address o <> b -> keeper_GetState b k (write_states o w keys) = keeper_GetState b k w).
Proof.
  unfold write_states. revert w. induction keys as [|key keys IH]; intros w; simpl; [done|].
  destruct (IH (keeper_SetState (address o) key (dirtyStorage o !! key) w)) as (Ha & Hc & He & Hs).
  split_and!.
  - intros b. by rewrite Ha, set_state_account.
  - intros h. by rewrite Hc, set_state_code.
  - intros b Hb. apply He. by apply set_state_eth.
  - intros b k Hb. rewrite Hs, set_state_state, decide_False; naive_solver.
Qed.

Lemma write_states_get o w keys k : (forall x, x ∈ keys -> is_Some (dirtyStorage o !! x)) ->
  keeper_GetState (address o) k (write_states o w keys) =
  if decide (k ∈ keys) then default zero_hash (dirtyStorage o !! k)
  else keeper_GetState (address o) k w.
Proof.
  unfold write_states. revert w. induction keys as [|key keys IH]; intros w Hk; cbn [foldl].
  { rewrite decide_False; [done|]. by intros ?%elem_of_nil. }
  rewrite IH by (intros x Hx; apply Hk; by apply list_elem_of_further).
  rewrite set_state_state. destruct (decide (k ∈ keys)) as [Hin|Hin].
  - by rewrite decide_True by (by apply list_elem_of_further).
  - destruct (decide (key = k)) as [->|Hne].
    + rewrite !decide_True; [done|by apply list_elem_of_here|done].
    + rewrite !decide_False; [done| |naive_solver]. intros [?|?]%elem_of_cons; congruence.
Qed.

Lemma sorted_keys_spec (m : Storage) k : k ∈ SortedKeys m <-> is_Some (m !! k).
Proof.
  unfold SortedKeys. rewrite merge_sort_Permutation, elem_of_elements. apply elem_of_dom.
Qed.

Lemma write_sorted_states o w k :
  keeper_GetState (address o) k (write_states o w (SortedKeys (dirtyStorage o))) =
  default (keeper_GetState (address o) k w) (dirtyStorage o !! k).
Proof.
  rewrite write_states_get by (intros x; apply sorted_keys_spec).
  destruct (decide (k ∈ SortedKeys (dirtyStorage o))) as [[v E]%sorted_keys_spec|N].
  - by rewrite E.
  - destruct (dirtyStorage o !! k) eqn:E; [|done]. destruct N. apply sorted_keys_spec. by rewrite E.
Qed.

Lemma commit_object_spec o w w' : commit_object o w = (Ok tt, w') -> eth (address o) w ->
  storable (account o) -> committed o w w' /\ commit_frame o w w'.
Proof.
  unfold commit_object, committed. intros E He Hb. destruct (suicided o) eqn:Es.
  - split; [by apply delete_account_get|]. constructor.
    + intros b x Hne Hx. by eapply delete_account_other.
    + intros b Hne Hown Hx. by eapply delete_account_gone.
    + intros b k Hne. by eapply delete_account_state.
    + intros b. by eapply delete_account_eth.
    + intros h. rewrite decide_False by (rewrite Es; naive_solver). by eapply delete_account_code.
  - mrun. match goal with Hset : keeper_SetAccount _ _ ?x = _ |- _ => set (wc := x) in * end.
    assert (H1 : (forall b, keeper_GetAccount b wc = keeper_GetAccount b w) /\
      (forall b k, keeper_GetState b k wc = keeper_GetState b k w) /\
      (forall b, eth b w -> eth b wc) /\
      (forall h, keeper_GetCode h wc =
         if decide (code o <> None /\ dirtyCode o = true /\ CodeHash (account o) = h)
         then (if decide (code o = Some EmptyString) then None else code o) else keeper_GetCode h w)).
    { subst wc. case_bool_decide as Hc; [destruct (dirtyCode o)|]; simpl; split_and!; try done.
      - intros b. apply set_code_account.
      - intros b k. apply set_code_state.
      - intros b. apply set_code_eth.
      - intros h. rewrite set_code_code. destruct (decide (CodeHash (account o) = h)).
        + by rewrite (decide_True (P := _ /\ _)) by done.
        + rewrite decide_False; [done|]. naive_solver.
      - intros h. rewrite decide_False; [done|]. naive_solver.
      - intros h. rewrite decide_False; [done|]. naive_solver. }
    destruct H1 as (Ha1 & Hs1 & He1 & Hc1).
    match goal with Hset : keeper_SetAccount _ _ wc = (Ok ?u, ?w2) |- _ =>
      destruct u; rename Hset into Hset2; set (w3 := w2) in * end.
    destruct (write_states_frame o w3 (SortedKeys (dirtyStorage o))) as (Ha & Hc & Heth & Hs).
    fold (write_states o w3 (SortedKeys (dirtyStorage o))). split; [split|constructor].
    + rewrite Ha. eapply set_account_get; [|done|exact Hset2]. by apply He1.
    + intros k. rewrite write_sorted_states. by rewrite (set_account_state _ _ _ _ Hset2), Hs1.
    + intros b x Hne Hx. rewrite Ha. eapply set_account_other; [exact Hset2|done|]. by rewrite Ha1.
    + intros b Hne Hown Hx. rewrite Ha. eapply set_account_gone; [exact Hset2|done|done|]. by rewrite Ha1.
    + intros b k Hne. rewrite Hs by done. by rewrite (set_account_state _ _ _ _ Hset2), Hs1.
    + intros b Hb'. apply Heth. eapply set_account_eth; [exact Hset2|]. by apply He1.
    + intros h. rewrite Hc, (set_account_code _ _ _ _ Hset2), Hc1.
      destruct (decide (code o <> None /\ _)) as [D|D].
      * by rewrite (decide_True (P := suicided o = false /\ _)) by done.
      * rewrite decide_False; [done|]. naive_solver.
Qed.

(** ** The loop over the dirty accounts *)

Definition unchanged (a : Address) (w w' : W) : Prop :=
  (forall x, keeper_GetAccount a w = Some x -> keeper_GetAccount a w' = Some x) /\
  (a <> own -> keeper_GetAccount a w = None -> keeper_GetAccount a w' = None) /\
  (forall k, keeper_GetState a k w' = keeper_GetState a k w).

Lemma commit_loop_frame m addrs w w' :
  (forall a o, m !! a = Some o -> address o = a /\ storable (account o)) ->
  (forall a, a ∈ addrs -> eth a w) ->
  commit_loop m addrs w = (Ok tt, w') ->
  (forall b, eth b w -> eth b w') /\ forall b, b ∉ addrs -> unchanged b w w'.
Proof.
  intros Hm. revert w. induction addrs as [|a addrs IH]; intros w He; simpl.
  { by intros [= <-]. }
  destruct (m !! a) as [o|] eqn:Eo; [|done]. destruct (Hm _ _ Eo) as [Ea Hb]. intros E. mrun.
  match goal with Hc : commit_object o w = (Ok ?u, ?w2) |- _ => destruct u; rename Hc into Hco, w2 into w1 end.
  destruct (commit_object_spec _ _ _ Hco) as [_ F]; [rewrite Ea; apply He, list_elem_of_here|done|].
  destruct (IH w1) as [Heth Hun]; [|done|].
  { intros b Hb'. apply (cf_eth _ _ _ F), He. by apply list_elem_of_further. }
  split; [intros b Hb'; by apply Heth, (cf_eth _ _ _ F)|].
  intros b [Hne Hnin]%not_elem_of_cons. destruct (Hun b Hnin) as (H1 & H2 & H3). rewrite <- Ea in Hne.
  split_and!.
  - intros x Hx. apply H1. by eapply cf_account.
  - intros Ho Hx. apply H2; [done|]. by eapply cf_gone.
  - intros k. rewrite H3. by eapply cf_state.
Qed.

Lemma committed_later o w w1 w2 : committed o w w1 -> unchanged (address o) w1 w2 ->
  address o <> own -> committed o w w2.
Proof.
  unfold committed. intros C (U1 & U2 & U3) Hown. destruct (suicided o), C as [C1 C2]; (split; [auto|]).
  - intros Hn k. rewrite U3. by apply C2.
  - intros k. by rewrite U3, C2.
Qed.

Lemma committed_earlier o w w1 w2 : unchanged (address o) w w1 -> committed o w1 w2 -> committed o w w2.
Proof.
  unfold committed. intros (U1 & U2 & U3) C. destruct (suicided o), C as [C1 C2]; (split; [done|]).
  - intros Hn. apply C2. destruct (keeper_GetAccount (address o) w) as [x|] eqn:E; [|done].
    by rewrite (U1 x).
  - intros k. by rewrite C2, U3.
Qed.

Lemma commit_loop_spec m addrs w w' a o :
  (forall a o, m !! a = Some o -> address o = a /\ storable (account o)) ->
  (forall a, a ∈ addrs -> eth a w) -> NoDup addrs ->
  commit_loop m addrs w = (Ok tt, w') -> a ∈ addrs -> m !! a = Some o -> a <> own -> committed o w w'.
Proof.
  intros Hm. revert w. induction addrs as [|b addrs IH]; intros w He Hnd; simpl.
  { by intros _ ?%elem_of_nil. }
  destruct (m !! b) as [ob|] eqn:Eo; [|done]. destruct (Hm _ _ Eo) as [Eb Hb]. intros E. mrun.
  match goal with Hc : commit_object ob w = (Ok ?u, ?w2) |- _ => destruct u; rename Hc into Hco, w2 into w1 end.
  apply list.NoDup_cons in Hnd as [Hnin Hnd].
  destruct (commit_object_spec _ _ _ Hco) as [C F]; [rewrite Eb; apply He, list_elem_of_here|done|].
  assert (He1 : forall x, x ∈ addrs -> eth x w1).
  { intros x Hx. apply (cf_eth _ _ _ F), He. by apply list_elem_of_further. }
  intros Ha Ho Hown. destruct (Hm _ _ Ho) as [Eao _].
  destruct (decide (a = b)) as [->|Hne].
  - rewrite Eo in Ho. injection Ho as ->. eapply committed_later; [done| |by rewrite Eao].
    rewrite Eao. destruct (commit_loop_frame m addrs w1 w' Hm He1) as [_ Hun]; [done|]. by apply Hun.
  - apply elem_of_cons in Ha as [?|Ha]; [done|]. eapply committed_earlier; [|by eapply IH].
    rewrite Eao. split_and!.
    + intros x. by eapply cf_account; [|rewrite Eb].
    + intros Hw Hx. eapply cf_gone; eauto. by rewrite Eb.
    + intros k. eapply cf_state; [done|]. by rewrite Eb.
Qed.

Lemma sortedDirties_spec (j : journal W) a : a ∈ sortedDirties j <-> is_Some (dirties j !! a).
Proof.
  unfold sortedDirties. rewrite merge_sort_Permutation, elem_of_elements. apply elem_of_dom.
Qed.

Lemma sortedDirties_nodup (j : journal W) : NoDup (sortedDirties j).
Proof. unfold sortedDirties. rewrite merge_sort_Permutation. apply NoDup_elements. Qed.

(** A dirty account is live. *)
Lemma dirty_live s a : db_ok s -> is_Some (dirties (db_journal s) !! a) ->
  is_Some (stateObjects s !! a).
Proof.
  intros [G D _]. unfold dirties_ok in D. rewrite D. pose proof (winds_level _ _ G) as (_ & _ & Hl).
  intros Ha. assert (exists e, e ∈ journal_entries s /\ Dirtied e = Some a) as (e & He & Hd); [|eauto].
  clear -Ha. induction (journal_entries s) as [|e es IH]; simpl in Ha.
  { rewrite lookup_empty in Ha. by destruct Ha. }
  destruct (Dirtied e) as [b|] eqn:Eb.
  - destruct (decide (b = a)) as [->|N]; [exists e; split; [apply list_elem_of_here|done]|].
    rewrite lookup_insert_ne in Ha by done. destruct (IH Ha) as (e' & ? & ?). exists e'.
    split; [by apply list_elem_of_further|done].
  - destruct (IH Ha) as (e' & ? & ?). exists e'. split; [by apply list_elem_of_further|done].
Qed.

Lemma commit_loop_total m addrs w :
  (forall o w, no_error (fst (commit_object o w)) = true) ->
  (forall a, a ∈ addrs -> is_Some (m !! a)) -> no_error (fst (commit_loop m addrs w)) = true.
Proof.
  intros Ht. revert w. induction addrs as [|a addrs IH]; intros w Hm; simpl; [done|].
  destruct (Hm a) as [o ->]; [apply list_elem_of_here|]. unfold mbind, M_bind.
  specialize (Ht o w). destruct (commit_object o w) as [[u|e|] w1]; simpl in *; try done.
  apply IH. intros b Hb. by apply Hm, list_elem_of_further.
Qed.

(** C27: At the end of a transaction [Commit] meets no missing object: it fails only
    if the keeper does.  When it succeeds, every dirty account is in the store
    exactly as the StateDB has it (nonce, balance, code hash, and each written
    slot), every self-destructed one is gone with its storage, and the accounts
    that are not dirty are as the precompile calls left them. *)
Theorem Commit_writes c cfg s :
  rtc db_step (New c cfg) s ->
  (forall a o, stateObjects s !! a = Some o -> storable (account o)) ->
  (forall a, is_Some (dirties (db_journal s) !! a) -> eth a (cache_view s)) ->
  ((forall o w, no_error (fst (commit_object o w)) = true) -> no_error (fst (Commit s)) = true) /\
  forall s', Commit s = (Ok tt, s') ->
    (forall a o, is_Some (dirties (db_journal s) !! a) -> stateObjects s !! a = Some o -> a <> own ->
       committed o (cache_view s) (ctx s')) /\
    (forall a, dirties (db_journal s) !! a = None -> unchanged a (cache_view s) (ctx s')).
Proof.
  intros Hr Hb He. pose proof (reachable_ok _ _ _ Hr) as Hok.
  assert (Hm : forall a o, stateObjects s !! a = Some o -> address o = a /\ storable (account o)).
  { intros a o Ho. split; [by apply (good_keyed _ (ok_good _ Hok))|by eapply Hb]. }
  assert (He' : forall a, a ∈ sortedDirties (db_journal s) -> eth a (cache_view s)).
  { intros a Ha. by apply He, sortedDirties_spec. }
  unfold Commit, commitWithCtx. fold (cache_view s). split.
  - intros Ht. pose proof (commit_loop_total (stateObjects s) (sortedDirties (db_journal s))
      (cache_view s) Ht) as T. destruct (commit_loop _ _ _). apply T.
    intros a Ha. by apply dirty_live, sortedDirties_spec.
  - intros s'. destruct (commit_loop _ _ _) as [r w'] eqn:E. intros [= -> <-]. simpl. split.
    + intros a o Ha Ho Hown. eapply commit_loop_spec; eauto using sortedDirties_nodup.
      by apply sortedDirties_spec.
    + intros a Ha. destruct (commit_loop_frame _ _ _ _ Hm He' E) as [_ Hu]. apply Hu.
      rewrite sortedDirties_spec, Ha. by intros [? ?].
Qed.
End commit.

(** ** A small keeper and concrete runs *)

Record RefStore := mkRefStore {
  rs_accounts : gmap Address Account;
  rs_states : gmap (Address * Hash) Hash;
  rs_codes : gmap Hash string
}.

Section runs.
#[local] Instance RefStateKeeper : StateKeeper RefStore := {
  keeper_GetAccount a w := rs_accounts w !! a;
  keeper_GetState a k w := default zero_hash (rs_states w !! (a, k));
  keeper_GetCode h w := rs_codes w !! h;
  keeper_SetAccount a acct w :=
    (Ok tt, mkRefStore (<[a := acct]> (rs_accounts w)) (rs_states w) (rs_codes w));
  keeper_SetState a k v w :=
    mkRefStore (rs_accounts w)
      match v with
      | Some v => <[(a, k) := v]> (rs_states w)
      | None => delete (a, k) (rs_states w)
      end (rs_codes w);
  keeper_SetCode h c w :=
    mkRefStore (rs_accounts w) (rs_states w)
      match c with
      | Some c => if decide (c = EmptyString) then delete h (rs_codes w) else <[h := c]> (rs_codes w)
      | None => delete h (rs_codes w)
      end;
  keeper_DeleteAccount a w :=
    match rs_accounts w !! a with
    | None => (Ok tt, w)
    | Some _ => (Ok tt, mkRefStore (delete a (rs_accounts w))
                          (filter (fun kv => kv.1.1 <> a) (rs_states w)) (rs_codes w))
    end
}.
#[local] Instance RefKeccak : Keccak := { Keccak256Hash s := String.substring 0 32 (s +:+ zero_hash) }.

#[local] Instance RefStateLaws : StateKeeperLaws RefStore (fun _ _ => True) "evm".
Proof.
  constructor; simpl; try done.
  - intros a acct w w' _ _ [= <-]. simpl. by rewrite lookup_insert_eq.
  - intros a acct w w' b x [= <-] Hne Hx. simpl. by rewrite lookup_insert_ne.
  - intros a acct w w' b [= <-] Hne _ Hx. simpl. by rewrite lookup_insert_ne.
  - by intros a acct w w' [= <-].
  - by intros a acct w w' [= <-].
  - intros a k [v|] w b k'; simpl; case_decide as D.
    + destruct D as [-> ->]. by rewrite lookup_insert_eq.
    + rewrite lookup_insert_ne; [done|]. naive_solver.
    + destruct D as [-> ->]. by rewrite lookup_delete_eq.
    + rewrite lookup_delete_ne; [done|]. naive_solver.
  - intros h [c|] w h'; simpl; repeat case_decide; simplify_eq; simpl;
      by rewrite ?lookup_insert_eq, ?lookup_delete_eq, ?lookup_insert_ne, ?lookup_delete_ne by done.
  - intros a w w'. destruct (rs_accounts w !! a) eqn:E; intros [= <-]; simpl; [|by rewrite E].
    rewrite lookup_delete_eq. split; [done|]. intros _ k.
    rewrite (map_lookup_filter_None_2 _ _ (a, k)); [done|]. right. intros ? _. simpl. naive_solver.
  - intros a w w' b x. destruct (rs_accounts w !! a); intros [= <-] Hne Hx; [|done]. simpl.
    by rewrite lookup_delete_ne.
  - intros a w w' b. destruct (rs_accounts w !! a); intros [= <-] Hne _ Hx; [|done]. simpl.
    by rewrite lookup_delete_ne.
  - intros a w w' b k. destruct (rs_accounts w !! a); intros [= <-] Hne; [|done]. simpl. f_equal.
    destruct (rs_states w !! (b, k)) as [v|] eqn:E.
    + apply map_lookup_filter_Some. split; [done|]. simpl. congruence.
    + apply map_lookup_filter_None. by left.
  - intros a w w' h. by destruct (rs_accounts w !! a); intros [= <-].
Qed.

Definition ex_cfg : TxConfig := NewEmptyTxConfig "block".
Definition ex_store : RefStore := mkRefStore {[ "A" := mkAccount 3 100 (Keccak256Hash "") ]} ∅ ∅.
Definition ex_db : StateDB RefStore := New ex_store ex_cfg.
(** A precompile without fallback, called with an unknown selector. *)
Definition ex_abi : ABI := mkABI None None (fun _ => None).
Definition ex_call : Contract := mkContract "abcd" 0 1000.
Definition ex_run : M (StateDB RefStore) unit :=
  Run "P" ex_abi ex_call false (fun _ => true) 0 (fun _ => mret (mkEffect [] [] true)).

Definition ex_dirty : StateDB RefStore :=
  SetNonce "A" 4 (SetState "A" "slot" "value" (AddBalance "B" 5 (snd (Snapshot ex_db)))).

Lemma ex_dirty_reachable {watch : StoreWatch} : rtc db_step (snd (Snapshot ex_db)) ex_dirty.
Proof.
  eapply rtc_l; [apply (step_AddBalance "B" 5)|]. eapply rtc_l; [apply (step_SetState "A" "slot" "value")|].
  apply rtc_once, step_SetNonce.
Qed.

Lemma ex_dirty_balances :
  map_Forall (fun _ o => storable (account o)) (stateObjects ex_dirty).
Proof. apply (bool_decide_unpack _). vm_compute. exact I. Qed.

(** The changes of [ex_dirty], then a call that the precompile's setup refuses. *)
Definition ex_refused : StateDB RefStore := snd (ex_run ex_dirty).

Lemma ex_refused_reachable : rtc db_step (snd (Snapshot ex_db)) ex_refused.
Proof.
  eapply rtc_r; [exact ex_dirty_reachable|].
  eapply (step_Run "P" ex_abi ex_call false (fun _ => true) 0 (fun _ => mret (mkEffect [] [] true))
            ex_dirty (Err (ErrExternal "no method with id"))); done.
Qed.

Lemma RevertToSnapshot_restores_witness :
  (exists s3, RevertToSnapshot 0 ex_refused = Ok s3 /\ below ex_db s3 /\ db_journal s3 = newJournal) /\
  (exists s3, RevertToSnapshot 0 ex_dirty = Ok s3 /\ cache_view s3 = ex_store).
Proof.
  split.
  - destruct (RevertToSnapshot_restores ex_store ex_cfg ex_db 0 (snd (Snapshot ex_db)) ex_refused)
      as (s3 & E & B & J & _).
    + apply rtc_refl.
    + reflexivity.
    + exact ex_refused_reachable.
    + vm_compute. by left.
    + exists s3. split; [exact E|]. split; [exact B|exact J].
  - destruct (RevertToSnapshot_restores ex_store ex_cfg ex_db 0 (snd (Snapshot ex_db)) ex_dirty)
      as (s3 & E & _ & _ & _ & C).
    + apply rtc_refl.
    + reflexivity.
    + exact ex_dirty_reachable.
    + vm_compute. by left.
    + exists s3. split; [exact E|]. exact (C ex_dirty_reachable).
Defined.

Lemma Commit_writes_witness : no_error (fst (Commit ex_dirty)) = true.
Proof.
  destruct (Commit_writes ex_store ex_cfg ex_dirty) as [T _].
  - eapply rtc_l; [apply (step_Snapshot ex_db)|]. exact ex_dirty_reachable.
  - exact ex_dirty_balances.
  - done.
  - apply T. intros o w. unfold commit_object. destruct (suicided o); [|reflexivity].
    simpl. by destruct (rs_accounts w !! address o).
Defined.

(** The counter of precompile calls is a [uint8]: the eighth call is refused, the
    257th is not. *)
Lemma precompile_limit_wraps :
  let call s := AddPrecompileFn "P" ex_store s in
  let after n := Nat.iter n (fun s => snd (call s)) ex_db in
  fst (call (after 7%nat)) = Err (ErrText "max calls to precompiles reached") /\
  fst (call (after 256%nat)) = Ok tt.
Proof. vm_compute. done. Qed.

(** A precompile call that [RunSetup] rejects after it has committed the journal to
    the cached store is not undone: account [A] writes a slot, calls a precompile with
    an unknown selector, and everything is reverted; the StateDB reads the slot as
    zero, yet [Commit] writes the cached store and with it the reverted value. *)
Theorem rejected_call_escapes_revert :
  let s1 := SetState "A" "slot" "value" (snd (Snapshot ex_db)) in
  let '(r, s2) := ex_run s1 in
  r = Err (ErrExternal "no method with id") /\
  match RevertToSnapshot 0 s2 with
  | Ok s3 =>
      fst (GetState "A" "slot" s3) = zero_hash /\ dirties (db_journal s3) = ∅ /\
      match Commit s3 with
      | (Ok _, s4) => keeper_GetState "A" "slot" (ctx s4) = "value"
      | _ => False
      end
  | _ => False
  end.
Proof. vm_compute. done. Qed.
End runs.
