(* ===== verification/EvmParams.v ===== *)
(** * x/evm/types: the parameters of the module, and their store (x/evm/keeper/params.go)

    [Params] with the access control and the fork schedule.  The codec keeps a value as it is; before
    the migration to the module's own store the parameters are those of the legacy subspace. *)

From S2P Require Import Prelude.

Local Open Scope Z_scope.

(** An enum of the protobuf messages: any number can be stored. *)
Definition AccessTypePermissionless : Z := 0.
Definition AccessTypeRestricted : Z := 1.
Definition AccessTypePermissioned : Z := 2.

Record AccessControlType := mkAccessControlType {
  AccessType : Z;
  AccessControlList : list string
}.

Record AccessControl := mkAccessControl {
  ac_Create : AccessControlType;
  ac_Call : AccessControlType
}.

(** The heights of the forks; [None] is nil. *)
Record ChainConfig := mkChainConfig {
  HomesteadBlock : option Z;
  DAOForkBlock : option Z;
  DAOForkSupport : bool;
  EIP150Block : option Z;
  EIP150Hash : string;
  EIP155Block : option Z;
  EIP158Block : option Z;
  ByzantiumBlock : option Z;
  ConstantinopleBlock : option Z;
  PetersburgBlock : option Z;
  IstanbulBlock : option Z;
  MuirGlacierBlock : option Z;
  BerlinBlock : option Z;
  LondonBlock : option Z;
  ArrowGlacierBlock : option Z;
  GrayGlacierBlock : option Z;
  MergeNetsplitBlock : option Z;
  ShanghaiBlock : option Z;
  CancunBlock : option Z
}.

Record Params := mkParams {
  EvmDenom : string;
  ExtraEIPs : list string;
  chain_config : ChainConfig;
  AllowUnprotectedTxs : bool;
  EVMChannels : list string;
  access_control : AccessControl;
  ActiveStaticPrecompiles : list string
}.

Record ParamsStore := mkParamsStore { stored_params : option Params; legacy_params : Params }.

Definition GetLegacyParams (s : ParamsStore) : Params := legacy_params s.

Definition GetParams (s : ParamsStore) : Params :=
  match stored_params s with None => GetLegacyParams s | Some p => p end.

Definition set_params (p : Params) (s : ParamsStore) : ParamsStore := mkParamsStore (Some p) (legacy_params s).

Definition NewParams (evmDenom : string) (allowUnprotectedTxs : bool) (config : ChainConfig) (extraEIPs activeStaticPrecompiles
    evmChannels : list string) (accessControl : AccessControl) : Params :=
  mkParams evmDenom extraEIPs config allowUnprotectedTxs evmChannels accessControl activeStaticPrecompiles.

(** ** Defaults *)

Definition DefaultEVMDenom : string := "aISLM".

Definition P256PrecompileAddress : string := "0x0000000000000000000000000000000000000100".
Definition Bech32PrecompileAddress : string := "0x0000000000000000000000000000000000000400".
Definition StakingPrecompileAddress : string := "0x0000000000000000000000000000000000000800".
Definition DistributionPrecompileAddress : string := "0x0000000000000000000000000000000000000801".
Definition ICS20PrecompileAddress : string := "0x0000000000000000000000000000000000000802".
Definition BankPrecompileAddress : string := "0x0000000000000000000000000000000000000804".
Definition EthiqPrecompileAddress : string := "0x0000000000000000000000000000000000000900".
Definition UcdaoPrecompileAddress : string := "0x0000000000000000000000000000000000000901".
Definition LiquidPrecompileAddress : string := "0x0000000000000000000000000000000000000902".

Definition DefaultStaticPrecompiles : list string :=
  [P256PrecompileAddress; Bech32PrecompileAddress; StakingPrecompileAddress; DistributionPrecompileAddress;
   ICS20PrecompileAddress; BankPrecompileAddress; EthiqPrecompileAddress; UcdaoPrecompileAddress;
   LiquidPrecompileAddress].

Definition DefaultExtraEIPs : list string := ["ethereum_3855"].

Definition DefaultAccessControl : AccessControl :=
  mkAccessControl (mkAccessControlType AccessTypePermissionless []) (mkAccessControlType AccessTypePermissionless []).

(** [common.Hash] of zeroes as text. *)
Definition zero_hash_text : string := "0x0000000000000000000000000000000000000000000000000000000000000000".

Definition DefaultChainConfig : ChainConfig :=
  let zero := Some 0 in
  mkChainConfig zero zero true zero zero_hash_text zero zero zero zero zero zero zero zero zero zero zero zero zero zero.

Definition DefaultParams : Params :=
  mkParams DefaultEVMDenom DefaultExtraEIPs DefaultChainConfig false [] DefaultAccessControl DefaultStaticPrecompiles.
