(* ===== verification/EvmKeeper.v ===== *)
(** * x/evm/keeper/statedb.go and the account readers of x/evm/keeper/keeper.go

    The keeper under the StateDB: an EVM account is an account of x/auth and the
    balance of the EVM denomination in x/bank; storage and code are in the module's own
    store.  [evm_keeper_laws] shows that it keeps the contract the StateDB relies
    on. *)

From S2P Require Import Prelude.
From S2P Require Import AccessList.
From S2P Require Import StateDB.
From S2P Require Import StateCommit.
From S2P Require Import EvmParams.
From S2P Require Import Sdk.
From S2P Require Import ClawbackAccount.
From S2P Require Import Keepers.

Local Open Scope Z_scope.

(** The module's store: contract storage, code by hash, and the parameters. *)
Record EvmState := mkEvmState {
  es_storage : gmap (string * string) string;
  es_code : gmap string string;
  es_params : ParamsStore
}.

(** The denomination of the EVM's coin. *)
Definition es_denom (st : EvmState) : string := EvmDenom (GetParams (es_params st)).

Definition ModuleName : string := "evm".

(** [AccountKeeper.RemoveAccount] of x/auth. *)
Class AccountRemoval (W : Type) := { RemoveAccount : Account -> W -> W }.

Class AccountRemovalLaws (W : Type) `{AccountKeeper W, BankKeeper W, AccountRemoval W, Lens W EvmState}
    : Prop := {
  get_remove_eq acc w : GetAccount (acc_address acc) (RemoveAccount acc w) = None;
  get_remove_ne acc a w : acc_address acc <> a -> GetAccount a (RemoveAccount acc w) = GetAccount a w;
  remove_balance acc a d w : GetBalance a d (RemoveAccount acc w) = GetBalance a d w;
  remove_view acc w : view (RemoveAccount acc w) = view w
}.

(** A transfer creates at most the account of its recipient, and minting and
    burning at most the module's. *)
Class BankCreates (W : Type) `{AccountKeeper W, ModuleBank W} : Prop := {
  to_module_creates from m cs w w' a : SendCoinsFromAccountToModule from m cs w = (Ok tt, w') ->
    a <> GetModuleAddress m -> GetAccount a w' = GetAccount a w;
  from_module_creates m to cs w w' a : SendCoinsFromModuleToAccount m to cs w = (Ok tt, w') ->
    a <> to -> GetAccount a w' = GetAccount a w;
  mint_creates m cs w w' a : MintCoins m cs w = (Ok tt, w') ->
    a <> GetModuleAddress m -> GetAccount a w' = GetAccount a w;
  burn_creates m cs w w' a : BurnCoins m cs w = (Ok tt, w') ->
    a <> GetModuleAddress m -> GetAccount a w' = GetAccount a w
}.

Section keeper.
Context {W : Type} `{SdkOps} `{EthOps} `{Ctx W} `{AccountKeeper W} `{BankKeeper W} `{ModuleBank W}
  `{AccountRemoval W} `{Lens W EvmState}.

#[local] Instance EvmKeccak : Keccak := { Keccak256Hash := Keccak256 }.

(** ** Readers *)

Definition evm_GetState (addr key : string) (w : W) : string :=
  default zero_hash (es_storage (view w) !! (addr, key)).

Definition evm_GetCode (codeHash : string) (w : W) : Code := es_code (view w) !! codeHash.

Definition evm_GetBalance (addr : string) (w : W) : Z :=
  let evmDenom := es_denom (view w) in
  if bool_decide (evmDenom = EmptyString) then -1 else GetBalance addr evmDenom w.

(** [EthAccountI.GetCodeHash]; both Ethereum account types have one. *)
Definition account_code_hash (acc : Account) : string :=
  match acc with
  | EthAcc _ codeHash => HexToHash codeHash
  | ClawbackAcc va => GetCodeHash va
  | OtherAcc _ => ClawbackAccount.emptyCodeHash
  end.

(** The nonce and the code hash. *)
Definition GetAccountWithoutBalance (addr : string) (w : W) : option (Z * string) :=
  acct ← GetAccount addr w; Some (Sequence (acc_base acct), account_code_hash acct).

Definition evm_GetAccount (addr : string) (w : W) : option StateDB.Account :=
  '(nonce, codeHash) ← GetAccountWithoutBalance addr w;
  Some (mkAccount nonce (evm_GetBalance addr w) codeHash).

(** The keys [ForEachStorage] visits, in the order of the store. *)
Definition storage_keys (addr : string) (w : W) : list string :=
  merge_sort String.le
    (omap (fun ak => if decide (ak.1 = addr) then Some ak.2 else None)
       (elements (dom (es_storage (view w))))).

(** ** Writers *)

Definition evm_SetState (addr key : string) (value : option string) (w : W) : W :=
  let st := view w in
  update (mkEvmState
    match value with
    | None => delete (addr, key) (es_storage st)
    | Some v => <[(addr, key) := v]> (es_storage st)
    end (es_code st) (es_params st)) w.

Definition evm_SetCode (codeHash : string) (code : Code) (w : W) : W :=
  let st := view w in
  update (mkEvmState (es_storage st)
    (if decide (default EmptyString code = EmptyString) then delete codeHash (es_code st)
     else <[codeHash := default EmptyString code]> (es_code st)) (es_params st)) w.

Definition SetBalance (addr : string) (amount : Z) : M W unit := fun w =>
  let denom := es_denom (view w) in
  let balance := GetBalance addr denom w in
  let delta := amount - balance in
  (if 0 <? delta then
     coin ← mlift (NewCoin denom delta);
     coins ← mlift (NewCoins [coin]);
     MintCoins ModuleName coins;;
     SendCoinsFromModuleToAccount ModuleName addr coins
   else if delta <? 0 then
     coin ← mlift (NewCoin denom (- delta));
     coins ← mlift (NewCoins [coin]);
     SendCoinsFromAccountToModule addr ModuleName coins;;
     BurnCoins ModuleName coins
   else mret tt) w.

Definition SetSequence (n : Z) (b : BaseAccount) : BaseAccount :=
  mkBaseAccount (Address b) (AccountNumber b) n.

(** [acct.SetSequence], and [SetCodeHash] when the account has one. *)
Definition account_set (nonce : Z) (codeHash : string) (acc : Account) : Account :=
  match acc with
  | EthAcc b _ => EthAcc (SetSequence nonce b) (HashHex codeHash)
  | ClawbackAcc va =>
      let bva := BVA va in
      ClawbackAcc (SetCodeHash codeHash
        (mkCVA (mkBVA (SetSequence nonce (BaseAcc bva)) (OriginalVesting bva) (DelegatedFree bva)
                  (DelegatedVesting bva) (EndTime bva))
           (FunderAddress va) (StartTime va) (LockupPeriods va) (VestingPeriods va) (CodeHash va)))
  | OtherAcc b => OtherAcc (SetSequence nonce b)
  end.

(** [AccountKeeper.NewAccountWithAddress] with the chain's [ProtoAccount]. *)
Definition NewAccountWithAddress (addr : string) (w : W) : Account * W :=
  NewAccount (EthAcc (mkBaseAccount addr 0 0) (HashHex ClawbackAccount.emptyCodeHash)) w.

Definition evm_SetAccount (addr : string) (account : StateDB.Account) : M W unit := fun w =>
  let '(acct, w) :=
    match GetAccount addr w with
    | Some acct => (acct, w)
    | None => NewAccountWithAddress addr w
    end in
  let acct := account_set (Nonce account) (StateDB.CodeHash account) acct in
  SetBalance addr (Balance account) (SetAccount acct w).

Definition evm_DeleteAccount (addr : string) : M W unit := fun w =>
  match GetAccount addr w with
  | None => (Ok tt, w)
  | Some (OtherAcc _) => (Err (ErrText "invalid account"), w)
  | Some acct =>
      (SetBalance addr 0;;
       mmodify (fun w => foldl (fun w key => evm_SetState addr key None w) w (storage_keys addr w));;
       mmodify (RemoveAccount acct)) w
  end.

#[export] Instance EvmStateKeeper : StateKeeper W := {
  keeper_GetAccount := evm_GetAccount;
  keeper_GetState := evm_GetState;
  keeper_GetCode := evm_GetCode;
  keeper_SetAccount := evm_SetAccount;
  keeper_SetState := evm_SetState;
  keeper_SetCode := evm_SetCode;
  keeper_DeleteAccount := evm_DeleteAccount
}.
End keeper.

(** ** The contract with the StateDB *)

Section laws.
Context {W : Type} `{SdkLaws} `{EthLaws} `{Ctx W} `{AccountKeeper W} `{BankKeeper W}
  `{DistributionKeeper W} `{ModuleBank W} `{AccountRemoval W} `{Lens W EvmState}
  `{!KeeperLaws W} `{!ModuleBankLaws W} `{!ModuleState W EvmState}
  `{!AccountRemovalLaws W} `{!BankCreates W}.
Implicit Types w : W.

#[local] Existing Instance EvmKeccak.

Abbreviation module_address := (GetModuleAddress ModuleName).

(** There is an EVM denomination, and the account at [a] keeps a code hash. *)
Definition eth_account (a : string) (w : W) : Prop :=
  es_denom (view w) <> EmptyString /\ forall b, GetAccount a w <> Some (OtherAcc b).

(** [w'] has the accounts of [w], up to new ones at [a] and of the module. *)
Definition accounts_kept (a : string) (w w' : W) : Prop :=
  (forall b acc, GetAccount b w = Some acc -> GetAccount b w' = Some acc) /\
  (forall b, b <> a -> b <> module_address -> GetAccount b w' = GetAccount b w) /\
  (forall b, eth_account b w -> eth_account b w').

Lemma grow_some w w' b acc :
  accounts_grow w w' -> GetAccount b w = Some acc -> GetAccount b w' = Some acc.
Proof. intros Hg E. destruct (Hg b) as [->|(E' & _)]; [done|congruence]. Qed.

Lemma grow_eth w w' b : view (S:=EvmState) w' = view w -> accounts_grow w w' ->
  eth_account b w -> eth_account b w'.
Proof.
  intros V Hg [Hd Ho]. split; [by rewrite V|]. intros x. destruct (Hg b) as [->|(_ & y & h & ->)]; [done|].
  done.
Qed.

Lemma grow_trans w1 w2 w3 : accounts_grow w1 w2 -> accounts_grow w2 w3 -> accounts_grow w1 w3.
Proof.
  intros G1 G2 a. destruct (G2 a) as [->|(E & Hx)]; [apply G1|]. right. split; [|done].
  destruct (G1 a) as [<-|(? & ? & ? & ?)]; [done|congruence].
Qed.

Lemma single_coin d x c cs : 0 < x -> NewCoin d x = Ok c -> NewCoins [c] = Ok cs ->
  cs = [mkCoin d x] /\ operand cs.
Proof.
  intros Hx (-> & _ & Hv)%new_coin_inv E. rewrite new_coins_one, decide_False in E by (done || lia).
  injection E as <-. split; [done|]. apply operand_single. lia.
Qed.

Lemma SetBalance_facts a x w w' : SetBalance a x w = (Ok tt, w') ->
  view (S:=EvmState) w' = view w /\ accounts_kept a w w' /\
  GetBalance a (es_denom (view w)) w' = x /\
  forall b d, b <> a -> GetBalance b d w' = GetBalance b d w.
Proof.
  unfold SetBalance. set (d0 := es_denom (view w)). set (bal := GetBalance a d0 w).
  assert (Hk : forall w1 w2, accounts_grow w w1 -> accounts_grow w1 w2 ->
    view (S:=EvmState) w1 = view w -> view (S:=EvmState) w2 = view w1 ->
    (forall b, b <> a -> b <> module_address -> GetAccount b w2 = GetAccount b w) ->
    accounts_kept a w w2).
  { intros w1 w2 G1 G2 V1 V2 Hs. pose proof (grow_trans _ _ _ G1 G2) as G. split_and!; [|done|].
    - intros b acc. by apply grow_some.
    - intros b. apply grow_eth; [congruence|done]. }
  destruct (Z.ltb_spec 0 (x - bal)) as [Hlt|Hge]; [|destruct (Z.ltb_spec (x - bal) 0) as [Hlt|Heq]].
  - intros E. mrun. match goal with Hc : NewCoin _ _ = Ok _, Hcs : NewCoins _ = Ok _ |- _ =>
      destruct (single_coin _ _ _ _ Hlt Hc Hcs) as [-> Hop] end.
    match goal with Hm : MintCoins _ _ w = (Ok ?u, ?w1) |- _ => destruct u; rename Hm into Hmint, w1 into wm end.
    destruct (mint_ok _ _ _ _ Hop Hmint) as [Hi [Gm _]].
    destruct (from_module_ok _ _ _ _ _ Hop E) as [Hmv [Gs _]].
    pose proof (mint_view _ _ _ _ _ Hmint) as V1. pose proof (from_module_view _ _ _ _ _ _ E) as V2.
    split_and!; [congruence| | |].
    + apply (Hk wm w'); try done. intros b Hb Hb'.
      by rewrite (from_module_creates _ _ _ _ _ _ E Hb), (mint_creates _ _ _ _ _ Hmint Hb').
    + rewrite Hmv, Hi, !amt_single, !(decide_True (P := d0 = d0)) by done. fold bal.
      repeat case_decide; congruence || lia.
    + intros b d Hb. rewrite Hmv, Hi. rewrite (decide_False (P := b = a)) by done.
      repeat case_decide; lia.
  - assert (Hneg : 0 < - (x - bal)) by lia.
    intros E. mrun. match goal with Hc : NewCoin _ _ = Ok _, Hcs : NewCoins _ = Ok _ |- _ =>
      destruct (single_coin _ _ _ _ Hneg Hc Hcs) as [-> Hop] end.
    match goal with Hm : SendCoinsFromAccountToModule _ _ _ w = (Ok ?u, ?w1) |- _ =>
      destruct u; rename Hm into Hsend, w1 into ws end.
    destruct (to_module_ok _ _ _ _ _ Hop Hsend) as [Hmv [Gs _]].
    destruct (burn_ok _ _ _ _ Hop E) as [Hi [Gm _]].
    pose proof (to_module_view _ _ _ _ _ _ Hsend) as V1. pose proof (burn_view _ _ _ _ _ E) as V2.
    split_and!; [congruence| | |].
    + apply (Hk ws w'); try done. intros b Hb Hb'.
      by rewrite (burn_creates _ _ _ _ _ E Hb'), (to_module_creates _ _ _ _ _ _ Hsend Hb').
    + rewrite Hi, Hmv, !amt_single, !(decide_True (P := d0 = d0)) by done. fold bal.
      repeat case_decide; congruence || lia.
    + intros b d Hb. rewrite Hi, Hmv. rewrite (decide_False (P := b = a)) by done.
      repeat case_decide; lia.
  - intros [= <-]. split_and!; try done. fold bal. lia.
Qed.

Lemma account_set_address nonce h acc : acc_address (account_set nonce h acc) = acc_address acc.
Proof. by destruct acc as [? ?|[]|?]. Qed.

(** The account that [SetAccount] stores. *)
Lemma evm_SetAccount_facts a account w w' : evm_SetAccount a account w = (Ok tt, w') ->
  exists acc, (GetAccount a w = Some acc \/ GetAccount a w = None /\ exists b h, acc = EthAcc b h) /\
    GetAccount a w' = Some (account_set (Nonce account) (StateDB.CodeHash account) acc) /\
    view (S:=EvmState) w' = view w /\
    (forall b acc, b <> a -> GetAccount b w = Some acc -> GetAccount b w' = Some acc) /\
    (forall b, b <> a -> b <> module_address -> GetAccount b w' = GetAccount b w) /\
    (forall b, b <> a -> eth_account b w -> eth_account b w') /\
    GetBalance a (es_denom (view w)) w' = Balance account /\
    forall b d, b <> a -> GetBalance b d w' = GetBalance b d w.
Proof.
  unfold evm_SetAccount. intros E.
  set (p := match GetAccount a w with Some acct => (acct, w) | None => NewAccountWithAddress a w end) in E.
  assert (P : exists acc w1, p = (acc, w1) /\ acc_address acc = a /\
    (GetAccount a w = Some acc \/ GetAccount a w = None /\ exists b h, acc = EthAcc b h) /\
    view (S:=EvmState) w1 = view w /\ (forall b, GetAccount b w1 = GetAccount b w) /\
    (forall b d, GetBalance b d w1 = GetBalance b d w)).
  { subst p. destruct (GetAccount a w) as [acc|] eqn:Ea.
    - exists acc, w. split_and!; auto. by eapply get_address.
    - unfold NewAccountWithAddress. set (proto := EthAcc _ _).
      destruct (new_account_spec proto w) as (n & w1 & En & Ga & Gb & _).
      pose proof (new_account_view (S:=EvmState) proto w) as V. rewrite En in V |- *. simpl in V.
      eexists _, w1. split_and!; [done|done| |done|done|done]. right. split; [done|].
      simpl. eauto. }
  destruct P as (acc & w1 & -> & Had & Hor & V1 & Ga1 & Gb1).
  set (acc' := account_set _ _ acc) in *.
  assert (Had' : acc_address acc' = a) by (subst acc'; by rewrite account_set_address).
  destruct (SetBalance_facts _ _ _ _ E) as (V2 & (K1 & K2 & K3) & Hbal & Hoth).
  rewrite set_account_view, V1 in V2. rewrite set_account_view, V1 in Hbal.
  exists acc. split_and!; try done.
  - apply K1. rewrite <- Had' at 1. apply get_set_eq.
  - intros b x Hb Hx. apply K1. by rewrite get_set_ne, Ga1 by congruence.
  - intros b Hb Hm. rewrite K2 by done. by rewrite get_set_ne, Ga1 by congruence.
  - intros b Hb [Hd Ho]. apply K3. split; [by rewrite set_account_view, V1|].
    intros x. rewrite get_set_ne, Ga1 by congruence. apply Ho.
  - intros b d Hb. rewrite Hoth by done. by rewrite set_balance, Gb1.
Qed.

(** The EVM account of an address depends on its account, its balance and the
    denomination. *)
Lemma evm_GetAccount_same b w w' x : es_denom (view (S:=EvmState) w') = es_denom (view w) ->
  (forall acc, GetAccount b w = Some acc -> GetAccount b w' = Some acc) ->
  (forall d, GetBalance b d w' = GetBalance b d w) ->
  evm_GetAccount b w = Some x -> evm_GetAccount b w' = Some x.
Proof.
  unfold evm_GetAccount, GetAccountWithoutBalance, evm_GetBalance. intros V Ha Hb.
  destruct (GetAccount b w) as [acc|] eqn:E; [|done]. rewrite (Ha acc), V, Hb by done. done.
Qed.

Lemma evm_GetAccount_none b w : evm_GetAccount b w = None <-> GetAccount b w = None.
Proof.
  unfold evm_GetAccount, GetAccountWithoutBalance. by destruct (GetAccount b w).
Qed.

Lemma evm_SetState_frame a k v w :
  (forall b, evm_GetAccount b (evm_SetState a k v w) = evm_GetAccount b w) /\
  (forall b, GetAccount b (evm_SetState a k v w) = GetAccount b w) /\
  (forall b d, GetBalance b d (evm_SetState a k v w) = GetBalance b d w) /\
  (forall h, evm_GetCode h (evm_SetState a k v w) = evm_GetCode h w) /\
  es_denom (view (evm_SetState a k v w)) = es_denom (view w).
Proof.
  unfold evm_SetState, evm_GetAccount, GetAccountWithoutBalance, evm_GetBalance, evm_GetCode.
  split_and!; intros; rewrite ?view_update, ?update_account, ?update_balance; try done.
Qed.

Lemma evm_SetState_state a k v w b k' : evm_GetState b k' (evm_SetState a k v w) =
  if decide (a = b /\ k = k') then default zero_hash v else evm_GetState b k' w.
Proof.
  unfold evm_GetState, evm_SetState. rewrite view_update. simpl. destruct v as [v|]; case_decide as D.
  - destruct D as [-> ->]. by rewrite lookup_insert_eq.
  - rewrite lookup_insert_ne; [done|]. intros [= -> ->]. by destruct D.
  - destruct D as [-> ->]. by rewrite lookup_delete_eq.
  - rewrite lookup_delete_ne; [done|]. intros [= -> ->]. by destruct D.
Qed.

(** Deleting an account's slots. *)
Definition clear_states (a : string) (w : W) (keys : list string) : W :=
  foldl (fun w key => evm_SetState a key None w) w keys.

Lemma clear_states_facts a w keys :
  (forall b, GetAccount b (clear_states a w keys) = GetAccount b w) /\
  (forall b d, GetBalance b d (clear_states a w keys) = GetBalance b d w) /\
  (forall h, evm_GetCode h (clear_states a w keys) = evm_GetCode h w) /\
  es_denom (view (clear_states a w keys)) = es_denom (view w) /\
  (forall b k, evm_GetState b k (clear_states a w keys) =
     if decide (a = b /\ k ∈ keys) then zero_hash else evm_GetState b k w).
Proof.
  unfold clear_states. revert w. induction keys as [|key keys IH]; intros w; cbn [foldl].
  { split_and!; try done. intros b k. rewrite decide_False; [done|]. by intros [_ ?%elem_of_nil]. }
  destruct (IH (evm_SetState a key None w)) as (Ia & Ib & Ic & Id & Is).
  destruct (evm_SetState_frame a key None w) as (_ & Fa & Fb & Fc & Fd).
  split_and!; [intros; by rewrite Ia|intros; by rewrite Ib|intros; by rewrite Ic|by rewrite Id|].
  intros b k. rewrite Is, evm_SetState_state. simpl default.
  destruct (decide (a = b /\ k ∈ keys)) as [[-> Hk]|D1].
  - rewrite decide_True; [done|]. split; [done|]. by apply list_elem_of_further.
  - destruct (decide (a = b /\ key = k)) as [[-> ->]|D2].
    + rewrite decide_True; [done|]. split; [done|]. apply list_elem_of_here.
    + rewrite decide_False; [done|]. intros [-> [->|Hk]%elem_of_cons]; [by apply D2|by apply D1].
Qed.

Lemma storage_keys_spec a w k : k ∈ storage_keys a w <-> is_Some (es_storage (view w) !! (a, k)).
Proof.
  unfold storage_keys. rewrite merge_sort_Permutation, list_elem_of_omap. split.
  - intros ([x y] & Hin & Hf). simpl in Hf. case_decide; [|done]. simplify_eq.
    by apply elem_of_elements, elem_of_dom in Hin.
  - intros Hs. exists (a, k). split; [by apply elem_of_elements, elem_of_dom|]. simpl.
    by rewrite decide_True.
Qed.

Lemma clear_all a w k : evm_GetState a k (clear_states a w (storage_keys a w)) = zero_hash.
Proof.
  destruct (clear_states_facts a w (storage_keys a w)) as (_ & _ & _ & _ & Hs). rewrite Hs.
  case_decide as D; [done|]. unfold evm_GetState.
  destruct (es_storage (view w) !! (a, k)) eqn:E; [|done]. destruct D. split; [done|].
  apply storage_keys_spec. by rewrite E.
Qed.

Lemma evm_GetState_view b k w w' : view (S:=EvmState) w' = view w -> evm_GetState b k w' = evm_GetState b k w.
Proof. unfold evm_GetState. by intros ->. Qed.

Lemma evm_DeleteAccount_facts a w w' : evm_DeleteAccount a w = (Ok tt, w') ->
  GetAccount a w = None /\ w' = w \/
  GetAccount a w <> None /\ GetAccount a w' = None /\
  es_denom (view w') = es_denom (view w) /\
  (forall k, evm_GetState a k w' = zero_hash) /\
  (forall b k, b <> a -> evm_GetState b k w' = evm_GetState b k w) /\
  (forall h, evm_GetCode h w' = evm_GetCode h w) /\
  (forall b acc, b <> a -> GetAccount b w = Some acc -> GetAccount b w' = Some acc) /\
  (forall b, b <> a -> b <> module_address -> GetAccount b w' = GetAccount b w) /\
  (forall b, eth_account b w -> eth_account b w') /\
  (forall b d, b <> a -> GetBalance b d w' = GetBalance b d w).
Proof.
  unfold evm_DeleteAccount. destruct (GetAccount a w) as [acct|] eqn:Ea.
  2:{ intros [= <-]. by left. }
  intros E. right. split; [done|].
  assert (R : exists w1, SetBalance a 0 w = (Ok tt, w1) /\
    w' = RemoveAccount acct (clear_states a w1 (storage_keys a w1))).
  { destruct acct as [? ?|?|?]; [| |done]; mrun;
      match goal with Hb : SetBalance _ _ _ = (Ok ?u, ?w1) |- _ => destruct u; by exists w1 end. }
  destruct R as (w1 & Eb & ->). clear E.
  destruct (SetBalance_facts _ _ _ _ Eb) as (V1 & (K1 & K2 & K3) & _ & Hoth).
  set (w2 := clear_states a w1 _).
  destruct (clear_states_facts a w1 (storage_keys a w1)) as (Ca & Cb & Cc & Cd & Cs).
  fold w2 in Ca, Cb, Cc, Cd, Cs.
  pose proof (get_address _ _ _ Ea) as Had.
  pose proof (remove_view acct w2) as Vr.
  assert (Gne : forall b, b <> a -> GetAccount b (RemoveAccount acct w2) = GetAccount b w1).
  { intros b Hb. by rewrite get_remove_ne, Ca by congruence. }
  assert (Ga : GetAccount a (RemoveAccount acct w2) = None).
  { rewrite <- Had. apply get_remove_eq. }
  split_and!; [done| | | | | | | |].
  - by rewrite Vr, Cd, V1.
  - intros k. rewrite (evm_GetState_view _ _ _ _ Vr). apply clear_all.
  - intros b k Hb. rewrite (evm_GetState_view _ _ _ _ Vr), Cs, decide_False by (intros [? _]; congruence).
    by apply evm_GetState_view.
  - intros h. unfold evm_GetCode in *. by rewrite Vr, Cc, V1.
  - intros b acc Hb Hx. rewrite Gne by done. by apply K1.
  - intros b Hb Hm. rewrite Gne by done. by apply K2.
  - intros b Hx. destruct (K3 b Hx) as [Hd Ho]. split; [by rewrite Vr, Cd|]. intros x.
    destruct (decide (b = a)) as [->|Hb]; [by rewrite Ga|]. rewrite Gne by done. apply Ho.
  - intros b d Hb. by rewrite remove_balance, Cb, Hoth.
Qed.

Lemma evm_SetCode_frame h c w :
  (forall b, GetAccount b (evm_SetCode h c w) = GetAccount b w) /\
  (forall b d, GetBalance b d (evm_SetCode h c w) = GetBalance b d w) /\
  es_denom (view (evm_SetCode h c w)) = es_denom (view w) /\
  es_storage (view (evm_SetCode h c w)) = es_storage (view w) /\
  forall h', evm_GetCode h' (evm_SetCode h c w) =
    if decide (h = h') then (if decide (c = Some EmptyString) then None else c) else evm_GetCode h' w.
Proof.
  unfold evm_SetCode, evm_GetCode.
  split_and!; intros; rewrite ?view_update, ?update_account, ?update_balance; try done. simpl.
  destruct c as [c|]; simpl; [unfold id|]; repeat case_decide; simplify_eq;
    by rewrite ?lookup_insert_eq, ?lookup_delete_eq, ?lookup_insert_ne, ?lookup_delete_ne by done.
Qed.

(** The EVM account of an address in two states with the same account and
    balances there. *)
Lemma evm_GetAccount_eq b w w' : es_denom (view (S:=EvmState) w') = es_denom (view w) ->
  GetAccount b w' = GetAccount b w -> (forall d, GetBalance b d w' = GetBalance b d w) ->
  evm_GetAccount b w' = evm_GetAccount b w.
Proof.
  unfold evm_GetAccount, GetAccountWithoutBalance, evm_GetBalance. intros V Ha Hb. rewrite Ha, V.
  destruct (GetAccount b w); [|done]. cbn. by rewrite Hb.
Qed.

Lemma set_account_stored a account w w' : eth_account a w -> storable account ->
  evm_SetAccount a account w = (Ok tt, w') -> evm_GetAccount a w' = Some account.
Proof.
  intros [Hd Ho] [Hb Hl] E.
  destruct (evm_SetAccount_facts _ _ _ _ E) as (acc & Hor & Ga & V & _ & _ & _ & Hbal & _).
  unfold evm_GetAccount, GetAccountWithoutBalance, evm_GetBalance. rewrite Ga, V. cbn [mbind option_bind].
  rewrite bool_decide_eq_false_2 by done. rewrite Hbal.
  assert (Hne : forall b, acc <> OtherAcc b).
  { intros b ->. destruct Hor as [Hx|(_ & ? & ? & ?)]; [by apply (Ho b)|done]. }
  destruct account as [n x h]. simpl in *.
  destruct acc as [b h'|va|b]; [| |by destruct (Hne b)]; simpl;
    [|unfold GetCodeHash; simpl]; by rewrite hash_roundtrip.
Qed.

Lemma set_account_eth_kept a account w w' b : evm_SetAccount a account w = (Ok tt, w') ->
  eth_account b w -> eth_account b w'.
Proof.
  intros E Hx. destruct (evm_SetAccount_facts _ _ _ _ E) as (acc & Hor & Ga & V & _ & _ & He & _).
  destruct (decide (b = a)) as [->|Hne]; [|by apply He]. destruct Hx as [Hd Ho].
  split; [by rewrite V|]. intros x. rewrite Ga. intros [= Ex].
  destruct acc as [? ?|?|y]; try done. destruct Hor as [Hy|(_ & ? & ? & ?)]; [by apply (Ho y)|done].
Qed.

(** The keeper as an implementation of the StateDB's interface. *)
Lemma evm_keeper_contract : StateKeeperLaws W eth_account module_address.
Proof.
  constructor; simpl.
  - intros a acct w w'. apply set_account_stored.
  - intros a acct w w' b x E Hne.
    destruct (evm_SetAccount_facts _ _ _ _ E) as (_ & _ & _ & V & Hs & _ & _ & _ & Hb).
    apply evm_GetAccount_same; [by rewrite V|intros; by apply Hs|intros; by apply Hb].
  - intros a acct w w' b E Hne Hm. rewrite !evm_GetAccount_none.
    destruct (evm_SetAccount_facts _ _ _ _ E) as (_ & _ & _ & _ & _ & Hs & _). by rewrite Hs.
  - intros a acct w w' b. apply set_account_eth_kept.
  - intros a acct w w' E b k. destruct (evm_SetAccount_facts _ _ _ _ E) as (_ & _ & _ & V & _).
    by apply evm_GetState_view.
  - intros a acct w w' E h. destruct (evm_SetAccount_facts _ _ _ _ E) as (_ & _ & _ & V & _).
    unfold evm_GetCode. by rewrite V.
  - intros a k v w b k'. apply evm_SetState_state.
  - intros a k v w b. apply evm_SetState_frame.
  - intros a k v w b [Hd Ho]. destruct (evm_SetState_frame a k v w) as (_ & Fa & _ & _ & Fd).
    split; [by rewrite Fd|]. intros x. rewrite Fa. apply Ho.
  - intros a k v w h. apply evm_SetState_frame.
  - intros h c w h'. apply evm_SetCode_frame.
  - intros h c w b. destruct (evm_SetCode_frame h c w) as (Fa & Fb & Fd & _).
    by apply evm_GetAccount_eq.
  - intros h c w b [Hd Ho]. destruct (evm_SetCode_frame h c w) as (Fa & _ & Fd & _).
    split; [by rewrite Fd|]. intros x. rewrite Fa. apply Ho.
  - intros h c w b k. destruct (evm_SetCode_frame h c w) as (_ & _ & _ & Fs & _).
    unfold evm_GetState. by rewrite Fs.
  - intros a w w' E. rewrite !evm_GetAccount_none.
    destruct (evm_DeleteAccount_facts _ _ _ E) as [[Hn ->]|(Hn & Ga & _ & Hz & _)]; done.
  - intros a w w' b x E Hne. destruct (evm_DeleteAccount_facts _ _ _ E)
      as [[Hn ->]|(_ & _ & Vd & _ & _ & _ & Hs & _ & _ & Hb)]; [done|].
    apply evm_GetAccount_same; [done|intros; by apply Hs|intros; by apply Hb].
  - intros a w w' b E Hne Hm. rewrite !evm_GetAccount_none. destruct (evm_DeleteAccount_facts _ _ _ E)
      as [[Hn ->]|(_ & _ & _ & _ & _ & _ & _ & Hs & _)]; [done|]. by rewrite Hs.
  - intros a w w' b E. destruct (evm_DeleteAccount_facts _ _ _ E)
      as [[Hn ->]|(_ & _ & _ & _ & _ & _ & _ & _ & He & _)]; [done|]. apply He.
  - intros a w w' b k E Hne. destruct (evm_DeleteAccount_facts _ _ _ E)
      as [[Hn ->]|(_ & _ & _ & _ & Hs & _)]; [done|]. by apply Hs.
  - intros a w w' h E. destruct (evm_DeleteAccount_facts _ _ _ E)
      as [[Hn ->]|(_ & _ & _ & _ & _ & Hc & _)]; [done|]. apply Hc.
Qed.

(** C29: x/evm's keeper keeps the contract of the StateDB: it stores an account's nonce,
    balance and code hash so that it reads them back, whatever minting or burning
    that takes; it creates and changes no other account but the module's; storage and
    code are a map with the zero hash and nil as defaults; and deleting an Ethereum account
    removes it with all its slots. *)
Theorem evm_keeper_laws : StateKeeperLaws W eth_account module_address.
Proof. apply evm_keeper_contract. Qed.
End laws.

(** ** A concrete run *)
Section runs.
#[local] Existing Instances RefOps RefLaws RefEth RefEthLaws RefCtx RefAccountKeeper RefBankKeeper
  RefDistributionKeeper RefModuleBank RefKeeperLaws RefModuleBankLaws.
#[local] Abbreviation World := (RefWorld EvmState).
#[local] Instance ref_evm : Lens World EvmState := ref_lens (fun x => x) (fun s _ => s).
#[local] Instance ref_evm_state : ModuleState World EvmState.
Proof. by apply ref_module_state. Qed.

#[local] Instance RefRemoval : AccountRemoval World := {
  RemoveAccount acc w :=
    mkWorld (rw_time w) (delete (acc_address acc) (rw_accounts w)) (rw_next w)
      (rw_balances w) (rw_bonded w) (rw_unbonding w) (rw_ext w)
}.

#[local] Instance RefRemovalLaws : AccountRemovalLaws World.
Proof.
  constructor; simpl; try done.
  - intros acc w. unfold rw_get_account. simpl. by rewrite lookup_delete_eq.
  - intros acc a w Hne. unfold rw_get_account. simpl. by rewrite lookup_delete_ne.
Qed.

#[local] Instance RefCreates : BankCreates World.
Proof.
  constructor; simpl; unfold rw_get_account.
  - intros from m cs w w' a E _. apply rw_send_ok in E as (_ & -> & _). done.
  - intros m to cs w w' a E _. apply rw_send_ok in E as (_ & -> & _). done.
  - intros m cs w w' a E _. apply rw_issue_ok in E as (_ & -> & _). done.
  - intros m cs w w' a E _. apply rw_issue_ok in E as (_ & -> & _). done.
Qed.

Definition ex_world : World :=
  mkWorld 0 ∅ 0 {[ ("A", "aISLM") := 5%N ]} ∅ ∅ (mkEvmState ∅ ∅ (mkParamsStore (Some DefaultParams) DefaultParams)).

Lemma evm_keeper_laws_witness :
  keeper_GetAccount "A" (snd (keeper_SetAccount "A" (mkAccount 1 8 (Keccak256 "")) ex_world))
  = Some (mkAccount 1 8 (Keccak256 "")).
Proof.
  eapply (set_account_get (StateKeeperLaws := evm_keeper_laws (W := World)) "A" _ ex_world).
  - split; [done|]. intros b. vm_compute. done.
  - split; [simpl; lia|reflexivity].
  - reflexivity.
Defined.
End runs.
