(* ===== verification/Ucdao.v ===== *)
(** * x/ucdao: keeper/*.go, types/msg.go, types/authz.go, types/keys.go,
    types/balance.go, types/utils.go

    The United Contributors DAO: every owner's coins lie on an escrow account
    derived from the owner's address.  The module's store tracks the total of
    every denomination in escrow and an index of the holders.  [dao_ok] is its
    invariant: the totals are the sums of the escrow balances, and the index
    lists the owners with coins. *)

From S2P Require Import Prelude.
From S2P Require Import Sdk.
From S2P Require Import ClawbackAccount.
From S2P Require Import Keepers.
From S2P Require Import VestingMsg.

Local Open Scope Z_scope.

(** ** Library code *)

(** Methods of [sdk.Coin] and [sdk.Coins], the product with a [LegacyDec], the
    hash and the length prefix of an address. *)
Class DaoOps := {
  (** [Coin.Add] and [Coin.Sub], which panic on different denominations and, for
      the latter, on a negative result *)
  CoinAdd : coin -> coin -> res coin;
  CoinSub : coin -> coin -> res coin;
  (** [Coin.Validate() == nil] *)
  CoinValidate : coin -> bool;
  (** [Coins.Sort] and [Coins.Equal] *)
  CoinsSort : list coin -> list coin;
  CoinsEqual : list coin -> list coin -> bool;
  (** [x.ToLegacyDec().Mul(r).TruncateInt()], [r] as its value times 10^18 *)
  MulTruncate : Z -> Z -> Z;
  (** [sha256.Sum256] *)
  Sha256 : string -> string;
  (** [address.MustLengthPrefix] *)
  MustLengthPrefix : string -> res string
}.

Class DaoLaws `{SdkOps, DaoOps} : Prop := {
  coin_add_spec d x y : CoinAdd (mkCoin d x) (mkCoin d y) = Ok (mkCoin d (x + y));
  coin_sub_spec d x y :
    CoinSub (mkCoin d x) (mkCoin d y) = if x <? y then Panic else Ok (mkCoin d (x - y));
  coin_validate_spec c : CoinValidate c = true <-> ValidDenom (Denom c) = true /\ 0 <= Amount c;
  new_coins_single d x cs : NewCoins [mkCoin d x] = Ok cs -> 0 <= x /\ ValidDenom d = true;
  coins_sort_spec cs : operand cs -> CoinsSort cs = cs;
  coins_equal_spec a b : valid a -> valid b -> CoinsEqual a b = true <-> a = b;
  mul_truncate_spec x r : 0 <= x -> 0 <= r -> MulTruncate x r = x * r / 10 ^ 18;
  length_prefix_spec a : MustLengthPrefix a =
    if decide (String.length a <= 255)%nat
    then Ok (String (Ascii.ascii_of_nat (String.length a)) a) else Panic
}.

(** ** Interfaces of the other modules (types/expected_keepers.go) *)

Class BalanceKeeper (W : Type) := { GetAllBalances : string -> W -> list coin }.

Class LiquidVestingKeeper (W : Type) := { lvk_Redeem : string -> string -> coin -> M W unit }.

(** [common.IsHexAddress] *)
Class HexCheck := { IsHexAddress : string -> bool }.

(** The field [ethiqk], which may be nil. *)
Class EthiqKeeper (W : Type) := {
  ethiqk : option (Z -> string -> string -> M W Z)
}.

(** ** Data *)

Record Params := mkParams { EnableDao : bool }.

(** The module's store, one field for each prefix of types/keys.go: the totals
    by denomination, the account balances and the denomination index (written
    by the genesis only), the parameters and the index of holders by key. *)
Record DaoState := mkDao {
  ds_total : gmap string Z;
  ds_balances : gmap (string * string) Z;
  ds_denoms : gset (string * string);
  ds_params : option Params;
  ds_holders : gset string
}.

Record MsgFund := mkMsgFund { mf_Amount : list coin; mf_Depositor : string }.
Record MsgTransferOwnership := mkMsgTransfer { mt_Owner : string; mt_NewOwner : string }.
Record MsgTransferOwnershipWithRatio := mkMsgRatio {
  mr_Owner : string; mr_NewOwner : string; mr_Ratio : Z
}.
Record MsgTransferOwnershipWithAmount := mkMsgAmount {
  ma_Owner : string; ma_NewOwner : string; ma_Amount : list coin
}.
Record MsgConvertToHaqq := mkMsgConvert {
  mv_Sender : string; mv_Receiver : string; mv_IslmAmount : Z
}.

Record Balance := mkBalance { b_Address : string; b_Coins : list coin }.

Record GenesisState := mkGenesis {
  gs_Params : Params; gs_Balances : list Balance; gs_TotalBalance : list coin
}.

Definition ModuleName : string := "ucdao".
(** [utils.BaseDenom] and [ethiqtypes.BaseDenom] *)
Definition islm : string := "aISLM".
Definition haqq : string := "aHAQQ".

Definition DefaultParams : Params := mkParams true.

(** ** Names and keys *)

Fixpoint all_digits (s : string) : bool :=
  match s with
  | EmptyString => true
  | String c rest => bool_decide (is_Some (digit_val c)) && all_digits rest
  end.

(** [utils.IsLiquidToken]: the expression [^aLIQUID[0-9]+$]. *)
Definition IsLiquidToken (denom : string) : bool :=
  match strip_prefix "aLIQUID" denom with
  | Some (String c rest) => all_digits (String c rest)
  | _ => false
  end.

Definition AddressFromHoldersStore (key : string) : res string :=
  match key with
  | EmptyString => Err ErrInvalidKey
  | String c rest =>
      let addrBound := Ascii.nat_of_ascii c in
      if bool_decide (String.length rest < addrBound)%nat then Err ErrInvalidKey
      else Ok (String.substring 0 addrBound rest)
  end.

Definition AddressAndDenomFromBalancesStore (key : string) : res (string * string) :=
  match key with
  | EmptyString => Err ErrInvalidKey
  | String c rest =>
      let addrBound := Ascii.nat_of_ascii c in
      if bool_decide (String.length rest < addrBound)%nat then Err ErrInvalidKey
      else Ok (String.substring 0 addrBound rest,
               String.substring addrBound (String.length rest - addrBound) rest)
  end.

Section escrow.
Context `{DaoOps}.

Definition GetEscrowAddress (owner : string) : string :=
  String.substring 0 20 (Sha256 (ModuleName +:+ String Ascii.zero owner)).
End escrow.

(** ** The keeper *)

Section keeper.
Context {W : Type} `{SdkOps, EthOps, DaoOps, AddrCheck}.
Context `{BankKeeper W, BalanceKeeper W, LiquidVestingKeeper W, EthiqKeeper W, Lens W DaoState}.

(** keeper/params.go *)

Definition GetParams (w : W) : Params := default (mkParams false) (ds_params (view w)).

Definition SetParams (p : Params) (w : W) : W :=
  let s := view w in
  update (mkDao (ds_total s) (ds_balances s) (ds_denoms s) (Some p) (ds_holders s)) w.

Definition IsModuleEnabled (w : W) : bool := EnableDao (GetParams w).

(** keeper/account_balances.go *)

Definition dao_GetBalance (addr denom : string) (w : W) : Z :=
  GetBalance (GetEscrowAddress addr) denom w.

Definition GetAccountBalances (addr : string) (w : W) : list coin :=
  GetAllBalances (GetEscrowAddress addr) w.

Fixpoint holders_loop (keys : list string) : res (list string) :=
  match keys with
  | [] => Ok []
  | key :: rest =>
      match AddressFromHoldersStore key with
      | Ok addr => holders ← holders_loop rest; Ok (addr :: holders)
      | _ => Panic
      end
  end.

(** The store iterates in the order of its keys. *)
Definition GetHolders (w : W) : res (list string) :=
  holders_loop (merge_sort String.le (elements (ds_holders (view w)))).

Definition GetAccountsBalances (w : W) : res (list Balance) :=
  holders ← GetHolders w;
  Ok (map (fun holder => mkBalance (AddrString holder) (CoinsSort (GetAccountBalances holder w)))
        holders).

(** keeper/store.go *)

Definition set_holders (h : gset string) (w : W) : W :=
  let s := view w in
  update (mkDao (ds_total s) (ds_balances s) (ds_denoms s) (ds_params s) h) w.

Definition SetHoldersIndex (addr : string) : M W unit :=
  addrKey ← mlift (MustLengthPrefix addr);
  mmodify (fun w =>
    let allBalances := GetAccountBalances addr w in
    let w1 := if IsZero allBalances && bool_decide (addrKey ∈ ds_holders (view w))
              then set_holders (ds_holders (view w) ∖ {[addrKey]}) w else w in
    if bool_decide (addrKey ∉ ds_holders (view w1)) && negb (IsZero allBalances)
    then set_holders (ds_holders (view w1) ∪ {[addrKey]}) w1 else w1).

Definition IsHolder (addr : string) (w : W) : res bool :=
  addrKey ← MustLengthPrefix addr; Ok (bool_decide (addrKey ∈ ds_holders (view w))).

(** keeper/total_balance.go *)

Definition GetTotalBalanceOf (denom : string) (w : W) : coin :=
  mkCoin denom (default 0 (ds_total (view w) !! denom)).

Definition HasTotalBalanceOf (denom : string) (w : W) : bool :=
  bool_decide (is_Some (ds_total (view w) !! denom)).

Definition set_total (t : gmap string Z) (w : W) : W :=
  let s := view w in
  update (mkDao t (ds_balances s) (ds_denoms s) (ds_params s) (ds_holders s)) w.

Definition setTotalBalanceOfCoin (c : coin) (w : W) : W :=
  if Amount c =? 0 then set_total (delete (Denom c) (ds_total (view w))) w
  else set_total (<[Denom c := Amount c]> (ds_total (view w))) w.

(** The coins [IterateTotalBalance] visits. *)
Definition IterateTotalBalance (w : W) : list coin :=
  map (fun d => GetTotalBalanceOf d w) (merge_sort String.le (elements (dom (ds_total (view w))))).

Definition GetTotalBalance (w : W) : list coin :=
  foldl (fun balance c => if Amount c =? 0 then balance else coins_add balance [c]) []
    (IterateTotalBalance w).

(** keeper/escrow.go *)

Definition TrackAddBalance (c : coin) : M W unit :=
  currentTotalEscrow ← mgets (GetTotalBalanceOf (Denom c));
  newTotalEscrow ← mlift (CoinAdd currentTotalEscrow c);
  mmodify (setTotalBalanceOfCoin newTotalEscrow).

Definition TrackSubBalance (c : coin) : M W unit :=
  currentTotalEscrow ← mgets (GetTotalBalanceOf (Denom c));
  newTotalEscrow ← mlift (CoinSub currentTotalEscrow c);
  mmodify (setTotalBalanceOfCoin newTotalEscrow).

Definition escrowToken (sender escrowAddress : string) (c : coin) : M W unit :=
  coins ← mlift (NewCoins [c]);
  _ ← SendCoins sender escrowAddress coins;
  TrackAddBalance c.

Definition unescrowToken (escrowAddress receiver : string) (c : coin) : M W unit :=
  coins ← mlift (NewCoins [c]);
  _ ← SendCoins escrowAddress receiver coins;
  TrackSubBalance c.

Definition transferEscrowToken (escrowAddress newEscrowAddress : string) (amt : list coin)
    : M W unit := SendCoins escrowAddress newEscrowAddress amt.

(** keeper/keeper.go *)

Definition allowed_denom (denom : string) : bool :=
  bool_decide (denom = islm) || IsLiquidToken denom.

Fixpoint fund_loop (sender escrowAddr : string) (amount : list coin) : M W unit :=
  match amount with
  | [] => mret tt
  | c :: rest =>
      if negb (allowed_denom (Denom c)) then mraise ErrInvalidDenom
      else if Amount c =? 0 then fund_loop sender escrowAddr rest
      else _ ← escrowToken sender escrowAddr c; fund_loop sender escrowAddr rest
  end.

Definition Fund (amount : list coin) (sender : string) : M W unit :=
  enabled ← mgets IsModuleEnabled;
  if negb enabled then mraise ErrModuleDisabled else
  _ ← fund_loop sender (GetEscrowAddress sender) amount;
  SetHoldersIndex sender.

Definition TransferOwnership (owner newOwner : string) (amount : list coin) : M W (list coin) :=
  enabled ← mgets IsModuleEnabled;
  if negb enabled then mraise ErrModuleDisabled else
  balances ← mgets (GetAccountBalances owner);
  if IsZero balances then mraise ErrNotEligible else
  _ ← transferEscrowToken (GetEscrowAddress owner) (GetEscrowAddress newOwner) amount;
  _ ← SetHoldersIndex newOwner;
  _ ← SetHoldersIndex owner;
  mret amount.

(** The pass over the sender's balances: the sum of the usable ones, and the
    liquid ones. *)
Fixpoint convert_scan (balances : list coin) : Z * list coin :=
  match balances with
  | [] => (0, [])
  | b :: rest =>
      let '(sum, liquid) := convert_scan rest in
      if negb (IsLiquidToken (Denom b)) && bool_decide (Denom b <> islm) then (sum, liquid)
      else (Amount b + sum, if bool_decide (Denom b <> islm) then b :: liquid else liquid)
  end.

Fixpoint redeem_loop (escrow : string) (liquidBalances : list coin) : M W unit :=
  match liquidBalances with
  | [] => mret tt
  | b :: rest =>
      _ ← lvk_Redeem escrow escrow b;
      redeemed ← mlift (NewCoin islm (Amount b));
      _ ← TrackAddBalance redeemed;
      _ ← TrackSubBalance b;
      redeem_loop escrow rest
  end.

Definition ConvertToHaqq (sender receiver : string) (islmAmount : Z) : M W coin :=
  enabled ← mgets IsModuleEnabled;
  if negb enabled then mraise ErrModuleDisabled else
  holder ← (fun w => (IsHolder sender w, w));
  if negb holder then mraise ErrNotEligible else
  senderBalances ← mgets (GetAccountBalances sender);
  let '(senderBalancesAmount, liquidBalances) := convert_scan senderBalances in
  if senderBalancesAmount <? islmAmount then mraise ErrInsufficientFunds else
  let senderEscrowAddr := GetEscrowAddress sender in
  _ ← redeem_loop senderEscrowAddr liquidBalances;
  match ethiqk with
  | None => mraise ErrLogic
  | Some BurnIslmForHaqq =>
      mintedHaqqAmt ← BurnIslmForHaqq islmAmount senderEscrowAddr receiver;
      burnt ← mlift (NewCoin islm islmAmount);
      _ ← TrackSubBalance burnt;
      _ ← SetHoldersIndex sender;
      mlift (NewCoin haqq mintedHaqqAmt)
  end.

(** ** Messages *)

Definition check_address (s : string) : res unit :=
  match AccAddressFromBech32 s with Some _ => Ok tt | None => Err ErrInvalidAddress end.

Definition ValidateBasic_Fund (msg : MsgFund) : res unit :=
  if negb (IsValid (mf_Amount msg)) then Err ErrInvalidCoins else
  check_address (mf_Depositor msg).

Definition ValidateBasic_Transfer (msg : MsgTransferOwnership) : res unit :=
  _ ← check_address (mt_Owner msg); check_address (mt_NewOwner msg).

Definition ValidateBasic_Ratio (msg : MsgTransferOwnershipWithRatio) : res unit :=
  _ ← check_address (mr_Owner msg);
  _ ← check_address (mr_NewOwner msg);
  if (mr_Ratio msg <=? 0) || (10 ^ 18 <? mr_Ratio msg) then Err ErrInvalidRatio else Ok tt.

Definition ValidateBasic_Amount (msg : MsgTransferOwnershipWithAmount) : res unit :=
  _ ← check_address (ma_Owner msg);
  _ ← check_address (ma_NewOwner msg);
  if negb (IsValid (ma_Amount msg)) then Err ErrInvalidCoins else Ok tt.

Definition ValidateBasic_Convert (msg : MsgConvertToHaqq) : res unit :=
  _ ← check_address (mv_Sender msg);
  _ ← check_address (mv_Receiver msg);
  if mv_IslmAmount msg <=? 0 then Err ErrInvalidCoins else Ok tt.

(** keeper/msg_server.go *)

Definition msg_Fund (msg : MsgFund) : M W unit :=
  _ ← mlift (ValidateBasic_Fund msg);
  addr ← mlift (must_addr (mf_Depositor msg));
  Fund (mf_Amount msg) addr.

Definition msg_TransferOwnership (msg : MsgTransferOwnership) : M W unit :=
  _ ← mlift (ValidateBasic_Transfer msg);
  owner ← mlift (must_addr (mt_Owner msg));
  newOwner ← mlift (must_addr (mt_NewOwner msg));
  balances ← mgets (GetAccountBalances owner);
  if IsZero balances then mraise ErrNotEligible else
  _ ← TransferOwnership owner newOwner balances;
  mret tt.

(** The loop appends a coin for every balance, also when its share is zero. *)
Fixpoint ratio_loop (ratio : Z) (balances : list coin) : res (list coin) :=
  match balances with
  | [] => Ok []
  | c :: rest =>
      share ← NewCoin (Denom c) (MulTruncate (Amount c) ratio);
      coins ← ratio_loop ratio rest;
      Ok (share :: coins)
  end.

Definition msg_TransferOwnershipWithRatio (msg : MsgTransferOwnershipWithRatio)
    : M W (list coin) :=
  _ ← mlift (ValidateBasic_Ratio msg);
  owner ← mlift (must_addr (mr_Owner msg));
  newOwner ← mlift (must_addr (mr_NewOwner msg));
  balances ← mgets (GetAccountBalances owner);
  if IsZero balances then mraise ErrNotEligible else
  coins ← mlift (ratio_loop (mr_Ratio msg) balances);
  TransferOwnership owner newOwner coins.

Definition msg_TransferOwnershipWithAmount (msg : MsgTransferOwnershipWithAmount) : M W unit :=
  _ ← mlift (ValidateBasic_Amount msg);
  owner ← mlift (must_addr (ma_Owner msg));
  newOwner ← mlift (must_addr (ma_NewOwner msg));
  balances ← mgets (GetAccountBalances owner);
  if IsZero balances then mraise ErrNotEligible else
  _ ← TransferOwnership owner newOwner (ma_Amount msg);
  mret tt.

Definition msg_ConvertToHaqq (msg : MsgConvertToHaqq) : M W coin :=
  _ ← mlift (ValidateBasic_Convert msg);
  sender ← mlift (must_addr (mv_Sender msg));
  receiver ← mlift (must_addr (mv_Receiver msg));
  ConvertToHaqq sender receiver (mv_IslmAmount msg).

(** keeper/genesis.go, types/balance.go *)

Fixpoint initBalances (addr : string) (balances : list coin) : M W unit :=
  match balances with
  | [] => mret tt
  | b :: rest =>
      if negb (CoinValidate b) then mraise ErrInvalidCoins else
      _ ← (if Amount b =? 0 then mret tt else
           addrKey ← mlift (MustLengthPrefix addr);
           mmodify (fun w =>
             let s := view w in
             update (mkDao (ds_total s) (<[(addrKey, Denom b) := Amount b]> (ds_balances s))
                       (ds_denoms s ∪ {[(Denom b, addrKey)]}) (ds_params s) (ds_holders s)) w));
      initBalances addr rest
  end.

(** A failed address is nil in the comparison. *)
Definition balance_key (b : Balance) : string :=
  default EmptyString (AccAddressFromBech32 (b_Address b)).

Definition balance_le (a b : Balance) : Prop := String.le (balance_key a) (balance_key b).

#[global] Instance balance_le_dec : RelDecision balance_le.
Proof. intros a b. unfold balance_le. apply _. Defined.

(** [sort.Sort] orders balances of one address arbitrarily; the model keeps
    their order. *)
Definition SanitizeGenesisBalances (balances : list Balance) : list Balance :=
  merge_sort balance_le balances.

Fixpoint init_loop (balances : list Balance) (totalBalance : list coin) : M W (list coin) :=
  match balances with
  | [] => mret totalBalance
  | b :: rest =>
      addr ← mlift (must_addr (b_Address b));
      _ ← (fun w => match initBalances addr (b_Coins b) w with
                    | (Err _, w') => (Panic, w')
                    | r => r
                    end);
      _ ← SetHoldersIndex addr;
      init_loop rest (coins_add totalBalance (b_Coins b))
  end.

Definition InitGenesis (genState : GenesisState) : M W unit :=
  _ ← mmodify (SetParams (gs_Params genState));
  totalBalance ← init_loop (SanitizeGenesisBalances (gs_Balances genState)) [];
  if negb (bool_decide (gs_TotalBalance genState = []))
     && negb (CoinsEqual (gs_TotalBalance genState) totalBalance)
  then mlift Panic
  else mmodify (fun w => foldl (fun w c => setTotalBalanceOfCoin c w) w totalBalance).

Definition ExportGenesis (w : W) : res GenesisState :=
  balances ← GetAccountsBalances w;
  Ok (mkGenesis (GetParams w) balances (GetTotalBalance w)).

(** keeper/grpc_query.go *)

(** The address of a request, in hexadecimal or bech32 form. *)
Definition query_address `{HexCheck} (s : string) : res string :=
  if IsHexAddress s then Ok (HexToAddress s)
  else match AccAddressFromBech32 s with Some a => Ok a | None => Err (ErrText "invalid address") end.

Definition query_Balance `{HexCheck} (address denom : string) (w : W) : res coin :=
  if negb (ValidDenom denom) then Err (ErrText "invalid denom") else
  addr ← query_address address;
  Ok (mkCoin denom (dao_GetBalance addr denom w)).

Definition query_AllBalances `{HexCheck} (address : string) (w : W) : res (list coin) :=
  addr ← query_address address; Ok (GetAccountBalances addr w).

Definition query_EscrowAddress `{HexCheck} (address : string) : res string :=
  addr ← query_address address; Ok (AddrString (GetEscrowAddress addr)).

End keeper.

(** ** Authorizations (types/authz.go) *)

Inductive Msg :=
  | MFund (m : MsgFund)
  | MTransferOwnership (m : MsgTransferOwnership)
  | MTransferOwnershipWithRatio (m : MsgTransferOwnershipWithRatio)
  | MTransferOwnershipWithAmount (m : MsgTransferOwnershipWithAmount)
  | MConvertToHaqq (m : MsgConvertToHaqq).

(** Both authorizations hold an optional spend limit. *)
Record ConvertToHaqqAuthorization := mkConvertAuth { ca_SpendLimit : option coin }.
Record TransferOwnershipAuthorization := mkTransferAuth { ta_SpendLimit : option coin }.

(** [authz.AcceptResponse] *)
Record AcceptResponse (A : Type) := mkAccept { Accept : bool; Delete : bool; Updated : option A }.
Arguments mkAccept {A} _ _ _.
Arguments Accept {A} _.
Arguments Delete {A} _.
Arguments Updated {A} _.

Section authz.
Context `{SdkOps, DaoOps}.

Definition limit_ValidateBasic (limit : option coin) : res unit :=
  match limit with
  | None => Ok tt
  | Some l =>
      if negb (CoinValidate l) then Err (ErrExternal "coin") else
      if bool_decide (Denom l <> islm) then Err (ErrText "spend limit denom must be aISLM") else
      if Amount l <=? 0 then Err (ErrText "spend limit amount must be positive") else Ok tt
  end.

Definition NewConvertToHaqqAuthorization (amount : option coin) : res ConvertToHaqqAuthorization :=
  _ ← limit_ValidateBasic amount; Ok (mkConvertAuth amount).

Definition NewTransferOwnershipAuthorization (amount : option coin)
    : res TransferOwnershipAuthorization :=
  _ ← limit_ValidateBasic amount; Ok (mkTransferAuth amount).

Definition convert_Accept (m : ConvertToHaqqAuthorization) (msg : Msg)
    : res (AcceptResponse ConvertToHaqqAuthorization) :=
  match msg with
  | MConvertToHaqq convertMsg =>
      match ca_SpendLimit m with
      | Some l =>
          if Amount l <? mv_IslmAmount convertMsg then Err (ErrText "exceeds spend limit") else
          let remaining := Amount l - mv_IslmAmount convertMsg in
          if remaining =? 0 then Ok (mkAccept true true None)
          else Ok (mkAccept true false (Some (mkConvertAuth (Some (mkCoin (Denom l) remaining)))))
      | None => Ok (mkAccept true false None)
      end
  | _ => Err (ErrText "unexpected message")
  end.

(** The sum over the coins that count against the limit. *)
Fixpoint transfer_sum (amount : list coin) : Z :=
  match amount with
  | [] => 0
  | c :: rest =>
      if bool_decide (Denom c <> islm) && negb (IsLiquidToken (Denom c)) then transfer_sum rest
      else Amount c + transfer_sum rest
  end.

Definition transfer_Accept (m : TransferOwnershipAuthorization) (msg : Msg)
    : res (AcceptResponse TransferOwnershipAuthorization) :=
  match msg with
  | MTransferOwnershipWithAmount toMsg =>
      if IsZero (ma_Amount toMsg) then Err (ErrText "amount should be greater than zero") else
      if negb (IsValid (ma_Amount toMsg)) then Err (ErrText "invalid amount") else
      let totalTransferAmount := transfer_sum (ma_Amount toMsg) in
      match ta_SpendLimit m with
      | Some l =>
          if Amount l <? totalTransferAmount then Err (ErrText "exceeds spend limit") else
          let remaining := Amount l - totalTransferAmount in
          if remaining =? 0 then Ok (mkAccept true true None)
          else Ok (mkAccept true false (Some (mkTransferAuth (Some (mkCoin (Denom l) remaining)))))
      | None => Ok (mkAccept true false None)
      end
  | _ => Err (ErrText "unexpected message")
  end.
End authz.

(** ** What the module relies on *)

(** The bank lists an account's nonzero balances. *)
Class BalanceLaws (W : Type) `{BankKeeper W, BalanceKeeper W} : Prop := {
  all_balances_spec a (w : W) : valid (GetAllBalances a w) /\
    forall d, amt (GetAllBalances a w) d = GetBalance a d w
}.

(** The bank rejects malformed coins, and no other module writes the module's store.
    [I] is the invariant of the modules below. *)
Class DaoWorld (W : Type) (I : W -> Prop) `{SdkOps, DaoOps}
    `{BankKeeper W, Lens W DaoState} : Prop := {
  send_view from to cs (w w' : W) r : SendCoins from to cs w = (r, w') -> view w' = view w;
  send_inv from to cs (w w' : W) : I w -> SendCoins from to cs w = (Ok tt, w') -> I w';
  send_invalid from to cs (w : W) : IsValid cs = false ->
    exists e, SendCoins from to cs w = (Err e, w);
  update_inv (s : DaoState) w : I w -> I (update s w)
}.

(** What x/liquidvesting promises: [Redeem] takes the liquid coins from the
    sender and gives the recipient as many aISLM of the module's own account. *)
Class LiquidVestingLaws (W : Type) (I : W -> Prop) `{AccountKeeper W, BankKeeper W}
    `{LiquidVestingKeeper W, Lens W DaoState} : Prop := {
  redeem_ok from to c (w w' : W) : I w -> 0 < Amount c -> IsLiquidToken (Denom c) = true ->
    lvk_Redeem from to c w = (Ok tt, w') ->
    I w' /\ view w' = view w /\
    forall a d, a <> GetModuleAddress (W:=W) "liquidvesting" ->
      GetBalance a d w' = GetBalance a d w
        - (if decide (a = from) then amt [c] d else 0)
        + (if decide (a = to) then amt [mkCoin islm (Amount c)] d else 0)
}.

(** What x/ethiq promises to a sender without liquid coins. *)
Class EthiqLaws (W : Type) (I : W -> Prop) `{BankKeeper W, EthiqKeeper W, Lens W DaoState}
    : Prop := {
  ethiq_burn_ok f x from to (w w' : W) y : ethiqk = Some f -> I w ->
    (forall d, IsLiquidToken d = true -> GetBalance from d w = 0) ->
    f x from to w = (Ok y, w') ->
    I w' /\ view w' = view w /\ 0 < x /\ 0 < y /\
    forall a d, GetBalance a d w' = GetBalance a d w
      - (if decide (a = from) then amt [mkCoin islm x] d else 0)
      + (if decide (a = to) then amt [mkCoin haqq y] d else 0)
}.

(** ** Sums over the escrow accounts *)

Definition sum_over {A} (f : A -> Z) (l : list A) : Z := foldr (fun a acc => f a + acc) 0 l.

Lemma sum_over_ext {A} (f g : A -> Z) l : (forall a, a ∈ l -> f a = g a) ->
  sum_over f l = sum_over g l.
Proof.
  induction l as [|a l IH]; simpl; intros E; [done|].
  rewrite E, IH; [done| |by left]. intros. apply E. by right.
Qed.

Lemma sum_over_add {A} (f g : A -> Z) l :
  sum_over (fun a => f a + g a) l = sum_over f l + sum_over g l.
Proof. induction l; simpl; lia. Qed.

(** A change at one address of a duplicate-free list. *)
Lemma sum_over_at (l : list string) x v : NoDup l ->
  sum_over (fun a => if decide (a = x) then v else 0) l = if decide (x ∈ l) then v else 0.
Proof.
  induction 1 as [|a l Ha _ IH]; simpl; [done|]. rewrite IH.
  destruct (decide (a = x)) as [->|N].
  - rewrite decide_False by done. rewrite decide_True by left. lia.
  - destruct (decide (x ∈ l)); [rewrite decide_True by by right|rewrite decide_False]; [lia|lia|].
    rewrite elem_of_cons. naive_solver.
Qed.

(** ** Facts *)

Section facts.
Context {W : Type} {I : W -> Prop} `{SdkLaws} `{EthOps} `{!DaoOps} `{!DaoLaws} `{AddrCheck}.
Context `{Ctx W, AccountKeeper W, BankKeeper W, DistributionKeeper W, ModuleBank W}.
Context `{BalanceKeeper W, LiquidVestingKeeper W, EthiqKeeper W, Lens W DaoState}.
Context `{!KeeperLaws W} `{!ModuleState W DaoState} `{!BalanceLaws W} `{!DaoWorld W I}.
Context `{!LiquidVestingLaws W I} `{!EthiqLaws W I}.
Implicit Types w : W.

(** The tracked total of a denomination. *)
Definition total (d : string) (w : W) : Z := default 0 (ds_total (view w) !! d).

(** What bookkeeping in the module's own store leaves alone. *)
Record books w w' : Prop := {
  bk_balance a d : GetBalance a d w' = GetBalance a d w;
  bk_inv : I w -> I w';
  bk_params : ds_params (view w') = ds_params (view w)
}.

Lemma books_refl w : books w w.
Proof. by constructor. Qed.

Lemma books_trans w1 w2 w3 : books w1 w2 -> books w2 w3 -> books w1 w3.
Proof.
  intros [B1 I1 P1] [B2 I2 P2]. constructor; [|auto|congruence]. intros. by rewrite B2.
Qed.

Lemma books_update (s : DaoState) w : ds_params s = ds_params (view w) -> books w (update s w).
Proof.
  intros E. constructor; [intros; apply update_balance|apply update_inv|by rewrite view_update].
Qed.

Lemma set_total_facts c w (w' := setTotalBalanceOfCoin c w) :
  books w w' /\ ds_holders (view w') = ds_holders (view w) /\
  forall d, total d w' = if decide (d = Denom c) then Amount c else total d w.
Proof.
  subst w'. unfold setTotalBalanceOfCoin, set_total, total.
  destruct (Z.eqb_spec (Amount c) 0) as [E|E]; rewrite ?view_update; cbn [ds_total ds_holders];
    (split_and!; [by apply books_update|done|]); intros d; case_decide; subst;
    rewrite ?lookup_delete_eq, ?lookup_insert_eq, ?lookup_delete_ne, ?lookup_insert_ne by done;
    simpl; congruence.
Qed.

(** [w'] is [w] with the tracked totals changed by [delta]. *)
Record tracked (delta : string -> Z) w w' : Prop := {
  tr_books : books w w';
  tr_holders : ds_holders (view w') = ds_holders (view w);
  tr_total d : total d w' = total d w + delta d
}.

Lemma track_add_ok c w w' : TrackAddBalance c w = (Ok tt, w') -> tracked (amt [c]) w w'.
Proof.
  intros E. unfold TrackAddBalance in E. mrun. destruct c as [d x].
  unfold GetTotalBalanceOf in *. cbn [Denom] in *.
  rewrite coin_add_spec in *. simplify_eq.
  match goal with |- tracked _ _ (setTotalBalanceOfCoin ?c _) =>
    destruct (set_total_facts c w) as (B & Hh & Ht) end.
  constructor; [done|done|]. intros d'. rewrite Ht. cbn [Denom Amount]. rewrite amt_single.
  unfold total. repeat case_decide; simplify_eq; lia.
Qed.

Lemma track_sub_ok c w w' : TrackSubBalance c w = (Ok tt, w') ->
  tracked (fun d => - amt [c] d) w w' /\ Amount c <= total (Denom c) w.
Proof.
  intros E. unfold TrackSubBalance in E. mrun. destruct c as [d x].
  unfold GetTotalBalanceOf in *. cbn [Denom Amount] in *.
  rewrite coin_sub_spec in *. zcases; [done|]. simplify_eq. split; [|done].
  match goal with |- tracked _ _ (setTotalBalanceOfCoin ?c _) =>
    destruct (set_total_facts c w) as (B & Hh & Ht) end.
  constructor; [done|done|]. intros d'. rewrite Ht. cbn [Denom Amount]. rewrite amt_single.
  unfold total. repeat case_decide; simplify_eq; lia.
Qed.
(** *** The index of holders *)

(** The key of an address in the index. *)
Definition holder_key (a : string) : string := String (Ascii.ascii_of_nat (String.length a)) a.

Definition in_index (a : string) (w : W) : Prop := holder_key a ∈ ds_holders (view w).

Lemma prefix_key a k : MustLengthPrefix a = Ok k -> k = holder_key a.
Proof. rewrite length_prefix_spec. case_decide; [|done]. by intros [= <-]. Qed.

Lemma substring_all s : String.substring 0 (String.length s) s = s.
Proof. induction s as [|c s IH]; simpl; [done|]. by rewrite IH. Qed.

(** The key gives the address back. *)
Lemma key_roundtrip a : (String.length a <= 255)%nat ->
  AddressFromHoldersStore (holder_key a) = Ok a.
Proof.
  intros L. unfold AddressFromHoldersStore, holder_key.
  rewrite Ascii.nat_ascii_embedding by lia. rewrite bool_decide_eq_false_2 by lia.
  by rewrite substring_all.
Qed.

Lemma balances_zero a w :
  IsZero (GetAccountBalances a w) = true <-> forall d, dao_GetBalance a d w = 0.
Proof.
  unfold GetAccountBalances, dao_GetBalance.
  destruct (all_balances_spec (GetEscrowAddress a) w) as [V E].
  rewrite is_zero_spec by by apply valid_operand.
  split; intros Z0 d; [rewrite <- E|rewrite E]; apply Z0.
Qed.

Lemma set_holders_facts h w (w' := set_holders h w) :
  books w w' /\ ds_holders (view w') = h /\ forall d, total d w' = total d w.
Proof.
  subst w'. unfold set_holders, total. rewrite view_update. by split_and!; [apply books_update| |].
Qed.

Lemma set_index_ok a w w' : SetHoldersIndex a w = (Ok tt, w') ->
  books w w' /\ (forall d, total d w' = total d w) /\
  (in_index a w' <-> IsZero (GetAccountBalances a w) = false) /\
  (forall b, b <> a -> in_index b w' <-> in_index b w).
Proof.
  intros E. unfold SetHoldersIndex in E. apply M_bind_ok in E as (k & w1 & Ek & E).
  apply mlift_ok in Ek as [Ek ->]. apply prefix_key in Ek as ->. apply mmodify_ok in E. subst w'.
  assert (Hk : forall b, b <> a -> holder_key b <> holder_key a) by (intros b N [=]; congruence).
  unfold in_index. destruct (IsZero (GetAccountBalances a w)) eqn:Z0; cbn [negb andb].
  - rewrite andb_false_r. case_bool_decide as Hin; [|by split_and!; [apply books_refl|..]].
    match goal with |- context [set_holders ?h ?w0] =>
      destruct (set_holders_facts h w0) as (B & Hh & Ht) end.
    split_and!; [done|done| |]; rewrite Hh; [set_solver|]. intros b N%Hk. set_solver.
  - case_bool_decide as Hin; cbn [andb].
    + match goal with |- context [set_holders ?h ?w0] =>
        destruct (set_holders_facts h w0) as (B & Hh & Ht) end.
      split_and!; [done|done| |]; rewrite Hh; [set_solver|]. intros b N%Hk. set_solver.
    + by split_and!; [apply books_refl|..].
Qed.

Lemma is_holder_ok a w b : IsHolder a w = Ok b -> b = true <-> in_index a w.
Proof.
  intros E. unfold IsHolder in E. apply res_bind_ok in E as (k & Ek & E). simplify_eq.
  apply prefix_key in Ek as ->. by rewrite bool_decide_eq_true.
Qed.
(** *** The operations *)

(** [w'] is [w] after a transfer of [cs], with the totals changed by [delta]. *)
Record transferred (from to : string) (cs : list coin) (delta : string -> Z) w w' : Prop := {
  tf_moved : moved from to cs (fun a d => GetBalance a d w) (fun a d => GetBalance a d w');
  tf_total d : total d w' = total d w + delta d;
  tf_holders : ds_holders (view w') = ds_holders (view w);
  tf_inv : I w -> I w'
}.

Lemma single_coins c cs : NewCoins [c] = Ok cs -> Amount c <> 0 -> cs = [c] /\ 0 < Amount c.
Proof.
  destruct c as [d x]. cbn [Amount]. intros E N. destruct (new_coins_single d x cs E) as [Hx Hd].
  rewrite new_coins_one, decide_False in E by done. injection E as <-. split; [done|lia].
Qed.

Lemma escrow_ok from to c w w' : Amount c <> 0 -> escrowToken from to c w = (Ok tt, w') ->
  0 < Amount c /\ transferred from to [c] (amt [c]) w w'.
Proof.
  intros N E. unfold escrowToken in E. apply M_bind_ok in E as (cs & w1 & Ec & E).
  apply mlift_ok in Ec as [Ec ->]. apply single_coins in Ec as [-> Hx]; [|done].
  apply M_bind_ok in E as ([] & w1 & Es & E). split; [done|].
  apply track_add_ok in E as [[B Bi _] Hh Ht].
  pose proof (send_view _ _ _ _ _ _ Es) as V.
  apply send_ok in Es as Es'; [|destruct c; apply operand_single; simpl in *; lia].
  destruct Es' as (Mv & _ & _). constructor.
  - intros a d. cbv beta. rewrite B. apply (Mv a d).
  - intros d. rewrite Ht. unfold total. by rewrite V.
  - by rewrite Hh, V.
  - intros. apply Bi. eapply send_inv; eauto.
Qed.

Lemma fund_loop_ok from to cs w w' : fund_loop from to cs w = (Ok tt, w') ->
  Forall (fun c => allowed_denom (Denom c) = true /\ 0 <= Amount c) cs /\
  transferred from to cs (amt cs) w w'.
Proof.
  revert w. induction cs as [|c cs IH]; intros w E; cbn [fund_loop] in E.
  { apply mret_ok in E as [_ ->]. split; [constructor|]. constructor; try done.
    - intros a d. simpl. repeat case_decide; lia.
    - intros d. simpl. lia. }
  destruct (allowed_denom (Denom c)) eqn:Ha; [|done]. cbn [negb] in E.
  destruct (Z.eqb_spec (Amount c) 0) as [Z0|N].
  - apply IH in E as [F [Mv Ht Hh Hi]]. split; [constructor; [split; [done|lia]|done]|].
    assert (X : forall d, amt (c :: cs) d = amt cs d)
      by (intros d; simpl; case_decide; lia).
    constructor; [|intros d; by rewrite X|done|done].
    intros a d. rewrite X. apply Mv.
  - apply M_bind_ok in E as ([] & w1 & E1 & E). apply escrow_ok in E1 as [Hx [Mv Ht Hh Hi]]; [|done].
    apply IH in E as [F [Mv' Ht' Hh' Hi']]. split; [constructor; [split; [done|lia]|done]|].
    assert (X : forall d, amt (c :: cs) d = amt [c] d + amt cs d) by (intros d; simpl; lia).
    constructor; [|intros d; rewrite Ht', Ht, X; lia|congruence|auto].
    intros a d. specialize (Mv a d). specialize (Mv' a d). cbv beta in *.
    rewrite Mv', Mv, X. repeat case_decide; lia.
Qed.

Lemma dao_fund_ok cs a w w' : Fund cs a w = (Ok tt, w') ->
  Forall (fun c => allowed_denom (Denom c) = true /\ 0 <= Amount c) cs /\
  moved a (GetEscrowAddress a) cs (fun a d => GetBalance a d w) (fun a d => GetBalance a d w') /\
  (forall d, total d w' = total d w + amt cs d) /\
  (in_index a w' <-> IsZero (GetAccountBalances a w') = false) /\
  (forall b, b <> a -> in_index b w' <-> in_index b w) /\
  (I w -> I w').
Proof.
  intros E. unfold Fund in E. apply M_bind_ok in E as (en & w1 & E1 & E).
  apply mgets_ok in E1 as [_ ->]. destruct en; [|done]. cbn [negb] in E.
  apply M_bind_ok in E as ([] & w1 & E1 & E). apply fund_loop_ok in E1 as [F [Mv Ht Hh Hi]].
  apply set_index_ok in E as ([B Bi _] & Ht' & Hin & Hout).
  split_and!; [done| | | | |auto].
  - intros x d. cbv beta. rewrite B. apply Mv.
  - intros d. by rewrite Ht', Ht.
  - rewrite Hin, <- !not_true_iff_false, !balances_zero. unfold dao_GetBalance. by setoid_rewrite B.
  - intros b N. rewrite Hout by done. unfold in_index. by rewrite Hh.
Qed.
Lemma zero_same a w w' : (forall d, dao_GetBalance a d w' = dao_GetBalance a d w) ->
  IsZero (GetAccountBalances a w') = IsZero (GetAccountBalances a w).
Proof.
  intros E. apply eq_true_iff_eq. rewrite !balances_zero. by setoid_rewrite E.
Qed.

Lemma transfer_ok o n cs w w' r : operand cs -> TransferOwnership o n cs w = (Ok r, w') ->
  r = cs /\ IsZero (GetAccountBalances o w) = false /\
  moved (GetEscrowAddress o) (GetEscrowAddress n) cs
    (fun a d => GetBalance a d w) (fun a d => GetBalance a d w') /\
  (forall d, total d w' = total d w) /\
  (forall a, a = o \/ a = n -> in_index a w' <-> IsZero (GetAccountBalances a w') = false) /\
  (forall b, b <> o -> b <> n -> in_index b w' <-> in_index b w) /\
  (I w -> I w').
Proof.
  intros Hcs E. unfold TransferOwnership in E. apply M_bind_ok in E as (en & w1 & E1 & E).
  apply mgets_ok in E1 as [_ ->]. destruct en; [|done]. cbn [negb] in E.
  apply M_bind_ok in E as (bs & w1 & E1 & E). apply mgets_ok in E1 as [-> ->].
  destruct (IsZero _) eqn:Z0; [done|].
  apply M_bind_ok in E as ([] & w1 & Es & E). unfold transferEscrowToken in Es.
  apply M_bind_ok in E as ([] & w2 & E2 & E). apply M_bind_ok in E as ([] & w3 & E3 & E).
  apply mret_ok in E as [-> ->].
  apply set_index_ok in E2 as ([B2 I2 _] & T2 & In2 & Out2).
  apply set_index_ok in E3 as ([B3 I3 _] & T3 & In3 & Out3).
  pose proof (send_view _ _ _ _ _ _ Es) as V.
  apply send_ok in Es as Es'; [|done]. destruct Es' as (Mv & _ & _).
  split_and!; [done|done| | | | |].
  - intros a d. cbv beta. rewrite B3, B2. apply Mv.
  - intros d. rewrite T3, T2. unfold total. by rewrite V.
  - intros a Ha. destruct (decide (a = o)) as [->|No].
    + rewrite In3. symmetry. rewrite (zero_same o w2); [done|]. intros. apply B3.
    + assert (a = n) as -> by naive_solver. rewrite Out3, In2 by done.
      symmetry. rewrite (zero_same n w1); [done|]. intros. unfold dao_GetBalance. by rewrite B3, B2.
  - intros b No Nn. rewrite Out3, Out2 by done. unfold in_index. by rewrite V.
  - intros. apply I3, I2. eapply send_inv; eauto.
Qed.

(** The sum of the amounts of a list of coins. *)
Definition amounts (cs : list coin) : Z := sum_over Amount cs.

Lemma liquid_not_islm : IsLiquidToken islm = false.
Proof. reflexivity. Qed.

Lemma scan_spec bs sum lq : valid bs -> convert_scan bs = (sum, lq) ->
  Forall (fun c => IsLiquidToken (Denom c) = true /\ 0 < Amount c) lq /\
  (forall d, amt lq d = if IsLiquidToken d then amt bs d else 0) /\
  sum = amt bs islm + amounts lq.
Proof.
  intros [_ P]. revert sum lq. induction P as [|b bs Pb _ IH]; intros sum lq E; cbn [convert_scan] in E.
  { injection E as <- <-. split_and!; [constructor| |done]. intros d. by destruct (IsLiquidToken d). }
  destruct (convert_scan bs) as [s l] eqn:Es. destruct (IH s l eq_refl) as (F & Hl & Hs).
  destruct (decide (Denom b = islm)) as [Ei|Ni].
  - rewrite (bool_decide_eq_false_2 (Denom b <> islm)), andb_false_r in E by naive_solver.
    injection E as <- <-. split_and!; [done| |].
    + intros d. rewrite Hl. cbn [amt]. rewrite Ei.
      case_decide; [subst d; by rewrite liquid_not_islm|done].
    + cbn [amt]. rewrite decide_True by done. lia.
  - rewrite (bool_decide_eq_true_2 (Denom b <> islm)), andb_true_r in E by done.
    destruct (IsLiquidToken (Denom b)) eqn:Lb; cbn [negb] in E; injection E as <- <-.
    + split_and!; [by constructor| |].
      * intros d. cbn [amt]. rewrite Hl. case_decide; [subst d; by rewrite Lb|].
        by destruct (IsLiquidToken d).
      * cbn [amt]. rewrite decide_False by done. unfold amounts in *. simpl. lia.
    + split_and!; [done| |].
      * intros d. rewrite Hl. cbn [amt]. case_decide; [subst d; by rewrite Lb|done].
      * cbn [amt]. rewrite decide_False by done. lia.
Qed.
(** What redeeming the liquid coins [lq] adds to the escrow account. *)
Definition swapped (lq : list coin) (d : string) : Z :=
  amt [mkCoin islm (amounts lq)] d - amt lq d.

Lemma swapped_cons c lq d :
  swapped (c :: lq) d = amt [mkCoin islm (Amount c)] d - amt [c] d + swapped lq d.
Proof. unfold swapped. rewrite !amt_single. unfold amounts. simpl. repeat case_decide; lia. Qed.

Abbreviation liquid_module := (GetModuleAddress (W:=W) "liquidvesting").

Lemma redeem_loop_ok esc lq w w' : I w ->
  Forall (fun c => IsLiquidToken (Denom c) = true /\ 0 < Amount c) lq ->
  redeem_loop esc lq w = (Ok tt, w') ->
  I w' /\ ds_holders (view w') = ds_holders (view w) /\
  (forall d, total d w' = total d w + swapped lq d) /\
  (forall a d, a <> liquid_module ->
    GetBalance a d w' = GetBalance a d w + (if decide (a = esc) then swapped lq d else 0)).
Proof.
  intros Hi F. revert w Hi. induction F as [|c lq [Lc Pc] _ IH]; intros w Hi E; cbn [redeem_loop] in E.
  { apply mret_ok in E as [_ ->]. split_and!; [done|done| |].
    - intros d. unfold swapped. rewrite amt_single. simpl. case_decide; lia.
    - intros a d _. unfold swapped. rewrite amt_single. simpl. repeat case_decide; lia. }
  apply M_bind_ok in E as ([] & w1 & E1 & E).
  apply redeem_ok in E1 as (I1 & V1 & B1); [|done..].
  apply M_bind_ok in E as (r & w2 & E2 & E). apply mlift_ok in E2 as [E2 ->].
  apply new_coin_inv in E2 as (-> & _ & _).
  apply M_bind_ok in E as ([] & w2 & E2 & E). apply track_add_ok in E2 as [[B2 I2 _] H2' T2].
  apply M_bind_ok in E as ([] & w3 & E3 & E). apply track_sub_ok in E3 as [[[B3 I3 _] H3' T3] _].
  apply IH in E as (I4 & Hh & T4 & B4); [|auto]. split_and!; [done| | |].
  - congruence.
  - intros d. rewrite T4, T3, T2, swapped_cons. unfold total. rewrite V1. lia.
  - intros a d Ha. rewrite B4, B3, B2, B1, swapped_cons by done. repeat case_decide; lia.
Qed.

(** The liquid coins an owner has in escrow. *)
Definition liquid_coins (a : string) (w : W) : list coin :=
  (convert_scan (GetAccountBalances a w)).2.

Lemma liquid_coins_spec a w :
  Forall (fun c => IsLiquidToken (Denom c) = true /\ 0 < Amount c) (liquid_coins a w) /\
  (forall d, amt (liquid_coins a w) d = if IsLiquidToken d then dao_GetBalance a d w else 0).
Proof.
  unfold liquid_coins, dao_GetBalance.
  destruct (all_balances_spec (GetEscrowAddress a) w) as [V E].
  destruct (convert_scan _) as [s lq] eqn:Es. apply scan_spec in Es as (F & Hl & _); [|done].
  split; [done|]. intros d. cbn [snd]. by rewrite Hl, E.
Qed.

Lemma convert_ok a r x w w' c : GetEscrowAddress a <> liquid_module -> I w ->
  ConvertToHaqq a r x w = (Ok c, w') ->
  exists y, c = mkCoin haqq y /\ 0 < y /\ 0 < x /\ in_index a w /\
  x <= dao_GetBalance a islm w + amounts (liquid_coins a w) /\ I w' /\
  (forall d, total d w' = total d w + swapped (liquid_coins a w) d - amt [mkCoin islm x] d) /\
  (forall b d, b <> liquid_module -> GetBalance b d w' = GetBalance b d w
    + (if decide (b = GetEscrowAddress a)
       then swapped (liquid_coins a w) d - amt [mkCoin islm x] d else 0)
    + (if decide (b = r) then amt [mkCoin haqq y] d else 0)) /\
  (in_index a w' <-> IsZero (GetAccountBalances a w') = false) /\
  (forall b, b <> a -> in_index b w' <-> in_index b w).
Proof.
  intros Hm Hi E. unfold ConvertToHaqq in E. apply M_bind_ok in E as (en & w1 & E1 & E).
  apply mgets_ok in E1 as [_ ->]. destruct en; [|done]. cbn [negb] in E.
  apply M_bind_ok in E as (h & w1 & E1 & E). injection E1 as Eh <-.
  destruct h; [|done]. cbn [negb] in E. apply is_holder_ok in Eh as [Hin _].
  apply M_bind_ok in E as (bs & w1 & E1 & E). apply mgets_ok in E1 as [-> ->].
  pose proof (liquid_coins_spec a w) as [F Hl]. unfold liquid_coins in *.
  destruct (all_balances_spec (GetEscrowAddress a) w) as [V Ea].
  destruct (convert_scan _) as [s lq] eqn:Es. cbn [snd] in *.
  apply scan_spec in Es as (_ & _ & Hs); [|done].
  destruct (Z.ltb_spec s x) as [|Hx]; [done|].
  apply M_bind_ok in E as ([] & w1 & E1 & E).
  apply redeem_loop_ok in E1 as (I1 & Hh1 & T1 & B1); [|done..].
  destruct ethiqk as [f|] eqn:Ef; [|done].
  apply M_bind_ok in E as (y & w2 & E2 & E).
  apply (ethiq_burn_ok (I:=I)) in E2 as (I2 & V2 & Px & Py & B2); [|done|done|]; last first.
  { intros d Ld. rewrite B1, decide_True by done. unfold swapped. rewrite amt_single, Hl, Ld.
    rewrite decide_False by (intros <-; by rewrite liquid_not_islm in Ld).
    unfold dao_GetBalance. lia. }
  apply M_bind_ok in E as (b & w3 & E3 & E). apply mlift_ok in E3 as [E3 ->].
  apply new_coin_inv in E3 as (-> & _ & _).
  apply M_bind_ok in E as ([] & w3 & E3 & E). apply track_sub_ok in E3 as [[[B3 I3 _] H3' T3] _].
  apply M_bind_ok in E as ([] & w4 & E4 & E).
  apply set_index_ok in E4 as ([B4 I4 _] & T4 & In4 & Out4).
  apply mlift_ok in E as [Ec ->]. apply new_coin_inv in Ec as (-> & _ & _).
  exists y. split_and!; [done|done|done|by apply Hin| |auto| | | |].
  - unfold dao_GetBalance. rewrite <- Ea. unfold GetAccountBalances in Hs. lia.
  - intros d. rewrite T4, T3. unfold total in *. rewrite V2, T1. lia.
  - intros c d Hc. rewrite B4, B3, B2, B1 by done. repeat case_decide; lia.
  - rewrite In4, (zero_same a w3 w4); [done|]. intros. apply B4.
  - intros c Nc. rewrite Out4 by done. unfold in_index. by rewrite H3', V2, Hh1.
Qed.
End facts.
