(* ===== verification/UcdaoInvariant.v ===== *)
(** * The invariant of x/ucdao

    [dao_ok owners w]: the tracked total of every accepted denomination is the sum
    of the escrow balances of [owners], and the index of holders lists only owners
    with coins in escrow, and all of those with other coins than aHAQQ.  Every message
    of an owner preserves it, whatever the rest of the chain does in between with other
    accounts.  A conversion may pay its aHAQQ into an owner's escrow account, and does not
    list that owner ([unlisted_holder]); without such payments the index lists exactly the
    owners with coins ([all_listed]).  The
    last part is the round trip through the genesis state, which needs the
    invariant, and the accounting of the spend limits. *)

From S2P Require Import Prelude.
From S2P Require Import Sdk.
From S2P Require Import ClawbackAccount.
From S2P Require Import Keepers.
From S2P Require Import VestingMsg.
From S2P Require Import Ucdao.

Local Open Scope Z_scope.

Section invariant.
Context {W : Type} {I : W -> Prop} `{SdkLaws} `{EthOps} `{!DaoOps} `{!DaoLaws} `{AddrCheck}.
Context `{Ctx W, AccountKeeper W, BankKeeper W, DistributionKeeper W, ModuleBank W}.
Context `{BalanceKeeper W, LiquidVestingKeeper W, EthiqKeeper W, Lens W DaoState}.
Context `{!KeeperLaws W} `{!ModuleState W DaoState} `{!BalanceLaws W} `{!DaoWorld W I}.
Context `{!LiquidVestingLaws W I} `{!EthiqLaws W I}.
Implicit Types w : W.

Definition escrows (owners : list string) : list string := GetEscrowAddress <$> owners.

(** The coins the owners have in escrow. *)
Definition escrowed (owners : list string) (d : string) (w : W) : Z :=
  sum_over (fun e => GetBalance e d w) (escrows owners).

(** A listed owner has coins, and one with other coins than aHAQQ is listed. *)
Record entry_ok (a : string) (w : W) : Prop := {
  en_coins : in_index a w -> IsZero (GetAccountBalances a w) = false;
  en_listed d : d <> haqq -> dao_GetBalance a d w <> 0 -> in_index a w
}.

Record dao_ok (owners : list string) (w : W) : Prop := {
  ok_total d : allowed_denom d = true -> total d w = escrowed owners d w;
  ok_index a : a ∈ owners -> entry_ok a w
}.

(** Every owner with coins is listed. *)
Definition all_listed (owners : list string) (w : W) : Prop :=
  forall a, a ∈ owners -> IsZero (GetAccountBalances a w) = false -> in_index a w.

(** Distinct owners have distinct escrow accounts, none of which is the account
    of the liquid vesting module. *)
Record separate (owners : list string) : Prop := {
  sep_nodup : NoDup (escrows owners);
  sep_module : GetModuleAddress (W:=W) "liquidvesting" ∉ escrows owners
}.

Lemma escrow_inj owners a b : separate owners -> a ∈ owners -> b ∈ owners ->
  GetEscrowAddress a = GetEscrowAddress b -> a = b.
Proof.
  intros [N _] Ha Hb E. unfold escrows in N.
  apply list_elem_of_lookup in Ha as [i Hi], Hb as [j Hj].
  assert (i = j) as ->.
  { eapply NoDup_lookup; [exact N| |]; rewrite list_lookup_fmap, ?Hi, ?Hj; simpl; [done|by rewrite E]. }
  congruence.
Qed.

Lemma escrow_in owners a : a ∈ owners -> GetEscrowAddress a ∈ escrows owners.
Proof. intros. unfold escrows. by apply list_elem_of_fmap_2. Qed.

(** A change of the balances at one escrow account and elsewhere. *)
Lemma escrowed_change owners a v d w w' : separate owners -> a ∈ owners ->
  (forall e, e ∈ escrows owners ->
    GetBalance e d w' = GetBalance e d w + if decide (e = GetEscrowAddress a) then v else 0) ->
  escrowed owners d w' = escrowed owners d w + v.
Proof.
  intros [N _] Ha E. unfold escrowed. rewrite (sum_over_ext _ _ _ E), sum_over_add, sum_over_at by done.
  rewrite decide_True; [done|]. by apply escrow_in.
Qed.

Lemma escrowed_same owners d w w' :
  (forall e, e ∈ escrows owners -> GetBalance e d w' = GetBalance e d w) ->
  escrowed owners d w' = escrowed owners d w.
Proof. intros E. unfold escrowed. by apply sum_over_ext. Qed.

(** An owner listed as it should be; and one that stays so. *)
Lemma entry_exact a w : (in_index a w <-> IsZero (GetAccountBalances a w) = false) -> entry_ok a w.
Proof.
  intros Hin. split; [by apply Hin|]. intros d _ Hd. apply Hin, not_true_iff_false. rewrite balances_zero. intros Hz. by apply Hd.
Qed.

Lemma coins_grow a w w' : (forall d, dao_GetBalance a d w <= dao_GetBalance a d w') ->
  IsZero (GetAccountBalances a w) = false -> IsZero (GetAccountBalances a w') = false.
Proof.
  intros Hle. rewrite <- !not_true_iff_false, !balances_zero. intros N Hz. apply N. intros d.
  specialize (Hle d). rewrite Hz in Hle. unfold dao_GetBalance in *.
  destruct (all_balances_spec (GetEscrowAddress a) w) as [Va%valid_operand B]. rewrite <- (B d) in *.
  pose proof (amt_nonneg _ d Va). lia.
Qed.

(** Neither more aHAQQ nor nothing at all hurts an entry. *)
Lemma entry_paid a w w' : entry_ok a w -> (forall d, dao_GetBalance a d w <= dao_GetBalance a d w') ->
  (forall d, d <> haqq -> dao_GetBalance a d w' = dao_GetBalance a d w) ->
  (in_index a w' <-> in_index a w) -> entry_ok a w'.
Proof.
  intros [Hc Hl] Hle E Hin. split.
  - intros Hi. by apply (coins_grow a w), Hc, Hin.
  - intros d Hd. rewrite (E d Hd). intros Hb. by apply Hin, (Hl d).
Qed.

Lemma entry_same a w w' : entry_ok a w -> (forall d, dao_GetBalance a d w' = dao_GetBalance a d w) ->
  (in_index a w' <-> in_index a w) -> entry_ok a w'.
Proof. intros Hok E. apply entry_paid; [done| |done]. intros d. by rewrite E. Qed.

(** Every listed owner's balances are as before, and so is the list. *)
Lemma listed_same a w w' : (forall d, dao_GetBalance a d w' = dao_GetBalance a d w) ->
  (in_index a w' <-> in_index a w) ->
  (IsZero (GetAccountBalances a w) = false -> in_index a w) ->
  IsZero (GetAccountBalances a w') = false -> in_index a w'.
Proof. intros E Hin Hl. rewrite (zero_same a w w' E), Hin. done. Qed.

(** What a step keeps. *)
Definition keeps (owners : list string) (w w' : W) : Prop :=
  dao_ok owners w' /\ (all_listed owners w -> all_listed owners w').

(** The step lists the owner again, or leaves it alone. *)
Lemma index_keeps owners w w' : dao_ok owners w ->
  (forall d, allowed_denom d = true -> total d w' = escrowed owners d w') ->
  (forall a, a ∈ owners -> (in_index a w' <-> IsZero (GetAccountBalances a w') = false) \/
     ((forall d, dao_GetBalance a d w' = dao_GetBalance a d w) /\ (in_index a w' <-> in_index a w))) ->
  keeps owners w w'.
Proof.
  intros Hok Ht Hin. split; [constructor; [done|]|].
  - intros a Ha. destruct (Hin a Ha) as [E|[E Hi]]; [by apply entry_exact|].
    by apply (entry_same a w); [apply Hok|..].
  - intros Hl a Ha. destruct (Hin a Ha) as [E|[E Hi]]; [by apply E|]. by apply (listed_same a w w' E Hi (Hl a Ha)).
Qed.

Lemma fund_keeps owners cs a w w' : separate owners -> dao_ok owners w -> a ∈ owners ->
  a ∉ escrows owners -> Fund cs a w = (Ok tt, w') -> keeps owners w w'.
Proof.
  intros Hs Hok Ha Na E. apply dao_fund_ok in E as (F & Mv & Ht & Hin & Hout & _).
  assert (B : forall e d, e ∈ escrows owners -> GetBalance e d w' = GetBalance e d w
    + if decide (e = GetEscrowAddress a) then amt cs d else 0).
  { intros e d He. rewrite (Mv e d), decide_False by (by intros ->). lia. }
  apply index_keeps; [done| |].
  - intros d Hd. rewrite Ht, (ok_total _ _ Hok d Hd). symmetry.
    apply (escrowed_change _ a); auto.
  - intros b Hb. destruct (decide (b = a)) as [->|N]; [by left|]. right. split; [|by apply Hout].
    intros d. unfold dao_GetBalance. rewrite B by by apply escrow_in.
    rewrite decide_False; [lia|]. intros E. by apply (escrow_inj owners) in E.
Qed.

Lemma transfer_keeps owners o n cs w w' r : separate owners -> dao_ok owners w ->
  o ∈ owners -> n ∈ owners -> operand cs ->
  TransferOwnership o n cs w = (Ok r, w') -> keeps owners w w'.
Proof.
  intros Hs Hok Ho Hn Hcs E.
  apply transfer_ok in E as (_ & _ & Mv & Ht & Hin & Hout & _); [|done].
  apply index_keeps; [done| |].
  - intros d Hd. rewrite Ht, (ok_total _ _ Hok d Hd). unfold escrowed.
    transitivity (sum_over (fun e => GetBalance e d w
      + (if decide (e = GetEscrowAddress o) then - amt cs d else 0)
      + (if decide (e = GetEscrowAddress n) then amt cs d else 0)) (escrows owners)).
    + rewrite !sum_over_add, !sum_over_at by apply Hs.
      rewrite !decide_True by (by apply escrow_in). lia.
    + apply sum_over_ext. intros e _. rewrite (Mv e d). repeat case_decide; lia.
  - intros b Hb. destruct (decide (b = o \/ b = n)) as [D|D]; [left; by apply Hin|]. right.
    split; [|apply Hout; naive_solver].
    intros d. unfold dao_GetBalance. rewrite (Mv _ d), !decide_False; [lia| |];
      intros E; apply (escrow_inj owners) in E; naive_solver.
Qed.

(** A conversion pays anybody; only a receiver that is an owner's escrow account may leave an owner unlisted. *)
Lemma convert_keeps owners a r x c w w' : separate owners -> dao_ok owners w -> I w ->
  a ∈ owners -> ConvertToHaqq a r x w = (Ok c, w') ->
  dao_ok owners w' /\ (r ∉ escrows owners -> all_listed owners w -> all_listed owners w').
Proof.
  intros Hs Hok Hi Ha E.
  assert (Nm : forall e, e ∈ escrows owners -> e <> GetModuleAddress (W:=W) "liquidvesting")
    by (intros e He ->; by apply Hs in He).
  apply convert_ok in E as (y & _ & Py & _ & _ & _ & _ & Ht & B & Hin & Hout);
    [|by apply Nm, escrow_in|done].
  assert (B' : forall b d, b ∈ owners -> dao_GetBalance b d w' = dao_GetBalance b d w
    + (if decide (b = a) then swapped (liquid_coins a w) d - amt [mkCoin islm x] d else 0)
    + (if decide (GetEscrowAddress b = r) then amt [mkCoin haqq y] d else 0)).
  { intros b d Hb. unfold dao_GetBalance. rewrite B by (by apply Nm, escrow_in). do 2 f_equal.
    destruct (decide (b = a)) as [->|N]; [by rewrite decide_True|]. rewrite decide_False; [done|].
    intros E. by apply (escrow_inj owners) in E. }
  assert (Py' : forall d, 0 <= amt [mkCoin haqq y] d) by (intros d; rewrite amt_single; case_decide; lia).
  split; [constructor|].
  - intros d Hd. rewrite Ht, (ok_total _ _ Hok d Hd).
    rewrite (escrowed_change owners a (swapped (liquid_coins a w) d - amt [mkCoin islm x] d) d w w' Hs Ha); [lia|].
    intros e He. rewrite B by by apply Nm. rewrite (amt_single haqq), (decide_False (P := haqq = d)); [case_decide; case_decide; lia|].
    intros <-. unfold allowed_denom in Hd. done.
  - intros b Hb. destruct (decide (b = a)) as [->|N]; [by apply entry_exact|].
    apply (entry_paid b w); [by apply Hok| | |by apply Hout].
    + intros d. rewrite B', decide_False by done. specialize (Py' d). case_decide; lia.
    + intros d Hd. rewrite B', decide_False by done. rewrite (amt_single haqq), (decide_False (P := haqq = d)) by done. case_decide; lia.
  - intros Nr Hl b Hb. destruct (decide (b = a)) as [->|N]; [by apply Hin|].
    apply (listed_same b w w'); [|by apply Hout|by apply Hl].
    intros d. rewrite B', decide_False, decide_False; [lia| |done|done]. intros Er. apply Nr. rewrite <- Er. by apply escrow_in.
Qed.

(** *** Messages *)

Definition share (ratio : Z) (c : coin) : coin :=
  mkCoin (Denom c) (Amount c * ratio / 10 ^ 18).

Lemma ratio_loop_map ratio bs cs : 0 <= ratio -> Forall (fun c => 0 < Amount c) bs ->
  ratio_loop ratio bs = Ok cs -> cs = share ratio <$> bs.
Proof.
  intros Hr F. revert cs. induction F as [|c bs Pc _ IH]; intros cs E; cbn [ratio_loop] in E.
  { by injection E as <-. }
  apply res_bind_ok in E as (s & Es & E). apply new_coin_inv in Es as (-> & _ & _).
  apply res_bind_ok in E as (cs' & Ecs & E). injection E as <-.
  rewrite mul_truncate_spec by lia. csimpl. by rewrite (IH cs').
Qed.

Lemma shares_operand ratio bs : 0 <= ratio -> valid bs -> operand (share ratio <$> bs).
Proof.
  intros Hr [S P]. split.
  - clear P. induction S as [|c bs S IH Hc]; csimpl; constructor; [done|].
    apply Forall_fmap. by eapply Forall_impl; [|exact Hc].
  - apply Forall_fmap. eapply Forall_impl; [|exact P]. intros c Pc.
    cbn [share Amount compose]. cbv beta in Pc. apply Z.div_pos; [nia|lia].
Qed.

Lemma shares_amt ratio bs d : StronglySorted denom_lt bs ->
  amt (share ratio <$> bs) d = amt bs d * ratio / 10 ^ 18.
Proof.
  induction 1 as [|c bs S IH Hc]; csimpl; [done|]. rewrite IH. cbn [amt share Denom Amount].
  case_decide as E; [|done]. subst d. rewrite (amt_absent c bs Hc).
  rewrite Z.mul_0_l, Z.div_0_l by lia. by rewrite !Z.add_0_r.
Qed.

Lemma must_addr_ok s a : must_addr s = Ok a -> AccAddressFromBech32 s = Some a.
Proof. unfold must_addr. destruct (AccAddressFromBech32 s); naive_solver. Qed.

(** Opens the first three lines of a handler: the checked message and its
    addresses. *)
Ltac open_msg E :=
  apply M_bind_ok in E as (?u & ?w0 & ?Ev & E);
  match goal with Hv : mlift _ _ = (Ok _, _) |- _ => apply mlift_ok in Hv as [Hv ->] end;
  repeat match type of E with (mlift (must_addr _) ≫= _) _ = _ =>
    let a := fresh "a" in let Ha := fresh "Ha" in
    apply M_bind_ok in E as (a & ?w0 & Ha & E); apply mlift_ok in Ha as [Ha ->];
    apply must_addr_ok in Ha end.

Lemma msg_fund_run msg w w' : msg_Fund msg w = (Ok tt, w') ->
  exists a, AccAddressFromBech32 (mf_Depositor msg) = Some a /\ valid (mf_Amount msg) /\
    Fund (mf_Amount msg) a w = (Ok tt, w').
Proof.
  intros E. unfold msg_Fund in E. open_msg E. exists a. split_and!; [done| |done].
  unfold ValidateBasic_Fund in Ev. destruct (IsValid _) eqn:V; [|done]. by apply is_valid_spec.
Qed.

Lemma msg_transfer_run msg w w' : msg_TransferOwnership msg w = (Ok tt, w') ->
  exists o n cs, AccAddressFromBech32 (mt_Owner msg) = Some o /\
    AccAddressFromBech32 (mt_NewOwner msg) = Some n /\ cs = GetAccountBalances o w /\
    TransferOwnership o n cs w = (Ok cs, w').
Proof.
  intros E. unfold msg_TransferOwnership in E. open_msg E.
  apply M_bind_ok in E as (bs & w1 & E1 & E). apply mgets_ok in E1 as [-> ->].
  destruct (IsZero _); [done|]. apply M_bind_ok in E as (r & w1 & E1 & E).
  apply mret_ok in E as [_ ->]. exists a, a0, (GetAccountBalances a w). split_and!; try done.
  destruct (all_balances_spec (GetEscrowAddress a) w) as [V _].
  apply transfer_ok in E1 as E2; [|by apply valid_operand]. destruct E2 as [-> _]. done.
Qed.

Lemma msg_ratio_run msg w w' r : msg_TransferOwnershipWithRatio msg w = (Ok r, w') ->
  exists o n, AccAddressFromBech32 (mr_Owner msg) = Some o /\
    AccAddressFromBech32 (mr_NewOwner msg) = Some n /\ 0 < mr_Ratio msg <= 10 ^ 18 /\
    r = share (mr_Ratio msg) <$> GetAccountBalances o w /\
    TransferOwnership o n r w = (Ok r, w').
Proof.
  intros E. unfold msg_TransferOwnershipWithRatio in E. open_msg E.
  unfold ValidateBasic_Ratio in Ev. apply res_bind_ok in Ev as (_ & _ & Ev).
  apply res_bind_ok in Ev as (_ & _ & Ev).
  destruct (Z.leb_spec (mr_Ratio msg) 0); [done|].
  destruct (Z.ltb_spec (10 ^ 18) (mr_Ratio msg)); [done|].
  apply M_bind_ok in E as (bs & w1 & E1 & E). apply mgets_ok in E1 as [-> ->].
  destruct (IsZero _); [done|]. apply M_bind_ok in E as (cs & w1 & E1 & E).
  apply mlift_ok in E1 as [E1 ->].
  destruct (all_balances_spec (GetEscrowAddress a) w) as [V _].
  apply ratio_loop_map in E1 as ->; [|lia|apply V]. exists a, a0.
  apply transfer_ok in E as E2; [|apply shares_operand; [lia|apply V]].
  destruct E2 as [-> _]. by split_and!.
Qed.

Lemma msg_amount_run msg w w' : msg_TransferOwnershipWithAmount msg w = (Ok tt, w') ->
  exists o n, AccAddressFromBech32 (ma_Owner msg) = Some o /\
    AccAddressFromBech32 (ma_NewOwner msg) = Some n /\ valid (ma_Amount msg) /\
    exists r, TransferOwnership o n (ma_Amount msg) w = (Ok r, w').
Proof.
  intros E. unfold msg_TransferOwnershipWithAmount in E. open_msg E.
  unfold ValidateBasic_Amount in Ev. apply res_bind_ok in Ev as (_ & _ & Ev).
  apply res_bind_ok in Ev as (_ & _ & Ev). destruct (IsValid _) eqn:V; [|done].
  apply is_valid_spec in V.
  apply M_bind_ok in E as (bs & w1 & E1 & E). apply mgets_ok in E1 as [-> ->].
  destruct (IsZero _); [done|]. apply M_bind_ok in E as (r & w1 & E1 & E).
  apply mret_ok in E as [_ ->]. eauto 10.
Qed.

Lemma msg_convert_run msg w w' c : msg_ConvertToHaqq msg w = (Ok c, w') ->
  exists s r, AccAddressFromBech32 (mv_Sender msg) = Some s /\
    AccAddressFromBech32 (mv_Receiver msg) = Some r /\
    ConvertToHaqq s r (mv_IslmAmount msg) w = (Ok c, w').
Proof. intros E. unfold msg_ConvertToHaqq in E. open_msg E. eauto. Qed.
(** The chain seen by the module: an owner's message, or anything that leaves the
    module's store and the owners' escrow accounts alone.  A message that fails
    is rolled back.  An escrow account signs nothing, so it is no depositor; [pays] are
    the accounts to which conversions pay. *)
Inductive dao_step (owners : list string) (pays : string -> Prop) (w w' : W) : Prop :=
  | step_fund msg a : AccAddressFromBech32 (mf_Depositor msg) = Some a ->
      a ∈ owners -> a ∉ escrows owners -> msg_Fund msg w = (Ok tt, w') -> dao_step owners pays w w'
  | step_transfer msg o n : AccAddressFromBech32 (mt_Owner msg) = Some o ->
      AccAddressFromBech32 (mt_NewOwner msg) = Some n -> o ∈ owners -> n ∈ owners ->
      msg_TransferOwnership msg w = (Ok tt, w') -> dao_step owners pays w w'
  | step_ratio msg o n r : AccAddressFromBech32 (mr_Owner msg) = Some o ->
      AccAddressFromBech32 (mr_NewOwner msg) = Some n -> o ∈ owners -> n ∈ owners ->
      msg_TransferOwnershipWithRatio msg w = (Ok r, w') -> dao_step owners pays w w'
  | step_amount msg o n : AccAddressFromBech32 (ma_Owner msg) = Some o ->
      AccAddressFromBech32 (ma_NewOwner msg) = Some n -> o ∈ owners -> n ∈ owners ->
      msg_TransferOwnershipWithAmount msg w = (Ok tt, w') -> dao_step owners pays w w'
  | step_convert msg s r c : AccAddressFromBech32 (mv_Sender msg) = Some s ->
      AccAddressFromBech32 (mv_Receiver msg) = Some r -> s ∈ owners -> pays r ->
      msg_ConvertToHaqq msg w = (Ok c, w') -> dao_step owners pays w w'
  | step_other : view w' = view w ->
      (forall e d, e ∈ escrows owners -> GetBalance e d w' = GetBalance e d w) -> (I w -> I w') ->
      dao_step owners pays w w'.

Lemma other_keeps owners w w' : dao_ok owners w -> view w' = view w ->
  (forall e d, e ∈ escrows owners -> GetBalance e d w' = GetBalance e d w) -> keeps owners w w'.
Proof.
  intros Hok V B. apply index_keeps; [done| |].
  - intros d Hd. rewrite (escrowed_same owners d w w') by auto.
    unfold total. rewrite V. by apply Hok.
  - intros a Ha. right. split; [|unfold in_index; by rewrite V]. intros d. by apply B, escrow_in.
Qed.

Lemma step_keeps owners pays w w' : separate owners -> dao_ok owners w -> I w ->
  dao_step owners pays w w' ->
  dao_ok owners w' /\ I w' /\ ((forall r, pays r -> r ∉ escrows owners) -> all_listed owners w -> all_listed owners w').
Proof.
  intros Hs Hok Hi S.
  assert (K : forall w', keeps owners w w' -> (I w -> I w') -> dao_ok owners w' /\ I w' /\
    ((forall r, pays r -> r ∉ escrows owners) -> all_listed owners w -> all_listed owners w'))
    by (intros ? [? ?] ?; auto).
  destruct S as [msg a Ea Ha Na E|msg o n Eo En Ho Hn E|msg o n r Eo En Ho Hn E
    |msg o n Eo En Ho Hn E|msg s r c Es Er Hsd Hr E|V B Hi'].
  - apply msg_fund_run in E as (a' & Ea' & _ & E). simplify_eq.
    apply K; [by eapply fund_keeps|]. by apply dao_fund_ok in E as (_ & _ & _ & _ & _ & ?).
  - apply msg_transfer_run in E as (o' & n' & cs & Eo' & En' & -> & E). simplify_eq.
    destruct (all_balances_spec (GetEscrowAddress o) w) as [V%valid_operand _].
    apply K; [by eapply (transfer_keeps owners o n); eauto|].
    by apply transfer_ok in E as (_ & _ & _ & _ & _ & _ & ?).
  - apply msg_ratio_run in E as (o' & n' & Eo' & En' & Hr & -> & E). simplify_eq.
    destruct (all_balances_spec (GetEscrowAddress o) w) as [V _].
    assert (O : operand (share (mr_Ratio msg) <$> GetAccountBalances o w))
      by (apply shares_operand; [lia|done]).
    apply K; [by eapply (transfer_keeps owners o n); eauto|].
    by apply transfer_ok in E as (_ & _ & _ & _ & _ & _ & ?).
  - apply msg_amount_run in E as (o' & n' & Eo' & En' & V%valid_operand & r & E). simplify_eq.
    apply K; [by eapply (transfer_keeps owners o n); eauto|].
    by apply transfer_ok in E as (_ & _ & _ & _ & _ & _ & ?).
  - apply msg_convert_run in E as (s' & r' & Es' & Er' & E). simplify_eq.
    destruct (convert_keeps owners s r _ _ _ _ Hs Hok Hi Hsd E) as [Hd Hl]. split_and!; [done| |auto].
    apply convert_ok in E as (y & _ & _ & _ & _ & _ & ? & _); auto.
    intros Em. apply (sep_module _ Hs). rewrite <- Em. by apply escrow_in.
  - apply K; [by apply other_keeps|done].
Qed.

(** C3: Whatever owners do with the DAO, and the rest of the chain with accounts other than the owners'
    escrow accounts, the tracked total of every denomination that the DAO accepts remains the sum of the owners'
    escrow balances; an owner in the index of holders has coins in escrow, and an owner with other coins than
    aHAQQ in escrow is in the index. If moreover no conversion pays its aHAQQ into an owner's escrow account,
    the index remains the list of all owners with coins in escrow. The owners have distinct escrow accounts, which sign nothing
    and are not the account of x/liquidvesting. *)
Theorem dao_messages_preserve_books owners pays w w' :
  separate owners -> dao_ok owners w -> I w -> rtc (dao_step owners pays) w w' ->
  dao_ok owners w' /\
  ((forall r, pays r -> r ∉ escrows owners) -> all_listed owners w -> all_listed owners w').
Proof.
  intros Hs Hok Hi R. induction R as [|w w1 w' S _ IH]; [auto|].
  destruct (step_keeps owners pays w w1 Hs Hok Hi S) as (Hok1 & Hi1 & Hl1).
  destruct (IH Hok1 Hi1) as [Hok' Hl']. auto.
Qed.

(** A successful conversion is a holder's, spends the stated aISLM from the
    escrow account after turning all its liquid tokens into aISLM, credits the
    receiver with a positive amount of aHAQQ, and needs no more than what the
    sender has in escrow. *)
Theorem ConvertToHaqq_correct msg s r c w w' :
  AccAddressFromBech32 (mv_Sender msg) = Some s ->
  AccAddressFromBech32 (mv_Receiver msg) = Some r ->
  GetEscrowAddress s <> GetModuleAddress (W:=W) "liquidvesting" -> r <> GetEscrowAddress s ->
  I w -> msg_ConvertToHaqq msg w = (Ok c, w') ->
  let x := mv_IslmAmount msg in
  Denom c = haqq /\ 0 < Amount c /\ 0 < x /\ in_index s w /\
  x <= dao_GetBalance s islm w + amounts (liquid_coins s w) /\
  dao_GetBalance s islm w' = dao_GetBalance s islm w + amounts (liquid_coins s w) - x /\
  (forall d, IsLiquidToken d = true -> dao_GetBalance s d w' = 0) /\
  (in_index s w' <-> IsZero (GetAccountBalances s w') = false) /\
  (r <> GetModuleAddress (W:=W) "liquidvesting" ->
   GetBalance r haqq w' = GetBalance r haqq w + Amount c).
Proof.
  intros Es Er Hm Nr Hi E x. apply msg_convert_run in E as (s' & r' & Es' & Er' & E). simplify_eq.
  destruct (liquid_coins_spec s w) as [_ Hl].
  apply convert_ok in E as (y & -> & Py & Px & Hin & Hle & _ & _ & B & Hin' & _); [|done..].
  cbn [Denom Amount]. split_and!; try done.
  - unfold dao_GetBalance. rewrite B, decide_True, decide_False by done. unfold swapped.
    rewrite !amt_single, Hl, !decide_True by done. rewrite liquid_not_islm. lia.
  - intros d Ld. unfold dao_GetBalance. rewrite B, decide_True, decide_False by done.
    unfold swapped. rewrite !amt_single, Hl, Ld, !decide_False
      by (intros <-; by rewrite liquid_not_islm in Ld). unfold dao_GetBalance. lia.
  - intros Hr. rewrite B, decide_False, decide_True by done. rewrite amt_single, decide_True by done.
    lia.
Qed.

(** A successful transfer with a ratio moves exactly the rounded-down share of
    each of the owner's escrow balances to the new owner's escrow account, and its
    response lists these shares. *)
Theorem TransferOwnershipWithRatio_correct msg o n r w w' :
  AccAddressFromBech32 (mr_Owner msg) = Some o ->
  AccAddressFromBech32 (mr_NewOwner msg) = Some n ->
  GetEscrowAddress o <> GetEscrowAddress n ->
  msg_TransferOwnershipWithRatio msg w = (Ok r, w') ->
  let moving d := dao_GetBalance o d w * mr_Ratio msg / 10 ^ 18 in
  forall d, amt r d = moving d /\
    dao_GetBalance o d w' = dao_GetBalance o d w - moving d /\
    dao_GetBalance n d w' = dao_GetBalance n d w + moving d /\
    GetTotalBalanceOf d w' = GetTotalBalanceOf d w.
Proof.
  intros Eo En Ne E moving d.
  apply msg_ratio_run in E as (o' & n' & Eo' & En' & Hr & -> & E). simplify_eq.
  destruct (all_balances_spec (GetEscrowAddress o) w) as [V Hb].
  assert (A : amt (share (mr_Ratio msg) <$> GetAccountBalances o w) d = moving d).
  { rewrite shares_amt by apply V. unfold GetAccountBalances. by rewrite Hb. }
  apply transfer_ok in E as (_ & _ & Mv & Ht & _); [|apply shares_operand; [lia|done]].
  specialize (Ht d). unfold total in Ht. unfold dao_GetBalance, GetTotalBalanceOf. rewrite Ht, A.
  split_and!; [done| | |done]; rewrite (Mv _ d), A.
  - rewrite decide_True, decide_False by done. lia.
  - rewrite decide_False, decide_True by done. lia.
Qed.

(** A transfer with a ratio fails as a whole when one share rounds down to zero,
    since the zero coin stays in the list and the bank rejects it. *)
Theorem ratio_zero_share_fails msg o n w c :
  AccAddressFromBech32 (mr_Owner msg) = Some o ->
  AccAddressFromBech32 (mr_NewOwner msg) = Some n ->
  c ∈ GetAccountBalances o w -> Amount c * mr_Ratio msg < 10 ^ 18 ->
  no_error (fst (msg_TransferOwnershipWithRatio msg w)) = false.
Proof.
  intros Eo En Hc Hx. destruct (msg_TransferOwnershipWithRatio msg w) as [[r|e|] w'] eqn:E; [|done..].
  exfalso. apply msg_ratio_run in E as (o' & n' & Eo' & En' & Hr & -> & E). simplify_eq.
  destruct (all_balances_spec (GetEscrowAddress o) w) as [[_ P] _].
  set (cs := share (mr_Ratio msg) <$> GetAccountBalances o w) in *.
  assert (V : IsValid cs = false).
  { destruct (IsValid cs) eqn:V; [|done]. apply is_valid_spec in V as [_ V].
    rewrite list.Forall_forall in V, P. specialize (P c Hc).
    specialize (V (share (mr_Ratio msg) c) (list_elem_of_fmap_2 _ _ _ Hc)).
    cbn [share Amount] in V. cbv beta in P. rewrite Z.div_small in V by nia. lia. }
  unfold TransferOwnership in E. apply M_bind_ok in E as (en & w1 & E1 & E).
  apply mgets_ok in E1 as [_ ->]. destruct en; [|done]. cbn [negb] in E.
  apply M_bind_ok in E as (bs & w1 & E1 & E). apply mgets_ok in E1 as [_ ->].
  destruct (IsZero bs); [done|]. apply M_bind_ok in E as ([] & w1 & Es & _).
  destruct (send_invalid (GetEscrowAddress o) (GetEscrowAddress n) cs w V) as [e Ee].
  unfold transferEscrowToken in Es. congruence.
Qed.
(** *** Genesis *)

Abbreviation total_step := (fun balance c =>
  if Amount c =? 0 then balance else coins_add balance [c]).

Lemma total_fold cs acc : valid acc -> Forall (fun c => 0 <= Amount c) cs ->
  valid (foldl total_step acc cs) /\ forall d, amt (foldl total_step acc cs) d = amt acc d + amt cs d.
Proof.
  intros V F. revert acc V. induction F as [|c cs Pc _ IH]; intros acc V; simpl.
  { split; [done|]. intros. lia. }
  destruct (Z.eqb_spec (Amount c) 0) as [Z0|N].
  - destruct (IH acc V) as [V' E]. split; [done|]. intros d. rewrite E. case_decide; lia.
  - assert (O : operand [c]) by (destruct c; apply operand_single; simpl in *; lia).
    destruct (IH (coins_add acc [c])) as [V' E]; [auto using add_valid with coins|].
    split; [done|]. intros d. rewrite E, amt_add by auto with coins. simpl. lia.
Qed.

(** A list of one coin for each of distinct denominations. *)
Lemma amt_table (f : string -> Z) ds d : NoDup ds ->
  amt (map (fun d => mkCoin d (f d)) ds) d = if decide (d ∈ ds) then f d else 0.
Proof.
  induction 1 as [|d' ds Nd _ IH]; simpl; [done|]. rewrite IH.
  destruct (decide (d' = d)) as [->|N].
  - rewrite (decide_False (P := d ∈ ds)) by done. rewrite decide_True by left. lia.
  - destruct (decide (d ∈ ds)); [rewrite decide_True by (by right); lia|].
    rewrite decide_False; [lia|]. rewrite elem_of_cons. naive_solver.
Qed.

(** The exported total holds the tracked totals. *)
Lemma total_balance_amt w : (forall d, 0 <= total d w) ->
  valid (GetTotalBalance w) /\ forall d, amt (GetTotalBalance w) d = total d w.
Proof.
  intros P. unfold GetTotalBalance, IterateTotalBalance.
  set (ds := merge_sort String.le (elements (dom (ds_total (view w))))).
  assert (Hds : ds ≡ₚ elements (dom (ds_total (view w)))) by apply merge_sort_Permutation.
  destruct (total_fold (map (fun d => GetTotalBalanceOf d w) ds) []) as [V E]; [apply valid_nil| |].
  { apply list.Forall_forall. intros c Hc. apply list_elem_of_fmap in Hc as (d & -> & _). apply P. }
  split; [done|]. intros d. rewrite E. change (amt [] d) with 0. rewrite Z.add_0_l.
  change (amt (map (fun d => mkCoin d (total d w)) ds) d = total d w). rewrite amt_table.
  - case_decide as D; [done|]. unfold total. rewrite Hds, elem_of_elements, not_elem_of_dom in D.
    by rewrite D.
  - rewrite Hds. apply NoDup_elements.
Qed.

(** Keys written by the module. *)
Definition keys_ok w : Prop :=
  forall k, k ∈ ds_holders (view w) ->
    exists a, k = holder_key a /\ addr_ok a.

Lemma holders_loop_ok ks : (forall k, k ∈ ks -> exists a, k = holder_key a /\ addr_ok a) ->
  exists hs, holders_loop ks = Ok hs /\ ks = holder_key <$> hs /\
    Forall addr_ok hs.
Proof.
  induction ks as [|k ks IH]; intros F.
  { exists []. by split_and!. }
  destruct (F k) as (a & -> & L); [by left|].
  destruct IH as (hs & E & -> & Fl); [intros; apply F; by right|].
  exists (a :: hs). cbn [holders_loop]. rewrite key_roundtrip by apply L. rewrite E.
  by split_and!; [..|constructor].
Qed.

Lemma get_holders_ok w : keys_ok w -> exists hs, GetHolders w = Ok hs /\ NoDup hs /\
  Forall addr_ok hs /\ forall a, a ∈ hs <-> in_index a w.
Proof.
  intros K. unfold GetHolders. set (ks := merge_sort _ _).
  assert (Hks : ks ≡ₚ elements (ds_holders (view w))) by apply merge_sort_Permutation.
  destruct (holders_loop_ok ks) as (hs & E & Ek & F).
  { intros k Hk. apply K. by rewrite Hks, elem_of_elements in Hk. }
  exists hs. split_and!; [done| |done|].
  - apply (NoDup_fmap_1 holder_key). rewrite <- Ek, Hks. apply NoDup_elements.
  - intros a. unfold in_index. rewrite <- elem_of_elements, <- Hks, Ek. split.
    + apply list_elem_of_fmap_2.
    + intros (b & [= _ ->] & Hb)%list_elem_of_fmap. done.
Qed.

Lemma init_balances_ok a cs w : (String.length a <= 255)%nat ->
  Forall (fun c => CoinValidate c = true) cs ->
  exists w', initBalances a cs w = (Ok tt, w') /\ books (I:=I) w w' /\
    ds_holders (view w') = ds_holders (view w) /\ forall d, total d w' = total d w.
Proof.
  intros L F. revert w. induction F as [|c cs Vc _ IH]; intros w.
  { exists w. by split_and!; [|apply books_refl|..]. }
  cbn [initBalances]. rewrite Vc. cbn [negb].
  destruct (Amount c =? 0).
  { destruct (IH w) as (w' & E & B). exists w'. split; [|done]. by rewrite <- E. }
  unfold mbind, M_bind, mlift, mmodify. rewrite length_prefix_spec, decide_True by done.
  match goal with |- context [initBalances a cs ?w0] => destruct (IH w0) as (w' & E & B & Hh & Ht) end.
  exists w'. rewrite E. split_and!; [done| | |].
  - eapply books_trans; [|exact B]. by apply books_update.
  - by rewrite Hh, view_update.
  - intros d. rewrite Ht. unfold total. by rewrite view_update.
Qed.

Lemma set_index_runs a w : (String.length a <= 255)%nat ->
  exists w', SetHoldersIndex a w = (Ok tt, w').
Proof.
  intros L. unfold SetHoldersIndex, mbind, M_bind, mlift. rewrite length_prefix_spec, decide_True by done.
  by eexists.
Qed.
Lemma set_totals cs w : valid cs -> let w' := foldl (fun w c => setTotalBalanceOfCoin c w) w cs in
  books (I:=I) w w' /\ ds_holders (view w') = ds_holders (view w) /\
  forall d, total d w' = if decide (amt cs d = 0) then total d w else amt cs d.
Proof.
  intros [S P]. revert w P. induction S as [|c cs S IH Hc]; intros w P; cbn [foldl].
  { by split_and!; [apply books_refl|..]. }
  apply list.Forall_cons in P as [Pc P]. destruct (set_total_facts (I:=I) c w) as (B & Hh & Ht).
  destruct (IH (setTotalBalanceOfCoin c w) P) as (B' & Hh' & Ht').
  split_and!; [by eapply books_trans|congruence|]. intros d. rewrite Ht', Ht. cbn [amt].
  destruct (decide (Denom c = d)) as [<-|N].
  - rewrite (amt_absent c cs Hc), Z.add_0_r.
    rewrite !decide_True, (decide_False (P := Amount c = 0)) by (done || lia). done.
  - rewrite Z.add_0_l. by rewrite (decide_False (P := d = Denom c)) by congruence.
Qed.

Lemma escrowed_holders hs d w : escrowed hs d w = sum_over (fun h => dao_GetBalance h d w) hs.
Proof. unfold escrowed, escrows. induction hs; simpl; [done|]. by f_equal. Qed.

Definition denoms_valid (a : string) w : Prop :=
  Forall (fun c => ValidDenom (Denom c) = true) (GetAccountBalances a w).

Lemma bank_coins_valid a w : denoms_valid a w ->
  Forall (fun c => CoinValidate c = true) (GetAccountBalances a w).
Proof.
  intros D. destruct (all_balances_spec (GetEscrowAddress a) w) as [[_ P] _].
  unfold denoms_valid, GetAccountBalances in *.
  rewrite list.Forall_forall in *. intros c Hc. apply coin_validate_spec.
  split; [by apply D|]. specialize (P c Hc). cbv beta in P. lia.
Qed.

Section import.
Context `{!EthLaws}.

(** The exported entry of a holder. *)
Definition exported (w : W) (h : string) : Balance := mkBalance (AddrString h) (GetAccountBalances h w).

Lemma init_loop_ok w hs acc w0 :
  (forall a d, GetBalance a d w0 = GetBalance a d w) ->
  Forall (fun a => addr_ok a /\ denoms_valid a w) hs -> valid acc ->
  exists tot w', init_loop (map (exported w) hs) acc w0 = (Ok tot, w') /\ valid tot /\
    (forall d, amt tot d = amt acc d + escrowed hs d w) /\
    books (I:=I) w0 w' /\ (forall d, total d w' = total d w0) /\
    forall a, in_index a w' <->
      (a ∈ hs /\ IsZero (GetAccountBalances a w) = false) \/ (a ∉ hs /\ in_index a w0).
Proof.
  intros Hb F. revert acc w0 Hb. induction F as [|h hs [L D] _ IH]; intros acc w0 Hb V.
  { exists acc, w0. split_and!; [done|done| |apply books_refl|done|].
    - intros d. rewrite escrowed_holders. simpl. lia.
    - intros a. set_solver. }
  cbn [map init_loop exported b_Address b_Coins].
  unfold mbind at 1, M_bind at 1, mlift, must_addr. rewrite addr_roundtrip by done.
  destruct (init_balances_ok h (GetAccountBalances h w) w0 (proj2 L) (bank_coins_valid h w D))
    as (w1 & E1 & B1 & H1' & T1).
  destruct (set_index_runs h w1 (proj2 L)) as (w2 & E2).
  unfold mbind, M_bind. rewrite E1, E2. apply set_index_ok in E2 as (B2 & T2 & In2 & Out2).
  assert (B : books (I:=I) w0 w2) by by eapply books_trans.
  assert (Z1 : IsZero (GetAccountBalances h w1) = IsZero (GetAccountBalances h w)).
  { apply zero_same. intros d. unfold dao_GetBalance. by rewrite (bk_balance _ _ B1), Hb. }
  destruct (all_balances_spec (GetEscrowAddress h) w) as [Vh Eh].
  destruct (IH (coins_add acc (GetAccountBalances h w)) w2) as (tot & w' & E & Vt & At & B' & T' & In').
  { intros a d. by rewrite (bk_balance _ _ B), Hb. }
  { apply add_valid; by apply valid_operand. }
  exists tot, w'. split_and!; [done|done| |by eapply books_trans| |].
  - intros d. rewrite At, amt_add by (by apply valid_operand). unfold GetAccountBalances.
    rewrite Eh, !escrowed_holders. simpl. unfold dao_GetBalance. lia.
  - intros d. by rewrite T', T2, T1.
  - intros a. rewrite In', elem_of_cons. destruct (decide (a = h)) as [->|N].
    + rewrite In2, Z1. destruct (decide (h ∈ hs)); tauto.
    + rewrite Out2 by done. unfold in_index at 1. rewrite H1'. unfold in_index. tauto.
Qed.

(** An exported genesis state restores the module on a chain with the same
    bank balances when the tracked totals are the sums of the holders' escrow
    balances; when they are not, and some total is nonzero, the import
    panics. *)
Theorem genesis_import_iff_books w w0 :
  keys_ok w -> (forall d, 0 <= total d w) ->
  (forall a, in_index a w -> IsZero (GetAccountBalances a w) = false /\ denoms_valid a w) ->
  ds_holders (view w0) = ∅ -> (forall d, total d w0 = 0) ->
  (forall a d, GetBalance a d w0 = GetBalance a d w) ->
  exists gs hs, ExportGenesis w = Ok gs /\ GetHolders w = Ok hs /\
  ((forall d, total d w = escrowed hs d w) ->
   exists w', InitGenesis gs w0 = (Ok tt, w') /\ GetParams w' = GetParams w /\
     (forall d, GetTotalBalanceOf d w' = GetTotalBalanceOf d w) /\
     forall a, in_index a w' <-> in_index a w) /\
  ((exists d, total d w <> escrowed hs d w) -> (exists d, total d w <> 0) ->
   fst (InitGenesis gs w0) = Panic).
Proof.
  intros K P Hz Eh0 T0 Hb. destruct (get_holders_ok w K) as (hs & Eh & Nh & Fh & Hin).
  destruct (total_balance_amt w P) as [Vt At].
  unfold ExportGenesis, GetAccountsBalances. rewrite Eh.
  eexists _, hs. split; [done|]. split; [done|].
  set (bs := map _ hs).
  assert (Ebs : bs = map (exported w) hs).
  { apply map_ext. intros h. unfold exported. f_equal. apply coins_sort_spec, valid_operand.
    apply all_balances_spec. }
  clearbody bs. subst bs. unfold InitGenesis. cbn [gs_Params gs_Balances gs_TotalBalance].
  destruct (Permutation_map_inv (exported w) hs
    (merge_sort_Permutation balance_le (map (exported w) hs))) as (hs' & Es & Ph).
  unfold SanitizeGenesisBalances. rewrite Es.
  set (w1 := SetParams (GetParams w) w0).
  assert (V1 : view w1 = mkDao (ds_total (view w0)) (ds_balances (view w0)) (ds_denoms (view w0))
    (Some (GetParams w)) (ds_holders (view w0))) by apply view_update.
  assert (B1 : forall a d, GetBalance a d w1 = GetBalance a d w).
  { intros a d. unfold w1, SetParams. by rewrite update_balance. }
  destruct (init_loop_ok w hs' [] w1 B1) as (tot & w2 & E2 & Vtot & Atot & B2 & T2 & In2);
    [|apply valid_nil|].
  { rewrite <- Ph, list.Forall_forall in *. intros a Ha. split; [by apply Fh|by apply Hz, Hin]. }
  assert (Etot : forall d, amt tot d = escrowed hs d w).
  { intros d. rewrite Atot, !escrowed_holders. simpl. clear -Ph.
    induction Ph; simpl in *; lia. }
  unfold mbind, M_bind, mmodify. fold w1. rewrite E2. split.
  - intros Hm.
    assert (tot = GetTotalBalance w) as ->.
    { apply valid_ext; [done..|]. intros d. by rewrite Etot, At. }
    rewrite (proj2 (coins_equal_spec _ _ Vt Vt) eq_refl), andb_false_r.
    destruct (set_totals (GetTotalBalance w) w2 Vt) as (B3 & H3' & T3).
    eexists. split; [done|]. split_and!.
    + unfold GetParams. rewrite (bk_params _ _ B3), (bk_params _ _ B2), V1. done.
    + intros d. unfold GetTotalBalanceOf. f_equal. fold (total d w).
      etrans; [exact (T3 d)|]. rewrite At. case_decide as D; [|done].
      rewrite D, T2. unfold total. rewrite V1. apply T0.
    + intros a. unfold in_index at 1. rewrite H3'. fold (in_index a w2). rewrite In2, <- Ph, Hin.
      unfold in_index at 3. rewrite V1. cbn [ds_holders]. rewrite Eh0.
      pose proof (Hz a). set_solver.
  - intros [d Hd] [d' Hd']. rewrite bool_decide_eq_false_2; cbn [negb andb].
    + destruct (CoinsEqual _ _) eqn:Ec; [|done]. apply coins_equal_spec in Ec; [|done..].
      subst tot. destruct Hd. by rewrite <- Etot, At.
    + intros Ee. specialize (At d'). rewrite Ee in At. by apply Hd'.
Qed.
End import.
End invariant.

(** ** Spend limits *)

Section limits.
Context `{SdkLaws} `{!DaoOps}.

(** How x/authz uses an authorization for a sequence of messages: every message
    is accepted, an updated authorization replaces the old one, and a deleted
    one accepts nothing more. *)
Fixpoint authz_run {A E} (accept : A -> E -> res (AcceptResponse A)) (a : A) (msgs : list E)
    : bool :=
  match msgs with
  | [] => true
  | m :: rest =>
      match accept a m with
      | Ok r =>
          Accept r && (if Delete r then bool_decide (rest = [])
                       else authz_run accept (default a (Updated r)) rest)
      | _ => false
      end
  end.

(** What a message spends of a limit. *)
Definition spends (m : Msg) : Z :=
  match m with
  | MConvertToHaqq m => mv_IslmAmount m
  | MTransferOwnershipWithAmount m => transfer_sum (ma_Amount m)
  | _ => 0
  end.

(** An authorization type whose [Accept] subtracts what a message spends. *)
Record limited {A E} (spends : E -> Z) (accept : A -> E -> res (AcceptResponse A))
    (limit : A -> option coin) : Prop := {
  lim_ok a l m r : limit a = Some l -> accept a m = Ok r ->
    spends m <= Amount l /\
    (Delete r = false -> exists a' l', Updated r = Some a' /\ limit a' = Some l' /\
       Denom l' = Denom l /\ Amount l' = Amount l - spends m)
}.

Lemma limited_run {A E} (spends : E -> Z) accept (limit : A -> option coin) a l msgs :
  limited spends accept limit ->
  limit a = Some l -> 0 <= Amount l -> authz_run accept a msgs = true ->
  sum_over spends msgs <= Amount l.
Proof.
  intros [Hl]. revert a l. induction msgs as [|m msgs IH]; intros a l El Pl Er; [done|].
  cbn [authz_run] in Er. destruct (accept a m) as [r| |] eqn:Ea; [|done..].
  destruct (Hl a l m r El Ea) as [Hle Hup]. apply andb_true_iff in Er as [_ Er].
  destruct (Delete r); [apply bool_decide_eq_true in Er as ->; simpl; lia|].
  destruct Hup as (a' & l' & Eu & El' & _ & El''); [done|]. rewrite Eu in Er. simpl in Er.
  apply (IH a' l') in Er; [|done|lia]. simpl. lia.
Qed.

Lemma convert_limited : limited spends convert_Accept ca_SpendLimit.
Proof.
  constructor. intros [lo] l m r El Ea. cbn [ca_SpendLimit] in El. subst lo.
  destruct m; try discriminate Ea. cbn [convert_Accept ca_SpendLimit spends] in *. revert Ea.
  destruct (Z.ltb_spec (Amount l) (mv_IslmAmount m)); [done|].
  destruct (Z.eqb_spec (Amount l - mv_IslmAmount m) 0); intros [= <-];
    (split; [lia|]); try done. eauto 10.
Qed.

Lemma transfer_limited : limited spends transfer_Accept ta_SpendLimit.
Proof.
  constructor. intros [lo] l m r El Ea. cbn [ta_SpendLimit] in El. subst lo.
  destruct m; try discriminate Ea. cbn [transfer_Accept ta_SpendLimit spends] in *. revert Ea.
  destruct (IsZero _); [done|]. destruct (negb _); [done|].
  destruct (Z.ltb_spec (Amount l) (transfer_sum (ma_Amount m))); [done|].
  destruct (Z.eqb_spec (Amount l - transfer_sum (ma_Amount m)) 0); intros [= <-];
    (split; [lia|]); try done. eauto 10.
Qed.

(** Whatever messages are executed under a conversion or a transfer
    authorization with a spend limit, what they spend of the limited
    denominations adds up to at most the limit. *)
Theorem spend_limits_hold limit ca ta msgs :
  NewConvertToHaqqAuthorization (Some limit) = Ok ca ->
  NewTransferOwnershipAuthorization (Some limit) = Ok ta ->
  authz_run convert_Accept ca msgs = true \/ authz_run transfer_Accept ta msgs = true ->
  sum_over spends msgs <= Amount limit.
Proof.
  unfold NewConvertToHaqqAuthorization, NewTransferOwnershipAuthorization.
  intros Ec Et E. apply res_bind_ok in Ec as ([] & Ev & Ec), Et as (_ & _ & Et). simplify_eq.
  assert (P : 0 <= Amount limit).
  { unfold limit_ValidateBasic in Ev. destruct (negb _); [done|].
    destruct (bool_decide _); [done|]. destruct (Z.leb_spec (Amount limit) 0); [done|lia]. }
  destruct E as [E|E].
  - by apply (limited_run spends convert_Accept ca_SpendLimit (mkConvertAuth (Some limit))); [apply convert_limited|..].
  - by apply (limited_run spends transfer_Accept ta_SpendLimit (mkTransferAuth (Some limit))); [apply transfer_limited|..].
Qed.
End limits.

(** ** Concrete runs *)

Section examples.

#[local] Existing Instance RefOps.
#[local] Existing Instance RefEth.
#[local] Existing Instance RefAddrCheck.
#[local] Existing Instance RefCtx.
#[local] Existing Instance RefAccountKeeper.
#[local] Existing Instance RefBankKeeper.
#[local] Existing Instance RefDistributionKeeper.
#[local] Existing Instance RefModuleBank.

Abbreviation RW := (RefWorld DaoState).

#[local] Instance RefDaoLens : Lens RW DaoState := ref_lens id (fun s _ => s).

#[local] Instance RefDaoOps : DaoOps := {
  CoinAdd a b := if decide (Denom a = Denom b) then Ok (mkCoin (Denom a) (Amount a + Amount b)) else Panic;
  CoinSub a b := if decide (Denom a = Denom b)
                 then if Amount a <? Amount b then Panic
                      else Ok (mkCoin (Denom a) (Amount a - Amount b))
                 else Panic;
  CoinValidate c := ref_valid_denom (Denom c) && (0 <=? Amount c);
  CoinsSort := id;
  CoinsEqual a b := bool_decide (a = b);
  MulTruncate x r := x * r / 10 ^ 18;
  Sha256 s := s;
  MustLengthPrefix a :=
    if decide (String.length a <= 255)%nat
    then Ok (String (Ascii.ascii_of_nat (String.length a)) a) else Panic
}.

#[local] Instance RefBalances : BalanceKeeper RW := { GetAllBalances := rw_all_balances }.

#[local] Instance RefLiquid : LiquidVestingKeeper RW := {
  lvk_Redeem from to c :=
    _ ← rw_issue (-1) from [c]; rw_issue 1 to [mkCoin islm (Amount c)]
}.

(** One aHAQQ for every aISLM. *)
Definition ref_burn (x : Z) (from to : string) : M RW Z :=
  if x <=? 0 then mraise (ErrText "amount")
  else _ ← rw_issue (-1) from [mkCoin islm x]; _ ← rw_issue 1 to [mkCoin haqq x]; mret x.

#[local] Instance RefEthiq : EthiqKeeper RW := { ethiqk := Some ref_burn }.

Lemma RefDaoLaws : DaoLaws.
Proof.
  constructor; simpl.
  - intros d x y. by rewrite decide_True.
  - intros d x y. by rewrite decide_True.
  - intros c. rewrite andb_true_iff, Z.leb_le. done.
  - intros d x cs. destruct (Z.leb_spec 0 x); [|done]. destruct (ref_valid_denom d); done.
  - done.
  - intros a b _ _. apply bool_decide_eq_true.
  - done.
  - done.
Qed.

Lemma RefDaoState : ModuleState RW DaoState.
Proof. by apply ref_module_state. Qed.

Lemma RefBalanceLaws : BalanceLaws RW.
Proof. constructor. intros. apply rw_all_balances_spec. Qed.

Lemma RefDaoWorld : DaoWorld RW (fun _ => True).
Proof.
  constructor; simpl; try done.
  - intros from to cs w w' r. destruct (ref_validb cs); [|by intros [= _ <-]].
    by intros ->%rw_send_ext.
  - intros from to cs w ->. by eexists.
Qed.

Lemma issue_balances sign who cs (w w' : RW) : rw_issue sign who cs w = (Ok tt, w') ->
  rw_ext w' = rw_ext w /\
  forall a d, rw_balance w' a d = rw_balance w a d + if decide (a = who) then sign * amt cs d else 0.
Proof.
  intros E. split; [by apply rw_issue_ext in E|]. apply rw_issue_ok in E as [Hi _]. apply Hi.
Qed.

Lemma RefLiquidLaws : LiquidVestingLaws RW (fun _ => True).
Proof.
  constructor. intros from to c w w' _ _ _ E. cbn [lvk_Redeem RefLiquid] in E.
  apply M_bind_ok in E as ([] & w1 & E1 & E2).
  apply issue_balances in E1 as [X1 B1], E2 as [X2 B2]. simpl. split_and!; [done|congruence|].
  intros a d _. rewrite B2, B1. cbn [amt Amount Denom]. repeat case_decide; lia.
Qed.

Lemma RefEthiqLaws : EthiqLaws RW (fun _ => True).
Proof.
  constructor. intros f x from to w w' y [= <-] _ _ E.
  unfold ref_burn in E. destruct (Z.leb_spec x 0); [done|].
  apply M_bind_ok in E as ([] & w1 & E1 & E). apply M_bind_ok in E as ([] & w2 & E2 & E).
  apply mret_ok in E as [-> ->].
  apply issue_balances in E1 as [X1 B1], E2 as [X2 B2]. simpl. split_and!; [done|congruence|done|done|].
  intros a d. rewrite B2, B1. cbn [amt Amount Denom]. repeat case_decide; lia.
Qed.
#[local] Existing Instances RefLaws RefEthLaws RefKeeperLaws RefDaoLaws RefDaoState RefBalanceLaws RefDaoWorld
  RefLiquidLaws RefEthiqLaws.

(** Alice funds the DAO, gives a quarter to Bob, converts what she needs. *)
Definition ex_owners : list string := ["alice"; "bob"].

Definition ex_w0 : RW :=
  mkWorld 0 ∅ 0 (<[("alice", islm) := 100%N]> (<[("alice", "aLIQUID1") := 40%N]> ∅)) ∅ ∅
    (mkDao ∅ ∅ ∅ (Some DefaultParams) ∅).

Definition ex_fund : MsgFund := mkMsgFund [mkCoin islm 60; mkCoin "aLIQUID1" 40] "haqq1alice".
Definition ex_ratio : MsgTransferOwnershipWithRatio :=
  mkMsgRatio "haqq1alice" "haqq1bob" (25 * 10 ^ 16).
Definition ex_convert : MsgConvertToHaqq := mkMsgConvert "haqq1alice" "haqq1carol" 70.

Definition ex_w1 : RW := snd (msg_Fund ex_fund ex_w0).
Definition ex_w2 : RW := snd (msg_TransferOwnershipWithRatio ex_ratio ex_w1).
Definition ex_w3 : RW := snd (msg_ConvertToHaqq ex_convert ex_w2).

Lemma ex_no_escrow e d : e ∈ escrows ex_owners -> GetBalance e d ex_w0 = 0.
Proof.
  intros He. destruct (rw_all_balances_spec e ex_w0) as [_ E]. simpl. rewrite <- E.
  replace (rw_all_balances e ex_w0) with (@nil coin); [done|].
  assert (F : Forall (fun e => @nil coin = rw_all_balances e ex_w0) (escrows ex_owners))
    by (apply (bool_decide_unpack _); vm_compute; exact Logic.I).
  rewrite list.Forall_forall in F. by apply F.
Qed.

Lemma ex_start : dao_ok ex_owners ex_w0.
Proof.
  constructor.
  - intros d _. unfold escrowed. rewrite (sum_over_ext _ (fun _ => 0)); [done|].
    intros e He. by apply ex_no_escrow.
  - intros a Ha. apply entry_exact. split; [unfold in_index; cbn; set_solver|].
    assert (F : Forall (fun a => IsZero (GetAccountBalances a ex_w0) = true) ex_owners)
      by (apply (bool_decide_unpack _); vm_compute; exact Logic.I).
    rewrite list.Forall_forall in F. intros E. rewrite (F a Ha) in E. done.
Qed.

Lemma ex_separate : separate (W:=RW) ex_owners.
Proof. constructor; apply (bool_decide_unpack _); vm_compute; exact Logic.I. Qed.

(** The end of the three messages, when the conversion pays [to]. *)
Definition ex_end (to : string) : RW := snd (msg_ConvertToHaqq (mkMsgConvert "haqq1alice" to 70) ex_w2).

Lemma ex_messages (text to : string) : AccAddressFromBech32 text = Some to ->
  no_error (fst (msg_ConvertToHaqq (mkMsgConvert "haqq1alice" text 70) ex_w2)) = true ->
  rtc (dao_step (I:=fun _ => True) ex_owners (eq to)) ex_w0 (ex_end text).
Proof.
  intros Et Eok. apply (rtc_l _ ex_w0 ex_w1), (rtc_l _ ex_w1 ex_w2), (rtc_l _ ex_w2 (ex_end text)), rtc_refl.
  - apply (step_fund _ _ _ _ ex_fund "alice"); [done|by left| |by vm_compute].
    apply (bool_decide_unpack _); vm_compute; exact Logic.I.
  - eapply (step_ratio _ _ _ _ ex_ratio "alice" "bob"); [done|done|by left|by right; left|].
    by vm_compute.
  - destruct (msg_ConvertToHaqq (mkMsgConvert "haqq1alice" text 70) ex_w2) as [[c| |] w] eqn:Er; [|done|done].
    eapply (step_convert _ _ _ _ (mkMsgConvert "haqq1alice" text 70) "alice" to); [done|done|by left|done|].
    unfold ex_end. by rewrite Er.
Qed.

(** Alice converts for Carol, and into Bob's own escrow account. *)
Lemma dao_messages_preserve_books_witness :
  dao_ok ex_owners (ex_end "haqq1carol") /\ all_listed ex_owners (ex_end "haqq1carol") /\
  dao_ok ex_owners (ex_end (AddrString (GetEscrowAddress "bob"))).
Proof.
  destruct (dao_messages_preserve_books (I:=fun _ => True) ex_owners (eq "carol") ex_w0 (ex_end "haqq1carol")) as [D L].
  - exact ex_separate.
  - exact ex_start.
  - exact Logic.I.
  - apply (ex_messages "haqq1carol" "carol"); [done|by vm_compute].
  - split; [exact D|]. split.
    + apply L.
      * intros r <-. apply (bool_decide_unpack _); vm_compute; exact Logic.I.
      * intros a Ha.
        assert (F : Forall (fun a => IsZero (GetAccountBalances a ex_w0) = true) ex_owners)
          by (apply (bool_decide_unpack _); vm_compute; exact Logic.I).
        rewrite list.Forall_forall in F. rewrite (F a Ha). done.
    + apply (dao_messages_preserve_books (I:=fun _ => True) ex_owners (eq (GetEscrowAddress "bob")) ex_w0).
      * exact ex_separate.
      * exact ex_start.
      * exact Logic.I.
      * apply (ex_messages _ (GetEscrowAddress "bob")); [done|by vm_compute].
Defined.

(** A conversion that pays into the escrow account of an owner who is not listed: the owner has coins and stays unlisted. *)
Example unlisted_holder :
  let w := snd (msg_ConvertToHaqq (mkMsgConvert "haqq1alice" (AddrString (GetEscrowAddress "bob")) 60) ex_w1) in
  dao_GetBalance "bob" haqq w = 60 /\ IsZero (GetAccountBalances "bob" w) = false /\ IsHolder "bob" w = Ok false.
Proof. vm_compute. done. Qed.

Lemma ConvertToHaqq_correct_witness :
  dao_GetBalance "alice" islm ex_w3 = 5 /\ GetBalance "carol" haqq ex_w3 = 70.
Proof.
  destruct (ConvertToHaqq_correct (I:=fun _ => True) ex_convert "alice" "carol" (mkCoin haqq 70) ex_w2 ex_w3)
    as (_ & _ & _ & _ & _ & E & _ & _ & Er).
  - reflexivity.
  - reflexivity.
  - by vm_compute.
  - by vm_compute.
  - exact Logic.I.
  - by vm_compute.
  - split; [rewrite E; by vm_compute|]. rewrite Er by (by vm_compute). by vm_compute.
Defined.

Lemma TransferOwnershipWithRatio_correct_witness :
  dao_GetBalance "bob" islm ex_w2 = 15 /\ dao_GetBalance "alice" "aLIQUID1" ex_w2 = 30.
Proof.
  pose proof (TransferOwnershipWithRatio_correct (I:=fun _ => True) ex_ratio "alice" "bob"
    [mkCoin islm 15; mkCoin "aLIQUID1" 10] ex_w1 ex_w2 eq_refl eq_refl
    ltac:(by vm_compute) ltac:(by vm_compute)) as T.
  destruct (T islm) as (_ & _ & E & _), (T "aLIQUID1") as (_ & E' & _).
  split; [rewrite E|rewrite E']; by vm_compute.
Defined.

(** A fresh chain with the balances of [w]. *)
Definition ex_fresh (w : RW) : RW := update (mkDao ∅ ∅ ∅ None ∅) w.

(** The same DAO after somebody has sent a coin to Alice's escrow account. *)
Definition ex_gift : RW :=
  snd (SendCoins "alice" (GetEscrowAddress "alice") [mkCoin islm 1] ex_w1).

Lemma ex_holder a w : a ∈ ["alice"] -> w = ex_w1 \/ w = ex_gift ->
  IsZero (GetAccountBalances a w) = false /\ denoms_valid a w.
Proof.
  intros ->%list_elem_of_singleton [->| ->].
  - split; [by vm_compute|]. apply (bool_decide_unpack _); vm_compute; exact Logic.I.
  - split; [by vm_compute|]. apply (bool_decide_unpack _); vm_compute; exact Logic.I.
Qed.

Lemma ex_holders (w : RW) : w = ex_w1 \/ w = ex_gift -> ds_holders (view w) = {[holder_key "alice"]}.
Proof. by intros [->| ->]; vm_compute. Qed.

Lemma ex_keys w : w = ex_w1 \/ w = ex_gift -> keys_ok w.
Proof.
  intros Hw k. rewrite (ex_holders w Hw), elem_of_singleton. intros ->. exists "alice".
  split; [done|unfold addr_ok; simpl; lia].
Qed.

Lemma ex_index w a : w = ex_w1 \/ w = ex_gift -> in_index a w -> a ∈ ["alice"].
Proof.
  intros Hw. unfold in_index. rewrite (ex_holders w Hw), elem_of_singleton.
  intros [=]. by apply list_elem_of_singleton.
Qed.

Lemma ex_totals (w : RW) d : w = ex_w1 \/ w = ex_gift ->
  total d w = amt [mkCoin islm 60; mkCoin "aLIQUID1" 40] d.
Proof.
  intros Hw. unfold total.
  replace (ds_total (view w)) with (<[islm := 60]> (<["aLIQUID1" := 40]> (∅ : gmap string Z)))
    by (destruct Hw as [->| ->]; by vm_compute).
  cbn [amt Denom Amount]. rewrite !lookup_insert, lookup_empty.
  repeat case_decide; simplify_eq; simpl; lia.
Qed.

Lemma ex_totals_nonneg w d : w = ex_w1 \/ w = ex_gift -> 0 <= total d w.
Proof. intros Hw. rewrite (ex_totals w d Hw). simpl. repeat case_decide; lia. Qed.

Lemma ex_escrowed d : escrowed ["alice"] d ex_w1 = amt [mkCoin islm 60; mkCoin "aLIQUID1" 40] d.
Proof.
  unfold escrowed. simpl.
  destruct (rw_all_balances_spec (GetEscrowAddress "alice") ex_w1) as [_ E]. rewrite <- E.
  replace (rw_all_balances (GetEscrowAddress "alice") ex_w1)
    with [mkCoin islm 60; mkCoin "aLIQUID1" 40] by (by vm_compute). simpl. lia.
Qed.

Lemma ex_empty (w : RW) : ds_holders (view (ex_fresh w)) = ∅ /\ forall d, total d (ex_fresh w) = 0.
Proof. done. Qed.

Lemma ex_fresh_balance (w : RW) a d : GetBalance a d (ex_fresh w) = GetBalance a d w.
Proof. done. Qed.

Lemma genesis_import_iff_books_witness :
  (exists gs w', ExportGenesis ex_w1 = Ok gs /\ InitGenesis gs (ex_fresh ex_w1) = (Ok tt, w') /\
     in_index "alice" w') /\
  exists gs, ExportGenesis ex_gift = Ok gs /\ fst (InitGenesis gs (ex_fresh ex_gift)) = Panic.
Proof.
  split.
  - destruct (genesis_import_iff_books (I:=fun _ => True) ex_w1 (ex_fresh ex_w1))
      as (gs & hs & Eg & Eh & T & _).
    + apply ex_keys. by left.
    + intros d. apply ex_totals_nonneg. by left.
    + intros a Ha. apply ex_holder; [|by left]. by apply (ex_index ex_w1); [left|].
    + apply ex_empty.
    + apply ex_empty.
    + apply ex_fresh_balance.
    + assert (hs = ["alice"]) as -> by (vm_compute in Eh; congruence).
      destruct T as (w' & E & _ & _ & Hin).
      { intros d. rewrite ex_totals, ex_escrowed by (by left). done. }
      exists gs, w'. split_and!; [done|done|]. apply Hin.
      unfold in_index. rewrite (ex_holders ex_w1) by (by left). by apply elem_of_singleton.
  - destruct (genesis_import_iff_books (I:=fun _ => True) ex_gift (ex_fresh ex_gift))
      as (gs & hs & Eg & Eh & _ & T).
    + apply ex_keys. by right.
    + intros d. apply ex_totals_nonneg. by right.
    + intros a Ha. apply ex_holder; [|by right]. by apply (ex_index ex_gift); [right|].
    + apply ex_empty.
    + apply ex_empty.
    + apply ex_fresh_balance.
    + exists gs. split; [done|]. apply T.
      * exists islm. vm_compute in Eh. injection Eh as <-. by vm_compute.
      * exists islm. by vm_compute.
Defined.

Lemma spend_limits_hold_witness :
  sum_over spends [MConvertToHaqq (mkMsgConvert "a" "b" 30); MConvertToHaqq (mkMsgConvert "a" "c" 70)]
  <= 100.
Proof.
  apply (spend_limits_hold (mkCoin islm 100) (mkConvertAuth (Some (mkCoin islm 100)))
    (mkTransferAuth (Some (mkCoin islm 100)))); [reflexivity|reflexivity|].
  left. reflexivity.
Defined.
End examples.
