(* ===== verification/EthiqData.v ===== *)
(** * The data of x/ethiq: types/prices.json and types/waitlist.go

    The price levels and the registered applications, entry by entry as the
    source has them: numbers are the source's decimal strings. *)

From S2P Require Import Prelude.

(** [PriceLevel] *)
Record PriceLevel := mkLevel { From : string; To : string; Price : string }.

(** [SourceOfFunds] *)
Inductive SourceOfFunds := SOURCE_OF_FUNDS_BANK | SOURCE_OF_FUNDS_UCDAO | SOURCE_OF_FUNDS_OTHER (n : Z).

#[export] Instance source_eq_dec : EqDecision SourceOfFunds.
Proof. solve_decision. Defined.

(** [ApplicationListItem] *)
Record ApplicationListItem := mkItem {
  ID : Z;
  item_FromAddress : string;
  item_ToAddress : string;
  FundSource : SourceOfFunds;
  IslmAmount : string;
  IslmAccumulatedBurntAmount : string
}.

Definition Prices : list PriceLevel := [
  mkLevel "0" "40000000000000000000000000" "3";
  mkLevel "40000000000000000000000000" "60000000000000000000000000" "4";
  mkLevel "60000000000000000000000000" "76250000000000000000000000" "6";
  mkLevel "76250000000000000000000000" "92500000000000000000000000" "7.25";
  mkLevel "92500000000000000000000000" "108750000000000000000000000" "8.5";
  mkLevel "108750000000000000000000000" "125000000000000000000000000" "9.75";
  mkLevel "125000000000000000000000000" "141250000000000000000000000" "11";
  mkLevel "141250000000000000000000000" "157500000000000000000000000" "12.25";
  mkLevel "157500000000000000000000000" "173750000000000000000000000" "13.5";
  mkLevel "173750000000000000000000000" "190000000000000000000000000" "14.75";
  mkLevel "190000000000000000000000000" "210000000000000000000000000" "16";
  mkLevel "210000000000000000000000000" "230000000000000000000000000" "18";
  mkLevel "230000000000000000000000000" "250000000000000000000000000" "20";
  mkLevel "250000000000000000000000000" "270000000000000000000000000" "22";
  mkLevel "270000000000000000000000000" "290000000000000000000000000" "24";
  mkLevel "290000000000000000000000000" "310000000000000000000000000" "26";
  mkLevel "310000000000000000000000000" "330000000000000000000000000" "28";
  mkLevel "330000000000000000000000000" "350000000000000000000000000" "30";
  mkLevel "350000000000000000000000000" "365625000000000000000000000" "32";
  mkLevel "365625000000000000000000000" "381250000000000000000000000" "34";
  mkLevel "381250000000000000000000000" "396875000000000000000000000" "36";
  mkLevel "396875000000000000000000000" "412500000000000000000000000" "38";
  mkLevel "412500000000000000000000000" "428125000000000000000000000" "40";
  mkLevel "428125000000000000000000000" "443750000000000000000000000" "42";
  mkLevel "443750000000000000000000000" "459375000000000000000000000" "44";
  mkLevel "459375000000000000000000000" "475000000000000000000000000" "46";
  mkLevel "475000000000000000000000000" "490625000000000000000000000" "48";
  mkLevel "490625000000000000000000000" "506250000000000000000000000" "50";
  mkLevel "506250000000000000000000000" "521875000000000000000000000" "52";
  mkLevel "521875000000000000000000000" "537500000000000000000000000" "54";
  mkLevel "537500000000000000000000000" "553125000000000000000000000" "56";
  mkLevel "553125000000000000000000000" "568750000000000000000000000" "58";
  mkLevel "568750000000000000000000000" "584375000000000000000000000" "60";
  mkLevel "584375000000000000000000000" "600000000000000000000000000" "62";
  mkLevel "600000000000000000000000000" "618750000000000000000000000" "64";
  mkLevel "618750000000000000000000000" "637500000000000000000000000" "68";
  mkLevel "637500000000000000000000000" "656250000000000000000000000" "72";
  mkLevel "656250000000000000000000000" "675000000000000000000000000" "76";
  mkLevel "675000000000000000000000000" "693750000000000000000000000" "80";
  mkLevel "693750000000000000000000000" "712500000000000000000000000" "84";
  mkLevel "712500000000000000000000000" "731250000000000000000000000" "88";
  mkLevel "731250000000000000000000000" "750000000000000000000000000" "92";
  mkLevel "750000000000000000000000000" "768750000000000000000000000" "96";
  mkLevel "768750000000000000000000000" "787500000000000000000000000" "100";
  mkLevel "787500000000000000000000000" "806250000000000000000000000" "104";
  mkLevel "806250000000000000000000000" "825000000000000000000000000" "108";
  mkLevel "825000000000000000000000000" "843750000000000000000000000" "112";
  mkLevel "843750000000000000000000000" "862500000000000000000000000" "116";
  mkLevel "862500000000000000000000000" "881250000000000000000000000" "120";
  mkLevel "881250000000000000000000000" "900000000000000000000000000" "124";
  mkLevel "900000000000000000000000000" "925000000000000000000000000" "128";
  mkLevel "925000000000000000000000000" "950000000000000000000000000" "135.0625";
  mkLevel "950000000000000000000000000" "975000000000000000000000000" "142.125";
  mkLevel "975000000000000000000000000" "1000000000000000000000000000" "149.1875";
  mkLevel "1000000000000000000000000000" "1025000000000000000000000000" "156.25";
  mkLevel "1025000000000000000000000000" "1050000000000000000000000000" "163.3125";
  mkLevel "1050000000000000000000000000" "1075000000000000000000000000" "170.375";
  mkLevel "1075000000000000000000000000" "1100000000000000000000000000" "177.4375";
  mkLevel "1100000000000000000000000000" "1125000000000000000000000000" "184.5";
  mkLevel "1125000000000000000000000000" "1150000000000000000000000000" "191.5625";
  mkLevel "1150000000000000000000000000" "1175000000000000000000000000" "198.625";
  mkLevel "1175000000000000000000000000" "1200000000000000000000000000" "205.6875";
  mkLevel "1200000000000000000000000000" "1225000000000000000000000000" "212.75";
  mkLevel "1225000000000000000000000000" "1250000000000000000000000000" "219.8125";
  mkLevel "1250000000000000000000000000" "1275000000000000000000000000" "226.875";
  mkLevel "1275000000000000000000000000" "1300000000000000000000000000" "233.9375";
  mkLevel "1300000000000000000000000000" "1325000000000000000000000000" "241";
  mkLevel "1325000000000000000000000000" "1350000000000000000000000000" "248.0625";
  mkLevel "1350000000000000000000000000" "1375000000000000000000000000" "255.125";
  mkLevel "1375000000000000000000000000" "1400000000000000000000000000" "262.1875";
  mkLevel "1400000000000000000000000000" "1425000000000000000000000000" "269.25";
  mkLevel "1425000000000000000000000000" "1450000000000000000000000000" "276.3125";
  mkLevel "1450000000000000000000000000" "1475000000000000000000000000" "283.375";
  mkLevel "1475000000000000000000000000" "1500000000000000000000000000" "290.4375";
  mkLevel "1500000000000000000000000000" "1525000000000000000000000000" "297.5";
  mkLevel "1525000000000000000000000000" "1550000000000000000000000000" "304.5625";
  mkLevel "1550000000000000000000000000" "1575000000000000000000000000" "311.625";
  mkLevel "1575000000000000000000000000" "1600000000000000000000000000" "318.6875";
  mkLevel "1600000000000000000000000000" "1625000000000000000000000000" "325.75";
  mkLevel "1625000000000000000000000000" "1650000000000000000000000000" "332.8125";
  mkLevel "1650000000000000000000000000" "1675000000000000000000000000" "339.875";
  mkLevel "1675000000000000000000000000" "1700000000000000000000000000" "346.9375";
  mkLevel "1700000000000000000000000000" "1725000000000000000000000000" "354";
  mkLevel "1725000000000000000000000000" "1750000000000000000000000000" "361.0625";
  mkLevel "1750000000000000000000000000" "1775000000000000000000000000" "368.125";
  mkLevel "1775000000000000000000000000" "1800000000000000000000000000" "375.1875";
  mkLevel "1800000000000000000000000000" "1825000000000000000000000000" "382.25";
  mkLevel "1825000000000000000000000000" "1850000000000000000000000000" "389.3125";
  mkLevel "1850000000000000000000000000" "1875000000000000000000000000" "396.375";
  mkLevel "1875000000000000000000000000" "1900000000000000000000000000" "403.4375";
  mkLevel "1900000000000000000000000000" "1925000000000000000000000000" "410.5";
  mkLevel "1925000000000000000000000000" "1950000000000000000000000000" "417.5625";
  mkLevel "1950000000000000000000000000" "1975000000000000000000000000" "424.625";
  mkLevel "1975000000000000000000000000" "2000000000000000000000000000" "431.6875";
  mkLevel "2000000000000000000000000000" "2025000000000000000000000000" "438.75";
  mkLevel "2025000000000000000000000000" "2050000000000000000000000000" "445.8125";
  mkLevel "2050000000000000000000000000" "2075000000000000000000000000" "452.875";
  mkLevel "2075000000000000000000000000" "2100000000000000000000000000" "459.9375";
  mkLevel "2100000000000000000000000000" "2125000000000000000000000000" "467";
  mkLevel "2125000000000000000000000000" "2150000000000000000000000000" "474.0625";
  mkLevel "2150000000000000000000000000" "2175000000000000000000000000" "481.125";
  mkLevel "2175000000000000000000000000" "2200000000000000000000000000" "488.1875";
  mkLevel "2200000000000000000000000000" "2225000000000000000000000000" "495.25";
  mkLevel "2225000000000000000000000000" "2250000000000000000000000000" "502.3125";
  mkLevel "2250000000000000000000000000" "2275000000000000000000000000" "509.375";
  mkLevel "2275000000000000000000000000" "2300000000000000000000000000" "516.4375";
  mkLevel "2300000000000000000000000000" "2325000000000000000000000000" "523.5";
  mkLevel "2325000000000000000000000000" "2350000000000000000000000000" "530.5625";
  mkLevel "2350000000000000000000000000" "2375000000000000000000000000" "537.625";
  mkLevel "2375000000000000000000000000" "2400000000000000000000000000" "544.6875";
  mkLevel "2400000000000000000000000000" "2425000000000000000000000000" "551.75";
  mkLevel "2425000000000000000000000000" "2450000000000000000000000000" "558.8125";
  mkLevel "2450000000000000000000000000" "2475000000000000000000000000" "565.875";
  mkLevel "2475000000000000000000000000" "2500000000000000000000000000" "572.9375";
  mkLevel "2500000000000000000000000000" "2518750000000000000000000000" "580";
  mkLevel "2518750000000000000000000000" "2537500000000000000000000000" "581.25";
  mkLevel "2537500000000000000000000000" "2556250000000000000000000000" "582.5";
  mkLevel "2556250000000000000000000000" "2575000000000000000000000000" "583.75";
  mkLevel "2575000000000000000000000000" "2593750000000000000000000000" "585";
  mkLevel "2593750000000000000000000000" "2612500000000000000000000000" "586.25";
  mkLevel "2612500000000000000000000000" "2631250000000000000000000000" "587.5";
  mkLevel "2631250000000000000000000000" "2650000000000000000000000000" "588.75";
  mkLevel "2650000000000000000000000000" "2668750000000000000000000000" "590";
  mkLevel "2668750000000000000000000000" "2687500000000000000000000000" "591.25";
  mkLevel "2687500000000000000000000000" "2706250000000000000000000000" "592.5";
  mkLevel "2706250000000000000000000000" "2725000000000000000000000000" "593.75";
  mkLevel "2725000000000000000000000000" "2743750000000000000000000000" "595";
  mkLevel "2743750000000000000000000000" "2762500000000000000000000000" "596.25";
  mkLevel "2762500000000000000000000000" "2781250000000000000000000000" "597.5";
  mkLevel "2781250000000000000000000000" "2800000000000000000000000000" "598.75";
  mkLevel "2800000000000000000000000000" "26000000001000000000000000000" "600"
].

Definition registeredApplications : list ApplicationListItem := ([
  mkItem 0 "haqq1k5tkey8ym6596jsmsfkxpfhswuhv9xk5q5n362"
    "haqq1k5tkey8ym6596jsmsfkxpfhswuhv9xk5q5n362" SOURCE_OF_FUNDS_BANK
    "42000000000000000000000000" "0";
  mkItem 1 "haqq1jnk82c4zcwyfyajgt2yddcyz0hsyfkwnz4tt6m"
    "haqq1jnk82c4zcwyfyajgt2yddcyz0hsyfkwnz4tt6m" SOURCE_OF_FUNDS_BANK
    "20000000000000000000000000" "42000000000000000000000000";
  mkItem 2 "haqq1jnk82c4zcwyfyajgt2yddcyz0hsyfkwnz4tt6m"
    "haqq1jnk82c4zcwyfyajgt2yddcyz0hsyfkwnz4tt6m" SOURCE_OF_FUNDS_BANK
    "22000000000000000000000000" "62000000000000000000000000";
  mkItem 3 "haqq1jnk82c4zcwyfyajgt2yddcyz0hsyfkwnz4tt6m"
    "haqq1jnk82c4zcwyfyajgt2yddcyz0hsyfkwnz4tt6m" SOURCE_OF_FUNDS_BANK
    "6000000000000000000000000" "84000000000000000000000000";
  mkItem 4 "haqq1jz26hdhvu4mxlc8ex0gpmryz4acp30tv8x06jh"
    "haqq1jz26hdhvu4mxlc8ex0gpmryz4acp30tv8x06jh" SOURCE_OF_FUNDS_BANK
    "20627922634640000000000" "90000000000000000000000000";
  mkItem 5 "haqq19pxv2r4key79twjfv0gdc5yhc4xmw9vqxkj2nl"
    "haqq19pxv2r4key79twjfv0gdc5yhc4xmw9vqxkj2nl" SOURCE_OF_FUNDS_BANK
    "15000000000000000000" "90020627922634640000000000";
  mkItem 6 "haqq1l3nfqhj85c6m995ycgyjszqs80urtflkmg35p8"
    "haqq1l3nfqhj85c6m995ycgyjszqs80urtflkmg35p8" SOURCE_OF_FUNDS_BANK
    "100000000000000000000000" "90020642922634640000000000";
  mkItem 7 "haqq1l3nfqhj85c6m995ycgyjszqs80urtflkmg35p8"
    "haqq1l3nfqhj85c6m995ycgyjszqs80urtflkmg35p8" SOURCE_OF_FUNDS_BANK
    "50000000000000000000000" "90120642922634640000000000";
  mkItem 8 "haqq13tznakuqvyr4q8kflalrkmf7uqnsg0psqhawlv"
    "haqq13tznakuqvyr4q8kflalrkmf7uqnsg0psqhawlv" SOURCE_OF_FUNDS_BANK
    "5000000000000000000" "90170642922634640000000000";
  mkItem 9 "haqq1nhj7dffdyut62vkdrs7e20s3fqsgzlx6ly52yl"
    "haqq1nhj7dffdyut62vkdrs7e20s3fqsgzlx6ly52yl" SOURCE_OF_FUNDS_BANK
    "3108808000000000000000000" "90170647922634640000000000";
  mkItem 10 "haqq1t9kjgy2uawyz8ayyspgacccul7qw4wxq7nq5aj"
    "haqq1t9kjgy2uawyz8ayyspgacccul7qw4wxq7nq5aj" SOURCE_OF_FUNDS_BANK
    "20000000000000000000" "93279455922634640000000000";
  mkItem 11 "haqq1wwnpmzzvs25prs3r6kfajupd6usy5gufqsyr75"
    "haqq1wwnpmzzvs25prs3r6kfajupd6usy5gufqsyr75" SOURCE_OF_FUNDS_BANK
    "10030000000000000000000" "93279475922634640000000000";
  mkItem 12 "haqq1m2q0lsn655c7gxudz3srepgpm5sfv0dfwuje52"
    "haqq1m2q0lsn655c7gxudz3srepgpm5sfv0dfwuje52" SOURCE_OF_FUNDS_BANK
    "100000000000000000000" "93289505922634640000000000";
  mkItem 13 "haqq1gcwaegn8j68t02qersxdk95y53dey5xfq9alp0"
    "haqq1gcwaegn8j68t02qersxdk95y53dey5xfq9alp0" SOURCE_OF_FUNDS_BANK
    "10000000000000000000" "93289605922634640000000000";
  mkItem 14 "haqq1gcwaegn8j68t02qersxdk95y53dey5xfq9alp0"
    "haqq1gcwaegn8j68t02qersxdk95y53dey5xfq9alp0" SOURCE_OF_FUNDS_BANK
    "20000000000000000000" "93289615922634640000000000";
  mkItem 15 "haqq15lc8ynsqla2y7ketemz9nhhrkeszpenydw5l6u"
    "haqq15lc8ynsqla2y7ketemz9nhhrkeszpenydw5l6u" SOURCE_OF_FUNDS_BANK
    "129832385835393879608" "93289635922634640000000000";
  mkItem 16 "haqq137867ch7xxe3a95a2rhs9xntzjp9q7ygrxnzvh"
    "haqq137867ch7xxe3a95a2rhs9xntzjp9q7ygrxnzvh" SOURCE_OF_FUNDS_BANK
    "0" "93289765755020475393879608";
  mkItem 17 "haqq137867ch7xxe3a95a2rhs9xntzjp9q7ygrxnzvh"
    "haqq137867ch7xxe3a95a2rhs9xntzjp9q7ygrxnzvh" SOURCE_OF_FUNDS_BANK
    "264200000000000000000000" "93289765755020475393879608";
  mkItem 18 "haqq1wh3wrj3z9a5ngacv49rqa3zw6e7er2gh4slhmf"
    "haqq1wh3wrj3z9a5ngacv49rqa3zw6e7er2gh4slhmf" SOURCE_OF_FUNDS_BANK
    "700000000000000000000" "93553965755020475393879608";
  mkItem 19 "haqq10gdjtqt67udzrg0gpctat9dgswtvlmvaa5s45d"
    "haqq10gdjtqt67udzrg0gpctat9dgswtvlmvaa5s45d" SOURCE_OF_FUNDS_BANK
    "2081977636097761840031980" "93554665755020475393879608";
  mkItem 20 "haqq1t0gqj43sd3auxka79h40mw3u8uq6k0fhpkyv9l"
    "haqq1t0gqj43sd3auxka79h40mw3u8uq6k0fhpkyv9l" SOURCE_OF_FUNDS_BANK
    "300000000000000000000" "95636643391118237233911588";
  mkItem 21 "haqq1wx8g7x4xq7w4xnvenzzxdkttmwtp3h0r35q5yj"
    "haqq1wx8g7x4xq7w4xnvenzzxdkttmwtp3h0r35q5yj" SOURCE_OF_FUNDS_BANK
    "0" "95636943391118237233911588";
  mkItem 22 "haqq12eug4trfzjmmaqvh0mqvs4jzmtnfv6repd5w4w"
    "haqq12eug4trfzjmmaqvh0mqvs4jzmtnfv6repd5w4w" SOURCE_OF_FUNDS_BANK
    "2160699798740000000000000" "95636943391118237233911588";
  mkItem 23 "haqq1p8k6xk94u24vv9dmxu3vkgg43fs3v72g05dun6"
    "haqq1p8k6xk94u24vv9dmxu3vkgg43fs3v72g05dun6" SOURCE_OF_FUNDS_BANK
    "6302505210418120975541924" "97797643189858237233911588";
  mkItem 24 "haqq1t80rnldwswp3pdeymza9x0ju3tduwfqmukdl3x"
    "haqq1t80rnldwswp3pdeymza9x0ju3tduwfqmukdl3x" SOURCE_OF_FUNDS_BANK
    "300000000000000000000" "104100148400276358209453512";
  mkItem 25 "haqq1wx8g7x4xq7w4xnvenzzxdkttmwtp3h0r35q5yj"
    "haqq1wx8g7x4xq7w4xnvenzzxdkttmwtp3h0r35q5yj" SOURCE_OF_FUNDS_BANK
    "604377000000000000000000" "104100448400276358209453512";
  mkItem 26 "haqq1cxkwdretn2mz5f4r06qlevdd4yv8xg6prvadgr"
    "haqq1cxkwdretn2mz5f4r06qlevdd4yv8xg6prvadgr" SOURCE_OF_FUNDS_BANK
    "600000000000000000000" "104704825400276358209453512";
  mkItem 27 "haqq10eq96nffm076nz3mxewqjphg0lnjax92a8vjm7"
    "haqq10eq96nffm076nz3mxewqjphg0lnjax92a8vjm7" SOURCE_OF_FUNDS_BANK
    "700000000000000000000" "104705425400276358209453512";
  mkItem 28 "haqq180l5wmf04suvg8tsrf4d0782pcptve84rt8au0"
    "haqq180l5wmf04suvg8tsrf4d0782pcptve84rt8au0" SOURCE_OF_FUNDS_BANK
    "300000000000000000000" "104706125400276358209453512";
  mkItem 29 "haqq1jt70r5w5q56fers0a4z2x95l92v360pwtey60k"
    "haqq1jt70r5w5q56fers0a4z2x95l92v360pwtey60k" SOURCE_OF_FUNDS_BANK
    "32102289619562552241111" "104706425400276358209453512";
  mkItem 30 "haqq1lxq7f0a4mwkxnqnr0ta4cweh0gsfmfrcpywfl8"
    "haqq1lxq7f0a4mwkxnqnr0ta4cweh0gsfmfrcpywfl8" SOURCE_OF_FUNDS_BANK
    "300000000000000000000" "104738527689895920761694623";
  mkItem 31 "haqq199p63utfq8du5a27fuzgykv9s96xylrcju3y0d"
    "haqq199p63utfq8du5a27fuzgykv9s96xylrcju3y0d" SOURCE_OF_FUNDS_BANK
    "46565298718047006639449" "104738827689895920761694623";
  mkItem 32 "haqq1v85jdqct6hlk3e67n6arkdzl3r2rz9ug7drptr"
    "haqq1v85jdqct6hlk3e67n6arkdzl3r2rz9ug7drptr" SOURCE_OF_FUNDS_BANK
    "600000000000000000000" "104785392988613967768334072";
  mkItem 33 "haqq1vc74rl68tvvpmtad583zexzvt9a3turq50r23p"
    "haqq1vc74rl68tvvpmtad583zexzvt9a3turq50r23p" SOURCE_OF_FUNDS_BANK
    "400000000000000000000" "104785992988613967768334072";
  mkItem 34 "haqq1ms6lns7jclf8zde3am7qpxs9gc5ss07nqgkjaj"
    "haqq1ms6lns7jclf8zde3am7qpxs9gc5ss07nqgkjaj" SOURCE_OF_FUNDS_BANK
    "10000000000000000000000" "104786392988613967768334072";
  mkItem 35 "haqq1l04mcr5k0pn9zx9dlan3t7f335z3e454n3r07v"
    "haqq1l04mcr5k0pn9zx9dlan3t7f335z3e454n3r07v" SOURCE_OF_FUNDS_BANK
    "50000000000000000000" "104796392988613967768334072";
  mkItem 36 "haqq1en0059nhetkweqtl4xke6y47l8vk0mx3urs2cl"
    "haqq1en0059nhetkweqtl4xke6y47l8vk0mx3urs2cl" SOURCE_OF_FUNDS_BANK
    "2935000000000000000000" "104796442988613967768334072";
  mkItem 37 "haqq17zp7fvdqlpywr55k9vgfeyyk7r5ajzydap56ld"
    "haqq17zp7fvdqlpywr55k9vgfeyyk7r5ajzydap56ld" SOURCE_OF_FUNDS_BANK
    "1000000000000000000" "104799377988613967768334072";
  mkItem 38 "haqq17zp7fvdqlpywr55k9vgfeyyk7r5ajzydap56ld"
    "haqq17zp7fvdqlpywr55k9vgfeyyk7r5ajzydap56ld" SOURCE_OF_FUNDS_BANK
    "7500000000000000000" "104799378988613967768334072";
  mkItem 39 "haqq1tgffqpkcahd4pfmjfk46yxe80whf3882zv8qaq"
    "haqq1tgffqpkcahd4pfmjfk46yxe80whf3882zv8qaq" SOURCE_OF_FUNDS_BANK
    "86000000000000000000" "104799386488613967768334072";
  mkItem 40 "haqq129lsqnv4cpdqtuqj20fljwvmj8cy7kllezqx59"
    "haqq129lsqnv4cpdqtuqj20fljwvmj8cy7kllezqx59" SOURCE_OF_FUNDS_BANK
    "10627346626529355179" "104799472488613967768334072";
  mkItem 41 "haqq1xnkjh0n4rlpzsgnc5ugdx3577jqdk42rrudtj8"
    "haqq1xnkjh0n4rlpzsgnc5ugdx3577jqdk42rrudtj8" SOURCE_OF_FUNDS_BANK
    "8500000000000000000" "104799483115960594297689251";
  mkItem 42 "haqq1tg0vjrhumfaj0rvq8k849v85rcdy8m0204d854"
    "haqq1tg0vjrhumfaj0rvq8k849v85rcdy8m0204d854" SOURCE_OF_FUNDS_BANK
    "2120772784624809970252" "104799491615960594297689251";
  mkItem 43 "haqq1xnkjh0n4rlpzsgnc5ugdx3577jqdk42rrudtj8"
    "haqq1xnkjh0n4rlpzsgnc5ugdx3577jqdk42rrudtj8" SOURCE_OF_FUNDS_BANK
    "34000000000000000000" "104801612388745219107659503";
  mkItem 44 "haqq1dsscr680uvt6y3s7v07gephfj64305qcx3qa9s"
    "haqq1dsscr680uvt6y3s7v07gephfj64305qcx3qa9s" SOURCE_OF_FUNDS_BANK
    "100987551391320380775" "104801646388745219107659503";
  mkItem 45 "haqq1hy4qd69362ltm23y9yc7zsnjg30l6fal9l7u98"
    "haqq1hy4qd69362ltm23y9yc7zsnjg30l6fal9l7u98" SOURCE_OF_FUNDS_BANK
    "3466134765247089172864" "104801747376296610428040278";
  mkItem 46 "haqq168lrdnr224qgtdl4vfrlxs8vmey9csl7023zl3"
    "haqq168lrdnr224qgtdl4vfrlxs8vmey9csl7023zl3" SOURCE_OF_FUNDS_BANK
    "19758877109602384250" "104805213511061857517213142";
  mkItem 47 "haqq1hexv24j6g035fzwj7qhdj6qtgdh9jcurkug09z"
    "haqq1hexv24j6g035fzwj7qhdj6qtgdh9jcurkug09z" SOURCE_OF_FUNDS_BANK
    "0" "104805233269938967119597392";
  mkItem 48 "haqq1f5t73c364qwjkza4pdcjed65205x3w5vx3nxy6"
    "haqq1f5t73c364qwjkza4pdcjed65205x3w5vx3nxy6" SOURCE_OF_FUNDS_BANK
    "9794198545000000000" "104805233269938967119597392";
  mkItem 49 "haqq1hexv24j6g035fzwj7qhdj6qtgdh9jcurkug09z"
    "haqq1hexv24j6g035fzwj7qhdj6qtgdh9jcurkug09z" SOURCE_OF_FUNDS_BANK
    "135000000000000000000" "104805243064137512119597392";
  mkItem 50 "haqq1ndfgfwh8k6253gensplefp3nmkk8dd64rld0l0"
    "haqq1ndfgfwh8k6253gensplefp3nmkk8dd64rld0l0" SOURCE_OF_FUNDS_BANK
    "8452720393399785886" "104805378064137512119597392";
  mkItem 51 "haqq1vk6pw8yqkrha6k4vf7ccmnmxqg9geqje79jtux"
    "haqq1vk6pw8yqkrha6k4vf7ccmnmxqg9geqje79jtux" SOURCE_OF_FUNDS_BANK
    "3041601523542561118" "104805386516857905519383278";
  mkItem 52 "haqq17al5mzpe4qknu3f020d3vyzpjmr653rvdm3rmj"
    "haqq17al5mzpe4qknu3f020d3vyzpjmr653rvdm3rmj" SOURCE_OF_FUNDS_BANK
    "60199527043547867357" "104805389558459429061944396";
  mkItem 53 "haqq1zk77lved6lczv207nnlk42r8q449p0r5s8m2xu"
    "haqq1zk77lved6lczv207nnlk42r8q449p0r5s8m2xu" SOURCE_OF_FUNDS_BANK
    "4018440231731738190" "104805449757986472609811753";
  mkItem 54 "haqq1vf7sm9f8g9fl2yawvraupjxeplka6l6jxfvkqk"
    "haqq1vf7sm9f8g9fl2yawvraupjxeplka6l6jxfvkqk" SOURCE_OF_FUNDS_BANK
    "11752146601240892306" "104805453776426704341549943";
  mkItem 55 "haqq1wclryhevxuwzt08fgf3ahkl449um59cgdud8mf"
    "haqq1wclryhevxuwzt08fgf3ahkl449um59cgdud8mf" SOURCE_OF_FUNDS_BANK
    "10600495601263120703" "104805465528573305582442249";
  mkItem 56 "haqq1sgkt4ktme24pungmvdx8aqpatut33fghksc830"
    "haqq1sgkt4ktme24pungmvdx8aqpatut33fghksc830" SOURCE_OF_FUNDS_BANK
    "2336861651804288570" "104805476129068906845562952";
  mkItem 57 "haqq12cph8474dhplzukj97pdqdw2mlw9j57n8marul"
    "haqq12cph8474dhplzukj97pdqdw2mlw9j57n8marul" SOURCE_OF_FUNDS_BANK
    "2627495682776465289" "104805478465930558649851522";
  mkItem 58 "haqq155ue4wm6uslhplpdcg57h2vs5xxhd7eumuzhkd"
    "haqq155ue4wm6uslhplpdcg57h2vs5xxhd7eumuzhkd" SOURCE_OF_FUNDS_BANK
    "13216772047572890248" "104805481093426241426316811";
  mkItem 59 "haqq1jyvclva6pngjtgjvke2z7tcx2dnuuw62rzzphl"
    "haqq1jyvclva6pngjtgjvke2z7tcx2dnuuw62rzzphl" SOURCE_OF_FUNDS_BANK
    "3082855998410214277" "104805494310198288999207059";
  mkItem 60 "haqq1c57qkm92l9q7v5x67rap29um7uf6tar5c585wx"
    "haqq1c57qkm92l9q7v5x67rap29um7uf6tar5c585wx" SOURCE_OF_FUNDS_BANK
    "0" "104805497393054287409421336";
  mkItem 61 "haqq1jnxfs2e5c8vpxrwm0p6t3cz2gw0v833hpdpqm0"
    "haqq1jnxfs2e5c8vpxrwm0p6t3cz2gw0v833hpdpqm0" SOURCE_OF_FUNDS_BANK
    "12490608338549396095" "104805497393054287409421336";
  mkItem 62 "haqq1c57qkm92l9q7v5x67rap29um7uf6tar5c585wx"
    "haqq1c57qkm92l9q7v5x67rap29um7uf6tar5c585wx" SOURCE_OF_FUNDS_BANK
    "1913000000000000000000" "104805509883662625958817431";
  mkItem 63 "haqq1a86m0nrq87vfufp9g0c3y2jqzpvhxkrqq6rjq3"
    "haqq1a86m0nrq87vfufp9g0c3y2jqzpvhxkrqq6rjq3" SOURCE_OF_FUNDS_BANK
    "0" "104807422883662625958817431";
  mkItem 64 "haqq172whkhhcv8076y9sjslj8nqm8w639uw0sjqd3c"
    "haqq172whkhhcv8076y9sjslj8nqm8w639uw0sjqd3c" SOURCE_OF_FUNDS_BANK
    "7490292404566306539960" "104807422883662625958817431";
  mkItem 65 "haqq10nu2sq68x205698frc5zjkj6x92emr3j4wxued"
    "haqq10nu2sq68x205698frc5zjkj6x92emr3j4wxued" SOURCE_OF_FUNDS_BANK
    "19899800789694993055977" "104814913176067192265357391";
  mkItem 66 "haqq19pgh0packgcy0fh002jausn03tswckpg43wwah"
    "haqq19pgh0packgcy0fh002jausn03tswckpg43wwah" SOURCE_OF_FUNDS_BANK
    "3236729676280539352562" "104834812976856887258413368";
  mkItem 67 "haqq1mwy2pmdmva5yt5cynfh5e8m723gjy8fc48rrmj"
    "haqq1mwy2pmdmva5yt5cynfh5e8m723gjy8fc48rrmj" SOURCE_OF_FUNDS_BANK
    "760486514172819136565" "104838049706533167797765930";
  mkItem 68 "haqq1xwx40gug5urcsvk2wzl4rfrtxrphgq9e2gux9y"
    "haqq1xwx40gug5urcsvk2wzl4rfrtxrphgq9e2gux9y" SOURCE_OF_FUNDS_BANK
    "0" "104838810193047340616902495";
  mkItem 69 "haqq1u32kdvz3t2ef7l894z8jyp64l8pme9kqxers3p"
    "haqq1u32kdvz3t2ef7l894z8jyp64l8pme9kqxers3p" SOURCE_OF_FUNDS_BANK
    "102000000000000000000" "104838810193047340616902495";
  mkItem 70 "haqq16fcn8enuhcukgat2mhz6j0u0yr3atngcsqm46f"
    "haqq16fcn8enuhcukgat2mhz6j0u0yr3atngcsqm46f" SOURCE_OF_FUNDS_BANK
    "99808232151422782481" "104838912193047340616902495";
  mkItem 71 "haqq1sudrde65khwj9m3n437hqsdsglmf8zt5yetgg5"
    "haqq1sudrde65khwj9m3n437hqsdsglmf8zt5yetgg5" SOURCE_OF_FUNDS_BANK
    "185470000000000000000" "104839012001279492039684976";
  mkItem 72 "haqq14k7yta4e7af2c84vzy337lxda4r9l9chd0pyde"
    "haqq14k7yta4e7af2c84vzy337lxda4r9l9chd0pyde" SOURCE_OF_FUNDS_BANK
    "3732133223775497344585" "104839197471279492039684976";
  mkItem 73 "haqq1pqteeuxf8t9vfptqwjv8qk43q48qny758lpmdl"
    "haqq1pqteeuxf8t9vfptqwjv8qk43q48qny758lpmdl" SOURCE_OF_FUNDS_BANK
    "0" "104842929604503267537029561";
  mkItem 74 "haqq1ghxpqqmkju4lx0ucsw43mg8f05cuuxjksu3n34"
    "haqq1ghxpqqmkju4lx0ucsw43mg8f05cuuxjksu3n34" SOURCE_OF_FUNDS_BANK
    "500000000000000000000" "104842929604503267537029561";
  mkItem 75 "haqq1a86m0nrq87vfufp9g0c3y2jqzpvhxkrqq6rjq3"
    "haqq1a86m0nrq87vfufp9g0c3y2jqzpvhxkrqq6rjq3" SOURCE_OF_FUNDS_BANK
    "2000000000000000000" "104843429604503267537029561";
  mkItem 76 "haqq1xnkjh0n4rlpzsgnc5ugdx3577jqdk42rrudtj8"
    "haqq1xnkjh0n4rlpzsgnc5ugdx3577jqdk42rrudtj8" SOURCE_OF_FUNDS_BANK
    "42500000000000000000" "104843431604503267537029561";
  mkItem 77 "haqq1udglxy84ns5nuwfa7tgmdjfjlph30mrrszj93y"
    "haqq1udglxy84ns5nuwfa7tgmdjfjlph30mrrszj93y" SOURCE_OF_FUNDS_BANK
    "1510915609172131855822" "104843474104503267537029561";
  mkItem 78 "haqq1qqlvdwv36ex6fue0u9lh9plzt9nhr542pt5u0d"
    "haqq1qqlvdwv36ex6fue0u9lh9plzt9nhr542pt5u0d" SOURCE_OF_FUNDS_BANK
    "21250000000000000000000" "104844985020112439668885383";
  mkItem 79 "haqq1fj3kllasstzmlslwuj8qg8exnsjzkkgg6ecu6x"
    "haqq1fj3kllasstzmlslwuj8qg8exnsjzkkgg6ecu6x" SOURCE_OF_FUNDS_BANK
    "8808813474600937448" "104866235020112439668885383";
  mkItem 80 "haqq18cm23gk4dmw50dnw4q9gpmnhhhqwjh097f4lr2"
    "haqq18cm23gk4dmw50dnw4q9gpmnhhhqwjh097f4lr2" SOURCE_OF_FUNDS_BANK
    "263508145257120022980" "104866243828925914269822831";
  mkItem 81 "haqq1gq3s87xhmjtekd0823l3tmchnc90x8g0lzue66"
    "haqq1gq3s87xhmjtekd0823l3tmchnc90x8g0lzue66" SOURCE_OF_FUNDS_BANK
    "538627525237246636298" "104866507337071171389845811";
  mkItem 82 "haqq13x3h3t9fqc69er64jmf3za5wuz9fkd2zpgl737"
    "haqq13x3h3t9fqc69er64jmf3za5wuz9fkd2zpgl737" SOURCE_OF_FUNDS_BANK
    "850000000000000000000" "104867045964596408636482109";
  mkItem 83 "haqq13x3h3t9fqc69er64jmf3za5wuz9fkd2zpgl737"
    "haqq13x3h3t9fqc69er64jmf3za5wuz9fkd2zpgl737" SOURCE_OF_FUNDS_BANK
    "0" "104867895964596408636482109";
  mkItem 84 "haqq13x3h3t9fqc69er64jmf3za5wuz9fkd2zpgl737"
    "haqq13x3h3t9fqc69er64jmf3za5wuz9fkd2zpgl737" SOURCE_OF_FUNDS_BANK
    "0" "104867895964596408636482109";
  mkItem 85 "haqq13x3h3t9fqc69er64jmf3za5wuz9fkd2zpgl737"
    "haqq13x3h3t9fqc69er64jmf3za5wuz9fkd2zpgl737" SOURCE_OF_FUNDS_BANK
    "0" "104867895964596408636482109";
  mkItem 86 "haqq13x3h3t9fqc69er64jmf3za5wuz9fkd2zpgl737"
    "haqq13x3h3t9fqc69er64jmf3za5wuz9fkd2zpgl737" SOURCE_OF_FUNDS_BANK
    "586500000000000000000" "104867895964596408636482109";
  mkItem 87 "haqq16rgvtrdzr4s092r7l4hx3z2rs75h58w9du8ulj"
    "haqq16rgvtrdzr4s092r7l4hx3z2rs75h58w9du8ulj" SOURCE_OF_FUNDS_BANK
    "5000700000000000000000" "104868482464596408636482109";
  mkItem 88 "haqq1xwx40gug5urcsvk2wzl4rfrtxrphgq9e2gux9y"
    "haqq1xwx40gug5urcsvk2wzl4rfrtxrphgq9e2gux9y" SOURCE_OF_FUNDS_BANK
    "5000000000000000000000" "104873483164596408636482109";
  mkItem 89 "haqq166qpmkhpjpcts8nmdzgj2d0ghktzszsqt0ldgc"
    "haqq166qpmkhpjpcts8nmdzgj2d0ghktzszsqt0ldgc" SOURCE_OF_FUNDS_BANK
    "0" "104878483164596408636482109";
  mkItem 90 "haqq166qpmkhpjpcts8nmdzgj2d0ghktzszsqt0ldgc"
    "haqq166qpmkhpjpcts8nmdzgj2d0ghktzszsqt0ldgc" SOURCE_OF_FUNDS_BANK
    "1200000000000000000000" "104878483164596408636482109";
  mkItem 91 "haqq1lyjrsnd33hdzw7yrxppxsm4dzs6z75xrgkqudz"
    "haqq1lyjrsnd33hdzw7yrxppxsm4dzs6z75xrgkqudz" SOURCE_OF_FUNDS_BANK
    "42045053826642006172844" "104879683164596408636482109";
  mkItem 92 "haqq1rrza5u89np7dz30aqm9tz7lh5vrmwfuflk7h97"
    "haqq1rrza5u89np7dz30aqm9tz7lh5vrmwfuflk7h97" SOURCE_OF_FUNDS_BANK
    "101487099700000000000" "104921728218423050642654953";
  mkItem 93 "haqq18fh68cjgyxvfhtnye3gnejd33mc047ftarkwn4"
    "haqq18fh68cjgyxvfhtnye3gnejd33mc047ftarkwn4" SOURCE_OF_FUNDS_BANK
    "193066084778914061" "104921829705522750642654953";
  mkItem 94 "haqq18fh68cjgyxvfhtnye3gnejd33mc047ftarkwn4"
    "haqq18fh68cjgyxvfhtnye3gnejd33mc047ftarkwn4" SOURCE_OF_FUNDS_BANK
    "0" "104921829898588835421569014";
  mkItem 95 "haqq1lny0m8sezjanhfqara9c8mz8t5yj7rsr7dftc5"
    "haqq1lny0m8sezjanhfqara9c8mz8t5yj7rsr7dftc5" SOURCE_OF_FUNDS_BANK
    "759000000000000000000" "104921829898588835421569014";
  mkItem 96 "haqq1pqteeuxf8t9vfptqwjv8qk43q48qny758lpmdl"
    "haqq1pqteeuxf8t9vfptqwjv8qk43q48qny758lpmdl" SOURCE_OF_FUNDS_BANK
    "5000000000000000000000" "104922588898588835421569014";
  mkItem 97 "haqq1am5c3kclk7dxq88y7ussp6rv4hp5exmqh06ql6"
    "haqq1am5c3kclk7dxq88y7ussp6rv4hp5exmqh06ql6" SOURCE_OF_FUNDS_BANK
    "2190525719000000000000" "104927588898588835421569014";
  mkItem 98 "haqq1l04mcr5k0pn9zx9dlan3t7f335z3e454n3r07v"
    "haqq1l04mcr5k0pn9zx9dlan3t7f335z3e454n3r07v" SOURCE_OF_FUNDS_BANK
    "50000000000000000000" "104929779424307835421569014";
  mkItem 99 "haqq1f9ncj6tqfht8327w8378qfxg4tv2cv5scut95u"
    "haqq1f9ncj6tqfht8327w8378qfxg4tv2cv5scut95u" SOURCE_OF_FUNDS_BANK
    "99821313949999991112" "104929829424307835421569014";
  mkItem 100 "haqq1esy5m56f7gsgckjgvwreq6yd95rp5k2u9kt7y0"
    "haqq1esy5m56f7gsgckjgvwreq6yd95rp5k2u9kt7y0" SOURCE_OF_FUNDS_BANK
    "2940000000000000000000" "104929929245621785421560126";
  mkItem 101 "haqq1ylj36axpu99p9aanetr4c9ltfhd97yymtywry4"
    "haqq1ylj36axpu99p9aanetr4c9ltfhd97yymtywry4" SOURCE_OF_FUNDS_BANK
    "63949000000000000000000" "104932869245621785421560126";
  mkItem 102 "haqq1ylj36axpu99p9aanetr4c9ltfhd97yymtywry4"
    "haqq1ylj36axpu99p9aanetr4c9ltfhd97yymtywry4" SOURCE_OF_FUNDS_BANK
    "65612983058938513455598" "104996818245621785421560126";
  mkItem 103 "haqq1k9jgk497v0cwpxnare0348ne2qd256ateznv46"
    "haqq1k9jgk497v0cwpxnare0348ne2qd256ateznv46" SOURCE_OF_FUNDS_BANK
    "9000000000000000000000" "105062431228680723935015724";
  mkItem 104 "haqq1fagmupyv9cnvlj6wlxsl62d664pr4gxadjuu77"
    "haqq1fagmupyv9cnvlj6wlxsl62d664pr4gxadjuu77" SOURCE_OF_FUNDS_BANK
    "50000000000000000000" "105071431228680723935015724";
  mkItem 105 "haqq16ajzzak99ftl3rp5efjysnrn4sg5kkp7rzuk23"
    "haqq16ajzzak99ftl3rp5efjysnrn4sg5kkp7rzuk23" SOURCE_OF_FUNDS_BANK
    "0" "105071481228680723935015724";
  mkItem 106 "haqq17s89t23xmyp2fsavnmaphxcvt4q0ejwvwf89ws"
    "haqq17s89t23xmyp2fsavnmaphxcvt4q0ejwvwf89ws" SOURCE_OF_FUNDS_BANK
    "0" "105071481228680723935015724";
  mkItem 107 "haqq1l04mcr5k0pn9zx9dlan3t7f335z3e454n3r07v"
    "haqq1l04mcr5k0pn9zx9dlan3t7f335z3e454n3r07v" SOURCE_OF_FUNDS_BANK
    "50000000000000000000" "105071481228680723935015724";
  mkItem 108 "haqq1gp7nxss0t5jpl6qxqpfq3hpr7fdkuna0ygpwa6"
    "haqq1gp7nxss0t5jpl6qxqpfq3hpr7fdkuna0ygpwa6" SOURCE_OF_FUNDS_BANK
    "42500000000000000000" "105071531228680723935015724";
  mkItem 109 "haqq1p0n5n8g2htnclrfynlney5fuanxkgg509vhwnc"
    "haqq1p0n5n8g2htnclrfynlney5fuanxkgg509vhwnc" SOURCE_OF_FUNDS_BANK
    "30435089276772930824993" "105071573728680723935015724";
  mkItem 110 "haqq1u96w5hahu5ehyf6f9sszv5hvdy8w8d9hp0rumz"
    "haqq1u96w5hahu5ehyf6f9sszv5hvdy8w8d9hp0rumz" SOURCE_OF_FUNDS_BANK
    "1000000000000000000000" "105102008817957496865840717";
  mkItem 111 "haqq1q0hcvgfvphfx4falj4v2vtyv69fp9amz0tjs9r"
    "haqq1q0hcvgfvphfx4falj4v2vtyv69fp9amz0tjs9r" SOURCE_OF_FUNDS_BANK
    "2000000000000000000000" "105103008817957496865840717";
  mkItem 112 "haqq16uflhdn44p6jmrpkxp4x4s8nvdrx5p9d4jpk96"
    "haqq16uflhdn44p6jmrpkxp4x4s8nvdrx5p9d4jpk96" SOURCE_OF_FUNDS_BANK
    "8318171493456280287996" "105105008817957496865840717";
  mkItem 113 "haqq18mgz59q57y03zzfe8gjr67t2rwpfk5emvpl5cx"
    "haqq18mgz59q57y03zzfe8gjr67t2rwpfk5emvpl5cx" SOURCE_OF_FUNDS_BANK
    "122000000000000000000" "105113326989450953146128713";
  mkItem 114 "haqq18mgz59q57y03zzfe8gjr67t2rwpfk5emvpl5cx"
    "haqq18mgz59q57y03zzfe8gjr67t2rwpfk5emvpl5cx" SOURCE_OF_FUNDS_BANK
    "27567000000000000000000000" "105113448989450953146128713";
  mkItem 115 "haqq16ajzzak99ftl3rp5efjysnrn4sg5kkp7rzuk23"
    "haqq16ajzzak99ftl3rp5efjysnrn4sg5kkp7rzuk23" SOURCE_OF_FUNDS_BANK
    "298886946055525000000" "132680448989450953146128713";
  mkItem 116 "haqq1jup5j38l4nucfrmn8dnkp5f8srju2epndlmfud"
    "haqq1jup5j38l4nucfrmn8dnkp5f8srju2epndlmfud" SOURCE_OF_FUNDS_BANK
    "80477631348507132051004" "132680747876397008671128713";
  mkItem 117 "haqq18pyf4c2q0cqqd3nm2mhggsvqxmv9009nmq0sdt"
    "haqq18pyf4c2q0cqqd3nm2mhggsvqxmv9009nmq0sdt" SOURCE_OF_FUNDS_BANK
    "0" "132761225507745515803179717";
  mkItem 118 "haqq18pyf4c2q0cqqd3nm2mhggsvqxmv9009nmq0sdt"
    "haqq18pyf4c2q0cqqd3nm2mhggsvqxmv9009nmq0sdt" SOURCE_OF_FUNDS_BANK
    "150000000000000000000" "132761225507745515803179717";
  mkItem 119 "haqq1a86m0nrq87vfufp9g0c3y2jqzpvhxkrqq6rjq3"
    "haqq1a86m0nrq87vfufp9g0c3y2jqzpvhxkrqq6rjq3" SOURCE_OF_FUNDS_BANK
    "1000000000000000000" "132761375507745515803179717";
  mkItem 120 "haqq1ayyld0qup2njh0cn9xrguzfmd4k04jek6dkg6d"
    "haqq1ayyld0qup2njh0cn9xrguzfmd4k04jek6dkg6d" SOURCE_OF_FUNDS_BANK
    "7000000000000000000000" "132761376507745515803179717";
  mkItem 121 "haqq1l20lvcsk37cuqt5wxprsqmxm6tseezfcrdawlp"
    "haqq1l20lvcsk37cuqt5wxprsqmxm6tseezfcrdawlp" SOURCE_OF_FUNDS_BANK
    "1900000000000000000000000" "132768376507745515803179717";
  mkItem 122 "haqq1l20lvcsk37cuqt5wxprsqmxm6tseezfcrdawlp"
    "haqq1l20lvcsk37cuqt5wxprsqmxm6tseezfcrdawlp" SOURCE_OF_FUNDS_BANK
    "17101091992803195000000000" "134668376507745515803179717";
  mkItem 123 "haqq1892ue2rnv3hj6c2evk8m2eyahshr2zvzacg3yf"
    "haqq1892ue2rnv3hj6c2evk8m2eyahshr2zvzacg3yf" SOURCE_OF_FUNDS_BANK
    "1923700756094099167" "151769468500548710803179717";
  mkItem 124 "haqq1ml2070yf5l3hapd2wrr3n7l06c69j95ff07a4m"
    "haqq1ml2070yf5l3hapd2wrr3n7l06c69j95ff07a4m" SOURCE_OF_FUNDS_BANK
    "0" "151769470424249466897278884";
  mkItem 125 "haqq1rwkesqkx42j6ngnxqz0wk8ctr77duwynzexxh4"
    "haqq1rwkesqkx42j6ngnxqz0wk8ctr77duwynzexxh4" SOURCE_OF_FUNDS_BANK
    "60000000000000000000" "151769470424249466897278884";
  mkItem 126 "haqq1rwkesqkx42j6ngnxqz0wk8ctr77duwynzexxh4"
    "haqq1rwkesqkx42j6ngnxqz0wk8ctr77duwynzexxh4" SOURCE_OF_FUNDS_BANK
    "200000000000000000000" "151769530424249466897278884";
  mkItem 127 "haqq1yskmsxyyk6kta097zgnhgrz422nyszaqyy5t7y"
    "haqq1yskmsxyyk6kta097zgnhgrz422nyszaqyy5t7y" SOURCE_OF_FUNDS_BANK
    "100000000000000000" "151769730424249466897278884";
  mkItem 128 "haqq1ydpxfzen98270ag53tzzscm22j40zrn0djqakg"
    "haqq1ydpxfzen98270ag53tzzscm22j40zrn0djqakg" SOURCE_OF_FUNDS_BANK
    "0" "151769730524249466897278884";
  mkItem 129 "haqq1ydpxfzen98270ag53tzzscm22j40zrn0djqakg"
    "haqq1ydpxfzen98270ag53tzzscm22j40zrn0djqakg" SOURCE_OF_FUNDS_BANK
    "5000000000000000000000" "151769730524249466897278884";
  mkItem 130 "haqq18pyf4c2q0cqqd3nm2mhggsvqxmv9009nmq0sdt"
    "haqq18pyf4c2q0cqqd3nm2mhggsvqxmv9009nmq0sdt" SOURCE_OF_FUNDS_BANK
    "100000000000000000000" "151774730524249466897278884";
  mkItem 131 "haqq1phrkjzpfdwt0pfu2h34ul3dzw4a4l86qlgsm0v"
    "haqq1phrkjzpfdwt0pfu2h34ul3dzw4a4l86qlgsm0v" SOURCE_OF_FUNDS_BANK
    "116610546000000000000" "151774830524249466897278884";
  mkItem 132 "haqq1wj2jf4n86p5y38u8djuasqh0vzft84f8jvymje"
    "haqq1wj2jf4n86p5y38u8djuasqh0vzft84f8jvymje" SOURCE_OF_FUNDS_BANK
    "3000000000000000000" "151774947134795466897278884";
  mkItem 133 "haqq1zp2hep5w80jjm9tnpuk7aqxmg0qhl88xkjmjdl"
    "haqq1zp2hep5w80jjm9tnpuk7aqxmg0qhl88xkjmjdl" SOURCE_OF_FUNDS_UCDAO
    "4638170516240992883075356" "151774950134795466897278884";
  mkItem 134 "haqq1hc04df4sh90vg6nw7urlg6p5ek7qqvrq2kc2hr"
    "haqq1hc04df4sh90vg6nw7urlg6p5ek7qqvrq2kc2hr" SOURCE_OF_FUNDS_BANK
    "383000000000000000000000" "156413120651036459780354240";
  mkItem 135 "haqq16k82fxutdsyk9m859cx4uuswt5jg5e689n9gx8"
    "haqq16k82fxutdsyk9m859cx4uuswt5jg5e689n9gx8" SOURCE_OF_FUNDS_UCDAO
    "10000000000000000000000000" "156796120651036459780354240";
  mkItem 136 "haqq1hc04df4sh90vg6nw7urlg6p5ek7qqvrq2kc2hr"
    "haqq1hc04df4sh90vg6nw7urlg6p5ek7qqvrq2kc2hr" SOURCE_OF_FUNDS_UCDAO
    "10000000000000000000000000" "166796120651036459780354240";
  mkItem 137 "haqq1pz0xg5ejepdy7h7lr28jpade4gn6ye3lfgr0fg"
    "haqq1pz0xg5ejepdy7h7lr28jpade4gn6ye3lfgr0fg" SOURCE_OF_FUNDS_BANK
    "2000000000000000000000" "176796120651036459780354240";
  mkItem 138 "haqq172whkhhcv8076y9sjslj8nqm8w639uw0sjqd3c"
    "haqq172whkhhcv8076y9sjslj8nqm8w639uw0sjqd3c" SOURCE_OF_FUNDS_BANK
    "2736255003393740271605" "176798120651036459780354240";
  mkItem 139 "haqq172whkhhcv8076y9sjslj8nqm8w639uw0sjqd3c"
    "haqq172whkhhcv8076y9sjslj8nqm8w639uw0sjqd3c" SOURCE_OF_FUNDS_BANK
    "15179992743695000000000" "176800856906039853520625845";
  mkItem 140 "haqq1pz0xg5ejepdy7h7lr28jpade4gn6ye3lfgr0fg"
    "haqq1pz0xg5ejepdy7h7lr28jpade4gn6ye3lfgr0fg" SOURCE_OF_FUNDS_BANK
    "130000000000000000000" "176816036898783548520625845";
  mkItem 141 "haqq1mapqt40fv9pgdspzlttnvjau9v86a6cu5d3ul7"
    "haqq1mapqt40fv9pgdspzlttnvjau9v86a6cu5d3ul7" SOURCE_OF_FUNDS_BANK
    "1000000000000000000000" "176816166898783548520625845";
  mkItem 142 "haqq16jrcmtp7czsmqup3vgzjet75vzj9h7klwldf72"
    "haqq16jrcmtp7czsmqup3vgzjet75vzj9h7klwldf72" SOURCE_OF_FUNDS_BANK
    "104000000000000000000" "176817166898783548520625845";
  mkItem 143 "haqq16jrcmtp7czsmqup3vgzjet75vzj9h7klwldf72"
    "haqq16jrcmtp7czsmqup3vgzjet75vzj9h7klwldf72" SOURCE_OF_FUNDS_BANK
    "50000000000000000000" "176817270898783548520625845";
  mkItem 144 "haqq1xfukn8mn3hzzyvyml54l7zhyv87k86hyuc7dpl"
    "haqq1xfukn8mn3hzzyvyml54l7zhyv87k86hyuc7dpl" SOURCE_OF_FUNDS_BANK
    "150000000000000000000" "176817320898783548520625845";
  mkItem 145 "haqq1c66zlpq02s4nzhrg35tr4vg6d4yy9l593cfezc"
    "haqq1c66zlpq02s4nzhrg35tr4vg6d4yy9l593cfezc" SOURCE_OF_FUNDS_BANK
    "1965698061950687747444" "176817470898783548520625845";
  mkItem 146 "haqq1r9y580lw6gkf3qx3srrw2gtgmvth4mkm8vqe70"
    "haqq1r9y580lw6gkf3qx3srrw2gtgmvth4mkm8vqe70" SOURCE_OF_FUNDS_BANK
    "108380000000000000000" "176819436596845499208373289";
  mkItem 147 "haqq13racrla0fnrcs3jr9w0v47cwksj9ll40gxwg8n"
    "haqq13racrla0fnrcs3jr9w0v47cwksj9ll40gxwg8n" SOURCE_OF_FUNDS_BANK
    "10000000000000000000000" "176819544976845499208373289";
  mkItem 148 "haqq13racrla0fnrcs3jr9w0v47cwksj9ll40gxwg8n"
    "haqq13racrla0fnrcs3jr9w0v47cwksj9ll40gxwg8n" SOURCE_OF_FUNDS_BANK
    "42900000000000000000000" "176829544976845499208373289";
  mkItem 149 "haqq1ynlv4pneetsjdsp4qzecafw9swr6ukasueprrd"
    "haqq1ynlv4pneetsjdsp4qzecafw9swr6ukasueprrd" SOURCE_OF_FUNDS_BANK
    "5635344094961745000000" "176872444976845499208373289";
  mkItem 150 "haqq1kawnyp8w7ydk9fgtvp7m8t8kqf0vypykr3rj7v"
    "haqq1kawnyp8w7ydk9fgtvp7m8t8kqf0vypykr3rj7v" SOURCE_OF_FUNDS_UCDAO
    "500000000000000000000000000" "176878080320940460953373289";
  mkItem 151 "haqq1xnkjh0n4rlpzsgnc5ugdx3577jqdk42rrudtj8"
    "haqq1xnkjh0n4rlpzsgnc5ugdx3577jqdk42rrudtj8" SOURCE_OF_FUNDS_BANK
    "80000000000000000000" "676878080320940460953373289";
  mkItem 152 "haqq1d83fz57tysqdyfhu0sua7dzy29y4h7dqe30qer"
    "haqq1d83fz57tysqdyfhu0sua7dzy29y4h7dqe30qer" SOURCE_OF_FUNDS_BANK
    "20000469893070000000000" "676878160320940460953373289";
  mkItem 153 "haqq17fa648z3cyxys6mcvxfny9j9kq3nc43tm3fjcq"
    "haqq17fa648z3cyxys6mcvxfny9j9kq3nc43tm3fjcq" SOURCE_OF_FUNDS_BANK
    "1700000000000000000000" "676898160790833530953373289";
  mkItem 154 "haqq1wwpeqyek2v5yzz9qduv3dfp5zcw6fdfuww86kf"
    "haqq1wwpeqyek2v5yzz9qduv3dfp5zcw6fdfuww86kf" SOURCE_OF_FUNDS_BANK
    "265252245966570569" "676899860790833530953373289";
  mkItem 155 "haqq1y7eu3n928f3taquctfluh9t3ergc6gst5890sd"
    "haqq1y7eu3n928f3taquctfluh9t3ergc6gst5890sd" SOURCE_OF_FUNDS_BANK
    "53437953051714750206" "676899861056085776919943858";
  mkItem 156 "haqq1v2qeeuy64ft03rjyj27vvyjfaxsegfxam9gjnu"
    "haqq1v2qeeuy64ft03rjyj27vvyjfaxsegfxam9gjnu" SOURCE_OF_FUNDS_BANK
    "0" "676899914494038828634694064";
  mkItem 157 "haqq15lfmvu54dwxf68uw06eg8am58tlezv6hz8qtte"
    "haqq15lfmvu54dwxf68uw06eg8am58tlezv6hz8qtte" SOURCE_OF_FUNDS_BANK
    "20938800000000000000000" "676899914494038828634694064";
  mkItem 158 "haqq1r75haftq93xnf2654xym9u8wwp6vxvn552xlqa"
    "haqq1r75haftq93xnf2654xym9u8wwp6vxvn552xlqa" SOURCE_OF_FUNDS_BANK
    "102503597855461978113003" "676920853294038828634694064";
  mkItem 159 "haqq1ml2070yf5l3hapd2wrr3n7l06c69j95ff07a4m"
    "haqq1ml2070yf5l3hapd2wrr3n7l06c69j95ff07a4m" SOURCE_OF_FUNDS_BANK
    "761078797208282436040" "677023356891894290612807067";
  mkItem 160 "haqq1d2lcvdp7k2lj2tv5a2xqukv94k9zrh74h5qgdg"
    "haqq1d2lcvdp7k2lj2tv5a2xqukv94k9zrh74h5qgdg" SOURCE_OF_FUNDS_BANK
    "301992959595637320510" "677024117970691498895243107";
  mkItem 161 "haqq1wqqxamh9vn33gakxwwjtp90nvwwrrkxvnh2kyc"
    "haqq1wqqxamh9vn33gakxwwjtp90nvwwrrkxvnh2kyc" SOURCE_OF_FUNDS_BANK
    "80000000000000000000" "677024419963651094532563617";
  mkItem 162 "haqq1mr7m6cter0x5vru0hxjq05lur67zxvnap0szyt"
    "haqq1mr7m6cter0x5vru0hxjq05lur67zxvnap0szyt" SOURCE_OF_FUNDS_BANK
    "27830000000000000000000" "677024499963651094532563617";
  mkItem 163 "haqq1gp7nxss0t5jpl6qxqpfq3hpr7fdkuna0ygpwa6"
    "haqq1gp7nxss0t5jpl6qxqpfq3hpr7fdkuna0ygpwa6" SOURCE_OF_FUNDS_BANK
    "80000000000000000000" "677052329963651094532563617";
  mkItem 164 "haqq1p2m77hnjeyrjn75rjrxmymls0z8x5en6kwtwxs"
    "haqq1p2m77hnjeyrjn75rjrxmymls0z8x5en6kwtwxs" SOURCE_OF_FUNDS_BANK
    "590679340311604619939" "677052409963651094532563617";
  mkItem 165 "haqq12lfcj8s2p200wtwm4r97g5jlhtke2qtzvfuehy"
    "haqq12lfcj8s2p200wtwm4r97g5jlhtke2qtzvfuehy" SOURCE_OF_FUNDS_BANK
    "5000000000000000000000000" "677053000642991406137183556";
  mkItem 166 "haqq1kawnyp8w7ydk9fgtvp7m8t8kqf0vypykr3rj7v"
    "haqq1kawnyp8w7ydk9fgtvp7m8t8kqf0vypykr3rj7v" SOURCE_OF_FUNDS_UCDAO
    "499999997000000000000000000" "682053000642991406137183556"
])%Z.

(** [registeredApplicationsBySender]: the ids of a sender. *)
Definition registeredApplicationsBySender : list (string * list Z) := [
  ("haqq10eq96nffm076nz3mxewqjphg0lnjax92a8vjm7", [27]);
  ("haqq10gdjtqt67udzrg0gpctat9dgswtvlmvaa5s45d", [19]);
  ("haqq10nu2sq68x205698frc5zjkj6x92emr3j4wxued", [65]);
  ("haqq129lsqnv4cpdqtuqj20fljwvmj8cy7kllezqx59", [40]);
  ("haqq12cph8474dhplzukj97pdqdw2mlw9j57n8marul", [57]);
  ("haqq12eug4trfzjmmaqvh0mqvs4jzmtnfv6repd5w4w", [22]);
  ("haqq12lfcj8s2p200wtwm4r97g5jlhtke2qtzvfuehy", [165]);
  ("haqq137867ch7xxe3a95a2rhs9xntzjp9q7ygrxnzvh", [16; 17]);
  ("haqq13racrla0fnrcs3jr9w0v47cwksj9ll40gxwg8n", [147; 148]);
  ("haqq13tznakuqvyr4q8kflalrkmf7uqnsg0psqhawlv", [8]);
  ("haqq13x3h3t9fqc69er64jmf3za5wuz9fkd2zpgl737", [82; 83; 84; 85; 86]);
  ("haqq14k7yta4e7af2c84vzy337lxda4r9l9chd0pyde", [72]);
  ("haqq155ue4wm6uslhplpdcg57h2vs5xxhd7eumuzhkd", [58]);
  ("haqq15lc8ynsqla2y7ketemz9nhhrkeszpenydw5l6u", [15]);
  ("haqq15lfmvu54dwxf68uw06eg8am58tlezv6hz8qtte", [157]);
  ("haqq166qpmkhpjpcts8nmdzgj2d0ghktzszsqt0ldgc", [89; 90]);
  ("haqq168lrdnr224qgtdl4vfrlxs8vmey9csl7023zl3", [46]);
  ("haqq16ajzzak99ftl3rp5efjysnrn4sg5kkp7rzuk23", [105; 115]);
  ("haqq16fcn8enuhcukgat2mhz6j0u0yr3atngcsqm46f", [70]);
  ("haqq16jrcmtp7czsmqup3vgzjet75vzj9h7klwldf72", [142; 143]);
  ("haqq16k82fxutdsyk9m859cx4uuswt5jg5e689n9gx8", [135]);
  ("haqq16rgvtrdzr4s092r7l4hx3z2rs75h58w9du8ulj", [87]);
  ("haqq16uflhdn44p6jmrpkxp4x4s8nvdrx5p9d4jpk96", [112]);
  ("haqq172whkhhcv8076y9sjslj8nqm8w639uw0sjqd3c", [64; 138; 139]);
  ("haqq17al5mzpe4qknu3f020d3vyzpjmr653rvdm3rmj", [52]);
  ("haqq17fa648z3cyxys6mcvxfny9j9kq3nc43tm3fjcq", [153]);
  ("haqq17s89t23xmyp2fsavnmaphxcvt4q0ejwvwf89ws", [106]);
  ("haqq17zp7fvdqlpywr55k9vgfeyyk7r5ajzydap56ld", [37; 38]);
  ("haqq180l5wmf04suvg8tsrf4d0782pcptve84rt8au0", [28]);
  ("haqq1892ue2rnv3hj6c2evk8m2eyahshr2zvzacg3yf", [123]);
  ("haqq18cm23gk4dmw50dnw4q9gpmnhhhqwjh097f4lr2", [80]);
  ("haqq18fh68cjgyxvfhtnye3gnejd33mc047ftarkwn4", [93; 94]);
  ("haqq18mgz59q57y03zzfe8gjr67t2rwpfk5emvpl5cx", [113; 114]);
  ("haqq18pyf4c2q0cqqd3nm2mhggsvqxmv9009nmq0sdt", [117; 118; 130]);
  ("haqq199p63utfq8du5a27fuzgykv9s96xylrcju3y0d", [31]);
  ("haqq19pgh0packgcy0fh002jausn03tswckpg43wwah", [66]);
  ("haqq19pxv2r4key79twjfv0gdc5yhc4xmw9vqxkj2nl", [5]);
  ("haqq1a86m0nrq87vfufp9g0c3y2jqzpvhxkrqq6rjq3", [63; 75; 119]);
  ("haqq1am5c3kclk7dxq88y7ussp6rv4hp5exmqh06ql6", [97]);
  ("haqq1ayyld0qup2njh0cn9xrguzfmd4k04jek6dkg6d", [120]);
  ("haqq1c57qkm92l9q7v5x67rap29um7uf6tar5c585wx", [60; 62]);
  ("haqq1c66zlpq02s4nzhrg35tr4vg6d4yy9l593cfezc", [145]);
  ("haqq1cxkwdretn2mz5f4r06qlevdd4yv8xg6prvadgr", [26]);
  ("haqq1d2lcvdp7k2lj2tv5a2xqukv94k9zrh74h5qgdg", [160]);
  ("haqq1d83fz57tysqdyfhu0sua7dzy29y4h7dqe30qer", [152]);
  ("haqq1dsscr680uvt6y3s7v07gephfj64305qcx3qa9s", [44]);
  ("haqq1en0059nhetkweqtl4xke6y47l8vk0mx3urs2cl", [36]);
  ("haqq1esy5m56f7gsgckjgvwreq6yd95rp5k2u9kt7y0", [100]);
  ("haqq1f5t73c364qwjkza4pdcjed65205x3w5vx3nxy6", [48]);
  ("haqq1f9ncj6tqfht8327w8378qfxg4tv2cv5scut95u", [99]);
  ("haqq1fagmupyv9cnvlj6wlxsl62d664pr4gxadjuu77", [104]);
  ("haqq1fj3kllasstzmlslwuj8qg8exnsjzkkgg6ecu6x", [79]);
  ("haqq1gcwaegn8j68t02qersxdk95y53dey5xfq9alp0", [13; 14]);
  ("haqq1ghxpqqmkju4lx0ucsw43mg8f05cuuxjksu3n34", [74]);
  ("haqq1gp7nxss0t5jpl6qxqpfq3hpr7fdkuna0ygpwa6", [108; 163]);
  ("haqq1gq3s87xhmjtekd0823l3tmchnc90x8g0lzue66", [81]);
  ("haqq1hc04df4sh90vg6nw7urlg6p5ek7qqvrq2kc2hr", [134; 136]);
  ("haqq1hexv24j6g035fzwj7qhdj6qtgdh9jcurkug09z", [47; 49]);
  ("haqq1hy4qd69362ltm23y9yc7zsnjg30l6fal9l7u98", [45]);
  ("haqq1jnk82c4zcwyfyajgt2yddcyz0hsyfkwnz4tt6m", [1; 2; 3]);
  ("haqq1jnxfs2e5c8vpxrwm0p6t3cz2gw0v833hpdpqm0", [61]);
  ("haqq1jt70r5w5q56fers0a4z2x95l92v360pwtey60k", [29]);
  ("haqq1jup5j38l4nucfrmn8dnkp5f8srju2epndlmfud", [116]);
  ("haqq1jyvclva6pngjtgjvke2z7tcx2dnuuw62rzzphl", [59]);
  ("haqq1jz26hdhvu4mxlc8ex0gpmryz4acp30tv8x06jh", [4]);
  ("haqq1k5tkey8ym6596jsmsfkxpfhswuhv9xk5q5n362", [0]);
  ("haqq1k9jgk497v0cwpxnare0348ne2qd256ateznv46", [103]);
  ("haqq1kawnyp8w7ydk9fgtvp7m8t8kqf0vypykr3rj7v", [150; 166]);
  ("haqq1l04mcr5k0pn9zx9dlan3t7f335z3e454n3r07v", [35; 98; 107]);
  ("haqq1l20lvcsk37cuqt5wxprsqmxm6tseezfcrdawlp", [121; 122]);
  ("haqq1l3nfqhj85c6m995ycgyjszqs80urtflkmg35p8", [6; 7]);
  ("haqq1lny0m8sezjanhfqara9c8mz8t5yj7rsr7dftc5", [95]);
  ("haqq1lxq7f0a4mwkxnqnr0ta4cweh0gsfmfrcpywfl8", [30]);
  ("haqq1lyjrsnd33hdzw7yrxppxsm4dzs6z75xrgkqudz", [91]);
  ("haqq1m2q0lsn655c7gxudz3srepgpm5sfv0dfwuje52", [12]);
  ("haqq1mapqt40fv9pgdspzlttnvjau9v86a6cu5d3ul7", [141]);
  ("haqq1ml2070yf5l3hapd2wrr3n7l06c69j95ff07a4m", [124; 159]);
  ("haqq1mr7m6cter0x5vru0hxjq05lur67zxvnap0szyt", [162]);
  ("haqq1ms6lns7jclf8zde3am7qpxs9gc5ss07nqgkjaj", [34]);
  ("haqq1mwy2pmdmva5yt5cynfh5e8m723gjy8fc48rrmj", [67]);
  ("haqq1ndfgfwh8k6253gensplefp3nmkk8dd64rld0l0", [50]);
  ("haqq1nhj7dffdyut62vkdrs7e20s3fqsgzlx6ly52yl", [9]);
  ("haqq1p0n5n8g2htnclrfynlney5fuanxkgg509vhwnc", [109]);
  ("haqq1p2m77hnjeyrjn75rjrxmymls0z8x5en6kwtwxs", [164]);
  ("haqq1p8k6xk94u24vv9dmxu3vkgg43fs3v72g05dun6", [23]);
  ("haqq1phrkjzpfdwt0pfu2h34ul3dzw4a4l86qlgsm0v", [131]);
  ("haqq1pqteeuxf8t9vfptqwjv8qk43q48qny758lpmdl", [73; 96]);
  ("haqq1pz0xg5ejepdy7h7lr28jpade4gn6ye3lfgr0fg", [137; 140]);
  ("haqq1q0hcvgfvphfx4falj4v2vtyv69fp9amz0tjs9r", [111]);
  ("haqq1qqlvdwv36ex6fue0u9lh9plzt9nhr542pt5u0d", [78]);
  ("haqq1r75haftq93xnf2654xym9u8wwp6vxvn552xlqa", [158]);
  ("haqq1r9y580lw6gkf3qx3srrw2gtgmvth4mkm8vqe70", [146]);
  ("haqq1rrza5u89np7dz30aqm9tz7lh5vrmwfuflk7h97", [92]);
  ("haqq1rwkesqkx42j6ngnxqz0wk8ctr77duwynzexxh4", [125; 126]);
  ("haqq1sgkt4ktme24pungmvdx8aqpatut33fghksc830", [56]);
  ("haqq1sudrde65khwj9m3n437hqsdsglmf8zt5yetgg5", [71]);
  ("haqq1t0gqj43sd3auxka79h40mw3u8uq6k0fhpkyv9l", [20]);
  ("haqq1t80rnldwswp3pdeymza9x0ju3tduwfqmukdl3x", [24]);
  ("haqq1t9kjgy2uawyz8ayyspgacccul7qw4wxq7nq5aj", [10]);
  ("haqq1tg0vjrhumfaj0rvq8k849v85rcdy8m0204d854", [42]);
  ("haqq1tgffqpkcahd4pfmjfk46yxe80whf3882zv8qaq", [39]);
  ("haqq1u32kdvz3t2ef7l894z8jyp64l8pme9kqxers3p", [69]);
  ("haqq1u96w5hahu5ehyf6f9sszv5hvdy8w8d9hp0rumz", [110]);
  ("haqq1udglxy84ns5nuwfa7tgmdjfjlph30mrrszj93y", [77]);
  ("haqq1v2qeeuy64ft03rjyj27vvyjfaxsegfxam9gjnu", [156]);
  ("haqq1v85jdqct6hlk3e67n6arkdzl3r2rz9ug7drptr", [32]);
  ("haqq1vc74rl68tvvpmtad583zexzvt9a3turq50r23p", [33]);
  ("haqq1vf7sm9f8g9fl2yawvraupjxeplka6l6jxfvkqk", [54]);
  ("haqq1vk6pw8yqkrha6k4vf7ccmnmxqg9geqje79jtux", [51]);
  ("haqq1wclryhevxuwzt08fgf3ahkl449um59cgdud8mf", [55]);
  ("haqq1wh3wrj3z9a5ngacv49rqa3zw6e7er2gh4slhmf", [18]);
  ("haqq1wj2jf4n86p5y38u8djuasqh0vzft84f8jvymje", [132]);
  ("haqq1wqqxamh9vn33gakxwwjtp90nvwwrrkxvnh2kyc", [161]);
  ("haqq1wwnpmzzvs25prs3r6kfajupd6usy5gufqsyr75", [11]);
  ("haqq1wwpeqyek2v5yzz9qduv3dfp5zcw6fdfuww86kf", [154]);
  ("haqq1wx8g7x4xq7w4xnvenzzxdkttmwtp3h0r35q5yj", [21; 25]);
  ("haqq1xfukn8mn3hzzyvyml54l7zhyv87k86hyuc7dpl", [144]);
  ("haqq1xnkjh0n4rlpzsgnc5ugdx3577jqdk42rrudtj8", [41; 43; 76; 151]);
  ("haqq1xwx40gug5urcsvk2wzl4rfrtxrphgq9e2gux9y", [68; 88]);
  ("haqq1y7eu3n928f3taquctfluh9t3ergc6gst5890sd", [155]);
  ("haqq1ydpxfzen98270ag53tzzscm22j40zrn0djqakg", [128; 129]);
  ("haqq1ylj36axpu99p9aanetr4c9ltfhd97yymtywry4", [101; 102]);
  ("haqq1ynlv4pneetsjdsp4qzecafw9swr6ukasueprrd", [149]);
  ("haqq1yskmsxyyk6kta097zgnhgrz422nyszaqyy5t7y", [127]);
  ("haqq1zk77lved6lczv207nnlk42r8q449p0r5s8m2xu", [53]);
  ("haqq1zp2hep5w80jjm9tnpuk7aqxmg0qhl88xkjmjdl", [133])
]%Z.
