(* ===== verification/EthiqCurve.v ===== *)
(** * The price curve of x/ethiq: keeper/calculate.go, types/prices.go

    [CalculateHaqqAmount] walks the price levels and sums what each level mints.
    [minted] is the specification: every level sells the part of the interval
    of burnt coins that lies in it, rounded down.  The walk computes it, splitting
    a burn never gains and loses at most one unit, and the table of prices.json is
    contiguous. *)

From Stdlib Require Import Ascii.
From S2P Require Import Prelude.
From S2P Require Import EthiqData.

Local Open Scope Z_scope.

(** ** Library code: sdkmath *)

(** The value of a decimal string. *)
Definition decimal (s : string) : option Z :=
  match s with EmptyString => None | _ => parse_digits 0 s end.

(** The digits before and after the point. *)
Fixpoint split_point (s : string) : string * string :=
  match s with
  | EmptyString => (EmptyString, EmptyString)
  | String "."%char rest => (EmptyString, rest)
  | String c rest => let '(a, b) := split_point rest in (String c a, b)
  end.

(** The value, times 10^18, of a decimal string with at most 18 decimals. *)
Definition dec_value (s : string) : option Z :=
  let '(a, b) := split_point s in
  if (String.length b <=? 18)%nat then
    x ← decimal (a +:+ b); Some (x * 10 ^ (18 - Z.of_nat (String.length b)))
  else None.

Class CurveOps := {
  (** [sdkmath.NewIntFromString] *)
  NewIntFromString : string -> option Z;
  (** [sdkmath.LegacyNewDecFromStr], as the value times 10^18 *)
  LegacyNewDecFromStr : string -> option Z;
  (** [LegacyNewDecFromInt(x).Quo(p).TruncateInt()] *)
  QuoTruncate : Z -> Z -> Z
}.

(** Decimal strings have their values; a quotient is rounded to 18 decimals and
    exact when it has no more. *)
Class CurveLaws `{CurveOps} : Prop := {
  new_int_digits s n : decimal s = Some n -> n < 2 ^ 256 -> NewIntFromString s = Some n;
  new_dec_digits s r : dec_value s = Some r -> r < 2 ^ 256 -> LegacyNewDecFromStr s = Some r;
  quo_truncate x p : 0 <= x -> 0 < p -> exists q,
    Z.abs (q * p - x * 10 ^ 36) <= p /\ ((p | x * 10 ^ 36) -> q * p = x * 10 ^ 36) /\
    QuoTruncate x p = q / 10 ^ 18
}.

(** ** Operations *)

Section operations.
Context `{CurveOps}.

Definition FromAmount (pl : PriceLevel) : res Z :=
  match NewIntFromString (From pl) with Some x => Ok x | None => Panic end.

Definition ToAmount (pl : PriceLevel) : res Z :=
  match NewIntFromString (To pl) with Some x => Ok x | None => Panic end.

Definition UnitPrice (pl : PriceLevel) : res Z :=
  match LegacyNewDecFromStr (Price pl) with Some x => Ok x | None => Panic end.

(** The loop over the levels, which leaves the amount not burnt and the sum. *)
Fixpoint calculate_loop (levels : list PriceLevel)
    (currentIslmTotalBurned restAmountToBeBurned totalHaqqToBeMinted : Z) : res (Z * Z) :=
  match levels with
  | [] => Ok (restAmountToBeBurned, totalHaqqToBeMinted)
  | pl :: more =>
      if restAmountToBeBurned =? 0 then Ok (restAmountToBeBurned, totalHaqqToBeMinted) else
      levelMaxAmount ← ToAmount pl;
      levelMinAmount ← FromAmount pl;
      if levelMaxAmount - 1 <=? currentIslmTotalBurned then
        calculate_loop more currentIslmTotalBurned restAmountToBeBurned totalHaqqToBeMinted
      else if negb ((levelMinAmount - 1 <=? currentIslmTotalBurned)
                    && (currentIslmTotalBurned <? levelMaxAmount)) then Err ErrCalculationFailed
      else
        unitPrice ← UnitPrice pl;
        let restAmountForThisLevel := levelMaxAmount - currentIslmTotalBurned - 1 in
        let burnOnThisLevel :=
          if restAmountToBeBurned <? restAmountForThisLevel then restAmountToBeBurned
          else restAmountForThisLevel in
        if unitPrice =? 0 then Panic else
        calculate_loop more (currentIslmTotalBurned + burnOnThisLevel)
          (restAmountToBeBurned - burnOnThisLevel)
          (totalHaqqToBeMinted + QuoTruncate burnOnThisLevel unitPrice)
  end.

Definition calculate (levels : list PriceLevel) (currentIslmTotalBurned restAmountToBeBurned : Z)
    : res Z :=
  '(rest, total) ← calculate_loop levels currentIslmTotalBurned restAmountToBeBurned 0;
  if 0 <? rest then Err ErrExceedsPricingCurve else Ok total.

Definition CalculateHaqqAmount : Z -> Z -> res Z := calculate Prices.
End operations.

(** ** Specification *)

(** A level ends at [hi] (exclusive) and asks [price] ten-thousandths for a unit. *)
Record Level := mkLvl { hi : Z; price : Z }.

(** The part of the interval from [x] to [y] between [lo] and [up]. *)
Definition overlap (lo up x y : Z) : Z := Z.max 0 (Z.min y up - Z.max x lo).

(** What the levels above [lo] mint for the coins burnt between [x] and [y]. *)
Fixpoint minted (lo : Z) (levels : list Level) (x y : Z) : Z :=
  match levels with
  | [] => 0
  | l :: more => overlap lo (hi l) x y * 10 ^ 4 / price l + minted (hi l) more x y
  end.

Fixpoint curve_end (lo : Z) (levels : list Level) : Z :=
  match levels with [] => lo | l :: more => curve_end (hi l) more end.

(** Ascending levels with positive prices. *)
Fixpoint ascending (lo : Z) (levels : list Level) : Prop :=
  match levels with
  | [] => True
  | l :: more => lo < hi l /\ 0 < price l < 10 ^ 10 /\ ascending (hi l) more
  end.

(** The levels a table stands for: contiguous from [start] on.  The walk moves to the
    next level one unit before the written bound. *)
Fixpoint decodes (start : Z) (table : list PriceLevel) (levels : list Level) : Prop :=
  match table, levels with
  | [], [] => True
  | pl :: table, l :: levels =>
      decimal (From pl) = Some start /\ start < 2 ^ 256 /\
      decimal (To pl) = Some (hi l + 1) /\ hi l + 1 < 2 ^ 256 /\
      dec_value (Price pl) = Some (price l * 10 ^ 14) /\ price l * 10 ^ 14 < 2 ^ 256 /\
      decodes (hi l + 1) table levels
  | _, _ => False
  end.

(** ** Arithmetic of the levels *)

Lemma div_superadd a b p : 0 < p -> a / p + b / p <= (a + b) / p <= a / p + b / p + 1.
Proof.
  intros Hp. pose proof (Z.div_mod a p). pose proof (Z.div_mod b p). pose proof (Z.div_mod (a + b) p).
  pose proof (Z.mod_pos_bound a p). pose proof (Z.mod_pos_bound b p).
  pose proof (Z.mod_pos_bound (a + b) p). nia.
Qed.

Lemma overlap_split lo up x y z : x <= y <= z ->
  overlap lo up x z = overlap lo up x y + overlap lo up y z.
Proof. unfold overlap. lia. Qed.

Lemma overlap_nonneg lo up x y : 0 <= overlap lo up x y.
Proof. unfold overlap. lia. Qed.

Lemma curve_end_above lo levels : ascending lo levels -> lo <= curve_end lo levels.
Proof.
  revert lo. induction levels as [|l levels IH]; intros lo A; simpl; [lia|].
  destruct A as (L & _ & A). specialize (IH _ A). lia.
Qed.

Lemma minted_nonneg lo levels x y : ascending lo levels -> 0 <= minted lo levels x y.
Proof.
  revert lo. induction levels as [|l levels IH]; intros lo A; simpl; [lia|].
  destruct A as (_ & P & A). specialize (IH (hi l) A).
  assert (0 <= overlap lo (hi l) x y * 10 ^ 4 / price l); [|lia].
  apply Z.div_pos; [pose proof (overlap_nonneg lo (hi l) x y); lia|lia].
Qed.

(** Nothing is minted below the levels. *)
Lemma minted_below lo levels x y : ascending lo levels -> y <= lo -> minted lo levels x y = 0.
Proof.
  revert lo. induction levels as [|l levels IH]; intros lo A Hy; simpl; [done|].
  destruct A as (L & P & A). rewrite IH by (done || lia).
  assert (overlap lo (hi l) x y = 0) as -> by (unfold overlap; lia).
  rewrite Z.mul_0_l, Z.div_0_l; lia.
Qed.

Lemma minted_empty lo levels x : ascending lo levels -> minted lo levels x x = 0.
Proof.
  revert lo. induction levels as [|l levels IH]; intros lo A; simpl; [done|].
  destruct A as (L & P & A). rewrite IH by done.
  assert (overlap lo (hi l) x x = 0) as -> by (unfold overlap; lia).
  rewrite Z.mul_0_l, Z.div_0_l; lia.
Qed.

(** Below the levels it does not matter where the interval begins. *)
Lemma minted_from lo levels x x' y : ascending lo levels -> x <= lo -> x' <= lo ->
  minted lo levels x y = minted lo levels x' y.
Proof.
  revert lo. induction levels as [|l levels IH]; intros lo A Hx Hx'; simpl; [done|].
  destruct A as (L & P & A). rewrite (IH (hi l)) by (done || lia).
  assert (overlap lo (hi l) x y = overlap lo (hi l) x' y) as -> by (unfold overlap; lia). done.
Qed.

(** Splitting an interval loses at most one unit, in the level of the cut. *)
Lemma minted_split lo levels x y z : ascending lo levels -> x <= y <= z ->
  minted lo levels x y + minted lo levels y z <= minted lo levels x z
  <= minted lo levels x y + minted lo levels y z + 1.
Proof.
  revert lo. induction levels as [|l levels IH]; intros lo A Hxyz; simpl; [lia|].
  destruct A as (L & P & A). rewrite (overlap_split lo (hi l) x y z Hxyz), Z.mul_add_distr_r.
  pose proof (div_superadd (overlap lo (hi l) x y * 10 ^ 4) (overlap lo (hi l) y z * 10 ^ 4)
    (price l) ltac:(lia)) as D.
  specialize (IH (hi l) A Hxyz). destruct (Z.le_gt_cases y (hi l)) as [Hy|Hy].
  - (* the cut is not above this level: later levels are cut nowhere *)
    rewrite (minted_below (hi l) levels x y A Hy) in *.
    rewrite (minted_from (hi l) levels x y z A) by lia. lia.
  - (* the cut is above this level *)
    assert (overlap lo (hi l) y z = 0) as E by (unfold overlap; lia). rewrite E in *.
    rewrite Z.mul_0_l, Z.add_0_r in *. rewrite Z.div_0_l in * by lia. lia.
Qed.

(** A price of at least [p] everywhere bounds what is minted. *)
Lemma minted_value lo levels x y p : ascending lo levels -> 0 <= p -> x <= y ->
  Forall (fun l => p <= price l) levels ->
  minted lo levels x y * p <= 10 ^ 4 * Z.max 0 (y - Z.max x lo).
Proof.
  intros A Hp Hxy F. revert lo A. induction F as [|l levels Pl _ IH]; intros lo A; simpl; [lia|].
  destruct A as (L & P & A). specialize (IH (hi l) A).
  pose proof (overlap_nonneg lo (hi l) x y) as O.
  assert (D : overlap lo (hi l) x y * 10 ^ 4 / price l * p <= overlap lo (hi l) x y * 10 ^ 4).
  { pose proof (Z.mul_div_le (overlap lo (hi l) x y * 10 ^ 4) (price l)).
    pose proof (Z.div_pos (overlap lo (hi l) x y * 10 ^ 4) (price l)). nia. }
  assert (overlap lo (hi l) x y + Z.max 0 (y - Z.max x (hi l)) <= Z.max 0 (y - Z.max x lo))
    by (unfold overlap; lia).
  lia.
Qed.

(** ** The walk computes the specification *)

Section walk.
Context `{CurveLaws}.

(** With prices of four decimals the rounding of [Quo] does not show. *)
Lemma quo_exact x p : 0 <= x -> 0 < p < 10 ^ 10 ->
  QuoTruncate x (p * 10 ^ 14) = x * 10 ^ 4 / p.
Proof.
  intros Hx Hp. destruct (quo_truncate x (p * 10 ^ 14)) as (q & Hq & Hd & ->); [lia|lia|].
  pose proof (Z.div_mod (x * 10 ^ 4) p ltac:(lia)) as Dm.
  pose proof (Z.mod_pos_bound (x * 10 ^ 4) p ltac:(lia)) as Bm.
  set (n := x * 10 ^ 4 / p) in *. set (r := (x * 10 ^ 4) mod p) in *.
  assert (Ex : x * 10 ^ 36 = (p * n + r) * 10 ^ 32) by (rewrite <- Dm; lia).
  symmetry. apply (Z.div_unique q (10 ^ 18) n (q - 10 ^ 18 * n)); [left|lia].
  destruct (Z.eq_dec r 0) as [R0|R0].
  - assert (q * (p * 10 ^ 14) = x * 10 ^ 36) as Eq.
    { apply Hd. exists (n * 10 ^ 18). rewrite Ex, R0. lia. }
    rewrite Ex, R0 in Eq. assert (q = n * 10 ^ 18) by nia. lia.
  - rewrite Ex in Hq. nia.
Qed.

Lemma calculate_loop_spec start table levels cur rest tot :
  decodes start table levels -> ascending (start - 1) levels ->
  start - 1 <= cur -> 0 <= rest ->
  calculate_loop table cur rest tot
  = Ok (Z.max 0 (Z.min rest (cur + rest - curve_end (start - 1) levels)),
        tot + minted (start - 1) levels cur (cur + rest)).
Proof.
  revert start levels cur rest tot.
  induction table as [|pl table IH]; intros start [|l levels] cur rest tot D A Hc Hr; try done.
  { simpl. f_equal. f_equal; lia. }
  cbn [calculate_loop]. destruct D as (Ef & Lf & Et & Lt & Ep & Lp & D).
  destruct A as (L & P & A). cbn [minted curve_end].
  pose proof (curve_end_above _ _ A) as He.
  destruct (Z.eqb_spec rest 0) as [->|Nr].
  { rewrite Z.add_0_r, minted_empty by done.
    assert (overlap (start - 1) (hi l) cur cur = 0) as -> by (unfold overlap; lia).
    rewrite Z.mul_0_l, Z.div_0_l by lia. f_equal. f_equal; lia. }
  unfold ToAmount, FromAmount, UnitPrice.
  rewrite (new_int_digits _ _ Et Lt), (new_int_digits _ _ Ef Lf), (new_dec_digits _ _ Ep Lp).
  cbn [mbind res_bind].
  assert (Ehi : hi l + 1 - 1 = hi l) by lia. rewrite Ehi.
  specialize (IH (hi l + 1) levels). rewrite Ehi in IH.
  destruct (Z.leb_spec (hi l) cur) as [Hcur|Hcur].
  { rewrite (IH cur rest tot D A Hcur Hr).
    assert (overlap (start - 1) (hi l) cur (cur + rest) = 0) as -> by (unfold overlap; lia).
    by rewrite Z.mul_0_l, Z.div_0_l, Z.add_0_l by lia. }
  destruct (Z.leb_spec (start - 1) cur); [|lia].
  destruct (Z.ltb_spec cur (hi l + 1)); [|lia]. cbn [negb andb].
  destruct (Z.eqb_spec (price l * 10 ^ 14) 0); [lia|].
  set (room := hi l + 1 - cur - 1). set (burn := if rest <? room then rest else room).
  assert (Hb : burn = Z.min rest (hi l - cur)) by (subst burn room; zcases; lia).
  assert (Eo : overlap (start - 1) (hi l) cur (cur + rest) = burn) by (unfold overlap; lia).
  rewrite Eo, quo_exact by lia. destruct (Z.le_gt_cases rest (hi l - cur)) as [Hle|Hgt].
  - (* the burn ends in this level *)
    assert (burn = rest) as -> by lia. rewrite Z.sub_diag.
    assert (Hstop : forall c t, calculate_loop table c 0 t = Ok (0, t)) by (by destruct table).
    rewrite Hstop, (minted_below (hi l)) by (done || lia). f_equal. f_equal; lia.
  - assert (burn = hi l - cur) as Eb by lia. rewrite Eb.
    replace (cur + (hi l - cur)) with (hi l) by lia.
    rewrite IH by (done || lia). replace (hi l + (rest - (hi l - cur))) with (cur + rest) by lia.
    f_equal. f_equal; [lia|].
    replace (minted (hi l) levels (hi l) (cur + rest)) with (minted (hi l) levels cur (cur + rest)); [lia|].
    by apply minted_from; [|lia..].
Qed.

Lemma walk_from lo table levels cur rest tot :
  decodes (lo + 1) table levels -> ascending lo levels -> lo <= cur -> 0 <= rest ->
  calculate_loop table cur rest tot
  = Ok (Z.max 0 (Z.min rest (cur + rest - curve_end lo levels)),
        tot + minted lo levels cur (cur + rest)).
Proof.
  intros D A Hc Hr. assert (E : lo = lo + 1 - 1) by lia. rewrite E in A. rewrite E at 1 2.
  by apply calculate_loop_spec; [..|lia|].
Qed.
End walk.

(** ** The table of prices.json *)

Definition level_of (pl : PriceLevel) : option Level :=
  h ← decimal (To pl); p ← dec_value (Price pl); Some (mkLvl (h - 1) (p / 10 ^ 14)).

Definition price_levels : list Level := omap level_of Prices.

Lemma prices_decode : decodes (-1 + 1) Prices price_levels.
Proof. vm_compute. repeat split. Qed.

Lemma prices_ascending : ascending (-1) price_levels.
Proof. vm_compute. repeat split. Qed.

(** The cheapest level asks three aISLM for one aHAQQ. *)
Lemma prices_at_least : Forall (fun l => 3 * 10 ^ 4 <= price l) price_levels.
Proof. apply (bool_decide_unpack _). vm_compute. exact I. Qed.

Lemma prices_nonempty : price_levels <> [].
Proof. by vm_compute. Qed.

(** The aHAQQ for the aISLM burnt between [x] and [y], and the end of the curve. *)
Definition haqq_for (x y : Z) : Z := minted (-1) price_levels x y.
Definition curve_capacity : Z := curve_end (-1) price_levels.

Lemma haqq_for_split x y z : x <= y <= z ->
  haqq_for x y + haqq_for y z <= haqq_for x z <= haqq_for x y + haqq_for y z + 1.
Proof. apply minted_split, prices_ascending. Qed.

Lemma haqq_for_nonneg x y : 0 <= haqq_for x y.
Proof. apply minted_nonneg, prices_ascending. Qed.

Lemma haqq_for_empty x : haqq_for x x = 0.
Proof. apply minted_empty, prices_ascending. Qed.

(** No more than one aHAQQ for three aISLM. *)
Lemma haqq_for_value x y : 0 <= x <= y -> 3 * haqq_for x y <= y - x.
Proof.
  intros Hxy. pose proof (minted_value (-1) price_levels x y (3 * 10 ^ 4) prices_ascending
    ltac:(lia) ltac:(lia) prices_at_least) as V.
  unfold haqq_for. revert V. generalize (minted (-1) price_levels x y). intros h V. lia.
Qed.

(** The whole curve sells less than the maximal supply of 10^26. *)
Lemma curve_total : haqq_for 0 curve_capacity < 10 ^ 26.
Proof. by vm_compute. Qed.

#[local] Opaque price_levels haqq_for curve_capacity Prices.

Section curve.
Context `{CurveLaws}.

Lemma calculate_haqq cur x : 0 <= cur -> 0 <= x ->
  CalculateHaqqAmount cur x
  = if (x =? 0) || (cur + x <=? curve_capacity) then Ok (haqq_for cur (cur + x))
    else Err ErrExceedsPricingCurve.
Proof.
  intros Hc Hx. unfold CalculateHaqqAmount, calculate.
  assert (E : calculate_loop Prices cur x 0
    = Ok (Z.max 0 (Z.min x (cur + x - curve_capacity)), 0 + haqq_for cur (cur + x)))
    by exact (walk_from (-1) Prices price_levels cur x 0 prices_decode prices_ascending
      ltac:(lia) Hx).
  rewrite E. clear E. rewrite Z.add_0_l. generalize curve_capacity as cap, (haqq_for cur (cur + x)) as h.
  intros cap h. cbn [mbind res_bind].
  destruct (Z.ltb_spec 0 (Z.max 0 (Z.min x (cur + x - cap)))), (Z.eqb_spec x 0),
    (Z.leb_spec (cur + x) cap); cbn [orb]; (reflexivity || lia).
Qed.

Lemma calculate_ok cur x n : 0 <= cur -> 0 <= x ->
  CalculateHaqqAmount cur x = Ok n <->
  n = haqq_for cur (cur + x) /\ (x = 0 \/ cur + x <= curve_capacity).
Proof.
  intros Hc Hx. rewrite calculate_haqq by lia.
  generalize curve_capacity as cap, (haqq_for cur (cur + x)) as h. intros cap h.
  destruct (Z.eqb_spec x 0), (Z.leb_spec (cur + x) cap); cbn [orb];
    (split; [intros [=]|intros [-> ?]]); (reflexivity || lia || split; lia).
Qed.

(** C25: The walk over the price levels computes the curve: starting anywhere on the
    curve, a burn mints for each level the part of the burn that falls into it,
    rounded down, and fails exactly when it reaches beyond the last level. *)
Theorem CalculateHaqqAmount_refines_curve cur x : 0 <= cur -> 0 < x ->
  CalculateHaqqAmount cur x
  = if cur + x <=? curve_capacity then Ok (haqq_for cur (cur + x))
    else Err ErrExceedsPricingCurve.
Proof.
  intros Hc Hx. rewrite calculate_haqq by lia. destruct (Z.eqb_spec x 0); [lia|]. reflexivity.
Qed.

(** Burning in two steps is never better than in one, and at most one aHAQQ
    unit worse; and no burn gets more than one aHAQQ for three aISLM. *)
Theorem splitting_never_gains cur x y n : 0 <= cur -> 0 <= x -> 0 <= y ->
  CalculateHaqqAmount cur (x + y) = Ok n ->
  3 * n <= x + y /\
  exists a b, CalculateHaqqAmount cur x = Ok a /\ CalculateHaqqAmount (cur + x) y = Ok b /\
    a + b <= n <= a + b + 1.
Proof.
  intros Hc Hx Hy E. apply calculate_ok in E as [-> Hcap]; [|lia..]. rewrite Z.add_assoc in *.
  split; [pose proof (haqq_for_value cur (cur + x + y)); lia|].
  exists (haqq_for cur (cur + x)), (haqq_for (cur + x) (cur + x + y)).
  split; [apply calculate_ok; [lia..|]; split; [reflexivity|lia]|].
  split; [apply calculate_ok; [lia..|]; split; [reflexivity|lia]|].
  apply haqq_for_split. lia.
Qed.
End curve.

(** ** Concrete runs *)

Section examples.

(** [Quo] as the library computes it, without its rounding. *)
#[local] Instance RefCurve : CurveOps := {
  NewIntFromString := decimal;
  LegacyNewDecFromStr := dec_value;
  QuoTruncate x p := x * 10 ^ 36 / p / 10 ^ 18
}.

Lemma RefCurveLaws : CurveLaws.
Proof.
  constructor; [done|done|]. intros x p Hx Hp. exists (x * 10 ^ 36 / p). split_and!; [| |done].
  - pose proof (Z.div_mod (x * 10 ^ 36) p). pose proof (Z.mod_pos_bound (x * 10 ^ 36) p). lia.
  - intros [k Ek]. rewrite Ek, Z.div_mul; lia.
Qed.

#[local] Existing Instance RefCurveLaws.

Definition ex_cur : Z := 39999990 * 10 ^ 18.
Definition ex_burn : Z := 100 * 10 ^ 18.

(** A burn across the border of the first two levels: ten aISLM at 3, ninety at 4. *)
Lemma CalculateHaqqAmount_refines_curve_witness :
  CalculateHaqqAmount ex_cur ex_burn = Ok 25833333333333333333.
Proof.
  rewrite (CalculateHaqqAmount_refines_curve ex_cur ex_burn) by (vm_compute; congruence).
  by vm_compute.
Defined.

Lemma splitting_never_gains_witness :
  exists a b, CalculateHaqqAmount ex_cur 10 = Ok a /\ CalculateHaqqAmount (ex_cur + 10) (ex_burn - 10) = Ok b /\
    a + b <= 25833333333333333333 <= a + b + 1.
Proof.
  destruct (splitting_never_gains ex_cur 10 (ex_burn - 10) 25833333333333333333)
    as [_ R]; [vm_compute; congruence..|by vm_compute|exact R].
Defined.
End examples.
