(* ===== verification/Ethiq.v ===== *)
(** * x/ethiq: keeper/burn.go, keeper/calculate.go, keeper/vesting.go,
    keeper/store.go, keeper/params.go, keeper/keeper.go, keeper/msg_server.go,
    types/application.go, types/waitlist_utils.go, types/params.go, types/msg.go,
    types/authz.go, types/genesis.go, genesis.go

    aISLM is burnt and aHAQQ minted along the price curve of [EthiqCurve].  The start of
    the curve is reserved for the registered applications, each at a place of its
    own; other burns continue behind them. *)

From Stdlib Require Import Ascii.
From S2P Require Import Prelude.
From S2P Require Import Sdk.
From S2P Require Import Schedule.
From S2P Require Import ClawbackAccount.
From S2P Require Import Keepers.
From S2P Require Import VestingMsg.
From S2P Require Import LiquidSchedule.
From S2P Require Import TokenPair.
From S2P Require Import LiquidVesting.
From S2P Require Import Ucdao.
From S2P Require Import EthiqData.
From S2P Require Import EthiqCurve.

Local Open Scope Z_scope.

(** ** Data *)

Record Params := mkParams {
  Enabled : bool;
  MinMintPerTx : Z;
  MaxMintPerTx : Z;
  MaxSupply : Z
}.

(** The module's store: parameters, the two counters of burnt aISLM and the keys of
    the executed applications. *)
Record EthiqState := mkEthiq {
  es_params : Params;
  es_burned : option coin;
  es_burned_apps : option coin;
  es_executed : gset string
}.

Record BurnApplication := mkApplication {
  app_Id : Z;
  app_FromAddress : string;
  app_ToAddress : string;
  Source : SourceOfFunds;
  BurnAmount : coin;
  BurnedBeforeAmount : coin;
  IsExecuted : bool;
  IsCanceled : bool
}.

Record MsgMintHaqq := mkMsgMint {
  mm_FromAddress : string; mm_ToAddress : string; mm_IslmAmount : Z
}.
Record MsgMintHaqqByApplication := mkMsgMintApp { mp_FromAddress : string; mp_ApplicationId : Z }.

Record GenesisState := mkGenesis {
  gs_Params : Params; gs_TotalBurnedAmount : coin; gs_ExecutedApplications : list Z
}.

Definition ModuleName : string := "ethiq".

(** types/params.go *)

Definition DefaultParams : Params := mkParams true 1 (10 ^ 26) (10 ^ 26).

Definition Params_Validate (p : Params) : res unit :=
  if MaxMintPerTx p <=? MinMintPerTx p then
    Err (ErrText "min_mint_per_tx must be less than max_mint_per_tx")
  else if MaxSupply p <=? MinMintPerTx p then
    Err (ErrText "min_mint_per_tx must be less than max_supply")
  else if MaxSupply p <? MaxMintPerTx p then
    Err (ErrText "max_mint_per_tx must be less or equal to max_supply")
  else Ok tt.

(** types/metadata.go *)
Definition HaqqDenomMetaData : Metadata :=
  mkMetadata "HAQQ is an ecosystem token of Ethiq Network (L2)" [(haqq, 0); ("HAQQ", 18)]
    haqq "HAQQ" "HAQQ token" "HAQQ".

(** ** Keys of executed applications (keeper/store.go) *)

(** [big.Int.Bytes] of a [uint64]: big-endian without leading zeros. *)
Fixpoint big_endian (fuel : nat) (n : Z) (acc : string) : string :=
  match fuel with
  | O => acc
  | S fuel =>
      if n =? 0 then acc
      else big_endian fuel (n / 256) (String (ascii_of_N (Z.to_N (n mod 256))) acc)
  end.

Definition executedApplicationStoreKey (appID : Z) : string :=
  match big_endian 8 appID EmptyString with
  | EmptyString => String zero EmptyString
  | key => key
  end.

(** [big.Int.SetBytes] followed by [Uint64]. *)
Fixpoint from_bytes (acc : Z) (key : string) : Z :=
  match key with
  | EmptyString => acc
  | String c rest => from_bytes (acc * 256 + Z.of_N (N_of_ascii c)) rest
  end.

Definition key_id (key : string) : Z := wrap_u64 (from_bytes 0 key).

(** ** Applications (types/application.go, types/waitlist_utils.go) *)

Section applications.
Context `{SdkOps, EthOps, DaoOps, CurveOps}.

Definition ethiq_address (s : string) : res unit :=
  match AccAddressFromBech32 s with Some _ => Ok tt | None => Err ErrEthiqAddress end.

Definition Application_ValidateBasic (ba : BurnApplication) : res unit :=
  _ ← ethiq_address (app_FromAddress ba);
  _ ← ethiq_address (app_ToAddress ba);
  if bool_decide (Source ba <> SOURCE_OF_FUNDS_BANK) && bool_decide (Source ba <> SOURCE_OF_FUNDS_UCDAO)
  then Err ErrInvalidFundsSource
  else if negb (CoinValidate (BurnAmount ba)) then Err ErrInvalidAmount
  else if bool_decide (Denom (BurnAmount ba) <> islm) then Err ErrInvalidAmount
  else if negb (CoinValidate (BurnedBeforeAmount ba)) then Err ErrInvalidAmount
  else if bool_decide (Denom (BurnedBeforeAmount ba) <> islm) then Err ErrInvalidAmount
  else Ok tt.

Definition AsBurnApplication (a : ApplicationListItem) : res BurnApplication :=
  match NewIntFromString (IslmAmount a) with
  | None => Err (ErrText "invalid islm_amount")
  | Some islmAmount =>
      match NewIntFromString (IslmAccumulatedBurntAmount a) with
      | None => Err (ErrText "invalid islm_accumulated_burnt_amount")
      | Some islmAccumulatedBurntAmount =>
          burn ← NewCoin islm islmAmount;
          before ← NewCoin islm islmAccumulatedBurntAmount;
          let ba := mkApplication (ID a) (item_FromAddress a) (item_ToAddress a) (FundSource a)
                      burn before false (islmAmount =? 0) in
          _ ← Application_ValidateBasic ba;
          Ok ba
      end
  end.

Definition TotalNumberOfApplications : Z := Z.of_nat (length registeredApplications).

Definition IsApplicationExists (appID : Z) : bool := appID <? TotalNumberOfApplications.

(** The lookup in the map [registeredApplicationsBySender]. *)
Fixpoint lookup_sender (sender : string) (m : list (string * list Z)) : option (list Z) :=
  match m with
  | [] => None
  | (s, ids) :: rest => if bool_decide (s = sender) then Some ids else lookup_sender sender rest
  end.

Definition TotalNumberOfApplicationsBySender (sender : string) : Z :=
  match lookup_sender sender registeredApplicationsBySender with
  | None => 0
  | Some apps => Z.of_nat (length apps)
  end.

Definition GetLastApplication : res ApplicationListItem :=
  match list.last registeredApplications with Some a => Ok a | None => Panic end.

Definition GetApplicationByID (appID : Z) : res BurnApplication :=
  if negb (IsApplicationExists appID) then Err ErrInvalidApplicationID else
  match registeredApplications !! Z.to_nat appID with
  | Some appItem => AsBurnApplication appItem
  | None => Panic
  end.

Definition GetSendersApplicationIDByIndex (sender : string) (i : Z) : res BurnApplication :=
  match lookup_sender sender registeredApplicationsBySender with
  | None => Err ErrInvalidApplicationID
  | Some apps =>
      match apps !! Z.to_nat i with
      | None => Err ErrInvalidApplicationID
      | Some id => GetApplicationByID id
      end
  end.

Definition GetSumOfAllApplications : res Z :=
  lastApplication ← GetLastApplication;
  burnApplication ← AsBurnApplication lastApplication;
  sum ← CoinAdd (BurnAmount burnApplication) (BurnedBeforeAmount burnApplication);
  Ok (Amount sum).
End applications.

(** ** Interfaces of the other modules (types/expected_keepers.go) *)

Class EthiqErc20 (W : Type) := {
  IsDenomRegistered : string -> W -> bool;
  SetToken : TokenPair -> W -> W;
  RegisterERC20CodeHash : string -> M W unit;
  (** [pair.Validate() == nil] *)
  PairValid : TokenPair -> bool
}.

Class UcdaoKeeper (W : Type) := {
  uk_TrackAddBalance : coin -> M W unit;
  uk_TrackSubBalance : coin -> M W unit
}.

(** ** The keeper *)

Section keeper.
Context {W : Type} `{SdkOps, EthOps, DaoOps, CurveOps, IbcOps, AddrCheck}.
Context `{Ctx W, AccountKeeper W, BankKeeper W, ModuleBank W, BalanceKeeper W, SupplyKeeper W}.
Context `{Erc20Keeper W, EthiqErc20 W, LiquidVestingKeeper W, UcdaoKeeper W, Lens W EthiqState}.

(** keeper/params.go *)

Definition GetParams (w : W) : Params := es_params (view w).

Definition SetParams (p : Params) (w : W) : W :=
  let s := view w in update (mkEthiq p (es_burned s) (es_burned_apps s) (es_executed s)) w.

Definition IsModuleEnabled (w : W) : bool := Enabled (GetParams w).
Definition GetMaxSupply (w : W) : Z := MaxSupply (GetParams w).

(** keeper/store.go *)

Definition GetTotalBurnedAmount (w : W) : coin := default (mkCoin islm 0) (es_burned (view w)).

Definition SetTotalBurnedAmount (c : coin) : M W unit :=
  if bool_decide (Denom c <> islm) then mlift Panic else
  mmodify (fun w => let s := view w in
    update (mkEthiq (es_params s) (Some c) (es_burned_apps s) (es_executed s)) w).

Definition AddToTotalBurnedAmount (amount : Z) : M W unit :=
  current ← mgets GetTotalBurnedAmount;
  c ← mlift (NewCoin islm (Amount current + amount));
  SetTotalBurnedAmount c.

Definition GetTotalBurnedFromApplicationsAmount (w : W) : coin :=
  default (mkCoin islm 0) (es_burned_apps (view w)).

Definition SetTotalBurnedFromApplicationsAmount (c : coin) : M W unit :=
  if bool_decide (Denom c <> islm) then mlift Panic else
  mmodify (fun w => let s := view w in
    update (mkEthiq (es_params s) (es_burned s) (Some c) (es_executed s)) w).

Definition AddToTotalBurnedFromApplicationsAmount (amount : Z) : M W unit :=
  current ← mgets GetTotalBurnedFromApplicationsAmount;
  c ← mlift (NewCoin islm (Amount current + amount));
  SetTotalBurnedFromApplicationsAmount c.

Definition IsApplicationExecuted (appID : Z) (w : W) : bool :=
  bool_decide (executedApplicationStoreKey appID ∈ es_executed (view w)).

Definition set_executed (x : gset string) (w : W) : W :=
  let s := view w in update (mkEthiq (es_params s) (es_burned s) (es_burned_apps s) x) w.

Definition SetApplicationAsExecuted (appID : Z) (w : W) : W :=
  set_executed (es_executed (view w) ∪ {[executedApplicationStoreKey appID]}) w.

Definition ResetApplicationByID (appID : Z) (w : W) : W :=
  set_executed (es_executed (view w) ∖ {[executedApplicationStoreKey appID]}) w.

(** The store iterates in the order of its keys. *)
Definition GetAllExecutedApplicationsIDs (w : W) : list Z :=
  map key_id (merge_sort String.le (elements (es_executed (view w)))).

(** keeper/keeper.go *)

Definition GetHaqqSupply (w : W) : Z := GetSupply haqq w.

Definition BaseDenomBankBalance (addr : string) (w : W) : Z := AmountOf (GetAllBalances addr w) islm.

(** The metadata's own [Validate] is the SDK's and succeeds on the constant. *)
Definition EnsureHaqqMetadata : M W unit :=
  found ← mgets (HasDenomMetaData haqq);
  if found : bool then mret tt else mmodify (SetDenomMetaData HaqqDenomMetaData).

Definition EnsureHaqqERC20Registration : M W unit :=
  registered ← mgets (IsDenomRegistered haqq);
  if registered : bool then mret tt else
  let moduleAddr := GetModuleAddress (W:=W) ModuleName in
  let hash := Keccak256 (moduleAddr +:+ haqq) in
  let erc20Address := BytesToAddress (String.substring 0 20 hash) in
  let pair := NewTokenPair erc20Address haqq OWNER_MODULE in
  if negb (PairValid (W:=W) pair) then mraise (ErrExternal "token pair") else
  _ ← mmodify (SetToken pair);
  _ ← EnableDynamicPrecompiles [erc20Address];
  RegisterERC20CodeHash erc20Address.

(** keeper/calculate.go *)

Definition CalculateHaqqCoinsToMint (islmAmountToBurn : Z) (w : W) : res Z :=
  if negb (IsModuleEnabled w) then Err ErrEthiqDisabled else
  if islmAmountToBurn <=? 0 then Err ErrInvalidAmount else
  sumOfAllApplications ← match GetSumOfAllApplications with
                         | Err _ => Err ErrCalculationFailed
                         | r => r
                         end;
  sum ← NewCoin islm sumOfAllApplications;
  total ← CoinAdd (GetTotalBurnedAmount w) sum;
  islmTotalBurnedBefore ← CoinSub total (GetTotalBurnedFromApplicationsAmount w);
  CalculateHaqqAmount (Amount islmTotalBurnedBefore) islmAmountToBurn.

(** keeper/vesting.go *)

Fixpoint redeem_all_loop (fromAddress : string) (isUcdao : bool) (balances : list coin) : M W Z :=
  match balances with
  | [] => mret 0
  | balance :: rest =>
      if negb (IsLiquidToken (Denom balance)) then redeem_all_loop fromAddress isUcdao rest else
      _ ← lvk_Redeem fromAddress fromAddress balance;
      _ ← (if isUcdao then
             redeemed ← mlift (NewCoin islm (Amount balance));
             _ ← uk_TrackAddBalance redeemed;
             uk_TrackSubBalance balance
           else mret tt);
      redeemedAmount ← redeem_all_loop fromAddress isUcdao rest;
      mret (Amount balance + redeemedAmount)
  end.

Definition redeemAllLiquidVestingCoins (fromAddress : string) (isUcdao : bool) : M W Z :=
  balances ← mgets (GetAllBalances fromAddress);
  redeem_all_loop fromAddress isUcdao balances.

(** The schedules after [unlockCoins] are taken out. *)
Definition unlock_schedules (now : Z) (unlockCoins : coin) (va : ClawbackVestingAccount)
    : res ClawbackVestingAccount :=
  let upcomingPeriods :=
    ExtractUpcomingPeriods (GetStartTime va) (GetEndTime va) (LockupPeriods va) now in
  '(decreasedPeriods, _) ← match SubtractAmountFromPeriods upcomingPeriods unlockCoins with
                           | Err _ => Err ErrUnlockCoins | r => r end;
  '(decreasedVestingPeriods, _) ← match SubtractAmountFromPeriods (VestingPeriods va) unlockCoins with
                                  | Err _ => Err ErrUnlockCoins | r => r end;
  ov ← coins_sub (OV va) [unlockCoins];
  Ok (set_schedule (StartTime va) (acc_end va) ov
        (ReplacePeriodsTail (LockupPeriods va) decreasedPeriods)
        (ReplacePeriodsTail (VestingPeriods va) decreasedVestingPeriods) va).

Definition unlockVestingCoins (fromAddress : string) (amt : coin) : M W coin :=
  zeroCoin ← mlift (NewCoin islm 0);
  fromAcc ← mgets (GetAccount fromAddress);
  match fromAcc with
  | None => mraise ErrNotFound
  | Some (ClawbackAcc va) =>
      now ← mgets BlockTime;
      vestingCoins ← mlift (GetVestingCoins va now);
      if negb (IsZero vestingCoins) then mret zeroCoin else
      lockedUp ← mlift (GetLockedUpCoins va now);
      match Find lockedUp (Denom amt) with
      | None => mret zeroCoin
      | Some lockedBalance =>
          short ← mlift (IsLT lockedBalance amt);
          let unlockCoins := if short : bool then lockedBalance else amt in
          va' ← mlift (unlock_schedules now unlockCoins va);
          _ ← mmodify (SetAccount (ClawbackAcc va'));
          mret unlockCoins
      end
  | Some _ => mret zeroCoin
  end.

(** keeper/burn.go *)

Definition validateAmountToBeMinted (amt : Z) (w : W) : res unit :=
  let params := GetParams w in
  if amt <? MinMintPerTx params then Err ErrInvalidAmount else
  if MaxMintPerTx params <? amt then Err ErrInvalidAmount else
  if amt <? 1 then Err ErrInvalidAmount else Ok tt.

Definition burnCoins (from : string) (amt : Z) (isApplication : bool) : M W unit :=
  islmCoin ← mlift (NewCoin islm amt);
  coins ← mlift (NewCoins [islmCoin]);
  _ ← SendCoinsFromAccountToModule from ModuleName coins;
  _ ← BurnCoins ModuleName coins;
  _ ← AddToTotalBurnedAmount amt;
  if isApplication then AddToTotalBurnedFromApplicationsAmount amt else mret tt.

Definition mintCoins (to : string) (amt : Z) : M W unit :=
  haqqCoin ← mlift (NewCoin haqq amt);
  coins ← mlift (NewCoins [haqqCoin]);
  _ ← MintCoins ModuleName coins;
  SendCoinsFromModuleToAccount ModuleName to coins.

(** The checks of the amount both burns share. *)
Definition check_supply (haqqAmount : Z) (w : W) : res unit :=
  _ ← validateAmountToBeMinted haqqAmount w;
  let haqqSupplyBefore := GetHaqqSupply w in
  let haqqSupplyAfter := haqqSupplyBefore + haqqAmount in
  if GetMaxSupply w <? haqqSupplyAfter then Err ErrExceedsMaxSupply else Ok tt.

Definition mread {A} (f : W -> res A) : M W A := fun w => (f w, w).

Definition BurnIslmForHaqq (islmAmount : Z) (fromAddress toAddress : string) : M W Z :=
  enabled ← mgets IsModuleEnabled;
  if negb enabled then mraise ErrEthiqDisabled else
  if bool_decide (fromAddress = EmptyString) then mraise ErrEthiqAddress else
  if bool_decide (toAddress = EmptyString) then mraise ErrEthiqAddress else
  if islmAmount <=? 0 then mraise ErrInvalidAmount else
  haqqAmount ← mread (CalculateHaqqCoinsToMint islmAmount);
  _ ← mread (check_supply haqqAmount);
  _ ← redeemAllLiquidVestingCoins fromAddress false;
  burnt ← mlift (NewCoin islm islmAmount);
  _ ← unlockVestingCoins fromAddress burnt;
  _ ← burnCoins fromAddress islmAmount false;
  _ ← mintCoins toAddress haqqAmount;
  mret haqqAmount.

Definition BurnIslmForHaqqByApplicationID (fromAddress : string) (appID : Z) : M W (Z * string) :=
  enabled ← mgets IsModuleEnabled;
  if negb enabled then mraise ErrEthiqDisabled else
  application ← mlift (match GetApplicationByID appID with
                       | Err _ => Err ErrInvalidApplicationID
                       | r => r
                       end);
  executed ← mgets (IsApplicationExecuted (app_Id application));
  if executed : bool then mraise ErrInvalidApplicationID else
  if IsCanceled application then mraise ErrInvalidApplicationID else
  let isUcdao := bool_decide (Source application = SOURCE_OF_FUNDS_UCDAO) in
  applicationFromAddress ← mlift (must_addr (app_FromAddress application));
  toAddress ← mlift (must_addr (app_ToAddress application));
  let islmCoinsToBurn := BurnAmount application in
  let islmPreBurntByApplications := BurnedBeforeAmount application in
  if bool_decide (applicationFromAddress <> fromAddress) then mraise ErrEthiqAddress else
  let fromAddress := if isUcdao then GetEscrowAddress fromAddress else fromAddress in
  haqqAmount ← mlift (CalculateHaqqAmount (Amount islmPreBurntByApplications) (Amount islmCoinsToBurn));
  _ ← mread (check_supply haqqAmount);
  _ ← redeemAllLiquidVestingCoins fromAddress isUcdao;
  vestingIslmUsed ← unlockVestingCoins fromAddress islmCoinsToBurn;
  _ ← mlift (CoinSub islmCoinsToBurn vestingIslmUsed);
  _ ← mwrap ErrBurnCoins (burnCoins fromAddress (Amount islmCoinsToBurn) true);
  _ ← mwrap ErrMintCoins (mintCoins toAddress haqqAmount);
  _ ← mmodify (SetApplicationAsExecuted appID);
  mret (haqqAmount, toAddress).

(** types/msg.go, keeper/msg_server.go *)

Definition ValidateBasic_Mint (msg : MsgMintHaqq) : res unit :=
  _ ← ethiq_address (mm_ToAddress msg);
  _ ← ethiq_address (mm_FromAddress msg);
  if mm_IslmAmount msg <=? 0 then Err ErrInvalidAmount else Ok tt.

Definition ValidateBasic_MintApp (msg : MsgMintHaqqByApplication) : res unit :=
  ethiq_address (mp_FromAddress msg).

Definition MintHaqq (msg : MsgMintHaqq) : M W Z :=
  enabled ← mgets IsModuleEnabled;
  if negb enabled then mraise ErrEthiqDisabled else
  _ ← mlift (ValidateBasic_Mint msg);
  toAddress ← mlift (must_addr (mm_ToAddress msg));
  fromAddress ← mlift (must_addr (mm_FromAddress msg));
  BurnIslmForHaqq (mm_IslmAmount msg) fromAddress toAddress.

Definition MintHaqqByApplication (msg : MsgMintHaqqByApplication) : M W (Z * string) :=
  enabled ← mgets IsModuleEnabled;
  if negb enabled then mraise ErrEthiqDisabled else
  _ ← mlift (ValidateBasic_MintApp msg);
  fromAddress ← mlift (must_addr (mp_FromAddress msg));
  BurnIslmForHaqqByApplicationID fromAddress (mp_ApplicationId msg).

(** types/genesis.go, genesis.go *)

Definition GenesisState_Validate (gs : GenesisState) : res unit :=
  _ ← Params_Validate (gs_Params gs);
  if bool_decide (Denom (gs_TotalBurnedAmount gs) <> islm) then Err ErrInvalidAmount else
  if forallb IsApplicationExists (gs_ExecutedApplications gs) then Ok tt
  else Err ErrInvalidApplicationID.

Fixpoint init_apps (ids : list Z) : M W unit :=
  match ids with
  | [] => mret tt
  | appID :: rest =>
      if negb (IsApplicationExists appID) then mlift Panic else
      application ← mlift (match GetApplicationByID appID with Err _ => Panic | r => r end);
      _ ← mmodify (SetApplicationAsExecuted appID);
      _ ← AddToTotalBurnedFromApplicationsAmount (Amount (BurnAmount application));
      init_apps rest
  end.

(** [panic(err)] *)
Definition must {A} (m : M W A) : M W A := fun w =>
  match m w with (Err _, w') => (Panic, w') | r => r end.

Definition InitGenesis (genState : GenesisState) : M W unit :=
  _ ← mmodify (SetParams (gs_Params genState));
  _ ← (if Amount (gs_TotalBurnedAmount genState) =? 0 then mret tt
       else SetTotalBurnedAmount (gs_TotalBurnedAmount genState));
  _ ← init_apps (gs_ExecutedApplications genState);
  _ ← must EnsureHaqqMetadata;
  must EnsureHaqqERC20Registration.

Definition ExportGenesis (w : W) : GenesisState :=
  mkGenesis (GetParams w) (GetTotalBurnedAmount w) (GetAllExecutedApplicationsIDs w).
End keeper.
