(* ===== verification/EthiqTheory.v ===== *)
(** * The ledger of x/ethiq

    [ethiq_ok]: the counters of burnt aISLM are those of the executed applications and
    the other burns, and the supply of aHAQQ is at most what the curve mints for
    the places that were burnt.  Every message preserves it, so no place of the
    curve is sold twice. *)

From Stdlib Require Import Ascii.
From S2P Require Import Prelude.
From S2P Require Import Sdk.
From S2P Require Import Schedule.
From S2P Require Import ClawbackAccount.
From S2P Require Import Keepers.
From S2P Require Import VestingMsg.
From S2P Require Import VestingKeeper.
From S2P Require Import LiquidSchedule.
From S2P Require Import TokenPair.
From S2P Require Import LiquidVesting.
From S2P Require Import Ucdao.
From S2P Require Import EthiqData.
From S2P Require Import EthiqCurve.
From S2P Require Import Ethiq.

Local Open Scope Z_scope.

(** ** Sums *)

Lemma sum_over_le {A} (f g : A -> Z) l : (forall a, a ∈ l -> f a <= g a) ->
  sum_over f l <= sum_over g l.
Proof.
  induction l as [|a l IH]; intros P; simpl; [lia|].
  pose proof (P a (list_elem_of_here _ _)).
  pose proof (IH (fun b Hb => P b (list_elem_of_further _ _ _ Hb))). lia.
Qed.

Lemma sum_over_zero {A} (l : list A) : sum_over (fun _ => 0) l = 0.
Proof. induction l; simpl; lia. Qed.

Lemma sum_over_nonneg {A} (f : A -> Z) l : (forall a, a ∈ l -> 0 <= f a) -> 0 <= sum_over f l.
Proof. intros P. rewrite <- (sum_over_zero l). by apply sum_over_le. Qed.

(** Changing the summand at one place. *)
Lemma sum_over_place {A} (f g : A -> Z) l i a : l !! i = Some a ->
  (forall j b, l !! j = Some b -> j <> i -> g b = f b) ->
  sum_over g l = sum_over f l + (g a - f a).
Proof.
  revert i. induction l as [|b l IH]; intros i Hi P; [done|]. simpl. destruct i as [|i].
  - injection Hi as ->. rewrite (sum_over_ext g f l); [lia|].
    intros c [j Hj]%list_elem_of_lookup. by apply (P (S j)).
  - rewrite (IH i Hi), (P 0%nat b) by (done || (intros j c Hj Nj; apply (P (S j)); [done|congruence])).
    lia.
Qed.

(** ** Keys *)

Lemma from_big_endian fuel n acc : 0 <= n < 256 ^ Z.of_nat fuel ->
  from_bytes 0 (big_endian fuel n acc) = from_bytes n acc.
Proof.
  revert n acc. induction fuel as [|fuel IH]; intros n acc Hn.
  { change (256 ^ Z.of_nat 0) with 1 in Hn. by replace n with 0 by lia. }
  cbn [big_endian]. destruct (Z.eqb_spec n 0) as [->|N]; [done|].
  rewrite Nat2Z.inj_succ, Z.pow_succ_r in Hn by lia.
  rewrite IH.
  - cbn [from_bytes]. rewrite N_ascii_embedding.
    + f_equal. rewrite Z2N.id by (apply Z.mod_pos_bound; lia). pose proof (Z.div_mod n 256). lia.
    + pose proof (Z.mod_pos_bound n 256). lia.
  - split; [apply Z.div_pos; lia|]. apply Z.div_lt_upper_bound; lia.
Qed.

(** The key of an application gives its id back. *)
Lemma key_id_roundtrip id : 0 <= id < 2 ^ 64 -> key_id (executedApplicationStoreKey id) = id.
Proof.
  intros Hid. unfold key_id, executedApplicationStoreKey.
  pose proof (from_big_endian 8 id EmptyString ltac:(simpl; lia)) as E. cbn [from_bytes] in E.
  destruct (big_endian 8 id EmptyString) as [|c s].
  - cbn [from_bytes] in E. subst id. done.
  - rewrite E. by apply wrap_u64_id.
Qed.

Lemma key_inj i j : 0 <= i < 2 ^ 64 -> 0 <= j < 2 ^ 64 ->
  executedApplicationStoreKey i = executedApplicationStoreKey j -> i = j.
Proof. intros Hi Hj E. rewrite <- (key_id_roundtrip i), <- (key_id_roundtrip j), E by done. done. Qed.

(** ** The registered applications *)

Definition item_burn (a : ApplicationListItem) : Z := default 0 (decimal (IslmAmount a)).
Definition item_before (a : ApplicationListItem) : Z :=
  default 0 (decimal (IslmAccumulatedBurntAmount a)).

(** Ids count from [id], amounts are numbers, and every application begins where the
    ones before it end. *)
Fixpoint contiguous (id acc : Z) (items : list ApplicationListItem) : bool :=
  match items with
  | [] => true
  | a :: rest =>
      (ID a =? id) && bool_decide (decimal (IslmAmount a) = Some (item_burn a))
      && bool_decide (decimal (IslmAccumulatedBurntAmount a) = Some acc)
      && (0 <=? item_burn a) && (acc <? 2 ^ 255) && (item_burn a <? 2 ^ 255)
      && contiguous (id + 1) (acc + item_burn a) rest
  end.

Lemma contiguous_lookup id acc items i a : contiguous id acc items = true -> items !! i = Some a ->
  ID a = id + Z.of_nat i /\ decimal (IslmAmount a) = Some (item_burn a) /\
  decimal (IslmAccumulatedBurntAmount a) = Some (item_before a) /\
  item_before a = acc + sum_over item_burn (take i items) /\
  0 <= item_burn a < 2 ^ 255 /\ item_before a < 2 ^ 255.
Proof.
  revert id acc i. induction items as [|b items IH]; intros id acc i C Hi; [done|].
  cbn [contiguous] in C. rewrite !andb_true_iff, !bool_decide_eq_true, Z.eqb_eq, Z.leb_le, !Z.ltb_lt in C.
  destruct C as ((((((Ei & Eb) & Ea) & Pb) & La) & Lb) & C). destruct i as [|i].
  - injection Hi as <-. unfold item_before at 1 2 3. rewrite Ea. simpl. split_and!; (done || lia).
  - destruct (IH _ _ i C Hi) as (? & ? & ? & E & ?). simpl. split_and!; (done || lia).
Qed.

Lemma registered_contiguous : contiguous 0 0 registeredApplications = true.
Proof. by vm_compute. Qed.

Lemma items_nonneg i a : registeredApplications !! i = Some a -> 0 <= item_burn a /\ 0 <= item_before a.
Proof.
  intros Ha. destruct (contiguous_lookup _ _ _ _ _ registered_contiguous Ha) as (_ & _ & _ & E & [P _] & _).
  split; [done|]. rewrite E, Z.add_0_l. apply sum_over_nonneg.
  intros b [j [Hj _]%lookup_take_Some]%list_elem_of_lookup.
  by destruct (contiguous_lookup _ _ _ _ _ registered_contiguous Hj) as (_ & _ & _ & _ & [Q _] & _).
Qed.

(** The aISLM of all applications. *)
Definition sum_apps : Z := sum_over item_burn registeredApplications.

Lemma last_item : exists a, list.last registeredApplications = Some a /\
  decimal (IslmAmount a) = Some (item_burn a) /\
  decimal (IslmAccumulatedBurntAmount a) = Some (item_before a) /\
  0 <= item_burn a < 2 ^ 255 /\ item_before a < 2 ^ 255 /\ item_burn a + item_before a = sum_apps.
Proof.
  destruct (list.last registeredApplications) as [a|] eqn:E; [|by vm_compute in E].
  exists a. split; [done|]. vm_compute in E. injection E as <-. by vm_compute.
Qed.

(** What the curve mints for an application, at its place. *)
Definition item_haqq (a : ApplicationListItem) : Z :=
  haqq_for (item_before a) (item_before a + item_burn a).

Lemma item_haqq_eq a : item_haqq a = haqq_for (item_before a) (item_before a + item_burn a).
Proof. reflexivity. Qed.

Lemma items_below_sum : sum_over item_haqq registeredApplications <= haqq_for 0 sum_apps.
Proof. by vm_compute. Qed.

Lemma few_applications : Z.of_nat (length registeredApplications) < 2 ^ 64.
Proof. by vm_compute. Qed.

Lemma sum_apps_in_curve : 0 <= sum_apps <= curve_capacity.
Proof. by vm_compute. Qed.

#[local] Opaque registeredApplications sum_apps item_haqq CalculateHaqqAmount price_levels haqq_for curve_capacity Prices.

(** ** What the module relies on *)

(** The keepers keep the invariant [I] of the chain state, which covers the accounts,
    and do not write the module's store. *)
Class EthiqWorld (W : Type) (I : W -> Prop) `{SdkOps}
    `{AccountKeeper W, ModuleBank W, SupplyKeeper W, LiquidVestingKeeper W, UcdaoKeeper W}
    `{Lens W EthiqState} : Prop := {
  update_supply (s : EthiqState) d w : GetSupply d (update s w) = GetSupply d w;
  inv_accounts (w : W) : I w -> accounts_ok w;
  inv_set_account va (w : W) : I w -> acc_ok va -> I (SetAccount (ClawbackAcc va) w);
  inv_update (s : EthiqState) w : I w -> I (update s w);
  inv_mint m cs (w w' : W) : I w -> operand cs -> MintCoins m cs w = (Ok tt, w') -> I w';
  inv_burn m cs (w w' : W) : I w -> operand cs -> BurnCoins m cs w = (Ok tt, w') -> I w';
  inv_to_module a m cs (w w' : W) : I w -> operand cs ->
    SendCoinsFromAccountToModule a m cs w = (Ok tt, w') -> I w';
  inv_from_module m a cs (w w' : W) : I w -> operand cs ->
    SendCoinsFromModuleToAccount m a cs w = (Ok tt, w') -> I w';
  redeem_frame a b c (w w' : W) : I w -> 0 < Amount c -> IsLiquidToken (Denom c) = true ->
    lvk_Redeem a b c w = (Ok tt, w') ->
    I w' /\ view w' = view w /\ GetSupply haqq w' = GetSupply haqq w;
  track_frame c (w w' : W) : I w ->
    uk_TrackAddBalance c w = (Ok tt, w') \/ uk_TrackSubBalance c w = (Ok tt, w') ->
    I w' /\ view w' = view w /\ GetSupply haqq w' = GetSupply haqq w
}.

Section ledger.
Context {W : Type} {I : W -> Prop} `{SdkLaws} `{EthOps} `{!DaoOps} `{!DaoLaws} `{CurveLaws}.
Context `{IbcOps} `{AddrCheck}.
Context `{Ctx W, AccountKeeper W, BankKeeper W, DistributionKeeper W, ModuleBank W}.
Context `{BalanceKeeper W, SupplyKeeper W, Erc20Keeper W, EthiqErc20 W}.
Context `{LiquidVestingKeeper W, UcdaoKeeper W, Lens W EthiqState}.
Context `{!KeeperLaws W} `{!ModuleBankLaws W} `{!SupplyLaws W} `{!ModuleState W EthiqState} `{!BalanceLaws W}.
Context `{!EthiqWorld W I}.
Implicit Types w : W.

(** Nothing of the module's books and of the supply changes. *)
Definition kept w w' : Prop :=
  I w' /\ view (S:=EthiqState) w' = view w /\ GetSupply haqq w' = GetSupply haqq w.

Lemma kept_refl w : I w -> kept w w.
Proof. done. Qed.

Lemma kept_trans w1 w2 w3 : kept w1 w2 -> kept w2 w3 -> kept w1 w3.
Proof. intros (? & V1 & S1) (? & V2 & S2). split_and!; [done|congruence|congruence]. Qed.

Lemma kept_inv w w' : kept w w' -> I w'.
Proof. by intros [? _]. Qed.

Lemma redeem_all_loop_ok a u bs w w' n : I w -> Forall (fun c => 0 < Amount c) bs ->
  redeem_all_loop a u bs w = (Ok n, w') -> kept w w'.
Proof.
  intros Hi F. revert w n Hi. induction F as [|c bs Pc _ IH]; intros w n Hi E; cbn [redeem_all_loop] in E.
  { apply mret_ok in E as [_ ->]. by apply kept_refl. }
  destruct (IsLiquidToken (Denom c)) eqn:Lc; cbn [negb] in E; [|by eapply IH].
  apply M_bind_ok in E as ([] & w1 & E1 & E). apply redeem_frame in E1 as K1; [|done..].
  apply M_bind_ok in E as (v & w2 & E2 & E). apply M_bind_ok in E as (m & w3 & E3 & E).
  apply mret_ok in E as [_ ->].
  assert (K2 : kept w1 w2).
  { destruct u; [|apply mret_ok in E2 as [_ ->]; by apply kept_refl, (kept_inv w)].
    apply M_bind_ok in E2 as (r & w4 & E4 & E2). apply mlift_ok in E4 as [_ ->].
    apply M_bind_ok in E2 as ([] & w4 & E4 & E2). destruct v.
    assert (K4 : kept w1 w4) by (eapply track_frame; [by apply (kept_inv w)|by left]).
    apply (kept_trans _ w4); [done|]. eapply track_frame; [by apply (kept_inv w1)|by right]. }
  assert (K : kept w w2) by by eapply kept_trans.
  eapply kept_trans; [exact K|]. eapply IH; [by eapply kept_inv|done].
Qed.

Lemma redeem_all_ok a u w w' n : I w -> redeemAllLiquidVestingCoins a u w = (Ok n, w') -> kept w w'.
Proof.
  intros Hi E. unfold redeemAllLiquidVestingCoins in E. apply M_bind_ok in E as (bs & w1 & E1 & E).
  apply mgets_ok in E1 as [-> ->]. destruct (all_balances_spec a w) as [[_ P] _].
  by eapply redeem_all_loop_ok.
Qed.

(** Unlocking is the schedule change of a liquidation. *)
Lemma unlock_is_liquidation now c va va' diff :
  liquidate_schedules now c va = Ok (va', diff) -> unlock_schedules now c va = Ok va'.
Proof.
  unfold liquidate_schedules, unlock_schedules. intros E.
  apply res_bind_ok in E as ([dec df] & E1 & E). rewrite E1. cbn [mbind res_bind].
  apply res_bind_ok in E as (ov & E2 & E). apply res_bind_ok in E as ([vdec vdf] & E3 & E).
  rewrite E3. cbn [mbind res_bind]. rewrite E2. cbn [mbind res_bind]. by injection E as <- <-.
Qed.

(** The account [a] after at most [x] of its locked aISLM were unlocked. *)
Definition unlocked (a : string) (x : Z) (u : coin) w w' : Prop :=
  w' = w /\ Amount u = 0 \/
  exists va va' lq, GetAccount a w = Some (ClawbackAcc va) /\ 0 < Amount u <= x /\
    liquidated (BlockTime w) u va va' lq /\ w' = SetAccount (ClawbackAcc va') w.

Lemma unlock_ok a x w w' u : I w -> 0 < x -> ValidDenom islm = true ->
  unlockVestingCoins a (mkCoin islm x) w = (Ok u, w') ->
  Denom u = islm /\ 0 <= Amount u <= x /\ unlocked a x u w w' /\ kept w w' /\
  forall b d, GetBalance b d w' = GetBalance b d w.
Proof.
  intros Hi Hx Hd E. unfold unlockVestingCoins in E.
  apply M_bind_ok in E as (z & w1 & Ez & E). apply mlift_ok in Ez as [Ez ->].
  apply new_coin_inv in Ez as (-> & _ & _).
  apply M_bind_ok in E as (acc & w1 & E1 & E). apply mgets_ok in E1 as [Ea ->].
  assert (Hz : forall w1, mret (M:=M W) (mkCoin islm 0) w = (Ok u, w1) ->
    Denom u = islm /\ 0 <= Amount u <= x /\ unlocked a x u w w1 /\ kept w w1 /\
    forall b d, GetBalance b d w1 = GetBalance b d w).
  { intros w1 [-> ->]%mret_ok. simpl. split_and!; [done|lia|lia|by left|by apply kept_refl|done]. }
  destruct acc as [[b h|va|b]|]; [by apply Hz| |by apply Hz|done].
  apply M_bind_ok in E as (now & w1 & E1 & E). apply mgets_ok in E1 as [-> ->].
  apply M_bind_ok in E as (vc & w1 & Ev & E). apply mlift_ok in Ev as [Ev ->].
  destruct (IsZero vc) eqn:Zv; [|by apply Hz]. cbn [negb] in E.
  apply M_bind_ok in E as (lc & w1 & El & E). apply mlift_ok in El as [El ->].
  pose proof (inv_accounts w Hi _ _ (eq_sym Ea)) as Hva.
  destruct (vesting_coins_ok va (BlockTime w) Hva) as (v & Ev' & Vv & Av).
  destruct (locked_up_ok va (BlockTime w) Hva) as (l & El' & Vl & Al).
  assert (vc = v) as -> by congruence. assert (lc = l) as -> by congruence.
  rewrite (diff_zero (OV va) (GetVestedCoins va (BlockTime w)) v) in Zv
    by auto using ov_valid, vested_valid.
  apply bool_decide_eq_true in Zv.
  destruct (Find l (Denom (mkCoin islm x))) as [lb|] eqn:Ef; [|by apply Hz].
  cbn [Denom] in Ef. apply find_some in Ef as [-> Nz]; [|done].
  pose proof (valid_nonneg l islm Vl) as Pl.
  apply M_bind_ok in E as (short & w1 & Es & E). apply mlift_ok in Es as [Es ->].
  unfold IsLT in Es. cbn [Denom Amount] in Es. rewrite bool_decide_eq_true_2 in Es by done.
  injection Es as <-. set (c := if amt l islm <? x then mkCoin islm (amt l islm) else mkCoin islm x) in E.
  assert (Hc : c = mkCoin islm (Z.min (amt l islm) x)).
  { subst c. destruct (Z.ltb_spec (amt l islm) x); f_equal; lia. }
  clearbody c. subst c.
  destruct (liquidate_schedules_ok va (BlockTime w) islm (Z.min (amt l islm) x))
    as (va' & diff & Esch & _ & Hlq); auto; [lia|rewrite <- Al; lia|].
  apply unlock_is_liquidation in Esch. rewrite Esch in E.
  apply M_bind_ok in E as (v' & w1 & E1 & E). apply mlift_ok in E1 as [[= <-] ->].
  apply M_bind_ok in E as ([] & w1 & E1 & E). apply mmodify_ok in E1. subst w1.
  apply mret_ok in E as [-> ->]. cbn [Denom Amount].
  pose proof (lq_acc _ _ _ _ _ Hlq) as Hva'. split_and!; [done|lia|lia| | |].
  - right. exists va, va'. eexists. split_and!; [done|simpl; lia|simpl; lia|exact Hlq|done].
  - split_and!; [by apply inv_set_account|by rewrite set_account_view|apply account_supply].
  - intros. apply set_balance.
Qed.
(** ** Books *)

Definition burned w : Z := Amount (GetTotalBurnedAmount w).
Definition burned_apps w : Z := Amount (GetTotalBurnedFromApplicationsAmount w).

(** What was burnt outside the applications. *)
Definition public w : Z := burned w - burned_apps w.

Definition in_islm w : Prop :=
  Denom (GetTotalBurnedAmount w) = islm /\ Denom (GetTotalBurnedFromApplicationsAmount w) = islm.

Definition executed w : gset string := es_executed (view w).

(** The effect of a burn of [x] and the mint of [y] on the module. *)
Record booked (app : bool) (x y : Z) w w' : Prop := {
  bo_burned : burned w' = burned w + x;
  bo_apps : burned_apps w' = burned_apps w + (if app then x else 0);
  bo_supply : GetSupply haqq w' = GetSupply haqq w + y;
  bo_islm : in_islm w -> in_islm w';
  bo_executed : executed w' = executed w;
  bo_params : GetParams w' = GetParams w;
  bo_inv : I w'
}.

Lemma kept_booked w w' : kept w w' -> booked false 0 0 w w'.
Proof.
  intros (Hi & V & S). unfold kept in *.
  constructor; unfold burned, burned_apps, in_islm, executed, GetParams, GetTotalBurnedAmount,
    GetTotalBurnedFromApplicationsAmount; rewrite ?V; (done || lia).
Qed.

Lemma booked_trans a b x y x' y' w1 w2 w3 :
  booked a x y w1 w2 -> booked b x' y' w2 w3 -> a && b = false -> (a = true -> x' = 0) ->
  (b = true -> x = 0) -> booked (a || b) (x + x') (y + y') w1 w3.
Proof.
  intros [B1 A1 S1 D1 E1 P1 I1] [B2 A2 S2 D2 E2 P2 I2] Hab Ha Hb.
  constructor; [lia| |lia|auto|congruence|congruence|done].
  rewrite A2, A1. destruct a, b; simpl in *; try done; [rewrite Ha by done|rewrite Hb by done|]; lia.
Qed.

Lemma update_kept (s : EthiqState) w : I w ->
  I (update s w) /\ view (update s w) = s /\ forall d, GetSupply d (update s w) = GetSupply d w.
Proof. intros Hi. split_and!; [by apply inv_update|apply view_update|intros; apply update_supply]. Qed.

Lemma add_burned_ok x w w' : I w -> AddToTotalBurnedAmount x w = (Ok tt, w') ->
  booked false x 0 w w' /\ forall a d, GetBalance a d w' = GetBalance a d w.
Proof.
  intros Hi E. unfold AddToTotalBurnedAmount, SetTotalBurnedAmount in E.
  apply M_bind_ok in E as (cur & w1 & E1 & E). apply mgets_ok in E1 as [-> ->].
  apply M_bind_ok in E as (c & w1 & E1 & E). apply mlift_ok in E1 as [E1 ->].
  apply new_coin_inv in E1 as (-> & _ & _). rewrite bool_decide_eq_false_2 in E by naive_solver.
  apply mmodify_ok in E. subst w'.
  match goal with |- context [update ?s w] => destruct (update_kept s w Hi) as (I' & V & S) end.
  split; [|intros; apply update_balance].
  constructor; unfold burned, burned_apps, in_islm, executed, GetParams, GetTotalBurnedAmount,
    GetTotalBurnedFromApplicationsAmount in *; rewrite ?V, ?S; cbn; (done || lia || tauto).
Qed.

Lemma add_burned_apps_ok x w w' : I w -> AddToTotalBurnedFromApplicationsAmount x w = (Ok tt, w') ->
  I w' /\ burned w' = burned w /\ burned_apps w' = burned_apps w + x /\
  GetSupply haqq w' = GetSupply haqq w /\ (in_islm w -> in_islm w') /\ executed w' = executed w /\
  GetParams w' = GetParams w /\ forall a d, GetBalance a d w' = GetBalance a d w.
Proof.
  intros Hi E. unfold AddToTotalBurnedFromApplicationsAmount, SetTotalBurnedFromApplicationsAmount in E.
  apply M_bind_ok in E as (cur & w1 & E1 & E). apply mgets_ok in E1 as [-> ->].
  apply M_bind_ok in E as (c & w1 & E1 & E). apply mlift_ok in E1 as [E1 ->].
  apply new_coin_inv in E1 as (-> & _ & _). rewrite bool_decide_eq_false_2 in E by naive_solver.
  apply mmodify_ok in E. subst w'.
  match goal with |- context [update ?s w] => destruct (update_kept s w Hi) as (I' & V & S) end.
  unfold burned, burned_apps, in_islm, executed, GetParams, GetTotalBurnedAmount,
    GetTotalBurnedFromApplicationsAmount in *. rewrite ?V, ?S; cbn.
  split_and!; try (done || lia || tauto). intros. apply update_balance.
Qed.

Lemma burn_coins_ok from x app w w' : I w -> 0 < x -> burnCoins from x app w = (Ok tt, w') ->
  booked app x 0 w w' /\ ValidDenom islm = true /\
  forall a d, GetBalance a d w'
    = GetBalance a d w - (if decide (a = from) then amt [mkCoin islm x] d else 0).
Proof.
  intros Hi Hx E. unfold burnCoins in E.
  apply M_bind_ok in E as (c & w1 & E1 & E). apply mlift_ok in E1 as [E1 ->].
  apply new_coin_inv in E1 as (-> & _ & Hd).
  apply M_bind_ok in E as (cs & w1 & E1 & E). apply mlift_ok in E1 as [E1 ->].
  apply new_coins_pos in E1 as ->; [|done..].
  assert (O : operand [mkCoin islm x]) by (apply operand_single; lia).
  apply M_bind_ok in E as ([] & w1 & E1 & E). apply M_bind_ok in E as ([] & w2 & E2 & E).
  apply M_bind_ok in E as ([] & w3 & E3 & E).
  pose proof (inv_to_module _ _ _ _ _ Hi O E1) as I1. pose proof (inv_burn _ _ _ _ I1 O E2) as I2.
  pose proof (to_module_supply _ _ _ haqq _ _ _ E1) as S1.
  pose proof (burn_supply _ _ haqq _ _ O E2) as S2.
  pose proof (to_module_view (S:=EthiqState) _ _ _ _ _ _ E1) as V1.
  pose proof (burn_view (S:=EthiqState) _ _ _ _ _ E2) as V2.
  apply to_module_ok in E1 as [B1 _]; [|done]. apply burn_ok in E2 as [B2 _]; [|done].
  apply add_burned_ok in E3 as [K3 B3]; [|done].
  assert (K2 : kept w w2).
  { split_and!; [done|congruence|]. rewrite S2, S1, amt_single, decide_False by done. lia. }
  pose proof (booked_trans _ _ _ _ _ _ _ _ _ (kept_booked _ _ K2) K3 eq_refl
    ltac:(done) ltac:(done)) as K. cbn [orb] in K. rewrite Z.add_0_l in K.
  assert (B : forall a d, GetBalance a d w3
    = GetBalance a d w - (if decide (a = from) then amt [mkCoin islm x] d else 0)).
  { intros a d. rewrite B3, (B2 a d). cbv beta. rewrite (B1 a d). repeat case_decide; lia. }
  destruct app; [|apply mret_ok in E as [_ ->]; by split_and!].
  apply add_burned_apps_ok in E as (I4 & E1 & E2 & E4 & E5 & E6 & E7 & E8); [|apply K].
  destruct K as [K1 K2' K3' K4 K5 K6 K7]. split_and!; [|done|].
  - constructor; (lia || auto || congruence).
  - intros a d. by rewrite E8, B.
Qed.

Lemma mint_coins_ok to y w w' : I w -> 0 < y -> mintCoins to y w = (Ok tt, w') ->
  booked false 0 y w w' /\
  forall a d, GetBalance a d w'
    = GetBalance a d w + (if decide (a = to) then amt [mkCoin haqq y] d else 0).
Proof.
  intros Hi Hy E. unfold mintCoins in E.
  apply M_bind_ok in E as (c & w1 & E1 & E). apply mlift_ok in E1 as [E1 ->].
  apply new_coin_inv in E1 as (-> & _ & Hd).
  apply M_bind_ok in E as (cs & w1 & E1 & E). apply mlift_ok in E1 as [E1 ->].
  apply new_coins_pos in E1 as ->; [|done..].
  assert (O : operand [mkCoin haqq y]) by (apply operand_single; lia).
  apply M_bind_ok in E as ([] & w1 & E1 & E2).
  pose proof (inv_mint _ _ _ _ Hi O E1) as I1. pose proof (inv_from_module _ _ _ _ _ I1 O E2) as I2.
  pose proof (mint_supply _ _ haqq _ _ O E1) as S1.
  pose proof (from_module_supply _ _ _ haqq _ _ _ E2) as S2.
  pose proof (mint_view (S:=EthiqState) _ _ _ _ _ E1) as V1.
  pose proof (from_module_view (S:=EthiqState) _ _ _ _ _ _ E2) as V2.
  apply mint_ok in E1 as [B1 _]; [|done]. apply from_module_ok in E2 as [B2 _]; [|done].
  rewrite amt_single, decide_True in S1 by done. split.
  - constructor; unfold burned, burned_apps, in_islm, executed, GetParams, GetTotalBurnedAmount,
      GetTotalBurnedFromApplicationsAmount in *; rewrite ?V2, ?V1; (done || lia).
  - intros a d. rewrite (B2 a d). cbv beta. rewrite (B1 a d). repeat case_decide; lia.
Qed.
(** ** Runs *)

Lemma validate_ok y w : check_supply y w = Ok tt ->
  1 <= y /\ MinMintPerTx (GetParams w) <= y <= MaxMintPerTx (GetParams w) /\
  GetSupply haqq w + y <= MaxSupply (GetParams w).
Proof.
  unfold check_supply, validateAmountToBeMinted, GetMaxSupply, GetHaqqSupply. intros E.
  apply res_bind_ok in E as ([] & E1 & E). revert E1 E.
  destruct (Z.ltb_spec y (MinMintPerTx (GetParams w))); [done|].
  destruct (Z.ltb_spec (MaxMintPerTx (GetParams w)) y); [done|].
  destruct (Z.ltb_spec y 1); [done|]. intros _.
  destruct (Z.ltb_spec (MaxSupply (GetParams w)) (GetSupply haqq w + y)); [done|]. intros _. lia.
Qed.

(** The states of the other modules stay. *)
Definition frame w w' : Prop := forall (T : Type) (L : Lens W T),
  ModuleState W T -> Separate W EthiqState T -> view (S:=T) w' = view (S:=T) w.

Lemma burn_coins_frame from x app w w' : burnCoins from x app w = (Ok tt, w') -> frame w w'.
Proof.
  intros E T L MS Sep. unfold burnCoins in E.
  apply M_bind_ok in E as (c & w1 & E1 & E). apply mlift_ok in E1 as [_ ->].
  apply M_bind_ok in E as (cs & w1 & E1 & E). apply mlift_ok in E1 as [_ ->].
  apply M_bind_ok in E as ([] & w1 & E1 & E). apply M_bind_ok in E as ([] & w2 & E2 & E).
  apply M_bind_ok in E as ([] & w3 & E3 & E).
  apply (to_module_view (S:=T)) in E1. apply (burn_view (S:=T)) in E2.
  assert (F : forall c (f : EthiqState -> EthiqState) w w', 
    (if bool_decide (Denom c <> islm) then mlift Panic
     else mmodify (fun w => update (f (view w)) w)) w = (Ok tt, w') -> view (S:=T) w' = view w).
  { clear -Sep. intros c f w w'. destruct (bool_decide _); [done|]. intros ->%mmodify_ok. apply view_update_sep. }
  unfold AddToTotalBurnedAmount in E3. apply M_bind_ok in E3 as (c3 & w4 & E4 & E3).
  apply mgets_ok in E4 as [-> ->]. apply M_bind_ok in E3 as (c4 & w4 & E4 & E3).
  apply mlift_ok in E4 as [_ ->]. apply (F _ (fun s => mkEthiq (es_params s) (Some c4) (es_burned_apps s)
    (es_executed s))) in E3.
  destruct app; [|apply mret_ok in E as [_ ->]; congruence].
  unfold AddToTotalBurnedFromApplicationsAmount in E. apply M_bind_ok in E as (c5 & w4 & E4 & E).
  apply mgets_ok in E4 as [-> ->]. apply M_bind_ok in E as (c6 & w4 & E4 & E).
  apply mlift_ok in E4 as [_ ->]. apply (F _ (fun s => mkEthiq (es_params s) (es_burned s) (Some c6)
    (es_executed s))) in E. congruence.
Qed.

Lemma mint_coins_frame to y w w' : mintCoins to y w = (Ok tt, w') -> frame w w'.
Proof.
  intros E T L MS Sep. unfold mintCoins in E.
  apply M_bind_ok in E as (c & w1 & E1 & E). apply mlift_ok in E1 as [_ ->].
  apply M_bind_ok in E as (cs & w1 & E1 & E). apply mlift_ok in E1 as [_ ->].
  apply M_bind_ok in E as ([] & w1 & E1 & E2).
  apply (mint_view (S:=T)) in E1. apply (from_module_view (S:=T)) in E2. congruence.
Qed.

Lemma unlocked_frame a x u w w' : unlocked a x u w w' -> frame w w'.
Proof.
  intros [[-> _]|(va & va' & lq & _ & _ & _ & ->)] T L MS Sep; [done|]. apply set_account_view.
Qed.

(** [x] aISLM of [from] are exchanged for [y] aHAQQ of [to]: after its liquid tokens
    were redeemed and locked coins unlocked as far as needed. *)
Record exchanged (app dao : bool) (from to : string) (x y : Z) w w' : Prop := {
  ex_limits : 1 <= y /\ MinMintPerTx (GetParams w) <= y <= MaxMintPerTx (GetParams w) /\
    GetSupply haqq w + y <= MaxSupply (GetParams w);
  ex_booked : booked app x y w w';
  ex_balances : exists n u w1 w2, redeemAllLiquidVestingCoins from dao w = (Ok n, w1) /\
    unlocked from x u w1 w2 /\ frame w1 w' /\
    forall a d, GetBalance a d w'
      = GetBalance a d w1 - (if decide (a = from) then amt [mkCoin islm x] d else 0)
                          + (if decide (a = to) then amt [mkCoin haqq y] d else 0)
}.

Lemma exchange_ok app dao from to x y w n w1 u w2 w3 w4 : I w -> 0 < x -> ValidDenom islm = true ->
  check_supply y w = Ok tt -> redeemAllLiquidVestingCoins from dao w = (Ok n, w1) ->
  unlockVestingCoins from (mkCoin islm x) w1 = (Ok u, w2) -> burnCoins from x app w2 = (Ok tt, w3) ->
  mintCoins to y w3 = (Ok tt, w4) -> exchanged app dao from to x y w w4.
Proof.
  intros Hi Hx Hd Hy Er Eu Eb Em. apply validate_ok in Hy.
  pose proof (redeem_all_ok _ _ _ _ _ Hi Er) as K1.
  apply unlock_ok in Eu as (_ & _ & U & K2 & B2); [|by apply (kept_inv w)|done..].
  pose proof (burn_coins_frame _ _ _ _ _ Eb) as F3. pose proof (mint_coins_frame _ _ _ _ Em) as F4.
  apply burn_coins_ok in Eb as (K3 & _ & B3); [|by apply (kept_inv w1)|done].
  apply mint_coins_ok in Em as (K4 & B4); [|apply K3|lia].
  constructor; [done| |].
  - pose proof (booked_trans _ _ _ _ _ _ _ _ _ (kept_booked _ _ (kept_trans _ _ _ K1 K2)) K3 eq_refl
      ltac:(done) ltac:(done)) as K.
    pose proof (booked_trans _ _ _ _ _ _ _ _ _ K K4 (andb_false_r _) ltac:(done) ltac:(done)) as K'.
    by rewrite orb_false_r, orb_false_l, Z.add_0_r, !Z.add_0_l in K'.
  - exists n, u, w1, w2. split_and!; [done|done| |].
    + intros T L MS Sep. rewrite (F4 T L), (F3 T L) by done. by apply (unlocked_frame _ _ _ _ _ U).
    + intros a d. rewrite B4, B3, B2. lia.
Qed.

Lemma mread_run {A} (f : W -> res A) w a w' : mread f w = (Ok a, w') -> f w = Ok a /\ w' = w.
Proof. unfold mread. by intros [= ? <-]. Qed.

(** An item of the list as an application. *)
Lemma as_application_ok i a ba : registeredApplications !! i = Some a -> AsBurnApplication a = Ok ba ->
  ba = mkApplication (ID a) (item_FromAddress a) (item_ToAddress a) (FundSource a)
         (mkCoin islm (item_burn a)) (mkCoin islm (item_before a)) false (item_burn a =? 0) /\
  ValidDenom islm = true.
Proof.
  intros Hi E. destruct (contiguous_lookup _ _ _ _ _ registered_contiguous Hi) as (_ & Eb & Ea & _ & Lb & La).
  unfold AsBurnApplication in E.
  rewrite (new_int_digits _ _ Eb ltac:(lia)), (new_int_digits _ _ Ea ltac:(lia)) in E.
  apply res_bind_ok in E as (c1 & E1 & E). apply new_coin_inv in E1 as (-> & _ & Hd).
  apply res_bind_ok in E as (c2 & E1 & E). apply new_coin_inv in E1 as (-> & _ & _).
  apply res_bind_ok in E as ([] & _ & E). by injection E as <-.
Qed.

Lemma application_ok id ba : 0 <= id -> GetApplicationByID id = Ok ba ->
  exists a, registeredApplications !! Z.to_nat id = Some a /\ ID a = id /\ id < 2 ^ 64 /\
    ba = mkApplication id (item_FromAddress a) (item_ToAddress a) (FundSource a)
           (mkCoin islm (item_burn a)) (mkCoin islm (item_before a)) false (item_burn a =? 0) /\
    ValidDenom islm = true.
Proof.
  intros Hid E. unfold GetApplicationByID, IsApplicationExists, TotalNumberOfApplications in E.
  pose proof few_applications as F.
  destruct (Z.ltb_spec id (Z.of_nat (length registeredApplications))); [|done]. cbn [negb] in E.
  destruct (registeredApplications !! Z.to_nat id) as [a|] eqn:Ea; [|done].
  destruct (contiguous_lookup _ _ _ _ _ registered_contiguous Ea) as (Ei & _).
  rewrite Z2Nat.id, Z.add_0_l in Ei by done.
  apply (as_application_ok _ _ _ Ea) in E as [-> Hd]. exists a. rewrite Ei. split_and!; (done || lia).
Qed.

Lemma sum_of_all_ok s : GetSumOfAllApplications = Ok s -> s = sum_apps.
Proof.
  intros E. unfold GetSumOfAllApplications, GetLastApplication in E.
  destruct last_item as (a & El & _ & _ & _ & _ & Es). rewrite El in E. cbn [mbind res_bind] in E.
  rewrite last_lookup in El. apply res_bind_ok in E as (ba & E1 & E).
  apply (as_application_ok _ _ _ El) in E1 as [-> _]. cbn [BurnAmount BurnedBeforeAmount] in E.
  rewrite coin_add_spec in E. cbn [mbind res_bind Amount] in E. injection E as <-. done.
Qed.

#[local] Opaque GetSumOfAllApplications.

(** Burns outside the applications continue behind all of them. *)
Lemma coins_to_mint_ok x w y : in_islm w -> 0 <= public w ->
  CalculateHaqqCoinsToMint x w = Ok y ->
  0 < x /\ y = haqq_for (sum_apps + public w) (sum_apps + public w + x) /\
  sum_apps + public w + x <= curve_capacity /\ ValidDenom islm = true.
Proof.
  intros [D1 D2] Hp E. unfold CalculateHaqqCoinsToMint in E.
  destruct (IsModuleEnabled w); [|done]. cbn [negb] in E.
  destruct (Z.leb_spec x 0) as [|Hx]; [done|].
  apply res_bind_ok in E as (s & E1 & E).
  assert (Hs : sum_apps = s).
  { destruct GetSumOfAllApplications as [s'|e|] eqn:Es; [|done..]. injection E1 as <-.
    symmetry. by apply sum_of_all_ok. }
  pose proof (proj1 sum_apps_in_curve) as S0. rewrite Hs in *. clear E1 Hs.
  apply res_bind_ok in E as (c & E1 & E). apply new_coin_inv in E1 as (-> & _ & Hd).
  unfold public, burned, burned_apps in *.
  destruct (GetTotalBurnedAmount w) as [d1 b], (GetTotalBurnedFromApplicationsAmount w) as [d2 b'].
  cbn [Denom Amount] in *. subst d1 d2. rewrite coin_add_spec in E. cbn [mbind res_bind] in E.
  rewrite coin_sub_spec in E. destruct (Z.ltb_spec (b + s) b') as [|Hb]; [done|].
  cbn [mbind res_bind Amount] in E. replace (b + s - b') with (s + (b - b')) in E by lia.
  apply calculate_ok in E as [-> [Hc|Hc]]; [lia| |lia..]. by split_and!.
Qed.

Lemma burn_run x from to w w' y : I w -> in_islm w -> 0 <= public w ->
  BurnIslmForHaqq x from to w = (Ok y, w') ->
  Enabled (GetParams w) = true /\ 0 < x /\ y = haqq_for (sum_apps + public w) (sum_apps + public w + x) /\
  sum_apps + public w + x <= curve_capacity /\ exchanged false false from to x y w w'.
Proof.
  intros Hi Hd Hp E. unfold BurnIslmForHaqq in E.
  apply M_bind_ok in E as (en & w1 & E1 & E). apply mgets_ok in E1 as [-> ->].
  destruct (IsModuleEnabled w) eqn:En; [|done]. cbn [negb] in E.
  destruct (bool_decide (from = EmptyString)); [done|]. destruct (bool_decide (to = EmptyString)); [done|].
  destruct (Z.leb_spec x 0) as [|Hx]; [done|].
  apply M_bind_ok in E as (y' & w1 & E1 & E). apply mread_run in E1 as [E1 ->].
  apply coins_to_mint_ok in E1 as (_ & Ey & Hc & Hv); [|done..].
  apply M_bind_ok in E as ([] & w1 & E1 & E). apply mread_run in E1 as [Ec ->].
  apply M_bind_ok in E as (n & w1 & Er & E). apply M_bind_ok in E as (c & w2 & E1 & E).
  apply mlift_ok in E1 as [E1 ->]. apply new_coin_inv in E1 as (-> & _ & _).
  apply M_bind_ok in E as (u & w2 & Eu & E). apply M_bind_ok in E as ([] & w3 & Eb & E).
  apply M_bind_ok in E as ([] & w4 & Em & E). apply mret_ok in E as [-> ->].
  split_and!; [done|done|done|done|]. by eapply exchange_ok.
Qed.
Lemma burn_app_run id from w w' y to : I w -> 0 <= id ->
  BurnIslmForHaqqByApplicationID from id w = (Ok (y, to), w') ->
  exists a w1, registeredApplications !! Z.to_nat id = Some a /\ ID a = id /\ id < 2 ^ 64 /\
    Enabled (GetParams w) = true /\ executedApplicationStoreKey id ∉ executed w /\
    0 < item_burn a /\ y = item_haqq a /\
    AccAddressFromBech32 (item_FromAddress a) = Some from /\
    AccAddressFromBech32 (item_ToAddress a) = Some to /\
    let dao := bool_decide (FundSource a = SOURCE_OF_FUNDS_UCDAO) in
    exchanged true dao (if dao then GetEscrowAddress from else from) to (item_burn a) y w w1 /\
    w' = SetApplicationAsExecuted id w1.
Proof.
  intros Hi Hid E. unfold BurnIslmForHaqqByApplicationID in E.
  apply M_bind_ok in E as (en & w1 & E1 & E). apply mgets_ok in E1 as [-> ->].
  destruct (IsModuleEnabled w) eqn:En; [|done]. cbn [negb] in E.
  apply M_bind_ok in E as (ba & w1 & E1 & E). apply mlift_ok in E1 as [E1 ->].
  destruct (GetApplicationByID id) as [ba'|e|] eqn:Eg; [|done..]. injection E1 as ->.
  apply application_ok in Eg as (a & Ea & Ei & Li & -> & Hd); [|done].
  cbn [app_Id app_FromAddress app_ToAddress Source BurnAmount BurnedBeforeAmount IsCanceled Amount] in E.
  apply M_bind_ok in E as (ex & w1 & E1 & E). apply mgets_ok in E1 as [-> ->].
  unfold IsApplicationExecuted in E. destruct (bool_decide_reflect
    (executedApplicationStoreKey id ∈ es_executed (view w))) as [|Nx]; [done|].
  destruct (Z.eqb_spec (item_burn a) 0) as [|Nb]; [done|].
  destruct (items_nonneg _ _ Ea) as [Pb Hbef].
  apply M_bind_ok in E as (f & w1 & E1 & E). apply mlift_ok in E1 as [Ef ->].
  apply M_bind_ok in E as (t & w1 & E1 & E). apply mlift_ok in E1 as [Et ->].
  destruct (bool_decide_reflect (f <> from)) as [|Nf]; [done|].
  assert (f = from) as -> by (by destruct (decide (f = from))).
  apply M_bind_ok in E as (y' & w1 & E1 & E). apply mlift_ok in E1 as [Ey ->].
  apply M_bind_ok in E as ([] & w1 & E1 & E). apply mread_run in E1 as [Ec ->].
  apply M_bind_ok in E as (n & w1 & Er & E).
  apply M_bind_ok in E as (u & w2 & Eu & E). apply M_bind_ok in E as (fr & w3 & E1 & E).
  apply mlift_ok in E1 as [_ ->].
  apply M_bind_ok in E as ([] & w3 & Eb' & E). apply mwrap_ok in Eb'.
  apply M_bind_ok in E as ([] & w4 & Em & E). apply mwrap_ok in Em.
  apply M_bind_ok in E as ([] & w5 & E1 & E). apply mmodify_ok in E1. subst w5.
  apply mret_ok in E as [[= <- <-] ->].
  apply calculate_ok in Ey as [Ey _]; [|done|done]. rewrite <- item_haqq_eq in Ey.
  exists a, w4. unfold must_addr in *.
  destruct (AccAddressFromBech32 (item_FromAddress a)); [|done]. injection Ef as ->.
  destruct (AccAddressFromBech32 (item_ToAddress a)); [|done]. injection Et as ->.
  split_and!; [done|done|done|done|done|lia|done|done|done| |done].
  eapply exchange_ok; [done|lia|done..].
Qed.
End ledger.
