(* ===== verification/EthiqInvariant.v ===== *)
(** * The invariant of x/ethiq

    [ethiq_ok] holds after every sequence of messages: the counters are those of the
    executed applications and of the other burns, and the supply of aHAQQ is at
    most what the curve mints for the places that were burnt.  So no place of
    the curve is sold twice, an application runs at most once and the export of
    the store gives the store back. *)

From stdpp Require Import relations.
From S2P Require Import Prelude.
From S2P Require Import Sdk.
From S2P Require Import Schedule.
From S2P Require Import ClawbackAccount.
From S2P Require Import Keepers.
From S2P Require Import VestingMsg.
From S2P Require Import VestingKeeper.
From S2P Require Import LiquidSchedule.
From S2P Require Import TokenPair.
From S2P Require Import LiquidVesting.
From S2P Require Import Ucdao.
From S2P Require Import UcdaoInvariant.
From S2P Require Import EthiqData.
From S2P Require Import EthiqCurve.
From S2P Require Import Ethiq.
From S2P Require Import EthiqTheory.

Local Open Scope Z_scope.

#[local] Opaque registeredApplications sum_apps item_haqq CalculateHaqqAmount price_levels haqq_for
  curve_capacity Prices GetSumOfAllApplications.

(** The share of the executed applications of a sum. *)
Definition part (f : ApplicationListItem -> Z) (X : gset string) (a : ApplicationListItem) : Z :=
  if decide (executedApplicationStoreKey (ID a) ∈ X) then f a else 0.

Definition executed_sum (f : ApplicationListItem -> Z) (X : gset string) : Z :=
  sum_over (part f X) registeredApplications.

Lemma registered_id i a : registeredApplications !! i = Some a ->
  ID a = Z.of_nat i /\ 0 <= ID a < 2 ^ 64.
Proof.
  intros Ha. destruct (contiguous_lookup _ _ _ _ _ registered_contiguous Ha) as (-> & _).
  apply lookup_lt_Some in Ha. pose proof few_applications. lia.
Qed.

(** Executing an application adds its share. *)
Lemma executed_sum_insert f X i a : registeredApplications !! i = Some a ->
  executedApplicationStoreKey (ID a) ∉ X ->
  executed_sum f (X ∪ {[executedApplicationStoreKey (ID a)]}) = executed_sum f X + f a.
Proof.
  intros Ha Nx. unfold executed_sum.
  rewrite (sum_over_place (part f X) (part f (X ∪ {[executedApplicationStoreKey (ID a)]})) _ i a Ha).
  - unfold part. rewrite (decide_False (P := _ ∈ X)), decide_True by (done || set_solver). lia.
  - intros j b Hb Nj. unfold part. apply decide_ext. rewrite elem_of_union, elem_of_singleton.
    split; [intros [|E]; [done|]|by left]. destruct (registered_id _ _ Ha), (registered_id _ _ Hb).
    apply key_inj in E; [lia|done..].
Qed.

Lemma executed_sum_le f X : (forall a, a ∈ registeredApplications -> 0 <= f a) ->
  0 <= executed_sum f X <= sum_over f registeredApplications.
Proof.
  intros P. split; [apply sum_over_nonneg|apply sum_over_le]; intros a Ha; specialize (P a Ha);
    unfold part; case_decide; lia.
Qed.

Lemma executed_sum_empty f : executed_sum f ∅ = 0.
Proof.
  unfold executed_sum. rewrite <- (sum_over_zero registeredApplications). apply sum_over_ext.
  intros a _. unfold part. by rewrite decide_False by set_solver.
Qed.

(** One aHAQQ costs at least three aISLM, also at the place of an application. *)
Lemma executed_value X : 3 * executed_sum item_haqq X <= executed_sum item_burn X.
Proof.
  unfold executed_sum. assert (E : forall l, 3 * sum_over (part item_haqq X) l
    = sum_over (fun a => 3 * part item_haqq X a) l).
  { induction l as [|a l IH]; simpl; [done|]. rewrite <- IH. lia. }
  rewrite E. apply sum_over_le. intros a [i Hi]%list_elem_of_lookup. unfold part.
  destruct (items_nonneg _ _ Hi). case_decide; [|done]. rewrite item_haqq_eq.
  pose proof (haqq_for_value (item_before a) (item_before a + item_burn a)). lia.
Qed.

Section invariant.
Context {W : Type} {I : W -> Prop} `{SdkLaws} `{EthOps} `{!DaoOps} `{!DaoLaws} `{CurveLaws}.
Context `{IbcOps} `{AddrCheck}.
Context `{Ctx W, AccountKeeper W, BankKeeper W, DistributionKeeper W, ModuleBank W}.
Context `{BalanceKeeper W, SupplyKeeper W, Erc20Keeper W, EthiqErc20 W}.
Context `{LiquidVestingKeeper W, UcdaoKeeper W, Lens W EthiqState}.
Context `{!KeeperLaws W} `{!ModuleBankLaws W} `{!SupplyLaws W} `{!ModuleState W EthiqState} `{!BalanceLaws W}.
Context `{!EthiqWorld W I}.
Implicit Types w : W.

(** ** The invariant *)

Record ethiq_ok w : Prop := {
  eo_inv : I w;
  eo_islm : in_islm w;
  (** the second counter is the sum of the executed applications *)
  eo_apps : burned_apps w = executed_sum item_burn (executed w);
  (** only existing applications are marked as executed *)
  eo_keys k : k ∈ executed w -> exists id ba, 0 <= id /\ k = executedApplicationStoreKey id /\
    GetApplicationByID id = Ok ba;
  eo_public : 0 <= public w;
  eo_curve : sum_apps + public w <= curve_capacity;
  (** the places that were sold *)
  eo_supply : GetSupply haqq w <=
    executed_sum item_haqq (executed w) + haqq_for sum_apps (sum_apps + public w)
}.

Lemma set_executed_ok x w : I w ->
  I (set_executed x w) /\ burned (set_executed x w) = burned w /\
  burned_apps (set_executed x w) = burned_apps w /\ executed (set_executed x w) = x /\
  GetParams (set_executed x w) = GetParams w /\ (in_islm w -> in_islm (set_executed x w)) /\
  GetSupply haqq (set_executed x w) = GetSupply haqq w.
Proof.
  intros Hi. unfold set_executed.
  match goal with |- context [update ?s w] => destruct (update_kept s w Hi) as (I' & V & S) end.
  unfold burned, burned_apps, in_islm, executed, GetParams, GetTotalBurnedAmount,
    GetTotalBurnedFromApplicationsAmount in *. rewrite ?V, ?S; cbn. tauto.
Qed.

Lemma mint_step x y w w' : ethiq_ok w ->
  y = haqq_for (sum_apps + public w) (sum_apps + public w + x) -> 0 < x ->
  sum_apps + public w + x <= curve_capacity -> booked (I:=I) false x y w w' -> ethiq_ok w'.
Proof.
  intros [Hi Hd Ha Hk Hp Hc Hs] -> Hx Hcap [B1 B2 B3 B4 B5 B6 B7].
  assert (Ep : public w' = public w + x) by (unfold public; lia).
  constructor; [done|auto|rewrite B5; lia|by rewrite B5|lia| |].
  - rewrite Ep. by rewrite Z.add_assoc.
  - rewrite B3, B5, Ep, Z.add_assoc.
    pose proof (haqq_for_split sum_apps (sum_apps + public w) (sum_apps + public w + x)) as L.
    revert L Hs. generalize sum_apps as s, (executed_sum item_haqq (executed w)) as e. intros s e L Hs. lia.
Qed.

Lemma app_step id a w w1 : ethiq_ok w -> registeredApplications !! Z.to_nat id = Some a -> ID a = id ->
  (exists ba, GetApplicationByID id = Ok ba) -> 0 <= id ->
  executedApplicationStoreKey id ∉ executed w -> booked (I:=I) true (item_burn a) (item_haqq a) w w1 ->
  ethiq_ok (SetApplicationAsExecuted id w1).
Proof.
  intros [Hi Hd Ha Hk Hp Hc Hs] Hl Ei [ba Hba] Hid Nx [B1 B2 B3 B4 B5 B6 B7].
  unfold SetApplicationAsExecuted.
  destruct (set_executed_ok (es_executed (view w1) ∪ {[executedApplicationStoreKey id]}) w1 B7)
    as (I' & E1 & E2 & E3 & _ & E5 & E6). fold (executed w1) in *. rewrite B5 in *.
  match goal with |- ethiq_ok ?s => set (w' := s) in * end.
  assert (Ep : public w' = public w) by (unfold public; lia). subst id.
  constructor; [done|auto| | |by rewrite Ep|by rewrite Ep|].
  - rewrite E2, E3, (executed_sum_insert _ _ _ _ Hl Nx). lia.
  - intros k. rewrite E3, elem_of_union, elem_of_singleton. intros [Kk| ->]; [auto|by exists (ID a), ba].
  - rewrite E6, E3, Ep, (executed_sum_insert _ _ _ _ Hl Nx). lia.
Qed.

(** A chain on which nothing was burnt yet. *)
Definition empty_store w : Prop :=
  es_burned (view w) = None /\ es_burned_apps (view w) = None /\ es_executed (view w) = ∅.

Lemma fresh_ok w : I w -> empty_store w -> GetSupply haqq w <= 0 -> ethiq_ok w.
Proof.
  intros Hi (N1 & N2 & N3) S. assert (Ep : public w = 0).
  { unfold public, burned, burned_apps, GetTotalBurnedAmount, GetTotalBurnedFromApplicationsAmount.
    by rewrite N1, N2. }
  assert (Ex : executed w = ∅) by exact N3. constructor.
  - done.
  - unfold in_islm, GetTotalBurnedAmount, GetTotalBurnedFromApplicationsAmount. by rewrite N1, N2.
  - rewrite Ex, executed_sum_empty. unfold burned_apps, GetTotalBurnedFromApplicationsAmount. by rewrite N2.
  - intros k. rewrite Ex. set_solver.
  - by rewrite Ep.
  - rewrite Ep, Z.add_0_r. apply sum_apps_in_curve.
  - by rewrite Ep, Ex, executed_sum_empty, (Z.add_0_r sum_apps), haqq_for_empty.
Qed.

(** ** Steps *)

(** The messages of the module, parameter changes, and what other modules do: they
    do not write the store and do not mint aHAQQ. *)
Inductive ethiq_step : W -> W -> Prop :=
  | step_mint msg y w w' : MintHaqq msg w = (Ok y, w') -> ethiq_step w w'
  | step_app msg r w w' : 0 <= mp_ApplicationId msg ->
      MintHaqqByApplication msg w = (Ok r, w') -> ethiq_step w w'
  | step_params p w : ethiq_step w (SetParams p w)
  | step_other w w' : I w' -> view (S:=EthiqState) w' = view w ->
      GetSupply haqq w' <= GetSupply haqq w -> ethiq_step w w'.

Lemma mint_msg_ok msg y w w' : MintHaqq msg w = (Ok y, w') ->
  exists from to, AccAddressFromBech32 (mm_FromAddress msg) = Some from /\
    AccAddressFromBech32 (mm_ToAddress msg) = Some to /\
    BurnIslmForHaqq (mm_IslmAmount msg) from to w = (Ok y, w').
Proof.
  unfold MintHaqq. intros E. apply M_bind_ok in E as (en & w1 & E1 & E). apply mgets_ok in E1 as [-> ->].
  destruct (IsModuleEnabled w); [|done]. cbn [negb] in E.
  apply M_bind_ok in E as ([] & w1 & E1 & E). apply mlift_ok in E1 as [_ ->].
  apply M_bind_ok in E as (to & w1 & E1 & E). apply mlift_ok in E1 as [E1 ->].
  apply M_bind_ok in E as (from & w1 & E2 & E). apply mlift_ok in E2 as [E2 ->].
  exists from, to. unfold must_addr in *.
  destruct (AccAddressFromBech32 (mm_FromAddress msg)); [|done]. injection E2 as ->.
  destruct (AccAddressFromBech32 (mm_ToAddress msg)); [|done]. by injection E1 as ->.
Qed.

Lemma app_msg_ok msg r w w' : MintHaqqByApplication msg w = (Ok r, w') ->
  exists from, AccAddressFromBech32 (mp_FromAddress msg) = Some from /\
    BurnIslmForHaqqByApplicationID from (mp_ApplicationId msg) w = (Ok r, w').
Proof.
  unfold MintHaqqByApplication. intros E. apply M_bind_ok in E as (en & w1 & E1 & E).
  apply mgets_ok in E1 as [-> ->]. destruct (IsModuleEnabled w); [|done]. cbn [negb] in E.
  apply M_bind_ok in E as ([] & w1 & E1 & E). apply mlift_ok in E1 as [_ ->].
  apply M_bind_ok in E as (from & w1 & E2 & E). apply mlift_ok in E2 as [E2 ->].
  exists from. unfold must_addr in *.
  destruct (AccAddressFromBech32 (mp_FromAddress msg)); [|done]. by injection E2 as ->.
Qed.

(** The application of a run exists. *)
Lemma burn_app_exists id from w w' r : BurnIslmForHaqqByApplicationID from id w = (Ok r, w') ->
  exists ba, GetApplicationByID id = Ok ba.
Proof.
  unfold BurnIslmForHaqqByApplicationID. intros E.
  apply M_bind_ok in E as (en & w1 & E1 & E). apply mgets_ok in E1 as [-> ->].
  destruct (IsModuleEnabled w); [|done]. cbn [negb] in E.
  apply M_bind_ok in E as (ba & w1 & E1 & E). apply mlift_ok in E1 as [E1 ->].
  destruct (GetApplicationByID id) as [ba'|e|]; [|done..]. by exists ba'.
Qed.

Lemma ethiq_step_ok w w' : ethiq_step w w' -> ethiq_ok w -> ethiq_ok w' /\ executed w ⊆ executed w'.
Proof.
  intros St Hw. destruct St as [msg y w w' E|msg [y to] w w' Hid E|p w|w w' Hi V S].
  - apply mint_msg_ok in E as (from & to & _ & _ & E).
    apply burn_run in E as (_ & Hx & Ey & Hc & X); [|apply Hw..].
    destruct X as [_ K _]. split; [by eapply mint_step|]. by rewrite (bo_executed _ _ _ _ _ K).
  - apply app_msg_ok in E as (from & _ & E). pose proof (burn_app_exists _ _ _ _ _ E) as Hba.
    apply burn_app_run in E as (a & w1 & Hl & Ei & _ & _ & Nx & _ & -> & _ & _ & [_ K _] & ->);
      [|apply Hw|done].
    split; [by eapply app_step|]. unfold SetApplicationAsExecuted.
    destruct (set_executed_ok (es_executed (view w1) ∪ {[executedApplicationStoreKey (mp_ApplicationId msg)]})
      w1 (bo_inv _ _ _ _ _ K)) as (_ & _ & _ & E3 & _).
    fold (executed w1) in *. rewrite E3, (bo_executed _ _ _ _ _ K). apply union_subseteq_l.
  - unfold SetParams. destruct Hw as [Hi Hd Ha Hk Hp Hc Hs].
    match goal with |- context [update ?s w] => destruct (update_kept s w Hi) as (I' & V & S) end.
    split.
    + constructor; unfold public, burned, burned_apps, in_islm, executed, GetTotalBurnedAmount,
        GetTotalBurnedFromApplicationsAmount in *; rewrite ?V, ?S; cbn; done.
    + unfold executed. by rewrite V.
  - destruct Hw as [_ Hd Ha Hk Hp Hc Hs]. split.
    + constructor; unfold public, burned, burned_apps, in_islm, executed, GetTotalBurnedAmount,
        GetTotalBurnedFromApplicationsAmount in *; rewrite ?V; (done || lia).
    + unfold executed. by rewrite V.
Qed.

Lemma steps_ok w w' : rtc ethiq_step w w' -> ethiq_ok w -> ethiq_ok w' /\ executed w ⊆ executed w'.
Proof.
  induction 1 as [w|w w1 w' St _ IH]; intros Hw; [done|].
  apply ethiq_step_ok in St as [Hw1 X1]; [|done]. destruct (IH Hw1) as [Hw2 X2]. split; [done|]. by trans (executed w1).
Qed.
(** What the invariant says about the supply. *)
Lemma supply_facts w : ethiq_ok w ->
  GetSupply haqq w <= haqq_for 0 (sum_apps + public w) /\ GetSupply haqq w < 10 ^ 26 /\
  3 * GetSupply haqq w <= burned w.
Proof.
  intros [_ _ Ha _ Hp Hc Hs].
  assert (P : forall a, a ∈ registeredApplications -> 0 <= item_haqq a).
  { intros a _. rewrite item_haqq_eq. apply haqq_for_nonneg. }
  pose proof (executed_sum_le item_haqq (executed w) P) as [_ L1]. clear P.
  pose proof items_below_sum as L2. pose proof (executed_value (executed w)) as V1.
  pose proof (proj1 sum_apps_in_curve) as S0. pose proof curve_total as T.
  pose proof (haqq_for_split 0 sum_apps (sum_apps + public w)) as L3.
  pose proof (haqq_for_split 0 (sum_apps + public w) curve_capacity) as L4.
  pose proof (haqq_for_nonneg (sum_apps + public w) curve_capacity) as N4.
  pose proof (haqq_for_value sum_apps (sum_apps + public w)) as V2.
  rewrite <- Ha in V1. assert (Eb : burned w = burned_apps w + public w) by (unfold public; lia).
  rewrite Eb. clear Eb Ha. revert Hp Hc Hs L1 L2 V1 S0 T L3 L4 N4 V2.
  generalize curve_capacity as cap, (haqq_for 0 curve_capacity) as hc.
  generalize (executed_sum item_haqq (executed w)) as e, (sum_over item_haqq registeredApplications) as si.
  generalize sum_apps as s. intros. 
  split; [lia|]. split; lia.
Qed.

(** C2: No place of the price curve is sold twice: after any sequence of mints, executed
    applications, parameter changes and steps of other modules the supply of
    aHAQQ is at most what the curve gives for everything burnt from its start up
    to the present place, hence below 10^26 whatever the parameters are, and at
    least three aISLM were burnt for each aHAQQ. *)
Theorem haqq_supply_bounded w w' : ethiq_ok w -> rtc ethiq_step w w' ->
  ethiq_ok w' /\ GetSupply haqq w' <= haqq_for 0 (sum_apps + public w') /\
  GetSupply haqq w' < 10 ^ 26 /\ 3 * GetSupply haqq w' <= burned w'.
Proof.
  intros Hw St. destruct (steps_ok _ _ St Hw) as [Hw' _]. split; [done|]. by apply supply_facts.
Qed.
(** ** The messages *)

(** An account without liquid tokens has nothing to redeem. *)
Lemma nothing_to_redeem from dao w :
  Forall (fun c => IsLiquidToken (Denom c) = false) (GetAllBalances from w) ->
  redeemAllLiquidVestingCoins from dao w = (Ok 0, w).
Proof.
  intros F. unfold redeemAllLiquidVestingCoins, mgets, mbind, M_bind. revert F.
  generalize (GetAllBalances from w). induction 1 as [|c cs Nc _ IH]; [done|].
  cbn [redeem_all_loop]. rewrite Nc. cbn [negb]. exact IH.
Qed.

(** The balances after an exchange from an account without liquid tokens. *)
Definition paid (from to : string) (x y : Z) w w' : Prop := forall a d,
  GetBalance a d w' = GetBalance a d w - (if decide (a = from) then amt [mkCoin islm x] d else 0)
                                       + (if decide (a = to) then amt [mkCoin haqq y] d else 0).

Lemma exchanged_paid app dao from to x y w w' : exchanged (I:=I) app dao from to x y w w' ->
  Forall (fun c => IsLiquidToken (Denom c) = false) (GetAllBalances from w) -> paid from to x y w w'.
Proof.
  intros [_ _ (n & u & w1 & w2 & Er & _ & _ & B)] F a d. rewrite B.
  rewrite (nothing_to_redeem from dao w F) in Er. by injection Er as <- <-.
Qed.

(** C20: [MintHaqq]: a mint that succeeds burns the asked aISLM of the sender behind all
    applications and all earlier burns and mints what the curve gives there, within
    the limits of the parameters; a sender without liquid tokens pays exactly the
    asked amount, the recipient gets exactly the minted one, and no other
    balance moves. *)
Theorem MintHaqq_correct msg y w w' : ethiq_ok w -> MintHaqq msg w = (Ok y, w') ->
  exists from to, AccAddressFromBech32 (mm_FromAddress msg) = Some from /\
    AccAddressFromBech32 (mm_ToAddress msg) = Some to /\ Enabled (GetParams w) = true /\
    let x := mm_IslmAmount msg in let place := sum_apps + public w in
    0 < x /\ y = haqq_for place (place + x) /\ place + x <= curve_capacity /\
    public w' = public w + x /\ executed w' = executed w /\
    exchanged (I:=I) false false from to x y w w' /\
    (Forall (fun c => IsLiquidToken (Denom c) = false) (GetAllBalances from w) -> paid from to x y w w').
Proof.
  intros Hw E. apply mint_msg_ok in E as (from & to & Ef & Et & E). exists from, to.
  apply burn_run in E as (En & Hx & Ey & Hc & X); [|apply Hw..].
  pose proof (ex_booked _ _ _ _ _ _ _ _ X) as [B1 B2 _ _ B5 _ _]. cbv zeta.
  split_and!; [done|done|done|done|exact Ey|exact Hc|unfold public; lia|done|done|].
  by eapply exchanged_paid.
Qed.

(** C21: [MintHaqqByApplication]: an application that executes was not executed before, is
    run by its registered sender, burns exactly its registered amount (from the
    sender or, for the DAO, from the sender's escrow account), mints what the
    curve gives at the application's own place to the registered recipient, and
    is marked as executed; the place of the other burns does not move. *)
Theorem MintHaqqByApplication_correct msg y to w w' : ethiq_ok w -> 0 <= mp_ApplicationId msg ->
  MintHaqqByApplication msg w = (Ok (y, to), w') ->
  exists a from w1, let id := mp_ApplicationId msg in
    registeredApplications !! Z.to_nat id = Some a /\ Enabled (GetParams w) = true /\
    executedApplicationStoreKey id ∉ executed w /\
    executed w' = executed w ∪ {[executedApplicationStoreKey id]} /\
    AccAddressFromBech32 (mp_FromAddress msg) = Some from /\
    AccAddressFromBech32 (item_FromAddress a) = Some from /\
    AccAddressFromBech32 (item_ToAddress a) = Some to /\
    0 < item_burn a /\ y = haqq_for (item_before a) (item_before a + item_burn a) /\
    public w' = public w /\ burned_apps w' = burned_apps w + item_burn a /\
    (let dao := bool_decide (FundSource a = SOURCE_OF_FUNDS_UCDAO) in
     exchanged (I:=I) true dao (if dao then GetEscrowAddress from else from) to (item_burn a) y w w1) /\
    w' = SetApplicationAsExecuted id w1.
Proof.
  intros Hw Hid E. apply app_msg_ok in E as (from & Ef & E).
  apply burn_app_run in E as (a & w1 & Hl & Ei & _ & En & Nx & Pb & Ey & Ea & Et & X & Ew);
    [|apply Hw|done].
  pose proof (ex_booked _ _ _ _ _ _ _ _ X) as [B1 B2 _ _ B5 _ B7]. exists a, from, w1. cbv zeta.
  destruct (set_executed_ok (es_executed (view w1) ∪ {[executedApplicationStoreKey (mp_ApplicationId msg)]})
      w1 B7) as (_ & E1 & E2 & E3 & _).
  unfold SetApplicationAsExecuted in *. fold (executed w1) in *. rewrite B5 in *. rewrite Ew, E3.
  split_and!; [done|done|done|done|done|done|done|done| | | |done|done].
  - rewrite Ey. apply item_haqq_eq.
  - unfold public. lia.
  - lia.
Qed.

(** C26: An application runs at most once: after it ran, in every later state any further
    attempt, by whomever, is rejected and changes nothing. *)
Theorem application_runs_once msg r w w' w2 from : ethiq_ok w -> 0 <= mp_ApplicationId msg ->
  MintHaqqByApplication msg w = (Ok r, w') -> rtc ethiq_step w' w2 ->
  BurnIslmForHaqqByApplicationID from (mp_ApplicationId msg) w2
  = (Err (if Enabled (GetParams w2) then ErrInvalidApplicationID else ErrEthiqDisabled), w2).
Proof.
  intros Hw Hid E St. destruct r as [y to].
  destruct (ethiq_step_ok _ _ (step_app _ _ _ _ Hid E) Hw) as [Hw' _].
  destruct (steps_ok _ _ St Hw') as [_ Sub].
  apply app_msg_ok in E as (f & _ & E). pose proof (burn_app_exists _ _ _ _ _ E) as [ba Eb].
  apply burn_app_run in E as (a & w1 & _ & _ & _ & _ & _ & _ & _ & _ & _ & X & ->); [|apply Hw|done].
  pose proof (ex_booked _ _ _ _ _ _ _ _ X) as K.
  assert (Hx : executedApplicationStoreKey (mp_ApplicationId msg) ∈ executed w2).
  { apply Sub. unfold SetApplicationAsExecuted.
    destruct (set_executed_ok (es_executed (view w1) ∪ {[executedApplicationStoreKey (mp_ApplicationId msg)]})
      w1 (bo_inv _ _ _ _ _ K)) as (_ & _ & _ & E3 & _).
    rewrite E3. apply elem_of_union_r, elem_of_singleton_2. reflexivity. }
  apply application_ok in Eb as Ea; [|done]. destruct Ea as (b & _ & Ei & _ & Eba & _).
  unfold BurnIslmForHaqqByApplicationID, mbind, M_bind, mgets, IsModuleEnabled.
  destruct (Enabled (GetParams w2)); cbn [negb]; [|done].
  unfold mlift. rewrite Eb. unfold IsApplicationExecuted. subst ba. cbn [app_Id].
  by rewrite bool_decide_eq_true_2.
Qed.
(** ** Genesis *)

Lemma add_apps_run x w : ValidDenom islm = true -> 0 <= burned_apps w + x ->
  AddToTotalBurnedFromApplicationsAmount x w
  = (Ok tt, update (mkEthiq (es_params (view w)) (es_burned (view w))
                      (Some (mkCoin islm (burned_apps w + x))) (es_executed (view w))) w).
Proof.
  intros Hd Hx. unfold AddToTotalBurnedFromApplicationsAmount, SetTotalBurnedFromApplicationsAmount.
  unfold mbind, M_bind, mgets, mlift. fold (burned_apps w). rewrite new_coin_ok by done.
  rewrite bool_decide_eq_false_2 by naive_solver. reflexivity.
Qed.

(** The part of the state that [init_apps] writes. *)
Definition apps_ok w : Prop :=
  I w /\ Denom (GetTotalBurnedFromApplicationsAmount w) = islm /\
  burned_apps w = executed_sum item_burn (executed w).

Lemma init_apps_run ids w : apps_ok w -> NoDup ids ->
  (forall id, id ∈ ids -> 0 <= id /\ executedApplicationStoreKey id ∉ executed w /\
     exists ba, GetApplicationByID id = Ok ba) ->
  exists w', init_apps ids w = (Ok tt, w') /\ apps_ok w' /\
    executed w' = executed w ∪ list_to_set (executedApplicationStoreKey <$> ids) /\
    es_params (view w') = es_params (view w) /\ es_burned (view w') = es_burned (view w).
Proof.
  revert w. induction ids as [|id ids IH]; intros w Hw Nd Hids.
  { exists w. simpl. split_and!; [done|done|set_solver|done|done]. }
  apply list.NoDup_cons in Nd as [Nid Nd].
  destruct (Hids id) as (Hid & Nx & ba & Eb); [apply list_elem_of_here|].
  destruct (application_ok id ba Hid Eb) as (a & Hl & Ei & Li & -> & Hd). subst id.
  destruct Hw as (Hi & Dw & Ea). destruct (items_nonneg _ _ Hl) as [Pb _].
  set (k := executedApplicationStoreKey (ID a)).
  destruct (set_executed_ok (executed w ∪ {[k]}) w Hi) as (I1 & _ & A1 & X1 & _ & _ & _).
  set (w1 := SetApplicationAsExecuted (ID a) w).
  change (set_executed (executed w ∪ {[k]}) w) with w1 in *.
  assert (V1 : es_params (view w1) = es_params (view w) /\ es_burned (view w1) = es_burned (view w)).
  { unfold w1, SetApplicationAsExecuted, set_executed. by rewrite view_update. }
  assert (P1 : 0 <= burned_apps w1 + item_burn a).
  { rewrite A1, Ea. assert (0 <= executed_sum item_burn (executed w)); [|lia].
    apply executed_sum_le. intros b [j Hj]%list_elem_of_lookup. by destruct (items_nonneg _ _ Hj). }
  pose proof (add_apps_run (item_burn a) w1 Hd P1) as R.
  set (w2 := update _ w1) in R. destruct (update_kept (mkEthiq (es_params (view w1)) (es_burned (view w1))
    (Some (mkCoin islm (burned_apps w1 + item_burn a))) (es_executed (view w1))) w1 I1) as (I2 & V2 & _).
  fold w2 in I2, V2. assert (X2 : executed w2 = executed w ∪ {[k]}).
  { unfold executed at 1. by rewrite V2, <- X1. }
  destruct (IH w2) as (w' & R' & Hw' & X' & P' & B'); [|done| |].
  - split_and!; [done|by unfold GetTotalBurnedFromApplicationsAmount; rewrite V2|].
    rewrite X2, (executed_sum_insert _ _ _ _ Hl Nx), <- Ea, <- A1. unfold burned_apps at 1.
    unfold GetTotalBurnedFromApplicationsAmount. by rewrite V2.
  - intros j Hj. destruct (Hids j) as (Hj0 & Nj & bj & Ej); [by apply list_elem_of_further|].
    split_and!; [done| |by exists bj]. rewrite X2, elem_of_union, elem_of_singleton.
    intros [|E]; [done|]. destruct (application_ok j bj Hj0 Ej) as (_ & _ & _ & Lj & _).
    apply key_inj in E; [subst j; done|lia|lia].
  - exists w'. split_and!; [|done| | |].
    + cbn [init_apps]. unfold GetApplicationByID in Eb. destruct (IsApplicationExists (ID a)) eqn:Ex; [|done].
      cbn [negb] in Eb |- *. unfold mbind at 1, M_bind at 1, mlift. unfold GetApplicationByID. rewrite Ex.
      cbn [negb]. rewrite Eb. unfold mbind, M_bind, mmodify. fold w1. cbn [BurnAmount Amount].
      rewrite R. exact R'.
    + rewrite X', X2. cbn [fmap list_fmap list_to_set]. fold k. set_solver.
    + rewrite P', V2. cbn [es_params]. apply V1.
    + rewrite B', V2. cbn [es_burned]. apply V1.
Qed.

(** The exported ids are the executed applications, each once. *)
Lemma exported_ids w : ethiq_ok w ->
  NoDup (GetAllExecutedApplicationsIDs w) /\
  (forall id, id ∈ GetAllExecutedApplicationsIDs w -> 0 <= id /\
     exists ba, GetApplicationByID id = Ok ba) /\
  list_to_set (executedApplicationStoreKey <$> GetAllExecutedApplicationsIDs w) = executed w.
Proof.
  intros Hw. unfold GetAllExecutedApplicationsIDs. fold (executed w).
  pose proof (merge_sort_Permutation String.le (elements (executed w))) as P.
  revert P. generalize (merge_sort String.le (elements (executed w))) as ks. intros ks P.
  assert (K : forall k, k ∈ ks -> executedApplicationStoreKey (key_id k) = k /\ 0 <= key_id k /\
    exists ba, GetApplicationByID (key_id k) = Ok ba).
  { intros k Hk. rewrite P, elem_of_elements in Hk.
    destruct (eo_keys _ Hw k Hk) as (id & ba & Hid & -> & Eb).
    destruct (application_ok id ba Hid Eb) as (_ & _ & _ & Li & _).
    rewrite key_id_roundtrip by lia. eauto. }
  split_and!.
  - apply NoDup_fmap_2_strong; [|rewrite P; apply NoDup_elements].
    intros k1 k2 H1k H2k E. rewrite <- (proj1 (K k1 H1k)), <- (proj1 (K k2 H2k)). by rewrite E.
  - intros id (k & -> & Hk)%list_elem_of_fmap. by destruct (K k Hk) as (_ & ? & ?).
  - assert (E : executedApplicationStoreKey <$> map key_id ks = ks).
    { clear P. induction ks as [|k ks IH]; [done|]. cbn. f_equal; [apply K, list_elem_of_here|].
      apply IH. intros k' Hk'. apply K. by apply list_elem_of_further. }
    rewrite E. apply set_eq. intros k. by rewrite elem_of_list_to_set, P, elem_of_elements.
Qed.

(** The first two writes of [InitGenesis]. *)
Lemma init_counter_run p c w : I w -> empty_store w -> Denom c = islm ->
  exists w2, (if Amount c =? 0 then mret tt else SetTotalBurnedAmount c) (SetParams p w) = (Ok tt, w2) /\
    apps_ok w2 /\ GetTotalBurnedAmount w2 = c /\ es_params (view w2) = p /\ executed w2 = ∅.
Proof.
  intros Hi (N1 & N2 & N3) D. destruct c as [d b]. cbn [Denom Amount] in *. subst d.
  set (w1 := SetParams p w).
  assert (V1 : view w1 = mkEthiq p None None ∅).
  { unfold w1, SetParams. by rewrite view_update, N1, N2, N3. }
  assert (I1 : I w1) by (unfold w1, SetParams; by apply inv_update).
  assert (A : forall w2, I w2 -> es_burned_apps (view w2) = None -> executed w2 = ∅ -> apps_ok w2).
  { intros w2 I2 A2 X2. unfold apps_ok, burned_apps, GetTotalBurnedFromApplicationsAmount.
    rewrite A2, X2, executed_sum_empty. by split_and!. }
  destruct (Z.eqb_spec b 0) as [->|Nb].
  - exists w1. unfold GetTotalBurnedAmount. split_and!; [done| |by rewrite V1..|].
    + apply A; [done|by rewrite V1|unfold executed; by rewrite V1].
    + unfold executed. by rewrite V1.
  - unfold SetTotalBurnedAmount. rewrite bool_decide_eq_false_2 by naive_solver.
    eexists. split; [reflexivity|]. cbv zeta. unfold GetTotalBurnedAmount. rewrite view_update, V1.
    split_and!; [apply A|done|done|].
    + by apply inv_update.
    + by rewrite view_update.
    + unfold executed. by rewrite view_update.
    + unfold executed. by rewrite view_update.
Qed.

(** Export and import give the books back: importing the exported genesis into an
    empty store sets the parameters, both counters and the executed
    applications as they were (the second counter is not exported but recomputed
    from the applications), and then registers the coin. *)
Theorem ethiq_genesis_roundtrip w w0 : ethiq_ok w -> I w0 -> empty_store w0 ->
  forallb IsApplicationExists (gs_ExecutedApplications (ExportGenesis w)) = true /\
  exists w1, InitGenesis (ExportGenesis w) w0
    = (_ ← must EnsureHaqqMetadata; must EnsureHaqqERC20Registration) w1 /\
    GetParams w1 = GetParams w /\ GetTotalBurnedAmount w1 = GetTotalBurnedAmount w /\
    GetTotalBurnedFromApplicationsAmount w1 = GetTotalBurnedFromApplicationsAmount w /\
    executed w1 = executed w.
Proof.
  intros Hw Hi Em. destruct (exported_ids w Hw) as (Nd & Hids & Hset).
  destruct (eo_islm _ Hw) as [D1 D2]. split.
  { apply forallb_forall. intros id Hid%list_elem_of_In. destruct (Hids id Hid) as (_ & ba & Eb).
    unfold GetApplicationByID in Eb. by destruct (IsApplicationExists id). }
  unfold InitGenesis, ExportGenesis. cbn [gs_Params gs_TotalBurnedAmount gs_ExecutedApplications].
  destruct (init_counter_run (GetParams w) (GetTotalBurnedAmount w) w0 Hi Em D1)
    as (w2 & R2 & A2 & T2 & P2 & X2).
  destruct (init_apps_run (GetAllExecutedApplicationsIDs w) w2) as (w3 & R3 & A3 & X3 & P3 & B3);
    [done|done| |].
  { intros id Hid. destruct (Hids id Hid). split_and!; [done|rewrite X2; set_solver|done]. }
  exists w3. rewrite X2, Hset, (union_empty_l_L (executed w)) in X3. split_and!.
  - unfold mbind at 1, M_bind at 1, mmodify, mbind at 1, M_bind at 1.
    rewrite R2. unfold mbind at 1, M_bind at 1. rewrite R3. reflexivity.
  - unfold GetParams at 1. by rewrite P3.
  - rewrite <- T2. unfold GetTotalBurnedAmount. by rewrite B3.
  - destruct A3 as (_ & D3 & E3). rewrite X3, <- (eo_apps _ Hw) in E3. unfold burned_apps in E3.
    destruct (GetTotalBurnedFromApplicationsAmount w3) as [d3 b3],
      (GetTotalBurnedFromApplicationsAmount w) as [d b].
    cbn [Denom Amount] in *. by subst.
  - done.
Qed.
End invariant.

(** ** Concrete runs *)

Section examples.

#[local] Existing Instances RefOps RefLaws RefEth RefAddrCheck RefCtx RefAccountKeeper RefBankKeeper
  RefDistributionKeeper RefModuleBank RefKeeperLaws RefModuleBankLaws RefIbc RefDaoOps RefDaoLaws
  RefCurve RefCurveLaws.

(** The reference chain state with the module's state as a part of [X]. *)
Section world.
Context {X : Type} (f : X -> EthiqState) (g : EthiqState -> X -> X).
Abbreviation EW := (RefWorld X).

Definition EwLens : Lens EW EthiqState := ref_lens f g.
Definition EwBalances : BalanceKeeper EW := {| GetAllBalances := rw_all_balances |}.
Definition EwErc20 : Erc20Keeper EW := {|
  GetTokenPairID _ _ := EmptyString; GetTokenPair _ _ := None; SetTokenPair _ w := w;
  SetDenomMap _ _ w := w; SetERC20Map _ _ w := w; EnableDynamicPrecompiles _ := mret tt;
  ToggleConversion _ _ := mraise (ErrExternal "token pair not found")
|}.
Definition EwEthiqErc20 : EthiqErc20 EW := {|
  IsDenomRegistered _ _ := true; SetToken _ w := w; RegisterERC20CodeHash _ := mret tt;
  PairValid _ := true
|}.

(** The liquid coins are burnt and as many aISLM appear. *)
Definition ref_redeem (from to : string) (c : coin) : M EW unit :=
  _ ← rw_issue (-1) from [c]; rw_issue 1 to [mkCoin islm (Amount c)].
Definition EwLiquid : LiquidVestingKeeper EW := {| lvk_Redeem := ref_redeem |}.

#[local] Existing Instances EwLens EwBalances RefSupply RefSupplyLaws EwErc20 EwEthiqErc20 EwLiquid.

Lemma EwBalanceLaws : BalanceLaws EW.
Proof. constructor. intros. apply rw_all_balances_spec. Qed.

Lemma same_accounts (w w' : EW) : rw_accounts w' = rw_accounts w -> accounts_ok w -> accounts_ok w'.
Proof. intros E Hw a va. simpl. unfold rw_get_account. rewrite E. apply Hw. Qed.

Lemma ew_send_accounts from to cs (w w' : EW) : accounts_ok w -> rw_send from to cs w = (Ok tt, w') ->
  accounts_ok w'.
Proof. intros Hw (_ & E & _)%rw_send_ok. by apply (same_accounts w). Qed.

Lemma ew_issue_accounts sign who cs (w w' : EW) : accounts_ok w ->
  rw_issue sign who cs w = (Ok tt, w') -> accounts_ok w'.
Proof. intros Hw (_ & E & _)%rw_issue_ok. by apply (same_accounts w). Qed.

Lemma ew_set_account va (w : EW) : accounts_ok w -> acc_ok va -> accounts_ok (SetAccount (ClawbackAcc va) w).
Proof.
  intros Hw Hva a vb. destruct (decide (acc_address (ClawbackAcc va) = a)) as [<-|N].
  - rewrite get_set_eq. by intros [= <-].
  - rewrite get_set_ne by done. apply Hw.
Qed.

Lemma ew_redeem a b c (w w' : EW) : accounts_ok w -> 0 < Amount c -> IsLiquidToken (Denom c) = true ->
  ref_redeem a b c w = (Ok tt, w') ->
  accounts_ok w' /\ rw_ext w' = rw_ext w /\ rw_supply haqq w' = rw_supply haqq w.
Proof.
  intros Hw _ Hc E. apply M_bind_ok in E as ([] & w1 & E1 & E2).
  assert (Nh : Denom c <> haqq) by (intros Ed; by rewrite Ed in Hc). split_and!.
  - eapply ew_issue_accounts, E2. by eapply ew_issue_accounts.
  - apply rw_issue_ext in E1, E2. congruence.
  - apply (rw_issue_supply _ _ _ haqq) in E1, E2. cbn [amt Denom Amount] in E1, E2.
    rewrite decide_False in E1 by done. rewrite decide_False in E2 by done. lia.
Qed.

Lemma EwWorld (uk : UcdaoKeeper EW) :
  (forall c (w w' : EW), uk_TrackAddBalance c w = (Ok tt, w') \/ uk_TrackSubBalance c w = (Ok tt, w') ->
     rw_accounts w' = rw_accounts w /\ rw_balances w' = rw_balances w /\ f (rw_ext w') = f (rw_ext w)) ->
  EthiqWorld EW accounts_ok.
Proof.
  intros Hu. constructor; simpl.
  - done.
  - done.
  - apply ew_set_account.
  - done.
  - intros m cs w w' Hw _. by apply ew_issue_accounts.
  - intros m cs w w' Hw _. by apply ew_issue_accounts.
  - intros a m cs w w' Hw _. by apply ew_send_accounts.
  - intros m a cs w w' Hw _. by apply ew_send_accounts.
  - intros a b c w w' Hw Pc Lc E. destruct (ew_redeem _ _ _ _ _ Hw Pc Lc E) as (? & Ex & ?).
    by rewrite Ex.
  - intros c w w' Hw E. destruct (Hu _ _ _ E) as (Ea & Eb & Ex).
    split_and!; [by apply (same_accounts w)|done|unfold rw_supply; by rewrite Eb].
Qed.
End world.

Abbreviation ew_lens := (EwLens id (fun s (_ : EthiqState) => s)).
#[local] Existing Instances EwBalances RefSupply RefSupplyLaws EwErc20 EwEthiqErc20 EwLiquid EwBalanceLaws.
#[local] Instance EwId : Lens (RefWorld EthiqState) EthiqState := ew_lens.
#[local] Instance EwUcdao : UcdaoKeeper (RefWorld EthiqState) := {
  uk_TrackAddBalance _ := mret tt; uk_TrackSubBalance _ := mret tt
}.

Lemma EwState : ModuleState (RefWorld EthiqState) EthiqState.
Proof. by apply ref_module_state. Qed.

Lemma EwIdWorld : EthiqWorld (RefWorld EthiqState) accounts_ok.
Proof. apply EwWorld. by intros c w w' [[= <-]|[= <-]]. Qed.

#[local] Existing Instances EwState EwIdWorld.
Abbreviation EW := (RefWorld EthiqState).

(** Alice and the sender of application 0. *)
Definition ex_sender : string := "k5tkey8ym6596jsmsfkxpfhswuhv9xk5q5n362".

Definition ex_w0 : EW :=
  mkWorld 0 (<["alice" := EthAcc (mkBaseAccount "alice" 0 0) ""]>
             (<[ex_sender := EthAcc (mkBaseAccount ex_sender 1 0) ""]> ∅)) 2
    (<[("alice", islm) := (10 ^ 24)%N]> (<[(ex_sender, islm) := (10 ^ 26)%N]> ∅)) ∅ ∅
    (mkEthiq DefaultParams None None ∅).

Definition ex_mint : MsgMintHaqq := mkMsgMint "haqq1alice" "haqq1bob" (10 ^ 21).
Definition ex_app : MsgMintHaqqByApplication := mkMsgMintApp ("haqq1" +:+ ex_sender) 0.

Definition ex_w1 : EW := snd (MintHaqq ex_mint ex_w0).
Definition ex_w2 : EW := snd (MintHaqqByApplication ex_app ex_w1).

(** What Alice gets behind the applications, and what application 0 gets. *)
Definition ex_haqq : Z := 4861744150714068672.
Definition ex_app_haqq : Z := 13833333333333333333333333.

Lemma ex_mint_run : MintHaqq ex_mint ex_w0 = (Ok ex_haqq, ex_w1).
Proof. by vm_compute. Qed.

Lemma ex_app_run : MintHaqqByApplication ex_app ex_w1 = (Ok (ex_app_haqq, ex_sender), ex_w2).
Proof. by vm_compute. Qed.

Lemma ex_accounts : accounts_ok ex_w0.
Proof.
  assert (F : map_Forall (fun _ acc => match acc with ClawbackAcc _ => false | _ => true end = true)
    (rw_accounts ex_w0)) by (apply (bool_decide_unpack _); vm_compute; exact Logic.I).
  intros a va. simpl. unfold rw_get_account.
  destruct (rw_accounts ex_w0 !! a) as [acc|] eqn:E; simpl; [|done]. apply F in E.
  case_decide; [|done]. by intros [= ->].
Qed.

Lemma ex_ethiq_start : ethiq_ok (I:=accounts_ok) ex_w0.
Proof.
  apply fresh_ok; [exact ex_accounts|done|].
  assert (E : GetSupply haqq ex_w0 = 0) by (by vm_compute). by rewrite E.
Qed.

Lemma ex_middle : ethiq_ok (I:=accounts_ok) ex_w1.
Proof. apply (ethiq_step_ok ex_w0 ex_w1); [|exact ex_ethiq_start]. exact (step_mint _ _ _ _ ex_mint_run). Qed.

Lemma haqq_supply_bounded_witness :
  GetSupply haqq ex_w2 = ex_app_haqq + ex_haqq /\ GetSupply haqq ex_w2 < 10 ^ 26 /\ 3 * GetSupply haqq ex_w2 <= burned ex_w2.
Proof.
  split; [by vm_compute|].
  destruct (haqq_supply_bounded (I:=accounts_ok) ex_w0 ex_w2) as (_ & _ & B); [exact ex_ethiq_start| |exact B].
  apply (rtc_l _ ex_w0 ex_w1), (rtc_l _ ex_w1 ex_w2), rtc_refl.
  - exact (step_mint _ _ _ _ ex_mint_run).
  - apply (step_app ex_app (ex_app_haqq, ex_sender)); [done|exact ex_app_run].
Defined.

Lemma MintHaqq_correct_witness :
  GetBalance "bob" haqq ex_w1 = ex_haqq /\ GetBalance "alice" islm ex_w1 = 10 ^ 24 - 10 ^ 21.
Proof.
  destruct (MintHaqq_correct (I:=accounts_ok) ex_mint ex_haqq ex_w0 ex_w1 ex_ethiq_start ex_mint_run)
    as (from & to & Ef & Et & _ & _ & _ & _ & _ & _ & _ & P).
  injection Ef as <-. injection Et as <-.
  assert (F : Forall (fun c => IsLiquidToken (Denom c) = false) (GetAllBalances "alice" ex_w0))
    by (apply (bool_decide_unpack _); vm_compute; exact Logic.I).
  specialize (P F). split; rewrite P; by vm_compute.
Defined.

Lemma MintHaqqByApplication_correct_witness :
  public ex_w2 = public ex_w1 /\ executedApplicationStoreKey 0 ∉ executed ex_w1.
Proof.
  destruct (MintHaqqByApplication_correct (I:=accounts_ok) ex_app ex_app_haqq ex_sender ex_w1 ex_w2
    ex_middle ltac:(done) ex_app_run) as (a & from & w1 & _ & _ & N & _ & _ & _ & _ & _ & _ & P & _).
  split; [exact P|exact N].
Defined.

Lemma application_runs_once_witness :
  BurnIslmForHaqqByApplicationID "alice" 0 ex_w2 = (Err ErrInvalidApplicationID, ex_w2).
Proof.
  exact (application_runs_once (I:=accounts_ok) ex_app (ex_app_haqq, ex_sender) ex_w1 ex_w2 ex_w2 "alice"
    ex_middle ltac:(done) ex_app_run (rtc_refl _ _)).
Defined.

Lemma ethiq_genesis_roundtrip_witness :
  exists w1, InitGenesis (ExportGenesis ex_w1) ex_w0 = (Ok tt, w1) /\ GetTotalBurnedAmount w1 = mkCoin islm (10 ^ 21).
Proof.
  destruct (ethiq_genesis_roundtrip (I:=accounts_ok) ex_w1 ex_w0 ex_middle ex_accounts ltac:(done))
    as (_ & w1 & E & _ & T & _).
  exists w1. split; [exact E|]. rewrite T. by vm_compute.
Defined.
End examples.
