(* ===== verification/EthiqQuery.v ===== *)
(** * x/ethiq: keeper/grpc_query.go and types/authz.go

    The queries, with their paging over the registered applications, and the
    authorizations for x/authz. *)

From S2P Require Import Prelude.
From S2P Require Import Sdk.
From S2P Require Import Schedule.
From S2P Require Import ClawbackAccount.
From S2P Require Import Keepers.
From S2P Require Import LiquidSchedule.
From S2P Require Import TokenPair.
From S2P Require Import LiquidVesting.
From S2P Require Import Ucdao.
From S2P Require Import UcdaoInvariant.
From S2P Require Import EthiqData.
From S2P Require Import EthiqCurve.
From S2P Require Import Ethiq.
From S2P Require Import EthiqTheory.

Local Open Scope Z_scope.

(** ** Requests and responses *)

Record PageRequest := mkPage { Offset : Z; Limit : Z; CountTotal : bool }.
Record PageResponse := mkPageResponse { Total : Z }.

Record QueryCalculateResponse := mkCalculate {
  EstimatedHaqqAmount : Z;
  SupplyBefore : Z;
  SupplyAfter : Z;
  (** times 10^18 *)
  AveragePrice : Z
}.

(** [query.DefaultLimit] *)
Definition DefaultLimit : Z := 100.

(** [LegacyNewDecFromInt(x).Quo(LegacyNewDecFromInt(y))] as its value times 10^18, and
    whether [make] gives a slice of that capacity. *)
Class QueryOps := { DecRatio : Z -> Z -> Z; make_ok : Z -> bool }.

Section queries.
Context {W : Type} `{SdkOps, EthOps, DaoOps, CurveOps, QueryOps}.
Context `{SupplyKeeper W, Lens W EthiqState}.

Definition empty_request : err := ErrText "empty request".

(** A query without parameters: the request may be nil. *)
Definition query {A} (req : option unit) (f : W -> A) (w : W) : res A :=
  match req with None => Err empty_request | Some _ => Ok (f w) end.

Definition TotalBurned (req : option unit) : W -> res (coin * coin) :=
  query req (fun w => (GetTotalBurnedAmount w, GetTotalBurnedFromApplicationsAmount w)).

Definition query_Params (req : option unit) : W -> res Params := query req GetParams.

(** The common end of the two calculations. *)
Definition estimate (islmAmount haqqToBeMinted : Z) (w : W) : QueryCalculateResponse :=
  let averagePrice := if haqqToBeMinted =? 0 then 0 else DecRatio islmAmount haqqToBeMinted in
  let haqqSupplyBefore := GetSupply haqq w in
  mkCalculate haqqToBeMinted haqqSupplyBefore (haqqSupplyBefore + haqqToBeMinted) averagePrice.

Definition query_Calculate (req : option string) (w : W) : res QueryCalculateResponse :=
  match req with
  | None => Err empty_request
  | Some s =>
      match NewIntFromString s with
      | None => Err (ErrText "invalid islm amount")
      | Some islmAmount =>
          if islmAmount <=? 0 then Err (ErrText "islm_amount must be positive") else
          haqqToBeMinted ← match CalculateHaqqCoinsToMint islmAmount w with
                           | Err _ => Err (ErrText "failed to calculate aHAQQ amount")
                           | r => r
                           end;
          Ok (estimate islmAmount haqqToBeMinted w)
      end
  end.

(** [status.Error(codes.InvalidArgument, err.Error())] *)
Definition invalid_argument {A} (r : res A) : res A :=
  match r with Err _ => Err (ErrText "invalid argument") | r => r end.

Definition CalculateForApplication (req : option Z) (w : W) : res (QueryCalculateResponse * string) :=
  match req with
  | None => Err empty_request
  | Some appID =>
      burnApplication ← invalid_argument (GetApplicationByID appID);
      haqqToBeMinted ← match CalculateHaqqAmount (Amount (BurnedBeforeAmount burnApplication))
                               (Amount (BurnAmount burnApplication)) with
                       | Err _ => Err (ErrText "failed to calculate aHAQQ amount")
                       | r => r
                       end;
      Ok (estimate (Amount (BurnAmount burnApplication)) haqqToBeMinted w, app_ToAddress burnApplication)
  end.

(** [burnApplication.IsExecuted = k.IsApplicationExecuted(sdkCtx, burnApplication.Id)] *)
Definition set_is_executed (b : bool) (a : BurnApplication) : BurnApplication :=
  mkApplication (app_Id a) (app_FromAddress a) (app_ToAddress a) (Source a) (BurnAmount a)
    (BurnedBeforeAmount a) b (IsCanceled a).

(** The loop from [i] on; [fuel] bounds the applications that are left. *)
Fixpoint page_loop (fuel : nat) (i total lastOnThisPage : Z) (get : Z -> res BurnApplication) (w : W)
    : res (list BurnApplication) :=
  match fuel with
  | O => Ok []
  | S fuel =>
      if (i <? total) && (i <=? lastOnThisPage) then
        burnApplication ← get i;
        applications ← page_loop fuel (i + 1) total lastOnThisPage get w;
        Ok (set_is_executed (IsApplicationExecuted (app_Id burnApplication) w) burnApplication
            :: applications)
      else Ok []
  end.

(** One page of [total] applications; the body that both list queries share.  The
    arithmetic is that of [uint64]. *)
Definition page (pagination : option PageRequest) (total : Z) (get : Z -> res BurnApplication) (w : W)
    : res (list BurnApplication * PageResponse) :=
  let '(offset, limit, countTotal) :=
    match pagination with
    | Some p => (Offset p, Limit p, CountTotal p)
    | None => (0, DefaultLimit, false)
    end in
  let limit := if limit =? 0 then DefaultLimit else limit in
  let lastOnThisPage := wrap_u64 (wrap_u64 (offset + limit) - 1) in
  let lastOnThisPage := if total <=? lastOnThisPage then wrap_u64 (total - 1) else lastOnThisPage in
  if negb (make_ok limit) then Panic else
  let paginationResponse := mkPageResponse (if countTotal : bool then total else 0) in
  if total <=? offset then Ok ([], paginationResponse) else
  applications ← page_loop (Z.to_nat (total - offset)) offset total lastOnThisPage get w;
  Ok (applications, paginationResponse).

Definition GetApplications (req : option (option PageRequest)) (w : W)
    : res (list BurnApplication * PageResponse) :=
  match req with
  | None => Err empty_request
  | Some pagination =>
      page pagination TotalNumberOfApplications (fun i => invalid_argument (GetApplicationByID i)) w
  end.

Definition GetSendersApplications (req : option (string * option PageRequest)) (w : W)
    : res (list BurnApplication * PageResponse) :=
  match req with
  | None => Err empty_request
  | Some (sender, pagination) =>
      page pagination (TotalNumberOfApplicationsBySender sender)
        (fun i => invalid_argument (GetSendersApplicationIDByIndex sender i)) w
  end.
End queries.

(** ** Authorizations (types/authz.go) *)

Inductive EthiqMsg :=
  | EMintHaqq (m : MsgMintHaqq)
  | EMintHaqqByApplication (m : MsgMintHaqqByApplication).

Record MintHaqqAuthorization := mkMintAuth { mh_SpendLimit : option coin }.
Record MintHaqqByApplicationIDAuthorization := mkMintAppAuth { ApplicationsList : list Z }.

Section authz.
Context `{SdkOps, DaoOps}.

Definition mint_auth_ValidateBasic (m : MintHaqqAuthorization) : res unit :=
  match mh_SpendLimit m with
  | None => Ok tt
  | Some l =>
      if negb (CoinValidate l) then Err (ErrExternal "coin") else
      if bool_decide (Denom l <> islm) then Err (ErrText "spend limit denom must be aISLM") else
      if Amount l <=? 0 then Err (ErrText "spend limit amount must be positive") else Ok tt
  end.

Definition NewMintHaqqAuthorization (amount : option coin) : res MintHaqqAuthorization :=
  let a := mkMintAuth amount in _ ← mint_auth_ValidateBasic a; Ok a.

Definition mint_Accept (m : MintHaqqAuthorization) (msg : EthiqMsg)
    : res (AcceptResponse MintHaqqAuthorization) :=
  match msg with
  | EMintHaqq mintMsg =>
      match mh_SpendLimit m with
      | Some l =>
          if Amount l <? mm_IslmAmount mintMsg then Err (ErrText "exceeds spend limit") else
          let remaining := Amount l - mm_IslmAmount mintMsg in
          if remaining =? 0 then Ok (mkAccept true true None)
          else Ok (mkAccept true false (Some (mkMintAuth (Some (mkCoin (Denom l) remaining)))))
      | None => Ok (mkAccept true false None)
      end
  | _ => Err (ErrText "unexpected message")
  end.

Definition mint_app_ValidateBasic (m : MintHaqqByApplicationIDAuthorization) : res unit :=
  if forallb IsApplicationExists (ApplicationsList m) then Ok tt else Err ErrInvalidApplicationID.

Definition NewMintHaqqByApplicationAuthorization (appID : Z)
    : res MintHaqqByApplicationIDAuthorization :=
  let a := mkMintAppAuth [appID] in _ ← mint_app_ValidateBasic a; Ok a.

(** The loop over the list: what remains, and whether [appID] was found. *)
Fixpoint remove_id (appID : Z) (ids : list Z) : list Z * bool :=
  match ids with
  | [] => ([], false)
  | allowedID :: rest =>
      let '(remaining, allowed) := remove_id appID rest in
      if allowedID =? appID then (remaining, true) else (allowedID :: remaining, allowed)
  end.

Definition mint_app_Accept (m : MintHaqqByApplicationIDAuthorization) (msg : EthiqMsg)
    : res (AcceptResponse MintHaqqByApplicationIDAuthorization) :=
  match msg with
  | EMintHaqqByApplication mintMsg =>
      let appID := mp_ApplicationId mintMsg in
      match ApplicationsList m with
      | [] => Err (ErrText "application ID is not in allow list")
      | _ =>
          let '(remaining, allowed) := remove_id appID (ApplicationsList m) in
          if negb allowed then Err (ErrText "application ID is not in allow list") else
          match remaining with
          | [] => Ok (mkAccept true true None)
          | _ => Ok (mkAccept true false (Some (mkMintAppAuth remaining)))
          end
      end
  | _ => Err (ErrText "unexpected message")
  end.
End authz.

(** ** Theorems *)

(** Capacities are bounded by the address space. *)
Class QueryLaws `{QueryOps} : Prop := { make_bound n : make_ok n = true -> n < 2 ^ 48 }.

(** The applications of a sender, in the order of the list. *)
Definition applications_of (sender : string) : list ApplicationListItem :=
  filter (fun a => item_FromAddress a = sender) registeredApplications.

(** The map [registeredApplicationsBySender] is the index of the list: it has the senders
    of the list, with the ids of their applications in order. *)
Lemma index_complete sender : default [] (lookup_sender sender registeredApplicationsBySender)
  = ID <$> applications_of sender.
Proof.
  assert (F : Forall (fun e => lookup_sender e.1 registeredApplicationsBySender = Some e.2 /\
      e.2 = ID <$> applications_of e.1) registeredApplicationsBySender)
    by (apply (bool_decide_unpack _); vm_compute; exact I).
  assert (G : Forall (fun a => item_FromAddress a ∈ registeredApplicationsBySender.*1) registeredApplications)
    by (apply (bool_decide_unpack _); vm_compute; exact I).
  destruct (decide (sender ∈ registeredApplicationsBySender.*1)) as [Hs|Ns].
  - apply list_elem_of_fmap in Hs as (e & -> & He). rewrite list.Forall_forall in F.
    destruct (F e He) as [-> E]. exact E.
  - assert (E1 : lookup_sender sender registeredApplicationsBySender = None).
    { revert Ns. clear. generalize registeredApplicationsBySender. intros m.
      induction m as [|[s ids] m IH]; intros Ns; [done|]. cbn [lookup_sender].
      rewrite fmap_cons in Ns. apply not_elem_of_cons in Ns as [N1 N2].
      rewrite bool_decide_eq_false_2 by (cbn [fst] in N1; congruence). by apply IH. }
    assert (E2 : applications_of sender = []).
    { unfold applications_of. revert G. clear -Ns. generalize registeredApplications. intros l G.
      induction G as [|a l Ha _ IH]; [done|]. rewrite filter_cons_False; [done|congruence]. }
    by rewrite E1, E2.
Qed.

Lemma short_list : Z.of_nat (length registeredApplications) < 2 ^ 32.
Proof. by vm_compute. Qed.

#[local] Opaque registeredApplications registeredApplicationsBySender.

Section theorems.
Context {W : Type} `{SdkLaws, EthOps, !DaoOps, !DaoLaws, CurveLaws, QueryLaws}.
Context `{SupplyKeeper W, Lens W EthiqState}.
Implicit Types w : W.

Lemma page_loop_spec fuel i total last get (f : Z -> BurnApplication) w :
  (forall j, i <= j < total -> get j = Ok (f j)) -> total - i <= Z.of_nat fuel ->
  page_loop fuel i total last get w
  = Ok ((fun j => set_is_executed (IsApplicationExecuted (app_Id (f j)) w) (f j))
          <$> seqZ i (Z.min total (last + 1) - i)).
Proof.
  revert i. induction fuel as [|fuel IH]; intros i Hg Hf; cbn [page_loop].
  { by rewrite seqZ_nil by lia. }
  destruct (Z.ltb_spec i total), (Z.leb_spec i last); cbn [andb]; [|by rewrite seqZ_nil by lia..].
  rewrite Hg by lia. cbn [mbind res_bind]. rewrite IH; [|intros; apply Hg; lia|lia].
  rewrite (seqZ_cons i) by lia. cbn [mbind res_bind fmap list_fmap]. do 4 f_equal; lia.
Qed.

(** The numbers of a page, as elements of the list. *)
Lemma seq_slice {A B} (l : list A) (f : Z -> B) (g : A -> B) offset limit :
  0 <= offset -> (forall j a, l !! j = Some a -> f (Z.of_nat j) = g a) ->
  f <$> seqZ offset (Z.min limit (Z.of_nat (length l) - offset))
  = g <$> take (Z.to_nat limit) (drop (Z.to_nat offset) l).
Proof.
  intros Ho Hf. apply list_eq. intros i. rewrite !list_lookup_fmap.
  destruct (decide (Z.of_nat i < Z.min limit (Z.of_nat (length l) - offset))) as [Hi|Hi].
  - rewrite (proj2 (lookup_seqZ offset (Z.min limit (Z.of_nat (length l) - offset)) i (offset + Z.of_nat i)))
      by lia.
    rewrite lookup_take_lt, lookup_drop by lia.
    destruct (lookup_lt_is_Some_2 l (Z.to_nat offset + i)) as [a Ea]; [lia|]. rewrite Ea. cbn [fmap option_fmap option_map].
    f_equal. rewrite <- (Hf _ _ Ea). f_equal. lia.
  - rewrite (lookup_ge_None_2 (seqZ _ _)) by (rewrite length_seqZ; lia).
    rewrite (lookup_ge_None_2 (take _ _)); [done|]. rewrite length_take, length_drop. lia.
Qed.

Definition page_limit (p : PageRequest) : Z := if Limit p =? 0 then DefaultLimit else Limit p.

Lemma page_spec p {A} (l : list A) get (f : Z -> BurnApplication) g w :
  0 <= Offset p -> 0 <= Limit p -> make_ok (page_limit p) = true ->
  Z.of_nat (length l) < 2 ^ 32 ->
  (forall j a, l !! j = Some a -> get (Z.of_nat j) = Ok (f (Z.of_nat j)) /\
     set_is_executed (IsApplicationExecuted (app_Id (f (Z.of_nat j))) w) (f (Z.of_nat j)) = g a) ->
  page (Some p) (Z.of_nat (length l)) get w
  = Ok (g <$> take (Z.to_nat (page_limit p)) (drop (Z.to_nat (Offset p)) l),
        mkPageResponse (if CountTotal p then Z.of_nat (length l) else 0)).
Proof.
  intros Ho Hl Hm Hlen Hf. unfold page. fold (page_limit p). rewrite Hm. cbn [negb].
  pose proof (make_bound _ Hm) as Hb.
  assert (P : 0 < page_limit p) by (unfold page_limit, DefaultLimit; destruct (Z.eqb_spec (Limit p) 0); lia).
  destruct (Z.leb_spec (Z.of_nat (length l)) (Offset p)) as [Hge|Hlt].
  { rewrite (drop_ge l) by lia. by rewrite take_nil. }
  rewrite (wrap_u64_id (Offset p + page_limit p)), (wrap_u64_id (_ - 1)) by lia.
  rewrite (page_loop_spec _ _ _ _ _ f); [| |lia].
  - cbn [mbind res_bind]. do 2 f_equal.
    rewrite <- (seq_slice l (fun j => set_is_executed (IsApplicationExecuted (app_Id (f j)) w) (f j)) g);
      [|done|intros j a Ha; by apply Hf].
    f_equal. f_equal.
    destruct (Z.leb_spec (Z.of_nat (length l)) (Offset p + page_limit p - 1)); [rewrite wrap_u64_id|]; lia.
  - intros j Hj. destruct (lookup_lt_is_Some_2 l (Z.to_nat j)) as [a Ea]; [lia|].
    rewrite <- (Z2Nat.id j) by lia. by apply Hf in Ea as [E _].
Qed.

(** The entry of an application in a response. *)
Definition described w (a : ApplicationListItem) : BurnApplication :=
  mkApplication (ID a) (item_FromAddress a) (item_ToAddress a) (FundSource a)
    (mkCoin islm (item_burn a)) (mkCoin islm (item_before a)) (IsApplicationExecuted (ID a) w)
    (item_burn a =? 0).

(** The addresses of the list are addresses of the chain. *)
Definition addresses_ok : Prop := forall a, a ∈ registeredApplications ->
  is_Some (AccAddressFromBech32 (item_FromAddress a)) /\ is_Some (AccAddressFromBech32 (item_ToAddress a)).

Lemma sources_ok : Forall (fun a => FundSource a = SOURCE_OF_FUNDS_BANK \/ FundSource a = SOURCE_OF_FUNDS_UCDAO)
  registeredApplications.
Proof. apply (bool_decide_unpack _); vm_compute; exact I. Qed.

(** Every registered application is well-formed. *)
Lemma application_total j a : addresses_ok -> ValidDenom islm = true ->
  registeredApplications !! j = Some a ->
  GetApplicationByID (ID a) = Ok (mkApplication (ID a) (item_FromAddress a) (item_ToAddress a) (FundSource a)
    (mkCoin islm (item_burn a)) (mkCoin islm (item_before a)) false (item_burn a =? 0)).
Proof.
  intros Had Hd Ha. pose proof (contiguous_lookup _ _ _ _ _ registered_contiguous Ha)
    as (Ei & Eb & Ea & _ & [_ Lb] & La). destruct (items_nonneg _ _ Ha) as [Pb Pa].
  pose proof (lookup_lt_Some _ _ _ Ha) as Lj. rewrite Z.add_0_l in Ei.
  unfold GetApplicationByID, IsApplicationExists, TotalNumberOfApplications.
  destruct (Z.ltb_spec (ID a) (Z.of_nat (length registeredApplications))); [|lia]. cbn [negb].
  rewrite Ei, Nat2Z.id, Ha. unfold AsBurnApplication.
  rewrite (new_int_digits _ _ Eb ltac:(lia)), (new_int_digits _ _ Ea ltac:(lia)).
  rewrite !new_coin_ok by done. cbn [mbind res_bind].
  destruct (Had a) as [[x1 E1] [x2 E2]]; [by eapply list_elem_of_lookup_2|].
  unfold Application_ValidateBasic, ethiq_address. cbn [app_FromAddress app_ToAddress Source BurnAmount
    BurnedBeforeAmount Denom]. rewrite E1, E2. cbn [mbind res_bind].
  pose proof sources_ok as F. rewrite list.Forall_forall in F.
  specialize (F a ltac:(by eapply list_elem_of_lookup_2)).
  assert (S : bool_decide (FundSource a <> SOURCE_OF_FUNDS_BANK)
    && bool_decide (FundSource a <> SOURCE_OF_FUNDS_UCDAO) = false).
  { apply andb_false_iff. rewrite !bool_decide_eq_false. destruct F as [->| ->]; tauto. }
  rewrite S. rewrite !(proj2 (coin_validate_spec _)) by done. cbn [negb].
  rewrite !bool_decide_eq_false_2 by tauto. by rewrite Ei.
Qed.

(** [GetApplications] returns exactly the asked slice of the list of applications, each with
    the mark whether it was executed. *)
Theorem GetApplications_page p w : addresses_ok -> ValidDenom islm = true ->
  0 <= Offset p -> 0 <= Limit p -> make_ok (page_limit p) = true ->
  GetApplications (Some (Some p)) w
  = Ok (described w <$> take (Z.to_nat (page_limit p)) (drop (Z.to_nat (Offset p)) registeredApplications),
        mkPageResponse (if CountTotal p then Z.of_nat (length registeredApplications) else 0)).
Proof.
  intros Had Hd Ho Hl Hm. unfold GetApplications, TotalNumberOfApplications.
  apply (page_spec p registeredApplications _
    (fun j => match GetApplicationByID j with Ok a => a | _ => mkApplication 0 "" "" SOURCE_OF_FUNDS_BANK
                (mkCoin islm 0) (mkCoin islm 0) false false end)); [done..|exact short_list|].
  - intros j a Ha. pose proof (application_total j a Had Hd Ha) as E.
    pose proof (contiguous_lookup _ _ _ _ _ registered_contiguous Ha) as (Ei & _).
    rewrite Z.add_0_l in Ei. rewrite Ei in E. rewrite E. cbn. rewrite <- Ei. done.
Qed.

(** [GetSendersApplications] returns exactly the asked slice of the applications of the sender,
    in the order of the list: the separate table of senders agrees with the list. *)
Theorem GetSendersApplications_page sender p w : addresses_ok -> ValidDenom islm = true ->
  0 <= Offset p -> 0 <= Limit p -> make_ok (page_limit p) = true ->
  GetSendersApplications (Some (sender, Some p)) w
  = Ok (described w <$> take (Z.to_nat (page_limit p)) (drop (Z.to_nat (Offset p)) (applications_of sender)),
        mkPageResponse (if CountTotal p then Z.of_nat (length (applications_of sender)) else 0)).
Proof.
  intros Had Hd Ho Hl Hm. pose proof (index_complete sender) as Ix.
  assert (Ht : TotalNumberOfApplicationsBySender sender = Z.of_nat (length (applications_of sender))).
  { unfold TotalNumberOfApplicationsBySender. rewrite <- (length_fmap ID), <- Ix.
    by destruct (lookup_sender _ _). }
  unfold GetSendersApplications. rewrite Ht.
  apply (page_spec p (applications_of sender) _
    (fun j => match GetSendersApplicationIDByIndex sender j with Ok a => a
              | _ => mkApplication 0 "" "" SOURCE_OF_FUNDS_BANK (mkCoin islm 0) (mkCoin islm 0) false false end));
    [done..| |].
  - apply (Z.le_lt_trans _ (Z.of_nat (length registeredApplications))).
    + apply inj_le, length_filter.
    + exact short_list.
  - intros j a Ha. assert (Hin : a ∈ registeredApplications).
    { apply list_elem_of_lookup_2 in Ha. by apply list_elem_of_filter in Ha as [_ ?]. }
    apply list_elem_of_lookup in Hin as [k Hk]. pose proof (application_total k a Had Hd Hk) as E.
    assert (El : default [] (lookup_sender sender registeredApplicationsBySender) !! j = Some (ID a))
      by (by rewrite Ix, list_lookup_fmap, Ha).
    unfold GetSendersApplicationIDByIndex.
    destruct (lookup_sender sender registeredApplicationsBySender) as [ids|]; [|done].
    cbn [default id] in El. rewrite Nat2Z.id, El, E. done.
Qed.

(** ** Authorizations *)

Definition mint_spends (m : EthiqMsg) : Z :=
  match m with EMintHaqq m => mm_IslmAmount m | _ => 0 end.

Lemma mint_limited : limited mint_spends mint_Accept mh_SpendLimit.
Proof.
  constructor. intros [lo] l m r El Ea. cbn [mh_SpendLimit] in El. subst lo.
  destruct m; try discriminate Ea. cbn [mint_Accept mh_SpendLimit mint_spends] in *. revert Ea.
  destruct (Z.ltb_spec (Amount l) (mm_IslmAmount m)); [done|].
  destruct (Z.eqb_spec (Amount l - mm_IslmAmount m) 0); intros [= <-]; (split; [lia|]); try done. eauto 10.
Qed.

(** The applications a sequence of messages executes. *)
Definition executed_ids (msgs : list EthiqMsg) : list Z :=
  omap (fun m => match m with EMintHaqqByApplication m => Some (mp_ApplicationId m) | _ => None end) msgs.

Lemma remove_id_spec id ids : remove_id id ids = (filter (fun i => i <> id) ids, bool_decide (id ∈ ids)).
Proof.
  induction ids as [|i ids IH]; [done|]. cbn [remove_id]. rewrite IH.
  destruct (Z.eqb_spec i id) as [->|N].
  - rewrite filter_cons_False by tauto. f_equal. symmetry. apply bool_decide_eq_true_2, list_elem_of_here.
  - rewrite filter_cons_True by done. f_equal. apply bool_decide_ext. rewrite elem_of_cons. naive_solver.
Qed.

Lemma app_auth_run msgs a : authz_run mint_app_Accept a msgs = true ->
  length (executed_ids msgs) = length msgs /\ NoDup (executed_ids msgs) /\
  executed_ids msgs ⊆ ApplicationsList a.
Proof.
  revert a. induction msgs as [|m msgs IH]; intros a E; [split_and!; [done|constructor|set_solver]|].
  cbn [authz_run] in E. destruct m as [m|m]; [done|]. cbn [mint_app_Accept executed_ids omap list_omap] in *.
  fold (executed_ids msgs). destruct (ApplicationsList a) as [|i ids] eqn:El; [done|]. rewrite <- El in *. clear El.
  rewrite remove_id_spec in E.
  destruct (bool_decide_reflect (mp_ApplicationId m ∈ ApplicationsList a)) as [Hin|]; [|done].
  cbn [negb] in E. destruct (filter _ (ApplicationsList a)) as [|j js] eqn:Ef; cbn [Accept Delete Updated andb default] in E.
  - apply bool_decide_eq_true in E as ->. cbn. split_and!; [done|apply NoDup_singleton|set_solver].
  - destruct (IH _ E) as (L & N & S). cbn [ApplicationsList id] in S. rewrite <- Ef in S.
    assert (S' : forall k, k ∈ executed_ids msgs -> k <> mp_ApplicationId m /\ k ∈ ApplicationsList a).
    { intros k Hk. apply S in Hk. by apply list_elem_of_filter in Hk. }
    split_and!; [by cbn [length]; rewrite L| |].
    + constructor; [|done]. intros Hk. by destruct (S' _ Hk).
    + intros k [->|Hk]%elem_of_cons; [done|by apply S'].
Qed.

(** Authorizations: whatever is executed under an authorization to mint with a
    limit burns at most the limit altogether, and under an authorization for
    applications every message runs one of the listed applications, no two the
    same. *)
Theorem mint_authorizations_hold limit ma aa msgs :
  NewMintHaqqAuthorization (Some limit) = Ok ma ->
  (authz_run mint_Accept ma msgs = true -> sum_over mint_spends msgs <= Amount limit) /\
  (authz_run mint_app_Accept aa msgs = true -> length (executed_ids msgs) = length msgs /\
     NoDup (executed_ids msgs) /\ executed_ids msgs ⊆ ApplicationsList aa).
Proof.
  intros E. split; [|apply app_auth_run]. unfold NewMintHaqqAuthorization in E.
  apply res_bind_ok in E as ([] & Ev & E). injection E as <-. intros R.
  assert (P : 0 <= Amount limit).
  { unfold mint_auth_ValidateBasic in Ev. cbn [mh_SpendLimit] in Ev. destruct (negb _); [done|].
    destruct (bool_decide _); [done|]. destruct (Z.leb_spec (Amount limit) 0); [done|lia]. }
  by apply (limited_run mint_spends mint_Accept mh_SpendLimit (mkMintAuth (Some limit))); [apply mint_limited|..].
Qed.
End theorems.

(** ** Concrete runs *)

Section examples.

#[local] Existing Instances RefOps RefLaws RefEth RefDaoOps RefDaoLaws RefCurve RefCurveLaws.

#[local] Instance RefQuery : QueryOps := { DecRatio x y := x * 10 ^ 18 / y; make_ok n := n <? 2 ^ 40 }.

Lemma RefQueryLaws : QueryLaws.
Proof. constructor. intros n E%Z.ltb_lt. simpl. lia. Qed.
#[local] Existing Instance RefQueryLaws.

#[local] Instance UnitLens : Lens EthiqState EthiqState := { view := id; update s _ := s }.

Lemma ref_addresses_ok : addresses_ok.
Proof.
  assert (F : Forall (fun a => is_Some (AccAddressFromBech32 (item_FromAddress a)) /\
    is_Some (AccAddressFromBech32 (item_ToAddress a))) registeredApplications)
    by (apply (bool_decide_unpack _); vm_compute; exact I).
  intros a Ha. rewrite list.Forall_forall in F. by apply F.
Qed.

(** The second of the applications of a sender. *)
Lemma GetSendersApplications_page_witness :
  exists a, GetSendersApplications (Some ("haqq1hc04df4sh90vg6nw7urlg6p5ek7qqvrq2kc2hr", Some (mkPage 1 1 true)))
    (mkEthiq DefaultParams None None ∅) = Ok ([a], mkPageResponse 2) /\ app_Id a = 136.
Proof.
  eexists. rewrite (GetSendersApplications_page "haqq1hc04df4sh90vg6nw7urlg6p5ek7qqvrq2kc2hr" (mkPage 1 1 true)
    (mkEthiq DefaultParams None None ∅)); [|exact ref_addresses_ok|done..].
  split; [vm_compute; reflexivity|reflexivity].
Defined.

Lemma mint_authorizations_hold_witness :
  sum_over mint_spends [EMintHaqq (mkMsgMint "a" "b" 30); EMintHaqq (mkMsgMint "a" "c" 70)] <= 100 /\
  NoDup (executed_ids [EMintHaqqByApplication (mkMsgMintApp "a" 3); EMintHaqqByApplication (mkMsgMintApp "a" 1)]).
Proof.
  split.
  - apply (mint_authorizations_hold (mkCoin islm 100) (mkMintAuth (Some (mkCoin islm 100))) (mkMintAppAuth []));
      reflexivity.
  - apply (mint_authorizations_hold (mkCoin islm 100) (mkMintAuth (Some (mkCoin islm 100))) (mkMintAppAuth [1; 2; 3]));
      reflexivity.
Defined.
End examples.
