(* ===== verification/DaoEthiq.v ===== *)
(** * x/ucdao and x/ethiq together

    The keepers wired as app/app.go wires them: the DAO converts through
    [Ethiq.BurnIslmForHaqq], and x/ethiq books redeemed coins with the DAO's
    [TrackAddBalance] and [TrackSubBalance].  The interfaces the two theories were
    proved against are discharged by each other's operations. *)

From stdpp Require Import relations.
From S2P Require Import Prelude.
From S2P Require Import Sdk.
From S2P Require Import Schedule.
From S2P Require Import ClawbackAccount.
From S2P Require Import Keepers.
From S2P Require Import VestingMsg.
From S2P Require Import VestingKeeper.
From S2P Require Import LiquidSchedule.
From S2P Require Import TokenPair.
From S2P Require Import LiquidVesting.
From S2P Require Import Ucdao.
From S2P Require Import UcdaoInvariant.
From S2P Require Import EthiqData.
From S2P Require Import EthiqCurve.
From S2P Require Import Ethiq.
From S2P Require Import EthiqTheory.
From S2P Require Import EthiqInvariant.

Local Open Scope Z_scope.

#[local] Opaque registeredApplications sum_apps item_haqq CalculateHaqqAmount price_levels haqq_for
  curve_capacity Prices GetSumOfAllApplications.

Section wiring.
Context {W : Type} `{SdkOps, EthOps, DaoOps, CurveOps, AddrCheck}.
Context `{Ctx W, AccountKeeper W, BankKeeper W, ModuleBank W, BalanceKeeper W, SupplyKeeper W}.
Context `{LiquidVestingKeeper W, Lens W EthiqState, Lens W DaoState}.

Definition wired_ucdao : UcdaoKeeper W :=
  {| uk_TrackAddBalance := TrackAddBalance; uk_TrackSubBalance := TrackSubBalance |}.

#[local] Existing Instance wired_ucdao.

Definition wired_ethiq : EthiqKeeper W := {| ethiqk := Some BurnIslmForHaqq |}.
End wiring.

(** Sending coins and writing the DAO's store do not touch x/ethiq. *)
Class DaoEthiqFrame (W : Type) `{BankKeeper W, SupplyKeeper W, Lens W EthiqState, Lens W DaoState}
    : Prop := {
  send_ethiq from to cs (w w' : W) r : SendCoins from to cs w = (r, w') ->
    view (S:=EthiqState) w' = view w /\ GetSupply haqq w' = GetSupply haqq w;
  dao_supply (s : DaoState) (w : W) : GetSupply haqq (update s w) = GetSupply haqq w
}.

Section composition.
Context {W : Type} {I : W -> Prop} `{SdkLaws} `{EthOps} `{!DaoOps} `{!DaoLaws} `{CurveLaws}.
Context `{IbcOps} `{AddrCheck}.
Context `{Ctx W, AccountKeeper W, BankKeeper W, DistributionKeeper W, ModuleBank W}.
Context `{BalanceKeeper W, SupplyKeeper W, Erc20Keeper W, EthiqErc20 W}.
Context `{LiquidVestingKeeper W, Lens W EthiqState, Lens W DaoState}.
#[local] Existing Instances wired_ucdao wired_ethiq.
Context `{!KeeperLaws W} `{!ModuleBankLaws W} `{!SupplyLaws W} `{!ModuleState W EthiqState} `{!ModuleState W DaoState}.
Context `{!Separate W EthiqState DaoState} `{!Separate W DaoState EthiqState}.
Context `{!BalanceLaws W} `{!EthiqWorld W I} `{!DaoWorld W I} `{!LiquidVestingLaws W I}.
Context `{!DaoEthiqFrame W}.
Implicit Types w : W.

Abbreviation ok := (ethiq_ok (I:=I)).

Lemma other_step w w' : ok w -> I w' -> view (S:=EthiqState) w' = view w ->
  GetSupply haqq w' = GetSupply haqq w -> ok w'.
Proof. intros Hw Hi V S. apply (ethiq_step_ok w w'); [|done]. apply step_other; [done|done|lia]. Qed.

(** The invariant of x/ethiq is one of the DAO's environment. *)
Lemma wired_dao_world : DaoWorld W ok.
Proof.
  constructor.
  - intros from to cs w w' r. apply send_view.
  - intros from to cs w w' Hw E. destruct (send_ethiq _ _ _ _ _ _ E).
    apply (other_step w); [done|eapply send_inv, E; apply Hw|done|done].
  - intros from to cs w. apply (send_invalid (I:=I)).
  - intros s w Hw. apply (other_step w); [done|apply update_inv, Hw|apply view_update_sep|apply dao_supply].
Qed.

Lemma wired_liquid_laws : LiquidVestingLaws W ok.
Proof.
  constructor. intros from to c w w' Hw Pc Lc E.
  destruct (redeem_frame _ _ _ _ _ (eo_inv _ Hw) Pc Lc E) as (Hi & V & S).
  apply redeem_ok in E as (_ & VD & B); [|apply Hw|done..]. split_and!; [|done|done].
  by apply (other_step w).
Qed.

Lemma no_liquid_coins a w : (forall d, IsLiquidToken d = true -> GetBalance a d w = 0) ->
  Forall (fun c => IsLiquidToken (Denom c) = false) (GetAllBalances a w).
Proof.
  intros Z. destruct (all_balances_spec a w) as [V B]. apply list.Forall_forall. intros c Hc.
  destruct (IsLiquidToken (Denom c)) eqn:L; [|done]. specialize (Z _ L). rewrite <- B in Z.
  pose proof (amt_elem _ _ (proj1 V) Hc) as E. destruct V as [_ P].
  rewrite list.Forall_forall in P. specialize (P _ Hc). lia.
Qed.

Lemma burn_for_dao x from to w w' y : ok w ->
  (forall d, IsLiquidToken d = true -> GetBalance from d w = 0) ->
  BurnIslmForHaqq x from to w = (Ok y, w') ->
  ok w' /\ view (S:=DaoState) w' = view w /\ 0 < x /\ 0 < y /\ paid from to x y w w' /\
  y = haqq_for (sum_apps + public w) (sum_apps + public w + x) /\ public w' = public w + x.
Proof.
  intros Hw Z E. apply burn_run in E as (_ & Px & Ey & Hc & X); [|apply Hw..].
  apply no_liquid_coins in Z. pose proof (exchanged_paid _ _ _ _ _ _ _ _ X Z) as P.
  destruct X as [[Py _] K (n & u & w1 & w2 & Er & _ & F & _)].
  rewrite (nothing_to_redeem _ _ _ Z) in Er. injection Er as _ <-.
  split_and!; [by eapply mint_step|by apply (F DaoState)|done|lia|done|exact Ey|].
  unfold public. destruct K as [K1 K2 _ _ _ _ _]. lia.
Qed.

Lemma wired_ethiq_laws : EthiqLaws W ok.
Proof.
  constructor. intros f x from to w w' y [= <-] Hw Z E.
  destruct (burn_for_dao _ _ _ _ _ _ Hw Z E) as (? & ? & ? & ? & ? & _). by split_and!.
Qed.

#[local] Existing Instances wired_dao_world wired_liquid_laws wired_ethiq_laws.

(** ** Conversion *)

(** The DAO's bookkeeping does not touch x/ethiq. *)
Lemma set_total_frame c w : view (S:=EthiqState) (setTotalBalanceOfCoin c w) = view w.
Proof. unfold setTotalBalanceOfCoin. destruct (_ =? 0); apply view_update_sep. Qed.

Lemma track_sub_frame c w w' : TrackSubBalance c w = (Ok tt, w') ->
  view (S:=EthiqState) w' = view w.
Proof.
  unfold TrackSubBalance. intros E. apply M_bind_ok in E as (t & w1 & E1 & E).
  apply mgets_ok in E1 as [_ ->]. apply M_bind_ok in E as (t' & w1 & E1 & E).
  apply mlift_ok in E1 as [_ ->]. apply mmodify_ok in E. subst w'. apply set_total_frame.
Qed.

Lemma track_add_frame c w w' : TrackAddBalance c w = (Ok tt, w') ->
  view (S:=EthiqState) w' = view w.
Proof.
  unfold TrackAddBalance. intros E. apply M_bind_ok in E as (t & w1 & E1 & E).
  apply mgets_ok in E1 as [_ ->]. apply M_bind_ok in E as (t' & w1 & E1 & E).
  apply mlift_ok in E1 as [_ ->]. apply mmodify_ok in E. subst w'. apply set_total_frame.
Qed.

Lemma set_index_frame a w w' : SetHoldersIndex a w = (Ok tt, w') -> view (S:=EthiqState) w' = view w.
Proof.
  unfold SetHoldersIndex. intros E. apply M_bind_ok in E as (k & w1 & E1 & E).
  apply mlift_ok in E1 as [_ ->]. apply mmodify_ok in E. subst w'. cbv zeta.
  repeat case_match; unfold set_holders; by rewrite ?view_update_sep.
Qed.

Lemma redeem_loop_frame esc lq w w' : ok w ->
  Forall (fun c => IsLiquidToken (Denom c) = true /\ 0 < Amount c) lq ->
  redeem_loop esc lq w = (Ok tt, w') -> view (S:=EthiqState) w' = view w.
Proof.
  intros Hw F. revert w Hw. induction F as [|c lq [Lc Pc] _ IH]; intros w Hw E; cbn [redeem_loop] in E.
  { by apply mret_ok in E as [_ ->]. }
  apply M_bind_ok in E as ([] & w1 & E1 & E).
  destruct (redeem_frame _ _ _ _ _ (eo_inv _ Hw) Pc Lc E1) as (_ & V1 & _).
  apply (redeem_ok (I:=ok)) in E1 as (K1 & _); [|done..].
  apply M_bind_ok in E as (r & w2 & E2 & E). apply mlift_ok in E2 as [_ ->].
  apply M_bind_ok in E as ([] & w2 & E2 & E). apply M_bind_ok in E as ([] & w3 & E3 & E).
  pose proof (track_add_frame _ _ _ E2) as V2. pose proof (track_sub_frame _ _ _ E3) as V3.
  apply (track_add_ok (I:=ok)) in E2 as [[_ K2 _] _ _].
  apply (track_sub_ok (I:=ok)) in E3 as [[[_ K3 _] _ _] _].
  rewrite (IH w3) by auto. congruence.
Qed.

(** A successful conversion is a redemption followed by a burn and bookkeeping. *)
Lemma convert_open a r x w w' c : ConvertToHaqq a r x w = (Ok c, w') ->
  exists w1 w2 y, redeem_loop (GetEscrowAddress a) (liquid_coins a w) w = (Ok tt, w1) /\
    BurnIslmForHaqq x (GetEscrowAddress a) r w1 = (Ok y, w2) /\ c = mkCoin haqq y /\
    view (S:=EthiqState) w' = view w2.
Proof.
  intros E. unfold ConvertToHaqq in E. apply M_bind_ok in E as (en & w1 & E1 & E).
  apply mgets_ok in E1 as [_ ->]. destruct en; [|done]. cbn [negb] in E.
  apply M_bind_ok in E as (h & w1 & E1 & E). injection E1 as Eh <-.
  destruct h; [|done]. cbn [negb] in E.
  apply M_bind_ok in E as (bs & w1 & E1 & E). apply mgets_ok in E1 as [-> ->].
  unfold liquid_coins. destruct (convert_scan _) as [s lq]. destruct (s <? x); [done|].
  apply M_bind_ok in E as ([] & w1 & E1 & E). cbn [ethiqk wired_ethiq] in E.
  apply M_bind_ok in E as (y & w2 & E2 & E).
  apply M_bind_ok in E as (b & w3 & E3 & E). apply mlift_ok in E3 as [_ ->].
  apply M_bind_ok in E as ([] & w3 & E3 & E). apply M_bind_ok in E as ([] & w4 & E4 & E).
  apply mlift_ok in E as [Ec ->]. apply new_coin_inv in Ec as (-> & _ & _).
  exists w1, w2, y. split_and!; [done|done|done|].
  rewrite (set_index_frame _ _ _ E4). by apply track_sub_frame in E3.
Qed.

(** The invariants of both modules. *)
Definition both_ok (owners : list string) w : Prop := dao_ok owners w /\ ok w.

(** C4: The DAO's conversion is a mint on the curve: with the modules wired as in the
    application, a successful [MsgConvertToHaqq] takes exactly the stated aISLM out
    of the DAO's books and the sender's escrow account (after its liquid tokens
    were redeemed), pays the receiver, whoever it is, what the curve gives behind all earlier
    burns, moves that place by the same amount and keeps the invariants of
    both modules; and if the receiver is not an owner's escrow account, every owner with coins in escrow stays listed. *)
Theorem dao_conversion_on_curve owners msg s r c w w' : separate owners -> both_ok owners w ->
  AccAddressFromBech32 (mv_Sender msg) = Some s -> AccAddressFromBech32 (mv_Receiver msg) = Some r ->
  s ∈ owners -> msg_ConvertToHaqq msg w = (Ok c, w') ->
  let x := mv_IslmAmount msg in let place := sum_apps + public w in
  c = mkCoin haqq (haqq_for place (place + x)) /\ public w' = public w + x /\
  dao_GetBalance s islm w' = dao_GetBalance s islm w + amounts (liquid_coins s w) - x /\
  total islm w' = total islm w + amounts (liquid_coins s w) - x /\
  (r <> GetModuleAddress (W:=W) "liquidvesting" ->
   GetBalance r haqq w' = GetBalance r haqq w + Amount c) /\
  both_ok owners w' /\ (r ∉ escrows owners -> all_listed owners w -> all_listed owners w').
Proof.
  intros Hs [Hd Hw] Es Er Ho E x place. apply msg_convert_run in E as (s' & r' & Es' & Er' & E).
  rewrite Es in Es'. rewrite Er in Er'. injection Es' as <-. injection Er' as <-. fold x in E.
  assert (Nm : GetEscrowAddress s <> GetModuleAddress (W:=W) "liquidvesting").
  { intros Em. apply (sep_module _ Hs). rewrite <- Em. by apply escrow_in. }
  destruct (convert_keeps _ _ _ _ _ _ _ Hs Hd Hw Ho E) as [Hd' Hl'].
  pose proof (convert_open _ _ _ _ _ _ E) as (w1 & w2 & y & E1 & E2 & -> & V').
  destruct (liquid_coins_spec s w) as [F Hl].
  pose proof (redeem_loop_frame _ _ _ _ Hw F E1) as V1.
  apply (redeem_loop_ok (I:=ok)) in E1 as (K1 & _ & _ & B1); [|done..].
  apply burn_for_dao in E2 as (_ & _ & _ & _ & _ & Ey & Ep); [|done|]; last first.
  { intros d Ld. rewrite B1, decide_True by done. unfold swapped. rewrite amt_single, Hl, Ld.
    rewrite decide_False by (intros <-; by rewrite liquid_not_islm in Ld).
    unfold dao_GetBalance. lia. }
  assert (P1 : public w1 = public w)
    by (unfold public, burned, burned_apps, GetTotalBurnedAmount, GetTotalBurnedFromApplicationsAmount;
        by rewrite V1).
  assert (P2 : public w' = public w2)
    by (unfold public, burned, burned_apps, GetTotalBurnedAmount, GetTotalBurnedFromApplicationsAmount;
        by rewrite V').
  rewrite P1 in *. apply (convert_ok (I:=ok)) in E as (y' & [= <-] & _ & _ & _ & _ & K & T & B & _); [|done..].
  split_and!; [by rewrite Ey|by rewrite P2| | | |by split|done].
  - unfold dao_GetBalance. rewrite B, decide_True by done. unfold swapped.
    rewrite !amt_single, Hl, !(decide_True (P := islm = islm)), (decide_False (P := haqq = islm)) by done. rewrite liquid_not_islm.
    case_decide; lia.
  - rewrite T. unfold swapped. rewrite !amt_single, Hl, !decide_True by done. rewrite liquid_not_islm. lia.
  - intros Hr. rewrite B, (decide_True (P := r = r)) by done. rewrite (amt_single haqq), (decide_True (P := haqq = haqq)) by done.
    cbn [Amount]. case_decide; [|lia]. unfold swapped. rewrite !amt_single, Hl, !(decide_False (P := islm = haqq)) by done.
    change (IsLiquidToken haqq) with false. cbv iota. lia.
Qed.

(** ** Applications paid by the DAO *)

(** An application with the DAO as its source burns the registered aISLM of the sender's
    escrow account, and the DAO's books do not follow: the tracked total of
    aISLM stays what it was although the escrow balance falls, so books that were
    right before are wrong afterwards. *)
Theorem dao_application_breaks_books owners msg a from r w w' : separate owners -> both_ok owners w ->
  0 <= mp_ApplicationId msg ->
  registeredApplications !! Z.to_nat (mp_ApplicationId msg) = Some a ->
  FundSource a = SOURCE_OF_FUNDS_UCDAO -> AccAddressFromBech32 (mp_FromAddress msg) = Some from ->
  from ∈ owners -> (forall d, IsLiquidToken d = true -> dao_GetBalance from d w = 0) ->
  MintHaqqByApplication msg w = (Ok r, w') ->
  dao_GetBalance from islm w' = dao_GetBalance from islm w - item_burn a /\
  (forall d, total d w' = total d w) /\ 0 < item_burn a /\
  total islm w' = escrowed owners islm w' + item_burn a /\ ~ dao_ok owners w'.
Proof.
  intros Hs [Hd Hw] Hid Ha Hu Hf Ho Z E. destruct r as [y to].
  apply app_msg_ok in E as (from' & Hf' & E). rewrite Hf in Hf'. injection Hf' as <-.
  apply burn_app_run in E as (a' & w1 & Ha' & _ & _ & _ & _ & Pb & _ & _ & _ & X & ->); [|apply Hw|done].
  rewrite Ha in Ha'. injection Ha' as <-. rewrite bool_decide_eq_true_2 in X by done.
  apply no_liquid_coins in Z. pose proof (exchanged_paid _ _ _ _ _ _ _ _ X Z) as P.
  destruct X as [_ _ (n & u & w2 & w3 & Er & _ & Fr & _)].
  rewrite (nothing_to_redeem _ _ _ Z) in Er. injection Er as _ <-.
  specialize (Fr DaoState _ _ _). set (w' := SetApplicationAsExecuted _ w1).
  assert (B : forall b, GetBalance b islm w'
    = GetBalance b islm w - (if decide (b = GetEscrowAddress from) then item_burn a else 0)).
  { intros b. unfold w', SetApplicationAsExecuted, set_executed. rewrite update_balance, P.
    rewrite !amt_single, (decide_False (P := haqq = islm)) by done. rewrite (decide_True (P := islm = islm)) by done.
    repeat case_decide; lia. }
  assert (T : forall d, total d w' = total d w).
  { intros d. unfold total, w', SetApplicationAsExecuted, set_executed. by rewrite view_update_sep, Fr. }
  assert (Es : escrowed owners islm w' = escrowed owners islm w - item_burn a).
  { unfold escrowed. rewrite (sum_over_ext _ (fun e => GetBalance e islm w +
      (if decide (e = GetEscrowAddress from) then - item_burn a else 0)))
      by (intros e _; rewrite B; case_decide; lia).
    rewrite sum_over_add, sum_over_at by apply Hs. rewrite decide_True by (by apply escrow_in). lia. }
  assert (Et : total islm w' = escrowed owners islm w' + item_burn a).
  { rewrite T, Es, (ok_total _ _ Hd) by done. lia. }
  split_and!; [|done|done|done|].
  - unfold dao_GetBalance. rewrite B, decide_True by done. done.
  - intros Hd'. rewrite (ok_total _ _ Hd') in Et by done. lia.
Qed.
End composition.

(** ** Concrete runs *)

Section examples.

#[local] Existing Instances RefOps RefLaws RefEth RefAddrCheck RefCtx RefAccountKeeper RefBankKeeper
  RefDistributionKeeper RefModuleBank RefKeeperLaws RefModuleBankLaws RefIbc RefDaoOps RefDaoLaws
  RefCurve RefCurveLaws EwBalances RefSupply RefSupplyLaws EwErc20 EwEthiqErc20 EwLiquid EwBalanceLaws.

Abbreviation DE := (DaoState * EthiqState)%type.
Abbreviation DW := (RefWorld DE).

#[local] Instance DeDao : Lens DW DaoState := ref_lens fst (fun s x => (s, snd x)).
#[local] Instance DeEthiq : Lens DW EthiqState := EwLens snd (fun s (x : DE) => (fst x, s)).
#[local] Existing Instances wired_ucdao wired_ethiq.

Lemma DeDaoState : ModuleState DW DaoState.
Proof. by apply ref_module_state. Qed.

Lemma DeEthiqState : ModuleState DW EthiqState.
Proof. by apply ref_module_state. Qed.

Lemma DeSep : Separate DW DaoState EthiqState.
Proof. by constructor. Qed.

Lemma DeSep' : Separate DW EthiqState DaoState.
Proof. by constructor. Qed.

Lemma DeFrame : DaoEthiqFrame DW.
Proof.
  constructor; [|done]. intros from to cs w w' r. simpl.
  destruct (ref_validb cs); [|by intros [= _ <-]]. intros E. split.
  - by rewrite (rw_send_ext _ _ _ _ _ _ E).
  - by eapply rw_send_supply.
Qed.

(** The DAO's bookkeeping writes the DAO's store only. *)
Lemma de_track c (w w' : DW) : TrackAddBalance c w = (Ok tt, w') \/ TrackSubBalance c w = (Ok tt, w') ->
  rw_accounts w' = rw_accounts w /\ rw_balances w' = rw_balances w /\ snd (rw_ext w') = snd (rw_ext w).
Proof.
  intros E. assert (exists t, w' = setTotalBalanceOfCoin t w) as [t ->].
  { destruct E as [E|E]; apply M_bind_ok in E as (a & w1 & E1 & E); apply mgets_ok in E1 as [_ ->];
      apply M_bind_ok in E as (b & w1 & E1 & E); apply mlift_ok in E1 as [_ ->];
      apply mmodify_ok in E; eauto. }
  unfold setTotalBalanceOfCoin. by destruct (_ =? 0).
Qed.

Lemma DeWorld : EthiqWorld DW accounts_ok.
Proof. apply EwWorld. apply de_track. Qed.

Lemma DeDaoWorld : DaoWorld DW accounts_ok.
Proof.
  constructor.
  - intros from to cs w w' r. simpl. destruct (ref_validb cs); [|by intros [= _ <-]].
    intros E. by rewrite (rw_send_ext _ _ _ _ _ _ E).
  - intros from to cs w w' Hw. simpl. destruct (ref_validb cs); [|done]. by apply ew_send_accounts.
  - intros from to cs w. simpl. intros ->. by eexists.
  - intros s w Hw. by apply (same_accounts w).
Qed.

Lemma DeLiquidLaws : LiquidVestingLaws DW accounts_ok.
Proof.
  constructor. intros from to c w w' Hw Pc Lc E. destruct (ew_redeem _ _ _ _ _ Hw Pc Lc E) as (? & Ex & _).
  split_and!; [done|simpl; by rewrite Ex|]. intros a d _.
  apply M_bind_ok in E as ([] & w1 & E1 & E2). apply rw_issue_ok in E1 as [B1 _], E2 as [B2 _].
  simpl. rewrite (B2 a d), (B1 a d). cbn [amt Amount Denom]. repeat case_decide; lia.
Qed.

#[local] Existing Instances DeDaoState DeEthiqState DeSep DeSep' DeFrame DeWorld DeDaoWorld DeLiquidLaws.
#[local] Existing Instances wired_dao_world wired_liquid_laws wired_ethiq_laws.

(** The sender of application 133, with coins to fund the DAO. *)
Definition ex_owner : string := "zp2hep5w80jjm9tnpuk7aqxmg0qhl88xkjmjdl".
Definition ex_owners : list string := [ex_owner].
Definition ex_escrow : string := GetEscrowAddress ex_owner.

Definition ex_v0 : DW :=
  mkWorld 0 (<[ex_owner := EthAcc (mkBaseAccount ex_owner 0 0) ""]>
             (<[ex_escrow := EthAcc (mkBaseAccount ex_escrow 1 0) ""]> ∅)) 2
    (<[(ex_owner, islm) := (10 ^ 25)%N]> (<[(ex_owner, "aLIQUID1") := 40%N]> ∅)) ∅ ∅
    (mkDao ∅ ∅ ∅ (Some (Ucdao.mkParams true)) ∅, mkEthiq DefaultParams None None ∅).

Definition ex_deposit : MsgFund := mkMsgFund [mkCoin islm (10 ^ 25)] ("haqq1" +:+ ex_owner).
Definition ex_liquid_deposit : MsgFund := mkMsgFund [mkCoin "aLIQUID1" 40] ("haqq1" +:+ ex_owner).
Definition ex_conversion : MsgConvertToHaqq := mkMsgConvert ("haqq1" +:+ ex_owner) "haqq1bob" (10 ^ 21).
Definition ex_run : MsgMintHaqqByApplication := mkMsgMintApp ("haqq1" +:+ ex_owner) 133.

Definition ex_v1 : DW := snd (msg_Fund ex_deposit ex_v0).
Definition ex_v2 : DW := snd (msg_Fund ex_liquid_deposit ex_v1).
Definition ex_v3 : DW := snd (msg_ConvertToHaqq ex_conversion ex_v2).
Definition ex_v4 : DW := snd (MintHaqqByApplication ex_run ex_v1).

Lemma ex_separate_owner : separate (W:=DW) ex_owners.
Proof. constructor; apply (bool_decide_unpack _); vm_compute; exact Logic.I. Qed.

Lemma ex_no_escrow0 e d : e ∈ escrows ex_owners -> GetBalance e d ex_v0 = 0.
Proof.
  intros He. destruct (all_balances_spec e ex_v0) as [_ E]. rewrite <- E.
  replace (GetAllBalances e ex_v0) with (@nil coin); [done|].
  assert (F : Forall (fun e => @nil coin = GetAllBalances e ex_v0) (escrows ex_owners))
    by (apply (bool_decide_unpack _); vm_compute; exact Logic.I).
  rewrite list.Forall_forall in F. by apply F.
Qed.

Lemma ex_books0 : dao_ok ex_owners ex_v0.
Proof.
  constructor.
  - intros d _. unfold escrowed. rewrite (sum_over_ext _ (fun _ => 0)); [done|].
    intros e He. by apply ex_no_escrow0.
  - intros a Ha. apply entry_exact. split; [unfold in_index; cbn; set_solver|].
    assert (F : Forall (fun a => IsZero (GetAccountBalances a ex_v0) = true) ex_owners)
      by (apply (bool_decide_unpack _); vm_compute; exact Logic.I).
    rewrite list.Forall_forall in F. intros E. rewrite (F a Ha) in E. done.
Qed.

Lemma ex_accounts0 : accounts_ok ex_v0.
Proof.
  assert (F : map_Forall (fun _ acc => match acc with ClawbackAcc _ => false | _ => true end = true)
    (rw_accounts ex_v0)) by (apply (bool_decide_unpack _); vm_compute; exact Logic.I).
  intros a va. simpl. unfold rw_get_account.
  destruct (rw_accounts ex_v0 !! a) as [acc|] eqn:E; simpl; [|done]. apply F in E.
  case_decide; [|done]. by intros [= ->].
Qed.

Lemma ex_ledger0 : ethiq_ok (I:=accounts_ok) ex_v0.
Proof.
  apply fresh_ok; [exact ex_accounts0|done|].
  assert (E : GetSupply haqq ex_v0 = 0) by (by vm_compute). by rewrite E.
Qed.

Lemma ex_both1 : dao_ok ex_owners ex_v1 /\ ethiq_ok (I:=accounts_ok) ex_v1.
Proof.
  destruct (step_keeps (I:=ethiq_ok (I:=accounts_ok)) ex_owners (fun _ => True) ex_v0 ex_v1 ex_separate_owner ex_books0 ex_ledger0)
    as (? & ? & _); [|done].
  apply (step_fund _ _ _ _ ex_deposit ex_owner); [done|by left| |by vm_compute].
  apply (bool_decide_unpack _); vm_compute; exact Logic.I.
Qed.

Lemma ex_both2 : dao_ok ex_owners ex_v2 /\ ethiq_ok (I:=accounts_ok) ex_v2.
Proof.
  destruct ex_both1 as [D1 K1].
  destruct (step_keeps (I:=ethiq_ok (I:=accounts_ok)) ex_owners (fun _ => True) ex_v1 ex_v2 ex_separate_owner D1 K1)
    as (? & ? & _); [|done].
  apply (step_fund _ _ _ _ ex_liquid_deposit ex_owner); [done|by left| |by vm_compute].
  apply (bool_decide_unpack _); vm_compute; exact Logic.I.
Qed.

Lemma dao_conversion_on_curve_witness :
  GetBalance "bob" haqq ex_v3 = 4861744150714068672 /\
  dao_GetBalance ex_owner islm ex_v3 = 10 ^ 25 + 40 - 10 ^ 21 /\ dao_ok ex_owners ex_v3.
Proof.
  destruct (dao_conversion_on_curve (I:=accounts_ok) ex_owners ex_conversion ex_owner "bob"
    (mkCoin haqq 4861744150714068672) ex_v2 ex_v3) as (_ & _ & B & _ & R & [D _] & _).
  - exact ex_separate_owner.
  - exact ex_both2.
  - done.
  - done.
  - by left.
  - by vm_compute.
  - split_and!; [|rewrite B; by vm_compute|exact D]. rewrite R by (by vm_compute). by vm_compute.
Defined.

Lemma ex_no_liquid1 d : IsLiquidToken d = true -> dao_GetBalance ex_owner d ex_v1 = 0.
Proof.
  intros Ld. unfold dao_GetBalance. destruct (all_balances_spec (GetEscrowAddress ex_owner) ex_v1) as [_ B].
  rewrite <- B.
  assert (E : GetAllBalances (GetEscrowAddress ex_owner) ex_v1 = [mkCoin islm (10 ^ 25)]) by (by vm_compute).
  rewrite E, amt_single. destruct (decide (islm = d)) as [Ed|]; [|reflexivity].
  exfalso. rewrite <- Ed, liquid_not_islm in Ld. discriminate Ld.
Qed.

Lemma dao_application_breaks_books_witness : ~ dao_ok ex_owners ex_v4.
Proof.
  destruct (registeredApplications !! 133%nat) as [a|] eqn:Ea; [|by vm_compute in Ea].
  destruct (MintHaqqByApplication ex_run ex_v1) as [[r| |] w] eqn:Er; [|by vm_compute in Er..].
  assert (E4 : ex_v4 = w) by (unfold ex_v4; by rewrite Er). rewrite E4.
  destruct (dao_application_breaks_books (I:=accounts_ok) ex_owners ex_run a ex_owner r ex_v1 w)
    as (_ & _ & _ & _ & N).
  - exact ex_separate_owner.
  - exact ex_both1.
  - done.
  - exact Ea.
  - vm_compute in Ea. by injection Ea as <-.
  - done.
  - by left.
  - exact ex_no_liquid1.
  - exact Er.
  - exact N.
Defined.
End examples.
