(* ===== verification/Coinomics.v ===== *)
(** * x/coinomics: keeper/inflation.go, keeper/abci.go, keeper/mint_info.go,
    keeper/params.go, keeper/keeper.go, keeper/grpc_query.go, types/params.go,
    types/genesis.go, genesis.go

    Every block mints new coins for the bonded tokens, in proportion to the time
    since the last block, until a maximal supply is reached.  Decimals are their
    values times 10^18. *)

From stdpp Require Import relations.
From S2P Require Import Prelude.
From S2P Require Import Sdk.
From S2P Require Import Schedule.
From S2P Require Import ClawbackAccount.
From S2P Require Import Keepers.
From S2P Require Import TokenPair.
From S2P Require Import LiquidVesting.

Local Open Scope Z_scope.

(** ** Time *)

(** Days from 0001-01-01 to 1970-01-01. *)
Definition days_to_epoch : Z := 719162.

(** [time.Time.Year] in UTC of a time in milliseconds: the cycles of 400, 100, 4 and 1
    years of the Gregorian calendar, the last of which may be one day longer. *)
Definition Year (ms : Z) : Z :=
  let d := ms / 86400000 + days_to_epoch in
  let n400 := d / 146097 in let d := d mod 146097 in
  let n100 := Z.min 3 (d / 36524) in let d := d - 36524 * n100 in
  let n4 := d / 1461 in let d := d mod 1461 in
  let n1 := Z.min 3 (d / 365) in
  400 * n400 + 100 * n100 + 4 * n4 + n1 + 1.

Definition isLeapYear (currentYear : Z) : bool :=
  ((Z.rem currentYear 4 =? 0) && negb (Z.rem currentYear 100 =? 0)) || (Z.rem currentYear 400 =? 0).

Definition yearInMillis (currentYear : Z) : Z :=
  if isLeapYear currentYear then 31622400000 else 31536000000.

(** ** Data *)

Record Params := mkParams { MintDenom : string; RewardCoefficient : Z; EnableCoinomics : bool }.

Record CoinomicsState := mkCoinomics {
  co_params : Params;
  co_prev : option Z;
  co_max : option coin
}.

Record GenesisState := mkGenesis { gs_Params : Params; gs_PrevBlockTs : Z; gs_MaxSupply : coin }.

Definition ModuleName : string := "coinomics".

Definition one : Z := 10 ^ 18.

Definition DefaultParams : Params := mkParams "aISLM" (78 * 10 ^ 17) true.

Definition DefaultGenesisState : GenesisState :=
  mkGenesis DefaultParams 0 (mkCoin "aISLM" (10 ^ 29)).

(** ** Interfaces *)

(** [LegacyDec.Mul], [LegacyDec.Quo] and [LegacyDec.RoundInt]. *)
Class CoinDec := {
  Mul : Z -> Z -> Z;
  Quo : Z -> Z -> Z;
  RoundInt : Z -> Z
}.

(** They round to the nearest value. *)
Class CoinDecLaws `{CoinDec} : Prop := {
  mul_near a b : 2 * Z.abs (Mul a b * one - a * b) <= one;
  quo_near a b : 0 < b -> Z.abs (Quo a b * b - a * one) < b;
  round_near a : 2 * Z.abs (RoundInt a * one - a) <= one
}.

Class CoinomicsKeepers (W : Type) := {
  (** [ctx.BlockTime().UnixMilli()] *)
  UnixMilli : W -> Z;
  TotalBondedTokens : W -> res Z;
  SendCoinsFromModuleToModule : string -> string -> list coin -> M W unit;
  feeCollectorName : string
}.

(** ** The keeper *)

Section keeper.
Context {W : Type} `{SdkOps, IbcOps, CoinDec}.
Context `{AccountKeeper W, ModuleBank W, SupplyKeeper W, CoinomicsKeepers W, Lens W CoinomicsState}.

Definition GetParams (w : W) : Params := co_params (view w).

(** types/params.go, types/genesis.go: the type assertions hold by typing. *)
Definition validateMintDenom (v : string) : res unit :=
  if bool_decide (TrimSpace v = EmptyString) then Err (ErrText "mint denom cannot be blank")
  else if ValidDenom v then Ok tt else Err (ErrExternal "denom").

Definition Params_Validate (p : Params) : res unit := validateMintDenom (MintDenom p).

Definition write_params (p : Params) (w : W) : W :=
  update (mkCoinomics p (co_prev (view w)) (co_max (view w))) w.

(** [SetParamSet] panics on a value its validation refuses; the denomination comes first. *)
Definition SetParams (p : Params) : M W unit := fun w =>
  match Params_Validate p with
  | Ok _ => (Ok tt, write_params p w)
  | _ => (Panic, w)
  end.

Definition GetPrevBlockTS (w : W) : Z := default 0 (co_prev (view w)).

Definition SetPrevBlockTS (ts : Z) (w : W) : W :=
  update (mkCoinomics (co_params (view w)) (Some ts) (co_max (view w))) w.

Definition GetMaxSupply (w : W) : res coin :=
  match co_max (view w) with
  | None => NewCoin (MintDenom (GetParams w)) 0
  | Some c => Ok c
  end.

Definition SetMaxSupply (c : coin) (w : W) : W :=
  update (mkCoinomics (co_params (view w)) (co_prev (view w)) (Some c)) w.

Definition TokenSupply (denom : string) (w : W) : Z := GetSupply denom w.

Definition mread {A} (f : W -> res A) : M W A := fun w => (f w, w).

Definition keeper_MintCoins (c : coin) : M W unit :=
  coins ← mlift (NewCoins [c]);
  if bool_decide (coins = []) then mret tt else MintCoins ModuleName coins.

Definition disabled (p : Params) : Params := mkParams (MintDenom p) (RewardCoefficient p) false.

(** The end of [MintAndAllocate], from the check of the sign on. *)
Definition allocate (params : Params) (currentBlockTS blockMint : Z) : M W unit :=
  if blockMint <? 0 then mret tt else
  totalMintOnBlockCoin ← mlift (NewCoin (MintDenom params) (RoundInt blockMint));
  _ ← keeper_MintCoins totalMintOnBlockCoin;
  coins ← mlift (NewCoins [totalMintOnBlockCoin]);
  _ ← SendCoinsFromModuleToModule ModuleName (feeCollectorName (W:=W)) coins;
  mmodify (SetPrevBlockTS (RoundInt currentBlockTS)).

Definition MintAndAllocate : M W unit :=
  now ← mgets UnixMilli;
  let currentBlockTS := now * one in
  prev ← mgets GetPrevBlockTS;
  if prev =? 0 then mmodify (SetPrevBlockTS (RoundInt currentBlockTS)) else
  let yearInMillis := yearInMillis (Year now) * one in
  params ← mgets GetParams;
  let rewardCoefficient := Quo (RewardCoefficient params) (100 * one) in
  let prevBlockTS := prev * one in
  totalBondedTokens ← mread TotalBondedTokens;
  let totalBonded := totalBondedTokens * one in
  let blockMint :=
    Mul (Mul totalBonded rewardCoefficient) (Quo (currentBlockTS - prevBlockTS) yearInMillis) in
  supply ← mgets (GetSupply (MintDenom params));
  let bankTotalSupply := supply * one in
  max ← mread GetMaxSupply;
  let maxSupply := Amount max * one in
  blockMint ← (if maxSupply <? bankTotalSupply + blockMint then
                 _ ← SetParams (disabled params);
                 mret (maxSupply - bankTotalSupply)
               else mret blockMint);
  allocate params currentBlockTS blockMint.

(** keeper/abci.go: an error is logged, what was written stays. *)
Definition EndBlocker : M W unit := fun w =>
  if negb (EnableCoinomics (GetParams w)) then (Ok tt, w) else
  match MintAndAllocate w with
  | (Err _, w') => (Ok tt, w')
  | r => r
  end.

(** keeper/grpc_query.go *)
Definition query_RewardCoefficient (w : W) : Z := RewardCoefficient (GetParams w).
Definition query_MaxSupply (w : W) : res coin := GetMaxSupply w.
Definition query_Params (w : W) : Params := GetParams w.

(** types/genesis.go *)
Definition GenesisState_Validate (gs : GenesisState) : res unit := Params_Validate (gs_Params gs).

(** genesis.go *)
Definition InitGenesis (data : GenesisState) : M W unit :=
  acc ← mgets (GetModuleAccount ModuleName);
  match acc with
  | None => mlift Panic
  | Some _ =>
      _ ← SetParams (gs_Params data);
      mmodify (SetMaxSupply (gs_MaxSupply data))
  end.

Definition ExportGenesis (w : W) : res GenesisState :=
  max ← GetMaxSupply w;
  Ok (mkGenesis (GetParams w) (GetPrevBlockTS w) max).
End keeper.

(** ** The calendar *)

(** The days before a year, from 0001-01-01 on. *)
Definition days_before (y : Z) : Z := 365 * (y - 1) + (y - 1) / 4 - (y - 1) / 100 + (y - 1) / 400.

Lemma leap_days y : 1 <= y ->
  days_before (y + 1) - days_before y = if isLeapYear y then 366 else 365.
Proof.
  intros Hy. unfold isLeapYear, days_before. rewrite !Z.rem_mod_nonneg by lia.
  replace (y + 1 - 1) with y by lia.
  destruct (Z.eqb_spec (y mod 4) 0), (Z.eqb_spec (y mod 100) 0), (Z.eqb_spec (y mod 400) 0);
    cbn [negb andb orb]; Z.div_mod_to_equations; lia.
Qed.

(** A time lies in its year, and the year has as many milliseconds as the code says. *)
Lemma year_spec ms : 0 <= ms ->
  let day := ms / 86400000 + days_to_epoch in
  1 <= Year ms /\ days_before (Year ms) <= day < days_before (Year ms + 1).
Proof.
  intros Hms day. unfold Year. fold day.
  assert (Hd : 0 <= day) by (unfold day, days_to_epoch; Z.div_mod_to_equations; lia). clearbody day. clear ms Hms.
  pose proof (Z.div_mod day 146097 ltac:(lia)) as E. pose proof (Z.mod_pos_bound day 146097 ltac:(lia)) as B.
  set (n := day / 146097) in *. set (r := day mod 146097) in *. clearbody n r.
  set (c := Z.min 3 (r / 36524)).
  assert (Hc : 0 <= c <= 3 /\ 0 <= r - 36524 * c /\ (r - 36524 * c < 36524 \/ c = 3 /\ r - 36524 * c <= 36524))
    by (unfold c; Z.div_mod_to_equations; lia).
  set (r1 := r - 36524 * c) in *. assert (Er : r = 36524 * c + r1) by (unfold r1; lia). clearbody c r1.
  pose proof (Z.div_mod r1 1461 ltac:(lia)) as E1. pose proof (Z.mod_pos_bound r1 1461 ltac:(lia)) as B1.
  set (q := r1 / 1461) in *. set (r2 := r1 mod 1461) in *. clearbody q r2.
  set (k := Z.min 3 (r2 / 365)).
  assert (Hk : 0 <= k <= 3 /\ 0 <= r2 - 365 * k /\ (r2 - 365 * k < 365 \/ k = 3 /\ r2 - 365 * k <= 365))
    by (unfold k; Z.div_mod_to_equations; lia).
  clearbody k. unfold days_before.
  replace (400 * n + 100 * c + 4 * q + k + 1 - 1) with (400 * n + 100 * c + 4 * q + k) by lia.
  replace (400 * n + 100 * c + 4 * q + k + 1 + 1 - 1) with (400 * n + 100 * c + 4 * q + k + 1) by lia.
  assert (Hn : 0 <= n) by lia. split; [lia|].
  Z.div_mod_to_equations. lia.
Qed.

(** ** Rounding *)

Section rounding.
Context `{CoinDecLaws}.

Lemma round_exact n : RoundInt (n * one) = n.
Proof. pose proof (round_near (n * one)). unfold one in *. lia. Qed.

Lemma round_le x n : x <= n * one -> RoundInt x <= n.
Proof. pose proof (round_near x). unfold one in *. lia. Qed.

Lemma round_nonneg x : 0 <= x -> 0 <= RoundInt x.
Proof. pose proof (round_near x). unfold one in *. lia. Qed.

(** An integer times a decimal is exact. *)
Lemma mul_int n x : Mul (n * one) x = n * x.
Proof. pose proof (mul_near (n * one) x). unfold one in *. nia. Qed.
End rounding.

(** ** What the module relies on *)

Class CoinomicsLaws (W : Type) `{AccountKeeper W, BankKeeper W, ModuleBank W, SupplyKeeper W}
    `{CoinomicsKeepers W, Lens W CoinomicsState} : Prop := {
  module_send_ok m1 m2 cs (w w' : W) : operand cs ->
    SendCoinsFromModuleToModule m1 m2 cs w = (Ok tt, w') ->
    moved (GetModuleAddress m1) (GetModuleAddress m2) cs
      (fun a d => GetBalance a d w) (fun a d => GetBalance a d w');
  module_send_frame m1 m2 cs (w w' : W) r : SendCoinsFromModuleToModule m1 m2 cs w = (r, w') ->
    view w' = view w /\ forall d, GetSupply d w' = GetSupply d w;
  mint_fails m cs (w w' : W) e d : operand cs -> MintCoins m cs w = (Err e, w') ->
    GetSupply d w' = GetSupply d w;
  co_update_supply (s : CoinomicsState) d (w : W) : GetSupply d (update s w) = GetSupply d w;
  bonded_nonneg (w : W) x : TotalBondedTokens w = Ok x -> 0 <= x
}.

Section theory.
Context {W : Type} `{SdkLaws, IbcOps, CoinDecLaws}.
Context `{Ctx W, AccountKeeper W, BankKeeper W, ModuleBank W, SupplyKeeper W}.
Context `{CoinomicsKeepers W, Lens W CoinomicsState}.
Context `{!ModuleBankLaws W} `{!SupplyLaws W} `{!ModuleState W CoinomicsState} `{!CoinomicsLaws W}.
Implicit Types w : W.

(** The amount a block would mint without the cap. *)
Definition block_amount w (bonded : Z) : Z :=
  Mul (Mul (bonded * one) (Quo (RewardCoefficient (GetParams w)) (100 * one)))
      (Quo (UnixMilli w * one - GetPrevBlockTS w * one) (yearInMillis (Year (UnixMilli w)) * one)).

Lemma bind_inv {A B} (m : M W A) (f : A -> M W B) w r w' : (m ≫= f) w = (r, w') ->
  (exists a w1, m w = (Ok a, w1) /\ f a w1 = (r, w')) \/
  (exists e, m w = (Err e, w') /\ r = Err e) \/ (m w = (Panic, w') /\ r = Panic).
Proof.
  unfold mbind, M_bind. destruct (m w) as [[a|e|] w1]; [|intros [= <- <-]..]; eauto 10.
Qed.

(** The denomination that is minted and its maximal supply. *)
Definition mint_denom w : string := MintDenom (GetParams w).
Definition max_supply w : Z := match co_max (view w) with Some c => Amount c | None => 0 end.
Definition supply w : Z := GetSupply (mint_denom w) w.

(** The module was initialised with valid parameters. *)
Record ready w : Prop := {
  rd_max : is_Some (co_max (view w));
  rd_params : Params_Validate (GetParams w) = Ok tt
}.

Lemma valid_denom_of p : Params_Validate p = Ok tt -> ValidDenom (MintDenom p) = true.
Proof. unfold Params_Validate, validateMintDenom. by repeat case_match. Qed.
Lemma rd_denom w : ready w -> ValidDenom (mint_denom w) = true.
Proof. intros [_ R]. by apply valid_denom_of. Qed.
(** Validity depends on the denomination only. *)
Lemma ready_denom w w' : ready w -> is_Some (co_max (view w')) -> mint_denom w' = mint_denom w -> ready w'.
Proof. intros [_ R] M E. constructor; [done|]. revert R. unfold Params_Validate. fold (mint_denom w) (mint_denom w'). by rewrite E. Qed.
Lemma set_params_ok p w : Params_Validate p = Ok tt -> SetParams p w = (Ok tt, write_params p w).
Proof. intros E. unfold SetParams. by rewrite E. Qed.
Lemma set_params_inv p w w' : SetParams p w = (Ok tt, w') -> Params_Validate p = Ok tt /\ w' = write_params p w.
Proof. unfold SetParams. destruct (Params_Validate p) as [[]|?|]; naive_solver. Qed.

(** What is minted, with the cap, and the state in which it is minted: reaching the cap
    switches the module off. *)
Definition capped w (x : Z) : Z * W :=
  if max_supply w * one <? supply w * one + x
  then (max_supply w * one - supply w * one, write_params (disabled (GetParams w)) w)
  else (x, w).

(** Minting the coins and passing them on. *)
Definition pay (cs : list coin) (now : Z) : M W unit :=
  _ ← (if bool_decide (cs = []) then mret tt else MintCoins ModuleName cs);
  _ ← SendCoinsFromModuleToModule ModuleName (feeCollectorName (W:=W)) cs;
  mmodify (SetPrevBlockTS now).

(** The coins of an amount: none for zero. *)
Definition coins_of (d : string) (n : Z) : list coin := if decide (n = 0) then [] else [mkCoin d n].

Lemma coins_of_operand d n : ValidDenom d = true -> 0 <= n -> operand (coins_of d n).
Proof.
  intros Hd Hn. unfold coins_of. case_decide; [apply valid_operand, valid_nil|]. apply operand_single. lia.
Qed.

Lemma coins_of_amt d n d' : amt (coins_of d n) d' = if decide (d = d') then n else 0.
Proof. unfold coins_of. destruct (decide (n = 0)) as [->|]; [simpl; by case_decide|apply amt_single]. Qed.

Lemma coins_of_new d n : ValidDenom d = true -> 0 <= n -> NewCoins [mkCoin d n] = Ok (coins_of d n).
Proof. intros Hd Hn. by rewrite new_coins_one. Qed.

(** The three cases of a block. *)
Lemma mint_first w : GetPrevBlockTS w = 0 -> MintAndAllocate w = (Ok tt, SetPrevBlockTS (UnixMilli w) w).
Proof.
  intros E. unfold MintAndAllocate, mbind, M_bind, mgets. rewrite E, Z.eqb_refl, round_exact. done.
Qed.

Lemma mint_no_bonded w e : GetPrevBlockTS w <> 0 -> TotalBondedTokens w = Err e ->
  MintAndAllocate w = (Err e, w).
Proof.
  intros N E. unfold MintAndAllocate, mbind, M_bind, mgets, mread.
  destruct (Z.eqb_spec (GetPrevBlockTS w) 0); [done|]. by rewrite E.
Qed.

Lemma allocate_eq p now x w : ValidDenom (MintDenom p) = true ->
  allocate p (now * one) x w
  = if x <? 0 then (Ok tt, w) else pay (coins_of (MintDenom p) (RoundInt x)) now w.
Proof.
  intros Hd. unfold allocate. destruct (Z.ltb_spec x 0) as [|Hx]; [done|]. apply round_nonneg in Hx.
  unfold pay, keeper_MintCoins, mlift, mbind, M_bind. rewrite new_coin_ok, coins_of_new, round_exact by done.
  by destruct (bool_decide _).
Qed.

Lemma mint_eq w b : ready w -> GetPrevBlockTS w <> 0 -> TotalBondedTokens w = Ok b ->
  MintAndAllocate w
  = let '(x, w1) := capped w (block_amount w b) in
    if x <? 0 then (Ok tt, w1) else pay (coins_of (mint_denom w) (RoundInt x)) (UnixMilli w) w1.
Proof.
  intros [[mx Hm] Hd] N E. unfold MintAndAllocate, mbind, M_bind, mgets, mread.
  destruct (Z.eqb_spec (GetPrevBlockTS w) 0); [done|]. rewrite E.
  fold (block_amount w b) (mint_denom w) (supply w). unfold GetMaxSupply. rewrite Hm.
  assert (Em : Amount mx = max_supply w) by (unfold max_supply; by rewrite Hm). rewrite Em.
  assert (Vd : SetParams (disabled (GetParams w)) w = (Ok tt, write_params (disabled (GetParams w)) w)) by by apply set_params_ok.
  unfold capped. destruct (_ <? _); [rewrite Vd|]; by apply allocate_eq, valid_denom_of.
Qed.
(** Minting and passing on: the state is the module's, the supply grows by the coins or
    not at all. *)
Lemma pay_facts cs now w r w' : operand cs -> pay cs now w = (r, w') -> r <> Panic ->
  co_params (view w') = co_params (view w) /\ co_max (view w') = co_max (view w) /\
  ((forall d, GetSupply d w' = GetSupply d w) \/ (forall d, GetSupply d w' = GetSupply d w + amt cs d)).
Proof.
  intros O E Np. unfold pay in E.
  assert (S1 : forall r1 w1, (if bool_decide (cs = []) then mret tt else MintCoins ModuleName cs) w = (r1, w1) ->
    r1 <> Panic -> view w1 = view w /\
    ((forall d, GetSupply d w1 = GetSupply d w) \/ (forall d, GetSupply d w1 = GetSupply d w + amt cs d))).
  { intros r1 w1 E1 N1. destruct (bool_decide _); [injection E1 as <- <-; auto|].
    split; [by eapply (mint_view (S:=CoinomicsState))|].
    destruct r1 as [[]|e|]; [right; intros d; by eapply mint_supply|left; intros d; by eapply mint_fails|done]. }
  apply bind_inv in E as [([] & w1 & E1 & E)|[(e & E1 & ->)|[_ ->]]]; [| |done].
  2:{ destruct (S1 _ _ E1) as [V S]; [done|]. by rewrite V. }
  destruct (S1 _ _ E1) as [V1 S]; [done|].
  assert (T : forall r2 w2, SendCoinsFromModuleToModule ModuleName (feeCollectorName (W:=W)) cs w1 = (r2, w2) ->
    view w2 = view w /\
    ((forall d, GetSupply d w2 = GetSupply d w) \/ (forall d, GetSupply d w2 = GetSupply d w + amt cs d))).
  { intros r2 w2 [V2 S2]%module_send_frame. split; [congruence|].
    destruct S as [S|S]; [left|right]; intros d; by rewrite S2, S. }
  apply bind_inv in E as [([] & w2 & E2 & E)|[(e & E2 & ->)|[_ ->]]]; [| |done].
  - destruct (T _ _ E2) as [V2 S2]. injection E as <- <-. unfold SetPrevBlockTS. rewrite view_update, V2.
    split_and!; [done|done|]. destruct S2 as [S2|S2]; [left|right]; intros d; by rewrite co_update_supply, S2.
  - destruct (T _ _ E2) as [V2 S2]. by rewrite V2.
Qed.

(** What the cap leaves alone, and that it caps. *)
Lemma capped_facts w x y w1 : capped w x = (y, w1) ->
  y <= (max_supply w - supply w) * one /\ mint_denom w1 = mint_denom w /\ max_supply w1 = max_supply w /\
  co_max (view w1) = co_max (view w) /\ co_prev (view w1) = co_prev (view w) /\
  (forall d, GetSupply d w1 = GetSupply d w) /\ (forall a d, GetBalance a d w1 = GetBalance a d w).
Proof.
  unfold capped. destruct (Z.ltb_spec (max_supply w * one) (supply w * one + x)); intros [= <- <-].
  - unfold write_params, mint_denom, GetParams, max_supply. rewrite !view_update. cbn.
    split_and!; [lia|done|done|done|done|intros; apply co_update_supply|intros; apply update_balance].
  - split_and!; (done || lia).
Qed.

(** A block keeps the denomination and the maximum, and does not lift the supply over it. *)
Lemma block_facts w w' : ready w -> EndBlocker w = (Ok tt, w') ->
  ready w' /\ mint_denom w' = mint_denom w /\ max_supply w' = max_supply w /\
  supply w' <= Z.max (supply w) (max_supply w).
Proof.
  intros Rd E. unfold EndBlocker in E. destruct (EnableCoinomics (GetParams w)); cbn [negb] in E;
    [|injection E as <-; split_and!; (done || lia)].
  assert (K : exists r, MintAndAllocate w = (r, w') /\ r <> Panic).
  { destruct (MintAndAllocate w) as [[[]|e|] w1]; simplify_eq; eauto. }
  clear E. destruct K as (r & E & Np).
  destruct (decide (GetPrevBlockTS w = 0)) as [Z0|NZ].
  { rewrite mint_first in E by done. injection E as <- <-. destruct Rd as [R1 R2].
    unfold supply, max_supply, mint_denom, SetPrevBlockTS, GetParams in *. rewrite co_update_supply.
    split_and!; [constructor|..]; unfold mint_denom, GetParams; rewrite ?view_update; cbn; (done || lia). }
  destruct (TotalBondedTokens w) as [b|e|] eqn:Eb.
  - rewrite (mint_eq w b Rd NZ Eb) in E. destruct (capped w (block_amount w b)) as [x w1] eqn:Ec.
    apply capped_facts in Ec as (Cx & Cd & Cm & Cs & _ & Cg & _).
    assert (R1 : ready w1) by (apply (ready_denom w); [done|rewrite Cs; apply Rd|done]).
    destruct (Z.ltb_spec x 0) as [|Hx].
    { injection E as <- <-. unfold supply. rewrite Cd, Cg. split_and!; (done || lia). }
    pose proof (round_nonneg x Hx) as N0. pose proof (round_le x _ Cx) as N1.
    apply pay_facts in E as (P1 & P2 & P3); [|apply coins_of_operand; [by apply rd_denom|done]|done].
    assert (D' : mint_denom w' = mint_denom w) by (rewrite <- Cd; unfold mint_denom, GetParams; by rewrite P1).
    assert (M' : max_supply w' = max_supply w) by (rewrite <- Cm; unfold max_supply; by rewrite P2).
    split_and!; [|done|done|].
    + apply (ready_denom w1); [done|rewrite P2; apply R1|by rewrite D', <- Cd].
    + unfold supply. rewrite D'. destruct P3 as [P3|P3]; rewrite P3, ?coins_of_amt, ?decide_True, Cg by done;
        fold (supply w); lia.
  - rewrite (mint_no_bonded w e NZ Eb) in E. injection E as <- <-. split_and!; (done || lia).
  - exfalso. apply Np. revert E. unfold MintAndAllocate, mbind, M_bind, mgets, mread.
    destruct (Z.eqb_spec (GetPrevBlockTS w) 0); [done|]. rewrite Eb. by intros [= <- _].
Qed.

(** The chain seen by the module: blocks, changes of its other parameters, and what other
    modules do, which do not mint the denomination. *)
Inductive coin_step : W -> W -> Prop :=
  | step_block w w' : EndBlocker w = (Ok tt, w') -> coin_step w w'
  | step_params p w w' : MintDenom p = mint_denom w -> SetParams p w = (Ok tt, w') -> coin_step w w'
  | step_other w w' : view (S:=CoinomicsState) w' = view w -> supply w' <= supply w -> coin_step w w'.

Lemma step_facts w w' : ready w -> coin_step w w' ->
  ready w' /\ mint_denom w' = mint_denom w /\ max_supply w' = max_supply w /\
  supply w' <= Z.max (supply w) (max_supply w).
Proof.
  intros Rd St. destruct St as [w w' E|p w w' Hp Ep|w w' V S]; [by apply block_facts| |].
  - apply set_params_inv in Ep as [Ep ->]. destruct Rd as [R1 R2]. unfold supply, max_supply, mint_denom, write_params, GetParams in *.
    rewrite co_update_supply. split_and!; [constructor|..]; unfold mint_denom, GetParams; rewrite ?view_update; cbn;
      rewrite ?Hp; (done || lia).
  - destruct Rd as [R1 R2]. unfold max_supply, mint_denom, GetParams in *.
    split_and!; [constructor|..]; unfold mint_denom, GetParams; rewrite ?V; (done || lia).
Qed.

(** C22: The supply is capped: whatever the bonded amounts, the block times and the parameters
    are, minting never lifts the supply of the coin over the maximal supply. *)
Theorem coinomics_caps_supply w w' : ready w -> supply w <= max_supply w -> rtc coin_step w w' ->
  supply w' <= max_supply w /\ max_supply w' = max_supply w /\ mint_denom w' = mint_denom w.
Proof.
  intros Rd Hs St. revert Rd Hs. induction St as [w|w w1 w' St _ IH]; intros Rd Hs; [done|].
  destruct (step_facts _ _ Rd St) as (R1 & D1 & M1 & S1). destruct IH as (S & M & D); [done|lia|].
  rewrite <- M1. split_and!; [done|done|congruence].
Qed.
(** ** Amounts *)

Lemma one_pos : 0 < one.
Proof. done. Qed.

Lemma year_pos y : 0 < yearInMillis y.
Proof. unfold yearInMillis. by destruct (isLeapYear y). Qed.

(** The amount of a block is the bonded tokens times the coefficient times the part of the
    year, the last two rounded to 18 decimals. *)
Lemma block_amount_near w b : exists rc q,
  Z.abs (100 * rc - RewardCoefficient (GetParams w)) < 100 /\
  Z.abs (q * yearInMillis (Year (UnixMilli w)) - (UnixMilli w - GetPrevBlockTS w) * one)
    < yearInMillis (Year (UnixMilli w)) /\
  2 * Z.abs (block_amount w b * one - b * rc * q) <= one.
Proof.
  unfold block_amount. rewrite mul_int.
  set (rc := Quo (RewardCoefficient (GetParams w)) (100 * one)).
  set (q := Quo (UnixMilli w * one - GetPrevBlockTS w * one) (yearInMillis (Year (UnixMilli w)) * one)).
  exists rc, q. pose proof (quo_near (RewardCoefficient (GetParams w)) (100 * one) ltac:(done)) as Q1.
  pose proof (year_pos (Year (UnixMilli w))) as Yp.
  pose proof (quo_near (UnixMilli w * one - GetPrevBlockTS w * one) (yearInMillis (Year (UnixMilli w)) * one)
    (Z.mul_pos_pos _ _ Yp one_pos)) as Q2. fold rc in Q1. fold q in Q2.
  split_and!; [unfold one in Q1; lia| |apply mul_near].
  clear Q1. revert Q2 Yp. generalize (yearInMillis (Year (UnixMilli w))) as y. intros y Q2 Yp.
  rewrite <- Z.mul_sub_distr_r, Z.mul_assoc in Q2.
  replace (q * y * one - (UnixMilli w - GetPrevBlockTS w) * one * one)
    with ((q * y - (UnixMilli w - GetPrevBlockTS w) * one) * one) in Q2 by lia.
  rewrite Z.abs_mul in Q2. unfold one in *. lia.
Qed.

Lemma pay_ok cs now w w' : operand cs -> pay cs now w = (Ok tt, w') ->
  co_params (view w') = co_params (view w) /\ GetPrevBlockTS w' = now /\
  (forall d, GetSupply d w' = GetSupply d w + amt cs d) /\
  (forall a d, GetBalance a d w' = GetBalance a d w
     + if decide (a = GetModuleAddress (W:=W) (feeCollectorName (W:=W))) then amt cs d else 0).
Proof.
  intros O E. unfold pay in E. apply M_bind_ok in E as ([] & w1 & E1 & E).
  apply M_bind_ok in E as ([] & w2 & E2 & E). apply mmodify_ok in E. subst w'.
  assert (K : view w1 = view w /\ (forall d, GetSupply d w1 = GetSupply d w + amt cs d) /\
    forall a d, GetBalance a d w1 = GetBalance a d w
      + if decide (a = GetModuleAddress (W:=W) ModuleName) then amt cs d else 0).
  { destruct (bool_decide_reflect (cs = [])) as [->|N].
    - injection E1 as <-. simpl. split_and!; [done|lia|]. intros. case_decide; lia.
    - split_and!; [by eapply (mint_view (S:=CoinomicsState))|intros; by eapply mint_supply|].
      apply mint_ok in E1 as [B _]; [|done]. intros a d. rewrite (B a d). case_decide; lia. }
  destruct K as (V1 & S1 & B1). pose proof (module_send_frame _ _ _ _ _ _ E2) as [V2 S2].
  apply module_send_ok in E2 as B2; [|done].
  unfold SetPrevBlockTS, GetPrevBlockTS. rewrite view_update. cbn. split_and!.
  - congruence.
  - done.
  - intros d. by rewrite co_update_supply, S2, S1.
  - intros a d. rewrite update_balance, (B2 a d). cbv beta. rewrite B1. repeat case_decide; lia.
Qed.

(** A block that mints: the coins go to the fee collector and nowhere else, the supply
    grows by them, the time of the block is noted; the amount is within rounding
    of bonded tokens x coefficient / 100 x part of the year, or, when that would
    exceed the maximum, exactly what is missing, and then the module is switched
    off. *)
Theorem MintAndAllocate_correct w w' b : ready w -> EnableCoinomics (GetParams w) = true ->
  GetPrevBlockTS w <> 0 -> TotalBondedTokens w = Ok b -> supply w <= max_supply w ->
  0 <= block_amount w b -> MintAndAllocate w = (Ok tt, w') ->
  exists n rc q, 0 <= n /\ supply w' = supply w + n /\ GetPrevBlockTS w' = UnixMilli w /\
    (forall a d, GetBalance a d w' = GetBalance a d w
       + if decide (a = GetModuleAddress (W:=W) (feeCollectorName (W:=W)))
         then if decide (mint_denom w = d) then n else 0 else 0) /\
    Z.abs (100 * rc - RewardCoefficient (GetParams w)) < 100 /\
    Z.abs (q * yearInMillis (Year (UnixMilli w)) - (UnixMilli w - GetPrevBlockTS w) * one)
      < yearInMillis (Year (UnixMilli w)) /\
    (2 * Z.abs (n * one * one - b * rc * q) <= one * one + one /\ GetParams w' = GetParams w \/
     supply w' = max_supply w /\ b * rc * q >= (n * one - 1) * one /\ GetParams w' = disabled (GetParams w)).
Proof.
  intros Rd En NZ Eb Hs Hx E. rewrite (mint_eq w b Rd NZ Eb) in E.
  destruct (block_amount_near w b) as (rc & q & R1 & R2 & R3).
  destruct (capped w (block_amount w b)) as [x w1] eqn:Ec.
  pose proof (capped_facts _ _ _ _ Ec) as (Cx & Cd & _ & _ & _ & Cg & Cb). unfold capped in Ec.
  assert (X0 : 0 <= x).
  { destruct (_ <? _); injection Ec as <- _; [|done]. unfold one in *. lia. }
  destruct (Z.ltb_spec x 0); [lia|]. pose proof (round_nonneg x X0) as N0.
  apply pay_ok in E as (P & T & S & B); [|apply coins_of_operand; [by apply rd_denom|done]].
  assert (Gp : GetParams w' = GetParams w1) by exact P.
  assert (D' : mint_denom w' = mint_denom w) by (rewrite <- Cd; unfold mint_denom; by rewrite Gp).
  exists (RoundInt x), rc, q.
  assert (Sw : supply w' = supply w + RoundInt x).
  { unfold supply. by rewrite D', S, coins_of_amt, decide_True, Cg. }
  split_and!; [done|done|done| |done|done|].
  { intros a d. by rewrite B, coins_of_amt, Cb. }
  destruct (Z.ltb_spec (max_supply w * one) (supply w * one + block_amount w b)) as [Hc|Hc];
    injection Ec as <- <-.
  - right. assert (En' : RoundInt (max_supply w * one - supply w * one) = max_supply w - supply w).
    { rewrite <- Z.mul_sub_distr_r. apply round_exact. }
    rewrite Sw, En'. split_and!; [lia| |rewrite Gp; unfold GetParams, write_params; by rewrite view_update].
    unfold one in *. lia.
  - left. split; [|done]. pose proof (round_near (block_amount w b)). unfold one in *. lia.
Qed.

(** ** Switching off and on *)

(** Blocks and steps of other modules, without changes of the parameters. *)
Inductive idle_step : W -> W -> Prop :=
  | idle_block w w' : EndBlocker w = (Ok tt, w') -> idle_step w w'
  | idle_other w w' : view (S:=CoinomicsState) w' = view w -> idle_step w w'.

Lemma idle_disabled w w' : EnableCoinomics (GetParams w) = false -> rtc idle_step w w' ->
  view (S:=CoinomicsState) w' = view w.
Proof.
  intros Dis St. induction St as [w|w w1 w' St _ IH]; [done|].
  assert (V : view (S:=CoinomicsState) w1 = view w).
  { destruct St as [w w1 E|w w1 V]; [|done]. unfold EndBlocker in E. rewrite Dis in E. by injection E as <-. }
  rewrite <- V. apply IH. unfold GetParams in *. by rewrite V.
Qed.

(** C40: The cap ends the minting: the block that would exceed the maximal supply fills it up
    exactly and switches the module off; from then on, as long as nobody changes
    the parameters, every block leaves the chain as it is. *)
Theorem cap_ends_minting w w' b : ready w -> EnableCoinomics (GetParams w) = true ->
  GetPrevBlockTS w <> 0 -> TotalBondedTokens w = Ok b -> supply w <= max_supply w ->
  max_supply w * one < supply w * one + block_amount w b -> EndBlocker w = (Ok tt, w') ->
  EnableCoinomics (GetParams w') = false /\
  (MintAndAllocate w = (Ok tt, w') -> supply w' = max_supply w) /\
  forall w2, rtc idle_step w' w2 -> EndBlocker w2 = (Ok tt, w2).
Proof.
  intros Rd En NZ Eb Hs Hc E. assert (Dis : EnableCoinomics (GetParams w') = false).
  { unfold EndBlocker in E. rewrite En in E. cbn [negb] in E.
    assert (K : exists r, MintAndAllocate w = (r, w') /\ r <> Panic).
    { destruct (MintAndAllocate w) as [[[]|e|] w1]; simplify_eq; eauto. }
    destruct K as (r & Em & Np). rewrite (mint_eq w b Rd NZ Eb) in Em. unfold capped in Em.
    rewrite (proj2 (Z.ltb_lt _ _) Hc) in Em. cbv iota beta in Em.
    assert (X0 : 0 <= max_supply w * one - supply w * one) by (unfold one; lia).
    destruct (Z.ltb_spec (max_supply w * one - supply w * one) 0); [lia|].
    apply pay_facts in Em as (P & _); [|apply coins_of_operand; [by apply rd_denom|by apply round_nonneg]|done].
    unfold GetParams. rewrite P. unfold write_params. by rewrite view_update. }
  split_and!; [done| |].
  - intros Em. rewrite (mint_eq w b Rd NZ Eb) in Em. unfold capped in Em.
    rewrite (proj2 (Z.ltb_lt _ _) Hc) in Em. cbv iota beta in Em.
    destruct (Z.ltb_spec (max_supply w * one - supply w * one) 0); [unfold one in *; lia|].
    rewrite <- Z.mul_sub_distr_r, round_exact in Em.
    apply pay_ok in Em as (P & _ & S & _); [|apply coins_of_operand; [by apply rd_denom|lia]].
    unfold supply, mint_denom, GetParams. rewrite P. unfold write_params. rewrite view_update. cbn.
    rewrite S, coins_of_amt, decide_True by done. unfold write_params. rewrite co_update_supply.
    fold (mint_denom w) (supply w). lia.
  - intros w2 St. apply idle_disabled in St; [|done]. unfold EndBlocker, GetParams in *.
    rewrite St, Dis. done.
Qed.

(** A pause is minted afterwards: while the module is switched off the noted time stays, so
    the first block after it is switched on again mints for the whole time since
    the last block before the pause. *)
Theorem pause_is_minted w w1 w2 p b : EnableCoinomics (GetParams w) = false -> GetPrevBlockTS w <> 0 ->
  rtc idle_step w w1 -> EnableCoinomics p = true ->
  SetParams p w1 = (Ok tt, w2) -> ready w2 -> TotalBondedTokens w2 = Ok b ->
  GetPrevBlockTS w2 = GetPrevBlockTS w /\
  MintAndAllocate w2
  = let '(x, w3) := capped w2 (Mul (Mul (b * one) (Quo (RewardCoefficient p) (100 * one)))
                      (Quo (UnixMilli w2 * one - GetPrevBlockTS w * one)
                           (yearInMillis (Year (UnixMilli w2)) * one))) in
    if x <? 0 then (Ok tt, w3) else pay (coins_of (MintDenom p) (RoundInt x)) (UnixMilli w2) w3.
Proof.
  intros Dis NZ St En [_ ->]%set_params_inv Rd Eb. set (w2 := write_params p w1) in *. apply idle_disabled in St; [|done].
  assert (Ep : GetPrevBlockTS w2 = GetPrevBlockTS w).
  { unfold w2, write_params, GetPrevBlockTS. by rewrite view_update, St. }
  assert (Eg : GetParams w2 = p) by (unfold w2, write_params, GetParams; by rewrite view_update).
  split; [done|]. rewrite (mint_eq w2 b Rd) by (done || by rewrite Ep).
  unfold block_amount, mint_denom. by rewrite Eg, Ep.
Qed.

(** The export writes the time of the last block, the import does not read it: a
    restored module notes the time of its first block and mints nothing in it. *)
Lemma genesis_forgets_time w w0 gs : Params_Validate (GetParams w) = Ok tt -> ExportGenesis w = Ok gs -> is_Some (GetModuleAccount ModuleName w0) ->
  co_prev (view w0) = None -> exists w1, InitGenesis gs w0 = (Ok tt, w1) /\
  GetParams w1 = GetParams w /\ GetMaxSupply w1 = GetMaxSupply w /\ gs_PrevBlockTs gs = GetPrevBlockTS w /\
  GetPrevBlockTS w1 = 0.
Proof.
  intros V E [acc Ha] N. unfold ExportGenesis in E. apply res_bind_ok in E as (mx & Em & E). injection E as <-.
  unfold InitGenesis, mbind, M_bind, mgets. rewrite Ha. cbn [gs_Params]. rewrite set_params_ok by done.
  eexists. split; [reflexivity|].
  cbn [gs_Params gs_PrevBlockTs gs_MaxSupply].
  unfold SetMaxSupply, write_params, GetParams, GetMaxSupply, GetPrevBlockTS. rewrite !view_update. cbn.
  fold (GetMaxSupply w). rewrite Em, N. done.
Qed.
End theory.

(** ** Concrete runs *)

Section examples.

#[local] Existing Instances RefOps RefLaws RefIbc RefCtx RefAccountKeeper RefBankKeeper RefModuleBank
  RefModuleBankLaws RefSupply RefSupplyLaws.

(** Rounding to the nearest, halves upwards. *)
#[local] Instance RefCoinDec : CoinDec := {
  Mul a b := (2 * (a * b) + one) / (2 * one);
  Quo a b := (2 * (a * one) + b) / (2 * b);
  RoundInt a := (2 * a + one) / (2 * one)
}.

Lemma near_div t b : 0 < b -> 2 * Z.abs ((2 * t + b) / (2 * b) * b - t) <= b.
Proof.
  intros Hb. pose proof (Z.div_mod (2 * t + b) (2 * b) ltac:(lia)) as E.
  pose proof (Z.mod_pos_bound (2 * t + b) (2 * b) ltac:(lia)) as B.
  revert E B. generalize ((2 * t + b) / (2 * b)) as k, ((2 * t + b) mod (2 * b)) as r. intros k r E B.
  assert (E' : 2 * (k * b - t) = b - r) by lia. lia.
Qed.

Lemma RefCoinDecLaws : CoinDecLaws.
Proof.
  constructor; simpl.
  - intros a b. by apply near_div.
  - intros a b Hb. pose proof (near_div (a * one) b Hb). lia.
  - intros a. by apply near_div.
Qed.

Abbreviation CW := (RefWorld CoinomicsState).

#[local] Instance RefCoinomics : CoinomicsKeepers CW := {
  UnixMilli w := rw_time w * 1000;
  TotalBondedTokens _ := Ok (10 ^ 24);
  SendCoinsFromModuleToModule m1 m2 := rw_send ("module/" +:+ m1) ("module/" +:+ m2);
  feeCollectorName := "fee_collector"
}.

#[local] Instance RefCoinLens : Lens CW CoinomicsState := ref_lens id (fun s _ => s).

Lemma RefCoinState : ModuleState CW CoinomicsState.
Proof. by apply ref_module_state. Qed.

Lemma issue_total who cs (w w' : CW) e : Forall (fun c => 0 <= Amount c) cs ->
  rw_issue 1 who cs w <> (Err e, w').
Proof.
  intros F. revert w. induction F as [|c cs Pc _ IH]; intros w E; cbn [rw_issue] in E; [done|].
  destruct (Z.ltb_spec (rw_balance w who (Denom c) + 1 * Amount c) 0).
  - pose proof (rw_balance_nonneg w who (Denom c)). lia.
  - by apply IH in E.
Qed.

Lemma RefCoinLaws : CoinomicsLaws CW.
Proof.
  constructor; simpl.
  - intros m1 m2 cs w w' _ E. by apply rw_send_ok in E as (Hm & _ & _).
  - intros m1 m2 cs w w' r E. split; [by rewrite (rw_send_ext _ _ _ _ _ _ E)|].
    intros d. by eapply rw_send_supply.
  - intros m cs w w' e d O E. exfalso. eapply issue_total; [|exact E]. apply O.
  - done.
  - by intros w x [= <-].
Qed.

#[local] Existing Instances RefCoinDecLaws RefCoinState RefCoinLaws.

(** A chain in 2024 whose last block was a day ago; [total] of the coin exist. *)
Definition ex_day (total : N) (enabled : bool) : CW :=
  mkWorld 1710086400 ∅ 0 (<[("alice", "aISLM") := total]> ∅) ∅ ∅
    (mkCoinomics (mkParams "aISLM" (78 * 10 ^ 17) enabled) (Some 1710000000000)
       (Some (mkCoin "aISLM" (10 ^ 29)))).

Definition ex_normal : CW := ex_day (10 ^ 25) true.
Definition ex_full : CW := ex_day (10 ^ 29 - 5) true.

Lemma ex_ready total enabled : ready (ex_day total enabled).
Proof. constructor; [by eexists|done]. Qed.



Lemma MintAndAllocate_correct_witness :
  exists n, supply (snd (MintAndAllocate ex_normal)) = 10 ^ 25 + n /\
    GetBalance "module/fee_collector" "aISLM" (snd (MintAndAllocate ex_normal)) = n.
Proof.
  destruct (MintAndAllocate_correct ex_normal (snd (MintAndAllocate ex_normal)) (10 ^ 24))
    as (n & rc & q & _ & S & _ & B & _).
  - apply ex_ready.
  - done.
  - done.
  - done.
  - by vm_compute.
  - by vm_compute.
  - by vm_compute.
  - assert (E : GetBalance "module/fee_collector" "aISLM" ex_normal = 0) by (by vm_compute).
    assert (E' : supply ex_normal = 10 ^ 25) by (by vm_compute).
    exists n. rewrite S, B, E, E', decide_True by reflexivity. split; [reflexivity|].
    rewrite decide_True by reflexivity. apply Z.add_0_l.
Defined.

Lemma coinomics_caps_supply_witness :
  supply (snd (EndBlocker (snd (EndBlocker ex_full)))) <= 10 ^ 29.
Proof.
  assert (E : 10 ^ 29 = max_supply ex_full) by (by vm_compute). rewrite E.
  destruct (coinomics_caps_supply ex_full (snd (EndBlocker (snd (EndBlocker ex_full))))) as [S _];
    [| | |exact S].
  - apply ex_ready.
  - by vm_compute.
  - apply (rtc_l _ ex_full (snd (EndBlocker ex_full))); [apply step_block; by vm_compute|].
    apply rtc_once, step_block. by vm_compute.
Defined.

Lemma cap_ends_minting_witness :
  EndBlocker (snd (EndBlocker ex_full)) = (Ok tt, snd (EndBlocker ex_full)).
Proof.
  destruct (cap_ends_minting ex_full (snd (EndBlocker ex_full)) (10 ^ 24)) as (_ & _ & T).
  - apply ex_ready.
  - done.
  - done.
  - done.
  - by vm_compute.
  - by vm_compute.
  - by vm_compute.
  - apply T, rtc_refl.
Defined.

(** After a pause of one day the day is minted. *)
Lemma pause_is_minted_witness :
  GetPrevBlockTS (write_params DefaultParams (ex_day (10 ^ 25) false)) = 1710000000000.
Proof.
  destruct (pause_is_minted (ex_day (10 ^ 25) false) (ex_day (10 ^ 25) false)
              (write_params DefaultParams (ex_day (10 ^ 25) false)) DefaultParams (10 ^ 24))
    as [E _].
  - done.
  - done.
  - apply rtc_refl.
  - done.
  - by vm_compute.
  - exact (ex_ready (10 ^ 25) true).
  - done.
  - exact E.
Defined.
End examples.
