(* ===== verification/EvmMachine.v ===== *)
(** * x/evm/core/vm: contract.go, stack.go, memory.go, opcode_hooks.go, and the types of
      evm.go and interpreter.go; x/evm/core/core/utils.go

    The state of an EVM.  A byte slice is a string, an address one of 20 bytes,
    and [uint256.Int] a number below 2^256.  An [EVM] has the fields that change during a
    transaction; what stays is in [EvmEnv].  The interpreter's [readOnly] and
    [returnData] are kept with them.  A contract's tables of jump destinations
    ([Contract.analysis], [Contract.jumpdests]) are memos of [codeBitmap] and are not kept.
    A tracer only observes, and [Cancel] is only called by queries from
    outside: neither is modelled. *)

From S2P Require Import Prelude.
From S2P Require Import AccessList.
From S2P Require Import StateDB.
From S2P Require Import Precompile.

Local Open Scope Z_scope.

(** ** Errors *)

Definition ErrCodeStoreOutOfGas : err := ErrText "contract creation code storage out of gas".
Definition ErrDepth : err := ErrText "max call depth exceeded".
Definition ErrInsufficientBalance : err := ErrText "insufficient balance for transfer".
Definition ErrContractAddressCollision : err := ErrText "contract address collision".
Definition ErrMaxCodeSizeExceeded : err := ErrText "max code size exceeded".
Definition ErrInvalidJump : err := ErrText "invalid jump destination".
Definition ErrReturnDataOutOfBounds : err := ErrText "return data out of bounds".
Definition ErrGasUintOverflow : err := ErrText "gas uint64 overflow".
Definition ErrInvalidCode : err := ErrText "invalid code: must not begin with 0xef".
Definition ErrNonceUintOverflow : err := ErrText "nonce uint64 overflow".
Definition errStopToken : err := ErrText "stop token".
Definition ErrStackUnderflow (stackLen required : Z) : err :=
  ErrText ("stack underflow (" +:+ format_u64 stackLen +:+ " <=> " +:+ format_u64 required +:+ ")").
Definition ErrStackOverflow (stackLen limit : Z) : err :=
  ErrText ("stack limit reached " +:+ format_u64 stackLen +:+ " (" +:+ format_u64 limit +:+ ")").

(** ** Bytes *)

Definition byte_val (c : Ascii.ascii) : Z := Z.of_N (Ascii.N_of_ascii c).
Definition slen (s : string) : Z := Z.of_nat (String.length s).
(** The byte at [n], which must be in range. *)
Definition byte_at (s : string) (n : Z) : option Z := byte_val <$> String.get (Z.to_nat n) s.

(** ** Contracts *)

(** [ContractRef]: an account, or a running contract with what a delegate call
    takes from it. *)
Inductive ContractRef :=
  | AccountRef (a : Address)
  | RunningContract (self callerAddress : Address) (value : option Z).

Definition ref_Address (r : ContractRef) : Address :=
  match r with AccountRef a => a | RunningContract a _ _ => a end.

Record Contract := mkContract {
  CallerAddress : Address;
  caller : ContractRef;
  self : Address;
  c_Code : string;
  c_CodeHash : Hash;
  CodeAddr : option Address;
  c_Input : string;
  c_Gas : Z;
  (** [None] is nil *)
  c_value : option Z;
  isPrecompile : bool
}.

Definition contract_ref (c : Contract) : ContractRef := RunningContract (self c) (CallerAddress c) (c_value c).

Definition set_gas (gas : Z) (c : Contract) : Contract :=
  mkContract (CallerAddress c) (caller c) (self c) (c_Code c) (c_CodeHash c) (CodeAddr c)
    (c_Input c) gas (c_value c) (isPrecompile c).

Definition set_input (input : string) (c : Contract) : Contract :=
  mkContract (CallerAddress c) (caller c) (self c) (c_Code c) (c_CodeHash c) (CodeAddr c)
    input (c_Gas c) (c_value c) (isPrecompile c).

Definition NewPrecompile (from : ContractRef) (object : Address) (value : option Z) (gas : Z) : Contract :=
  mkContract (ref_Address from) from object EmptyString zero_hash None EmptyString gas value true.

Definition NewContract (from : ContractRef) (object : Address) (value : option Z) (gas : Z) : Contract :=
  mkContract (ref_Address from) from object EmptyString zero_hash None EmptyString gas value false.

(** The type assertion on the caller panics for an account. *)
Definition AsDelegate (c : Contract) : res Contract :=
  if isPrecompile c then Ok c
  else match caller c with
       | AccountRef _ => Panic
       | RunningContract _ callerAddress value =>
           Ok (mkContract callerAddress (caller c) (self c) (c_Code c) (c_CodeHash c)
                 (CodeAddr c) (c_Input c) (c_Gas c) value (isPrecompile c))
       end.

Definition STOP : Z := 0.

Definition GetOp (c : Contract) (n : Z) : Z :=
  if n <? slen (c_Code c) then default STOP (byte_at (c_Code c) n) else STOP.

Definition UseGas (gas : Z) (c : Contract) : bool * Contract :=
  if c_Gas c <? gas then (false, c) else (true, set_gas (c_Gas c - gas) c).

Definition SetCallCode (addr : option Address) (hash : Hash) (code : string) (c : Contract) : Contract :=
  if isPrecompile c then c
  else mkContract (CallerAddress c) (caller c) (self c) code hash addr
         (c_Input c) (c_Gas c) (c_value c) (isPrecompile c).

(** [codeAndHash]: the hash is computed when it is asked for; [zero_hash] until then. *)
Record codeAndHash := mkCodeAndHash { ch_code : string; ch_hash : Hash }.

Definition codeAndHash_Hash `{Keccak} (ch : codeAndHash) : Hash * codeAndHash :=
  if bool_decide (ch_hash ch = zero_hash)
  then let h := Keccak256Hash (ch_code ch) in (h, mkCodeAndHash (ch_code ch) h)
  else (ch_hash ch, ch).

Definition SetCodeOptionalHash (addr : option Address) (ch : codeAndHash) (c : Contract) : Contract :=
  SetCallCode addr (ch_hash ch) (ch_code ch) c.

(** ** Stack and memory *)

(** [Stack.Data], with the top first. *)
Abbreviation Stack := (list Z).

Record Memory := mkMemory { store : string; lastGasCost : Z }.

Definition NewMemory : Memory := mkMemory EmptyString 0.

(** ** The environment of a transaction *)

Record BlockContext := mkBlockContext {
  GetHash : Z -> Hash;
  Coinbase : Address;
  bc_GasLimit : Z;
  BlockNumber : Z;
  bc_Time : Z;
  Difficulty : Z;
  bc_BaseFee : option Z;
  Random : option Hash
}.

Record TxContext := mkTxContext { Origin : Address; tc_GasPrice : Z }.

(** go-ethereum's [params.Rules]: the forks that are active. *)
Record Rules := mkRules {
  ChainID : Z;
  IsHomestead : bool;
  IsEIP150 : bool;
  IsEIP155 : bool;
  IsEIP158 : bool;
  IsByzantium : bool;
  IsConstantinople : bool;
  IsPetersburg : bool;
  IsIstanbul : bool;
  IsBerlin : bool;
  IsLondon : bool;
  IsMerge : bool
}.

(** What a call returns: the data, the gas that is left and the error. *)
Record Outcome := mkOutcome { ret : string; leftOverGas : Z; vm_err : option err }.

(** go-ethereum's contract addresses. *)
Class EthAddresses := {
  crypto_CreateAddress : Address -> Z -> Address;
  crypto_CreateAddress2 : Address -> Hash -> Hash -> Address
}.

(** [vm.PrecompiledContract]; the contract's gas is part of what [Run] returns. *)
Class PrecompiledContracts (W P : Type) := {
  p_Address : P -> Address;
  p_RequiredGas : P -> string -> Z;
  p_Run : P -> BlockContext -> TxContext -> Contract -> bool -> M (StateDB W) Outcome
}.

Record EVM {W P : Type} := mkEVM {
  evm_StateDB : StateDB W;
  depth : Z;
  callGasTemp : Z;
  precompiles : gmap Address P;
  activePrecompiles : list Address;
  in_readOnly : bool;
  in_returnData : string
}.
Arguments EVM W P : clear implicits.
Arguments mkEVM {W P}.

Section evm.
Context {W P : Type}.

Definition with_db (s : StateDB W) (e : EVM W P) : EVM W P :=
  mkEVM s (depth e) (callGasTemp e) (precompiles e) (activePrecompiles e) (in_readOnly e)
    (in_returnData e).
Definition with_depth (d : Z) (e : EVM W P) : EVM W P :=
  mkEVM (evm_StateDB e) d (callGasTemp e) (precompiles e) (activePrecompiles e)
    (in_readOnly e) (in_returnData e).
Definition with_call_gas (g : Z) (e : EVM W P) : EVM W P :=
  mkEVM (evm_StateDB e) (depth e) g (precompiles e) (activePrecompiles e) (in_readOnly e)
    (in_returnData e).
Definition with_readOnly (b : bool) (e : EVM W P) : EVM W P :=
  mkEVM (evm_StateDB e) (depth e) (callGasTemp e) (precompiles e) (activePrecompiles e) b
    (in_returnData e).
Definition with_returnData (d : string) (e : EVM W P) : EVM W P :=
  mkEVM (evm_StateDB e) (depth e) (callGasTemp e) (precompiles e) (activePrecompiles e)
    (in_readOnly e) d.

(** [EVM.WithPrecompiles]: the maps are replaced. *)
Definition WithPrecompiles (m : gmap Address P) (active : list Address) (e : EVM W P) : EVM W P :=
  mkEVM (evm_StateDB e) (depth e) (callGasTemp e) m active (in_readOnly e) (in_returnData e).

Definition Precompile (addr : Address) (e : EVM W P) : option P := precompiles e !! addr.

(** Operations of the StateDB as operations of the EVM. *)
Definition on_db {A} (f : StateDB W -> A * StateDB W) : M (EVM W P) A := fun e =>
  let '(a, s) := f (evm_StateDB e) in (Ok a, with_db s e).
Definition db_modify (f : StateDB W -> StateDB W) : M (EVM W P) unit :=
  mmodify (fun e => with_db (f (evm_StateDB e)) e).
Definition db_run {A} (m : M (StateDB W) A) : M (EVM W P) A := fun e =>
  let '(r, s) := m (evm_StateDB e) in (r, with_db s e).
Definition db_try (f : StateDB W -> res (StateDB W)) : M (EVM W P) unit := fun e =>
  match f (evm_StateDB e) with
  | Ok s => (Ok tt, with_db s e)
  | Err x => (Err x, e)
  | Panic => (Panic, e)
  end.

(** An error as a value. *)
Definition attempt {S A} (m : M S A) : M S (A + err) := fun e =>
  match m e with
  | (Ok a, e) => (Ok (inl a), e)
  | (Err x, e) => (Ok (inr x), e)
  | (Panic, e) => (Panic, e)
  end.

(** ** Hooks *)

(** [vm.OpCodeHooks] *)
Record OpCodeHooks := mkHooks {
  CallHook : Address -> Address -> M (EVM W P) unit;
  CreateHook : Address -> M (EVM W P) unit
}.

(** ** Interpreter *)

(** The variables of one run: the EVM, the program counter and the [ScopeContext]. *)
Record Machine := mkMachine {
  m_evm : EVM W P;
  m_pc : Z;
  m_mem : Memory;
  m_stack : Stack;
  m_contract : Contract
}.

(** The EVM's entry points, as the instructions call them. *)
Record EvmCalls := mkCalls {
  do_Call : ContractRef -> Address -> string -> Z -> Z -> M (EVM W P) Outcome;
  do_CallCode : ContractRef -> Address -> string -> Z -> Z -> M (EVM W P) Outcome;
  do_DelegateCall : ContractRef -> Address -> string -> Z -> M (EVM W P) Outcome;
  do_StaticCall : ContractRef -> Address -> string -> Z -> M (EVM W P) Outcome;
  do_Create : ContractRef -> string -> Z -> Z -> M (EVM W P) (Outcome * Address);
  do_Create2 : ContractRef -> string -> Z -> Z -> Z -> M (EVM W P) (Outcome * Address)
}.

(** [vm.operation].  An execution returns data and an error, or fails with an error and no data. *)
Record operation := mkOperation {
  execute : EvmCalls -> M Machine (string * option err);
  constantGas : Z;
  dynamicGas : option (Z -> M Machine Z);
  minStack : Z;
  maxStack : Z;
  (** the size and whether it overflows *)
  memorySize : option (Stack -> res (Z * bool))
}.

(** [vm.JumpTable], an array of 256 operations. *)
Abbreviation JumpTable := (Z -> operation).

(** What of an EVM stays the same during a transaction. *)
Record EvmEnv := mkEnv {
  Context : BlockContext;
  env_TxContext : TxContext;
  chainRules : Rules;
  hooks : OpCodeHooks;
  env_JumpTable : JumpTable
}.
End evm.
Arguments OpCodeHooks W P : clear implicits.
Arguments Machine W P : clear implicits.
Arguments EvmCalls W P : clear implicits.
Arguments operation W P : clear implicits.
Arguments EvmEnv W P : clear implicits.

(** ** Balances *)

Section transfers.
Context {W : Type} `{StateKeeper W, Keccak}.

Definition CanTransfer (addr : Address) (amount : Z) (s : StateDB W) : bool * StateDB W :=
  let '(b, s) := GetBalance addr s in (amount <=? b, s).

Definition Transfer (sender recipient : Address) (amount : Z) (s : StateDB W) : StateDB W :=
  AddBalance recipient amount (SubBalance sender amount s).
End transfers.
