(* ===== verification/EvmCode.v ===== *)
(** * x/evm/core/vm: analysis.go, and the jump checks of contract.go

    The bitmap that tells instructions from the data of push instructions.
    [codeBitmap_correct] shows that its byte-wise marking is the walk over
    the code from its start: a position is data exactly when it is an argument of a push
    that the walk meets. *)

From S2P Require Import Prelude.
From S2P Require Import AccessList.
From S2P Require Import StateDB.
From S2P Require Import EvmMachine.

Local Open Scope Z_scope.

(** A bit vector over the bytes of a program: a set bit is data. *)
Abbreviation bitvec := (list Z).

Definition PUSH1 : Z := 96.
Definition PUSH32 : Z := 127.
Definition JUMPDEST : Z := 91.

(** [bits[i] |= x] and [bits[i] = x], which panic out of range. *)
Definition bits_or (bits : bitvec) (i x : Z) : res bitvec :=
  match bits !! Z.to_nat i with
  | Some b => Ok (<[Z.to_nat i := Z.lor b x]> bits)
  | None => Panic
  end.
Definition bits_set (bits : bitvec) (i x : Z) : res bitvec :=
  match bits !! Z.to_nat i with
  | Some _ => Ok (<[Z.to_nat i := x]> bits)
  | None => Panic
  end.

Definition to_byte (x : Z) : Z := Z.land x 255.

Definition set1 (bits : bitvec) (pos : Z) : res bitvec :=
  bits_or bits (pos / 8) (Z.shiftl 1 (pos mod 8)).

(** [flag] and [a] are of 16 bits. *)
Definition setN (bits : bitvec) (flag pos : Z) : res bitvec :=
  let a := Z.land (Z.shiftl flag (pos mod 8)) 65535 in
  bits ← bits_or bits (pos / 8) (to_byte a);
  let b := to_byte (Z.shiftr a 8) in
  if b =? 0 then Ok bits else bits_set bits (pos / 8 + 1) b.

Definition set8 (bits : bitvec) (pos : Z) : res bitvec :=
  let a := to_byte (Z.shiftl 255 (pos mod 8)) in
  bits ← bits_or bits (pos / 8) a;
  bits_set bits (pos / 8 + 1) (Z.lxor a 255).

Definition set16 (bits : bitvec) (pos : Z) : res bitvec :=
  let a := to_byte (Z.shiftl 255 (pos mod 8)) in
  bits ← bits_or bits (pos / 8) a;
  bits ← bits_set bits (pos / 8 + 1) 255;
  bits_set bits (pos / 8 + 2) (Z.lxor a 255).

Definition codeSegment (bits : bitvec) (pos : Z) : res bool :=
  match bits !! Z.to_nat (pos / 8) with
  | Some b => Ok (Z.land (Z.shiftr b (pos mod 8)) 1 =? 0)
  | None => Panic
  end.

(** The loops over 16 and over 8 bits, for at most [fuel] rounds. *)
Fixpoint mark_loop (mark : bitvec -> Z -> res bitvec) (width : Z) (fuel : nat) (bits : bitvec)
    (numbits pc : Z) : res (bitvec * Z * Z) :=
  match fuel with
  | O => Ok (bits, numbits, pc)
  | S fuel =>
      if width <=? numbits then
        bits ← mark bits pc;
        mark_loop mark width fuel bits (numbits - width) (pc + width)
      else Ok (bits, numbits, pc)
  end.

(** The arguments of a push of [numbits] bytes, the first at [pc]. *)
Definition mark_push (bits : bitvec) (numbits pc : Z) : res (bitvec * Z) :=
  '(bits, numbits, pc) ←
    (if 8 <=? numbits then
       '(bits, numbits, pc) ← mark_loop set16 16 2 bits numbits pc;
       mark_loop set8 8 1 bits numbits pc
     else Ok (bits, numbits, pc));
  if numbits =? 1 then bits ← set1 bits pc; Ok (bits, pc + 1)
  else if (2 <=? numbits) && (numbits <=? 7) then
    bits ← setN bits (Z.ones numbits) pc; Ok (bits, pc + numbits)
  else Ok (bits, pc).

(** The signed comparison leaves the opcodes from [PUSH1] to [PUSH32]. *)
Definition push_size (op : Z) : Z := if (PUSH1 <=? op) && (op <=? PUSH32) then op - PUSH1 + 1 else 0.

Fixpoint codeBitmapInternal (fuel : nat) (code : string) (bits : bitvec) (pc : Z) : res bitvec :=
  match fuel with
  | O => Ok bits
  | S fuel =>
      if slen code <=? pc then Ok bits
      else
        match byte_at code pc with
        | None => Panic
        | Some op =>
            if push_size op =? 0 then codeBitmapInternal fuel code bits (pc + 1)
            else
              '(bits, pc) ← mark_push bits (push_size op) (pc + 1);
              codeBitmapInternal fuel code bits pc
        end
  end.

Definition codeBitmap (code : string) : res bitvec :=
  codeBitmapInternal (String.length code) code
    (replicate (Z.to_nat (slen code / 8 + 1 + 4)) 0) 0.

Definition isCode (c : Contract) (udest : Z) : res bool :=
  if isPrecompile c then Ok false
  else bits ← codeBitmap (c_Code c); codeSegment bits udest.

Definition validJumpdest (c : Contract) (dest : Z) : res bool :=
  if isPrecompile c then Ok false
  else if (2 ^ 64 <=? dest) || (slen (c_Code c) <=? dest) then Ok false
  else
    match byte_at (c_Code c) dest with
    | None => Panic
    | Some op => if op =? JUMPDEST then isCode c dest else Ok false
    end.

(** ** The walk over the code *)

(** Is [p] the argument of a push, on the walk from the instruction at [pc]? *)
Fixpoint push_data (fuel : nat) (code : string) (pc p : Z) : bool :=
  match fuel with
  | O => false
  | S fuel =>
      if slen code <=? pc then false
      else
        let n := push_size (default 0 (byte_at code pc)) in
        if (pc <? p) && (p <=? pc + n) then true
        else push_data fuel code (pc + 1 + n) p
  end.

Definition is_push_data (code : string) (p : Z) : bool := push_data (String.length code) code 0 p.

(** ** Bits *)

Definition bit_at (bits : bitvec) (p : Z) : bool :=
  Z.testbit (default 0 (bits !! Z.to_nat (p / 8))) (p mod 8).

Lemma codeSegment_bit bits p : 0 <= p -> p / 8 < Z.of_nat (length bits) ->
  codeSegment bits p = Ok (negb (bit_at bits p)).
Proof.
  intros Hp Hl. unfold codeSegment, bit_at.
  assert (Hd : 0 <= p / 8) by (apply Z.div_pos; lia).
  destruct (lookup_lt_is_Some_2 bits (Z.to_nat (p / 8))) as [b Hb]; [lia|]. rewrite Hb. simpl. f_equal.
  change 1 with (Z.ones 1). rewrite Z.land_ones by lia. change (2 ^ 1) with 2. rewrite <- Z.bit0_mod.
  rewrite Z.shiftr_spec by lia. rewrite Z.add_0_l. by destruct (Z.testbit b (p mod 8)).
Qed.

(** The position [p] is in [n] positions from [pc]. *)
Definition in_range (pc n p : Z) : bool := (pc <=? p) && (p <? pc + n).

(** [bits'] are [bits] with [n] more from [pc]. *)
Definition marked (bits bits' : bitvec) (pc n : Z) : Prop :=
  length bits' = length bits /\ forall p, 0 <= p -> bit_at bits' p = bit_at bits p || in_range pc n p.

(** No bit is set from [pc] on. *)
Definition clean (bits : bitvec) (pc : Z) : Prop := forall p, pc <= p -> bit_at bits p = false.

Lemma bit_insert bits i x p : 0 <= i < Z.of_nat (length bits) -> 0 <= p ->
  bit_at (<[Z.to_nat i := x]> bits) p = if p / 8 =? i then Z.testbit x (p mod 8) else bit_at bits p.
Proof.
  intros Hi Hp. unfold bit_at. pose proof (Z.div_pos p 8 Hp eq_refl) as Hd. destruct (Z.eqb_spec (p / 8) i) as [<-|Hn].
  - rewrite list_lookup_insert_eq by lia. done.
  - rewrite list_lookup_insert_ne by lia. done.
Qed.

(** Storing a byte that agrees on the bits before [pc]. *)
Lemma or_marks bits i x : 0 <= i < Z.of_nat (length bits) ->
  exists bits', bits_or bits i x = Ok bits' /\ length bits' = length bits /\
    forall p, 0 <= p -> bit_at bits' p = bit_at bits p || (p / 8 =? i) && Z.testbit x (p mod 8).
Proof.
  intros Hi. unfold bits_or. destruct (lookup_lt_is_Some_2 bits (Z.to_nat i)) as [b Hb]; [lia|]. rewrite Hb.
  eexists. split; [done|]. split; [by rewrite length_insert|]. intros p Hp. rewrite bit_insert by done.
  destruct (Z.eqb_spec (p / 8) i) as [<-|]; simpl; [|by rewrite orb_false_r].
  unfold bit_at. rewrite Hb. simpl. apply Z.lor_spec.
Qed.

Lemma set_marks bits i x pc : 0 <= i < Z.of_nat (length bits) -> clean bits pc -> pc <= 8 * i ->
  exists bits', bits_set bits i x = Ok bits' /\ length bits' = length bits /\
    forall p, 0 <= p -> bit_at bits' p = bit_at bits p || (p / 8 =? i) && Z.testbit x (p mod 8).
Proof.
  intros Hi Hc Hpc. unfold bits_set. destruct (lookup_lt_is_Some_2 bits (Z.to_nat i)) as [b Hb]; [lia|]. rewrite Hb.
  eexists. split; [done|]. split; [by rewrite length_insert|]. intros p Hp. rewrite bit_insert by done.
  destruct (Z.eqb_spec (p / 8) i) as [<-|]; simpl; [|by rewrite orb_false_r].
  rewrite Hc; [done|]. pose proof (Z.div_mod p 8 ltac:(lia)). pose proof (Z.mod_pos_bound p 8 ltac:(lia)). lia.
Qed.

Lemma testbit_low k n j : 0 <= k -> 0 <= n -> 0 <= j -> Z.testbit (Z.shiftl (Z.ones n) k) j = (k <=? j) && (j <? k + n).
Proof.
  intros Hk Hn Hj. rewrite Z.shiftl_spec by lia. destruct (Z.ltb_spec (j - k) 0).
  - rewrite Z.testbit_neg_r by lia. lia.
  - rewrite Z.testbit_ones_nonneg by lia. lia.
Qed.

Lemma testbit_mask x w j : 0 <= w -> 0 <= j -> Z.testbit (Z.land x (Z.ones w)) j = Z.testbit x j && (j <? w).
Proof. intros Hw Hj. rewrite Z.land_spec, Z.testbit_ones_nonneg by lia. done. Qed.

Ltac div8 p :=
  pose proof (Z.div_mod p 8 ltac:(lia)); pose proof (Z.mod_pos_bound p 8 ltac:(lia));
  pose proof (Z.div_pos p 8).

Lemma set1_marks bits pos : 0 <= pos -> pos + 1 < 8 * Z.of_nat (length bits) ->
  exists bits', set1 bits pos = Ok bits' /\ marked bits bits' pos 1.
Proof.
  intros Hp Hl. div8 pos. destruct (or_marks bits (pos / 8) (Z.shiftl 1 (pos mod 8))) as (b & E & L & Hb); [lia|].
  exists b. split; [done|]. split; [done|]. intros p Hp'. rewrite Hb by done. f_equal. div8 p.
  change 1 with (Z.ones 1) at 1. rewrite testbit_low by lia. unfold in_range. lia.
Qed.

Lemma setN_marks bits n pos : 2 <= n <= 7 -> 0 <= pos -> pos + 8 < 8 * Z.of_nat (length bits) -> clean bits pos ->
  exists bits', setN bits (Z.ones n) pos = Ok bits' /\ marked bits bits' pos n.
Proof.
  intros Hn Hp Hl Hc. div8 pos. unfold setN, to_byte.
  set (a := Z.land (Z.shiftl (Z.ones n) (pos mod 8)) 65535).
  assert (Ha : forall j, 0 <= j -> Z.testbit a j = (pos mod 8 <=? j) && (j <? pos mod 8 + n)).
  { intros j Hj. subst a. change 65535 with (Z.ones 16). rewrite testbit_mask, testbit_low by lia. lia. }
  assert (Hlo : forall j, 0 <= j -> Z.testbit (Z.land a 255) j = (pos mod 8 <=? j) && (j <? pos mod 8 + n) && (j <? 8)).
  { intros j Hj. change 255 with (Z.ones 8). by rewrite testbit_mask, Ha by lia. }
  assert (Hhi : forall j, 0 <= j -> Z.testbit (Z.land (Z.shiftr a 8) 255) j = (j + 8 <? pos mod 8 + n)).
  { intros j Hj. change 255 with (Z.ones 8). rewrite testbit_mask, Z.shiftr_spec, Ha by lia. lia. }
  clearbody a. destruct (or_marks bits (pos / 8) (Z.land a 255)) as (b & -> & L & Hb); [lia|]. simpl.
  destruct (Z.eqb_spec (Z.land (Z.shiftr a 8) 255) 0) as [Hz|_].
  - exists b. split; [done|]. split; [done|]. intros p Hp'. rewrite Hb by done. f_equal. div8 p.
    rewrite Hlo by lia. specialize (Hhi 0 ltac:(lia)). rewrite Hz, Z.bits_0 in Hhi. unfold in_range. lia.
  - destruct (set_marks b (pos / 8 + 1) (Z.land (Z.shiftr a 8) 255) (8 * (pos / 8) + 8))
      as (b' & -> & L' & Hb'); [lia| |lia|].
    { intros p Hp'. rewrite Hb, Hc by lia. div8 p. lia. }
    exists b'. split; [done|]. split; [lia|]. intros p Hp'. rewrite Hb', Hb by done. rewrite <- orb_assoc. f_equal.
    div8 p. rewrite Hlo, Hhi by lia. unfold in_range. lia.
Qed.

(** The first and the last byte of [set8] and [set16]. *)
Lemma testbit_split r j : 0 <= r < 8 -> 0 <= j < 8 ->
  Z.testbit (to_byte (Z.shiftl 255 r)) j = (r <=? j) /\
  Z.testbit (Z.lxor (to_byte (Z.shiftl 255 r)) 255) j = (j <? r).
Proof.
  intros Hr Hj. unfold to_byte. change 255 with (Z.ones 8).
  assert (E : Z.testbit (Z.land (Z.shiftl (Z.ones 8) r) (Z.ones 8)) j = (r <=? j)).
  { rewrite testbit_mask, testbit_low by lia. lia. }
  split; [done|]. rewrite Z.lxor_spec, E, Z.testbit_ones_nonneg by lia. destruct (Z.leb_spec r j), (Z.ltb_spec j 8), (Z.ltb_spec j r); simpl; lia.
Qed.

Lemma set8_marks bits pos : 0 <= pos -> pos + 8 < 8 * Z.of_nat (length bits) -> clean bits pos ->
  exists bits', set8 bits pos = Ok bits' /\ marked bits bits' pos 8.
Proof.
  intros Hp Hl Hc. div8 pos. unfold set8. set (a := to_byte (Z.shiftl 255 (pos mod 8))).
  destruct (or_marks bits (pos / 8) a) as (b & -> & L & Hb); [lia|]. simpl.
  destruct (set_marks b (pos / 8 + 1) (Z.lxor a 255) (8 * (pos / 8) + 8)) as (b' & -> & L' & Hb'); [lia| |lia|].
  { intros p Hp'. rewrite Hb, Hc by lia. div8 p. lia. }
  exists b'. split; [done|]. split; [lia|]. intros p Hp'. rewrite Hb', Hb by done. rewrite <- orb_assoc. f_equal.
  div8 p. destruct (testbit_split (pos mod 8) (p mod 8)) as [E1 E2]; [lia|lia|]. fold a in E1, E2.
  rewrite E1, E2. unfold in_range. lia.
Qed.

Lemma set16_marks bits pos : 0 <= pos -> pos + 16 < 8 * Z.of_nat (length bits) -> clean bits pos ->
  exists bits', set16 bits pos = Ok bits' /\ marked bits bits' pos 16.
Proof.
  intros Hp Hl Hc. div8 pos. unfold set16. set (a := to_byte (Z.shiftl 255 (pos mod 8))).
  destruct (or_marks bits (pos / 8) a) as (b & -> & L & Hb); [lia|]. simpl.
  destruct (set_marks b (pos / 8 + 1) 255 (8 * (pos / 8) + 8)) as (b1 & -> & L1 & Hb1); [lia| |lia|].
  { intros p Hp'. rewrite Hb, Hc by lia. div8 p. lia. }
  simpl. destruct (set_marks b1 (pos / 8 + 2) (Z.lxor a 255) (8 * (pos / 8) + 16)) as (b2 & -> & L2 & Hb2); [lia| |lia|].
  { intros p Hp'. rewrite Hb1, Hb, Hc by lia. div8 p. lia. }
  exists b2. split; [done|]. split; [lia|]. intros p Hp'. rewrite Hb2, Hb1, Hb by done. rewrite <- !orb_assoc. f_equal.
  div8 p. destruct (testbit_split (pos mod 8) (p mod 8)) as [E1 E2]; [lia|lia|]. fold a in E1, E2.
  rewrite E1, E2. change 255 with (Z.ones 8). rewrite Z.testbit_ones_nonneg by lia. unfold in_range. lia.
Qed.

(** ** The arguments of a push *)

Lemma marked_clean bits bits' pc n : 0 <= pc -> 0 <= n -> clean bits pc -> marked bits bits' pc n -> clean bits' (pc + n).
Proof. intros Hpc Hn Hc [_ Hm] p Hp. rewrite Hm, Hc by lia. unfold in_range. lia. Qed.

Lemma marked_trans b0 b1 b2 pc n k : marked b0 b1 pc n -> marked b1 b2 (pc + n) k -> 0 <= n -> 0 <= k ->
  marked b0 b2 pc (n + k).
Proof.
  intros [L1 H1] [L2 H2] Hn Hk. split; [lia|]. intros p Hp. rewrite H2, H1 by done.
  rewrite <- orb_assoc. f_equal. unfold in_range. lia.
Qed.

Lemma marked_refl bits pc : marked bits bits pc 0.
Proof. split; [done|]. intros p _. unfold in_range. destruct (bit_at bits p); lia. Qed.

Lemma mark_loop_marks mark w fuel n bits pc :
  (forall b p, 0 <= p -> p + w < 8 * Z.of_nat (length b) -> clean b p -> exists b', mark b p = Ok b' /\ marked b b' p w) ->
  0 < w -> 0 <= n -> n / w <= Z.of_nat fuel -> 0 <= pc -> pc + n < 8 * Z.of_nat (length bits) -> clean bits pc ->
  exists bits', mark_loop mark w fuel bits n pc = Ok (bits', n mod w, pc + w * (n / w)) /\
    marked bits bits' pc (w * (n / w)).
Proof.
  intros Hm Hw. revert n bits pc. induction fuel as [|fuel IH]; intros n bits pc Hn Hf Hpc Hl Hc; simpl.
  - pose proof (Z.div_pos n w). pose proof (Z.div_mod n w). replace (n / w) with 0 in * by lia.
    exists bits. rewrite !Z.mul_0_r, Z.add_0_r. split; [do 3 f_equal; lia|apply marked_refl].
  - destruct (Z.leb_spec w n).
    + destruct (Hm bits pc) as (b & -> & Hb); [done|lia|done|]. simpl.
      assert (Hd : n / w = (n - w) / w + 1).
      { rewrite <- Z.div_add by lia. f_equal. lia. }
      destruct (IH (n - w) b (pc + w)) as (b' & E' & Hb'); [lia|lia|lia|rewrite (proj1 Hb); lia|by eapply marked_clean; eauto; lia|].
      exists b'. rewrite E', Hd. split.
      * f_equal. f_equal; [f_equal|lia]. replace n with (n - w + 1 * w) at 2 by lia. by rewrite Z.mod_add by lia.
      * replace (w * ((n - w) / w + 1)) with (w + w * ((n - w) / w)) by lia.
        eapply marked_trans; [exact Hb|exact Hb'|lia|]. apply Z.mul_nonneg_nonneg; [lia|]. apply Z.div_pos; lia.
    + rewrite Z.div_small, Z.mod_small by lia. rewrite Z.mul_0_r, Z.add_0_r. exists bits. split; [done|apply marked_refl].
Qed.

Lemma mark_tail bits n pc : 0 <= n <= 7 -> 0 <= pc -> n = 0 \/ pc + 8 < 8 * Z.of_nat (length bits) -> clean bits pc ->
  exists bits', (if n =? 1 then bits ← set1 bits pc; Ok (bits, pc + 1)
      else if (2 <=? n) && (n <=? 7) then bits ← setN bits (Z.ones n) pc; Ok (bits, pc + n)
      else Ok (bits, pc)) = Ok (bits', pc + n) /\ marked bits bits' pc n.
Proof.
  intros Hn Hpc Hl Hc. destruct (Z.eqb_spec n 1) as [->|].
  { destruct (set1_marks bits pc) as (b & -> & Hb); [lia|lia|]. by exists b. }
  destruct ((2 <=? n) && (n <=? 7)) eqn:E.
  { destruct (setN_marks bits n pc) as (b & -> & Hb); [lia|lia|lia|done|]. by exists b. }
  replace n with 0 by lia. exists bits. rewrite Z.add_0_r. split; [done|apply marked_refl].
Qed.

Lemma mark_push_marks bits n pc : 1 <= n <= 32 -> 0 <= pc -> pc + 32 < 8 * Z.of_nat (length bits) -> clean bits pc ->
  exists bits', mark_push bits n pc = Ok (bits', pc + n) /\ marked bits bits' pc n.
Proof.
  intros Hn Hpc Hl Hc. unfold mark_push. destruct (Z.leb_spec 8 n) as [H8|H8].
  2:{ cbn [mbind res_bind]. apply mark_tail; [lia|lia|lia|done]. }
  pose proof (Z.div_mod n 16 ltac:(lia)). pose proof (Z.mod_pos_bound n 16 ltac:(lia)).
  destruct (mark_loop_marks set16 16 2 n bits pc) as (b1 & -> & M1); [apply set16_marks|lia|lia| |lia|lia|done|].
  { apply Z.lt_succ_r, Z.div_lt_upper_bound; lia. }
  cbn [mbind res_bind]. pose proof (Z.div_pos n 16 ltac:(lia) ltac:(lia)).
  assert (C1 : clean b1 (pc + 16 * (n / 16))) by (apply (marked_clean bits); [lia|lia|done|done]).
  destruct (mark_loop_marks set8 8 1 (n mod 16) b1 (pc + 16 * (n / 16))) as (b2 & -> & M2);
    [apply set8_marks|lia|lia| |lia|rewrite (proj1 M1); lia|done|].
  { apply Z.lt_succ_r, Z.div_lt_upper_bound; lia. }
  cbn [mbind res_bind]. div8 (n mod 16).
  pose proof (marked_trans _ _ _ _ _ _ M1 M2 ltac:(lia) ltac:(lia)) as M12.
  replace (pc + 16 * (n / 16) + 8 * (n mod 16 / 8)) with (pc + (16 * (n / 16) + 8 * (n mod 16 / 8))) by lia.
  destruct (mark_tail b2 (n mod 16 mod 8) (pc + (16 * (n / 16) + 8 * (n mod 16 / 8)))) as (b3 & -> & M3);
    [lia|lia|rewrite (proj1 M12); lia|eapply marked_clean; [..|exact M12]; [lia|lia|done]|].
  exists b3. split; [do 2 f_equal; lia|].
  replace n with (16 * (n / 16) + 8 * (n mod 16 / 8) + n mod 16 mod 8) at 1 by lia.
  eapply marked_trans; [exact M12|exact M3|lia|lia].
Qed.

(** ** The whole code *)

Lemma push_size_range op : 0 <= push_size op <= 32.
Proof. unfold push_size, PUSH1, PUSH32. destruct (_ && _) eqn:E; lia. Qed.

Lemma byte_at_in code pc : 0 <= pc < slen code -> exists op, byte_at code pc = Some op.
Proof.
  unfold byte_at, slen. intros Hpc. assert (Hl : (Z.to_nat pc < String.length code)%nat) by lia. clear Hpc.
  revert Hl. generalize (Z.to_nat pc) as i. induction code as [|c code IH]; intros i Hi; simpl in *; [lia|].
  destruct i as [|i]; simpl; [eauto|]. apply IH. lia.
Qed.

(** The walk from [pc] marks the data of the pushes that it meets, and finds no other. *)
Lemma codeBitmapInternal_marks fuel code bits pc :
  0 <= pc -> slen code - pc <= Z.of_nat fuel -> length bits = Z.to_nat (slen code / 8 + 1 + 4) -> clean bits pc ->
  exists bits', codeBitmapInternal fuel code bits pc = Ok bits' /\ length bits' = length bits /\
    forall p, 0 <= p -> bit_at bits' p = bit_at bits p || push_data fuel code pc p.
Proof.
  revert bits pc. assert (Hs : 0 <= slen code) by (unfold slen; lia). div8 (slen code).
  induction fuel as [|fuel IH]; intros bits pc Hpc Hf Hl Hc; simpl.
  { exists bits. split_and!; [done|done|]. intros p _. by rewrite orb_false_r. }
  destruct (Z.leb_spec (slen code) pc) as [He|He].
  { exists bits. split_and!; [done|done|]. intros p _. by rewrite orb_false_r. }
  destruct (byte_at_in code pc) as [op Eop]; [lia|]. rewrite Eop. simpl. pose proof (push_size_range op) as Hr.
  destruct (Z.eqb_spec (push_size op) 0) as [Hz|Hz].
  - destruct (IH bits (pc + 1)) as (b & -> & L & Hb); [lia|lia|done|intros p Hp; apply Hc; lia|].
    exists b. split; [done|]. split; [done|]. intros p Hp. rewrite Hb, Hz, !Z.add_0_r by done.
    by replace ((pc <? p) && (p <=? pc)) with false by lia.
  - destruct (mark_push_marks bits (push_size op) (pc + 1)) as (b & -> & M); [lia|lia|lia|intros p Hp; apply Hc; lia|].
    simpl. pose proof (proj1 M) as LM.
    destruct (IH b (pc + 1 + push_size op)) as (b' & -> & L & Hb);
      [lia|lia|lia|apply (marked_clean bits); [lia|lia|intros p Hp; apply Hc; lia|done]|].
    exists b'. split; [done|]. split; [lia|]. intros p Hp. rewrite Hb, (proj2 M) by done. rewrite <- orb_assoc. f_equal.
    unfold in_range. destruct ((pc <? p) && (p <=? pc + push_size op)) eqn:E.
    + replace ((pc + 1 <=? p) && (p <? pc + 1 + push_size op)) with true by lia. done.
    + replace ((pc + 1 <=? p) && (p <? pc + 1 + push_size op)) with false by lia. done.
Qed.

Lemma bit_at_zeros n p : bit_at (replicate n 0) p = false.
Proof.
  unfold bit_at. replace (default 0 _) with 0; [apply Z.bits_0|].
  destruct (replicate n 0 !! Z.to_nat (p / 8)) as [x|] eqn:E; [|done]. by apply lookup_replicate in E as [-> _].
Qed.

Lemma codeBitmap_bits code : exists bits, codeBitmap code = Ok bits /\
  length bits = Z.to_nat (slen code / 8 + 1 + 4) /\ forall p, 0 <= p -> bit_at bits p = is_push_data code p.
Proof.
  destruct (codeBitmapInternal_marks (String.length code) code (replicate (Z.to_nat (slen code / 8 + 1 + 4)) 0) 0)
    as (bits & E & L & Hb); [lia|unfold slen; lia|by rewrite length_replicate|intros p _; apply bit_at_zeros|].
  exists bits. split; [done|]. rewrite length_replicate in L. split; [done|]. intros p Hp.
  by rewrite Hb, bit_at_zeros.
Qed.

Lemma codeSegment_of_bitmap code p : 0 <= p < slen code ->
  (bits ← codeBitmap code; codeSegment bits p) = Ok (negb (is_push_data code p)).
Proof.
  intros Hp. destruct (codeBitmap_bits code) as (bits & -> & L & Hb). simpl. div8 (slen code).
  rewrite codeSegment_bit, Hb; [done|lia|lia|]. rewrite L. apply (Z.le_lt_trans _ (slen code / 8)); [|lia].
  apply Z.div_le_mono; lia.
Qed.

(** Every jump is checked without a panic: a destination is valid when it is a JUMPDEST that is
    an instruction. *)
Lemma validJumpdest_spec c dest : isPrecompile c = false -> 0 <= dest ->
  validJumpdest c dest = Ok ((dest <? 2 ^ 64) && (dest <? slen (c_Code c)) &&
    bool_decide (byte_at (c_Code c) dest = Some JUMPDEST) && negb (is_push_data (c_Code c) dest)).
Proof.
  intros Hc Hd. unfold validJumpdest, isCode. rewrite Hc.
  destruct (Z.leb_spec (2 ^ 64) dest), (Z.leb_spec (slen (c_Code c)) dest); simpl;
    destruct (Z.ltb_spec dest (2 ^ 64)), (Z.ltb_spec dest (slen (c_Code c))); try lia; simpl; try done.
  destruct (byte_at_in (c_Code c) dest) as [op Eop]; [lia|]. rewrite Eop.
  destruct (Z.eqb_spec op JUMPDEST) as [->|Hn].
  - rewrite codeSegment_of_bitmap by lia. by rewrite bool_decide_true.
  - rewrite bool_decide_false; [done|congruence].
Qed.

(** C37: The bitmap of a code, which is filled a byte or two at a time, marks exactly the arguments of the
    pushes, as a walk over the code one instruction at a time finds them; no write or read of it is out of
    range.  So a jump is accepted exactly when its destination is a JUMPDEST instruction of the code, and never
    when it is a byte of a push. *)
Theorem jump_destinations c dest : isPrecompile c = false -> 0 <= dest ->
  (exists bits, codeBitmap (c_Code c) = Ok bits /\
     forall p, 0 <= p < slen (c_Code c) -> codeSegment bits p = Ok (negb (is_push_data (c_Code c) p))) /\
  (exists b, validJumpdest c dest = Ok b /\
     (b = true <-> dest < 2 ^ 64 /\ dest < slen (c_Code c) /\ byte_at (c_Code c) dest = Some JUMPDEST /\
                   is_push_data (c_Code c) dest = false)).
Proof.
  intros Hc Hd. split.
  - destruct (codeBitmap_bits (c_Code c)) as (bits & E & _). exists bits. split; [done|]. intros p Hp.
    pose proof (codeSegment_of_bitmap _ _ Hp) as Hs. by rewrite E in Hs.
  - eexists. split; [by apply validJumpdest_spec|].
    rewrite !andb_true_iff, Z.ltb_lt, Z.ltb_lt, bool_decide_eq_true, negb_true_iff. tauto.
Qed.

(** [PUSH2 0x5b5b; JUMPDEST]: only the last byte can be jumped to. *)
Definition jump_example : Contract :=
  SetCallCode None zero_hash (String (Ascii.ascii_of_nat 97) (String (Ascii.ascii_of_nat 91)
    (String (Ascii.ascii_of_nat 91) (String (Ascii.ascii_of_nat 91) EmptyString))))
    (NewContract (AccountRef EmptyString) EmptyString None 0).

Lemma jump_destinations_witness :
  validJumpdest jump_example 2 = Ok false /\
  exists b, validJumpdest jump_example 3 = Ok b /\
    (b = true <-> 3 < 2 ^ 64 /\ 3 < slen (c_Code jump_example) /\ byte_at (c_Code jump_example) 3 = Some JUMPDEST /\
                  is_push_data (c_Code jump_example) 3 = false).
Proof.
  split; [vm_compute; reflexivity|]. apply (jump_destinations jump_example 3); [reflexivity|lia].
Defined.
