(* ===== verification/Evm.v ===== *)
(** * x/evm/core/vm: evm.go, interpreter.go, and the runner of contracts.go

    The call frames and the interpreter's loop.  The frames are given an
    interpreter [run], as the code is ([vm.Interpreter]); the loop is given the
    jump table of its configuration.  [Interp] ties the knot: its argument bounds the
    nesting of calls, and the loop is given as many steps as the contract has gas, and one
    more.  [EvmTheory] shows that both are enough.  A frame's
    error is part of its outcome; an [Err] of the monad only marks that such a bound was
    exhausted. *)

From S2P Require Import Prelude.
From S2P Require Import AccessList.
From S2P Require Import StateDB.
From S2P Require Import Precompile.
From S2P Require Import EvmMachine.

Local Open Scope Z_scope.

Definition CallCreateDepth : Z := 1024.
Definition MaxCodeSize : Z := 24576.
Definition CreateDataGas : Z := 200.

Definition OutOfFuel : err := ErrText "model: out of fuel".

Section frames.
Context {W P : Type} `{StateKeeper W, Keccak, EthAddresses, PrecompiledContracts W P}.
Context (env : EvmEnv W P).
(** [Interpreter.Run]; the outcome has the contract's gas. *)
Context (run : Contract -> string -> bool -> M (EVM W P) Outcome).

Definition RunPrecompiledContract (p : P) (from : ContractRef) (input : string) (suppliedGas : Z)
    (value : option Z) (readOnly : bool) : M (EVM W P) Outcome :=
  let contract := set_input input (NewPrecompile from (p_Address p) value suppliedGas) in
  let '(ok, contract) := UseGas (p_RequiredGas p input) contract in
  if negb ok then mret (mkOutcome EmptyString (c_Gas contract) (Some ErrOutOfGas))
  else db_run (p_Run p (Context env) (env_TxContext env) contract readOnly).

(** The end of the four calls: an error reverts, and takes the gas unless it is a revert. *)
Definition revert_on_error (snapshot : Z) (out : Outcome) : M (EVM W P) Outcome :=
  match vm_err out with
  | None => mret out
  | Some e =>
      db_try (RevertToSnapshot snapshot);;
      mret (if bool_decide (e = ErrExecutionReverted) then out
            else mkOutcome (ret out) 0 (vm_err out))
  end.

Definition no_outcome (gas : Z) (e : err) : Outcome := mkOutcome EmptyString gas (Some e).

(** The hook's error ends the call. *)
Definition with_hook (hook : M (EVM W P) unit) (gas : Z) (m : M (EVM W P) Outcome) : M (EVM W P) Outcome :=
  h ← attempt hook;
  match h with
  | inr e => mret (no_outcome gas e)
  | inl _ => m
  end.

Definition Call (from : ContractRef) (addr : Address) (input : string) (gas value : Z)
    : M (EVM W P) Outcome :=
  with_hook (CallHook (hooks env) (ref_Address from) addr) gas (
  d ← mgets depth;
  if CallCreateDepth <? d then mret (no_outcome gas ErrDepth) else
  enough ← (if value =? 0 then mret true else on_db (CanTransfer (ref_Address from) value));
  if negb enough then mret (no_outcome gas ErrInsufficientBalance) else
  snapshot ← on_db Snapshot;
  p ← mgets (Precompile addr);
  exist ← on_db (Exist addr);
  if negb exist && bool_decide (p = None) && IsEIP158 (chainRules env) && (value =? 0) then
    mret (mkOutcome EmptyString gas None)
  else
  (if exist : bool then mret tt else db_modify (CreateAccount addr));;
  db_modify (Transfer (ref_Address from) addr value);;
  out ← (match p with
         | Some p => RunPrecompiledContract p from input gas (Some value) false
         | None =>
             code ← on_db (GetCode addr);
             let code := default EmptyString code in
             if slen code =? 0 then mret (mkOutcome EmptyString gas None)
             else
               let contract := NewContract from addr (Some value) gas in
               hash ← on_db (GetCodeHash addr);
               run (SetCallCode (Some addr) hash code contract) input false
         end);
  revert_on_error snapshot out).

Definition CallCode (from : ContractRef) (addr : Address) (input : string) (gas value : Z)
    : M (EVM W P) Outcome :=
  with_hook (CallHook (hooks env) (ref_Address from) addr) gas (
  d ← mgets depth;
  if CallCreateDepth <? d then mret (no_outcome gas ErrDepth) else
  enough ← on_db (CanTransfer (ref_Address from) value);
  if negb enough then mret (no_outcome gas ErrInsufficientBalance) else
  snapshot ← on_db Snapshot;
  p ← mgets (Precompile addr);
  out ← (match p with
         | Some p => RunPrecompiledContract p from input gas (Some value) true
         | None =>
             let contract := NewContract from (ref_Address from) (Some value) gas in
             hash ← on_db (GetCodeHash addr);
             code ← on_db (GetCode addr);
             run (SetCallCode (Some addr) hash (default EmptyString code) contract) input false
         end);
  revert_on_error snapshot out).

Definition DelegateCall (from : ContractRef) (addr : Address) (input : string) (gas : Z)
    : M (EVM W P) Outcome :=
  with_hook (CallHook (hooks env) (ref_Address from) addr) gas (
  d ← mgets depth;
  if CallCreateDepth <? d then mret (no_outcome gas ErrDepth) else
  snapshot ← on_db Snapshot;
  p ← mgets (Precompile addr);
  out ← (match p with
         | Some p => RunPrecompiledContract p from input gas None true
         | None =>
             let contract := NewContract from (ref_Address from) None gas in
             contract ← mlift (AsDelegate contract);
             hash ← on_db (GetCodeHash addr);
             code ← on_db (GetCode addr);
             run (SetCallCode (Some addr) hash (default EmptyString code) contract) input false
         end);
  revert_on_error snapshot out).

Definition StaticCall (from : ContractRef) (addr : Address) (input : string) (gas : Z)
    : M (EVM W P) Outcome :=
  with_hook (CallHook (hooks env) (ref_Address from) addr) gas (
  d ← mgets depth;
  if CallCreateDepth <? d then mret (no_outcome gas ErrDepth) else
  snapshot ← on_db Snapshot;
  db_modify (AddBalance addr 0);;
  p ← mgets (Precompile addr);
  out ← (match p with
         | Some p => RunPrecompiledContract p from input gas (Some 0) true
         | None =>
             let contract := NewContract from addr (Some 0) gas in
             hash ← on_db (GetCodeHash addr);
             code ← on_db (GetCode addr);
             run (SetCallCode (Some addr) hash (default EmptyString code) contract) input true
         end);
  revert_on_error snapshot out).

(** The checks on the returned code, and its storage. *)
Definition store_code (address : Address) (out : Outcome) : M (EVM W P) Outcome :=
  let e := vm_err out in
  let e := if bool_decide (e = None) && IsEIP158 (chainRules env) && (MaxCodeSize <? slen (ret out))
           then Some ErrMaxCodeSizeExceeded else e in
  let e := if bool_decide (e = None) && (1 <=? slen (ret out)) &&
              bool_decide (byte_at (ret out) 0 = Some 239) && IsLondon (chainRules env)
           then Some ErrInvalidCode else e in
  match e with
  | Some e => mret (mkOutcome (ret out) (leftOverGas out) (Some e))
  | None =>
      let createDataGas := wrap_u64 (slen (ret out) * CreateDataGas) in
      if leftOverGas out <? createDataGas
      then mret (mkOutcome (ret out) (leftOverGas out) (Some ErrCodeStoreOutOfGas))
      else db_modify (SetCode address (Some (ret out)));;
           mret (mkOutcome (ret out) (leftOverGas out - createDataGas) None)
  end.

Definition finish_create (snapshot : Z) (out : Outcome) : M (EVM W P) Outcome :=
  match vm_err out with
  | None => mret out
  | Some e =>
      if IsHomestead (chainRules env) || negb (bool_decide (e = ErrCodeStoreOutOfGas)) then
        db_try (RevertToSnapshot snapshot);;
        mret (if bool_decide (e = ErrExecutionReverted) then out
              else mkOutcome (ret out) 0 (vm_err out))
      else mret out
  end.

(** [common.Address{}] *)
Definition zero_address : Address := Nat.iter 20 (String Ascii.zero) EmptyString.

Definition create (from : ContractRef) (ch : codeAndHash) (gas value : Z) (address : Address)
    : M (EVM W P) (Outcome * Address) :=
  d ← mgets depth;
  if CallCreateDepth <? d then mret (no_outcome gas ErrDepth, zero_address) else
  enough ← on_db (CanTransfer (ref_Address from) value);
  if negb enough then mret (no_outcome gas ErrInsufficientBalance, zero_address) else
  nonce ← on_db (GetNonce (ref_Address from));
  if u64_add nonce 1 <? nonce then mret (no_outcome gas ErrNonceUintOverflow, zero_address) else
  db_modify (SetNonce (ref_Address from) (u64_add nonce 1));;
  (if IsBerlin (chainRules env) then db_modify (AddAddressToAccessList address) else mret tt);;
  contractHash ← on_db (GetCodeHash address);
  n ← on_db (GetNonce address);
  if negb (n =? 0) || (negb (bool_decide (contractHash = zero_hash)) &&
                       negb (bool_decide (contractHash = emptyCodeHash)))
  then mret (no_outcome 0 ErrContractAddressCollision, zero_address) else
  snapshot ← on_db Snapshot;
  db_modify (CreateAccount address);;
  (if IsEIP158 (chainRules env) then db_modify (SetNonce address 1) else mret tt);;
  db_modify (Transfer (ref_Address from) address value);;
  let contract := NewContract from address (Some value) gas in
  out ← run (SetCodeOptionalHash (Some address) ch contract) EmptyString false;
  out ← store_code address out;
  out ← finish_create snapshot out;
  mret (out, address).

Definition create_hook (hook : M (EVM W P) unit) (gas : Z) (m : M (EVM W P) (Outcome * Address))
    : M (EVM W P) (Outcome * Address) :=
  h ← attempt hook;
  match h with
  | inr e => mret (no_outcome gas e, zero_address)
  | inl _ => m
  end.

Definition Create (from : ContractRef) (code : string) (gas value : Z) : M (EVM W P) (Outcome * Address) :=
  create_hook (CreateHook (hooks env) (ref_Address from)) gas (
  nonce ← on_db (GetNonce (ref_Address from));
  create from (mkCodeAndHash code zero_hash) gas value
    (crypto_CreateAddress (ref_Address from) nonce)).

(** [salt.Bytes32] *)
Fixpoint big_endian (n : nat) (x : Z) : string :=
  match n with
  | O => EmptyString
  | S n => String (Ascii.ascii_of_N (Z.to_N (x / 2 ^ (8 * Z.of_nat n) mod 256))) (big_endian n x)
  end.

Definition Bytes32 (x : Z) : string := big_endian 32 x.

Definition Create2 (from : ContractRef) (code : string) (gas endowment salt : Z)
    : M (EVM W P) (Outcome * Address) :=
  create_hook (CreateHook (hooks env) (ref_Address from)) gas (
  let '(hash, ch) := codeAndHash_Hash (mkCodeAndHash code zero_hash) in
  create from ch gas endowment (crypto_CreateAddress2 (ref_Address from) (Bytes32 salt) hash)).

Definition frames : EvmCalls W P := mkCalls Call CallCode DelegateCall StaticCall Create Create2.
End frames.

(** ** The interpreter *)

Section interpreter.
Context {W P : Type} `{StateKeeper W, Keccak, EthAddresses, PrecompiledContracts W P}.
Context (env : EvmEnv W P).

Definition with_contract (c : Contract) (m : Machine W P) : Machine W P :=
  mkMachine (m_evm m) (m_pc m) (m_mem m) (m_stack m) c.
Definition with_pc (pc : Z) (m : Machine W P) : Machine W P :=
  mkMachine (m_evm m) pc (m_mem m) (m_stack m) (m_contract m).
Definition with_mem (mem : Memory) (m : Machine W P) : Machine W P :=
  mkMachine (m_evm m) (m_pc m) mem (m_stack m) (m_contract m).

Definition use_gas (gas : Z) : M (Machine W P) bool := fun m =>
  let '(ok, c) := UseGas gas (m_contract m) in (Ok ok, with_contract c m).

(** [Memory.Resize] *)
Definition Resize (size : Z) (mem : Memory) : Memory :=
  let n := slen (store mem) in
  if n <? size
  then mkMemory (store mem +:+ Nat.iter (Z.to_nat (size - n)) (String Ascii.zero) EmptyString) (lastGasCost mem)
  else mem.

Definition toWordSize (size : Z) : Z :=
  if size >? 2 ^ 64 - 1 - 31 then (2 ^ 64 - 1) / 32 + 1 else u64_add size 31 / 32.

(** go-ethereum's [math.SafeMul]: the product and whether it overflows. *)
Definition SafeMul (x y : Z) : Z * bool := (wrap_u64 (x * y), negb (x * y <? 2 ^ 64)).

(** The memory the operation needs, in bytes. *)
Definition memory_needed (op : operation W P) : M (Machine W P) Z :=
  match memorySize op with
  | None => mret 0
  | Some size => fun m =>
      match size (m_stack m) with
      | Panic => (Panic, m)
      | Err e => (Err e, m)
      | Ok (memSize, overflow) =>
          if overflow : bool then (Err ErrGasUintOverflow, m)
          else
            let '(size, overflow) := SafeMul (toWordSize memSize) 32 in
            if overflow then (Err ErrGasUintOverflow, m) else (Ok size, m)
      end
  end.

(** The dynamic part of the gas, and the expansion of the memory. *)
Definition charge_dynamic (op : operation W P) : M (Machine W P) unit :=
  match dynamicGas op with
  | None => mret tt
  | Some cost =>
      size ← memory_needed op;
      dynamicCost ← attempt (cost size);
      match dynamicCost with
      | inr _ => mraise ErrOutOfGas
      | inl dynamicCost =>
          ok ← use_gas dynamicCost;
          if negb ok then mraise ErrOutOfGas
          else mmodify (fun m => if 0 <? size then with_mem (Resize size (m_mem m)) m else m)
      end
  end.

(** One round of the loop, up to [pc++]. *)
Definition exec_op (calls : EvmCalls W P) : M (Machine W P) (string * option err) :=
  operation ← mgets (fun m => env_JumpTable env (GetOp (m_contract m) (m_pc m)));
  sLen ← mgets (fun m => Z.of_nat (length (m_stack m)));
  if sLen <? minStack operation then mraise (ErrStackUnderflow sLen (minStack operation))
  else if maxStack operation <? sLen then mraise (ErrStackOverflow sLen (maxStack operation))
  else
    ok ← use_gas (constantGas operation);
    if negb ok then mraise ErrOutOfGas
    else charge_dynamic operation;; execute operation calls.

(** The round with its outcome: [None] to go on. *)
Definition loop_step (calls : EvmCalls W P) : M (Machine W P) (option (string * err)) :=
  r ← attempt (exec_op calls);
  match r with
  | inr e => mret (Some (EmptyString, e))
  | inl (res, Some e) => mret (Some (res, e))
  | inl (_, None) => mmodify (fun m => with_pc (u64_add (m_pc m) 1) m);; mret None
  end.

(** At most [p] rounds. *)
Fixpoint loop (calls : EvmCalls W P) (p : positive) : M (Machine W P) (option (string * err)) :=
  match p with
  | xH => loop_step calls
  | xO q =>
      r ← loop calls q;
      match r with Some _ => mret r | None => loop calls q end
  | xI q =>
      r ← loop_step calls;
      match r with
      | Some _ => mret r
      | None =>
          r ← loop calls q;
          match r with Some _ => mret r | None => loop calls q end
      end
  end.

Definition Run (calls : EvmCalls W P) (contract : Contract) (input : string) (readOnly : bool)
    : M (EVM W P) Outcome := fun evm =>
  let enter := readOnly && negb (in_readOnly evm) in
  let evm := with_depth (depth evm + 1) evm in
  let evm := if enter then with_readOnly true evm else evm in
  let evm := with_returnData EmptyString evm in
  let leave (e : EVM W P) :=
    let e := with_depth (depth e - 1) e in if enter then with_readOnly false e else e in
  if slen (c_Code contract) =? 0 then (Ok (mkOutcome EmptyString (c_Gas contract) None), leave evm)
  else
    match loop calls (Z.to_pos (c_Gas contract + 1))
            (mkMachine evm 0 NewMemory [] (set_input input contract)) with
    | (Ok (Some (res, e)), m) =>
        (Ok (mkOutcome res (c_Gas (m_contract m))
               (if bool_decide (e = errStopToken) then None else Some e)), leave (m_evm m))
    | (Ok None, m) => (Err OutOfFuel, leave (m_evm m))
    | (Err e, m) => (Err e, leave (m_evm m))
    | (Panic, m) => (Panic, leave (m_evm m))
    end.

(** The interpreter with at most [n] nested runs. *)
Fixpoint Interp (n : nat) (contract : Contract) (input : string) (readOnly : bool) : M (EVM W P) Outcome :=
  match n with
  | O => mraise OutOfFuel
  | S n => Run (frames env (Interp n)) contract input readOnly
  end.

(** Calls from outside, at depth 0. *)
Definition evm_calls : EvmCalls W P := frames env (Interp 1025).
End interpreter.
