(* ===== verification/EvmInstructions.v ===== *)
(** * x/evm/core/vm: instructions.go, common.go, stack.go and memory.go

    The instructions of the interpreter.  [uint256.Int] is a number below 2^256 with the arithmetic
    modulo 2^256.  An instruction that changes the top of the stack in place pops
    it and pushes the result. *)

From S2P Require Import Prelude.
From S2P Require Import AccessList.
From S2P Require Import StateDB.
From S2P Require Import Precompile.
From S2P Require Import EvmMachine.
From S2P Require Import EvmCode.
From S2P Require Import Evm.

Local Open Scope Z_scope.

(** The opcode of an undefined instruction; the model's text has its number. *)
Definition ErrInvalidOpCode (opcode : Z) : err := ErrText ("invalid opcode: " +:+ format_u64 opcode).

(** ** Words *)

Definition to_word (z : Z) : Z := z mod 2 ^ 256.
(** The value of a word as a signed number. *)
Definition to_signed (x : Z) : Z := if x <? 2 ^ 255 then x else x - 2 ^ 256.
Definition of_bool (b : bool) : Z := if b then 1 else 0.

Definition u256_Div (x y : Z) : Z := if y =? 0 then 0 else x / y.
Definition u256_Mod (x y : Z) : Z := if y =? 0 then 0 else x mod y.
Definition u256_SDiv (x y : Z) : Z :=
  if y =? 0 then 0 else to_word (Z.quot (to_signed x) (to_signed y)).
Definition u256_SMod (x y : Z) : Z :=
  if y =? 0 then 0 else to_word (Z.rem (to_signed x) (to_signed y)).

(** Square and multiply. *)
Fixpoint pow_word (b : Z) (p : positive) : Z :=
  match p with
  | xH => to_word b
  | xO q => let r := pow_word b q in to_word (r * r)
  | xI q => let r := pow_word b q in to_word (r * r * b)
  end.
Definition u256_Exp (b e : Z) : Z := match e with Zpos p => pow_word b p | _ => 1 end.

Definition u256_ExtendSign (byteNum x : Z) : Z :=
  if 31 <? byteNum then x
  else
    let bit := byteNum * 8 + 7 in
    if Z.testbit x bit then Z.lor x (2 ^ 256 - 2 ^ bit) else Z.land x (2 ^ bit - 1).

Definition u256_Byte (n x : Z) : Z := if n <? 32 then Z.land (Z.shiftr x (8 * (31 - n))) 255 else 0.

(** [Uint64WithOverflow] *)
Definition Uint64WithOverflow (x : Z) : Z * bool := (wrap_u64 x, 2 ^ 64 <=? x).
Definition IsUint64 (x : Z) : bool := x <? 2 ^ 64.

(** [SetBytes]: the last 32 bytes count. *)
Fixpoint bytes_val (acc : Z) (s : string) : Z :=
  match s with
  | EmptyString => acc
  | String c s => bytes_val (acc * 256 + byte_val c) s
  end.
Definition SetBytes (s : string) : Z := to_word (bytes_val 0 s).
Definition Bytes20 (x : Z) : Address := big_endian 20 x.

(** ** Bytes *)

Definition zeros (n : Z) : string := Nat.iter (Z.to_nat n) (String Ascii.zero) EmptyString.

(** [s[lo:hi]] *)
Definition slice (s : string) (lo hi : Z) : res string :=
  if (0 <=? lo) && (lo <=? hi) && (hi <=? slen s)
  then Ok (String.substring (Z.to_nat lo) (Z.to_nat (hi - lo)) s) else Panic.

(** [copy(s[off:], v)], within [s]. *)
Definition overwrite (s : string) (off : Z) (v : string) : string :=
  String.substring 0 (Z.to_nat off) s +:+ v +:+
  String.substring (Z.to_nat (off + slen v)) (Z.to_nat (slen s - (off + slen v))) s.

Definition RightPadBytes (s : string) (l : Z) : string :=
  if l <=? slen s then s else s +:+ zeros (l - slen s).

(** [len]: no slice is longer than an [int]. *)
Definition int_len (s : string) : Z := Z.min (slen s) max_i64.

Definition getData (data : string) (start size : Z) : res string :=
  let length := int_len data in
  let start := if length <? start then length else start in
  let end_ := u64_add start size in
  let end_ := if length <? end_ then length else end_ in
  s ← slice data start end_;
  Ok (RightPadBytes s (wrap_i64 size)).

(** ** Memory *)

(** [Memory.GetPtr] and [Memory.GetCopy] of [int64] arguments.  A slice past the length of the
    memory and within its capacity is a panic here. *)
Definition GetPtr (offset size : Z) (mem : Memory) : res string :=
  if size =? 0 then Ok EmptyString
  else if offset <? slen (store mem) then slice (store mem) offset (i64_add offset size)
  else Ok EmptyString.

Definition GetCopy (offset size : Z) (mem : Memory) : res string :=
  if size =? 0 then Ok EmptyString
  else if offset <? slen (store mem) then
    if size <? 0 then Panic else slice (store mem) offset (i64_add offset size)
  else Ok EmptyString.

Definition mem_Set (offset size : Z) (value : string) (mem : Memory) : res Memory :=
  if 0 <? size then
    if slen (store mem) <? u64_add offset size then Panic
    else
      s ← slice (store mem) offset (u64_add offset size);
      Ok (mkMemory (overwrite (store mem) offset (String.substring 0 (String.length s) value))
            (lastGasCost mem))
  else Ok mem.

Definition mem_Set32 (offset val : Z) (mem : Memory) : res Memory :=
  if slen (store mem) <? u64_add offset 32 then Panic
  else
    s ← slice (store mem) offset (slen (store mem));
    Ok (mkMemory (overwrite (store mem) offset (String.substring 0 (String.length s) (Bytes32 val)))
          (lastGasCost mem)).

Section instructions.
Context {W P : Type} `{StateKeeper W, Keccak}.
Context (rules : Rules) (bc : BlockContext) (tc : TxContext).

Abbreviation Mac := (M (Machine W P)).
Abbreviation executionFunc := (EvmCalls W P -> Mac (string * option err)).

(** ** Stack *)

Definition with_stack (st : Stack) (m : Machine W P) : Machine W P :=
  mkMachine (m_evm m) (m_pc m) (m_mem m) st (m_contract m).
Definition with_evm (e : EVM W P) (m : Machine W P) : Machine W P :=
  mkMachine e (m_pc m) (m_mem m) (m_stack m) (m_contract m).

Definition Push (x : Z) : Mac unit := mmodify (fun m => with_stack (x :: m_stack m) m).
Definition Pop : Mac Z := fun m =>
  match m_stack m with
  | [] => (Panic, m)
  | x :: st => (Ok x, with_stack st m)
  end.
(** [Stack.Back], with [Peek] as [Back 0]. *)
Definition back (st : Stack) (n : nat) : res Z := match st !! n with Some x => Ok x | None => Panic end.
Definition Back (n : nat) : Mac Z := fun m => (back (m_stack m) n, m).
Definition Peek : Mac Z := Back 0.

(** [Stack.Dup] and [Stack.Swap] *)
Definition Dup (n : nat) : Mac unit := x ← Back (n - 1); Push x.
Definition Swap (n : nat) : Mac unit :=
  x ← Back (n - 1);
  y ← Back 0;
  mmodify (fun m => with_stack (<[(n - 1)%nat := y]> (<[0%nat := x]> (m_stack m))) m).

(** ** The parts of an instruction *)

Definition evm_do {A} (p : M (EVM W P) A) : Mac A := fun m =>
  let '(r, e) := p (m_evm m) in (r, with_evm e m).
Definition in_db {A} (f : StateDB W -> A * StateDB W) : Mac A := evm_do (on_db f).
Definition contract : Mac Contract := mgets m_contract.
Definition readOnly : Mac bool := mgets (fun m => in_readOnly (m_evm m)).
Definition memory_read (f : Memory -> res string) : Mac string := fun m => (f (m_mem m), m).
Definition memory_write (f : Memory -> res Memory) : Mac unit := fun m =>
  match f (m_mem m) with
  | Ok mem => (Ok tt, with_mem mem m)
  | Err x => (Err x, m)
  | Panic => (Panic, m)
  end.

(** [return nil, nil] *)
Definition go_on : Mac (string * option err) := mret (EmptyString, None).

Definition unary (f : Z -> Z) : executionFunc := fun _ => x ← Pop; Push (f x);; go_on.
Definition binary (f : Z -> Z -> Z) : executionFunc := fun _ => x ← Pop; y ← Pop; Push (f x y);; go_on.
Definition ternary (f : Z -> Z -> Z -> Z) : executionFunc := fun _ =>
  x ← Pop; y ← Pop; z ← Pop; Push (f x y z);; go_on.
Definition pushes (f : Machine W P -> Z) : executionFunc := fun _ => x ← mgets f; Push x;; go_on.
(** [uint256.FromBig], which panics on nil *)
Definition FromBig (x : option Z) : res Z := match x with Some x => Ok (to_word x) | None => Panic end.
Definition pushes_big (x : Machine W P -> option Z) : executionFunc := fun _ =>
  b ← mgets x; v ← mlift (FromBig b); Push v;; go_on.

(** ** Arithmetic and comparisons *)

Definition opAdd : executionFunc := binary (fun x y => to_word (x + y)).
Definition opSub : executionFunc := binary (fun x y => to_word (x - y)).
Definition opMul : executionFunc := binary (fun x y => to_word (x * y)).
Definition opDiv : executionFunc := binary u256_Div.
Definition opSdiv : executionFunc := binary u256_SDiv.
Definition opMod : executionFunc := binary u256_Mod.
Definition opSmod : executionFunc := binary u256_SMod.
Definition opExp : executionFunc := binary u256_Exp.
Definition opSignExtend : executionFunc := binary u256_ExtendSign.
Definition opNot : executionFunc := unary (fun x => 2 ^ 256 - 1 - x).
Definition opLt : executionFunc := binary (fun x y => of_bool (x <? y)).
Definition opGt : executionFunc := binary (fun x y => of_bool (y <? x)).
Definition opSlt : executionFunc := binary (fun x y => of_bool (to_signed x <? to_signed y)).
Definition opSgt : executionFunc := binary (fun x y => of_bool (to_signed y <? to_signed x)).
Definition opEq : executionFunc := binary (fun x y => of_bool (x =? y)).
Definition opIszero : executionFunc := unary (fun x => of_bool (x =? 0)).
Definition opAnd : executionFunc := binary Z.land.
Definition opOr : executionFunc := binary Z.lor.
Definition opXor : executionFunc := binary Z.lxor.
Definition opByte : executionFunc := binary u256_Byte.
Definition opAddmod : executionFunc := ternary (fun x y z => if z =? 0 then 0 else (x + y) mod z).
Definition opMulmod : executionFunc := ternary (fun x y z => if z =? 0 then 0 else (x * y) mod z).
Definition opSHL : executionFunc :=
  binary (fun shift value => if shift <? 256 then to_word (Z.shiftl value shift) else 0).
Definition opSHR : executionFunc :=
  binary (fun shift value => if shift <? 256 then Z.shiftr value shift else 0).
Definition opSAR : executionFunc :=
  binary (fun shift value =>
    if 256 <? shift then (if 0 <=? to_signed value then 0 else 2 ^ 256 - 1)
    else to_word (Z.shiftr (to_signed value) shift)).

(** [int64(x.Uint64())] *)
Definition int64_of (x : Z) : Z := wrap_i64 (wrap_u64 x).

Definition opKeccak256 : executionFunc := fun _ =>
  offset ← Pop; size ← Pop;
  data ← memory_read (GetPtr (int64_of offset) (int64_of size));
  Push (SetBytes (Keccak256Hash data));; go_on.

(** ** The environment *)

Definition opAddress : executionFunc := pushes (fun m => SetBytes (self (m_contract m))).
Definition opBalance : executionFunc := fun _ =>
  slot ← Pop; b ← in_db (GetBalance (Bytes20 slot)); Push (to_word b);; go_on.
Definition opOrigin : executionFunc := pushes (fun _ => SetBytes (Origin tc)).
Definition opCaller : executionFunc := pushes (fun m => SetBytes (CallerAddress (m_contract m))).
Definition opCallValue : executionFunc := pushes_big (fun m => c_value (m_contract m)).

Definition opCallDataLoad : executionFunc := fun _ =>
  x ← Pop;
  let '(offset, overflow) := Uint64WithOverflow x in
  if negb overflow then
    c ← contract; data ← mlift (getData (c_Input c) offset 32); Push (SetBytes data);; go_on
  else Push 0;; go_on.

Definition opCallDataSize : executionFunc := pushes (fun m => wrap_u64 (slen (c_Input (m_contract m)))).

Definition clamp_offset (x : Z) : Z :=
  let '(x64, overflow) := Uint64WithOverflow x in if overflow then 2 ^ 64 - 1 else x64.

Definition opCallDataCopy : executionFunc := fun _ =>
  memOffset ← Pop; dataOffset ← Pop; length ← Pop;
  c ← contract;
  data ← mlift (getData (c_Input c) (clamp_offset dataOffset) (wrap_u64 length));
  memory_write (mem_Set (wrap_u64 memOffset) (wrap_u64 length) data);; go_on.

Definition opReturnDataSize : executionFunc := pushes (fun m => wrap_u64 (slen (in_returnData (m_evm m)))).

Definition opReturnDataCopy : executionFunc := fun _ =>
  memOffset ← Pop; dataOffset ← Pop; length ← Pop;
  let '(offset64, overflow) := Uint64WithOverflow dataOffset in
  if overflow then mraise ErrReturnDataOutOfBounds else
  let '(end64, overflow) := Uint64WithOverflow (to_word (dataOffset + length)) in
  data ← mgets (fun m => in_returnData (m_evm m));
  if overflow || (wrap_u64 (slen data) <? end64) then mraise ErrReturnDataOutOfBounds else
  s ← mlift (slice data offset64 end64);
  memory_write (mem_Set (wrap_u64 memOffset) (wrap_u64 length) s);; go_on.

Definition opExtCodeSize : executionFunc := fun _ =>
  slot ← Pop; n ← in_db (GetCodeSize (Bytes20 slot)); Push (wrap_u64 (Z.of_nat n));; go_on.

Definition opCodeSize : executionFunc := pushes (fun m => wrap_u64 (slen (c_Code (m_contract m)))).

Definition opCodeCopy : executionFunc := fun _ =>
  memOffset ← Pop; codeOffset ← Pop; length ← Pop;
  c ← contract;
  data ← mlift (getData (c_Code c) (clamp_offset codeOffset) (wrap_u64 length));
  memory_write (mem_Set (wrap_u64 memOffset) (wrap_u64 length) data);; go_on.

Definition opExtCodeCopy : executionFunc := fun _ =>
  a ← Pop; memOffset ← Pop; codeOffset ← Pop; length ← Pop;
  code ← in_db (GetCode (Bytes20 a));
  data ← mlift (getData (default EmptyString code) (clamp_offset codeOffset) (wrap_u64 length));
  memory_write (mem_Set (wrap_u64 memOffset) (wrap_u64 length) data);; go_on.

Definition opExtCodeHash : executionFunc := fun _ =>
  slot ← Pop;
  e ← in_db (Empty (Bytes20 slot));
  if e : bool then Push 0;; go_on
  else h ← in_db (GetCodeHash (Bytes20 slot)); Push (SetBytes h);; go_on.

Definition opGasprice : executionFunc := pushes (fun _ => to_word (tc_GasPrice tc)).

Definition opBlockhash : executionFunc := fun _ =>
  num ← Pop;
  let '(num64, overflow) := Uint64WithOverflow num in
  if overflow then Push 0;; go_on
  else
    let upper := wrap_u64 (BlockNumber bc) in
    let lower := if upper <? 257 then 0 else upper - 256 in
    (if (lower <=? num64) && (num64 <? upper) then Push (SetBytes (GetHash bc num64)) else Push 0);;
    go_on.

Definition opCoinbase : executionFunc := pushes (fun _ => SetBytes (Coinbase bc)).
Definition opTimestamp : executionFunc := pushes (fun _ => to_word (bc_Time bc)).
Definition opNumber : executionFunc := pushes (fun _ => to_word (BlockNumber bc)).
Definition opDifficulty : executionFunc := pushes (fun _ => to_word (Difficulty bc)).
(** The field is a pointer, nil before the merge. *)
Definition opRandom : executionFunc := fun _ =>
  match Random bc with
  | Some r => Push (SetBytes r);; go_on
  | None => mlift Panic
  end.
Definition opGasLimit : executionFunc := pushes (fun _ => wrap_u64 (bc_GasLimit bc)).

(** eips.go *)
Definition opSelfBalance : executionFunc := fun _ =>
  c ← contract; b ← in_db (GetBalance (self c)); Push (to_word b);; go_on.
Definition opChainID : executionFunc := pushes (fun _ => to_word (ChainID rules)).
Definition opBaseFee : executionFunc := pushes_big (fun _ => bc_BaseFee bc).
Definition opPush0 : executionFunc := pushes (fun _ => 0).

(** ** Stack, memory and storage *)

Definition opPop : executionFunc := fun _ => Pop;; go_on.

Definition opMload : executionFunc := fun _ =>
  v ← Pop; s ← memory_read (GetPtr (int64_of v) 32); Push (SetBytes s);; go_on.

Definition opMstore : executionFunc := fun _ =>
  mStart ← Pop; val ← Pop; memory_write (mem_Set32 (wrap_u64 mStart) val);; go_on.

Definition opMstore8 : executionFunc := fun _ =>
  off ← Pop; val ← Pop;
  memory_write (fun mem =>
    if wrap_u64 off <? slen (store mem)
    then Ok (mkMemory (overwrite (store mem) (wrap_u64 off) (big_endian 1 val)) (lastGasCost mem))
    else Panic);; go_on.

Definition opSload : executionFunc := fun _ =>
  loc ← Pop; c ← contract; val ← in_db (GetState (self c) (Bytes32 loc)); Push (SetBytes val);; go_on.

Definition opSstore : executionFunc := fun _ =>
  ro ← readOnly;
  if ro : bool then mraise ErrWriteProtection
  else
    loc ← Pop; val ← Pop; c ← contract;
    evm_do (db_modify (SetState (self c) (Bytes32 loc) (Bytes32 val)));; go_on.

Definition jump_to (pos : Z) : Mac (string * option err) :=
  c ← contract;
  ok ← mlift (validJumpdest c pos);
  if ok : bool then mmodify (with_pc (u64_sub (wrap_u64 pos) 1));; go_on else mraise ErrInvalidJump.

(** The flag [evm.abort] is set by [Cancel] only. *)
Definition opJump : executionFunc := fun _ => pos ← Pop; jump_to pos.
Definition opJumpi : executionFunc := fun _ =>
  pos ← Pop; cond ← Pop; if negb (cond =? 0) then jump_to pos else go_on.
Definition opJumpdest : executionFunc := fun _ => go_on.
Definition opPc : executionFunc := pushes (fun m => wrap_u64 (m_pc m)).
Definition opMsize : executionFunc := pushes (fun m => wrap_u64 (slen (store (m_mem m)))).
Definition opGas : executionFunc := pushes (fun m => c_Gas (m_contract m)).

(** ** Calls *)

Definition CallStipend : Z := 2300.

Definition add_gas (gas : Z) : Mac unit :=
  mmodify (fun m => with_contract (set_gas (u64_add (c_Gas (m_contract m)) gas) (m_contract m)) m).
Definition set_returnData (s : string) : Mac unit := mmodify (fun m => with_evm (with_returnData s (m_evm m)) m).

(** The end of the two creations. *)
Definition created (out : Outcome) (stackvalue : Z) : Mac (string * option err) :=
  Push stackvalue;;
  add_gas (leftOverGas out);;
  if bool_decide (vm_err out = Some ErrExecutionReverted)
  then set_returnData (ret out);; mret (ret out, None)
  else set_returnData EmptyString;; go_on.

Definition opCreate : executionFunc := fun calls =>
  ro ← readOnly;
  if ro : bool then mraise ErrWriteProtection
  else
    value ← Pop; offset ← Pop; size ← Pop;
    input ← memory_read (GetCopy (int64_of offset) (int64_of size));
    gas ← mgets (fun m => c_Gas (m_contract m));
    let gas := if IsEIP150 rules then gas - gas / 64 else gas in
    use_gas gas;;
    c ← contract;
    '(out, addr) ← evm_do (do_Create calls (contract_ref c) input gas value);
    let suberr := vm_err out in
    let stackvalue :=
      if IsHomestead rules && bool_decide (suberr = Some ErrCodeStoreOutOfGas) then 0
      else if negb (bool_decide (suberr = None)) && negb (bool_decide (suberr = Some ErrCodeStoreOutOfGas)) then 0
      else SetBytes addr in
    created out stackvalue.

Definition opCreate2 : executionFunc := fun calls =>
  ro ← readOnly;
  if ro : bool then mraise ErrWriteProtection
  else
    endowment ← Pop; offset ← Pop; size ← Pop; salt ← Pop;
    input ← memory_read (GetCopy (int64_of offset) (int64_of size));
    gas ← mgets (fun m => c_Gas (m_contract m));
    let gas := gas - gas / 64 in
    use_gas gas;;
    c ← contract;
    '(out, addr) ← evm_do (do_Create2 calls (contract_ref c) input gas endowment salt);
    created out (if bool_decide (vm_err out = None) then SetBytes addr else 0).

(** The end of the four calls. *)
Definition called (out : Outcome) (retOffset retSize : Z) : Mac (string * option err) :=
  Push (of_bool (bool_decide (vm_err out = None)));;
  (if bool_decide (vm_err out = None) || bool_decide (vm_err out = Some ErrExecutionReverted)
   then memory_write (mem_Set (wrap_u64 retOffset) (wrap_u64 retSize) (ret out)) else mret tt);;
  add_gas (leftOverGas out);;
  set_returnData (ret out);;
  mret (ret out, None).

Definition call_gas_temp : Mac Z := mgets (fun m => callGasTemp (m_evm m)).

Definition opCall : executionFunc := fun calls =>
  Pop;;
  gas ← call_gas_temp;
  addr ← Pop; value ← Pop; inOffset ← Pop; inSize ← Pop; retOffset ← Pop; retSize ← Pop;
  args ← memory_read (GetPtr (int64_of inOffset) (int64_of inSize));
  ro ← readOnly;
  if ro && negb (value =? 0) then mraise ErrWriteProtection
  else
    let gas := if value =? 0 then gas else u64_add gas CallStipend in
    c ← contract;
    out ← evm_do (do_Call calls (contract_ref c) (Bytes20 addr) args gas value);
    called out retOffset retSize.

Definition opCallCode : executionFunc := fun calls =>
  Pop;;
  gas ← call_gas_temp;
  addr ← Pop; value ← Pop; inOffset ← Pop; inSize ← Pop; retOffset ← Pop; retSize ← Pop;
  args ← memory_read (GetPtr (int64_of inOffset) (int64_of inSize));
  let gas := if value =? 0 then gas else u64_add gas CallStipend in
  c ← contract;
  out ← evm_do (do_CallCode calls (contract_ref c) (Bytes20 addr) args gas value);
  called out retOffset retSize.

Definition opDelegateCall : executionFunc := fun calls =>
  Pop;;
  gas ← call_gas_temp;
  addr ← Pop; inOffset ← Pop; inSize ← Pop; retOffset ← Pop; retSize ← Pop;
  args ← memory_read (GetPtr (int64_of inOffset) (int64_of inSize));
  c ← contract;
  out ← evm_do (do_DelegateCall calls (contract_ref c) (Bytes20 addr) args gas);
  called out retOffset retSize.

Definition opStaticCall : executionFunc := fun calls =>
  Pop;;
  gas ← call_gas_temp;
  addr ← Pop; inOffset ← Pop; inSize ← Pop; retOffset ← Pop; retSize ← Pop;
  args ← memory_read (GetPtr (int64_of inOffset) (int64_of inSize));
  c ← contract;
  out ← evm_do (do_StaticCall calls (contract_ref c) (Bytes20 addr) args gas);
  called out retOffset retSize.

(** ** Ends *)

Definition opReturn : executionFunc := fun _ =>
  offset ← Pop; size ← Pop;
  ret ← memory_read (GetPtr (int64_of offset) (int64_of size));
  mret (ret, Some errStopToken).

Definition opRevert : executionFunc := fun _ =>
  offset ← Pop; size ← Pop;
  ret ← memory_read (GetPtr (int64_of offset) (int64_of size));
  set_returnData ret;;
  mret (ret, Some ErrExecutionReverted).

Definition opUndefined : executionFunc := fun _ m =>
  match byte_at (c_Code (m_contract m)) (m_pc m) with
  | Some op => (Err (ErrInvalidOpCode op), m)
  | None => (Panic, m)
  end.

Definition opStop : executionFunc := fun _ => mret (EmptyString, Some errStopToken).

Definition opSelfdestruct : executionFunc := fun _ =>
  ro ← readOnly;
  if ro : bool then mraise ErrWriteProtection
  else
    beneficiary ← Pop;
    c ← contract;
    balance ← in_db (GetBalance (self c));
    evm_do (db_modify (AddBalance (Bytes20 beneficiary) balance));;
    in_db (Suicide (self c));;
    mret (EmptyString, Some errStopToken).

(** ** Families *)

Fixpoint pop_topics (size : nat) : Mac (list Hash) :=
  match size with
  | O => mret []
  | S size => addr ← Pop; rest ← pop_topics size; mret (Bytes32 addr :: rest)
  end.

(** The transaction's fields of the log are set by the StateDB. *)
Definition makeLog (size : nat) : executionFunc := fun _ =>
  ro ← readOnly;
  if ro : bool then mraise ErrWriteProtection
  else
    mStart ← Pop; mSize ← Pop;
    topics ← pop_topics size;
    d ← memory_read (GetCopy (int64_of mStart) (int64_of mSize));
    c ← contract;
    evm_do (db_modify (AddLog (mkLog (self c) topics d (wrap_u64 (BlockNumber bc)) zero_hash zero_hash 0 0)));;
    go_on.

Definition opPush1 : executionFunc := fun _ =>
  c ← contract;
  mmodify (fun m => with_pc (u64_add (m_pc m) 1) m);;
  pc ← mgets m_pc;
  (if pc <? slen (c_Code c) then
     match byte_at (c_Code c) pc with Some b => Push b | None => mlift Panic end
   else Push 0);;
  go_on.

(** The program counter is within the code here, so its successor is an [int]. *)
Definition makePush (size : Z) (pushByteSize : Z) : executionFunc := fun _ =>
  c ← contract; pc ← mgets m_pc;
  let codeLen := slen (c_Code c) in
  let startMin := if u64_add pc 1 <? codeLen then u64_add pc 1 else codeLen in
  let endMin := if startMin + pushByteSize <? codeLen then startMin + pushByteSize else codeLen in
  s ← mlift (slice (c_Code c) startMin endMin);
  Push (SetBytes (RightPadBytes s pushByteSize));;
  mmodify (fun m => with_pc (u64_add (m_pc m) size) m);;
  go_on.

Definition makeDup (size : nat) : executionFunc := fun _ => Dup size;; go_on.
Definition makeSwap (size : nat) : executionFunc := fun _ => Swap (size + 1);; go_on.
End instructions.
