(* ===== verification/EvmGas.v ===== *)
(** * x/evm/core/vm: gas.go, gas_table.go, operations_acl.go, memory_table.go, and the sizes of
      common.go

    What an instruction costs, and the memory that it needs.  A gas function
    also updates the refund counter, the access list, the gas of a coming call
    ([callGasTemp]) and the memory's last fee, as the source does. *)

From S2P Require Import Prelude.
From S2P Require Import AccessList.
From S2P Require Import StateDB.
From S2P Require Import Precompile.
From S2P Require Import EvmMachine.
From S2P Require Import Evm.
From S2P Require Import EvmInstructions.

Local Open Scope Z_scope.

(** ** go-ethereum's gas parameters *)

Definition MemoryGas : Z := 3.
Definition QuadCoeffDiv : Z := 512.
Definition CopyGas : Z := 3.
Definition LogGas : Z := 375.
Definition LogTopicGas : Z := 375.
Definition LogDataGas : Z := 8.
Definition Keccak256WordGas : Z := 6.
Definition ExpGas : Z := 10.
Definition ExpByteFrontier : Z := 10.
Definition ExpByteEIP158 : Z := 50.
Definition SstoreSetGas : Z := 20000.
Definition SstoreResetGas : Z := 5000.
Definition SstoreClearGas : Z := 5000.
Definition SstoreRefundGas : Z := 15000.
Definition NetSstoreNoopGas : Z := 200.
Definition NetSstoreInitGas : Z := 20000.
Definition NetSstoreCleanGas : Z := 5000.
Definition NetSstoreDirtyGas : Z := 200.
Definition NetSstoreClearRefund : Z := 15000.
Definition NetSstoreResetRefund : Z := 4800.
Definition NetSstoreResetClearRefund : Z := 19800.
Definition SstoreSentryGasEIP2200 : Z := 2300.
Definition SstoreSetGasEIP2200 : Z := 20000.
Definition SstoreResetGasEIP2200 : Z := 5000.
Definition SstoreClearsScheduleRefundEIP2200 : Z := 15000.
Definition SstoreClearsScheduleRefundEIP3529 : Z := 4800.
Definition SloadGasEIP2200 : Z := 800.
Definition ColdAccountAccessCostEIP2929 : Z := 2600.
Definition ColdSloadCostEIP2929 : Z := 2100.
Definition WarmStorageReadCostEIP2929 : Z := 100.
Definition CallNewAccountGas : Z := 25000.
Definition CallValueTransferGas : Z := 9000.
Definition SelfdestructRefundGas : Z := 24000.
Definition SelfdestructGasEIP150 : Z := 5000.
Definition CreateBySelfdestructGas : Z := 25000.

(** ** The size of the memory *)

Definition calcMemSize64WithUint (off length64 : Z) : Z * bool :=
  if length64 =? 0 then (0, false)
  else
    let '(offset64, overflow) := Uint64WithOverflow off in
    if overflow then (0, true)
    else let val := u64_add offset64 length64 in (val, val <? offset64).

Definition calcMemSize64 (off l : Z) : Z * bool :=
  if negb (IsUint64 l) then (0, true) else calcMemSize64WithUint off (wrap_u64 l).

(** A region at the stack positions [i] and [j]. *)
Definition region (i j : nat) (st : Stack) : res (Z * bool) :=
  off ← back st i; l ← back st j; Ok (calcMemSize64 off l).
Definition region_of (i : nat) (length64 : Z) (st : Stack) : res (Z * bool) :=
  off ← back st i; Ok (calcMemSize64WithUint off length64).

Definition memoryKeccak256 : Stack -> res (Z * bool) := region 0 1.
Definition memoryCallDataCopy : Stack -> res (Z * bool) := region 0 2.
Definition memoryReturnDataCopy : Stack -> res (Z * bool) := region 0 2.
Definition memoryCodeCopy : Stack -> res (Z * bool) := region 0 2.
Definition memoryExtCodeCopy : Stack -> res (Z * bool) := region 1 3.
Definition memoryMLoad : Stack -> res (Z * bool) := region_of 0 32.
Definition memoryMStore8 : Stack -> res (Z * bool) := region_of 0 1.
Definition memoryMStore : Stack -> res (Z * bool) := region_of 0 32.
Definition memoryCreate : Stack -> res (Z * bool) := region 1 2.
Definition memoryCreate2 : Stack -> res (Z * bool) := region 1 2.
Definition memoryReturn : Stack -> res (Z * bool) := region 0 1.
Definition memoryRevert : Stack -> res (Z * bool) := region 0 1.
Definition memoryLog : Stack -> res (Z * bool) := region 0 1.

(** The larger of two regions. *)
Definition two_regions (i j k l : nat) (st : Stack) : res (Z * bool) :=
  '(x, overflow) ← region i j st;
  if overflow : bool then Ok (0, true)
  else
    '(y, overflow) ← region k l st;
    if overflow : bool then Ok (0, true)
    else Ok (if y <? x then x else y, false).

Definition memoryCall : Stack -> res (Z * bool) := two_regions 5 6 3 4.
Definition memoryDelegateCall : Stack -> res (Z * bool) := two_regions 4 5 2 3.
Definition memoryStaticCall : Stack -> res (Z * bool) := two_regions 4 5 2 3.

(** go-ethereum's [math.SafeAdd] *)
Definition SafeAdd (x y : Z) : Z * bool := (wrap_u64 (x + y), negb (x + y <? 2 ^ 64)).

Definition callGas (isEip150 : bool) (availableGas base callCost : Z) : res Z :=
  let available := u64_sub availableGas base in
  let gas := available - available / 64 in
  if isEip150 && (negb (IsUint64 callCost) || (gas <? wrap_u64 callCost)) then Ok gas
  else if negb (IsUint64 callCost) then Err ErrGasUintOverflow
  else Ok (wrap_u64 callCost).

Section gas.
Context {W P : Type} `{StateKeeper W, Keccak}.
Context (rules : Rules).

Abbreviation Mac := (M (Machine W P)).
Abbreviation gasFunc := (Z -> Mac Z).

(** A result that must not overflow. *)
Definition checked (r : Z * bool) : Mac Z :=
  if snd r then mraise ErrGasUintOverflow else mret (fst r).

Definition set_lastGasCost (fee : Z) : Mac unit :=
  mmodify (fun m => with_mem (mkMemory (store (m_mem m)) fee) m).

Definition memoryGasCost (newMemSize : Z) : Mac Z :=
  if newMemSize =? 0 then mret 0
  else if 0x1FFFFFFFE0 <? newMemSize then mraise ErrGasUintOverflow
  else
    mem ← mgets m_mem;
    let newMemSizeWords := toWordSize newMemSize in
    let newMemSize := wrap_u64 (newMemSizeWords * 32) in
    if slen (store mem) <? newMemSize then
      let square := wrap_u64 (newMemSizeWords * newMemSizeWords) in
      let linCoef := wrap_u64 (newMemSizeWords * MemoryGas) in
      let quadCoef := square / QuadCoeffDiv in
      let newTotalFee := u64_add linCoef quadCoef in
      set_lastGasCost newTotalFee;;
      mret (u64_sub newTotalFee (lastGasCost mem))
    else mret 0.

(** The fee of [cost] for each word of the length at [stackpos], and the memory's. *)
Definition per_word (stackpos : nat) (cost : Z) : gasFunc := fun memorySize =>
  gas ← memoryGasCost memorySize;
  l ← Back stackpos;
  words ← checked (Uint64WithOverflow l);
  words ← checked (SafeMul (toWordSize words) cost);
  checked (SafeAdd gas words).

Definition memoryCopierGas (stackpos : nat) : gasFunc := per_word stackpos CopyGas.
Definition gasCallDataCopy : gasFunc := memoryCopierGas 2.
Definition gasCodeCopy : gasFunc := memoryCopierGas 2.
Definition gasExtCodeCopy : gasFunc := memoryCopierGas 3.
Definition gasReturnDataCopy : gasFunc := memoryCopierGas 2.
Definition gasKeccak256 : gasFunc := per_word 1 Keccak256WordGas.
Definition gasCreate2 : gasFunc := per_word 2 Keccak256WordGas.
Definition pureMemoryGascost : gasFunc := memoryGasCost.

Definition add_refund (gas : Z) : Mac unit := evm_do (db_modify (AddRefund gas)).
Definition sub_refund (gas : Z) : Mac unit := evm_do (db_try (SubRefund gas)).

(** The refunds of a slot that was written before. *)
Definition dirty_refunds (clear reset_zero reset : Z) (original current value : Hash) : Mac unit :=
  (if bool_decide (original = zero_hash) then mret tt
   else if bool_decide (current = zero_hash) then sub_refund clear
   else if bool_decide (value = zero_hash) then add_refund clear
   else mret tt);;
  (if bool_decide (original = value) then
     if bool_decide (original = zero_hash) then add_refund reset_zero else add_refund reset
   else mret tt).

(** Net metering, once the current value is known: a no-op, a slot that is written first, and
    one that was written before. *)
Definition net_metering (self : Address) (slot : Hash) (noop init clean dirty clear reset_zero reset : Z)
    (current value : Hash) : Mac Z :=
  if bool_decide (current = value) then mret noop
  else
    original ← in_db (GetCommittedState self slot);
    if bool_decide (original = current) then
      if bool_decide (original = zero_hash) then mret init
      else
        (if bool_decide (value = zero_hash) then add_refund clear else mret tt);;
        mret clean
    else dirty_refunds clear reset_zero reset original current value;; mret dirty.

Definition gasSStore : gasFunc := fun _ =>
  y ← Back 1; x ← Back 0; c ← contract;
  current ← in_db (GetState (self c) (Bytes32 x));
  if IsPetersburg rules || negb (IsConstantinople rules) then
    if bool_decide (current = zero_hash) && negb (y =? 0) then mret SstoreSetGas
    else if negb (bool_decide (current = zero_hash)) && (y =? 0) then
      add_refund SstoreRefundGas;; mret SstoreClearGas
    else mret SstoreResetGas
  else
    net_metering (self c) (Bytes32 x) NetSstoreNoopGas NetSstoreInitGas NetSstoreCleanGas NetSstoreDirtyGas
      NetSstoreClearRefund NetSstoreResetClearRefund NetSstoreResetRefund current (Bytes32 y).

Definition ErrSentry : err := ErrText "not enough gas for reentrancy sentry".

Definition gasSStoreEIP2200 : gasFunc := fun _ =>
  c ← contract;
  if c_Gas c <=? SstoreSentryGasEIP2200 then mraise ErrSentry
  else
    y ← Back 1; x ← Back 0;
    current ← in_db (GetState (self c) (Bytes32 x));
    net_metering (self c) (Bytes32 x) SloadGasEIP2200 SstoreSetGasEIP2200 SstoreResetGasEIP2200 SloadGasEIP2200
      SstoreClearsScheduleRefundEIP2200 (SstoreSetGasEIP2200 - SloadGasEIP2200)
      (SstoreResetGasEIP2200 - SloadGasEIP2200) current (Bytes32 y).

Definition makeGasLog (n : Z) : gasFunc := fun memorySize =>
  l ← Back 1;
  requestedSize ← checked (Uint64WithOverflow l);
  gas ← memoryGasCost memorySize;
  gas ← checked (SafeAdd gas LogGas);
  gas ← checked (SafeAdd gas (n * LogTopicGas));
  memorySizeGas ← checked (SafeMul requestedSize LogDataGas);
  checked (SafeAdd gas memorySizeGas).

(** [uint256.Int.BitLen] *)
Definition BitLen (x : Z) : Z := if x =? 0 then 0 else Z.log2 x + 1.

Definition gasExp (byteGas : Z) : gasFunc := fun _ =>
  e ← Back 1;
  let expByteLen := (BitLen e + 7) / 8 in
  checked (SafeAdd (expByteLen * byteGas) ExpGas).
Definition gasExpFrontier : gasFunc := gasExp ExpByteFrontier.
Definition gasExpEIP158 : gasFunc := gasExp ExpByteEIP158.

(** [evm.callGasTemp, err = ...] *)
Definition set_callGasTemp (r : res Z) : Mac Z := fun m =>
  match r with
  | Ok temp => (Ok temp, with_evm (with_call_gas temp (m_evm m)) m)
  | Err x => (Err x, with_evm (with_call_gas 0 (m_evm m)) m)
  | Panic => (Panic, m)
  end.

(** The gas of a call, with the gas that it hands over. *)
Definition with_callGas (gas : Z) : Mac Z :=
  c ← contract;
  cost ← Back 0;
  temp ← set_callGasTemp (callGas (IsEIP150 rules) (c_Gas c) gas cost);
  checked (SafeAdd gas temp).

Definition gasCall : gasFunc := fun memorySize =>
  value ← Back 2;
  addr ← Back 1;
  let transfersValue := negb (value =? 0) in
  gas ← (if IsEIP158 rules then
           if transfersValue then
             e ← in_db (Empty (Bytes20 addr)); mret (if e : bool then CallNewAccountGas else 0)
           else mret 0
         else e ← in_db (Exist (Bytes20 addr)); mret (if e : bool then 0 else CallNewAccountGas));
  let gas := if transfersValue then gas + CallValueTransferGas else gas in
  memoryGas ← memoryGasCost memorySize;
  gas ← checked (SafeAdd gas memoryGas);
  with_callGas gas.

Definition gasCallCode : gasFunc := fun memorySize =>
  memoryGas ← memoryGasCost memorySize;
  value ← Back 2;
  let gas := if value =? 0 then 0 else CallValueTransferGas in
  gas ← checked (SafeAdd gas memoryGas);
  with_callGas gas.

Definition gasDelegateCall : gasFunc := fun memorySize =>
  gas ← memoryGasCost memorySize; with_callGas gas.
Definition gasStaticCall : gasFunc := fun memorySize =>
  gas ← memoryGasCost memorySize; with_callGas gas.

Definition gasSelfdestruct : gasFunc := fun _ =>
  c ← contract;
  gas ← (if IsEIP150 rules then
           a ← Back 0;
           if IsEIP158 rules then
             e ← in_db (Empty (Bytes20 a));
             b ← (if e : bool then in_db (GetBalance (self c)) else mret 0);
             mret (if e && negb (b =? 0) then SelfdestructGasEIP150 + CreateBySelfdestructGas
                   else SelfdestructGasEIP150)
           else
             e ← in_db (Exist (Bytes20 a));
             mret (if e : bool then SelfdestructGasEIP150 else SelfdestructGasEIP150 + CreateBySelfdestructGas)
         else mret 0);
  d ← in_db (HasSuicided (self c));
  (if d : bool then mret tt else add_refund SelfdestructRefundGas);;
  mret gas.

(** ** operations_acl.go *)

(** [StateDB.SlotInAccessList] and [StateDB.AddSlotToAccessList] *)
Definition slot_listed (a : Address) (slot : Hash) : Mac (bool * bool) := fun m =>
  (Contains (access (evm_StateDB (m_evm m))) a slot, m).
Definition list_slot (a : Address) (slot : Hash) : Mac unit := evm_do (db_try (AddSlotToAccessList a slot)).
Definition address_listed (a : Address) : Mac bool :=
  mgets (fun m => ContainsAddress (access (evm_StateDB (m_evm m))) a).
Definition list_address (a : Address) : Mac unit := evm_do (db_modify (AddAddressToAccessList a)).

Definition makeGasSStoreFunc (clearingRefund : Z) : gasFunc := fun _ =>
  c ← contract;
  if c_Gas c <=? SstoreSentryGasEIP2200 then mraise ErrSentry
  else
    y ← Back 1; x ← Peek;
    let slot := Bytes32 x in
    current ← in_db (GetState (self c) slot);
    '(addrPresent, slotPresent) ← slot_listed (self c) slot;
    cost ← (if slotPresent : bool then mret 0
            else
              list_slot (self c) slot;;
              if addrPresent : bool then mret ColdSloadCostEIP2929 else mlift Panic);
    net_metering (self c) slot (cost + WarmStorageReadCostEIP2929) (cost + SstoreSetGasEIP2200)
      (cost + (SstoreResetGasEIP2200 - ColdSloadCostEIP2929)) (cost + WarmStorageReadCostEIP2929)
      clearingRefund (SstoreSetGasEIP2200 - WarmStorageReadCostEIP2929)
      (SstoreResetGasEIP2200 - ColdSloadCostEIP2929 - WarmStorageReadCostEIP2929) current (Bytes32 y).

Definition gasSStoreEIP2929 : gasFunc := makeGasSStoreFunc SstoreClearsScheduleRefundEIP2200.
Definition gasSStoreEIP3529 : gasFunc := makeGasSStoreFunc SstoreClearsScheduleRefundEIP3529.

Definition gasSLoadEIP2929 : gasFunc := fun _ =>
  loc ← Peek;
  c ← contract;
  '(_, slotPresent) ← slot_listed (self c) (Bytes32 loc);
  if slotPresent : bool then mret WarmStorageReadCostEIP2929
  else list_slot (self c) (Bytes32 loc);; mret ColdSloadCostEIP2929.

Definition gasExtCodeCopyEIP2929 : gasFunc := fun memorySize =>
  gas ← gasExtCodeCopy memorySize;
  a ← Peek;
  present ← address_listed (Bytes20 a);
  if present : bool then mret gas
  else
    list_address (Bytes20 a);;
    checked (SafeAdd gas (ColdAccountAccessCostEIP2929 - WarmStorageReadCostEIP2929)).

Definition gasEip2929AccountCheck : gasFunc := fun _ =>
  a ← Peek;
  present ← address_listed (Bytes20 a);
  if present : bool then mret 0
  else list_address (Bytes20 a);; mret (ColdAccountAccessCostEIP2929 - WarmStorageReadCostEIP2929).

(** The cold charge is taken while the old calculator runs, and given back after. *)
Definition makeCallVariantGasCallEIP2929 (oldCalculator : gasFunc) : gasFunc := fun memorySize =>
  a ← Back 1;
  warmAccess ← address_listed (Bytes20 a);
  let coldCost := ColdAccountAccessCostEIP2929 - WarmStorageReadCostEIP2929 in
  if warmAccess : bool then oldCalculator memorySize
  else
    list_address (Bytes20 a);;
    ok ← use_gas coldCost;
    if negb ok then mraise ErrOutOfGas
    else
      gas ← oldCalculator memorySize;
      add_gas coldCost;;
      mret (u64_add gas coldCost).

Definition gasCallEIP2929 : gasFunc := makeCallVariantGasCallEIP2929 gasCall.
Definition gasDelegateCallEIP2929 : gasFunc := makeCallVariantGasCallEIP2929 gasDelegateCall.
Definition gasStaticCallEIP2929 : gasFunc := makeCallVariantGasCallEIP2929 gasStaticCall.
Definition gasCallCodeEIP2929 : gasFunc := makeCallVariantGasCallEIP2929 gasCallCode.

Definition makeSelfdestructGasFn (refundsEnabled : bool) : gasFunc := fun _ =>
  c ← contract;
  a ← Peek;
  present ← address_listed (Bytes20 a);
  gas ← (if present : bool then mret 0 else list_address (Bytes20 a);; mret ColdAccountAccessCostEIP2929);
  e ← in_db (Empty (Bytes20 a));
  b ← (if e : bool then in_db (GetBalance (self c)) else mret 0);
  let gas := if e && negb (b =? 0) then gas + CreateBySelfdestructGas else gas in
  d ← (if refundsEnabled : bool then in_db (HasSuicided (self c)) else mret true);
  (if d : bool then mret tt else add_refund SelfdestructRefundGas);;
  mret gas.

Definition gasSelfdestructEIP2929 : gasFunc := makeSelfdestructGasFn true.
Definition gasSelfdestructEIP3529 : gasFunc := makeSelfdestructGasFn false.
End gas.
