(* ===== verification/EvmTable.v ===== *)
(** * x/evm/core/vm: opcodes.go, jump_table.go, stack_table.go, eips.go, and the table of
      NewEVMInterpreter

    The jump table of each fork, and the EIPs that change one. *)

From S2P Require Import Prelude.
From S2P Require Import AccessList.
From S2P Require Import StateDB.
From S2P Require Import Precompile.
From S2P Require Import EvmMachine.
From S2P Require Import EvmCode.
From S2P Require Import Evm.
From S2P Require Import EvmInstructions.
From S2P Require Import EvmGas.

Local Open Scope Z_scope.

(** ** opcodes.go *)

Definition ADD : Z := 1.
Definition MUL : Z := 2.
Definition SUB : Z := 3.
Definition DIV : Z := 4.
Definition SDIV : Z := 5.
Definition MOD : Z := 6.
Definition SMOD : Z := 7.
Definition ADDMOD : Z := 8.
Definition MULMOD : Z := 9.
Definition EXP : Z := 10.
Definition SIGNEXTEND : Z := 11.
Definition LT : Z := 16.
Definition GT : Z := 17.
Definition SLT : Z := 18.
Definition SGT : Z := 19.
Definition EQ : Z := 20.
Definition ISZERO : Z := 21.
Definition AND : Z := 22.
Definition OR : Z := 23.
Definition XOR : Z := 24.
Definition NOT : Z := 25.
Definition BYTE : Z := 26.
Definition SHL : Z := 27.
Definition SHR : Z := 28.
Definition SAR : Z := 29.
Definition KECCAK256 : Z := 32.
Definition ADDRESS : Z := 48.
Definition BALANCE : Z := 49.
Definition ORIGIN : Z := 50.
Definition CALLER : Z := 51.
Definition CALLVALUE : Z := 52.
Definition CALLDATALOAD : Z := 53.
Definition CALLDATASIZE : Z := 54.
Definition CALLDATACOPY : Z := 55.
Definition CODESIZE : Z := 56.
Definition CODECOPY : Z := 57.
Definition GASPRICE : Z := 58.
Definition EXTCODESIZE : Z := 59.
Definition EXTCODECOPY : Z := 60.
Definition RETURNDATASIZE : Z := 61.
Definition RETURNDATACOPY : Z := 62.
Definition EXTCODEHASH : Z := 63.
Definition BLOCKHASH : Z := 64.
Definition COINBASE : Z := 65.
Definition TIMESTAMP : Z := 66.
Definition NUMBER : Z := 67.
Definition DIFFICULTY : Z := 68.
Definition RANDOM : Z := 68.
Definition GASLIMIT : Z := 69.
Definition CHAINID : Z := 70.
Definition SELFBALANCE : Z := 71.
Definition BASEFEE : Z := 72.
Definition POP : Z := 80.
Definition MLOAD : Z := 81.
Definition MSTORE : Z := 82.
Definition MSTORE8 : Z := 83.
Definition SLOAD : Z := 84.
Definition SSTORE : Z := 85.
Definition JUMP : Z := 86.
Definition JUMPI : Z := 87.
Definition PC : Z := 88.
Definition MSIZE : Z := 89.
Definition GAS : Z := 90.
Definition PUSH0 : Z := 95.
Definition DUP1 : Z := 128.
Definition SWAP1 : Z := 144.
Definition LOG0 : Z := 160.
Definition CREATE : Z := 240.
Definition CALL : Z := 241.
Definition CALLCODE : Z := 242.
Definition RETURN : Z := 243.
Definition DELEGATECALL : Z := 244.
Definition CREATE2 : Z := 245.
Definition STATICCALL : Z := 250.
Definition REVERT : Z := 253.
Definition INVALID : Z := 254.
Definition SELFDESTRUCT : Z := 255.

(** ** Gas *)

Definition GasQuickStep : Z := 2.
Definition GasFastestStep : Z := 3.
Definition GasFastStep : Z := 5.
Definition GasMidStep : Z := 8.
Definition GasSlowStep : Z := 10.
Definition GasExtStep : Z := 20.

(** go-ethereum's parameters *)
Definition Keccak256Gas : Z := 30.
Definition JumpdestGas : Z := 1.
Definition CreateGas : Z := 32000.
Definition Create2Gas : Z := 32000.
Definition CallGasFrontier : Z := 40.
Definition CallGasEIP150 : Z := 700.
Definition BalanceGasFrontier : Z := 20.
Definition BalanceGasEIP150 : Z := 400.
Definition BalanceGasEIP1884 : Z := 700.
Definition ExtcodeSizeGasFrontier : Z := 20.
Definition ExtcodeSizeGasEIP150 : Z := 700.
Definition SloadGasFrontier : Z := 50.
Definition SloadGasEIP150 : Z := 200.
Definition SloadGasEIP1884 : Z := 800.
Definition ExtcodeHashGasConstantinople : Z := 400.
Definition ExtcodeHashGasEIP1884 : Z := 700.
Definition ExtcodeCopyBaseFrontier : Z := 20.
Definition ExtcodeCopyBaseEIP150 : Z := 700.
Definition StackLimit : Z := 1024.

(** ** stack_table.go *)

Definition minStack_of (pops push : Z) : Z := pops.
Definition maxStack_of (pop push : Z) : Z := StackLimit + pop - push.
Definition minSwapStack (n : Z) : Z := minStack_of n n.
Definition maxSwapStack (n : Z) : Z := maxStack_of n n.
Definition minDupStack (n : Z) : Z := minStack_of n (n + 1).
Definition maxDupStack (n : Z) : Z := maxStack_of n (n + 1).

(** The names of the EIPs that can be enabled: the keys of the map [activators]. *)
Definition eip_names : list string :=
  ["ethereum_3855"; "ethereum_3529"; "ethereum_3198"; "ethereum_2929"; "ethereum_2200"; "ethereum_1884";
   "ethereum_1344"]%string.

Definition ExistsEipActivator (eipName : string) : bool := bool_decide (eipName ∈ eip_names).

Definition ActivateableEips : list string := merge_sort String.le eip_names.

Section tables.
Context {W P : Type} `{StateKeeper W, Keccak}.
Context (rules : Rules) (bc : BlockContext) (tc : TxContext).

(** [vm.JumpTable] *)
Abbreviation JumpTable := (Z -> operation W P).

(** An operation of constant gas, one with a gas function, and one that also needs memory. *)
Definition fixed (f : EvmCalls W P -> M (Machine W P) (string * option err)) (gas pop push : Z) : operation W P :=
  mkOperation f gas None (minStack_of pop push) (maxStack_of pop push) None.
Definition metered (f : EvmCalls W P -> M (Machine W P) (string * option err)) (gas : Z)
    (dynamic : Z -> M (Machine W P) Z) (pop push : Z) : operation W P :=
  mkOperation f gas (Some dynamic) (minStack_of pop push) (maxStack_of pop push) None.
Definition with_memory (f : EvmCalls W P -> M (Machine W P) (string * option err)) (gas : Z)
    (dynamic : Z -> M (Machine W P) Z) (pop push : Z) (size : Stack -> res (Z * bool)) : operation W P :=
  mkOperation f gas (Some dynamic) (minStack_of pop push) (maxStack_of pop push) (Some size).

(** ** The frontier table *)

Definition frontier_arithmetic : list (Z * operation W P) := [
  (STOP, fixed opStop 0 0 0);
  (ADD, fixed opAdd GasFastestStep 2 1);
  (MUL, fixed opMul GasFastStep 2 1);
  (SUB, fixed opSub GasFastestStep 2 1);
  (DIV, fixed opDiv GasFastStep 2 1);
  (SDIV, fixed opSdiv GasFastStep 2 1);
  (MOD, fixed opMod GasFastStep 2 1);
  (SMOD, fixed opSmod GasFastStep 2 1);
  (ADDMOD, fixed opAddmod GasMidStep 3 1);
  (MULMOD, fixed opMulmod GasMidStep 3 1);
  (EXP, metered opExp 0 gasExpFrontier 2 1);
  (SIGNEXTEND, fixed opSignExtend GasFastStep 2 1);
  (LT, fixed opLt GasFastestStep 2 1);
  (GT, fixed opGt GasFastestStep 2 1);
  (SLT, fixed opSlt GasFastestStep 2 1);
  (SGT, fixed opSgt GasFastestStep 2 1);
  (EQ, fixed opEq GasFastestStep 2 1);
  (ISZERO, fixed opIszero GasFastestStep 1 1);
  (AND, fixed opAnd GasFastestStep 2 1);
  (XOR, fixed opXor GasFastestStep 2 1);
  (OR, fixed opOr GasFastestStep 2 1);
  (NOT, fixed opNot GasFastestStep 1 1);
  (BYTE, fixed opByte GasFastestStep 2 1)].

Definition frontier_environment : list (Z * operation W P) := [
  (KECCAK256, with_memory opKeccak256 Keccak256Gas gasKeccak256 2 1 memoryKeccak256);
  (ADDRESS, fixed opAddress GasQuickStep 0 1);
  (BALANCE, fixed opBalance BalanceGasFrontier 1 1);
  (ORIGIN, fixed (opOrigin tc) GasQuickStep 0 1);
  (CALLER, fixed opCaller GasQuickStep 0 1);
  (CALLVALUE, fixed opCallValue GasQuickStep 0 1);
  (CALLDATALOAD, fixed opCallDataLoad GasFastestStep 1 1);
  (CALLDATASIZE, fixed opCallDataSize GasQuickStep 0 1);
  (CALLDATACOPY, with_memory opCallDataCopy GasFastestStep gasCallDataCopy 3 0 memoryCallDataCopy);
  (CODESIZE, fixed opCodeSize GasQuickStep 0 1);
  (CODECOPY, with_memory opCodeCopy GasFastestStep gasCodeCopy 3 0 memoryCodeCopy);
  (GASPRICE, fixed (opGasprice tc) GasQuickStep 0 1);
  (EXTCODESIZE, fixed opExtCodeSize ExtcodeSizeGasFrontier 1 1);
  (EXTCODECOPY, with_memory opExtCodeCopy ExtcodeCopyBaseFrontier gasExtCodeCopy 4 0 memoryExtCodeCopy);
  (BLOCKHASH, fixed (opBlockhash bc) GasExtStep 1 1);
  (COINBASE, fixed (opCoinbase bc) GasQuickStep 0 1);
  (TIMESTAMP, fixed (opTimestamp bc) GasQuickStep 0 1);
  (NUMBER, fixed (opNumber bc) GasQuickStep 0 1);
  (DIFFICULTY, fixed (opDifficulty bc) GasQuickStep 0 1);
  (GASLIMIT, fixed (opGasLimit bc) GasQuickStep 0 1)].

Definition frontier_memory : list (Z * operation W P) := [
  (POP, fixed opPop GasQuickStep 1 0);
  (MLOAD, with_memory opMload GasFastestStep pureMemoryGascost 1 1 memoryMLoad);
  (MSTORE, with_memory opMstore GasFastestStep pureMemoryGascost 2 0 memoryMStore);
  (MSTORE8, with_memory opMstore8 GasFastestStep pureMemoryGascost 2 0 memoryMStore8);
  (SLOAD, fixed opSload SloadGasFrontier 1 1);
  (SSTORE, metered opSstore 0 (gasSStore rules) 2 0);
  (JUMP, fixed opJump GasMidStep 1 0);
  (JUMPI, fixed opJumpi GasSlowStep 2 0);
  (PC, fixed opPc GasQuickStep 0 1);
  (MSIZE, fixed opMsize GasQuickStep 0 1);
  (GAS, fixed opGas GasQuickStep 0 1);
  (JUMPDEST, fixed opJumpdest JumpdestGas 0 0)].

Definition frontier_calls : list (Z * operation W P) := [
  (CREATE, with_memory (opCreate rules) CreateGas pureMemoryGascost 3 1 memoryCreate);
  (CALL, with_memory opCall CallGasFrontier (gasCall rules) 7 1 memoryCall);
  (CALLCODE, with_memory opCallCode CallGasFrontier (gasCallCode rules) 7 1 memoryCall);
  (RETURN, with_memory opReturn 0 pureMemoryGascost 2 0 memoryReturn);
  (SELFDESTRUCT, metered opSelfdestruct 0 (gasSelfdestruct rules) 1 0)].

Definition frontier_push : list (Z * operation W P) :=
  (PUSH1, fixed opPush1 GasFastestStep 0 1) ::
  map (fun n => (PUSH1 + n - 1, fixed (makePush n n) GasFastestStep 0 1)) (seqZ 2 31).

Definition frontier_dup : list (Z * operation W P) :=
  map (fun n => (DUP1 + Z.of_nat n - 1,
                 mkOperation (makeDup n) GasFastestStep None (minDupStack (Z.of_nat n)) (maxDupStack (Z.of_nat n)) None))
      (seq 1 16).

Definition frontier_swap : list (Z * operation W P) :=
  map (fun n => (SWAP1 + Z.of_nat n - 1,
                 mkOperation (makeSwap n) GasFastestStep None (minSwapStack (Z.of_nat n + 1))
                   (maxSwapStack (Z.of_nat n + 1)) None))
      (seq 1 16).

Definition frontier_log : list (Z * operation W P) :=
  map (fun n => (LOG0 + Z.of_nat n,
                 with_memory (makeLog bc n) 0 (makeGasLog (Z.of_nat n)) (2 + Z.of_nat n) 0 memoryLog))
      (seq 0 5).

(** The other slots are filled with [opUndefined]. *)
Definition undefined : operation W P := mkOperation opUndefined 0 None 0 (maxStack_of 0 0) None.

Fixpoint entry (l : list (Z * operation W P)) (opcode : Z) : operation W P :=
  match l with
  | [] => undefined
  | (k, op) :: l => if opcode =? k then op else entry l opcode
  end.

Definition newFrontierInstructionSet : JumpTable :=
  entry (frontier_arithmetic ++ frontier_environment ++ frontier_memory ++ frontier_push ++ frontier_dup ++
         frontier_swap ++ frontier_log ++ frontier_calls).

(** ** The forks *)

(** [table[k] = op], and the changes of an entry. *)
Definition put (k : Z) (op : operation W P) (jt : JumpTable) : JumpTable := fun i => if i =? k then op else jt i.
Definition set_constantGas (k gas : Z) (jt : JumpTable) : JumpTable :=
  let op := jt k in
  put k (mkOperation (execute op) gas (dynamicGas op) (minStack op) (maxStack op) (memorySize op)) jt.
Definition set_dynamicGas (k : Z) (f : Z -> M (Machine W P) Z) (jt : JumpTable) : JumpTable :=
  let op := jt k in
  put k (mkOperation (execute op) (constantGas op) (Some f) (minStack op) (maxStack op) (memorySize op)) jt.

Definition newHomesteadInstructionSet : JumpTable :=
  put DELEGATECALL (with_memory opDelegateCall CallGasFrontier (gasDelegateCall rules) 6 1 memoryDelegateCall)
    newFrontierInstructionSet.

Definition newTangerineWhistleInstructionSet : JumpTable :=
  let jt := newHomesteadInstructionSet in
  let jt := set_constantGas BALANCE BalanceGasEIP150 jt in
  let jt := set_constantGas EXTCODESIZE ExtcodeSizeGasEIP150 jt in
  let jt := set_constantGas SLOAD SloadGasEIP150 jt in
  let jt := set_constantGas EXTCODECOPY ExtcodeCopyBaseEIP150 jt in
  let jt := set_constantGas CALL CallGasEIP150 jt in
  let jt := set_constantGas CALLCODE CallGasEIP150 jt in
  set_constantGas DELEGATECALL CallGasEIP150 jt.

Definition newSpuriousDragonInstructionSet : JumpTable :=
  set_dynamicGas EXP gasExpEIP158 newTangerineWhistleInstructionSet.

Definition newByzantiumInstructionSet : JumpTable :=
  let jt := newSpuriousDragonInstructionSet in
  let jt := put STATICCALL (with_memory opStaticCall CallGasEIP150 (gasStaticCall rules) 6 1 memoryStaticCall) jt in
  let jt := put RETURNDATASIZE (fixed opReturnDataSize GasQuickStep 0 1) jt in
  let jt := put RETURNDATACOPY
              (with_memory opReturnDataCopy GasFastestStep gasReturnDataCopy 3 0 memoryReturnDataCopy) jt in
  put REVERT (with_memory opRevert 0 pureMemoryGascost 2 0 memoryRevert) jt.

Definition newConstantinopleInstructionSet : JumpTable :=
  let jt := newByzantiumInstructionSet in
  let jt := put SHL (fixed opSHL GasFastestStep 2 1) jt in
  let jt := put SHR (fixed opSHR GasFastestStep 2 1) jt in
  let jt := put SAR (fixed opSAR GasFastestStep 2 1) jt in
  let jt := put EXTCODEHASH (fixed opExtCodeHash ExtcodeHashGasConstantinople 1 1) jt in
  put CREATE2 (with_memory opCreate2 Create2Gas gasCreate2 4 1 memoryCreate2) jt.

(** ** eips.go *)

Definition enable1884 (jt : JumpTable) : JumpTable :=
  let jt := set_constantGas SLOAD SloadGasEIP1884 jt in
  let jt := set_constantGas BALANCE BalanceGasEIP1884 jt in
  let jt := set_constantGas EXTCODEHASH ExtcodeHashGasEIP1884 jt in
  put SELFBALANCE (fixed opSelfBalance GasFastStep 0 1) jt.

Definition enable1344 (jt : JumpTable) : JumpTable :=
  put CHAINID (fixed (opChainID rules) GasQuickStep 0 1) jt.

Definition enable2200 (jt : JumpTable) : JumpTable :=
  let jt := set_constantGas SLOAD SloadGasEIP2200 jt in
  set_dynamicGas SSTORE gasSStoreEIP2200 jt.

(** The entry [k] at the price of a warm access, with the gas function [f]. *)
Definition warm_access (k : Z) (f : Z -> M (Machine W P) Z) (jt : JumpTable) : JumpTable :=
  set_dynamicGas k f (set_constantGas k WarmStorageReadCostEIP2929 jt).

Definition enable2929 (jt : JumpTable) : JumpTable :=
  let jt := set_dynamicGas SSTORE gasSStoreEIP2929 jt in
  let jt := set_dynamicGas SLOAD gasSLoadEIP2929 (set_constantGas SLOAD 0 jt) in
  let jt := warm_access EXTCODECOPY gasExtCodeCopyEIP2929 jt in
  let jt := warm_access EXTCODESIZE gasEip2929AccountCheck jt in
  let jt := warm_access EXTCODEHASH gasEip2929AccountCheck jt in
  let jt := warm_access BALANCE gasEip2929AccountCheck jt in
  let jt := warm_access CALL (gasCallEIP2929 rules) jt in
  let jt := warm_access CALLCODE (gasCallCodeEIP2929 rules) jt in
  let jt := warm_access STATICCALL (gasStaticCallEIP2929 rules) jt in
  let jt := warm_access DELEGATECALL (gasDelegateCallEIP2929 rules) jt in
  set_dynamicGas SELFDESTRUCT gasSelfdestructEIP2929 (set_constantGas SELFDESTRUCT SelfdestructGasEIP150 jt).

Definition enable3529 (jt : JumpTable) : JumpTable :=
  let jt := set_dynamicGas SSTORE gasSStoreEIP3529 jt in
  set_dynamicGas SELFDESTRUCT gasSelfdestructEIP3529 jt.

Definition enable3198 (jt : JumpTable) : JumpTable :=
  put BASEFEE (fixed (opBaseFee bc) GasQuickStep 0 1) jt.

Definition enable3855 (jt : JumpTable) : JumpTable :=
  put PUSH0 (fixed opPush0 GasQuickStep 0 1) jt.

Definition newIstanbulInstructionSet : JumpTable :=
  enable2200 (enable1884 (enable1344 newConstantinopleInstructionSet)).
Definition newBerlinInstructionSet : JumpTable := enable2929 newIstanbulInstructionSet.
Definition newLondonInstructionSet : JumpTable := enable3198 (enable3529 newBerlinInstructionSet).
Definition newMergeInstructionSet : JumpTable :=
  put RANDOM (fixed (opRandom bc) GasQuickStep 0 1) newLondonInstructionSet.

Definition DefaultJumpTable : JumpTable :=
  if IsMerge rules then newMergeInstructionSet
  else if IsLondon rules then newLondonInstructionSet
  else if IsBerlin rules then newBerlinInstructionSet
  else if IsIstanbul rules then newIstanbulInstructionSet
  else if IsConstantinople rules then newConstantinopleInstructionSet
  else if IsByzantium rules then newByzantiumInstructionSet
  else if IsEIP158 rules then newSpuriousDragonInstructionSet
  else if IsEIP150 rules then newTangerineWhistleInstructionSet
  else if IsHomestead rules then newHomesteadInstructionSet
  else newFrontierInstructionSet.

(** [JumpTable.Validate]: memory comes with a gas function. *)
Definition table_valid (jt : JumpTable) : bool :=
  forallb (fun i => match memorySize (jt i), dynamicGas (jt i) with
                    | Some _, None => false
                    | _, _ => true
                    end) (seqZ 0 256).

(** The map of the EIPs' functions, as a list. *)
Definition activators : list (string * (JumpTable -> JumpTable)) :=
  zip eip_names [enable3855; enable3529; enable3198; enable2929; enable2200; enable1884; enable1344].

Fixpoint activator (eipName : string) (l : list (string * (JumpTable -> JumpTable)))
    : option (JumpTable -> JumpTable) :=
  match l with
  | [] => None
  | (name, f) :: l => if bool_decide (eipName = name) then Some f else activator eipName l
  end.

Definition EnableEIP (eipName : string) (jt : JumpTable) : option JumpTable :=
  (fun f => f jt) <$> activator eipName activators.

Lemma EnableEIP_exists eipName jt : is_Some (EnableEIP eipName jt) <-> ExistsEipActivator eipName = true.
Proof.
  unfold EnableEIP, ExistsEipActivator, activators, eip_names. rewrite bool_decide_eq_true, fmap_is_Some.
  rewrite !elem_of_cons, elem_of_nil. simpl. split.
  - repeat case_bool_decide; simpl; try tauto. by intros [].
  - intros He. repeat case_bool_decide; simpl; eauto; tauto.
Qed.

(** [NewEVMInterpreter]'s loop over the positions of the extra EIPs.  The slice shares its array
    [eips], of which it has the first [len], with the loop: an EIP that is not known is taken out of it
    by moving the rest to the left. *)
Fixpoint extra_eips (positions : list nat) (eips : list string) (len : nat) (jt : JumpTable)
    : res (JumpTable * list string) :=
  match positions with
  | [] => Ok (jt, take len eips)
  | i :: positions =>
      match eips !! i with
      | None => Panic
      | Some eip =>
          let eip := if (len =? 1)%nat && bool_decide (eip = String (Ascii.ascii_of_N 143) (String (Ascii.ascii_of_N 30) EmptyString))
                     then "ethereum_3855"%string else eip in
          match EnableEIP eip jt with
          | Some jt => extra_eips positions eips len jt
          | None =>
              if (len <? i + 1)%nat then Panic
              else extra_eips positions
                     (take i eips ++ take (len - (i + 1)) (drop (i + 1) eips) ++ drop (len - 1) eips)
                     (len - 1) jt
          end
      end
  end.

(** The jump table and the EIPs of a new interpreter. *)
Definition NewEVMInterpreter (extra : list string) : res (JumpTable * list string) :=
  extra_eips (seq 0 (length extra)) extra (length extra) DefaultJumpTable.

(** An unknown EIP hides the next one: it is reported as active and is not enabled.  A second one that is
    unknown is a panic. *)
Lemma unknown_eip_hides_next :
  NewEVMInterpreter ["unknown"; "ethereum_1344"; "ethereum_3855"]%string =
    Ok (enable3855 (enable3855 DefaultJumpTable), ["ethereum_1344"; "ethereum_3855"]%string) /\
  NewEVMInterpreter ["unknown"; "other"]%string = Panic.
Proof. by split. Qed.
End tables.
