(* ===== verification/EvmDb.v ===== *)
(** * The StateDB under the EVM

    [wp] is total correctness: the run returns within the bounds of the model, and
    does not panic unless a precompile that it has called does.  [within] holds between the states of a StateDB when one is
    reached from the other, every snapshot of the first is still valid and its
    addresses are still in the access list.  A step is [calm] when it also leaves
    the refund counter alone and clears no storage slot: [refund_ok] says that the
    counter covers the slots that are cleared. *)

From S2P Require Import Prelude.
From S2P Require Import AccessList.
From S2P Require Import StateDB.
From S2P Require Import Precompile.
From S2P Require Import StateRevert.
From S2P Require Import EvmMachine.

Local Open Scope Z_scope.

(** ** Total correctness *)

(** The panics that are not the machine's own, by the state they leave. *)
Class Excuse (S : Type) := excused : S -> Prop.

Definition wp {S A} `{Excuse S} (m : M S A) (Q : A -> S -> Prop) (s : S) : Prop :=
  match m s with
  | (Ok a, s') => Q a s'
  | (Err _, _) => False
  | (Panic, s') => excused s'
  end.

Section wp.
Context {S A B : Type} `{Excuse S}.

Lemma wp_intro (m : M S A) (Q : A -> S -> Prop) s a s' : m s = (Ok a, s') -> Q a s' -> wp m Q s.
Proof. unfold wp. by intros ->. Qed.

Lemma wp_inv (m : M S A) (Q : A -> S -> Prop) s : wp m Q s ->
  (exists a s', m s = (Ok a, s') /\ Q a s') \/ (exists s', m s = (Panic, s') /\ excused s').
Proof. unfold wp. destruct (m s) as [[a|x|] s']; [eauto|done|eauto]. Qed.

Lemma wp_mono (m : M S A) (Q Q' : A -> S -> Prop) s :
  (forall a s', Q a s' -> Q' a s') -> wp m Q s -> wp m Q' s.
Proof. intros HQ. unfold wp. destruct (m s) as [[a|x|] s']; auto. Qed.

Lemma wp_ret (a : A) (Q : A -> S -> Prop) s : Q a s -> wp (mret a) Q s.
Proof. done. Qed.

Lemma wp_bind (m : M S A) (f : A -> M S B) (Q : B -> S -> Prop) s :
  wp m (fun a => wp (f a) Q) s -> wp (m ≫= f) Q s.
Proof. unfold wp, mbind, M_bind. by destruct (m s) as [[a|x|] s']. Qed.

Lemma wp_gets (f : S -> A) (Q : A -> S -> Prop) s : Q (f s) s -> wp (mgets f) Q s.
Proof. done. Qed.

Lemma wp_modify (f : S -> S) (Q : unit -> S -> Prop) s : Q tt (f s) -> wp (mmodify f) Q s.
Proof. done. Qed.

Lemma wp_lift (r : res A) a (Q : A -> S -> Prop) s : r = Ok a -> Q a s -> wp (mlift r) Q s.
Proof. by intros ->. Qed.

(** An attempt returns as long as the run does not panic. *)
Lemma wp_attempt (m : M S A) (Q : A + err -> S -> Prop) s :
  (match m s with (Ok a, s') => Q (inl a) s' | (Err e, s') => Q (inr e) s' | (Panic, s') => excused s' end) ->
  wp (attempt m) Q s.
Proof. unfold wp, attempt. by destruct (m s) as [[a|e|] s']. Qed.
End wp.

(** The addresses of the access list. *)
Abbreviation warm s a := (ContainsAddress (access s) a = true).
(** The accounts that there are. *)
Abbreviation exists_at s a := (is_Some (lookup_obj s a)).

Section evm_wp.
Context {W P : Type} `{StateKeeper W, Keccak}.

(** A precompile's run has panicked, and left this state. *)
Definition precompile_panic `{PrecompiledContracts W P} (s : StateDB W) : Prop :=
  exists (p : P) bc tc c ro s0, db_ok s0 /\ 0 <= c_Gas c /\ p_Run p bc tc c ro s0 = (Panic, s).

#[export] Instance evm_excuse `{PrecompiledContracts W P} : Excuse (EVM W P) :=
  fun e => precompile_panic (evm_StateDB e).
#[export] Instance machine_excuse `{PrecompiledContracts W P} : Excuse (Machine W P) :=
  fun m => precompile_panic (evm_StateDB (m_evm m)).

Lemma wp_on_db `{PrecompiledContracts W P} {A} (f : StateDB W -> A * StateDB W) (Q : A -> EVM W P -> Prop) e :
  (let '(a, s) := f (evm_StateDB e) in Q a (with_db s e)) -> wp (on_db f) Q e.
Proof. unfold wp, on_db. by destruct (f (evm_StateDB e)) as [a s]. Qed.

Lemma wp_db_modify `{PrecompiledContracts W P} (f : StateDB W -> StateDB W) (Q : unit -> EVM W P -> Prop) e :
  Q tt (with_db (f (evm_StateDB e)) e) -> wp (db_modify f) Q e.
Proof. done. Qed.

Lemma wp_db_try `{PrecompiledContracts W P} f s (Q : unit -> EVM W P -> Prop) e :
  f (evm_StateDB e) = Ok s -> Q tt (with_db s e) -> wp (db_try f) Q e.
Proof. intros E HQ. unfold wp, db_try. by rewrite E. Qed.

(** ** States of the StateDB *)

Record within (s s' : StateDB W) : Prop := {
  wi_steps : rtc db_step s s';
  wi_revs : validRevisions s `prefix_of` validRevisions s';
  wi_warm a : warm s a -> warm s' a;
  wi_exist a : exists_at s a -> exists_at s' a
}.

#[export] Instance within_preorder : PreOrder within.
Proof.
  split.
  - intros s. split; [apply rtc_refl|done|done|done].
  - intros s t u [S1 R1 A1 E1] [S2 R2 A2 E2]. split; [by etransitivity|by etransitivity|auto|auto].
Qed.

Lemma within_ok s s' : within s s' -> db_ok s -> db_ok s'.
Proof. intros [Hr _ _ _]. induction Hr; eauto using db_step_ok. Qed.

Lemma within_ext s s' : db_step s s' -> ext s s' -> (forall a, warm s a -> warm s' a) ->
  (forall a, exists_at s a -> exists_at s' a) -> within s s'.
Proof. intros Hs X Ha He. split; [by apply rtc_once|by rewrite (ext_revisions _ _ X)|done|done]. Qed.

(** The state answers as before. *)
Record same_state (s s' : StateDB W) : Prop := {
  ss_below : below s s';
  ss_journal : db_journal s' = db_journal s;
  ss_revs : validRevisions s' = validRevisions s
}.

#[export] Instance same_state_preorder : PreOrder same_state.
Proof.
  split.
  - intros s. split; [|done|done]. constructor; auto using option_forall2_refl.
  - intros s t u [B1 J1 R1] [B2 J2 R2]. split; [|congruence|congruence].
    pose proof (below_preorder (W:=W)) as [_ T]. by eapply T.
Qed.

Lemma below_exist s s' a : below s s' -> exists_at s a <-> exists_at s' a.
Proof. intros B. destruct (be_obj _ _ B a); split; eauto using mk_is_Some; by intros []. Qed.

(** A frame's snapshot can be reverted to after everything that happens within. *)
Lemma snapshot_revert s id s1 s2 : db_ok s -> Snapshot s = (id, s1) -> within s1 s2 ->
  exists s3, RevertToSnapshot id s2 = Ok s3 /\ same_state s s3 /\ within s s3.
Proof.
  intros Hok Hs [Hr Hp _ _].
  destruct (tracks_revert id s s2 Hok) as (s3 & E & B & J & R).
  - eapply tracks_steps; [by apply tracks_start|done].
  - injection Hs as <- <-. destruct Hp as [l Hl]. simpl in Hl. rewrite Hl, <- app_assoc, map_app.
    simpl. apply elem_of_app. right. apply list_elem_of_here.
  - exists s3. split_and!; [done|by constructor|]. split; [|by rewrite R|by rewrite (be_access _ _ B)|intros a; by rewrite (below_exist _ _ a B)].
    eapply rtc_l; [apply step_Snapshot|]. rewrite Hs. eapply rtc_r; [done|]. by apply (step_Revert id).
Qed.

(** ** Storage that was cleared, and the refund counter *)

(** The slot [k] of [o] had a value before the transaction and has none now. *)
Definition obj_cleared (c : W) (o : stateObject) (k : Hash) : Prop :=
  committed_val c k o <> zero_hash /\ state_val c k o = zero_hash.

Definition cleared (s : StateDB W) (a : Address) (k : Hash) : Prop :=
  exists o, lookup_obj s a = Some o /\ obj_cleared (ctx s) o k.

(** The counter has [clears] for each of the cleared slots. *)
Definition refund_ok (clears : Z) (s : StateDB W) : Prop :=
  exists C : gset (Address * Hash), (forall a k, cleared s a k -> (a, k) ∈ C) /\
    clears * Z.of_nat (size C) <= refund s.

Lemma below_cleared s t a k : below s t -> cleared t a k -> cleared s a k.
Proof.
  intros B (o & E & Hc). pose proof (be_obj _ _ B a) as F. rewrite E in F.
  inversion F as [o' ? Eo E1|]; subst. exists o'. split; [done|].
  destruct Eo as [_ _ _ _ Ecm Est]. unfold obj_cleared in *. rewrite (be_ctx _ _ B) in Hc.
  by rewrite Ecm, Est.
Qed.

(** The access list and the counter are as they were, and nothing is cleared. *)
Record still (s s' : StateDB W) : Prop := {
  st_access : access s' = access s;
  st_refund : refund s' = refund s;
  st_cleared a k : cleared s' a k -> cleared s a k;
  st_exist a : exists_at s a -> exists_at s' a
}.

#[export] Instance still_preorder : PreOrder still.
Proof. split; [by intros s|]. intros s t u [A1 R1 C1 E1] [A2 R2 C2 E2]. split; [congruence|congruence|auto|auto]. Qed.

Record calm (s s' : StateDB W) : Prop := {
  ca_within : within s s';
  ca_refund : refund s' = refund s;
  ca_cleared a k : cleared s' a k -> cleared s a k
}.

#[export] Instance calm_preorder : PreOrder calm.
Proof.
  split; [by intros s|]. intros s t u [A1 R1 C1] [A2 R2 C2]. split; [by etransitivity|congruence|auto].
Qed.

Lemma refund_ok_calm clears s s' : calm s s' -> refund_ok clears s -> refund_ok clears s'.
Proof. intros [_ R C] (X & Hx & Hr). exists X. split; [auto|by rewrite R]. Qed.

Lemma refund_ok_below clears s s' : below s s' -> refund_ok clears s -> refund_ok clears s'.
Proof.
  intros B (X & Hx & Hr). exists X. split; [|by rewrite (be_refund _ _ B)].
  intros a k Hc. apply Hx. by eapply below_cleared.
Qed.

Lemma same_state_still s s' : same_state s s' -> still s s'.
Proof.
  intros [B _ _]. split; [apply B|apply B|intros a k; by apply below_cleared|]. intros a. by rewrite (below_exist _ _ a B).
Qed.

Lemma still_calm s s' : still s s' -> within s s' -> calm s s'.
Proof. intros [A R C _] Hw. by split. Qed.

Lemma cleared_set o s a k : cleared (setStateObject o s) a k ->
  (address o = a /\ obj_cleared (ctx s) o k) \/ (address o <> a /\ cleared s a k).
Proof.
  intros (o' & E & Hc). rewrite lookup_set in E. case_decide; [left|right].
  - by injection E as ->.
  - split; [done|]. by exists o'.
Qed.

Lemma exist_set o s a : exists_at s a -> exists_at (setStateObject o s) a.
Proof. rewrite lookup_set. case_decide; eauto using mk_is_Some. Qed.

Lemma still_append e s : still s (append e s).
Proof.
  split; [done|done| |intros a; by rewrite lookup_append]. intros a k (o & E & Hc).
  rewrite lookup_append in E. by exists o.
Qed.

(** Writing an object with the storage of the one that is looked up. *)
Lemma still_set s o o' : lookup_obj s (address o) = Some o -> address o' = address o ->
  originStorage o' = originStorage o -> dirtyStorage o' = dirtyStorage o -> still s (setStateObject o' s).
Proof.
  intros E Ea Eo Ed. split; [done|done| |intros a; apply exist_set]. intros a k [[Hx Hc]|[_ Hc]]%cleared_set; [|done].
  exists o. rewrite <- Hx, Ea. split; [done|]. unfold obj_cleared, state_val, committed_val in *.
  by rewrite Ea, Eo, Ed in Hc.
Qed.

Lemma still_new s a acct : still s (setStateObject (newObject a acct) s).
Proof.
  split; [done|done| |intros b; apply exist_set]. intros b k [[_ [Hc Hs]]|[_ Hc]]%cleared_set; [|done].
  unfold state_val in Hs. simpl in Hs. rewrite lookup_empty in Hs. simpl in Hs. done.
Qed.

(** ** Reading and writing *)

Definition reader {A} (f : StateDB W -> A * StateDB W) : Prop :=
  forall s, db_ok s -> same_state s (snd (f s)) /\ within s (snd (f s)).
Definition writer (f : StateDB W -> StateDB W) : Prop := forall s, db_ok s -> calm s (f s).

Lemma load_same a s : db_ok s ->
  same_state s (snd (getStateObject a s)) /\ within s (snd (getStateObject a s)).
Proof.
  intros Hok. pose proof (good_keyed _ (ok_good _ Hok)) as K.
  destruct (getStateObject_frame a s) as (J & R & _). split.
  - split; [|done|done]. rewrite (getStateObject_eq a s K). destruct (lookup_obj s a) as [o|] eqn:E; simpl.
    + by apply (below_load s a).
    + constructor; auto using option_forall2_refl.
  - split; [apply rtc_once, step_load|by rewrite R| |].
    + unfold getStateObject. destruct (stateObjects s !! a); [done|]. by destruct (keeper_GetAccount a (ctx s)).
    + intros b. rewrite (getStateObject_eq a s K). destruct (lookup_obj s a); [apply exist_set|done].
Qed.

Lemma reader_load {A} (f : option stateObject -> A) a :
  reader (fun s => let '(o, s) := getStateObject a s in (f o, s)).
Proof.
  intros s Hok. pose proof (load_same a s Hok) as L. by destruct (getStateObject a s) as [o s'].
Qed.

Lemma Exist_reader a : reader (Exist a).
Proof. apply (reader_load (fun o => bool_decide (is_Some o))). Qed.
Lemma GetBalance_reader a : reader (GetBalance a).
Proof. apply (reader_load (fun o => match o with Some o => Balance (account o) | None => 0 end)). Qed.
Lemma GetNonce_reader a : reader (GetNonce a).
Proof. apply (reader_load (fun o => match o with Some o => Nonce (account o) | None => 0 end)). Qed.
Lemma GetCodeHash_reader a : reader (GetCodeHash a).
Proof. apply (reader_load (fun o => match o with Some o => CodeHash (account o) | None => zero_hash end)). Qed.
Lemma CanTransfer_reader a x : reader (CanTransfer a x).
Proof.
  intros s Hok. unfold CanTransfer. pose proof (GetBalance_reader a s Hok) as L.
  by destruct (GetBalance a s).
Qed.

(** Storing an object with the same answers as the one that is looked up. *)
Lemma reload_same a s o o1 : db_ok s -> lookup_obj s a = Some o -> obj_eq (ctx s) o o1 ->
  same_state s (setStateObject o1 s).
Proof.
  intros Hok E Eo. pose proof (good_keyed _ (ok_good _ Hok)) as K. split; [|done|done].
  pose proof (below_preorder (W:=W)) as [Rf T]. eapply T; [by apply (below_load s a o)|].
  apply below_set; [apply Rf|done].
Qed.

(** A reader that loads an object and then a part of it. *)
Lemma reader_part {A} (f : W -> stateObject -> A * stateObject) (d : A) a :
  (forall c o x o1, f c o = (x, o1) -> obj_eq c o o1) ->
  (forall s, db_step s (snd (let '(so, s) := getStateObject a s in
       match so with Some so => let '(c, so) := f (ctx s) so in (c, setStateObject so s) | None => (d, s) end))) ->
  reader (fun s => let '(so, s) := getStateObject a s in
    match so with Some so => let '(c, so) := f (ctx s) so in (c, setStateObject so s) | None => (d, s) end).
Proof.
  intros Hf Hs s Hok. specialize (Hs s). revert Hs.
  pose proof (load_same a s Hok) as [L Lw].
  pose proof (getStateObject_eq a s (good_keyed _ (ok_good _ Hok))) as G.
  destruct (getStateObject a s) as [[o|] s1]; simpl in *; [|done].
  destruct (f (ctx s1) o) as [x o1] eqn:E. simpl. intros Hs.
  assert (S1 : same_state s1 (setStateObject o1 s1)).
  { apply (reload_same a s1 o); [by eapply within_ok| |by eapply Hf].
    injection G as G1 G2. rewrite <- G1 in G2. rewrite G2, lookup_set, decide_True; [done|].
    apply (lookup_address s a); [apply (good_keyed _ (ok_good _ Hok))|done]. }
  split; [by etransitivity|]. split; [by apply rtc_once|by rewrite (ss_revs _ _ S1), (ss_revs _ _ L)| |];
    intros b.
  - by rewrite (be_access _ _ (ss_below _ _ S1)), (be_access _ _ (ss_below _ _ L)).
  - by rewrite (below_exist _ _ b (ss_below _ _ L)), (below_exist _ _ b (ss_below _ _ S1)).
Qed.

Lemma GetCode_reader a : reader (GetCode a).
Proof.
  apply (reader_part object_Code None a); [apply code_load_eq|]. intros s. apply (step_GetCode a s).
Qed.
Lemma GetState_reader a k : reader (GetState a k).
Proof.
  apply (reader_part (fun c => object_GetState c k) zero_hash a); [intros c; apply state_load_eq|].
  intros s. apply (step_GetState a k s).
Qed.
Lemma GetCommittedState_reader a k : reader (GetCommittedState a k).
Proof.
  apply (reader_part (fun c => object_GetCommittedState c k) zero_hash a);
    [intros c; apply committed_load_eq|]. intros s. apply (step_GetCommittedState a k s).
Qed.

(** ** The writers are calm *)

Lemma still_load a s : db_ok s -> still s (snd (getStateObject a s)).
Proof. intros Hok. by apply same_state_still, load_same. Qed.

Lemma still_create a s : db_ok s -> still s (snd (createObject a s)).
Proof.
  intros Hok. unfold createObject. pose proof (still_load a s Hok) as L.
  destruct (getStateObject a s) as [prev s1]. simpl in *.
  etransitivity; [exact L|]. destruct prev; (etransitivity; [apply still_append|apply still_new]).
Qed.

Lemma still_getOrNew a s o s1 : db_ok s -> getOrNewStateObject a s = (o, s1) ->
  still s s1 /\ lookup_obj s1 (address o) = Some o.
Proof.
  intros Hok E. split.
  - revert E. unfold getOrNewStateObject. pose proof (still_load a s Hok) as L.
    destruct (load_same a s Hok) as [_ Hw]. pose proof (within_ok _ _ Hw Hok) as K.
    destruct (getStateObject a s) as [[x|] s2]; simpl in *; [by intros [= <- <-]|].
    pose proof (still_create a s2 K) as C. destruct (createObject a s2) as [[x y] s3].
    intros [= <- <-]. by etransitivity.
  - destruct (getOrNew_ext a s o s1 (ok_good _ Hok) E) as (_ & El & Ea).
    apply live_lookup. by rewrite Ea.
Qed.

(** A writer that gets an object and changes it, but not its storage. *)
Lemma writer_object (f : stateObject -> StateDB W -> StateDB W) a :
  (forall s, db_step s (let '(o, s) := getOrNewStateObject a s in f o s)) ->
  (forall s, good s -> ext s (let '(o, s) := getOrNewStateObject a s in f o s)) ->
  (forall o s, lookup_obj s (address o) = Some o -> still s (f o s)) ->
  writer (fun s => let '(o, s) := getOrNewStateObject a s in f o s).
Proof.
  intros Hs Hx Hf s Hok. specialize (Hs s). specialize (Hx s (ok_good _ Hok)). revert Hs Hx.
  destruct (getOrNewStateObject a s) as [o s1] eqn:E. intros Hs Hx.
  destruct (still_getOrNew a s o s1 Hok E) as [S1 L]. pose proof (Hf o s1 L) as S2.
  assert (S : still s (f o s1)) by (by etransitivity). apply still_calm; [done|].
  apply within_ext; [done|done| |apply S]. intros b. by rewrite (st_access _ _ S).
Qed.

Lemma object_set_still e o o' s : lookup_obj s (address o) = Some o -> address o' = address o ->
  originStorage o' = originStorage o -> dirtyStorage o' = dirtyStorage o ->
  still s (setStateObject o' (append e s)).
Proof.
  intros L Ea Eo Ed. etransitivity; [apply (still_append e)|]. apply (still_set _ o); try done.
  by rewrite lookup_append.
Qed.

Lemma AddBalance_writer a x : writer (AddBalance a x).
Proof.
  apply (writer_object (object_AddBalance x)).
  - intros s. apply (step_AddBalance a x s).
  - intros s. apply (AddBalance_ext a x s).
  - intros o s L. unfold object_AddBalance, object_SetBalance.
    destruct (x =? 0); [reflexivity|by apply (object_set_still _ o)].
Qed.
Lemma SubBalance_writer a x : writer (SubBalance a x).
Proof.
  apply (writer_object (object_SubBalance x)).
  - intros s. apply (step_SubBalance a x s).
  - intros s. apply (SubBalance_ext a x s).
  - intros o s L. unfold object_SubBalance, object_SetBalance.
    destruct (x =? 0); [reflexivity|by apply (object_set_still _ o)].
Qed.
Lemma SetNonce_writer a x : writer (SetNonce a x).
Proof.
  apply (writer_object (object_SetNonce x)).
  - intros s. apply (step_SetNonce a x s).
  - intros s. apply (SetNonce_ext a x s).
  - intros o s L. by apply (object_set_still _ o).
Qed.
Lemma SetCode_writer a x : writer (SetCode a x).
Proof.
  apply (writer_object (object_SetCode (Keccak256Hash (default EmptyString x)) x)).
  - intros s. apply (step_SetCode a x s).
  - intros s. apply (SetCode_ext a x s).
  - intros o s L. unfold object_SetCode. destruct (object_Code (ctx s) o) as [c o1] eqn:E.
    apply code_fields in E as (? & ? & ? & ? & ? & ?). apply (object_set_still _ o); simpl; congruence.
Qed.

Lemma writer_comp f g : writer f -> writer g -> writer (fun s => g (f s)).
Proof.
  intros Hf Hg s Hok. etransitivity; [by apply Hf|]. apply Hg. eapply within_ok; [apply Hf|]; done.
Qed.

Lemma Transfer_writer a b x : writer (Transfer a b x).
Proof.
  apply (writer_comp (SubBalance a x) (AddBalance b x)); [apply SubBalance_writer|apply AddBalance_writer].
Qed.

Lemma CreateAccount_writer a : writer (CreateAccount a).
Proof.
  intros s Hok. assert (S : still s (CreateAccount a s)).
  { unfold CreateAccount. pose proof (still_create a s Hok) as C.
    assert (L : lookup_obj (snd (createObject a s)) (address (fst (fst (createObject a s))))
      = Some (fst (fst (createObject a s)))).
    { unfold createObject. destruct (getStateObject a s) as [prev s1]. simpl.
      by rewrite lookup_set, decide_True. }
    destruct (createObject a s) as [[o prev] s1]. simpl in *. destruct prev as [prev|]; [|done].
    etransitivity; [exact C|]. by apply (still_set _ o). }
  apply still_calm; [done|]. apply within_ext; [apply step_CreateAccount|apply CreateAccount_ext, Hok| |apply S].
  intros b. by rewrite (st_access _ _ S).
Qed.

(** Writers of the other fields. *)
Lemma writer_still f : (forall s, db_step s (f s)) -> (forall s, good s -> ext s (f s)) ->
  (forall s, still s (f s)) -> writer f.
Proof.
  intros Hs X S s Hok. apply still_calm; [apply S|]. apply within_ext; [done|apply X, Hok| |apply S].
  intros b. by rewrite (st_access _ _ (S s)).
Qed.

Lemma lookup_same s s' a : stateObjects s' = stateObjects s -> ctx s' = ctx s -> lookup_obj s' a = lookup_obj s a.
Proof.
  intros Eo Ec. unfold lookup_obj, getStateObject. rewrite Eo, Ec. destruct (stateObjects s !! a); [done|].
  by destruct (keeper_GetAccount a (ctx s)).
Qed.

Lemma lookup_fields s s' : stateObjects s' = stateObjects s -> ctx s' = ctx s ->
  forall a k, cleared s' a k -> cleared s a k.
Proof.
  intros Eo Ec a k (o & E & Hc). exists o. rewrite Ec in Hc. by rewrite (lookup_same s s') in E.
Qed.

Lemma AddLog_writer l : writer (AddLog l).
Proof.
  apply writer_still; [intros; apply step_AddLog|intros; by apply AddLog_ext|].
  intros s. split; [done|done|by apply lookup_fields|]. intros a. by rewrite (lookup_same s (AddLog l s)).
Qed.

Lemma Suicide_writer a : writer (fun s => snd (Suicide a s)).
Proof.
  intros s Hok. assert (S : still s (snd (Suicide a s))).
  { unfold Suicide. destruct (getStateObject a s) as [[o|] s1] eqn:E; simpl.
    - pose proof (still_load a s Hok) as L. rewrite E in L. simpl in L.
      destruct (load_ext a s _ _ (ok_good _ Hok) E) as (_ & _ & _ & Hl & _). destruct (Hl o eq_refl) as [El Ea].
      etransitivity; [exact L|]. apply (object_set_still _ o); try done. apply live_lookup. by rewrite Ea.
    - pose proof (still_load a s Hok) as L. by rewrite E in L. }
  apply still_calm; [done|]. apply within_ext; [apply step_Suicide| |intros b; by rewrite (st_access _ _ S)|apply S].
  eapply (Suicide_ext a); [apply Hok|apply surjective_pairing].
Qed.

Lemma AddAddress_warm a (s : StateDB W) b : warm s b -> warm (AddAddressToAccessList a s) b.
Proof.
  unfold AddAddressToAccessList, AddAddress. destruct (addresses (access s) !! a) eqn:E; [done|]. simpl.
  unfold ContainsAddress. rewrite !bool_decide_eq_true. simpl. rewrite lookup_insert_is_Some'. auto.
Qed.
Lemma AddAddress_warm_self a (s : StateDB W) : warm (AddAddressToAccessList a s) a.
Proof.
  unfold AddAddressToAccessList, AddAddress, ContainsAddress.
  destruct (addresses (access s) !! a) eqn:E; rewrite bool_decide_eq_true; simpl.
  - rewrite E. by eexists.
  - rewrite lookup_insert_is_Some'. auto.
Qed.

Lemma AddAddressToAccessList_writer a : writer (AddAddressToAccessList a).
Proof.
  intros s Hok. split.
  - apply within_ext; [apply step_AddAddress|apply AddAddressToAccessList_ext, Hok|intros b; apply AddAddress_warm|].
    intros b. rewrite (lookup_same s (AddAddressToAccessList a s)); [done| |]; unfold AddAddressToAccessList;
      by destruct (AddAddress (access s) a) as [[] al].
  - unfold AddAddressToAccessList. by destruct (AddAddress (access s) a) as [[] al].
  - apply lookup_fields; unfold AddAddressToAccessList; by destruct (AddAddress (access s) a) as [[] al].
Qed.

(** ** Accounts that come into being *)

Lemma Exist_exists a (s s' : StateDB W) : Exist a s = (true, s') -> exists_at s a.
Proof.
  unfold Exist, lookup_obj. destruct (getStateObject a s) as [o s1]. intros [= Ho _]. by apply bool_decide_eq_true in Ho.
Qed.

Lemma CreateAccount_exists a (s : StateDB W) : exists_at (CreateAccount a s) a.
Proof.
  unfold CreateAccount, createObject. destruct (getStateObject a s) as [prev s1]. destruct prev; simpl;
    rewrite lookup_set, decide_True; done.
Qed.

Lemma AddBalance_exists a x (s : StateDB W) : db_ok s -> exists_at (AddBalance a x s) a.
Proof.
  intros Hok. unfold AddBalance. destruct (getOrNewStateObject a s) as [o s1] eqn:E.
  destruct (getOrNew_ext a s o s1 (ok_good _ Hok) E) as (_ & El & Ea).
  assert (Hx : exists_at s1 a) by (exists o; by apply live_lookup).
  unfold object_AddBalance, object_SetBalance. destruct (x =? 0); [done|]. apply exist_set. by rewrite lookup_append.
Qed.
End evm_wp.

#[export] Hint Resolve Exist_reader GetBalance_reader GetNonce_reader GetCodeHash_reader CanTransfer_reader
  GetCode_reader GetState_reader GetCommittedState_reader AddBalance_writer SubBalance_writer Transfer_writer
  SetNonce_writer SetCode_writer CreateAccount_writer AddLog_writer Suicide_writer
  AddAddressToAccessList_writer : statedb.
