(* ===== verification/EvmTheory.v ===== *)
(** * The call frames

    What the frames of evm.go ensure when the interpreter does what [run_ok] says: a call
    returns, leaves no more gas than it was given, and when it fails leaves the
    state as it was. *)

From S2P Require Import Prelude.
From S2P Require Import AccessList.
From S2P Require Import StateDB.
From S2P Require Import Precompile.
From S2P Require Import StateRevert.
From S2P Require Import EvmMachine.
From S2P Require Import Evm.
From S2P Require Import EvmGas.
From S2P Require Import EvmDb.

Local Open Scope Z_scope.

(** ** The interfaces of a frame *)

(** What a precompile's run does when it does not panic: it is an operation on the
    StateDB that keeps the snapshots, and it does not make gas; a run that succeeds
    leaves the refund counter and the contracts' storage alone.  Its error is part of
    the outcome. *)
Class PrecompileLaws (W P : Type) `{StateKeeper W, Keccak, PrecompiledContracts W P} : Prop := {
  p_gas_nonneg (p : P) input : 0 <= p_RequiredGas (W:=W) p input;
  p_run_ok (p : P) bc tc c ro (s : StateDB W) : db_ok s -> 0 <= c_Gas c ->
    match p_Run p bc tc c ro s with
    | (Ok out, s') => within s s' /\ 0 <= leftOverGas out <= c_Gas c /\ (vm_err out = None -> calm s s')
    | (Err _, _) => False
    | (Panic, _) => True
    end
}.

(** How a jump table counts refunds: [clears] for a cleared slot, and whether an account
    that runs is in the access list. *)
Record Metering := mkMetering { clears : Z; lists_accounts : bool }.

(** No refund is more than this many times the gas that is paid for it. *)
Definition refund_rate : Z := 600.

Definition gas_ok (gas : Z) : Prop := 0 <= gas < 2 ^ 64.
Definition word (x : Z) : Prop := 0 <= x < 2 ^ 256.

(** A contract that the interpreter runs. *)
Record contract_ok (c : Contract) : Prop := {
  co_gas : gas_ok (c_Gas c);
  co_value : exists v, c_value c = Some v /\ word v;
  co_precompile : isPrecompile c = false
}.

Section frame_theory.
Context {W P : Type} `{StateKeeper W, Keccak, EthAddresses, PrecompiledContracts W P}
  `{!PrecompileLaws W P}.
Context (mt : Metering).
Implicit Types e : EVM W P.

(** The refund counter covers the cleared slots, and does not pass [B] when [gas] is
    used up. *)
Record bound (B gas : Z) (s : StateDB W) : Prop := {
  bo_refund : refund_ok (clears mt) s;
  bo_nonneg : 0 <= refund s;
  bo_bound : refund s + refund_rate * gas <= B
}.

Lemma bound_calm B gas s s' : calm s s' -> bound B gas s -> bound B gas s'.
Proof.
  intros Hc [R N L]. pose proof (ca_refund _ _ Hc) as E. split; [by eapply refund_ok_calm|lia|by rewrite E].
Qed.

Lemma bound_same B gas s s' : same_state s s' -> bound B gas s -> bound B gas s'.
Proof.
  intros [Hb _ _] [R N L]. pose proof (be_refund _ _ Hb) as E.
  split; [by eapply refund_ok_below|lia|by rewrite E].
Qed.

Lemma bound_less B gas B' gas' s : bound B gas s -> gas' <= gas -> B <= B' -> bound B' gas' s.
Proof. intros [R N L] Hg HB. split; [done|done|unfold refund_rate in *; lia]. Qed.

(** [a] may be called, and may run: it must also exist. *)
Definition may_call (a : Address) (s : StateDB W) : Prop := lists_accounts mt = true -> warm s a.
Definition may_run (a : Address) (s : StateDB W) : Prop := may_call a s /\ exists_at s a.

Lemma may_call_within a s s' : within s s' -> may_call a s -> may_call a s'.
Proof. intros Hw Hm Hl. by apply (wi_warm _ _ Hw), Hm. Qed.

Lemma may_run_within a s s' : within s s' -> may_run a s -> may_run a s'.
Proof. intros Hw [Hm He]. split; [by eapply may_call_within|by apply (wi_exist _ _ Hw)]. Qed.

Record evolves (e e' : EVM W P) : Prop := {
  ev_within : within (evm_StateDB e) (evm_StateDB e');
  ev_depth : depth e' = depth e;
  ev_readOnly : in_readOnly e' = in_readOnly e
}.

#[export] Instance evolves_preorder : PreOrder evolves.
Proof.
  split.
  - intros e. by split.
  - intros e1 e2 e3 [W1 D1 R1] [W2 D2 R2]. split; [by etransitivity|congruence|congruence].
Qed.

Definition evm_ok (e : EVM W P) : Prop := db_ok (evm_StateDB e).

Lemma evolves_ok e e' : evolves e e' -> evm_ok e -> evm_ok e'.
Proof. intros [Hw _ _]. by apply within_ok. Qed.

Lemma evolves_db e s : within (evm_StateDB e) s -> evolves e (with_db s e).
Proof. intros Hw. by split. Qed.

(** A hook may change the precompiles, and nothing else. *)
Definition hook_ok (m : M (EVM W P) unit) : Prop := forall e,
  wp (attempt m) (fun _ e' => evm_StateDB e' = evm_StateDB e /\ depth e' = depth e /\
                              in_readOnly e' = in_readOnly e) e.

Definition hooks_ok (h : OpCodeHooks W P) : Prop :=
  (forall a b, hook_ok (CallHook h a b)) /\ (forall a, hook_ok (CreateHook h a)).

(** What a run ensures, with the gas that it starts with. *)
Definition run_post (B gas : Z) (e : EVM W P) (out : Outcome) (e' : EVM W P) : Prop :=
  evolves e e' /\ 0 <= leftOverGas out <= gas /\
  (vm_err out = None -> bound (B + SelfdestructRefundGas) (leftOverGas out) (evm_StateDB e')).

(** What a call is given. *)
Record call_pre (n : nat) (B gas : Z) (e : EVM W P) : Prop := {
  pre_ok : evm_ok e;
  pre_depth : CallCreateDepth < depth e + Z.of_nat n;
  pre_gas : gas_ok gas;
  pre_bound : bound B gas (evm_StateDB e);
  pre_fits : B + SelfdestructRefundGas < 2 ^ 64
}.

(** An interpreter that can be entered at the depths that [n] nested runs reach. *)
Definition run_ok (n : nat) (run : Contract -> string -> bool -> M (EVM W P) Outcome) : Prop :=
  forall c input ro e B, call_pre n B (c_Gas c) e -> depth e <= CallCreateDepth -> contract_ok c ->
    may_run (self c) (evm_StateDB e) ->
    wp (run c input ro) (run_post B (c_Gas c) e) e.

(** What a call ensures. *)
Record call_post (B gas : Z) (e : EVM W P) (out : Outcome) (e' : EVM W P) : Prop := {
  cp_evolves : evolves e e';
  cp_gas : 0 <= leftOverGas out <= gas;
  cp_bound : bound (B + SelfdestructRefundGas) (leftOverGas out) (evm_StateDB e');
  (** an error leaves the state as it was *)
  cp_failed : vm_err out <> None -> same_state (evm_StateDB e) (evm_StateDB e')
}.

(** What stays of a creation that fails: the creator's nonce, and the new address in the
    access list. *)
Definition bumped (berlin : bool) (from address : Address) (s s' : StateDB W) : Prop :=
  exists s0 nonce s1 s2, same_state s s0 /\ GetNonce from s0 = (nonce, s1) /\
    s2 = SetNonce from (u64_add nonce 1) s1 /\
    same_state (if berlin then AddAddressToAccessList address s2 else s2) s'.

Record create_post (rules : Rules) (from address : Address) (B gas : Z) (e : EVM W P)
    (r : Outcome * Address) (e' : EVM W P) : Prop := {
  crp_evolves : evolves e e';
  crp_gas : 0 <= leftOverGas (fst r) <= gas;
  crp_bound : bound (B + SelfdestructRefundGas) (leftOverGas (fst r)) (evm_StateDB e');
  crp_failed : vm_err (fst r) <> None ->
    same_state (evm_StateDB e) (evm_StateDB e') \/
    bumped (IsBerlin rules) from address (evm_StateDB e) (evm_StateDB e')
}.

(** ** Steps of a frame *)

Lemma wp_read {A} (f : StateDB W -> A * StateDB W) (Q : A -> EVM W P -> Prop) e :
  reader f -> evm_ok e ->
  (forall a s, f (evm_StateDB e) = (a, s) -> same_state (evm_StateDB e) s -> calm (evm_StateDB e) s ->
     db_ok s -> Q a (with_db s e)) -> wp (on_db f) Q e.
Proof.
  intros Hf Hok HQ. apply wp_on_db. destruct (Hf _ Hok) as [Hs Hw].
  destruct (f (evm_StateDB e)) as [a s] eqn:E. apply HQ; try done; [|by eapply within_ok].
  by apply still_calm; [apply same_state_still|].
Qed.

Lemma wp_write (f : StateDB W -> StateDB W) (Q : unit -> EVM W P -> Prop) e :
  writer f -> evm_ok e ->
  (forall s, s = f (evm_StateDB e) -> calm (evm_StateDB e) s -> db_ok s -> Q tt (with_db s e)) ->
  wp (db_modify f) Q e.
Proof.
  intros Hf Hok HQ. apply wp_db_modify. pose proof (Hf _ Hok) as Hc. apply HQ; [done|done|].
  eapply within_ok; [apply Hc|done].
Qed.

Lemma wp_hook (m : M (EVM W P) unit) (Q : unit + err -> EVM W P -> Prop) e :
  hook_ok m -> (forall r e', evm_StateDB e' = evm_StateDB e -> depth e' = depth e ->
    in_readOnly e' = in_readOnly e -> Q r e') -> wp (attempt m) Q e.
Proof. intros Hm HQ. eapply wp_mono; [|apply Hm]. intros r e' (? & ? & ?). auto. Qed.

Lemma snapshot_within (s : StateDB W) id s1 : Snapshot s = (id, s1) -> db_ok s -> calm s s1 /\ db_ok s1.
Proof.
  intros Hs Hok. assert (Hw : within s s1).
  { split; [apply rtc_once; replace s1 with (snd (Snapshot s)) by (by rewrite Hs); apply step_Snapshot| | |];
      injection Hs as <- <-; [by apply prefix_app_r|done|intros b; by rewrite (lookup_same s (with_revisions _ _ s))]. }
  split; [|by eapply within_ok]. split; [done| |]; injection Hs as <- <-; [done|by apply lookup_fields].
Qed.

Lemma wp_snapshot (Q : Z -> EVM W P -> Prop) e : evm_ok e ->
  (forall id s1, Snapshot (evm_StateDB e) = (id, s1) -> calm (evm_StateDB e) s1 -> db_ok s1 ->
     Q id (with_db s1 e)) -> wp (on_db Snapshot) Q e.
Proof.
  intros Hok HQ. apply wp_on_db. destruct (Snapshot (evm_StateDB e)) as [id s1] eqn:E.
  destruct (snapshot_within _ _ _ E Hok). by apply HQ.
Qed.

Lemma wp_RunPrecompiled env p from input B gas value ro e : evm_ok e -> 0 <= gas ->
  bound B gas (evm_StateDB e) ->
  wp (RunPrecompiledContract env p from input gas value ro) (run_post B gas e) e.
Proof.
  intros Hok Hg Hb. unfold RunPrecompiledContract, UseGas. simpl.
  pose proof (p_gas_nonneg (W:=W) p input) as Hr.
  destruct (Z.ltb_spec gas (p_RequiredGas p input)) as [Hl|Hl]; simpl.
  - apply wp_ret. split_and!; simpl; [reflexivity|lia|lia|done].
  - set (c := set_gas _ _). assert (Hc : 0 <= c_Gas c) by (simpl; lia).
    pose proof (p_run_ok p (Context env) (env_TxContext env) c ro (evm_StateDB e) Hok Hc) as Hrun.
    unfold wp, db_run. destruct (p_Run p _ _ c ro (evm_StateDB e)) as [[out|x|] s] eqn:E; [|done|].
    + destruct Hrun as (Hw & Hgas & Hcalm). simpl in Hgas.
      split; [by apply evolves_db|]. split; [lia|]. intros Hn.
      apply (bound_less B gas); [by apply (bound_calm B gas (evm_StateDB e)), Hb; apply Hcalm|lia|].
      unfold SelfdestructRefundGas. lia.
    + by exists p, (Context env), (env_TxContext env), c, ro, (evm_StateDB e).
Qed.

(** A refusal before anything has changed. *)
Lemma call_post_read n B gas x e e' : call_pre n B gas e ->
  same_state (evm_StateDB e) (evm_StateDB e') -> evolves e e' ->
  call_post B gas e (no_outcome gas x) e'.
Proof.
  intros Hp Hs Hev. pose proof (pre_gas _ _ _ _ Hp) as [Hg _]. split; [done|simpl; lia| |done].
  apply (bound_less B gas); [|simpl; lia|unfold SelfdestructRefundGas; lia].
  eapply bound_same; [done|apply Hp].
Qed.

(** The end of a call. *)
Lemma wp_revert_on_error n B gas out id e0 s0 s1 e :
  call_pre n B gas e0 -> Snapshot s0 = (id, s1) -> same_state (evm_StateDB e0) s0 ->
  within (evm_StateDB e0) s0 -> within s1 (evm_StateDB e) -> depth e = depth e0 ->
  in_readOnly e = in_readOnly e0 -> 0 <= leftOverGas out <= gas ->
  (vm_err out = None -> bound (B + SelfdestructRefundGas) (leftOverGas out) (evm_StateDB e)) ->
  wp (revert_on_error id out) (call_post B gas e0) e.
Proof.
  intros Hp Hs Hss Hw Hw1 Hd Hr Hg Hbo. pose proof (within_ok _ _ Hw (pre_ok _ _ _ _ Hp)) as Hok0.
  unfold revert_on_error. destruct (vm_err out) as [x|] eqn:E.
  - destruct (snapshot_revert s0 id s1 _ Hok0 Hs Hw1) as (s3 & Er & Hss3 & Hw3).
    assert (Hss03 : same_state (evm_StateDB e0) s3) by (by etransitivity).
    apply wp_bind. eapply wp_db_try; [exact Er|]. apply wp_ret. split.
    + split; [|done|done]. simpl. by etransitivity.
    + case_bool_decide; simpl; lia.
    + apply (bound_less B gas); [by eapply bound_same; [|apply Hp]| |unfold SelfdestructRefundGas; lia].
      case_bool_decide; simpl; lia.
    + by intros _.
  - apply wp_ret. split; [|done|auto|by rewrite E]. split; [|done|done]. etransitivity; [exact Hw|].
    etransitivity; [|exact Hw1]. by apply (snapshot_within s0 id).
Qed.

Section calls.
Context (env : EvmEnv W P) (n : nat) (run : Contract -> string -> bool -> M (EVM W P) Outcome).
Context (Hhooks : hooks_ok (hooks env)) (Hrun : run_ok n run).
Context (Hberlin : lists_accounts mt = true -> IsBerlin (chainRules env) = true)
  (Hhome : IsHomestead (chainRules env) = true).

(** The body of a call, after its snapshot and some calm steps. *)
Lemma wp_frame B gas (m : M (EVM W P) Outcome) id e0 s0 s1 e :
  call_pre n B gas e0 -> Snapshot s0 = (id, s1) -> same_state (evm_StateDB e0) s0 ->
  within (evm_StateDB e0) s0 -> calm s1 (evm_StateDB e) -> depth e = depth e0 ->
  in_readOnly e = in_readOnly e0 -> wp m (run_post B gas e) e ->
  wp (m ≫= revert_on_error id) (call_post B gas e0) e.
Proof.
  intros Hp Hs Hss Hw Hc Hd Hr Hm. apply wp_bind. eapply wp_mono; [|exact Hm].
  intros out e' ([Hw' Hd' Hr'] & Hg & Hbo). eapply (wp_revert_on_error n B gas out id e0 s0 s1); try done.
  - etransitivity; [apply Hc|done].
  - congruence.
  - congruence.
Qed.

(** What a call is given still holds after calm steps. *)
Lemma pre_calm B gas e e' : call_pre n B gas e -> calm (evm_StateDB e) (evm_StateDB e') ->
  depth e' = depth e -> call_pre n B gas e'.
Proof.
  intros [K D G Bo F] Hc Hd. split; try done.
  - eapply within_ok; [apply Hc|done].
  - by rewrite Hd.
  - by eapply bound_calm.
Qed.

Lemma run_post_calm B gas e e1 out e' : calm (evm_StateDB e) (evm_StateDB e1) -> depth e1 = depth e ->
  in_readOnly e1 = in_readOnly e -> run_post B gas e1 out e' -> run_post B gas e out e'.
Proof.
  intros Hc Hd Hr (Hev & Hg & Hbo). split; [|done]. etransitivity; [|exact Hev].
  split; [apply Hc|done|done].
Qed.

(** Entering the interpreter with the code of an account. *)
Lemma wp_run_code (c : Hash -> Code -> Contract) addr object B gas input ro e :
  call_pre n B gas e -> depth e <= CallCreateDepth -> may_run object (evm_StateDB e) ->
  (forall h x, contract_ok (c h x) /\ c_Gas (c h x) = gas /\ self (c h x) = object) ->
  wp (hash ← on_db (GetCodeHash addr); code ← on_db (GetCode addr); run (c hash code) input ro)
    (run_post B gas e) e.
Proof.
  intros Hp Hd Hm Hc. pose proof (pre_ok _ _ _ _ Hp) as Hok.
  apply wp_bind, wp_read; [auto with statedb|done|]. intros h s1 _ _ C1 K1.
  apply wp_bind, wp_read; [auto with statedb|done|]. intros x s2 _ _ C2 K2. simpl in C2.
  assert (C : calm (evm_StateDB e) s2) by (by etransitivity). destruct (Hc h x) as (Hco & Hcg & Hcs).
  eapply wp_mono; [intros out e' Hpost; apply (run_post_calm B gas e (with_db s2 e)); [done|done|done|exact Hpost]|].
  rewrite <- Hcg. apply (Hrun (c h x) input ro (with_db s2 e) B); [|done|done|].
  - rewrite Hcg. by apply (pre_calm B gas e).
  - rewrite Hcs. eapply may_run_within; [apply C|done].
Qed.

(** The hook and the depth check of the four calls. *)
Lemma wp_guarded hook B gas m e : hook_ok hook -> call_pre n B gas e ->
  (forall e', evm_StateDB e' = evm_StateDB e -> depth e' = depth e -> in_readOnly e' = in_readOnly e ->
     call_pre n B gas e' -> depth e' <= CallCreateDepth -> wp m (call_post B gas e) e') ->
  wp (with_hook hook gas (d ← mgets depth; if CallCreateDepth <? d then mret (no_outcome gas ErrDepth) else m))
    (call_post B gas e) e.
Proof.
  intros Hh Hp Hm. unfold with_hook. apply wp_bind, wp_hook; [done|]. intros r e' Es Ed Er.
  assert (Hpost : forall x, call_post B gas e (no_outcome gas x) e').
  { intros x. apply (call_post_read n); [done|by rewrite Es|]. split; [by rewrite Es|done|done]. }
  destruct r as [[]|x]; [|by apply wp_ret].
  apply wp_bind, wp_gets. destruct (Z.ltb_spec CallCreateDepth (depth e')); [by apply wp_ret|].
  apply Hm; try done. apply (pre_calm B gas e); [done|by rewrite Es|done].
Qed.

(** The tactic for a step that reads. *)
Local Tactic Notation "read" ident(a) ident(s) :=
  apply wp_bind, wp_read; [auto with statedb|done|]; cbn [evm_StateDB with_db];
  let E := fresh "E" s in let Hs := fresh "Same" s in let C := fresh "Calm" s in let K := fresh "Ok" s in
  intros a s E Hs C K.
Local Tactic Notation "write" ident(s) :=
  apply wp_bind, wp_write; [auto with statedb|done|]; cbn [evm_StateDB with_db];
  let E := fresh "E" s in let C := fresh "Calm" s in let K := fresh "Ok" s in intros s E C K.
Local Ltac calmly := repeat first [eassumption | reflexivity | etransitivity; [eassumption|]].

Lemma wp_Call from addr input B gas value e :
  call_pre n B gas e -> word value -> may_call addr (evm_StateDB e) ->
  wp (Call env run from addr input gas value) (call_post B gas e) e.
Proof.
  intros Hp0 Hv Hm. apply wp_guarded; [apply Hhooks|done|]. intros e1 Es Ed Er Hp Hd. clear Hp0.
  pose proof (pre_ok _ _ _ _ Hp) as K1. pose proof (pre_gas _ _ _ _ Hp) as [Hg0 _].
  rewrite <- Es in Hm.
  assert (Hpost : forall s, calm (evm_StateDB e1) s -> evolves e (with_db s e1)).
  { intros s C. split; [rewrite <- Es; apply C|done|done]. }
  apply wp_bind. eapply (wp_mono _ (fun enough e2 => exists s, e2 = with_db s e1 /\
    same_state (evm_StateDB e1) s /\ calm (evm_StateDB e1) s /\ db_ok s)).
  2:{ destruct (value =? 0); [apply wp_ret; exists (evm_StateDB e1); split; [by destruct e1|]|].
      - split_and!; [reflexivity|reflexivity|done].
      - apply wp_read; eauto with statedb. }
  intros enough e2 (s0 & -> & Hss & C0 & K0). destruct enough; simpl; cycle 1.
  { apply wp_ret, (call_post_read n); [by apply (pre_calm B gas e1); [|rewrite Es|]|by rewrite <- Es|by apply Hpost]. }
  apply wp_bind, wp_snapshot; [done|]. cbn [evm_StateDB with_db]. intros id s1 Hsn C1 K2.
  apply wp_bind, wp_gets. read exist s2.
  destruct (_ && _ && _ && _).
  { apply wp_ret. assert (C : calm (evm_StateDB e1) s2) by calmly.
    split; [by apply Hpost|simpl; lia| |done].
    apply (bound_less B gas); [eapply bound_calm; [exact C|apply Hp]|simpl; lia|unfold SelfdestructRefundGas; lia]. }
  apply wp_bind. eapply (wp_mono _ (fun _ e3 => exists s, e3 = with_db s e1 /\ calm s1 s /\ db_ok s /\ exists_at s addr)).
  2:{ destruct exist.
      - apply wp_ret. exists s2. split_and!; [done|done|done|]. apply (wi_exist _ _ (ca_within _ _ Calms2)).
        by eapply Exist_exists.
      - apply wp_write; [auto with statedb|done|]. cbn [evm_StateDB with_db]. intros s -> C3 K5.
        eexists. split_and!; [done|calmly|done|apply CreateAccount_exists]. }
  intros _ e3 (s3 & -> & C3 & K3 & X3). write s4.
  assert (C14 : calm s1 s4) by calmly. assert (C4 : calm (evm_StateDB e1) s4) by calmly.
  assert (Hp4 : call_pre n B gas (with_db s4 e1)) by (by apply (pre_calm B gas e1)).
  eapply (wp_frame B gas _ id e s0 s1); try done.
  1:{ apply (pre_calm B gas e1); [done|by rewrite Es|done]. }
  1:{ by rewrite <- Es. }
  1:{ rewrite <- Es. apply C0. }
  destruct (Precompile addr _) as [p|]; [apply wp_RunPrecompiled; [done|done|apply Hp4]|].
  read code s5. destruct (slen _ =? 0).
  { apply wp_ret. split; [apply evolves_db, Calms5|]. split; [simpl; lia|]. intros _.
    apply (bound_less B gas); [eapply bound_calm; [exact Calms5|apply Hp4]|simpl; lia|unfold SelfdestructRefundGas; lia]. }
  read hash s6. assert (C46 : calm s4 s6) by calmly.
  eapply wp_mono; [intros out e' Hr; apply (run_post_calm B gas _ (with_db s6 e1)); [done|done|done|exact Hr]|].
  apply (Hrun (SetCallCode (Some addr) hash (default EmptyString code) (NewContract from addr (Some value) gas))
    input false (with_db s6 e1) B); simpl; try done.
  - by apply (pre_calm B gas (with_db s4 e1)).
  - split; simpl; [apply Hp|eauto|done].
  - split.
    + eapply may_call_within; [|exact Hm]. etransitivity; [apply C4|apply C46].
    + apply (wi_exist _ _ (ca_within _ _ C46)), (wi_exist _ _ (ca_within _ _ Calms4)). done.
Qed.

(** What the other calls run: a precompile, or the code of [addr] for the account [object]. *)
Lemma wp_callee (p : option P) (c : Hash -> Code -> Contract) from value addr object B gas input ro ro' e :
  call_pre n B gas e -> depth e <= CallCreateDepth -> may_run object (evm_StateDB e) ->
  (forall h x, contract_ok (c h x) /\ c_Gas (c h x) = gas /\ self (c h x) = object) ->
  wp (match p with
      | Some p => RunPrecompiledContract env p from input gas value ro'
      | None => hash ← on_db (GetCodeHash addr); code ← on_db (GetCode addr); run (c hash code) input ro
      end) (run_post B gas e) e.
Proof.
  intros Hp Hd Hm Hc. destruct p as [p|]; [|by apply (wp_run_code c addr object)].
  apply wp_RunPrecompiled; [apply Hp|apply Hp|apply Hp].
Qed.

Lemma wp_CallCode from addr input B gas value e :
  call_pre n B gas e -> word value -> may_run (ref_Address from) (evm_StateDB e) ->
  wp (CallCode env run from addr input gas value) (call_post B gas e) e.
Proof.
  intros Hp0 Hv Hm. apply wp_guarded; [apply Hhooks|done|]. intros e1 Es Ed Er Hp Hd.
  pose proof (pre_ok _ _ _ _ Hp) as K1. rewrite <- Es in Hm. read enough s0.
  destruct enough; simpl; cycle 1.
  { apply wp_ret, (call_post_read n); [done|by rewrite <- Es|].
    split; [rewrite <- Es; apply Calms0|done|done]. }
  apply wp_bind, wp_snapshot; [done|]. cbn [evm_StateDB with_db]. intros id s1 Hsn C1 K2.
  apply wp_bind, wp_gets. assert (C : calm (evm_StateDB e1) s1) by calmly.
  eapply (wp_frame B gas _ id e s0 s1); try done; [by rewrite <- Es|rewrite <- Es; apply Calms0|].
  apply (wp_callee _ (fun hash code => SetCallCode (Some addr) hash (default EmptyString code)
    (NewContract from (ref_Address from) (Some value) gas)) from (Some value) addr (ref_Address from)); try done.
  - by apply (pre_calm B gas e1).
  - eapply may_run_within; [apply C|done].
  - intros h x. split; [|done]. split; simpl; [apply Hp|eauto|done].
Qed.

Lemma wp_DelegateCall self callerAddress v addr input B gas e :
  call_pre n B gas e -> word v -> may_run self (evm_StateDB e) ->
  wp (DelegateCall env run (RunningContract self callerAddress (Some v)) addr input gas) (call_post B gas e) e.
Proof.
  intros Hp0 Hv Hm. apply wp_guarded; [apply Hhooks|done|]. intros e1 Es Ed Er Hp Hd.
  pose proof (pre_ok _ _ _ _ Hp) as K1. rewrite <- Es in Hm.
  apply wp_bind, wp_snapshot; [done|]. intros id s1 Hsn C1 K2. apply wp_bind, wp_gets. rewrite Es in Hsn.
  assert (Hp1 : call_pre n B gas (with_db s1 e1)) by (by apply (pre_calm B gas e1)).
  eapply (wp_frame B gas _ id e (evm_StateDB e) s1); try done.
  destruct (Precompile addr _) as [p|]; [apply wp_RunPrecompiled; [done|apply Hp|apply Hp1]|].
  eapply wp_bind, wp_lift; [reflexivity|].
  apply (wp_run_code (fun hash code => SetCallCode (Some addr) hash (default EmptyString code) _) addr self); try done.
  - eapply may_run_within; [apply C1|done].
  - intros h x. split; [|done]. split; simpl; [apply Hp|eauto|done].
Qed.

Lemma wp_StaticCall from addr input B gas e :
  call_pre n B gas e -> may_call addr (evm_StateDB e) ->
  wp (StaticCall env run from addr input gas) (call_post B gas e) e.
Proof.
  intros Hp0 Hm. apply wp_guarded; [apply Hhooks|done|]. intros e1 Es Ed Er Hp Hd.
  pose proof (pre_ok _ _ _ _ Hp) as K1. rewrite <- Es in Hm.
  apply wp_bind, wp_snapshot; [done|]. intros id s1 Hsn C1 K2. write s2. apply wp_bind, wp_gets. rewrite Es in Hsn.
  assert (C : calm (evm_StateDB e1) s2) by calmly.
  eapply (wp_frame B gas _ id e (evm_StateDB e) s1); try done.
  apply (wp_callee _ (fun hash code => SetCallCode (Some addr) hash (default EmptyString code)
    (NewContract from addr (Some 0) gas)) from (Some 0) addr addr); try done.
  - by apply (pre_calm B gas e1).
  - split; [eapply may_call_within; [apply C|done]|]. cbn [evm_StateDB with_db]. rewrite Es2. by apply AddBalance_exists.
  - intros h x. split; [|done]. split; simpl; [apply Hp|exists 0; by split|done].
Qed.

(** ** Creations *)

(** Storing the code never leaves more gas, and is calm. *)
Lemma wp_store_code address B gas out e0 e : evm_ok e -> run_post B gas e0 out e ->
  wp (store_code env address out) (run_post B gas e0) e.
Proof.
  intros Hok (Hev & Hg & Hbo). unfold store_code. cbv zeta.
  set (x := if _ && _ && _ && _ then Some ErrInvalidCode else _).
  assert (Hx : x = None -> vm_err out = None).
  { subst x. destruct (vm_err out); [|done]. by repeat case_match. }
  destruct x as [x|]; [apply wp_ret; split; [done|]; by split|]. specialize (Hx eq_refl).
  pose proof (wrap_u64_range (slen (ret out) * CreateDataGas)) as Hr.
  destruct (Z.ltb_spec (leftOverGas out) (wrap_u64 (slen (ret out) * CreateDataGas))).
  - apply wp_ret. split; [done|]. by split.
  - write s. apply wp_ret. cbn [leftOverGas]. split; [etransitivity; [exact Hev|apply evolves_db, Calms]|].
    split; [cbn [leftOverGas]; lia|]. intros _.
    eapply bound_less; [eapply bound_calm; [exact Calms|by apply Hbo]|cbn [leftOverGas]; lia|lia].
Qed.

Lemma wp_finish_create B gas out id e0 s0 s1 e :
  Snapshot s0 = (id, s1) -> within (evm_StateDB e0) s0 -> db_ok s0 -> bound B gas s0 ->
  within s1 (evm_StateDB e) -> depth e = depth e0 -> in_readOnly e = in_readOnly e0 ->
  0 <= leftOverGas out <= gas ->
  (vm_err out = None -> bound (B + SelfdestructRefundGas) (leftOverGas out) (evm_StateDB e)) ->
  wp (finish_create env id out)
    (fun out' e' => evolves e0 e' /\ 0 <= leftOverGas out' <= gas /\
       bound (B + SelfdestructRefundGas) (leftOverGas out') (evm_StateDB e') /\
       (vm_err out' <> None -> same_state s0 (evm_StateDB e'))) e.
Proof.
  intros Hs Hw Hok0 Hb0 Hw1 Hd Hr Hg Hbo. unfold finish_create.
  assert (Hev : evolves e0 e).
  { split; [|done|done]. etransitivity; [exact Hw|]. etransitivity; [|exact Hw1]. by apply (snapshot_within s0 id). }
  destruct (vm_err out) as [x|] eqn:E; [|by apply wp_ret; rewrite E; split_and!; try lia; auto].
  rewrite Hhome. destruct (snapshot_revert s0 id s1 _ Hok0 Hs Hw1) as (s3 & Er & Hss3 & Hw3).
  apply wp_bind. eapply wp_db_try; [exact Er|]. apply wp_ret. cbn [evm_StateDB with_db].
  set (out' := if bool_decide _ then out else _). assert (Hg' : 0 <= leftOverGas out' <= gas).
  { subst out'. destruct (bool_decide (x = ErrExecutionReverted)); simpl; lia. }
  split; [|split; [done|split; [|done]]].
  - split; [|done|done]. simpl. by etransitivity.
  - apply (bound_less B gas); [by eapply bound_same|lia|unfold SelfdestructRefundGas; lia].
Qed.

(** The creation once the nonce is raised: [s3] is the state that a failure goes back to. *)
Lemma wp_create_at from ch B gas value address e s3 :
  call_pre n B gas e -> depth e <= CallCreateDepth -> word value ->
  calm (evm_StateDB e) s3 -> may_call address s3 ->
  wp (contractHash ← on_db (GetCodeHash address);
      k ← on_db (GetNonce address);
      if negb (k =? 0) || (negb (bool_decide (contractHash = zero_hash)) &&
                           negb (bool_decide (contractHash = emptyCodeHash)))
      then mret (no_outcome 0 ErrContractAddressCollision, zero_address) else
      snapshot ← on_db Snapshot;
      db_modify (CreateAccount address);;
      (if IsEIP158 (chainRules env) then db_modify (SetNonce address 1) else mret tt);;
      db_modify (Transfer (ref_Address from) address value);;
      out ← run (SetCodeOptionalHash (Some address) ch (NewContract from address (Some value) gas)) EmptyString false;
      out ← store_code env address out;
      out ← finish_create env snapshot out;
      mret (out, address))
    (fun r e' => evolves e e' /\ 0 <= leftOverGas (fst r) <= gas /\
       bound (B + SelfdestructRefundGas) (leftOverGas (fst r)) (evm_StateDB e') /\
       (vm_err (fst r) <> None -> same_state s3 (evm_StateDB e'))) (with_db s3 e).
Proof.
  intros Hp Hd Hv C3 Hm. pose proof (pre_gas _ _ _ _ Hp) as [Hg0 _].
  pose proof (within_ok _ _ (ca_within _ _ C3) (pre_ok _ _ _ _ Hp)) as K3.
  read contractHash s4. read k s5. assert (Hss : same_state s3 s5) by calmly.
  assert (C5 : calm (evm_StateDB e) s5) by calmly.
  assert (B5 : bound B gas s5) by (eapply bound_calm; [exact C5|apply Hp]). destruct (_ || _).
  { apply wp_ret. split; [by apply (evolves_db e s5), C5|]. split; [simpl; lia|]. split; [|done].
    apply (bound_less B gas); [done|simpl; lia|unfold SelfdestructRefundGas; lia]. }
  apply wp_bind, wp_snapshot; [done|]. cbn [evm_StateDB with_db]. intros id s6 Hsn C6 K6. write s7.
  apply wp_bind. eapply (wp_mono _ (fun _ e' => exists s, e' = with_db s e /\ calm s6 s /\ db_ok s /\ exists_at s address)).
  2:{ destruct (IsEIP158 _); [|apply wp_ret; exists s7; rewrite Es7; split_and!; [done|by rewrite <- Es7|by rewrite <- Es7|apply CreateAccount_exists]]. apply wp_write; [auto with statedb|done|].
      cbn [evm_StateDB with_db]. intros s _ C8 K8. exists s. split_and!; [done|calmly|done|].
      apply (wi_exist _ _ (ca_within _ _ C8)). rewrite Es7. apply CreateAccount_exists. }
  intros _ e2 (s8 & -> & C8 & K8 & X8). write s9.
  assert (X9 : exists_at s9 address) by (by apply (wi_exist _ _ (ca_within _ _ Calms9))). assert (C69 : calm s6 s9) by calmly.
  assert (C9 : calm (evm_StateDB e) s9) by calmly.
  apply wp_bind. eapply wp_mono; [|apply (Hrun _ _ _ (with_db s9 e) B); simpl; try done;
    [by apply (pre_calm B gas e)|split; simpl; [apply Hp|eauto|done]|
     split; [eapply may_call_within; [|exact Hm]; etransitivity; [apply Calms4|]; etransitivity; [apply Calms5|];
       etransitivity; [apply C6|apply C69]|exact X9]]]. simpl.
  intros out e3 Hpost. apply wp_bind. eapply wp_mono; [|eapply wp_store_code; [|exact Hpost];
    eapply evolves_ok; [apply Hpost|done]].
  intros out2 e4 ([W4 D4 R4] & Hl4 & Hb4). simpl in *. apply wp_bind.
  eapply wp_mono; [|eapply (wp_finish_create B gas out2 id e s5 s6); try done;
    [apply C5|etransitivity; [apply C69|done]]].
  intros out3 e5 (Hev5 & Hl5 & Hb5 & Hf5). apply wp_ret. split; [done|]. split; [done|]. split; [done|].
  intros He. etransitivity; [exact Hss|]. by apply Hf5.
Qed.

Lemma create_post_read rules from address B gas x a e s : call_pre n B gas e ->
  same_state (evm_StateDB e) s -> calm (evm_StateDB e) s ->
  create_post rules from address B gas e (no_outcome gas x, a) (with_db s e).
Proof.
  intros Hp Hss Hc. pose proof (pre_gas _ _ _ _ Hp) as [Hg _].
  split; [apply evolves_db, Hc|simpl; lia| |auto].
  apply (bound_less B gas); [eapply bound_calm; [exact Hc|apply Hp]|simpl; lia|unfold SelfdestructRefundGas; lia].
Qed.

Lemma wp_create from ch B gas value address e :
  call_pre n B gas e -> word value ->
  wp (create env run from ch gas value address)
    (create_post (chainRules env) (ref_Address from) address B gas e) e.
Proof.
  intros Hp Hv. pose proof (pre_ok _ _ _ _ Hp) as Hok. unfold create. apply wp_bind, wp_gets.
  destruct (Z.ltb_spec CallCreateDepth (depth e)).
  { apply wp_ret. replace e with (with_db (evm_StateDB e) e) at 2 by (by destruct e).
    apply create_post_read; [done|reflexivity|reflexivity]. }
  read enough s0. destruct enough; simpl; [|apply wp_ret; by apply create_post_read].
  read nonce s1.
  destruct (_ <? nonce); [apply wp_ret; apply (create_post_read _ _ _ B gas _ _ e s1); [done|calmly|calmly]|].
  apply wp_bind. set (s2 := SetNonce (ref_Address from) (u64_add nonce 1) s1).
  assert (C2 : calm s1 s2) by (by apply SetNonce_writer).
  apply wp_db_modify. cbn [evm_StateDB with_db]. fold s2.
  set (s3 := if IsBerlin (chainRules env) then AddAddressToAccessList address s2 else s2).
  assert (C3 : calm s2 s3).
  { subst s3. destruct (IsBerlin _); [|reflexivity]. apply AddAddressToAccessList_writer.
    eapply within_ok; [apply C2|done]. }
  apply wp_bind. eapply (wp_mono _ (fun _ e' => e' = with_db s3 e)).
  2:{ subst s3. destruct (IsBerlin _); [by apply wp_db_modify|by apply wp_ret]. }
  intros _ e1 ->. eapply wp_mono; [|apply (wp_create_at from ch B gas value address e s3); try done].
  - intros r e' (Hev & Hg & Hb & Hf). split; try done. intros He. right. exists s0, nonce, s1, s2. auto.
  - calmly.
  - intros Hl. subst s3. rewrite (Hberlin Hl). apply AddAddress_warm_self.
Qed.

Lemma wp_create_hook rules from address hook B gas m e : hook_ok hook -> call_pre n B gas e ->
  (forall e', evm_StateDB e' = evm_StateDB e -> depth e' = depth e -> in_readOnly e' = in_readOnly e ->
     wp m (create_post rules from address B gas e) e') ->
  wp (create_hook hook gas m) (create_post rules from address B gas e) e.
Proof.
  intros Hh Hp Hm. pose proof (pre_gas _ _ _ _ Hp) as [Hg _]. unfold create_hook.
  apply wp_bind, wp_hook; [done|]. intros r e' Es Ed Er. destruct r as [[]|x]; [by apply Hm|].
  apply wp_ret. split; [split; [by rewrite Es|done|done]|simpl; lia| |intros _; left; by rewrite Es].
  rewrite Es. apply (bound_less B gas); [apply Hp|simpl; lia|unfold SelfdestructRefundGas; lia].
Qed.

Lemma create_post_trans rules from address B gas e e1 r e' :
  same_state (evm_StateDB e) (evm_StateDB e1) -> within (evm_StateDB e) (evm_StateDB e1) ->
  depth e1 = depth e -> in_readOnly e1 = in_readOnly e ->
  create_post rules from address B gas e1 r e' -> create_post rules from address B gas e r e'.
Proof.
  intros Hss Hw Hd Hr [Hev Hg Hb Hf]. split; [|done|done|].
  - etransitivity; [|exact Hev]. by split.
  - intros He. destruct (Hf He) as [Hs|(s0 & nonce & s1 & s2 & Hs0 & Hrest)].
    + left. by etransitivity.
    + right. exists s0, nonce, s1, s2. split; [by etransitivity|done].
Qed.

(** The address of a new contract comes from the creator's nonce. *)
Lemma wp_Create from code B gas value e : call_pre n B gas e -> word value ->
  wp (Create env run from code gas value) (create_post (chainRules env) (ref_Address from)
    (crypto_CreateAddress (ref_Address from) (fst (GetNonce (ref_Address from) (evm_StateDB e)))) B gas e) e.
Proof.
  intros Hp Hv. apply wp_create_hook; [apply Hhooks|done|]. intros e1 Es Ed Er. rewrite <- Es.
  assert (Hp1 : call_pre n B gas e1) by (apply (pre_calm B gas e); [done|by rewrite Es|done]).
  pose proof (pre_ok _ _ _ _ Hp1) as K1. read nonce s1. rewrite Es1. simpl.
  eapply wp_mono; [|apply (wp_create from _ B gas value _ (with_db s1 e1)); [by apply (pre_calm B gas e1)|done]].
  intros r e' Hpost. eapply create_post_trans; [| | | |exact Hpost]; try done; rewrite <- Es; [done|apply Calms1].
Qed.

Lemma wp_Create2 from code B gas endowment salt e : call_pre n B gas e -> word endowment ->
  wp (Create2 env run from code gas endowment salt) (fun r e' =>
    exists address, create_post (chainRules env) (ref_Address from) address B gas e r e') e.
Proof.
  intros Hp Hv. unfold Create2. destruct (codeAndHash_Hash (mkCodeAndHash code zero_hash)) as [h ch].
  set (address := crypto_CreateAddress2 _ _ _).
  eapply wp_mono; [intros r e' Hpost; exists address; exact Hpost|].
  apply wp_create_hook; [apply Hhooks|done|]. intros e1 Es Ed Er.
  eapply wp_mono; [|apply (wp_create from ch B gas endowment address e1); [|done];
    apply (pre_calm B gas e); [done|by rewrite Es|done]].
  intros r e' Hpost. eapply create_post_trans; [| | | |exact Hpost]; try done; by rewrite Es.
Qed.
End calls.

(** The entry points, as an instruction can rely on them. *)
Record calls_ok (n : nat) (calls : EvmCalls W P) : Prop := {
  ok_Call from addr input B gas value e :
    call_pre n B gas e -> word value -> may_call addr (evm_StateDB e) ->
    wp (do_Call calls from addr input gas value) (call_post B gas e) e;
  ok_CallCode from addr input B gas value e :
    call_pre n B gas e -> word value -> may_run (ref_Address from) (evm_StateDB e) ->
    wp (do_CallCode calls from addr input gas value) (call_post B gas e) e;
  ok_DelegateCall self callerAddress v addr input B gas e :
    call_pre n B gas e -> word v -> may_run self (evm_StateDB e) ->
    wp (do_DelegateCall calls (RunningContract self callerAddress (Some v)) addr input gas) (call_post B gas e) e;
  ok_StaticCall from addr input B gas e :
    call_pre n B gas e -> may_call addr (evm_StateDB e) ->
    wp (do_StaticCall calls from addr input gas) (call_post B gas e) e;
  ok_Create from code B gas value e :
    call_pre n B gas e -> word value ->
    wp (do_Create calls from code gas value) (fun r e' => evolves e e' /\ 0 <= leftOverGas (fst r) <= gas /\
      bound (B + SelfdestructRefundGas) (leftOverGas (fst r)) (evm_StateDB e')) e;
  ok_Create2 from code B gas value salt e :
    call_pre n B gas e -> word value ->
    wp (do_Create2 calls from code gas value salt) (fun r e' => evolves e e' /\ 0 <= leftOverGas (fst r) <= gas /\
      bound (B + SelfdestructRefundGas) (leftOverGas (fst r)) (evm_StateDB e')) e
}.

Lemma frames_ok env n run : hooks_ok (hooks env) -> run_ok n run ->
  (lists_accounts mt = true -> IsBerlin (chainRules env) = true) -> IsHomestead (chainRules env) = true ->
  calls_ok n (frames env run).
Proof.
  intros Hh Hr Hb Hhome. split; simpl; intros.
  - by apply (wp_Call env n).
  - by apply (wp_CallCode env n).
  - by apply (wp_DelegateCall env n).
  - by apply (wp_StaticCall env n).
  - eapply wp_mono; [|by apply (wp_Create env n)]. by intros r e' [? ? ? _].
  - eapply wp_mono; [|by apply (wp_Create2 env n)]. by intros r e' (a & [? ? ? _]).
Qed.
End frame_theory.
