(* ===== verification/PrecompileRun.v ===== *)
(** * Precompiles as the EVM runs them

    [vm.PrecompiledContract] for the two kinds of contracts that there are: go-ethereum's,
    which compute an output from their input, and the stateful ones of precompiles/, which
    run on the StateDB through [RunSetup] and [RunAtomic] (the model of Precompile.v).  Whatever
    their methods do, they are what the EVM expects of a precompile ([PrecompileLaws]): a call
    that does not panic extends the journal, keeps snapshots and access list, makes no gas, and
    leaves refunds and contract storage alone. *)

From S2P Require Import Prelude.
From S2P Require Import AccessList.
From S2P Require Import StateDB.
From S2P Require Import Precompile.
From S2P Require Import StateRevert.
From S2P Require Import EvmMachine.
From S2P Require Import EvmDb.
From S2P Require Import EvmTheory.

Local Open Scope Z_scope.

(** A contract of go-ethereum: it does not see the StateDB. *)
Record NativeContract := mkNative {
  nc_address : Address;
  nc_gas : string -> N;
  nc_run : string -> string + err
}.

(** A contract of precompiles/: its ABI and methods, and what a call returns and costs. *)
Record StatefulContract {W : Type} := mkStateful {
  sc_address : Address;
  sc_gas : string -> N;
  sc_abi : ABI;
  sc_isTransaction : string -> bool;
  (** the gas that the EVM has used so far *)
  sc_initialGas : StateDB W -> Z;
  sc_methods : BlockContext -> TxContext -> Contract -> Method -> M W effect;
  sc_output : Contract -> StateDB W -> string;
  sc_cost : Contract -> StateDB W -> N
}.
Arguments StatefulContract W : clear implicits.
Arguments mkStateful {W}.

Inductive ChainContract (W : Type) :=
  | Native (n : NativeContract)
  | Stateful (c : StatefulContract W).
Arguments Native {W}.
Arguments Stateful {W}.

(** What the precompile reads of the EVM's contract. *)
Definition call_of (c : Contract) : Precompile.Contract :=
  Precompile.mkContract (c_Input c) (default 0 (c_value c)) (c_Gas c).

Section runs.
Context {W : Type} `{StateKeeper W, Keccak}.
Implicit Types s : StateDB W.

Definition native_Run (n : NativeContract) (c : Contract) : Outcome :=
  match nc_run n (c_Input c) with
  | inl out => mkOutcome out (c_Gas c) None
  | inr e => mkOutcome EmptyString (c_Gas c) (Some e)
  end.

(** [Run] returns its error with the gas that is left. *)
Definition stateful_Run (p : StatefulContract W) (bc : BlockContext) (tc : TxContext) (c : Contract)
    (readOnly : bool) : M (StateDB W) Outcome := fun s =>
  let gas := c_Gas (snd (UseGas (Z.of_N (sc_cost p c s)) c)) in
  match Run (sc_address p) (sc_abi p) (call_of c) readOnly (sc_isTransaction p) (sc_initialGas p s)
          (sc_methods p bc tc c) s with
  | (Ok _, s') => (Ok (mkOutcome (sc_output p c s) gas None), s')
  | (Err e, s') => (Ok (mkOutcome EmptyString gas (Some e)), s')
  | (Panic, s') => (Panic, s')
  end.

#[export] Instance chain_contracts : PrecompiledContracts W (ChainContract W) := {
  p_Address p := match p with Native n => nc_address n | Stateful c => sc_address c end;
  p_RequiredGas p input := match p with Native n => Z.of_N (nc_gas n input) | Stateful c => Z.of_N (sc_gas c input) end;
  p_Run p bc tc c ro := match p with Native n => mret (native_Run n c) | Stateful x => stateful_Run x bc tc c ro end
}.

(** ** A call leaves refunds, access list and storage alone *)

Lemma still_fields s s' : stateObjects s' = stateObjects s -> ctx s' = ctx s -> access s' = access s ->
  refund s' = refund s -> still s s'.
Proof.
  intros Eo Ec Ea Er. split; [done|done|by apply lookup_fields|]. intros a. by rewrite (lookup_same s s').
Qed.

Lemma writer_to_still f s : writer f -> db_ok s -> access (f s) = access s -> still s (f s).
Proof. intros Hf Hok Ea. destruct (Hf s Hok) as [Hw Hr Hc]. split; [done|done|done|apply Hw]. Qed.

Lemma getOrNew_access a s : access (snd (getOrNewStateObject a s)) = access s.
Proof.
  unfold getOrNewStateObject, createObject. assert (G : forall t : StateDB W, access (snd (getStateObject a t)) = access t).
  { intros t. unfold getStateObject. destruct (stateObjects t !! a); [done|]. by destruct (keeper_GetAccount a (ctx t)). }
  pose proof (G s) as E. destruct (getStateObject a s) as [[o|] s1]; [done|]. simpl in *.
  pose proof (G s1) as E1. destruct (getStateObject a s1) as [[o|] s2]; simpl in *; congruence.
Qed.

Lemma balance_change_still s x : db_ok s -> still s (add_balance_change s x).
Proof.
  intros Hok. unfold add_balance_change. destruct (bce_Op x).
  - apply (writer_to_still (SubBalance _ _)); [apply SubBalance_writer|done|]. unfold SubBalance, object_SubBalance.
    pose proof (getOrNew_access (bce_Account x) s) as E. destruct (getOrNewStateObject _ s). by destruct (_ =? 0).
  - apply (writer_to_still (AddBalance _ _)); [apply AddBalance_writer|done|]. unfold AddBalance, object_AddBalance.
    pose proof (getOrNew_access (bce_Account x) s) as E. destruct (getOrNewStateObject _ s). by destruct (_ =? 0).
Qed.

Lemma changes_still l s : db_ok s -> still s (foldl add_balance_change s l) /\ db_ok (foldl add_balance_change s l).
Proof.
  revert s. induction l as [|x l IH]; intros s Hok; simpl; [by split|].
  pose proof (balance_change_still s x Hok) as S1.
  assert (Hok1 : db_ok (add_balance_change s x)).
  { eapply ext_ok; [done|]. apply balance_change_ext, Hok. }
  destruct (IH _ Hok1) as [S2 Hok2]. split; [by etransitivity|done].
Qed.

Lemma logs_fields (l : list Log) s :
  let s' := foldl (fun s l => AddLog l s) s l in
  stateObjects s' = stateObjects s /\ ctx s' = ctx s /\ access s' = access s /\ refund s' = refund s.
Proof.
  revert s. induction l as [|x l IH]; intros s; simpl; [done|].
  destruct (IH (AddLog x s)) as (-> & -> & -> & ->). done.
Qed.

Lemma logs_ok (l : list Log) s : db_ok s -> db_ok (foldl (fun s l => AddLog l s) s l).
Proof.
  intros Hok. eapply ext_ok; [done|]. apply foldl_ext; [intros; by apply AddLog_ext|apply Hok].
Qed.

Lemma entries_still addr l snapshot s w r s' : db_ok s ->
  AddJournalEntries addr l snapshot (with_cache (Some w) s) = (r, s') -> still s s'.
Proof.
  intros Hok. unfold AddJournalEntries, AddPrecompileFn.
  rewrite (proj1 (oblivious_foldl add_balance_change l balance_oblivious s)), getOrNew_cache.
  destruct (changes_still l s Hok) as [S1 Hok1]. set (u := foldl add_balance_change s l) in *.
  destruct (getOrNewStateObject addr u) as [o v] eqn:E. destruct (still_getOrNew addr u o v Hok1 E) as [S2 _]. simpl.
  intros Er. etransitivity; [exact S1|]. etransitivity; [exact S2|].
  destruct (MaxPrecompileCalls <? _); injection Er as <- <-; by apply still_fields.
Qed.

Lemma Run_still addr p c ro isTx gas methods s r s' : db_ok s ->
  Run addr p c ro isTx gas methods s = (r, s') -> r <> Panic -> still s s'.
Proof.
  intros Hok. unfold Run, mbind, M_bind. rewrite RunSetup_eq.
  destruct (commitWithCtx s (cache_view s)) as [[[]|e|] w1]; [|intros [= <- <-] _; by apply still_fields|by intros [= <- <-]].
  destruct (select_method p c ro isTx) as [m|e|]; [|intros [= <- <-] _; by apply still_fields|by intros [= <- <-]].
  destruct (Gas c <? gas); [intros [= <- <-] _; by apply still_fields|].
  unfold RunAtomic, precompile_body, run_method, mbind, M_bind. simpl.
  destruct (methods m w1) as [[ef|e|] w2]; [|intros [= <- <-] _; by apply still_fields|by intros [= <- <-]]. simpl.
  change (with_cache (Some w2) (with_cache (Some w1) s)) with (with_cache (Some w2) s).
  rewrite (proj1 (oblivious_foldl (fun s l => AddLog l s) (ef_logs ef) AddLog_oblivious s)).
  destruct (logs_fields (ef_logs ef) s) as (Eo & Ec & Ea & Er). pose proof (logs_ok (ef_logs ef) s Hok) as Hok1.
  set (u := foldl _ s (ef_logs ef)) in *. assert (Su : still s u) by (by apply still_fields).
  destruct (ef_gas_ok ef).
  - destruct (AddJournalEntries _ _ _ _) as [r1 s1] eqn:Ej. pose proof (entries_still _ _ _ _ _ _ _ Hok1 Ej) as Sj.
    intros E Hr. etransitivity; [exact Su|]. destruct r1; injection E as <- <-; [done| |done].
    etransitivity; [exact Sj|by apply still_fields].
  - intros [= <- <-] _. etransitivity; [exact Su|by apply still_fields].
Qed.

Lemma Run_within addr p c ro isTx gas methods s r s' : db_ok s ->
  Run addr p c ro isTx gas methods s = (r, s') -> r <> Panic -> calm s s'.
Proof.
  intros Hok E Hr. pose proof (Run_still _ _ _ _ _ _ _ _ _ _ Hok E Hr) as S. apply still_calm; [done|].
  apply within_ext; [by eapply (step_Run addr p c ro isTx gas methods)| |intros a; by rewrite (st_access _ _ S)|apply S].
  eapply Run_ext; [apply Hok| |exact E|done]. by intros [].
Qed.

(** The chain's precompiles are what the EVM expects. *)
#[export] Instance chain_contract_laws : PrecompileLaws W (ChainContract W).
Proof.
  split.
  - intros [n|c] input; simpl; lia.
  - intros [n|p] bc tc c ro s Hok Hg; simpl.
    + split; [reflexivity|]. unfold native_Run. destruct (nc_run n (c_Input c)); simpl; (split; [lia|]); [|done]. reflexivity.
    + unfold stateful_Run. set (gas := c_Gas _).
      assert (Hgas : 0 <= gas <= c_Gas c).
      { subst gas. unfold UseGas. destruct (Z.ltb_spec (c_Gas c) (Z.of_N (sc_cost p c s))); simpl; lia. }
      destruct (Run _ _ _ _ _ _ _ s) as [[[]|e|] s'] eqn:E; simpl; [| |done];
        pose proof (Run_within _ _ _ _ _ _ _ _ _ _ Hok E ltac:(done)) as C; (split; [apply C|]); (split; [lia|done]).
Qed.
End runs.
