(* ===== verification/EvmRun.v ===== *)
(** * The interpreter's loop

    [op_ok] is what an operation of the jump table promises: it does not panic, it acts on the
    StateDB as a call does, it never leaves more gas than it found, and an operation
    that does not stop the loop has used some.  With such a table, [Run] returns
    ([wp_Run]), and so does every nest of calls ([Interp_ok]): one
    round for each unit of gas is enough, and 1025 nested runs are. *)

From S2P Require Import Prelude.
From S2P Require Import AccessList.
From S2P Require Import StateDB.
From S2P Require Import Precompile.
From S2P Require Import StateRevert.
From S2P Require Import EvmMachine.
From S2P Require Import Evm.
From S2P Require Import EvmGas.
From S2P Require Import EvmTable.
From S2P Require Import EvmDb.
From S2P Require Import EvmTheory.

Local Open Scope Z_scope.

(** The fee of a memory of [w] words. *)
Definition memory_fee (w : Z) : Z := 3 * w + w * w / 512.

(** A memory is a number of words, within the bound that is paid for, and remembers their fee. *)
Record mem_ok (mem : Memory) : Prop := {
  mo_words : exists w, 0 <= w <= 4294967295 /\ slen (store mem) = 32 * w /\ lastGasCost mem = memory_fee w
}.

Section runs.
Context {W P : Type} `{StateKeeper W, Keccak, EthAddresses, PrecompiledContracts W P}
  `{!PrecompileLaws W P}.
Context (mt : Metering).
Implicit Types m : Machine W P.
Implicit Types e : EVM W P.

Abbreviation gas_left m := (c_Gas (m_contract m)).
Abbreviation db m := (evm_StateDB (m_evm m)).



(** The machine between two rounds. *)
Record machine_ok (n : nat) (B : Z) (m : Machine W P) : Prop := {
  mk_pre : call_pre mt n B (gas_left m) (m_evm m);
  mk_contract : contract_ok (m_contract m);
  mk_runs : may_run mt (self (m_contract m)) (db m);
  mk_stack : Forall word (m_stack m);
  mk_limit : Z.of_nat (length (m_stack m)) <= StackLimit;
  mk_mem : mem_ok (m_mem m)
}.

(** The error of a round; the loop goes on without one. *)
Definition err_of (r : string * option err + err) : option err :=
  match r with inl (_, x) => x | inr x => Some x end.

(** What a round ensures from the machine [m]: a round that goes on uses gas, and one
    that stops without an error keeps the counter. *)
Definition round_post (n : nat) (B : Z) (m : Machine W P) (r : option err) (m' : Machine W P) : Prop :=
  evolves (m_evm m) (m_evm m') /\ 0 <= gas_left m' <= gas_left m /\
  match r with
  | None => gas_left m' < gas_left m /\ machine_ok n B m'
  | Some x => x = errStopToken -> bound mt (B + SelfdestructRefundGas) (gas_left m') (db m')
  end.

(** What the operation of an opcode promises, once its constant gas is paid. *)
Definition op_ok (opcode : Z) (op : operation W P) : Prop :=
  0 <= constantGas op /\
  forall n B calls m, calls_ok mt n calls -> machine_ok n B m -> GetOp (m_contract m) (m_pc m) = opcode ->
    minStack op <= Z.of_nat (length (m_stack m)) <= maxStack op -> constantGas op <= gas_left m ->
    wp (attempt (charge_dynamic op;; execute op calls)) (fun r m' => round_post n B m (err_of r) m')
      (with_contract (set_gas (gas_left m - constantGas op) (m_contract m)) m).

Definition table_ok (table : Z -> operation W P) : Prop :=
  forall opcode, 0 <= opcode < 256 -> op_ok opcode (table opcode).

Context (env : EvmEnv W P) (Htable : table_ok (env_JumpTable env)).

Lemma round_stop n B m x : 0 <= gas_left m -> x <> errStopToken -> round_post n B m (Some x) m.
Proof. intros Hg Hx. split_and!; [reflexivity|lia|lia|done]. Qed.

Lemma GetOp_range c n : 0 <= GetOp c n < 256.
Proof.
  unfold GetOp, byte_at, STOP. destruct (n <? slen (c_Code c)); [|lia].
  destruct (String.get (Z.to_nat n) (c_Code c)) as [x|]; simpl; [|lia]. unfold byte_val, id.
  pose proof (Ascii.N_ascii_bounded x). lia.
Qed.

Lemma wp_exec_op n B calls m : calls_ok mt n calls -> machine_ok n B m ->
  wp (attempt (exec_op env calls)) (fun r m' => round_post n B m (err_of r) m') m.
Proof.
  intros Hc Hm. pose proof (co_gas _ (mk_contract _ _ _ Hm)) as [Hg _].
  destruct (Htable (GetOp (m_contract m) (m_pc m)) (GetOp_range _ _)) as [Hcg Hop].
  unfold wp, exec_op, mgets, use_gas, UseGas, attempt, mbind, M_bind. simpl.
  set (op := env_JumpTable env (GetOp (m_contract m) (m_pc m))) in *.
  destruct (Z.ltb_spec (Z.of_nat (length (m_stack m))) (minStack op)) as [Hl|Hl].
  { by apply round_stop. }
  destruct (Z.ltb_spec (maxStack op) (Z.of_nat (length (m_stack m)))) as [Hu|Hu].
  { by apply round_stop. }
  destruct (Z.ltb_spec (gas_left m) (constantGas op)) as [Hl2|Hl2].
  { destruct m. by apply round_stop. }
  apply (Hop n B calls m Hc Hm eq_refl (conj Hl Hu) Hl2).
Qed.

Definition loop_err (r : option (string * err)) : option err := snd <$> r.

Lemma wp_loop_step n B calls m : calls_ok mt n calls -> machine_ok n B m ->
  wp (loop_step env calls) (fun r m' => round_post n B m (loop_err r) m') m.
Proof.
  intros Hc Hm. unfold loop_step. apply wp_bind. eapply wp_mono; [|by apply wp_exec_op].
  intros [[r [x|]]|x] m' [Hev [Hg Hk]]; try (apply wp_ret; by split).
  simpl in Hk. destruct Hk as [Hlt Hm']. apply wp_bind, wp_modify, wp_ret. split; [done|]. split; [done|].
  split; [done|]. destruct Hm'. by split.
Qed.

(** [k] rounds that do not stop use [k] gas. *)
Definition rounds_post (n : nat) (B k : Z) (m : Machine W P) (r : option (string * err)) (m' : Machine W P) : Prop :=
  round_post n B m (loop_err r) m' /\ (r = None -> gas_left m' + k <= gas_left m).

Lemma wp_rounds n B (x y : M (Machine W P) (option (string * err))) a b m :
  (forall m, machine_ok n B m -> wp x (rounds_post n B a m) m) ->
  (forall m, machine_ok n B m -> wp y (rounds_post n B b m) m) ->
  machine_ok n B m ->
  wp (r ← x; match r with Some _ => mret r | None => y end) (rounds_post n B (a + b) m) m.
Proof.
  intros Hx Hy Hm. apply wp_bind. eapply wp_mono; [|by apply Hx]. intros r m1 [(Hev & Hg & Hk) Ha].
  destruct r as [r|]; [apply wp_ret; by split|]. destruct Hk as [Hl Hm1]. specialize (Ha eq_refl).
  eapply wp_mono; [|by apply Hy]. intros r m2 [(Hev2 & Hg2 & Hk2) Hb]. split.
  - split; [by etransitivity|]. split; [lia|]. destruct r; simpl in *; [done|]. split; [lia|apply Hk2].
  - intros ->. specialize (Hb eq_refl). lia.
Qed.

Lemma wp_loop n B calls p m : calls_ok mt n calls -> machine_ok n B m ->
  wp (loop env calls p) (rounds_post n B (Zpos p) m) m.
Proof.
  intros Hc. revert m.
  assert (Hone : forall m, machine_ok n B m -> wp (loop_step env calls) (rounds_post n B 1 m) m).
  { intros m Hm. eapply wp_mono; [|by apply (wp_loop_step n B calls)]. intros r m' Hp. split; [done|].
    intros ->. destruct Hp as (_ & _ & Hlt & _). lia. }
  induction p as [q IH|q IH|]; intros m Hm; cbn [loop].
  - rewrite (Pos2Z.inj_xI q). replace (2 * Z.pos q + 1) with (1 + (Z.pos q + Z.pos q)) by lia.
    apply (wp_rounds n B _ (r ← loop env calls q; match r with Some _ => mret r | None => loop env calls q end) 1);
      [done| |done]. intros m' Hm'. by apply wp_rounds.
  - rewrite (Pos2Z.inj_xO q). replace (2 * Z.pos q) with (Z.pos q + Z.pos q) by lia. by apply wp_rounds.
  - by apply Hone.
Qed.

Lemma NewMemory_ok : mem_ok NewMemory.
Proof. split. by exists 0. Qed.

(** The machine that a run starts with. *)
Lemma entry_ok n B c input e e1 :
  call_pre mt (S n) B (c_Gas c) e -> contract_ok c -> may_run mt (self c) (evm_StateDB e) ->
  evm_StateDB e1 = evm_StateDB e -> depth e1 = depth e + 1 ->
  machine_ok n B (mkMachine e1 0 NewMemory [] (set_input input c)).
Proof.
  intros [K D G Bo F] Hco Hmay E1 D1. split; simpl.
  - split; [unfold evm_ok; by rewrite E1|rewrite D1; lia|done|by rewrite E1|done].
  - destruct Hco. by split.
  - by rewrite E1.
  - constructor.
  - unfold StackLimit. lia.
  - apply NewMemory_ok.
Qed.

(** A run of the interpreter returns, and leaves the depth and the mode as they were. *)
Lemma wp_Run n B calls c input ro e :
  calls_ok mt n calls -> call_pre mt (S n) B (c_Gas c) e -> contract_ok c -> may_run mt (self c) (evm_StateDB e) ->
  wp (Run env calls c input ro) (run_post mt B (c_Gas c) e) e.
Proof.
  intros Hc Hp Hco Hmay. pose proof (co_gas _ Hco) as [Hg _]. unfold wp, Run.
  set (enter := ro && negb (in_readOnly e)).
  set (e1 := with_returnData _ _).
  assert (Hro : enter = true -> in_readOnly e = false).
  { subst enter. by destruct (in_readOnly e), ro. }
  assert (E1 : evm_StateDB e1 = evm_StateDB e /\ depth e1 = depth e + 1) by (subst e1; by destruct enter).
  destruct E1 as [E1 D1].
  set (leave := fun e2 : EVM W P =>
    let e3 := with_depth (depth e2 - 1) e2 in if enter then with_readOnly false e3 else e3).
  assert (Hleave : forall e2, evolves e1 e2 -> evolves e (leave e2) /\ evm_StateDB (leave e2) = evm_StateDB e2).
  { intros e2 [W2 D2 R2]. subst e1 leave. destruct enter; simpl in *; (split; [|done]); split; simpl; try done; try lia.
    symmetry. by apply Hro. }
  clearbody e1. destruct (slen (c_Code c) =? 0).
  { destruct (Hleave e1) as [Hev Hs]; [reflexivity|].
    split; [exact Hev|]. split; [simpl; lia|]. intros _. simpl.
    change (bound mt (B + SelfdestructRefundGas) (c_Gas c) (evm_StateDB (leave e1))). rewrite Hs, E1.
    apply (bound_less mt B (c_Gas c)); [apply Hp|lia|unfold SelfdestructRefundGas; lia]. }
  destruct (wp_inv _ _ _ (wp_loop n B calls (Z.to_pos (c_Gas c + 1))
      (mkMachine e1 0 NewMemory [] (set_input input c)) Hc
      (entry_ok n B c input e e1 Hp Hco Hmay E1 D1)))
    as [(r & m' & -> & (Hev & Hgm & Hk) & Hfuel)|(m' & -> & Hx)].
  2:{ revert Hx. unfold excused, evm_excuse, machine_excuse. by destruct enter. }
  simpl in Hev, Hgm. destruct (Hleave (m_evm m') Hev) as [Hev' Hs]. destruct r as [[r x]|].
  - split; [exact Hev'|]. split; [done|]. simpl.
    intros Hn. change (bound mt (B + SelfdestructRefundGas) (gas_left m') (evm_StateDB (leave (m_evm m')))).
    rewrite Hs. simpl in Hk. apply Hk. revert Hn. by case_bool_decide.
  - specialize (Hfuel eq_refl). simpl in Hfuel. rewrite Z2Pos.id in Hfuel by lia. lia.
Qed.

Context (Hberlin : lists_accounts mt = true -> IsBerlin (chainRules env) = true)
  (Hhome : IsHomestead (chainRules env) = true) (Hhooks : hooks_ok (hooks env)).

Lemma Interp_ok n : run_ok mt n (Interp env n).
Proof.
  induction n as [|n IH]; intros c input ro e B Hp Hd Hco Hm.
  - pose proof (pre_depth _ _ _ _ _ Hp). simpl in *. lia.
  - simpl. apply (wp_Run n); try done. by apply frames_ok.
Qed.

Lemma evm_calls_ok : calls_ok mt 1025 (evm_calls env).
Proof. apply frames_ok; [done|apply Interp_ok|done|done]. Qed.
End runs.
