(* ===== verification/EvmOps.v ===== *)
(** * What the instructions ensure

    The rules for a run of the interpreter's monad, and [op_ok] for the instructions
    that work on the stack and the environment. *)

From S2P Require Import Prelude.
From S2P Require Import AccessList.
From S2P Require Import StateDB.
From S2P Require Import Precompile.
From S2P Require Import StateRevert.
From S2P Require Import EvmMachine.
From S2P Require Import EvmCode.
From S2P Require Import Evm.
From S2P Require Import EvmInstructions.
From S2P Require Import EvmGas.
From S2P Require Import EvmTable.
From S2P Require Import EvmDb.
From S2P Require Import EvmTheory.
From S2P Require Import EvmRun.

Local Open Scope Z_scope.

(** ** Runs that may fail, but do not panic *)

Definition wpe {S A} `{Excuse S} (p : M S A) (Q : A + err -> S -> Prop) (s : S) : Prop :=
  match p s with
  | (Ok a, s') => Q (inl a) s'
  | (Err x, s') => Q (inr x) s'
  | (Panic, s') => excused s'
  end.

Section wpe.
Context {S A B : Type} `{Excuse S}.

Lemma wpe_attempt (p : M S A) (Q : A + err -> S -> Prop) s : wpe p Q s -> wp (attempt p) Q s.
Proof. apply wp_attempt. Qed.

Lemma wpe_attempt_inv (p : M S A) (Q : A + err -> S -> Prop) s : wpe p Q s -> wpe (attempt p) (fun r => match r with inl r => Q r | inr _ => fun _ => False end) s.
Proof. unfold wpe, attempt. by destruct (p s) as [[a|x|] s']. Qed.

Lemma wpe_bind (p : M S A) (f : A -> M S B) (Q : B + err -> S -> Prop) s :
  wpe p (fun r s' => match r with inl a => wpe (f a) Q s' | inr x => Q (inr x) s' end) s -> wpe (p ≫= f) Q s.
Proof. unfold wpe, mbind, M_bind. by destruct (p s) as [[a|x|] s']. Qed.

Lemma wpe_mono (p : M S A) (Q Q' : A + err -> S -> Prop) s :
  (forall r s', Q r s' -> Q' r s') -> wpe p Q s -> wpe p Q' s.
Proof. intros HQ. unfold wpe. destruct (p s) as [[a|x|] s']; [apply HQ|apply HQ|done]. Qed.

Lemma wpe_lift (r : res A) a (Q : A + err -> S -> Prop) s : r = Ok a -> Q (inl a) s -> wpe (mlift r) Q s.
Proof. by intros ->. Qed.

Lemma wpe_wp (p : M S A) (Q : A -> S -> Prop) (Q' : A + err -> S -> Prop) s :
  wp p Q s -> (forall a s', Q a s' -> Q' (inl a) s') -> wpe p Q' s.
Proof. unfold wp, wpe. intros Hp Hm. destruct (p s) as [[a|x|] s']; [auto|done|done]. Qed.
End wpe.

(** ** Words *)

Lemma to_word_word z : word (to_word z).
Proof. apply Z.mod_pos_bound. lia. Qed.
Lemma of_bool_word b : word (of_bool b).
Proof. unfold word. destruct b; simpl; lia. Qed.
Lemma SetBytes_word s : word (SetBytes s).
Proof. apply to_word_word. Qed.
Lemma u64_word x : word (wrap_u64 x).
Proof. pose proof (wrap_u64_range x). unfold word. lia. Qed.
Lemma zero_word : word 0.
Proof. unfold word. lia. Qed.

Lemma word_bits x : word x <-> 0 <= x /\ forall k, 256 <= k -> Z.testbit x k = false.
Proof.
  unfold word. split.
  - intros [H0 H1]. split; [done|]. intros k Hk. destruct (Z.eq_dec x 0) as [->|Hx]; [apply Z.bits_0|].
    apply Z.bits_above_log2; [done|]. apply Z.log2_lt_pow2; [lia|]. apply (Z.lt_le_trans _ _ _ H1).
    apply Z.pow_le_mono_r; lia.
  - intros [H0 Hb]. split; [done|]. destruct (Z.eq_dec x 0) as [->|Hx]; [lia|].
    apply Z.log2_lt_pow2; [lia|]. destruct (Z.lt_ge_cases (Z.log2 x) 256); [done|].
    specialize (Hb (Z.log2 x) ltac:(lia)). rewrite Z.bit_log2 in Hb by lia. done.
Qed.

Lemma land_word x y : word x -> word y -> word (Z.land x y).
Proof.
  rewrite !word_bits. intros [Hx Bx] [Hy By]. split; [apply Z.land_nonneg; auto|].
  intros k Hk. by rewrite Z.land_spec, Bx.
Qed.
Lemma lor_word x y : word x -> word y -> word (Z.lor x y).
Proof.
  rewrite !word_bits. intros [Hx Bx] [Hy By]. split; [by apply Z.lor_nonneg|].
  intros k Hk. by rewrite Z.lor_spec, Bx, By.
Qed.
Lemma lxor_word x y : word x -> word y -> word (Z.lxor x y).
Proof.
  rewrite !word_bits. intros [Hx Bx] [Hy By]. split; [by apply Z.lxor_nonneg|].
  intros k Hk. by rewrite Z.lxor_spec, Bx, By.
Qed.

Lemma Div_word x y : word x -> word y -> word (u256_Div x y).
Proof.
  unfold word, u256_Div. intros Hx Hy. destruct (Z.eqb_spec y 0); [lia|]. split; [apply Z.div_pos; lia|].
  apply (Z.le_lt_trans _ x); [|lia]. apply Z.div_le_upper_bound; [lia|]. nia.
Qed.
Lemma mod_word x y : word y -> word (if y =? 0 then 0 else x mod y).
Proof.
  unfold word. intros Hy. destruct (Z.eqb_spec y 0); [lia|]. pose proof (Z.mod_pos_bound x y). lia.
Qed.
Lemma Mod_word x y : word y -> word (u256_Mod x y).
Proof. apply mod_word. Qed.
Lemma SDiv_word x y : word (u256_SDiv x y).
Proof. unfold u256_SDiv. destruct (y =? 0); [apply zero_word|apply to_word_word]. Qed.
Lemma SMod_word x y : word (u256_SMod x y).
Proof. unfold u256_SMod. destruct (y =? 0); [apply zero_word|apply to_word_word]. Qed.
Lemma pow_word_word b p : word (pow_word b p).
Proof. destruct p; apply to_word_word. Qed.
Lemma Exp_word b e : word (u256_Exp b e).
Proof. destruct e; [|apply pow_word_word|]; unfold word; simpl; lia. Qed.

(** Exponentiation is the power, modulo 2^256. *)
Lemma pow_word_pow b p : pow_word b p = to_word (b ^ Zpos p).
Proof.
  unfold to_word. induction p as [q IH|q IH|]; cbn [pow_word]; unfold to_word; [| |by rewrite Z.pow_1_r].
  - rewrite IH, (Pos2Z.inj_xI q), Z.pow_add_r, Z.pow_1_r, Z.pow_twice_r by lia.
    rewrite <- Z.mul_mod_idemp_l by lia. rewrite <- Z.mul_mod by lia. by rewrite Z.mul_mod_idemp_l by lia.
  - rewrite IH, (Pos2Z.inj_xO q), Z.pow_twice_r by lia. by rewrite <- Z.mul_mod by lia.
Qed.

Lemma ExtendSign_word n x : word n -> word x -> word (u256_ExtendSign n x).
Proof.
  intros Hn Hx. unfold u256_ExtendSign. destruct (Z.ltb_spec 31 n); [done|]. destruct Hn as [Hn _].
  assert (Hp : 1 <= 2 ^ (n * 8 + 7) <= 2 ^ 255).
  { split; [change 1 with (2 ^ 0)|]; apply Z.pow_le_mono_r; lia. }
  destruct (Z.testbit x _); [apply lor_word|apply land_word]; try done; unfold word; lia.
Qed.
Lemma shiftr_word x k : word x -> 0 <= k -> word (Z.shiftr x k).
Proof.
  intros [Hx Hu] Hk. unfold word. rewrite Z.shiftr_div_pow2 by done.
  assert (0 < 2 ^ k) by (apply Z.pow_pos_nonneg; lia). split; [apply Z.div_pos; lia|].
  apply (Z.le_lt_trans _ x); [|done]. apply Z.div_le_upper_bound; [lia|]. nia.
Qed.
Lemma Byte_word n x : word n -> word x -> word (u256_Byte n x).
Proof.
  intros [Hn _] Hx. unfold u256_Byte. destruct (Z.ltb_spec n 32); [|apply zero_word].
  apply land_word; [apply shiftr_word; [done|lia]|unfold word; lia].
Qed.
Lemma SAR_word shift value :
  word (if 256 <? shift then (if 0 <=? to_signed value then 0 else 2 ^ 256 - 1)
        else to_word (Z.shiftr (to_signed value) shift)).
Proof.
  destruct (256 <? shift); [|apply to_word_word]. destruct (0 <=? to_signed value); unfold word; lia.
Qed.
Lemma SHL_word shift value : word (if shift <? 256 then to_word (Z.shiftl value shift) else 0).
Proof. destruct (shift <? 256); [apply to_word_word|apply zero_word]. Qed.
Lemma SHR_word shift value : word shift -> word value -> word (if shift <? 256 then Z.shiftr value shift else 0).
Proof. intros [? _] ?. destruct (shift <? 256); [by apply shiftr_word|apply zero_word]. Qed.
Lemma Not_word x : word x -> word (2 ^ 256 - 1 - x).
Proof. unfold word. lia. Qed.
Create HintDb words.
#[export] Hint Resolve to_word_word of_bool_word SetBytes_word u64_word zero_word land_word lor_word lxor_word
  Div_word mod_word Mod_word SDiv_word SMod_word Exp_word ExtendSign_word Byte_word SAR_word SHL_word SHR_word
  Not_word : words.

Section ops.
Context {W P : Type} `{StateKeeper W, Keccak, EthAddresses, PrecompiledContracts W P}.
Context (mt : Metering).
Implicit Types e : EVM W P.
Implicit Types m : Machine W P.

Abbreviation gas_left m := (c_Gas (m_contract m)).
Abbreviation db m := (evm_StateDB (m_evm m)).
Abbreviation executionFunc := (EvmCalls W P -> M (Machine W P) (string * option err)).

(** ** Steps of an instruction *)

Lemma wpe_read {A} (f : StateDB W -> A * StateDB W) (Q : A + err -> Machine W P -> Prop) e pc mem st c :
  reader f -> evm_ok e ->
  (forall a s, f (evm_StateDB e) = (a, s) -> same_state (evm_StateDB e) s -> calm (evm_StateDB e) s -> db_ok s ->
     Q (inl a) (mkMachine (with_db s e) pc mem st c)) ->
  wpe (in_db f) Q (mkMachine e pc mem st c).
Proof.
  intros Hf Hok HQ. destruct (Hf _ Hok) as [Hs Hw]. unfold wpe, in_db, evm_do, on_db. simpl.
  destruct (f (evm_StateDB e)) as [a s] eqn:E. simpl in *. apply HQ; try done; [|by eapply within_ok].
  by apply still_calm; [apply same_state_still|].
Qed.

Lemma wpe_write (f : StateDB W -> StateDB W) (Q : unit + err -> Machine W P -> Prop) e pc mem st c :
  writer f -> evm_ok e ->
  (forall s, s = f (evm_StateDB e) -> calm (evm_StateDB e) s -> db_ok s ->
     Q (inl tt) (mkMachine (with_db s e) pc mem st c)) ->
  wpe (evm_do (db_modify f)) Q (mkMachine e pc mem st c).
Proof.
  intros Hf Hok HQ. pose proof (Hf _ Hok) as Hc. unfold wpe. simpl. apply HQ; [done|done|].
  eapply within_ok; [apply Hc|done].
Qed.

Lemma wpe_memory_read f s (Q : string + err -> Machine W P -> Prop) m :
  f (m_mem m) = Ok s -> Q (inl s) m -> wpe (memory_read f) Q m.
Proof. intros E HQ. unfold wpe, memory_read. by rewrite E. Qed.

Lemma wpe_memory_write f mem' (Q : unit + err -> Machine W P -> Prop) m :
  f (m_mem m) = Ok mem' -> Q (inl tt) (with_mem mem' m) -> wpe (memory_write f) Q m.
Proof. intros E HQ. unfold wpe, memory_write. by rewrite E. Qed.

(** ** The machine after an instruction *)

(** An instruction that has been paid, from the machine [m]. *)
Definition exec_post (n : nat) (B : Z) (m : Machine W P) (r : option err) (m' : Machine W P) : Prop :=
  evolves (m_evm m) (m_evm m') /\ 0 <= gas_left m' <= gas_left m /\
  match r with
  | None => machine_ok mt n B m'
  | Some x => x = errStopToken -> bound mt (B + SelfdestructRefundGas) (gas_left m') (db m')
  end.

Definition exec_ok (n : nat) (B : Z) (p : M (Machine W P) (string * option err)) (m : Machine W P) : Prop :=
  wpe p (fun r m' => exec_post n B m (err_of r) m') m.

Lemma machine_update n B e pc mem st c e' pc' mem' st' : machine_ok mt n B (mkMachine e pc mem st c) ->
  calm (evm_StateDB e) (evm_StateDB e') -> depth e' = depth e ->
  Forall word st' -> Z.of_nat (length st') <= StackLimit -> mem_ok mem' ->
  machine_ok mt n B (mkMachine e' pc' mem' st' c).
Proof.
  intros [Hp Hc Hr _ _ _] Ca Hd Hst Hl Hm. split; simpl in *; try done.
  - by apply (pre_calm mt n B (c_Gas c) e).
  - eapply may_run_within; [apply Ca|done].
Qed.

Lemma exec_go n B e pc mem st c e' pc' mem' st' : machine_ok mt n B (mkMachine e pc mem st c) ->
  calm (evm_StateDB e) (evm_StateDB e') -> depth e' = depth e -> in_readOnly e' = in_readOnly e ->
  Forall word st' -> Z.of_nat (length st') <= StackLimit -> mem_ok mem' ->
  exec_post n B (mkMachine e pc mem st c) None (mkMachine e' pc' mem' st' c).
Proof.
  intros Hm Ca Hd Hro Hst Hl Hmem. split_and!; simpl.
  - split; [apply Ca|done|done].
  - apply (co_gas _ (mk_contract _ _ _ _ Hm)).
  - lia.
  - by eapply machine_update.
Qed.

Lemma exec_fail n B m x m' : machine_ok mt n B m -> evolves (m_evm m) (m_evm m') -> m_contract m' = m_contract m ->
  x <> errStopToken -> exec_post n B m (Some x) m'.
Proof.
  intros Hm Hev Hc Hx. destruct (co_gas _ (mk_contract _ _ _ _ Hm)) as [Hg _]. rewrite <- Hc in Hg.
  unfold exec_post. rewrite Hc in *. split_and!; [done|done|lia|done].
Qed.

Lemma exec_stop n B e pc mem st c e' pc' mem' st' : machine_ok mt n B (mkMachine e pc mem st c) ->
  calm (evm_StateDB e) (evm_StateDB e') -> depth e' = depth e -> in_readOnly e' = in_readOnly e ->
  exec_post n B (mkMachine e pc mem st c) (Some errStopToken) (mkMachine e' pc' mem' st' c).
Proof.
  intros Hm Ca Hd Hro. split_and!; simpl.
  - split; [apply Ca|done|done].
  - apply (co_gas _ (mk_contract _ _ _ _ Hm)).
  - lia.
  - intros _. eapply (bound_less mt B (c_Gas c)); [|lia|unfold SelfdestructRefundGas; lia].
    eapply bound_calm; [exact Ca|]. apply (mk_pre _ _ _ _ Hm).
Qed.

(** ** Paying *)

Lemma machine_paid n B m k : machine_ok mt n B m -> 0 <= k <= gas_left m ->
  machine_ok mt n B (with_contract (set_gas (gas_left m - k) (m_contract m)) m).
Proof.
  intros [Hp [Hg Hv Hi] Hr Hst Hl Hmem] Hk. unfold gas_ok in Hg. split; simpl; try done.
  - destruct Hp as [K D G Bo F]. split; try done; [unfold gas_ok; lia|]. apply (bound_less mt B (gas_left m)); [done|lia|lia].
  - split; simpl; [unfold gas_ok; lia|done|done].
Qed.

Lemma round_of_exec n B m k r m' :
  (r = None -> 0 < k) -> 0 <= k <= gas_left m ->
  exec_post n B (with_contract (set_gas (gas_left m - k) (m_contract m)) m) r m' -> round_post mt n B m r m'.
Proof.
  intros Hr Hk (Hev & Hg & Hx). simpl in Hg. split; [done|]. split; [lia|]. destruct r; [done|].
  specialize (Hr eq_refl). split; [lia|done].
Qed.

(** The instruction [f] of the opcode [k], once it is paid, with its room on the stack. *)
Definition exec_good (k pop push : Z) (f : executionFunc) : Prop :=
  forall n B calls m, calls_ok mt n calls -> machine_ok mt n B m -> GetOp (m_contract m) (m_pc m) = k ->
    pop <= Z.of_nat (length (m_stack m)) <= StackLimit + pop - push -> exec_ok n B (f calls) m.

Lemma op_fixed k f gas pop push : 0 < gas -> exec_good k pop push f -> op_ok mt k (fixed f gas pop push).
Proof.
  intros Hgas Hf. split; [simpl; lia|]. intros n B calls m Hc Hm Hop Hst Hg. simpl in Hst, Hg.
  apply wpe_attempt. simpl. change (charge_dynamic (fixed f gas pop push)) with (mret (M:=M (Machine W P)) tt).
  eapply wpe_mono; [|exact (Hf n B calls _ Hc (machine_paid n B m gas Hm ltac:(lia)) Hop Hst)].
  intros r m' Hx. apply (round_of_exec n B m gas); [lia|lia|exact Hx].
Qed.
(** [op] is good for the opcode [k]. *)
Abbreviation good_op k op := (op_ok (W:=W) (P:=P) mt k op).

(** ** The stack *)

Local Ltac op_start :=
  intros n B calls [e pc mem st c] Hcalls Hm Hop Hst; cbn [m_stack] in Hst;
  pose proof (mk_stack _ _ _ _ Hm) as Hw; cbn [m_stack] in Hw;
  pose proof (mk_mem _ _ _ _ Hm) as Hmem; cbn [m_mem] in Hmem;
  repeat (destruct st as [|? st]; [cbn [length] in Hst; unfold StackLimit in Hst; lia|]);
  repeat match goal with H : Forall word (_ :: _) |- _ => apply list.Forall_cons in H as [? H] end.
Local Ltac stack_done :=
  apply (exec_go _ _ _ _ _ _ _ _ _ _ _); [done|first [assumption|reflexivity]|done|done|repeat apply list.Forall_cons_2; cbn [m_stack with_stack with_pc]; auto with words
    |cbn [length m_stack with_stack with_pc] in *; unfold StackLimit in *; lia|done].

Lemma op_unary k f gas : 0 < gas -> (forall x, word x -> word (f x)) -> good_op k (fixed (unary f) gas 1 1).
Proof. intros Hg Hf. apply op_fixed; [done|]. op_start. stack_done. Qed.

Lemma exec_binary k f : (forall x y, word x -> word y -> word (f x y)) -> exec_good k 2 1 (binary f).
Proof. intros Hf. op_start. stack_done. Qed.

Lemma op_binary k f gas : 0 < gas -> (forall x y, word x -> word y -> word (f x y)) ->
  good_op k (fixed (binary f) gas 2 1).
Proof. intros Hg Hf. apply op_fixed; [done|]. by apply exec_binary. Qed.

Lemma op_ternary k f gas : 0 < gas -> (forall x y z, word x -> word y -> word z -> word (f x y z)) ->
  good_op k (fixed (ternary f) gas 3 1).
Proof. intros Hg Hf. apply op_fixed; [done|]. op_start. stack_done. Qed.

Lemma op_pushes k f gas : 0 < gas -> (forall n B m, machine_ok mt n B m -> word (f m)) ->
  good_op k (fixed (pushes f) gas 0 1).
Proof. intros Hg Hf. apply op_fixed; [done|]. op_start; stack_done; by eapply Hf. Qed.

Lemma op_pushes_big k f gas : 0 < gas -> (forall n B m, machine_ok mt n B m -> f m <> None) ->
  good_op k (fixed (pushes_big f) gas 0 1).
Proof.
  intros Hg Hf. apply op_fixed; [done|]. op_start. specialize (Hf _ _ _ Hm). unfold exec_ok, pushes_big.
  apply wpe_bind. change (wpe (mgets f) ?Q ?m) with (Q (inl (f m)) m). cbn beta iota.
  destruct (f _) as [b|]; [|done]. stack_done.
Qed.

Lemma opPop_ok k gas : 0 < gas -> good_op k (fixed opPop gas 1 0).
Proof. intros Hg. apply op_fixed; [done|]. op_start. stack_done. Qed.

Lemma opJumpdest_ok k gas : 0 < gas -> good_op k (fixed opJumpdest gas 0 0).
Proof. intros Hg. apply op_fixed; [done|]. op_start. stack_done. Qed.

Lemma op_dup k j gas : 0 < gas -> (1 <= j)%nat ->
  good_op k (mkOperation (makeDup j) gas None (minDupStack (Z.of_nat j)) (maxDupStack (Z.of_nat j)) None).
Proof.
  intros Hg Hj. apply (op_fixed k (makeDup j) gas (Z.of_nat j) (Z.of_nat j + 1)); [done|].
  intros n B calls [e pc mem st c] Hcalls Hm Hop Hst. simpl in Hst. pose proof (mk_stack _ _ _ _ Hm) as Hw. simpl in Hw.
  destruct (lookup_lt_is_Some_2 st (j - 1)) as [x Hx]; [lia|].
  unfold exec_ok, makeDup, Dup. apply wpe_bind, wpe_bind. unfold wpe at 1, Back, back. simpl. rewrite Hx.
  apply exec_go; try done.
  - constructor; [|done]. by eapply Forall_lookup_1.
  - simpl. unfold StackLimit in *. lia.
  - apply Hm.
Qed.

Lemma op_swap k j gas : 0 < gas -> (1 <= j)%nat ->
  good_op k (mkOperation (makeSwap j) gas None (minSwapStack (Z.of_nat j + 1)) (maxSwapStack (Z.of_nat j + 1)) None).
Proof.
  intros Hg Hj. apply (op_fixed k (makeSwap j) gas (Z.of_nat j + 1) (Z.of_nat j + 1)); [done|].
  intros n B calls [e pc mem st c] Hcalls Hm Hop Hst. simpl in Hst. pose proof (mk_stack _ _ _ _ Hm) as Hw. simpl in Hw.
  destruct (lookup_lt_is_Some_2 st j) as [x Hx]; [lia|]. destruct st as [|y st]; [done|].
  unfold exec_ok, makeSwap, Swap. rewrite Nat.add_sub. apply wpe_bind, wpe_bind.
  unfold wpe at 1, Back, back. cbn [m_stack]. rewrite Hx. apply wpe_bind.
  change (exec_post n B (mkMachine e pc mem (y :: st) c) None
    (mkMachine e pc mem (<[j:=y]> (<[0%nat:=x]> (y :: st))) c)).
  apply exec_go; try done.
  - apply Forall_insert; [|by apply list.Forall_cons in Hw as [? _]]. apply Forall_insert; [done|]. by eapply Forall_lookup_1.
  - rewrite !length_insert. simpl in *. unfold StackLimit in *. lia.
  - apply Hm.
Qed.

Lemma opUndefined_ok k : 0 < k -> good_op k undefined.
Proof.
  intros Hk. split; [done|]. intros n B calls m Hc Hm Hop Hst Hg. apply wpe_attempt.
  change (wpe (charge_dynamic undefined;; execute undefined calls)) with
    (wpe (S:=Machine W P) (opUndefined calls)). unfold wpe, opUndefined. simpl. revert Hop. unfold GetOp, STOP.
  destruct (m_pc m <? slen (c_Code (m_contract m))); [|lia].
  destruct (byte_at _ _) as [b|]; simpl; [|lia]. intros _. pose proof (co_gas _ (mk_contract _ _ _ _ Hm)) as [Hg0 _].
  split_and!; simpl; [reflexivity|lia|lia|done].
Qed.

Lemma opStop_ok k : good_op k (fixed opStop 0 0 0).
Proof.
  split; [done|]. intros n B calls m Hc Hm Hop Hst Hg. apply wpe_attempt.
  change (wpe (charge_dynamic (fixed opStop 0 0 0);; execute (fixed opStop 0 0 0) calls)) with
    (wpe (S:=Machine W P) (opStop calls)). destruct m as [e pc mem st c]. apply (round_of_exec n B _ 0); [done|simpl in *; lia|].
  simpl. eapply (exec_stop n B e pc mem st (set_gas (c_Gas c - 0) c) e); [|reflexivity|done|done].
  apply (machine_paid n B _ 0 Hm). simpl in *. lia.
Qed.

(** ** The environment *)

Local Ltac read a s :=
  let E := fresh "E" s in let Hs := fresh "Same" s in let C := fresh "Calm" s in let K := fresh "Ok" s in
  apply wpe_bind, wpe_read; [auto with statedb|first [done|match goal with Hm : machine_ok _ _ _ _ |- _ => apply (mk_pre _ _ _ _ Hm) end]|];
  cbn [evm_StateDB with_db]; intros a s E Hs C K.

Lemma Empty_reader a : reader (Empty (W:=W) a).
Proof. apply (reader_load (fun o => match o with None => true | Some o => empty o end)). Qed.
Lemma HasSuicided_reader a : reader (HasSuicided (W:=W) a).
Proof. apply (reader_load (fun o => match o with Some o => suicided o | None => false end)). Qed.
Lemma GetCodeSize_reader a : reader (GetCodeSize (W:=W) a).
Proof.
  intros s Hok. pose proof (GetCode_reader a s Hok) as Hr. unfold GetCode in Hr. unfold GetCodeSize.
  destruct (getStateObject a s) as [[o|] s1]; [|done]. by destruct (object_Code (ctx s1) o) as [x o1].
Qed.
Local Hint Resolve Empty_reader HasSuicided_reader GetCodeSize_reader : statedb.

Lemma exec_opBalance k : exec_good k 1 1 opBalance.
Proof. op_start. unfold exec_ok, opBalance. apply wpe_bind. cbn. read b s. stack_done. Qed.

Lemma exec_opExtCodeSize k : exec_good k 1 1 opExtCodeSize.
Proof. op_start. unfold exec_ok, opExtCodeSize. apply wpe_bind. cbn. read b s. stack_done. Qed.

Lemma exec_opExtCodeHash k : exec_good k 1 1 opExtCodeHash.
Proof.
  op_start. unfold exec_ok, opExtCodeHash. apply wpe_bind. cbn. read b s. destruct b; [stack_done|].
  read h s1. assert (C : calm (evm_StateDB e) s1) by (by etransitivity). stack_done.
Qed.

Lemma exec_opSload k : exec_good k 1 1 opSload.
Proof. op_start. unfold exec_ok, opSload. do 2 (apply wpe_bind; cbn). read b s. stack_done. Qed.

Lemma exec_opSelfBalance k : exec_good k 0 1 opSelfBalance.
Proof. op_start. unfold exec_ok, opSelfBalance. apply wpe_bind. cbn. read b s. stack_done. Qed.

Lemma exec_opBlockhash k bc : exec_good k 1 1 (opBlockhash bc).
Proof.
  op_start. unfold exec_ok, opBlockhash. apply wpe_bind. cbn. destruct (2 ^ 64 <=? _); [stack_done|].
  apply wpe_bind. destruct (_ && _); stack_done.
Qed.

Lemma opRandom_ok k bc gas : 0 < gas -> Random bc <> None -> good_op k (fixed (opRandom bc) gas 0 1).
Proof.
  intros Hg Hr. apply op_fixed; [done|]. op_start. unfold exec_ok, opRandom. destruct (Random bc); [|done]. stack_done.
Qed.

(** ** Jumps and pushes *)

Lemma exec_jump n B e pc mem st c pos st' : machine_ok mt n B (mkMachine e pc mem st c) -> word pos ->
  Forall word st' -> Z.of_nat (length st') <= StackLimit ->
  wpe (jump_to pos) (fun r m' => exec_post n B (mkMachine e pc mem st c) (err_of r) m') (mkMachine e pc mem st' c).
Proof.
  intros Hm [Hp _] Hst Hl. unfold jump_to. apply wpe_bind. cbn. apply wpe_bind. eapply wpe_lift.
  { apply validJumpdest_spec; [apply (mk_contract _ _ _ _ Hm)|done]. }
  destruct (_ && _).
  - apply exec_go; try done. apply Hm.
  - apply exec_fail; [done|reflexivity|done|done].
Qed.

Lemma opJump_ok k gas : 0 < gas -> good_op k (fixed opJump gas 1 0).
Proof.
  intros Hg. apply op_fixed; [done|]. op_start. unfold exec_ok, opJump. apply wpe_bind. cbn.
  apply exec_jump; try done. cbn [length] in Hst. unfold StackLimit in *. lia.
Qed.

Lemma opJumpi_ok k gas : 0 < gas -> good_op k (fixed opJumpi gas 2 0).
Proof.
  intros Hg. apply op_fixed; [done|]. op_start. unfold exec_ok, opJumpi. do 2 (apply wpe_bind; cbn).
  destruct (negb _); [|stack_done]. apply exec_jump; try done. cbn [length] in Hst. unfold StackLimit in *. lia.
Qed.

Lemma byte_word s i b : byte_at s i = Some b -> word b.
Proof.
  unfold byte_at. destruct (String.get _ s) as [x|]; [|done]. intros [= <-]. unfold byte_val, word.
  pose proof (Ascii.N_ascii_bounded x). lia.
Qed.

Lemma opPush1_ok k gas : 0 < gas -> good_op k (fixed opPush1 gas 0 1).
Proof.
  intros Hg. apply op_fixed; [done|]. op_start; unfold exec_ok, opPush1; do 3 (apply wpe_bind; cbn);
    apply wpe_bind; pose proof (wrap_u64_range (pc + 1)); fold (u64_add pc 1) in *;
    destruct (Z.ltb_spec (u64_add pc 1) (slen (c_Code c))); [|stack_done].
  destruct (byte_at_in (c_Code c) (u64_add pc 1)) as [b Hb]; [lia|]; rewrite Hb; apply byte_word in Hb; stack_done.
Qed.

Lemma slice_ok s lo hi : 0 <= lo <= hi -> hi <= slen s ->
  slice s lo hi = Ok (String.substring (Z.to_nat lo) (Z.to_nat (hi - lo)) s).
Proof. intros Hl Hh. unfold slice. by replace ((0 <=? lo) && (lo <=? hi) && (hi <=? slen s)) with true by lia. Qed.

Lemma op_push k j gas : 0 < gas -> 0 <= j -> good_op k (fixed (makePush j j) gas 0 1).
Proof.
  intros Hg Hj. apply op_fixed; [done|].
  op_start; unfold exec_ok, makePush; do 2 (apply wpe_bind; cbn); pose proof (wrap_u64_range (pc + 1));
    fold (u64_add pc 1) in *; assert (0 <= slen (c_Code c)) by (unfold slen; lia);
    set (lo := if u64_add pc 1 <? slen (c_Code c) then _ else _);
    assert (Hlo : 0 <= lo <= slen (c_Code c)) by (subst lo; destruct (Z.ltb_spec (u64_add pc 1) (slen (c_Code c))); lia);
    (apply wpe_bind; eapply wpe_lift; [apply slice_ok; destruct (Z.ltb_spec (lo + j) (slen (c_Code c))); lia|]);
    stack_done.
Qed.
End ops.
