(* ===== verification/EvmMemory.v ===== *)
(** * The memory, and its gas

    The memory that an instruction works on is large enough, since the interpreter has grown it
    to the size that the instruction's memory function asks for ([charged]).  The fee never wraps: a
    memory has fewer than 2^32 words. *)

From S2P Require Import Prelude.
From S2P Require Import AccessList.
From S2P Require Import StateDB.
From S2P Require Import Precompile.
From S2P Require Import StateRevert.
From S2P Require Import EvmMachine.
From S2P Require Import EvmCode.
From S2P Require Import Evm.
From S2P Require Import EvmInstructions.
From S2P Require Import EvmGas.
From S2P Require Import EvmTable.
From S2P Require Import EvmDb.
From S2P Require Import EvmTheory.
From S2P Require Import EvmRun.
From S2P Require Import EvmOps.

Local Open Scope Z_scope.

(** ** Bytes *)

Lemma substring_length n k s : String.length (String.substring n k s) = Nat.min k (String.length s - n).
Proof.
  revert n k. induction s as [|c s IH]; intros [|n] [|k]; simpl; try done; rewrite IH; simpl; lia.
Qed.

Lemma slen_nonneg s : 0 <= slen s.
Proof. unfold slen. lia. Qed.

Lemma slen_app s t : slen (s +:+ t) = slen s + slen t.
Proof.
  unfold slen. rewrite <- Nat2Z.inj_add. f_equal. induction s as [|c s IH]; [done|].
  change (String c s +:+ t) with (String c (s +:+ t)). cbn [String.length]. by rewrite IH.
Qed.

Lemma slen_zeros n : 0 <= n -> slen (zeros n) = n.
Proof.
  intros Hn. unfold zeros, slen. rewrite <- (Z2Nat.id n) at 2 by done.
  induction (Z.to_nat n) as [|k IH]; [done|]. simpl. lia.
Qed.

Lemma slen_overwrite s off v : 0 <= off -> off + slen v <= slen s -> slen (overwrite s off v) = slen s.
Proof.
  intros Ho Hl. pose proof (slen_nonneg v). unfold overwrite. rewrite !slen_app. unfold slen in *.
  rewrite !substring_length. lia.
Qed.

Lemma getData_ok data start size : 0 <= start -> 0 <= size <= 2 ^ 62 -> exists s, getData data start size = Ok s.
Proof.
  intros Hs Hz. unfold getData, int_len, max_i64. pose proof (slen_nonneg data).
  set (l := Z.min (slen data) (2 ^ 63 - 1)). set (lo := if l <? start then l else start).
  assert (Hlo : 0 <= lo <= l) by (subst lo; destruct (Z.ltb_spec l start); lia).
  assert (E : u64_add lo size = lo + size) by (apply wrap_u64_id; lia). rewrite E.
  set (hi := if l <? lo + size then l else lo + size).
  assert (Hhi : lo <= hi <= l) by (subst hi; destruct (Z.ltb_spec l (lo + size)); lia).
  rewrite slice_ok by lia. simpl. eauto.
Qed.

(** ** The memory *)

(** The largest memory that is paid for. *)
Definition MaxMemory : Z := 137438953440.

(** The region of [l] bytes at [off] is within the memory. *)
Definition covers (mem : Memory) (off l : Z) : Prop := l = 0 \/ off + l <= slen (store mem).

Lemma mem_ok_size mem : mem_ok mem -> 0 <= slen (store mem) <= MaxMemory.
Proof. intros [(w & Hw & -> & _)]. unfold MaxMemory. lia. Qed.

Lemma int64_small x : 0 <= x <= MaxMemory -> int64_of x = x /\ wrap_u64 x = x.
Proof.
  unfold MaxMemory. intros Hx. assert (E : wrap_u64 x = x) by (apply wrap_u64_id; lia).
  split; [|done]. unfold int64_of. rewrite E. apply wrap_i64_id. unfold min_i64, max_i64. lia.
Qed.

Lemma GetPtr_ok mem off l : mem_ok mem -> 0 <= off -> 0 <= l -> covers mem off l ->
  exists s, GetPtr (int64_of off) (int64_of l) mem = Ok s.
Proof.
  intros Hm Ho Hl [->|Hc]; [by eexists|]. pose proof (mem_ok_size _ Hm).
  destruct (int64_small off) as [-> _]; [lia|]. destruct (int64_small l) as [-> _]; [lia|]. unfold GetPtr.
  destruct (l =? 0); [eauto|]. destruct (off <? slen (store mem)); [|eauto].
  assert (E : i64_add off l = off + l) by (apply wrap_i64_id; unfold min_i64, max_i64, MaxMemory in *; lia).
  rewrite E, slice_ok by lia. eauto.
Qed.

Lemma GetCopy_ok mem off l : mem_ok mem -> 0 <= off -> 0 <= l -> covers mem off l ->
  exists s, GetCopy (int64_of off) (int64_of l) mem = Ok s.
Proof.
  intros Hm Ho Hl Hc. destruct (GetPtr_ok mem off l Hm Ho Hl Hc) as [s Hs]. exists s. revert Hs.
  unfold GetPtr, GetCopy. destruct (int64_of l =? 0); [done|]. destruct (_ <? slen (store mem)); [|done].
  destruct Hc as [->|Hc]; [unfold slice; by destruct (_ && _)|]. pose proof (mem_ok_size _ Hm).
  destruct (int64_small l) as [-> _]; [lia|]. by destruct (Z.ltb_spec l 0); [lia|].
Qed.

(** A write keeps the size and the fee. *)
Lemma mem_Set_ok mem off l v : mem_ok mem -> 0 <= off -> 0 <= l -> covers mem off l ->
  exists mem', mem_Set (wrap_u64 off) (wrap_u64 l) v mem = Ok mem' /\ mem_ok mem'.
Proof.
  intros Hm Ho Hl [->|Hc]; [by eexists|]. pose proof (mem_ok_size _ Hm).
  destruct (int64_small off) as [_ ->]; [lia|]. destruct (int64_small l) as [_ ->]; [lia|]. unfold mem_Set.
  destruct (Z.ltb_spec 0 l); [|eauto].
  assert (E : u64_add off l = off + l) by (apply wrap_u64_id; unfold MaxMemory in *; lia). rewrite E.
  destruct (Z.ltb_spec (slen (store mem)) (off + l)); [lia|]. rewrite slice_ok by lia. simpl. eexists. split; [done|].
  destruct Hm as [(w & Hw & Hs & Hf)]. split. exists w. simpl. split; [done|]. split; [|done].
  rewrite slen_overwrite; [done|done|]. unfold slen in *. rewrite !substring_length. lia.
Qed.

Lemma Bytes32_length x : slen (Bytes32 x) = 32.
Proof. done. Qed.

Lemma mem_Set32_ok mem off v : mem_ok mem -> 0 <= off -> off + 32 <= slen (store mem) ->
  exists mem', mem_Set32 (wrap_u64 off) v mem = Ok mem' /\ mem_ok mem'.
Proof.
  intros Hm Ho Hc. pose proof (mem_ok_size _ Hm). destruct (int64_small off) as [_ ->]; [lia|]. unfold mem_Set32.
  assert (E : u64_add off 32 = off + 32) by (apply wrap_u64_id; unfold MaxMemory in *; lia). rewrite E.
  destruct (Z.ltb_spec (slen (store mem)) (off + 32)); [lia|]. rewrite slice_ok by lia. cbn [mbind res_bind].
  eexists. split; [done|]. destruct Hm as [(w & Hw & Hs & Hf)]. split. exists w. cbn [store lastGasCost].
  split; [done|]. split; [|done]. rewrite slen_overwrite; [done|done|]. pose proof (Bytes32_length v). unfold slen in *.
  rewrite !substring_length. lia.
Qed.

(** ** The sizes that the memory functions ask for *)

Lemma calcMemSizeU_covers off l size : word off -> 0 <= l < 2 ^ 64 -> calcMemSize64WithUint off l = (size, false) ->
  0 <= size < 2 ^ 64 /\ (l = 0 \/ off + l = size).
Proof.
  intros [Ho _] Hl. unfold calcMemSize64WithUint, Uint64WithOverflow. destruct (Z.eqb_spec l 0) as [->|Hn].
  { intros [= <-]. lia. }
  destruct (Z.leb_spec (2 ^ 64) off); [done|]. rewrite (wrap_u64_id off) by lia. intros [= <- Hv].
  pose proof (wrap_u64_range (off + l)). fold (u64_add off l) in *. split; [lia|]. right. revert Hv.
  destruct (Z.ltb_spec (off + l) (2 ^ 64)); [unfold u64_add; rewrite wrap_u64_id by lia; lia|].
  unfold u64_add, wrap_u64. rewrite (Z.mod_eq (off + l)) by lia.
  assert ((off + l) / 2 ^ 64 = 1) as ->; [|lia]. symmetry. apply (Z.div_unique_pos _ _ _ (off + l - 2 ^ 64)); lia.
Qed.

Lemma calcMemSize_covers off l size : word off -> word l -> calcMemSize64 off l = (size, false) ->
  0 <= size < 2 ^ 64 /\ l < 2 ^ 64 /\ (l = 0 \/ off + l = size).
Proof.
  intros Ho [Hl _]. unfold calcMemSize64, IsUint64. destruct (Z.ltb_spec l (2 ^ 64)); [|done]. simpl.
  rewrite wrap_u64_id by lia. intros E. apply calcMemSizeU_covers in E; [|done|lia]. tauto.
Qed.

Lemma calcMemSize64_range off l : word off -> word l -> 0 <= fst (calcMemSize64 off l) < 2 ^ 64.
Proof.
  intros Ho Hl. unfold calcMemSize64, calcMemSize64WithUint, Uint64WithOverflow. destruct (negb _); [simpl; lia|].
  destruct (_ =? 0); [simpl; lia|]. destruct (2 ^ 64 <=? off); [simpl; lia|apply wrap_u64_range].
Qed.

Lemma calcMemSizeU_range off l : 0 <= fst (calcMemSize64WithUint off l) < 2 ^ 64.
Proof.
  unfold calcMemSize64WithUint, Uint64WithOverflow. destruct (_ =? 0); [simpl; lia|].
  destruct (2 ^ 64 <=? off); [simpl; lia|apply wrap_u64_range].
Qed.

(** ** Paying for an instruction *)

(** The memory after the fee for [size] bytes. *)
Definition fee_paid (size : Z) (mem mem' : Memory) : Prop :=
  size <= MaxMemory /\ store mem' = store mem /\
  lastGasCost mem' = if slen (store mem) <? size then memory_fee (size / 32) else lastGasCost mem.

Lemma fee_nothing mem : fee_paid 0 mem mem.
Proof.
  pose proof (slen_nonneg (store mem)). split; [unfold MaxMemory; lia|]. split; [done|].
  destruct (Z.ltb_spec (slen (store mem)) 0); [lia|done].
Qed.

Lemma memory_fee_mono a b : 0 <= a <= b -> memory_fee a <= memory_fee b.
Proof. intros Hab. unfold memory_fee. assert (a * a / 512 <= b * b / 512) by (apply Z.div_le_mono; nia). lia. Qed.

(** The memory is grown to what is paid for. *)
Lemma Resize_ok size mem mem' : mem_ok mem -> 0 <= size -> (32 | size) -> fee_paid size mem mem' ->
  mem_ok (if 0 <? size then Resize size mem' else mem') /\
  size <= slen (store (if 0 <? size then Resize size mem' else mem')).
Proof.
  intros [(w & Hw & Hs & Hf)] Hz [q ->] (Hmax & Est & Hl). unfold MaxMemory in Hmax.
  rewrite Z.div_mul in Hl by lia. destruct (Z.ltb_spec 0 (q * 32)).
  - unfold Resize. rewrite Est in *. destruct (Z.ltb_spec (slen (store mem)) (q * 32)); cbn [store].
    + change (Nat.iter (Z.to_nat (q * 32 - slen (store mem))) (String Ascii.zero) EmptyString)
        with (zeros (q * 32 - slen (store mem))).
      rewrite slen_app, slen_zeros by lia. split; [|lia]. split. exists q. cbn [store lastGasCost].
      rewrite slen_app, slen_zeros by lia. split; [lia|]. split; [lia|done].
    + rewrite Est. split; [|lia]. split. exists w. rewrite Est. split; [done|]. split; [done|congruence].
  - split; [|pose proof (slen_nonneg (store mem')); lia]. split. exists w. rewrite Est. split; [done|]. split; [done|].
    rewrite Hl. destruct (Z.ltb_spec (slen (store mem)) (q * 32)); [lia|done].
Qed.

Section charges.
Context {W P : Type} `{StateKeeper W, Keccak, EthAddresses, PrecompiledContracts W P}.
Context (mt : Metering).
Implicit Types e : EVM W P.
Implicit Types m : Machine W P.

Abbreviation gas_left m := (c_Gas (m_contract m)).
Abbreviation db m := (evm_StateDB (m_evm m)).
Abbreviation executionFunc := (EvmCalls W P -> M (Machine W P) (string * option err)).

(** What a gas function leaves alone. *)
Record gas_frame (m m' : Machine W P) : Prop := {
  gf_stack : m_stack m' = m_stack m;
  gf_pc : m_pc m' = m_pc m;
  gf_store : store (m_mem m') = store (m_mem m);
  gf_contract : m_contract m' = set_gas (gas_left m') (m_contract m);
  gf_evolves : evolves (m_evm m) (m_evm m');
  gf_gas : 0 <= gas_left m' <= gas_left m
}.

(** The cost of a gas function for [size] bytes, with what it ensures. *)
Definition gas_post (E : Z -> EVM W P -> Prop) (m : Machine W P) (size : Z) (r : Z + err) (m' : Machine W P) : Prop :=
  gas_frame m m' /\
  match r with
  | inl c => 0 <= c /\ gas_left m' = gas_left m /\ fee_paid size (m_mem m) (m_mem m') /\ E c (m_evm m')
  | inr _ => True
  end.

(** The machine after the charge: the memory has the [sz] bytes that were asked for. *)
Record charged (E : Z -> EVM W P -> Prop) (sz : Z) (m m2 : Machine W P) : Prop := {
  ch_paid : exists c, 0 <= c <= gas_left m /\ E c (m_evm m2) /\
    m_contract m2 = set_gas (gas_left m - c) (m_contract m);
  ch_stack : m_stack m2 = m_stack m;
  ch_pc : m_pc m2 = m_pc m;
  ch_mem : mem_ok (m_mem m2);
  ch_size : sz <= slen (store (m_mem m2));
  ch_evolves : evolves (m_evm m) (m_evm m2)
}.

Definition failed (m m2 : Machine W P) (x : err) : Prop :=
  x <> errStopToken /\ evolves (m_evm m) (m_evm m2) /\ 0 <= gas_left m2 <= gas_left m.

Lemma size_words sz : 0 <= sz < 2 ^ 64 -> snd (SafeMul (toWordSize sz) 32) = false ->
  sz <= fst (SafeMul (toWordSize sz) 32) /\ (32 | fst (SafeMul (toWordSize sz) 32)).
Proof.
  intros Hs. unfold SafeMul, toWordSize. simpl. destruct (Z.gtb_spec sz (2 ^ 64 - 1 - 31)) as [Hg|Hg]; [done|].
  assert (E : u64_add sz 31 = sz + 31) by (apply wrap_u64_id; lia). rewrite E. intros Ho.
  pose proof (Z.div_mod (sz + 31) 32 ltac:(lia)). pose proof (Z.mod_pos_bound (sz + 31) 32 ltac:(lia)).
  pose proof (Z.div_pos (sz + 31) 32 ltac:(lia) ltac:(lia)). rewrite wrap_u64_id by lia.
  split; [lia|apply Z.divide_factor_r].
Qed.

(** The part of [charge_dynamic] once the size is known. *)
Lemma wpe_charge_size E dyn size sz n B m : machine_ok mt n B m -> 0 <= size -> (32 | size) -> sz <= size ->
  wpe (dyn size) (gas_post E m size) m ->
  wpe (dynamicCost ← attempt (dyn size);
       match dynamicCost with
       | inr _ => mraise ErrOutOfGas
       | inl dynamicCost =>
           ok ← use_gas dynamicCost;
           if negb ok then mraise ErrOutOfGas
           else mmodify (fun m => if 0 <? size then with_mem (Resize size (m_mem m)) m else m)
       end)
    (fun r m2 => match r with inl _ => charged E sz m m2 | inr x => failed m m2 x end) m.
Proof.
  intros Hm Hz Hd Hsz Hdyn. apply wpe_bind. eapply wpe_mono; [|by apply wpe_attempt_inv].
  intros [[c|x]|x] m1; [|intros [[_ _ _ _ Hev Hg] _]; by split|done].
  intros [[Hst Hpc Hso Hco Hev Hg] (Hc & Hgas & Hfee & HE)]. apply wpe_bind. unfold wpe at 1, use_gas, UseGas.
  destruct (Z.ltb_spec (gas_left m1) c); simpl.
  { destruct m1; by split. }
  destruct (Resize_ok size _ _ (mk_mem _ _ _ _ Hm) Hz Hd Hfee) as [Hmo Hms]. unfold wpe. cbn [mmodify].
  destruct m1 as [e1 pc1 mem1 st1 c1]. simpl in *.
  assert (Hpaid : exists c0, 0 <= c0 <= gas_left m /\ E c0 e1 /\
    set_gas (c_Gas c1 - c) c1 = set_gas (gas_left m - c0) (m_contract m)).
  { exists c. split; [lia|]. split; [done|]. rewrite Hco, <- Hgas. by destruct (m_contract m). }
  destruct (Z.ltb_spec 0 size); split; simpl in *; try done; lia.
Qed.

Lemma wpe_charge_dynamic E f gas dyn mn mx ms n B m : machine_ok mt n B m ->
  match ms with None => True | Some g => exists r, g (m_stack m) = Ok r /\ 0 <= fst r < 2 ^ 64 end ->
  (forall size, 0 <= size -> (32 | size) -> (ms = None -> size = 0) -> wpe (dyn size) (gas_post E m size) m) ->
  wpe (charge_dynamic (mkOperation f gas (Some dyn) mn mx ms))
    (fun r m2 => match r with
       | inl _ => match ms with
                  | None => charged E 0 m m2
                  | Some g => exists sz, g (m_stack m) = Ok (sz, false) /\ charged E sz m m2
                  end
       | inr x => failed m m2 x
       end) m.
Proof.
  intros Hm Hms Hdyn. pose proof (co_gas _ (mk_contract _ _ _ _ Hm)) as [Hg0 _].
  unfold charge_dynamic, memory_needed. cbn [dynamicGas memorySize]. apply wpe_bind. destruct ms as [g|].
  - destruct Hms as ([sz ov] & Eg & Hr). simpl in Hr. unfold wpe at 1. rewrite Eg. destruct ov.
    { split; [done|]. split; [reflexivity|lia]. }
    destruct (SafeMul (toWordSize sz) 32) as [size ov] eqn:Es. destruct ov.
    { split; [done|]. split; [reflexivity|lia]. }
    pose proof (size_words sz Hr) as Hw. rewrite Es in Hw. destruct (Hw eq_refl) as [Hle Hd]. simpl in Hle, Hd.
    eapply wpe_mono; [|apply (wpe_charge_size E dyn size sz n B m); try done; [lia|apply Hdyn; [lia|done|done]]].
    intros [u|x] m2; [|done]. intros Hch. by exists sz.
  - apply (wpe_charge_size E dyn 0 0 n B m); [done|done|apply Z.divide_0_r|done|].
    apply Hdyn; [done|apply Z.divide_0_r|done].
Qed.
(** ** Instructions with a gas function *)

(** A cost of at least [lo], for calm steps. *)
Definition calm_cost (lo : Z) (m : Machine W P) (c : Z) (e : EVM W P) : Prop :=
  lo <= c /\ calm (db m) (evm_StateDB e).

Lemma charged_machine n B lo sz m m2 : machine_ok mt n B m -> charged (calm_cost lo m) sz m m2 -> machine_ok mt n B m2.
Proof.
  intros Hm [(c & Hc & [_ Ca] & Eco) Est Epc Hmem _ [_ Hd _]]. destruct m2 as [e2 pc2 mem2 st2 c2].
  simpl in *. subst c2 st2 pc2. pose proof (machine_paid mt n B m c Hm Hc) as Hp. destruct m as [e pc mem st ct]. simpl in *.
  eapply machine_update; [exact Hp|done|done| | |done]; apply Hm.
Qed.

(** The memory that [ms] asks for is there. *)
Definition mem_there (ms : option (Stack -> res (Z * bool))) (m : Machine W P) : Prop :=
  match ms with
  | None => True
  | Some g => exists sz, g (m_stack m) = Ok (sz, false) /\ sz <= slen (store (m_mem m))
  end.

(** The instruction [f], once it is paid and has its memory; [stops] when it always stops. *)
Definition exec_mem (stops : bool) (k pop push : Z) (ms : option (Stack -> res (Z * bool))) (f : executionFunc) : Prop :=
  forall n B calls m, calls_ok mt n calls -> machine_ok mt n B m -> GetOp (m_contract m) (m_pc m) = k ->
    pop <= Z.of_nat (length (m_stack m)) <= StackLimit + pop - push -> mem_there ms m ->
    wpe (f calls) (fun r m' => exec_post mt n B m (err_of r) m' /\ (stops = true -> err_of r <> None)) m.

Lemma exec_mem_good k pop push f : exec_good mt k pop push f -> exec_mem false k pop push None f.
Proof. intros Hf n B calls m Hc Hm Hk Hst _. eapply wpe_mono; [|by apply Hf]. by intros r m' Hx. Qed.

Lemma exec_good_mem k pop push f : exec_mem false k pop push None f -> exec_good mt k pop push f.
Proof. intros Hf n B calls m Hc Hm Hk Hst. eapply wpe_mono; [|by apply Hf]. by intros r m' [Hx _]. Qed.

Definition sizes (pop : Z) (ms : option (Stack -> res (Z * bool))) : Prop :=
  match ms with
  | None => True
  | Some g => forall st, pop <= Z.of_nat (length st) -> Forall word st -> exists r, g st = Ok r /\ 0 <= fst r < 2 ^ 64
  end.

(** A gas function that costs at least [lo], and does nothing else. *)
Definition gas_calm (pop lo : Z) (ms : option (Stack -> res (Z * bool))) (dyn : Z -> M (Machine W P) Z) : Prop :=
  forall n B m size, machine_ok mt n B m -> pop <= Z.of_nat (length (m_stack m)) -> 0 <= size -> (32 | size) ->
    (ms = None -> size = 0) -> wpe (dyn size) (gas_post (calm_cost lo m) m size) m.

Lemma op_dynamic stops k f gas dyn pop push ms lo : 0 <= gas -> stops = true \/ 0 < gas + lo ->
  sizes pop ms -> gas_calm pop lo ms dyn -> exec_mem stops k pop push ms f ->
  op_ok mt k (mkOperation f gas (Some dyn) (minStack_of pop push) (maxStack_of pop push) ms).
Proof.
  intros Hgas Hlo Hms Hdyn Hf. split; [done|]. intros n B calls m Hc Hm Hop Hst Hg. simpl in Hst, Hg. apply wpe_attempt.
  pose proof (machine_paid mt n B m gas Hm (conj Hgas Hg)) as Hm1. revert Hm1.
  set (m1 := with_contract (set_gas (gas_left m - gas) (m_contract m)) m). intros Hm1.
  pose proof (co_gas _ (mk_contract _ _ _ _ Hm)) as [Hg0 _].
  apply wpe_bind. eapply wpe_mono; [|eapply (wpe_charge_dynamic (calm_cost lo m1) f gas dyn _ _ ms n B m1); [done| |]].
  2:{ destruct ms as [g|]; [|done]. apply Hms; [apply Hst|apply Hm]. }
  2:{ intros size Hz Hd Hn. apply (Hdyn n B); try done. apply Hst. }
  intros [u|x] m2; cycle 1.
  { intros (Hx & Hev & Hg2). simpl in Hg2. split_and!; [done|lia|lia|done]. }
  intros Hch. assert (Hch' : exists sz, charged (calm_cost lo m1) sz m1 m2 /\ mem_there ms m2).
  { destruct ms as [g|]; [|by exists 0]. destruct Hch as (sz & Eg & Hch). exists sz. split; [done|]. exists sz.
    rewrite (ch_stack _ _ _ _ Hch). split; [done|apply Hch]. }
  destruct Hch' as (sz & Hch2 & Hmt). pose proof (charged_machine n B lo sz m1 m2 Hm1 Hch2) as Hm2.
  destruct Hch2 as [(c & Hcc & [Hloc _] & Eco) Est Epc _ _ Hev]. cbn [execute].
  eapply wpe_mono; [|apply (Hf n B calls m2 Hc Hm2); [|by rewrite Est|done]].
  - intros r m' [(Hev' & Hg' & Hx) Hs]. rewrite Eco in Hg'. simpl in Hg', Hcc.
    split; [by etransitivity; [exact Hev|]|]. split; [lia|]. destruct (err_of r); [done|].
    split; [|done]. destruct Hlo as [->|Hlo]; [by specialize (Hs eq_refl)|lia].
  - rewrite Epc, Eco. exact Hop.
Qed.

(** ** The gas functions *)

Lemma wpe_memoryGasCost size (Q : Z + err -> Machine W P -> Prop) e pc mem st c :
  mem_ok mem -> 0 <= size -> (32 | size) ->
  (forall fee mem', 0 <= fee < 2 ^ 56 -> fee_paid size mem mem' -> Q (inl fee) (mkMachine e pc mem' st c)) ->
  (forall x, Q (inr x) (mkMachine e pc mem st c)) ->
  wpe (memoryGasCost size) Q (mkMachine e pc mem st c).
Proof.
  intros Hm Hz Hd HQ Hx. unfold memoryGasCost. destruct (Z.eqb_spec size 0) as [->|Hn].
  { apply HQ; [lia|apply fee_nothing]. }
  destruct (Z.ltb_spec 137438953440 size); [apply Hx|]. destruct Hd as [q ->].
  assert (Hw : toWordSize (q * 32) = q).
  { unfold toWordSize. destruct (Z.gtb_spec (q * 32) (2 ^ 64 - 1 - 31)); [lia|].
    assert (E : u64_add (q * 32) 31 = 31 + q * 32) by (unfold u64_add; rewrite wrap_u64_id; lia).
    rewrite E, Z.div_add by lia. done. }
  apply wpe_bind. cbn -[Z.mul Z.div Z.pow]. rewrite Hw, (wrap_u64_id (q * 32)) by lia.
  destruct Hm as [(w & Hw2 & Hs & Hf)]. destruct (Z.ltb_spec (slen (store mem)) (q * 32)) as [Hlt|Hge].
  - unfold MemoryGas, QuadCoeffDiv. rewrite (wrap_u64_id (q * q)), (wrap_u64_id (q * 3)) by nia.
    assert (Hq : 0 <= q * q / 512 <= 36028797018963967).
    { split; [apply Z.div_pos; nia|]. apply Z.div_le_upper_bound; nia. }
    assert (E : u64_add (q * 3) (q * q / 512) = memory_fee q).
    { unfold u64_add, memory_fee. rewrite wrap_u64_id by nia. lia. }
    rewrite E. pose proof (memory_fee_mono w q ltac:(lia)) as Hmo.
    assert (Hq2 : 0 <= memory_fee w /\ memory_fee q < 2 ^ 56).
    { unfold memory_fee. pose proof (Z.div_pos (w * w) 512). split; [nia|lia]. }
    assert (E2 : u64_sub (memory_fee q) (lastGasCost mem) = memory_fee q - memory_fee w).
    { rewrite Hf. apply wrap_u64_id. lia. }
    rewrite E2. apply HQ; [lia|]. split; [unfold MaxMemory; lia|]. split; [done|]. simpl.
    destruct (Z.ltb_spec (slen (store mem)) (q * 32)); [|lia]. by rewrite Z.div_mul by lia.
  - apply HQ; [lia|]. split; [unfold MaxMemory; lia|]. split; [done|].
    destruct (Z.ltb_spec (slen (store mem)) (q * 32)); [lia|done].
Qed.

(** The end of a gas function that has only read the StateDB. *)
Lemma gas_done lo e pc mem st c size e' mem' cost : gas_ok (c_Gas c) -> lo <= cost -> 0 <= cost ->
  calm (evm_StateDB e) (evm_StateDB e') -> depth e' = depth e -> in_readOnly e' = in_readOnly e ->
  fee_paid size mem mem' ->
  gas_post (calm_cost lo (mkMachine e pc mem st c)) (mkMachine e pc mem st c) size (inl cost) (mkMachine e' pc mem' st c).
Proof.
  intros [Hg _] Hlo Hc Ca Hd Hr Hf. split; [|by split_and!].
  split; simpl; try done; [apply Hf|by destruct c|split; [apply Ca|done|done]].
Qed.

Lemma gas_error E e pc mem st c size e' mem' x : gas_ok (c_Gas c) -> evolves e e' -> store mem' = store mem ->
  gas_post E (mkMachine e pc mem st c) size (inr x) (mkMachine e' pc mem' st c).
Proof. intros [Hg _] Hev Hm. split; [|done]. split; simpl; try done. by destruct c. Qed.

Lemma wpe_checked r (Q : Z + err -> Machine W P -> Prop) m :
  (snd r = false -> Q (inl (fst r)) m) -> Q (inr ErrGasUintOverflow) m -> wpe (checked r) Q m.
Proof. intros HQ Hx. unfold checked. destruct (snd r); [done|by apply HQ]. Qed.

Lemma SafeAdd_ok x y : snd (SafeAdd x y) = false -> 0 <= x -> 0 <= y -> fst (SafeAdd x y) = x + y /\ x + y < 2 ^ 64.
Proof. unfold SafeAdd. simpl. intros Ho Hx Hy. rewrite wrap_u64_id by lia. lia. Qed.

Lemma wpe_Back i (Q : Z + err -> Machine W P -> Prop) e pc mem st c x :
  st !! i = Some x -> Q (inl x) (mkMachine e pc mem st c) -> wpe (Back i) Q (mkMachine e pc mem st c).
Proof. intros E HQ. unfold wpe, Back, back. simpl. by rewrite E. Qed.
End charges.
