(* ===== verification/EvmCopies.v ===== *)
(** * The instructions that are metered

    The gas functions that only charge, and the instructions that read and write the memory,
    with the EIP-2929 versions of those that read an account. *)

From S2P Require Import Prelude.
From S2P Require Import AccessList.
From S2P Require Import StateDB.
From S2P Require Import Precompile.
From S2P Require Import StateRevert.
From S2P Require Import EvmMachine.
From S2P Require Import EvmCode.
From S2P Require Import Evm.
From S2P Require Import EvmInstructions.
From S2P Require Import EvmGas.
From S2P Require Import EvmTable.
From S2P Require Import EvmDb.
From S2P Require Import EvmTheory.
From S2P Require Import EvmRun.
From S2P Require Import EvmOps.
From S2P Require Import EvmMemory.

Local Open Scope Z_scope.

(** ** Sizes *)

Lemma region_sizes i j pop : Z.of_nat i < pop -> Z.of_nat j < pop -> sizes pop (Some (region i j)).
Proof.
  intros Hi Hj st Hl Hw. unfold region, back.
  destruct (lookup_lt_is_Some_2 st i) as [x Hx]; [lia|]. destruct (lookup_lt_is_Some_2 st j) as [y Hy]; [lia|].
  rewrite Hx. simpl. rewrite Hy. simpl. eexists. split; [done|].
  apply calcMemSize64_range; by eapply Forall_lookup_1.
Qed.

Lemma region_of_sizes i l pop : Z.of_nat i < pop -> sizes pop (Some (region_of i l)).
Proof.
  intros Hi st Hl Hw. unfold region_of, back. destruct (lookup_lt_is_Some_2 st i) as [x Hx]; [lia|].
  rewrite Hx. simpl. eexists. split; [done|]. apply calcMemSizeU_range.
Qed.

Lemma two_regions_sizes i j k l pop : Z.of_nat i < pop -> Z.of_nat j < pop -> Z.of_nat k < pop -> Z.of_nat l < pop ->
  sizes pop (Some (two_regions i j k l)).
Proof.
  intros Hi Hj Hk Hl st Hs Hw. unfold two_regions.
  destruct (region_sizes i j pop Hi Hj st Hs Hw) as ([x ox] & -> & Hx). simpl in *.
  destruct ox; [by eexists|]. destruct (region_sizes k l pop Hk Hl st Hs Hw) as ([y oy] & -> & Hy). simpl in *.
  destruct oy; [by eexists|]. eexists. split; [done|]. simpl. destruct (y <? x); lia.
Qed.

Section copies.
Context {W P : Type} `{StateKeeper W, Keccak, EthAddresses, PrecompiledContracts W P}.
Context (mt : Metering).
Implicit Types e : EVM W P.
Implicit Types m : Machine W P.

Abbreviation gas_calm pop lo ms dyn := (gas_calm (W:=W) (P:=P) mt pop lo ms dyn).
Abbreviation exec_mem stops k pop push ms f := (exec_mem (W:=W) (P:=P) mt stops k pop push ms f).
Abbreviation good_op k op := (op_ok (W:=W) (P:=P) mt k op).

(** ** Gas functions *)

Local Ltac gas_start :=
  intros n B [e pc mem st c] size Hm Hst Hz Hd Hn; cbn [m_stack] in Hst;
  pose proof (mk_stack _ _ _ _ Hm) as Hw; cbn [m_stack] in Hw;
  pose proof (mk_mem _ _ _ _ Hm) as Hmem; cbn [m_mem] in Hmem;
  pose proof (co_gas _ (mk_contract _ _ _ _ Hm)) as Hgas; cbn [m_contract] in Hgas.
Local Ltac memory_cost fee mem' Hfee Hpaid :=
  apply wpe_bind, wpe_memoryGasCost; [done|done|done| |intros ?; by apply gas_error];
  intros fee mem' Hfee Hpaid.
Local Ltac operand i x Hx :=
  match goal with Hs : _ <= Z.of_nat (length ?st) |- _ =>
    destruct (lookup_lt_is_Some_2 st i) as [x Hx]; [lia|]; apply wpe_bind; eapply wpe_Back; [exact Hx|] end.
Local Ltac check H :=
  first [apply wpe_bind, wpe_checked | apply wpe_checked];
  [intros H|apply gas_error; [done|reflexivity|try match goal with H : fee_paid _ _ _ |- _ => apply H end; done]].

Lemma gas_memory pop ms : gas_calm pop 0 ms pureMemoryGascost.
Proof.
  gas_start. apply wpe_memoryGasCost; [done|done|done| |intros x; by apply gas_error].
  intros fee mem' Hfee Hpaid. apply gas_done; try done; lia.
Qed.

Lemma gas_per_word pop i cost g : Z.of_nat i < pop -> 0 <= cost -> gas_calm pop 0 (Some g) (per_word i cost).
Proof.
  intros Hi Hcost. gas_start. unfold per_word. memory_cost fee mem' Hfee Hpaid.
  operand i x Hx. check Ho. check Ho2. check Ho3. revert Ho3.
  assert (Hv : 0 <= fst (SafeMul (toWordSize (fst (Uint64WithOverflow x))) cost) < 2 ^ 64) by apply wrap_u64_range.
  revert Hv. generalize (fst (SafeMul (toWordSize (fst (Uint64WithOverflow x))) cost)) as v. intros v Hv Ho3.
  destruct (SafeAdd_ok fee v) as [-> _]; [done|lia|lia|]. apply gas_done; try done; lia.
Qed.

Lemma gas_log pop i g : 2 <= pop -> 0 <= i -> gas_calm pop 375 (Some g) (makeGasLog i).
Proof.
  intros Hp Hi. gas_start. unfold makeGasLog. operand 1%nat x Hx. check Ho. memory_cost fee mem' Hfee Hpaid.
  unfold LogGas, LogTopicGas, LogDataGas. check Ho1.
  destruct (SafeAdd_ok fee 375) as [-> _]; [done|lia|lia|]. check Ho2.
  destruct (SafeAdd_ok (fee + 375) (i * 375)) as [-> _]; [done|lia|lia|]. check Ho3. check Ho4. revert Ho4.
  assert (Hv : 0 <= fst (SafeMul (fst (Uint64WithOverflow x)) 8) < 2 ^ 64) by apply wrap_u64_range.
  revert Hv. generalize (fst (SafeMul (fst (Uint64WithOverflow x)) 8)) as v. intros v Hv Ho4.
  destruct (SafeAdd_ok (fee + 375 + i * 375) v) as [-> _]; [done|lia|lia|]. apply gas_done; try done; lia.
Qed.

Lemma gas_exp pop byteGas : 2 <= pop -> 0 <= byteGas -> gas_calm pop 10 None (gasExp byteGas).
Proof.
  intros Hp Hb. gas_start. rewrite (Hn eq_refl). unfold gasExp. operand 1%nat x Hx. check Ho. unfold ExpGas in *.
  assert (0 <= (BitLen x + 7) / 8).
  { apply Z.div_pos; [|lia]. unfold BitLen. pose proof (Z.log2_nonneg x). destruct (x =? 0); lia. }
  destruct (SafeAdd_ok ((BitLen x + 7) / 8 * byteGas) 10) as [-> _]; [done|nia|lia|].
  apply gas_done; try done; [nia|nia|apply fee_nothing].
Qed.

(** ** EIP-2929 *)

(** The rule for the step that lists an address. *)
Lemma wpe_list_address a (Q : unit + err -> Machine W P -> Prop) e pc mem st c : evm_ok e ->
  (forall s, calm (evm_StateDB e) s -> db_ok s -> warm s a -> stateObjects s = stateObjects (evm_StateDB e) ->
     ctx s = ctx (evm_StateDB e) -> Q (inl tt) (mkMachine (with_db s e) pc mem st c)) ->
  wpe (list_address a) Q (mkMachine e pc mem st c).
Proof.
  intros Hok HQ. apply wpe_write; [auto with statedb|done|]. intros s -> Ca K.
  apply HQ; [done|done|apply AddAddress_warm_self| |]; unfold AddAddressToAccessList;
    by destruct (AddAddress (access (evm_StateDB e)) a) as [[] al].
Qed.

Lemma gas_account_check pop : 1 <= pop -> gas_calm pop 0 None gasEip2929AccountCheck.
Proof.
  intros Hp. gas_start. rewrite (Hn eq_refl). unfold gasEip2929AccountCheck, Peek. operand 0%nat x Hx.
  apply wpe_bind. cbn. destruct (ContainsAddress _ _).
  - apply gas_done; try done; try reflexivity; apply fee_nothing.
  - apply wpe_bind, wpe_list_address; [apply Hm|]. intros s Ca K _ _ _.
    apply gas_done; try done; apply fee_nothing.
Qed.

Lemma Contains_ok a k (s : StateDB W) : db_ok s -> exists r, Contains (access s) a k = Ok r.
Proof.
  intros Hok. pose proof (ok_good _ Hok) as G. destruct (AddSlotToAccessList_ext a k s G) as (u & E & _). revert E.
  unfold AddSlotToAccessList, AddSlot, Contains. destruct (addresses (access s) !! a) as [i|]; [|eauto].
  destruct (Z.eqb_spec i (-1)); [eauto|]. rewrite !bool_decide_false by congruence. simpl.
  destruct (slot_at (access s) i); [eauto|done].
Qed.

(** Listing a slot: the access list only grows. *)
Lemma AddSlot_calm a k (s : StateDB W) : db_ok s -> exists s', AddSlotToAccessList a k s = Ok s' /\
  calm s s' /\ db_ok s' /\ stateObjects s' = stateObjects s /\ ctx s' = ctx s.
Proof.
  intros Hok. destruct (AddSlotToAccessList_ext a k s (ok_good _ Hok)) as (s' & E & X). exists s'. split; [done|].
  assert (Hf : stateObjects s' = stateObjects s /\ ctx s' = ctx s /\ refund s' = refund s /\
    forall b, warm s b -> warm s' b).
  { revert E. unfold AddSlotToAccessList. destruct (AddSlot (access s) a k) as [[[am sm] al]|x|] eqn:Ea; simpl; try done.
    intros [= <-]. assert (Ha : forall b, ContainsAddress (access s) b = true -> ContainsAddress al b = true).
    { intros b. revert Ea. unfold AddSlot, ContainsAddress. rewrite !bool_decide_eq_true. destruct (_ || _).
      - intros [= _ _ <-]. simpl. rewrite lookup_insert_is_Some'. auto.
      - destruct (slot_at _ _); [|done]. destruct (bool_decide _); by intros [= _ _ <-]. }
    by destruct am, sm; simpl; split_and!. }
  destruct Hf as (Eo & Ec & Er & Hwm). assert (Hw : within s s').
  { apply within_ext; [by eapply step_AddSlot|done|done|]. intros b. by rewrite (lookup_same s s' b). }
  split; [|split; [by eapply within_ok|done]]. split; [done|done|by apply lookup_fields].
Qed.

Lemma wpe_list_slot a k (Q : unit + err -> Machine W P -> Prop) e pc mem st c : evm_ok e ->
  (forall s, calm (evm_StateDB e) s -> db_ok s -> stateObjects s = stateObjects (evm_StateDB e) ->
     ctx s = ctx (evm_StateDB e) -> Q (inl tt) (mkMachine (with_db s e) pc mem st c)) ->
  wpe (list_slot a k) Q (mkMachine e pc mem st c).
Proof.
  intros Hok HQ. destruct (AddSlot_calm a k _ Hok) as (s & E & Ca & K & Eo & Ec). unfold wpe, list_slot, evm_do, db_try. simpl.
  rewrite E. by apply HQ.
Qed.

Lemma wpe_slot_listed a k (Q : bool * bool + err -> Machine W P -> Prop) e pc mem st c : evm_ok e ->
  (forall r, Contains (access (evm_StateDB e)) a k = Ok r -> Q (inl r) (mkMachine e pc mem st c)) ->
  wpe (slot_listed a k) Q (mkMachine e pc mem st c).
Proof.
  intros Hok HQ. destruct (Contains_ok a k _ Hok) as [r E]. unfold wpe, slot_listed. simpl. rewrite E. by apply HQ.
Qed.

Lemma gas_sload pop : 1 <= pop -> gas_calm pop 100 None gasSLoadEIP2929.
Proof.
  intros Hp. gas_start. rewrite (Hn eq_refl). unfold gasSLoadEIP2929, Peek. operand 0%nat x Hx.
  apply wpe_bind. cbn. apply wpe_bind, wpe_slot_listed; [apply Hm|]. intros [ap sp] _. destruct sp.
  - apply gas_done; try done; try reflexivity; apply fee_nothing.
  - apply wpe_bind, wpe_list_slot; [apply Hm|]. intros s Ca K _ _. apply gas_done; try done; apply fee_nothing.
Qed.

(** A gas function that is followed by another step. *)
Lemma gas_extcodecopy g : gas_calm 4 0 (Some g) gasExtCodeCopyEIP2929.
Proof.
  intros n B m size Hm Hst Hz Hd Hn. unfold gasExtCodeCopyEIP2929. apply wpe_bind.
  eapply wpe_mono; [|apply (gas_per_word 4 3 CopyGas g ltac:(lia) ltac:(done) n B m size); done].
  intros [cost|x] m1 [Hf Hc]; [|by split]. destruct Hf as [Est Epc Eso Eco Hev Hg].
  destruct Hc as (Hc0 & Hgas & Hfee & Hlo & Ca).
  pose proof (co_gas _ (mk_contract _ _ _ _ Hm)) as Hgo.
  destruct m1 as [e1 pc1 mem1 st1 c1], m as [e pc mem st c]. simpl in *. subst st1 pc1.
  assert (Hc1 : c1 = c) by (rewrite Eco, Hgas; by destruct c). subst c1. unfold Peek.
  destruct (lookup_lt_is_Some_2 st 0%nat) as [x Hx]; [lia|]. apply wpe_bind. eapply wpe_Back; [exact Hx|].
  apply wpe_bind. cbn. destruct (ContainsAddress _ _).
  - apply gas_done; try done; [apply Hev|apply Hev].
  - apply wpe_bind, wpe_list_address; [eapply evolves_ok; [exact Hev|apply Hm]|]. intros s Cs K _ _ _.
    assert (C : calm (evm_StateDB e) s) by (by etransitivity). apply wpe_checked.
    + intros Ho. destruct (SafeAdd_ok cost 2500) as [E _]; [done|lia|lia|].
      change (ColdAccountAccessCostEIP2929 - WarmStorageReadCostEIP2929) with 2500. rewrite E.
      apply gas_done; try done; [lia|lia|apply Hev|apply Hev].
    + apply gas_error; [done| |done]. etransitivity; [exact Hev|]. split; [apply Cs|done|done].
Qed.
(** ** Instructions on the memory *)

Local Ltac mem_start :=
  intros n B calls [e pc mem st c] Hcalls Hm Hop Hst Hthere; cbn [m_stack] in Hst;
  pose proof (mk_stack _ _ _ _ Hm) as Hw; cbn [m_stack] in Hw;
  pose proof (mk_mem _ _ _ _ Hm) as Hmem; cbn [m_mem] in Hmem;
  pose proof (mk_pre _ _ _ _ Hm) as Hpre; pose proof (pre_ok _ _ _ _ _ Hpre) as Hok; cbn [m_evm] in Hok;
  repeat (destruct st as [|? st]; [cbn [length] in Hst; unfold StackLimit in Hst; lia|]);
  repeat match goal with H : Forall word (_ :: _) |- _ => apply list.Forall_cons in H as [? H] end;
  destruct Hthere as (sz & Hg & Hsz); cbn [m_stack m_mem] in Hg, Hsz; injection Hg as Hg.
Local Ltac mem_done :=
  split; [|done]; apply (exec_go mt _ _ _ _ _ _ _ _ _ _ _); [done|first [assumption|reflexivity]|done|done
    |repeat apply list.Forall_cons_2; cbn [m_stack with_stack with_pc with_mem]; auto with words
    |cbn [length m_stack with_stack with_pc with_mem] in *; unfold StackLimit in *; lia|done].
Local Ltac word_bounds := repeat match goal with H : word _ |- _ => destruct H end.
(** The region [off], [l] that was asked for. *)
Local Ltac covered mem off l :=
  assert (covers mem off l /\ 0 <= off /\ 0 <= l < 2 ^ 64 /\ (l = 0 \/ 0 <= l <= 2 ^ 62)) as (? & ? & ? & ?)
    by (match goal with Hg : calcMemSize64 off l = _ |- _ =>
          apply calcMemSize_covers in Hg as (? & ? & ?); [|done|done] end;
        pose proof (mem_ok_size mem ltac:(done)); unfold covers, MaxMemory in *; word_bounds; lia).

Lemma wrap_small l : 0 <= l < 2 ^ 64 -> l = 0 \/ 0 <= l <= 2 ^ 62 -> 0 <= wrap_u64 l <= 2 ^ 62.
Proof. intros Hl Hs. rewrite wrap_u64_id by lia. lia. Qed.

Lemma clamp_nonneg x : 0 <= clamp_offset x.
Proof.
  unfold clamp_offset, Uint64WithOverflow. destruct (2 ^ 64 <=? x); [lia|]. apply (wrap_u64_range x).
Qed.

Lemma exec_opKeccak256 k : exec_mem false k 2 1 (Some memoryKeccak256) opKeccak256.
Proof.
  mem_start. covered mem z z0. unfold opKeccak256. do 2 (apply wpe_bind; cbn).
  destruct (GetPtr_ok mem z z0) as [s Hs]; [done|done|lia|done|].
  eapply wpe_bind, wpe_memory_read; [exact Hs|]. mem_done.
Qed.

Lemma exec_opMload k : exec_mem false k 1 1 (Some memoryMLoad) opMload.
Proof.
  mem_start. unfold opMload. apply wpe_bind. cbn.
  apply calcMemSizeU_covers in Hg as [Hr Hg]; [|done|lia]. destruct (GetPtr_ok mem z 32) as [s Hs];
    [done|by word_bounds|lia|right; lia|].
  eapply wpe_bind, wpe_memory_read; [exact Hs|]. mem_done.
Qed.

Lemma exec_opMstore k : exec_mem false k 2 0 (Some memoryMStore) opMstore.
Proof.
  mem_start. unfold opMstore. do 2 (apply wpe_bind; cbn).
  apply calcMemSizeU_covers in Hg as [Hr Hg]; [|done|lia]. destruct (mem_Set32_ok mem z z0) as (mem' & Hs & Hmem');
    [done|by word_bounds|lia|].
  eapply wpe_bind, wpe_memory_write; [exact Hs|]. mem_done.
Qed.

Lemma exec_opMstore8 k : exec_mem false k 2 0 (Some memoryMStore8) opMstore8.
Proof.
  mem_start. unfold opMstore8. do 2 (apply wpe_bind; cbn).
  apply calcMemSizeU_covers in Hg as [Hr Hg]; [|done|lia]. pose proof (mem_ok_size _ Hmem). word_bounds.
  destruct (int64_small z) as [_ Ez]; [lia|]. eapply wpe_bind, wpe_memory_write.
  { cbn [m_mem with_stack]. rewrite Ez. destruct (Z.ltb_spec z (slen (store mem))); [reflexivity|lia]. }
  assert (mem_ok (mkMemory (overwrite (store mem) z (big_endian 1 z0)) (lastGasCost mem))).
  { destruct Hmem as [(w & Hw2 & Hs & Hf)]. split. exists w. split; [done|]. split; [|done]. cbn [store].
    rewrite slen_overwrite; [done|done|]. change (slen (big_endian 1 z0)) with 1. lia. }
  mem_done.
Qed.

(** The end of the copies. *)
Lemma exec_copy n B e pc mem st c e' data off l st' : machine_ok mt n B (mkMachine e pc mem st c) ->
  calm (evm_StateDB e) (evm_StateDB e') -> depth e' = depth e -> in_readOnly e' = in_readOnly e ->
  covers mem off l -> 0 <= off -> 0 <= l -> Forall word st' -> Z.of_nat (length st') <= StackLimit ->
  wpe (memory_write (mem_Set (wrap_u64 off) (wrap_u64 l) data);; go_on)
    (fun r m' => exec_post mt n B (mkMachine e pc mem st c) (err_of r) m' /\ (false = true -> err_of r <> None))
    (mkMachine e' pc mem st' c).
Proof.
  intros Hm Ca Hd Hr Hc Ho Hl Hst Hlen. destruct (mem_Set_ok mem off l data) as (mem' & Hs & Hmem'); try done.
  { apply Hm. }
  eapply wpe_bind, wpe_memory_write; [exact Hs|]. split; [|done]. by apply exec_go.
Qed.

Local Ltac copied := apply exec_copy; try done; try reflexivity; try lia; cbn [length] in *; unfold StackLimit in *; lia.

Lemma exec_opCallDataCopy k : exec_mem false k 3 0 (Some memoryCallDataCopy) opCallDataCopy.
Proof.
  mem_start. covered mem z z1. unfold opCallDataCopy. do 4 (apply wpe_bind; cbn).
  destruct (getData_ok (c_Input c) (clamp_offset z0) (wrap_u64 z1)) as [s Hs]; [apply clamp_nonneg|by apply wrap_small|].
  eapply wpe_bind, wpe_lift; [exact Hs|]. copied.
Qed.

Lemma exec_opCodeCopy k : exec_mem false k 3 0 (Some memoryCodeCopy) opCodeCopy.
Proof.
  mem_start. covered mem z z1. unfold opCodeCopy. do 4 (apply wpe_bind; cbn).
  destruct (getData_ok (c_Code c) (clamp_offset z0) (wrap_u64 z1)) as [s Hs]; [apply clamp_nonneg|by apply wrap_small|].
  eapply wpe_bind, wpe_lift; [exact Hs|]. copied.
Qed.

Lemma exec_opExtCodeCopy k : exec_mem false k 4 0 (Some memoryExtCodeCopy) opExtCodeCopy.
Proof.
  mem_start. covered mem z0 z2. unfold opExtCodeCopy. do 4 (apply wpe_bind; cbn).
  apply wpe_bind, wpe_read; [auto with statedb|done|]. intros code s1 _ _ C1 K1.
  destruct (getData_ok (default EmptyString code) (clamp_offset z1) (wrap_u64 z2)) as [s Hs];
    [apply clamp_nonneg|by apply wrap_small|].
  eapply wpe_bind, wpe_lift; [exact Hs|]. copied.
Qed.

Lemma exec_opReturnDataCopy k : exec_mem false k 3 0 (Some memoryReturnDataCopy) opReturnDataCopy.
Proof.
  mem_start. covered mem z z1. unfold opReturnDataCopy, Uint64WithOverflow. do 3 (apply wpe_bind; cbn -[Z.pow to_word]).
  destruct (Z.leb_spec (2 ^ 64) z0); [split; [by apply exec_fail; [|reflexivity| |]|done]|].
  apply wpe_bind. cbn -[Z.pow to_word]. set (data := in_returnData e). word_bounds.
  assert (E : to_word (z0 + z1) = z0 + z1) by (apply Z.mod_small; lia). rewrite E.
  destruct (Z.leb_spec (2 ^ 64) (z0 + z1)); simpl; [split; [by apply exec_fail; [|reflexivity| |]|done]|].
  rewrite (wrap_u64_id (z0 + z1)), (wrap_u64_id z0) by lia.
  destruct (Z.ltb_spec (wrap_u64 (slen data)) (z0 + z1)); [split; [by apply exec_fail; [|reflexivity| |]|done]|].
  assert (wrap_u64 (slen data) <= slen data) by (apply Z.mod_le; [apply slen_nonneg|lia]).
  eapply wpe_bind, wpe_lift; [apply slice_ok; lia|]. copied.
Qed.

Lemma wpe_pop_topics j e pc mem st c (Q : list Hash + err -> Machine W P -> Prop) : (j <= length st)%nat ->
  (forall t, Q (inl t) (mkMachine e pc mem (drop j st) c)) -> wpe (pop_topics j) Q (mkMachine e pc mem st c).
Proof.
  revert st Q. induction j as [|j IH]; intros st Q Hj HQ; [apply HQ|]. destruct st as [|x st]; [simpl in Hj; lia|].
  simpl. apply wpe_bind. cbn. apply wpe_bind, IH; [simpl in Hj; lia|]. intros t. apply HQ.
Qed.

Lemma exec_makeLog k bc j : exec_mem false k (2 + Z.of_nat j) 0 (Some memoryLog) (makeLog bc j).
Proof.
  mem_start. unfold makeLog. apply wpe_bind. cbn.
  destruct (in_readOnly e); [split; [by apply exec_fail; [|reflexivity| |]|done]|].
  covered mem z z0. do 2 (apply wpe_bind; cbn). cbn [length] in Hst. apply wpe_bind, wpe_pop_topics; [lia|]. intros t.
  destruct (GetCopy_ok mem z z0) as [s Hs]; [done|done|lia|done|].
  eapply wpe_bind, wpe_memory_read; [exact Hs|]. apply wpe_bind. cbn.
  apply wpe_bind, wpe_write; [auto with statedb|done|]. intros s1 _ C1 K1.
  split; [|done]. apply exec_go; try done; [by apply Forall_drop|]. rewrite length_drop. unfold StackLimit in *. lia.
Qed.

Lemma exec_opReturn k : exec_mem true k 2 0 (Some memoryReturn) opReturn.
Proof.
  mem_start. covered mem z z0. unfold opReturn. do 2 (apply wpe_bind; cbn).
  destruct (GetPtr_ok mem z z0) as [s Hs]; [done|done|lia|done|].
  eapply wpe_bind, wpe_memory_read; [exact Hs|]. split; [|done]. by apply exec_stop.
Qed.

Lemma exec_opRevert k : exec_mem true k 2 0 (Some memoryRevert) opRevert.
Proof.
  mem_start. covered mem z z0. unfold opRevert. do 2 (apply wpe_bind; cbn).
  destruct (GetPtr_ok mem z z0) as [s Hs]; [done|done|lia|done|].
  eapply wpe_bind, wpe_memory_read; [exact Hs|]. split; [|done]. by apply exec_fail; [|split; [reflexivity| |]| |].
Qed.
Lemma exec_opCallDataLoad k : exec_mem false k 1 1 None opCallDataLoad.
Proof.
  intros n B calls [e pc mem st c] Hcalls Hm Hop Hst _; cbn [m_stack] in Hst.
  pose proof (mk_stack _ _ _ _ Hm) as Hw; cbn [m_stack] in Hw.
  pose proof (mk_mem _ _ _ _ Hm) as Hmem; cbn [m_mem] in Hmem.
  destruct st as [|z st]; [cbn [length] in Hst; lia|]. apply list.Forall_cons in Hw as [[Hz _] Hw].
  unfold opCallDataLoad, Uint64WithOverflow. apply wpe_bind. cbn. destruct (Z.leb_spec (2 ^ 64) z); simpl; [mem_done|].
  apply wpe_bind. cbn. destruct (getData_ok (c_Input c) (wrap_u64 z) 32) as [s Hs]; [apply (wrap_u64_range z)|lia|].
  eapply wpe_bind, wpe_lift; [exact Hs|]. mem_done.
Qed.
End copies.
