(* ===== verification/EvmStorage.v ===== *)
(** * SSTORE, and the refund counter

    A gas function of SSTORE moves the refund counter before the slot is written.  It adds
    what a cleared slot is worth when the slot is cleared, and takes that back, or less, when a cleared slot is
    written again: the counter covers the cleared slots ([refund_ok]) after the
    instruction, and never goes below zero. *)

From S2P Require Import Prelude.
From S2P Require Import AccessList.
From S2P Require Import StateDB.
From S2P Require Import Precompile.
From S2P Require Import StateRevert.
From S2P Require Import EvmMachine.
From S2P Require Import EvmCode.
From S2P Require Import Evm.
From S2P Require Import EvmInstructions.
From S2P Require Import EvmGas.
From S2P Require Import EvmTable.
From S2P Require Import EvmDb.
From S2P Require Import EvmTheory.
From S2P Require Import EvmRun.
From S2P Require Import EvmOps.
From S2P Require Import EvmMemory.
From S2P Require Import EvmCopies.

Local Open Scope Z_scope.

#[local] Arguments Bytes32 : simpl never.
#[local] Arguments zero_hash : simpl never.

Section slots.
Context {W : Type} `{StateKeeper W, Keccak}.
Implicit Types s : StateDB W.

(** The value of a slot, and its value before the transaction. *)
Definition value_at s (a : Address) (k : Hash) : Hash :=
  match lookup_obj s a with Some o => state_val (ctx s) k o | None => zero_hash end.
Definition committed_at s (a : Address) (k : Hash) : Hash :=
  match lookup_obj s a with Some o => committed_val (ctx s) k o | None => zero_hash end.

(** The accounts answer as before. *)
Record unmoved s s' : Prop := {
  un_within : within s s';
  un_ctx : ctx s' = ctx s;
  un_obj a : option_Forall2 (obj_eq (ctx s)) (lookup_obj s a) (lookup_obj s' a)
}.

#[export] Instance unmoved_preorder : PreOrder unmoved.
Proof.
  split.
  - intros s. split; [reflexivity|done|intros a; apply option_forall2_refl].
  - intros s t u [W1 C1 O1] [W2 C2 O2]. split; [by etransitivity|congruence|]. intros a. rewrite C1 in O2.
    pose proof (obj_eq_equiv (ctx s)). etransitivity; [apply O1|apply O2].
Qed.

Lemma unmoved_same s s' : same_state s s' -> within s s' -> unmoved s s'.
Proof. intros [B _ _] Hw. split; [done|apply B|apply B]. Qed.

Lemma unmoved_fields s s' : within s s' -> stateObjects s' = stateObjects s -> ctx s' = ctx s -> unmoved s s'.
Proof. intros Hw Eo Ec. split; [done|done|]. intros a. rewrite (lookup_same s s') by done. apply option_forall2_refl. Qed.

Lemma unmoved_values s s' a k : unmoved s s' -> value_at s' a k = value_at s a k /\ committed_at s' a k = committed_at s a k.
Proof.
  intros [_ Ec Ho]. unfold value_at, committed_at. rewrite Ec. destruct (Ho a) as [o o' Eo|]; [|done].
  split; symmetry; apply Eo.
Qed.

Lemma unmoved_cleared s s' a k : unmoved s s' -> cleared s' a k -> cleared s a k.
Proof.
  intros [_ Ec Ho] (o' & E & Hc). pose proof (Ho a) as F. rewrite E in F. inversion F as [o ? Eo E1|]; subst.
  exists o. split; [done|]. unfold obj_cleared in *. rewrite Ec in Hc. destruct Eo as [_ _ _ _ Ecm Est].
  by rewrite Ecm, Est.
Qed.

Lemma cleared_values s a k : exists_at s a -> cleared s a k <-> committed_at s a k <> zero_hash /\ value_at s a k = zero_hash.
Proof.
  intros [o E]. unfold cleared, committed_at, value_at, obj_cleared. rewrite E. split; [|by exists o].
  intros (o' & [= <-] & Hc). done.
Qed.

(** ** Reading a slot *)

Lemma GetState_value a k s : db_ok s -> fst (GetState a k s) = value_at s a k.
Proof.
  intros Hok. unfold GetState, value_at. rewrite (getStateObject_eq a s (good_keyed _ (ok_good _ Hok))).
  destruct (lookup_obj s a) as [o|]; [|done]. pose proof (object_GetState_val (ctx s) k o) as Ev. simpl.
  by destruct (object_GetState (ctx s) k o).
Qed.

Lemma GetCommittedState_value a k s : db_ok s -> fst (GetCommittedState a k s) = committed_at s a k.
Proof.
  intros Hok. unfold GetCommittedState, committed_at. rewrite (getStateObject_eq a s (good_keyed _ (ok_good _ Hok))).
  destruct (lookup_obj s a) as [o|]; [|done]. pose proof (object_GetCommittedState_val (ctx s) k o) as Ev. simpl.
  by destruct (object_GetCommittedState (ctx s) k o).
Qed.

(** ** Writing a slot *)

(** The object that a write finds. *)
Lemma getOrNew_there a s o : db_ok s -> lookup_obj s a = Some o ->
  getOrNewStateObject a s = (o, setStateObject o s) /\ address o = a.
Proof.
  intros Hok E. pose proof (good_keyed _ (ok_good _ Hok)) as K. split; [|by apply (lookup_address s a)].
  unfold getOrNewStateObject. rewrite (getStateObject_eq a s K), E. done.
Qed.

Lemma state_val_set c k v k' o : state_val c k' (setState k v o) = if decide (k' = k) then v else state_val c k' o.
Proof.
  unfold state_val, committed_val. simpl. case_decide as D; [subst; by rewrite lookup_insert_eq|].
  rewrite lookup_insert_ne by done. done.
Qed.

(** A write changes one slot. *)
Lemma SetState_cleared a k v s b k' : db_ok s -> exists_at s a -> cleared (SetState a k v s) b k' ->
  if decide ((b, k') = (a, k)) then v = zero_hash /\ committed_at s a k <> zero_hash else cleared s b k'.
Proof.
  intros Hok [o E] Hc. destruct (getOrNew_there a s o Hok E) as [Eg Ea]. revert Hc. unfold SetState. rewrite Eg.
  unfold object_SetState. change (ctx (setStateObject o s)) with (ctx s).
  destruct (object_GetState (ctx s) k o) as [prev o1] eqn:Es.
  pose proof (state_load_eq _ _ _ _ _ Es) as [E1 _ _ _ Ecm Est].
  apply state_fields in Es as (Ea1 & _ & _ & _ & _ & Ev & _).
  assert (Hx : forall o2, address o2 = a -> obj_cleared (ctx s) o2 k' -> b = a ->
    (forall j, committed_val (ctx s) j o2 = committed_val (ctx s) j o) ->
    (forall j, state_val (ctx s) j o2 = if decide (j = k) then v else state_val (ctx s) j o) ->
    if decide ((b, k') = (a, k)) then v = zero_hash /\ committed_at s a k <> zero_hash else cleared s b k').
  { intros o2 _ [Hcm Hst] -> Hcm2 Hst2. rewrite Hcm2 in Hcm. rewrite Hst2 in Hst.
    destruct (decide ((a, k') = (a, k))) as [D|D].
    - injection D as ->. rewrite decide_True in Hst by done. unfold committed_at. by rewrite E.
    - rewrite decide_False in Hst by congruence. by exists o. }
  case_bool_decide as Hp.
  - intros [[Hb Hc]|[Hb Hc]]%cleared_set.
    + apply (Hx o1); [congruence|done|congruence|done|]. intros j. rewrite <- Est. destruct (decide (j = k)); [by subst|done].
    + apply cleared_set in Hc as [[Hb2 _]|[_ Hc]]; [congruence|]. rewrite decide_False; [done|congruence].
  - intros [[Hb Hc]|[Hb Hc]]%cleared_set.
    + simpl in Hb. apply (Hx (setState k v o1)); [simpl; congruence|done|congruence|done|].
      intros j. rewrite state_val_set, <- Est. done.
    + apply still_append in Hc. apply cleared_set in Hc as [[Hb2 _]|[_ Hc]]; [simpl in Hb; congruence|].
      rewrite decide_False; [done|]. simpl in Hb. congruence.
Qed.

Lemma SetState_fields a k v s : db_ok s -> exists_at s a ->
  within s (SetState a k v s) /\ refund (SetState a k v s) = refund s.
Proof.
  intros Hok [o E]. destruct (getOrNew_there a s o Hok E) as [Eg Ea].
  assert (Hf : access (SetState a k v s) = access s /\ refund (SetState a k v s) = refund s /\
    forall b, exists_at s b -> exists_at (SetState a k v s) b).
  { unfold SetState. rewrite Eg. unfold object_SetState.
    destruct (object_GetState (ctx (setStateObject o s)) k o) as [prev o1]. case_bool_decide; (split; [done|]; split; [done|]).
    - intros b Hb. by apply exist_set, exist_set.
    - intros b Hb. apply exist_set. rewrite lookup_append. by apply exist_set. }
  destruct Hf as (Hac & Hre & Hex). split; [|done].
  apply within_ext; [apply step_SetState|apply SetState_ext, Hok|intros b; by rewrite Hac|done].
Qed.

(** The change of the counter that a write of [v] needs. *)
Definition write_delta (clears : Z) (original current v : Hash) : Z :=
  if bool_decide (original = zero_hash) then 0
  else if bool_decide (current = zero_hash) then (if bool_decide (v = zero_hash) then 0 else - clears)
  else if bool_decide (v = zero_hash) then clears else 0.

Lemma size_remove (C : gset (Address * Hash)) x : x ∈ C -> Z.of_nat (size (C ∖ {[x]})) = Z.of_nat (size C) - 1.
Proof.
  intros Hx. rewrite size_difference by set_solver. rewrite size_singleton.
  assert (size C <> 0%nat); [|lia]. rewrite size_non_empty_iff. set_solver.
Qed.

(** A slot that is cleared is counted. *)
Lemma refund_covers clears s a k : refund_ok clears s -> cleared s a k -> 0 <= clears -> clears <= refund s.
Proof.
  intros (C & HC & Hr) Hc Hp. apply HC in Hc. pose proof (size_remove C (a, k) Hc). nia.
Qed.

(** Once the slot is written, the counter covers the cleared slots again. *)
Lemma refund_written clears s s' a k v : db_ok s -> unmoved s s' -> exists_at s a -> 0 <= clears ->
  refund_ok clears s -> refund s + write_delta clears (committed_at s a k) (value_at s a k) v <= refund s' ->
  refund_ok clears (SetState a k v s').
Proof.
  intros Hok U He Hp (C & HC & Hr) Hd. pose proof (within_ok _ _ (un_within _ _ U) Hok) as Hok'.
  pose proof (wi_exist _ _ (un_within _ _ U) a He) as He'.
  destruct (SetState_fields a k v s' Hok' He') as [_ Er].
  assert (Hcl : forall b j, cleared (SetState a k v s') b j ->
    if decide ((b, j) = (a, k)) then v = zero_hash /\ committed_at s a k <> zero_hash else (b, j) ∈ C).
  { intros b j Hc. apply SetState_cleared in Hc; [|done|done]. case_decide.
    - by rewrite (proj2 (unmoved_values s s' a k U)) in Hc.
    - apply HC. by apply (unmoved_cleared s s'). }
  unfold write_delta in Hd. destruct (bool_decide_reflect (committed_at s a k = zero_hash)) as [Ho|Ho].
  { exists C. rewrite Er. split; [|lia]. intros b j Hc. apply Hcl in Hc. case_decide; [|done]. by destruct Hc. }
  destruct (bool_decide_reflect (value_at s a k = zero_hash)) as [Hv|Hv].
  - assert (Hin : (a, k) ∈ C) by (apply HC, cleared_values; auto).
    destruct (bool_decide_reflect (v = zero_hash)) as [Hz|Hz].
    + exists C. rewrite Er. split; [|lia]. intros b j Hc. apply Hcl in Hc. case_decide as D; [|done]. by rewrite D.
    + exists (C ∖ {[(a, k)]}). rewrite Er, size_remove by done. split; [|lia].
      intros b j Hc. apply Hcl in Hc. case_decide; [by destruct Hc|]. set_solver.
  - destruct (bool_decide_reflect (v = zero_hash)) as [Hz|Hz].
    + exists ({[(a, k)]} ∪ C). rewrite Er. split.
      * intros b j Hc. apply Hcl in Hc. case_decide as D; [rewrite D; set_solver|set_solver].
      * assert (size ({[(a, k)]} ∪ C) <= S (size C))%nat; [|nia].
        rewrite size_union_alt, size_singleton. pose proof (subseteq_size (C ∖ {[(a, k)]}) C ltac:(set_solver)). lia.
    + exists C. rewrite Er. split; [|lia]. intros b j Hc. apply Hcl in Hc. case_decide; [|done]. by destruct Hc.
Qed.
End slots.

Lemma Bytes32_zero y : word y -> Bytes32 y = zero_hash <-> y = 0.
Proof.
  intros [Hy0 Hy]. split; [|by intros ->]. change zero_hash with (Bytes32 0). unfold Bytes32.
  assert (Hb : forall n, big_endian n y = big_endian n 0 -> y mod 2 ^ (8 * Z.of_nat n) = 0).
  { induction n as [|n IH]; [intros _; apply Z.mod_1_r|]. cbn [big_endian]. intros [= Hc Hn]. specialize (IH Hn).
    set (q := 2 ^ (8 * Z.of_nat n)) in *. assert (0 < q) by (subst q; apply Z.pow_pos_nonneg; lia).
    assert (Hq : y / q mod 256 = 0).
    { apply (f_equal Ascii.N_of_ascii) in Hc.
      pose proof (Z.mod_pos_bound (y / q) 256 ltac:(lia)). rewrite !Ascii.N_ascii_embedding in Hc by (simpl; lia). simpl in Hc. lia. }
    replace (2 ^ (8 * Z.of_nat (S n))) with (q * 256).
    - rewrite Z.rem_mul_r by lia. rewrite IH, Hq. lia.
    - subst q. rewrite Nat2Z.inj_succ. change 256 with (2 ^ 8). rewrite <- Z.pow_add_r by lia. f_equal. lia. }
  intros E. specialize (Hb 32%nat E). rewrite Z.mod_small in Hb; [done|]. change (8 * Z.of_nat 32) with 256. lia.
Qed.

Section sstore.
Context {W P : Type} `{StateKeeper W, Keccak, EthAddresses, PrecompiledContracts W P}.
Context (mt : Metering).
Implicit Types e : EVM W P.
Implicit Types m : Machine W P.

Abbreviation gas_left m := (c_Gas (m_contract m)).
Abbreviation db m := (evm_StateDB (m_evm m)).

(** A cost with a counter that a write of [v] to the slot [k] of [a] leaves right. *)
Definition store_cost (m : Machine W P) (a : Address) (k v : Hash) (c : Z) (e : EVM W P) : Prop :=
  100 <= c /\ unmoved (db m) (evm_StateDB e) /\
  (c <= gas_left m ->
     refund (db m) + write_delta (clears mt) (committed_at (db m) a k) (value_at (db m) a k) v
       <= refund (evm_StateDB e) <= refund (db m) + refund_rate * c).

Lemma store_done e pc mem st c e' a k v cost : gas_ok (c_Gas c) -> 100 <= cost ->
  unmoved (evm_StateDB e) (evm_StateDB e') -> depth e' = depth e -> in_readOnly e' = in_readOnly e ->
  (cost <= c_Gas c ->
     refund (evm_StateDB e) + write_delta (clears mt) (committed_at (evm_StateDB e) a k) (value_at (evm_StateDB e) a k) v
       <= refund (evm_StateDB e') <= refund (evm_StateDB e) + refund_rate * cost) ->
  gas_post (store_cost (mkMachine e pc mem st c) a k v) (mkMachine e pc mem st c) 0 (inl cost) (mkMachine e' pc mem st c).
Proof.
  intros [Hg _] Hc U Hd Hr Href. split.
  - split; simpl; try done; [by destruct c|split; [apply U|done|done]].
  - split; [lia|]. split; [done|]. split; [apply fee_nothing|]. done.
Qed.

(** ** Steps on the counter *)

Lemma wpe_add_refund x (Q : unit + err -> Machine W P -> Prop) e pc mem st c : evm_ok e ->
  (forall s, unmoved (evm_StateDB e) s -> db_ok s -> refund s = u64_add (refund (evm_StateDB e)) x ->
     Q (inl tt) (mkMachine (with_db s e) pc mem st c)) ->
  wpe (add_refund x) Q (mkMachine e pc mem st c).
Proof.
  intros Hok HQ. set (s := AddRefund x (evm_StateDB e)).
  assert (Hw : within (evm_StateDB e) s).
  { apply within_ext; [apply step_AddRefund|apply AddRefund_ext, Hok|done|]. intros a.
    by rewrite (lookup_same (evm_StateDB e) s). }
  apply (HQ s); [by apply unmoved_fields|by eapply within_ok|done].
Qed.

Lemma wpe_sub_refund x (Q : unit + err -> Machine W P -> Prop) e pc mem st c : evm_ok e ->
  0 <= x <= refund (evm_StateDB e) -> refund (evm_StateDB e) < 2 ^ 64 ->
  (forall s, unmoved (evm_StateDB e) s -> db_ok s -> refund s = refund (evm_StateDB e) - x ->
     Q (inl tt) (mkMachine (with_db s e) pc mem st c)) ->
  wpe (sub_refund x) Q (mkMachine e pc mem st c).
Proof.
  intros Hok Hx Hu HQ. unfold wpe, sub_refund, evm_do, db_try. simpl.
  destruct (SubRefund x (evm_StateDB e)) as [s| |] eqn:E; unfold SubRefund in E; simpl in E;
    destruct (Z.ltb_spec (refund (evm_StateDB e)) x); try lia; try done.
  assert (Er : u64_sub (refund (evm_StateDB e)) x = refund (evm_StateDB e) - x) by (apply wrap_u64_id; lia).
  assert (Hs : SubRefund x (evm_StateDB e) = Ok s).
  { unfold SubRefund. simpl. destruct (Z.ltb_spec (refund (evm_StateDB e)) x); [lia|done]. }
  injection E as <-. set (s := with_refund _ _) in *.
  assert (Hw : within (evm_StateDB e) s).
  { apply within_ext; [by eapply step_SubRefund|eapply SubRefund_ext; [apply Hok|done]|done|]. intros a.
    by rewrite (lookup_same (evm_StateDB e) s). }
  apply HQ; [by apply unmoved_fields|by eapply within_ok|done].
Qed.
(** ** Net metering *)

Section metering.
Context (n : nat) (B : Z) (e : EVM W P) (pc : Z) (mem : Memory) (st : Stack) (c : Contract).
Context (Hm : machine_ok mt n B (mkMachine e pc mem st c)) (Hclears : 0 <= clears mt <= 15000).

Local Abbreviation s0 := (evm_StateDB e).
Local Abbreviation a := (self c).

(** The state of a gas function of SSTORE, with the counter at [r]. *)
Definition metering (e1 : EVM W P) (r : Z) : Prop :=
  unmoved s0 (evm_StateDB e1) /\ evm_ok e1 /\ depth e1 = depth e /\ in_readOnly e1 = in_readOnly e /\
  refund (evm_StateDB e1) = r.

Lemma metering_step e1 r s r' : metering e1 r -> unmoved (evm_StateDB e1) s -> db_ok s -> refund s = r' ->
  metering (with_db s e1) r'.
Proof. intros (U & K & D & R & _) Us Ks Er. split_and!; try done. simpl. by etransitivity. Qed.

Lemma metering_done e1 k v cost r : metering e1 r -> 100 <= cost ->
  (cost <= c_Gas c -> refund s0 + write_delta (clears mt) (committed_at s0 a k) (value_at s0 a k) v <= r
     <= refund s0 + refund_rate * cost) ->
  gas_post (store_cost (mkMachine e pc mem st c) a k v) (mkMachine e pc mem st c) 0 (inl cost) (mkMachine e1 pc mem st c).
Proof.
  intros (U & K & D & R & E) Hc Hr. apply store_done; try done; [apply (mk_contract _ _ _ _ Hm)|].
  by rewrite E.
Qed.

(** The counter has room for what an instruction that can be paid for adds. *)
Lemma refund_room x cost r : 0 <= x <= refund_rate * cost -> cost <= c_Gas c -> 0 <= r <= refund s0 ->
  u64_add r x = r + x.
Proof.
  intros Hx Hc Hr. destruct (mk_pre _ _ _ _ Hm) as [_ _ _ [_ Hn Hb] Hf].
  cbn [m_contract m_evm] in *. unfold refund_rate, SelfdestructRefundGas in *. apply wrap_u64_id. lia.
Qed.

Lemma wpe_dirty e1 k v rz rs dirty : metering e1 (refund s0) -> 100 <= dirty -> 0 <= rz <= 20000 -> 0 <= rs <= 20000 ->
  committed_at s0 a k <> value_at s0 a k -> value_at s0 a k <> v ->
  wpe (dirty_refunds (clears mt) rz rs (committed_at s0 a k) (value_at s0 a k) v;; mret dirty)
    (gas_post (store_cost (mkMachine e pc mem st c) a k v) (mkMachine e pc mem st c) 0) (mkMachine e1 pc mem st c).
Proof.
  intros M1 Hd Hrz Hrs Hoc Hcv. destruct (mk_pre _ _ _ _ Hm) as [_ _ _ [Hrok Hn Hb] Hf]. cbn [m_contract m_evm] in *.
  destruct (mk_contract _ _ _ _ Hm) as [[Hg _] _ _]. cbn [m_contract] in Hg.
  assert (Hu : refund s0 < 2 ^ 64) by (unfold refund_rate, SelfdestructRefundGas in *; lia).
  apply wpe_bind. unfold dirty_refunds. apply wpe_bind.
  (* the refund of a slot that had a value, and the one of a slot that is restored *)
  set (d := write_delta (clears mt) (committed_at s0 a k) (value_at s0 a k) v).
  eapply (wpe_mono _ (fun r m1 => exists e2 r2, r = inl tt /\ m1 = mkMachine e2 pc mem st c /\ metering e2 r2 /\
    (dirty <= c_Gas c -> r2 = refund s0 + d) /\ (committed_at s0 a k = v -> r2 <= refund s0))).
  2:{ subst d. unfold write_delta. destruct (bool_decide_reflect (committed_at s0 a k = zero_hash)) as [Ho|Ho].
      { exists e1, (refund s0). split_and!; try done; lia. }
      destruct (bool_decide_reflect (value_at s0 a k = zero_hash)) as [Hv|Hv].
      - rewrite bool_decide_false by congruence.
        assert (Hcov : clears mt <= refund s0).
        { eapply refund_covers; [exact Hrok| |lia]. apply cleared_values; [apply (mk_runs _ _ _ _ Hm)|done]. }
        destruct M1 as (U & K & D & R & E). apply wpe_sub_refund; [done|rewrite E; lia|rewrite E; lia|].
        intros s Us Ks Er. rewrite E in Er. exists (with_db s e1), (refund s0 - clears mt).
        split_and!; [done|done| |lia|lia]. by apply (metering_step e1 (refund s0)).
      - destruct (bool_decide_reflect (v = zero_hash)) as [Hz|Hz].
        + apply wpe_add_refund; [apply M1|]. intros s Us Ks Er. rewrite (proj2 (proj2 (proj2 (proj2 M1)))) in Er.
          exists (with_db s e1), (u64_add (refund s0) (clears mt)). split_and!; [done|done| | |].
          * by apply (metering_step e1 (refund s0)).
          * intros Hc. apply (refund_room _ dirty); [unfold refund_rate; lia|done|lia].
          * congruence.
        + exists e1, (refund s0). split_and!; try done; lia. }
  intros r m1 (e2 & r2 & -> & -> & M2 & Hr2 & Hle).
  assert (Hd2 : - 15000 <= d <= 15000) by (subst d; unfold write_delta; repeat case_bool_decide; lia).
  assert (Hadd : forall x, 0 <= x <= 20000 -> committed_at s0 a k = v ->
    wpe (add_refund x) (fun r s' => match r with
       | inl _ => wpe (mret dirty) (gas_post (store_cost (mkMachine e pc mem st c) a k v) (mkMachine e pc mem st c) 0) s'
       | inr y => gas_post (store_cost (mkMachine e pc mem st c) a k v) (mkMachine e pc mem st c) 0 (inr y) s' end)
      (mkMachine e2 pc mem st c)).
  { intros x Hx Heq. specialize (Hle Heq). apply wpe_add_refund; [apply M2|]. intros s Us Ks Er.
    rewrite (proj2 (proj2 (proj2 (proj2 M2)))) in Er. apply (metering_done _ _ _ _ (u64_add r2 x)); [|done|].
    - by apply (metering_step e2 r2).
    - intros Hc. specialize (Hr2 Hc). fold d.
      assert (0 <= r2).
      { subst d. unfold write_delta in Hr2. revert Hr2. repeat case_bool_decide; try lia.
        assert (clears mt <= refund s0); [|lia]. eapply refund_covers; [exact Hrok| |lia].
        apply cleared_values; [apply (mk_runs _ _ _ _ Hm)|done]. }
      rewrite (refund_room x dirty) by (unfold refund_rate; lia). unfold refund_rate. lia. }
  destruct (bool_decide_reflect (committed_at s0 a k = v)) as [Hov|Hov].
  - destruct (bool_decide _); by apply Hadd.
  - apply (metering_done _ _ _ _ r2); [done|done|]. intros Hc. specialize (Hr2 Hc). fold d. unfold refund_rate. lia.
Qed.

Lemma wpe_net e1 k v noop init clean dirty rz rs : metering e1 (refund s0) ->
  100 <= noop -> 100 <= init -> 100 <= clean -> 100 <= dirty -> 0 <= rz <= 20000 -> 0 <= rs <= 20000 ->
  wpe (net_metering a k noop init clean dirty (clears mt) rz rs (value_at s0 a k) v)
    (gas_post (store_cost (mkMachine e pc mem st c) a k v) (mkMachine e pc mem st c) 0) (mkMachine e1 pc mem st c).
Proof.
  intros M1 Hno Hin Hcl Hdi Hrz Hrs. unfold net_metering.
  destruct (bool_decide_reflect (value_at s0 a k = v)) as [Heq|Hne].
  { apply (metering_done _ _ _ _ (refund s0)); [done|done|]. intros _. unfold write_delta. rewrite <- Heq.
    repeat case_bool_decide; unfold refund_rate; try lia; congruence. }
  apply wpe_bind, wpe_read; [auto with statedb|apply M1|]. intros original s1 E1 S1 C1 K1.
  pose proof (GetCommittedState_value a k _ (proj1 (proj2 M1))) as Ev. rewrite E1 in Ev. simpl in Ev.
  rewrite (proj2 (unmoved_values _ _ a k (proj1 M1))) in Ev. subst original.
  assert (M2 : metering (with_db s1 e1) (refund s0)).
  { apply (metering_step e1 (refund s0)); [done|apply unmoved_same; [done|apply C1]|done|].
    rewrite (ca_refund _ _ C1). apply M1. }
  destruct (bool_decide_reflect (committed_at s0 a k = value_at s0 a k)) as [Hoc|Hoc]; [|by apply wpe_dirty].
  destruct (bool_decide_reflect (committed_at s0 a k = zero_hash)) as [Ho|Ho].
  { apply (metering_done _ _ _ _ (refund s0)); [done|done|]. intros _. unfold write_delta, refund_rate.
    rewrite bool_decide_true by done. lia. }
  apply wpe_bind. destruct (bool_decide_reflect (v = zero_hash)) as [Hz|Hz].
  - apply wpe_add_refund; [apply M2|]. intros s Us Ks Er. rewrite (proj2 (proj2 (proj2 (proj2 M2)))) in Er.
    apply (metering_done _ _ _ _ (u64_add (refund s0) (clears mt))); [|done|].
    + by apply (metering_step (with_db s1 e1) (refund s0)).
    + intros Hc. destruct (mk_pre _ _ _ _ Hm) as [_ _ _ [_ Hn _] _]. cbn [m_contract m_evm] in *.
      rewrite (refund_room _ clean) by (unfold refund_rate; lia).
      unfold write_delta, refund_rate. rewrite !bool_decide_false, bool_decide_true by congruence. lia.
  - apply (metering_done _ _ _ _ (refund s0)); [done|done|]. intros _. unfold write_delta, refund_rate.
    rewrite !bool_decide_false by congruence. lia.
Qed.
End metering.
(** ** The gas functions *)

(** A gas function of SSTORE. *)
Definition gas_store (dyn : Z -> M (Machine W P) Z) : Prop :=
  forall n B e pc mem x y st c, machine_ok mt n B (mkMachine e pc mem (x :: y :: st) c) -> word x -> word y ->
    wpe (dyn 0) (gas_post (store_cost (mkMachine e pc mem (x :: y :: st) c) (self c) (Bytes32 x) (Bytes32 y))
                   (mkMachine e pc mem (x :: y :: st) c) 0) (mkMachine e pc mem (x :: y :: st) c).

Lemma metering_start n B e pc mem st c : machine_ok mt n B (mkMachine e pc mem st c) -> metering e e (refund (evm_StateDB e)).
Proof. intros Hm. split_and!; try done. apply (mk_pre _ _ _ _ Hm). Qed.

Lemma wpe_current n B e pc mem st c k (Q : Hash + err -> Machine W P -> Prop) :
  machine_ok mt n B (mkMachine e pc mem st c) ->
  (forall s, metering e (with_db s e) (refund (evm_StateDB e)) -> calm (evm_StateDB e) s ->
     Q (inl (value_at (evm_StateDB e) (self c) k)) (mkMachine (with_db s e) pc mem st c)) ->
  wpe (in_db (GetState (self c) k)) Q (mkMachine e pc mem st c).
Proof.
  intros Hm HQ. pose proof (metering_start _ _ _ _ _ _ _ Hm) as M1.
  apply wpe_read; [auto with statedb|apply M1|]. intros v s E S1 C1 K1.
  pose proof (GetState_value (self c) k _ (proj1 (proj2 M1))) as Ev. rewrite E in Ev. simpl in Ev. subst v.
  apply HQ; [|done]. apply (metering_step e e (refund (evm_StateDB e))); [done|apply unmoved_same; [done|apply C1]|done|apply C1].
Qed.

Lemma gas_store_legacy rules : clears mt = 15000 -> gas_store (gasSStore rules).
Proof.
  intros Hcl n B e pc mem x y st c Hm Hx Hy. unfold gasSStore. do 3 (apply wpe_bind; cbn).
  eapply wpe_bind, wpe_current; [exact Hm|]. intros s1 M2 C1. destruct (_ || _).
  - destruct (mk_pre _ _ _ _ Hm) as [_ _ _ [_ Hn _] _]. cbn [m_contract m_evm] in *.
    pose proof (Bytes32_zero y Hy) as Hz. unfold SstoreSetGas, SstoreRefundGas, SstoreClearGas, SstoreResetGas.
    destruct (bool_decide_reflect (value_at (evm_StateDB e) (self c) (Bytes32 x) = zero_hash)) as [Hv|Hv],
      (Z.eqb_spec y 0) as [Ey|Ey]; cbv beta iota delta [andb negb].
    + apply (metering_done n B e pc mem _ c Hm (with_db s1 e) (Bytes32 x) (Bytes32 y) 5000 (refund (evm_StateDB e))); [done|lia|]. intros _.
      unfold write_delta, refund_rate. rewrite (bool_decide_true (Bytes32 y = _)) by tauto. repeat case_bool_decide; try done; lia.
    + apply (metering_done n B e pc mem _ c Hm (with_db s1 e) (Bytes32 x) (Bytes32 y) 20000 (refund (evm_StateDB e))); [done|lia|]. intros _.
      unfold write_delta, refund_rate. rewrite (bool_decide_false (Bytes32 y = _)) by tauto. repeat case_bool_decide; try done; lia.
    + apply wpe_bind, wpe_add_refund; [apply M2|]. intros s Us Ks Er. rewrite (proj2 (proj2 (proj2 (proj2 M2)))) in Er.
      apply (metering_done n B e pc mem _ c Hm (with_db s (with_db s1 e)) (Bytes32 x) (Bytes32 y) 5000 (u64_add (refund (evm_StateDB e)) 15000)); [|lia|].
      { by apply (metering_step e (with_db s1 e) (refund (evm_StateDB e))). }
      intros Hc. rewrite (refund_room n B e pc mem _ c Hm 15000 5000) by (unfold refund_rate; lia || done).
      unfold write_delta, refund_rate. rewrite Hcl. repeat case_bool_decide; try done; lia.
    + apply (metering_done n B e pc mem _ c Hm (with_db s1 e) (Bytes32 x) (Bytes32 y) 5000 (refund (evm_StateDB e))); [done|lia|]. intros _.
      unfold write_delta, refund_rate. rewrite (bool_decide_false (Bytes32 y = _)) by tauto. repeat case_bool_decide; try done; lia.
  - unfold NetSstoreClearRefund. rewrite <- Hcl. by apply (wpe_net n B); first [done|lia].
Qed.

Lemma gas_store_2200 : clears mt = 15000 -> gas_store gasSStoreEIP2200.
Proof.
  intros Hcl n B e pc mem x y st c Hm Hx Hy. unfold gasSStoreEIP2200. apply wpe_bind. cbn.
  destruct (_ <=? _); [apply gas_error; [apply (mk_contract _ _ _ _ Hm)|reflexivity|done]|].
  do 2 (apply wpe_bind; cbn). eapply wpe_bind, wpe_current; [exact Hm|]. intros s1 M2 C1.
  unfold SstoreClearsScheduleRefundEIP2200. rewrite <- Hcl. by apply (wpe_net n B); first [done|lia].
Qed.

(** Under EIP-2929 the running account must be listed. *)
Lemma gas_store_2929 : lists_accounts mt = true -> 0 <= clears mt <= 15000 -> gas_store (makeGasSStoreFunc (clears mt)).
Proof.
  intros Hl Hcl n B e pc mem x y st c Hm Hx Hy. unfold makeGasSStoreFunc. apply wpe_bind. cbn.
  destruct (_ <=? _); [apply gas_error; [apply (mk_contract _ _ _ _ Hm)|reflexivity|done]|].
  do 2 (apply wpe_bind; cbn). eapply wpe_bind, wpe_current; [exact Hm|]. intros s1 M2 C1.
  apply wpe_bind, wpe_slot_listed; [apply M2|]. intros [ap sp] Ecn. apply wpe_bind.
  assert (Hap : ap = true).
  { pose proof (wi_warm _ _ (ca_within _ _ C1) _ (proj1 (mk_runs _ _ _ _ Hm) Hl)) as Hwm. cbn [m_contract] in Hwm.
    revert Ecn Hwm. cbn [evm_StateDB with_db]. unfold Contains, ContainsAddress.
    destruct (addresses (access s1) !! self c) as [i|]; [|done]. destruct (i =? -1); [by intros [= <- _]|].
    destruct (slot_at _ _); [by intros [= <- _]|done]. }
  subst ap. destruct sp.
  - by apply (wpe_net n B); first [done|lia].
  - apply wpe_bind, wpe_list_slot; [apply M2|]. intros s2 C2 K2 Eo Ec. cbn [evm_StateDB with_db] in *.
    assert (M3 : metering e (with_db s2 (with_db s1 e)) (refund (evm_StateDB e))).
    { apply (metering_step e (with_db s1 e) (refund (evm_StateDB e))); [done|apply unmoved_fields; [apply C2|done|done]|done|].
      rewrite (ca_refund _ _ C2). apply C1. }
    by apply (wpe_net n B); first [done|unfold WarmStorageReadCostEIP2929, SstoreSetGasEIP2200, SstoreResetGasEIP2200, ColdSloadCostEIP2929; lia].
Qed.
(** ** The instruction *)

(** A machine whose StateDB has moved on, with a counter within the bound. *)
Lemma machine_move n B e pc mem st c e' pc' mem' st' gas : machine_ok mt n B (mkMachine e pc mem st c) ->
  evolves e e' -> bound mt B gas (evm_StateDB e') -> 0 <= gas <= c_Gas c ->
  Forall word st' -> Z.of_nat (length st') <= StackLimit -> mem_ok mem' ->
  machine_ok mt n B (mkMachine e' pc' mem' st' (set_gas gas c)).
Proof.
  intros [[K D G _ F] [Hcg Hv Hi] Hr _ _ _] [Hw Hd _] Hb Hg Hst Hl Hm. unfold gas_ok in *. cbn [m_contract m_evm] in *.
  split; simpl; try done.
  - split; try done; [by eapply within_ok|by rewrite Hd|unfold gas_ok; lia].
  - split; simpl; [unfold gas_ok; lia|done|done].
  - eapply may_run_within; [apply Hw|done].
Qed.

Lemma op_sstore k gas dyn : 0 <= gas -> 0 <= clears mt -> gas_store dyn -> op_ok mt k (metered opSstore gas dyn 2 0).
Proof.
  intros Hgas Hcl Hdyn. split; [done|]. intros n B calls m Hc Hm Hop Hst Hg. cbn [minStack maxStack metered] in Hst. simpl in Hg.
  apply wpe_attempt.
  pose proof (machine_paid mt n B m gas Hm (conj Hgas Hg)) as Hm1. destruct m as [e pc mem st c].
  cbn [m_stack m_contract] in *. pose proof (mk_stack _ _ _ _ Hm) as Hw. cbn [m_stack] in Hw.
  destruct st as [|x [|y st]]; [cbn in Hst; unfold minStack_of in Hst; lia|cbn in Hst; unfold minStack_of in Hst; lia|].
  apply list.Forall_cons in Hw as [Hx [Hy Hw]%list.Forall_cons].
  cbn [m_evm m_pc m_mem m_stack with_contract m_contract] in *. set (c1 := set_gas (c_Gas c - gas) c) in *.
  set (m1 := mkMachine e pc mem (x :: y :: st) c1) in *.
  pose proof (co_gas _ (mk_contract _ _ _ _ Hm)) as [Hg0 _]. cbn [m_contract] in Hg0.
  apply wpe_bind. eapply wpe_mono; [|eapply (wpe_charge_dynamic mt (store_cost m1 (self c1) (Bytes32 x) (Bytes32 y))
    opSstore gas dyn _ _ None n B m1); [done|done|]].
  2:{ intros size _ _ ->; [|done]. by apply (Hdyn n B). }
  intros [u|z] m2; cycle 1.
  { intros (Hz & Hev & Hg2). simpl in Hg2. split_and!; [done|simpl; lia|simpl; lia|done]. }
  intros [(cost & Hco & (H100 & U & Hr) & Eco) Est Epc Hmo _ [Wev Dev Rev]]. destruct m2 as [e2 pc2 mem2 st2 c2].
  cbn [m_evm m_pc m_mem m_stack m_contract] in *. subst st2 pc2 c2. cbn [metered execute]. simpl in Hco.
  specialize (Hr ltac:(simpl; lia)). subst m1. cbn [m_evm] in *.
  unfold opSstore. apply wpe_bind. cbn. destruct (in_readOnly e2) eqn:Ero.
  { split_and!; simpl; [split; simpl; congruence || done|lia|lia|done]. }
  do 3 (apply wpe_bind; cbn). set (s3 := SetState (self c) (Bytes32 x) (Bytes32 y) (evm_StateDB e2)).
  destruct (mk_pre _ _ _ _ Hm) as [K _ _ [Hrok Hn Hb] _]. cbn [m_contract m_evm] in *.
  destruct (mk_runs _ _ _ _ Hm) as [_ He]. cbn [m_contract m_evm] in He.
  destruct (SetState_fields (self c) (Bytes32 x) (Bytes32 y) (evm_StateDB e2)) as [W3 R3];
    [eapply within_ok; [exact Wev|exact K]|by apply (wi_exist _ _ Wev)|]. fold s3 in W3, R3.
  assert (Hrok3 : refund_ok (clears mt) s3).
  { apply (refund_written (clears mt) (evm_StateDB e)); try done. apply Hr. }
  assert (Hev : evolves e (with_db s3 e2)) by (split; simpl; [by etransitivity|done|congruence]).
  assert (Hb3 : bound mt B (c_Gas c - gas - cost) s3).
  { split; [done| |unfold refund_rate in *; lia]. destruct Hrok3 as (C & _ & HC). nia. }
  split; [done|]. split; [simpl; lia|]. split; [simpl; lia|].
  change (set_gas (c_Gas c - gas - cost) c1) with (set_gas (c_Gas c - gas - cost) c).
  apply (machine_move n B e pc mem (x :: y :: st) c); try done; [lia|]. cbn [length m_stack with_stack] in *. unfold maxStack_of, StackLimit in *. lia.
Qed.

(** ** SELFDESTRUCT *)

(** The cost, with a counter that has at most the refund of a selfdestruct more. *)
Definition destruct_cost (m : Machine W P) (c : Z) (e : EVM W P) : Prop :=
  unmoved (db m) (evm_StateDB e) /\
  refund (db m) <= refund (evm_StateDB e) <= refund (db m) + SelfdestructRefundGas.

Definition gas_destruct (dyn : Z -> M (Machine W P) Z) : Prop :=
  forall n B m, machine_ok mt n B m -> (1 <= length (m_stack m))%nat ->
    wpe (dyn 0) (gas_post (destruct_cost m) m 0) m.

(** The refund of an account that has not been destroyed yet. *)
Lemma wpe_destruct_refund n B e pc mem st c e1 (refunds : bool) cost : machine_ok mt n B (mkMachine e pc mem st c) ->
  metering e e1 (refund (evm_StateDB e)) -> 0 <= cost ->
  wpe (d ← (if refunds then in_db (HasSuicided (self c)) else mret true);
       (if d : bool then mret tt else add_refund SelfdestructRefundGas);; mret cost)
    (gas_post (destruct_cost (mkMachine e pc mem st c)) (mkMachine e pc mem st c) 0) (mkMachine e1 pc mem st c).
Proof.
  intros Hm M1 Hc. destruct (mk_contract _ _ _ _ Hm) as [[Hg _] _ _].
  destruct (mk_pre _ _ _ _ Hm) as [_ _ _ [_ Hn Hb] Hf]. cbn [m_contract m_evm] in *.
  assert (Hend : forall e2 r, metering e e2 r -> refund (evm_StateDB e) <= r <= refund (evm_StateDB e) + SelfdestructRefundGas ->
    gas_post (destruct_cost (mkMachine e pc mem st c)) (mkMachine e pc mem st c) 0 (inl cost) (mkMachine e2 pc mem st c)).
  { intros e2 r (U & K & D & R & E) Hr. split.
    - split; simpl; try done; [by destruct c|split; [apply U|done|done]].
    - split; [done|]. split; [done|]. split; [apply fee_nothing|]. split; [done|]. simpl. by rewrite E. }
  apply wpe_bind. destruct refunds; [|apply (Hend e1 _ M1); unfold SelfdestructRefundGas; lia].
  apply wpe_read; [apply HasSuicided_reader|apply M1|]. intros d s _ S C K.
  assert (M2 : metering e (with_db s e1) (refund (evm_StateDB e))).
  { apply (metering_step e e1 (refund (evm_StateDB e))); [done|apply unmoved_same; [done|apply C]|done|].
    rewrite (ca_refund _ _ C). apply M1. }
  destruct d; [apply (Hend _ _ M2); unfold SelfdestructRefundGas; lia|].
  apply wpe_bind, wpe_add_refund; [apply M2|]. intros s2 U2 K2 E2. rewrite (proj2 (proj2 (proj2 (proj2 M2)))) in E2.
  apply (Hend _ (u64_add (refund (evm_StateDB e)) SelfdestructRefundGas)).
  - by apply (metering_step e (with_db s e1) (refund (evm_StateDB e))).
  - unfold SelfdestructRefundGas, refund_rate in *. assert (u64_add (refund (evm_StateDB e)) 24000 = refund (evm_StateDB e) + 24000) as ->; [|lia].
    apply wrap_u64_id. lia.
Qed.
(** A read in a gas function. *)
Lemma wpe_metered_read {A} (f : StateDB W -> A * StateDB W) e e1 r pc mem st c (Q : A + err -> Machine W P -> Prop) :
  reader f -> metering e e1 r ->
  (forall x s, metering e (with_db s e1) r -> Q (inl x) (mkMachine (with_db s e1) pc mem st c)) ->
  wpe (in_db f) Q (mkMachine e1 pc mem st c).
Proof.
  intros Hf M1 HQ. apply wpe_read; [done|apply M1|]. intros x s _ S C K. apply HQ.
  apply (metering_step e e1 r); [done|apply unmoved_same; [done|apply C]|done|]. rewrite (ca_refund _ _ C). apply M1.
Qed.

Lemma gas_destruct_legacy rules : gas_destruct (gasSelfdestruct rules).
Proof.
  intros n B [e pc mem st c] Hm Hst. cbn [m_stack] in Hst. destruct st as [|x st]; [simpl in Hst; lia|].
  pose proof (metering_start _ _ _ _ _ _ _ Hm) as M1. unfold gasSelfdestruct. apply wpe_bind. cbn.
  unfold SelfdestructGasEIP150, CreateBySelfdestructGas. apply wpe_bind.
  assert (Hend : forall e1 cost, metering e e1 (refund (evm_StateDB e)) -> 0 <= cost ->
    wpe (d ← in_db (HasSuicided (self c)); (if d : bool then mret tt else add_refund SelfdestructRefundGas);; mret cost)
      (gas_post (destruct_cost (mkMachine e pc mem (x :: st) c)) (mkMachine e pc mem (x :: st) c) 0)
      (mkMachine e1 pc mem (x :: st) c)).
  { intros e1 cost M Hc. by apply (wpe_destruct_refund n B e pc mem (x :: st) c e1 true cost). }
  destruct (IsEIP150 rules); [|by apply Hend]. apply wpe_bind. cbn. destruct (IsEIP158 rules).
  - eapply wpe_bind, (wpe_metered_read _ e e); [apply Empty_reader|done|]. intros b s M2. apply wpe_bind. destruct b.
    + eapply wpe_metered_read; [apply GetBalance_reader|done|]. intros z s2 M3. apply Hend; [done|]. destruct (_ && _); lia.
    + by apply Hend.
  - eapply wpe_bind, (wpe_metered_read _ e e); [apply Exist_reader|done|]. intros b s M2.
    apply Hend; [done|]. destruct b; lia.
Qed.

Lemma gas_destruct_2929 refunds : gas_destruct (makeSelfdestructGasFn refunds).
Proof.
  intros n B [e pc mem st c] Hm Hst. cbn [m_stack] in Hst. destruct st as [|x st]; [simpl in Hst; lia|].
  pose proof (metering_start _ _ _ _ _ _ _ Hm) as M1. unfold makeSelfdestructGasFn. do 3 (apply wpe_bind; cbn).
  assert (Hend : forall e1 cost, metering e e1 (refund (evm_StateDB e)) -> 0 <= cost ->
    wpe (b ← in_db (Empty (Bytes20 x));
         z ← (if b : bool then in_db (GetBalance (self c)) else mret 0);
         let gas := if b && negb (z =? 0) then cost + CreateBySelfdestructGas else cost in
         d ← (if refunds then in_db (HasSuicided (self c)) else mret true);
         (if d : bool then mret tt else add_refund SelfdestructRefundGas);; mret gas)
      (gas_post (destruct_cost (mkMachine e pc mem (x :: st) c)) (mkMachine e pc mem (x :: st) c) 0)
      (mkMachine e1 pc mem (x :: st) c)).
  { intros e1 cost M2 Hc. eapply wpe_bind, wpe_metered_read; [apply Empty_reader|done|]. intros b s M3. apply wpe_bind.
    destruct b.
    - eapply wpe_metered_read; [apply GetBalance_reader|done|]. intros z s2 M4. apply (wpe_destruct_refund n B); [done|done|].
      unfold CreateBySelfdestructGas. destruct (_ && _); lia.
    - by apply (wpe_destruct_refund n B). }
  apply wpe_bind. destruct (ContainsAddress _ _); [by apply Hend|].
  apply wpe_bind, wpe_list_address; [apply M1|]. intros s C K _ Eo Ec. apply Hend; [|unfold ColdAccountAccessCostEIP2929; lia].
  apply (metering_step e e (refund (evm_StateDB e))); [done|apply unmoved_fields; [apply C|done|done]|done|apply C].
Qed.

Lemma op_selfdestruct k gas dyn : 0 <= gas -> gas_destruct dyn -> op_ok mt k (metered opSelfdestruct gas dyn 1 0).
Proof.
  intros Hgas Hdyn. split; [done|]. intros n B calls m Hc Hm Hop Hst Hg. cbn [minStack maxStack metered] in Hst. simpl in Hg.
  apply wpe_attempt. pose proof (machine_paid mt n B m gas Hm (conj Hgas Hg)) as Hm1. destruct m as [e pc mem st c].
  cbn [m_stack m_contract m_evm m_pc m_mem with_contract] in *.
  destruct st as [|x st]; [cbn in Hst; unfold minStack_of in Hst; lia|]. set (c1 := set_gas (c_Gas c - gas) c) in *.
  pose proof (co_gas _ (mk_contract _ _ _ _ Hm)) as [Hg0 _]. cbn [m_contract] in Hg0.
  apply wpe_bind. eapply wpe_mono; [|eapply (wpe_charge_dynamic mt (destruct_cost (mkMachine e pc mem (x :: st) c1))
    opSelfdestruct gas dyn _ _ None n B); [exact Hm1|done|]].
  2:{ intros size _ _ ->; [|done]. apply (Hdyn n B); [done|simpl; lia]. }
  intros [u|z] m2; cycle 1.
  { intros (Hz & Hev & Hg2). simpl in Hg2. split_and!; [done|simpl; lia|simpl; lia|done]. }
  intros [(cost & Hco & [U Hr] & Eco) Est Epc _ _ Hev]. destruct m2 as [e2 pc2 mem2 st2 c2].
  cbn [m_evm m_pc m_mem m_stack m_contract] in *. subst st2 pc2 c2. cbn [metered execute]. simpl in Hco.
  unfold opSelfdestruct. apply wpe_bind. cbn. destruct (in_readOnly e2) eqn:Ero.
  { split_and!; simpl; [done|lia|lia|done]. }
  destruct (mk_pre _ _ _ _ Hm) as [K _ _ [Hrok Hn Hb] _]. cbn [m_contract m_evm] in *.
  assert (K2 : evm_ok e2) by (by apply (evolves_ok e)). do 2 (apply wpe_bind; cbn).
  apply wpe_bind, wpe_read; [auto with statedb|done|]. intros b s1 _ _ C1 K3.
  apply wpe_bind, wpe_write; [auto with statedb|done|]. cbn [evm_StateDB with_db]. intros s2 _ C2 K4.
  apply wpe_bind. pose proof (Suicide_writer (self c) s2 K4) as C3. cbn beta in C3.
  unfold wpe, in_db, evm_do, on_db. cbn [m_evm evm_StateDB with_db]. destruct (Suicide (self c) s2) as [d s3]. simpl in C3.
  assert (C : calm (evm_StateDB e2) s3) by (etransitivity; [exact C1|]; by etransitivity).
  split_and!; simpl; [|lia|lia|].
  - etransitivity; [exact Hev|]. split; [apply C|done|done].
  - intros _. eapply bound_calm; [exact C|]. split; [|lia|unfold refund_rate in *; lia].
    destruct Hrok as (X & HX & Hs). exists X. split; [|lia]. intros a' k' Hc'. apply HX. by apply (unmoved_cleared _ _ _ _ U).
Qed.
End sstore.
