(* ===== verification/EvmCallOps.v ===== *)
(** * The instructions that call and create

    A call hands over at most the gas that is paid for it, and at least 40 gas stay with the
    instruction: the counter stays within its bound when the callee destroys itself. *)

From S2P Require Import Prelude.
From S2P Require Import AccessList.
From S2P Require Import StateDB.
From S2P Require Import Precompile.
From S2P Require Import StateRevert.
From S2P Require Import EvmMachine.
From S2P Require Import EvmCode.
From S2P Require Import Evm.
From S2P Require Import EvmInstructions.
From S2P Require Import EvmGas.
From S2P Require Import EvmTable.
From S2P Require Import EvmDb.
From S2P Require Import EvmTheory.
From S2P Require Import EvmRun.
From S2P Require Import EvmOps.
From S2P Require Import EvmMemory.
From S2P Require Import EvmCopies.
From S2P Require Import EvmStorage.

Local Open Scope Z_scope.

#[local] Arguments Bytes20 : simpl never.

Lemma callGas_range eip150 available base cost r : word cost -> callGas eip150 available base cost = Ok r -> 0 <= r < 2 ^ 64.
Proof.
  intros [Hc _]. unfold callGas. pose proof (wrap_u64_range (available - base)) as Ha. fold (u64_sub available base) in Ha.
  set (a := u64_sub available base) in *. assert (0 <= a / 64 <= a).
  { split; [apply Z.div_pos; lia|apply Z.div_le_upper_bound; lia]. }
  destruct (_ && _); [intros [= <-]; lia|]. destruct (negb _); [done|]. intros [= <-]. apply wrap_u64_range.
Qed.

(** With EIP-150, the gas of a call and its base do not come near 2^64. *)
Lemma callGas_total available base cost r : word cost -> 0 <= available < 2 ^ 55 -> 0 <= base < 2 ^ 57 ->
  callGas true available base cost = Ok r -> base + r <= 2 ^ 64 - 2 ^ 56.
Proof.
  intros [Hc _] Hav Hb. unfold callGas, u64_sub, wrap_u64. rewrite andb_true_l.
  assert (Hcost : IsUint64 cost = true -> cost mod 2 ^ 64 = cost).
  { unfold IsUint64. intros Hu. apply Z.mod_small. lia. }
  destruct (Z.le_gt_cases base available) as [Hle|Hgt].
  - rewrite (Z.mod_small (available - base)) by lia. set (a := available - base).
    assert (0 <= a / 64 <= a) by (split; [apply Z.div_pos; lia|apply Z.div_le_upper_bound; lia]).
    destruct (IsUint64 cost); simpl; [rewrite Hcost by done|intros [= <-]; lia].
    destruct (Z.ltb_spec (a - a / 64) cost); intros [= <-]; lia.
  - assert ((available - base) mod 2 ^ 64 = available - base + 2 ^ 64) as ->.
    { symmetry. apply (Z.mod_unique_pos _ _ (-1)); lia. }
    set (a := available - base + 2 ^ 64). assert (2 ^ 58 - 2 ^ 52 <= a / 64) by (apply Z.div_le_lower_bound; lia).
    destruct (IsUint64 cost); simpl; [rewrite Hcost by done|intros [= <-]; lia].
    destruct (Z.ltb_spec (a - a / 64) cost); intros [= <-]; lia.
Qed.

(** The account and the value of a call. *)
Definition callee (st : Stack) : Address := Bytes20 (default 0 (st !! 1%nat)).
Definition call_value (st : Stack) : Z := default 0 (st !! 2%nat).
Definition no_value (st : Stack) : Z := 0.

Section calls.
Context {W P : Type} `{StateKeeper W, Keccak, EthAddresses, PrecompiledContracts W P}.
Context (mt : Metering) (rules : Rules).
Implicit Types e : EVM W P.
Implicit Types m : Machine W P.

Abbreviation gas_left m := (c_Gas (m_contract m)).
Abbreviation db m := (evm_StateDB (m_evm m)).

(** ** Gas *)

(** The cost of a call: a base, which pays for the stipend, and the gas that is handed over. *)
Definition call_cost (value : Stack -> Z) (listed : bool) (m : Machine W P) (c : Z) (e : EVM W P) : Prop :=
  exists base, c = base + callGasTemp e /\ 0 <= callGasTemp e /\
    (if value (m_stack m) =? 0 then 0 else 9000) <= base /\ calm (db m) (evm_StateDB e) /\
    (listed = false -> IsEIP150 rules = true -> c <= 2 ^ 64 - 2 ^ 56) /\
    (listed = true -> warm (evm_StateDB e) (callee (m_stack m))).

Definition gas_call (pop : Z) (value : Stack -> Z) (listed : bool) (dyn : Z -> M (Machine W P) Z) : Prop :=
  forall n B m size, machine_ok mt n B m -> pop <= Z.of_nat (length (m_stack m)) -> 0 <= size -> (32 | size) ->
    wpe (dyn size) (gas_post (call_cost value listed m) m size) m.

(** No gas is that much. *)
Lemma gas_small n B m : machine_ok mt n B m -> 0 <= gas_left m < 2 ^ 55.
Proof.
  intros Hm. destruct (mk_contract _ _ _ _ Hm) as [[Hg _] _ _]. destruct (mk_pre _ _ _ _ Hm) as [_ _ _ [_ Hn Hb] Hf].
  unfold refund_rate, SelfdestructRefundGas in *. lia.
Qed.

Lemma wpe_with_callGas n B e pc mem st c value e1 mem' base size : machine_ok mt n B (mkMachine e pc mem st c) ->
  (1 <= length st)%nat -> (if value st =? 0 then 0 else 9000) <= base -> base < 2 ^ 57 ->
  calm (evm_StateDB e) (evm_StateDB e1) -> depth e1 = depth e -> in_readOnly e1 = in_readOnly e -> fee_paid size mem mem' ->
  wpe (with_callGas rules base)
    (gas_post (call_cost value false (mkMachine e pc mem st c)) (mkMachine e pc mem st c) size) (mkMachine e1 pc mem' st c).
Proof.
  intros Hm Hst Hv Hb Ca Hd Hr Hfee. destruct st as [|x st]; [simpl in Hst; lia|].
  pose proof (mk_stack _ _ _ _ Hm) as Hw. cbn [m_stack] in Hw. apply list.Forall_cons in Hw as [Hx _].
  pose proof (gas_small _ _ _ Hm) as Hgs. cbn [m_contract] in Hgs.
  pose proof (co_gas _ (mk_contract _ _ _ _ Hm)) as Hgo. cbn [m_contract] in Hgo.
  assert (Hb0 : 0 <= base) by (destruct (value _ =? 0); lia).
  unfold with_callGas. do 2 (apply wpe_bind; cbn). apply wpe_bind.
  destruct (callGas (IsEIP150 rules) (c_Gas c) base x) as [t|z|] eqn:Et; cycle 1.
  { apply gas_error; [done|split; [apply Ca|done|done]|apply Hfee]. }
  { exfalso. revert Et. unfold callGas. by repeat case_match. }
  pose proof (callGas_range _ _ _ _ _ Hx Et) as Ht. apply wpe_checked.
  2:{ apply gas_error; [done|split; [apply Ca|done|done]|apply Hfee]. }
  intros Ho. destruct (SafeAdd_ok base t Ho) as [-> Hlt]; [lia|lia|]. split.
  - split; simpl; try done; [apply Hfee|by destruct c|split; [apply Ca|done|done]|unfold gas_ok in *; lia].
  - split; [lia|]. split; [done|]. split; [done|]. exists base. split_and!; try done; [simpl; lia|].
    intros _ H150. rewrite H150 in Et. by apply (callGas_total (c_Gas c) base x).
Qed.

Local Ltac call_start :=
  intros n B [e pc mem st c] size Hm Hst Hz Hd; cbn [m_stack] in Hst;
  pose proof (mk_mem _ _ _ _ Hm) as Hmem; cbn [m_mem] in Hmem;
  pose proof (co_gas _ (mk_contract _ _ _ _ Hm)) as Hgas; cbn [m_contract] in Hgas;
  pose proof (pre_ok _ _ _ _ _ (mk_pre _ _ _ _ Hm)) as Hok; cbn [m_evm] in Hok.

Lemma gas_delegate pop : 1 <= pop -> gas_call pop no_value false (gasDelegateCall rules).
Proof.
  intros Hp. call_start. unfold gasDelegateCall. apply wpe_bind, wpe_memoryGasCost; [done|done|done| |intros x; by apply gas_error].
  intros fee mem' Hfee Hpaid. apply (wpe_with_callGas n B); try done; simpl; lia.
Qed.

Lemma gas_static pop : 1 <= pop -> gas_call pop no_value false (gasStaticCall rules).
Proof. apply gas_delegate. Qed.

Lemma gas_callcode pop : 3 <= pop -> gas_call pop call_value false (gasCallCode rules).
Proof.
  intros Hp. call_start. unfold gasCallCode. apply wpe_bind, wpe_memoryGasCost; [done|done|done| |intros x; by apply gas_error].
  intros fee mem' Hfee Hpaid. destruct (lookup_lt_is_Some_2 st 2%nat) as [v Hv]; [lia|].
  apply wpe_bind. eapply wpe_Back; [exact Hv|]. unfold CallValueTransferGas. apply wpe_bind, wpe_checked.
  2:{ apply gas_error; [done|reflexivity|apply Hpaid]. }
  intros Ho. destruct (SafeAdd_ok _ _ Ho) as [E _]; [destruct (v =? 0); lia|lia|]. rewrite E.
  apply (wpe_with_callGas n B); try done; try lia; unfold call_value; rewrite ?Hv; simpl; destruct (v =? 0); lia.
Qed.

Lemma gas_call_old pop : 3 <= pop -> gas_call pop call_value false (gasCall rules).
Proof.
  intros Hp. call_start. unfold gasCall. destruct (lookup_lt_is_Some_2 st 2%nat) as [v Hv]; [lia|].
  destruct (lookup_lt_is_Some_2 st 1%nat) as [x Hx]; [lia|].
  apply wpe_bind. eapply wpe_Back; [exact Hv|]. apply wpe_bind. eapply wpe_Back; [exact Hx|]. apply wpe_bind.
  eapply (wpe_mono _ (fun r m1 => exists g s, r = inl g /\ (g = 0 \/ g = CallNewAccountGas) /\
    m1 = mkMachine (with_db s e) pc mem st c /\ calm (evm_StateDB e) s)).
  2:{ assert (Hsame : exists g s, inl (B:=err) 0 = inl g /\ (g = 0 \/ g = CallNewAccountGas) /\
        mkMachine e pc mem st c = mkMachine (with_db s e) pc mem st c /\ calm (evm_StateDB e) s).
      { exists 0, (evm_StateDB e). split_and!; [done|by left|by destruct e|reflexivity]. }
      destruct (IsEIP158 rules).
      - destruct (negb _); [|exact Hsame]. apply wpe_bind, wpe_read; [apply Empty_reader|done|]. intros b s _ _ C _.
        exists (if b then CallNewAccountGas else 0), s. destruct b; auto.
      - apply wpe_bind, wpe_read; [apply Exist_reader|done|]. intros b s _ _ C _.
        exists (if b then 0 else CallNewAccountGas), s. destruct b; auto. }
  intros r m1 (g & s & -> & Hg & -> & C). unfold CallNewAccountGas in Hg.
  apply wpe_bind, wpe_memoryGasCost; [done|done|done| |intros z; apply gas_error; [done|split; [apply C|done|done]|done]].
  intros fee mem' Hfee Hpaid. unfold CallValueTransferGas. apply wpe_bind, wpe_checked.
  2:{ apply gas_error; [done|split; [apply C|done|done]|apply Hpaid]. }
  intros Ho. destruct (SafeAdd_ok _ _ Ho) as [E _]; [destruct (negb _); lia|lia|]. rewrite E.
  apply (wpe_with_callGas n B); try done; try lia; unfold call_value; rewrite ?Hv; simpl; destruct (v =? 0); simpl; lia.
Qed.

(** The EIP-2929 variant of a calculator. *)
Lemma gas_call_2929 pop value dyn : 2 <= pop -> IsEIP150 rules = true -> gas_call pop value false dyn ->
  gas_call pop value true (makeCallVariantGasCallEIP2929 dyn).
Proof.
  intros Hp H150 Hdyn. call_start. pose proof (gas_small _ _ _ Hm) as Hgs. cbn [m_contract] in Hgs.
  destruct (lookup_lt_is_Some_2 st 1%nat) as [x Hx]; [lia|].
  assert (Hcal : callee st = Bytes20 x) by (unfold callee; by rewrite Hx).
  unfold makeCallVariantGasCallEIP2929. apply wpe_bind. eapply wpe_Back; [exact Hx|]. apply wpe_bind. cbn.
  destruct (ContainsAddress (access (evm_StateDB e)) (Bytes20 x)) eqn:Ew.
  { eapply wpe_mono; [|by apply (Hdyn n B)]. intros [cost|z] m1 [Hf Hc]; [|done]. split; [done|].
    destruct Hc as (Hc0 & Hg & Hpaid & base & Ec & Ht & Hb & Ca & Hmax & _). split_and!; [done|done|done|].
    exists base. split_and!; try done. intros _. simpl. rewrite Hcal. apply (wi_warm _ _ (ca_within _ _ Ca)). exact Ew. }
  apply wpe_bind, wpe_list_address; [done|]. intros s Cs Ks Wm _ _. apply wpe_bind.
  change (ColdAccountAccessCostEIP2929 - WarmStorageReadCostEIP2929) with 2500. unfold wpe at 1, use_gas, UseGas. simpl.
  destruct (Z.ltb_spec (c_Gas c) 2500); simpl.
  { apply gas_error; [done|split; [apply Cs|done|done]|done]. }
  assert (Hm1 : machine_ok mt n B (mkMachine (with_db s e) pc mem st (set_gas (c_Gas c - 2500) c))).
  { apply (machine_paid mt n B (mkMachine (with_db s e) pc mem st c)); [|simpl; lia].
    eapply machine_update; [exact Hm|done|done|apply Hm|apply Hm|done]. }
  apply wpe_bind. eapply wpe_mono; [|by apply (Hdyn n B)]. intros [cost|z] m1 [Hf Hc].
  - destruct Hf as [Est Epc Eso Eco Hev Hg]. destruct m1 as [e1 pc1 mem1 st1 c1]. simpl in *. subst st1 pc1.
    destruct Hc as (Hc0 & Hg1 & Hpaid & base & Ec & Ht & Hb & Ca & Hmax & _). simpl in *. specialize (Hmax eq_refl H150).
    unfold gas_ok in Hgas.
    assert (E1 : u64_add (c_Gas c1) 2500 = c_Gas c) by (rewrite Hg1; unfold u64_add; rewrite wrap_u64_id; lia).
    assert (E2 : u64_add cost 2500 = cost + 2500) by (apply wrap_u64_id; lia).
    unfold wpe. simpl. rewrite E1, E2.
    assert (Ecc : set_gas (c_Gas c) c1 = c) by (rewrite Eco; by destruct c). rewrite Ecc.
    assert (C : calm (evm_StateDB e) (evm_StateDB e1)) by (by etransitivity). destruct Hev as [_ D R].
    split; [split; simpl; try done; [by destruct c|split; [apply C|done|done]|lia]|].
    split; [lia|]. split; [done|]. split; [done|]. exists (base + 2500). split_and!; try done; [simpl; lia|simpl; destruct (value st =? 0); lia|].
    intros _. simpl. rewrite Hcal. apply (wi_warm _ _ (ca_within _ _ Ca)). exact Wm.
  - destruct Hf as [Est Epc Eso Eco [We De Re] Hg]. destruct m1 as [e1 pc1 mem1 st1 c1]. simpl in *. subst st1 pc1.
    split; [|done]. split; simpl; try done; [|lia].
    split; [etransitivity; [apply Cs|done]|done|done].
Qed.
(** ** The instructions *)

(** The machine that a call is made from: [m] is the one before the instruction was paid, and the
    call is given [h] gas, with [rest] left to the caller. *)
Record calling (n : nat) (B : Z) (e : EVM W P) (pc : Z) (mem : Memory) (st : Stack) (c : Contract)
    (e2 : EVM W P) (h rest : Z) : Prop := {
  cl_machine : machine_ok mt n B (mkMachine e pc mem st c);
  cl_calm : calm (evm_StateDB e) (evm_StateDB e2);
  cl_depth : depth e2 = depth e;
  cl_readOnly : in_readOnly e2 = in_readOnly e;
  cl_gas : 0 <= h /\ 0 <= rest /\ rest + h + 40 <= c_Gas c
}.

(** The bound that the callee is given. *)
Definition callee_bound (e2 : EVM W P) (h : Z) : Z := refund (evm_StateDB e2) + refund_rate * h.

Lemma calling_pre n B e pc mem st c e2 h rest : calling n B e pc mem st c e2 h rest ->
  call_pre mt n (callee_bound e2 h) h e2.
Proof.
  intros [Hm Ca Hd Hr Hg]. pose proof (gas_small _ _ _ Hm) as Hgs. destruct (mk_pre _ _ _ _ Hm) as [K D G Bo F].
  cbn [m_contract m_evm] in *. pose proof (bound_calm mt _ _ _ _ Ca Bo) as [Hrok Hn Hb].
  unfold callee_bound, refund_rate, SelfdestructRefundGas in *. split.
  - eapply within_ok; [apply Ca|done].
  - by rewrite Hd.
  - unfold gas_ok. lia.
  - split; [done|done|]. unfold refund_rate. lia.
  - unfold SelfdestructRefundGas. lia.
Qed.

(** The machine after the call. *)
Lemma calling_back n B e pc mem st c e2 h rest e3 left e4 pc' mem' st' : calling n B e pc mem st c e2 h rest ->
  evolves e2 e3 -> 0 <= left <= h -> bound mt (callee_bound e2 h + SelfdestructRefundGas) left (evm_StateDB e3) ->
  evm_StateDB e4 = evm_StateDB e3 -> depth e4 = depth e3 -> in_readOnly e4 = in_readOnly e3 ->
  Forall word st' -> Z.of_nat (length st') <= StackLimit -> mem_ok mem' ->
  round_post mt n B (mkMachine e pc mem st c) None (mkMachine e4 pc' mem' st' (set_gas (rest + left) c)).
Proof.
  intros [Hm Ca Hd Hr Hg] [We De Re] Hl [Hrok Hn Hb] Es Ed Er Hst Hlen Hmem.
  destruct (mk_pre _ _ _ _ Hm) as [_ _ _ Bo _]. cbn [m_contract m_evm] in *.
  pose proof (bound_calm mt _ _ _ _ Ca Bo) as [_ _ Hb2]. unfold callee_bound, refund_rate, SelfdestructRefundGas in *.
  assert (Hev : evolves e e4).
  { split; [rewrite Es; etransitivity; [apply Ca|done]|congruence|congruence]. }
  split; [done|]. split; [simpl; lia|]. split; [simpl; lia|].
  apply (machine_move mt n B e pc mem st c); try done; [|lia]. rewrite Es. split; [done|done|unfold refund_rate; lia].
Qed.

Lemma wpe_evm_do {A} (p : M (EVM W P) A) (R : A -> EVM W P -> Prop) (Q : A + err -> Machine W P -> Prop) e pc mem st c :
  wp p R e -> (forall a e', R a e' -> Q (inl a) (mkMachine e' pc mem st c)) -> wpe (evm_do p) Q (mkMachine e pc mem st c).
Proof. unfold wp, wpe, evm_do. intros Hp HQ. simpl. destruct (p e) as [[a|x|] e']; [by apply HQ|done|done]. Qed.

(** The end of a call. *)
Lemma wpe_called n B e pc mem st c e2 h rest out e3 mem2 st' off l : calling n B e pc mem st c e2 h rest ->
  call_post mt (callee_bound e2 h) h e2 out e3 -> mem_ok mem2 -> 0 <= off -> 0 <= l -> covers mem2 off l ->
  Forall word st' -> Z.of_nat (length st') + 1 <= StackLimit ->
  wpe (called out off l) (fun r m' => round_post mt n B (mkMachine e pc mem st c) (err_of r) m')
    (mkMachine e3 pc mem2 st' (set_gas rest c)).
Proof.
  intros Hcl [Hev Hg Hb _] Hmem Ho Hl Hc Hst Hlen. unfold called. do 2 (apply wpe_bind; cbn).
  pose proof (gas_small _ _ _ (cl_machine _ _ _ _ _ _ _ _ _ _ Hcl)) as Hgs. cbn [m_contract] in Hgs.
  destruct (cl_gas _ _ _ _ _ _ _ _ _ _ Hcl) as (Hh & Hr & Hle).
  assert (Hend : forall mem', mem_ok mem' ->
    wpe (add_gas (leftOverGas out);; set_returnData (ret out);; mret (ret out, None))
      (fun r m' => round_post mt n B (mkMachine e pc mem st c) (err_of r) m')
      (mkMachine e3 pc mem' (of_bool (bool_decide (vm_err out = None)) :: st') (set_gas rest c))).
  { intros mem' Hmem'. do 2 (apply wpe_bind; cbn).
    assert (E : u64_add rest (leftOverGas out) = rest + leftOverGas out) by (apply wrap_u64_id; lia). rewrite E.
    change (set_gas (rest + leftOverGas out) (set_gas rest c)) with (set_gas (rest + leftOverGas out) c).
    eapply calling_back; try done; [apply list.Forall_cons_2; auto with words|]. simpl; lia. }
  destruct (_ || _); [|by apply Hend].
  destruct (mem_Set_ok mem2 off l (ret out)) as (mem' & Hs & Hmem'); try done.
  eapply wpe_memory_write; [exact Hs|]. by apply Hend.
Qed.

(** The charge of an instruction that calls, with what its gas function ensures. *)
Lemma op_frame (E : Machine W P -> Z -> EVM W P -> Prop) k f gas dyn pop push g : 0 <= gas -> sizes pop (Some g) ->
  (forall n B m size, machine_ok mt n B m -> pop <= Z.of_nat (length (m_stack m)) -> 0 <= size -> (32 | size) ->
     wpe (dyn size) (gas_post (E m) m size) m) ->
  (forall n B calls e pc mem st c e2 mem2 cost, calls_ok mt n calls -> machine_ok mt n B (mkMachine e pc mem st c) ->
     pop <= Z.of_nat (length st) <= StackLimit + pop - push ->
     evolves e e2 -> mem_ok mem2 -> (exists sz, g st = Ok (sz, false) /\ sz <= slen (store mem2)) ->
     E (mkMachine e pc mem st (set_gas (c_Gas c - gas) c)) cost e2 -> 0 <= cost -> gas + cost <= c_Gas c ->
     wpe (f calls) (fun r m' => round_post mt n B (mkMachine e pc mem st c) (err_of r) m')
       (mkMachine e2 pc mem2 st (set_gas (c_Gas c - gas - cost) c))) ->
  op_ok mt k (with_memory f gas dyn pop push g).
Proof.
  intros Hgas Hsz Hdyn Hf. split; [simpl; lia|]. intros n B calls m Hc Hm Hop Hst Hg. simpl in Hst, Hg.
  unfold minStack_of, maxStack_of in Hst. apply wpe_attempt.
  pose proof (machine_paid mt n B m gas Hm ltac:(simpl; lia)) as Hm1. destruct m as [e pc mem st c].
  cbn [m_stack m_contract m_evm m_pc m_mem with_contract] in *. set (c1 := set_gas (c_Gas c - gas) c) in *.
  apply wpe_bind. eapply wpe_mono; [|eapply (wpe_charge_dynamic mt (E (mkMachine e pc mem st c1))
    f gas dyn _ _ (Some g) n B); [exact Hm1| |]].
  2:{ apply Hsz; [apply Hst|apply (mk_stack _ _ _ _ Hm)]. }
  2:{ intros size Hz Hd _. apply (Hdyn n B); [done|apply Hst|done|done]. }
  pose proof (co_gas _ (mk_contract _ _ _ _ Hm)) as [Hg0 _]. cbn [m_contract] in Hg0.
  intros [u|z] m2; cycle 1.
  { intros (Hz & Hev & Hg2). simpl in Hg2. split_and!; [done|simpl; lia|simpl; lia|done]. }
  intros (sz & Eg & [(cost & Hco & HE & Eco) Est Epc Hmo Hs Hev]).
  destruct m2 as [e2 pc2 mem2 st2 c2]. cbn [m_evm m_pc m_mem m_stack m_contract] in *. subst st2 pc2 c2.
  cbn [with_memory execute]. simpl in Hco.
  change (set_gas (c_Gas c1 - cost) c1) with (set_gas (c_Gas c - gas - cost) c).
  apply (Hf n B calls e pc mem st c e2 mem2 cost); try done; [by exists sz|lia|lia].
Qed.

(** The charge of a call. *)
Lemma op_call_frame k f gas dyn pop push g value listed : 40 <= gas -> sizes pop (Some g) -> gas_call pop value listed dyn ->
  (forall n B calls e pc mem st c e2 mem2 cost base, calls_ok mt n calls -> machine_ok mt n B (mkMachine e pc mem st c) ->
     pop <= Z.of_nat (length st) <= StackLimit + pop - push ->
     calm (evm_StateDB e) (evm_StateDB e2) -> depth e2 = depth e -> in_readOnly e2 = in_readOnly e -> mem_ok mem2 ->
     (exists sz, g st = Ok (sz, false) /\ sz <= slen (store mem2)) ->
     0 <= callGasTemp e2 -> (if value st =? 0 then 0 else 9000) <= base -> cost = base + callGasTemp e2 ->
     gas + cost <= c_Gas c -> (listed = true -> warm (evm_StateDB e2) (callee st)) ->
     wpe (f calls) (fun r m' => round_post mt n B (mkMachine e pc mem st c) (err_of r) m')
       (mkMachine e2 pc mem2 st (set_gas (c_Gas c - gas - cost) c))) ->
  op_ok mt k (with_memory f gas dyn pop push g).
Proof.
  intros Hgas Hsz Hdyn Hf. apply (op_frame (call_cost value listed)); [lia|done|done|].
  intros n B calls e pc mem st c e2 mem2 cost Hc Hm Hst [_ Dev Rev] Hmem Hg (base & Ec & Ht & Hb & Ca & _ & Hl) Hc0 Hle.
  by apply (Hf n B calls e pc mem st c e2 mem2 cost base).
Qed.

(** Two regions that were asked for. *)
Lemma two_regions_covered i j k l st sz x y z w mem :
  st !! i = Some x -> st !! j = Some y -> st !! k = Some z -> st !! l = Some w ->
  word x -> word y -> word z -> word w -> two_regions i j k l st = Ok (sz, false) -> sz <= slen (store mem) ->
  covers mem x y /\ covers mem z w.
Proof.
  intros Hx Hy Hz Hw Wx Wy Wz Ww. unfold two_regions, region, back. rewrite Hx. simpl. rewrite Hy. simpl.
  rewrite Hz. simpl. rewrite Hw. simpl. destruct (calcMemSize64 x y) as [s1 o1] eqn:E1. destruct o1; [done|].
  destruct (calcMemSize64 z w) as [s2 o2] eqn:E2. simpl. destruct o2; [done|]. intros [= <-].
  apply calcMemSize_covers in E1 as (_ & _ & H1'); [|done|done]. apply calcMemSize_covers in E2 as (_ & _ & H2'); [|done|done].
  unfold covers. destruct (Z.ltb_spec s2 s1); lia.
Qed.
Lemma word_nonneg x : word x -> 0 <= x.
Proof. by intros [? _]. Qed.

Local Ltac call_op :=
  intros n B calls e pc mem st c e2 mem2 cost base Hcalls Hm Hst Ca Hd Hr Hmem (sz & Eg & Hsz) Ht Hb Ec Hg Hl;
  pose proof (mk_stack _ _ _ _ Hm) as Hw; cbn [m_stack] in Hw;
  pose proof (gas_small _ _ _ Hm) as Hgs; cbn [m_contract] in Hgs;
  repeat (destruct st as [|? st]; [cbn [length] in Hst; unfold StackLimit in Hst; lia|]);
  repeat match goal with H : Forall word (_ :: _) |- _ => apply list.Forall_cons in H as [? H] end.
Local Ltac args_ok mem off l :=
  let s := fresh "args" in let Hs := fresh "Hargs" in
  destruct (GetPtr_ok mem off l) as [s Hs]; [done|apply word_nonneg; done|apply word_nonneg; done|done|];
  eapply wpe_bind, wpe_memory_read; [exact Hs|].

Lemma opCall_ok k gas dyn listed : 40 <= gas -> gas_call 7 call_value listed dyn -> listed = lists_accounts mt ->
  op_ok mt k (with_memory opCall gas dyn 7 1 memoryCall).
Proof.
  intros Hgas Hdyn ->. eapply op_call_frame; [done|by apply two_regions_sizes|done|]. call_op.
  eapply (two_regions_covered 5 6 3 4) in Eg as [Hc1 Hc2]; [|done..|exact Hsz].
  unfold opCall. do 8 (apply wpe_bind; cbn). args_ok mem2 z2 z3. apply wpe_bind. cbn. unfold call_value in Hb. cbn in Hb.
  destruct (in_readOnly e2 && negb (z1 =? 0)).
  { split_and!; simpl; [split; [apply Ca|done|done]|lia|destruct (z1 =? 0); lia|done]. }
  apply wpe_bind. cbn. apply wpe_bind. set (h := if z1 =? 0 then callGasTemp e2 else u64_add (callGasTemp e2) CallStipend).
  assert (Hh : callGasTemp e2 <= h <= callGasTemp e2 + (if z1 =? 0 then 0 else 2300)).
  { subst h. destruct (z1 =? 0); [lia|]. unfold u64_add, CallStipend. rewrite wrap_u64_id by lia. lia. }
  assert (Hcl : calling n B e pc mem (z :: z0 :: z1 :: z2 :: z3 :: z4 :: z5 :: st) c e2 h (c_Gas c - gas - cost)).
  { split; try done. destruct (z1 =? 0); lia. }
  eapply wpe_evm_do.
  - eapply (ok_Call _ _ _ Hcalls); [by eapply calling_pre|done|intros Hls; by apply Hl].
  - intros out e3 Hpost. eapply wpe_called; try done; [by apply word_nonneg|by apply word_nonneg|].
    cbn [length] in Hst. unfold StackLimit in *. lia.
Qed.

Lemma opCallCode_ok k gas dyn listed : 40 <= gas -> gas_call 7 call_value listed dyn ->
  op_ok mt k (with_memory opCallCode gas dyn 7 1 memoryCall).
Proof.
  intros Hgas Hdyn. eapply op_call_frame; [done|by apply two_regions_sizes|done|]. call_op.
  eapply (two_regions_covered 5 6 3 4) in Eg as [Hc1 Hc2]; [|done..|exact Hsz].
  unfold opCallCode. do 8 (apply wpe_bind; cbn). args_ok mem2 z2 z3. unfold call_value in Hb. cbn in Hb.
  apply wpe_bind. cbn. apply wpe_bind. set (h := if z1 =? 0 then callGasTemp e2 else u64_add (callGasTemp e2) CallStipend).
  assert (Hh : callGasTemp e2 <= h <= callGasTemp e2 + (if z1 =? 0 then 0 else 2300)).
  { subst h. destruct (z1 =? 0); [lia|]. unfold u64_add, CallStipend. rewrite wrap_u64_id by lia. lia. }
  assert (Hcl : calling n B e pc mem (z :: z0 :: z1 :: z2 :: z3 :: z4 :: z5 :: st) c e2 h (c_Gas c - gas - cost)).
  { split; try done. destruct (z1 =? 0); lia. }
  eapply wpe_evm_do.
  - eapply (ok_CallCode _ _ _ Hcalls); [by eapply calling_pre|done|]. eapply may_run_within; [apply Ca|]. apply (mk_runs _ _ _ _ Hm).
  - intros out e3 Hpost. eapply wpe_called; try done; [by apply word_nonneg|by apply word_nonneg|].
    cbn [length] in Hst. unfold StackLimit in *. lia.
Qed.

Lemma opDelegateCall_ok k gas dyn listed : 40 <= gas -> gas_call 6 no_value listed dyn ->
  op_ok mt k (with_memory opDelegateCall gas dyn 6 1 memoryDelegateCall).
Proof.
  intros Hgas Hdyn. eapply op_call_frame; [done|by apply two_regions_sizes|done|]. call_op.
  eapply (two_regions_covered 4 5 2 3) in Eg as [Hc1 Hc2]; [|done..|exact Hsz].
  unfold opDelegateCall. do 7 (apply wpe_bind; cbn). args_ok mem2 z1 z2. cbn in Hb. apply wpe_bind. cbn. apply wpe_bind.
  assert (Hcl : calling n B e pc mem (z :: z0 :: z1 :: z2 :: z3 :: z4 :: st) c e2 (callGasTemp e2) (c_Gas c - gas - cost)).
  { split; try done. lia. }
  destruct (co_value _ (mk_contract _ _ _ _ Hm)) as (v & Ev & Hv). cbn [m_contract] in Ev. eapply wpe_evm_do.
  - unfold contract_ref. cbn [self CallerAddress c_value set_gas]. rewrite Ev.
    eapply (ok_DelegateCall _ _ _ Hcalls); [by eapply calling_pre|done|].
    eapply may_run_within; [apply Ca|]. apply (mk_runs _ _ _ _ Hm).
  - intros out e3 Hpost. eapply wpe_called; try done; [by apply word_nonneg|by apply word_nonneg|].
    cbn [length] in Hst. unfold StackLimit in *. lia.
Qed.

Lemma opStaticCall_ok k gas dyn listed : 40 <= gas -> gas_call 6 no_value listed dyn -> listed = lists_accounts mt ->
  op_ok mt k (with_memory opStaticCall gas dyn 6 1 memoryStaticCall).
Proof.
  intros Hgas Hdyn ->. eapply op_call_frame; [done|by apply two_regions_sizes|done|]. call_op.
  eapply (two_regions_covered 4 5 2 3) in Eg as [Hc1 Hc2]; [|done..|exact Hsz].
  unfold opStaticCall. do 7 (apply wpe_bind; cbn). args_ok mem2 z1 z2. cbn in Hb. apply wpe_bind. cbn. apply wpe_bind.
  assert (Hcl : calling n B e pc mem (z :: z0 :: z1 :: z2 :: z3 :: z4 :: st) c e2 (callGasTemp e2) (c_Gas c - gas - cost)).
  { split; try done. lia. }
  eapply wpe_evm_do.
  - eapply (ok_StaticCall _ _ _ Hcalls); [by eapply calling_pre|intros Hls; by apply Hl].
  - intros out e3 Hpost. eapply wpe_called; try done; [by apply word_nonneg|by apply word_nonneg|].
    cbn [length] in Hst. unfold StackLimit in *. lia.
Qed.
(** ** Creations *)

Lemma part_range gas : 0 <= gas -> 0 <= gas - gas / 64 <= gas.
Proof.
  intros Hg. assert (0 <= gas / 64 <= gas); [|lia]. split; [apply Z.div_pos; lia|apply Z.div_le_upper_bound; lia].
Qed.

(** The end of a creation. *)
Lemma wpe_created n B e pc mem st c e2 h rest out e3 mem2 st' v : calling n B e pc mem st c e2 h rest ->
  evolves e2 e3 -> 0 <= leftOverGas out <= h ->
  bound mt (callee_bound e2 h + SelfdestructRefundGas) (leftOverGas out) (evm_StateDB e3) -> mem_ok mem2 ->
  word v -> Forall word st' -> Z.of_nat (length st') + 1 <= StackLimit ->
  wpe (created out v) (fun r m' => round_post mt n B (mkMachine e pc mem st c) (err_of r) m')
    (mkMachine e3 pc mem2 st' (set_gas rest c)).
Proof.
  intros Hcl Hev Hg Hb Hmem Hv Hst Hlen. unfold created. do 2 (apply wpe_bind; cbn).
  pose proof (gas_small _ _ _ (cl_machine _ _ _ _ _ _ _ _ _ _ Hcl)) as Hgs. cbn [m_contract] in Hgs.
  destruct (cl_gas _ _ _ _ _ _ _ _ _ _ Hcl) as (Hh & Hr & Hle).
  assert (E : u64_add rest (leftOverGas out) = rest + leftOverGas out) by (apply wrap_u64_id; lia). rewrite E.
  change (set_gas (rest + leftOverGas out) (set_gas rest c)) with (set_gas (rest + leftOverGas out) c).
  destruct (bool_decide _); apply wpe_bind; cbn; eapply calling_back; try done;
    solve [by apply list.Forall_cons_2|simpl; lia].
Qed.

Lemma region_covered i j st sz x y mem : st !! i = Some x -> st !! j = Some y -> word x -> word y ->
  region i j st = Ok (sz, false) -> sz <= slen (store mem) -> covers mem x y.
Proof.
  intros Hx Hy Wx Wy. unfold region, back. rewrite Hx. simpl. rewrite Hy. simpl. intros [= E] Hs.
  apply calcMemSize_covers in E as (_ & _ & Hc); [|done|done]. unfold covers. lia.
Qed.

Local Ltac create_op :=
  intros n B calls e pc mem st c e2 mem2 cost Hcalls Hm Hst [Wev Dev Rev] Hmem (sz & Eg & Hsz) [_ Ca] Hc0 Hg;
  pose proof (mk_stack _ _ _ _ Hm) as Hw; cbn [m_stack m_evm] in *;
  repeat (destruct st as [|? st]; [cbn [length] in Hst; unfold StackLimit in Hst; lia|]);
  repeat match goal with H : Forall word (_ :: _) |- _ => apply list.Forall_cons in H as [? H] end;
  eapply (region_covered 1 2) in Eg; [|done..|exact Hsz].
Local Ltac copy_ok mem off l :=
  let s := fresh "input" in let Hs := fresh "Hinput" in
  destruct (GetCopy_ok mem off l) as [s Hs]; [done|apply word_nonneg; done|apply word_nonneg; done|done|];
  eapply wpe_bind, wpe_memory_read; [exact Hs|].

Lemma wpe_use_gas h (Q : bool + err -> Machine W P -> Prop) e pc mem st c : h <= c_Gas c ->
  Q (inl true) (mkMachine e pc mem st (set_gas (c_Gas c - h) c)) -> wpe (use_gas h) Q (mkMachine e pc mem st c).
Proof. intros Hh HQ. unfold wpe, use_gas, UseGas. simpl. by destruct (Z.ltb_spec (c_Gas c) h); [lia|]. Qed.

Lemma opCreate_ok k gas : 40 <= gas -> op_ok (W:=W) (P:=P) mt k (with_memory (opCreate rules) gas pureMemoryGascost 3 1 memoryCreate).
Proof.
  intros Hgas. apply (op_frame (calm_cost 0)); [lia|by apply region_sizes| |].
  { intros n B m size Hm Hst Hz Hd. by apply (gas_memory mt 3 (Some memoryCreate) n B). }
  create_op. unfold opCreate. apply wpe_bind. cbn. destruct (in_readOnly e2) eqn:Ero.
  { split_and!; simpl; [split; [done|done|congruence]|lia|lia|done]. }
  do 3 (apply wpe_bind; cbn). copy_ok mem2 z0 z1. apply wpe_bind. cbn -[Z.div].
  set (g2 := c_Gas c - gas - cost). set (h := if IsEIP150 rules then g2 - g2 / 64 else g2).
  assert (Hh : 0 <= h <= g2).
  { subst h. pose proof (part_range g2 ltac:(subst g2; lia)). destruct (IsEIP150 rules); subst g2; lia. }
  apply wpe_bind, wpe_use_gas; [simpl; lia|]. cbn -[Z.sub]. apply wpe_bind. cbn -[Z.sub]. apply wpe_bind.
  change (set_gas (g2 - h) (set_gas g2 c)) with (set_gas (g2 - h) c).
  assert (Hcl : calling n B e pc mem (z :: z0 :: z1 :: st) c e2 h (g2 - h)).
  { split; try done; [congruence|subst g2; lia]. }
  eapply wpe_evm_do; [eapply (ok_Create _ _ _ Hcalls); [by eapply calling_pre|done]|].
  intros [out addr] e3 (Hev & Hl & Hb). eapply wpe_created; try done.
  - destruct (_ && _); [|destruct (_ && _)]; auto with words.
  - cbn [length] in Hst. unfold StackLimit in *. lia.
Qed.

Lemma opCreate2_ok k gas : 40 <= gas -> op_ok (W:=W) (P:=P) mt k (with_memory opCreate2 gas gasCreate2 4 1 memoryCreate2).
Proof.
  intros Hgas. apply (op_frame (calm_cost 0)); [lia|by apply region_sizes| |].
  { intros n B m size Hm Hst Hz Hd. by apply (gas_per_word mt 4 2 Keccak256WordGas memoryCreate2 ltac:(lia) ltac:(done) n B). }
  create_op. unfold opCreate2. apply wpe_bind. cbn. destruct (in_readOnly e2) eqn:Ero.
  { split_and!; simpl; [split; [done|done|congruence]|lia|lia|done]. }
  do 4 (apply wpe_bind; cbn). copy_ok mem2 z0 z1. apply wpe_bind. cbn -[Z.div].
  set (g2 := c_Gas c - gas - cost). set (h := g2 - g2 / 64). assert (Hh : 0 <= h <= g2) by (apply part_range; lia).
  apply wpe_bind, wpe_use_gas; [simpl; lia|]. cbn -[Z.sub]. apply wpe_bind. cbn -[Z.sub]. apply wpe_bind.
  change (set_gas (g2 - h) (set_gas g2 c)) with (set_gas (g2 - h) c).
  assert (Hcl : calling n B e pc mem (z :: z0 :: z1 :: z2 :: st) c e2 h (g2 - h)).
  { split; try done; [congruence|subst g2; lia]. }
  eapply wpe_evm_do; [eapply (ok_Create2 _ _ _ Hcalls); [by eapply calling_pre|done]|].
  intros [out addr] e3 (Hev & Hl & Hb). eapply wpe_created; try done.
  - destruct (bool_decide _); auto with words.
  - cbn [length] in Hst. unfold StackLimit in *. lia.
Qed.
End calls.
