(* ===== verification/EvmSafety.v ===== *)
(** * The jump tables are sound

    Every operation of every fork's jump table is good ([DefaultJumpTable_ok]), with and without the
    EIP that the module enables by default.  So a call or a creation returns whatever the
    code that it runs ([evm_returns]). *)

From S2P Require Import Prelude.
From S2P Require Import AccessList.
From S2P Require Import StateDB.
From S2P Require Import Precompile.
From S2P Require Import StateRevert.
From S2P Require Import StateCommit.
From S2P Require Import EvmMachine.
From S2P Require Import EvmCode.
From S2P Require Import Evm.
From S2P Require Import EvmInstructions.
From S2P Require Import EvmGas.
From S2P Require Import EvmTable.
From S2P Require Import EvmDb.
From S2P Require Import EvmTheory.
From S2P Require Import PrecompileRun.
From S2P Require Import EvmRun.
From S2P Require Import EvmOps.
From S2P Require Import EvmMemory.
From S2P Require Import EvmCopies.
From S2P Require Import EvmStorage.
From S2P Require Import EvmCallOps.

Local Open Scope Z_scope.

(** How the table of the rules counts refunds. *)
Definition metering_of (rules : Rules) : Metering :=
  if IsMerge rules || IsLondon rules then mkMetering 4800 true
  else mkMetering 15000 (IsBerlin rules).

(** What the interpreter relies on: the forks are cumulative, and a block has what its fork's
    instructions read. *)
Record rules_ok (rules : Rules) (bc : BlockContext) : Prop := {
  ro_homestead : IsHomestead rules = true;
  ro_berlin : IsMerge rules || IsLondon rules = true -> IsBerlin rules = true;
  ro_eip150 : IsBerlin rules = true -> IsEIP150 rules = true;
  ro_baseFee : IsMerge rules || IsLondon rules = true -> bc_BaseFee bc <> None;
  ro_random : IsMerge rules = true -> Random bc <> None
}.

Section tables.
Context {W P : Type} `{StateKeeper W, Keccak, EthAddresses, PrecompiledContracts W P}.
Context (mt : Metering) (rules : Rules) (bc : BlockContext) (tc : TxContext).

Abbreviation JumpTable := (Z -> operation W P).
Abbreviation good_op k op := (op_ok (W:=W) (P:=P) mt k op).

(** All entries but those of [l] are good. *)
Definition good_but (l : list Z) (jt : JumpTable) : Prop :=
  forall opcode, 0 <= opcode < 256 -> opcode ∉ l -> good_op opcode (jt opcode).

Lemma good_put l k op jt : good_but (k :: l) jt -> good_op k op -> good_but l (put k op jt).
Proof.
  intros Hj Ho i Hi Hn. unfold put. destruct (Z.eqb_spec i k) as [->|Hk]; [done|]. apply Hj; [done|].
  apply not_elem_of_cons. by split.
Qed.

Lemma good_more l k jt : good_but l jt -> good_but (k :: l) jt.
Proof. intros Hj i Hi [_ Hn]%not_elem_of_cons. by apply Hj. Qed.

Lemma good_all jt : good_but [] jt -> table_ok mt jt.
Proof. intros Hj i Hi. apply Hj; [done|apply not_elem_of_nil]. Qed.

Lemma entry_good (l : list Z) es opcode : 0 < opcode -> opcode ∉ l ->
  Forall (fun '(k, op) => k ∈ l \/ good_op k op) es -> good_op opcode (entry es opcode).
Proof.
  intros Ho Hn. induction es as [|[k op] es IH]; intros Hf; simpl; [by apply opUndefined_ok|].
  apply list.Forall_cons in Hf as [Hk Hf]. destruct (Z.eqb_spec opcode k) as [->|_]; [by destruct Hk|by apply IH].
Qed.

Local Ltac cost := solve [reflexivity | done | unfold Keccak256Gas; lia].
Local Ltac op_auto := right;
  first [apply opStop_ok
    | apply op_binary; [cost|intros; auto with words]
    | apply op_unary; [cost|intros; auto with words]
    | apply op_ternary; [cost|intros; auto with words]
    | apply op_pushes; [cost|intros; auto with words] ].

Lemma arithmetic_good (l : list Z) : Forall (fun '(k, op) => k ∈ l \/ good_op k op) frontier_arithmetic.
Proof.
  unfold frontier_arithmetic.
  repeat (apply list.Forall_cons_2; [try op_auto|]); [|apply list.Forall_nil_2].
  right. apply (op_dynamic mt false _ _ 0 gasExpFrontier 2 1 None 10); [done|by right|done|by apply gas_exp|].
  apply exec_mem_good, exec_binary. intros; auto with words.
Qed.

(** ** The frontier table *)

Local Ltac pushed := apply op_pushes; [cost|intros; auto with words].

Lemma environment_good (l : list Z) : Forall (fun '(k, op) => k ∈ l \/ good_op k op) (frontier_environment bc tc).
Proof.
  unfold frontier_environment. repeat (apply list.Forall_cons_2; [right|]); [..|apply list.Forall_nil_2].
  - apply (op_dynamic mt false _ _ _ gasKeccak256 2 1 (Some memoryKeccak256) 0); [done|by right|by apply region_sizes|by apply gas_per_word|apply exec_opKeccak256].
  - pushed.
  - apply op_fixed; [cost|apply exec_opBalance].
  - pushed.
  - pushed.
  - apply op_pushes_big; [cost|]. intros n B m Hm. destruct (co_value _ (mk_contract _ _ _ _ Hm)) as (v & -> & _). done.
  - apply op_fixed; [cost|apply exec_good_mem, exec_opCallDataLoad].
  - pushed.
  - apply (op_dynamic mt false _ _ _ gasCallDataCopy 3 0 (Some memoryCallDataCopy) 0); [done|by right|by apply region_sizes|by apply gas_per_word|apply exec_opCallDataCopy].
  - pushed.
  - apply (op_dynamic mt false _ _ _ gasCodeCopy 3 0 (Some memoryCodeCopy) 0); [done|by right|by apply region_sizes|by apply gas_per_word|apply exec_opCodeCopy].
  - pushed.
  - apply op_fixed; [cost|apply exec_opExtCodeSize].
  - apply (op_dynamic mt false _ _ _ gasExtCodeCopy 4 0 (Some memoryExtCodeCopy) 0); [done|by right|by apply region_sizes|by apply gas_per_word|apply exec_opExtCodeCopy].
  - apply op_fixed; [cost|apply exec_opBlockhash].
  - pushed.
  - pushed.
  - pushed.
  - pushed.
  - pushed.
Qed.

Lemma memory_good (l : list Z) : SSTORE ∈ l -> Forall (fun '(k, op) => k ∈ l \/ good_op k op) (frontier_memory rules).
Proof.
  intros Hl. unfold frontier_memory.
  do 5 try (apply list.Forall_cons_2; [right; shelve|]). apply list.Forall_cons_2; [by left|].
  repeat (apply list.Forall_cons_2; [right; shelve|]). apply list.Forall_nil_2. Unshelve.
  - by apply opPop_ok.
  - apply (op_dynamic mt false _ _ _ pureMemoryGascost 1 1 (Some memoryMLoad) 0); [done|by right|by apply region_of_sizes|apply gas_memory|apply exec_opMload].
  - apply (op_dynamic mt false _ _ _ pureMemoryGascost 2 0 (Some memoryMStore) 0); [done|by right|by apply region_of_sizes|apply gas_memory|apply exec_opMstore].
  - apply (op_dynamic mt false _ _ _ pureMemoryGascost 2 0 (Some memoryMStore8) 0); [done|by right|by apply region_of_sizes|apply gas_memory|apply exec_opMstore8].
  - apply op_fixed; [cost|apply exec_opSload].
  - by apply opJump_ok.
  - by apply opJumpi_ok.
  - pushed.
  - pushed.
  - apply op_pushes; [cost|]. intros n B m Hm. destruct (co_gas _ (mk_contract _ _ _ _ Hm)). unfold word. lia.
  - by apply opJumpdest_ok.
Qed.

Lemma push_good (l : list Z) : Forall (fun '(k, op) => k ∈ l \/ good_op k op) frontier_push.
Proof.
  apply list.Forall_cons_2; [right; by apply opPush1_ok|]. apply Forall_fmap, list.Forall_forall. intros j Hj.
  apply elem_of_seqZ in Hj. right. apply op_push; [cost|lia].
Qed.

Lemma dup_good (l : list Z) : Forall (fun '(k, op) => k ∈ l \/ good_op k op) frontier_dup.
Proof.
  apply Forall_fmap, list.Forall_forall. intros j Hj. apply elem_of_seq in Hj. right. apply op_dup; [cost|lia].
Qed.

Lemma swap_good (l : list Z) : Forall (fun '(k, op) => k ∈ l \/ good_op k op) frontier_swap.
Proof.
  apply Forall_fmap, list.Forall_forall. intros j Hj. apply elem_of_seq in Hj. right. apply op_swap; [cost|lia].
Qed.

Lemma log_good (l : list Z) : Forall (fun '(k, op) => k ∈ l \/ good_op k op) (frontier_log bc).
Proof.
  apply Forall_fmap, list.Forall_forall. intros j _. right.
  apply (op_dynamic mt false _ _ _ (makeGasLog (Z.of_nat j)) (2 + Z.of_nat j) 0 (Some memoryLog) 375);
    [done|by right|apply region_sizes; lia|apply gas_log; lia|apply exec_makeLog].
Qed.

Lemma calls_good (l : list Z) : CALL ∈ l -> Forall (fun '(k, op) => k ∈ l \/ good_op k op) (frontier_calls rules).
Proof.
  intros Hl. unfold frontier_calls.
  apply list.Forall_cons_2; [right|apply list.Forall_cons_2; [by left|]];
    [|repeat (apply list.Forall_cons_2; [right|]); [..|apply list.Forall_nil_2]].
  - by apply opCreate_ok.
  - apply (opCallCode_ok mt rules _ _ _ false); [done|by apply gas_callcode].
  - apply (op_dynamic mt true _ _ _ pureMemoryGascost 2 0 (Some memoryReturn) 0); [done|by left|by apply region_sizes|apply gas_memory|apply exec_opReturn].
  - apply op_selfdestruct; [done|apply gas_destruct_legacy].
Qed.

Lemma frontier_good (l : list Z) : SSTORE ∈ l -> CALL ∈ l -> good_but l (newFrontierInstructionSet rules bc tc).
Proof.
  intros Hs Hc opcode Hr Hn. destruct (Z.eq_dec opcode 0) as [->|Hz]; [apply (opStop_ok mt 0)|].
  apply (entry_good l); [lia|done|].
  repeat apply Forall_app_2; auto using arithmetic_good, environment_good, memory_good, push_good, dup_good, swap_good,
    log_good, calls_good.
Qed.

(** ** Changes of a table *)

(** An entry of the table with another price. *)
Definition repriced (op : operation W P) (gas : Z) : operation W P :=
  mkOperation (execute op) gas (dynamicGas op) (minStack op) (maxStack op) (memorySize op).
Definition remetered (op : operation W P) (f : Z -> M (Machine W P) Z) : operation W P :=
  mkOperation (execute op) (constantGas op) (Some f) (minStack op) (maxStack op) (memorySize op).

Lemma good_aside (l : list Z) k op jt : k ∈ l -> good_but l jt -> good_but l (put k op jt).
Proof.
  intros Hk Hj i Hi Hn. unfold put. destruct (Z.eqb_spec i k) as [->|_]; [done|by apply Hj].
Qed.

Lemma good_price l k gas jt op : repriced (jt k) gas = op -> good_op k op -> good_but (k :: l) jt ->
  good_but l (set_constantGas k gas jt).
Proof. intros <- Ho Hj. by apply good_put. Qed.

Lemma good_meter l k f jt op : remetered (jt k) f = op -> good_op k op -> good_but (k :: l) jt ->
  good_but l (set_dynamicGas k f jt).
Proof. intros <- Ho Hj. by apply good_put. Qed.

Lemma good_both l k gas f jt op : remetered (repriced (jt k) gas) f = op -> good_op k op -> good_but (k :: l) jt ->
  good_but l (set_dynamicGas k f (set_constantGas k gas jt)).
Proof.
  intros <- Ho Hj. apply good_put.
  - apply good_aside; [apply list_elem_of_here|done].
  - unfold set_constantGas, put. by rewrite Z.eqb_refl.
Qed.

(** The entries whose gas depends on the account list; their goodness depends on the fork. *)
Definition pending (l : list Z) : Prop := SSTORE ∈ l /\ CALL ∈ l /\ STATICCALL ∈ l.

Lemma pending_cons l k : pending l -> pending (k :: l).
Proof. intros (? & ? & ?). split_and!; by apply list_elem_of_further. Qed.

Lemma good_pending jt : good_but [SSTORE; CALL; STATICCALL] jt -> good_op SSTORE (jt SSTORE) -> good_op CALL (jt CALL) ->
  good_op STATICCALL (jt STATICCALL) -> table_ok mt jt.
Proof.
  intros Hj Hs Hc Ht i Hi. destruct (Z.eq_dec i SSTORE) as [->|N1]; [done|].
  destruct (Z.eq_dec i CALL) as [->|N2]; [done|]. destruct (Z.eq_dec i STATICCALL) as [->|N3]; [done|].
  apply Hj; [done|]. rewrite !not_elem_of_cons. split_and!; [done..|apply not_elem_of_nil].
Qed.

(** ** The forks *)

Lemma homestead_good l : pending l -> good_but l (newHomesteadInstructionSet rules bc tc).
Proof.
  intros Hl. apply good_put.
  - destruct (pending_cons l DELEGATECALL Hl) as (? & ? & ?). by apply frontier_good.
  - apply (opDelegateCall_ok mt rules _ _ _ false); [done|by apply gas_delegate].
Qed.

Local Ltac account_op := first [apply exec_opBalance | apply exec_opExtCodeSize | apply exec_opExtCodeHash | apply exec_opSload].

Lemma tangerine_good l : pending l -> good_but l (newTangerineWhistleInstructionSet rules bc tc).
Proof.
  intros Hl. unfold newTangerineWhistleInstructionSet.
  apply (good_price _ _ _ _ (with_memory opDelegateCall CallGasEIP150 (gasDelegateCall rules) 6 1 memoryDelegateCall)); [reflexivity| |].
  { apply (opDelegateCall_ok mt rules _ _ _ false); [done|by apply gas_delegate]. }
  apply (good_price _ _ _ _ (with_memory opCallCode CallGasEIP150 (gasCallCode rules) 7 1 memoryCall)); [reflexivity| |].
  { apply (opCallCode_ok mt rules _ _ _ false); [done|by apply gas_callcode]. }
  apply good_aside; [do 2 apply list_elem_of_further; apply Hl|].
  apply (good_price _ _ _ _ (with_memory opExtCodeCopy ExtcodeCopyBaseEIP150 gasExtCodeCopy 4 0 memoryExtCodeCopy)); [reflexivity| |].
  { apply (op_dynamic mt false _ _ _ gasExtCodeCopy 4 0 (Some memoryExtCodeCopy) 0); [done|by right|by apply region_sizes|by apply gas_per_word|apply exec_opExtCodeCopy]. }
  apply (good_price _ _ _ _ (fixed opSload SloadGasEIP150 1 1)); [reflexivity|apply op_fixed; [cost|account_op]|].
  apply (good_price _ _ _ _ (fixed opExtCodeSize ExtcodeSizeGasEIP150 1 1)); [reflexivity|apply op_fixed; [cost|account_op]|].
  apply (good_price _ _ _ _ (fixed opBalance BalanceGasEIP150 1 1)); [reflexivity|apply op_fixed; [cost|account_op]|].
  apply homestead_good. by repeat apply pending_cons.
Qed.

Lemma spurious_good l : pending l -> good_but l (newSpuriousDragonInstructionSet rules bc tc).
Proof.
  intros Hl. apply (good_meter _ _ _ _ (metered opExp 0 gasExpEIP158 2 1)); [reflexivity| |by apply tangerine_good, pending_cons].
  apply (op_dynamic mt false _ _ 0 gasExpEIP158 2 1 None 10); [done|by right|done|by apply gas_exp|].
  apply exec_mem_good, exec_binary. intros; auto with words.
Qed.

Lemma byzantium_good l : pending l -> good_but l (newByzantiumInstructionSet rules bc tc).
Proof.
  intros Hl. apply good_put; [apply good_put; [apply good_put; [apply good_aside|]|]|].
  - do 3 apply list_elem_of_further. apply Hl.
  - apply spurious_good. by repeat apply pending_cons.
  - pushed.
  - apply (op_dynamic mt false _ _ _ gasReturnDataCopy 3 0 (Some memoryReturnDataCopy) 0); [done|by right|by apply region_sizes|by apply gas_per_word|apply exec_opReturnDataCopy].
  - apply (op_dynamic mt true _ _ _ pureMemoryGascost 2 0 (Some memoryRevert) 0); [done|by left|by apply region_sizes|apply gas_memory|apply exec_opRevert].
Qed.

Lemma constantinople_good l : pending l -> good_but l (newConstantinopleInstructionSet rules bc tc).
Proof.
  intros Hl. unfold newConstantinopleInstructionSet.
  apply good_put; [|by apply opCreate2_ok].
  apply good_put; [|apply op_fixed; [cost|account_op]].
  do 3 (apply good_put; [|apply op_binary; [cost|intros; auto with words]]).
  apply byzantium_good. by repeat apply pending_cons.
Qed.

Lemma istanbul_good l : pending l -> good_but l (newIstanbulInstructionSet rules bc tc).
Proof.
  intros Hl. unfold newIstanbulInstructionSet, enable2200, enable1884, enable1344.
  apply good_aside; [apply Hl|].
  apply (good_price _ _ _ _ (fixed opSload SloadGasEIP2200 1 1)); [reflexivity|apply op_fixed; [cost|account_op]|].
  apply good_put; [|apply op_fixed; [cost|apply exec_opSelfBalance]].
  apply (good_price _ _ _ _ (fixed opExtCodeHash ExtcodeHashGasEIP1884 1 1)); [reflexivity|apply op_fixed; [cost|account_op]|].
  apply (good_price _ _ _ _ (fixed opBalance BalanceGasEIP1884 1 1)); [reflexivity|apply op_fixed; [cost|account_op]|].
  apply (good_price _ _ _ _ (fixed opSload SloadGasEIP1884 1 1)); [reflexivity|apply op_fixed; [cost|account_op]|].
  apply good_put; [|pushed].
  apply constantinople_good. by repeat apply pending_cons.
Qed.

Local Ltac checked_op :=
  apply (op_dynamic mt false _ _ _ gasEip2929AccountCheck 1 1 None 0);
    [done|by right|done|by apply gas_account_check|apply exec_mem_good; account_op].

Lemma berlin_good (l : list Z) : SSTORE ∈ l -> lists_accounts mt = true -> IsEIP150 rules = true ->
  good_but l (newBerlinInstructionSet rules bc tc).
Proof.
  intros Hl Hlist H150. unfold newBerlinInstructionSet, enable2929, warm_access.
  apply (good_both _ _ _ _ _ (metered opSelfdestruct SelfdestructGasEIP150 gasSelfdestructEIP2929 1 0)); [reflexivity| |].
  { by apply op_selfdestruct; [|apply gas_destruct_2929]. }
  apply (good_both _ _ _ _ _ (with_memory opDelegateCall 100 (gasDelegateCallEIP2929 rules) 6 1 memoryDelegateCall)); [reflexivity| |].
  { by apply (opDelegateCall_ok mt rules _ _ _ true); [|apply gas_call_2929; [| |apply gas_delegate]]. }
  apply (good_both _ _ _ _ _ (with_memory opStaticCall 100 (gasStaticCallEIP2929 rules) 6 1 memoryStaticCall)); [reflexivity| |].
  { by apply (opStaticCall_ok mt rules _ _ _ true); [|apply gas_call_2929; [| |apply gas_static]|]. }
  apply (good_both _ _ _ _ _ (with_memory opCallCode 100 (gasCallCodeEIP2929 rules) 7 1 memoryCall)); [reflexivity| |].
  { by apply (opCallCode_ok mt rules _ _ _ true); [|apply gas_call_2929; [| |apply gas_callcode]]. }
  apply (good_both _ _ _ _ _ (with_memory opCall 100 (gasCallEIP2929 rules) 7 1 memoryCall)); [reflexivity| |].
  { by apply (opCall_ok mt rules _ _ _ true); [|apply gas_call_2929; [| |apply gas_call_old]|]. }
  apply (good_both _ _ _ _ _ (metered opBalance 100 gasEip2929AccountCheck 1 1)); [reflexivity|checked_op|].
  apply (good_both _ _ _ _ _ (metered opExtCodeHash 100 gasEip2929AccountCheck 1 1)); [reflexivity|checked_op|].
  apply (good_both _ _ _ _ _ (metered opExtCodeSize 100 gasEip2929AccountCheck 1 1)); [reflexivity|checked_op|].
  apply (good_both _ _ _ _ _ (with_memory opExtCodeCopy 100 gasExtCodeCopyEIP2929 4 0 memoryExtCodeCopy)); [reflexivity| |].
  { apply (op_dynamic mt false _ _ _ gasExtCodeCopyEIP2929 4 0 (Some memoryExtCodeCopy) 0);
      [done|by right|by apply region_sizes|apply gas_extcodecopy|apply exec_opExtCodeCopy]. }
  apply (good_both _ _ _ _ _ (metered opSload 0 gasSLoadEIP2929 1 1)); [reflexivity| |].
  { apply (op_dynamic mt false _ opSload 0 gasSLoadEIP2929 1 1 None 100);
      [done|by right|done|by apply gas_sload|apply exec_mem_good; account_op]. }
  apply good_aside; [by do 10 apply list_elem_of_further|].
  apply istanbul_good. split_and!; [by do 10 apply list_elem_of_further|set_solver|set_solver].
Qed.

Lemma london_good l : lists_accounts mt = true -> clears mt = 4800 -> IsEIP150 rules = true -> bc_BaseFee bc <> None ->
  good_but l (newLondonInstructionSet rules bc tc).
Proof.
  intros Hlist Hcl H150 Hfee. unfold newLondonInstructionSet, enable3198, enable3529.
  apply good_put; [|by apply op_pushes_big].
  apply (good_meter _ _ _ _ (metered opSelfdestruct SelfdestructGasEIP150 gasSelfdestructEIP3529 1 0)); [reflexivity| |].
  { by apply op_selfdestruct; [|apply gas_destruct_2929]. }
  apply (good_meter _ _ _ _ (metered opSstore 0 gasSStoreEIP3529 2 0)); [reflexivity| |].
  { apply op_sstore; [done|lia|]. change gasSStoreEIP3529 with (makeGasSStoreFunc (W:=W) (P:=P) 4800). rewrite <- Hcl. apply gas_store_2929; [done|lia]. }
  apply berlin_good; [apply list_elem_of_here|done|done].
Qed.

Lemma sstore_good_2200 : clears mt = 15000 -> good_op SSTORE (metered opSstore 0 gasSStoreEIP2200 2 0).
Proof. intros Hcl. apply op_sstore; [done|lia|by apply gas_store_2200]. Qed.

Lemma sstore_good_legacy : clears mt = 15000 -> good_op SSTORE (metered opSstore 0 (gasSStore rules) 2 0).
Proof. intros Hcl. apply op_sstore; [done|lia|by apply gas_store_legacy]. Qed.

Lemma call_good gas : 40 <= gas -> lists_accounts mt = false ->
  good_op CALL (with_memory opCall gas (gasCall rules) 7 1 memoryCall).
Proof. intros Hg Hl. by apply (opCall_ok mt rules _ _ _ false); [|apply gas_call_old|]. Qed.

Lemma static_good gas : 40 <= gas -> lists_accounts mt = false ->
  good_op STATICCALL (with_memory opStaticCall gas (gasStaticCall rules) 6 1 memoryStaticCall).
Proof. intros Hg Hl. by apply (opStaticCall_ok mt rules _ _ _ false); [|apply gas_static|]. Qed.
End tables.

Section default_table.
Context {W P : Type} `{StateKeeper W, Keccak, EthAddresses, PrecompiledContracts W P}.
Context (rules : Rules) (bc : BlockContext) (tc : TxContext).

Lemma DefaultJumpTable_good : rules_ok rules bc ->
  good_but (W:=W) (P:=P) (metering_of rules) [] (DefaultJumpTable rules bc tc).
Proof.
  intros [Hh Hb H150 Hf Hr]. unfold DefaultJumpTable, metering_of.
  destruct (IsMerge rules) eqn:E1.
  { apply good_put; [|apply opRandom_ok; [done|by apply Hr]]. apply london_good; auto. }
  destruct (IsLondon rules) eqn:E2; [apply london_good; auto|].
  cbn [orb]. clear Hb Hf Hr. destruct (IsBerlin rules) eqn:E3.
  { intros i Hi _. destruct (Z.eq_dec i SSTORE) as [->|Hn].
    - apply (op_sstore _ SSTORE 0 gasSStoreEIP2929); [done|done|by apply gas_store_2929].
    - apply (berlin_good _ _ _ _ [SSTORE]); [apply list_elem_of_here|done|auto|done|set_solver]. }
  assert (Hlegacy : forall jt : Z -> operation W P, good_but (mkMetering 15000 false) [SSTORE; CALL; STATICCALL] jt ->
    op_ok (mkMetering 15000 false) SSTORE (jt SSTORE) -> op_ok (mkMetering 15000 false) CALL (jt CALL) ->
    op_ok (mkMetering 15000 false) STATICCALL (jt STATICCALL) -> good_but (mkMetering 15000 false) [] jt).
  { intros jt Hj Hs Hc Ht i Hi _. by apply (good_pending _ jt Hj Hs Hc Ht). }
  assert (Hp : pending [SSTORE; CALL; STATICCALL]) by (split_and!; set_solver).
  destruct (IsIstanbul rules).
  { apply Hlegacy; [by apply istanbul_good|by apply sstore_good_2200|by apply (call_good _ _ 700)|by apply (static_good _ _ 700)]. }
  destruct (IsConstantinople rules).
  { apply Hlegacy; [by apply constantinople_good|by apply sstore_good_legacy|by apply (call_good _ _ 700)|by apply (static_good _ _ 700)]. }
  destruct (IsByzantium rules).
  { apply Hlegacy; [by apply byzantium_good|by apply sstore_good_legacy|by apply (call_good _ _ 700)|by apply (static_good _ _ 700)]. }
  destruct (IsEIP158 rules).
  { apply Hlegacy; [by apply spurious_good|by apply sstore_good_legacy|by apply (call_good _ _ 700)|by apply opUndefined_ok]. }
  destruct (IsEIP150 rules).
  { apply Hlegacy; [by apply tangerine_good|by apply sstore_good_legacy|by apply (call_good _ _ 700)|by apply opUndefined_ok]. }
  rewrite Hh. apply Hlegacy; [by apply homestead_good|by apply sstore_good_legacy|by apply (call_good _ _ 40)|by apply opUndefined_ok].
Qed.

Lemma enable3855_good mt l jt : good_but (W:=W) (P:=P) mt l jt -> good_but mt l (enable3855 jt).
Proof. intros Hj. apply good_put; [by apply good_more|]. by apply op_pushes. Qed.
End default_table.

(** ** The entry points *)

Section entry_points.
Context {W P : Type} `{StateKeeper W, Keccak, EthAddresses, PrecompiledContracts W P} `{!PrecompileLaws W P}.
Context (env : EvmEnv W P).

(** The environment that the module sets up: the table of the chain's rules, with no more EIPs than
    the default ones. *)
Record env_ok : Prop := {
  eo_rules : rules_ok (chainRules env) (Context env);
  eo_hooks : hooks_ok (hooks env);
  eo_table : exists extra active, Forall (eq "ethereum_3855"%string) extra /\
    NewEVMInterpreter (chainRules env) (Context env) (env_TxContext env) extra = Ok (env_JumpTable env, active)
}.

(** A transaction that has not refunded or cleared anything yet. *)
Record fresh (e : EVM W P) : Prop := {
  fr_ok : db_ok (evm_StateDB e);
  fr_depth : depth e = 0;
  fr_refund : refund (evm_StateDB e) = 0;
  fr_cleared a k : ~ cleared (evm_StateDB e) a k
}.

(** The gas for which no counter overflows: about 18 * 10^15. *)
Definition gas_fits (gas : Z) : Prop := 0 <= gas < 2 ^ 54.

Lemma New_not_cleared c cfg a k : ~ cleared (New (W:=W) c cfg) a k.
Proof.
  intros (o & Ho & Hn & Hz). revert Ho. unfold lookup_obj, getStateObject. simpl. rewrite lookup_empty.
  destruct (keeper_GetAccount a c) as [acct|]; [|done]. simpl. intros [= <-]. by apply Hn.
Qed.

Lemma extra_push0 (positions : list nat) (eips : list string) len (jt : Z -> operation W P) r : good_but (metering_of (chainRules env)) [] jt ->
  Forall (eq "ethereum_3855"%string) eips ->
  extra_eips (chainRules env) (Context env) positions eips len jt = Ok r ->
  good_but (metering_of (chainRules env)) [] (fst r).
Proof.
  intros Hj He. revert jt Hj. induction positions as [|i positions IH]; intros jt Hj Hr; simpl in Hr.
  - by injection Hr as <-.
  - destruct (eips !! i) as [eip|] eqn:Ei; [|done].
    pose proof (proj1 (list.Forall_lookup _ _) He _ _ Ei) as <-.
    rewrite bool_decide_eq_false_2 in Hr by done. rewrite andb_false_r in Hr.
    apply (IH (enable3855 jt)); [by apply enable3855_good|exact Hr].
Qed.

Lemma env_table_ok : env_ok -> table_ok (metering_of (chainRules env)) (env_JumpTable env).
Proof.
  intros [Hr _ (extra & active & He & Ht)]. apply good_all.
  exact (extra_push0 _ _ _ _ _ (DefaultJumpTable_good _ _ _ Hr) He Ht).
Qed.

Lemma env_lists : env_ok -> lists_accounts (metering_of (chainRules env)) = true -> IsBerlin (chainRules env) = true.
Proof.
  intros [Hr _ _]. unfold metering_of. destruct (_ || _) eqn:E; [intros _; by apply (ro_berlin _ _ Hr)|done].
Qed.

Lemma env_interp_ok n : env_ok -> run_ok (metering_of (chainRules env)) n (Interp env n).
Proof.
  intros Ho. pose proof (env_lists Ho). pose proof (env_table_ok Ho). destruct Ho as [Hr Hh _].
  apply Interp_ok; try done. apply (ro_homestead _ _ Hr).
Qed.

Lemma env_calls_ok : env_ok -> calls_ok (metering_of (chainRules env)) 1025 (evm_calls env).
Proof.
  intros Ho. pose proof (env_lists Ho). pose proof (env_interp_ok 1025 Ho). destruct Ho as [Hr Hh _].
  apply frames_ok; try done. apply (ro_homestead _ _ Hr).
Qed.

Lemma fresh_pre e gas : fresh e -> gas_fits gas ->
  call_pre (metering_of (chainRules env)) 1025 (refund_rate * gas) gas e.
Proof.
  intros [Ok D R C] [G1 G2]. unfold refund_rate, gas_ok, SelfdestructRefundGas, CallCreateDepth.
  split; [done|unfold CallCreateDepth; lia|unfold gas_ok; lia| |unfold SelfdestructRefundGas; lia].
  split; [|lia|unfold refund_rate; lia]. exists ∅. rewrite size_empty. split; [|lia]. intros a k Hc. by destruct (C a k).
Qed.

(** What the caller of an entry point sees. *)
Definition returns (gas : Z) (e : EVM W P) (out : Outcome) (e' : EVM W P) : Prop :=
  0 <= leftOverGas out <= gas /\ 0 <= refund (evm_StateDB e') <= 600 * (gas - leftOverGas out) + 24000 /\
  depth e' = 0 /\ in_readOnly e' = in_readOnly e /\ db_ok (evm_StateDB e').

Lemma returns_post e gas out e' : fresh e -> gas_fits gas -> evolves e e' -> 0 <= leftOverGas out <= gas ->
  bound (metering_of (chainRules env)) (refund_rate * gas + SelfdestructRefundGas) (leftOverGas out) (evm_StateDB e') ->
  returns gas e out e'.
Proof.
  intros Hf Hg He Hl [_ N B]. pose proof (fr_ok _ Hf) as Hok. destruct He as [Hw Hd Hr].
  unfold refund_rate, SelfdestructRefundGas in B. split_and!; try lia; try done.
  - by rewrite Hd, (fr_depth _ Hf).
  - by eapply within_ok.
Qed.

(** The ways a run ends: it returns, or a precompile that it has called panics. *)
Definition ends {A} (r : res A * EVM W P) (Q : A -> EVM W P -> Prop) : Prop :=
  (exists a e', r = (Ok a, e') /\ Q a e') \/
  (exists e', r = (Panic, e') /\ precompile_panic (P:=P) (evm_StateDB e')).

(** What stays of a call that fails, and of a creation. *)
Definition call_result (gas : Z) (e : EVM W P) (out : Outcome) (e' : EVM W P) : Prop :=
  returns gas e out e' /\ (vm_err out <> None -> same_state (evm_StateDB e) (evm_StateDB e')).

Definition create_result (from : ContractRef) (gas : Z) (e : EVM W P) (r : Outcome * Address) (e' : EVM W P) : Prop :=
  returns gas e (fst r) e' /\
  (vm_err (fst r) <> None -> same_state (evm_StateDB e) (evm_StateDB e') \/
     bumped (IsBerlin (chainRules env)) (ref_Address from)
       (crypto_CreateAddress (ref_Address from) (fst (GetNonce (ref_Address from) (evm_StateDB e))))
       (evm_StateDB e) (evm_StateDB e')).

Lemma call_safe from addr input gas value e :
  env_ok -> fresh e -> gas_fits gas -> 0 <= value < 2 ^ 256 ->
  (IsBerlin (chainRules env) = true -> ContainsAddress (access (evm_StateDB e)) addr = true) ->
  ends (do_Call (evm_calls env) from addr input gas value e) (call_result gas e).
Proof.
  intros Ho Hf Hg Hv Ha. apply wp_inv. eapply wp_mono;
    [|apply (ok_Call _ _ _ (env_calls_ok Ho) from addr input _ gas value e (fresh_pre e gas Hf Hg) Hv)].
  - intros out e' [Hev Hl Hb Hx]. split; [by apply returns_post|done].
  - intros Hl. by apply Ha, env_lists.
Qed.

Lemma create_safe from code gas value e :
  env_ok -> fresh e -> gas_fits gas -> 0 <= value < 2 ^ 256 ->
  ends (do_Create (evm_calls env) from code gas value e) (create_result from gas e).
Proof.
  intros Ho Hf Hg Hv. pose proof (env_lists Ho) as Hb. pose proof (env_interp_ok 1025 Ho) as Hi.
  destruct Ho as [[Hhome _ _ _ _] Hh _]. apply wp_inv. eapply wp_mono;
    [|exact (wp_Create (metering_of (chainRules env)) env 1025 (Interp env 1025) Hh Hi Hb Hhome from code _ gas value e
        (fresh_pre e gas Hf Hg) Hv)].
  intros [out addr] e' [Hev Hl Hbd Hx]. split; [by apply returns_post|done].
Qed.

(** C8: A call and a creation return, whatever the code that they run and whatever that calls, unless a precompile
    that they reach panics: with gas below 2^54, the rules of an activated fork and no extra EIP but 3855, an
    interpreter of 1025 nested runs, with a round for each unit of gas, neither panics by itself nor
    runs out of rounds. They leave at most the gas that they are given; the refund counter never underflows and
    stays below 600 times the gas used, plus the refund of a selfdestruct; and a call that fails
    leaves the state as it was, as does a creation, but for the nonce of the creator and
    the new address in the access list. The precompiles are those of [PrecompileLaws], which
    go-ethereum's and the stateful ones of precompiles/ satisfy whatever their methods do
    ([chain_contract_laws]); where one panics, the state is the one that it has left. *)
Theorem evm_returns from addr input gas value e :
  env_ok -> fresh e -> gas_fits gas -> 0 <= value < 2 ^ 256 ->
  ((IsBerlin (chainRules env) = true -> ContainsAddress (access (evm_StateDB e)) addr = true) ->
   ends (do_Call (evm_calls env) from addr input gas value e) (fun out e' =>
     returns gas e out e' /\ (vm_err out <> None -> same_state (evm_StateDB e) (evm_StateDB e')))) /\
  ends (do_Create (evm_calls env) from input gas value e) (fun '(out, _) e' =>
    returns gas e out e' /\
    (vm_err out <> None -> same_state (evm_StateDB e) (evm_StateDB e') \/
       bumped (IsBerlin (chainRules env)) (ref_Address from)
         (crypto_CreateAddress (ref_Address from) (fst (GetNonce (ref_Address from) (evm_StateDB e))))
         (evm_StateDB e) (evm_StateDB e'))).
Proof.
  intros Ho Hf Hg Hv. split; [by apply call_safe|].
  destruct (create_safe from input gas value e Ho Hf Hg Hv) as [([out a] & e' & E & Hr)|(e' & E & Hp)].
  - left. by exists (out, a), e'.
  - right. by exists e'.
Qed.
End entry_points.

(** ** A small chain *)

Section example.
#[local] Existing Instance StateCommit.RefStateKeeper.
#[local] Existing Instance StateCommit.RefKeccak.

(** Addresses from the creator's own. *)
#[local] Instance RefAddresses : EthAddresses := {
  crypto_CreateAddress a nonce := String.substring 0 20 (a +:+ big_endian 8 nonce);
  crypto_CreateAddress2 a salt h := String.substring 0 20 (salt +:+ h)
}.
(** A stateful precompile whose fallback pays 5 to B; given to another, it panics. *)
Definition ex_fallback : Method := mkMethod "pay" Fallback (fun _ => true).
Definition ex_contract (panics : bool) : ChainContract RefStore :=
  Stateful (mkStateful (Bytes20 100) (fun _ => 10%N) (mkABI None (Some ex_fallback) (fun _ => None)) (fun _ => true)
    (fun _ => 0) (fun _ _ _ _ => if panics then mlift Panic else mret (mkEffect [NewBalanceChangeEntry "B" 5 Add] [] true))
    (fun _ _ => "ok") (fun _ _ => 7%N)).

Definition ex_rules : Rules := mkRules 11235 true true true true true true true true true true false.
Definition ex_block : BlockContext := mkBlockContext (fun _ => zero_hash) "C" 0 1 1 0 (Some 7) None.
Definition ex_tx : TxContext := mkTxContext "A" 7.
Definition no_hooks : OpCodeHooks RefStore (ChainContract RefStore) := mkHooks (fun _ _ => mret tt) (fun _ => mret tt).
Definition ex_env : EvmEnv RefStore (ChainContract RefStore) :=
  mkEnv ex_block ex_tx ex_rules no_hooks (enable3855 (DefaultJumpTable ex_rules ex_block ex_tx)).

(** At the account D: [PUSH1 1; PUSH1 0; SSTORE], a call of the precompile, [PUSH0; PUSH0; REVERT]. *)
Fixpoint bytes (l : list Z) : string :=
  match l with
  | [] => EmptyString
  | b :: l => String (Ascii.ascii_of_N (Z.to_N b)) (bytes l)
  end.
Definition ex_code : string := bytes [96; 1; 96; 0; 85; 95; 95; 95; 95; 95; 96; 100; 90; 241; 95; 95; 253].
Definition ex_accounts : RefStore :=
  mkRefStore {[ "A" := mkAccount 3 100 (Keccak256Hash ""); "D" := mkAccount 1 0 (Keccak256Hash ex_code) ]} ∅
    {[ Keccak256Hash ex_code := ex_code ]}.
Definition ex_evm_with (panics : bool) : EVM RefStore (ChainContract RefStore) :=
  mkEVM (AddAddressToAccessList "D" (New ex_accounts ex_cfg)) 0 0 {[ Bytes20 100 := ex_contract panics ]}
    [Bytes20 100] false EmptyString.
Definition ex_evm : EVM RefStore (ChainContract RefStore) := ex_evm_with false.

Lemma ex_env_ok : env_ok ex_env.
Proof.
  split.
  - by split.
  - by split; intros; intros e.
  - exists ["ethereum_3855"%string], ["ethereum_3855"%string]. split; [by repeat constructor|]. reflexivity.
Qed.

Lemma ex_fresh : fresh ex_evm.
Proof.
  split; [|done|done|].
  - eapply within_ok; [apply AddAddressToAccessList_writer|]; apply New_ok.
  - intros a k Hc. apply (New_not_cleared ex_accounts ex_cfg a k). revert Hc.
    apply AddAddressToAccessList_writer, New_ok.
Qed.

Definition ex_run_call (panics : bool) :=
  do_Call (evm_calls ex_env) (AccountRef "A") "D" EmptyString 100000 0 (ex_evm_with panics).

(** The precompile that panics takes the call with it; the other one does not. *)
Example ex_panics : fst (ex_run_call true) = Panic /\
  (vm_err <$> match fst (ex_run_call false) with Ok o => Some o | _ => None end) = Some (Some ErrExecutionReverted) /\
  (ret <$> match fst (do_Call (evm_calls ex_env) (AccountRef "A") (Bytes20 100) EmptyString 100000 0 ex_evm) with
           | Ok o => Some o | _ => None end) = Some "ok"%string.
Proof. vm_compute. done. Qed.

(** The call runs the code, which writes a slot, calls the precompile and reverts. *)
Lemma evm_returns_witness :
  let '(r, e') := ex_run_call false in
  (exists out, r = Ok out /\ same_state (evm_StateDB ex_evm) (evm_StateDB e')).
Proof.
  destruct (evm_returns ex_env (AccountRef "A") "D" EmptyString 100000 0 ex_evm) as [Hcall _].
  - exact ex_env_ok.
  - exact ex_fresh.
  - unfold gas_fits. lia.
  - lia.
  - assert (Hx : match fst (ex_run_call false) with
                 | Ok o => vm_err o = Some ErrExecutionReverted | _ => False end) by (vm_compute; reflexivity).
    unfold ex_run_call in *. change (ex_evm_with false) with ex_evm in *.
    destruct Hcall as [(out & e' & E & _ & Hs)|(e' & E & _)]; [reflexivity| |]; rewrite E in *; simpl in Hx.
    + exists out. split; [reflexivity|]. apply Hs. by rewrite Hx.
    + destruct Hx.
Defined.
End example.
