(* ===== verification/EvmConfig.v ===== *)
(** * x/evm: validation of the parameters, permissions, hooks and the choice of the precompiles

    x/evm/types/params.go, chain_config.go, permissions.go and opcodes_hooks.go; x/evm/keeper/params.go,
    precompiles.go and static_precompiles.go; the default precompiles of x/evm/core/vm/contracts.go.

    The text of an address, ibc-go's and the SDK's validators and go-ethereum's [params.ChainConfig] are
    library code and parameters here.  The bodies of the precompiled contracts are parameters too. *)

From S2P Require Import Prelude.
From S2P Require Import Sdk.
From S2P Require Import AccessList.
From S2P Require Import StateDB.
From S2P Require Import Precompile.
From S2P Require Import StateCommit.
From S2P Require Import EvmParams.
From S2P Require Import EvmMachine.
From S2P Require Import EvmCode.
From S2P Require Import Evm.
From S2P Require Import EvmInstructions.
From S2P Require Import EvmTable.

Local Open Scope Z_scope.

(** ** Library code *)

(** [common.Address.String], [common.IsHexAddress], [strings.TrimSpace] of the Go library and the
    channel identifiers of ibc-go. *)
Class EvmText := {
  addr_String : Address -> string;
  is_hex_address : string -> bool;
  trim_space : string -> string;
  ChannelIdentifierValidator : string -> res unit
}.

(** Two addresses have different texts. *)
Class EvmTextLaws `{EvmText} : Prop := { addr_String_inj :: Inj (=) (=) addr_String }.

(** go-ethereum's [params.ChainConfig]: the identifier of the chain and the heights of the forks. *)
Record EthConfig := mkEthConfig { eth_ChainID : Z; eth_forks : ChainConfig }.

Class GethConfig := {
  chain_Rules : EthConfig -> Z -> bool -> Rules;
  CheckConfigForkOrder : EthConfig -> res unit
}.

(** A fork is active from its height on. *)
Definition forked (block : option Z) (num : Z) : bool :=
  match block with Some b => b <=? num | None => false end.

(** The forks that cannot be left out, in their order. *)
Definition fork_list (cc : ChainConfig) : list (option Z) :=
  [HomesteadBlock cc; EIP150Block cc; EIP155Block cc; EIP158Block cc; ByzantiumBlock cc; ConstantinopleBlock cc;
   PetersburgBlock cc; IstanbulBlock cc; BerlinBlock cc; LondonBlock cc].

(** What go-ethereum documents of the two functions: a rule is set from the height of its fork on, and
    a schedule is accepted when no fork comes before, or without, one that precedes it. *)
Class GethConfigLaws `{GethConfig} : Prop := {
  rules_homestead c num m : IsHomestead (chain_Rules c num m) = forked (HomesteadBlock (eth_forks c)) num;
  rules_eip150 c num m : IsEIP150 (chain_Rules c num m) = forked (EIP150Block (eth_forks c)) num;
  rules_berlin c num m : IsBerlin (chain_Rules c num m) = forked (BerlinBlock (eth_forks c)) num;
  rules_london c num m : IsLondon (chain_Rules c num m) = forked (LondonBlock (eth_forks c)) num;
  rules_merge c num m : IsMerge (chain_Rules c num m) = m;
  fork_order c i j a b : CheckConfigForkOrder c = Ok tt -> (i < j)%nat ->
    fork_list (eth_forks c) !! i = Some a -> fork_list (eth_forks c) !! j = Some (Some b) ->
    exists x, a = Some x /\ x <= b
}.

(** ** Validation *)

Section validation.
Context `{SdkOps} `{EvmText} `{GethConfig}.

(** The first error of a list of checks. *)
Fixpoint check_all {A} (f : A -> res unit) (l : list A) : res unit :=
  match l with
  | [] => Ok tt
  | x :: l => _ ← f x; check_all f l
  end.

Definition validateChannels (channels : list string) : res unit := check_all ChannelIdentifierValidator channels.

Definition ValidateAddress (address : string) : res unit :=
  if is_hex_address address then Ok tt else Err (ErrText "address is not a valid ethereum hex address").

Definition validateAccessType (accessType : Z) : res unit :=
  if bool_decide (accessType ∈ [AccessTypePermissionless; AccessTypeRestricted; AccessTypePermissioned])
  then Ok tt else Err (ErrText "invalid access type").

Definition validateAllowlistAddresses (addresses : list string) : res unit :=
  check_all (fun a => match ValidateAddress a with Ok _ => Ok tt | _ => Err (ErrText "invalid whitelist address") end) addresses.

Definition AccessControlType_Validate (act : AccessControlType) : res unit :=
  _ ← validateAccessType (AccessType act); validateAllowlistAddresses (AccessControlList act).

Definition AccessControl_Validate (ac : AccessControl) : res unit :=
  _ ← AccessControlType_Validate (ac_Create ac); AccessControlType_Validate (ac_Call ac).

Definition validateEVMDenom (denom : string) : res unit :=
  if ValidDenom denom then Ok tt else Err (ErrText "invalid denom").

(** [strings.Split] at each underscore. *)
Fixpoint split_underscore (s : string) : list string :=
  match s with
  | EmptyString => [EmptyString]
  | String c s =>
      if bool_decide (c = Ascii.ascii_of_nat 95) then EmptyString :: split_underscore s
      else match split_underscore s with
           | [] => []
           | w :: l => String c w :: l
           end
  end.

Definition ValidateEIPName (eipName : string) : res unit :=
  match split_underscore eipName with
  | [_; number] =>
      match Atoi number with
      | Some _ => Ok tt
      | None => Err (ErrText "eip number should be convertible to int")
      end
  | _ => Err (ErrText "eip name does not conform to structure 'chainName_Number'")
  end.

(** The loop with the EIPs that it has seen. *)
Fixpoint validate_eips (seen eips : list string) : res unit :=
  match eips with
  | [] => Ok tt
  | eip :: eips =>
      if negb (ExistsEipActivator eip) then Err (ErrText "EIP is not activateable")
      else match ValidateEIPName eip with
           | Ok _ => if bool_decide (eip ∈ seen) then Err (ErrText "found duplicate EIP")
                     else validate_eips (eip :: seen) eips
           | _ => Err (ErrText "EIP name is not valid")
           end
  end.

Definition validateEIPs (eips : list string) : res unit := validate_eips [] eips.

Definition getBlockValue (block : option Z) : option Z :=
  match block with
  | Some b => if b <? 0 then None else Some b
  | None => None
  end.

Definition EthereumConfig (chainID : Z) (cc : ChainConfig) : EthConfig :=
  mkEthConfig chainID (mkChainConfig (getBlockValue (HomesteadBlock cc)) (getBlockValue (DAOForkBlock cc)) (DAOForkSupport cc)
    (getBlockValue (EIP150Block cc)) (EIP150Hash cc) (getBlockValue (EIP155Block cc)) (getBlockValue (EIP158Block cc))
    (getBlockValue (ByzantiumBlock cc)) (getBlockValue (ConstantinopleBlock cc)) (getBlockValue (PetersburgBlock cc))
    (getBlockValue (IstanbulBlock cc)) (getBlockValue (MuirGlacierBlock cc)) (getBlockValue (BerlinBlock cc))
    (getBlockValue (LondonBlock cc)) (getBlockValue (ArrowGlacierBlock cc)) (getBlockValue (GrayGlacierBlock cc))
    (getBlockValue (MergeNetsplitBlock cc)) (getBlockValue (ShanghaiBlock cc)) (getBlockValue (CancunBlock cc))).

Definition validateHash (hex : string) : res unit :=
  if negb (bool_decide (hex = EmptyString)) && bool_decide (trim_space hex = EmptyString)
  then Err (ErrText "hash cannot be blank") else Ok tt.

Definition validateBlock (block : option Z) : res unit :=
  match block with
  | Some b => if b <? 0 then Err (ErrText "block value cannot be negative") else Ok tt
  | None => Ok tt
  end.

Definition ChainConfig_Validate (cc : ChainConfig) : res unit :=
  _ ← check_all validateBlock [HomesteadBlock cc; DAOForkBlock cc; EIP150Block cc];
  _ ← validateHash (EIP150Hash cc);
  _ ← check_all validateBlock
        [EIP155Block cc; EIP158Block cc; ByzantiumBlock cc; ConstantinopleBlock cc; PetersburgBlock cc; IstanbulBlock cc;
         MuirGlacierBlock cc; BerlinBlock cc; LondonBlock cc; ArrowGlacierBlock cc; GrayGlacierBlock cc;
         MergeNetsplitBlock cc; ShanghaiBlock cc; CancunBlock cc];
  CheckConfigForkOrder (EthereumConfig 0 cc).

(** The loop with the precompiles that it has seen. *)
Fixpoint validate_precompiles (seen precompiles : list string) : res unit :=
  match precompiles with
  | [] => Ok tt
  | p :: precompiles =>
      if bool_decide (p ∈ seen) then Err (ErrText "duplicate precompile")
      else match ValidateAddress p with
           | Ok _ => validate_precompiles (p :: seen) precompiles
           | _ => Err (ErrText "invalid precompile")
           end
  end.

(** [slices.IsSorted] *)
Fixpoint is_sorted (l : list string) : bool :=
  match l with
  | x :: ((y :: _) as l) => bool_decide (String.le x y) && is_sorted l
  | _ => true
  end.

Definition ValidatePrecompiles (precompiles : list string) : res unit :=
  _ ← validate_precompiles [] precompiles;
  if is_sorted precompiles then Ok tt else Err (ErrText "precompiles need to be sorted").

Definition Params_Validate (p : Params) : res unit :=
  _ ← validateEVMDenom (EvmDenom p);
  _ ← validateEIPs (ExtraEIPs p);
  _ ← ChainConfig_Validate (chain_config p);
  _ ← ValidatePrecompiles (ActiveStaticPrecompiles p);
  _ ← AccessControl_Validate (access_control p);
  validateChannels (EVMChannels p).

Definition IsEVMChannel (p : Params) (channel : string) : bool := bool_decide (channel ∈ EVMChannels p).
End validation.

(** ** Permissions *)

Section permissions.
Context `{EvmText}.

Definition permissionlessCheckFn (addresses : list string) (signer caller : Address) : bool :=
  negb (bool_decide (addr_String signer ∈ addresses)) && negb (bool_decide (addr_String caller ∈ addresses)).

Definition permissionedCheckFn (addresses : list string) (signer caller : Address) : bool :=
  bool_decide (addr_String signer ∈ addresses) || bool_decide (addr_String caller ∈ addresses).

(** The check of one kind of operation. *)
Definition check_fn (act : AccessControlType) (signer caller : Address) : bool :=
  if AccessType act =? AccessTypePermissionless then permissionlessCheckFn (AccessControlList act) signer caller
  else if AccessType act =? AccessTypeRestricted then false
  else if AccessType act =? AccessTypePermissioned then permissionedCheckFn (AccessControlList act) signer caller
  else false.

Definition getCanCreateFn (ac : AccessControl) (signer caller : Address) : bool := check_fn (ac_Create ac) signer caller.
Definition getCanCallFn (ac : AccessControl) (signer caller : Address) : bool := check_fn (ac_Call ac) signer caller.

Record RestrictedPermissionPolicy := mkPolicy { canCreate : Address -> bool; canCall : Address -> bool }.

Definition NewRestrictedPermissionPolicy (ac : AccessControl) (signer : Address) : RestrictedPermissionPolicy :=
  mkPolicy (getCanCreateFn ac signer) (getCanCallFn ac signer).

Definition CanCreate (p : RestrictedPermissionPolicy) (caller : Address) : bool := canCreate p caller.
Definition CanCall (p : RestrictedPermissionPolicy) (caller : Address) : bool := canCall p caller.

(** ** Hooks *)

Section hooks.
Context {W P : Type}.

Definition err_call_permission : err := ErrText "caller address does not have permission to perform a call".
Definition err_create_permission : err := ErrText "caller address does not have permission to deploy contracts".

Definition GetCallHook (p : RestrictedPermissionPolicy) (caller recipient : Address) : M (EVM W P) unit :=
  if CanCall p caller then mret tt else mraise err_call_permission.

Definition GetCreateHook (p : RestrictedPermissionPolicy) (caller : Address) : M (EVM W P) unit :=
  if CanCreate p caller then mret tt else mraise err_create_permission.

Record DefaultOpCodesHooks := mkDefaultHooks {
  callHooks : list (Address -> Address -> M (EVM W P) unit);
  createHooks : list (Address -> M (EVM W P) unit)
}.

Definition NewDefaultOpCodesHooks : DefaultOpCodesHooks := mkDefaultHooks [] [].

Definition AddCallHooks (hooks : list (Address -> Address -> M (EVM W P) unit)) (h : DefaultOpCodesHooks)
    : DefaultOpCodesHooks := mkDefaultHooks (callHooks h ++ hooks) (createHooks h).

Definition AddCreateHooks (hooks : list (Address -> M (EVM W P) unit)) (h : DefaultOpCodesHooks)
    : DefaultOpCodesHooks := mkDefaultHooks (callHooks h) (createHooks h ++ hooks).

(** The hooks in their order, up to the first error. *)
Fixpoint run_hooks {A} (l : list (A -> M (EVM W P) unit)) (x : A) : M (EVM W P) unit :=
  match l with
  | [] => mret tt
  | h :: l => h x;; run_hooks l x
  end.

Definition hooks_of (h : DefaultOpCodesHooks) : OpCodeHooks W P :=
  mkHooks (fun caller recipient => run_hooks (map (fun f '(a, b) => f a b) (callHooks h)) (caller, recipient))
          (fun caller => run_hooks (createHooks h) caller).
End hooks.
End permissions.

(** ** Precompiled contracts *)

(** The native contracts of go-ethereum. *)
Class NativeContracts (P : Type) := {
  ecrecover : P; sha256hash : P; ripemd160hash : P; dataCopy : P;
  bigModExp : bool -> P;
  bn256AddByzantium : P; bn256ScalarMulByzantium : P; bn256PairingByzantium : P;
  bn256AddIstanbul : P; bn256ScalarMulIstanbul : P; bn256PairingIstanbul : P;
  blake2F : P
}.

(** [common.BytesToAddress] of one byte. *)
Definition byte_address (n : nat) : Address := Nat.iter 19 (String Ascii.zero) (String (Ascii.ascii_of_nat n) EmptyString).

Section precompiles.
Context {W P : Type} `{EvmText} `{NativeContracts P} `{PrecompiledContracts W P}.

Definition PrecompiledContractsHomestead : gmap Address P :=
  list_to_map [(byte_address 1, ecrecover); (byte_address 2, sha256hash); (byte_address 3, ripemd160hash);
               (byte_address 4, dataCopy)].

Definition PrecompiledContractsByzantium : gmap Address P :=
  list_to_map [(byte_address 1, ecrecover); (byte_address 2, sha256hash); (byte_address 3, ripemd160hash);
               (byte_address 4, dataCopy); (byte_address 5, bigModExp false); (byte_address 6, bn256AddByzantium);
               (byte_address 7, bn256ScalarMulByzantium); (byte_address 8, bn256PairingByzantium)].

Definition PrecompiledContractsIstanbul : gmap Address P :=
  list_to_map [(byte_address 1, ecrecover); (byte_address 2, sha256hash); (byte_address 3, ripemd160hash);
               (byte_address 4, dataCopy); (byte_address 5, bigModExp false); (byte_address 6, bn256AddIstanbul);
               (byte_address 7, bn256ScalarMulIstanbul); (byte_address 8, bn256PairingIstanbul); (byte_address 9, blake2F)].

Definition PrecompiledContractsBerlin : gmap Address P :=
  list_to_map [(byte_address 1, ecrecover); (byte_address 2, sha256hash); (byte_address 3, ripemd160hash);
               (byte_address 4, dataCopy); (byte_address 5, bigModExp true); (byte_address 6, bn256AddIstanbul);
               (byte_address 7, bn256ScalarMulIstanbul); (byte_address 8, bn256PairingIstanbul); (byte_address 9, blake2F)].

Definition PrecompiledAddressesHomestead : list Address := map byte_address (seq 1 4).
Definition PrecompiledAddressesByzantium : list Address := map byte_address (seq 1 8).
Definition PrecompiledAddressesIstanbul : list Address := map byte_address (seq 1 9).
Definition PrecompiledAddressesBerlin : list Address := map byte_address (seq 1 9).

Definition DefaultActivePrecompiles (rules : Rules) : list Address :=
  if IsBerlin rules then PrecompiledAddressesBerlin
  else if IsIstanbul rules then PrecompiledAddressesIstanbul
  else if IsByzantium rules then PrecompiledAddressesByzantium
  else PrecompiledAddressesHomestead.

Definition DefaultPrecompiles (rules : Rules) : gmap Address P :=
  if IsBerlin rules then PrecompiledContractsBerlin
  else if IsIstanbul rules then PrecompiledContractsIstanbul
  else if IsByzantium rules then PrecompiledContractsByzantium
  else PrecompiledContractsHomestead.

(** The keeper's map of all static precompiles. *)
Context (available : gmap Address P).
(** x/erc20's precompiles of token pairs. *)
Context (GetERC20PrecompileInstance : Address -> W -> res (option P)).

Definition IsAvailableStaticPrecompile (params : Params) (address : Address) : bool :=
  bool_decide (addr_String address ∈ ActiveStaticPrecompiles params) || bool_decide (address ∈ PrecompiledAddressesBerlin).

(** An active precompile that the keeper does not have is a panic. *)
Definition GetStaticPrecompileInstance (params : Params) (address : Address) : res (option P) :=
  if IsAvailableStaticPrecompile params address then
    match available !! address with
    | Some p => Ok (Some p)
    | None => Panic
    end
  else Ok None.

Definition GetPrecompileInstance (params : Params) (address : Address) (w : W) : res (option P) :=
  found ← GetStaticPrecompileInstance params address;
  match found with
  | Some p => Ok (Some p)
  | None => GetERC20PrecompileInstance address w
  end.

(** The hook reads the store of the transaction's start. *)
Definition GetPrecompilesCallHook (params : Params) (w : W) (caller recipient : Address) : M (EVM W P) unit :=
  found ← mlift (GetPrecompileInstance params recipient w);
  match found with
  | Some p => mmodify (WithPrecompiles {[ recipient := p ]} [p_Address p])
  | None => mret tt
  end.
End precompiles.

(** ** The parameters' store *)

Section keeper.
Context `{SdkOps} `{EvmText} `{GethConfig}.

Definition SetParams (params : Params) : M ParamsStore unit := fun s =>
  let params := mkParams (EvmDenom params) (ExtraEIPs params) (chain_config params) (AllowUnprotectedTxs params)
    (EVMChannels params) (access_control params) (merge_sort String.le (ActiveStaticPrecompiles params)) in
  match Params_Validate params with
  | Ok _ => (Ok tt, set_params params s)
  | Err e => (Err e, s)
  | Panic => (Panic, s)
  end.

Definition appendPrecompiles (existing : list string) (addresses : list Address) : res (list string) :=
  if existsb (fun a => bool_decide (addr_String a ∈ existing)) addresses
  then Err (ErrText "precompile already registered")
  else Ok (merge_sort String.le (existing ++ map addr_String addresses)).

Definition EnableStaticPrecompiles (addresses : list Address) : M ParamsStore unit :=
  params ← mgets GetParams;
  updated ← mlift (appendPrecompiles (ActiveStaticPrecompiles params) addresses);
  SetParams (mkParams (EvmDenom params) (ExtraEIPs params) (chain_config params) (AllowUnprotectedTxs params)
    (EVMChannels params) (access_control params) updated).

Definition EnableEIPs (eips : list string) : M ParamsStore unit :=
  params ← mgets GetParams;
  SetParams (mkParams (EvmDenom params) (merge_sort String.le (ExtraEIPs params ++ eips)) (chain_config params)
    (AllowUnprotectedTxs params) (EVMChannels params) (access_control params) (ActiveStaticPrecompiles params)).

Definition UpdateParams (authority sender : string) (params : Params) : M ParamsStore unit :=
  if bool_decide (authority = sender) then SetParams params else mraise (ErrText "invalid authority").
End keeper.

(** ** The hooks of a transaction *)

Section tx_hooks.
Context {W P : Type} `{StateKeeper W, Keccak, EthAddresses} `{EvmText} `{NativeContracts P} `{PrecompiledContracts W P}.
Context (available : gmap Address P) (GetERC20PrecompileInstance : Address -> W -> res (option P)).

(** The hooks that [Keeper.NewEVM] installs, for the parameters and the store of the transaction's start. *)
Definition evm_hooks (params : Params) (signer : Address) (w : W) : OpCodeHooks W P :=
  let accessControl := NewRestrictedPermissionPolicy (access_control params) signer in
  let h := AddCreateHooks [GetCreateHook accessControl] NewDefaultOpCodesHooks in
  let h := AddCallHooks [GetCallHook accessControl; GetPrecompilesCallHook available GetERC20PrecompileInstance params w] h in
  hooks_of h.

(** Who may call and create, by the access type. *)
Definition permitted (act : AccessControlType) (signer caller : Address) : Prop :=
  (AccessType act = AccessTypePermissionless /\
     (addr_String signer ∉ AccessControlList act) /\ (addr_String caller ∉ AccessControlList act)) \/
  (AccessType act = AccessTypePermissioned /\
     (addr_String signer ∈ AccessControlList act \/ addr_String caller ∈ AccessControlList act)).

Lemma check_fn_spec act signer caller : check_fn act signer caller = true <-> permitted act signer caller.
Proof.
  unfold check_fn, permitted, permissionlessCheckFn, permissionedCheckFn.
  destruct (Z.eqb_spec (AccessType act) AccessTypePermissionless) as [->|N1].
  { rewrite andb_true_iff, !negb_true_iff, !bool_decide_eq_false. split; [by left|]. intros [[_ ?]|[E _]]; [done|done]. }
  destruct (Z.eqb_spec (AccessType act) AccessTypeRestricted) as [->|N2].
  { split; [done|]. by intros [[E _]|[E _]]. }
  destruct (Z.eqb_spec (AccessType act) AccessTypePermissioned) as [->|N3].
  - rewrite orb_true_iff, !bool_decide_eq_true. split; [by right|]. intros [[E _]|[_ ?]]; [done|done].
  - split; [done|]. by intros [[E _]|[E _]].
Qed.

Lemma check_fn_false act signer caller : check_fn act signer caller = false <-> ~ permitted act signer caller.
Proof. rewrite <- check_fn_spec. by destruct (check_fn act signer caller). Qed.

(** The call hook: the permission first, then the choice of the precompile. *)
Lemma call_hook_spec params signer w caller recipient e :
  CallHook (evm_hooks params signer w) caller recipient e =
    (if check_fn (ac_Call (access_control params)) signer caller then
       match GetPrecompileInstance available GetERC20PrecompileInstance params recipient w with
       | Ok (Some p) => (Ok tt, WithPrecompiles {[ recipient := p ]} [p_Address p] e)
       | Ok None => (Ok tt, e)
       | Err x => (Err x, e)
       | Panic => (Panic, e)
       end
     else (Err err_call_permission, e)).
Proof.
  unfold evm_hooks, hooks_of, GetCallHook, CanCall, GetPrecompilesCallHook. simpl.
  unfold getCanCallFn. unfold mbind, M_bind. destruct (check_fn _ _ _); [|done]. simpl.
  by destruct (GetPrecompileInstance _ _ _ _ _) as [[p|]|x|].
Qed.

Lemma create_hook_spec params signer w caller e :
  CreateHook (evm_hooks params signer w) caller e =
    (if check_fn (ac_Create (access_control params)) signer caller then (Ok tt, e) else (Err err_create_permission, e)).
Proof.
  unfold evm_hooks, hooks_of, GetCreateHook, CanCreate. simpl. unfold getCanCreateFn, mbind, M_bind.
  by destruct (check_fn _ _ _).
Qed.

(** C32: Whatever contract makes it, a call or a creation by a caller that the access control does not
    permit ends at once with the error of the permission, gives all the gas back and changes nothing; one by a
    permitted caller is never rejected for it. *)
Theorem permissions_enforced env run params signer w from addr input gas value salt e :
  hooks env = evm_hooks params signer w ->
  (~ permitted (ac_Call (access_control params)) signer (ref_Address from) ->
     let rejected := (Ok (no_outcome gas err_call_permission), e) in
     Call env run from addr input gas value e = rejected /\ CallCode env run from addr input gas value e = rejected /\
     DelegateCall env run from addr input gas e = rejected /\ StaticCall env run from addr input gas e = rejected) /\
  (~ permitted (ac_Create (access_control params)) signer (ref_Address from) ->
     let rejected := (Ok (no_outcome gas err_create_permission, zero_address), e) in
     Create env run from input gas value e = rejected /\ Create2 env run from input gas value salt e = rejected) /\
  (permitted (ac_Create (access_control params)) signer (ref_Address from) ->
     CreateHook (hooks env) (ref_Address from) e = (Ok tt, e)).
Proof.
  intros Hh. split_and!.
  - intros Hn%check_fn_false.
    assert (E : CallHook (hooks env) (ref_Address from) addr e = (Err err_call_permission, e)).
    { by rewrite Hh, call_hook_spec, Hn. }
    unfold Call, CallCode, DelegateCall, StaticCall, with_hook, attempt, mbind, M_bind. by rewrite E.
  - intros Hn%check_fn_false.
    assert (E : CreateHook (hooks env) (ref_Address from) e = (Err err_create_permission, e)).
    { by rewrite Hh, create_hook_spec, Hn. }
    unfold Create, Create2, create_hook, attempt, mbind, M_bind. rewrite E.
    by destruct (codeAndHash_Hash (mkCodeAndHash input zero_hash)).
  - intros Hp%check_fn_spec. by rewrite Hh, create_hook_spec, Hp.
Qed.

(** ** The precompile of a call *)

(** A step of the EVM: a hook, or anything that leaves the precompiles alone. *)
Inductive precompile_step (params : Params) (signer : Address) (w : W) (e e' : EVM W P) : Prop :=
  | step_hook caller recipient r : CallHook (evm_hooks params signer w) caller recipient e = (r, e') ->
      precompile_step params signer w e e'
  | step_other : precompiles e' = precompiles e -> precompile_step params signer w e e'.

(** Every precompile that is installed could be installed again. *)
Definition installed (params : Params) (w : W) (e : EVM W P) : Prop :=
  forall a, is_Some (precompiles e !! a) ->
    exists p, GetPrecompileInstance available GetERC20PrecompileInstance params a w = Ok (Some p).

Lemma installed_step params signer w e e' : precompile_step params signer w e e' -> installed params w e ->
  installed params w e'.
Proof.
  intros [caller recipient r E|E] Hi; [|intros a; rewrite E; apply Hi]. rewrite call_hook_spec in E.
  destruct (check_fn _ _ _); [|by injection E as _ <-].
  destruct (GetPrecompileInstance _ _ params recipient w) as [[p|]|x|] eqn:Ep; injection E as _ <-; try done.
  intros a. simpl. destruct (decide (recipient = a)) as [<-|Hn]; [eauto|]. rewrite lookup_singleton_ne by done. by intros [].
Qed.

Lemma berlin_found params a w : a ∈ PrecompiledAddressesBerlin -> is_Some (available !! a) ->
  exists p, GetPrecompileInstance available GetERC20PrecompileInstance params a w = Ok (Some p).
Proof.
  intros Ha [p Hp]. exists p. unfold GetPrecompileInstance, GetStaticPrecompileInstance, IsAvailableStaticPrecompile.
  rewrite (bool_decide_eq_true_2 (a ∈ _)), orb_true_r, Hp by done. done.
Qed.

Lemma default_berlin rules a : is_Some (DefaultPrecompiles (P:=P) rules !! a) -> a ∈ PrecompiledAddressesBerlin.
Proof.
  unfold DefaultPrecompiles. intros [p Hp].
  assert (Hin : a ∈ map fst (map_to_list (DefaultPrecompiles (P:=P) rules))).
  { apply list_elem_of_fmap. exists (a, p). split; [done|]. by apply elem_of_map_to_list. }
  revert Hp. destruct (IsBerlin rules); [|destruct (IsIstanbul rules); [|destruct (IsByzantium rules)]];
    intros Hp%elem_of_list_to_map_2; apply (list_elem_of_fmap_2 fst) in Hp; revert Hp; clear;
    unfold PrecompiledAddressesBerlin; simpl; rewrite !elem_of_cons; tauto.
Qed.

(** What the look-up finds. *)
Lemma instance_spec params addr w o : GetPrecompileInstance available GetERC20PrecompileInstance params addr w = Ok o ->
  (addr_String addr ∈ ActiveStaticPrecompiles params \/ addr ∈ PrecompiledAddressesBerlin ->
    is_Some (available !! addr) /\ o = available !! addr) /\
  (addr_String addr ∉ ActiveStaticPrecompiles params -> addr ∉ PrecompiledAddressesBerlin ->
    GetERC20PrecompileInstance addr w = Ok o).
Proof.
  unfold GetPrecompileInstance, GetStaticPrecompileInstance, IsAvailableStaticPrecompile. intros E. split.
  - intros Hin. replace (_ || _) with true in E.
    + destruct (available !! addr); [|done]. injection E as <-. by eauto.
    + symmetry. apply orb_true_iff. destruct Hin; [left|right]; by apply bool_decide_eq_true.
  - intros H1' H2'. by rewrite !bool_decide_false in E by done.
Qed.

(** C34: Before each call the hook installs the precompile of the callee, so that the call runs the static
    precompile if its address is among the active ones of the parameters or among go-ethereum's own (the keeper has it, a call of one that
    it has not panics in the hook), else the precompile of the token pair, else the account's code, whatever
    was called before in the transaction; the store that decides is that of the transaction's start. *)
Theorem call_runs_its_precompile params signer w rules e0 e caller addr e' :
  (forall a, a ∈ PrecompiledAddressesBerlin -> is_Some (available !! a)) ->
  precompiles e0 = DefaultPrecompiles rules -> rtc (precompile_step params signer w) e0 e ->
  CallHook (evm_hooks params signer w) caller addr e = (Ok tt, e') ->
  (addr_String addr ∈ ActiveStaticPrecompiles params \/ addr ∈ PrecompiledAddressesBerlin ->
    is_Some (available !! addr) /\ Precompile addr e' = available !! addr) /\
  (addr_String addr ∉ ActiveStaticPrecompiles params -> addr ∉ PrecompiledAddressesBerlin ->
    GetERC20PrecompileInstance addr w = Ok (Precompile addr e')).
Proof.
  intros Ha E0 Hr Hc. apply instance_spec. assert (Hi : installed params w e).
  { assert (Hi0 : installed params w e0).
    { intros a. rewrite E0. intros Hs%default_berlin. by apply berlin_found, Ha. }
    clear Hc E0. induction Hr; eauto using installed_step. }
  rewrite call_hook_spec in Hc. destruct (check_fn _ _ _); [|done].
  destruct (GetPrecompileInstance _ _ params addr w) as [[p|]|x|] eqn:Ep; try done; injection Hc as <-.
  - unfold Precompile. simpl. by rewrite lookup_singleton_eq.
  - unfold Precompile. destruct (precompiles e !! addr) as [p|] eqn:El; [|done].
    destruct (Hi addr) as [q Hq]; [by eexists|]. congruence.
Qed.
End tx_hooks.

(** ** What valid parameters give *)

Section valid_params.
Context `{SdkOps} `{EvmText} `{GethConfig} `{!GethConfigLaws}.

Lemma validate_eips_ok seen eips : validate_eips seen eips = Ok tt ->
  NoDup eips /\ (forall e, e ∈ eips -> e ∉ seen) /\ Forall (fun e => ExistsEipActivator e = true) eips.
Proof.
  revert seen. induction eips as [|eip eips IH]; intros seen Hv; simpl in Hv.
  { split_and!; [constructor|intros e He; by apply not_elem_of_nil in He|constructor]. }
  destruct (ExistsEipActivator eip) eqn:Ee; simpl in Hv; [|done]. destruct (ValidateEIPName eip); [|done|done].
  destruct (bool_decide (eip ∈ seen)) eqn:Es; [done|]. apply bool_decide_eq_false in Es.
  destruct (IH _ Hv) as (Hn & Hs & Hf). split_and!; [|intros e [->|He]%elem_of_cons|by constructor].
  - constructor; [|done]. intros Hi. apply (Hs _ Hi). apply list_elem_of_here.
  - done.
  - intros Hi. apply (Hs _ He). by apply list_elem_of_further.
Qed.

(** The jump table with the EIPs enabled one after the other. *)
Definition enable_all {W P} `{StateKeeper W, Keccak} (rules : Rules) (bc : BlockContext) (eips : list string)
    (jt : Z -> operation W P) : Z -> operation W P :=
  foldl (fun jt eip => default jt (EnableEIP rules bc eip jt)) jt eips.

Lemma extra_eips_known {W P} `{StateKeeper W, Keccak} rules bc eips rest i (jt : Z -> operation W P) :
  drop i eips = rest -> Forall (fun e => ExistsEipActivator e = true) eips ->
  extra_eips rules bc (seq i (length rest)) eips (length eips) jt = Ok (enable_all rules bc rest jt, eips).
Proof.
  revert i jt. induction rest as [|eip rest IH]; intros i jt Hd Hf; cbn [length seq extra_eips].
  { by rewrite take_ge. }
  assert (El : eips !! i = Some eip).
  { rewrite <- (Nat.add_0_r i), <- lookup_drop, Hd. done. }
  rewrite El. pose proof (proj1 (list.Forall_lookup _ _) Hf _ _ El) as Hex. simpl in Hex.
  assert (Hnot : bool_decide (eip = String (Ascii.ascii_of_N 143) (String (Ascii.ascii_of_N 30) EmptyString)) = false).
  { apply bool_decide_eq_false. intros ->. vm_compute in Hex. done. }
  rewrite Hnot, andb_false_r. cbn beta iota zeta. destruct (proj2 (EnableEIP_exists rules bc eip jt) Hex) as [jt' Ej]. rewrite Ej.
  rewrite (IH (S i) jt'); [|by rewrite <- Nat.add_1_r, <- drop_drop, Hd|done]. unfold enable_all. cbn [foldl]. by rewrite Ej.
Qed.

Lemma forked_order cc num i j a b : ChainConfig_Validate cc = Ok tt -> (i < j)%nat ->
  fork_list (eth_forks (EthereumConfig 0 cc)) !! i = Some a -> fork_list (eth_forks (EthereumConfig 0 cc)) !! j = Some b ->
  forked b num = true -> forked a num = true.
Proof.
  intros Hv Hij Hi Hj Hb. assert (Ho : CheckConfigForkOrder (EthereumConfig 0 cc) = Ok tt).
  { unfold ChainConfig_Validate in Hv. do 3 (apply res_bind_ok in Hv as (? & _ & Hv)). exact Hv. }
  destruct b as [b|]; [|done]. destruct (fork_order _ i j a b Ho Hij Hi Hj) as (x & -> & Hx). simpl in *. lia.
Qed.

(** ** Every change of the parameters *)

Inductive params_step (s s' : ParamsStore) : Prop :=
  | step_SetParams p r : SetParams p s = (r, s') -> params_step s s'
  | step_EnableStaticPrecompiles l r : EnableStaticPrecompiles l s = (r, s') -> params_step s s'
  | step_EnableEIPs l r : EnableEIPs l s = (r, s') -> params_step s s'
  | step_UpdateParams a b p r : UpdateParams a b p s = (r, s') -> params_step s s'.

Definition params_ok (p : Params) : Prop := Params_Validate p = Ok tt.

Lemma SetParams_ok p s r s' : SetParams p s = (r, s') -> params_ok (GetParams s) ->
  params_ok (GetParams s') /\ legacy_params s' = legacy_params s.
Proof.
  unfold SetParams. set (q := mkParams _ _ _ _ _ _ _). destruct (Params_Validate q) as [[]|x|] eqn:E; by intros [= <- <-].
Qed.

Lemma params_step_ok s s' : params_step s s' -> params_ok (GetParams s) -> params_ok (GetParams s').
Proof.
  intros [p r E|l r E|l r E|a b p r E] Hok.
  - by eapply SetParams_ok.
  - unfold EnableStaticPrecompiles in E. unfold mbind, M_bind in E. simpl in E. destruct (appendPrecompiles _ _) as [l'|x|]; simpl in E.
    + by eapply SetParams_ok.
    + by injection E as _ <-.
    + by injection E as _ <-.
  - unfold EnableEIPs in E. unfold mbind, M_bind in E. simpl in E. by eapply SetParams_ok.
  - unfold UpdateParams in E. destruct (bool_decide (a = b)); [by eapply SetParams_ok|by injection E as _ <-].
Qed.

(** C33: Whatever updates are made or refused, the parameters stay valid.  So at every height the forks are
    cumulative, and a new interpreter enables each of the extra EIPs exactly once, in their order, on the
    table of the fork, without an error or a panic. *)
Theorem evm_params_stay_valid {W P} `{StateKeeper W, Keccak} s s' (bc : BlockContext) (tc : TxContext) chainID height :
  params_ok (GetParams s) -> rtc params_step s s' ->
  let p := GetParams s' in
  let rules := chain_Rules (EthereumConfig chainID (chain_config p)) height false in
  params_ok p /\
  (IsLondon rules = true -> IsBerlin rules = true) /\ (IsBerlin rules = true -> IsEIP150 rules = true) /\
  (IsEIP150 rules = true -> IsHomestead rules = true) /\
  NoDup (ExtraEIPs p) /\
  NewEVMInterpreter (W:=W) (P:=P) rules bc tc (ExtraEIPs p) =
    Ok (enable_all rules bc (ExtraEIPs p) (DefaultJumpTable rules bc tc), ExtraEIPs p).
Proof.
  intros Hok Hr p rules. assert (Hp : params_ok p).
  { subst p rules. clear chainID. induction Hr; eauto using params_step_ok. }
  pose proof Hp as Hv. unfold params_ok, Params_Validate in Hv.
  apply res_bind_ok in Hv as (? & _ & Hv). apply res_bind_ok in Hv as ([] & Ee & Hv).
  apply res_bind_ok in Hv as ([] & Ec & _).
  apply validate_eips_ok in Ee as (Hn & _ & Hf).
  assert (Hfk : forall i j a b, (i < j)%nat -> fork_list (eth_forks (EthereumConfig chainID (chain_config p))) !! i = Some a ->
    fork_list (eth_forks (EthereumConfig chainID (chain_config p))) !! j = Some b -> forked b height = true -> forked a height = true).
  { intros i j a b. exact (forked_order (chain_config p) height i j a b Ec). }
  subst rules. rewrite !rules_london, !rules_berlin, !rules_eip150, !rules_homestead. split_and!; [done| | | |done|].
  - exact (Hfk 8%nat 9%nat _ _ ltac:(lia) eq_refl eq_refl).
  - exact (Hfk 1%nat 8%nat _ _ ltac:(lia) eq_refl eq_refl).
  - exact (Hfk 0%nat 1%nat _ _ ltac:(lia) eq_refl eq_refl).
  - by apply extra_eips_known.
Qed.
End valid_params.

(** ** A small chain *)

(** Texts are the addresses themselves. *)
Definition RefText : EvmText := {|
  addr_String := id;
  is_hex_address s := bool_decide (String.length s = 42%nat);
  trim_space := id;
  ChannelIdentifierValidator s := if bool_decide (s = EmptyString) then Err (ErrText "identifier cannot be blank") else Ok tt
|}.

Definition not_after (a b : option Z) : bool :=
  match a, b with
  | _, None => true
  | Some x, Some y => x <=? y
  | None, Some _ => false
  end.
Fixpoint fork_ordered (l : list (option Z)) : bool :=
  match l with [] => true | a :: l => forallb (not_after a) l && fork_ordered l end.

Definition RefGeth : GethConfig := {|
  chain_Rules c num m :=
    let f := eth_forks c in
    mkRules (eth_ChainID c) (forked (HomesteadBlock f) num) (forked (EIP150Block f) num) (forked (EIP155Block f) num)
      (forked (EIP158Block f) num) (forked (ByzantiumBlock f) num) (forked (ConstantinopleBlock f) num)
      (forked (PetersburgBlock f) num) (forked (IstanbulBlock f) num) (forked (BerlinBlock f) num)
      (forked (LondonBlock f) num) m;
  CheckConfigForkOrder c :=
    if fork_ordered (fork_list (eth_forks c)) then Ok tt else Err (ErrText "unsupported fork ordering")
|}.

Lemma fork_ordered_lookup l i j a b : fork_ordered l = true -> (i < j)%nat -> l !! i = Some a -> l !! j = Some (Some b) ->
  exists x, a = Some x /\ x <= b.
Proof.
  revert i j. induction l as [|o l IH]; intros i j Ho Hij Hi Hj; [done|]. simpl in Ho.
  apply andb_true_iff in Ho as [Hf Ho]. destruct j as [|j]; [lia|]. simpl in Hj. destruct i as [|i]; simpl in Hi.
  - injection Hi as ->. rewrite forallb_forall in Hf. specialize (Hf (Some b)). destruct a as [x|].
    + exists x. split; [done|]. apply Z.leb_le, Hf, list_elem_of_In. by eapply list_elem_of_lookup_2.
    + exfalso. discriminate Hf. apply list_elem_of_In. by eapply list_elem_of_lookup_2.
  - eapply (IH i j); eauto. lia.
Qed.

Lemma RefGethLaws : @GethConfigLaws RefGeth.
Proof.
  split; try done. intros c i j a b. cbn [CheckConfigForkOrder RefGeth]. destruct (fork_ordered _) eqn:E; [|done]. intros _. by apply fork_ordered_lookup.
Qed.

(** Every precompile returns its input. *)
Definition RefNative : NativeContracts unit := {|
  ecrecover := tt; sha256hash := tt; ripemd160hash := tt; dataCopy := tt; bigModExp _ := tt;
  bn256AddByzantium := tt; bn256ScalarMulByzantium := tt; bn256PairingByzantium := tt;
  bn256AddIstanbul := tt; bn256ScalarMulIstanbul := tt; bn256PairingIstanbul := tt; blake2F := tt
|}.
Definition RefContracts W : PrecompiledContracts W unit := {|
  p_Address _ := byte_address 4;
  p_RequiredGas _ _ := 15;
  p_Run _ _ _ c _ := fun s => (Ok (mkOutcome (c_Input c) (c_Gas c) None), s)
|}.

Section example.
#[local] Existing Instances RefOps RefText RefGeth RefGethLaws RefNative StateCommit.RefStateKeeper StateCommit.RefKeccak.
#[local] Instance ExContracts : PrecompiledContracts RefStore unit := RefContracts RefStore.
#[local] Instance ExAddresses : EthAddresses := {
  crypto_CreateAddress a nonce := String.substring 0 20 (a +:+ big_endian 8 nonce);
  crypto_CreateAddress2 a salt h := String.substring 0 20 (salt +:+ h)
}.

Definition no_tokens (a : Address) (w : RefStore) : res (option unit) := Ok None.

(** Nobody but the account D may create. *)
Definition ex_restricted : Params :=
  mkParams DefaultEVMDenom DefaultExtraEIPs DefaultChainConfig false []
    (mkAccessControl (mkAccessControlType AccessTypePermissioned ["D"]) (mkAccessControlType AccessTypePermissionless []))
    DefaultStaticPrecompiles.
Definition ex_available : gmap Address unit := PrecompiledContractsBerlin.
Definition ex_machine : EVM RefStore unit :=
  mkEVM (New ex_store ex_cfg) 0 0 PrecompiledContractsBerlin PrecompiledAddressesBerlin false EmptyString.
Definition ex_rules : Rules := chain_Rules (EthereumConfig 11235 DefaultChainConfig) 1 false.
Definition ex_context : BlockContext := mkBlockContext (fun _ => zero_hash) "C" 0 1 1 0 (Some 7) None.
Definition ex_signer : TxContext := mkTxContext "A" 7.
Definition ex_environment : EvmEnv RefStore unit :=
  mkEnv ex_context ex_signer ex_rules (evm_hooks ex_available no_tokens ex_restricted "A" ex_store)
    (DefaultJumpTable ex_rules ex_context ex_signer).

Lemma permissions_enforced_witness :
  Create ex_environment (fun _ _ _ => mlift Panic) (AccountRef "A") "" 50 0 ex_machine =
    (Ok (no_outcome 50 err_create_permission, zero_address), ex_machine).
Proof.
  apply (permissions_enforced ex_available no_tokens ex_environment (fun _ _ _ => mlift Panic) ex_restricted "A" ex_store
    (AccountRef "A") "B" "" 50 0 0 ex_machine).
  - reflexivity.
  - intros [[? _]|[_ [Hi|Hi]]]; [discriminate|apply (bool_decide_pack _) in Hi; exact Hi|apply (bool_decide_pack _) in Hi; exact Hi].
Defined.

(** Contracts by their names: besides those of go-ethereum the chain has one at S, which is active, and one at T, which is not;
    the account G is a token's. *)
#[local] Instance NamedNative : NativeContracts string := {|
  ecrecover := "ecrecover"; sha256hash := "sha256"; ripemd160hash := "ripemd160"; dataCopy := "dataCopy"; bigModExp _ := "modexp";
  bn256AddByzantium := "add"; bn256ScalarMulByzantium := "mul"; bn256PairingByzantium := "pairing";
  bn256AddIstanbul := "add"; bn256ScalarMulIstanbul := "mul"; bn256PairingIstanbul := "pairing"; blake2F := "blake2F"
|}.
#[local] Instance NamedContracts : PrecompiledContracts RefStore string := {|
  p_Address name := name;
  p_RequiredGas _ _ := 15;
  p_Run _ _ _ c _ := fun s => (Ok (mkOutcome (c_Input c) (c_Gas c) None), s)
|}.
Definition named_available : gmap Address string := <["S" := "staking"]> (<["T" := "unused"]> PrecompiledContractsBerlin).
Definition named_tokens (a : Address) (w : RefStore) : res (option string) :=
  Ok (if String.eqb a "G" then Some "token"%string else None).
Definition named_params : Params :=
  mkParams DefaultEVMDenom DefaultExtraEIPs DefaultChainConfig false [] (access_control ex_restricted) [addr_String "S"].
Definition named_machine : EVM RefStore string :=
  mkEVM (New ex_store ex_cfg) 0 0 PrecompiledContractsBerlin PrecompiledAddressesBerlin false EmptyString.

(** Calls of the hash contract, the active contract, the one that is not active and the token, one after the other. *)
Lemma call_runs_its_precompile_witness :
  let hook a := CallHook (evm_hooks named_available named_tokens named_params "A" ex_store) "A" a in
  let e1 := snd (hook (byte_address 2) named_machine) in
  let e2 := snd (hook "S" e1) in let e3 := snd (hook "T" e2) in let e4 := snd (hook "G" e3) in
  Precompile "S" e2 = Some "staking"%string /\ Precompile "T" e3 = None /\ Precompile "G" e4 = Some "token"%string.
Proof.
  intros hook e1 e2 e3 e4.
  assert (Ha : forall a, a ∈ PrecompiledAddressesBerlin -> is_Some (named_available !! a)).
  { apply (list.Forall_forall (fun a => is_Some (named_available !! a))). apply (bool_decide_unpack _). vm_compute. exact I. }
  pose (step := precompile_step named_available named_tokens named_params "A" ex_store).
  assert (R1 : rtc step named_machine e1).
  { apply rtc_once. apply (step_hook _ _ _ _ _ _ _ "A" (byte_address 2) (Ok tt)). reflexivity. }
  assert (R2 : rtc step named_machine e2).
  { eapply rtc_r; [exact R1|]. apply (step_hook _ _ _ _ _ _ _ "A" "S" (Ok tt)). reflexivity. }
  assert (R3 : rtc step named_machine e3).
  { eapply rtc_r; [exact R2|]. apply (step_hook _ _ _ _ _ _ _ "A" "T" (Ok tt)). reflexivity. }
  pose proof (fun e a e' => call_runs_its_precompile named_available named_tokens named_params "A" ex_store ex_rules named_machine e "A" a e'
    Ha eq_refl) as T.
  split_and!.
  - apply (T e1 "S"%string e2 R1); [reflexivity|]. left. apply (bool_decide_unpack _). vm_compute. exact I.
  - enough (E : Ok (None (A:=string)) = Ok (Precompile "T" e3)) by congruence.
    refine (proj2 (T e2 "T"%string e3 R2 _) _ _); [reflexivity|apply (bool_decide_unpack _); vm_compute; exact I..].
  - enough (E : Ok (Some "token"%string) = Ok (Precompile "G" e4)) by congruence.
    refine (proj2 (T e3 "G"%string e4 R3 _) _ _); [reflexivity|apply (bool_decide_unpack _); vm_compute; exact I..].
Defined.

(** An EIP is enabled by governance. *)
Definition ex_stored : ParamsStore := mkParamsStore (Some DefaultParams) DefaultParams.
Lemma evm_params_stay_valid_witness :
  let s := snd (EnableEIPs ["ethereum_1344"] ex_stored) in
  params_ok (GetParams s) /\ ExtraEIPs (GetParams s) = ["ethereum_1344"; "ethereum_3855"]%string.
Proof.
  intros s. split; [|vm_compute; reflexivity].
  apply (evm_params_stay_valid (W:=RefStore) (P:=unit) ex_stored s ex_context ex_signer 11235 1).
  - vm_compute. reflexivity.
  - apply rtc_once. apply (step_EnableEIPs _ _ ["ethereum_1344"]%string (Ok tt)). vm_compute. reflexivity.
Defined.
End example.
