(* ===== verification/StateTransition.v ===== *)
(** * x/evm/keeper: state_transition.go, gas.go, config.go, block_proposer.go and the transient store of keeper.go

    A message is applied to the store: [ApplyMessageWithConfig] runs it on a new StateDB and commits that;
    [ApplyTransaction] keeps the result unless the execution failed, gives the gas that is left back
    to the sender, and counts the gas and the logs of the block.

    The store is [W]; the parameters of x/evm and the state of x/feemarket are parts of it.  go-ethereum's intrinsic gas
    and bloom filters and the staking module are parameters.  The gas meter is that of types/gasmeter.go, which
    the ante handler sets for Ethereum transactions.  A tracer only observes and is not modelled; nor are the
    texts of events and telemetry. *)

From S2P Require Import Prelude.
From S2P Require Import Sdk.
From S2P Require Import Keepers.
From S2P Require Import FeeMarket.
From S2P Require Import AccessList.
From S2P Require Import StateDB.
From S2P Require Import Precompile.
From S2P Require Import EvmParams.
From S2P Require Import EvmMachine.
From S2P Require Import EvmCode.
From S2P Require Import Evm.
From S2P Require Import EvmInstructions.
From S2P Require Import EvmTable.
From S2P Require Import EvmConfig.

Local Open Scope Z_scope.

(** ** Library code *)

Class GethCore := {
  (** [core.IntrinsicGas(data, accessList, isContractCreation, isHomestead, isEIP2028)] *)
  IntrinsicGas : string -> list (Address * list Hash) -> bool -> bool -> bool -> res Z;
  (** [LogsBloom] as a number *)
  LogsBloom : list Log -> Z
}.

(** x/staking and the headers of the chain: the hash of a stored header, and the operator of the validator, which
    the SDK returns as text. *)
Class StakingInfo (W : Type) := {
  GetHistoricalInfo : Z -> W -> option Hash;
  GetValidatorByConsAddr : string -> W -> option string
}.

(** What a context has of the block. *)
Record BlockInfo := mkBlockInfo {
  bi_Height : Z;
  bi_Time : Z;
  bi_HeaderHash : string;
  (** the hash of the header of the context, when it can be computed *)
  bi_computed : option Hash;
  bi_Proposer : string;
  bi_GasMeterLimit : option Z;
  bi_MaxGas : option Z;
  bi_ChainID : Z
}.

(** [core.Message] *)
Record Message := mkMessage {
  msg_From : Address;
  msg_To : option Address;
  msg_Nonce : Z;
  msg_Value : Z;
  msg_Gas : Z;
  msg_GasPrice : Z;
  msg_Data : string;
  msg_AccessList : list (Address * list Hash)
}.

Record EVMConfig := mkEVMConfig {
  cfg_Params : Params;
  cfg_ChainConfig : EthConfig;
  cfg_CoinBase : Address;
  cfg_BaseFee : option Z
}.

(** [VmError] is the error; its text is empty for [None]. *)
Record MsgEthereumTxResponse := mkResponse {
  res_Hash : Hash;
  res_Logs : list Log;
  res_Ret : string;
  VmError : option err;
  GasUsed : Z
}.

Definition Failed (r : MsgEthereumTxResponse) : bool := negb (bool_decide (VmError r = None)).

Definition ErrIntrinsicGas : err := ErrText "intrinsic gas too low".
Definition ErrGasOverflow : err := ErrText "gas computation overflow/underflow".
Definition ErrInvalidRefund : err := ErrText "invalid gas refund amount".
Definition ErrNoValidatorFound : err := ErrText "validator does not exist".

(** [common.BytesToHash] and [common.BytesToAddress]: the last bytes, padded on the left. *)
Definition last_bytes (n : nat) (s : string) : string :=
  let l := String.length s in
  if (n <=? l)%nat then String.substring (l - n) n s else zeros (Z.of_nat (n - l)) +:+ s.
Definition BytesToHash (s : string) : Hash := last_bytes 32 s.
Definition BytesToAddr (s : string) : Address := last_bytes 20 s.

(** ** Gas meter *)

Record GasMeter := mkGasMeter { gm_consumed : Z; gm_limit : Z }.

Definition addUint64Overflow (a b : Z) : Z * bool :=
  if 2 ^ 64 - 1 - a <? b then (0, true) else (u64_add a b, false).

(** An overflow panics after it has set the count to zero. *)
Definition ConsumeGas (amount : Z) : M GasMeter unit := fun g =>
  let '(consumed, overflow) := addUint64Overflow (gm_consumed g) amount in
  let g := mkGasMeter consumed (gm_limit g) in
  if overflow : bool then (Panic, g) else (Ok tt, g).

Definition meter_RefundGas (amount : Z) : M GasMeter unit := fun g =>
  if gm_consumed g <? amount then (Panic, g) else (Ok tt, mkGasMeter (gm_consumed g - amount) (gm_limit g)).

Definition ResetGasMeterAndConsumeGas (gasUsed : Z) : M GasMeter unit :=
  consumed ← mgets gm_consumed; meter_RefundGas consumed;; ConsumeGas gasUsed.

(** [params.RefundQuotient] and [params.RefundQuotientEIP3529] *)
Definition RefundQuotient : Z := 2.
Definition RefundQuotientEIP3529 : Z := 5.

Definition GasToRefund (availableRefund gasConsumed refundQuotient : Z) : Z :=
  let refund := gasConsumed / refundQuotient in
  if availableRefund <? refund then availableRefund else refund.

(** ** Block data *)

Definition BlockGasLimit (bi : BlockInfo) : Z :=
  match bi_GasMeterLimit bi with
  | Some l => if negb (l =? 0) then l else
      match bi_MaxGas bi with
      | None => 0
      | Some g => if g =? -1 then 2 ^ 64 - 1 else if 0 <? g then g else 0
      end
  | None =>
      match bi_MaxGas bi with
      | None => 0
      | Some g => if g =? -1 then 2 ^ 64 - 1 else if 0 <? g then g else 0
      end
  end.

Section transition.
Context {W P : Type} `{StateKeeper W, Keccak, EthAddresses} `{SdkOps} `{EvmText} `{GethConfig} `{DecOps} `{GethCore}
  `{NativeContracts P} `{PrecompiledContracts W P} `{StakingInfo W} `{ModuleBank W}
  `{Lens W ParamsStore} `{Lens W FeeMarket.State}.
Context (available : gmap Address P) (GetERC20PrecompileInstance : Address -> W -> res (option P)).
Context (bi : BlockInfo).

(** The height as [int64]; one that does not fit has no hash. *)
Definition GetHashFn (w : W) (height : Z) : Hash :=
  if max_i64 <? height then zero_hash
  else if bi_Height bi =? height then
    if bool_decide (bi_HeaderHash bi = EmptyString) then default zero_hash (bi_computed bi)
    else BytesToHash (bi_HeaderHash bi)
  else if height <? bi_Height bi then default zero_hash (GetHistoricalInfo height w)
  else zero_hash.

Definition GetProposerAddress (proposerAddress : string) : string :=
  if bool_decide (proposerAddress = EmptyString) then bi_Proposer bi else proposerAddress.

(** The operator is a text, and its bytes are those of the text. *)
Definition GetCoinbaseAddress (proposerAddress : string) (w : W) : res Address :=
  match GetValidatorByConsAddr (GetProposerAddress proposerAddress) w with
  | None => Err ErrNoValidatorFound
  | Some operator => Ok (BytesToAddr operator)
  end.

Definition config_IsLondon (c : EthConfig) (num : Z) : bool := IsLondon (chain_Rules c num false).

Definition getBaseFee (london : bool) (w : W) : option Z :=
  if london then Some (default 0 (FeeMarket.GetBaseFee (view w))) else None.

Definition evm_GetBaseFee (c : EthConfig) (w : W) : option Z := getBaseFee (config_IsLondon c (bi_Height bi)) w.

Definition GetMinGasMultiplier (w : W) : Z := default 0 (MinGasMultiplier (FeeMarket.GetParams (view w))).

Definition make_EVMConfig (proposerAddress : string) (w : W) : res EVMConfig :=
  let params := EvmParams.GetParams (view w) in
  let ethCfg := EthereumConfig (bi_ChainID bi) (chain_config params) in
  coinbase ← GetCoinbaseAddress proposerAddress w;
  Ok (mkEVMConfig params ethCfg coinbase (evm_GetBaseFee ethCfg w)).

(** ** The EVM of a message *)

Definition block_context (cfg : EVMConfig) (w : W) : BlockContext :=
  mkBlockContext (GetHashFn w) (cfg_CoinBase cfg) (BlockGasLimit bi) (bi_Height bi) (bi_Time bi) 0 (cfg_BaseFee cfg) None.

(** [NewEVM] with [NewEVMWithHooks]: there is no [Random], so the rules are not those of the merge. *)
Definition NewEVM (msg : Message) (cfg : EVMConfig) (stateDB : StateDB W) (w : W) : res (EvmEnv W P * EVM W P) :=
  let blockCtx := block_context cfg w in
  let txCtx := mkTxContext (msg_From msg) (msg_GasPrice msg) in
  let rules := chain_Rules (cfg_ChainConfig cfg) (BlockNumber blockCtx) (bool_decide (is_Some (Random blockCtx))) in
  '(jumpTable, _) ← NewEVMInterpreter rules blockCtx txCtx (ExtraEIPs (cfg_Params cfg));
  Ok (mkEnv blockCtx txCtx rules (evm_hooks available GetERC20PrecompileInstance (cfg_Params cfg) (msg_From msg) w) jumpTable,
      mkEVM stateDB 0 0 (DefaultPrecompiles rules) (DefaultActivePrecompiles rules) false EmptyString).

Definition GetEthIntrinsicGas (msg : Message) (c : EthConfig) (isContractCreation : bool) : res Z :=
  let rules := chain_Rules c (bi_Height bi) false in
  IntrinsicGas (msg_Data msg) (msg_AccessList msg) isContractCreation (IsHomestead rules) (IsIstanbul rules).

(** The access list is prepared from Berlin on. *)
Definition prepare (msg : Message) (cfg : EVMConfig) (evm : EVM W P) : res (StateDB W) :=
  let rules := chain_Rules (cfg_ChainConfig cfg) (bi_Height bi)
    (bool_decide (is_Some (MergeNetsplitBlock (eth_forks (cfg_ChainConfig cfg))))) in
  if IsBerlin rules then
    PrepareAccessList (msg_From msg) (msg_To msg) (activePrecompiles evm) (msg_AccessList msg) (evm_StateDB evm)
  else Ok (evm_StateDB evm).

(** The call or the creation; a creation has the nonce of the message, and the sender's own again afterwards. *)
Definition execute_message (env : EvmEnv W P) (msg : Message) (gas : Z) : M (EVM W P) Outcome :=
  let sender := AccountRef (msg_From msg) in
  match msg_To msg with
  | None =>
      currentNonce ← on_db (GetNonce (msg_From msg));
      db_modify (SetNonce (msg_From msg) (msg_Nonce msg));;
      '(out, _) ← do_Create (evm_calls env) sender (msg_Data msg) gas (msg_Value msg);
      db_modify (SetNonce (msg_From msg) currentNonce);;
      mret out
  | Some to => do_Call (evm_calls env) sender to (msg_Data msg) gas (msg_Value msg)
  end.

(** From the refund on: the commit, the minimum of gas that is charged, and the response. *)
Definition finish_message (msg : Message) (commit isLondon : bool) (txConfig : TxConfig) (out : Outcome) (s : StateDB W)
    (w : W) : res MsgEthereumTxResponse * W :=
  let refundQuotient := if isLondon then RefundQuotientEIP3529 else RefundQuotient in
  let leftoverGas := leftOverGas out in
  if msg_Gas msg <? leftoverGas then (Err ErrGasOverflow, w)
  else
    let temporaryGasUsed := u64_sub (msg_Gas msg) leftoverGas in
    let refund := GasToRefund (refund s) temporaryGasUsed refundQuotient in
    let leftoverGas := u64_add leftoverGas refund in
    let temporaryGasUsed := u64_sub temporaryGasUsed refund in
    let '(r, w) := if commit then let '(r, s) := Commit s in (r, ctx s) else (Ok tt, w) in
    match r with
    | Panic => (Panic, w)
    | Err e => (Err e, w)
    | Ok _ =>
        let minimumGasUsed := DecMul (msg_Gas msg * dec_one) (GetMinGasMultiplier w) in
        if negb ((0 <=? TruncateInt minimumGasUsed) && (TruncateInt minimumGasUsed <? 2 ^ 64)) then (Err ErrGasOverflow, w)
        else if msg_Gas msg <? leftoverGas then (Err ErrGasOverflow, w)
        else
          let gasUsed := wrap_u64 (TruncateInt (Z.max minimumGasUsed (temporaryGasUsed * dec_one))) in
          (Ok (mkResponse (TxHash txConfig) (logs s) (ret out) (vm_err out) gasUsed), w)
    end.

Definition ApplyMessageWithConfig (msg : Message) (commit : bool) (cfg : EVMConfig) (txConfig : TxConfig)
    : M W MsgEthereumTxResponse := fun w =>
  match NewEVM msg cfg (New w txConfig) w with
  | Panic => (Panic, w)
  | Err e => (Err e, w)
  | Ok (env, evm) =>
      let contractCreation := bool_decide (msg_To msg = None) in
      let isLondon := config_IsLondon (cfg_ChainConfig cfg) (bi_Height bi) in
      match GetEthIntrinsicGas msg (cfg_ChainConfig cfg) contractCreation with
      | Panic => (Panic, w)
      | Err e => (Err e, w)
      | Ok intrinsicGas =>
          if msg_Gas msg <? intrinsicGas then (Err ErrIntrinsicGas, w)
          else
            match prepare msg cfg evm with
            | Panic => (Panic, w)
            | Err e => (Err e, w)
            | Ok stateDB =>
                match execute_message env msg (msg_Gas msg - intrinsicGas) (with_db stateDB evm) with
                | (Panic, _) => (Panic, w)
                | (Err e, _) => (Err e, w)
                | (Ok out, evm) => finish_message msg commit isLondon txConfig out (evm_StateDB evm) w
                end
            end
      end
  end.

Definition ApplyMessage (msg : Message) (commit : bool) : M W MsgEthereumTxResponse := fun w =>
  match make_EVMConfig (bi_Proposer bi) w with
  | Panic => (Panic, w)
  | Err e => (Err e, w)
  | Ok cfg => ApplyMessageWithConfig msg commit cfg (NewEmptyTxConfig (BytesToHash (bi_HeaderHash bi))) w
  end.

(** ** Transactions *)

(** The store with the transient store of the block and the gas meter of the transaction. *)
Record TxState := mkTxState {
  ts_store : W;
  ts_bloom : Z;
  ts_txIndex : Z;
  ts_logSize : Z;
  ts_gasUsed : Z;
  ts_meter : GasMeter
}.

Definition with_store (w : W) (t : TxState) : TxState :=
  mkTxState w (ts_bloom t) (ts_txIndex t) (ts_logSize t) (ts_gasUsed t) (ts_meter t).
Definition with_meter (g : GasMeter) (t : TxState) : TxState :=
  mkTxState (ts_store t) (ts_bloom t) (ts_txIndex t) (ts_logSize t) (ts_gasUsed t) g.

Definition on_store {A} (m : M W A) : M TxState A := fun t =>
  let '(r, w) := m (ts_store t) in (r, with_store w t).
Definition on_meter {A} (m : M GasMeter A) : M TxState A := fun t =>
  let '(r, g) := m (ts_meter t) in (r, with_meter g t).

Definition GetBlockBloomTransient (t : TxState) : Z := ts_bloom t.
Definition SetBlockBloomTransient (bloom : Z) (t : TxState) : TxState :=
  mkTxState (ts_store t) bloom (ts_txIndex t) (ts_logSize t) (ts_gasUsed t) (ts_meter t).
Definition GetTxIndexTransient (t : TxState) : Z := ts_txIndex t.
Definition SetTxIndexTransient (index : Z) (t : TxState) : TxState :=
  mkTxState (ts_store t) (ts_bloom t) index (ts_logSize t) (ts_gasUsed t) (ts_meter t).
Definition GetLogSizeTransient (t : TxState) : Z := ts_logSize t.
Definition SetLogSizeTransient (logSize : Z) (t : TxState) : TxState :=
  mkTxState (ts_store t) (ts_bloom t) (ts_txIndex t) logSize (ts_gasUsed t) (ts_meter t).
Definition GetTransientGasUsed (t : TxState) : Z := ts_gasUsed t.
Definition SetTransientGasUsed (gasUsed : Z) (t : TxState) : TxState :=
  mkTxState (ts_store t) (ts_bloom t) (ts_txIndex t) (ts_logSize t) gasUsed (ts_meter t).
Definition ResetTransientGasUsed (t : TxState) : TxState := SetTransientGasUsed 0 t.

Definition AddTransientGasUsed (gasUsed : Z) : M TxState Z := fun t =>
  let result := u64_add (GetTransientGasUsed t) gasUsed in
  if result <? gasUsed then (Err ErrGasOverflow, t) else (Ok result, SetTransientGasUsed result t).

Definition make_TxConfig (txHash : Hash) (t : TxState) : TxConfig :=
  mkTxConfig (BytesToHash (bi_HeaderHash bi)) txHash (GetTxIndexTransient t) (GetLogSizeTransient t).

Definition FeeCollectorName : string := "fee_collector".

(** [sdkmath.NewIntFromBigInt] panics above 256 bits. *)
Definition RefundGas (msg : Message) (leftoverGas : Z) (denom : string) : M W unit :=
  let remaining := leftoverGas * msg_GasPrice msg in
  if remaining <? 0 then mraise ErrInvalidRefund
  else if 0 <? remaining then
    if 2 ^ 256 <=? remaining then mlift Panic
    else
      coin ← mlift (NewCoin denom remaining);
      mwrap (ErrText "insufficient funds: fee collector account failed to refund fees")
        (SendCoinsFromModuleToAccount FeeCollectorName (msg_From msg) [coin])
  else mret tt.

(** [tx.Hash] and [tx.AsMessage] with the signer of the chain's rules. *)
Context {Tx : Type} (tx_Hash : Tx -> Hash) (AsMessage : Tx -> EthConfig -> Z -> option Z -> res Message).

(** After the message: the result is kept unless the execution failed. *)
Definition settle (msg : Message) (cfg : EVMConfig) (txConfig : TxConfig) (res : MsgEthereumTxResponse) (w' : W)
    : M TxState MsgEthereumTxResponse :=
  let logs := res_Logs res in
  (if Failed res then mret tt else mmodify (with_store w'));;
  on_store (RefundGas msg (u64_sub (msg_Gas msg) (GasUsed res)) (EvmDenom (cfg_Params cfg)));;
  (if (0 <? length logs)%nat then
     mmodify (fun t => SetLogSizeTransient (u64_add (LogIndex txConfig) (Z.of_nat (length logs)))
                         (SetBlockBloomTransient (Z.lor (GetBlockBloomTransient t) (LogsBloom logs)) t))
   else mret tt);;
  mmodify (SetTxIndexTransient (u64_add (TxIndex txConfig) 1));;
  totalGasUsed ← AddTransientGasUsed (GasUsed res);
  on_meter (ResetGasMeterAndConsumeGas totalGasUsed);;
  mret res.

Definition ApplyTransaction (tx : Tx) : M TxState MsgEthereumTxResponse := fun t =>
  let w := ts_store t in
  match make_EVMConfig (bi_Proposer bi) w with
  | Panic => (Panic, t)
  | Err e => (Err e, t)
  | Ok cfg =>
      let txConfig := make_TxConfig (tx_Hash tx) t in
      match AsMessage tx (cfg_ChainConfig cfg) (bi_Height bi) (cfg_BaseFee cfg) with
      | Panic => (Panic, t)
      | Err e => (Err e, t)
      | Ok msg =>
          match ApplyMessageWithConfig msg true cfg txConfig w with
          | (Panic, _) => (Panic, t)
          | (Err e, _) =>
              (on_meter (ResetGasMeterAndConsumeGas (gm_limit (ts_meter t)));; mraise e) t
          | (Ok res, w') => settle msg cfg txConfig res w' t
          end
      end
  end.

(** The message server's [EthereumTx]; events and telemetry are left out. *)
Definition EthereumTx (tx : Tx) : M TxState MsgEthereumTxResponse := ApplyTransaction tx.
End transition.
Arguments TxState W : clear implicits.
