(* ===== verification/TxSafety.v ===== *)
(** * The state transition is safe

    For parameters as the module keeps them, the environment that [NewEVM] makes is one that the interpreter
    can rely on ([NewEVM_ok]), so that executing a message returns and a creation leaves the sender's nonce as
    it was ([execute_ok]); applying a message returns and charges at least the minimum and at most the limit
    ([message_returns]); and a transaction pays for the gas that is charged and no more, also when it
    fails ([transaction_settles]). *)

From S2P Require Import Prelude.
From S2P Require Import Sdk.
From S2P Require Import Keepers.
From S2P Require Import FeeMarket.
From S2P Require Import AccessList.
From S2P Require Import StateDB.
From S2P Require Import Precompile.
From S2P Require Import StateRevert.
From S2P Require Import StateCommit.
From S2P Require Import EvmParams.
From S2P Require Import EvmMachine.
From S2P Require Import EvmCode.
From S2P Require Import Evm.
From S2P Require Import EvmInstructions.
From S2P Require Import EvmGas.
From S2P Require Import EvmTable.
From S2P Require Import EvmDb.
From S2P Require Import EvmTheory.
From S2P Require Import PrecompileRun.
From S2P Require Import EvmRun.
From S2P Require Import EvmCopies.
From S2P Require Import EvmSafety.
From S2P Require Import EvmConfig.
From S2P Require Import StateTransition.

Local Open Scope Z_scope.

(** ** The access list of a message *)

Section access_list.
Context {W : Type} `{StateKeeper W, Keccak}.

(** Only the access list changes, and it grows. *)
Record lists (s s' : StateDB W) : Prop := {
  li_calm : calm s s';
  li_ok : db_ok s';
  li_ctx : ctx s' = ctx s;
  li_cache : cache s' = cache s;
  li_dirties : dirties (db_journal s') = dirties (db_journal s)
}.

Lemma lists_trans s1 s2 s3 : lists s1 s2 -> lists s2 s3 -> lists s1 s3.
Proof. intros [C1 O1 X1 A1 D1] [C2 O2 X2 A2 D2]. split; [by etransitivity|done|congruence|congruence|congruence]. Qed.

Lemma lists_refl s : db_ok s -> lists s s.
Proof. by split. Qed.

Lemma lists_warm s s' a : lists s s' -> warm s a -> warm s' a.
Proof. intros Hl. apply (wi_warm _ _ (ca_within _ _ (li_calm _ _ Hl))). Qed.

Lemma AddAddress_lists a s : db_ok s -> lists s (AddAddressToAccessList a s).
Proof.
  intros Hok. pose proof (AddAddressToAccessList_writer a s Hok) as C. split; [done|eapply within_ok; [apply C|done]| | |];
    unfold AddAddressToAccessList; by destruct (AddAddress (access s) a) as [[] al].
Qed.

Lemma AddSlot_lists a k s : db_ok s -> exists s', AddSlotToAccessList a k s = Ok s' /\ lists s s'.
Proof.
  intros Hok. destruct (AddSlot_calm a k s Hok) as (s' & E & C & Hok' & _ & Ec). exists s'. split; [done|].
  split; [done|done|done| |]; revert E; unfold AddSlotToAccessList; destruct (AddSlot (access s) a k) as [[[am sm] al]|x|];
    simpl; try done; intros [= <-]; by destruct am, sm.
Qed.

Lemma add_slots_lists a ks s : db_ok s -> exists s', add_slots a ks s = Ok s' /\ lists s s'.
Proof.
  revert s. induction ks as [|k ks IH]; intros s Hok; simpl; [eauto using lists_refl|].
  destruct (AddSlot_lists a k s Hok) as (s1 & -> & L1). simpl. destruct (IH s1 (li_ok _ _ L1)) as (s2 & -> & L2).
  eauto using lists_trans.
Qed.

Lemma add_tuples_lists l s : db_ok s -> exists s', add_tuples l s = Ok s' /\ lists s s'.
Proof.
  revert s. induction l as [|[a ks] l IH]; intros s Hok; simpl; [eauto using lists_refl|].
  pose proof (AddAddress_lists a s Hok) as L0. destruct (add_slots_lists a ks _ (li_ok _ _ L0)) as (s1 & -> & L1). simpl.
  destruct (IH s1 (li_ok _ _ L1)) as (s2 & -> & L2). eauto using lists_trans.
Qed.

Lemma add_all_lists l s : db_ok s -> lists s (foldl (fun s addr => AddAddressToAccessList addr s) s l).
Proof.
  revert s. induction l as [|a l IH]; intros s Hok; simpl; [by apply lists_refl|].
  pose proof (AddAddress_lists a s Hok) as L. eapply lists_trans; [exact L|]. apply IH, L.
Qed.

(** The list is prepared without a panic, and has the sender and the callee. *)
Lemma PrepareAccessList_lists from to ps l s : db_ok s -> exists s', PrepareAccessList from to ps l s = Ok s' /\
  lists s s' /\ warm s' from /\ (forall a, to = Some a -> warm s' a).
Proof.
  intros Hok. unfold PrepareAccessList. set (s1 := AddAddressToAccessList from s).
  pose proof (AddAddress_lists from s Hok) as L1. fold s1 in L1.
  set (s2 := match to with Some dst => AddAddressToAccessList dst s1 | None => s1 end).
  assert (L2 : lists s1 s2) by (subst s2; destruct to; [apply AddAddress_lists, L1|apply lists_refl, L1]).
  pose proof (add_all_lists ps s2 (li_ok _ _ L2)) as L3. set (s3 := foldl _ s2 ps) in *.
  destruct (add_tuples_lists l s3 (li_ok _ _ L3)) as (s4 & -> & L4). exists s4.
  split; [done|]. split; [eauto using lists_trans|]. split.
  - eapply lists_warm; [exact L4|]. eapply lists_warm; [exact L3|]. eapply lists_warm; [exact L2|]. apply AddAddress_warm_self.
  - intros a ->. eapply lists_warm; [exact L4|]. eapply lists_warm; [exact L3|]. apply AddAddress_warm_self.
Qed.
End access_list.

(** ** The environment of a message *)

Section environment.
Context {W P : Type} `{StateKeeper W, Keccak, EthAddresses} `{SdkOps} `{EvmText} `{GethConfig, !GethConfigLaws}
  `{DecOps, !DecLaws} `{GethCore} `{NativeContracts P} `{PrecompiledContracts W P} `{!PrecompileLaws W P} `{StakingInfo W} `{ModuleBank W}
  `{Lens W ParamsStore} `{Lens W FeeMarket.State}.
Context (available : gmap Address P) (GetERC20PrecompileInstance : Address -> W -> res (option P)).
Context (bi : BlockInfo).

Abbreviation new_evm := (NewEVM available GetERC20PrecompileInstance bi).
Abbreviation apply_message := (ApplyMessageWithConfig available GetERC20PrecompileInstance bi).

(** The configuration is that of valid parameters with the default EIPs; the chain is past Homestead and has a base fee from
    London on; and every active precompile is one that the keeper has. *)
Record config_ok (cfg : EVMConfig) (w : W) : Prop := {
  cf_params : params_ok (cfg_Params cfg);
  cf_chain : exists chainID, cfg_ChainConfig cfg = EthereumConfig chainID (chain_config (cfg_Params cfg));
  cf_eips : Forall (eq "ethereum_3855"%string) (ExtraEIPs (cfg_Params cfg));
  cf_homestead : forked (HomesteadBlock (eth_forks (cfg_ChainConfig cfg))) (bi_Height bi) = true;
  cf_baseFee : config_IsLondon (cfg_ChainConfig cfg) (bi_Height bi) = true -> cfg_BaseFee cfg <> None;
  cf_active a : addr_String a ∈ ActiveStaticPrecompiles (cfg_Params cfg) -> is_Some (available !! a);
  cf_berlin a : a ∈ PrecompiledAddressesBerlin -> is_Some (available !! a);
  cf_erc20 a : GetERC20PrecompileInstance a w <> Panic
}.

Lemma instance_no_panic cfg w a : config_ok cfg w ->
  GetPrecompileInstance available GetERC20PrecompileInstance (cfg_Params cfg) a w <> Panic.
Proof.
  intros Hc. unfold GetPrecompileInstance, GetStaticPrecompileInstance.
  destruct (IsAvailableStaticPrecompile (cfg_Params cfg) a) eqn:Ea; simpl; [|apply (cf_erc20 _ _ Hc)].
  unfold IsAvailableStaticPrecompile in Ea. apply orb_true_iff in Ea as [Ea%bool_decide_eq_true|Ea%bool_decide_eq_true].
  - by destruct (cf_active _ _ Hc a Ea) as [p ->].
  - by destruct (cf_berlin _ _ Hc a Ea) as [p ->].
Qed.

Lemma evm_hooks_ok cfg w signer : config_ok cfg w ->
  hooks_ok (evm_hooks available GetERC20PrecompileInstance (cfg_Params cfg) signer w).
Proof.
  intros Hc. split.
  - intros a b e. unfold wp, attempt. rewrite call_hook_spec. pose proof (instance_no_panic cfg w b Hc) as Hn.
    destruct (check_fn _ _ _); [destruct (GetPrecompileInstance _ _ _ b w) as [[p|]|x|]|];
      done.
  - intros a e. unfold wp, attempt. rewrite create_hook_spec. by destruct (check_fn _ _ _).
Qed.

Lemma config_rules cfg w : config_ok cfg w ->
  let rules := chain_Rules (cfg_ChainConfig cfg) (bi_Height bi) false in
  rules_ok rules (block_context bi cfg w).
Proof.
  intros [Hp (id & Hch) _ Hh Hb _ _ _] rules. subst rules. rewrite Hch in *.
  assert (Hv : ChainConfig_Validate (chain_config (cfg_Params cfg)) = Ok tt).
  { unfold params_ok, Params_Validate in Hp. do 2 (apply res_bind_ok in Hp as (? & _ & Hp)).
    by apply res_bind_ok in Hp as ([] & Hv & _). }
  assert (Hord := fun i j a b => forked_order (chain_config (cfg_Params cfg)) (bi_Height bi) i j a b Hv).
  split; rewrite ?rules_merge, ?rules_london, ?rules_berlin, ?rules_eip150, ?rules_homestead; simpl.
  - done.
  - exact (Hord 8%nat 9%nat _ _ ltac:(lia) eq_refl eq_refl).
  - exact (Hord 1%nat 8%nat _ _ ltac:(lia) eq_refl eq_refl).
  - unfold config_IsLondon in Hb. rewrite rules_london in Hb. exact Hb.
  - done.
Qed.

(** The EVM of a message, and the environment that it runs in. *)
Lemma NewEVM_ok msg cfg s w : config_ok cfg w -> exists env evm, new_evm msg cfg s w = Ok (env, evm) /\
  env_ok env /\ chainRules env = chain_Rules (cfg_ChainConfig cfg) (bi_Height bi) false /\
  evm_StateDB evm = s /\ depth evm = 0.
Proof.
  intros Hc. unfold NewEVM. change (bool_decide (is_Some (Random (block_context bi cfg w)))) with false.
  set (rules := chain_Rules _ _ false). set (bc := block_context bi cfg w). set (tc := mkTxContext _ _).
  assert (Hex : Forall (fun e => ExistsEipActivator e = true) (ExtraEIPs (cfg_Params cfg))).
  { eapply list.Forall_impl; [apply (cf_eips _ _ Hc)|]. by intros e <-. }
  assert (Ht : NewEVMInterpreter (W:=W) (P:=P) rules bc tc (ExtraEIPs (cfg_Params cfg)) =
    Ok (enable_all rules bc (ExtraEIPs (cfg_Params cfg)) (DefaultJumpTable rules bc tc), ExtraEIPs (cfg_Params cfg))).
  { by apply extra_eips_known. }
  rewrite Ht. do 2 eexists. split; [reflexivity|]. split; [|by split_and!]. split; simpl.
  - by apply config_rules.
  - by apply evm_hooks_ok.
  - do 2 eexists. split; [apply (cf_eips _ _ Hc)|exact Ht].
Qed.

(** ** The execution of a message *)

Lemma GetNonce_SetNonce a n (s : StateDB W) : good s -> fst (GetNonce a (SetNonce a n s)) = n.
Proof.
  intros G. unfold SetNonce. destruct (getOrNewStateObject a s) as [o s1] eqn:E.
  destruct (getOrNew_ext a s o s1 G E) as (_ & _ & Ha). unfold GetNonce, object_SetNonce.
  assert (El : lookup_obj (setStateObject (setNonce n o) (append (nonceChange (address o) (Nonce (account o))) s1)) a
    = Some (setNonce n o)).
  { rewrite lookup_set. rewrite decide_True; [done|]. done. }
  unfold lookup_obj in El. destruct (getStateObject a _) as [r s2]. simpl in *. by rewrite El.
Qed.

Lemma fresh_calm (e : EVM W P) s : fresh e -> calm (evm_StateDB e) s -> db_ok s -> fresh (with_db s e).
Proof.
  intros [Ok D R C] [_ Rs Cs] Hok. split; simpl; [done|done|congruence|]. intros a k Hc. by apply (C a k), Cs.
Qed.

(** What an execution ensures. *)
Record executed (msg : Message) (gas : Z) (e : EVM W P) (out : Outcome) (e' : EVM W P) : Prop := {
  ex_ok : db_ok (evm_StateDB e');
  ex_left : 0 <= leftOverGas out <= gas;
  ex_refund : 0 <= refund (evm_StateDB e') <= 600 * (gas - leftOverGas out) + 24000;
  ex_failed to : msg_To msg = Some to -> vm_err out <> None -> same_state (evm_StateDB e) (evm_StateDB e');
  ex_nonce : msg_To msg = None ->
    fst (GetNonce (msg_From msg) (evm_StateDB e')) = fst (GetNonce (msg_From msg) (evm_StateDB e))
}.

Lemma execute_ok (env : EvmEnv W P) msg gas e : env_ok env -> fresh e -> gas_fits gas -> 0 <= msg_Value msg < 2 ^ 256 ->
  (IsBerlin (chainRules env) = true -> forall a, msg_To msg = Some a -> warm (evm_StateDB e) a) ->
  ends (execute_message env msg gas e) (executed msg gas e).
Proof.
  intros Henv Hf Hg Hv Hw. unfold execute_message. destruct (msg_To msg) as [to|] eqn:Eto.
  - destruct (call_safe env (AccountRef (msg_From msg)) to (msg_Data msg) gas (msg_Value msg) e)
      as [(out & e' & E & Hr & Hs)|(e' & E & Hx)]; try done; [intros Hb; by apply Hw| |by right; exists e'].
    destruct Hr as (Hl & Hrf & _ & _ & Hok). left. exists out, e'. split; [exact E|]. split; [done|done|done|by intros ? _|congruence].
  - unfold mbind, M_bind, on_db. destruct (GetNonce (msg_From msg) (evm_StateDB e)) as [n s1] eqn:En.
    pose proof (GetNonce_reader (msg_From msg) _ (fr_ok _ Hf)) as [S1 W1]. rewrite En in S1, W1. simpl in S1, W1.
    assert (C1 : calm (evm_StateDB e) s1) by (by apply still_calm; [apply same_state_still|]).
    assert (K1 : db_ok s1) by (eapply within_ok; [exact W1|apply Hf]). simpl.
    set (s2 := SetNonce (msg_From msg) (msg_Nonce msg) s1).
    assert (C2 : calm s1 s2) by (by apply SetNonce_writer).
    assert (K2 : db_ok s2) by (eapply within_ok; [apply C2|done]).
    assert (F2 : fresh (with_db s2 (with_db s1 e))).
    { apply (fresh_calm (with_db s1 e)); [by apply fresh_calm|done|done]. }
    destruct (create_safe env (AccountRef (msg_From msg)) (msg_Data msg) gas (msg_Value msg) (with_db s2 (with_db s1 e)))
      as [([out addr] & e' & E & Hr & _)|(e' & E & Hx)]; try done; simpl in E; rewrite E; simpl; [|by right; exists e'].
    destruct Hr as (Hl & Hrf & _ & _ & Hok). left. do 2 eexists. split; [reflexivity|].
    assert (C3 : calm (evm_StateDB e') (SetNonce (msg_From msg) n (evm_StateDB e'))) by (by apply SetNonce_writer).
    split; simpl; try done.
    + eapply within_ok; [apply C3|done].
    + by rewrite (ca_refund _ _ C3).
    + intros to. congruence.
    + intros _. rewrite GetNonce_SetNonce by apply Hok. by rewrite En.
Qed.

(** ** The gas of a message *)

Lemma GasToRefund_min a used q : GasToRefund a used q = Z.min a (used / q).
Proof. unfold GasToRefund. destruct (Z.ltb_spec a (used / q)); lia. Qed.

(** The gas that is charged: the refund counter gives back at most a part of the gas that is used, and the minimum is a part of
    the limit. *)
Definition charged_gas (london : bool) (limit used counter multiplier : Z) : Z :=
  Z.max (limit * multiplier / dec_one) (used - Z.min counter (used / (if london then 5 else 2))).

Lemma charged_bounds london limit used counter m : 0 <= used <= limit -> 0 <= counter -> 0 <= m <= dec_one ->
  limit * m / dec_one <= charged_gas london limit used counter m <= limit /\
  used - used / 2 <= charged_gas london limit used counter m.
Proof.
  intros Hu Hc Hm. unfold charged_gas. assert (0 < dec_one) by done.
  assert (limit * m / dec_one <= limit) by (apply Z.div_le_upper_bound; nia).
  assert (used / 5 <= used / 2).
  { apply Z.div_le_lower_bound; [lia|]. pose proof (Z.mul_div_le used 5 ltac:(lia)). pose proof (Z.div_pos used 5). lia. }
  pose proof (Z.div_pos used 5). pose proof (Z.div_pos used 2). destruct london; lia.
Qed.

(** The store that a message leaves: that of the commit, or the one before where nothing is committed. *)
Definition committed_store (commit : bool) (s : StateDB W) (w : W) : res unit * W :=
  if commit then let '(r, s') := Commit s in (r, ctx s') else (Ok tt, w).

Lemma finish_ok msg commit london txc out s w : gas_fits (msg_Gas msg) -> 0 <= leftOverGas out <= msg_Gas msg ->
  0 <= refund s < 2 ^ 64 ->
  0 <= GetMinGasMultiplier (snd (finish_message msg commit london txc out s w)) <= dec_one ->
  finish_message msg commit london txc out s w =
    match committed_store commit s w with
    | (Ok _, w') =>
        (Ok (mkResponse (TxHash txc) (logs s) (ret out) (vm_err out)
               (charged_gas london (msg_Gas msg) (msg_Gas msg - leftOverGas out) (refund s) (GetMinGasMultiplier w'))), w')
    | (Err x, w') => (Err x, w')
    | (Panic, w') => (Panic, w')
    end.
Proof.
  intros [G1 G2] Hl Hr Hm. revert Hm. unfold finish_message.
  destruct (Z.ltb_spec (msg_Gas msg) (leftOverGas out)) as [?|_]; [lia|].
  set (limit := msg_Gas msg) in *. set (left := leftOverGas out) in *. set (q := if london then _ else _).
  assert (Hq : 0 < q) by (by subst q; destruct london).
  assert (Eu : u64_sub limit left = limit - left) by (unfold u64_sub, wrap_u64; rewrite Z.mod_small; lia).
  rewrite Eu, GasToRefund_min. set (rf := Z.min _ _).
  assert (Hrf : 0 <= rf <= limit - left).
  { subst rf. pose proof (Z.div_pos (limit - left) q ltac:(lia) Hq). pose proof (Z.div_le_upper_bound (limit - left) q (limit - left) Hq) as Hd.
    split; [lia|]. etransitivity; [apply Z.le_min_r|]. apply Hd. nia. }
  assert (Ea : u64_add left rf = left + rf) by (unfold u64_add, wrap_u64; rewrite Z.mod_small; lia).
  assert (Es : u64_sub (limit - left) rf = limit - left - rf) by (unfold u64_sub, wrap_u64; rewrite Z.mod_small; lia).
  rewrite Ea, Es.
  fold (committed_store commit s w). destruct (committed_store commit s w) as [[[]|x|] w']; [|done|done]. intros Hm.
  assert (Hm' : 0 <= GetMinGasMultiplier w' <= dec_one) by (revert Hm; by repeat case_match). clear Hm. rename Hm' into Hm.
  rewrite dec_mul_int. assert (0 < dec_one) by done. assert (0 <= limit * GetMinGasMultiplier w') by nia.
  assert (Hmin : limit * GetMinGasMultiplier w' / dec_one <= limit) by (apply Z.div_le_upper_bound; nia).
  assert (0 <= limit * GetMinGasMultiplier w' / dec_one) by (by apply Z.div_pos).
  assert (Et : TruncateInt (limit * GetMinGasMultiplier w') = limit * GetMinGasMultiplier w' / dec_one).
  { unfold TruncateInt. by apply Z.quot_div_nonneg. }
  rewrite Et. replace (_ && _) with true by lia. cbn [negb].
  destruct (Z.ltb_spec limit (left + rf)) as [?|_]; [lia|].
  rewrite truncate_max by lia. unfold charged_gas, wrap_u64. fold limit left. do 3 f_equal.
  replace (Z.min (refund s) ((limit - left) / (if london then 5 else 2))) with rf by (subst rf q; by destruct london).
  rewrite Z.mod_small; [done|]. lia.
Qed.
(** ** A message *)

(** The merge does not change the fork of Berlin. *)
Lemma prepare_ok msg cfg (evm : EVM W P) : fresh evm -> exists s, prepare bi msg cfg evm = Ok s /\ fresh (with_db s evm) /\
  (IsBerlin (chain_Rules (cfg_ChainConfig cfg) (bi_Height bi) false) = true -> forall a, msg_To msg = Some a -> warm s a).
Proof.
  intros Hf. unfold prepare. rewrite !rules_berlin.
  destruct (forked (BerlinBlock (eth_forks (cfg_ChainConfig cfg))) (bi_Height bi)).
  - destruct (PrepareAccessList_lists (msg_From msg) (msg_To msg) (activePrecompiles evm) (msg_AccessList msg)
      (evm_StateDB evm) (fr_ok _ Hf)) as (s & E & L & _ & Hw).
    exists s. split; [exact E|]. split; [|by intros _]. by apply fresh_calm, L; [|apply L].
  - exists (evm_StateDB evm). split; [done|]. split; [|done]. by destruct evm.
Qed.

(** The execution of a message ends with [r] and leaves the StateDB [s]. *)
Definition runs (msg : Message) (cfg : EVMConfig) (txc : TxConfig) (g : Z) (w : W) (r : res Outcome) (s : StateDB W) : Prop :=
  exists env evm s0 e', new_evm msg cfg (New w txc) w = Ok (env, evm) /\ prepare bi msg cfg evm = Ok s0 /\
    execute_message env msg (msg_Gas msg - g) (with_db s0 evm) = (r, e') /\ evm_StateDB e' = s.

(** What is answered when the execution has returned [out] and left [s]: the response with the charge, or the failure of the commit. *)
Definition answers (msg : Message) (commit : bool) (cfg : EVMConfig) (txc : TxConfig) (g : Z) (w : W)
    (out : Outcome) (s : StateDB W) (r : res MsgEthereumTxResponse * W) : Prop :=
  match committed_store commit s w with
  | (Ok _, w') =>
      let charge := charged_gas (config_IsLondon (cfg_ChainConfig cfg) (bi_Height bi)) (msg_Gas msg)
        (msg_Gas msg - leftOverGas out) (refund s) (GetMinGasMultiplier w') in
      r = (Ok (mkResponse (TxHash txc) (logs s) (ret out) (vm_err out) charge), w') /\
      msg_Gas msg * GetMinGasMultiplier w' / dec_one <= charge <= msg_Gas msg /\ g - g / 2 <= charge
  | (Err x, w') => r = (Err x, w')
  | (Panic, w') => r = (Panic, w')
  end.

Lemma message_safe msg commit cfg txc w g :
  config_ok cfg w -> gas_fits (msg_Gas msg) -> 0 <= msg_Value msg < 2 ^ 256 ->
  GetEthIntrinsicGas bi msg (cfg_ChainConfig cfg) (bool_decide (msg_To msg = None)) = Ok g -> 0 <= g ->
  0 <= GetMinGasMultiplier (snd (apply_message msg commit cfg txc w)) <= dec_one ->
  (msg_Gas msg < g -> apply_message msg commit cfg txc w = (Err ErrIntrinsicGas, w)) /\
  (g <= msg_Gas msg ->
     (exists out s, runs msg cfg txc g w (Ok out) s /\ 0 <= leftOverGas out <= msg_Gas msg - g /\ 0 <= refund s /\
        answers msg commit cfg txc g w out s (apply_message msg commit cfg txc w)) \/
     (exists s, runs msg cfg txc g w Panic s /\ precompile_panic (P:=P) s /\ apply_message msg commit cfg txc w = (Panic, w))).
Proof.
  intros Hc Hg Hv Hi Hg0 Hm. revert Hm. unfold ApplyMessageWithConfig, runs.
  destruct (NewEVM_ok msg cfg (New w txc) w Hc) as (env & evm & -> & Henv & Hrules & Hs & Hd). rewrite Hi.
  destruct (Z.ltb_spec (msg_Gas msg) g) as [Hlt|Hge]; [split; [done|lia]|]. intros Hm. split; [lia|]. intros _. revert Hm.
  assert (Hf : fresh evm).
  { split; rewrite ?Hs; [apply New_ok|done|done|]. intros a k. apply New_not_cleared. }
  destruct (prepare_ok msg cfg evm Hf) as (s & Ep & Hf' & Hw). rewrite Ep.
  assert (Hg' : gas_fits (msg_Gas msg - g)) by (destruct Hg; split; lia).
  destruct (execute_ok env msg (msg_Gas msg - g) (with_db s evm) Henv Hf' Hg' Hv) as [(out & e' & E & [Ho Hl Hr _ _])|(e' & E & Hx)];
    [by rewrite Hrules| |]; rewrite E; intros Hm.
  2:{ right. exists (evm_StateDB e'). split; [|done]. by exists env, evm, s, e'. }
  left. exists out, (evm_StateDB e'). split; [by exists env, evm, s, e'|]. split; [lia|]. split; [lia|]. unfold answers.
  pose proof (finish_ok msg commit (config_IsLondon (cfg_ChainConfig cfg) (bi_Height bi)) txc out (evm_StateDB e') w
    Hg ltac:(lia) ltac:(unfold gas_fits in *; lia) Hm) as Ef. rewrite Ef in Hm |- *.
  destruct (committed_store commit (evm_StateDB e') w) as [[[]|x|] w']; [|done|done]. simpl in Hm. split; [done|].
  pose proof (charged_bounds (config_IsLondon (cfg_ChainConfig cfg) (bi_Height bi)) (msg_Gas msg) (msg_Gas msg - leftOverGas out)
    (refund (evm_StateDB e')) (GetMinGasMultiplier w') ltac:(lia) ltac:(lia) Hm) as [B1 B2].
  split; [exact B1|]. etransitivity; [|exact B2]. pose proof (Z.div_mod g 2). pose proof (Z.mod_pos_bound g 2).
  pose proof (Z.div_mod (msg_Gas msg - leftOverGas out) 2). pose proof (Z.mod_pos_bound (msg_Gas msg - leftOverGas out) 2). lia.
Qed.

(** C9: With a configuration as [config_ok] says (valid parameters with the default EIPs, a chain past Homestead, active precompiles that the keeper has),
    a minimum gas multiplier between 0 and 1 and a gas limit below 2^54, a message is answered: less gas than the intrinsic gas is refused and
    changes nothing; otherwise its execution returns, unless a precompile that it has called panics. What is committed decides the answer: if the commit
    fails, its error (or panic) is the answer; else the response has the logs and the error of the execution, and the gas
    charged is the larger of the minimum and of what was used less the refund, at most the
    limit and at least half of the intrinsic gas.  A query ([commit] false) changes nothing. *)
Theorem message_returns msg commit cfg txc w g :
  config_ok cfg w -> gas_fits (msg_Gas msg) -> 0 <= msg_Value msg < 2 ^ 256 ->
  GetEthIntrinsicGas bi msg (cfg_ChainConfig cfg) (bool_decide (msg_To msg = None)) = Ok g -> 0 <= g ->
  0 <= GetMinGasMultiplier (snd (apply_message msg commit cfg txc w)) <= dec_one ->
  (commit = false -> snd (apply_message msg commit cfg txc w) = w) /\
  (msg_Gas msg < g -> apply_message msg commit cfg txc w = (Err ErrIntrinsicGas, w)) /\
  (g <= msg_Gas msg ->
     (exists out s, runs msg cfg txc g w (Ok out) s /\ 0 <= leftOverGas out <= msg_Gas msg - g /\ 0 <= refund s /\
        answers msg commit cfg txc g w out s (apply_message msg commit cfg txc w)) \/
     (exists s, runs msg cfg txc g w Panic s /\ precompile_panic (P:=P) s /\ apply_message msg commit cfg txc w = (Panic, w))).
Proof.
  intros Hc Hg Hv Hi Hg0 Hm. destruct (message_safe msg commit cfg txc w g Hc Hg Hv Hi Hg0 Hm) as [Hlow Hrun].
  split; [|done]. intros ->. destruct (Z.lt_ge_cases (msg_Gas msg) g) as [Hlt|Hge]; [by rewrite (Hlow Hlt)|].
  destruct (Hrun Hge) as [(out & s & _ & _ & _ & [E _])|(s & _ & _ & E)]; by rewrite E.
Qed.

(** ** A transaction *)

Lemma ResetGasMeter_spec total g : 0 <= total < 2 ^ 64 ->
  ResetGasMeterAndConsumeGas total g = (Ok tt, mkGasMeter total (gm_limit g)).
Proof.
  intros Ht. unfold ResetGasMeterAndConsumeGas, mgets, mbind, M_bind, meter_RefundGas, ConsumeGas, addUint64Overflow. simpl.
  rewrite Z.ltb_irrefl. simpl. rewrite Z.sub_diag. destruct (Z.ltb_spec (2 ^ 64 - 1 - 0) total); [lia|].
  unfold u64_add, wrap_u64. by rewrite Z.mod_small.
Qed.

Lemma params_denom p : params_ok p -> ValidDenom (EvmDenom p) = true.
Proof.
  unfold params_ok, Params_Validate, validateEVMDenom. intros E. apply res_bind_ok in E as (? & E & _).
  by destruct (ValidDenom (EvmDenom p)).
Qed.

(** What is sent back to the sender. *)
Definition refunded (msg : Message) (denom : string) (unused : Z) (w w' : W) : Prop :=
  if 0 <? unused * msg_GasPrice msg
  then SendCoinsFromModuleToAccount FeeCollectorName (msg_From msg) [mkCoin denom (unused * msg_GasPrice msg)] w = (Ok tt, w')
  else w' = w.

Context `{!SdkLaws}.

Lemma RefundGas_spec msg denom unused w w' : ValidDenom denom = true -> 0 <= unused * msg_GasPrice msg < 2 ^ 256 ->
  refunded msg denom unused w w' -> RefundGas msg unused denom w = (Ok tt, w').
Proof.
  intros Hd Hr. unfold refunded, RefundGas. destruct (Z.ltb_spec (unused * msg_GasPrice msg) 0); [lia|].
  destruct (Z.ltb_spec 0 (unused * msg_GasPrice msg)); [|by intros ->].
  destruct (Z.leb_spec (2 ^ 256) (unused * msg_GasPrice msg)); [lia|]. intros E.
  unfold mwrap, mbind, M_bind, mlift. rewrite new_coin_ok by (done || lia). by rewrite E.
Qed.
Context {Tx : Type} (tx_Hash : Tx -> Hash) (AsMessage : Tx -> EthConfig -> Z -> option Z -> res Message).

Abbreviation apply_tx := (ApplyTransaction available GetERC20PrecompileInstance bi tx_Hash AsMessage).

(** What the block's counters are after a transaction. *)
Definition block_bloom (bloom : Z) (logs : list Log) : Z := if (0 <? length logs)%nat then Z.lor bloom (LogsBloom logs) else bloom.
Definition log_count (size : Z) (logs : list Log) : Z :=
  if (0 <? length logs)%nat then u64_add size (Z.of_nat (length logs)) else size.

Lemma settle_spec msg cfg tx res w' w2 t : params_ok (cfg_Params cfg) ->
  0 <= GasUsed res <= msg_Gas msg -> msg_Gas msg < 2 ^ 64 -> 0 <= (msg_Gas msg - GasUsed res) * msg_GasPrice msg < 2 ^ 256 ->
  0 <= ts_gasUsed t -> ts_gasUsed t + GasUsed res < 2 ^ 64 ->
  refunded msg (EvmDenom (cfg_Params cfg)) (msg_Gas msg - GasUsed res) (if Failed res then ts_store t else w') w2 ->
  let total := ts_gasUsed t + GasUsed res in
  settle msg cfg (make_TxConfig bi (tx_Hash tx) t) res w' t =
    (Ok res, mkTxState w2 (block_bloom (ts_bloom t) (res_Logs res)) (u64_add (ts_txIndex t) 1)
               (log_count (ts_logSize t) (res_Logs res)) total (mkGasMeter total (gm_limit (ts_meter t)))).
Proof.
  intros Hp Hu Hg Hr Ht Hsum Hsend total. unfold settle.
  assert (Eu : u64_sub (msg_Gas msg) (GasUsed res) = msg_Gas msg - GasUsed res) by (unfold u64_sub, wrap_u64; rewrite Z.mod_small; lia).
  rewrite Eu. pose proof (RefundGas_spec _ _ _ _ _ (params_denom _ Hp) Hr Hsend) as Es.
  assert (Ea : u64_add (ts_gasUsed t) (GasUsed res) = total) by (unfold u64_add, wrap_u64; rewrite Z.mod_small; lia).
  pose proof (fun g => ResetGasMeter_spec total g ltac:(lia)) as Em.
  unfold block_bloom, log_count, AddTransientGasUsed, GetTransientGasUsed, make_TxConfig, GetTxIndexTransient, GetLogSizeTransient.
  unfold mbind, M_bind, mmodify, mret, M_ret, on_store, on_meter in *.
  assert (Hlt : (total <? GasUsed res) = false) by lia.
  destruct (Failed res); simpl; rewrite Es; simpl; (destruct (0 <? length (res_Logs res))%nat; simpl;
    rewrite Ea, Hlt; simpl; rewrite Em; done).
Qed.
(** C10: A transaction whose gas is below the intrinsic gas fails, consumes the gas limit of the context and changes nothing else.
    Any other is executed (with the configuration, the multiplier and the gas limit of [message_returns]). When the message is answered,
    what it did is kept only if the execution did not fail, and in both cases, if the fee collector can pay, the sender gets back from
    it the price of exactly the gas that is not charged, the transaction takes the next index of the block, and
    the gas meter and the block's count have the charge. The message is not answered only when its commit fails, which consumes the gas limit
    of the context and changes nothing else, or when a precompile or the commit panics. *)
Theorem transaction_settles tx t cfg msg g :
  make_EVMConfig bi (bi_Proposer bi) (ts_store t) = Ok cfg -> config_ok cfg (ts_store t) ->
  AsMessage tx (cfg_ChainConfig cfg) (bi_Height bi) (cfg_BaseFee cfg) = Ok msg ->
  gas_fits (msg_Gas msg) -> 0 <= msg_Value msg < 2 ^ 256 -> 0 <= msg_GasPrice msg -> msg_Gas msg * msg_GasPrice msg < 2 ^ 256 ->
  GetEthIntrinsicGas bi msg (cfg_ChainConfig cfg) (bool_decide (msg_To msg = None)) = Ok g -> 0 <= g ->
  let txc := make_TxConfig bi (tx_Hash tx) t in
  0 <= GetMinGasMultiplier (snd (apply_message msg true cfg txc (ts_store t))) <= dec_one ->
  0 <= ts_gasUsed t -> ts_gasUsed t + msg_Gas msg < 2 ^ 64 -> 0 <= gm_limit (ts_meter t) < 2 ^ 64 ->
  let ran := runs msg cfg txc g (ts_store t) in
  let spent := with_meter (mkGasMeter (gm_limit (ts_meter t)) (gm_limit (ts_meter t))) t in
  (msg_Gas msg < g -> apply_tx tx t = (Err ErrIntrinsicGas, spent)) /\
  (g <= msg_Gas msg ->
     match apply_message msg true cfg txc (ts_store t) with
     | (Ok res, w') =>
         g - g / 2 <= GasUsed res <= msg_Gas msg /\
         forall w2, refunded msg (EvmDenom (cfg_Params cfg)) (msg_Gas msg - GasUsed res) (if Failed res then ts_store t else w') w2 ->
           let total := ts_gasUsed t + GasUsed res in
           apply_tx tx t =
             (Ok res, mkTxState w2 (block_bloom (ts_bloom t) (res_Logs res)) (u64_add (ts_txIndex t) 1)
                        (log_count (ts_logSize t) (res_Logs res)) total (mkGasMeter total (gm_limit (ts_meter t))))
     | (Err x, _) => (exists out s, ran (Ok out) s /\ fst (Commit s) = Err x) /\ apply_tx tx t = (Err x, spent)
     | (Panic, _) =>
         ((exists s, ran Panic s /\ precompile_panic (P:=P) s) \/ exists out s, ran (Ok out) s /\ fst (Commit s) = Panic) /\
         apply_tx tx t = (Panic, t)
     end).
Proof.
  intros Ecfg Hc Emsg Hg Hv Hp Hpg Hi Hg0 txc Hm Hu Hsum Hl ran spent. unfold ApplyTransaction. rewrite Ecfg, Emsg. fold txc.
  assert (Espent : forall x, (on_meter (W:=W) (ResetGasMeterAndConsumeGas (gm_limit (ts_meter t)));; mraise (A:=MsgEthereumTxResponse) x) t = (Err x, spent)).
  { intros x. unfold mbind, M_bind, on_meter. by rewrite ResetGasMeter_spec. }
  destruct (message_safe msg true cfg txc (ts_store t) g Hc Hg Hv Hi Hg0 Hm) as [Hlow Hrun]. split.
  - intros Hlt. by rewrite (Hlow Hlt).
  - intros Hge. destruct (Hrun Hge) as [(out & s & Hran & _ & _ & Ha)|(s & Hran & Hx & E)]; [|rewrite E; split; [left; by exists s|done]].
    unfold answers, committed_store in Ha. destruct (Commit s) as [[[]|x|] s'] eqn:Ecm.
    + destruct Ha as (E & Hb & Hh). rewrite E. split; [simpl; lia|]. intros w2 Hs2. simpl in Hs2 |- *.
      assert (g / 2 <= g) by (apply Z.div_le_upper_bound; lia).
      apply settle_spec; simpl; [apply (cf_params _ _ Hc)|lia|unfold gas_fits in Hg; lia|nia|done|lia|exact Hs2].
    + rewrite Ha. split; [|done]. exists out, s. by rewrite Ecm.
    + rewrite Ha. split; [|done]. right. exists out, s. by rewrite Ecm.
Qed.
End environment.

(** ** A small chain *)

Lemma contracts_laws (W : Type) `{StateKeeper W, Keccak} : @PrecompileLaws W unit _ _ (RefContracts W).
Proof.
  split; simpl; [lia|]. intros _ bc tc c ro s Hok Hg.
  split; [reflexivity|]. split; [lia|]. intros _. reflexivity.
Qed.

Record ExWorld := mkExWorld { xw_store : RefStore; xw_params : ParamsStore; xw_market : FeeMarket.State }.

Section example.
#[local] Existing Instances RefOps RefLaws RefText RefGeth RefGethLaws RefDec RefDecLaws StateCommit.RefKeccak EvmSafety.RefAddresses.

Definition xw_put (s : RefStore) (w : ExWorld) : ExWorld := mkExWorld s (xw_params w) (xw_market w).
Definition xw_run {A} (m : M RefStore A) : M ExWorld A := fun w => let '(r, s) := m (xw_store w) in (r, xw_put s w).

#[local] Instance ExKeeper : StateKeeper ExWorld :=
  let K := StateCommit.RefStateKeeper in {|
  keeper_GetAccount a w := @keeper_GetAccount _ K a (xw_store w);
  keeper_GetState a k w := @keeper_GetState _ K a k (xw_store w);
  keeper_GetCode h w := @keeper_GetCode _ K h (xw_store w);
  keeper_SetAccount a acct := xw_run (@keeper_SetAccount _ K a acct);
  keeper_SetState a k v w := xw_put (@keeper_SetState _ K a k v (xw_store w)) w;
  keeper_SetCode h c w := xw_put (@keeper_SetCode _ K h c (xw_store w)) w;
  keeper_DeleteAccount a := xw_run (@keeper_DeleteAccount _ K a)
|}.
#[local] Instance ExParams : Lens ExWorld ParamsStore := {| view := xw_params; update p w := mkExWorld (xw_store w) p (xw_market w) |}.
#[local] Instance ExMarket : Lens ExWorld FeeMarket.State := {| view := xw_market; update m w := mkExWorld (xw_store w) (xw_params w) m |}.

(** Money of the chain's denomination moves between accounts. *)
Definition xw_pay (from to : Address) (x : Z) : M ExWorld unit := xw_run (fun s =>
  let acct a := default (mkAccount 0 0 (Keccak256Hash "")) (rs_accounts s !! a) in
  let add y c := mkAccount (Nonce c) (Balance c + y) (CodeHash c) in
  if Balance (acct from) <? x then (Err (ErrText "insufficient funds"), s)
  else
    let accounts := <[from := add (- x) (acct from)]> (rs_accounts s) in
    let payee := default (mkAccount 0 0 (Keccak256Hash "")) (accounts !! to) in
    (Ok tt, mkRefStore (<[to := add x payee]> accounts) (rs_states s) (rs_codes s))).
#[local] Instance ExBank : ModuleBank ExWorld := {|
  SendCoinsFromAccountToModule a m cs := xw_pay a m (amt cs DefaultEVMDenom);
  SendCoinsFromModuleToAccount m a cs := xw_pay m a (amt cs DefaultEVMDenom);
  MintCoins _ _ := mraise (ErrText "no minter");
  BurnCoins _ _ := mraise (ErrText "no burner");
  SetDenomMetaData _ w := w
|}.
#[local] Instance ExGeth : GethCore := {|
  IntrinsicGas data _ creation _ _ := Ok ((if creation : bool then 53000 else 21000) + 16 * Z.of_nat (String.length data));
  LogsBloom logs := Z.of_nat (length logs)
|}.
#[local] Instance ExStaking : StakingInfo ExWorld := {|
  GetHistoricalInfo _ _ := None;
  GetValidatorByConsAddr _ _ := Some "haqqvaloper1q97aptjphqlxjgvg0ra2w3yvvvahul69uyqj3m"%string
|}.
(** go-ethereum's contracts as the identity, and a stateful contract that panics at the other addresses. *)
Definition xw_copy : ChainContract ExWorld := Native (mkNative (byte_address 4) (fun _ => 15%N) inl).
Definition xw_broken : ChainContract ExWorld :=
  Stateful (mkStateful (byte_address 9) (fun _ => 10%N) (mkABI None (Some ex_fallback) (fun _ => None)) (fun _ => true)
    (fun _ => 0) (fun _ _ _ _ => mlift Panic) (fun _ _ => "") (fun _ _ => 7%N)).
#[local] Instance ExNative : NativeContracts (ChainContract ExWorld) := {|
  ecrecover := xw_copy; sha256hash := xw_copy; ripemd160hash := xw_copy; dataCopy := xw_copy; bigModExp _ := xw_copy;
  bn256AddByzantium := xw_copy; bn256ScalarMulByzantium := xw_copy; bn256PairingByzantium := xw_copy;
  bn256AddIstanbul := xw_copy; bn256ScalarMulIstanbul := xw_copy; bn256PairingIstanbul := xw_copy; blake2F := xw_copy
|}.

Definition xw_available : gmap Address (ChainContract ExWorld) :=
  PrecompiledContractsBerlin ∪ list_to_map (map (fun a => (a, xw_broken)) DefaultStaticPrecompiles).
Definition xw_tokens (a : Address) (w : ExWorld) : res (option (ChainContract ExWorld)) := Ok None.
Definition ex_info : BlockInfo := mkBlockInfo 1 1 "h" None "p" (Some 0) (Some (-1)) 11235.
(** The fee collector has the price of the gas limit. *)
Definition ex_world : ExWorld :=
  mkExWorld (mkRefStore (<[FeeCollectorName := mkAccount 0 700000 (Keccak256Hash "")]> (rs_accounts ex_accounts)) ∅ (rs_codes ex_accounts))
    (mkParamsStore (Some DefaultParams) DefaultParams) ex_market.
Definition ex_message : Message := mkMessage "A" (Some "D") 3 0 100000 7 "" [].
Definition ex_config : EVMConfig :=
  mkEVMConfig DefaultParams (EthereumConfig 11235 DefaultChainConfig) (BytesToAddr "haqqvaloper1q97aptjphqlxjgvg0ra2w3yvvvahul69uyqj3m")
    (Some 1000).
Definition ex_state : TxState ExWorld := mkTxState ex_world 0 4 2 5000 (mkGasMeter 9 100000).

Lemma ex_config_ok : config_ok xw_available xw_tokens ex_info ex_config ex_world.
Proof.
  split; [by vm_compute|by exists 11235|by repeat constructor|done|done| | |done].
  - apply (list.Forall_forall (fun a => is_Some (xw_available !! a))). apply (bool_decide_unpack _). vm_compute. exact I.
  - apply (list.Forall_forall (fun a => is_Some (xw_available !! a))). apply (bool_decide_unpack _). vm_compute. exact I.
Qed.

Definition xw_apply (msg : Message) (w : ExWorld) :=
  ApplyMessageWithConfig xw_available xw_tokens ex_info msg true ex_config (make_TxConfig ex_info zero_hash ex_state) w.
Definition xw_run_tx (msg : Message) :=
  ApplyTransaction xw_available xw_tokens ex_info (fun _ => zero_hash) (fun m _ _ _ => Ok m) msg ex_state.

Definition xw_refund (used : Z) :=
  SendCoinsFromModuleToAccount FeeCollectorName "A" [mkCoin DefaultEVMDenom ((100000 - used) * 7)] ex_world.

(** A message to the contract that panics ends its transaction. *)
Example broken_precompile_panics :
  let msg := mkMessage "A" (head DefaultStaticPrecompiles) 3 0 100000 7 "" [] in
  xw_apply msg ex_world = (Panic, ex_world) /\ xw_run_tx msg = (Panic, ex_state).
Proof. vm_compute. done. Qed.

Lemma message_returns_witness :
  exists res w', xw_apply ex_message ex_world = (Ok res, w') /\ 50000 <= GasUsed res <= 100000.
Proof.
  destruct (message_returns xw_available xw_tokens ex_info ex_message true ex_config (make_TxConfig ex_info zero_hash ex_state) ex_world 21000)
    as (_ & _ & Hr).
  - exact ex_config_ok.
  - unfold gas_fits. simpl. lia.
  - simpl. lia.
  - reflexivity.
  - lia.
  - vm_compute. split; discriminate.
  - assert (Em : no_error (fst (xw_apply ex_message ex_world)) = true /\
      GetMinGasMultiplier (snd (xw_apply ex_message ex_world)) = dec_one / 2) by (vm_compute; done).
    specialize (Hr ltac:(simpl; lia)). revert Hr Em. unfold xw_apply.
    generalize (ApplyMessageWithConfig xw_available xw_tokens ex_info ex_message true ex_config (make_TxConfig ex_info zero_hash ex_state) ex_world).
    intros r Hr [En Em]. destruct Hr as [(out & s & _ & _ & _ & Ha)|(s & _ & _ & E)]; [|rewrite E in En; discriminate En].
    revert Ha. unfold answers. destruct (committed_store true s ex_world) as [[[]|x|] w'].
    + intros (E & Hb & _). rewrite E in Em. simpl in Em. rewrite E. do 2 eexists. split; [reflexivity|].
      cbn [GasUsed]. rewrite Em in Hb |- *. exact Hb.
    + intros E. rewrite E in En. discriminate En.
    + intros E. rewrite E in En. discriminate En.
Defined.

(** The call reverts; what is left of the price goes back. *)
Lemma transaction_settles_witness :
  let t' := snd (xw_run_tx ex_message) in
  exists res, fst (xw_run_tx ex_message) = Ok res /\
    Failed res = true /\ ts_gasUsed t' = 5000 + GasUsed res /\ gm_consumed (ts_meter t') = 5000 + GasUsed res /\ ts_txIndex t' = 5.
Proof.
  destruct (transaction_settles xw_available xw_tokens ex_info (fun _ => zero_hash) (fun m _ _ _ => Ok m) ex_message ex_state
    ex_config ex_message 21000) as [_ Hr].
  - vm_compute. reflexivity.
  - exact ex_config_ok.
  - reflexivity.
  - unfold gas_fits. simpl. lia.
  - simpl. lia.
  - simpl. lia.
  - simpl. lia.
  - reflexivity.
  - lia.
  - vm_compute. split; discriminate.
  - simpl. lia.
  - simpl. lia.
  - simpl. lia.
  - specialize (Hr ltac:(simpl; lia)). cbv zeta in Hr.
    assert (Hx : match fst (xw_apply ex_message (ts_store ex_state)) with
      | Ok res => (Failed res, no_error (fst (xw_refund (GasUsed res))), 0 <? (100000 - GasUsed res) * 7) = (true, true, true)
      | _ => False end) by (vm_compute; reflexivity).
    revert Hr Hx. unfold xw_apply, xw_run_tx.
    generalize (ApplyMessageWithConfig xw_available xw_tokens ex_info ex_message true ex_config (make_TxConfig ex_info zero_hash ex_state) (ts_store ex_state)).
    generalize (ApplyTransaction xw_available xw_tokens ex_info (fun _ => zero_hash) (fun m _ _ _ => Ok m) ex_message ex_state).
    intros rt [[res|x|] w'] Hr Hx; [|destruct Hx|destruct Hx].
    injection Hx as Hf Hs Hpos. destruct Hr as [_ Hr].
    destruct (xw_refund (GasUsed res)) as [[[]|x|] w2] eqn:Er; [|discriminate Hs|discriminate Hs].
    specialize (Hr w2). rewrite Hr.
    + exists res. split_and!; [reflexivity|exact Hf|reflexivity|reflexivity|reflexivity].
    + unfold refunded. simpl. rewrite Hpos, Hf. exact Er.
Defined.

(** The operator of the proposer as go-ethereum's coinbase: the last characters of its text. *)
Example coinbase_is_text : GetCoinbaseAddress ex_info "p" ex_world = Ok "a2w3yvvvahul69uyqj3m"%string.
Proof. vm_compute. reflexivity. Qed.
End example.
