(* ===== verification/TxData.v ===== *)
(** * x/evm/types: the data of a transaction

    legacy_tx.go, access_list_tx.go, dynamic_fee_tx.go, tx_data.go, access_list.go, tx.go, msg.go and the helpers of
    utils/eth.go and types/int.go.  The three kinds of data are records; the methods of the
    interface [TxData] are functions by cases.  go-ethereum's transactions and the texts of hashes are parameters.

    A nil integer is [None]; arithmetic on one is a panic.  A nil slice and an empty one are not distinguished.
    Integers of a transaction are unbounded, those of [sdkmath.Int] have at most 256 bits. *)

From S2P Require Import Prelude.
From S2P Require Import Sdk.
From S2P Require Import Schedule.
From S2P Require Import ClawbackAccount.
From S2P Require Import Keepers.
From S2P Require Import AccessList.
From S2P Require Import StateDB.
From S2P Require Import EvmMachine.
From S2P Require Import Evm.
From S2P Require Import EvmInstructions.
From S2P Require Import EvmParams.
From S2P Require Import EvmConfig.
From S2P Require Import StateTransition.

Local Open Scope Z_scope.

(** ** Integers *)

(** [big.Int.BitLen() <= 256] *)
Definition IsValidInt256 (i : option Z) : bool :=
  match i with None => true | Some z => Z.abs z <? 2 ^ 256 end.

(** [sdkmath.NewIntFromBigInt] panics above 256 bits. *)
Definition NewIntFromBigInt (z : Z) : res Z := if IsValidInt256 (Some z) then Ok z else Panic.

Definition ErrOutOfBound : err := ErrText "big int out of bound".

Definition SafeNewIntFromBigInt (i : option Z) : res (option Z) :=
  if negb (IsValidInt256 i) then Err ErrOutOfBound else Ok i.

(** [big.Int.Bytes] and [big.Int.SetBytes]: the absolute value without leading zeros. *)
Definition int_bytes (z : Z) : string :=
  if z =? 0 then EmptyString else big_endian (Z.to_nat (Z.log2 (Z.abs z) / 8 + 1)) (Z.abs z).
Definition bytes_int (s : string) : Z := bytes_val 0 s.

Definition signature_value (bz : string) : option Z := if bool_decide (bz = EmptyString) then None else Some (bytes_int bz).

Definition RawSignatureValues (v r s : string) : option Z * option Z * option Z :=
  (signature_value v, signature_value r, signature_value s).

Definition DeriveChainID (v : option Z) : option Z :=
  match v with
  | None => None
  | Some v =>
      if v <? 1 then None
      else if v <? 2 ^ 64 then
        if (v =? 27) || (v =? 28) then Some 0 else if v <? 35 then None else Some ((v - 35) / 2)
      else Some ((v - 35) / 2)
  end.

(** ** Records *)

(** [AccessTuple] of evm.pb.go *)
Record AccessTuple := mkTuple { tuple_Address : string; tuple_StorageKeys : list string }.

Record LegacyTx := mkLegacy {
  lt_Nonce : Z;
  lt_GasPrice : option Z;
  lt_GasLimit : Z;
  lt_To : string;
  lt_Amount : option Z;
  lt_Data : string;
  lt_V : string;
  lt_R : string;
  lt_S : string
}.

Record AccessListTx := mkAccessListTx {
  al_ChainID : option Z;
  al_Nonce : Z;
  al_GasPrice : option Z;
  al_GasLimit : Z;
  al_To : string;
  al_Amount : option Z;
  al_Data : string;
  al_Accesses : list AccessTuple;
  al_V : string;
  al_R : string;
  al_S : string
}.

Record DynamicFeeTx := mkDynamicFee {
  df_ChainID : option Z;
  df_Nonce : Z;
  df_GasTipCap : option Z;
  df_GasFeeCap : option Z;
  df_GasLimit : Z;
  df_To : string;
  df_Amount : option Z;
  df_Data : string;
  df_Accesses : list AccessTuple;
  df_V : string;
  df_R : string;
  df_S : string
}.

Inductive TxData :=
  | TxLegacy (tx : LegacyTx)
  | TxAccessList (tx : AccessListTx)
  | TxDynamicFee (tx : DynamicFeeTx).

(** go-ethereum's [types.TxData]: the fields of the three kinds, and the signature. *)
Record EthFields := mkEthFields {
  ef_Nonce : Z;
  ef_Gas : Z;
  ef_To : option Address;
  ef_Value : option Z;
  ef_Data : string;
  ef_V : option Z;
  ef_R : option Z;
  ef_S : option Z
}.

Inductive EthData :=
  | EthLegacy (gasPrice : option Z) (f : EthFields)
  | EthAccessList (chainID gasPrice : option Z) (al : list (Address * list Hash)) (f : EthFields)
  | EthDynamicFee (chainID gasTipCap gasFeeCap : option Z) (al : list (Address * list Hash)) (f : EthFields).

Definition LegacyTxType : Z := 0.
Definition AccessListTxType : Z := 1.
Definition DynamicFeeTxType : Z := 2.

(** ** Library code *)

Class GethTransactions := {
  Transaction : Type;
  eth_NewTx : EthData -> Transaction;
  tx_Type : Transaction -> Z;
  tx_Nonce : Transaction -> Z;
  tx_Gas : Transaction -> Z;
  tx_Data : Transaction -> string;
  tx_To : Transaction -> option Address;
  tx_Value : Transaction -> option Z;
  tx_GasPrice : Transaction -> option Z;
  tx_GasFeeCap : Transaction -> option Z;
  tx_GasTipCap : Transaction -> option Z;
  tx_AccessList : Transaction -> list (Address * list Hash);
  tx_ChainId : Transaction -> option Z;
  tx_RawSignatureValues : Transaction -> option Z * option Z * option Z;
  (** [Hash().Hex()], [Protected] and the sender and the message for the signer of a configuration and a height *)
  tx_HashHex : Transaction -> string;
  tx_Protected : Transaction -> bool;
  tx_Sender : Transaction -> EthConfig -> Z -> res Address;
  tx_AsMessage : Transaction -> EthConfig -> Z -> option Z -> res Message
}.

(** [common.Hash.String] and [common.HexToHash] *)
Class HashText := { hash_String : Hash -> string; HexToHash : string -> Hash }.

(** ** The interface [TxData] *)

Definition TxType (d : TxData) : Z :=
  match d with TxLegacy _ => LegacyTxType | TxAccessList _ => AccessListTxType | TxDynamicFee _ => DynamicFeeTxType end.

Definition GetData (d : TxData) : string :=
  match d with TxLegacy t => lt_Data t | TxAccessList t => al_Data t | TxDynamicFee t => df_Data t end.

Definition GetTxNonce (d : TxData) : Z :=
  match d with TxLegacy t => lt_Nonce t | TxAccessList t => al_Nonce t | TxDynamicFee t => df_Nonce t end.

Definition GetGas (d : TxData) : Z :=
  match d with TxLegacy t => lt_GasLimit t | TxAccessList t => al_GasLimit t | TxDynamicFee t => df_GasLimit t end.

Definition GetGasPrice (d : TxData) : option Z :=
  match d with TxLegacy t => lt_GasPrice t | TxAccessList t => al_GasPrice t | TxDynamicFee t => df_GasFeeCap t end.

Definition GetGasTipCap (d : TxData) : option Z :=
  match d with TxLegacy t => lt_GasPrice t | TxAccessList t => al_GasPrice t | TxDynamicFee t => df_GasTipCap t end.

Definition GetGasFeeCap (d : TxData) : option Z :=
  match d with TxLegacy t => lt_GasPrice t | TxAccessList t => al_GasPrice t | TxDynamicFee t => df_GasFeeCap t end.

Definition GetValue (d : TxData) : option Z :=
  match d with TxLegacy t => lt_Amount t | TxAccessList t => al_Amount t | TxDynamicFee t => df_Amount t end.

Definition GetRawSignatureValues (d : TxData) : option Z * option Z * option Z :=
  match d with
  | TxLegacy t => RawSignatureValues (lt_V t) (lt_R t) (lt_S t)
  | TxAccessList t => RawSignatureValues (al_V t) (al_R t) (al_S t)
  | TxDynamicFee t => RawSignatureValues (df_V t) (df_R t) (df_S t)
  end.

Definition GetChainID (d : TxData) : option Z :=
  match d with
  | TxLegacy t => DeriveChainID (fst (fst (GetRawSignatureValues d)))
  | TxAccessList t => al_ChainID t
  | TxDynamicFee t => df_ChainID t
  end.

(** The field [To]; it is empty for a creation. *)
Definition to_text (d : TxData) : string :=
  match d with TxLegacy t => lt_To t | TxAccessList t => al_To t | TxDynamicFee t => df_To t end.

(** *** Fees *)

(** [fee] and [cost] of tx_data.go: a nil price is a panic, a nil value counts as nothing. *)
Definition fee (gasPrice : option Z) (gas : Z) : res Z :=
  match gasPrice with None => Panic | Some p => Ok (p * gas) end.
Definition cost (fee : Z) (value : option Z) : Z := match value with Some v => fee + v | None => fee end.

Definition Fee (d : TxData) : res Z := fee (GetGasFeeCap d) (GetGas d).
Definition Cost (d : TxData) : res Z := f ← Fee d; Ok (cost f (GetValue d)).

(** [EffectiveGasPrice] of utils.go *)
Definition EffectiveGasPrice (baseFee feeCap tipCap : Z) : Z := Z.min (tipCap + baseFee) feeCap.

(** The price of the method; only a dynamic fee depends on the base fee. *)
Definition effective_price (d : TxData) (baseFee : option Z) : res (option Z) :=
  match d with
  | TxLegacy _ | TxAccessList _ => Ok (GetGasPrice d)
  | TxDynamicFee t =>
      match df_GasFeeCap t, df_GasTipCap t, baseFee with
      | Some feeCap, Some tipCap, Some b => Ok (Some (EffectiveGasPrice b feeCap tipCap))
      | _, _, _ => Panic
      end
  end.

Definition EffectiveFee (d : TxData) (baseFee : option Z) : res Z :=
  p ← effective_price d baseFee; fee p (GetGas d).
Definition EffectiveCost (d : TxData) (baseFee : option Z) : res Z :=
  f ← EffectiveFee d baseFee; Ok (cost f (GetValue d)).

(** [sdk.DefaultPowerReduction] *)
Definition DefaultPriorityReduction : Z := 10 ^ 18.

Definition IsInt64 (z : Z) : bool := (- 2 ^ 63 <=? z) && (z <? 2 ^ 63).

Definition GetTxPriority (d : TxData) (baseFee : option Z) : res Z :=
  p ← effective_price d baseFee;
  match p with
  | None => Panic
  | Some tipPrice =>
      let tipPrice := match baseFee with Some b => tipPrice - b | None => tipPrice end in
      let priorityBig := Z.quot tipPrice DefaultPriorityReduction in
      Ok (if IsInt64 priorityBig then priorityBig else max_i64)
  end.

(** ** Conversions *)

Definition ErrInvalidGasPrice : err := ErrText "invalid gas price".
Definition ErrInvalidGasFee : err := ErrText "invalid gas fee".
Definition ErrInvalidAmount : err := ErrText "invalid transaction amount".
Definition ErrInvalidGasCap : err := ErrText "invalid gas cap".
Definition ErrInvalidChainID : err := ErrText "invalid chain-id".
Definition ErrInvalidGasLimit : err := ErrText "invalid gas limit".

Section conversions.
Context `{EvmText, HashText, AddrCheck}.

(** *** access_list.go *)

Definition NewAccessList (l : list (Address * list Hash)) : list AccessTuple :=
  map (fun '(a, ks) => mkTuple (addr_String a) (map hash_String ks)) l.
Definition ToEthAccessList (l : list AccessTuple) : list (Address * list Hash) :=
  map (fun t => (HexToAddress (tuple_Address t), map HexToHash (tuple_StorageKeys t))) l.

Definition GetAccessList (d : TxData) : list (Address * list Hash) :=
  match d with
  | TxLegacy _ => []
  | TxAccessList t => ToEthAccessList (al_Accesses t)
  | TxDynamicFee t => ToEthAccessList (df_Accesses t)
  end.

Definition GetTo (d : TxData) : option Address :=
  if bool_decide (to_text d = EmptyString) then None else Some (HexToAddress (to_text d)).

(** *** Validation *)

Definition check_that (b : bool) (e : err) : res unit := if b then Ok tt else Err e.
Definition negative (i : option Z) : bool := match i with Some z => z <? 0 | None => false end.

Definition validate_amount (amount : option Z) : res unit :=
  _ ← check_that (negb (negative amount)) ErrInvalidAmount; check_that (IsValidInt256 amount) ErrInvalidAmount.
Definition validate_fee (d : TxData) : res unit :=
  f ← Fee d; check_that (IsValidInt256 (Some f)) ErrInvalidGasFee.
Definition validate_to (d : TxData) : res unit :=
  if bool_decide (to_text d = EmptyString) then Ok tt else ValidateAddress (to_text d).
Definition validate_chain (d : TxData) : res unit :=
  check_that (bool_decide (GetChainID d <> None)) ErrInvalidChainID.

(** The order of the checks is that of each type. *)
Definition TxData_Validate (d : TxData) : res unit :=
  match d with
  | TxLegacy _ =>
      _ ← check_that (bool_decide (GetGasPrice d <> None)) ErrInvalidGasPrice;
      _ ← check_that (negb (negative (GetGasPrice d))) ErrInvalidGasPrice;
      _ ← check_that (IsValidInt256 (GetGasPrice d)) ErrInvalidGasPrice;
      _ ← validate_fee d;
      _ ← validate_amount (GetValue d);
      _ ← validate_to d;
      validate_chain d
  | TxAccessList _ =>
      _ ← check_that (bool_decide (GetGasPrice d <> None)) ErrInvalidGasPrice;
      _ ← check_that (IsValidInt256 (GetGasPrice d)) ErrInvalidGasPrice;
      _ ← check_that (negb (negative (GetGasPrice d))) ErrInvalidGasPrice;
      _ ← validate_amount (GetValue d);
      _ ← validate_fee d;
      _ ← validate_to d;
      validate_chain d
  | TxDynamicFee t =>
      match df_GasTipCap t, df_GasFeeCap t with
      | Some tip, Some cap =>
          _ ← check_that (0 <=? tip) ErrInvalidGasCap;
          _ ← check_that (0 <=? cap) ErrInvalidGasCap;
          _ ← check_that (IsValidInt256 (Some tip)) ErrInvalidGasCap;
          _ ← check_that (IsValidInt256 (Some cap)) ErrInvalidGasCap;
          _ ← check_that (negb (cap <? tip)) ErrInvalidGasCap;
          _ ← validate_fee d;
          _ ← validate_amount (GetValue d);
          _ ← validate_to d;
          validate_chain d
      | _, _ => Err ErrInvalidGasCap
      end
  end.

(** *** go-ethereum's form *)

Definition eth_fields (d : TxData) : EthFields :=
  let '(v, r, s) := GetRawSignatureValues d in
  mkEthFields (GetTxNonce d) (GetGas d) (GetTo d) (GetValue d) (GetData d) v r s.

Definition AsEthereumData (d : TxData) : EthData :=
  match d with
  | TxLegacy _ => EthLegacy (GetGasPrice d) (eth_fields d)
  | TxAccessList _ => EthAccessList (GetChainID d) (GetGasPrice d) (GetAccessList d) (eth_fields d)
  | TxDynamicFee _ => EthDynamicFee (GetChainID d) (GetGasTipCap d) (GetGasFeeCap d) (GetAccessList d) (eth_fields d)
  end.

Context `{GethTransactions}.

(** [SetSignatureValues]: a nil value leaves the field empty. *)
Definition value_bytes (i : option Z) : string := match i with Some z => int_bytes z | None => EmptyString end.
Definition chain_id_int (i : option Z) : res (option Z) :=
  match i with None => Ok None | Some c => c ← NewIntFromBigInt c; Ok (Some c) end.

Definition to_hex (o : option Address) : string := match o with Some a => addr_String a | None => EmptyString end.

Definition NewLegacyTx (tx : Transaction) : res TxData :=
  let '(v, r, s) := tx_RawSignatureValues tx in
  amount ← SafeNewIntFromBigInt (tx_Value tx);
  gasPrice ← SafeNewIntFromBigInt (tx_GasPrice tx);
  Ok (TxLegacy (mkLegacy (tx_Nonce tx) gasPrice (tx_Gas tx) (to_hex (tx_To tx)) amount (tx_Data tx)
    (value_bytes v) (value_bytes r) (value_bytes s))).

Definition newAccessListTx (tx : Transaction) : res TxData :=
  let '(v, r, s) := tx_RawSignatureValues tx in
  amount ← SafeNewIntFromBigInt (tx_Value tx);
  gasPrice ← SafeNewIntFromBigInt (tx_GasPrice tx);
  chainID ← chain_id_int (tx_ChainId tx);
  Ok (TxAccessList (mkAccessListTx chainID (tx_Nonce tx) gasPrice (tx_Gas tx) (to_hex (tx_To tx)) amount (tx_Data tx)
    (NewAccessList (tx_AccessList tx)) (value_bytes v) (value_bytes r) (value_bytes s))).

Definition NewDynamicFeeTx (tx : Transaction) : res TxData :=
  let '(v, r, s) := tx_RawSignatureValues tx in
  amount ← SafeNewIntFromBigInt (tx_Value tx);
  gasFeeCap ← SafeNewIntFromBigInt (tx_GasFeeCap tx);
  gasTipCap ← SafeNewIntFromBigInt (tx_GasTipCap tx);
  chainID ← chain_id_int (tx_ChainId tx);
  Ok (TxDynamicFee (mkDynamicFee chainID (tx_Nonce tx) gasTipCap gasFeeCap (tx_Gas tx) (to_hex (tx_To tx)) amount (tx_Data tx)
    (NewAccessList (tx_AccessList tx)) (value_bytes v) (value_bytes r) (value_bytes s))).

Definition NewTxDataFromTx (tx : Transaction) : res TxData :=
  if tx_Type tx =? DynamicFeeTxType then NewDynamicFeeTx tx
  else if tx_Type tx =? AccessListTxType then newAccessListTx tx
  else NewLegacyTx tx.

(** ** [MsgEthereumTx] *)

(** [Data] is the content of the field [Any], [None] when it does not unpack; [etx_Size] tells whether the deprecated
    size is set. *)
Record MsgEthereumTx := mkEthereumTx {
  etx_Data : option TxData;
  etx_Hash : string;
  etx_From : string;
  etx_Size : bool
}.

Definition ErrUnpackAny : err := ErrText "failed to unpack tx data".

Definition UnpackTxData (d : option TxData) : res TxData := match d with Some d => Ok d | None => Err ErrUnpackAny end.

(** [AsTransaction] of data that unpacks. *)
Definition AsTransaction (d : TxData) : Transaction := eth_NewTx (AsEthereumData d).

Definition FromEthereumTx (tx : Transaction) (msg : MsgEthereumTx) : res MsgEthereumTx :=
  d ← NewTxDataFromTx tx; Ok (mkEthereumTx (Some d) (tx_HashHex tx) (etx_From msg) (etx_Size msg)).

Definition etx_ValidateBasic (msg : MsgEthereumTx) : res unit :=
  _ ← (if bool_decide (etx_From msg = EmptyString) then Ok tt else ValidateAddress (etx_From msg));
  if etx_Size msg then Err ErrInvalidRequest
  else
    d ← UnpackTxData (etx_Data msg);
    if GetGas d =? 0 then Err ErrInvalidGasLimit
    else if negb (IsInt64 (GetGas d)) then Err ErrGasOverflow
    else
      _ ← TxData_Validate d;
      if bool_decide (etx_Hash msg = tx_HashHex (AsTransaction d)) then Ok tt else Err ErrInvalidRequest.

(** [GetFrom]: nil for an empty text. *)
Definition GetFrom (msg : MsgEthereumTx) : option Address :=
  if bool_decide (etx_From msg = EmptyString) then None else Some (HexToAddress (etx_From msg)).

Definition etx_GetGas (msg : MsgEthereumTx) : Z := match etx_Data msg with Some d => GetGas d | None => 0 end.
Definition etx_GetFee (msg : MsgEthereumTx) : res (option Z) :=
  match etx_Data msg with Some d => f ← Fee d; Ok (Some f) | None => Ok None end.
Definition etx_GetEffectiveFee (msg : MsgEthereumTx) (baseFee : option Z) : res (option Z) :=
  match etx_Data msg with Some d => f ← EffectiveFee d baseFee; Ok (Some f) | None => Ok None end.
End conversions.

(** ** What the module relies on of go-ethereum *)

(** [TxData.copy]: a nil integer becomes zero. *)
Definition some0 (o : option Z) : option Z := Some (default 0 o).
Definition copy_fields (f : EthFields) : EthFields :=
  mkEthFields (ef_Nonce f) (ef_Gas f) (ef_To f) (some0 (ef_Value f)) (ef_Data f) (some0 (ef_V f)) (some0 (ef_R f)) (some0 (ef_S f)).
Definition eth_copy (e : EthData) : EthData :=
  match e with
  | EthLegacy p f => EthLegacy (some0 p) (copy_fields f)
  | EthAccessList c p al f => EthAccessList (some0 c) (some0 p) al (copy_fields f)
  | EthDynamicFee c t p al f => EthDynamicFee (some0 c) (some0 t) (some0 p) al (copy_fields f)
  end.

Definition fields_of (e : EthData) : EthFields :=
  match e with EthLegacy _ f | EthAccessList _ _ _ f | EthDynamicFee _ _ _ _ f => f end.
Definition fee_cap_of (e : EthData) : option Z :=
  match e with EthLegacy p _ | EthAccessList _ p _ _ | EthDynamicFee _ _ p _ _ => p end.
Definition tip_cap_of (e : EthData) : option Z :=
  match e with EthLegacy p _ | EthAccessList _ p _ _ => p | EthDynamicFee _ t _ _ _ => t end.
Definition accesses_of (e : EthData) : list (Address * list Hash) :=
  match e with EthLegacy _ _ => [] | EthAccessList _ _ al _ | EthDynamicFee _ _ _ al _ => al end.
Definition type_of (e : EthData) : Z :=
  match e with EthLegacy _ _ => LegacyTxType | EthAccessList _ _ _ _ => AccessListTxType | EthDynamicFee _ _ _ _ _ => DynamicFeeTxType end.

(** A transaction keeps a copy of its data, and its methods return the fields.  Its message has the sender of
    the signature and, for a base fee, the price of EIP-1559. *)
Class GethTxLaws `{GethTransactions} : Prop := {
  new_tx_copy e : eth_NewTx e = eth_NewTx (eth_copy e);
  type_new e : tx_Type (eth_NewTx e) = type_of e;
  nonce_new e : tx_Nonce (eth_NewTx e) = ef_Nonce (fields_of e);
  gas_new e : tx_Gas (eth_NewTx e) = ef_Gas (fields_of e);
  data_new e : tx_Data (eth_NewTx e) = ef_Data (fields_of e);
  to_new e : tx_To (eth_NewTx e) = ef_To (fields_of e);
  value_new e : tx_Value (eth_NewTx e) = some0 (ef_Value (fields_of e));
  price_new e : tx_GasPrice (eth_NewTx e) = some0 (fee_cap_of e);
  fee_cap_new e : tx_GasFeeCap (eth_NewTx e) = some0 (fee_cap_of e);
  tip_cap_new e : tx_GasTipCap (eth_NewTx e) = some0 (tip_cap_of e);
  accesses_new e : tx_AccessList (eth_NewTx e) = accesses_of e;
  chain_new_al c p al f : tx_ChainId (eth_NewTx (EthAccessList c p al f)) = some0 c;
  chain_new_df c t p al f : tx_ChainId (eth_NewTx (EthDynamicFee c t p al f)) = some0 c;
  signature_new e : tx_RawSignatureValues (eth_NewTx e) =
    (some0 (ef_V (fields_of e)), some0 (ef_R (fields_of e)), some0 (ef_S (fields_of e)));
  sender_length tx cfg h a : tx_Sender tx cfg h = Ok a -> String.length a = 20%nat;
  as_message tx cfg h b msg : tx_AsMessage tx cfg h b = Ok msg ->
    tx_Sender tx cfg h = Ok (msg_From msg) /\ msg_To msg = tx_To tx /\ msg_Nonce msg = tx_Nonce tx /\
    msg_Gas msg = tx_Gas tx /\ Some (msg_Value msg) = tx_Value tx /\ msg_Data msg = tx_Data tx /\
    msg_AccessList msg = tx_AccessList tx /\
    (forall cap tip, tx_GasFeeCap tx = Some cap -> tx_GasTipCap tx = Some tip ->
       match b with
       | Some base => msg_GasPrice msg = EffectiveGasPrice base cap tip
       | None => Some (msg_GasPrice msg) = tx_GasPrice tx
       end)
}.

(** The text of an address or hash, read back. *)
Class TextLaws `{EvmText, HashText, AddrCheck} : Prop := {
  hex_address a : String.length a = 20%nat -> HexToAddress (addr_String a) = a;
  hex_hash h : String.length h = 32%nat -> HexToHash (hash_String h) = h;
  text_not_empty a : addr_String a <> EmptyString
}.

Section theory.
Context `{EvmText, HashText, AddrCheck} {HL : TextLaws} `{GethTransactions} {HT : GethTxLaws}.

(** ** Bytes of an integer *)

Lemma bytes_val_app acc n x : 0 <= x -> bytes_val acc (big_endian n x) = acc * 256 ^ Z.of_nat n + x mod 256 ^ Z.of_nat n.
Proof.
  intros Hx. revert acc. induction n as [|n IH]; intros acc; simpl big_endian; cbn [bytes_val].
  - rewrite Z.pow_0_r, Z.mod_1_r. lia.
  - rewrite IH. assert (Eb : byte_val (Ascii.ascii_of_N (Z.to_N (x / 2 ^ (8 * Z.of_nat n) mod 256))) = x / 256 ^ Z.of_nat n mod 256).
    { unfold byte_val. rewrite Ascii.N_ascii_embedding.
      - rewrite Z2N.id by (apply Z.mod_pos_bound; lia). do 2 f_equal. change 256 with (2 ^ 8). by rewrite <- Z.pow_mul_r by lia.
      - apply N2Z.inj_lt. rewrite Z2N.id by (apply Z.mod_pos_bound; lia). apply Z.mod_pos_bound. lia. }
    rewrite Eb. rewrite Nat2Z.inj_succ, Z.pow_succ_r by lia. rewrite (Z.mul_comm 256), Z.rem_mul_r by lia. lia.
Qed.

Lemma bytes_int_bytes z : 0 <= z -> bytes_int (int_bytes z) = z.
Proof.
  intros Hz. unfold bytes_int, int_bytes. destruct (Z.eqb_spec z 0) as [->|Hn]; [done|].
  rewrite Z.abs_eq by lia. rewrite bytes_val_app by lia. rewrite Z.mul_0_l, Z.add_0_l. apply Z.mod_small. split; [done|].
  pose proof (Z.log2_nonneg z) as Hl. rewrite Z2Nat.id by (pose proof (Z.div_pos (Z.log2 z) 8); lia).
  change 256 with (2 ^ 8). rewrite <- Z.pow_mul_r by (pose proof (Z.div_pos (Z.log2 z) 8); lia).
  eapply Z.lt_le_trans; [apply (Z.log2_spec z); lia|]. apply Z.pow_le_mono_r; [lia|].
  pose proof (Z.div_mod (Z.log2 z) 8). pose proof (Z.mod_pos_bound (Z.log2 z) 8). lia.
Qed.

Lemma signature_roundtrip (o : option Z) : 0 <= default 0 o ->
  some0 (signature_value (value_bytes (some0 o))) = some0 o.
Proof.
  intros Hz. unfold signature_value, some0 at 2. simpl. unfold some0. f_equal. simpl.
  case_bool_decide as D; simpl.
  - rewrite <- (bytes_int_bytes (default 0 o)) by done. by rewrite D.
  - by apply bytes_int_bytes.
Qed.

Lemma access_roundtrip l : Forall (fun '(a, ks) => String.length a = 20%nat /\ Forall (fun k => String.length k = 32%nat) ks) l ->
  ToEthAccessList (NewAccessList l) = l.
Proof.
  induction 1 as [|[a ks] l [Ha Hk] _ IH]; [done|]. unfold ToEthAccessList, NewAccessList in *. simpl. rewrite IH.
  rewrite hex_address by done. do 2 f_equal. clear -Hk HL. rewrite map_map. induction Hk as [|k ks Hl _ IH]; [done|]. simpl. by rewrite IH, hex_hash.
Qed.
(** ** A signed transaction is kept as it is *)

(** What go-ethereum decodes: addresses and hashes of their length, and no negative numbers. *)
Record eth_ok (e : EthData) : Prop := {
  eo_to a : ef_To (fields_of e) = Some a -> String.length a = 20%nat;
  eo_accesses : Forall (fun '(a, ks) => String.length a = 20%nat /\ Forall (fun k => String.length k = 32%nat) ks) (accesses_of e);
  eo_v : 0 <= default 0 (ef_V (fields_of e));
  eo_r : 0 <= default 0 (ef_R (fields_of e));
  eo_s : 0 <= default 0 (ef_S (fields_of e))
}.

Definition chain_of (e : EthData) : option Z :=
  match e with EthLegacy _ _ => None | EthAccessList c _ _ _ | EthDynamicFee c _ _ _ _ => c end.

(** The amounts have at most 256 bits. *)
Definition amounts_fit (e : EthData) : bool :=
  IsValidInt256 (ef_Value (fields_of e)) && IsValidInt256 (fee_cap_of e) && IsValidInt256 (tip_cap_of e).

Lemma valid_some0 o : IsValidInt256 (some0 o) = IsValidInt256 o.
Proof. by destruct o. Qed.

Lemma safe_some0 o : SafeNewIntFromBigInt (some0 o) = if IsValidInt256 o then Ok (some0 o) else Err ErrOutOfBound.
Proof. unfold SafeNewIntFromBigInt. rewrite valid_some0. by destruct (IsValidInt256 o). Qed.

Lemma chain_some0 o : chain_id_int (some0 o) = if IsValidInt256 o then Ok (some0 o) else Panic.
Proof. unfold chain_id_int, some0, NewIntFromBigInt. by destruct o as [z|]; simpl; [destruct (Z.abs z <? 2 ^ 256)|]. Qed.

Lemma some0_idem o : some0 (some0 o) = some0 o.
Proof. by destruct o. Qed.

Lemma GetTo_hex d o : (forall a, o = Some a -> String.length a = 20%nat) -> to_text d = to_hex o -> GetTo d = o.
Proof.
  intros Ho Et. unfold GetTo. rewrite Et. destruct o as [a|]; simpl; [|done].
  rewrite bool_decide_eq_false_2 by apply text_not_empty. by rewrite hex_address by auto.
Qed.

(** The fields of the data that was read from a transaction. *)
Lemma eth_fields_read (e : EthData) d : eth_ok e ->
  GetTxNonce d = ef_Nonce (fields_of e) -> GetGas d = ef_Gas (fields_of e) -> to_text d = to_hex (ef_To (fields_of e)) ->
  GetValue d = some0 (ef_Value (fields_of e)) -> GetData d = ef_Data (fields_of e) ->
  GetRawSignatureValues d = RawSignatureValues (value_bytes (some0 (ef_V (fields_of e)))) (value_bytes (some0 (ef_R (fields_of e))))
    (value_bytes (some0 (ef_S (fields_of e)))) ->
  copy_fields (eth_fields d) = copy_fields (fields_of e).
Proof.
  intros [Ht _ Hv Hr Hs] En Eg Et Ev Ed Es. unfold eth_fields. rewrite Es. unfold RawSignatureValues, copy_fields.
  cbn [ef_Nonce ef_Gas ef_To ef_Value ef_Data ef_V ef_R ef_S].
  rewrite (GetTo_hex d _ Ht Et), En, Eg, Ev, Ed, some0_idem, !signature_roundtrip by done. done.
Qed.

(** C35: A signed transaction is stored as it is: when its amounts have at most 256 bits (and its chain ID too) the data
    read from it gives the same transaction back, so the same hash and sender; an amount that is too large is an error, and only a
    chain ID that is too large is a panic. *)
Theorem signed_tx_lossless e : eth_ok e ->
  (amounts_fit e = true -> IsValidInt256 (chain_of e) = true ->
     exists d, NewTxDataFromTx (eth_NewTx e) = Ok d /\ AsTransaction d = eth_NewTx e /\ TxType d = type_of e) /\
  (amounts_fit e = false -> NewTxDataFromTx (eth_NewTx e) = Err ErrOutOfBound) /\
  (amounts_fit e = true -> IsValidInt256 (chain_of e) = false -> NewTxDataFromTx (eth_NewTx e) = Panic).
Proof.
  intros He. unfold amounts_fit, NewTxDataFromTx. rewrite type_new.
  destruct e as [p f|c p al f|c t p al f]; cbn [type_of fee_cap_of tip_cap_of fields_of chain_of];
    cbn [LegacyTxType AccessListTxType DynamicFeeTxType Z.eqb Pos.eqb];
    unfold NewLegacyTx, newAccessListTx, NewDynamicFeeTx;
    rewrite signature_new, value_new, ?price_new, ?fee_cap_new, ?tip_cap_new, ?chain_new_al, ?chain_new_df, nonce_new, gas_new, data_new,
      to_new, ?accesses_new; cbn [fee_cap_of tip_cap_of fields_of accesses_of];
    rewrite !safe_some0, ?chain_some0;
    (destruct (IsValidInt256 (ef_Value f)); simpl; [|by split_and!]);
    (destruct (IsValidInt256 p); simpl; [|by split_and!]);
    try (destruct (IsValidInt256 t); simpl; [|by split_and!]);
    try (destruct (IsValidInt256 c); simpl; [|by split_and!]);
    (split_and!; try done; []); intros _ _; eexists; (split; [reflexivity|]);
    (split; [|done]); unfold AsTransaction; rewrite new_tx_copy; symmetry; rewrite new_tx_copy; f_equal; symmetry; cbn [AsEthereumData eth_copy];
    rewrite ?(eth_fields_read _ _ He) by reflexivity; rewrite ?some0_idem; try reflexivity.
  - cbn [GetAccessList al_Accesses]. rewrite (access_roundtrip al) by apply He. cbn. by rewrite ?some0_idem.
  - cbn [GetAccessList df_Accesses]. rewrite (access_roundtrip al) by apply He. cbn. by rewrite ?some0_idem.
Qed.
(** ** Fees of valid data *)

Lemma check_that_ok b e : check_that b e = Ok tt -> b = true.
Proof. by destruct b. Qed.

Lemma negative_false o z : negb (negative o) = true -> o = Some z -> 0 <= z.
Proof. intros Hn ->. simpl in Hn. lia. Qed.

(** What a valid transaction offers. *)
Record offer (d : TxData) (cap tip : Z) : Prop := {
  of_cap : GetGasFeeCap d = Some cap;
  of_tip : GetGasTipCap d = Some tip;
  of_range : 0 <= tip <= cap;
  of_bound : cap < 2 ^ 256;
  of_fee : Z.abs (cap * GetGas d) < 2 ^ 256;
  of_value : 0 <= default 0 (GetValue d) < 2 ^ 256;
  of_chain : GetChainID d <> None
}.

Lemma validate_amount_ok o : validate_amount o = Ok tt -> 0 <= default 0 o < 2 ^ 256.
Proof.
  unfold validate_amount. intros E. apply res_bind_ok in E as ([] & Hn%check_that_ok & Hi%check_that_ok).
  destruct o as [z|]; simpl in *; lia.
Qed.

Lemma validate_fee_ok d cap : GetGasFeeCap d = Some cap -> validate_fee d = Ok tt -> Z.abs (cap * GetGas d) < 2 ^ 256.
Proof.
  unfold validate_fee, Fee. intros ->. cbn [fee mbind res_bind]. intros Hi%check_that_ok. simpl in Hi. lia.
Qed.

(** The checks that all types make, whatever their order. *)
Lemma offer_of d cap tip : GetGasFeeCap d = Some cap -> GetGasTipCap d = Some tip -> 0 <= tip <= cap ->
  IsValidInt256 (Some cap) = true -> validate_fee d = Ok tt -> validate_amount (GetValue d) = Ok tt -> validate_chain d = Ok tt ->
  offer d cap tip.
Proof.
  intros Ec Et Hr Hi Hf Ha Hch%check_that_ok%bool_decide_eq_true. split; try done.
  - simpl in Hi. lia.
  - by apply validate_fee_ok.
  - by apply validate_amount_ok.
Qed.

Ltac checks H :=
  repeat match type of H with
  | (_ ≫= _) = Ok _ => let u := fresh "u" in let E := fresh "E" in apply res_bind_ok in H as (u & E & H); destruct u
  end.

Lemma Validate_offer d : TxData_Validate d = Ok tt -> exists cap tip, offer d cap tip.
Proof.
  intros Hv. destruct d as [t|t|t]; unfold TxData_Validate in Hv.
  - checks Hv. apply check_that_ok in E, E0, E1. apply bool_decide_eq_true in E. cbn [GetGasPrice] in *.
    destruct (lt_GasPrice t) as [p|] eqn:Ep; [|done]. exists p, p. apply offer_of; try done.
    split; [|lia]. by eapply negative_false.
  - checks Hv. apply check_that_ok in E, E0, E1. apply bool_decide_eq_true in E. cbn [GetGasPrice] in *.
    destruct (al_GasPrice t) as [p|] eqn:Ep; [|done]. exists p, p. apply offer_of; try done.
    split; [|lia]. by eapply negative_false.
  - destruct (df_GasTipCap t) as [tip|] eqn:Et; [|done]. destruct (df_GasFeeCap t) as [cap|] eqn:Ec; [|done].
    checks Hv. apply check_that_ok in E, E0, E1, E2, E3. exists cap, tip. apply offer_of; try done. lia.
Qed.

Lemma effective_offer d cap tip b : offer d cap tip -> 0 <= b ->
  effective_price d (Some b) = Ok (Some (EffectiveGasPrice b cap tip)).
Proof.
  intros [Ec Et Hr _ _ _ _] Hb. unfold EffectiveGasPrice.
  destruct d as [t|t|t]; cbn in *; [rewrite Ec in Et |- *; injection Et as ->; do 2 f_equal; lia..|].
  rewrite Ec, Et. done.
Qed.

(** The price and the gas of the message of valid data. *)
Lemma message_price d b cfg height msg : TxData_Validate d = Ok tt -> tx_AsMessage (AsTransaction d) cfg height (Some b) = Ok msg ->
  exists cap tip, offer d cap tip /\ msg_GasPrice msg = EffectiveGasPrice b cap tip /\ msg_Gas msg = GetGas d.
Proof.
  intros Hv Hm. destruct (Validate_offer d Hv) as (cap & tip & Ho). exists cap, tip. split; [done|].
  pose proof (as_message _ _ _ _ _ Hm) as (_ & _ & _ & Em & _ & _ & _ & Hp). split.
  - apply (Hp cap tip); unfold AsTransaction; rewrite ?fee_cap_new, ?tip_cap_new; destruct Ho as [Ec Et]; destruct d; cbn in *;
      first [by rewrite Ec | by rewrite Et].
  - rewrite Em. unfold AsTransaction. rewrite gas_new. by destruct d.
Qed.

(** C36: Valid data charges the same price as its message: EIP-1559's price, between the base fee (unless the cap is below it)
    and the cap; the fee is that price for the whole gas limit, at most the fee of the cap, which has at most 256
    bits; and the priority is not negative. *)
Theorem effective_fee_is_message_fee d b cfg height msg :
  TxData_Validate d = Ok tt -> 0 <= GetGas d -> 0 <= b -> tx_AsMessage (AsTransaction d) cfg height (Some b) = Ok msg ->
  exists cap, GetGasFeeCap d = Some cap /\
    EffectiveFee d (Some b) = Ok (msg_GasPrice msg * msg_Gas msg) /\ msg_Gas msg = GetGas d /\
    0 <= msg_GasPrice msg <= cap /\ (b <= cap -> b <= msg_GasPrice msg) /\
    Fee d = Ok (cap * GetGas d) /\ msg_GasPrice msg * msg_Gas msg <= cap * GetGas d < 2 ^ 256 /\
    (b <= cap -> exists p, GetTxPriority d (Some b) = Ok p /\ 0 <= p <= max_i64).
Proof.
  intros Hv Hg Hb Hm. destruct (message_price _ _ _ _ _ Hv Hm) as (cap & tip & Ho & Ep & Eg). exists cap.
  assert (Hr : 0 <= EffectiveGasPrice b cap tip <= cap /\ (b <= cap -> b <= EffectiveGasPrice b cap tip)).
  { pose proof (of_range _ _ _ Ho). unfold EffectiveGasPrice. lia. }
  pose proof (of_fee _ _ _ Ho) as Hf. rewrite Z.abs_eq in Hf by nia.
  split; [apply Ho|]. split.
  { unfold EffectiveFee. rewrite (effective_offer d cap tip b Ho Hb). cbn. by rewrite Ep, Eg. }
  split; [done|]. rewrite Ep, Eg. split; [lia|]. split; [lia|]. split.
  { unfold Fee. by rewrite (of_cap _ _ _ Ho). }
  split; [nia|]. intros Hle. unfold GetTxPriority. rewrite (effective_offer d cap tip b Ho Hb). cbn [mbind res_bind].
  eexists. split; [reflexivity|]. unfold DefaultPriorityReduction, IsInt64, max_i64.
  pose proof (Z.quot_pos (EffectiveGasPrice b cap tip - b) (10 ^ 18) ltac:(lia) ltac:(lia)).
  destruct (andb _ _) eqn:E; lia.
Qed.
End theory.

(** ** A small library *)

(** Texts have a prefix. *)
Definition cut (s : string) : string := String.substring 2 (String.length s - 2) s.
Definition PlainText : EvmText := {|
  addr_String a := "0x" +:+ a;
  is_hex_address s := (2 <=? String.length s)%nat;
  trim_space := id;
  ChannelIdentifierValidator _ := Ok tt
|}.
Definition PlainHash : HashText := {| hash_String h := "0x" +:+ h; HexToHash := cut |}.
Definition PlainCheck : AddrCheck := {| VerifyAddressFormat _ := true; HexToAddress := cut |}.

Lemma substring_whole s : String.substring 0 (String.length s) s = s.
Proof. induction s as [|c s IH]; simpl; [done|by rewrite IH]. Qed.

Lemma cut_prefix s : cut ("0x" +:+ s) = s.
Proof. unfold cut. simpl. rewrite Nat.sub_0_r. apply substring_whole. Qed.

Lemma PlainLaws : @TextLaws PlainText PlainHash PlainCheck.
Proof. split; [intros a _; apply cut_prefix|intros h _; apply cut_prefix|done]. Qed.

(** The sender is in the signature. *)
Definition plain_sender (e : EthData) : Address := big_endian 20 (default 0 (ef_R (fields_of e)) mod 2 ^ 64).
Definition PlainTxs : GethTransactions := {|
  Transaction := EthData;
  eth_NewTx := eth_copy;
  tx_Type := type_of;
  tx_Nonce e := ef_Nonce (fields_of e);
  tx_Gas e := ef_Gas (fields_of e);
  tx_Data e := ef_Data (fields_of e);
  tx_To e := ef_To (fields_of e);
  tx_Value e := ef_Value (fields_of e);
  tx_GasPrice := fee_cap_of;
  tx_GasFeeCap := fee_cap_of;
  tx_GasTipCap := tip_cap_of;
  tx_AccessList := accesses_of;
  tx_ChainId := chain_of;
  tx_RawSignatureValues e := (ef_V (fields_of e), ef_R (fields_of e), ef_S (fields_of e));
  tx_HashHex e := "0x" +:+ big_endian 8 (ef_Nonce (fields_of e));
  tx_Protected _ := true;
  tx_Sender e _ _ := Ok (plain_sender e);
  tx_AsMessage e _ _ b :=
    let f := fields_of e in
    match ef_Value f, fee_cap_of e with
    | Some v, Some cap =>
        Ok (mkMessage (plain_sender e) (ef_To f) (ef_Nonce f) v (ef_Gas f)
              match b with Some b => EffectiveGasPrice b cap (default 0 (tip_cap_of e)) | None => cap end
              (ef_Data f) (accesses_of e))
    | _, _ => Err ErrInvalidRequest
    end
|}.

Lemma PlainTxLaws : @GethTxLaws PlainTxs.
Proof.
  split; try by intros []. { by intros e cfg h a [= <-]. }
  intros e cfg h b msg. simpl. destruct (ef_Value (fields_of e)) as [v|] eqn:Ev; [|done].
  destruct (fee_cap_of e) as [cap|] eqn:Ec; [|done]. intros [= <-]. cbn. split_and!; try done.
  intros cap' tip [= <-] ->. by destruct b.
Qed.

Section example.
#[local] Existing Instances PlainText PlainHash PlainCheck PlainLaws PlainTxs PlainTxLaws.

Definition ex_address (n : Z) : Address := big_endian 20 n.
Definition ex_eth : EthData :=
  EthDynamicFee (Some 11235) (Some 3) (Some 50) [(ex_address 9, [Bytes32 4])]
    (mkEthFields 7 100000 (Some (ex_address 9)) None "ab" (Some 0) (Some 12) (Some 256)).

Lemma ex_eth_ok : eth_ok ex_eth.
Proof. split; [by intros a [= <-]|by repeat constructor|simpl; lia..]. Qed.

Lemma signed_tx_lossless_witness :
  exists d, NewTxDataFromTx (eth_NewTx ex_eth) = Ok d /\ AsTransaction d = eth_NewTx ex_eth /\ TxType d = DynamicFeeTxType.
Proof. apply (signed_tx_lossless ex_eth ex_eth_ok); reflexivity. Defined.

Definition ex_data : TxData :=
  TxDynamicFee (mkDynamicFee (Some 11235) 7 (Some 3) (Some 50) 100000 (addr_String (ex_address 9)) (Some 0) "ab" [] ""
    (int_bytes 12) (int_bytes 256)).

Lemma effective_fee_is_message_fee_witness :
  exists msg, tx_AsMessage (AsTransaction ex_data) (EthereumConfig 11235 DefaultChainConfig) 1 (Some 20) = Ok msg /\
    EffectiveFee ex_data (Some 20) = Ok (msg_GasPrice msg * msg_Gas msg).
Proof.
  eexists. split; [reflexivity|].
  destruct (effective_fee_is_message_fee ex_data 20 (EthereumConfig 11235 DefaultChainConfig) 1
    (mkMessage (ex_address 12) (Some (ex_address 9)) 7 0 100000 23 "ab" [])) as (cap & _ & E & _).
  - reflexivity.
  - simpl. lia.
  - lia.
  - reflexivity.
  - exact E.
Defined.
End example.
