(* ===== verification/EvmAnte.v ===== *)
(** * app/ante/evm: the ante handler of Ethereum transactions

    The twelve decorators of app/ante/evm.go in their order, with x/evm/keeper/fees.go and
    app/ante/utils/claim_rewards.go.  A decorator is a step [M] on the store, the messages
    and the priority: the signature check writes the sender into the messages, and later decorators read it there.

    Library code is a parameter: the SDK's own validation of the envelope, [authante.DeductFees], [Coins.Equal], the delegations of
    x/staking and the rewards of x/distribution.  Events are not modelled. *)

From S2P Require Import Prelude.
From S2P Require Import Sdk.
From S2P Require Import Schedule.
From S2P Require Import ClawbackAccount.
From S2P Require Import Keepers.
From S2P Require Import FeeMarket.
From S2P Require Import AccessList.
From S2P Require Import StateDB.
From S2P Require Import EvmParams.
From S2P Require Import EvmKeeper.
From S2P Require Import EvmMachine.
From S2P Require Import EvmCode.
From S2P Require Import Evm.
From S2P Require Import EvmInstructions.
From S2P Require Import EvmTable.
From S2P Require Import EvmConfig.
From S2P Require Import StateTransition.
From S2P Require Import TxData.

Local Open Scope Z_scope.

(** ** Transactions and contexts *)

(** A message of an SDK transaction; [OtherMsg] is one of another type. *)
Inductive SdkMsg := EthMsg (m : MsgEthereumTx) | OtherMsg (typeURL : string).

Record TxFee := mkTxFee { fee_Amount : list coin; fee_GasLimit : Z; fee_Payer : string; fee_Granter : string }.

(** What the handlers read of the envelope; [stx_ValidateBasic] is the result of the SDK's own checks. *)
Record SdkTx := mkSdkTx {
  stx_ValidateBasic : res unit;
  stx_Memo : string;
  stx_TimeoutHeight : Z;
  stx_NonCritical : nat;
  stx_ExtensionOptions : list string;
  stx_SignerInfos : nat;
  stx_Fee : option TxFee;
  stx_Signatures : nat
}.

(** The mode of the context; minimal gas prices of the node are decimals. *)
Record AnteCtx := mkAnteCtx {
  ac_IsCheckTx : bool;
  ac_IsReCheckTx : bool;
  ac_simulate : bool;
  ac_MinGasPrices : string -> Z
}.

Record AnteState {W : Type} := mkAnteState {
  an_tx : TxState W;
  an_msgs : list SdkMsg;
  an_priority : Z
}.
Arguments AnteState W : clear implicits.
Arguments mkAnteState {W}.

(** ** Library code *)

Class AnteOps (W : Type) := {
  (** [Coins.Equal] *)
  coins_Equal : list coin -> list coin -> bool;
  (** [authante.DeductFees] for the payer's account *)
  DeductFees : string -> list coin -> M W unit;
  (** the validators' texts that [IterateDelegations] visits, in its order *)
  Delegations : string -> W -> res (list string);
  (** [ValidatorAddressCodec().StringToBytes] *)
  ValidatorBytes : string -> res string;
  WithdrawDelegationRewards : string -> string -> M W (list coin)
}.

Definition ErrUnknownRequest : err := ErrText "unknown request".
Definition ErrInsufficientFee : err := ErrText "insufficient fee".
Definition ErrInsufficientFunds : err := ErrText "insufficient funds".
Definition ErrTxTypeNotSupported : err := ErrText "transaction type not supported".
Definition ErrCreateDisabled : err := ErrText "EVM Create operation is disabled".
Definition ErrCallDisabled : err := ErrText "EVM Call operation is disabled".
Definition ErrNoSignatures : err := ErrText "no signatures supplied".
Definition ErrorInvalidSigner : err := ErrText "tx intended signer does not match the given signer".
Definition ErrInvalidType : err := ErrText "invalid type".
Definition ErrInvalidBaseFee : err := ErrText "invalid base fee".
Definition ErrInsufficientUnlockedCoins : err := ErrText "insufficient unlocked coins error".
Definition ErrInvalidSequence : err := ErrText "incorrect account sequence".
Definition ErrTxOutOfGas : err := ErrText "out of gas".

(** [account.SetSequence] *)
Definition acc_set_sequence (n : Z) (acc : Keepers.Account) : Keepers.Account :=
  match acc with
  | EthAcc b h => EthAcc (SetSequence n b) h
  | ClawbackAcc va =>
      let bva := BVA va in
      ClawbackAcc (mkCVA (mkBVA (SetSequence n (BaseAcc bva)) (OriginalVesting bva) (DelegatedFree bva)
                            (DelegatedVesting bva) (EndTime bva))
        (FunderAddress va) (StartTime va) (LockupPeriods va) (VestingPeriods va) (ClawbackAccount.CodeHash va))
  | OtherAcc b => OtherAcc (SetSequence n b)
  end.

Section ante.
Context {W P : Type} `{StateKeeper W, Keccak, EthAddresses} `{SdkOps} `{EvmText, HashText, AddrCheck} `{GethTransactions}
  `{GethConfig} `{DecOps} `{GethCore} `{NativeContracts P} `{PrecompiledContracts W P} `{StakingInfo W} `{EthOps}
  `{Ctx W, AccountKeeper W, BankKeeper W, ModuleBank W, StakingKeeper W, AnteOps W}
  `{Lens W ParamsStore} `{Lens W FeeMarket.State}.
Context (available : gmap Address P) (GetERC20PrecompileInstance : Address -> W -> res (option P)).
Context (bi : BlockInfo) (ac : AnteCtx) (stx : SdkTx).

(** The configuration of the store's parameters. *)
Definition eth_config (w : W) : EthConfig := EthereumConfig (bi_ChainID bi) (chain_config (EvmParams.GetParams (view w))).
Definition base_fee (w : W) : option Z := evm_GetBaseFee bi (eth_config w) w.

Definition store_of (s : AnteState W) : W := ts_store (an_tx s).
Definition ante_store {A} (m : M W A) : M (AnteState W) A := fun s =>
  let '(r, t) := on_store m (an_tx s) in (r, mkAnteState t (an_msgs s) (an_priority s)).
Definition ante_tx (f : TxState W -> TxState W) : M (AnteState W) unit :=
  mmodify (fun s => mkAnteState (f (an_tx s)) (an_msgs s) (an_priority s)).

(** [UnpackEthMsg] *)
Definition UnpackEthMsg (msg : SdkMsg) : res (MsgEthereumTx * TxData * option Address) :=
  match msg with
  | OtherMsg _ => Err ErrUnknownRequest
  | EthMsg m => d ← UnpackTxData (etx_Data m); Ok (m, d, GetFrom m)
  end.

(** [for _, msg := range tx.GetMsgs()], with the messages as they are when the loop starts. *)
Fixpoint each_msg {S} (f : MsgEthereumTx -> TxData -> option Address -> M S unit) (msgs : list SdkMsg) : M S unit :=
  match msgs with
  | [] => mret tt
  | msg :: rest => '(m, d, from) ← mlift (UnpackEthMsg msg); f m d from;; each_msg f rest
  end.
Definition for_msgs (f : MsgEthereumTx -> TxData -> option Address -> M (AnteState W) unit) : M (AnteState W) unit :=
  msgs ← mgets an_msgs; each_msg f msgs.

(** ** 01: context *)

(** An infinite gas meter of the SDK has the limit [math.MaxUint64]. *)
Definition SetupContext : M (AnteState W) unit :=
  ante_tx (fun t => ResetTransientGasUsed (with_meter (mkGasMeter 0 (2 ^ 64 - 1)) t)).

(** ** 02 and 03: minimal fees *)

Definition CheckMempoolFee (fee mempoolMinGasPrice gasLimit : Z) (isLondon : bool) : res unit :=
  if isLondon then Ok tt
  else if fee <? DecMul mempoolMinGasPrice gasLimit then Err ErrInsufficientFee else Ok tt.

Definition mempool_fee : M (AnteState W) unit :=
  w ← mgets store_of;
  if negb (ac_IsCheckTx ac) || ac_simulate ac then mret tt
  else
    match base_fee w with
    | Some _ => mret tt
    | None =>
        let minGasPrice := ac_MinGasPrices ac (EvmDenom (EvmParams.GetParams (view w))) in
        let isLondon := config_IsLondon (eth_config w) (bi_Height bi) in
        for_msgs (fun _ d _ => fee ← mlift (Fee d);
          mlift (CheckMempoolFee (fee * dec_one) minGasPrice (GetGas d * dec_one) isLondon))
    end.

Definition CheckGlobalFee (fee globalMinGasPrice gasLimit : Z) : res unit :=
  if globalMinGasPrice =? 0 then Ok tt
  else if fee <? DecMul globalMinGasPrice gasLimit then Err ErrInsufficientFee else Ok tt.

Definition min_gas_price : M (AnteState W) unit :=
  w ← mgets store_of;
  let minGasPrice := default 0 (MinGasPrice (FeeMarket.GetParams (view w))) in
  if minGasPrice =? 0 then mret tt
  else
    let baseFee := base_fee w in
    for_msgs (fun _ d _ =>
      feeAmt ← mlift (Fee d);
      feeAmt ← mlift (if (TxType d =? DynamicFeeTxType) && bool_decide (baseFee <> None) then EffectiveFee d baseFee else Ok feeAmt);
      mlift (CheckGlobalFee (feeAmt * dec_one) minGasPrice (GetGas d * dec_one))).

(** ** 04: validation *)

(** Reading a field of a fee that is nil panics. *)
Definition ValidateTx : res (option TxFee) :=
  _ ← (match stx_ValidateBasic stx with
       | Err e => if bool_decide (e = ErrNoSignatures) then Ok tt else Err e
       | r => r
       end);
  if bool_decide (stx_Memo stx <> EmptyString) || negb (stx_TimeoutHeight stx =? 0) || (0 <? stx_NonCritical stx)%nat
  then Err ErrInvalidRequest
  else if negb (length (stx_ExtensionOptions stx) =? 1)%nat then Err ErrInvalidRequest
  else if (0 <? stx_SignerInfos stx)%nat then Err ErrInvalidRequest
  else
    match stx_Fee stx with
    | None => Panic
    | Some fee =>
        if bool_decide (fee_Payer fee <> EmptyString) || bool_decide (fee_Granter fee <> EmptyString) then Err ErrInvalidRequest
        else if (0 <? stx_Signatures stx)%nat then Err ErrInvalidRequest
        else Ok (stx_Fee stx)
    end.

Definition checkDisabledCreateCall (d : TxData) (permissions : AccessControl) : res unit :=
  let blockCreate := AccessType (ac_Create permissions) =? AccessTypeRestricted in
  let blockCall := AccessType (ac_Call permissions) =? AccessTypeRestricted in
  if blockCreate && bool_decide (GetTo d = None) then Err ErrCreateDisabled
  else if blockCall && bool_decide (GetTo d <> None) then Err ErrCallDisabled
  else Ok tt.

Definition ValidateMsg (params : Params) (d : TxData) (from : option Address) : res unit :=
  if bool_decide (from <> None) then Err ErrInvalidRequest else checkDisabledCreateCall d (access_control params).

Definition CheckTxFee (txFeeInfo : option TxFee) (txFee : list coin) (txGasLimit : Z) : res unit :=
  match txFeeInfo with
  | None => Ok tt
  | Some info =>
      if negb (coins_Equal (fee_Amount info) txFee) then Err ErrInvalidRequest
      else if negb (fee_GasLimit info =? txGasLimit) then Err ErrInvalidRequest
      else Ok tt
  end.

(** The sums of the fees and of the gas limits. *)
Fixpoint validate_msgs (params : Params) (baseFee : option Z) (msgs : list SdkMsg) (txFee : list coin) (txGasLimit : Z)
    : res (list coin * Z) :=
  match msgs with
  | [] => Ok (txFee, txGasLimit)
  | msg :: rest =>
      '(_, d, from) ← UnpackEthMsg msg;
      _ ← ValidateMsg params d from;
      if bool_decide (baseFee = None) && (TxType d =? DynamicFeeTxType) then Err ErrTxTypeNotSupported
      else
        fee ← Fee d;
        fee ← NewIntFromBigInt fee;
        validate_msgs params baseFee rest (coins_add txFee [mkCoin (EvmDenom params) fee]) (u64_add txGasLimit (GetGas d))
  end.

Definition validate_basic : M (AnteState W) unit := fun s =>
  if ac_IsReCheckTx ac then (Ok tt, s)
  else
    (txFeeInfo ← mlift ValidateTx;
     w ← mgets store_of;
     msgs ← mgets an_msgs;
     '(txFee, txGasLimit) ← mlift (validate_msgs (EvmParams.GetParams (view w)) (base_fee w) msgs [] 0);
     mlift (CheckTxFee txFeeInfo txFee txGasLimit)) s.

(** ** 05: signatures *)

Definition SignatureVerification (cfg : EthConfig) (allowUnprotectedTxs : bool) (m : MsgEthereumTx) (d : TxData)
    : res MsgEthereumTx :=
  let ethTx := AsTransaction d in
  if negb allowUnprotectedTxs && negb (tx_Protected ethTx) then Err ErrNotSupported
  else
    match tx_Sender ethTx cfg (bi_Height bi) with
    | Panic => Panic
    | Err _ => Err ErrorInvalidSigner
    | Ok sender => Ok (mkEthereumTx (etx_Data m) (etx_Hash m) (addr_String sender) (etx_Size m))
    end.

(** The messages with their senders; those before a failing one are written too, but the transaction ends. *)
Fixpoint verify_msgs (cfg : EthConfig) (allowUnprotectedTxs : bool) (msgs : list SdkMsg) : res (list SdkMsg) :=
  match msgs with
  | [] => Ok []
  | msg :: rest =>
      '(m, d, _) ← UnpackEthMsg msg;
      m' ← SignatureVerification cfg allowUnprotectedTxs m d;
      rest' ← verify_msgs cfg allowUnprotectedTxs rest;
      Ok (EthMsg m' :: rest')
  end.

Definition sig_verification : M (AnteState W) unit :=
  w ← mgets store_of;
  msgs ← mgets an_msgs;
  if bool_decide (msgs = []) then mraise ErrUnknownRequest
  else
    msgs' ← mlift (verify_msgs (eth_config w) (AllowUnprotectedTxs (EvmParams.GetParams (view w))) msgs);
    mmodify (fun s => mkAnteState (an_tx s) msgs' (an_priority s)).

(** ** 06: the sender's account, in a check only *)

Definition CheckSenderBalance (balance : Z) (d : TxData) : res unit :=
  cost ← Cost d;
  if cost <? 0 then Err ErrInvalidCoins
  else if (balance <? 0) || (balance <? cost) then Err ErrInsufficientFunds
  else Ok tt.

Definition VerifyAccountBalance (account : option StateDB.Account) (from : Address) (d : TxData) : M W unit := fun w =>
  match account with
  | Some a =>
      if IsContract a then (Err ErrInvalidType, w) else mlift (CheckSenderBalance (Balance a) d) w
  | None =>
      let '(acc, w) := NewAccountWithAddress from w in
      mlift (CheckSenderBalance 0 d) (SetAccount acc w)
  end.

Definition account_verification : M (AnteState W) unit := fun s =>
  if negb (ac_IsCheckTx ac) then (Ok tt, s)
  else
    for_msgs (fun m d _ => ante_store (fun w =>
      let fromAddr := HexToAddress (etx_From m) in
      VerifyAccountBalance (keeper_GetAccount fromAddr w) fromAddr d w)) s.

(** ** 07: the value *)

(** [msg.GasFeeCap()] is that of the transaction. *)
Definition ante_CanTransfer (msg : Message) (gasFeeCap : Z) (baseFee : option Z) (ethCfg : EthConfig) (params : Params) (isLondon : bool)
    (w : W) : res unit :=
  if isLondon && (gasFeeCap <? default 0 baseFee) then Err ErrInsufficientFee
  else
    let cfg := mkEVMConfig params ethCfg zero_address baseFee in
    '(_, evm) ← NewEVM available GetERC20PrecompileInstance bi msg cfg
                  (New w (NewEmptyTxConfig (BytesToHash (bi_HeaderHash bi)))) w;
    if (0 <? msg_Value msg) && negb (fst (CanTransfer (msg_From msg) (msg_Value msg) (evm_StateDB evm))) then Err ErrInsufficientFunds
    else Ok tt.

Definition can_transfer : M (AnteState W) unit :=
  w ← mgets store_of;
  let ethCfg := eth_config w in
  let baseFee := base_fee w in
  let isLondon := config_IsLondon ethCfg (bi_Height bi) in
  if isLondon && bool_decide (baseFee = None) then mraise ErrInvalidBaseFee
  else
    for_msgs (fun _ d _ =>
      coreMsg ← mlift (tx_AsMessage (AsTransaction d) ethCfg (bi_Height bi) baseFee);
      mlift (ante_CanTransfer coreMsg (default 0 (tx_GasFeeCap (AsTransaction d))) baseFee ethCfg
               (EvmParams.GetParams (view w)) isLondon w)).

(** ** 08: vesting accounts *)

Record EthVestingExpenseTracker := mkTracker { Total : Z; Spendable : Z }.

(** The tracker of the account with the value added; a nil value is a panic when it is compared or added. *)
Definition UpdateAccountExpenses (expenses : gmap string EthVestingExpenseTracker) (va : ClawbackVestingAccount) (added : option Z)
    (denom : string) (w : W) : res (EthVestingExpenseTracker * gmap string EthVestingExpenseTracker) :=
  let address := ClawbackAccount.Address (BaseAcc (BVA va)) in
  match expenses !! address with
  | Some t =>
      match added with
      | None => Panic
      | Some v => let t' := mkTracker (Total t + v) (Spendable t) in Ok (t', <[address := t']> expenses)
      end
  | None =>
      let balance := Keepers.GetBalance address denom w in
      if balance =? 0 then Err ErrInsufficientFunds
      else
        lockedBalances ← LockedCoins va (BlockTime w);
        let lockedBalance := match Find lockedBalances denom with Some c => Amount c | None => 0 end in
        let spendable := if balance - lockedBalance <? 0 then 0 else balance - lockedBalance in
        match added with
        | None => Panic
        | Some v => let t := mkTracker v spendable in Ok (t, <[address := t]> expenses)
        end
  end.

Definition CheckVesting (acc : Keepers.Account) (expenses : gmap string EthVestingExpenseTracker) (added : option Z) (denom : string)
    (w : W) : res (gmap string EthVestingExpenseTracker) :=
  match acc with
  | ClawbackAcc va =>
      '(t, expenses) ← UpdateAccountExpenses expenses va added denom w;
      if Spendable t <? Total t then Err ErrInsufficientUnlockedCoins else Ok expenses
  | _ => Ok expenses
  end.

Fixpoint check_vestings (denom : string) (w : W) (msgs : list SdkMsg) (expenses : gmap string EthVestingExpenseTracker) : res unit :=
  match msgs with
  | [] => Ok tt
  | msg :: rest =>
      '(_, d, from) ← UnpackEthMsg msg;
      match GetAccount (default EmptyString from) w with
      | None => Err ErrUnknownAddress
      | Some acc =>
          expenses ← CheckVesting acc expenses (GetValue d) denom w;
          check_vestings denom w rest expenses
      end
  end.

Definition vesting_transaction : M (AnteState W) unit :=
  w ← mgets store_of;
  msgs ← mgets an_msgs;
  if bool_decide (msgs = []) then mraise ErrUnknownRequest
  else mlift (check_vestings (EvmDenom (EvmParams.GetParams (view w))) w msgs ∅).
(** ** 09: the fees *)

Definition VerifyFee (d : TxData) (denom : string) (baseFee : option Z) (homestead istanbul isCheckTx : bool) : res (list coin) :=
  let isContractCreation := bool_decide (GetTo d = None) in
  let gasLimit := GetGas d in
  intrinsicGas ← IntrinsicGas (GetData d) (GetAccessList d) isContractCreation homestead istanbul;
  if isCheckTx && (gasLimit <? intrinsicGas) then Err ErrTxOutOfGas
  else
    _ ← (match baseFee with
         | None => Ok tt
         | Some b =>
             match GetGasFeeCap d with
             | None => Panic
             | Some cap => if cap <? b then Err ErrInsufficientFee else Ok tt
             end
         end);
    feeAmt ← EffectiveFee d baseFee;
    if feeAmt =? 0 then Ok []
    else feeAmt ← NewIntFromBigInt feeAmt; Ok [mkCoin denom feeAmt].

(** The visits of [IterateDelegations]: the loop ends at the first error, or when the rewards are enough. *)
Fixpoint claim_loop (addr : string) (amount : coin) (validators : list string) (rewards : list coin) : M W (list coin) :=
  match validators with
  | [] => mret rewards
  | v :: rest =>
      valAddr ← mlift (ValidatorBytes v);
      reward ← WithdrawDelegationRewards addr valAddr;
      let rewards := coins_add rewards reward in
      if Amount amount <=? AmountOf rewards (Denom amount) then mret rewards else claim_loop addr amount rest rewards
  end.

(** The withdrawals are written only if they are enough. *)
Definition ClaimSufficientStakingRewards (addr : string) (amount : coin) : M W unit := fun w =>
  match Delegations addr w with
  | Panic => (Panic, w)
  | Err e => (Err e, w)
  | Ok validators =>
      match claim_loop addr amount validators [] w with
      | (Panic, _) => (Panic, w)
      | (Err e, _) => (Err e, w)
      | (Ok rewards, w') =>
          if AmountOf rewards (Denom amount) <? Amount amount then (Err ErrInsufficientFee, w) else (Ok tt, w')
      end
  end.

Definition ClaimStakingRewardsIfNecessary (addr : string) (amount : list coin) : M W unit := fun w =>
  match BondDenom w with
  | Panic => (Panic, w)
  | Err e => (Err e, w)
  | Ok stakingDenom =>
      match Find amount stakingDenom with
      | None => (Err ErrInsufficientFee, w)
      | Some amountInStakingDenom =>
          let balance := Keepers.GetBalance addr stakingDenom w in
          if balance <? 0 then (Err ErrInsufficientFunds, w)
          else if Amount amountInStakingDenom <=? balance then (Ok tt, w)
          else ClaimSufficientStakingRewards addr (mkCoin stakingDenom (Amount amountInStakingDenom - balance)) w
      end
  end.

Definition DeductTxCostsFromUserBalance (fees : list coin) (from : Address) : M W unit := fun w =>
  match GetAccount from w with
  | None => (Err ErrUnknownAddress, w)
  | Some signerAcc => DeductFees (acc_address signerAcc) fees w
  end.

(** The bytes of a nil address are those of the zero address. *)
Definition deductFee (fees : list coin) (feePayer : option Address) : M W unit :=
  if IsZero fees then mret tt
  else
    ClaimStakingRewardsIfNecessary (default EmptyString feePayer) fees;;
    DeductTxCostsFromUserBalance fees (default zero_address feePayer).

Definition ConsumeFeesAndEmitEvent (fees : list coin) (from : option Address) : M W unit := deductFee fees from.

Definition UpdateCumulativeGasWanted (isCheckTx : bool) (msgGasWanted maxTxGasWanted cumulativeGasWanted : Z) : Z :=
  if isCheckTx && negb (maxTxGasWanted =? 0) then
    if maxTxGasWanted <? msgGasWanted then u64_add cumulativeGasWanted maxTxGasWanted
    else u64_add cumulativeGasWanted msgGasWanted
  else u64_add cumulativeGasWanted msgGasWanted.

Definition GetMsgPriority (d : TxData) (minPriority : Z) (baseFee : option Z) : res Z :=
  priority ← GetTxPriority d baseFee; Ok (if priority <? minPriority then priority else minPriority).

Definition CheckBlockGasLimit (gasWanted minPriority : Z) : M (AnteState W) unit := fun s =>
  if BlockGasLimit bi <? gasWanted then (Err ErrTxOutOfGas, s)
  else (Ok tt, mkAnteState (with_meter (mkGasMeter 0 gasWanted) (an_tx s)) (an_msgs s) minPriority).

Context (maxGasWanted : Z).

(** The loop over the messages, with the gas and the priority so far. *)
Fixpoint consume_msgs (denom : string) (baseFee : option Z) (homestead istanbul : bool) (msgs : list SdkMsg)
    (gasWanted minPriority : Z) : M W (Z * Z) :=
  match msgs with
  | [] => mret (gasWanted, minPriority)
  | msg :: rest =>
      '(_, d, from) ← mlift (UnpackEthMsg msg);
      fees ← mlift (VerifyFee d denom baseFee homestead istanbul (ac_IsCheckTx ac));
      ConsumeFeesAndEmitEvent fees from;;
      let gasWanted := UpdateCumulativeGasWanted (ac_IsCheckTx ac) (GetGas d) maxGasWanted gasWanted in
      minPriority ← mlift (GetMsgPriority d minPriority baseFee);
      consume_msgs denom baseFee homestead istanbul rest gasWanted minPriority
  end.

Definition gas_consume : M (AnteState W) unit := fun s =>
  if ac_IsReCheckTx ac then ante_tx (with_meter (mkGasMeter 0 0)) s
  else
    (w ← mgets store_of;
     let rules := chain_Rules (eth_config w) (bi_Height bi) false in
     msgs ← mgets an_msgs;
     '(gasWanted, minPriority) ← ante_store (consume_msgs (EvmDenom (EvmParams.GetParams (view w))) (base_fee w)
                                               (IsHomestead rules) (IsIstanbul rules) msgs 0 max_i64);
     CheckBlockGasLimit gasWanted minPriority) s.

(** ** 10: the nonce *)

Definition IncrementNonce (account : Keepers.Account) (txNonce : Z) : M W unit := fun w =>
  let nonce := Sequence (acc_base account) in
  if negb (txNonce =? nonce) then (Err ErrInvalidSequence, w)
  else (Ok tt, SetAccount (acc_set_sequence (u64_add nonce 1) account) w).

Definition increment_msg (d : TxData) (from : option Address) : M W unit := fun w =>
  match GetAccount (default EmptyString from) w with
  | None => (Err ErrUnknownAddress, w)
  | Some acc => IncrementNonce acc (GetTxNonce d) w
  end.

Definition increment_sequence : M (AnteState W) unit :=
  msgs ← mgets an_msgs; ante_store (each_msg (fun _ d from => increment_msg d from) msgs).

(** ** 11: the gas of the block *)

(** The envelope is a [FeeTx]; its gas is the limit of its fee, and a fee that is nil panics. *)
Definition CheckGasWanted (isLondon : bool) : M W unit := fun w =>
  if negb isLondon then (Ok tt, w)
  else
    match fee_GasLimit <$> stx_Fee stx with
    | None => (Panic, w)
    | Some gasWanted =>
        if BlockGasLimit bi <? gasWanted then (Err ErrTxOutOfGas, w)
        else if negb (FeeMarket.GetBaseFeeEnabled (FeeMarket.mkContext (bi_Height bi) (bi_MaxGas bi) None) (view w)) then (Ok tt, w)
        else (Ok tt, update (snd (FeeMarket.AddTransientGasWanted gasWanted (view w))) w)
    end.

Definition gas_wanted : M (AnteState W) unit :=
  w ← mgets store_of;
  ante_store (CheckGasWanted (config_IsLondon (eth_config w) (bi_Height bi))).

(** ** 12: events, of which only the check of the messages is modelled *)

Definition emit_event : M (AnteState W) unit :=
  msgs ← mgets an_msgs;
  if bool_decide (msgs = []) then mraise ErrUnknownRequest
  else if forallb (fun msg => match msg with EthMsg _ => true | OtherMsg _ => false end) msgs then mret tt
  else mraise ErrUnknownRequest.

(** ** The chain *)

Definition newEVMAnteHandler : M (AnteState W) unit :=
  SetupContext;; mempool_fee;; min_gas_price;; validate_basic;; sig_verification;; account_verification;;
  can_transfer;; vesting_transaction;; gas_consume;; increment_sequence;; gas_wanted;; emit_event.
End ante.
