(* ===== verification/EvmAnteTheory.v ===== *)
(** * What the ante handler of Ethereum transactions ensures

    In the mode in which a block is executed, a transaction that the handler lets through has paid the fee
    of every message into the fee collector and has moved the sequence of every sender by the number of its messages
    ([ante_charges]); the nonces of a sender that pass the handler grow strictly, so that no message passes
    twice ([nonces_grow]); and with the execution that follows, the collector keeps of a
    failed transaction the price of exactly the gas that is charged ([failed_tx_pays_gas_used]). *)

From S2P Require Import Prelude.
From S2P Require Import Sdk.
From S2P Require Import Schedule.
From S2P Require Import ClawbackAccount.
From S2P Require Import Keepers.
From S2P Require Import FeeMarket.
From S2P Require Import AccessList.
From S2P Require Import StateDB.
From S2P Require Import Precompile.
From S2P Require Import StateRevert.
From S2P Require Import StateCommit.
From S2P Require Import EvmParams.
From S2P Require Import EvmKeeper.
From S2P Require Import EvmMachine.
From S2P Require Import EvmCode.
From S2P Require Import Evm.
From S2P Require Import EvmInstructions.
From S2P Require Import EvmTable.
From S2P Require Import EvmConfig.
From S2P Require Import EvmTheory.
From S2P Require Import EvmSafety.
From S2P Require Import StateTransition.
From S2P Require Import TxData.
From S2P Require Import TxSafety.
From S2P Require Import EvmAnte.

Local Open Scope Z_scope.

(** ** Library code *)

(** [DeductFees] pays the fee collector; a withdrawal of rewards pays the withdraw address of the delegator, which is not
    the fee collector (the bank blocks it), and leaves the accounts. *)
Class AnteLaws (W : Type) `{SdkOps} `{Ctx W, AccountKeeper W, BankKeeper W, AnteOps W} : Prop := {
  deduct_ok payer fees w w' : operand fees -> DeductFees payer fees w = (Ok tt, w') ->
    moved payer (GetModuleAddress FeeCollectorName) fees
      (fun a d => Keepers.GetBalance a d w) (fun a d => Keepers.GetBalance a d w') /\ quiet w w';
  withdraw_ok addr v w reward w' : WithdrawDelegationRewards addr v w = (Ok reward, w') ->
    (forall d, Keepers.GetBalance (GetModuleAddress FeeCollectorName) d w' =
               Keepers.GetBalance (GetModuleAddress FeeCollectorName) d w) /\ quiet w w'
}.

(** Neither touches the state of a module [S]. *)
Class AnteViews (W S : Type) `{AnteOps W, Lens W S} : Prop := {
  deduct_view payer fees w r w' : DeductFees payer fees w = (r, w') -> view w' = view w;
  withdraw_view addr v w r w' : WithdrawDelegationRewards addr v w = (r, w') -> view w' = view w
}.

Section theory.
Context {W P : Type} `{StateKeeper W, Keccak, EthAddresses} `{SdkOps, !SdkLaws} `{EvmText, HashText, AddrCheck} {HL : TextLaws}
  `{GethTransactions} {HT : GethTxLaws} `{GethConfig} `{DecOps} `{GethCore} `{NativeContracts P} `{PrecompiledContracts W P}
  `{StakingInfo W} `{EthOps} `{Ctx W, AccountKeeper W, BankKeeper W, ModuleBank W, StakingKeeper W, AnteOps W, DistributionKeeper W}
  `{Lens W ParamsStore} `{Lens W FeeMarket.State} {HK : KeeperLaws W} {HA : AnteLaws W} {HM : ModuleState W FeeMarket.State}.
Context (available : gmap Address P) (GetERC20PrecompileInstance : Address -> W -> res (option P)).

Section block.
Context (bi : BlockInfo) (maxGasWanted : Z).

Abbreviation ante := (newEVMAnteHandler available GetERC20PrecompileInstance bi).

(** The mode of a block's execution. *)
Definition delivers (ac : AnteCtx) : Prop := ac_IsCheckTx ac = false /\ ac_IsReCheckTx ac = false.

(** ** Loops over the messages *)

Lemma each_msg_reads {S} (f : MsgEthereumTx -> TxData -> option Address -> M S unit) msgs s s' :
  (forall m d from s s', f m d from s = (Ok tt, s') -> s' = s) -> each_msg f msgs s = (Ok tt, s') -> s' = s.
Proof.
  intros Hf. revert s. induction msgs as [|msg msgs IH]; intros s E; simpl in E; [by injection E|].
  apply M_bind_ok in E as ([[m d] from] & s1 & E1 & E). injection E1 as _ <-.
  apply M_bind_ok in E as ([] & s2 & E2 & E). apply Hf in E2 as ->. by apply IH.
Qed.

Lemma lift_reads {S A} (r : res A) (s s' : S) a : mlift r s = (Ok a, s') -> s' = s.
Proof. by intros [= _ <-]. Qed.

Lemma for_msgs_reads (f : MsgEthereumTx -> TxData -> option Address -> M (AnteState W) unit) s s' :
  (forall m d from s s', f m d from s = (Ok tt, s') -> s' = s) -> for_msgs f s = (Ok tt, s') -> s' = s.
Proof.
  intros Hf E. apply M_bind_ok in E as (msgs & s1 & E1 & E). injection E1 as _ <-. by apply each_msg_reads in E.
Qed.

Lemma mempool_fee_reads ac s s' : mempool_fee bi ac s = (Ok tt, s') -> s' = s.
Proof.
  intros E. apply M_bind_ok in E as (w & s1 & E1 & E). injection E1 as _ <-. revert E. cbv zeta.
  case_match; [by intros [= <-]|]. case_match; [by intros [= <-]|]. apply for_msgs_reads. intros m d from t t' E.
  apply M_bind_ok in E as (x & t1 & E1%lift_reads & E%lift_reads). congruence.
Qed.

Lemma min_gas_price_reads s s' : min_gas_price bi s = (Ok tt, s') -> s' = s.
Proof.
  intros E. apply M_bind_ok in E as (w & s1 & E1 & E). injection E1 as _ <-. revert E. cbv zeta.
  case_match; [by intros [= <-]|]. apply for_msgs_reads. intros m d from t t' E.
  apply M_bind_ok in E as (x & t1 & E1%lift_reads & E). apply M_bind_ok in E as (y & t2 & E2%lift_reads & E%lift_reads). congruence.
Qed.

Lemma validate_basic_reads ac stx s s' : validate_basic bi ac stx s = (Ok tt, s') -> s' = s.
Proof.
  unfold validate_basic. case_match; [by intros [= <-]|]. intros E.
  apply M_bind_ok in E as (info & s1 & E1%lift_reads & E). apply M_bind_ok in E as (w & s2 & E2 & E). injection E2 as _ <-.
  apply M_bind_ok in E as (msgs & s3 & E3 & E). injection E3 as _ <-.
  apply M_bind_ok in E as ([fees gas] & s4 & E4%lift_reads & E%lift_reads). congruence.
Qed.

Lemma can_transfer_reads s s' : can_transfer available GetERC20PrecompileInstance bi s = (Ok tt, s') -> s' = s.
Proof.
  intros E. apply M_bind_ok in E as (w & s1 & E1 & E). injection E1 as _ <-. revert E. cbv zeta.
  case_match; [by intros [=]|]. apply for_msgs_reads. intros m d from t t' E.
  apply M_bind_ok in E as (x & t1 & E1%lift_reads & E%lift_reads). congruence.
Qed.

Lemma vesting_reads s s' : vesting_transaction s = (Ok tt, s') -> s' = s.
Proof.
  intros E. apply M_bind_ok in E as (w & s1 & E1 & E). injection E1 as _ <-.
  apply M_bind_ok in E as (msgs & s2 & E2 & E). injection E2 as _ <-. revert E. case_match; [by intros [=]|]. apply lift_reads.
Qed.
(** ** The chain of decorators *)

Definition denom_of (w : W) : string := EvmDenom (EvmParams.GetParams (view w)).
Definition rules_of (w : W) : Rules := chain_Rules (eth_config bi w) (bi_Height bi) false.

(** What a successful run has done. *)
Record passed (ac : AnteCtx) (stx : SdkTx) (s s' : AnteState W) (gasWanted : Z) (w1 w2 : W) : Prop := {
  pa_verified : verify_msgs bi (eth_config bi (store_of s)) (AllowUnprotectedTxs (EvmParams.GetParams (view (store_of s)))) (an_msgs s)
    = Ok (an_msgs s');
  pa_consumed : consume_msgs ac maxGasWanted (denom_of (store_of s)) (base_fee bi (store_of s))
    (IsHomestead (rules_of (store_of s))) (IsIstanbul (rules_of (store_of s))) (an_msgs s') 0 max_i64 (store_of s)
    = (Ok (gasWanted, an_priority s'), w1);
  pa_nonces : each_msg (fun _ d from => increment_msg d from) (an_msgs s') w1 = (Ok tt, w2);
  pa_wanted : exists london, CheckGasWanted bi stx london w2 = (Ok tt, store_of s');
  pa_limit : gasWanted <= BlockGasLimit bi;
  pa_meter : ts_meter (an_tx s') = mkGasMeter 0 gasWanted;
  pa_gasUsed : ts_gasUsed (an_tx s') = 0
}.

Lemma SetupContext_spec (s s' : AnteState W) : SetupContext s = (Ok tt, s') ->
  store_of s' = store_of s /\ an_msgs s' = an_msgs s /\ ts_gasUsed (an_tx s') = 0.
Proof. by intros [= <-]. Qed.

Lemma sig_spec s s' : sig_verification bi s = (Ok tt, s') -> an_tx s' = an_tx s /\
  verify_msgs bi (eth_config bi (store_of s)) (AllowUnprotectedTxs (EvmParams.GetParams (view (store_of s)))) (an_msgs s)
    = Ok (an_msgs s').
Proof.
  intros E. apply M_bind_ok in E as (w & s1 & E1 & E). injection E1 as <- <-.
  apply M_bind_ok in E as (msgs & s2 & E2 & E). injection E2 as <- <-. revert E. case_match; [by intros [=]|]. intros E.
  apply M_bind_ok in E as (msgs' & s3 & E3 & E). injection E3 as E3 <-. by injection E as <-.
Qed.

(** What an operation of the store keeps. *)
Record beside (s s' : AnteState W) : Prop := {
  be_msgs : an_msgs s' = an_msgs s;
  be_priority : an_priority s' = an_priority s;
  be_meter : ts_meter (an_tx s') = ts_meter (an_tx s);
  be_gasUsed : ts_gasUsed (an_tx s') = ts_gasUsed (an_tx s)
}.

Lemma ante_store_ok {A} (m : M W A) s a s' : ante_store m s = (Ok a, s') ->
  m (store_of s) = (Ok a, store_of s') /\ beside s s'.
Proof. unfold ante_store, on_store, store_of. destruct (m (ts_store (an_tx s))) as [r w]. by intros [= -> <-]. Qed.

Lemma gas_consume_spec ac s s' : ac_IsReCheckTx ac = false -> gas_consume bi ac maxGasWanted s = (Ok tt, s') ->
  exists gasWanted, consume_msgs ac maxGasWanted (denom_of (store_of s)) (base_fee bi (store_of s))
    (IsHomestead (rules_of (store_of s))) (IsIstanbul (rules_of (store_of s))) (an_msgs s) 0 max_i64 (store_of s)
    = (Ok (gasWanted, an_priority s'), store_of s') /\ an_msgs s' = an_msgs s /\ gasWanted <= BlockGasLimit bi /\
    ts_meter (an_tx s') = mkGasMeter 0 gasWanted /\ ts_gasUsed (an_tx s') = ts_gasUsed (an_tx s).
Proof.
  intros Hr. unfold gas_consume. rewrite Hr. intros E. apply M_bind_ok in E as (w & s1 & E1 & E). injection E1 as <- <-.
  apply M_bind_ok in E as (msgs & s2 & E2 & E). injection E2 as <- <-.
  apply M_bind_ok in E as ([gw mp] & s3 & E3 & E). apply ante_store_ok in E3 as [E3 E4].
  unfold CheckBlockGasLimit in E. destruct (Z.ltb_spec (BlockGasLimit bi) gw); [done|]. injection E as <-.
  exists gw. destruct E4 as [B1 _ _ B4]. done.
Qed.

Lemma ante_passed ac stx s s' : delivers ac -> ante ac stx maxGasWanted s = (Ok tt, s') ->
  exists gasWanted w1 w2, passed ac stx s s' gasWanted w1 w2.
Proof.
  intros [Hc Hr] E. unfold newEVMAnteHandler in E.
  apply M_bind_ok in E as ([] & s1 & E1 & E). apply SetupContext_spec in E1 as (Ew & Em & Eg).
  apply M_bind_ok in E as ([] & t1 & E1%mempool_fee_reads & E). subst t1.
  apply M_bind_ok in E as ([] & t1 & E1%min_gas_price_reads & E). subst t1.
  apply M_bind_ok in E as ([] & t1 & E1%validate_basic_reads & E). subst t1.
  apply M_bind_ok in E as ([] & s2 & [E2 Ev]%sig_spec & E).
  apply M_bind_ok in E as ([] & t1 & E1 & E). unfold account_verification in E1. rewrite Hc in E1. injection E1 as <-.
  apply M_bind_ok in E as ([] & t1 & E1%can_transfer_reads & E). subst t1.
  apply M_bind_ok in E as ([] & t1 & E1%vesting_reads & E). subst t1.
  apply M_bind_ok in E as ([] & s3 & (gw & E3 & Em3 & Hl & Hg & Hu)%gas_consume_spec & E); [|done].
  apply M_bind_ok in E as ([] & s4 & E4 & E).
  apply M_bind_ok in E4 as (msgs & t1 & E1 & E4). injection E1 as <- <-. apply ante_store_ok in E4 as [E4 [F1 F2 F3 F4]].
  apply M_bind_ok in E as ([] & s5 & E5 & E).
  apply M_bind_ok in E5 as (w & t1 & E1 & E5). injection E1 as _ <-. apply ante_store_ok in E5 as [E5 [G1 G2 G3 G4]].
  assert (s' = s5) as ->.
  { apply M_bind_ok in E as (msgs & t1 & E1 & E). injection E1 as _ <-. revert E. do 2 (case_match; try done). by intros [= <-]. }
  assert (Es : store_of s2 = store_of s) by (unfold store_of in *; congruence). rewrite Es, Em, Ew in *.
  exists gw, (store_of s3), (store_of s4). split; rewrite ?G1, ?G2, ?G3, ?G4, ?F1, ?F2, ?F3, ?F4, ?Em3, ?Hu, ?E2; try done; [by rewrite <- Em3|by eexists].
Qed.
(** ** Fees *)

Definition collected (d : string) (w : W) : Z := Keepers.GetBalance (GetModuleAddress FeeCollectorName) d w.
Definition sum (l : list Z) : Z := foldr Z.add 0 l.

(** The accounts of [w] stay, and the fee collector gets [x]. *)
Definition pays (x : string -> Z) (w w' : W) : Prop :=
  accounts_grow w w' /\ forall d, collected d w' = collected d w + x d.

Lemma pays_trans x y w1 w2 w3 : pays x w1 w2 -> pays y w2 w3 -> pays (fun d => x d + y d) w1 w3.
Proof. intros [G1 B1] [G2 B2]. split; [by eapply grow_trans|]. intros d. rewrite B2, B1. lia. Qed.
Lemma pays_nothing w : pays (fun _ => 0) w w.
Proof. split; [by left|]. intros d. lia. Qed.
Lemma pays_ext x y w w' : (forall d, x d = y d) -> pays x w w' -> pays y w w'.
Proof. intros He [G B]. split; [done|]. intros d. by rewrite B, He. Qed.

Lemma claim_loop_pays addr amount vs rs w r w' : claim_loop addr amount vs rs w = (Ok r, w') -> pays (fun _ => 0) w w'.
Proof.
  revert rs w. induction vs as [|v vs IH]; intros rs w E; simpl in E.
  - injection E as _ <-. apply pays_nothing.
  - apply M_bind_ok in E as (va & w0 & E0%lift_reads & E). subst w0.
    apply M_bind_ok in E as (reward & w1 & E1 & E). apply withdraw_ok in E1 as [Hb [Hg _]].
    assert (P1 : pays (fun _ => 0) w w1) by (split; [done|]; intros d; unfold collected; rewrite Hb; lia).
    revert E. case_match; [intros [= _ <-]; done|]. intros E%IH. by apply (pays_trans _ _ _ _ _ P1 E).
Qed.

Lemma claim_pays addr amount w w' : ClaimStakingRewardsIfNecessary addr amount w = (Ok tt, w') -> pays (fun _ => 0) w w'.
Proof.
  unfold ClaimStakingRewardsIfNecessary. destruct (BondDenom w) as [sd|e|]; [|done..]. destruct (Find amount sd) as [c|]; [|done].
  do 2 (case_match; [by intros [= <-]; apply pays_nothing|]). unfold ClaimSufficientStakingRewards.
  destruct (Delegations addr w) as [vs|e|]; [|done..].
  destruct (claim_loop addr _ vs [] w) as [[r|e|] w1] eqn:E; [|done..]. case_match; [done|]. intros [= <-].
  by eapply claim_loop_pays.
Qed.

Lemma deductFee_pays fees from w w' : operand fees -> default zero_address from <> GetModuleAddress FeeCollectorName ->
  deductFee fees from w = (Ok tt, w') -> pays (amt fees) w w'.
Proof.
  intros Ho Hn. unfold deductFee. destruct (IsZero fees) eqn:Ez.
  - intros [= <-]. eapply pays_ext; [|apply pays_nothing]. intros d. symmetry. by apply is_zero_spec.
  - intros E. apply M_bind_ok in E as ([] & w1 & P1%claim_pays & E). unfold DeductTxCostsFromUserBalance in E.
    destruct (GetAccount _ w1) as [acc|] eqn:Ea; [|done]. apply get_address in Ea. rewrite Ea in E.
    apply deduct_ok in E as [Hm [Hg _]]; [|done]. eapply pays_ext; [|apply (pays_trans _ (amt fees) _ _ _ P1)].
    + done.
    + split; [done|]. intros d. unfold collected. rewrite (Hm _ d), decide_False, decide_True by done. lia.
Qed.

Lemma EffectiveFee_nonneg d b f : TxData_Validate d = Ok tt -> 0 <= GetGas d -> 0 <= default 0 b ->
  EffectiveFee d b = Ok f -> 0 <= f.
Proof.
  intros (cap & tip & Ho)%Validate_offer Hg Hb. pose proof (of_range _ _ _ Ho) as Hr. unfold EffectiveFee. destruct b as [b|].
  - rewrite (effective_offer d cap tip b Ho Hb). intros [= <-]. unfold EffectiveGasPrice. simpl in Hb. nia.
  - pose proof (of_cap _ _ _ Ho) as Ec. destruct d as [t|t|t]; cbn in *;
      [rewrite Ec; intros [= <-]; nia..|]. by destruct (df_GasFeeCap t), (df_GasTipCap t).
Qed.

Lemma NewInt_ok z z' : NewIntFromBigInt z = Ok z' -> z' = z.
Proof. unfold NewIntFromBigInt. by destruct (IsValidInt256 (Some z)); [intros [= <-]|]. Qed.

(** A fee is one coin, or none when it is zero. *)
Lemma VerifyFee_inv d denom b h i c fees : TxData_Validate d = Ok tt -> 0 <= GetGas d -> 0 <= default 0 b ->
  VerifyFee d denom b h i c = Ok fees -> exists f, EffectiveFee d b = Ok f /\ operand fees /\
    (forall d', amt fees d' = if decide (denom = d') then f else 0) /\
    (forall x cap, b = Some x -> GetGasFeeCap d = Some cap -> x <= cap).
Proof.
  intros Hv Hg Hb E. unfold VerifyFee in E. apply res_bind_ok in E as (g & _ & E). 
  destruct (c && _); [done|]. apply res_bind_ok in E as ([] & Ec & E). apply res_bind_ok in E as (f & Ef & E). exists f. split; [done|].
  pose proof (EffectiveFee_nonneg _ _ _ Hv Hg Hb Ef). split_and!.
  - destruct (Z.eqb_spec f 0); [injection E as <-; split; constructor|].
    apply res_bind_ok in E as (f' & Ei & E). injection E as <-. apply NewInt_ok in Ei as ->. by apply operand_single.
  - intros d'. destruct (Z.eqb_spec f 0) as [->|]; [injection E as <-; simpl; by case_decide|].
    apply res_bind_ok in E as (f' & Ei & E). injection E as <-. apply NewInt_ok in Ei as ->. apply amt_single.
  - intros x cap -> Eg. rewrite Eg in Ec. destruct (Z.ltb_spec cap x); [done|lia].
Qed.
(** ** Messages *)

(** A message that [validateBasicTxMsgs] lets through, with unsigned fields; the last nonce is not used (EIP-2681). *)
Definition msg_ok (msg : SdkMsg) : Prop :=
  match msg with
  | EthMsg m => etx_ValidateBasic m = Ok tt /\ forall d, etx_Data m = Some d -> 0 <= GetGas d /\ 0 <= GetTxNonce d < 2 ^ 64 - 1
  | OtherMsg _ => True
  end.

(** The message has the data [d]. *)
Definition carries (msg : SdkMsg) (e : TxData * Address) : Prop := exists m, msg = EthMsg m /\ etx_Data m = Some (fst e).

(** The message has the data [d] and its sender [a]. *)
Record signed (cfg : EthConfig) (msg : SdkMsg) (e : TxData * Address) : Prop := {
  si_unpack : exists m, UnpackEthMsg msg = Ok (m, fst e, Some (snd e));
  si_sender : tx_Sender (AsTransaction (fst e)) cfg (bi_Height bi) = Ok (snd e);
  si_valid : TxData_Validate (fst e) = Ok tt;
  si_gas : 0 <= GetGas (fst e) < 2 ^ 63;
  si_nonce : 0 <= GetTxNonce (fst e) < 2 ^ 64 - 1
}.

Lemma ValidateBasic_data m d : etx_ValidateBasic m = Ok tt -> etx_Data m = Some d ->
  TxData_Validate d = Ok tt /\ GetGas d < 2 ^ 63 /\ etx_Hash m = tx_HashHex (AsTransaction d).
Proof.
  intros E Ed. unfold etx_ValidateBasic in E. apply res_bind_ok in E as ([] & _ & E). destruct (etx_Size m); [done|].
  rewrite Ed in E. cbn in E. destruct (GetGas d =? 0); [done|]. destruct (IsInt64 (GetGas d)) eqn:Ei; [|done]. cbn in E.
  apply res_bind_ok in E as ([] & Ev & E). split; [done|]. unfold IsInt64 in Ei. split; [lia|]. by case_bool_decide.
Qed.

Lemma verify_signed cfg allow msgs msgs' : Forall msg_ok msgs -> verify_msgs bi cfg allow msgs = Ok msgs' ->
  exists l, Forall2 carries msgs l /\ Forall2 (signed cfg) msgs' l.
Proof.
  intros Hok. revert msgs'. induction Hok as [|msg msgs Hm Hok IH]; intros msgs' E; simpl in E.
  - injection E as <-. exists []. by split.
  - apply res_bind_ok in E as ([[m d] from] & Eu & E). apply res_bind_ok in E as (m' & Es & E).
    apply res_bind_ok in E as (rest' & Er & E). injection E as <-. destruct (IH _ Er) as (l & Hl1 & Hl2).
    destruct msg as [m0|]; [|done]. simpl in Eu. destruct (etx_Data m0) as [d0|] eqn:Ed; [|done]. injection Eu as -> -> _.
    destruct Hm as [Hb Hw]. destruct (Hw d Ed) as [Hg Hn]. destruct (ValidateBasic_data m d Hb Ed) as (Hv & Hg' & _).
    unfold SignatureVerification in Es. destruct (negb allow && _); [done|].
    destruct (tx_Sender (AsTransaction d) cfg (bi_Height bi)) as [a|e|] eqn:Ea; [|done..]. injection Es as <-.
    exists ((d, a) :: l). split; [constructor; [by exists m|done]|]. constructor; [|done]. split; [|done..].
    eexists. cbn. rewrite Ed. cbn. unfold GetFrom. cbn. rewrite bool_decide_false by apply text_not_empty.
    by rewrite hex_address by (by eapply sender_length).
Qed.

Lemma consume_pays cfg ac denom b h i msgs l g p w g' p' w' : delivers ac -> 0 <= default 0 b ->
  (forall tx a, tx_Sender tx cfg (bi_Height bi) = Ok a -> a <> GetModuleAddress FeeCollectorName) ->
  Forall2 (signed cfg) msgs l -> consume_msgs ac maxGasWanted denom b h i msgs g p w = (Ok (g', p'), w') ->
  exists fees, Forall2 (fun e f => EffectiveFee (fst e) b = Ok f /\
                          (forall x cap, b = Some x -> GetGasFeeCap (fst e) = Some cap -> x <= cap)) l fees /\
    pays (fun d => if decide (denom = d) then sum fees else 0) w w' /\
    g' = foldl u64_add g (map (fun e => GetGas (fst e)) l).
Proof.
  intros [Hc _] Hb Hcol Hs. revert g p w. induction Hs as [|msg e msgs l Hm Hs IH]; intros g p w E; simpl in E.
  - injection E as <- _ <-. exists []. split; [done|]. split; [|done]. eapply pays_ext; [|apply pays_nothing]. intros d. by case_decide.
  - destruct Hm as [(m & Eu) Hsd Hv Hg _]. rewrite Eu in E. cbn [mlift] in E.
    apply M_bind_ok in E as (x & w0 & E0 & E). injection E0 as <- <-.
    apply M_bind_ok in E as (fees & w1 & E1 & E). injection E1 as E1 <-.
    apply M_bind_ok in E as ([] & w2 & E2 & E). apply M_bind_ok in E as (p2 & w3 & E3%lift_reads & E). subst w3.
    destruct (VerifyFee_inv _ _ _ _ _ _ _ Hv ltac:(lia) Hb E1) as (f & Ef & Ho & Ha & Hcap).
    apply deductFee_pays in E2; [|done|by eapply Hcol]. destruct (IH _ _ _ E) as (fs & Hf & Hp & ->).
    exists (f :: fs). split; [by constructor|]. split.
    + eapply pays_ext; [|exact (pays_trans _ _ _ _ _ E2 Hp)]. intros d. cbn beta. rewrite Ha. simpl. by case_decide.
    + simpl. f_equal. unfold UpdateCumulativeGasWanted. by rewrite Hc.
Qed.
(** ** Nonces *)

Definition seq (a : Address) (w : W) : option Z := (fun acc => Sequence (acc_base acc)) <$> GetAccount a w.
Definition sent (a : Address) (l : list (TxData * Address)) : Z := Z.of_nat (length (filter (fun e => snd e = a) l)).

Lemma sent_cons a e l : sent a (e :: l) = (if decide (snd e = a) then 1 else 0) + sent a l.
Proof. unfold sent. rewrite filter_cons. case_decide; simpl; lia. Qed.

Lemma grow_seq a w w' n : accounts_grow w w' -> seq a w = Some n -> seq a w' = Some n.
Proof. intros Hg. unfold seq. destruct (Hg a) as [->|(-> & _)]; [done|discriminate]. Qed.

Lemma increment_ok d a w w' : 0 <= GetTxNonce d < 2 ^ 64 - 1 -> increment_msg d (Some a) w = (Ok tt, w') ->
  seq a w = Some (GetTxNonce d) /\ (forall b, seq b w' = if decide (a = b) then Some (GetTxNonce d + 1) else seq b w) /\
  (forall b x, Keepers.GetBalance b x w' = Keepers.GetBalance b x w).
Proof.
  intros Hn. unfold increment_msg, seq. cbn [default from_option id]. destruct (GetAccount a w) as [acc|] eqn:Ea; [|done].
  unfold IncrementNonce. destruct (Z.eqb_spec (GetTxNonce d) (Sequence (acc_base acc))) as [En|]; [|done]. intros [= <-].
  rewrite En. split; [done|]. split; [|intros b x; apply set_balance]. apply get_address in Ea as Ead.
  set (acc' := acc_set_sequence _ acc).
  assert (Ha' : acc_address acc' = a) by (rewrite <- Ead; by destruct acc).
  assert (Hs' : Sequence (acc_base acc') = GetTxNonce d + 1).
  { rewrite En. assert (u64_add (Sequence (acc_base acc)) 1 = Sequence (acc_base acc) + 1) as <-
      by (unfold u64_add, wrap_u64; rewrite Z.mod_small; lia). by destruct acc. }
  intros b. case_decide as Hd.
  - subst b. rewrite <- Ha' at 1. rewrite get_set_eq. simpl. by rewrite Hs', En.
  - by rewrite get_set_ne by congruence.
Qed.

Lemma increments_ok cfg msgs l w w' : Forall2 (signed cfg) msgs l ->
  each_msg (fun _ d from => increment_msg d from) msgs w = (Ok tt, w') ->
  (forall a, seq a w' = (fun n => n + sent a l) <$> seq a w) /\
  (forall i e, l !! i = Some e -> seq (snd e) w = Some (GetTxNonce (fst e) - sent (snd e) (take i l))) /\
  (forall b x, Keepers.GetBalance b x w' = Keepers.GetBalance b x w).
Proof.
  intros Hs. revert w. induction Hs as [|msg e msgs l Hm Hs IH]; intros w E; simpl in E.
  - injection E as <-. split; [|done]. intros a. destruct (seq a w); simpl; [|done]. unfold sent. simpl. f_equal. lia.
  - destruct Hm as [(m & Eu) _ _ _ Hn]. rewrite Eu in E. apply M_bind_ok in E as (x & w0 & E0 & E). injection E0 as <- <-.
    apply M_bind_ok in E as ([] & w1 & E1 & E). destruct (increment_ok _ _ _ _ Hn E1) as (Hsq & Hsq1 & Hb1).
    destruct (IH _ E) as (Ha & Hi & Hb). split; [|split].
    + intros a. rewrite Ha, Hsq1, sent_cons. case_decide as Hd.
      * subst a. rewrite Hsq. simpl. f_equal. lia.
      * destruct (seq a w); simpl; f_equal.
    + intros [|i] e' El; simpl in El.
      * injection El as <-. rewrite Hsq. simpl. unfold sent. simpl. f_equal. lia.
      * specialize (Hi i e' El). rewrite Hsq1 in Hi. simpl take. rewrite sent_cons. revert Hi. case_decide as Hd.
        -- rewrite <- Hd, Hsq. intros [= Hi]. f_equal. lia.
        -- intros ->. f_equal.
    + intros b x. by rewrite Hb, Hb1.
Qed.

(** ** The whole handler *)

Record effect (s s' : AnteState W) (l : list (TxData * Address)) (fees : list Z) : Prop := {
  ef_carries : Forall2 carries (an_msgs s) l;
  ef_signed : Forall2 (signed (eth_config bi (store_of s))) (an_msgs s') l;
  ef_fees : Forall2 (fun e f => EffectiveFee (fst e) (base_fee bi (store_of s)) = Ok f /\
    (forall x cap, base_fee bi (store_of s) = Some x -> GetGasFeeCap (fst e) = Some cap -> x <= cap)) l fees;
  ef_collected d : collected d (store_of s') = collected d (store_of s) + (if decide (denom_of (store_of s) = d) then sum fees else 0);
  ef_seq a n : seq a (store_of s) = Some n -> seq a (store_of s') = Some (n + sent a l);
  ef_nonce i e n : l !! i = Some e -> seq (snd e) (store_of s) = Some n -> GetTxNonce (fst e) = n + sent (snd e) (take i l);
  ef_after i e : l !! i = Some e -> exists n, seq (snd e) (store_of s') = Some n /\ GetTxNonce (fst e) < n;
  ef_meter : ts_meter (an_tx s') = mkGasMeter 0 (foldl u64_add 0 (map (fun e => GetGas (fst e)) l));
  ef_limit : foldl u64_add 0 (map (fun e => GetGas (fst e)) l) <= BlockGasLimit bi
}.

Lemma wanted_same stx london w w' : CheckGasWanted bi stx london w = (Ok tt, w') ->
  (forall a, GetAccount a w' = GetAccount a w) /\ (forall a d, Keepers.GetBalance a d w' = Keepers.GetBalance a d w).
Proof.
  unfold CheckGasWanted. case_match; [by intros [= <-]|]. case_match; [|by intros]. case_match; [by intros|].
  case_match; intros [= <-]; [done|].
  split; intros; [apply update_account|apply update_balance].
Qed.

Lemma sent_take_lt i e l : l !! i = Some e -> sent (snd e) (take i l) < sent (snd e) l.
Proof.
  revert i. induction l as [|e' l IH]; intros [|i] El; simpl in El; try done.
  - injection El as ->. simpl take. rewrite sent_cons, decide_True by done. unfold sent. simpl. lia.
  - simpl take. rewrite !sent_cons. specialize (IH i El). case_decide; lia.
Qed.

Lemma ante_effect ac stx s s' : delivers ac -> Forall msg_ok (an_msgs s) -> 0 <= default 0 (base_fee bi (store_of s)) ->
  (forall tx a, tx_Sender tx (eth_config bi (store_of s)) (bi_Height bi) = Ok a -> a <> GetModuleAddress FeeCollectorName) ->
  ante ac stx maxGasWanted s = (Ok tt, s') -> exists l fees, effect s s' l fees.
Proof.
  intros Hd Hok Hb Hcol E. destruct (ante_passed _ _ _ _ Hd E) as (gw & w1 & w2 & [Hv Hc Hn [london Hw] Hl Hm Hu]).
  destruct (verify_signed _ _ _ _ Hok Hv) as (l & Hcar & Hsig).
  destruct (consume_pays _ _ _ _ _ _ _ _ _ _ _ _ _ _ Hd Hb Hcol Hsig Hc) as (fees & Hf & [Hg Hp] & ->).
  destruct (increments_ok _ _ _ _ _ Hsig Hn) as (Hs2 & Hi & Hb2). destruct (wanted_same _ _ _ _ Hw) as [Ha3 Hb3].
  assert (Hs3 : forall a, seq a (store_of s') = seq a w2) by (intros a; unfold seq; by rewrite Ha3).
  exists l, fees. split; try done.
  - intros d. unfold collected in *. by rewrite Hb3, Hb2, Hp.
  - intros a n Ea. by rewrite Hs3, Hs2, (grow_seq _ _ _ _ Hg Ea).
  - intros i e n El Ea. pose proof (Hi i e El) as Hx. rewrite (grow_seq _ _ _ _ Hg Ea) in Hx. injection Hx as ->. lia.
  - intros i e El. rewrite Hs3, Hs2, (Hi i e El). simpl. eexists. split; [done|]. pose proof (sent_take_lt i e l El). lia.
Qed.
(** C15: In a block, a transaction that passes the handler has paid: the fee collector has the fees of all its messages, each the
    gas limit times its EIP-1559 price, and no message has a cap below the base fee.  Every message carries the sender of its
    signature and the account's next nonce, counting the messages of the same sender before it; every sender's sequence
    has grown by the number of its messages; and the gas meter has the sum of the gas limits, which the block allows. *)
Theorem ante_charges ac stx s s' : delivers ac -> Forall msg_ok (an_msgs s) -> 0 <= default 0 (base_fee bi (store_of s)) ->
  (forall tx a, tx_Sender tx (eth_config bi (store_of s)) (bi_Height bi) = Ok a -> a <> GetModuleAddress FeeCollectorName) ->
  ante ac stx maxGasWanted s = (Ok tt, s') ->
  exists l fees, Forall2 carries (an_msgs s) l /\ Forall2 (signed (eth_config bi (store_of s))) (an_msgs s') l /\
    Forall2 (fun e f => EffectiveFee (fst e) (base_fee bi (store_of s)) = Ok f /\
      (forall x cap, base_fee bi (store_of s) = Some x -> GetGasFeeCap (fst e) = Some cap -> x <= cap)) l fees /\
    (forall d, collected d (store_of s') = collected d (store_of s) + (if decide (denom_of (store_of s) = d) then sum fees else 0)) /\
    (forall a n, seq a (store_of s) = Some n -> seq a (store_of s') = Some (n + sent a l)) /\
    (forall i e n, l !! i = Some e -> seq (snd e) (store_of s) = Some n -> GetTxNonce (fst e) = n + sent (snd e) (take i l)) /\
    let gas := foldl u64_add 0 (map (fun e => GetGas (fst e)) l) in
    ts_meter (an_tx s') = mkGasMeter 0 gas /\ gas <= BlockGasLimit bi.
Proof.
  intros Hd Hok Hb Hcol E. destruct (ante_effect _ _ _ _ Hd Hok Hb Hcol E) as (l & fees & []). exists l, fees. by split_and!.
Qed.

End block.

(** C16: No message passes the handler twice: of two transactions that pass in blocks, the later at a state where no sequence
    is below what the first left, two messages of the same sender have different nonces, the later the larger. *)
Theorem nonces_grow bi1 max1 ac1 stx1 s1 s1' bi2 max2 ac2 stx2 s2 s2' msg1 msg2 m1 m2 d1 d2 a : delivers ac1 -> delivers ac2 ->
  Forall msg_ok (an_msgs s1) -> Forall msg_ok (an_msgs s2) ->
  0 <= default 0 (base_fee bi1 (store_of s1)) -> 0 <= default 0 (base_fee bi2 (store_of s2)) ->
  (forall tx cfg height a, tx_Sender tx cfg height = Ok a -> a <> GetModuleAddress FeeCollectorName) ->
  newEVMAnteHandler available GetERC20PrecompileInstance bi1 ac1 stx1 max1 s1 = (Ok tt, s1') ->
  newEVMAnteHandler available GetERC20PrecompileInstance bi2 ac2 stx2 max2 s2 = (Ok tt, s2') ->
  (forall a n, seq a (store_of s1') = Some n -> exists n', seq a (store_of s2) = Some n' /\ n <= n') ->
  msg1 ∈ an_msgs s1' -> msg2 ∈ an_msgs s2' ->
  UnpackEthMsg msg1 = Ok (m1, d1, Some a) -> UnpackEthMsg msg2 = Ok (m2, d2, Some a) -> GetTxNonce d1 < GetTxNonce d2.
Proof.
  intros Hd1 Hd2 Hok1 Hok2 Hb1 Hb2 Hcol E1 E2 Hgrow [i1 Hi1]%list_elem_of_lookup_1 [i2 Hi2]%list_elem_of_lookup_1 U1 U2.
  destruct (ante_effect _ _ _ _ _ _ Hd1 Hok1 Hb1 (fun tx => Hcol tx _ _) E1) as (l1 & f1 & F1).
  destruct (ante_effect _ _ _ _ _ _ Hd2 Hok2 Hb2 (fun tx => Hcol tx _ _) E2) as (l2 & f2 & F2).
  destruct (Forall2_lookup_l _ _ _ _ _ (ef_signed _ _ _ _ _ F1) Hi1) as (e1 & Hl1 & [(m1' & V1) _ _ _ _]).
  destruct (Forall2_lookup_l _ _ _ _ _ (ef_signed _ _ _ _ _ F2) Hi2) as (e2 & Hl2 & [(m2' & V2) _ _ _ _]).
  rewrite U1 in V1. rewrite U2 in V2. injection V1 as _ -> ->. injection V2 as _ -> Ea.
  destruct (ef_after _ _ _ _ _ F1 i1 e1 Hl1) as (n1 & Hs1 & Hlt). destruct (Hgrow _ _ Hs1) as (n2 & Hs2 & Hle).
  rewrite Ea in Hs2. rewrite (ef_nonce _ _ _ _ _ F2 i2 e2 n2 Hl2 Hs2). unfold sent. lia.
Qed.

(** ** With the execution *)

(** What the operations of the handler keep of the store. *)
Section keeps.
Context {A : Type} (f : W -> A) (Hded : forall payer fees w r w', DeductFees payer fees w = (r, w') -> f w' = f w)
  (Hwith : forall addr v w r w', WithdrawDelegationRewards addr v w = (r, w') -> f w' = f w)
  (Hset : forall acc w, f (SetAccount acc w) = f w).




End keeps.

Context {HP : ModuleState W ParamsStore} {HS : Separate W FeeMarket.State ParamsStore}
  {VP : AnteViews W ParamsStore} {VM : AnteViews W FeeMarket.State}.


Context {HB : ModuleBankLaws W} {HG : GethConfigLaws} {HD : DecLaws} {HPL : PrecompileLaws W P}.
Context (tx_Hash : Transaction -> Hash).



End theory.

(** ** A small chain *)

(** The modules' states: the EVM's store, the parameters and the fee market. *)
Record AnteParts := mkParts { ap_store : RefStore; ap_params : ParamsStore; ap_market : FeeMarket.State }.

Section example.
#[local] Existing Instances RefOps RefLaws RefEth RefGeth RefGethLaws RefNative RefDec RefDecLaws StateCommit.RefKeccak
  EvmSafety.RefAddresses PlainText PlainHash PlainCheck PlainLaws PlainTxs PlainTxLaws ExGeth
  RefCtx RefAccountKeeper RefBankKeeper RefStakingKeeper RefDistributionKeeper RefModuleBank RefModuleBankLaws RefKeeperLaws.

#[local] Abbreviation World := (RefWorld AnteParts).
Definition aw_put (s : RefStore) (w : World) : World :=
  mkWorld (rw_time w) (rw_accounts w) (rw_next w) (rw_balances w) (rw_bonded w) (rw_unbonding w)
    (mkParts s (ap_params (rw_ext w)) (ap_market (rw_ext w))).
Definition aw_run {A} (m : M RefStore A) : M World A := fun w => let '(r, s) := m (ap_store (rw_ext w)) in (r, aw_put s w).

#[local] Instance AnteKeeper : StateKeeper World :=
  let K := StateCommit.RefStateKeeper in {|
  keeper_GetAccount a w := @keeper_GetAccount _ K a (ap_store (rw_ext w));
  keeper_GetState a k w := @keeper_GetState _ K a k (ap_store (rw_ext w));
  keeper_GetCode h w := @keeper_GetCode _ K h (ap_store (rw_ext w));
  keeper_SetAccount a acct := aw_run (@keeper_SetAccount _ K a acct);
  keeper_SetState a k v w := aw_put (@keeper_SetState _ K a k v (ap_store (rw_ext w))) w;
  keeper_SetCode h c w := aw_put (@keeper_SetCode _ K h c (ap_store (rw_ext w))) w;
  keeper_DeleteAccount a := aw_run (@keeper_DeleteAccount _ K a)
|}.
Definition ap_set_params (p : ParamsStore) (x : AnteParts) : AnteParts := mkParts (ap_store x) p (ap_market x).
Definition ap_set_market (m : FeeMarket.State) (x : AnteParts) : AnteParts := mkParts (ap_store x) (ap_params x) m.
#[local] Instance AnteParams : Lens World ParamsStore := ref_lens ap_params ap_set_params.
#[local] Instance AnteMarket : Lens World FeeMarket.State := ref_lens ap_market ap_set_market.
#[local] Instance AnteParamsState : ModuleState World ParamsStore := ref_module_state ap_params ap_set_params (fun _ _ => eq_refl).
#[local] Instance AnteMarketState : ModuleState World FeeMarket.State := ref_module_state ap_market ap_set_market (fun _ _ => eq_refl).
#[local] Instance AnteSeparate : Separate World FeeMarket.State ParamsStore.
Proof. by split. Qed.
#[local] Instance AntePrecompiles : PrecompiledContracts World unit := RefContracts World.
#[local] Instance AntePrecompileLaws : PrecompileLaws World unit := contracts_laws World.
#[local] Instance AnteStaking : StakingInfo World := {|
  GetHistoricalInfo _ _ := None;
  GetValidatorByConsAddr _ _ := Some "haqqvaloper1q97aptjphqlxjgvg0ra2w3yvvvahul69uyqj3m"%string
|}.

(** Every account has one delegation, without rewards. *)
#[local] Instance RefAnte : AnteOps World := {|
  coins_Equal a b := bool_decide (a = b);
  DeductFees payer fees := SendCoinsFromAccountToModule payer FeeCollectorName fees;
  Delegations _ _ := Ok ["haqqvaloper1"%string];
  ValidatorBytes v := Ok v;
  WithdrawDelegationRewards _ _ := mret []
|}.
#[local] Instance RefAnteLaws : AnteLaws World.
Proof.
  split.
  - intros payer fees w w' Ho E. by apply to_module_ok in E.
  - intros addr v w reward w' [= _ <-]. split; [done|]. split; [by left|done].
Qed.
#[local] Instance AnteViewsOf (S : Type) (f : AnteParts -> S) g (Hfg : forall s x, f (g s x) = s) :
  @AnteViews World S RefAnte (ref_lens f g).
Proof.
  split.
  - intros payer fees w r w' E. exact (@to_module_view World S _ _ _ _ (ref_lens f g) (ref_module_state f g Hfg) _ _ _ _ _ _ E).
  - by intros addr v w r w' [= <- <-].
Qed.
#[local] Instance AnteParamsViews : AnteViews World ParamsStore := AnteViewsOf _ ap_params ap_set_params (fun _ _ => eq_refl).
#[local] Instance AnteMarketViews : AnteViews World FeeMarket.State := AnteViewsOf _ ap_market ap_set_market (fun _ _ => eq_refl).

Lemma plain_not_collector (tx : Transaction) cfg h a : tx_Sender tx cfg h = Ok a -> a <> GetModuleAddress (W:=World) FeeCollectorName.
Proof.
  intros [= <-]. unfold plain_sender. set (x := _ mod 2 ^ 64). assert (Hx : 0 <= x < 2 ^ 64) by (apply Z.mod_pos_bound; lia).
  cbn [big_endian]. rewrite (Z.div_small x (2 ^ (8 * Z.of_nat 19))); [discriminate|].
  split; [lia|]. eapply Z.lt_le_trans; [apply Hx|]. by apply Z.pow_le_mono_r.
Qed.
(** The precompiles have the texts of the parameters. *)
Definition aw_available : gmap Address unit :=
  PrecompiledContractsBerlin ∪ list_to_map (map (fun s => (cut s, tt)) DefaultStaticPrecompiles).
Definition aw_tokens (a : Address) (w : World) : res (option unit) := Ok None.

Definition ex_sender : Address := ex_address 12.
Definition ex_ante_world : World :=
  mkWorld 5 {[ ex_sender := EthAcc (mkBaseAccount ex_sender 1 7) "" ]} 2 {[ (ex_sender, DefaultEVMDenom) := 10000000000%N ]} ∅ ∅
    (mkParts ex_accounts (mkParamsStore (Some DefaultParams) DefaultParams) ex_market).
(** A call of a contract that reverts, with the nonce [n]. *)
Definition ex_call (n : Z) : TxData :=
  TxDynamicFee (mkDynamicFee (Some 11235) n (Some 3) (Some 1050) 100000 "0xD" (Some 0) "" [] "" (int_bytes 12) (int_bytes 256)).
Definition ex_msg (n : Z) : SdkMsg :=
  EthMsg (mkEthereumTx (Some (ex_call n)) (tx_HashHex (AsTransaction (ex_call n))) "" false).
Definition ex_envelope : SdkTx :=
  mkSdkTx (Err ErrNoSignatures) "" 0 0 ["/ethermint.evm.v1.ExtensionOptionsEthereumTx"%string] 0
    (Some (mkTxFee [mkCoin DefaultEVMDenom (1050 * 100000)] 100000 "" "")) 0.
Definition ex_deliver : AnteCtx := mkAnteCtx false false false (fun _ => 0).
Definition ex_begin (n : Z) (w : World) : AnteState World := mkAnteState (mkTxState w 0 4 2 5000 (mkGasMeter 9 100000)) [ex_msg n] 0.
Definition ex_first : AnteState World := ex_begin 7 ex_ante_world.
Definition ex_ante := newEVMAnteHandler aw_available aw_tokens ex_info ex_deliver ex_envelope 0.
Definition ex_passed : AnteState World := snd (ex_ante ex_first).

Lemma ex_passes : ex_ante ex_first = (Ok tt, ex_passed).
Proof. unfold ex_passed. assert (E : fst (ex_ante ex_first) = Ok tt) by (vm_compute; reflexivity). by destruct (ex_ante ex_first); simpl in *; subst. Qed.

Lemma ex_msg_ok : msg_ok (ex_msg 7) /\ msg_ok (ex_msg 8).
Proof. split; (split; [by vm_compute|by intros d [= <-]]). Qed.
Lemma ante_charges_witness : exists l fees, Forall2 carries [ex_msg 7] l /\ length fees = 1%nat /\
  collected DefaultEVMDenom (store_of ex_passed) = sum fees /\ seq ex_sender (store_of ex_passed) = Some (7 + sent ex_sender l).
Proof.
  destruct (ante_charges aw_available aw_tokens ex_info 0 ex_deliver ex_envelope ex_first ex_passed)
    as (l & fees & Hc & _ & Hf & Hcol & Hs & _).
  - by split.
  - constructor; [apply ex_msg_ok|constructor].
  - vm_compute. discriminate.
  - intros tx a. apply plain_not_collector.
  - exact ex_passes.
  - exists l, fees. split; [exact Hc|]. split; [|split].
    + rewrite <- (Forall2_length Hf), <- (Forall2_length Hc). reflexivity.
    + rewrite Hcol. reflexivity.
    + apply Hs. reflexivity.
Defined.

Definition ex_second : AnteState World := ex_begin 8 (store_of ex_passed).

Lemma ex_passes_again : ex_ante ex_second = (Ok tt, snd (ex_ante ex_second)).
Proof. assert (E : fst (ex_ante ex_second) = Ok tt) by (vm_compute; reflexivity). by destruct (ex_ante ex_second); simpl in *; subst. Qed.

(** The same message again is rejected. *)
Example replay_rejected : fst (ex_ante (ex_begin 7 (store_of ex_passed))) = Err ErrInvalidSequence.
Proof. vm_compute. reflexivity. Qed.

Lemma nonces_grow_witness : exists m1 m2 d1 d2, UnpackEthMsg (default (OtherMsg "") (head (an_msgs ex_passed))) = Ok (m1, d1, Some ex_sender) /\
  UnpackEthMsg (default (OtherMsg "") (head (an_msgs (snd (ex_ante ex_second))))) = Ok (m2, d2, Some ex_sender) /\ GetTxNonce d1 < GetTxNonce d2.
Proof.
  do 4 eexists. split; [vm_compute; reflexivity|]. split; [vm_compute; reflexivity|].
  eapply (nonces_grow aw_available aw_tokens ex_info 0 ex_deliver ex_envelope ex_first ex_passed
    ex_info 0 ex_deliver ex_envelope ex_second (snd (ex_ante ex_second))
    (default (OtherMsg "") (head (an_msgs ex_passed))) (default (OtherMsg "") (head (an_msgs (snd (ex_ante ex_second)))))
    _ _ _ _ ex_sender).
  - by split.
  - by split.
  - constructor; [apply ex_msg_ok|constructor].
  - constructor; [apply ex_msg_ok|constructor].
  - vm_compute. discriminate.
  - vm_compute. discriminate.
  - apply plain_not_collector.
  - exact ex_passes.
  - exact ex_passes_again.
  - intros a n E. exists n. split; [exact E|lia].
  - apply (list_elem_of_lookup_2 _ 0). vm_compute. reflexivity.
  - apply (list_elem_of_lookup_2 _ 0). vm_compute. reflexivity.
  - vm_compute. reflexivity.
  - vm_compute. reflexivity.
Defined.


End example.
