(* ===== verification/CosmosAnte.v ===== *)
(** * app/ante: the ante handlers of Cosmos transactions and their choice

    ante.go, community_pool_spend.go, cosmos.go, cosmos/reject_msgs.go, cosmos/authz.go, cosmos/min_price.go, cosmos/fees.go and
    evm/fee_checker.go.  The SDK's and ibc-go's own decorators, and the signature check of EIP-712 transactions, are steps of the class
    [SdkDecorators].  [ethereum_messages_take_evm_path] shows that an Ethereum message is never run but behind the EVM's own handler. *)

From S2P Require Import Prelude.
From S2P Require Import Sdk.
From S2P Require Import Schedule.
From S2P Require Import ClawbackAccount.
From S2P Require Import Keepers.
From S2P Require Import FeeMarket.
From S2P Require Import AccessList.
From S2P Require Import StateDB.
From S2P Require Import EvmParams.
From S2P Require Import EvmKeeper.
From S2P Require Import EvmMachine.
From S2P Require Import EvmCode.
From S2P Require Import Evm.
From S2P Require Import EvmInstructions.
From S2P Require Import EvmTable.
From S2P Require Import EvmConfig.
From S2P Require Import StateTransition.
From S2P Require Import TxData.
From S2P Require Import TxSafety.
From S2P Require Import EvmAnte.
From S2P Require Import EvmAnteTheory.

Local Open Scope Z_scope.

(** ** Messages *)

(** A message by what the handlers tell apart; packed messages and authorizations that do not decode are [None]. *)
Inductive CMsg :=
  | CEthereumTx (m : MsgEthereumTx)
  | CExec (msgs : option (list CMsg))
  (** with the type of message that is granted *)
  | CGrant (url : option string)
  (** proposals, by the type of their content or their messages *)
  | CSubmitLegacyProposal (content : string)
  | CExecLegacyContent (content : string)
  | CSubmitProposal (msgs : option (list CMsg))
  | COther (url : string).

Definition EthereumTxURL : string := "/ethermint.evm.v1.MsgEthereumTx".
Definition CreateVestingAccountURL : string := "/cosmos.vesting.v1beta1.MsgCreateVestingAccount".
Definition CommunityPoolSpendURL : string := "/cosmos.distribution.v1beta1.MsgCommunityPoolSpend".

(** [sdk.MsgTypeURL] *)
Definition msg_url (m : CMsg) : string :=
  match m with
  | CEthereumTx _ => EthereumTxURL
  | CExec _ => "/cosmos.authz.v1beta1.MsgExec"
  | CGrant _ => "/cosmos.authz.v1beta1.MsgGrant"
  | CSubmitLegacyProposal _ => "/cosmos.gov.v1beta1.MsgSubmitProposal"
  | CExecLegacyContent _ => "/cosmos.gov.v1.MsgExecLegacyContent"
  | CSubmitProposal _ => "/cosmos.gov.v1.MsgSubmitProposal"
  | COther url => url
  end.

Definition to_sdk (m : CMsg) : SdkMsg := match m with CEthereumTx m => EthMsg m | m => OtherMsg (msg_url m) end.
Definition is_eth (m : CMsg) : bool := match m with CEthereumTx _ => true | _ => false end.
Definition is_exec (m : CMsg) : bool := match m with CExec _ => true | _ => false end.

(** A transaction: the envelope of [EvmAnte], the messages, whether the fee is nil, who pays, and the values of its extension options
    that are dynamic fees. *)
Record CosmosTx := mkCosmosTx {
  ct_stx : SdkTx;
  ct_msgs : list CMsg;
  ct_FeeNil : bool;
  ct_FeePayer : string;
  ct_FeeGranter : option string;
  ct_DynamicFee : list (option Z)
}.

Definition ErrNestedTooDeep : err := ErrText "found more nested msgs than permitted".
Definition ErrDisabledMsg : err := ErrText "found disabled msg type".
Definition ErrPacked : err := ErrText "message does not unpack".
Definition ErrUnauthorized : err := ErrText "unauthorized".
Definition ErrUnknownExtensionOptions : err := ErrText "unknown extension options".
Definition ErrCommunitySpendingComingLater : err := ErrText "community pool spend coming later".
Definition ErrFeeDenom : err := ErrText "expected only use native token for fee".
Definition ErrInvalidGasLimit : err := ErrText "invalid gas limit".
Definition ErrFeeGrantsDisabled : err := ErrText "fee grants are not enabled".
Definition ErrNoFeeCollector : err := ErrText "fee collector module account has not been set".

(** ** cosmos/reject_msgs.go and cosmos/authz.go *)

Definition RejectMessages (msgs : list CMsg) : res unit := if existsb is_eth msgs then Err ErrInvalidType else Ok tt.

Definition maxNestedMsgs : Z := 7.

Section limiter.
Context (disabledMsgTypes : list string).

Definition isDisabledMsg (url : string) : bool := existsb (fun t => bool_decide (url = t)) disabledMsgTypes.

(** One message of the loop; [lvl] is the level of the messages that an [CExec] holds, counted before the call. *)
Fixpoint check_msg (isAuthzInnerMsg : bool) (lvl : Z) (m : CMsg) : res unit :=
  match m with
  | CExec None => Err ErrPacked
  | CExec (Some inner) =>
      if maxNestedMsgs <=? lvl then Err ErrNestedTooDeep
      else (fix loop (lvl : Z) (msgs : list CMsg) : res unit :=
              match msgs with
              | [] => Ok tt
              | m :: rest => let lvl := if is_exec m then lvl + 1 else lvl in _ ← check_msg true lvl m; loop lvl rest
              end) lvl inner
  | CGrant None => Err ErrPacked
  | CGrant (Some url) => if isDisabledMsg url then Err ErrDisabledMsg else Ok tt
  | m => if isAuthzInnerMsg && isDisabledMsg (msg_url m) then Err ErrDisabledMsg else Ok tt
  end.

(** The level grows with every [CExec] that the loop meets. *)
Fixpoint check_loop (isAuthzInnerMsg : bool) (lvl : Z) (msgs : list CMsg) : res unit :=
  match msgs with
  | [] => Ok tt
  | m :: rest => let lvl := if is_exec m then lvl + 1 else lvl in _ ← check_msg isAuthzInnerMsg lvl m; check_loop isAuthzInnerMsg lvl rest
  end.

Definition checkDisabledMsgs (msgs : list CMsg) (isAuthzInnerMsg : bool) (nestedLvl : Z) : res unit :=
  if maxNestedMsgs <=? nestedLvl then Err ErrNestedTooDeep else check_loop isAuthzInnerMsg nestedLvl msgs.

Definition AuthzLimiter (msgs : list CMsg) : res unit :=
  match checkDisabledMsgs msgs false 1 with Err _ => Err ErrUnauthorized | r => r end.
End limiter.

(** ** community_pool_spend.go *)

(** [strings.HasSuffix] *)
Definition has_suffix (suffix s : string) : bool :=
  (String.length suffix <=? String.length s)%nat &&
  bool_decide (String.substring (String.length s - String.length suffix) (String.length suffix) s = suffix).

Definition spends_pool (m : CMsg) : res bool :=
  match m with
  | CSubmitLegacyProposal content | CExecLegacyContent content => Ok (has_suffix "CommunityPoolSpendProposal" content)
  | CSubmitProposal None => Err ErrPacked
  | CSubmitProposal (Some msgs) => Ok (existsb (fun m => bool_decide (msg_url m = CommunityPoolSpendURL)) msgs)
  | _ => Ok false
  end.
Fixpoint CommunityPoolSpend (msgs : list CMsg) : res unit :=
  match msgs with
  | [] => Ok tt
  | m :: rest => bad ← spends_pool m; if bad : bool then Err ErrCommunitySpendingComingLater else CommunityPoolSpend rest
  end.

(** ** Library code *)

Class CosmosOps (W : Type) := {
  (** [Coins.IsAnyGTE] *)
  IsAnyGTE : list coin -> list coin -> bool;
  (** [UseGrantedFees] of the x/feegrant keeper: granter, grantee, fees and messages; the keeper may be nil *)
  feegrantKeeper : option (string -> string -> list coin -> list CMsg -> M W unit)
}.

(** The decorators of the SDK and of ibc-go, and [LegacyEip712SigVerificationDecorator]. *)
Class SdkDecorators (W : Type) := {
  sdk_SetUpContext : CosmosTx -> M (AnteState W) unit;
  sdk_ExtensionOptions : CosmosTx -> M (AnteState W) unit;
  sdk_ValidateBasic : CosmosTx -> M (AnteState W) unit;
  sdk_TxTimeoutHeight : CosmosTx -> M (AnteState W) unit;
  sdk_ValidateMemo : CosmosTx -> M (AnteState W) unit;
  sdk_ConsumeGasForTxSize : CosmosTx -> M (AnteState W) unit;
  sdk_SetPubKey : CosmosTx -> M (AnteState W) unit;
  sdk_ValidateSigCount : CosmosTx -> M (AnteState W) unit;
  sdk_SigGasConsume : CosmosTx -> M (AnteState W) unit;
  sdk_SigVerification : CosmosTx -> M (AnteState W) unit;
  eip712_SigVerification : CosmosTx -> M (AnteState W) unit;
  sdk_IncrementSequence : CosmosTx -> M (AnteState W) unit;
  ibc_RedundantRelay : CosmosTx -> M (AnteState W) unit
}.

(** [Dec.Ceil().RoundInt()] *)
Definition CeilInt (x : Z) : Z := - ((- x) / dec_one).
(** [sdk.DefaultBondDenom] *)
Definition DefaultBondDenom : string := "stake".

(** The loop of both [getTxPriority]: the least price of the fees, in units of [reduction]; a zero gas limit divides by zero. *)
Fixpoint priority_loop (reduction : Z) (fees : list coin) (gas priority : Z) : res Z :=
  match fees with
  | [] => Ok priority
  | c :: rest =>
      if gas =? 0 then Panic
      else
        let amount := Z.quot (Z.quot (Amount c) gas) reduction in
        let p := if IsInt64 amount then amount else max_i64 in
        priority_loop reduction rest gas (if (priority =? 0) || (p <? priority) then p else priority)
  end.
(** cosmos/fees.go and evm/fee_checker.go *)
Definition getTxPriority (fees : list coin) (gas : Z) : res Z := priority_loop 1 fees gas 0.
Definition evm_getTxPriority (fees : list coin) (gas : Z) : res Z := priority_loop DefaultPriorityReduction fees gas 0.

Section cosmos.
Context {W P : Type} `{StateKeeper W, Keccak, EthAddresses} `{SdkOps} `{EvmText, HashText, AddrCheck} `{GethTransactions}
  `{GethConfig} `{DecOps} `{GethCore} `{NativeContracts P} `{PrecompiledContracts W P} `{StakingInfo W} `{EthOps}
  `{Ctx W, AccountKeeper W, BankKeeper W, ModuleBank W, StakingKeeper W, AnteOps W}
  `{Lens W ParamsStore} `{Lens W FeeMarket.State} `{CosmosOps W, SdkDecorators W}.
Context (available : gmap Address P) (GetERC20PrecompileInstance : Address -> W -> res (option P)).
Context (bi : BlockInfo) (ac : AnteCtx) (maxGasWanted : Z).
(** [ctx.MinGasPrices()], decimals, and whether the options have the dynamic fee checker, as the application's have *)
Context (minGasPrices : list (string * Z)) (dynamicFees : bool).

(** The gas and the fee of a [FeeTx].  The SDK's first decorator reads the gas too, so that a fee that is nil gets no further. *)
Definition ct_Gas (tx : CosmosTx) : Z := default 0 (fee_GasLimit <$> stx_Fee (ct_stx tx)).
Definition ct_Fee (tx : CosmosTx) : list coin := default [] (fee_Amount <$> stx_Fee (ct_stx tx)).

(** ** cosmos/min_price.go *)

Definition min_gas_price_check (tx : CosmosTx) (w : W) : res unit :=
  let minGasPrice := default 0 (MinGasPrice (FeeMarket.GetParams (view w))) in
  let feeCoins := ct_Fee tx in
  let evmDenom := EvmDenom (EvmParams.GetParams (view w)) in
  let validFees := match feeCoins with
                   | [] => true
                   | [c] => bool_decide (Denom c = evmDenom) || bool_decide (Denom c = DefaultBondDenom)
                   | _ => false
                   end in
  if negb validFees && negb (ac_simulate ac) then Err ErrFeeDenom
  else if (minGasPrice =? 0) || ac_simulate ac then Ok tt
  else
    let fee := CeilInt (DecMul minGasPrice (ct_Gas tx * dec_one)) in
    let requiredFees := if 0 <? fee then coins_add [] [mkCoin evmDenom fee] else [] in
    if ct_FeeNil tx then Err ErrInsufficientFee
    else if negb (IsAnyGTE feeCoins requiredFees) then Err ErrInsufficientFee
    else Ok tt.

Definition MinGasPriceDecorator (tx : CosmosTx) : M (AnteState W) unit :=
  w ← mgets store_of; mlift (min_gas_price_check tx w).

(** ** The fee of a transaction *)

Fixpoint required_fees (prices : list (string * Z)) (gas : Z) : res (list coin) :=
  match prices with
  | [] => Ok []
  | (denom, price) :: rest =>
      c ← NewCoin denom (CeilInt (DecMul price (gas * dec_one))); cs ← required_fees rest gas; Ok (c :: cs)
  end.

(** [gas] is an int64 here *)
Definition checkFeeCoinsAgainstMinGasPrices (feeCoins : list coin) (gas : Z) : res unit :=
  if forallb (fun p => snd p =? 0) minGasPrices then Ok tt
  else
    requiredFees ← required_fees minGasPrices gas;
    if negb (IsAnyGTE feeCoins requiredFees) then Err ErrInsufficientFee else Ok tt.

Definition check_min_prices (tx : CosmosTx) (priority : list coin -> Z -> res Z) : res (list coin * Z) :=
  let gas := wrap_i64 (ct_Gas tx) in
  _ ← (if ac_IsCheckTx ac then checkFeeCoinsAgainstMinGasPrices (ct_Fee tx) gas else Ok tt);
  p ← priority (ct_Fee tx) gas;
  Ok (ct_Fee tx, p).
(** cosmos/fees.go and evm/fee_checker.go *)
Definition default_checkTxFee (tx : CosmosTx) : res (list coin * Z) := check_min_prices tx getTxPriority.
Definition checkTxFeeWithValidatorMinGasPrices (tx : CosmosTx) : res (list coin * Z) := check_min_prices tx evm_getTxPriority.

(** The first dynamic fee among the extension options. *)
Fixpoint max_priority_price (opts : list (option Z)) : Z :=
  match opts with [] => max_i64 | Some p :: _ => p | None :: rest => max_priority_price rest end.

Definition FeeChecker (tx : CosmosTx) (w : W) : res (list coin * Z) :=
  let denom := EvmDenom (EvmParams.GetParams (view w)) in
  match base_fee bi w with
  | None => checkTxFeeWithValidatorMinGasPrices tx
  | Some baseFee =>
      let maxPriorityPrice := max_priority_price (ct_DynamicFee tx) in
      if maxPriorityPrice <? 0 then Err ErrInsufficientFee
      else if ct_Gas tx =? 0 then Panic
      else
        let feeCap := Z.quot (AmountOf (ct_Fee tx) denom) (ct_Gas tx) in
        if feeCap <? baseFee then Err ErrInsufficientFee
        else
          let effectivePrice := EffectiveGasPrice baseFee feeCap maxPriorityPrice in
          amount ← NewIntFromBigInt (effectivePrice * ct_Gas tx);
          let bigPriority := Z.quot (effectivePrice - baseFee) DefaultPriorityReduction in
          Ok ([mkCoin denom amount], if IsInt64 bigPriority then bigPriority else max_i64)
  end.

Definition NewDynamicFeeChecker (tx : CosmosTx) (w : W) : res (list coin * Z) :=
  if bi_Height bi =? 0 then checkTxFeeWithValidatorMinGasPrices tx else FeeChecker tx w.

(** ** cosmos/fees.go: the deduction *)

Definition deductFeesFromBalanceOrUnclaimedStakingRewards (acc : Keepers.Account) (fees : list coin) : M W unit :=
  ClaimStakingRewardsIfNecessary (acc_address acc) fees;; DeductFees (acc_address acc) fees.

(** The account that pays: a granter, if there is one, after the use of its grant. *)
Definition fee_source (tx : CosmosTx) (fees : list coin) : M W string :=
  match ct_FeeGranter tx with
  | None => mret (ct_FeePayer tx)
  | Some granter =>
      match feegrantKeeper (W:=W) with
      | None => mraise ErrFeeGrantsDisabled
      | Some UseGrantedFees =>
          (if bool_decide (granter = ct_FeePayer tx) then mret tt else UseGrantedFees granter (ct_FeePayer tx) fees (ct_msgs tx));;
          mret granter
      end
  end.

Definition cosmos_deductFee (tx : CosmosTx) (fees : list coin) : M W unit :=
  if IsZero fees then mret tt
  else if bool_decide (GetModuleAddress (W:=W) FeeCollectorName = EmptyString) then mraise ErrNoFeeCollector
  else
    deductFeesFrom ← fee_source tx fees;
    acc ← mgets (GetAccount deductFeesFrom);
    match acc with
    | None => mraise ErrUnknownAddress
    | Some acc => deductFeesFromBalanceOrUnclaimedStakingRewards acc fees
    end.

Definition fee_and_priority (tx : CosmosTx) (w : W) : res (list coin * Z) :=
  if ac_simulate ac then Ok (ct_Fee tx, 0)
  else if dynamicFees then NewDynamicFeeChecker tx w else default_checkTxFee tx.

Definition DeductFeeDecorator (tx : CosmosTx) : M (AnteState W) unit :=
  if negb (ac_simulate ac) && (0 <? bi_Height bi) && (ct_Gas tx <=? 0) then mraise ErrInvalidGasLimit
  else
    w ← mgets store_of;
    '(fee, priority) ← mlift (fee_and_priority tx w);
    ante_store (cosmos_deductFee tx fee);;
    mmodify (fun s => mkAnteState (an_tx s) (an_msgs s) priority).

(** ** cosmos.go *)

Definition disabled_msgs : list string := [EthereumTxURL; CreateVestingAccountURL].

Definition newCosmosAnteHandler (tx : CosmosTx) : M (AnteState W) unit :=
  mlift (RejectMessages (ct_msgs tx));; mlift (AuthzLimiter disabled_msgs (ct_msgs tx));;
  sdk_SetUpContext tx;; sdk_ExtensionOptions tx;; sdk_ValidateBasic tx;; sdk_TxTimeoutHeight tx;; sdk_ValidateMemo tx;;
  MinGasPriceDecorator tx;; sdk_ConsumeGasForTxSize tx;; DeductFeeDecorator tx;;
  sdk_SetPubKey tx;; sdk_ValidateSigCount tx;; sdk_SigGasConsume tx;; sdk_SigVerification tx;; sdk_IncrementSequence tx;;
  ibc_RedundantRelay tx;; gas_wanted bi (ct_stx tx).

Definition newLegacyCosmosAnteHandlerEip712 (tx : CosmosTx) : M (AnteState W) unit :=
  mlift (RejectMessages (ct_msgs tx));; mlift (AuthzLimiter disabled_msgs (ct_msgs tx));;
  sdk_SetUpContext tx;; sdk_ValidateBasic tx;; sdk_TxTimeoutHeight tx;; sdk_ValidateMemo tx;;
  MinGasPriceDecorator tx;; sdk_ConsumeGasForTxSize tx;; DeductFeeDecorator tx;;
  sdk_SetPubKey tx;; sdk_ValidateSigCount tx;; sdk_SigGasConsume tx;; eip712_SigVerification tx;; sdk_IncrementSequence tx;;
  ibc_RedundantRelay tx;; gas_wanted bi (ct_stx tx).

(** ** ante.go *)

Definition EthereumTxOption : string := "/ethermint.evm.v1.ExtensionOptionsEthereumTx".
Definition Web3TxOption : string := "/ethermint.types.v1.ExtensionOptionsWeb3Tx".
Definition DynamicFeeTxOption : string := "/ethermint.types.v1.ExtensionOptionDynamicFeeTx".

Definition NewAnteHandler (tx : CosmosTx) : M (AnteState W) unit :=
  match stx_ExtensionOptions (ct_stx tx) with
  | typeURL :: _ =>
      if bool_decide (typeURL = EthereumTxOption) then newEVMAnteHandler available GetERC20PrecompileInstance bi ac (ct_stx tx) maxGasWanted
      else if bool_decide (typeURL = Web3TxOption) then newLegacyCosmosAnteHandlerEip712 tx
      else if bool_decide (typeURL = DynamicFeeTxOption) then newCosmosAnteHandler tx
      else mraise ErrUnknownExtensionOptions
  | [] => newCosmosAnteHandler tx
  end.

(** app.go: the handler of the application *)
Definition NewCommunityPoolSpendAnteHandler (tx : CosmosTx) : M (AnteState W) unit :=
  mlift (CommunityPoolSpend (ct_msgs tx));; NewAnteHandler tx.
End cosmos.

(** ** What passes the limiter *)

(** [m] is among the messages, or inside [n] of them that run other messages. *)
Inductive runs_in : nat -> CMsg -> list CMsg -> Prop :=
  | runs_top m msgs : m ∈ msgs -> runs_in 0 m msgs
  | runs_nested n m inner msgs : CExec (Some inner) ∈ msgs -> runs_in n m inner -> runs_in (S n) m msgs.

Section limits.
Context (disabled : list string).

Lemma check_msg_exec i lvl inner : check_msg disabled i lvl (CExec (Some inner)) =
  if maxNestedMsgs <=? lvl then Err ErrNestedTooDeep else check_loop disabled true lvl inner.
Proof.
  simpl. destruct (maxNestedMsgs <=? lvl); [done|]. revert lvl. induction inner as [|m inner IH]; intros lvl; [done|]. simpl. by rewrite IH.
Qed.

Lemma check_loop_elem i lvl msgs m : check_loop disabled i lvl msgs = Ok tt -> m ∈ msgs ->
  exists lvl', lvl <= lvl' /\ (is_exec m = true -> lvl < lvl') /\ check_msg disabled i lvl' m = Ok tt.
Proof.
  revert lvl. induction msgs as [|m0 msgs IH]; intros lvl E Hm; [by apply elem_of_nil in Hm|]. cbn [check_loop] in E.
  apply res_bind_ok in E as ([] & E1 & E). apply elem_of_cons in Hm as [->|Hm].
  - exists (if is_exec m0 then lvl + 1 else lvl). split_and!; [destruct (is_exec m0); lia| |done]. intros ->. lia.
  - destruct (IH _ E Hm) as (l' & Hl & Hx & Hc). exists l'. split_and!; [destruct (is_exec m0); lia| |done].
    intros Hm0. specialize (Hx Hm0). destruct (is_exec m0); lia.
Qed.

(** A message that passes at its level. *)
Record passes (inner : bool) (m : CMsg) : Prop := {
  ps_type : inner = true -> is_exec m = false -> (forall u, m <> CGrant u) -> isDisabledMsg disabled (msg_url m) = false;
  ps_grant url : m = CGrant (Some url) -> isDisabledMsg disabled url = false;
  ps_packed : m <> CExec None /\ m <> CGrant None
}.

Lemma check_msg_passes i lvl m : check_msg disabled i lvl m = Ok tt -> passes i m.
Proof.
  intros E. split.
  - intros -> He Hg. destruct m as [x|[?|]|u|c|c|l|u]; cbn in *; try done; try by destruct (isDisabledMsg _ _). by destruct (Hg u).
  - intros url ->. cbn in E. by destruct (isDisabledMsg disabled url).
  - split; intros ->; done.
Qed.

Lemma check_loop_sound n m msgs : runs_in n m msgs -> forall i lvl, check_loop disabled i lvl msgs = Ok tt -> lvl < maxNestedMsgs ->
  passes (i || (0 <? n)%nat) m /\ lvl + Z.of_nat n < maxNestedMsgs.
Proof.
  induction 1 as [m msgs Hm|n m inner msgs Hm _ IH]; intros i lvl E Hl.
  - destruct (check_loop_elem _ _ _ _ E Hm) as (l' & _ & _ & Hc). rewrite orb_false_r. split; [by eapply check_msg_passes|lia].
  - destruct (check_loop_elem _ _ _ _ E Hm) as (l' & _ & Hx & Hc). specialize (Hx eq_refl). rewrite check_msg_exec in Hc.
    destruct (Z.leb_spec maxNestedMsgs l') as [|Hl']; [done|]. destruct (IH _ _ Hc Hl') as [Hp Hd]. rewrite orb_true_r. split; [done|lia].
Qed.
End limits.

(** A transaction without Ethereum messages: none anywhere, nor one that creates a vesting account of the SDK inside others, nor a
    grant of either; messages are nested at most five deep. *)
Definition cosmos_clean (msgs : list CMsg) : Prop := forall n m, runs_in n m msgs ->
  is_eth m = false /\ (n <> 0%nat -> msg_url m <> CreateVestingAccountURL) /\
  (forall url, m = CGrant (Some url) -> url <> EthereumTxURL /\ url <> CreateVestingAccountURL) /\ (n <= 5)%nat.

Lemma disabled_spec url : isDisabledMsg disabled_msgs url = false -> url <> EthereumTxURL /\ url <> CreateVestingAccountURL.
Proof. unfold isDisabledMsg, disabled_msgs. cbn. rewrite orb_false_r, orb_false_iff, !bool_decide_eq_false. done. Qed.

Lemma limiter_clean msgs : RejectMessages msgs = Ok tt -> AuthzLimiter disabled_msgs msgs = Ok tt -> cosmos_clean msgs.
Proof.
  unfold RejectMessages, AuthzLimiter, checkDisabledMsgs. cbn [Z.leb Z.compare maxNestedMsgs].
  destruct (existsb is_eth msgs) eqn:Er; [done|]. intros _. destruct (check_loop _ _ _ _) as [[]| |] eqn:E; [|done..]. intros _ n m Hr.
  destruct (check_loop_sound _ _ _ _ Hr _ _ E) as [[Ht Hg _] Hd]; [done|]. cbn [orb] in Ht. unfold maxNestedMsgs in Hd. split_and!; [| | |lia].
  - destruct (is_eth m) eqn:Em; [|done]. destruct m as [x| | | | | |]; try done. destruct n as [|n].
    + inversion Hr as [? ? Hm|]; subst. apply not_true_iff_false in Er. destruct Er. apply existsb_exists. exists (CEthereumTx x).
      split; [by apply list_elem_of_In|done].
    + specialize (Ht eq_refl eq_refl ltac:(done)). apply disabled_spec in Ht as [Ht _]. done.
  - intros Hn. destruct n as [|n]; [done|]. destruct m as [x|l|u|c|c|l|u]; try done.
    specialize (Ht eq_refl eq_refl ltac:(done)). by apply disabled_spec in Ht as [_ Ht].
  - intros url ->. apply disabled_spec. by apply Hg.
Qed.

(** ** Properties *)

(** The use of a grant of fees moves no coins. *)
Class CosmosLaws (W : Type) `{AccountKeeper W, BankKeeper W, CosmosOps W} : Prop := {
  use_granted use granter grantee fees msgs w w' : feegrantKeeper (W:=W) = Some use -> use granter grantee fees msgs w = (Ok tt, w') ->
    accounts_grow w w' /\ forall a d, Keepers.GetBalance a d w' = Keepers.GetBalance a d w
}.

Section theorems.
Context {W P : Type} `{StateKeeper W, Keccak, EthAddresses} `{SdkOps, !SdkLaws} `{EvmText, HashText, AddrCheck} {HL : TextLaws}
  `{GethTransactions} {HT : GethTxLaws} `{GethConfig} `{DecOps} `{GethCore} `{NativeContracts P} `{PrecompiledContracts W P}
  `{StakingInfo W} `{EthOps} `{Ctx W, AccountKeeper W, BankKeeper W, ModuleBank W, StakingKeeper W, AnteOps W, DistributionKeeper W}
  `{Lens W ParamsStore} `{Lens W FeeMarket.State} {HK : KeeperLaws W} {HA : AnteLaws W} {HM : ModuleState W FeeMarket.State}
  `{CosmosOps W, SdkDecorators W, !CosmosLaws W}.
Context (available : gmap Address P) (GetERC20PrecompileInstance : Address -> W -> res (option P)).
Context (bi : BlockInfo) (ac : AnteCtx) (maxGasWanted : Z) (minGasPrices : list (string * Z)) (dynamicFees : bool).

#[local] Abbreviation app_handler :=
  (NewCommunityPoolSpendAnteHandler available GetERC20PrecompileInstance bi ac maxGasWanted minGasPrices dynamicFees).

Lemma verified_eth cfg allow msgs msgs' : verify_msgs bi cfg allow (to_sdk <$> msgs) = Ok msgs' -> Forall (fun m => is_eth m = true) msgs.
Proof.
  revert msgs'. induction msgs as [|m msgs IH]; intros msgs' E; [constructor|]. rewrite fmap_cons in E. cbn [verify_msgs] in E.
  apply res_bind_ok in E as ([[x d] f] & E1 & E). apply res_bind_ok in E as (x' & _ & E). apply res_bind_ok in E as (r & E2 & _).
  constructor; [by destruct m|by eapply IH].
Qed.

Lemma evm_handler_eth stx msgs s s' : an_msgs s = to_sdk <$> msgs ->
  newEVMAnteHandler available GetERC20PrecompileInstance bi ac stx maxGasWanted s = (Ok tt, s') -> Forall (fun m => is_eth m = true) msgs.
Proof.
  intros Hm E. unfold newEVMAnteHandler in E. apply M_bind_ok in E as ([] & s1 & E1 & E). apply SetupContext_spec in E1 as (_ & Em & _).
  apply M_bind_ok in E as ([] & t1 & E1%mempool_fee_reads & E). subst t1.
  apply M_bind_ok in E as ([] & t1 & E1%min_gas_price_reads & E). subst t1.
  apply M_bind_ok in E as ([] & t1 & E1%validate_basic_reads & E). subst t1.
  apply M_bind_ok in E as ([] & s2 & [_ Ev]%sig_spec & _). rewrite Em, Hm in Ev. by eapply verified_eth.
Qed.

Lemma cosmos_handler_clean msgs (k : M (AnteState W) unit) s s' :
  (mlift (RejectMessages msgs);; mlift (AuthzLimiter disabled_msgs msgs);; k) s = (Ok tt, s') -> cosmos_clean msgs.
Proof.
  intros E. apply M_bind_ok in E as ([] & s1 & E1 & E). apply mlift_ok in E1 as [E1 ->].
  apply M_bind_ok in E as ([] & s1 & E2 & _). apply mlift_ok in E2 as [E2 ->]. by apply limiter_clean.
Qed.

(** An Ethereum message is run only behind the EVM's own ante handler.  A transaction that passes the application's handler either
    took that handler, and has Ethereum messages only, or has none: neither among its messages nor inside messages that run others, however
    they are nested, and it grants none to anybody; the same holds for the SDK's creation of vesting accounts, which may be sent but
    neither be nested nor granted. *)
Theorem ethereum_messages_take_evm_path tx s s' : an_msgs s = to_sdk <$> ct_msgs tx -> app_handler tx s = (Ok tt, s') ->
  if decide (head (stx_ExtensionOptions (ct_stx tx)) = Some EthereumTxOption) then Forall (fun m => is_eth m = true) (ct_msgs tx)
  else cosmos_clean (ct_msgs tx).
Proof.
  intros Hm E. unfold NewCommunityPoolSpendAnteHandler in E. apply M_bind_ok in E as ([] & s1 & E1 & E). apply mlift_ok in E1 as [_ ->].
  unfold NewAnteHandler in E. destruct (stx_ExtensionOptions (ct_stx tx)) as [|url opts]; cbn [head].
  { rewrite decide_False by done. by apply cosmos_handler_clean in E. }
  case_bool_decide as Hu; [subst url; rewrite decide_True by done; by eapply evm_handler_eth|].
  rewrite decide_False by congruence. do 2 (case_bool_decide; [by apply cosmos_handler_clean in E|]). done.
Qed.

(** ** Fees *)

Lemma NewInt_inv z z' : NewIntFromBigInt z = Ok z' -> z' = z.
Proof. unfold NewIntFromBigInt. by destruct (IsValidInt256 (Some z)); [intros [= <-]|]. Qed.

Lemma FeeChecker_inv tx w b fees p : base_fee bi w = Some b -> 0 <= b -> 0 < ct_Gas tx -> 0 <= AmountOf (ct_Fee tx) (denom_of w) ->
  FeeChecker bi ac minGasPrices tx w = Ok (fees, p) -> exists price, b <= price /\ price * ct_Gas tx <= AmountOf (ct_Fee tx) (denom_of w) /\
    fees = [mkCoin (denom_of w) (price * ct_Gas tx)] /\ p = Z.min (Z.quot (price - b) DefaultPriorityReduction) max_i64.
Proof.
  intros Hb Hb0 Hg Hf. unfold FeeChecker. rewrite Hb. fold (denom_of w). destruct (Z.ltb_spec (max_priority_price (ct_DynamicFee tx)) 0) as [|Hp]; [done|].
  destruct (Z.eqb_spec (ct_Gas tx) 0); [done|]. cbv zeta. set (cap := Z.quot _ _). destruct (Z.ltb_spec cap b) as [|Hc]; [done|]. intros E.
  apply res_bind_ok in E as (amount & Ei & E). apply NewInt_inv in Ei as ->. injection E as <- <-.
  exists (EffectiveGasPrice b cap (max_priority_price (ct_DynamicFee tx))).
  assert (Hcap : cap * ct_Gas tx <= AmountOf (ct_Fee tx) (denom_of w)).
  { unfold cap. rewrite Z.quot_div_nonneg by lia. pose proof (Z.mul_div_le (AmountOf (ct_Fee tx) (denom_of w)) (ct_Gas tx) Hg). lia. }
  unfold EffectiveGasPrice. set (price := Z.min _ _). assert (b <= price <= cap) by (unfold price; lia).
  split_and!; [lia|nia|done|].
  assert (0 <= Z.quot (price - b) DefaultPriorityReduction) by (apply Z.quot_pos; [lia|done]).
  unfold IsInt64, max_i64. destruct (Z.leb_spec (- 2 ^ 63) (Z.quot (price - b) DefaultPriorityReduction)); [|lia].
  destruct (Z.ltb_spec (Z.quot (price - b) DefaultPriorityReduction) (2 ^ 63)); cbn [andb]; lia.
Qed.

Lemma fee_source_pays tx fees w from w' : fee_source tx fees w = (Ok from, w') ->
  pays (fun _ => 0) w w' /\ from = default (ct_FeePayer tx) (ct_FeeGranter tx).
Proof.
  unfold fee_source. destruct (ct_FeeGranter tx) as [granter|]; [|by intros [= <- <-]; split; [apply pays_nothing|]].
  destruct (feegrantKeeper (W:=W)) as [use|] eqn:Eu; [|done]. intros E. apply M_bind_ok in E as ([] & w1 & E1 & E). injection E as <- <-.
  split; [|done]. revert E1. case_bool_decide; [intros [= <-]; apply pays_nothing|]. intros [Hg Hb]%(use_granted _ _ _ _ _ _ _ Eu).
  split; [done|]. intros d. unfold collected. rewrite Hb. lia.
Qed.

Lemma cosmos_deductFee_pays tx fees w w' : operand fees -> default (ct_FeePayer tx) (ct_FeeGranter tx) <> GetModuleAddress (W:=W) FeeCollectorName ->
  cosmos_deductFee tx fees w = (Ok tt, w') -> pays (amt fees) w w'.
Proof.
  intros Ho Hn. unfold cosmos_deductFee. destruct (IsZero fees) eqn:Ez.
  { intros [= <-]. eapply pays_ext; [|apply pays_nothing]. intros d. symmetry. by apply is_zero_spec. }
  case_bool_decide; [done|]. intros E. apply M_bind_ok in E as (from & w1 & E1 & E). apply fee_source_pays in E1 as [P1 ->].
  apply M_bind_ok in E as (acc & w2 & E2 & E). apply mgets_ok in E2 as [-> ->].
  destruct (GetAccount _ w1) as [acc|] eqn:Ea; [|done]. apply get_address in Ea. unfold deductFeesFromBalanceOrUnclaimedStakingRewards in E.
  rewrite Ea in E. apply M_bind_ok in E as ([] & w2 & P2%claim_pays & E). apply deduct_ok in E as [Hm [Hg _]]; [|done].
  assert (P3 : pays (amt fees) w2 w').
  { split; [done|]. intros d. unfold collected. rewrite (Hm _ d), decide_False, decide_True by done. lia. }
  eapply pays_ext; [|exact (pays_trans _ _ _ _ _ P1 (pays_trans _ _ _ _ _ P2 P3))]. intros d. simpl. lia.
Qed.

(** A Cosmos transaction pays the fee collector the effective price for its whole gas limit, no less than the base fee asks for and no
    more than it offers, from its granter's account if it names one; its priority is what it pays over the base fee. *)
Theorem cosmos_tx_pays_fee tx b s s' : dynamicFees = true -> ac_simulate ac = false -> 0 < bi_Height bi -> base_fee bi (store_of s) = Some b -> 0 <= b ->
  0 <= AmountOf (ct_Fee tx) (denom_of (store_of s)) -> default (ct_FeePayer tx) (ct_FeeGranter tx) <> GetModuleAddress (W:=W) FeeCollectorName ->
  DeductFeeDecorator bi ac minGasPrices dynamicFees tx s = (Ok tt, s') ->
  exists price, b <= price /\ price * ct_Gas tx <= AmountOf (ct_Fee tx) (denom_of (store_of s)) /\
    (forall d, collected d (store_of s') = collected d (store_of s) + if decide (denom_of (store_of s) = d) then price * ct_Gas tx else 0) /\
    an_priority s' = Z.min (Z.quot (price - b) DefaultPriorityReduction) max_i64.
Proof.
  intros Hd Hs Hh Hb Hb0 Hf Hn. unfold DeductFeeDecorator. rewrite Hs. destruct (Z.ltb_spec 0 (bi_Height bi)); [|lia].
  destruct (Z.leb_spec (ct_Gas tx) 0) as [|Hg]; [done|]. cbn [negb andb]. intros E. apply M_bind_ok in E as (w & s1 & E1 & E).
  apply mgets_ok in E1 as [-> ->]. apply M_bind_ok in E as ([fees p] & s1 & E1 & E). apply mlift_ok in E1 as [Ef ->].
  unfold fee_and_priority in Ef. rewrite Hs, Hd in Ef. unfold NewDynamicFeeChecker in Ef. destruct (Z.eqb_spec (bi_Height bi) 0); [lia|].
  destruct (FeeChecker_inv _ _ _ _ _ Hb Hb0 Hg Hf Ef) as (price & Hp & Hc & -> & ->).
  apply M_bind_ok in E as ([] & s2 & E2 & E). apply mmodify_ok in E as ->. apply ante_store_ok in E2 as [E2 _]. exists price.
  apply cosmos_deductFee_pays in E2 as [_ Hpay]; [|by apply operand_single; simpl; nia|done]. split_and!; [done|done| |done].
  intros d. unfold store_of at 1. cbn [an_tx]. fold (store_of s2). rewrite Hpay. f_equal. by rewrite amt_single.
Qed.
End theorems.

(** Messages that run others count towards the limit also when they are not nested: six of them side by side are rejected. *)
Example sibling_execs_are_rejected :
  checkDisabledMsgs disabled_msgs (repeat (CExec (Some [COther "/cosmos.bank.v1beta1.MsgSend"])) 6) false 1 = Err ErrNestedTooDeep.
Proof. reflexivity. Qed.

(** A proposal to spend the community pool passes inside a message that runs it. *)
Example nested_spend_passes :
  let spend := CSubmitProposal (Some [COther CommunityPoolSpendURL]) in
  CommunityPoolSpend [spend] = Err ErrCommunitySpendingComingLater /\ CommunityPoolSpend [CExec (Some [spend])] = Ok tt /\
  AuthzLimiter disabled_msgs [CExec (Some [spend])] = Ok tt.
Proof. done. Qed.

(** ** A small chain *)

Section example.
#[local] Existing Instances RefOps RefLaws RefEth RefGeth RefGethLaws RefNative RefDec RefDecLaws StateCommit.RefKeccak
  EvmSafety.RefAddresses PlainText PlainHash PlainCheck PlainLaws PlainTxs PlainTxLaws ExGeth
  RefCtx RefAccountKeeper RefBankKeeper RefStakingKeeper RefDistributionKeeper RefModuleBank RefModuleBankLaws RefKeeperLaws
  AnteKeeper AnteParams AnteMarket AnteParamsState AnteMarketState AntePrecompiles AntePrecompileLaws AnteStaking RefAnte RefAnteLaws.

#[local] Abbreviation World := (RefWorld AnteParts).

#[local] Instance RefCosmos : CosmosOps World := {|
  IsAnyGTE cs ds := existsb (fun c => let x := AmountOf ds (Denom c) in (x <=? Amount c) && negb (x =? 0)) cs;
  feegrantKeeper := Some (fun _ _ _ _ => mret tt)
|}.
#[local] Instance RefCosmosLaws : CosmosLaws World.
Proof. split. intros use granter grantee fees msgs w w' [= <-] [= <-]. split; [by left|done]. Qed.
#[local] Instance RefDecorators : SdkDecorators World :=
  let pass := fun _ => mret tt in {|
  sdk_SetUpContext := pass; sdk_ExtensionOptions := pass; sdk_ValidateBasic := pass; sdk_TxTimeoutHeight := pass; sdk_ValidateMemo := pass;
  sdk_ConsumeGasForTxSize := pass; sdk_SetPubKey := pass; sdk_ValidateSigCount := pass; sdk_SigGasConsume := pass; sdk_SigVerification := pass;
  eip712_SigVerification := pass; sdk_IncrementSequence := pass; ibc_RedundantRelay := pass
|}.

(** The sender runs a transfer for another account and pays at most 1050 for a unit of gas. *)
Definition ex_send : CMsg := COther "/cosmos.bank.v1beta1.MsgSend".
Definition ex_cosmos_tx : CosmosTx :=
  mkCosmosTx (mkSdkTx (Ok tt) "" 0 0 [] 1 (Some (mkTxFee [mkCoin DefaultEVMDenom (1050 * 100000)] 100000 "" "")) 1)
    [ex_send; CExec (Some [ex_send; CExec (Some [ex_send])])] false ex_sender None [].
Definition ex_cosmos_begin : AnteState World :=
  mkAnteState (mkTxState ex_ante_world 0 4 2 5000 (mkGasMeter 9 100000)) (to_sdk <$> ct_msgs ex_cosmos_tx) 0.
Definition ex_cosmos_handler := NewCommunityPoolSpendAnteHandler aw_available aw_tokens ex_info ex_deliver 0 [] true ex_cosmos_tx ex_cosmos_begin.

Lemma ethereum_messages_take_evm_path_witness : cosmos_clean (ct_msgs ex_cosmos_tx) /\ fst ex_cosmos_handler = Ok tt.
Proof.
  split; [|vm_compute; reflexivity].
  exact (ethereum_messages_take_evm_path aw_available aw_tokens ex_info ex_deliver 0 [] true ex_cosmos_tx ex_cosmos_begin (snd ex_cosmos_handler)
    ltac:(reflexivity) ltac:(vm_compute; reflexivity)).
Defined.

(** An Ethereum message inside other messages is rejected. *)
Example nested_ethereum_rejected :
  AuthzLimiter disabled_msgs [CExec (Some [ex_send; CExec (Some [CEthereumTx (mkEthereumTx None "" "" false)])])] = Err ErrUnauthorized.
Proof. reflexivity. Qed.

Lemma cosmos_tx_pays_fee_example : exists price, 1000 <= price /\
  collected DefaultEVMDenom (store_of (snd (DeductFeeDecorator ex_info ex_deliver [] true ex_cosmos_tx ex_cosmos_begin))) = price * 100000.
Proof.
  destruct (cosmos_tx_pays_fee ex_info ex_deliver [] true ex_cosmos_tx 1000 ex_cosmos_begin
    (snd (DeductFeeDecorator ex_info ex_deliver [] true ex_cosmos_tx ex_cosmos_begin))) as (price & Hp & _ & Hc & _);
    try (vm_compute; (reflexivity || discriminate)).
  exists price. split; [exact Hp|]. rewrite Hc. reflexivity.
Qed.
End example.
