(* ===== verification/EvmQuery.v ===== *)
(** * x/evm: the queries of keeper/grpc_query.go, types/tx_args.go, [BinSearch] of types/utils.go and the chain identifiers
    of types/chain_id.go

    A query reads the store and returns no new one: calls run on a copy.  [EstimateGas] searches the gas limit a call needs;
    [estimate_is_tight] shows that the search ends and that the limit it finds is enough, while one unit less is not.

    Numbers, hashes and addresses of responses are kept as such, not as texts; the codes of gRPC errors and nil requests are
    left out, as are the tracing queries.  Decoding of JSON arguments is a parameter. *)

From Stdlib Require Import Ascii.
From stdpp Require Import pretty.
From S2P Require Import Prelude.
From S2P Require Import Sdk.
From S2P Require Import Schedule.
From S2P Require Import ClawbackAccount.
From S2P Require Import Keepers.
From S2P Require Import FeeMarket.
From S2P Require Import AccessList.
From S2P Require Import StateDB.
From S2P Require Import Precompile.
From S2P Require Import StateCommit.
From S2P Require Import EvmParams.
From S2P Require Import EvmKeeper.
From S2P Require Import EvmMachine.
From S2P Require Import EvmCode.
From S2P Require Import Evm.
From S2P Require Import EvmInstructions.
From S2P Require Import EvmTable.
From S2P Require Import EvmConfig.
From S2P Require Import StateTransition.
From S2P Require Import TxData.
From S2P Require Import TxSafety.
From S2P Require Import EvmAnte.
From S2P Require Import EvmAnteTheory.

Local Open Scope Z_scope.

(** ** Chain identifiers *)

(** The longest prefix of characters of a class, with the rest. *)
Fixpoint span_chars (p : Ascii.ascii -> bool) (s : string) : string * string :=
  match s with
  | EmptyString => (EmptyString, EmptyString)
  | String c s' => if p c then let '(a, b) := span_chars p s' in (String c a, b) else (EmptyString, s)
  end.

Definition in_range (lo hi : Z) (c : Ascii.ascii) : bool :=
  let n := Z.of_nat (Ascii.nat_of_ascii c) in (lo <=? n) && (n <=? hi).
Definition is_lower : Ascii.ascii -> bool := in_range 97 122.
Definition is_digit : Ascii.ascii -> bool := in_range 48 57.

(** [[1-9][0-9]*] at the start of a text. *)
Definition match_number (s : string) : option (string * string) :=
  let '(ds, rest) := span_chars is_digit s in
  match ds with
  | String c _ => if in_range 49 57 c then Some (ds, rest) else None
  | EmptyString => None
  end.

Definition cut_char (c : Ascii.ascii) (s : string) : option string :=
  match s with String d s' => if decide (c = d) then Some s' else None | EmptyString => None end.

(** The submatches of [haqqChainID]: name, number and epoch. *)
Definition haqqChainID (s : string) : option (string * string * string) :=
  let '(name, s1) := span_chars is_lower s in
  if bool_decide (name = EmptyString) then None else
  s2 ← cut_char "_"%char s1;
  '(number, s3) ← match_number s2;
  s4 ← cut_char "-"%char s3;
  '(epoch, s5) ← match_number s4;
  if bool_decide (s5 = EmptyString) then Some (name, number, epoch) else None.

Definition IsValidChainID (chainID : string) : bool :=
  if (48 <? String.length chainID)%nat then false else bool_decide (is_Some (haqqChainID chainID)).

Definition ParseChainID `{EvmText} (chainID : string) : res Z :=
  let chainID := trim_space chainID in
  if (48 <? String.length chainID)%nat then Err ErrInvalidChainID else
  match haqqChainID chainID with
  | None => Err ErrInvalidChainID
  | Some (_, number, _) =>
      match parse_digits 0 number with Some z => Ok z | None => Err ErrInvalidChainID end
  end.

(** ** Arguments of a call *)

Record TransactionArgs := mkArgs {
  ta_From : option Address;
  ta_To : option Address;
  ta_Gas : option Z;
  ta_GasPrice : option Z;
  ta_MaxFeePerGas : option Z;
  ta_MaxPriorityFeePerGas : option Z;
  ta_Value : option Z;
  ta_Nonce : option Z;
  ta_Data : option string;
  ta_Input : option string;
  ta_AccessList : option (list (Address * list Hash))
}.

(** [ethtypes.Message]: the message with what only its creation tells; it is always a fake one. *)
Record CallMessage := mkCallMessage {
  cm_Message : Message;
  cm_GasFeeCap : Z;
  cm_GasTipCap : Z;
  cm_IsFake : bool
}.

Definition ErrBothFees : err := ErrText "both gasPrice and (maxFeePerGas or maxPriorityFeePerGas) specified".

Definition args_GetFrom (args : TransactionArgs) : Address := default zero_address (ta_From args).

(** The input is preferred. *)
Definition args_GetData (args : TransactionArgs) : string :=
  match ta_Input args with
  | Some i => i
  | None => default EmptyString (ta_Data args)
  end.

Definition args_SetNonce (nonce : Z) (args : TransactionArgs) : TransactionArgs :=
  mkArgs (ta_From args) (ta_To args) (ta_Gas args) (ta_GasPrice args) (ta_MaxFeePerGas args) (ta_MaxPriorityFeePerGas args)
    (ta_Value args) (Some nonce) (ta_Data args) (ta_Input args) (ta_AccessList args).

(** Without a cap, half of the largest number. *)
Definition args_gas (args : TransactionArgs) (globalGasCap : Z) : Z :=
  let gas := if globalGasCap =? 0 then (2 ^ 64 - 1) / 2 else globalGasCap in
  let gas := default gas (ta_Gas args) in
  if negb (globalGasCap =? 0) && (globalGasCap <? gas) then globalGasCap else gas.

(** The price, the fee cap and the tip cap. *)
Definition args_prices (args : TransactionArgs) (baseFee : option Z) : Z * Z * Z :=
  match baseFee, ta_GasPrice args with
  | None, p => let gasPrice := default 0 p in (gasPrice, gasPrice, gasPrice)
  | Some _, Some gasPrice => (gasPrice, gasPrice, gasPrice)
  | Some base, None =>
      let gasFeeCap := default 0 (ta_MaxFeePerGas args) in
      let gasTipCap := default 0 (ta_MaxPriorityFeePerGas args) in
      let gasPrice := if negb (gasFeeCap =? 0) || negb (gasTipCap =? 0) then Z.min (gasTipCap + base) gasFeeCap else 0 in
      (gasPrice, gasFeeCap, gasTipCap)
  end.

Definition ToMessage (args : TransactionArgs) (globalGasCap : Z) (baseFee : option Z) : res CallMessage :=
  if bool_decide (is_Some (ta_GasPrice args))
     && (bool_decide (is_Some (ta_MaxFeePerGas args)) || bool_decide (is_Some (ta_MaxPriorityFeePerGas args)))
  then Err ErrBothFees
  else
    let '(gasPrice, gasFeeCap, gasTipCap) := args_prices args baseFee in
    Ok (mkCallMessage
          (mkMessage (args_GetFrom args) (ta_To args) (default 0 (ta_Nonce args)) (default 0 (ta_Value args))
             (args_gas args globalGasCap) gasPrice (args_GetData args) (default [] (ta_AccessList args)))
          gasFeeCap gasTipCap true).

(** [json.Unmarshal] into the arguments. *)
Class ArgsCodec := { UnmarshalArgs : string -> res TransactionArgs }.

(** ** Binary search *)

Section search.
Context {R : Type}.

(** [None] is a search that has not ended; numbers are [uint64]. *)
Fixpoint BinSearch (fuel : nat) (lo hi : Z) (executable : Z -> res (bool * R)) : option (res Z) :=
  if u64_add lo 1 <? hi then
    match fuel with
    | O => None
    | S fuel =>
        let mid := u64_add hi lo / 2 in
        match executable mid with
        | Panic => Some Panic
        | Err e => Some (Err e)
        | Ok (failed, _) => if failed : bool then BinSearch fuel mid hi executable else BinSearch fuel lo mid executable
        end
    end
  else Some (Ok hi).
End search.

(** ** Requests and responses *)

Record EthCallRequest := mkEthCallRequest {
  ecr_Args : string;
  ecr_GasCap : Z;
  ecr_ProposerAddress : string;
  ecr_ChainId : Z
}.

Inductive CallType := RPC | Internal.

Record EstimateGasResponse := mkEstimate { eg_Gas : Z; eg_Ret : string; eg_VmError : option err }.

Definition ErrGasCapTooLow : err := ErrText "gas cap cannot be lower than 21000".
Definition ErrAllowance : err := ErrText "gas required exceeds allowance".
(** [ethparams.TxGas] *)
Definition TxGas : Z := 21000.

Definition with_gas (gas : Z) (m : Message) : Message :=
  mkMessage (msg_From m) (msg_To m) (msg_Nonce m) (msg_Value m) gas (msg_GasPrice m) (msg_Data m) (msg_AccessList m).

(** ** Calls *)

Section calls.
Context {W P : Type} `{StateKeeper W, Keccak, EthAddresses} `{SdkOps} `{EvmText} `{GethConfig} `{DecOps} `{GethCore}
  `{NativeContracts P} `{PrecompiledContracts W P} `{StakingInfo W} `{EthOps} `{AccountKeeper W}
  `{ArgsCodec} `{Lens W ParamsStore} `{Lens W FeeMarket.State}.
Context (available : gmap Address P) (GetERC20PrecompileInstance : Address -> W -> res (option P)).
(** The block, and the identifier of the chain as the context has it. *)
Context (bi : BlockInfo) (chain_text : string).

Definition evm_GetNonce (addr : Address) (w : W) : Z :=
  match GetAccount addr w with Some acct => Sequence (acc_base acct) | None => 0 end.

Definition getChainID (chainID : Z) : res Z := if chainID =? 0 then ParseChainID chain_text else Ok chainID.

(** The block of a query that names a chain. *)
Definition with_chain (chainID : Z) : BlockInfo :=
  mkBlockInfo (bi_Height bi) (bi_Time bi) (bi_HeaderHash bi) (bi_computed bi) (bi_Proposer bi) (bi_GasMeterLimit bi) (bi_MaxGas bi) chainID.

Definition query_config (req : EthCallRequest) (chainID : Z) (w : W) : res EVMConfig :=
  make_EVMConfig (with_chain chainID) (GetProposerAddress bi (ecr_ProposerAddress req)) w.

Definition query_TxConfig : TxConfig := NewEmptyTxConfig (BytesToHash (bi_HeaderHash bi)).

Definition query_message (req : EthCallRequest) (args : TransactionArgs) (cfg : EVMConfig) (w : W) : res CallMessage :=
  ToMessage (args_SetNonce (evm_GetNonce (args_GetFrom args) w) args) (ecr_GasCap req) (cfg_BaseFee cfg).

Definition EthCall (req : EthCallRequest) (w : W) : res MsgEthereumTxResponse :=
  args ← UnmarshalArgs (ecr_Args req);
  chainID ← getChainID (ecr_ChainId req);
  cfg ← query_config req chainID w;
  msg ← query_message req args cfg w;
  fst (ApplyMessageWithConfig available GetERC20PrecompileInstance (with_chain chainID) (cm_Message msg) false cfg query_TxConfig w).

(** The limit the search starts from: the call's, the block's or the request's, under the cap of the request. *)
Definition highest_gas (req : EthCallRequest) (args : TransactionArgs) : Z :=
  let block := match bi_MaxGas bi with
               | Some maxGas => if 0 <? maxGas then maxGas else ecr_GasCap req
               | None => ecr_GasCap req
               end in
  let hi := match ta_Gas args with
            | Some gas => if TxGas <=? gas then gas else block
            | None => block
            end in
  if negb (ecr_GasCap req =? 0) && (ecr_GasCap req <? hi) then ecr_GasCap req else hi.

(** For a call from outside the sender's account is created and its nonce counted, as the ante handler does. *)
Definition count_sender (from : Address) (nonce : Z) : M W unit := fun w =>
  let '(acct, w) :=
    match keeper_GetAccount from w with
    | Some acct => (acct, w)
    | None => let '(acc, w) := NewAccountWithAddress from w in (NewEmptyAccount, SetAccount acc w)
    end in
  keeper_SetAccount from (mkAccount (u64_add nonce 1) (Balance acct) (StateDB.CodeHash acct)) w.

(** Whether the call fails with a gas limit; it runs on a copy of the store. *)
Definition executable (chainID : Z) (cfg : EVMConfig) (msg : Message) (nonce : Z) (fromType : CallType) (w : W) (gas : Z)
    : res (bool * option MsgEthereumTxResponse) :=
  let msg := with_gas gas msg in
  match (match fromType with RPC => count_sender (msg_From msg) nonce w | Internal => (Ok tt, w) end) with
  | (Panic, _) => Panic
  | (Err e, _) => Err e
  | (Ok _, tmp) =>
      match fst (ApplyMessageWithConfig available GetERC20PrecompileInstance (with_chain chainID) msg false cfg query_TxConfig tmp) with
      | Panic => Panic
      | Err e => if bool_decide (e = ErrIntrinsicGas) then Ok (true, None) else Err e
      | Ok rsp => Ok (Failed rsp, Some rsp)
      end
  end.

(** The last check, at the highest limit. *)
Definition conclude (run : Z -> res (bool * option MsgEthereumTxResponse)) (hi gasCap : Z) : res EstimateGasResponse :=
  if hi =? gasCap then
    '(failed, result) ← run hi;
    if failed : bool then
      match result with
      | Some r =>
          if bool_decide (VmError r = Some ErrOutOfGas) then Err ErrAllowance
          else if bool_decide (VmError r = Some ErrExecutionReverted) then Ok (mkEstimate 0 (res_Ret r) (VmError r))
          else Err (default ErrAllowance (VmError r))
      | None => Err ErrAllowance
      end
    else Ok (mkEstimate hi EmptyString None)
  else Ok (mkEstimate hi EmptyString None).

Definition EstimateGasInternal (fuel : nat) (req : EthCallRequest) (fromType : CallType) (w : W) : option (res EstimateGasResponse) :=
  match
    chainID ← getChainID (ecr_ChainId req);
    if ecr_GasCap req <? TxGas then Err ErrGasCapTooLow else
    args ← UnmarshalArgs (ecr_Args req);
    cfg ← query_config req chainID w;
    msg ← query_message req args cfg w;
    Ok (chainID, args, cfg, cm_Message msg)
  with
  | Panic => Some Panic
  | Err e => Some (Err e)
  | Ok (chainID, args, cfg, msg) =>
      let run := executable chainID cfg msg (evm_GetNonce (args_GetFrom args) w) fromType w in
      let gasCap := highest_gas req args in
      match BinSearch fuel (TxGas - 1) gasCap run with
      | None => None
      | Some Panic => Some Panic
      | Some (Err e) => Some (Err e)
      | Some (Ok hi) => Some (conclude run hi gasCap)
      end
  end.

Definition EstimateGas (fuel : nat) (req : EthCallRequest) (w : W) : option (res EstimateGasResponse) :=
  EstimateGasInternal fuel req RPC w.
End calls.

(** ** Readers *)

Record QueryAccountResponse := mkQueryAccount { qa_Balance : Z; qa_CodeHash : Hash; qa_Nonce : Z }.
Record QueryCosmosAccountResponse := mkQueryCosmosAccount { qc_CosmosAddress : string; qc_Sequence : Z; qc_AccountNumber : Z }.

Section readers.
Context {W : Type} `{SdkOps} `{EthOps} `{EvmText, AddrCheck} `{Ctx W} `{AccountKeeper W} `{BankKeeper W} `{ModuleBank W}
  `{AccountRemoval W} `{StakingInfo W} `{AnteOps W} `{GethConfig} `{Lens W EvmState} `{Lens W ParamsStore} `{Lens W FeeMarket.State}.
(** [sdk.ConsAddressFromBech32] *)
Context (ConsAddressFromBech32 : string -> res string) (bi : BlockInfo).
#[local] Existing Instances EvmKeccak.

Definition GetAccountOrEmpty (addr : Address) (w : W) : StateDB.Account := default NewEmptyAccount (evm_GetAccount addr w).

Definition query_Account (address : string) (w : W) : res QueryAccountResponse :=
  _ ← EvmConfig.ValidateAddress address;
  let acct := GetAccountOrEmpty (HexToAddress address) w in
  Ok (mkQueryAccount (Balance acct) (BytesToHash (StateDB.CodeHash acct)) (Nonce acct)).

(** The account's numbers are zero when there is none. *)
Definition account_numbers (addr : Address) (w : W) : QueryCosmosAccountResponse :=
  match GetAccount addr w with
  | Some account => mkQueryCosmosAccount (AddrString addr) (Sequence (acc_base account)) (AccountNumber (acc_base account))
  | None => mkQueryCosmosAccount (AddrString addr) 0 0
  end.

Definition CosmosAccount (address : string) (w : W) : res QueryCosmosAccountResponse :=
  _ ← EvmConfig.ValidateAddress address;
  Ok (account_numbers (HexToAddress address) w).

Definition ValidatorAccount (consAddress : string) (w : W) : res QueryCosmosAccountResponse :=
  consAddr ← ConsAddressFromBech32 consAddress;
  match GetValidatorByConsAddr consAddr w with
  | None => Err ErrNoValidatorFound
  | Some valAddr =>
      addrBz ← ValidatorBytes (W:=W) valAddr;
      Ok (account_numbers addrBz w)
  end.

Definition query_Balance (address : string) (w : W) : res Z :=
  _ ← EvmConfig.ValidateAddress address;
  Ok (evm_GetBalance (HexToAddress address) w).

Definition Storage (address key : string) (w : W) : res Hash :=
  _ ← EvmConfig.ValidateAddress address;
  Ok (evm_GetState (HexToAddress address) (ClawbackAccount.HexToHash key) w).

(** The code of a contract; an account without code has none. *)
Definition query_Code (address : string) (w : W) : res StateDB.Code :=
  _ ← EvmConfig.ValidateAddress address;
  Ok match GetAccountWithoutBalance (HexToAddress address) w with
     | Some (nonce, codeHash) =>
         if IsContract (mkAccount nonce 0 codeHash) then evm_GetCode (BytesToHash codeHash) w else None
     | None => None
     end.

Definition query_Params (w : W) : Params := EvmParams.GetParams (view w).

Definition BaseFee (w : W) : res (option Z) :=
  let ethCfg := EthereumConfig (bi_ChainID bi) (chain_config (EvmParams.GetParams (view w))) in
  match evm_GetBaseFee bi ethCfg w with
  | Some baseFee => aux ← NewIntFromBigInt baseFee; Ok (Some aux)
  | None => Ok None
  end.
End readers.

(** ** The search *)

Lemma u64_add_small a b : 0 <= a + b < 2 ^ 64 -> u64_add a b = a + b.
Proof. apply wrap_u64_id. Qed.

Section search_theory.
Context {R : Type}.
Implicit Types f : Z -> res (bool * R).

(** From below [2 ^ 63] the search ends; what it finds is the highest limit or passes, and the limit below it fails. *)
Lemma BinSearch_spec f fuel lo hi : 0 <= lo -> lo + 1 < 2 ^ 64 -> 0 <= hi <= 2 ^ 63 -> hi - lo <= 2 ^ Z.of_nat fuel ->
  exists r, BinSearch fuel lo hi f = Some r /\ forall g, r = Ok g ->
    g <= hi /\ (lo < hi -> lo < g) /\ (g = hi \/ exists x, f g = Ok (false, x)) /\ (g <= lo + 1 \/ exists x, f (g - 1) = Ok (true, x)).
Proof.
  revert lo hi. induction fuel as [|fuel IH]; intros lo hi Hlo Hlo' Hhi Hd; cbn [BinSearch];
    rewrite (u64_add_small lo 1) by lia.
  - rewrite (proj2 (Z.ltb_ge _ _)) by (simpl in Hd; lia). eexists. split; [reflexivity|]. intros g [= <-].
    simpl in Hd. split; [lia|]. split; [lia|]. split; [by left|left; lia].
  - destruct (lo + 1 <? hi) eqn:E; [apply Z.ltb_lt in E|apply Z.ltb_ge in E].
    2:{ eexists. split; [reflexivity|]. intros g [= <-]. split; [lia|]. split; [lia|]. split; [by left|left; lia]. }
    rewrite (u64_add_small hi lo) by lia. set (mid := (hi + lo) / 2).
    assert (Hmid : lo < mid < hi) by (subst mid; pose proof (Z.div_mod (hi + lo) 2); pose proof (Z.mod_pos_bound (hi + lo) 2); lia).
    assert (Hh : hi - mid <= 2 ^ Z.of_nat fuel /\ mid - lo <= 2 ^ Z.of_nat fuel).
    { rewrite Nat2Z.inj_succ, Z.pow_succ_r in Hd by lia. pose proof (Z.div_mod (hi + lo) 2). pose proof (Z.mod_pos_bound (hi + lo) 2). lia. }
    destruct (f mid) as [[[] x]|e|] eqn:Ef.
    + destruct (IH mid hi) as (r & Hr & Hg); try lia. exists r. split; [exact Hr|]. intros g Eg.
      destruct (Hg g Eg) as (H1 & H2 & H3 & H4). split; [lia|]. split; [lia|]. split; [done|]. right.
      destruct H4 as [H4|H4]; [|done]. replace (g - 1) with mid by lia. by exists x.
    + destruct (IH lo mid) as (r & Hr & Hg); try lia. exists r. split; [exact Hr|]. intros g Eg.
      destruct (Hg g Eg) as (H1 & H2 & H3 & H4). split; [lia|]. split; [lia|]. split; [|done]. right.
      destruct H3 as [->|H3]; [by exists x|done].
    + eexists. by split.
    + eexists. by split.
Qed.

(** Above [2 ^ 63] the sum wraps: with the largest limit and a call that always fails, the lower end returns to zero again and again. *)
Theorem wrapped_search_never_ends f fuel : (forall gas, 0 <= gas < 2 ^ 63 -> exists x, f gas = Ok (true, x)) ->
  BinSearch fuel (TxGas - 1) (2 ^ 64 - 1) f = None.
Proof.
  intros Hf. assert (Hlo : 0 <= TxGas - 1 < 2 ^ 63) by (unfold TxGas; lia). revert Hlo. generalize (TxGas - 1). induction fuel as [|fuel IH]; intros lo Hlo;
    cbn [BinSearch]; rewrite (u64_add_small lo 1), (proj2 (Z.ltb_lt _ _)) by lia; [done|].
  assert (Hm : 0 <= u64_add (2 ^ 64 - 1) lo / 2 < 2 ^ 63).
  { pose proof (wrap_u64_range (2 ^ 64 - 1 + lo)). unfold u64_add. split; [apply Z.div_pos; lia|apply Z.div_lt_upper_bound; lia]. }
  destruct (Hf _ Hm) as (x & ->). by apply IH.
Qed.
End search_theory.

(** ** Chain identifiers read back *)

Fixpoint all_chars (p : Ascii.ascii -> bool) (s : string) : bool :=
  match s with EmptyString => true | String c s' => p c && all_chars p s' end.
Definition starts_not (p : Ascii.ascii -> bool) (s : string) : bool :=
  match s with EmptyString => true | String c _ => negb (p c) end.

Lemma span_app p a b : all_chars p a = true -> starts_not p b = true -> span_chars p (a +:+ b) = (a, b).
Proof.
  intros Ha Hb. induction a as [|c a IH]; simpl in *.
  - destruct b as [|d b]; simpl in *; [done|]. by destruct (p d).
  - destruct (p c); [|done]. by rewrite (IH Ha).
Qed.

Lemma digit_char d : (d < 10)%N -> is_digit (pretty_N_char d) = true /\ ((0 < d)%N -> in_range 49 57 (pretty_N_char d) = true).
Proof.
  intros H. assert (d = 0 \/ d = 1 \/ d = 2 \/ d = 3 \/ d = 4 \/ d = 5 \/ d = 6 \/ d = 7 \/ d = 8 \/ d = 9)%N as Hx by lia.
  by destruct Hx as [->|[->|[->|[->|[->|[->|[->|[->|[->| ->]]]]]]]]].
Qed.

(** A printed number has digits only, and starts with another digit than zero. *)
Lemma pretty_go_digits x s : (0 < x)%N -> all_chars is_digit s = true ->
  all_chars is_digit (pretty_N_go x s) = true /\ exists c t, pretty_N_go x s = String c t /\ in_range 49 57 c = true.
Proof.
  revert s. induction (N.lt_wf_0 x) as [x _ IH]; intros s Hx Hs. rewrite pretty_N_go_step by lia.
  destruct (digit_char (x mod 10)) as [Hd Hn]; [by apply N.mod_lt|].
  destruct (decide (x / 10 = 0)%N) as [E|E].
  - rewrite E, pretty_N_go_0. split; [simpl; by rewrite Hd|]. do 2 eexists. split; [reflexivity|]. apply Hn.
    pose proof (N.div_mod x 10). lia.
  - apply IH; [by apply N.div_lt|by apply N.neq_0_lt_0|simpl; by rewrite Hd].
Qed.

Lemma match_format n rest : 0 < n -> starts_not is_digit rest = true -> match_number (format_u64 n +:+ rest) = Some (format_u64 n, rest).
Proof.
  intros Hn Hr. unfold match_number, format_u64, pretty, pretty_N. rewrite decide_False by lia.
  destruct (pretty_go_digits (Z.to_N n) EmptyString) as (Ha & c & t & E & Hc); [lia|done|].
  rewrite span_app by done. by rewrite E, Hc.
Qed.

Lemma parse_format n : 0 < n -> parse_digits 0 (format_u64 n) = Some n.
Proof.
  intros Hn. unfold format_u64, pretty, pretty_N. rewrite decide_False by lia. rewrite parse_pretty_go. simpl. f_equal. lia.
Qed.

Lemma cut_app c s : cut_char c (String c EmptyString +:+ s) = Some s.
Proof. simpl. by rewrite decide_True. Qed.
Lemma app_empty s : s +:+ EmptyString = s.
Proof. induction s as [|c s IH]; [done|]. change (String c (s +:+ EmptyString) = String c s). by rewrite IH. Qed.

(** An identifier made of a name, a number and an epoch gives its number back. *)
Theorem chain_id_roundtrip `{EvmText} name n epoch : name <> EmptyString -> all_chars is_lower name = true -> 0 < n -> 0 < epoch ->
  let chainID := (name +:+ "_" +:+ format_u64 n +:+ "-" +:+ format_u64 epoch)%string in
  trim_space chainID = chainID -> (String.length chainID <= 48)%nat ->
  IsValidChainID chainID = true /\ ParseChainID chainID = Ok n.
Proof.
  intros Hname Hl Hn He chainID Ht Hlen.
  assert (E : haqqChainID chainID = Some (name, format_u64 n, format_u64 epoch)).
  { unfold haqqChainID, chainID. rewrite span_app by done. rewrite bool_decide_eq_false_2 by done. rewrite cut_app. cbn [mbind option_bind].
    rewrite match_format by done. cbn [mbind option_bind]. rewrite cut_app. cbn [mbind option_bind].
    rewrite <- (app_empty (format_u64 epoch)) at 1. by rewrite match_format. }
  unfold IsValidChainID, ParseChainID. rewrite Ht, E. rewrite (proj2 (Nat.ltb_ge _ _)) by lia. by rewrite parse_format.
Qed.

(** ** Estimates *)

Section estimates.
Context {W P : Type} `{StateKeeper W, Keccak, EthAddresses} `{SdkOps} `{EvmText} `{GethConfig} `{DecOps} `{GethCore}
  `{NativeContracts P} `{PrecompiledContracts W P} `{StakingInfo W} `{EthOps} `{AccountKeeper W}
  `{ArgsCodec} `{Lens W ParamsStore} `{Lens W FeeMarket.State}.
Context (available : gmap Address P) (GetERC20PrecompileInstance : Address -> W -> res (option P)).
Context (bi : BlockInfo) (chain_text : string).
Implicit Types (w : W) (req : EthCallRequest).

Abbreviation run_at := (executable available GetERC20PrecompileInstance bi).

Lemma highest_range req args : TxGas <= ecr_GasCap req -> 0 <= highest_gas bi req args <= ecr_GasCap req.
Proof.
  unfold highest_gas, TxGas. intros Hc.
  assert (Hb : 0 <= match bi_MaxGas bi with Some m => if 0 <? m then m else ecr_GasCap req | None => ecr_GasCap req end)
    by (destruct (bi_MaxGas bi) as [m|]; zcases; lia).
  rewrite (proj2 (Z.eqb_neq _ _)) by lia. simpl. destruct (ta_Gas args) as [g|]; zcases; lia.
Qed.

(** A run that does not fail has a response without an error. *)
Lemma executable_passes chainID cfg msg nonce ft w g x : run_at chainID cfg msg nonce ft w g = Ok (false, x) ->
  exists rsp, x = Some rsp /\ VmError rsp = None.
Proof.
  unfold executable. destruct (match ft with RPC => _ | Internal => _ end) as [[u|e|] tmp]; [|done|done].
  destruct (fst _) as [rsp|e|]; [|by destruct (bool_decide _)|done]. intros [= Hf <-]. exists rsp. split; [done|].
  unfold Failed in Hf. by apply negb_false_iff, bool_decide_eq_true in Hf.
Qed.

Lemma conclude_ok (run : Z -> res (bool * option MsgEthereumTxResponse)) hi gasCap e : conclude run hi gasCap = Ok e ->
  (eg_VmError e = None -> eg_Gas e = hi /\ (hi = gasCap -> exists x, run hi = Ok (false, x))) /\
  (forall x, eg_VmError e = Some x -> x = ErrExecutionReverted /\ exists r, run gasCap = Ok (true, Some r) /\ VmError r = Some x /\ eg_Ret e = res_Ret r).
Proof.
  unfold conclude. destruct (Z.eqb_spec hi gasCap) as [->|Hne].
  - destruct (run gasCap) as [[[] x]|y|]; [| |done|done]; simpl.
    + destruct x as [r|]; [|done]. destruct (bool_decide _); [done|]. destruct (bool_decide (VmError r = _)) eqn:Er; [|done].
      apply bool_decide_eq_true in Er. intros [= <-]. simpl. rewrite Er. split; [done|]. intros z [= <-]. split; [done|]. by exists r.
    + intros [= <-]. simpl. split; [|done]. intros _. split; [done|]. intros _. by exists x.
  - intros [= <-]. simpl. split; [|done]. intros _. by split.
Qed.

(** [EstimateGas] with a gas cap below 2^63 always ends (63 steps of the binary search are enough), and its answer is exact.
    A gas limit it returns lets the call run without an error, on the store the transaction will meet; it is at most the cap of the
    request and the limit of the call or the block; and with one unit less the call fails, unless the limit is the 21000 of a plain transfer
    or less.  An answer with an error is the revert of the call at the highest limit, with its data. *)
Theorem estimate_is_tight req ft w : ecr_GasCap req < 2 ^ 63 ->
  exists r, EstimateGasInternal available GetERC20PrecompileInstance bi chain_text 63 req ft w = Some r /\
  forall e, r = Ok e ->
    exists chainID args cfg msg, getChainID chain_text (ecr_ChainId req) = Ok chainID /\ UnmarshalArgs (ecr_Args req) = Ok args /\
      query_config bi req chainID w = Ok cfg /\ query_message req args cfg w = Ok msg /\
      let run := run_at chainID cfg (cm_Message msg) (evm_GetNonce (args_GetFrom args) w) ft w in
      let top := highest_gas bi req args in
      top <= ecr_GasCap req /\
      (eg_VmError e = None -> eg_Gas e <= top /\
         (exists rsp, run (eg_Gas e) = Ok (false, Some rsp) /\ VmError rsp = None) /\
         (eg_Gas e <= TxGas \/ exists x, run (eg_Gas e - 1) = Ok (true, x))) /\
      (forall x, eg_VmError e = Some x -> x = ErrExecutionReverted /\
         exists rsp, run top = Ok (true, Some rsp) /\ VmError rsp = Some x /\ eg_Ret e = res_Ret rsp).
Proof.
  intros Hcap. unfold EstimateGasInternal. generalize (eq_refl 63%nat). generalize 63%nat at 1 3. intros fuel Hfuel.
  destruct (getChainID _ _) as [chainID|e|] eqn:Ech; [|by eexists|by eexists]. simpl.
  destruct (Z.ltb_spec (ecr_GasCap req) TxGas) as [Hlow|Hlow]; [by eexists|].
  destruct (UnmarshalArgs _) as [args|e|] eqn:Ea; [|by eexists|by eexists]. simpl.
  destruct (query_config _ _ _ _) as [cfg|e|] eqn:Ec; [|by eexists|by eexists]. simpl.
  destruct (query_message _ _ _ _) as [msg|e|] eqn:Em; [|by eexists|by eexists]. simpl.
  set (run := run_at _ _ _ _ _ _). pose proof (highest_range req args Hlow) as Ht. set (top := highest_gas bi req args) in *.
  destruct (BinSearch_spec run fuel (TxGas - 1) top) as (r & Er & Hr); [unfold TxGas; lia..|rewrite Hfuel; unfold TxGas; lia|].
  rewrite Er. destruct r as [hi|e|]; [|by eexists|by eexists].
  destruct (Hr hi eq_refl) as (Hle & _ & Hpass & Hbelow). eexists. split; [reflexivity|]. intros e He.
  destruct (conclude_ok _ _ _ _ He) as [Hn Hs]. exists chainID, args, cfg, msg. do 4 (split; [done|]). cbv zeta. fold run top.
  split; [lia|]. split; [|exact Hs]. intros Ee. destruct (Hn Ee) as [-> Htop].
  assert (exists x, run hi = Ok (false, x)) as (x & Ex) by (destruct Hpass as [->|]; [by apply Htop|done]).
  split; [done|]. split.
  - destruct (executable_passes _ _ _ _ _ _ _ _ Ex) as (rsp & -> & Hv). by exists rsp.
  - destruct Hbelow as [|]; [left; unfold TxGas in *; lia|by right].
Qed.
End estimates.

(** ** Readers report the store *)

Lemma last_bytes_full n s : String.length s = n -> last_bytes n s = s.
Proof.
  intros <-. unfold last_bytes. rewrite Nat.leb_refl, Nat.sub_diag. induction s as [|c s IH]; simpl; [done|by rewrite IH].
Qed.

Section readers_theory.
Context {W : Type} `{SdkLaws} `{EthLaws} `{EvmText, AddrCheck} `{Ctx W} `{AccountKeeper W} `{BankKeeper W}
  `{DistributionKeeper W} `{ModuleBank W} `{AccountRemoval W} `{Lens W EvmState}
  `{!KeeperLaws W} `{!ModuleBankLaws W} `{!ModuleState W EvmState} `{!AccountRemovalLaws W} `{!BankCreates W}.
Implicit Types w : W.
#[local] Existing Instances EvmKeccak.

(** The queries give back what the keeper was last told of an account, of a slot and of a contract's code. *)
Theorem queries_report_store text addr acct w w' : is_hex_address text = true -> HexToAddress text = addr ->
  eth_account addr w -> storable acct -> evm_SetAccount addr acct w = (Ok tt, w') ->
  query_Account text w' = Ok (mkQueryAccount (Balance acct) (StateDB.CodeHash acct) (Nonce acct)) /\
  query_Balance text w' = Ok (Balance acct) /\
  (forall key v, Storage text key (evm_SetState addr (ClawbackAccount.HexToHash key) (Some v) w') = Ok v) /\
  (forall code, code <> EmptyString -> IsContract acct = true ->
     query_Code text (evm_SetCode (StateDB.CodeHash acct) (Some code) w') = Ok (Some code)).
Proof.
  intros Ht Ha He Hs E. pose proof (set_account_get (StateKeeperLaws := evm_keeper_contract) _ _ _ _ He Hs E) as Hg. simpl in Hg.
  unfold query_Account, query_Balance, Storage, query_Code, EvmConfig.ValidateAddress, GetAccountOrEmpty. rewrite Ht, Ha. simpl. rewrite Hg. simpl.
  unfold BytesToHash. rewrite last_bytes_full by apply Hs. split; [done|]. unfold evm_GetAccount in Hg.
  destruct (GetAccountWithoutBalance addr w') as [[n h]|] eqn:Eg; [|done]. simpl in Hg. injection Hg as Hg. subst acct. simpl in *.
  split; [done|]. split.
  - intros key v. f_equal. pose proof (set_state_state (StateKeeperLaws := evm_keeper_contract) addr (ClawbackAccount.HexToHash key) (Some v) w' addr
      (ClawbackAccount.HexToHash key)) as Hst. simpl in Hst. rewrite Hst. by rewrite decide_True.
  - intros code Hc Hi. f_equal. pose proof (set_code_account (StateKeeperLaws := evm_keeper_contract) h (Some code) w' addr) as Hk. simpl in Hk.
    unfold evm_GetAccount in Hk. rewrite Eg in Hk. simpl in Hk.
    destruct (GetAccountWithoutBalance addr (evm_SetCode h (Some code) w')) as [[n' h']|]; [|done]. simpl in Hk. injection Hk as -> _ ->.
    unfold IsContract in *. simpl in *. rewrite Hi. rewrite last_bytes_full by apply Hs.
    pose proof (set_code_code (StateKeeperLaws := evm_keeper_contract) h (Some code) w' h) as Hcc. simpl in Hcc. rewrite Hcc.
    rewrite decide_True by done. rewrite decide_False; [done|]. by intros [= ->].
Qed.
End readers_theory.

(** ** Estimates on a small chain *)

Section example.
#[local] Existing Instances RefOps RefLaws RefEth RefGeth RefGethLaws RefNative RefDec RefDecLaws StateCommit.RefKeccak
  EvmSafety.RefAddresses PlainText PlainHash PlainCheck PlainLaws PlainTxs PlainTxLaws ExGeth
  RefCtx RefAccountKeeper RefBankKeeper RefModuleBank
  AnteKeeper AnteParams AnteMarket AntePrecompiles AnteStaking.

(** The text names the callee; the data are two bytes. *)
#[local] Instance PlainArgs : ArgsCodec := {|
  UnmarshalArgs s := Ok (mkArgs (Some ex_sender) (Some s) (Some (2 ^ 64 - 1)) None None None None None (Some "ab"%string) None None)
|}.

Definition ex_estimate (fuel : nat) (callee : string) (cap : Z) : option (res EstimateGasResponse) :=
  EstimateGas aw_available aw_tokens ex_info "haqq_11235-1" fuel (mkEthCallRequest callee cap "" 0) ex_ante_world.

(** A call of an account without code needs its intrinsic gas, and no unit less. *)
Example estimate_transfer : ex_estimate 63 "E" 100000 = Some (Ok (mkEstimate 21032 "" None)).
Proof. vm_compute. reflexivity. Qed.
Lemma estimate_is_tight_witness : exists chainID cfg msg nonce x,
  executable aw_available aw_tokens ex_info chainID cfg msg nonce RPC ex_ante_world 21031 = Ok (true, x).
Proof.
  destruct (estimate_is_tight aw_available aw_tokens ex_info "haqq_11235-1" (mkEthCallRequest "E" 100000 "" 0) RPC ex_ante_world) as (r & Er & Hr).
  - simpl. lia.
  - assert (Ee : r = Ok (mkEstimate 21032 "" None)) by (vm_compute in Er; by injection Er as <-).
    destruct (Hr _ Ee) as (chainID & args & cfg & msg & _ & _ & _ & _ & _ & Hn & _).
    destruct (Hn eq_refl) as (_ & _ & [Hle|(x & Hx)]); [exfalso; revert Hle; unfold TxGas; simpl; lia|].
    exists chainID, cfg, (cm_Message msg), (evm_GetNonce (args_GetFrom args) ex_ante_world), x. exact Hx.
Defined.
Example estimate_revert : exists ret, ex_estimate 63 (cut "0xD") 100000 = Some (Ok (mkEstimate 0 ret (Some ErrExecutionReverted))).
Proof. eexists. vm_compute. reflexivity. Qed.
(** With the largest cap the search for a call that always reverts goes on. *)
Example estimate_hangs : ex_estimate 300 (cut "0xD") (2 ^ 64 - 1) = None.
Proof. vm_compute. reflexivity. Qed.
End example.
