(* ===== verification/Erc20.v ===== *)
(** * x/erc20: the registry of token pairs, its parameters, the conversions and the IBC callbacks

    keeper/token_pairs.go, params.go, dynamic_precompiles.go, precompiles.go, mint.go, evm.go, msg_server.go, proposals.go and
    ibc_callbacks.go, the module's genesis, types and IBC middleware, ibc/utils.go, and the transfers of x/ibc/transfer, which convert tokens.

    The module keeps three maps (the pairs by their hash, the hashes by contract and by denomination) and three
    parameters, the lists of precompiles as the concatenation of their texts ([Erc20State]).  Calls of contracts are
    operations of the class [Erc20Evm], and their encoding that of [Erc20Abi].
    Events, telemetry and the gas configuration of the callbacks are not modelled. *)

From S2P Require Import Prelude.
From S2P Require Import Sdk.
From S2P Require Import Schedule.
From S2P Require Import ClawbackAccount.
From S2P Require Import Keepers.
From S2P Require Import TokenPair.
From S2P Require Import AccessList.
From S2P Require Import StateDB.
From S2P Require Import EvmParams.
From S2P Require Import EvmMachine.
From S2P Require Import EvmConfig.
From S2P Require Import StateTransition.

Local Open Scope Z_scope.

(** ** Data *)

Definition ModuleName : string := "erc20".

Record Erc20Params := mkErc20Params {
  EnableErc20 : bool;
  NativePrecompiles : list string;
  DynamicPrecompiles : list string
}.

(** The stores: a value that was never set is empty. *)
Record Erc20State := mkErc20 {
  er_pairs : gmap string TokenPair;
  er_by_erc20 : gmap string string;
  er_by_denom : gmap string string;
  er_enabled : bool;
  er_dynamic : string;
  er_native : string
}.

Record ERC20Data := mkERC20Data { data_Name : string; data_Symbol : string; data_Decimals : Z }.

Record Erc20Genesis := mkErc20Genesis { eg_Params : Erc20Params; eg_TokenPairs : list TokenPair }.

Record MsgConvertERC20 := mkMsgConvertERC20 {
  mc_ContractAddress : string;
  mc_Amount : Z;
  mc_Receiver : string;
  mc_Sender : string
}.

Definition NewMsgConvertERC20 `{IbcOps, EthOps} (amount : Z) (receiver : string) (contract sender : Address) : MsgConvertERC20 :=
  mkMsgConvertERC20 (AddressString contract) amount (AddrString receiver) (AddressString sender).

(** ibc-go's message; [it_Rest] is what the keeper only passes on. *)
Record IbcMsgTransfer := mkIbcTransfer { it_Token : coin; it_Sender : string; it_Rest : string }.
Definition set_transfer_denom (denom : string) (msg : IbcMsgTransfer) : IbcMsgTransfer :=
  mkIbcTransfer (mkCoin denom (Amount (it_Token msg))) (it_Sender msg) (it_Rest msg).

Record FungibleTokenPacketData := mkPacketData { pd_Denom : string; pd_Amount : string; pd_Sender : string; pd_Receiver : string }.
Record Packet := mkPacket { SourcePort : string; SourceChannel : string; DestinationPort : string; DestinationChannel : string; pk_Data : string }.

Definition ErrERC20Disabled : err := ErrText "erc20 module is disabled".
Definition ErrInternalTokenPair : err := ErrText "internal ethereum token mapping error".
Definition ErrTokenPairNotFound : err := ErrText "token pair not found".
Definition ErrTokenPairAlreadyExists : err := ErrText "token pair already exists".
Definition ErrUndefinedOwner : err := ErrText "undefined owner of contract pair".
Definition ErrBalanceInvariance : err := ErrText "post transfer balance invariant failed".
Definition ErrUnexpectedEvent : err := ErrText "unexpected event".
Definition ErrABIUnpack : err := ErrText "contract ABI unpack failed".
Definition ErrEVMCall : err := ErrText "EVM call unexpected error".
Definition ErrERC20TokenPairDisabled : err := ErrText "erc20 token pair is disabled".
Definition ErrInvalidIBC : err := ErrText "invalid IBC transaction".
Definition ErrNativeConversionDisabled : err := ErrText "native coins manual conversion is disabled".
Definition ErrSendDisabled : err := ErrText "send transactions are disabled".
Definition ErrLogic : err := ErrText "internal logic error".
Definition ErrInvalidSigner : err := ErrText "expected gov account as only signer for proposal message".

(** ** Interfaces *)

(** An argument of a contract's method. *)
Inductive AbiValue := AbiAddress (a : Address) | AbiUint (z : Z).

(** The ABI of the ERC-20 contract. *)
Class Erc20Abi := {
  abi_Pack : string -> list AbiValue -> res string;
  abi_UnpackBool : string -> string -> res bool;
  abi_UnpackString : string -> string -> res string;
  abi_UnpackUint8 : string -> string -> res Z;
  (** [Unpack("balanceOf", ret)] as one [big.Int] *)
  abi_UnpackBalance : string -> option Z;
  (** the hash of the signature of the event [Approval] *)
  logApprovalSigHash : Hash
}.

(** [types.EVMKeeper]: a call that does not commit reads the state. *)
Class Erc20Evm (W : Type) := {
  CallEVM : Address -> Address -> bool -> string -> list AbiValue -> M W MsgEthereumTxResponse;
  CallEVMWithData : Address -> option Address -> string -> bool -> M W MsgEthereumTxResponse;
  GetAccountWithoutBalance : Address -> W -> option StateDB.Account
}.

(** What else the module asks of the bank and of the accounts. *)
Class Erc20Bank (W : Type) := {
  IsSendEnabledCoin : string -> W -> bool;
  md_Validate : Metadata -> res unit;
  IsModuleAccount : Keepers.Account -> bool
}.

(** ibc-go's packets and traces, and the textual form of an address of another chain
    ([GetHaqqAddressFromBech32] of utils/utils.go is bech32 decoding). *)
Class IbcPackets := {
  UnmarshalPacketData : string -> res FungibleTokenPacketData;
  GetHaqqAddressFromBech32 : string -> res string;
  NewIntFromString : string -> option Z;
  ReceiverChainIsSource : string -> string -> string -> bool;
  GetDenomPrefix : string -> string -> string;
  (** the path and the base denomination of [ParseDenomTrace] *)
  ParseDenomTrace : string -> string * string
}.

(** ** Token pairs *)

Section registry.
Context `{IbcOps} `{AddrCheck} `{EvmText}.

Definition SetTokenPair (pair : TokenPair) (st : Erc20State) : Erc20State :=
  mkErc20 (<[GetID pair := pair]> (er_pairs st)) (er_by_erc20 st) (er_by_denom st) (er_enabled st) (er_dynamic st) (er_native st).
Definition SetDenomMap (denom id : string) (st : Erc20State) : Erc20State :=
  mkErc20 (er_pairs st) (er_by_erc20 st) (<[denom := id]> (er_by_denom st)) (er_enabled st) (er_dynamic st) (er_native st).
Definition SetERC20Map (erc20 : Address) (id : string) (st : Erc20State) : Erc20State :=
  mkErc20 (er_pairs st) (<[erc20 := id]> (er_by_erc20 st)) (er_by_denom st) (er_enabled st) (er_dynamic st) (er_native st).

Definition SetToken (pair : TokenPair) (st : Erc20State) : Erc20State :=
  SetERC20Map (GetERC20Contract pair) (GetID pair) (SetDenomMap (PairDenom pair) (GetID pair) (SetTokenPair pair st)).

Definition CreateNewTokenPair (denom : string) : M Erc20State TokenPair :=
  pair ← mlift (NewTokenPairSTRv2 denom); mmodify (SetToken pair);; mret pair.

(** The iterator visits the pairs by their keys. *)
Definition GetTokenPairs (st : Erc20State) : list TokenPair :=
  omap (fun id => er_pairs st !! id) (merge_sort String.le (elements (dom (er_pairs st)))).

Definition GetERC20Map (erc20 : Address) (st : Erc20State) : string := default EmptyString (er_by_erc20 st !! erc20).
Definition GetDenomMap (denom : string) (st : Erc20State) : string := default EmptyString (er_by_denom st !! denom).

Definition GetTokenPairID (token : string) (st : Erc20State) : string :=
  if is_hex_address token then GetERC20Map (HexToAddress token) st else GetDenomMap token st.

(** Without an identifier there is no pair. *)
Definition GetTokenPair (id : string) (st : Erc20State) : option TokenPair :=
  if bool_decide (id = EmptyString) then None else er_pairs st !! id.

Definition deleteTokenPair (id : string) (st : Erc20State) : Erc20State :=
  mkErc20 (delete id (er_pairs st)) (er_by_erc20 st) (er_by_denom st) (er_enabled st) (er_dynamic st) (er_native st).
Definition deleteERC20Map (erc20 : Address) (st : Erc20State) : Erc20State :=
  mkErc20 (er_pairs st) (delete erc20 (er_by_erc20 st)) (er_by_denom st) (er_enabled st) (er_dynamic st) (er_native st).
Definition deleteDenomMap (denom : string) (st : Erc20State) : Erc20State :=
  mkErc20 (er_pairs st) (er_by_erc20 st) (delete denom (er_by_denom st)) (er_enabled st) (er_dynamic st) (er_native st).

Definition DeleteTokenPair (pair : TokenPair) (st : Erc20State) : Erc20State :=
  deleteDenomMap (PairDenom pair) (deleteERC20Map (GetERC20Contract pair) (deleteTokenPair (GetID pair) st)).

Definition IsTokenPairRegistered (id : string) (st : Erc20State) : bool := bool_decide (is_Some (er_pairs st !! id)).
Definition IsERC20Registered (erc20 : Address) (st : Erc20State) : bool := bool_decide (is_Some (er_by_erc20 st !! erc20)).
Definition IsDenomRegistered (denom : string) (st : Erc20State) : bool := bool_decide (is_Some (er_by_denom st !! denom)).

(** The pair of a token by its text. *)
Definition find_pair (token : string) (st : Erc20State) : res TokenPair :=
  let id := GetTokenPairID token st in
  if bool_decide (id = EmptyString) then Err ErrTokenPairNotFound
  else match GetTokenPair id st with None => Err ErrTokenPairNotFound | Some tp => Ok tp end.

Definition GetCoinAddress (denom : string) (st : Erc20State) : res Address :=
  let id := GetDenomMap denom st in
  if bool_decide (id = EmptyString) then GetIBCDenomAddress denom
  else match GetTokenPair id st with None => Err ErrTokenPairNotFound | Some tp => Ok (GetERC20Contract tp) end.

Definition GetTokenDenom (tokenAddress : Address) (st : Erc20State) : res string :=
  let id := GetERC20Map tokenAddress st in
  if bool_decide (id = EmptyString) then Err ErrTokenPairNotFound
  else match GetTokenPair id st with None => Err ErrTokenPairNotFound | Some tp => Ok (PairDenom tp) end.

Definition pair_Validate `{SdkOps} (tp : TokenPair) : res unit :=
  if negb (ValidDenom (PairDenom tp)) then Err (ErrText "invalid denom") else ValidateAddress (Erc20Address tp).

(** ** Parameters *)

Definition addressLength : nat := 42.

Definition set_enabled_param (enable : bool) (st : Erc20State) : Erc20State :=
  mkErc20 (er_pairs st) (er_by_erc20 st) (er_by_denom st) enable (er_dynamic st) (er_native st).
Definition IsERC20Enabled (st : Erc20State) : bool := er_enabled st.

(** The texts one after the other. *)
Definition join (l : list string) : string := foldr (fun s bz => s +:+ bz) EmptyString l.

Definition setDynamicPrecompiles (l : list string) (st : Erc20State) : Erc20State :=
  mkErc20 (er_pairs st) (er_by_erc20 st) (er_by_denom st) (er_enabled st) (join l) (er_native st).
Definition setNativePrecompiles (l : list string) (st : Erc20State) : Erc20State :=
  mkErc20 (er_pairs st) (er_by_erc20 st) (er_by_denom st) (er_enabled st) (er_dynamic st) (join l).

(** [bz[i:i+addressLength]] for each step of the loop.  The value is a slice without spare capacity, as the database gives it, and
    a slice that ends beyond it is a panic. *)
Fixpoint split_loop (fuel : nat) (bz : string) : res (list string) :=
  match fuel with
  | O => Ok []
  | S fuel =>
      if bool_decide (bz = EmptyString) then Ok []
      else if (String.length bz <? addressLength)%nat then Panic
      else
        rest ← split_loop fuel (String.substring addressLength (String.length bz - addressLength) bz);
        Ok (String.substring 0 addressLength bz :: rest)
  end.
Definition split_precompiles (bz : string) : res (list string) := split_loop (String.length bz) bz.

Definition getDynamicPrecompiles (st : Erc20State) : res (list string) := split_precompiles (er_dynamic st).
Definition getNativePrecompiles (st : Erc20State) : res (list string) := split_precompiles (er_native st).

(** [slices.Sort] *)
Definition sort_texts (l : list string) : list string := merge_sort String.le l.

Definition NewParams (enableErc20 : bool) (nativePrecompiles dynamicPrecompiles : list string) : Erc20Params :=
  mkErc20Params enableErc20 (sort_texts nativePrecompiles) (sort_texts dynamicPrecompiles).

Definition GetParams (st : Erc20State) : res Erc20Params :=
  dynamicPrecompiles ← getDynamicPrecompiles st;
  nativePrecompiles ← getNativePrecompiles st;
  Ok (NewParams (IsERC20Enabled st) nativePrecompiles dynamicPrecompiles).

Definition ErrInvalidPrecompile : err := ErrText "invalid precompile".
Definition ErrUnsorted : err := ErrText "precompiles need to be sorted".
Definition ErrDuplicatePrecompile : err := ErrText "duplicate precompile".

Definition ValidatePrecompiles (precompiles : list string) : res (list Address) :=
  _ ← check_all (fun p => match ValidateAddress p with Ok _ => Ok tt | _ => Err ErrInvalidPrecompile end) precompiles;
  if bool_decide (StronglySorted String.le precompiles) then Ok (map HexToAddress precompiles) else Err ErrUnsorted.

(** [Address.Hex] tells addresses apart, so that the texts seen are the addresses seen. *)
Definition validatePrecompilesUniqueness (precompiles : list Address) : res unit :=
  if bool_decide (NoDup precompiles) then Ok tt else Err ErrDuplicatePrecompile.

Definition Params_Validate (p : Erc20Params) : res unit :=
  npAddrs ← ValidatePrecompiles (NativePrecompiles p);
  dpAddrs ← ValidatePrecompiles (DynamicPrecompiles p);
  validatePrecompilesUniqueness (dpAddrs ++ npAddrs).

Definition isAddrIncluded (addr : Address) (strAddrs : list string) : bool := existsb (fun sa => bool_decide (addr = HexToAddress sa)) strAddrs.
Definition IsNativePrecompile (p : Erc20Params) (addr : Address) : bool := isAddrIncluded addr (NativePrecompiles p).
Definition IsDynamicPrecompile (p : Erc20Params) (addr : Address) : bool := isAddrIncluded addr (DynamicPrecompiles p).
Definition IsAvailableERC20Precompile (p : Erc20Params) (addr : Address) : bool := IsNativePrecompile p addr || IsDynamicPrecompile p addr.

Definition GetDisabledAndEnabledPrecompiles (old new : list string) : list string * list string :=
  (filter (fun p => p ∉ new) old, filter (fun p => p ∉ old) new).

Definition ErrDuplicateAddress : err := ErrText "attempted to register a duplicate precompile address".

Definition appendPrecompiles (existing : list string) (addresses : list Address) : res (list string) :=
  _ ← check_all (fun a => if bool_decide (AddressString a ∈ existing) then Err ErrDuplicateAddress else Ok tt) addresses;
  Ok (sort_texts (existing ++ map AddressString addresses)).

(** ** Genesis *)

Definition hasActiveTokenPair (pairs : list TokenPair) (address : string) : bool :=
  existsb (fun p => bool_decide (Erc20Address p = address) && Enabled p) pairs.

Definition genesis_validatePrecompiles (pairs : list TokenPair) (precompiles : list string) : res unit :=
  check_all (fun p => if hasActiveTokenPair pairs p then Ok tt else Err (ErrText "precompile address not found in token pairs")) precompiles.

Fixpoint genesis_pairs `{SdkOps} (seenErc20 seenDenom : gset string) (pairs : list TokenPair) : res unit :=
  match pairs with
  | [] => Ok tt
  | b :: rest =>
      if bool_decide (Erc20Address b ∈ seenErc20) then Err (ErrText "token ERC20 contract duplicated on genesis")
      else if bool_decide (PairDenom b ∈ seenDenom) then Err (ErrText "coin denomination duplicated on genesis")
      else _ ← pair_Validate b; genesis_pairs ({[Erc20Address b]} ∪ seenErc20) ({[PairDenom b]} ∪ seenDenom) rest
  end.

Definition Genesis_Validate `{SdkOps} (gs : Erc20Genesis) : res unit :=
  _ ← genesis_pairs ∅ ∅ (eg_TokenPairs gs);
  _ ← Params_Validate (eg_Params gs);
  _ ← genesis_validatePrecompiles (eg_TokenPairs gs) (DynamicPrecompiles (eg_Params gs));
  genesis_validatePrecompiles (eg_TokenPairs gs) (NativePrecompiles (eg_Params gs)).
End registry.

(** ** The keeper *)

(** An operation on the module's state. *)
Definition on_erc20 {W A} `{Lens W Erc20State} (m : M Erc20State A) : M W A := fun w =>
  let '(r, st) := m (view w) in (r, update st w).

Section keeper.
Context {W P : Type} `{StateKeeper W, Keccak} `{IbcOps} `{AddrCheck} `{EvmText} `{SdkOps} `{EthOps} `{Erc20Abi} `{IbcPackets}
  `{Ctx W, AccountKeeper W, BankKeeper W, ModuleBank W, SupplyKeeper W, StakingKeeper W, Erc20Evm W, Erc20Bank W}
  `{Lens W Erc20State} `{Lens W ParamsStore}.
(** The code of the accounts of precompiles (types/constants.go), the module's authority and the address of its account. *)
Context (Erc20Bytecode : string) (authority : string) (ModuleAddress : Address).

Definition RegisterERC20CodeHash (address : Address) : M W unit := fun w =>
  let codeHash := Keccak256Hash Erc20Bytecode in
  let w := if bool_decide (default EmptyString (keeper_GetCode codeHash w) = EmptyString) then keeper_SetCode codeHash (Some Erc20Bytecode) w else w in
  let '(nonce, balance) := match keeper_GetAccount address w with Some acc => (Nonce acc, Balance acc) | None => (0, 0) end in
  keeper_SetAccount address (mkAccount nonce balance codeHash) w.

Definition UnRegisterERC20CodeHash (erc20Address : string) : M W unit := fun w =>
  let emptyCodeHash := Keccak256Hash "" in
  let contractAddr := HexToAddress erc20Address in
  let '(nonce, balance) := match keeper_GetAccount contractAddr w with Some acc => (Nonce acc, Balance acc) | None => (0, 0) end in
  keeper_SetAccount contractAddr (mkAccount nonce balance emptyCodeHash) w.

Fixpoint for_each {A S} (f : A -> M S unit) (l : list A) : M S unit :=
  match l with [] => mret tt | x :: l => f x;; for_each f l end.

Definition UpdateCodeHash (updatedDynamicPrecompiles : list string) : M W unit := fun w =>
  match getDynamicPrecompiles (view w) with
  | Panic => (Panic, w)
  | Err e => (Err e, w)
  | Ok oldDynamicPrecompiles =>
      let '(disabled, enabled) := GetDisabledAndEnabledPrecompiles oldDynamicPrecompiles updatedDynamicPrecompiles in
      (for_each UnRegisterERC20CodeHash disabled;;
       for_each (fun p => RegisterERC20CodeHash (HexToAddress p)) enabled) w
  end.

Definition SetParams (params : Erc20Params) : M W unit :=
  let params := mkErc20Params (EnableErc20 params) (sort_texts (NativePrecompiles params)) (sort_texts (DynamicPrecompiles params)) in
  mlift (Params_Validate params);;
  UpdateCodeHash (DynamicPrecompiles params);;
  on_erc20 (mmodify (fun st => setNativePrecompiles (NativePrecompiles params)
    (setDynamicPrecompiles (DynamicPrecompiles params) (set_enabled_param (EnableErc20 params) st)))).

Definition EnableDynamicPrecompiles (addresses : list Address) : M W unit := fun w =>
  (params ← mlift (GetParams (view w));
   updatedPrecompiles ← mlift (appendPrecompiles (DynamicPrecompiles params) addresses);
   SetParams (mkErc20Params (EnableErc20 params) (NativePrecompiles params) updatedPrecompiles)) w.

Definition RegisterERC20Extension (denom : string) : M W TokenPair :=
  tp ← on_erc20 (CreateNewTokenPair denom); EnableDynamicPrecompiles [GetERC20Contract tp];; mret tp.

(** *** Precompiles *)

Context (NewPrecompile : TokenPair -> res P).

Definition InstantiateERC20Precompile (contractAddr : Address) (st : Erc20State) : res P :=
  let address := AddressString contractAddr in
  let id := GetTokenPairID address st in
  if bool_decide (id = EmptyString) then Err (ErrText "precompile id not found")
  else match GetTokenPair id st with None => Err (ErrText "token pair not found") | Some tp => NewPrecompile tp end.

Definition GetERC20PrecompileInstance (address : Address) (w : W) : res (option P) :=
  params ← GetParams (view w);
  if IsAvailableERC20Precompile params address then precompile ← InstantiateERC20Precompile address (view w); Ok (Some precompile)
  else Ok None.

(** *** Minting *)

Definition MintingEnabled (sender receiver : string) (token : string) (w : W) : res TokenPair :=
  if negb (IsERC20Enabled (view w)) then Err ErrERC20Disabled
  else
    tp ← find_pair token (view w);
    if negb (Enabled tp) then Err ErrERC20TokenPairDisabled
    else if BlockedAddr receiver then Err ErrUnauthorized
    else if negb (bool_decide (sender = receiver)) && negb (IsSendEnabledCoin (PairDenom tp) w) then Err ErrSendDisabled
    else Ok tp.

(** *** Calls of contracts *)

(** A failed call and an unreadable answer are both nil. *)
Definition BalanceOf (contract account : Address) : M W (option Z) := fun w =>
  match CallEVM ModuleAddress contract false "balanceOf" [AbiAddress account] w with
  | (Ok res, w') => (Ok (abi_UnpackBalance (res_Ret res)), w')
  | (Err _, w') => (Ok None, w')
  | (Panic, w') => (Panic, w')
  end.

Definition query_field {A} (unpack : string -> string -> res A) (contract : Address) (method : string) : M W A :=
  res ← CallEVM ModuleAddress contract false method [];
  mwrap ErrABIUnpack (mlift (unpack method (res_Ret res))).

Definition QueryERC20 (contract : Address) : M W ERC20Data :=
  name ← query_field abi_UnpackString contract "name";
  symbol ← query_field abi_UnpackString contract "symbol";
  decimals ← query_field abi_UnpackUint8 contract "decimals";
  mret (mkERC20Data name symbol decimals).

(** A log without topics is an index out of range. *)
Fixpoint monitor_logs (logs : list Log) : res unit :=
  match logs with
  | [] => Ok tt
  | log :: rest =>
      match log_Topics log with
      | [] => Panic
      | topic :: _ => if bool_decide (topic = logApprovalSigHash) then Err ErrUnexpectedEvent else monitor_logs rest
      end
  end.
Definition monitorApprovalEvent (resp : MsgEthereumTxResponse) : res unit := monitor_logs (res_Logs resp).

(** *** Conversions *)

Definition token_balance (contract account : Address) : M W Z :=
  b ← BalanceOf contract account; match b with None => mraise ErrEVMCall | Some z => mret z end.

Definition convertERC20IntoCoinsForNativeToken (tp : TokenPair) (msg : MsgConvertERC20) (receiver : string) (sender : Address)
    : M W unit :=
  let contract := GetERC20Contract tp in
  balanceCoin ← mgets (Keepers.GetBalance receiver (PairDenom tp));
  balanceToken ← token_balance contract ModuleAddress;
  transferData ← mlift (abi_Pack "transfer" [AbiAddress ModuleAddress; AbiUint (mc_Amount msg)]);
  res ← CallEVMWithData sender (Some contract) transferData true;
  unpackedRet ← mlift (abi_UnpackBool "transfer" (res_Ret res));
  if negb unpackedRet then mraise ErrLogic
  else
    let coins := [mkCoin (PairDenom tp) (mc_Amount msg)] in
    balanceTokenAfter ← token_balance contract ModuleAddress;
    if negb (balanceTokenAfter =? balanceToken + mc_Amount msg) then mraise ErrBalanceInvariance
    else
      MintCoins ModuleName coins;;
      SendCoinsFromModuleToAccount ModuleName receiver coins;;
      balanceCoinAfter ← mgets (Keepers.GetBalance receiver (PairDenom tp));
      if negb (balanceCoinAfter =? balanceCoin + mc_Amount msg) then mraise ErrBalanceInvariance
      else mlift (monitorApprovalEvent res).

(** A pair whose contract has destroyed itself is removed, without an error. *)
Definition ConvertERC20 (msg : MsgConvertERC20) : M W unit :=
  receiver ← mlift (match AccAddressFromBech32 (mc_Receiver msg) with Some a => Ok a | None => Panic end);
  let sender := HexToAddress (mc_Sender msg) in
  tp ← (fun w => (MintingEnabled sender receiver (mc_ContractAddress msg) w, w));
  if IsNativeERC20 tp then
    acc ← mgets (GetAccountWithoutBalance (GetERC20Contract tp));
    match acc with
    | Some a => if negb (IsContract a) then on_erc20 (mmodify (DeleteTokenPair tp)) else convertERC20IntoCoinsForNativeToken tp msg receiver sender
    | None => on_erc20 (mmodify (DeleteTokenPair tp))
    end
  else if IsNativeCoin tp then mraise ErrNativeConversionDisabled
  else mraise ErrUndefinedOwner.

Definition ConvertCoinNativeERC20 (tp : TokenPair) (amount : Z) (receiver : Address) (sender : string) : M W unit :=
  if amount <=? 0 then mret tt
  else
    let contract := GetERC20Contract tp in
    balanceToken ← token_balance contract receiver;
    let coins := [mkCoin (PairDenom tp) amount] in
    SendCoinsFromAccountToModule sender ModuleName coins;;
    res ← CallEVM ModuleAddress contract true "transfer" [AbiAddress receiver; AbiUint amount];
    unpackedRet ← mlift (abi_UnpackBool "transfer" (res_Ret res));
    if negb unpackedRet then mraise ErrLogic
    else
      balanceTokenAfter ← token_balance contract receiver;
      if negb (balanceTokenAfter =? balanceToken + amount) then mraise ErrBalanceInvariance
      else BurnCoins ModuleName coins;; mlift (monitorApprovalEvent res).

(** *** Governance *)

(** proposal.go *)
Definition CreateDenomDescription (address : string) : string := "Cosmos coin token representation of " +:+ address.
Definition CreateDenom (address : string) : string := ModuleName +:+ "/" +:+ address.

(** utils.go: [(?m)^(\d+)] removes the digits at the beginning of each line; the other expression removes a first character that is not
    a letter and every character that is not a letter, a digit, a slash or a dash. *)
Definition is_letter (c : Ascii.ascii) : bool :=
  let n := Ascii.N_of_ascii c in ((65 <=? n) && (n <=? 90) || (97 <=? n) && (n <=? 122))%N.
Definition is_digit_char (c : Ascii.ascii) : bool := let n := Ascii.N_of_ascii c in ((48 <=? n) && (n <=? 57))%N.
Definition is_name_char (c : Ascii.ascii) : bool := is_letter c || is_digit_char c || Ascii.eqb c (Ascii.ascii_of_nat 47) || Ascii.eqb c (Ascii.ascii_of_nat 45).

Fixpoint remove_line_digits (start : bool) (s : string) : string :=
  match s with
  | EmptyString => EmptyString
  | String c rest =>
      if start && is_digit_char c then remove_line_digits true rest
      else String c (remove_line_digits (Ascii.eqb c (Ascii.ascii_of_nat 10)) rest)
  end.
Definition removeLeadingNumbers (s : string) : string := remove_line_digits true s.

Fixpoint keep_name_chars (s : string) : string :=
  match s with EmptyString => EmptyString | String c rest => if is_name_char c then String c (keep_name_chars rest) else keep_name_chars rest end.
Definition removeSpecialChars (s : string) : string :=
  match s with EmptyString => EmptyString | String c rest => if is_letter c then String c (keep_name_chars rest) else keep_name_chars rest end.

Fixpoint remove_prefixes (fuel : nat) (s : string) : string :=
  match fuel with
  | O => s
  | S fuel =>
      match strip_prefix "ibc/" s with
      | Some s => remove_prefixes fuel s
      | None => match strip_prefix "erc20/" s with Some s => remove_prefixes fuel s | None => s end
      end
  end.
Definition removeInvalidPrefixes (s : string) : string := remove_prefixes (String.length s) s.

Definition SanitizeERC20Name (name : string) : string :=
  removeInvalidPrefixes (String.substring 0 128 (removeSpecialChars (removeLeadingNumbers name))).

Definition coin_metadata (contract : Address) (d : ERC20Data) : Metadata :=
  let strContract := AddressString contract in
  let base := CreateDenom strContract in
  let nameSanitized := SanitizeERC20Name (data_Name d) in
  mkMetadata (CreateDenomDescription strContract)
    ((base, 0) :: if 0 <? data_Decimals d then [(nameSanitized, data_Decimals d)] else [])
    base (if 0 <? data_Decimals d then nameSanitized else base) (CreateDenom strContract) (data_Symbol d).

Definition CreateCoinMetadata (contract : Address) : M W Metadata :=
  erc20Data ← QueryERC20 contract;
  found ← mgets (HasDenomMetaData (CreateDenom (AddressString contract)));
  if found : bool then mraise ErrInternalTokenPair
  else
    st ← mgets view;
    if IsDenomRegistered (CreateDenom (AddressString contract)) st then mraise ErrInternalTokenPair
    else
      let metadata := coin_metadata contract erc20Data in
      mlift (md_Validate (W:=W) metadata);;
      mmodify (SetDenomMetaData metadata);;
      mret metadata.

Definition registerERC20 (contract : Address) : M W TokenPair :=
  st ← mgets view;
  if IsERC20Registered contract st then mraise ErrTokenPairAlreadyExists
  else
    metadata ← CreateCoinMetadata contract;
    let tp := NewTokenPair contract (md_Name metadata) OWNER_EXTERNAL in
    on_erc20 (mmodify (SetToken tp));; mret tp.

Definition updateCoinMetadata (metadata : Metadata) : M W unit :=
  mlift (md_Validate (W:=W) metadata);;
  st ← mgets view;
  mlift (find_pair (md_Base metadata) st);;
  mmodify (SetDenomMetaData metadata).

Definition toggleConversion (token : string) : M Erc20State TokenPair := fun st =>
  match find_pair token st with
  | Panic => (Panic, st)
  | Err e => (Err e, st)
  | Ok tp => let tp := set_enabled (negb (Enabled tp)) tp in (Ok tp, SetTokenPair tp st)
  end.

Definition validateAuthority (a : string) : res unit :=
  match AccAddressFromBech32 a with
  | None => Err ErrInvalidAddress
  | Some _ => if bool_decide (AddrString authority = a) then Ok tt else Err ErrInvalidSigner
  end.

Definition UpdateParams (auth : string) (params : Erc20Params) : M W unit := mlift (validateAuthority auth);; SetParams params.

(** What the three handlers of governance check first. *)
Definition when_enabled (auth : string) (m : M W unit) : M W unit :=
  st ← mgets view;
  if negb (IsERC20Enabled st) then mraise ErrERC20Disabled else mlift (validateAuthority auth);; m.

Definition RegisterERC20 (auth : string) (erc20Addresses : list string) : M W unit :=
  when_enabled auth (for_each (fun addr =>
    if negb (is_hex_address addr) then mraise ErrInvalidAddress else registerERC20 (HexToAddress addr);; mret tt) erc20Addresses).

Definition ToggleConversion (auth token : string) : M W unit := when_enabled auth (on_erc20 (toggleConversion token);; mret tt).

Definition UpdateCoinMetadata (auth : string) (mds : list Metadata) : M W unit := when_enabled auth (for_each updateCoinMetadata mds).

(** *** IBC *)

(** ibc/utils.go *)
Definition GetTransferSenderRecipient (data : FungibleTokenPacketData) : res (string * string) :=
  sender ← GetHaqqAddressFromBech32 (pd_Sender data);
  recipient ← GetHaqqAddressFromBech32 (pd_Receiver data);
  Ok (sender, recipient).

Definition trace_denom (t : string * string) : string := IBCDenom (fst t) (snd t).

(** The denomination as this chain sees it; the slice cuts the prefix of the sender's chain off. *)
Definition GetReceivedCoin (pk : Packet) (rawDenom rawAmt : string) : string * option Z :=
  let amount := NewIntFromString rawAmt in
  if ReceiverChainIsSource (SourcePort pk) (SourceChannel pk) rawDenom then
    let n := String.length (GetDenomPrefix (SourcePort pk) (SourceChannel pk)) in
    (trace_denom (ParseDenomTrace (String.substring n (String.length rawDenom - n) rawDenom)), amount)
  else
    (trace_denom (ParseDenomTrace (GetDenomPrefix (DestinationPort pk) (DestinationChannel pk) +:+ rawDenom)), amount).

Definition GetSentCoin (rawDenom rawAmt : string) : string * option Z :=
  (trace_denom (ParseDenomTrace rawDenom), NewIntFromString rawAmt).

Fixpoint has_slash (s : string) : bool :=
  match s with EmptyString => false | String c rest => Ascii.eqb c (Ascii.ascii_of_nat 47) || has_slash rest end.

(** No path, and a base without a slash. *)
Definition IsBaseDenomFromSourceChain (rawDenom : string) : bool :=
  let '(path, base) := ParseDenomTrace rawDenom in
  bool_decide (path = EmptyString) && negb (has_slash base).

Definition module_account (a : string) (w : W) : bool :=
  match GetAccount a w with Some acc => IsModuleAccount (W:=W) acc | None => false end.

(** The acknowledgement: [None] is the one that was given, an error is an error acknowledgement. *)
Definition ack_error (m : M W unit) : M W (option err) := fun w =>
  match m w with (Ok _, w') => (Ok None, w') | (Err e, w') => (Ok (Some e), w') | (Panic, w') => (Panic, w') end.

(** The last part of [OnRecvPacket]: a new pair for a coin of one hop, or the conversion of the recipient's whole balance. *)
Definition recv_convert (denom rawDenom recipient : string) : M W unit := fun w =>
  let st := view w in
  match GetTokenPair (GetTokenPairID denom st) st with
  | None =>
      if bool_decide (is_Some (strip_prefix "ibc/" denom)) && IsBaseDenomFromSourceChain rawDenom
      then (RegisterERC20Extension denom;; mret tt) w else (Ok tt, w)
  | Some tp =>
      if IsNativeERC20 tp && Enabled tp
      then ConvertCoinNativeERC20 tp (Keepers.GetBalance recipient denom w) (BytesToAddress recipient) recipient w
      else (Ok tt, w)
  end.

Definition OnRecvPacket (pk : Packet) : M W (option err) := fun w =>
  if negb (IsERC20Enabled (view w)) then (Ok None, w)
  else
    match UnmarshalPacketData (pk_Data pk) with
    | Panic => (Panic, w)
    | Err _ => (Ok (Some (ErrText "cannot unmarshal ICS-20 transfer packet data")), w)
    | Ok data =>
        match GetTransferSenderRecipient data with
        | Panic => (Panic, w)
        | Err e => (Ok (Some e), w)
        | Ok (sender, recipient) =>
            if bool_decide (sender = recipient) && negb (IsEVMChannel (EvmParams.GetParams (view w)) (DestinationChannel pk))
            then (Ok (Some ErrInvalidIBC), w)
            else if module_account recipient w then (Ok None, w)
            else
              let '(denom, _) := GetReceivedCoin pk (pd_Denom data) (pd_Amount data) in
              if bool_decide (is_Some (strip_prefix "factory/" (pd_Denom data))) then (Ok None, w)
              else
                match BondDenom w with
                | Panic => (Panic, w)
                | Err e => (Ok (Some e), w)
                | Ok bondDenom =>
                    if bool_decide (denom = bondDenom) then (Ok None, w)
                    else ack_error (recv_convert denom (pd_Denom data) recipient) w
                end
        end
    end.

(** A missing amount is a nil integer, on which the sign cannot be taken. *)
Definition ConvertCoinToERC20FromPacket (data : FungibleTokenPacketData) : M W unit := fun w =>
  match AccAddressFromBech32 (pd_Sender data) with
  | None => (Err ErrInvalidAddress, w)
  | Some sender =>
      let st := view w in
      match GetTokenPair (GetTokenPairID (pd_Denom data) st) st with
      | None => (Ok tt, w)
      | Some tp =>
          let '(denom, amount) := GetSentCoin (pd_Denom data) (pd_Amount data) in
          if IsNativeCoin tp then (Ok tt, w)
          else if IsNativeERC20 tp then
            match GetParams st with
            | Panic => (Panic, w)
            | Err e => (Err e, w)
            | Ok params =>
                if negb (EnableErc20 params) || negb (IsDenomRegistered denom st) then (Ok tt, w)
                else if module_account sender w then (Ok tt, w)
                else
                  match amount with
                  | None => (Panic, w)
                  | Some x => ConvertCoinNativeERC20 tp x (BytesToAddress sender) sender w
                  end
            end
          else (Ok tt, w)
      end
  end.

Definition OnAcknowledgementPacket (data : FungibleTokenPacketData) (failed : bool) : M W unit :=
  if failed then ConvertCoinToERC20FromPacket data else mret tt.
Definition OnTimeoutPacket (data : FungibleTokenPacketData) : M W unit := ConvertCoinToERC20FromPacket data.

(** *** Genesis *)

Definition InitGenesis (data : Erc20Genesis) : M W unit := fun w =>
  match SetParams (eg_Params data) w with
  | (Ok _, w) =>
      if bool_decide (GetModuleAccount ModuleName w = None) then (Panic, w)
      else (Ok tt, update (foldl (fun st tp => SetToken tp st) (view w) (eg_TokenPairs data)) w)
  | (_, w) => (Panic, w)
  end.

Definition ExportGenesis (w : W) : res Erc20Genesis :=
  params ← GetParams (view w); Ok (mkErc20Genesis params (GetTokenPairs (view w))).

(** *** Messages *)

Definition ValidateBasic_ConvertERC20 (msg : MsgConvertERC20) : res unit :=
  if negb (is_hex_address (mc_ContractAddress msg)) then Err ErrInvalidAddress
  else if mc_Amount msg <=? 0 then Err ErrInvalidCoins
  else if bool_decide (AccAddressFromBech32 (mc_Receiver msg) = None) then Err ErrInvalidAddress
  else if negb (is_hex_address (mc_Sender msg)) then Err ErrInvalidAddress
  else Ok tt.
Definition ValidateBasic_UpdateParams (auth : string) (params : Erc20Params) : res unit :=
  if bool_decide (AccAddressFromBech32 auth = None) then Err ErrInvalidAddress else Params_Validate params.

Definition ValidateBasic_RegisterERC20 (erc20Addresses : list string) : res unit :=
  check_all (fun addr => if is_hex_address addr then Ok tt else Err ErrInvalidAddress) erc20Addresses.

Definition ValidateBasic_ToggleConversion (auth : string) : res unit :=
  if bool_decide (AccAddressFromBech32 auth = None) then Err ErrInvalidAddress else Ok tt.

(** *** Queries *)

Definition ErrInvalidToken : err := ErrText "invalid format for token, should be either hex ('0x...') cosmos denom".

Definition query_TokenPair (token : string) (w : W) : res TokenPair :=
  if negb (is_hex_address token) && negb (ValidDenom token) then Err ErrInvalidToken else find_pair token (view w).

Definition query_Params (w : W) : res Erc20Params := GetParams (view w).

(** *** The contract of a coin *)

(** The creation code of the contract, the encoding of its constructor's arguments and the sequence of an account. *)
Context (ContractBin : string) (pack_constructor : string -> string -> Z -> res string) (GetSequence : string -> W -> res Z)
  (CreateAddress : Address -> Z -> Address).

Definition ErrABIPack : err := ErrText "contract ABI pack failed".

(** The decimals are the last exponent, as a [uint8]. *)
Definition DeployERC20Contract (md : Metadata) : M W Address :=
  let decimals := match md_DenomUnits md !! (length (md_DenomUnits md) - 1)%nat with Some (_, exponent) => exponent mod 2 ^ 8 | None => 0 end in
  ctorArgs ← mwrap ErrABIPack (mlift (pack_constructor (md_Name md) (md_Symbol md) decimals));
  nonce ← (fun w => (GetSequence ModuleAddress w, w));
  CallEVMWithData ModuleAddress None (ContractBin +:+ ctorArgs) true;;
  mret (CreateAddress ModuleAddress nonce).

(** *** The middleware *)

(** The application below: its acknowledgement is nil, a success ([Some None]) or an error. *)
Context (app_OnRecvPacket : Packet -> M W (option (option err))) (app_OnAcknowledgementPacket : Packet -> string -> M W unit)
  (app_OnTimeoutPacket : Packet -> M W unit) (UnmarshalAcknowledgement : string -> res bool).

Definition ErrUnknownRequest : err := ErrText "unknown request".

(** ibc_middleware.go: the module converts what the application has received or refunded. *)
Definition middleware_OnRecvPacket (pk : Packet) : M W (option (option err)) :=
  ack ← app_OnRecvPacket pk;
  match ack with
  | None => mret None
  | Some (Some e) => mret (Some (Some e))
  | Some None => e ← OnRecvPacket pk; mret (Some e)
  end.

(** [true] is an error acknowledgement. *)
Definition middleware_OnAcknowledgementPacket (pk : Packet) (acknowledgement : string) : M W unit :=
  failed ← mwrap ErrUnknownRequest (mlift (UnmarshalAcknowledgement acknowledgement));
  data ← mwrap ErrUnknownRequest (mlift (UnmarshalPacketData (pk_Data pk)));
  app_OnAcknowledgementPacket pk acknowledgement;;
  OnAcknowledgementPacket data failed.

Definition middleware_OnTimeoutPacket (pk : Packet) : M W unit :=
  data ← mwrap ErrUnknownRequest (mlift (UnmarshalPacketData (pk_Data pk)));
  app_OnTimeoutPacket pk;;
  OnTimeoutPacket data.

(** *** x/ibc/transfer *)

(** ibc-go's [Transfer], which returns the sequence of the packet. *)
Context (ics20_Transfer : IbcMsgTransfer -> M W Z).

(** A pair that is not found is the zero value, which is not enabled. *)
Definition ibc_Transfer (msg : IbcMsgTransfer) : M W Z := fun w =>
  let denom := default (Denom (it_Token msg)) (strip_prefix (ModuleName +:+ "/") (Denom (it_Token msg))) in
  let pairID := GetTokenPairID denom (view w) in
  if bool_decide (pairID = EmptyString) then ics20_Transfer msg w
  else
    match GetTokenPair pairID (view w) with
    | None => ics20_Transfer msg w
    | Some tp =>
        if negb (Enabled tp) then ics20_Transfer msg w
        else
          match AccAddressFromBech32 (it_Sender msg) with
          | None => (Panic, w)
          | Some sender =>
              if negb (IsERC20Enabled (view w)) then ics20_Transfer msg w
              else
                let msg := set_transfer_denom (PairDenom tp) msg in
                if negb (IsNativeERC20 tp) then ics20_Transfer msg w
                else
                  let balance := Keepers.GetBalance sender (PairDenom tp) w in
                  if Amount (it_Token msg) <=? balance then ics20_Transfer msg w
                  else
                    let difference := Amount (it_Token msg) - balance in
                    (ConvertERC20 (NewMsgConvertERC20 difference sender (GetERC20Contract tp) (BytesToAddress sender));;
                     ics20_Transfer msg) w
          end
    end.
End keeper.

(** ** Helpers of ibc/utils.go and of the proposals *)

Definition ErrNoIBCVoucherDenom : err := ErrText "denom is not an IBC voucher".
Definition ErrDenomTraceNotFound : err := ErrText "denom trace not found".
Definition ErrInvalidBaseDenom : err := ErrText "invalid base denomination".

(** The trace of a voucher, with the transfer keeper's look-up. *)
Definition GetDenomTrace `{IbcOps} {W} (lookup_trace : string -> W -> option (string * string)) (denom : string) (w : W) : res (string * string) :=
  match strip_prefix "ibc/" denom with
  | None => Err ErrNoIBCVoucherDenom
  | Some rest =>
      match ParseHexHash rest with
      | None => Err (ErrText "invalid denom trace hash")
      | Some hash => match lookup_trace hash w with None => Err ErrDenomTraceNotFound | Some t => Ok t end
      end
  end.

Definition DeriveDecimalsFromDenom (baseDenom : string) : res Z :=
  match baseDenom with
  | EmptyString => Err ErrInvalidBaseDenom
  | String c _ =>
      if Ascii.eqb c (Ascii.ascii_of_nat 117) then Ok 6
      else if Ascii.eqb c (Ascii.ascii_of_nat 97) then Ok 18
      else Err ErrInvalidBaseDenom
  end.

(** [strings.SplitN(denom, "/", 2)]: what is before the first slash must be the name of the module. *)
Definition ValidateErc20Denom `{EvmText} (denom : string) : res unit :=
  match strip_prefix (ModuleName +:+ "/") denom with None => Err (ErrText "invalid denom") | Some address => ValidateAddress address end.
