(* ===== verification/Erc20Theory.v ===== *)
(** * What x/erc20 ensures: the registry and the parameters

    The three maps of the registry agree in every reachable state ([registry_invariant]); the parameters are read back as they
    were set when every text has the full length ([erc20_params_roundtrip]), and cannot be read any more when one
    has not ([short_precompile_panics]). *)

From S2P Require Import Prelude.
From S2P Require Import Sdk.
From S2P Require Import Schedule.
From S2P Require Import ClawbackAccount.
From S2P Require Import Keepers.
From S2P Require Import TokenPair.
From S2P Require Import AccessList.
From S2P Require Import StateDB.
From S2P Require Import EvmParams.
From S2P Require Import EvmMachine.
From S2P Require Import EvmConfig.
From S2P Require Import StateTransition.
From S2P Require Import Erc20.

Local Open Scope Z_scope.

(** ** Library code *)

(** An address has twenty bytes; its text is 42 characters of hexadecimal and gives the address back, which a voucher's is not; no two
    texts have the same hash. *)
Class PairLaws `{IbcOps, AddrCheck, EvmText} : Prop := {
  hex_length s : String.length (HexToAddress s) = 20%nat;
  bytes_length s : String.length (BytesToAddress s) = 20%nat;
  text_address a : String.length a = 20%nat -> HexToAddress (AddressString a) = a;
  text_length a : String.length a = 20%nat -> String.length (AddressString a) = addressLength;
  text_is_hex a : String.length a = 20%nat -> is_hex_address (AddressString a) = true;
  ibc_not_hex s : is_hex_address ("ibc/" +:+ s) = false;
  hash_inj s t : TmHash s = TmHash t -> s = t;
  hash_not_empty s : TmHash s <> EmptyString
}.

(** ** Texts *)

Lemma string_app_length s t : String.length (s +:+ t) = (String.length s + String.length t)%nat.
Proof. induction s; simpl; auto. Qed.

Lemma string_app_nil s : s +:+ EmptyString = s.
Proof. induction s as [|c s IH]; [done|]. change (String c (s +:+ EmptyString) = String c s). by rewrite IH. Qed.

Lemma string_app_inj s s' t t' : String.length s = String.length s' -> s +:+ t = s' +:+ t' -> s = s' /\ t = t'.
Proof.
  revert s'. induction s as [|c s IH]; intros [|c' s'] Hl E; try discriminate; [done|].
  simpl in *. injection Hl as Hl. injection E as -> E. destruct (IH s' Hl E) as [-> ->]. done.
Qed.

Lemma substring_app_l s t n : String.length s = n -> String.substring 0 n (s +:+ t) = s.
Proof. intros <-. induction s as [|c s IH]; simpl; [by destruct t|by rewrite IH]. Qed.

Lemma substring_full n s : String.length s = n -> String.substring 0 n s = s.
Proof. intros <-. induction s as [|c s IH]; simpl; [done|by rewrite IH]. Qed.

Lemma substring_app_r s t n : String.length s = n -> String.substring n (String.length t) (s +:+ t) = t.
Proof. intros <-. induction s as [|c s IH]; simpl; [by apply substring_full|apply IH]. Qed.

Lemma strip_prefix_inv p s r : strip_prefix p s = Some r -> s = p +:+ r.
Proof.
  revert s. induction p as [|a p IH]; intros s; simpl; [by intros [= ->]|]. destruct s as [|b s]; [done|].
  destruct (Ascii.eqb_spec a b) as [->|]; [|done]. intros ->%IH. done.
Qed.

(** ** Parameters *)

Lemma split_join l fuel : Forall (fun s => String.length s = addressLength) l -> (String.length (join l) <= fuel)%nat ->
  split_loop fuel (join l) = Ok l.
Proof.
  intros Hl. revert fuel. induction Hl as [|s l Hs Hl IH]; intros fuel Hf; [by destruct fuel|].
  simpl join in *. rewrite string_app_length in Hf. destruct fuel as [|fuel]; [unfold addressLength in *; lia|]. cbn [split_loop].
  rewrite bool_decide_false by (intros E; apply (f_equal String.length) in E; rewrite string_app_length in E; unfold addressLength in *; simpl in E; lia).
  destruct (Nat.ltb_spec (String.length (s +:+ join l)) addressLength); [rewrite string_app_length in *; lia|].
  rewrite string_app_length, Hs. replace (addressLength + String.length (join l) - addressLength)%nat with (String.length (join l)) by lia.
  rewrite substring_app_r, substring_app_l by done. rewrite IH by (unfold addressLength in *; lia). done.
Qed.

Lemma split_precompiles_join l : Forall (fun s => String.length s = addressLength) l -> split_precompiles (join l) = Ok l.
Proof. intros Hl. by apply split_join. Qed.

Lemma sort_texts_sorted l : StronglySorted String.le (sort_texts l).
Proof. apply StronglySorted_merge_sort; apply _. Qed.

Lemma sort_texts_id l : StronglySorted String.le l -> sort_texts l = l.
Proof. intros Hl. apply (StronglySorted_unique String.le); [apply sort_texts_sorted|done|]. apply merge_sort_Permutation. Qed.

Lemma sort_texts_all (Q : string -> Prop) l : Forall Q l -> Forall Q (sort_texts l).
Proof. intros Hl. unfold sort_texts. by rewrite merge_sort_Permutation. Qed.

Definition full_texts (p : Erc20Params) : Prop :=
  Forall (fun s => String.length s = addressLength) (NativePrecompiles p) /\
  Forall (fun s => String.length s = addressLength) (DynamicPrecompiles p).

(** The parameters cannot be read. *)
Definition unreadable (st : Erc20State) : Prop := GetParams st = Panic.

Definition sorted_params (p : Erc20Params) : Erc20Params :=
  mkErc20Params (EnableErc20 p) (sort_texts (NativePrecompiles p)) (sort_texts (DynamicPrecompiles p)).

(** ** The registry *)

Section registry.
Context `{IbcOps} `{AddrCheck} `{EvmText} {HPL : PairLaws}.

(** The text of the pair's contract is the one that [Address.String] gives. *)
Definition canonical (tp : TokenPair) : Prop := Erc20Address tp = AddressString (GetERC20Contract tp).

Record registry_ok (st : Erc20State) : Prop := {
  ro_pair id tp : er_pairs st !! id = Some tp ->
    id = GetID tp /\ canonical tp /\ er_by_erc20 st !! GetERC20Contract tp = Some id /\ er_by_denom st !! PairDenom tp = Some id;
  ro_erc20 c id : er_by_erc20 st !! c = Some id -> exists tp, er_pairs st !! id = Some tp /\ GetERC20Contract tp = c;
  ro_denom d id : er_by_denom st !! d = Some id -> exists tp, er_pairs st !! id = Some tp /\ PairDenom tp = d
}.

Lemma GetID_inj p q : canonical p -> canonical q -> GetID p = GetID q -> Erc20Address p = Erc20Address q /\ PairDenom p = PairDenom q.
Proof.
  intros Cp Cq E%hash_inj. apply string_app_inj in E as [Ea Ed]; [|by rewrite Cp, Cq, !text_length by apply hex_length].
  injection Ed as Ed. done.
Qed.

Lemma registry_empty : registry_ok (mkErc20 ∅ ∅ ∅ false "" "").
Proof. split; simpl; intros ? ?; by rewrite lookup_empty. Qed.

Lemma SetToken_ok tp st : canonical tp -> er_by_erc20 st !! GetERC20Contract tp = None -> er_by_denom st !! PairDenom tp = None ->
  registry_ok st -> registry_ok (SetToken tp st).
Proof.
  intros Hc He Hd [Rp Re Rd].
  assert (Hn : er_pairs st !! GetID tp = None).
  { destruct (er_pairs st !! GetID tp) as [q|] eqn:E; [|done]. destruct (Rp _ _ E) as (Ei & Cq & _ & Hq).
    destruct (GetID_inj tp q Hc Cq Ei) as [_ Epd]. congruence. }
  split; simpl.
  - intros id q. rewrite lookup_insert. case_decide as Hi; [intros [= <-]; subst id; by rewrite !lookup_insert_eq|].
    intros E. destruct (Rp _ _ E) as (Ei & Cq & Hq1 & Hq2). rewrite !lookup_insert_ne by congruence. done.
  - intros c id. rewrite lookup_insert. case_decide as Hi; [intros [= <-]; exists tp; by rewrite lookup_insert_eq|].
    intros E. destruct (Re _ _ E) as (q & Hq & Eq). exists q. by rewrite lookup_insert_ne by congruence.
  - intros d id. rewrite lookup_insert. case_decide as Hi; [intros [= <-]; exists tp; by rewrite lookup_insert_eq|].
    intros E. destruct (Rd _ _ E) as (q & Hq & Eq). exists q. by rewrite lookup_insert_ne by congruence.
Qed.

Lemma toggle_ok tp b st id : er_pairs st !! id = Some tp -> registry_ok st -> registry_ok (SetTokenPair (set_enabled b tp) st).
Proof.
  intros E [Rp Re Rd]. destruct (Rp _ _ E) as (Ei & Cp & H1' & H2').
  assert (Eid : GetID (set_enabled b tp) = id) by (by rewrite Ei).
  split; simpl; rewrite Eid.
  - intros i q. rewrite lookup_insert. case_decide as Hi; [intros [= <-]; by subst i|apply Rp].
  - intros c i Hc. destruct (Re _ _ Hc) as (q & Hq & Eq). rewrite lookup_insert. case_decide as Hi; [|by exists q].
    subst i. rewrite E in Hq. injection Hq as <-. by exists (set_enabled b tp).
  - intros d i Hd. destruct (Rd _ _ Hd) as (q & Hq & Eq). rewrite lookup_insert. case_decide as Hi; [|by exists q].
    subst i. rewrite E in Hq. injection Hq as <-. by exists (set_enabled b tp).
Qed.

Lemma delete_ok tp st : er_pairs st !! GetID tp = Some tp -> registry_ok st -> registry_ok (DeleteTokenPair tp st).
Proof.
  intros E [Rp Re Rd]. destruct (Rp _ _ E) as (_ & Cp & Ep1 & Ep2). split; simpl.
  - intros i q. rewrite lookup_delete. case_decide as Hi; [done|]. intros Hq. destruct (Rp _ _ Hq) as (Ei & Cq & Hq1 & Hq2).
    rewrite !lookup_delete_ne by congruence. done.
  - intros c i. rewrite lookup_delete. case_decide as Hc; [done|]. intros Hi. destruct (Re _ _ Hi) as (q & Hq & Eq).
    exists q. rewrite lookup_delete_ne; [done|]. intros <-. congruence.
  - intros d i. rewrite lookup_delete. case_decide as Hc; [done|]. intros Hi. destruct (Rd _ _ Hi) as (q & Hq & Eq).
    exists q. rewrite lookup_delete_ne; [done|]. intros <-. congruence.
Qed.

(** The pair that a token finds is registered. *)
Lemma find_pair_ok token st tp : registry_ok st -> find_pair token st = Ok tp -> er_pairs st !! GetID tp = Some tp.
Proof.
  intros [Rp _ _]. unfold find_pair, GetTokenPair. case_bool_decide; [done|].
  destruct (er_pairs st !! GetTokenPairID token st) as [q|] eqn:E; [|done]. intros [= ->]. destruct (Rp _ _ E) as (<- & _). done.
Qed.
End registry.

(** ** The keeper *)

(** A pair whose contract and whose denomination have no pair yet. *)
Definition new_pair `{IbcOps} `{AddrCheck} `{EvmText} (tp : TokenPair) (st : Erc20State) : Prop :=
  canonical tp /\ er_by_erc20 st !! GetERC20Contract tp = None /\ er_by_denom st !! PairDenom tp = None.

(** What the rest of the chain does to the module's state: a conversion that finds no contract removes the pair (a precompile
    offers conversions), [Liquidate] of x/liquidvesting, which the liquid precompile offers too, and the genesis of x/ethiq
    register a new pair, and both enable its precompile. *)
Inductive touched `{IbcOps} `{AddrCheck} `{EvmText} : Erc20State -> Erc20State -> Prop :=
  | removed tp st : er_pairs st !! GetID tp = Some tp -> touched st (DeleteTokenPair tp st)
  | registered tp st : new_pair tp st -> touched st (SetToken tp st)
  | parametrised st st' : er_pairs st' = er_pairs st -> er_by_erc20 st' = er_by_erc20 st -> er_by_denom st' = er_by_denom st ->
      touched st st'.

Lemma touched_ok `{PairLaws} st st' : rtc touched st st' -> registry_ok st -> registry_ok st'.
Proof.
  induction 1 as [|x y z Hxy _ IH]; [done|]. intros Hr. apply IH. destruct Hxy as [tp st Ht|tp st (Hc & He & Hd)|st st' E1 E2 E3].
  - by apply delete_ok.
  - by apply SetToken_ok.
  - destruct Hr as [Rp Re Rd]. split; rewrite ?E1, ?E2, ?E3; done.
Qed.

Lemma ibc_address_length `{PairLaws} denom a : GetIBCDenomAddress denom = Ok a -> String.length a = 20%nat.
Proof.
  unfold GetIBCDenomAddress. destruct (strip_prefix _ denom); [|done]. case_match; [done|].
  destruct (ParseHexHash _); [|done]. intros [= <-]. apply bytes_length.
Qed.
Lemma own_canonical `{PairLaws} a d e o : String.length a = 20%nat ->
  canonical (mkPair (AddressString a) d e o) /\ GetERC20Contract (mkPair (AddressString a) d e o) = a.
Proof. intros Ha. unfold canonical, GetERC20Contract. simpl. by rewrite text_address. Qed.

(** The three writes of [Liquidate], with the real denomination in place of the made-up one that the contract is derived from. *)
Lemma liquid_registers `{PairLaws} fakeIBCDenom denom pair st : NewTokenPairSTRv2 fakeIBCDenom = Ok pair ->
  let tp := set_pair_denom denom pair in
  er_by_erc20 st !! GetERC20Contract tp = None -> er_by_denom st !! denom = None ->
  touched st (SetERC20Map (GetERC20Contract tp) (GetID tp) (SetDenomMap (PairDenom tp) (GetID tp) (SetTokenPair tp st))).
Proof.
  intros E tp He Hd. unfold NewTokenPairSTRv2 in E. apply res_bind_ok in E as (a & Ea & [= <-]).
  apply (registered tp). split; [|done]. by apply own_canonical, (ibc_address_length fakeIBCDenom).
Qed.

(** The pair of aHAQQ, whose denomination x/ethiq checks. *)
Lemma haqq_registers `{PairLaws} hash denom st : let a := BytesToAddress hash in let tp := NewTokenPair a denom OWNER_MODULE in
  IsDenomRegistered denom st = false -> er_by_erc20 st !! a = None -> touched st (SetToken tp st).
Proof.
  intros a tp Hd He. destruct (own_canonical a denom true OWNER_MODULE) as [Hc Hg]; [apply bytes_length|].
  apply registered. split_and!; [done|unfold tp, NewTokenPair; by rewrite Hg|]. apply bool_decide_eq_false in Hd. by apply eq_None_not_Some.
Qed.

(** What the module's handlers rely on: a call that does not commit reads the state, the accounts of the EVM are apart from the
    registry, and a contract that is called reaches the registry only through the precompiles, that is by the steps above. *)
Class Erc20Rely (W : Type) `{StateKeeper W, IbcOps, AddrCheck, EvmText, Erc20Evm W, Lens W Erc20State} : Prop := {
  query_reads from c method args (w : W) r w' : CallEVM from c false method args w = (r, w') -> w' = w;
  call_registry from c commit method args (w : W) r w' : CallEVM from c commit method args w = (r, w') -> rtc touched (view w) (view w');
  call_data_registry from c data commit (w : W) r w' : CallEVMWithData from c data commit w = (r, w') -> rtc touched (view w) (view w');
  evm_account_view a acct (w : W) r w' : keeper_SetAccount a acct w = (r, w') -> view (S:=Erc20State) w' = view w;
  evm_code_view h c (w : W) : view (S:=Erc20State) (keeper_SetCode h c w) = view w
}.

Section keeper.
Context {W P : Type} `{StateKeeper W, Keccak} `{IbcOps} `{AddrCheck} `{EvmText} {HPL : PairLaws} `{SdkOps, !SdkLaws} `{EthOps} `{Erc20Abi}
  `{IbcPackets} `{Ctx W, AccountKeeper W, BankKeeper W, ModuleBank W, SupplyKeeper W, StakingKeeper W, Erc20Evm W, Erc20Bank W}
  `{Lens W Erc20State} `{Lens W ParamsStore} {HMS : ModuleState W Erc20State} {HR : Erc20Rely W}.
Context (Erc20Bytecode : string) (authority : string) (ModuleAddress : Address).

(** An operation that leaves the registry in order, whatever it returns. *)
Definition keeps {A} (m : M W A) : Prop := forall w r w', m w = (r, w') -> registry_ok (view w) -> registry_ok (view w').

Lemma keeps_bind {A B} (m : M W A) (f : A -> M W B) : keeps m -> (forall a, keeps (f a)) -> keeps (m ≫= f).
Proof.
  intros Hm Hf w r w'. unfold mbind, M_bind. destruct (m w) as [[a|e|] w1] eqn:E.
  - intros E' Hr. eapply Hf; [exact E'|]. by eapply Hm.
  - intros [= <- <-]. by eapply Hm.
  - intros [= <- <-]. by eapply Hm.
Qed.
Lemma keeps_view {A} (m : M W A) : (forall w r w', m w = (r, w') -> view (S:=Erc20State) w' = view w) -> keeps m.
Proof. intros Hm w r w' E Hr. by rewrite (Hm _ _ _ E). Qed.
Lemma keeps_lift {A} (r : res A) : keeps (mlift r).
Proof. by intros w r' w' [= <- <-]. Qed.
Lemma keeps_ret {A} (a : A) : keeps (mret a).
Proof. by intros w r' w' [= <- <-]. Qed.
Lemma keeps_raise {A} e : keeps (A:=A) (mraise e).
Proof. by intros w r' w' [= <- <-]. Qed.
Lemma keeps_gets {A} (f : W -> A) : keeps (mgets f).
Proof. by intros w r' w' [= <- <-]. Qed.
Lemma keeps_wrap {A} e (m : M W A) : keeps m -> keeps (mwrap e m).
Proof.
  intros Hm w r w'. unfold mwrap. destruct (m w) as [[a|x|] w1] eqn:E; intros [= <- <-] Hr; by eapply Hm.
Qed.
Lemma keeps_each {A} (f : A -> M W unit) l : (forall a, keeps (f a)) -> keeps (for_each f l).
Proof. intros Hf. induction l as [|a l IH]; simpl; [apply keeps_ret|]. by apply keeps_bind; [apply Hf|intros _]. Qed.
Lemma keeps_mint m cs : keeps (MintCoins m cs).
Proof. apply keeps_view. intros w r w'. apply mint_view. Qed.
Lemma keeps_burn m cs : keeps (BurnCoins m cs).
Proof. apply keeps_view. intros w r w'. apply burn_view. Qed.
Lemma keeps_send m a cs : keeps (SendCoinsFromModuleToAccount m a cs).
Proof. apply keeps_view. intros w r w'. apply from_module_view. Qed.
Lemma keeps_escrow a m cs : keeps (SendCoinsFromAccountToModule a m cs).
Proof. apply keeps_view. intros w r w'. apply to_module_view. Qed.
Lemma keeps_metadata md : keeps (mmodify (SetDenomMetaData md)).
Proof. apply keeps_view. intros w r w' [= <- <-]. apply metadata_view. Qed.
Lemma keeps_call from c commit method args : keeps (CallEVM from c commit method args).
Proof. intros w r w' E. by eapply touched_ok, call_registry. Qed.
Lemma keeps_call_data from c data commit : keeps (CallEVMWithData from c data commit).
Proof. intros w r w' E. by eapply touched_ok, call_data_registry. Qed.

(** Splits a sequence of operations that are in order; [tac] proves the others. *)
Ltac in_order tac := repeat first [
  match goal with |- forall _, _ => intro end | solve [tac] | apply keeps_lift | apply keeps_ret | apply keeps_raise | apply keeps_gets
  | apply keeps_mint | apply keeps_burn | apply keeps_send | apply keeps_escrow | apply keeps_metadata
  | apply keeps_call | apply keeps_call_data | apply keeps_wrap | apply keeps_each | apply keeps_bind | case_match ].

Lemma keeps_balance contract account : keeps (BalanceOf ModuleAddress contract account).
Proof.
  intros w r w'. unfold BalanceOf. destruct (CallEVM _ _ _ _ _ w) as [[x|e|] w1] eqn:E; apply query_reads in E; by intros [= <- <-]; subst.
Qed.

Lemma keeps_token_balance contract account : keeps (token_balance ModuleAddress contract account).
Proof. unfold token_balance. in_order ltac:(apply keeps_balance). Qed.

Lemma keeps_convert tp msg receiver sender : keeps (convertERC20IntoCoinsForNativeToken ModuleAddress tp msg receiver sender).
Proof. unfold convertERC20IntoCoinsForNativeToken. in_order ltac:(apply keeps_token_balance). Qed.

Lemma keeps_convert_coin tp amount receiver sender : keeps (ConvertCoinNativeERC20 ModuleAddress tp amount receiver sender).
Proof. unfold ConvertCoinNativeERC20. in_order ltac:(apply keeps_token_balance). Qed.

Lemma code_hash_view a (w : W) r w' : RegisterERC20CodeHash Erc20Bytecode a w = (r, w') -> view (S:=Erc20State) w' = view w.
Proof.
  unfold RegisterERC20CodeHash. set (w0 := if bool_decide _ then _ else w).
  assert (E0 : view (S:=Erc20State) w0 = view w) by (subst w0; case_match; [apply evm_code_view|done]).
  destruct (match keeper_GetAccount a w0 with Some _ => _ | None => _ end) as [n b]. intros E%evm_account_view. congruence.
Qed.

Lemma no_code_hash_view s (w : W) r w' : UnRegisterERC20CodeHash s w = (r, w') -> view (S:=Erc20State) w' = view w.
Proof.
  unfold UnRegisterERC20CodeHash.
  destruct (match keeper_GetAccount _ w with Some _ => _ | None => _ end) as [n b]. apply evm_account_view.
Qed.

Lemma each_view {A} (f : A -> M W unit) l (w : W) r w' :
  (forall a w r w', f a w = (r, w') -> view (S:=Erc20State) w' = view w) -> for_each f l w = (r, w') -> view (S:=Erc20State) w' = view w.
Proof.
  intros Hf. revert w. induction l as [|a l IH]; intros w; simpl; [by intros [= <- <-]|]. unfold mbind, M_bind.
  destruct (f a w) as [[x|e|] w1] eqn:E; apply Hf in E; [|by intros [= <- <-]..]. intros E'%IH. congruence.
Qed.

Lemma UpdateCodeHash_view l (w : W) r w' : UpdateCodeHash Erc20Bytecode l w = (r, w') -> view (S:=Erc20State) w' = view w.
Proof.
  unfold UpdateCodeHash. destruct (getDynamicPrecompiles (view w)) as [old|e|]; [|by intros [= <- <-]..]. simpl. unfold mbind, M_bind.
  destruct (for_each UnRegisterERC20CodeHash _ w) as [[x|e|] w1] eqn:E1;
    (apply each_view in E1; [|apply no_code_hash_view]); [|by intros [= <- <-]..].
  intros E2. apply each_view in E2; [congruence|]. intros a w2 r2 w2'. apply code_hash_view.
Qed.

(** What the parameters are after they were set. *)
Lemma SetParams_view p (w : W) w' : SetParams Erc20Bytecode p w = (Ok tt, w') ->
  view w' = setNativePrecompiles (NativePrecompiles (sorted_params p)) (setDynamicPrecompiles (DynamicPrecompiles (sorted_params p))
    (set_enabled_param (EnableErc20 p) (view w))).
Proof.
  intros E. unfold SetParams in E. apply M_bind_ok in E as ([] & w1 & E1 & E). injection E1 as _ <-.
  apply M_bind_ok in E as ([] & w2 & E2%UpdateCodeHash_view & E). injection E as <-. by rewrite view_update, E2.
Qed.

Lemma keeps_params p : keeps (SetParams Erc20Bytecode p).
Proof.
  unfold SetParams. apply keeps_bind; [apply keeps_lift|intros _]. apply keeps_bind; [|intros _].
  - apply keeps_view. intros w r w'. apply UpdateCodeHash_view.
  - intros w r w' [= <- <-] [Rp Re Rd]. rewrite view_update. by split.
Qed.

(** *** The handlers *)

Lemma on_erc20_ok {A} (m : M Erc20State A) w r w' : on_erc20 m w = (r, w') -> exists st, m (view w) = (r, st) /\ w' = update st w.
Proof. unfold on_erc20. destruct (m (view w)) as [x st]. intros [= <- <-]. by exists st. Qed.

Lemma keeps_minting sender receiver token : forall w tp, registry_ok (view w) -> MintingEnabled sender receiver token w = Ok tp ->
  er_pairs (view w) !! GetID tp = Some tp.
Proof.
  intros w tp Hr. unfold MintingEnabled. case_match; [done|]. intros E. apply res_bind_ok in E as (tp' & Ef & E).
  revert E. do 3 (case_match; [done|]). intros [= ->]. by eapply find_pair_ok.
Qed.

Lemma keeps_delete tp w r w' : er_pairs (view w) !! GetID tp = Some tp -> on_erc20 (mmodify (DeleteTokenPair tp)) w = (r, w') ->
  registry_ok (view w) -> registry_ok (view w').
Proof. intros Ht [= <- <-] Hr. rewrite view_update. by apply delete_ok. Qed.

Lemma keeps_ConvertERC20 msg : keeps (ConvertERC20 ModuleAddress msg).
Proof.
  unfold ConvertERC20. apply keeps_bind; [apply keeps_lift|intros receiver]. intros w r w' E Hr. unfold mbind at 1, M_bind at 1 in E.
  destruct (MintingEnabled _ receiver _ w) as [tp|e|] eqn:Em; [|by injection E as <- <-..].
  apply keeps_minting in Em; [|done]. destruct (IsNativeERC20 tp).
  - unfold mbind, M_bind, mgets in E. destruct (GetAccountWithoutBalance _ w) as [a|]; [|exact (keeps_delete _ _ _ _ Em E Hr)].
    destruct (IsContract a); [exact (keeps_convert _ _ _ _ _ _ _ E Hr)|exact (keeps_delete _ _ _ _ Em E Hr)].
  - destruct (IsNativeCoin tp); injection E as <- <-; done.
Qed.

Lemma query_field_reads {A} (unpack : string -> string -> res A) contract method w a w' :
  query_field ModuleAddress unpack contract method w = (Ok a, w') -> w' = w.
Proof. intros E. apply M_bind_ok in E as (x & w1 & Ea%query_reads & E). subst w1. apply mwrap_ok in E. by injection E. Qed.

Lemma keeps_create contract : keeps (CreateCoinMetadata ModuleAddress contract).
Proof. unfold CreateCoinMetadata, QueryERC20, query_field. in_order idtac. Qed.

(** A contract's pair is new, and so is the denomination made from its text. *)
Lemma registerERC20_keeps contract : String.length contract = 20%nat -> keeps (registerERC20 ModuleAddress contract).
Proof.
  intros Hl w r w'. unfold registerERC20. unfold mbind at 1, M_bind at 1, mgets. destruct (IsERC20Registered contract (view w)) eqn:Er.
  { by intros [= <- <-]. }
  unfold IsERC20Registered in Er. apply bool_decide_eq_false in Er. apply eq_None_not_Some in Er.
  unfold mbind at 1, M_bind at 1. destruct (CreateCoinMetadata ModuleAddress contract w) as [[md|e|] w1] eqn:Em.
  - intros E Hr. assert (Hm : view (S:=Erc20State) w1 = view w /\ er_by_denom (view w) !! md_Name md = None).
    { clear E. unfold CreateCoinMetadata in Em. apply M_bind_ok in Em as (d & w0 & Eq & Em).
      assert (w0 = w) as ->.
      { unfold QueryERC20 in Eq. apply M_bind_ok in Eq as (n & wa & Ea%query_field_reads & Eq).
        apply M_bind_ok in Eq as (sy & wb & Eb%query_field_reads & Eq). apply M_bind_ok in Eq as (de & wc & Ec%query_field_reads & Eq).
        injection Eq as _ <-. congruence. }
      apply M_bind_ok in Em as (found & wa & Ea & Em). injection Ea as <- <-. destruct (HasDenomMetaData _ w); [done|].
      apply M_bind_ok in Em as (st & wb & Eb & Em). injection Eb as <- <-.
      destruct (IsDenomRegistered _ (view w)) eqn:Ed; [done|].
      apply M_bind_ok in Em as ([] & wc & Ec & Em). injection Ec as _ <-.
      apply M_bind_ok in Em as ([] & wd & Ed' & Em). injection Ed' as <-. injection Em as <- <-. rewrite metadata_view. split; [done|].
      apply bool_decide_eq_false in Ed. by apply eq_None_not_Some in Ed. }
    destruct Hm as [Hv Hd]. set (tp := NewTokenPair contract (md_Name md) OWNER_EXTERNAL) in E.
    assert (Hct : GetERC20Contract tp = contract) by (by apply text_address).
    unfold mbind, M_bind, mret, M_ret in E. injection E as <- <-. rewrite view_update, Hv. apply SetToken_ok; [|by rewrite Hct|done|done].
    unfold canonical. by rewrite Hct.
  - intros [= <- <-]. exact (keeps_create _ _ _ _ Em).
  - intros [= <- <-]. exact (keeps_create _ _ _ _ Em).
Qed.

Lemma keeps_when auth (m : M W unit) : keeps m -> keeps (when_enabled authority auth m).
Proof. intros Hm. unfold when_enabled. in_order ltac:(exact Hm). Qed.

Lemma keeps_RegisterERC20 auth l : keeps (RegisterERC20 authority ModuleAddress auth l).
Proof.
  apply keeps_when, keeps_each. intros a. case_match; [apply keeps_raise|]. apply keeps_bind; [|intros _; apply keeps_ret].
  apply registerERC20_keeps, hex_length.
Qed.

Lemma keeps_ToggleConversion auth token : keeps (ToggleConversion authority auth token).
Proof.
  apply keeps_when, keeps_bind; [|intros _; apply keeps_ret]. intros w r w' (st & E & ->)%on_erc20_ok Hr. rewrite view_update.
  unfold toggleConversion in E. destruct (find_pair token (view w)) as [tp|e|] eqn:Ef; [|by injection E as <- <-..].
  injection E as <- <-. eapply toggle_ok; [|done]. by eapply find_pair_ok.
Qed.

Lemma keeps_UpdateCoinMetadata auth l : keeps (UpdateCoinMetadata authority auth l).
Proof. apply keeps_when, keeps_each. intros md. unfold updateCoinMetadata. in_order idtac. Qed.

Lemma keeps_UpdateParams auth p : keeps (UpdateParams Erc20Bytecode authority auth p).
Proof. unfold UpdateParams. in_order ltac:(apply keeps_params). Qed.

Lemma keeps_enable l : keeps (EnableDynamicPrecompiles Erc20Bytecode l).
Proof.
  intros w r w'. unfold EnableDynamicPrecompiles. apply (keeps_bind (mlift (GetParams (view w)))); [apply keeps_lift|intros p].
  apply keeps_bind; [apply keeps_lift|intros l']. apply keeps_params.
Qed.

Lemma keeps_from_packet data : keeps (ConvertCoinToERC20FromPacket ModuleAddress data).
Proof.
  intros w r w'. unfold ConvertCoinToERC20FromPacket.
  repeat (case_match; try by intros [= <- <-]); apply keeps_convert_coin.
Qed.

(** The denomination of a packet. *)
Definition packet_denom (pk : Packet) (data : FungibleTokenPacketData) : string := fst (GetReceivedCoin pk (pd_Denom data) (pd_Amount data)).

(** The contract of a voucher that is not registered is not that of another pair. *)
Definition no_collision (pk : Packet) (st : Erc20State) : Prop := forall data a, UnmarshalPacketData (pk_Data pk) = Ok data ->
  er_by_denom st !! packet_denom pk data = None -> GetIBCDenomAddress (packet_denom pk data) = Ok a -> er_by_erc20 st !! a = None.

Lemma registered_found denom st : registry_ok st -> is_hex_address denom = false ->
  GetTokenPair (GetTokenPairID denom st) st = None -> er_by_denom st !! denom = None.
Proof.
  intros [Rp _ Rd] Hh. unfold GetTokenPairID, GetTokenPair, GetDenomMap. rewrite Hh.
  destruct (er_by_denom st !! denom) as [id|] eqn:E; [|done]. destruct (Rd _ _ E) as (tp & Ht & _).
  destruct (Rp _ _ Ht) as (-> & _). simpl. rewrite bool_decide_false by apply hash_not_empty. congruence.
Qed.

Lemma strip_ibc denom rest : strip_prefix "ibc/" denom = Some rest -> is_hex_address denom = false.
Proof. intros ->%strip_prefix_inv. apply ibc_not_hex. Qed.

Lemma extension_keeps denom w r w' : is_hex_address denom = false -> GetTokenPair (GetTokenPairID denom (view w)) (view w) = None ->
  (forall a, er_by_denom (view w) !! denom = None -> GetIBCDenomAddress denom = Ok a -> er_by_erc20 (view w) !! a = None) ->
  RegisterERC20Extension Erc20Bytecode denom w = (r, w') -> registry_ok (view w) -> registry_ok (view w').
Proof.
  intros Hh Hf Hc E Hr. apply registered_found in Hf as Hd; [|done..]. unfold RegisterERC20Extension in E.
  unfold mbind at 1, M_bind at 1 in E. destruct (on_erc20 (CreateNewTokenPair denom) w) as [x w1] eqn:E1.
  assert (Hr1 : registry_ok (view w1)).
  { apply on_erc20_ok in E1 as (st & E1 & ->). rewrite view_update. unfold CreateNewTokenPair, NewTokenPairSTRv2 in E1.
    unfold mbind, M_bind, mlift, res_bind in E1. destruct (GetIBCDenomAddress denom) as [a|e|] eqn:Ea; [|by injection E1 as <- <-..].
    injection E1 as <- <-. assert (Hl : String.length a = 20%nat) by by eapply ibc_address_length.
    apply SetToken_ok; [| |exact Hd|exact Hr]; unfold canonical, GetERC20Contract; simpl; rewrite text_address by done; [done|].
    by apply Hc. }
  destruct x as [tp|e|]; [|by injection E as <- <-..]. revert E Hr1.
  apply (keeps_bind (EnableDynamicPrecompiles Erc20Bytecode [GetERC20Contract tp])); [apply keeps_enable|intros _; apply keeps_ret].
Qed.

Lemma OnRecvPacket_keeps pk w r w' : no_collision pk (view w) -> OnRecvPacket Erc20Bytecode ModuleAddress pk w = (r, w') ->
  registry_ok (view w) -> registry_ok (view w').
Proof.
  intros Hc E Hr. unfold OnRecvPacket in E. case_match; [by injection E as <- <-|].
  destruct (UnmarshalPacketData (pk_Data pk)) as [data|e|] eqn:Eu; [|by injection E as <- <-..].
  destruct (GetTransferSenderRecipient data) as [[sender recipient]|e|]; [|by injection E as <- <-..].
  case_match; [by injection E as <- <-|]. case_match; [by injection E as <- <-|].
  destruct (GetReceivedCoin pk (pd_Denom data) (pd_Amount data)) as [denom amount] eqn:Eg.
  assert (Ed : packet_denom pk data = denom) by (unfold packet_denom; by rewrite Eg).
  case_match; [by injection E as <- <-|]. destruct (BondDenom w) as [bd|e|]; [|by injection E as <- <-..].
  case_match; [by injection E as <- <-|]. unfold ack_error in E.
  assert (K : forall x w1, recv_convert Erc20Bytecode ModuleAddress denom (pd_Denom data) recipient w = (x, w1) -> registry_ok (view w1)).
  { intros x w1. unfold recv_convert. destruct (GetTokenPair _ (view w)) as [tp|] eqn:Et.
    - destruct (IsNativeERC20 tp && Enabled tp); [intros Ex; exact (keeps_convert_coin _ _ _ _ _ _ _ Ex Hr)|by intros [= <- <-]].
    - destruct (strip_prefix "ibc/" denom) as [rest|] eqn:Es; [|by rewrite bool_decide_false by (by intros [? ?]); intros [= <- <-]].
      rewrite bool_decide_true by done. destruct (IsBaseDenomFromSourceChain _); [|by intros [= <- <-]]. simpl. unfold mbind, M_bind.
      destruct (RegisterERC20Extension Erc20Bytecode denom w) as [y w2] eqn:Ey. intros Ex.
      assert (w1 = w2) as -> by (destruct y; by injection Ex as _ <-).
      eapply extension_keeps; [by eapply strip_ibc|exact Et| |exact Ey|done]. rewrite <- Ed. intros a. by apply Hc. }
  destruct (recv_convert _ _ _ _ _ w) as [[x|e|] w1]; injection E as <- <-; by eapply K.
Qed.

(** *** Parameters *)

(** The lists of precompiles are stored as one text: when every address has the full length of 42 characters, parameters that were
    set are read back as they were set, in order; the registry is as before. *)
Theorem erc20_params_roundtrip p (w : W) w' : full_texts p -> SetParams Erc20Bytecode p w = (Ok tt, w') ->
  GetParams (view w') = Ok (sorted_params p) /\ er_pairs (view w') = er_pairs (view w) /\
  er_by_erc20 (view w') = er_by_erc20 (view w) /\ er_by_denom (view w') = er_by_denom (view w).
Proof.
  intros [Hn Hd] E%SetParams_view. rewrite E. split; [|done]. unfold GetParams, getDynamicPrecompiles, getNativePrecompiles. simpl.
  rewrite !split_precompiles_join by (by apply sort_texts_all). simpl. unfold NewParams, sorted_params.
  by rewrite (sort_texts_id (sort_texts (NativePrecompiles p))), (sort_texts_id (sort_texts (DynamicPrecompiles p))) by apply sort_texts_sorted.
Qed.

(** *** Genesis and reachable states *)

(** What the validation has seen is what the registry has. *)
Record seen (e d : gset string) (st : Erc20State) : Prop := {
  se_erc20 c id : er_by_erc20 st !! c = Some id -> AddressString c ∈ e;
  se_denom x id : er_by_denom st !! x = Some id -> x ∈ d
}.

Lemma genesis_registry pairs : Forall canonical pairs -> forall e d st, genesis_pairs e d pairs = Ok tt -> seen e d st ->
  registry_ok st -> registry_ok (foldl (fun st tp => SetToken tp st) st pairs).
Proof.
  induction 1 as [|tp pairs Hc Hcs IH]; intros e d st E Hs Hr; simpl in *; [done|].
  destruct (bool_decide (Erc20Address tp ∈ e)) eqn:He; [done|]. destruct (bool_decide (PairDenom tp ∈ d)) eqn:Hd; [done|].
  apply bool_decide_eq_false in He, Hd. apply res_bind_ok in E as ([] & _ & E). eapply IH; [exact E| |].
  - split; simpl; intros c id; rewrite lookup_insert; (case_decide as Hi; [intros _|]).
    + subst c. rewrite <- Hc. set_solver.
    + intros Hl%(se_erc20 _ _ _ Hs). set_solver.
    + subst c. set_solver.
    + intros Hl%(se_denom _ _ _ Hs). set_solver.
  - apply SetToken_ok; [done| | |done]; apply eq_None_not_Some; intros [id Hi].
    + apply (se_erc20 _ _ _ Hs) in Hi. by rewrite <- Hc in Hi.
    + by apply (se_denom _ _ _ Hs) in Hi.
Qed.

(** A message, a callback, or what other modules do. *)
Inductive erc20_step : W -> W -> Prop :=
  | step_convert msg w r w' : ConvertERC20 ModuleAddress msg w = (r, w') -> erc20_step w w'
  | step_params auth p w r w' : UpdateParams Erc20Bytecode authority auth p w = (r, w') -> erc20_step w w'
  | step_register auth l w r w' : RegisterERC20 authority ModuleAddress auth l w = (r, w') -> erc20_step w w'
  | step_toggle auth token w r w' : ToggleConversion authority auth token w = (r, w') -> erc20_step w w'
  | step_metadata auth l w r w' : UpdateCoinMetadata authority auth l w = (r, w') -> erc20_step w w'
  | step_recv pk w r w' : no_collision pk (view w) -> OnRecvPacket Erc20Bytecode ModuleAddress pk w = (r, w') -> erc20_step w w'
  | step_ack data failed w r w' : OnAcknowledgementPacket ModuleAddress data failed w = (r, w') -> erc20_step w w'
  | step_timeout data w r w' : OnTimeoutPacket ModuleAddress data w = (r, w') -> erc20_step w w'
  | step_other w w' : rtc touched (view w) (view w') -> erc20_step w w'.

Lemma step_registry w w' : erc20_step w w' -> registry_ok (view w) -> registry_ok (view w').
Proof.
  destruct 1 as [msg w r w' E|auth p w r w' E|auth l w r w' E|auth token w r w' E|auth l w r w' E|pk w r w' Hc E|data failed w r w' E
    |data w r w' E|w w' E].
  - exact (keeps_ConvertERC20 _ _ _ _ E).
  - exact (keeps_UpdateParams _ _ _ _ _ E).
  - exact (keeps_RegisterERC20 _ _ _ _ _ E).
  - exact (keeps_ToggleConversion _ _ _ _ _ E).
  - exact (keeps_UpdateCoinMetadata _ _ _ _ _ E).
  - by eapply OnRecvPacket_keeps.
  - unfold OnAcknowledgementPacket in E. destruct failed; [exact (keeps_from_packet _ _ _ _ E)|by injection E as <- <-].
  - exact (keeps_from_packet _ _ _ _ E).
  - exact (touched_ok _ _ E).
Qed.

(** C19: From a validated genesis whose contracts are written in the form of [Address.String], in every state that messages of the module,
    its IBC callbacks and steps of other modules reach, denominations and contracts are paired one to one: the registered contract of a
    denomination has that denomination, and the denomination of a contract has that contract. Other modules and called contracts
    may remove pairs, change the parameters and register pairs themselves, as x/liquidvesting's [Liquidate] and x/ethiq do
    ([liquid_registers], [haqq_registers]). Every registration outside the module's messages, theirs and that of a received IBC voucher
    ([no_collision]), is taken to be of a contract, derived by a hash, that has no pair yet; theirs also of a
    denomination that has none, which x/ethiq checks and [Liquidate] does not: it numbers its denominations. *)
Theorem registry_invariant gs w0 w1 w : er_pairs (view w0) = ∅ -> er_by_erc20 (view w0) = ∅ -> er_by_denom (view w0) = ∅ ->
  Genesis_Validate gs = Ok tt -> Forall canonical (eg_TokenPairs gs) -> InitGenesis Erc20Bytecode gs w0 = (Ok tt, w1) ->
  rtc erc20_step w1 w ->
  registry_ok (view w) /\
  (forall d c, IsDenomRegistered d (view w) = true -> GetCoinAddress d (view w) = Ok c -> GetTokenDenom c (view w) = Ok d) /\
  (forall d c, GetTokenDenom c (view w) = Ok d -> IsDenomRegistered d (view w) = true /\ GetCoinAddress d (view w) = Ok c).
Proof.
  intros E1 E2 E3 Hg Hc Hi Hs. assert (Hr : registry_ok (view w1)).
  { unfold InitGenesis in Hi. destruct (SetParams _ _ w0) as [[[]|e|] w2] eqn:Ep; [|done..]. case_match; [done|]. injection Hi as <-.
    rewrite view_update. apply SetParams_view in Ep. unfold Genesis_Validate in Hg. apply res_bind_ok in Hg as ([] & Hg & _).
    eapply genesis_registry; [done|exact Hg| |]; rewrite Ep; split; simpl; rewrite ?E1, ?E2, ?E3; intros ? ?; by rewrite lookup_empty. }
  assert (Hw : registry_ok (view w)) by (clear -Hr Hs HPL HMS HR; induction Hs as [|x y z Hxy Hyz IH]; eauto using step_registry).
  split; [done|]. destruct Hw as [Rp Re Rd]. split.
  - intros d c [id Hid]%bool_decide_eq_true. unfold GetCoinAddress, GetDenomMap. rewrite Hid. simpl.
    destruct (Rd _ _ Hid) as (tp & Ht & <-). destruct (Rp _ _ Ht) as (-> & _ & He & _). unfold GetTokenPair.
    rewrite bool_decide_false by apply hash_not_empty. rewrite Ht. intros [= <-]. unfold GetTokenDenom, GetERC20Map. rewrite He. simpl.
    rewrite bool_decide_false by apply hash_not_empty. unfold GetTokenPair. rewrite bool_decide_false by apply hash_not_empty. by rewrite Ht.
  - intros d c. unfold GetTokenDenom, GetERC20Map. destruct (er_by_erc20 (view w) !! c) as [id|] eqn:Hid; [|done]. simpl.
    destruct (Re _ _ Hid) as (tp & Ht & <-). destruct (Rp _ _ Ht) as (-> & _ & _ & Hd). unfold GetTokenPair.
    rewrite !bool_decide_false by apply hash_not_empty. rewrite Ht. intros [= <-]. split; [apply bool_decide_eq_true; by exists (GetID tp)|].
    unfold GetCoinAddress, GetDenomMap. rewrite Hd. simpl. unfold GetTokenPair.
    rewrite !bool_decide_false by apply hash_not_empty. by rewrite Ht.
Qed.

(** *** Precompiles *)

Context (NewPrecompile : TokenPair -> res P).

(** A single dynamic precompile whose text is shorter (the prefix 0x may be left out of an address) is accepted when the parameters are
    set, and afterwards they cannot be read from the database: every look-up of a precompile panics. *)
Theorem short_precompile_panics enable t (w : W) w' : (0 < String.length t < addressLength)%nat ->
  SetParams Erc20Bytecode (mkErc20Params enable [] [t]) w = (Ok tt, w') ->
  unreadable (view w') /\ forall a, GetERC20PrecompileInstance NewPrecompile a w' = Panic.
Proof.
  intros Hl E%SetParams_view.
  assert (Hp : unreadable (view w')).
  { rewrite E. unfold unreadable, GetParams, getDynamicPrecompiles. simpl.
    rewrite string_app_nil.
    unfold split_precompiles. destruct (String.length t) as [|n] eqn:El; [lia|]. cbn [split_loop].
    rewrite bool_decide_false by (intros ->; simpl in El; lia). destruct (Nat.ltb_spec (String.length t) addressLength); [done|lia]. }
  split; [done|]. intros a. unfold GetERC20PrecompileInstance. by rewrite Hp.
Qed.
End keeper.
