(* ===== verification/Erc20Backing.v ===== *)
(** * What x/erc20 ensures: conversions, and the keeper that x/liquidvesting uses

    The coins of a pair stay covered by tokens of the module ([conversions_stay_backed]), and the keeper has the frame that
    the theorems of x/liquidvesting assume of it ([erc20_implements_interface], against the class [Erc20Frame] of TokenPair). *)

From S2P Require Import Prelude.
From S2P Require Import Sdk.
From S2P Require Import Schedule.
From S2P Require Import ClawbackAccount.
From S2P Require Import Keepers.
From S2P Require Import TokenPair.
From S2P Require Import AccessList.
From S2P Require Import StateDB.
From S2P Require Import EvmParams.
From S2P Require Import EvmMachine.
From S2P Require Import EvmConfig.
From S2P Require Import StateTransition.
From S2P Require Import Erc20.
From S2P Require Import Erc20Theory.

Local Open Scope Z_scope.

(** ** Tokens and coins *)

Section backing.
Context {W : Type} `{StateKeeper W, Keccak} `{IbcOps} `{AddrCheck} `{EvmText} `{SdkOps, !SdkLaws} `{EthOps} `{Erc20Abi}
  `{Ctx W, AccountKeeper W, BankKeeper W, ModuleBank W, SupplyKeeper W, Erc20Evm W, Erc20Bank W}
  `{Lens W Erc20State} {HR : Erc20Rely W} {HS : SupplyLaws W}.
Context (ModuleAddress : Address).

(** The tokens of the module, as the contract tells them. *)
Definition module_tokens (tp : TokenPair) (w : W) : res (option Z) := fst (BalanceOf ModuleAddress (GetERC20Contract tp) ModuleAddress w).

(** The behaviour of a contract that follows the standard, for the pair [tp]: the balances it tells are its own and not the bank's, calling it
    does not issue the pair's coins, and a transfer by the module takes no more than the amount from the module. *)
Class TokenLaws (tp : TokenPair) : Prop := {
  tokens_mint m cs (w : W) r w' : MintCoins m cs w = (r, w') -> module_tokens tp w' = module_tokens tp w;
  tokens_burn m cs (w : W) r w' : BurnCoins m cs w = (r, w') -> module_tokens tp w' = module_tokens tp w;
  tokens_send m a cs (w : W) r w' : SendCoinsFromModuleToAccount m a cs w = (r, w') -> module_tokens tp w' = module_tokens tp w;
  tokens_escrow a m cs (w : W) r w' : SendCoinsFromAccountToModule a m cs w = (r, w') -> module_tokens tp w' = module_tokens tp w;
  token_call_supply from data (w : W) r w' : CallEVMWithData from (Some (GetERC20Contract tp)) data true w = (r, w') ->
    GetSupply (PairDenom tp) w' = GetSupply (PairDenom tp) w;
  token_transfer receiver n (w : W) res w' b : 0 <= n ->
    CallEVM ModuleAddress (GetERC20Contract tp) true "transfer" [AbiAddress receiver; AbiUint n] w = (Ok res, w') ->
    abi_UnpackBool "transfer" (res_Ret res) = Ok true -> module_tokens tp w = Ok (Some b) ->
    GetSupply (PairDenom tp) w' = GetSupply (PairDenom tp) w /\ exists b', module_tokens tp w' = Ok (Some b') /\ b - n <= b'
}.

(** The coins in circulation are covered by tokens of the module. *)
Definition backed (tp : TokenPair) (w : W) : Prop := exists b, module_tokens tp w = Ok (Some b) /\ GetSupply (PairDenom tp) w <= b.

Lemma token_balance_ok contract account w z w' : token_balance ModuleAddress contract account w = (Ok z, w') ->
  w' = w /\ fst (BalanceOf ModuleAddress contract account w) = Ok (Some z).
Proof.
  intros E. unfold token_balance in E. apply M_bind_ok in E as (b & w1 & Eb & E). destruct b as [x|]; [|done]. injection E as <- <-.
  rewrite Eb. split; [|done]. unfold BalanceOf in Eb.
  destruct (CallEVM _ _ _ _ _ w) as [[y|e|] w2] eqn:Ec; apply query_reads in Ec as ->; by injection Eb.
Qed.

Lemma monitored logs : monitor_logs logs = Ok tt -> Forall (fun log => head (log_Topics log) <> Some logApprovalSigHash) logs.
Proof.
  induction logs as [|log logs IH]; simpl; [constructor|]. destruct (log_Topics log) as [|t ts] eqn:Et; [done|].
  case_bool_decide as Hb; [done|]. intros Hl%IH. constructor; [|done]. rewrite Et. simpl. congruence.
Qed.

(** Tokens to coins: what was minted has been received. *)
Lemma convert_backed tp {HT : TokenLaws tp} msg receiver sender w w' : 0 < mc_Amount msg ->
  convertERC20IntoCoinsForNativeToken ModuleAddress tp msg receiver sender w = (Ok tt, w') -> backed tp w ->
  backed tp w' /\ Keepers.GetBalance receiver (PairDenom tp) w' = Keepers.GetBalance receiver (PairDenom tp) w + mc_Amount msg /\
  GetSupply (PairDenom tp) w' = GetSupply (PairDenom tp) w + mc_Amount msg /\
  exists res w1 data, CallEVMWithData sender (Some (GetERC20Contract tp)) data true w = (Ok res, w1) /\
    Forall (fun log => head (log_Topics log) <> Some logApprovalSigHash) (res_Logs res).
Proof.
  intros Hp E (b & Eb & Hb). unfold convertERC20IntoCoinsForNativeToken in E. cbv zeta in E.
  assert (O : operand [mkCoin (PairDenom tp) (mc_Amount msg)]) by (apply operand_single; lia).
  apply M_bind_ok in E as (bal & w0 & E0 & E). apply mgets_ok in E0 as [-> ->].
  apply M_bind_ok in E as (tok & w0 & E0 & E). apply token_balance_ok in E0 as [-> E0].
  apply M_bind_ok in E as (data & w0 & E1 & E). apply mlift_ok in E1 as [_ ->].
  apply M_bind_ok in E as (res & w1 & Ec & E). apply M_bind_ok in E as (ret & w2 & Er & E). apply mlift_ok in Er as [_ ->].
  destruct ret; [|done]. cbn [negb] in E. apply M_bind_ok in E as (tok' & w2 & E2 & E). apply token_balance_ok in E2 as [-> E2].
  destruct (Z.eqb_spec tok' (tok + mc_Amount msg)) as [->|]; [|done]. cbn [negb] in E.
  apply M_bind_ok in E as ([] & w2 & Em & E). apply M_bind_ok in E as ([] & w3 & Es & E).
  apply M_bind_ok in E as (bal & w4 & Eg & E). apply mgets_ok in Eg as [-> ->].
  destruct (Z.eqb_spec (Keepers.GetBalance receiver (PairDenom tp) w3) (Keepers.GetBalance receiver (PairDenom tp) w + mc_Amount msg))
    as [Hg|]; [|done]. cbn [negb] in E. apply mlift_ok in E as [El ->].
  assert (tok = b) as -> by (unfold module_tokens in Eb; congruence).
  assert (HS' : GetSupply (PairDenom tp) w3 = GetSupply (PairDenom tp) w + mc_Amount msg).
  { rewrite (from_module_supply _ _ _ _ _ _ _ Es), (mint_supply _ _ _ _ _ O Em), amt_single, decide_True by done.
    by rewrite (token_call_supply _ _ _ _ _ Ec). }
  split; [|split; [done|split; [done|]]].
  - exists (b + mc_Amount msg). split; [|lia]. by rewrite (tokens_send _ _ _ _ _ _ Es), (tokens_mint _ _ _ _ _ Em).
  - exists res, w1, data. split; [done|]. by apply monitored.
Qed.


(** What a message that converts tokens of [tp] did: it removed the pair of a contract that is gone, or minted its amount. *)
Record converted (tp : TokenPair) (msg : MsgConvertERC20) (receiver : string) (w w' : W) : Prop := {
  cv_backed : backed tp w';
  cv_balance : Keepers.GetBalance receiver (PairDenom tp) w' = Keepers.GetBalance receiver (PairDenom tp) w + mc_Amount msg;
  cv_supply : GetSupply (PairDenom tp) w' = GetSupply (PairDenom tp) w + mc_Amount msg;
  (** no allowance was given in the call *)
  cv_call : exists res w1 data, CallEVMWithData (HexToAddress (mc_Sender msg)) (Some (GetERC20Contract tp)) data true w = (Ok res, w1) /\
    Forall (fun log => head (log_Topics log) <> Some logApprovalSigHash) (res_Logs res)
}.
Definition removed (tp : TokenPair) (w w' : W) : Prop := w' = update (DeleteTokenPair tp (view w)) w /\
  forall a, GetAccountWithoutBalance (GetERC20Contract tp) w = Some a -> IsContract a = false.

Lemma ConvertERC20_cases tp {HT : TokenLaws tp} msg w w' : backed tp w -> 0 < mc_Amount msg ->
  find_pair (mc_ContractAddress msg) (view w) = Ok tp -> ConvertERC20 ModuleAddress msg w = (Ok tt, w') ->
  removed tp w w' \/ exists receiver, AccAddressFromBech32 (mc_Receiver msg) = Some receiver /\ BlockedAddr receiver = false /\
    converted tp msg receiver w w'.
Proof.
  intros Hb Hp Hf E. unfold ConvertERC20 in E. apply M_bind_ok in E as (receiver & w0 & E0 & E). apply mlift_ok in E0 as [E0 ->].
  destruct (AccAddressFromBech32 (mc_Receiver msg)) as [a|]; [|done]. injection E0 as ->. cbv zeta in E.
  apply M_bind_ok in E as (tp' & w0 & E0 & E). injection E0 as E0 <-. unfold MintingEnabled in E0. destruct (IsERC20Enabled (view w)); [|done].
  cbn [negb] in E0. rewrite Hf in E0. simpl in E0. destruct (Enabled tp); [|done]. destruct (BlockedAddr receiver) eqn:Ebl; [done|].
  destruct (negb _ && _); [done|].
  injection E0 as <-. destruct (IsNativeERC20 tp); [|by destruct (IsNativeCoin tp)].
  apply M_bind_ok in E as (acc & w0 & E0 & E). apply mgets_ok in E0 as [-> ->].
  destruct (GetAccountWithoutBalance (GetERC20Contract tp) w) as [acc|] eqn:Ea.
  - destruct (IsContract acc) eqn:Ei; simpl in E.
    + right. exists receiver. split; [done|]. split; [done|]. destruct (convert_backed tp _ _ _ _ _ Hp E Hb) as (A & B & C & D). by split.
    + left. injection E as <-. split; [done|]. rewrite Ea. by intros a [= <-].
  - left. injection E as <-. split; [done|]. rewrite Ea. by intros a.
Qed.


(** *** Transfers to another chain *)

Context {HPL : PairLaws} {HEL : EthLaws} (ics20_Transfer : IbcMsgTransfer -> M W Z).

Lemma find_by_contract st tp : registry_ok st -> er_pairs st !! GetID tp = Some tp -> find_pair (AddressString (GetERC20Contract tp)) st = Ok tp.
Proof.
  intros [Rp _ _] Ht. destruct (Rp _ _ Ht) as (_ & Hc & He & _). unfold find_pair, GetTokenPairID, GetERC20Map.
  rewrite text_is_hex, text_address, He by apply hex_length. simpl. unfold GetTokenPair. rewrite !bool_decide_false by apply hash_not_empty.
  by rewrite Ht.
Qed.

(** C31: A transfer to another chain of a token whose pair is enabled is a transfer of the pair's coins; the tokens that are missing are converted
    first, and no more than those: the transfer then finds exactly its amount, all of it covered. *)
Theorem ibc_transfer_converts_the_rest tp {HT : TokenLaws tp} msg w seq w' sender :
  registry_ok (view w) -> find_pair (default (Denom (it_Token msg)) (strip_prefix (ModuleName +:+ "/") (Denom (it_Token msg)))) (view w) = Ok tp ->
  Enabled tp = true -> IsERC20Enabled (view w) = true -> IsNativeERC20 tp = true -> AccAddressFromBech32 (it_Sender msg) = Some sender ->
  backed tp w -> ibc_Transfer ModuleAddress ics20_Transfer msg w = (Ok seq, w') ->
  exists w1, ics20_Transfer (set_transfer_denom (PairDenom tp) msg) w1 = (Ok seq, w') /\
    (Amount (it_Token msg) <= Keepers.GetBalance sender (PairDenom tp) w -> w1 = w) /\
    (Keepers.GetBalance sender (PairDenom tp) w < Amount (it_Token msg) -> removed tp w w1 \/
      backed tp w1 /\ Keepers.GetBalance sender (PairDenom tp) w1 = Amount (it_Token msg) /\
      GetSupply (PairDenom tp) w1 = GetSupply (PairDenom tp) w + (Amount (it_Token msg) - Keepers.GetBalance sender (PairDenom tp) w)).
Proof.
  intros Hr Hf He Hen Hn Hs Hb E. pose proof (find_pair_ok _ _ _ Hr Hf) as Ht. unfold ibc_Transfer in E. cbv zeta in E.
  set (denom := default _ _) in *. unfold find_pair in Hf. destruct (bool_decide (GetTokenPairID denom (view w) = "")); [done|].
  destruct (GetTokenPair _ (view w)) as [q|]; [|done]. injection Hf as ->. rewrite He, Hs, Hen, Hn in E. simpl in E.
  destruct (Z.leb_spec (Amount (it_Token msg)) (Keepers.GetBalance sender (PairDenom tp) w)) as [Hle|Hlt].
  - exists w. split; [exact E|]. split; [done|lia].
  - apply M_bind_ok in E as ([] & w1 & Ec & E). exists w1. split; [exact E|]. split; [lia|]. intros _.
    apply (ConvertERC20_cases tp) in Ec; [|done|simpl; lia|by apply find_by_contract].
    destruct Ec as [Hrm|(receiver & Er & _ & [B C D _])]; [by left|right]. simpl in *. apply addr_parses in Er as ->.
    split; [done|]. split; lia.
Qed.
End backing.

(** ** The keeper as x/liquidvesting uses it *)

Section interface.
Context {W S : Type} `{StateKeeper W, Keccak} `{IbcOps} `{AddrCheck} `{EvmText} `{SdkOps} `{EthOps} `{Ctx W, AccountKeeper W, BankKeeper W, ModuleBank W}
  `{Lens W Erc20State} `{Lens W S} {HE : ModuleState W Erc20State} {HC : ModuleState W S} {Hsep : Separate W Erc20State S}.
Context (Erc20Bytecode authority : string).

(** What a write of an EVM account touches: the account, and the balance when it is not the one that was read (an address without an account
    has no balance). *)
Class AccountWrites : Prop := {
  (** the text of an address that a text gives (one of 20 bytes) *)
  address_of_text s : HexToAddress (AddressString (HexToAddress s)) = HexToAddress s;
  write_account a acct (w w' : W) : keeper_SetAccount a acct w = (Ok tt, w') ->
    (forall b, b <> a -> Keepers.GetAccount b w' = Keepers.GetAccount b w) /\ BlockTime w' = BlockTime w /\ view (S:=S) w' = view w;
  write_balance a acct (w w' : W) : keeper_SetAccount a acct w = (Ok tt, w') ->
    Balance acct = match keeper_GetAccount a w with Some acc => Balance acc | None => 0 end ->
    forall b d, Keepers.GetBalance b d w' = Keepers.GetBalance b d w;
  write_code h c (w : W) : (forall b, Keepers.GetAccount b (keeper_SetCode h c w) = Keepers.GetAccount b w) /\
    (forall b d, Keepers.GetBalance b d (keeper_SetCode h c w) = Keepers.GetBalance b d w) /\
    BlockTime (keeper_SetCode h c w) = BlockTime w /\ view (S:=S) (keeper_SetCode h c w) = view w
}.
Context {HA : AccountWrites}.

(** The operations of [types.ERC20Keeper], on the module's part of the state. *)
Definition erc20_keeper : TokenPair.Erc20Keeper W := {|
  TokenPair.GetTokenPairID token w := GetTokenPairID token (view w);
  TokenPair.GetTokenPair id w := GetTokenPair id (view w);
  TokenPair.SetTokenPair tp w := update (SetTokenPair tp (view w)) w;
  TokenPair.SetDenomMap denom id w := update (SetDenomMap denom id (view w)) w;
  TokenPair.SetERC20Map erc20 id w := update (SetERC20Map erc20 id (view w)) w;
  TokenPair.EnableDynamicPrecompiles := EnableDynamicPrecompiles Erc20Bytecode;
  TokenPair.ToggleConversion := ToggleConversion authority
|}.

(** Only the accounts of [cs] differ. *)
Definition only_accounts (cs : list string) (w w' : W) : Prop :=
  (forall a, a ∉ cs -> Keepers.GetAccount a w' = Keepers.GetAccount a w) /\
  (forall a d, Keepers.GetBalance a d w' = Keepers.GetBalance a d w) /\ BlockTime w' = BlockTime w /\ view (S:=S) w' = view w.

#[local] Instance only_accounts_trans cs : Transitive (only_accounts cs).
Proof. intros x y z (A1 & B1 & T1 & V1) (A2 & B2 & T2 & V2). unfold only_accounts. naive_solver congruence. Qed.
#[local] Instance only_accounts_refl cs : Reflexive (only_accounts cs).
Proof. by intros w. Qed.

Lemma update_only cs (s : Erc20State) w : only_accounts cs w (update s w).
Proof. split_and!; intros; [apply update_account|apply update_balance|apply update_time|apply view_update_sep]. Qed.

Lemma RegisterERC20CodeHash_only cs a w w' : a ∈ cs -> RegisterERC20CodeHash Erc20Bytecode a w = (Ok tt, w') -> only_accounts cs w w'.
Proof.
  intros Ha. unfold RegisterERC20CodeHash. set (w0 := if bool_decide _ then _ else w). intros E.
  transitivity w0.
  { subst w0. destruct (bool_decide _); [|done]. destruct (write_code (Keccak256Hash Erc20Bytecode) (Some Erc20Bytecode) w) as (A & B).
    split; [intros b _; apply A|exact B]. }
  destruct (match keeper_GetAccount a w0 with Some _ => _ | None => _ end) as [n b] eqn:En. pose proof (write_account _ _ _ _ E) as (A & T & V).
  split_and!; [intros c Hc; apply A; set_solver| |done..]. apply (write_balance _ _ _ _ E). simpl.
  destruct (keeper_GetAccount a w0) as [acc|]; by injection En as <- <-.
Qed.

Lemma for_each_only {A} cs (f : A -> M W unit) l w w' : (forall x w w', x ∈ l -> f x w = (Ok tt, w') -> only_accounts cs w w') ->
  for_each f l w = (Ok tt, w') -> only_accounts cs w w'.
Proof.
  revert w. induction l as [|x l IH]; intros w Hf E; simpl in E; [by injection E as <-|].
  apply M_bind_ok in E as ([] & w1 & E1 & E). transitivity w1; [eapply Hf; [|done]; set_solver|].
  apply IH; [|done]. intros y v v' Hy. apply Hf. set_solver.
Qed.

Lemma elem_of_sort_texts x l : x ∈ sort_texts l <-> x ∈ l.
Proof. unfold sort_texts. by rewrite merge_sort_Permutation. Qed.

(** Nothing is disabled when precompiles are added, and what is enabled was asked for. *)
Lemma EnableDynamicPrecompiles_only tps w w' :
  EnableDynamicPrecompiles Erc20Bytecode (map GetERC20Contract tps) w = (Ok tt, w') -> only_accounts (map GetERC20Contract tps) w w'.
Proof.
  set (cs := map GetERC20Contract tps). unfold EnableDynamicPrecompiles. intros E. apply M_bind_ok in E as (p & w0 & E0 & E). apply mlift_ok in E0 as [Ep ->].
  apply M_bind_ok in E as (new & w0 & E0 & E). apply mlift_ok in E0 as [En ->].
  apply M_bind_ok in E as ([] & w0 & E0 & E). apply mlift_ok in E0 as [_ ->].
  apply M_bind_ok in E as ([] & w1 & E1 & E). injection E as <-. transitivity w1; [|apply update_only].
  unfold UpdateCodeHash in E1. unfold GetParams in Ep. destruct (getDynamicPrecompiles (view w)) as [old|e|]; [|done..].
  simpl in Ep. apply res_bind_ok in Ep as (nat & _ & [= <-]). unfold appendPrecompiles in En. apply res_bind_ok in En as (u & _ & [= <-]).
  cbn [DynamicPrecompiles NewParams GetDisabledAndEnabledPrecompiles] in E1.
  set (new := sort_texts _) in E1.
  assert (Hin : forall x, x ∈ new <-> x ∈ old \/ x ∈ map AddressString cs).
  { intros x. subst new. rewrite !elem_of_sort_texts, elem_of_app, elem_of_sort_texts. done. }
  assert (Hd : filter (fun p => p ∉ new) old = []).
  { apply elem_of_nil_inv. intros x [Hn Hx]%list_elem_of_filter. apply Hn, Hin. by left. }
  rewrite Hd in E1. apply M_bind_ok in E1 as ([] & w2 & E2 & E1). injection E2 as <-.
  eapply for_each_only; [|exact E1]. intros x v v' Hx. apply list_elem_of_filter in Hx as [Ho Hx]. apply Hin in Hx as [Hx|Hx]; [done|].
  apply list_elem_of_fmap in Hx as (c & -> & Hc). simpl. pose proof Hc as (tp & -> & _)%list_elem_of_fmap.
  unfold GetERC20Contract at 1. rewrite address_of_text. by apply RegisterERC20CodeHash_only.
Qed.

Lemma ToggleConversion_only cs auth token w r w' : ToggleConversion authority auth token w = (r, w') -> only_accounts cs w w'.
Proof.
  unfold ToggleConversion, when_enabled. unfold mbind, M_bind, mlift, mgets, on_erc20.
  repeat (case_match; simplify_eq; try by intros [= <- <-]); intros [= <- <-]; apply update_only.
Qed.

(** C30: The keeper of x/erc20 is what x/liquidvesting relies on: registering a pair touches neither accounts nor balances nor the other module's
    state, enabling a contract as a precompile touches the account of that contract alone and leaves every other precompile enabled, and
    toggling a conversion touches the registry alone; a pair that was registered is found by its denomination. *)
Theorem erc20_implements_interface :
  @Erc20Frame W S _ _ _ erc20_keeper _ _ /\
  forall tp w, GetID tp <> EmptyString -> is_hex_address (PairDenom tp) = false ->
    let w' := @TokenPair.SetERC20Map W erc20_keeper (GetERC20Contract tp) (GetID tp)
      (@TokenPair.SetDenomMap W erc20_keeper (PairDenom tp) (GetID tp) (@TokenPair.SetTokenPair W erc20_keeper tp w)) in
    @TokenPair.GetTokenPair W erc20_keeper (@TokenPair.GetTokenPairID W erc20_keeper (PairDenom tp) w') w' = Some tp.
Proof.
  split.
  - split; simpl.
    + intros tp w. destruct (update_only [] (SetTokenPair tp (view w)) w) as (A & B). split; [intros a; apply A; set_solver|exact B].
    + intros d id w. destruct (update_only [] (SetDenomMap d id (view w)) w) as (A & B). split; [intros a; apply A; set_solver|exact B].
    + intros c id w. destruct (update_only [] (SetERC20Map c id (view w)) w) as (A & B). split; [intros a; apply A; set_solver|exact B].
    + intros tps w w'. apply EnableDynamicPrecompiles_only.
    + intros auth token w r w' E. destruct (ToggleConversion_only [] _ _ _ _ _ E) as (A & B). split; [intros a; apply A; set_solver|exact B].
  - intros tp w Hid Hh w'. subst w'. simpl. rewrite !view_update. unfold GetTokenPairID, GetTokenPair, GetDenomMap. rewrite Hh. simpl.
    rewrite lookup_insert_eq. simpl. rewrite bool_decide_false by done. by rewrite lookup_insert_eq.
Qed.
End interface.
