(* ===== verification/Erc20Example.v ===== *)
(** * x/erc20 on a concrete chain

    A chain with the registry of x/erc20, the accounts of the EVM, the state of x/liquidvesting and a standard token contract, whose ledger is a map;
    the properties of the module at concrete states of it. *)

From S2P Require Import Prelude.
From S2P Require Import Sdk.
From S2P Require Import Schedule.
From S2P Require Import ClawbackAccount.
From S2P Require Import Keepers.
From S2P Require Import TokenPair.
From S2P Require Import LiquidVesting.
From S2P Require Import AccessList.
From S2P Require Import StateDB.
From S2P Require Import StateCommit.
From S2P Require Import EvmParams.
From S2P Require Import EvmMachine.
From S2P Require Import EvmConfig.
From S2P Require Import StateTransition.
From S2P Require Import Erc20.
From S2P Require Import Erc20Theory.
From S2P Require Import Erc20Backing.

Local Open Scope Z_scope.

(** ** Texts *)

Definition blanks : string := "                    ".
(** Twenty bytes. *)
Definition pad20 (s : string) : string := String.substring 0 20 (s +:+ blanks).

Lemma substring_0_length n s : (n <= String.length s)%nat -> String.length (String.substring 0 n s) = n.
Proof. revert s. induction n as [|n IH]; intros [|c s] Hn; simpl in *; try lia. by rewrite IH by lia. Qed.
Lemma pad20_length s : String.length (pad20 s) = 20%nat.
Proof. apply substring_0_length. rewrite string_app_length. simpl. lia. Qed.
Lemma pad20_id s : String.length s = 20%nat -> pad20 s = s.
Proof. intros Hs. by apply substring_app_l. Qed.

(** The text of an address: the prefix, the twenty bytes and a filling up to forty digits. *)
Instance WideIbc : IbcOps := {|
  IBCDenom path base := "ibc/" +:+ path +:+ "/" +:+ base;
  ParseHexHash s := Some s;
  BytesToAddress := pad20;
  AddressString a := "0x" +:+ (a +:+ blanks);
  IsHexAddress := String.prefix "0x";
  TrimSpace s := s;
  TmHash s := "h" +:+ s
|}.
Instance WideCheck : AddrCheck := {| VerifyAddressFormat a := negb (String.eqb a ""); HexToAddress s := pad20 (String.substring 2 20 s) |}.
Instance WideText : EvmText := {|
  addr_String a := "0x" +:+ (a +:+ blanks);
  is_hex_address := String.prefix "0x";
  trim_space s := s;
  ChannelIdentifierValidator _ := Ok tt
|}.
Instance WideLaws : PairLaws.
Proof.
  split.
  - intros s. apply pad20_length.
  - intros s. apply pad20_length.
  - intros a Ha. change (pad20 (String.substring 0 20 (a +:+ blanks)) = a). by rewrite substring_app_l, pad20_id.
  - intros a Ha. change (S (S (String.length (a +:+ blanks))) = addressLength). by rewrite string_app_length, Ha.
  - by intros [|c a].
  - done.
  - intros s t E. by apply (string_app_inj "h" "h") in E as [_ ->].
  - done.
Qed.

(** ** The chain *)

Record Erc20Parts := mkErc20Parts {
  xp_store : RefStore;
  xp_erc20 : Erc20State;
  xp_params : ParamsStore;
  xp_liquid : LiquidState;
  (** the balances of the token *)
  xp_ledger : gmap Address N
}.

Section example.
#[local] Existing Instances RefOps RefLaws RefEth RefEthLaws StateCommit.RefKeccak RefCtx RefAccountKeeper RefBankKeeper RefStakingKeeper RefModuleBank
  RefModuleBankLaws RefKeeperLaws.
#[local] Abbreviation World := (RefWorld Erc20Parts).

Definition xw_put (f : Erc20Parts -> Erc20Parts) (w : World) : World :=
  mkWorld (rw_time w) (rw_accounts w) (rw_next w) (rw_balances w) (rw_bonded w) (rw_unbonding w) (f (rw_ext w)).
Definition xp_set_store (s : RefStore) (x : Erc20Parts) := mkErc20Parts s (xp_erc20 x) (xp_params x) (xp_liquid x) (xp_ledger x).
Definition xp_set_erc20 (s : Erc20State) (x : Erc20Parts) := mkErc20Parts (xp_store x) s (xp_params x) (xp_liquid x) (xp_ledger x).
Definition xp_set_params (s : ParamsStore) (x : Erc20Parts) := mkErc20Parts (xp_store x) (xp_erc20 x) s (xp_liquid x) (xp_ledger x).
Definition xp_set_liquid (s : LiquidState) (x : Erc20Parts) := mkErc20Parts (xp_store x) (xp_erc20 x) (xp_params x) s (xp_ledger x).
Definition xp_set_ledger (s : gmap Address N) (x : Erc20Parts) := mkErc20Parts (xp_store x) (xp_erc20 x) (xp_params x) (xp_liquid x) s.
Definition xw_run {A} (m : M RefStore A) : M World A := fun w =>
  let '(r, s) := m (xp_store (rw_ext w)) in (r, xw_put (xp_set_store s) w).

#[local] Instance XKeeper : StateKeeper World :=
  let K := StateCommit.RefStateKeeper in {|
  keeper_GetAccount a w := @keeper_GetAccount _ K a (xp_store (rw_ext w));
  keeper_GetState a k w := @keeper_GetState _ K a k (xp_store (rw_ext w));
  keeper_GetCode h w := @keeper_GetCode _ K h (xp_store (rw_ext w));
  keeper_SetAccount a acct := xw_run (@keeper_SetAccount _ K a acct);
  keeper_SetState a k v w := xw_put (xp_set_store (@keeper_SetState _ K a k v (xp_store (rw_ext w)))) w;
  keeper_SetCode h c w := xw_put (xp_set_store (@keeper_SetCode _ K h c (xp_store (rw_ext w)))) w;
  keeper_DeleteAccount a := xw_run (@keeper_DeleteAccount _ K a)
|}.
#[local] Instance XErc20 : Lens World Erc20State := ref_lens xp_erc20 xp_set_erc20.
#[local] Instance XParams : Lens World ParamsStore := ref_lens xp_params xp_set_params.
#[local] Instance XLiquid : Lens World LiquidState := ref_lens xp_liquid xp_set_liquid.
#[local] Instance XErc20State : ModuleState World Erc20State := ref_module_state xp_erc20 xp_set_erc20 (fun _ _ => eq_refl).
#[local] Instance XLiquidState : ModuleState World LiquidState := ref_module_state xp_liquid xp_set_liquid (fun _ _ => eq_refl).
#[local] Instance XSeparate : Separate World Erc20State LiquidState.
Proof. by split. Qed.
#[local] Instance XSupply : SupplyKeeper World := {| GetSupply := rw_supply; HasDenomMetaData _ _ := false |}.
#[local] Instance XSupplyLaws : SupplyLaws World.
Proof. destruct (@RefSupplyLaws Erc20Parts). by split. Qed.
#[local] Instance XBank : Erc20Bank World := {| IsSendEnabledCoin _ _ := true; md_Validate _ := Ok tt; IsModuleAccount _ := false |}.
#[local] Instance XPackets : IbcPackets := {|
  UnmarshalPacketData s := Ok (mkPacketData s "7" "haqq1alice" "haqq1bob");
  GetHaqqAddressFromBech32 s := match strip_prefix "haqq1" s with Some a => Ok a | None => Err ErrInvalidAddress end;
  NewIntFromString _ := Some 7;
  ReceiverChainIsSource _ _ _ := false;
  GetDenomPrefix port channel := port +:+ "/" +:+ channel +:+ "/";
  ParseDenomTrace s := (EmptyString, s)
|}.

(** *** A standard token, whose answers are numbers in unary *)

Fixpoint tally (n : nat) : string := match n with O => EmptyString | S n => "1" +:+ tally n end.
Lemma tally_length n : String.length (tally n) = n.
Proof. induction n; simpl; auto. Qed.

#[local] Instance XAbi : Erc20Abi := {|
  abi_Pack _ args := match args with [AbiAddress a; AbiUint z] => Ok (pad20 a +:+ tally (Z.to_nat z)) | _ => Err ErrABIUnpack end;
  abi_UnpackBool _ ret := Ok (bool_decide (ret = "1"%string));
  abi_UnpackString _ ret := Ok ret;
  abi_UnpackUint8 _ ret := Ok (Z.of_nat (String.length ret));
  abi_UnpackBalance ret := Some (Z.of_nat (String.length ret));
  logApprovalSigHash := "approval"
|}.

Definition tokens_of (a : Address) (w : World) : N := default 0%N (xp_ledger (rw_ext w) !! a).
Definition response (logs : list Log) (ret : string) : MsgEthereumTxResponse := mkResponse "" logs ret None 21000.
Definition transfer_log : Log := mkLog "" ["transfer"%string] "" 0 "" "" 0 0.
Definition transfer (from to : Address) (n : N) : M World MsgEthereumTxResponse := fun w =>
  if (tokens_of from w <? n)%N then (Ok (response [] ""), w)
  else
    let l := <[from := (tokens_of from w - n)%N]> (xp_ledger (rw_ext w)) in
    (Ok (response [transfer_log] "1"), xw_put (xp_set_ledger (<[to := (default 0 (l !! to) + n)%N]> l)) w).

#[local] Instance XEvm : Erc20Evm World := {|
  CallEVM from c commit method args :=
    match args with
    | [] => fun w => (Ok (response [] (if bool_decide (method = "decimals"%string) then tally 6 else "GOLD")), w)
    | [AbiAddress a] => fun w => (Ok (response [] (tally (N.to_nat (tokens_of a w)))), w)
    | [AbiAddress a; AbiUint z] => if commit : bool then transfer from a (Z.to_N z) else mraise ErrEVMCall
    | _ => mraise ErrEVMCall
    end;
  CallEVMWithData from to data commit :=
    transfer from (String.substring 0 20 data) (N.of_nat (String.length data - 20));
  GetAccountWithoutBalance a w := rs_accounts (xp_store (rw_ext w)) !! a
|}.

Lemma transfer_frame from to n w r w' : transfer from to n w = (r, w') ->
  xp_erc20 (rw_ext w') = xp_erc20 (rw_ext w) /\ rw_balances w' = rw_balances w.
Proof. unfold transfer. destruct (_ <? _)%N; by intros [= <- <-]. Qed.

#[local] Instance XRely : Erc20Rely World.
Proof.
  split.
  - intros from c method [|[a|z] [|[b|y] [|? ?]]] w r w'; simpl; try by intros [= <- <-].
  - intros from c commit method args w r w' E. assert (Hv : view (S:=Erc20State) w' = view w); [|rewrite Hv; constructor].
    revert E. destruct args as [|[a|z] [|[b|y] [|? ?]]]; simpl; try by intros [= <- <-].
    destruct commit; [|by intros [= <- <-]]. apply transfer_frame.
  - intros from c data commit w r w' E. assert (Hv : view (S:=Erc20State) w' = view w); [|rewrite Hv; constructor].
    revert E. simpl. apply transfer_frame.
  - by intros a acct w r w' [= <- <-].
  - done.
Qed.

Lemma bank_ledger (m : M World unit) w r w' : (forall w r w', m w = (r, w') -> rw_ext w' = rw_ext w) -> m w = (r, w') ->
  forall a, tokens_of a w' = tokens_of a w.
Proof. intros Hm E a. unfold tokens_of. by rewrite (Hm _ _ _ E). Qed.

Definition erc20_account : Address := pad20 "erc20".
Lemma module_tokens_eq tp (w : World) : module_tokens erc20_account tp w = Ok (Some (Z.of_N (tokens_of erc20_account w))).
Proof. unfold module_tokens, BalanceOf. simpl. rewrite tally_length. f_equal. f_equal. lia. Qed.

#[local] Instance XToken tp : TokenLaws erc20_account tp.
Proof.
  assert (Hb : forall (m : M World unit) w r w', (forall w r w', m w = (r, w') -> rw_ext w' = rw_ext w) -> m w = (r, w') ->
    module_tokens erc20_account tp w' = module_tokens erc20_account tp w).
  { intros m w r w' Hm E. by rewrite !module_tokens_eq, (bank_ledger m _ _ _ Hm E). }
  split.
  - intros m cs w r w'. apply (Hb (MintCoins m cs)). intros v x v'. apply rw_issue_ext.
  - intros m cs w r w'. apply (Hb (BurnCoins m cs)). intros v x v'. apply rw_issue_ext.
  - intros m a cs w r w'. apply (Hb (SendCoinsFromModuleToAccount m a cs)). intros v x v'. apply rw_send_ext.
  - intros a m cs w r w'. apply (Hb (SendCoinsFromAccountToModule a m cs)). intros v x v'. apply rw_send_ext.
  - intros from data w r w' E. apply transfer_frame in E as [_ E]. simpl. unfold rw_supply. by rewrite E.
  - intros receiver n w res w' b Hn E Hr. rewrite !module_tokens_eq. intros [= <-]. pose proof (transfer_frame _ _ _ _ _ _ E) as [_ Ebal].
    split; [simpl; unfold rw_supply; by rewrite Ebal|]. eexists. split; [done|]. simpl in E. unfold transfer in E.
    destruct (N.ltb_spec (tokens_of erc20_account w) (Z.to_N n)); injection E as <- <-; [done|].
    unfold tokens_of at 2. simpl. rewrite lookup_insert. case_decide; subst; [rewrite lookup_insert_eq|rewrite lookup_insert_eq]; simpl; lia.
Qed.

(** ** The properties at concrete states *)

Definition gold : Address := pad20 "gold".
Definition silver : Address := pad20 "silver".
Definition gold_text : string := AddressString gold.
Definition gold_pair : TokenPair := mkPair gold_text "agold" true OWNER_EXTERNAL.
Definition bytecode : string := "code".
Definition gov : string := "gov".

Definition ex_new : World :=
  mkWorld 5 ∅ 0 ∅ ∅ ∅ (mkErc20Parts (mkRefStore ∅ ∅ ∅) (mkErc20 ∅ ∅ ∅ false "" "") (mkParamsStore None DefaultParams)
    (mkLiquid (LiquidVesting.mkParams 1 true) 0 ∅) {[ pad20 "alice" := 100%N ]}).
Definition ex_genesis : Erc20Genesis := mkErc20Genesis (mkErc20Params true [] [gold_text]) [gold_pair].
Definition ex_started : World := snd (InitGenesis bytecode ex_genesis ex_new).
Definition ex_registered : World := snd (RegisterERC20 gov erc20_account "haqq1gov" [AddressString silver] ex_started).
Definition ex_toggled : World := snd (ToggleConversion gov "haqq1gov" "agold" ex_registered).

(** A liquidation registers the first liquid denomination. *)
Definition ex_fake_denom : string := ComputeIBCDenom "liquidvesting" "aLIQUID1" "aISLM".
Definition ex_liquid_pair : TokenPair :=
  match NewTokenPairSTRv2 ex_fake_denom with Ok p => set_pair_denom "aLIQUID1" p | _ => gold_pair end.
Definition ex_liquidated : World := update (S:=Erc20State)
  (SetERC20Map (GetERC20Contract ex_liquid_pair) (GetID ex_liquid_pair)
    (SetDenomMap "aLIQUID1" (GetID ex_liquid_pair) (SetTokenPair ex_liquid_pair (view ex_toggled)))) ex_toggled.

Lemma ran {A} (m : M World A) w a : fst (m w) = Ok a -> m w = (Ok a, snd (m w)).
Proof. by destruct (m w) as [r w']; simpl; intros ->. Qed.

Lemma ex_starts : InitGenesis bytecode ex_genesis ex_new = (Ok tt, ex_started).
Proof. apply ran. by vm_compute. Qed.
Lemma ex_steps : rtc (erc20_step bytecode gov erc20_account) ex_started ex_liquidated.
Proof.
  eapply rtc_l; [eapply (step_register bytecode gov erc20_account "haqq1gov" [AddressString silver]), surjective_pairing|].
  eapply rtc_l; [eapply (step_toggle bytecode gov erc20_account "haqq1gov" "agold"), surjective_pairing|].
  apply rtc_once, step_other, rtc_once. unfold ex_liquidated. rewrite view_update. 
  by apply (liquid_registers ex_fake_denom "aLIQUID1" (mkPair (Erc20Address ex_liquid_pair) ex_fake_denom true OWNER_MODULE)); vm_compute.
Qed.

Lemma ex_registry : registry_ok (view ex_started).
Proof.
  assert (E : view ex_started = SetToken gold_pair (mkErc20 ∅ ∅ ∅ true gold_text "")) by (vm_compute; reflexivity).
  rewrite E. apply SetToken_ok; [by vm_compute|done|done|]. split; simpl; intros ? ?; by rewrite lookup_empty.
Qed.

Lemma registry_invariant_witness :
  IsDenomRegistered "aLIQUID1" (view ex_liquidated) = true /\
  GetTokenDenom (GetERC20Contract ex_liquid_pair) (view ex_liquidated) = Ok "aLIQUID1"%string /\ registry_ok (view ex_liquidated).
Proof.
  destruct (registry_invariant bytecode gov erc20_account ex_genesis ex_new ex_started ex_liquidated) as (Hr & Hd & _).
  - done.
  - done.
  - done.
  - by vm_compute.
  - constructor; [by vm_compute|constructor].
  - exact ex_starts.
  - exact ex_steps.
  - split; [by vm_compute|]. split; [|exact Hr]. apply Hd; by vm_compute.
Defined.

Definition ex_params : Erc20Params := mkErc20Params true [AddressString (pad20 "islm")] [AddressString silver; gold_text].
Lemma erc20_params_roundtrip_witness : GetParams (view (snd (SetParams bytecode ex_params ex_started))) =
  Ok (mkErc20Params true [AddressString (pad20 "islm")] [gold_text; AddressString silver]).
Proof.
  refine (proj1 (erc20_params_roundtrip bytecode ex_params ex_started _ _ _)).
  - split; repeat constructor.
  - apply ran. by vm_compute.
Defined.

(** No precompile is built. *)
Lemma short_precompile_panics_witness :
  GetERC20PrecompileInstance (fun _ => Ok tt) gold (snd (SetParams bytecode (mkErc20Params true [] ["0xgold"%string]) ex_new)) = Panic.
Proof.
  refine (proj2 (short_precompile_panics bytecode (fun _ => Ok tt) true "0xgold" ex_new _ _ _) gold).
  - vm_compute. lia.
  - apply ran. by vm_compute.
Defined.



(** The transfer itself counts the packets it sends. *)
Definition ex_ics20 (msg : IbcMsgTransfer) : M World Z := fun w => (Ok (rw_time w), w).
Definition ex_send : IbcMsgTransfer := mkIbcTransfer (mkCoin ("erc20/" +:+ gold_text) 9) "haqq1alice               " "".
Definition ex_sent : World := snd (ibc_Transfer erc20_account ex_ics20 ex_send ex_started).

Lemma ibc_transfer_converts_the_rest_witness : backed erc20_account gold_pair ex_sent /\ GetSupply "agold" ex_sent = 9.
Proof.
  destruct (ibc_transfer_converts_the_rest erc20_account ex_ics20 gold_pair ex_send ex_started 5 ex_sent (pad20 "alice")) as (w1 & E & _ & Hc).
  - exact ex_registry.
  - by vm_compute.
  - done.
  - by vm_compute.
  - done.
  - by vm_compute.
  - exists 0. split; [by vm_compute|]. vm_compute. discriminate.
  - apply ran. by vm_compute.
  - injection E as _ <-. destruct Hc as [[_ Hn]|(Hb & _ & Hs)].
    + by vm_compute.
    + exfalso. specialize (Hn _ eq_refl). by vm_compute in Hn.
    + split; [exact Hb|]. etransitivity; [exact Hs|]. by vm_compute.
Defined.
End example.

(** A text is the address itself. *)
Section interface_example.
#[local] Existing Instances RefOps RefLaws RefEth StateCommit.RefKeccak RefCtx RefAccountKeeper RefBankKeeper RefModuleBank
  RefIbc RefAddrCheck XKeeper XErc20 XLiquid XErc20State XLiquidState XSeparate.
#[local] Abbreviation World := (RefWorld Erc20Parts).

#[local] Instance XWrites : @AccountWrites World LiquidState XKeeper RefIbc RefAddrCheck _ _ _ _.
Proof. split; [done| | |done]; by intros a acct w w' [= <-]. Qed.

Lemma erc20_implements_interface_witness :
  @Erc20Frame World LiquidState _ _ _ (erc20_keeper (H1:=RefIbc) (H2:=RefAddrCheck) bytecode gov) _ _.
Proof. exact (proj1 (erc20_implements_interface (S:=LiquidState) bytecode gov)). Defined.
End interface_example.
