(* ===== verification/PrecompileAuthz.v ===== *)
(** * precompiles/authorization and what the stateful precompiles share

    The unpacked arguments of a method and what it answers, the grants of x/authz that let a contract act for the origin of the transaction
    (precompiles/authorization/types.go, events.go), the gas of a call (precompiles/common/precompile.go) and the mirroring of the bank's
    balance changes in the journal.  ABI encoding is the class [EventData], x/authz the class [AuthzKeeper]. *)

From S2P Require Import Prelude.
From S2P Require Import Sdk.
From S2P Require Import ClawbackAccount.
From S2P Require Import Keepers.
From S2P Require Import Ucdao.
From S2P Require Import TokenPair.
From S2P Require Import AccessList.
From S2P Require Import StateDB.
From S2P Require Import Precompile.
From S2P Require Import Evm.

Local Open Scope Z_scope.

(** ** Data *)

(** An unpacked argument of a method; a [*big.Int] of a list may be nil. *)
Inductive Arg :=
  | ArgAddress (a : Address)
  | ArgUint (z : Z)
  | ArgString (s : string)
  | ArgStrings (l : list string)
  | ArgUints (l : list (option Z))
  | ArgOther.

(** What a method packs. *)
Inductive Output :=
  | OutBool (b : bool)
  | OutUint (z : Z)
  | OutString (s : string)
  | OutNone
  | OutUintAddress (z : Z) (a : Address)
  | OutEstimate (amount before after price : Z) (receiver : option Address).

(** The output of a method with the balance changes and the logs that [Precompile.Run] puts in the journal. *)
Record Answer := mkAnswer {
  an_Output : Output;
  an_Changes : list balanceChangeEntry;
  an_Logs : list Log
}.
Definition answer (o : Output) : Answer := mkAnswer o [] [].

(** The block and the encoding of events. *)
Class EventData (W : Type) := {
  BlockHeight : W -> Z;
  (** the hash of an event's signature *)
  event_ID : string -> Hash;
  (** [Arguments.Pack]; a nil number is not packed *)
  Pack : list Arg -> res string
}.

(** x/authz: the grants by grantee, granter and the type of the message, with the time they expire at. *)
Class AuthzKeeper (W A : Type) := {
  GetAuthorization : Address -> Address -> string -> W -> option (A * option Z);
  SaveGrant : Address -> Address -> A -> option Z -> M W unit;
  DeleteGrant : Address -> Address -> string -> M W unit
}.

Definition ErrInvalidNumberOfArgs : err := ErrText "invalid number of arguments".
Definition ErrInvalidGranter : err := ErrText "invalid granter address".
Definition ErrInvalidGrantee : err := ErrText "invalid grantee address".
Definition ErrInvalidMethods : err := ErrText "invalid methods defined; expected an array of strings".
Definition ErrEmptyMethods : err := ErrText "no methods defined; expected at least one message type url".
Definition ErrEmptyStringInMethods : err := ErrText "empty string found in methods array".
Definition ErrInvalidMethod : err := ErrText "invalid method defined; expected a string".
Definition ErrEmptyMethod : err := ErrText "empty method defined; expected a valid message type url".
Definition ErrNegativeApproval : err := ErrText "amount cannot be negative".
Definition ErrAuthzDoesNotExistOrExpired : err := ErrText "authorization does not exist or is expired".
Definition ErrNotAccepted : err := ErrText "authorization not accepted".
Definition ErrUnknownAuthorizationType : err := ErrText "unknown authorization type".
Definition ErrDifferentOriginFromSender : err := ErrText "origin address is not the same as sender address".
Definition ErrInvalidMsgType : err := ErrText "invalid transaction type".
Definition ErrUnknownMethod : err := ErrText "unknown method".

Definition MaxUint256 : Z := 2 ^ 256 - 1.
Definition BaseDenom : string := "aISLM".
(** common/types.go: a year, in seconds *)
Definition DefaultExpirationDuration : Z := 3600 * 24 * 365.

(** [math.NewIntFromBigInt] panics beyond 256 bits. *)
Definition new_int (z : Z) : res Z := if Z.abs z <? 2 ^ 256 then Ok z else Panic.

(** ** Arguments of the authorization methods *)

Definition validateMsgTypes (arg : Arg) : res (list string) :=
  match arg with
  | ArgStrings [] => Err ErrEmptyMethods
  | ArgStrings typeURLs => if bool_decide (EmptyString ∈ typeURLs) then Err ErrEmptyStringInMethods else Ok typeURLs
  | _ => Err ErrInvalidMethods
  end.

(** The amount of an approval: none for the largest number, and for an argument that is not a number. *)
Definition approval_coin (arg : Arg) (denom : string) : res (option coin) :=
  match arg with
  | ArgUint amount =>
      if amount <? 0 then Err ErrNegativeApproval
      else if amount =? MaxUint256 then Ok None else amount ← new_int amount; Ok (Some (mkCoin denom amount))
  | _ => Ok None
  end.

Definition CheckApprovalArgs (args : list Arg) (denom : string) : res (Address * option coin * list string) :=
  match args with
  | [g; amount; urls] =>
      match g with
      | ArgAddress grantee =>
          if bool_decide (grantee = zero_address) then Err ErrInvalidGranter
          else coin ← approval_coin amount denom; typeURLs ← validateMsgTypes urls; Ok (grantee, coin, typeURLs)
      | _ => Err ErrInvalidGranter
      end
  | _ => Err ErrInvalidNumberOfArgs
  end.

Definition CheckRevokeArgs (args : list Arg) : res (Address * list string) :=
  match args with
  | [g; urls] =>
      match g with
      | ArgAddress grantee =>
          if bool_decide (grantee = zero_address) then Err ErrInvalidGranter else typeURLs ← validateMsgTypes urls; Ok (grantee, typeURLs)
      | _ => Err ErrInvalidGranter
      end
  | _ => Err ErrInvalidNumberOfArgs
  end.

Definition CheckAllowanceArgs (args : list Arg) : res (Address * Address * string) :=
  match args with
  | [e; r; url] =>
      match e with
      | ArgAddress grantee =>
          if bool_decide (grantee = zero_address) then Err ErrInvalidGrantee else
          match r with
          | ArgAddress granter =>
              if bool_decide (granter = zero_address) then Err ErrInvalidGranter else
              match url with
              | ArgString typeURL => if bool_decide (typeURL = EmptyString) then Err ErrEmptyMethod else Ok (grantee, granter, typeURL)
              | _ => Err ErrInvalidMethod
              end
          | _ => Err ErrInvalidGranter
          end
      | _ => Err ErrInvalidGrantee
      end
  | _ => Err ErrInvalidNumberOfArgs
  end.

(** ** Grants *)

Definition accept_map {A B} (f : A -> B) (r : AcceptResponse A) : AcceptResponse B := mkAccept (Accept r) (Delete r) (f <$> Updated r).

(** The account that must have granted: the origin, who is the sender unless the caller is. *)
Definition acting (caller origin sender : Address) : res Address :=
  if bool_decide (caller = sender) then Ok origin
  else if bool_decide (origin <> sender) then Err ErrDifferentOriginFromSender else Ok sender.

(** The loop of a method over the types of messages. *)
Fixpoint each_url {W} (known : string -> bool) (f : string -> M W unit) (urls : list string) : M W unit :=
  match urls with
  | [] => mret tt
  | url :: rest => if known url then f url;; each_url known f rest else mraise ErrInvalidMsgType
  end.

(** The amount of a coin that may be nil. *)
Definition coin_amount (coin : option coin) : res Z := match coin with None => Panic | Some c => Ok (Amount c) end.

(** [Int.Add] panics beyond 256 bits. *)
Definition raise_limit (limit : coin) (coin : option coin) : res (option Sdk.coin) :=
  x ← coin_amount coin; total ← new_int (Amount limit + x); Ok (Some (mkCoin (Denom limit) total)).

Section grants.
Context {W A : Type} `{AuthzKeeper W A}.

Definition CheckAuthzExists (grantee granter : Address) (msgURL : string) (w : W) : res (A * option Z) :=
  match GetAuthorization grantee granter msgURL w with None => Err ErrAuthzDoesNotExistOrExpired | Some a => Ok a end.

(** The grant after its use: removed, replaced or as it is. *)
Definition settle_grant (grantee granter : Address) (msgURL : string) (expiration : option Z) (resp : AcceptResponse A) : M W unit :=
  if negb (Accept resp) then mraise ErrNotAccepted
  else if Delete resp then DeleteGrant grantee granter msgURL
  else match Updated resp with Some a => SaveGrant grantee granter a expiration | None => mret tt end.

(** A call through a contract needs a grant of the origin that accepts the message; [known] are the types of authorization expected. *)
Definition accept_grant (caller origin : Address) (msgURL : string) (known : A -> bool) (accept : A -> res (AcceptResponse A)) : M W unit :=
  if bool_decide (caller = origin) then mret tt
  else
    found ← mgets (CheckAuthzExists caller origin msgURL);
    match found with
    | Panic => mlift Panic
    | Err _ => mraise ErrAuthzDoesNotExistOrExpired
    | Ok (a, expiration) =>
        if negb (known a) then mraise ErrUnknownAuthorizationType
        else resp ← mlift (accept a); settle_grant caller origin msgURL expiration resp
    end.
End grants.

(** ** Events *)

(** [cmn.MakeTopic] of an address: the last twenty bytes. *)
Definition MakeTopic (a : Address) : Hash := big_endian 12 0 +:+ a.

Section events.
Context {W : Type} `{EventData W}.

(** The log of an event with two addresses as topics. *)
Definition emit_event (contract : Address) (event : string) (a b : Address) (data : list Arg) : M W Log :=
  packed ← mlift (Pack (W:=W) data);
  height ← mgets BlockHeight;
  mret (mkLog contract [event_ID (W:=W) event; MakeTopic a; MakeTopic b] packed height zero_hash zero_hash 0 0).

Definition EmitRevocationEvent (contract granter grantee : Address) (typeURLs : list string) : M W Log :=
  emit_event contract "Revocation" grantee granter [ArgStrings typeURLs].

(** The events of the modules' own [EmitApprovalEvent]: no coin stands for the largest number. *)
Definition emit_approval (contract grantee granter : Address) (coin : option coin) (typeURLs : list string) : M W Log :=
  emit_event contract "Approval" grantee granter [ArgStrings typeURLs; ArgUint (from_option Amount MaxUint256 coin)].

Definition done_with (log : M W Log) : M W Answer := l ← log; mret (mkAnswer (OutBool true) [] [l]).
End events.

(** A method that only reads. *)
Definition query {W} (f : W -> res Output) : M W Answer := fun w =>
  (match f w with Ok o => Ok (answer o) | Err e => Err e | Panic => Panic end, w).

(** ** Gas *)

(** [storetypes.GasConfig]; the sums are of uint64. *)
Record GasConfig := mkGasConfig { ReadCostFlat : Z; ReadCostPerByte : Z; WriteCostFlat : Z; WriteCostPerByte : Z }.

Definition base_RequiredGas (c : GasConfig) (input : string) (isTransaction : bool) : Z :=
  let n := Z.of_nat (String.length (argument_bytes input)) in
  if isTransaction then wrap_u64 (WriteCostFlat c + wrap_u64 (WriteCostPerByte c * n))
  else wrap_u64 (ReadCostFlat c + wrap_u64 (ReadCostPerByte c * n)).

(** [RequiredGas] of a precompile by its [IsTransaction]. *)
Definition required_gas (p : ABI) (c : GasConfig) (isTransaction : string -> bool) (input : string) : Z :=
  if (String.length input <? 4)%nat then 0
  else match MethodById p (String.substring 0 4 input) with
       | None => 0
       | Some m => base_RequiredGas c input (isTransaction (method_Name m))
       end.

(** ** Balance changes *)

(** An account whose balance of aISLM shrank by [delta]; a negative one has grown. *)
Definition balance_entry (a : Address) (delta : Z) : list balanceChangeEntry :=
  if delta =? 0 then []
  else if delta <? 0 then [NewBalanceChangeEntry a (- delta) Add] else [NewBalanceChangeEntry a delta Sub].

(** What the entries add to the balance of [a]. *)
Definition mirrored (a : Address) (entries : list balanceChangeEntry) : Z :=
  foldr (fun e acc => (if decide (bce_Account e = a) then match bce_Op e with Sub => - bce_Amount e | Add => bce_Amount e end else 0) + acc) 0 entries.

Lemma mirrored_app a l l' : mirrored a (l ++ l') = mirrored a l + mirrored a l'.
Proof. induction l as [|e l IH]; [done|]. simpl. rewrite IH. lia. Qed.

Lemma mirrored_entry a b delta : mirrored a (balance_entry b delta) = if decide (b = a) then - delta else 0.
Proof.
  unfold balance_entry. destruct (Z.eqb_spec delta 0) as [->|]; [by case_decide|].
  destruct (Z.ltb_spec delta 0); simpl; case_decide; lia.
Qed.

(** ** Facts *)

Lemma emit_event_state {W} `{EventData W} c event a b data (w : W) l w' : emit_event c event a b data w = (Ok l, w') -> w' = w.
Proof.
  unfold emit_event. intros E. apply M_bind_ok in E as (packed & w1 & E1 & E). apply mlift_ok in E1 as [_ ->].
  apply M_bind_ok in E as (h & w1 & E1 & E). by apply mgets_ok in E1 as [-> ->]; injection E as _ <-.
Qed.

Lemma acting_ok caller origin sender o : acting caller origin sender = Ok o -> o = origin /\ (sender = caller \/ sender = origin).
Proof.
  unfold acting. case_bool_decide as Hc; [intros [= <-]; split; [done|by left]|]. case_bool_decide as Ho; [done|].
  intros [= <-]. auto.
Qed.

Section facts.
Context {W A : Type} `{AuthzKeeper W A}.

(** The caller acts for itself, or the origin has granted it the message: the grant accepts it and is settled. *)
Definition consented (caller origin : Address) (msgURL : string) (accept : A -> res (AcceptResponse A)) (w w' : W) : Prop :=
  caller = origin /\ w' = w \/
  caller <> origin /\ exists a expiration resp, GetAuthorization caller origin msgURL w = Some (a, expiration) /\ accept a = Ok resp /\
    Accept resp = true /\ settle_grant caller origin msgURL expiration resp w = (Ok tt, w').

Lemma accept_grant_ok caller origin msgURL known accept w w' : accept_grant caller origin msgURL known accept w = (Ok tt, w') ->
  consented caller origin msgURL accept w w'.
Proof.
  unfold accept_grant. case_bool_decide as Hc; [intros [= <-]; by left|]. intros E. right. split; [done|].
  apply M_bind_ok in E as (found & w1 & E1 & E). apply mgets_ok in E1 as [-> ->]. unfold CheckAuthzExists in E.
  destruct (GetAuthorization caller origin msgURL w) as [[a e]|]; [|done]. destruct (known a); [|done]. cbn [negb] in E.
  apply M_bind_ok in E as (resp & w1 & E1 & E). apply mlift_ok in E1 as [E1 ->]. exists a, e, resp. split_and!; [done|done| |done].
  unfold settle_grant in E. by destruct (Accept resp).
Qed.

(** Grants are apart from accounts, balances and the state of a module. *)
Class GrantFrame (S : Type) `{Ctx W, AccountKeeper W, BankKeeper W, Lens W S} : Prop := {
  save_frame g r a e w w' : SaveGrant g r a e w = (Ok tt, w') ->
    (forall b, GetAccount b w' = GetAccount b w) /\ (forall b d, Keepers.GetBalance b d w' = Keepers.GetBalance b d w) /\
    BlockTime w' = BlockTime w /\ view (S:=S) w' = view w;
  delete_frame g r url w w' : DeleteGrant g r url w = (Ok tt, w') ->
    (forall b, GetAccount b w' = GetAccount b w) /\ (forall b d, Keepers.GetBalance b d w' = Keepers.GetBalance b d w) /\
    BlockTime w' = BlockTime w /\ view (S:=S) w' = view w
}.

Lemma consented_frame {S} `{GrantFrame S} caller origin msgURL accept w w' : consented caller origin msgURL accept w w' ->
  (forall b, GetAccount b w' = GetAccount b w) /\ (forall b d, Keepers.GetBalance b d w' = Keepers.GetBalance b d w) /\
  BlockTime w' = BlockTime w /\ view (S:=S) w' = view w.
Proof.
  intros [[_ ->]|(_ & a & e & resp & _ & _ & Ha & E)]; [done|]. unfold settle_grant in E. rewrite Ha in E. cbn [negb] in E.
  destruct (Delete resp); [by apply delete_frame in E|]. destruct (Updated resp); [by apply save_frame in E|]. by injection E as <-.
Qed.
End facts.
Arguments GrantFrame W A {_} S {_ _ _ _}.

(** The method that [Precompile.Run] runs; [gas_ok] tells whether the gas of the contract covers the cost. *)
Definition as_method {W} (gas_ok : bool) (m : M W Answer) : M W effect :=
  a ← m; mret (mkEffect (an_Changes a) (an_Logs a) gas_ok).
