(* ===== verification/Erc20Precompile.v ===== *)
(** * precompiles/erc20: the coins of a pair as an ERC-20 token

    The contract at the address of a pair: transfers are transfers of the bank, allowances are grants of x/authz for the bank's
    message [MsgSend].  The state is that of the chain; a method returns its output with the balance changes and the logs that
    [Precompile.Run] mirrors in the StateDB.  The library behind the grants is the class [SendGrants]. *)

From S2P Require Import Prelude.
From S2P Require Import Sdk.
From S2P Require Import Schedule.
From S2P Require Import ClawbackAccount.
From S2P Require Import Keepers.
From S2P Require Import Ucdao.
From S2P Require Import TokenPair.
From S2P Require Import AccessList.
From S2P Require Import StateDB.
From S2P Require Import Precompile.
From S2P Require Import Evm.
From S2P Require Import Erc20.
From S2P Require Import PrecompileAuthz.

Local Open Scope Z_scope.

(** ** Data *)

(** The authorization of a grant for [MsgSend]: the bank's, or one of another type. *)
Inductive Authorization := SendAuthorization (SpendLimit : list coin) (AllowList : list string) | OtherAuthorization.

(** tx.go: [sdk.MsgTypeURL(&banktypes.MsgSend{})] *)
Definition SendMsgURL : string := "/cosmos.bank.v1beta1.MsgSend".
(** The grant for [MsgSend]: the grantee comes first, then the granter. *)
Abbreviation send_grant grantee granter := (GetAuthorization (A:=Authorization) grantee granter SendMsgURL).

(** What x/authz and the bank's message server do with [MsgSend]. *)
Class SendGrants (W : Type) := {
  (** [DispatchActions] of the grantee with one [MsgSend] *)
  DispatchSend : Address -> Address -> Address -> list coin -> M W unit;
  (** [Send] of the bank's message server *)
  msg_Send : Address -> Address -> list coin -> M W unit;
  send_ValidateBasic : list coin -> list string -> res unit
}.

(** What the queries read: the metadata of a denomination and the traces of vouchers. *)
Class DenomData (W : Type) := {
  GetDenomMetaData : string -> W -> option Metadata;
  find_trace : string -> W -> option (string * string);
  ToUpper : string -> string
}.

(** *** Errors *)

Definition ErrIntegerOverflow : err := ErrText "amount causes integer overflow".
Definition ErrIncreaseOverflow : err := ErrText "integer overflow when increasing allowance".
Definition ErrNoAllowanceForToken : err := ErrText "allowance for token does not exist".
Definition ErrSubtractMoreThanAllowance : err := ErrText "subtracted value cannot be greater than existing allowance".
Definition ErrDecreaseNonPositiveValue : err := ErrText "cannot decrease allowance with non-positive values".
Definition ErrIncreaseNonPositiveValue : err := ErrText "cannot increase allowance with non-positive values".
Definition ErrNegativeAmount : err := ErrText "cannot approve negative values".
Definition ErrSpenderIsOwner : err := ErrText "spender cannot be the owner".
Definition ErrDecreasedAllowanceBelowZero : err := ErrText "ERC20: decreased allowance below zero".
Definition ErrInsufficientAllowance : err := ErrText "ERC20: insufficient allowance".
Definition ErrTransferAmountExceedsBalance : err := ErrText "ERC20: transfer amount exceeds balance".
Definition ErrNoAuthorizationFound : err := ErrText "authorization not found".
Definition ErrInvalidArgs : err := ErrText "invalid arguments".
Definition ErrDisplayNotFound : err := ErrText "display denomination not found".
Definition ErrInvalidDecimals : err := ErrText "uint8 overflow: invalid decimals".

(** [strings.Contains] *)
Fixpoint contains (sub s : string) : bool :=
  String.prefix sub s || match s with EmptyString => false | String _ rest => contains sub rest end.

(** The text of an error that carries one. *)
Definition err_text (e : err) : string := match e with ErrText s => s | ErrExternal s => s | _ => EmptyString end.

Definition ConvertErrToERC20Error (e : err) : err :=
  let t := err_text e in
  if contains "spendable balance" t then ErrTransferAmountExceedsBalance
  else if contains "requested amount is more than spend limit" t then ErrInsufficientAllowance
  else if contains "authorization not found" t then ErrInsufficientAllowance
  else if contains "subtracted value cannot be greater than existing allowance" t then ErrDecreasedAllowanceBelowZero
  else if contains "integer overflow when increasing allowance" t then ErrExecutionReverted
  else if bool_decide (e = ErrNoIBCVoucherDenom) || bool_decide (e = ErrDenomTraceNotFound) || contains "invalid base denomination" t
    || contains "display denomination not found" t || contains "invalid decimals" t then ErrExecutionReverted
  else e.

Definition convert_err {W A} (m : M W A) : M W A := fun w =>
  match m w with (Err e, w') => (Err (ConvertErrToERC20Error e), w') | r => r end.

(** *** Arguments *)

Definition ParseTransferArgs (args : list Arg) : res (Address * Z) :=
  match args with [ArgAddress to; ArgUint amount] => Ok (to, amount) | _ => Err ErrInvalidArgs end.
Definition ParseTransferFromArgs (args : list Arg) : res (Address * Address * Z) :=
  match args with [ArgAddress from; ArgAddress to; ArgUint amount] => Ok (from, to, amount) | _ => Err ErrInvalidArgs end.
Definition ParseApproveArgs (args : list Arg) : res (Address * Z) :=
  match args with [ArgAddress spender; ArgUint amount] => Ok (spender, amount) | _ => Err ErrInvalidArgs end.
Definition ParseAllowanceArgs (args : list Arg) : res (Address * Address) :=
  match args with [ArgAddress owner; ArgAddress spender] => Ok (owner, spender) | _ => Err ErrInvalidArgs end.
Definition ParseBalanceOfArgs (args : list Arg) : res Address :=
  match args with [ArgAddress account] => Ok account | _ => Err ErrInvalidArgs end.

(** types.go: the first coin of the denomination is replaced, or the coin is added. *)
Fixpoint replace_coin (coins : list coin) (c : coin) : option (list coin) :=
  match coins with
  | [] => None
  | d :: rest => if bool_decide (Denom d = Denom c) then Some (c :: rest) else rest' ← replace_coin rest c; Some (d :: rest')
  end.
Definition updateOrAddCoin `{SdkOps} (coins : list coin) (c : coin) : list coin :=
  match replace_coin coins c with Some coins' => coins' | None => coins_add coins [c] end.

(** common/types.go *)
Definition SafeAdd (a b : Z) : Z * bool := (a + b, 2 ^ 256 <=? Z.abs (a + b)).

Section precompile.
Context {W : Type} `{SdkOps} `{IbcOps} `{AddrCheck} `{Ctx W, AccountKeeper W, BankKeeper W, SupplyKeeper W, AuthzKeeper W Authorization, SendGrants W, EventData W, DenomData W}.
Context (tokenPair : TokenPair).

#[local] Abbreviation denom := (PairDenom tokenPair).
(** [p.Address()] *)
Definition token_address : Address := GetERC20Contract tokenPair.

(** ** Authorizations *)

Definition GetAuthzExpirationAndAllowance (grantee granter : Address) (w : W) : res (Authorization * option Z * Z) :=
  '(authorization, expiration) ← CheckAuthzExists grantee granter SendMsgURL w;
  match authorization with
  | SendAuthorization limit _ => Ok (authorization, expiration, AmountOf limit denom)
  | OtherAuthorization => Err (ErrText "expected authorization to be a banktypes.SendAuthorization")
  end.

Definition createAuthorization (grantee granter : Address) (amount : Z) : M W unit :=
  if 2 ^ 256 <=? Z.abs amount then mraise ErrIntegerOverflow
  else
    let coins := [mkCoin denom amount] in
    now ← mgets BlockTime;
    mlift (send_ValidateBasic (W:=W) coins []);;
    SaveGrant grantee granter (SendAuthorization coins []) (Some (now + DefaultExpirationDuration)).

Definition updateAuthorization (grantee granter : Address) (amount : Z) (limit : list coin) (allow : list string) (expiration : option Z)
    : M W unit :=
  amount ← mlift (new_int amount);
  let limit := updateOrAddCoin limit (mkCoin denom amount) in
  mlift (send_ValidateBasic (W:=W) limit allow);;
  SaveGrant grantee granter (SendAuthorization limit allow) expiration.

Definition removeSpendLimitOrDeleteAuthorization (grantee granter : Address) (authorization : Authorization) (expiration : option Z) : M W unit :=
  match authorization with
  | OtherAuthorization => mraise ErrUnknownAuthorizationType
  | SendAuthorization limit allow =>
      match Find limit denom with
      | None => mraise ErrNoAllowanceForToken
      | Some denomCoins =>
          let '(newSpendLimit, hasNeg) := SafeSub limit [denomCoins] in
          if hasNeg then mraise (ConvertErrToERC20Error ErrSubtractMoreThanAllowance)
          else if IsZero newSpendLimit then DeleteGrant grantee granter SendMsgURL
          else SaveGrant grantee granter (SendAuthorization newSpendLimit allow) expiration
      end
  end.

Definition increaseAllowance (grantee granter : Address) (addedValue : Z) (authorization : Authorization) (expiration : option Z) : M W Z :=
  match authorization with
  | OtherAuthorization => mraise ErrUnknownAuthorizationType
  | SendAuthorization limit allow =>
      addedValue ← mlift (new_int addedValue);
      let '(amount, overflow) := SafeAdd (AmountOf limit denom) addedValue in
      if overflow then mraise (ConvertErrToERC20Error ErrIncreaseOverflow)
      else updateAuthorization grantee granter amount limit allow expiration;; mret amount
  end.

Definition decreaseAllowance (grantee granter : Address) (subtractedValue : Z) (authorization : Authorization) (expiration : option Z) : M W Z :=
  match authorization with
  | OtherAuthorization => mraise ErrUnknownAuthorizationType
  | SendAuthorization limit allow =>
      match Find limit denom with
      | None => mraise ErrNoAllowanceForToken
      | Some allowance =>
          let amount := Amount allowance - subtractedValue in
          if amount <? 0 then mraise (ConvertErrToERC20Error ErrSubtractMoreThanAllowance)
          else updateAuthorization grantee granter amount limit allow expiration;; mret amount
      end
  end.

(** ** Events *)

Definition make_log (event : string) (a b : Address) (value : Z) (w : W) : Log :=
  mkLog token_address [event_ID (W:=W) event; MakeTopic a; MakeTopic b] (Bytes32 value) (BlockHeight w) zero_hash zero_hash 0 0.
Definition EmitTransferEvent (from to : Address) (value : Z) (w : W) : Log := make_log "Transfer" from to value w.
Definition EmitApprovalEvent (owner spender : Address) (value : Z) (w : W) : Log := make_log "Approval" owner spender value w.

(** ** Transactions *)

(** A successful change of an allowance; the event names the contract as the owner. *)
Definition approved (spender : Address) (amount : Z) : M W Answer :=
  log ← mgets (EmitApprovalEvent token_address spender amount); mret (mkAnswer (OutBool true) [] [log]).

Definition Approve (caller : Address) (args : list Arg) : M W Answer :=
  '(spender, amount) ← mlift (ParseApproveArgs args);
  let grantee := spender in
  let granter := caller in
  if bool_decide (grantee = granter) then mraise ErrSpenderIsOwner
  else
    authorization ← mgets (send_grant grantee granter);
    (match authorization with
     | None =>
         if amount <? 0 then mraise ErrNegativeAmount
         else if 0 <? amount then createAuthorization grantee granter amount
         else mret tt
     | Some (a, expiration) =>
         if amount <=? 0 then removeSpendLimitOrDeleteAuthorization grantee granter a expiration
         else
           match a with
           | OtherAuthorization => mraise ErrUnknownAuthorizationType
           | SendAuthorization limit allow => updateAuthorization grantee granter amount limit allow expiration
           end
     end);;
    approved spender amount.

Definition IncreaseAllowance (caller : Address) (args : list Arg) : M W Answer :=
  '(spender, addedValue) ← mlift (ParseApproveArgs args);
  let grantee := spender in
  let granter := caller in
  if bool_decide (grantee = granter) then mraise ErrSpenderIsOwner
  else
    authorization ← mgets (send_grant grantee granter);
    amount ← (if addedValue <=? 0 then mraise ErrIncreaseNonPositiveValue
              else match authorization with
                   | None => createAuthorization grantee granter addedValue;; mret addedValue
                   | Some (a, expiration) => increaseAllowance grantee granter addedValue a expiration
                   end);
    approved spender amount.

Definition DecreaseAllowance (caller : Address) (args : list Arg) : M W Answer :=
  '(spender, subtractedValue) ← mlift (ParseApproveArgs args);
  let grantee := spender in
  let granter := caller in
  if bool_decide (grantee = granter) then mraise ErrSpenderIsOwner
  else
    found ← mgets (GetAuthzExpirationAndAllowance grantee granter);
    amount ← (if subtractedValue <=? 0 then mraise ErrDecreaseNonPositiveValue
              else match found with
                   | Panic => mlift Panic
                   | Err _ => mraise ErrNoAllowanceForToken
                   | Ok (a, expiration, allowance) =>
                       if subtractedValue <? allowance then decreaseAllowance grantee granter subtractedValue a expiration
                       else if subtractedValue =? allowance then removeSpendLimitOrDeleteAuthorization grantee granter a expiration;; mret 0
                       else if allowance =? 0 then mraise ErrNoAllowanceForToken
                       else mraise (ConvertErrToERC20Error ErrSubtractMoreThanAllowance)
                   end);
    approved spender amount.

(** The changes of the balance in the EVM's denomination. *)
Definition balance_changes (from to : Address) (amount : Z) : list balanceChangeEntry :=
  if bool_decide (denom = BaseDenom) then [NewBalanceChangeEntry from amount Sub; NewBalanceChangeEntry to amount Add] else [].

Definition transfer (caller : Address) (isTransferFrom : bool) (from to : Address) (amount : Z) : M W Answer :=
  amount ← mlift (new_int amount);
  let coins := [mkCoin denom amount] in
  if negb (IsValid coins) then mraise ErrInvalidCoins
  else
    let spender := caller in
    let ownerIsSpender := bool_decide (spender = from) in
    prevAllowance ←
      (if ownerIsSpender then convert_err (msg_Send from to coins);; mret 0
       else
         found ← mgets (GetAuthzExpirationAndAllowance spender from);
         match found with
         | Panic => mlift Panic
         | Err _ => mraise (ConvertErrToERC20Error ErrNoAuthorizationFound)
         | Ok (_, _, prevAllowance) => convert_err (DispatchSend spender from to coins);; mret prevAllowance
         end);
    log ← mgets (EmitTransferEvent from to amount);
    let changes := balance_changes from to amount in
    if negb isTransferFrom then mret (mkAnswer (OutBool true) changes [log])
    else
      let newAllowance := if ownerIsSpender then MaxUint256 else prevAllowance - amount in
      approval ← mgets (EmitApprovalEvent from spender newAllowance);
      mret (mkAnswer (OutBool true) changes [log; approval]).

Definition Transfer (caller : Address) (args : list Arg) : M W Answer :=
  '(to, amount) ← mlift (ParseTransferArgs args); transfer caller false caller to amount.
Definition TransferFrom (caller : Address) (args : list Arg) : M W Answer :=
  '(from, to, amount) ← mlift (ParseTransferFromArgs args); transfer caller true from to amount.

(** ** Queries *)

Definition getBaseDenomFromIBCVoucher (w : W) : res string :=
  '(_, base) ← GetDenomTrace find_trace denom w;
  if (String.length base <? 3)%nat then Err (ErrText "invalid base denomination; should be at least length 3") else Ok base.

Definition Name (w : W) : res Output :=
  match GetDenomMetaData denom w with
  | Some md => Ok (OutString (md_Name md))
  | None =>
      match getBaseDenomFromIBCVoucher w with
      | Ok base => Ok (OutString (ToUpper (W:=W) (String.substring 1 1 base) +:+ String.substring 2 (String.length base - 2) base))
      | Err e => Err (ConvertErrToERC20Error e)
      | Panic => Panic
      end
  end.

Definition Symbol (w : W) : res Output :=
  match GetDenomMetaData denom w with
  | Some md => Ok (OutString (md_Symbol md))
  | None =>
      match getBaseDenomFromIBCVoucher w with
      | Ok base => Ok (OutString (ToUpper (W:=W) (String.substring 1 (String.length base - 1) base)))
      | Err e => Err (ConvertErrToERC20Error e)
      | Panic => Panic
      end
  end.

(** The loop from the last unit down: the display unit, or the first of all. *)
Fixpoint display_exponent (display : string) (units : list (string * Z)) : option Z :=
  match units with
  | [] => None
  | [(_, e)] => Some e
  | (d, e) :: rest => if bool_decide (d = display) then Some e else display_exponent display rest
  end.

Definition Decimals (w : W) : res Output :=
  match GetDenomMetaData denom w with
  | None =>
      match (trace ← GetDenomTrace find_trace denom w; DeriveDecimalsFromDenom (snd trace)) with
      | Ok decimals => Ok (OutUint decimals)
      | Err e => Err (ConvertErrToERC20Error e)
      | Panic => Panic
      end
  | Some md =>
      match display_exponent (md_Display md) (rev (md_DenomUnits md)) with
      | None => Err (ConvertErrToERC20Error ErrDisplayNotFound)
      | Some decimals => if 255 <? decimals then Err (ConvertErrToERC20Error ErrInvalidDecimals) else Ok (OutUint decimals)
      end
  end.

Definition TotalSupply (w : W) : res Output := Ok (OutUint (GetSupply denom w)).

Definition BalanceOf (args : list Arg) (w : W) : res Output :=
  account ← ParseBalanceOfArgs args; Ok (OutUint (Keepers.GetBalance account denom w)).

Definition Allowance (args : list Arg) (w : W) : res Output :=
  '(owner, spender) ← ParseAllowanceArgs args;
  if bool_decide (owner = spender) then Ok (OutUint MaxUint256)
  else match GetAuthzExpirationAndAllowance spender owner w with
       | Ok (_, _, allowance) => Ok (OutUint allowance)
       | Err _ => Ok (OutUint 0)
       | Panic => Panic
       end.

(** ** Dispatch *)

Definition HandleMethod (caller : Address) (name : string) (args : list Arg) : M W Answer :=
  if bool_decide (name = "transfer") then Transfer caller args
  else if bool_decide (name = "transferFrom") then TransferFrom caller args
  else if bool_decide (name = "approve") then Approve caller args
  else if bool_decide (name = "increaseAllowance") then IncreaseAllowance caller args
  else if bool_decide (name = "decreaseAllowance") then DecreaseAllowance caller args
  else if bool_decide (name = "name") then query Name
  else if bool_decide (name = "symbol") then query Symbol
  else if bool_decide (name = "decimals") then query Decimals
  else if bool_decide (name = "totalSupply") then query TotalSupply
  else if bool_decide (name = "balanceOf") then query (BalanceOf args)
  else if bool_decide (name = "allowance") then query (Allowance args)
  else mraise ErrUnknownMethod.

Definition IsTransaction (name : string) : bool :=
  bool_decide (name ∈ ["transfer"; "transferFrom"; "approve"; "increaseAllowance"; "decreaseAllowance"]%string).

(** The gas of a method by its name; an input without a known method costs nothing. *)
Definition method_gas (name : string) : Z :=
  if bool_decide (name = "transfer") || bool_decide (name = "transferFrom") then 3000000
  else if bool_decide (name = "approve") then 30956
  else if bool_decide (name = "increaseAllowance") then 34605
  else if bool_decide (name = "decreaseAllowance") then 34519
  else if bool_decide (name = "name") then 3421
  else if bool_decide (name = "symbol") then 3464
  else if bool_decide (name = "decimals") then 427
  else if bool_decide (name = "totalSupply") then 2477
  else if bool_decide (name = "balanceOf") then 2851
  else if bool_decide (name = "allowance") then 3246
  else 0.
Definition RequiredGas (p : ABI) (input : string) : Z :=
  if (String.length input <? 4)%nat then 0
  else match MethodById p (String.substring 0 4 input) with None => 0 | Some m => method_gas (method_Name m) end.

(** The body that [Precompile.Run] runs; [unpack] decodes the arguments and [gas_ok] tells whether the contract's gas covers the cost. *)
Definition erc20_method (caller : Address) (input : string) (unpack : Method -> string -> list Arg) (gas_ok : bool) (m : Method) : M W effect :=
  a ← HandleMethod caller (method_Name m) (unpack m (argument_bytes input));
  mret (mkEffect (an_Changes a) (an_Logs a) gas_ok).

Definition erc20_Run `{StateKeeper W, Keccak} (p : ABI) (caller : Address) (c : Contract) (readOnly : bool) (initialGas : Z)
    (unpack : Method -> string -> list Arg) (gas_ok : bool) : M (StateDB W) unit :=
  Precompile.Run token_address p c readOnly IsTransaction initialGas (erc20_method caller (Input c) unpack gas_ok).
End precompile.
