(* ===== verification/Erc20Standard.v ===== *)
(** * What the precompile of precompiles/erc20 ensures

    The contract of a pair is a token of the standard: the methods that succeed do what ERC-20 says to balances, allowances and supply, and the
    queries tell them, so that a spender never takes more than its allowance ([erc20_precompile_simulates_standard]).  An abstract token is a function of balances and one of allowances; the
    chain's state is read as one by [token_of]. *)

From S2P Require Import Prelude.
From S2P Require Import Sdk.
From S2P Require Import Schedule.
From S2P Require Import ClawbackAccount.
From S2P Require Import Keepers.
From S2P Require Import Ucdao.
From S2P Require Import TokenPair.
From S2P Require Import AccessList.
From S2P Require Import StateDB.
From S2P Require Import Precompile.
From S2P Require Import Evm.
From S2P Require Import PrecompileAuthz.
From S2P Require Import Erc20.
From S2P Require Import Erc20Precompile.

Local Open Scope Z_scope.

(** ** The standard *)

Record Token := mkToken {
  t_balance : Address -> Z;
  (** of the owner, for the spender *)
  t_allowance : Address -> Address -> Z;
  t_supply : Z
}.

Inductive Call :=
  | CallTransfer (to : Address) (n : Z)
  | CallTransferFrom (from to : Address) (n : Z)
  | CallApprove (spender : Address) (n : Z)
  | CallIncrease (spender : Address) (n : Z)
  | CallDecrease (spender : Address) (n : Z)
  | CallTotalSupply
  | CallBalanceOf (a : Address)
  | CallAllowance (owner spender : Address).

(** [n] tokens have moved, which the owner had. *)
Definition paid (from to : Address) (n : Z) (t t' : Token) : Prop := n <= t_balance t from /\
  forall a, t_balance t' a = t_balance t a - (if decide (a = from) then n else 0) + (if decide (a = to) then n else 0).
Definition same_balances (t t' : Token) : Prop := forall a, t_balance t' a = t_balance t a.
(** The allowance of [spender] is [x] now, the others are as before. *)
Definition granted (owner spender : Address) (x : Z) (t t' : Token) : Prop :=
  forall o s, t_allowance t' o s = if decide (o = owner /\ s = spender) then x else t_allowance t o s.
Definition same_allowances (t t' : Token) : Prop := forall o s, t_allowance t' o s = t_allowance t o s.

(** A call of the standard that succeeds: what it changes and answers. *)
Definition standard (caller : Address) (m : Call) (t t' : Token) (o : Output) : Prop :=
  t_supply t' = t_supply t /\
  match m with
  | CallTransfer to n => paid caller to n t t' /\ same_allowances t t' /\ o = OutBool true
  | CallTransferFrom from to n => paid from to n t t' /\ o = OutBool true /\
      if decide (from = caller) then same_allowances t t'
      else n <= t_allowance t from caller /\ granted from caller (t_allowance t from caller - n) t t'
  | CallApprove s n => same_balances t t' /\ granted caller s n t t' /\ o = OutBool true
  | CallIncrease s n => same_balances t t' /\ granted caller s (t_allowance t caller s + n) t t' /\
      t_allowance t caller s + n <= MaxUint256 /\ o = OutBool true
  | CallDecrease s n => same_balances t t' /\ n <= t_allowance t caller s /\ granted caller s (t_allowance t caller s - n) t t' /\ o = OutBool true
  | CallTotalSupply => same_balances t t' /\ same_allowances t t' /\ o = OutUint (t_supply t)
  | CallBalanceOf a => same_balances t t' /\ same_allowances t t' /\ o = OutUint (t_balance t a)
  | CallAllowance owner spender => same_balances t t' /\ same_allowances t t' /\ o = OutUint (t_allowance t owner spender)
  end.

(** The call that a method and its arguments ask for. *)
Definition request (name : string) (args : list Arg) : option Call :=
  match args with
  | [] => if bool_decide (name = "totalSupply") then Some CallTotalSupply else None
  | [ArgAddress a] => if bool_decide (name = "balanceOf") then Some (CallBalanceOf a) else None
  | [ArgAddress a; ArgUint n] =>
      if bool_decide (name = "transfer") then Some (CallTransfer a n)
      else if bool_decide (name = "approve") then Some (CallApprove a n)
      else if bool_decide (name = "increaseAllowance") then Some (CallIncrease a n)
      else if bool_decide (name = "decreaseAllowance") then Some (CallDecrease a n) else None
  | [ArgAddress a; ArgAddress b] => if bool_decide (name = "allowance") then Some (CallAllowance a b) else None
  | [ArgAddress a; ArgAddress b; ArgUint n] => if bool_decide (name = "transferFrom") then Some (CallTransferFrom a b n) else None
  | _ => None
  end.

(** A method that was called, with what it answered. *)
Record Event := mkEvent { ev_caller : Address; ev_name : string; ev_args : list Arg; ev_output : Output }.
Definition ev_request (e : Event) : option Call := request (ev_name e) (ev_args e).

(** A run of the standard token; methods that it does not describe change nothing. *)
Inductive standard_run : list Event -> Token -> Token -> Prop :=
  | standard_done t : standard_run [] t t
  | standard_call e m l t t1 t' : ev_request e = Some m -> standard (ev_caller e) m t t1 (ev_output e) -> standard_run l t1 t' ->
      standard_run (e :: l) t t'
  | standard_other e l t t' : ev_request e = None -> standard_run l t t' -> standard_run (e :: l) t t'.

(** What [spender] has taken from [owner], and whether [owner] has raised the allowance. *)
Definition taken (owner spender : Address) (e : Event) : Z :=
  match ev_request e with
  | Some (CallTransferFrom from _ n) => if decide (from = owner /\ ev_caller e = spender) then n else 0
  | _ => 0
  end.
Definition raises (owner spender : Address) (e : Event) : Prop :=
  ev_caller e = owner /\
  match ev_request e with Some (CallApprove s _) => s = spender | Some (CallIncrease s _) => s = spender | _ => False end.

(** A number of the ABI. *)
Definition abi_arg (a : Arg) : Prop := match a with ArgUint z => 0 <= z < 2 ^ 256 | _ => True end.

(** ** The library *)

Section laws.
Context {W : Type} `{SdkOps} `{BankKeeper W, SupplyKeeper W, AuthzKeeper W Authorization, SendGrants W}.

(** Only the grant of [granter] to [grantee] may differ. *)
Definition grant_frame (grantee granter : Address) (w w' : W) : Prop :=
  forall g r, ~ (g = grantee /\ r = granter) -> send_grant g r w' = send_grant g r w.
Definition same_bank (w w' : W) : Prop :=
  (forall a d, Keepers.GetBalance a d w' = Keepers.GetBalance a d w) /\ forall d, GetSupply d w' = GetSupply d w.
(** The bank's transfer, of funds that the sender has. *)
Definition bank_sent (from to : Address) (cs : list coin) (w w' : W) : Prop :=
  moved from to cs (fun a d => Keepers.GetBalance a d w) (fun a d => Keepers.GetBalance a d w') /\
  (forall d, amt cs d <= Keepers.GetBalance from d w) /\ forall d, GetSupply d w' = GetSupply d w.

(** x/authz: a grant that was saved is found, and a message that is dispatched spends the limit of its grant ([SendAuthorization.Accept]). *)
Class GrantLaws : Prop := {
  save_ok grantee granter limit allow e w w' : SaveGrant grantee granter (SendAuthorization limit allow) e w = (Ok tt, w') ->
    send_grant grantee granter w' = Some (SendAuthorization limit allow, e) /\ grant_frame grantee granter w w' /\ same_bank w w';
  delete_grant_ok grantee granter w w' : DeleteGrant grantee granter SendMsgURL w = (Ok tt, w') ->
    send_grant grantee granter w' = None /\ grant_frame grantee granter w w' /\ same_bank w w';
  msg_send_ok from to cs w w' : operand cs -> msg_Send from to cs w = (Ok tt, w') ->
    bank_sent from to cs w w' /\ forall g r, send_grant g r w' = send_grant g r w;
  dispatch_ok grantee from to cs w w' limit allow e : operand cs -> grantee <> from ->
    send_grant grantee from w = Some (SendAuthorization limit allow, e) -> DispatchSend grantee from to cs w = (Ok tt, w') ->
    bank_sent from to cs w w' /\ grant_frame grantee from w w' /\
    exists left, SafeSub limit cs = (left, false) /\
      send_grant grantee from w' = if IsZero left then None else Some (SendAuthorization left allow, e)
}.

(** The limits of the grants are coins in order. *)
Definition grants_ok (w : W) : Prop :=
  forall g r limit allow e, send_grant g r w = Some (SendAuthorization limit allow, e) -> valid limit.
End laws.

(** ** Coins *)

Lemma replace_coin_spec cs d x : valid cs -> 0 < x -> forall cs', replace_coin cs (mkCoin d x) = Some cs' ->
  valid cs' /\ map Denom cs' = map Denom cs /\ forall d', amt cs' d' = if decide (d = d') then x else amt cs d'.
Proof.
  intros [Ss Ps] Hx. induction Ss as [|c cs Ss IH Hc]; intros cs'; simpl; [done|]. apply list.Forall_cons in Ps as [Pc Ps].
  case_bool_decide as Hd; simpl in Hd.
  - intros [= <-]. assert (Hl : Forall (denom_lt (mkCoin d x)) cs).
    { eapply list.Forall_impl; [exact Hc|]. intros y. unfold denom_lt. by rewrite Hd. }
    split; [by repeat constructor|]. split; [simpl; by rewrite Hd|]. intros d'. simpl. rewrite Hd. case_decide; [|done]. subst d'.
    pose proof (amt_absent (mkCoin d x) cs Hl) as Ha. simpl in Ha. lia.
  - destruct (replace_coin cs (mkCoin d x)) as [cs1|] eqn:E; [|done]. intros [= <-]. destruct (IH Ps _ eq_refl) as ([S1 P1] & M1 & A1).
    split; [|split; [simpl; by rewrite M1|intros d'; simpl; rewrite A1; repeat case_decide; simplify_eq; lia]].
    split; constructor; try done. rewrite list.Forall_forall in Hc. rewrite list.Forall_forall. intros y Hy.
    assert (Hin : Denom y ∈ map Denom cs1) by (apply list_elem_of_fmap; eauto). rewrite M1 in Hin.
    apply list_elem_of_fmap in Hin as (z & Ez & Hz). specialize (Hc _ Hz). unfold denom_lt in *. by rewrite Ez.
Qed.

Lemma replace_coin_none cs d x : replace_coin cs (mkCoin d x) = None -> amt cs d = 0.
Proof.
  induction cs as [|c cs IH]; simpl; [done|]. case_bool_decide as Hd; [done|]. destruct (replace_coin cs _); [done|]. intros _.
  rewrite decide_False by done. rewrite IH by done. done.
Qed.

Lemma updateOrAddCoin_spec `{SdkOps, !SdkLaws} cs d x : valid cs -> 0 < x ->
  valid (updateOrAddCoin cs (mkCoin d x)) /\ forall d', amt (updateOrAddCoin cs (mkCoin d x)) d' = if decide (d = d') then x else amt cs d'.
Proof.
  intros Hv Hx. unfold updateOrAddCoin. destruct (replace_coin cs (mkCoin d x)) as [cs'|] eqn:E.
  - by destruct (replace_coin_spec _ _ _ Hv Hx _ E) as (? & _ & ?).
  - apply replace_coin_none in E. destruct (add_spec cs [mkCoin d x]) as [V A]; [by apply valid_operand|apply operand_single; lia|].
    split; [done|]. intros d'. rewrite A, amt_single. case_decide; [subst|]; lia.
Qed.

Section refinement.
Context {W : Type} `{SdkOps, !SdkLaws} `{IbcOps} `{AddrCheck} `{Ctx W, AccountKeeper W, BankKeeper W, SupplyKeeper W, AuthzKeeper W Authorization, SendGrants W, EventData W, DenomData W}
  {HG : GrantLaws (W:=W)}.
Context (tp : TokenPair).
#[local] Abbreviation denom := (PairDenom tp).

(** *** The state as a token *)

Definition granted_amount (g : option (Authorization * option Z)) : Z :=
  match g with Some (SendAuthorization limit _, _) => amt limit denom | _ => 0 end.
Definition token_of (w : W) : Token := mkToken
  (fun a => Keepers.GetBalance a denom w)
  (fun owner spender => if decide (owner = spender) then MaxUint256 else granted_amount (send_grant spender owner w))
  (GetSupply denom w).

(** A change of one grant that leaves the bank alone. *)
Lemma one_grant owner spender x w w' : owner <> spender -> grants_ok w -> grant_frame spender owner w w' ->
  (forall limit allow e, send_grant spender owner w' = Some (SendAuthorization limit allow, e) -> valid limit) ->
  granted_amount (send_grant spender owner w') = x -> grants_ok w' /\ granted owner spender x (token_of w) (token_of w').
Proof.
  intros Hn Hg Hf Hv Hx. split.
  - intros g r limit allow e. destruct (decide (g = spender /\ r = owner)) as [[-> ->]|Hd]; [apply Hv|]. rewrite Hf by done. apply Hg.
  - intros o s. simpl. destruct (decide (o = owner /\ s = spender)) as [[-> ->]|Hd]; [by rewrite decide_False by done|].
    case_decide; [done|]. by rewrite Hf by tauto.
Qed.

Lemma same_bank_token w w' : same_bank w w' -> same_balances (token_of w) (token_of w') /\ t_supply (token_of w') = t_supply (token_of w).
Proof. intros [Hb Hs]. split; [intros a; apply Hb|apply Hs]. Qed.

(** The allowance becomes [x] when a grant with the limit [limit] is saved or taken away. *)
Definition reallowed (owner spender : Address) (x : Z) (w w' : W) : Prop :=
  grants_ok w' /\ granted owner spender x (token_of w) (token_of w') /\ same_balances (token_of w) (token_of w') /\
  t_supply (token_of w') = t_supply (token_of w).

Lemma save_reallows owner spender limit allow e w w' : owner <> spender -> grants_ok w -> valid limit ->
  SaveGrant spender owner (SendAuthorization limit allow) e w = (Ok tt, w') -> reallowed owner spender (amt limit denom) w w'.
Proof.
  intros Hn Hg Hv E. apply save_ok in E as (Ea & Hf & Hb). destruct (one_grant owner spender (amt limit denom) w w' Hn Hg Hf) as [Hg' Hx].
  - rewrite Ea. by intros l a x [= <- _ _].
  - by rewrite Ea.
  - split; [done|]. split; [done|]. by apply same_bank_token.
Qed.

Lemma delete_reallows owner spender w w' : owner <> spender -> grants_ok w -> DeleteGrant spender owner SendMsgURL w = (Ok tt, w') ->
  reallowed owner spender 0 w w'.
Proof.
  intros Hn Hg E. apply delete_grant_ok in E as (Ea & Hf & Hb). destruct (one_grant owner spender 0 w w' Hn Hg Hf) as [Hg' Hx].
  - by rewrite Ea.
  - by rewrite Ea.
  - split; [done|]. split; [done|]. by apply same_bank_token.
Qed.

Lemma create_reallows owner spender amount w w' : owner <> spender -> grants_ok w -> 0 < amount ->
  createAuthorization tp spender owner amount w = (Ok tt, w') -> reallowed owner spender amount w w' /\ amount < 2 ^ 256.
Proof.
  intros Hn Hg Hp E. unfold createAuthorization in E. destruct (Z.leb_spec (2 ^ 256) (Z.abs amount)); [done|].
  apply M_bind_ok in E as (now & w0 & E0 & E). apply mgets_ok in E0 as [_ ->].
  apply M_bind_ok in E as ([] & w0 & E0 & E). apply mlift_ok in E0 as [_ ->]. split; [|lia].
  apply save_reallows in E; [|done|done|by apply valid_single]. by rewrite amt_single, decide_True in E.
Qed.

Lemma update_reallows owner spender amount limit allow e w w' : owner <> spender -> grants_ok w -> valid limit -> 0 < amount ->
  updateAuthorization tp spender owner amount limit allow e w = (Ok tt, w') -> reallowed owner spender amount w w'.
Proof.
  intros Hn Hg Hv Hp E. unfold updateAuthorization in E. apply M_bind_ok in E as (x & w0 & E0 & E). apply mlift_ok in E0 as [E0 ->].
  unfold new_int in E0. destruct (_ <? _); [|done]. injection E0 as <-. cbv zeta in E.
  apply M_bind_ok in E as ([] & w0 & E0 & E). apply mlift_ok in E0 as [_ ->].
  destruct (updateOrAddCoin_spec limit denom amount Hv Hp) as [V A].
  apply save_reallows in E; [|done..]. by rewrite A, decide_True in E.
Qed.

Lemma remove_reallows owner spender a e w w' : owner <> spender -> grants_ok w -> send_grant spender owner w = Some (a, e) ->
  removeSpendLimitOrDeleteAuthorization tp spender owner a e w = (Ok tt, w') -> reallowed owner spender 0 w w'.
Proof.
  intros Hn Hg Ea E. unfold removeSpendLimitOrDeleteAuthorization in E. destruct a as [limit allow|]; [|done]. pose proof (Hg _ _ _ _ _ Ea) as Hv.
  rewrite find_spec in E by done. destruct (decide (amt limit denom = 0)) as [|Hz]; [done|].
  assert (Hp : 0 < amt limit denom) by (pose proof (amt_nonneg limit denom (valid_operand _ Hv)); lia).
  destruct (safe_sub_ok limit [mkCoin denom (amt limit denom)]) as (left & El & Vl & Al);
    [by apply valid_operand|apply operand_single; lia|intros d; rewrite amt_single; case_decide; [subst; lia|apply amt_nonneg, valid_operand, Hv]|].
  rewrite El in E. destruct (IsZero left); [by apply delete_reallows in E|]. apply save_reallows in E; [|done..].
  by rewrite Al, amt_single, decide_True, Z.sub_diag in E.
Qed.

Lemma allowance_of owner spender w a e x : grants_ok w -> owner <> spender -> GetAuthzExpirationAndAllowance tp spender owner w = Ok (a, e, x) ->
  x = t_allowance (token_of w) owner spender /\ exists limit allow, a = SendAuthorization limit allow /\ valid limit /\ x = amt limit denom /\
    send_grant spender owner w = Some (a, e).
Proof.
  intros Hg Hn E. unfold GetAuthzExpirationAndAllowance, CheckAuthzExists in E. destruct (send_grant spender owner w) as [[b e']|] eqn:Ea; [|done].
  simpl in E. destruct b as [limit allow|]; [|done]. injection E as <- <- <-. pose proof (Hg _ _ _ _ _ Ea) as Hv.
  rewrite amount_of_spec by (by apply valid_operand). split; [simpl; by rewrite decide_False, Ea by done|]. by exists limit, allow.
Qed.

Lemma allowance_at owner spender w limit allow e : owner <> spender -> send_grant spender owner w = Some (SendAuthorization limit allow, e) ->
  t_allowance (token_of w) owner spender = amt limit denom.
Proof. intros Hn Ea. simpl. by rewrite decide_False, Ea. Qed.

(** *** Methods *)

Lemma ParseApproveArgs_inv args s n : ParseApproveArgs args = Ok (s, n) -> args = [ArgAddress s; ArgUint n].
Proof. destruct args as [|[a|z| | | |] [|[b|y| | | |] [|? ?]]]; try done. by intros [= -> ->]. Qed.

Lemma approved_ok spender x w r w' : approved tp spender x w = (Ok r, w') -> w' = w /\ an_Output r = OutBool true.
Proof. by intros [= <- <-]. Qed.

Lemma none_reallows owner spender w : owner <> spender -> grants_ok w -> send_grant spender owner w = None -> reallowed owner spender 0 w w.
Proof.
  intros Hn Hg Ea. split; [done|]. split; [|done]. intros o s. case_decide as Hd; [|done]. destruct Hd as [-> ->]. simpl.
  by rewrite decide_False, Ea.
Qed.

Lemma Approve_ok caller args w r w' : grants_ok w -> Forall abi_arg args -> Approve tp caller args w = (Ok r, w') ->
  exists spender n, args = [ArgAddress spender; ArgUint n] /\ reallowed caller spender n w w' /\ an_Output r = OutBool true.
Proof.
  intros Hg Ha E. unfold Approve in E. apply M_bind_ok in E as ([spender n] & w0 & E0 & E). apply mlift_ok in E0 as [E0 ->].
  apply ParseApproveArgs_inv in E0 as ->. exists spender, n. split; [done|].
  do 2 (apply list.Forall_cons in Ha as [? Ha]). simpl in *. destruct (bool_decide (spender = caller)) eqn:Ed; [done|]. apply bool_decide_eq_false in Ed.
  apply M_bind_ok in E as (au & w0 & E0 & E). apply mgets_ok in E0 as [-> ->].
  apply M_bind_ok in E as ([] & w1 & E1 & E). apply approved_ok in E as [-> Ho]. split; [|done].
  destruct (send_grant spender caller w) as [[a e]|] eqn:Ea.
  - destruct (Z.leb_spec n 0); [assert (n = 0) as -> by lia; by eapply remove_reallows|]. destruct a as [limit allow|]; [|done].
    eapply update_reallows; [done|done|by eapply Hg|done|exact E1].
  - destruct (Z.ltb_spec n 0); [lia|]. destruct (Z.ltb_spec 0 n); [by eapply create_reallows|]. injection E1 as <-.
    assert (n = 0) as -> by lia. by apply none_reallows.
Qed.

Lemma IncreaseAllowance_ok caller args w r w' : grants_ok w -> Forall abi_arg args -> IncreaseAllowance tp caller args w = (Ok r, w') ->
  exists spender n, args = [ArgAddress spender; ArgUint n] /\ reallowed caller spender (t_allowance (token_of w) caller spender + n) w w' /\
    t_allowance (token_of w) caller spender + n <= MaxUint256 /\ an_Output r = OutBool true.
Proof.
  intros Hg Ha E. unfold IncreaseAllowance in E. apply M_bind_ok in E as ([spender n] & w0 & E0 & E). apply mlift_ok in E0 as [E0 ->].
  apply ParseApproveArgs_inv in E0 as ->. exists spender, n. split; [done|].
  simpl in E. destruct (bool_decide (spender = caller)) eqn:Ed; [done|]. apply bool_decide_eq_false in Ed.
  apply M_bind_ok in E as (au & w0 & E0 & E). apply mgets_ok in E0 as [-> ->].
  apply M_bind_ok in E as (x & w1 & E1 & E). apply approved_ok in E as [-> Ho]. destruct (Z.leb_spec n 0); [done|]. unfold MaxUint256.
  destruct (send_grant spender caller w) as [[a e]|] eqn:Ea.
  - unfold increaseAllowance in E1. destruct a as [limit allow|]; [|done]. pose proof (Hg _ _ _ _ _ Ea) as Hv.
    rewrite (allowance_at caller spender w limit allow e) by done. apply M_bind_ok in E1 as (y & w0 & E0 & E1). apply mlift_ok in E0 as [E0 ->].
    unfold new_int in E0. destruct (_ <? _); [|done]. injection E0 as <-. unfold SafeAdd in E1.
    rewrite amount_of_spec in E1 by (by apply valid_operand). pose proof (amt_nonneg limit denom (valid_operand _ Hv)).
    destruct (Z.leb_spec (2 ^ 256) (Z.abs (amt limit denom + n))); [done|]. apply M_bind_ok in E1 as ([] & w0 & E0 & E1). injection E1 as _ <-.
    split; [|split; [lia|done]]. eapply update_reallows; [done|done|done|lia|exact E0].
  - apply M_bind_ok in E1 as ([] & w0 & E0 & E1). injection E1 as _ <-. apply create_reallows in E0 as [E0 Hl]; [|done|done|lia].
    assert (Hz : t_allowance (token_of w) caller spender = 0) by (simpl; by rewrite decide_False, Ea). rewrite Hz, Z.add_0_l.
    split; [done|]. split; [lia|done].
Qed.

Lemma DecreaseAllowance_ok caller args w r w' : grants_ok w -> Forall abi_arg args -> DecreaseAllowance tp caller args w = (Ok r, w') ->
  exists spender n, args = [ArgAddress spender; ArgUint n] /\ reallowed caller spender (t_allowance (token_of w) caller spender - n) w w' /\
    n <= t_allowance (token_of w) caller spender /\ an_Output r = OutBool true.
Proof.
  intros Hg Ha E. unfold DecreaseAllowance in E. apply M_bind_ok in E as ([spender n] & w0 & E0 & E). apply mlift_ok in E0 as [E0 ->].
  apply ParseApproveArgs_inv in E0 as ->. exists spender, n. split; [done|].
  simpl in E. destruct (bool_decide (spender = caller)) eqn:Ed; [done|]. apply bool_decide_eq_false in Ed.
  apply M_bind_ok in E as (f & w0 & E0 & E). apply mgets_ok in E0 as [-> ->].
  apply M_bind_ok in E as (x & w1 & E1 & E). apply approved_ok in E as [-> Ho]. destruct (Z.leb_spec n 0); [done|].
  destruct (GetAuthzExpirationAndAllowance tp spender caller w) as [[[a e] al]|er|] eqn:Ea; [|done..].
  apply allowance_of in Ea as (Hal & limit & allow & -> & Hv & Hx & Ea); [|done..]. rewrite <- Hal.
  destruct (Z.ltb_spec n al) as [Hlt|].
  - unfold decreaseAllowance in E1. rewrite find_spec in E1 by done. destruct (decide (amt limit denom = 0)); [done|]. simpl in E1. rewrite <- Hx in E1.
    destruct (Z.ltb_spec (al - n) 0); [lia|]. apply M_bind_ok in E1 as ([] & w0 & E0 & E1). injection E1 as _ <-.
    split; [|split; [lia|done]]. eapply update_reallows; [done|done|done|lia|exact E0].
  - destruct (Z.eqb_spec n al) as [->|]; [|by destruct (al =? 0)]. rewrite Z.sub_diag. apply M_bind_ok in E1 as ([] & w0 & E0 & E1). injection E1 as _ <-.
    split; [|split; [lia|done]]. by eapply remove_reallows.
Qed.

Lemma convert_err_ok {A} (m : M W A) w a w' : convert_err m w = (Ok a, w') -> m w = (Ok a, w').
Proof. unfold convert_err. by destruct (m w) as [[x|e|] w1]. Qed.

Lemma sent_paid from to n w w' : bank_sent from to [mkCoin denom n] w w' -> paid from to n (token_of w) (token_of w') /\
  t_supply (token_of w') = t_supply (token_of w).
Proof.
  intros (Hm & Hf & Hs). split; [|apply Hs]. split.
  - specialize (Hf denom). by rewrite amt_single, decide_True in Hf.
  - intros a. simpl. rewrite (Hm a denom), amt_single. by destruct (decide (denom = denom)).
Qed.

(** A transfer by a spender takes the amount off its allowance. *)
Lemma dispatch_spends from to spender n limit allow e w w' : grants_ok w -> spender <> from -> 0 <= n ->
  send_grant spender from w = Some (SendAuthorization limit allow, e) -> DispatchSend spender from to [mkCoin denom n] w = (Ok tt, w') ->
  grants_ok w' /\ paid from to n (token_of w) (token_of w') /\ t_supply (token_of w') = t_supply (token_of w) /\
  n <= amt limit denom /\ granted from spender (amt limit denom - n) (token_of w) (token_of w').
Proof.
  intros Hg Hn Hp Ea E. pose proof (Hg _ _ _ _ _ Ea) as Hv. assert (O : operand [mkCoin denom n]) by (by apply operand_single).
  destruct (dispatch_ok _ _ _ _ _ _ _ _ _ O Hn Ea E) as (Hs & Hf & left & El & Ea'). apply sent_paid in Hs as [Hpd Hsu].
  assert (Hle : n <= amt limit denom).
  { destruct (decide (n <= amt limit denom)) as [|Hc]; [done|]. exfalso.
    assert (Hx : snd (SafeSub limit [mkCoin denom n]) = true).
    { apply safe_sub_neg; [by apply valid_operand|done|]. intros Hc'. specialize (Hc' denom). rewrite amt_single, decide_True in Hc'; [lia|done]. }
    by rewrite El in Hx. }
  destruct (safe_sub_ok limit [mkCoin denom n]) as (c & Ec & Vc & Ac);
    [by apply valid_operand|done|intros d; rewrite amt_single; case_decide; [subst; lia|apply amt_nonneg, valid_operand, Hv]|].
  rewrite El in Ec. injection Ec as <-.
  assert (Hl : amt left denom = amt limit denom - n) by (by rewrite Ac, amt_single, decide_True).
  destruct (one_grant from spender (amt limit denom - n) w w') as [Hg' Hgr]; [done|done|done| | |by split_and!].
  - rewrite Ea'. destruct (IsZero left); [done|]. by intros l a x [= <- _ _].
  - rewrite Ea'. destruct (IsZero left) eqn:Ez; [|done]. pose proof (proj1 (is_zero_spec left (valid_operand _ Vc)) Ez denom). simpl. lia.
Qed.

Lemma transfer_standard caller tf from to n w r w' : grants_ok w -> 0 <= n -> transfer tp caller tf from to n w = (Ok r, w') ->
  grants_ok w' /\ paid from to n (token_of w) (token_of w') /\ t_supply (token_of w') = t_supply (token_of w) /\ an_Output r = OutBool true /\
  if decide (from = caller) then same_allowances (token_of w) (token_of w')
  else n <= t_allowance (token_of w) from caller /\ granted from caller (t_allowance (token_of w) from caller - n) (token_of w) (token_of w').
Proof.
  intros Hg Hp E. unfold transfer in E. apply M_bind_ok in E as (x & w0 & E0 & E). apply mlift_ok in E0 as [E0 ->].
  unfold new_int in E0. destruct (_ <? _); [|done]. injection E0 as <-. cbv zeta in E. destruct (IsValid _); [|done]. cbn [negb] in E.
  apply M_bind_ok in E as (prev & w1 & E1 & E). apply M_bind_ok in E as (log & w2 & E2 & E). apply mgets_ok in E2 as [_ ->].
  assert (Hr : w' = w1 /\ an_Output r = OutBool true) by (destruct tf; by injection E as <- <-). destruct Hr as [-> Ho].
  destruct (bool_decide (caller = from)) eqn:Ed.
  - apply bool_decide_eq_true in Ed as ->. rewrite decide_True by done. apply M_bind_ok in E1 as ([] & w2 & E1 & E2). injection E2 as _ <-.
    apply convert_err_ok, msg_send_ok in E1 as [Hs Ha]; [|by apply operand_single]. apply sent_paid in Hs as [Hpd Hsu].
    split; [|split_and!; try done]. { intros g rr limit allow e. rewrite Ha. apply Hg. } intros o s. simpl. by rewrite Ha.
  - apply bool_decide_eq_false in Ed. rewrite decide_False by congruence. apply M_bind_ok in E1 as (f & w2 & E0 & E1). apply mgets_ok in E0 as [-> ->].
    destruct (GetAuthzExpirationAndAllowance tp caller from w) as [[[a e] al]|er|] eqn:Ea; [|done..].
    apply allowance_of in Ea as (Hal & limit & allow & -> & Hv & Hx & Ea); [|done|congruence].
    apply M_bind_ok in E1 as ([] & w2 & E1 & E2). injection E2 as _ <-. apply convert_err_ok in E1.
    rewrite <- Hal, Hx. by destruct (dispatch_spends from to caller n limit allow e w w2 Hg Ed Hp Ea E1) as (? & ? & ? & ? & ?).
Qed.

Lemma query_ok f (w : W) r w' : query f w = (Ok r, w') -> w' = w /\ f w = Ok (an_Output r).
Proof. unfold query. destruct (f w); by intros [= <- <-]. Qed.

Lemma query_allowance owner spender w o : grants_ok w -> Allowance tp [ArgAddress owner; ArgAddress spender] w = Ok o ->
  o = OutUint (t_allowance (token_of w) owner spender).
Proof.
  intros Hg. unfold Allowance. simpl. destruct (decide (owner = spender)) as [->|Hn]; [rewrite bool_decide_true by done; by intros [= <-]|].
  rewrite bool_decide_false by done. destruct (GetAuthzExpirationAndAllowance tp spender owner w) as [[[a e] al]|er|] eqn:Ea; [| |done].
  - intros [= <-]. apply allowance_of in Ea as (-> & _); [|done..]. simpl. by rewrite decide_False.
  - intros [= <-]. unfold GetAuthzExpirationAndAllowance, CheckAuthzExists in Ea. destruct (send_grant spender owner w) as [[[] ?]|]; done.
Qed.

(** One call. *)
Lemma HandleMethod_refines caller name args w r w' : grants_ok w -> Forall abi_arg args ->
  HandleMethod tp caller name args w = (Ok r, w') -> grants_ok w' /\
  match request name args with
  | Some m => standard caller m (token_of w) (token_of w') (an_Output r)
  | None => w' = w
  end.
Proof.
  intros Hg Ha E. unfold HandleMethod in E.
  case_bool_decide as Hn1; [subst name|case_bool_decide as Hn2; [subst name|case_bool_decide as Hn3; [subst name|case_bool_decide as Hn4; [subst name|
    case_bool_decide as Hn5; [subst name|]]]]].
  - unfold Transfer in E. apply M_bind_ok in E as ([to n] & w0 & E0 & E). apply mlift_ok in E0 as [E0 ->].
    apply ParseApproveArgs_inv in E0 as ->. do 2 (apply list.Forall_cons in Ha as [? Ha]). simpl in *.
    apply transfer_standard in E as (? & ? & ? & ? & Hal); [|done|lia]. rewrite decide_True in Hal by done. done.
  - unfold TransferFrom in E. apply M_bind_ok in E as ([[from to] n] & w0 & E0 & E). apply mlift_ok in E0 as [E0 ->].
    assert (args = [ArgAddress from; ArgAddress to; ArgUint n]) as ->
      by (clear -E0; destruct args as [|[a|z| | | |] [|[b|y| | | |] [|[c|x| | | |] [|? ?]]]]; try done; by injection E0 as -> -> ->).
    do 3 (apply list.Forall_cons in Ha as [? Ha]). simpl in *. by apply transfer_standard in E as (? & ? & ? & ? & Hal); [|done|lia].
  - by apply Approve_ok in E as (s & n & -> & (? & ? & ? & ?) & ?).
  - by apply IncreaseAllowance_ok in E as (s & n & -> & (? & ? & ? & ?) & ? & ?).
  - by apply DecreaseAllowance_ok in E as (s & n & -> & (? & ? & ? & ?) & ? & ?).
  - assert (Hq : w' = w /\ match request name args with Some m => standard caller m (token_of w) (token_of w) (an_Output r) | None => True end).
    { assert (Hs : forall t, same_balances t t /\ same_allowances t t) by done.
      do 3 (case_bool_decide; [subst name; apply query_ok in E as [-> E]; split; [done|];
        by destruct args as [|[a|z| | | |] [|[b|y| | | |] [|[c|x| | | |] [|? ?]]]]|]).
      case_bool_decide; [subst name; apply query_ok in E as [-> E]; split; [done|]; injection E as E;
        by destruct args as [|[a|z| | | |] [|[b|y| | | |] [|[c|x| | | |] [|? ?]]]]|].
      case_bool_decide; [subst name; apply query_ok in E as [-> E]; split; [done|];
        destruct args as [|[a|z| | | |] [|[b|y| | | |] [|[c|x| | | |] [|? ?]]]]; try done; by injection E as E|].
      case_bool_decide; [|done]. subst name; apply query_ok in E as [-> E]; split; [done|].
      destruct args as [|[a|z| | | |] [|[b|y| | | |] [|[c|x| | | |] [|? ?]]]]; try done. apply (query_allowance a b) in E; [|done]. simpl in *. by rewrite E. }
    destruct Hq as [-> Hq]. split; [done|]. by destruct (request name args).
Qed.

(** *** Runs *)

Inductive token_run : list Event -> W -> W -> Prop :=
  | run_done w : token_run [] w w
  | run_call caller name args w r w1 l w' : Forall abi_arg args -> HandleMethod tp caller name args w = (Ok r, w1) -> token_run l w1 w' ->
      token_run (mkEvent caller name args (an_Output r) :: l) w w'.

Lemma run_simulates l w w' : token_run l w w' -> grants_ok w -> grants_ok w' /\ standard_run l (token_of w) (token_of w').
Proof.
  induction 1 as [|caller name args w r w1 l w' Ha E _ IH]; intros Hg; [split; [done|constructor]|].
  destruct (HandleMethod_refines caller name args w r w1 Hg Ha E) as [Hg1 Hs]. destruct (IH Hg1) as [Hg' Hr]. split; [done|].
  destruct (request name args) as [m|] eqn:Em; [by eapply standard_call|]. subst w1. by apply standard_other.
Qed.

(** The amounts are numbers of the ABI. *)
Lemma run_amounts l w w' : token_run l w w' -> Forall (fun e => Forall abi_arg (ev_args e)) l.
Proof. by induction 1; constructor. Qed.

(** A call of the standard takes what it is allowed to, when the owner raises nothing. *)
Lemma standard_takes owner spender e m t t' : owner <> spender -> Forall abi_arg (ev_args e) -> ev_request e = Some m -> ~ raises owner spender e ->
  standard (ev_caller e) m t t' (ev_output e) -> taken owner spender e + t_allowance t' owner spender <= t_allowance t owner spender.
Proof.
  intros Hn Ha Em Hr [_ Hs]. unfold taken, raises in *. rewrite Em in *. destruct m as [to n|from to n|s n|s n|s n| |a|o s].
  - destruct Hs as (_ & Hs & _). by rewrite Hs.
  - destruct Hs as (_ & _ & Hs). destruct (decide (from = ev_caller e)) as [->|Hf].
    { rewrite Hs. rewrite decide_False; [lia|]. intros [-> ->]. done. }
    destruct Hs as [Hle Hs]. rewrite Hs. repeat case_decide; try lia; destruct_and?; subst; try lia; tauto.
  - destruct Hs as (_ & Hs & _). rewrite Hs. rewrite decide_False; [lia|]. intros [-> ->]. by apply Hr.
  - destruct Hs as (_ & Hs & _). rewrite Hs. rewrite decide_False; [lia|]. intros [-> ->]. by apply Hr.
  - destruct Hs as (_ & Hle & Hs & _). rewrite Hs. case_decide as Hd; [|lia]. destruct Hd as [-> ->].
    assert (0 <= n); [|lia]. unfold ev_request, request in Em. clear -Em Ha.
    destruct (ev_args e) as [|[a|z| | | |] [|[b|y| | | |] [|[c|x| | | |] [|? ?]]]]; repeat case_bool_decide; simplify_eq.
    apply list.Forall_cons in Ha as [_ Ha]. apply list.Forall_cons in Ha as [Ha _]. simpl in Ha. lia.
  - destruct Hs as (_ & Hs & _). by rewrite Hs.
  - destruct Hs as (_ & Hs & _). by rewrite Hs.
  - destruct Hs as (_ & Hs & _). by rewrite Hs.
Qed.

(** C12: The contract of a pair is an ERC-20 token over the bank and the grants of x/authz: every run of methods that succeed is a run of the
    standard token (transfers move tokens that the owner has, a spender spends no more than its allowance, which shrinks by the amount,
    only the owner sets an allowance, the queries answer the state, the supply stays); so whatever is called, as long as the owner raises no
    allowance, a spender takes no more than it was allowed at the beginning. *)
Theorem erc20_precompile_simulates_standard l w w' : grants_ok w -> token_run l w w' ->
  grants_ok w' /\ standard_run l (token_of w) (token_of w') /\
  forall owner spender, owner <> spender -> Forall (fun e => ~ raises owner spender e) l ->
    foldr (fun e acc => taken owner spender e + acc) 0 l + t_allowance (token_of w') owner spender <= t_allowance (token_of w) owner spender.
Proof.
  intros Hg Hr. destruct (run_simulates l w w' Hr Hg) as [Hg' Hs]. split; [done|]. split; [done|]. intros owner spender Hn Hra.
  pose proof (run_amounts l w w' Hr) as Hab. clear Hr Hg Hg'. induction Hs as [t|e m l t t1 t' Em He _ IH|e l t t' Em _ IH].
  - simpl. lia.
  - apply list.Forall_cons in Hra as [Hr Hra], Hab as [Ha Hab]. specialize (IH Hra Hab). simpl.
    pose proof (standard_takes owner spender e m t t1 Hn Ha Em Hr He). lia.
  - apply list.Forall_cons in Hra as [_ Hra], Hab as [_ Hab]. specialize (IH Hra Hab). simpl. unfold taken at 1. rewrite Em. lia.
Qed.
End refinement.

(** ** A run on a small chain *)

Section example.
#[local] Existing Instances RefOps RefLaws RefCtx RefAccountKeeper RefBankKeeper RefSupply RefAddrCheck.
Definition Grants : Type := gmap (string * string) (Authorization * option Z).
#[local] Abbreviation World := (RefWorld Grants).

Definition put_grants (g : Grants) (w : World) : World :=
  mkWorld (rw_time w) (rw_accounts w) (rw_next w) (rw_balances w) (rw_bonded w) (rw_unbonding w) g.

(** The grants for [MsgSend] alone. *)
#[local] Instance RefAuthz : AuthzKeeper World Authorization := {|
  GetAuthorization g r url w := if bool_decide (url = SendMsgURL) then rw_ext w !! (g, r) else None;
  SaveGrant g r a e := mmodify (fun w => put_grants (<[(g, r) := (a, e)]> (rw_ext w)) w);
  DeleteGrant g r url := mmodify (fun w => if bool_decide (url = SendMsgURL) then put_grants (delete (g, r) (rw_ext w)) w else w)
|}.
#[local] Instance RefGrants : SendGrants World := {|
  msg_Send := rw_send;
  DispatchSend g from to cs w :=
    match rw_ext w !! (g, from) with
    | Some (SendAuthorization limit allow, e) =>
        let '(rest, neg) := SafeSub limit cs in
        if neg then (Err (ErrExternal "requested amount is more than spend limit"), w)
        else (rw_send from to cs;; mmodify (fun w => put_grants
          (if IsZero rest then delete (g, from) (rw_ext w) else <[(g, from) := (SendAuthorization rest allow, e)]> (rw_ext w)) w)) w
    | _ => (Err ErrNoAuthorizationFound, w)
    end;
  send_ValidateBasic limit _ := if bool_decide (limit = []) then Err ErrInvalidCoins else Ok tt
|}.
#[local] Instance RefDenoms : DenomData World := {|
  GetDenomMetaData _ _ := None;
  find_trace _ _ := None;
  ToUpper s := s
|}.
#[local] Instance RefEvents : EventData World := {| BlockHeight _ := 1; event_ID s := s; Pack _ := Ok EmptyString |}.

Lemma rw_send_funds from to cs (w : World) w' : operand cs -> rw_send from to cs w = (Ok tt, w') -> forall d, amt cs d <= rw_balance w from d.
Proof.
  intros [Hs Hp]. revert w. induction Hs as [|c cs Hs IH Hc]; intros w E d; [apply rw_balance_nonneg|]. apply list.Forall_cons in Hp as [Hc0 Hp].
  cbn [rw_send] in E. destruct (Z.ltb_spec (Amount c) 0); [done|]. destruct (Z.ltb_spec (rw_balance w from (Denom c)) (Amount c)); [done|]. simpl in E.
  cbn [amt]. destruct (decide (Denom c = d)) as [<-|Hd]; [rewrite amt_absent by done; lia|].
  specialize (IH Hp _ E d). set (w1 := rw_set_balance from (Denom c) _ w) in IH. pose proof (rw_balance_nonneg w1 to (Denom c)).
  rewrite rw_balance_set in IH by lia. rewrite decide_False in IH by congruence. subst w1.
  rewrite rw_balance_set in IH by lia. rewrite decide_False in IH by congruence. lia.
Qed.

Lemma rw_send_sent from to cs (w : World) w' : operand cs -> rw_send from to cs w = (Ok tt, w') ->
  bank_sent from to cs w w' /\ rw_ext w' = rw_ext w.
Proof.
  intros O E. pose proof (rw_send_funds _ _ _ _ _ O E) as Hf. pose proof (rw_send_ok _ _ _ _ _ E) as (Hm & _).
  split; [|by eapply rw_send_ext]. split; [exact Hm|]. split; [exact Hf|]. intros d. by eapply rw_send_supply.
Qed.

#[local] Instance RefGrantLaws : GrantLaws (W:=World).
Proof.
  split.
  - intros g r limit allow e w w' [= <-]. split; [apply lookup_insert_eq|]. split; [|done].
    intros g' r' Hn. apply lookup_insert_ne. intros [= -> ->]. by apply Hn.
  - intros g r w w' [= <-]. split; [apply lookup_delete_eq|]. split; [|done].
    intros g' r' Hn. apply lookup_delete_ne. intros [= -> ->]. by apply Hn.
  - intros from to cs w w' O E. apply rw_send_sent in E as [Hs He]; [|done]. split; [done|]. intros g r. simpl. by rewrite He.
  - intros g from to cs w w' limit allow e O Hn Ea E. unfold DispatchSend, RefGrants in E. cbv beta in E. simpl in Ea. rewrite Ea in E.
    destruct (SafeSub limit cs) as [rest neg] eqn:Es. destruct neg; [done|]. apply M_bind_ok in E as ([] & w1 & E1 & E).
    apply mmodify_ok in E. apply rw_send_sent in E1 as [(Hm & Hf & Hs) He]; [|done]. rewrite He in E. subst w'.
    split; [by split_and!|]. split.
    + intros g' r' Hd. destruct (IsZero rest); [apply lookup_delete_ne|apply lookup_insert_ne]; intros [= -> ->]; by apply Hd.
    + exists rest. split; [done|]. destruct (IsZero rest); [apply lookup_delete_eq|apply lookup_insert_eq].
Qed.

#[local] Instance PlainIbc : IbcOps := {|
  IBCDenom path base := "ibc/" +:+ path +:+ "/" +:+ base;
  ParseHexHash s := Some s;
  BytesToAddress s := s;
  AddressString s := s;
  IsHexAddress := String.prefix "0x";
  TrimSpace s := s;
  TmHash s := s
|}.
Definition ex_pair : TokenPair := mkPair "0xgold" "agold" true OWNER_MODULE.
Definition ex_token_world : World := mkWorld 5 ∅ 0 {[ ("alice"%string, "agold"%string) := 100%N ]} ∅ ∅ ∅.
Definition ex_call (caller name : string) (args : list Arg) : M World Answer := HandleMethod ex_pair caller name args.
Definition ex_allowed : World := snd (ex_call "alice" "approve" [ArgAddress "bob"; ArgUint 30] ex_token_world).
Definition ex_taken : World := snd (ex_call "bob" "transferFrom" [ArgAddress "alice"; ArgAddress "carol"; ArgUint 12] ex_allowed).
Definition ex_log : list Event := [mkEvent "bob" "transferFrom" [ArgAddress "alice"; ArgAddress "carol"; ArgUint 12] (OutBool true)].
Definition ex_answer : Answer := match fst (ex_call "bob" "transferFrom" [ArgAddress "alice"; ArgAddress "carol"; ArgUint 12] ex_allowed) with
  Ok a => a | _ => answer (OutUint 0) end.

Lemma erc20_precompile_simulates_standard_witness :
  Keepers.GetBalance "carol" "agold" ex_taken = 12 /\ 12 + t_allowance (token_of ex_pair ex_taken) "alice" "bob" <= 30.
Proof.
  split; [by vm_compute|].
  destruct (erc20_precompile_simulates_standard ex_pair ex_log ex_allowed ex_taken) as (_ & _ & Hb).
  - intros g r limit allow e E. assert (Em : rw_ext ex_allowed = {[ ("bob"%string, "alice"%string) :=
      (SendAuthorization [mkCoin "agold" 30] [], Some (5 + DefaultExpirationDuration)) ]}) by (vm_compute; reflexivity).
    simpl in E. rewrite Em in E. apply lookup_singleton_Some in E as [_ E]. injection E as <- _ _. by apply valid_single.
  - apply (run_call ex_pair "bob" "transferFrom" _ ex_allowed ex_answer ex_taken); [repeat constructor; done|vm_compute; reflexivity|constructor].
  - specialize (Hb "alice"%string "bob"%string). apply Hb.
    + discriminate.
    + constructor; [|constructor]. by intros [_ ?].
Defined.
End example.
