(* ===== verification/LiquidPrecompile.v ===== *)
(** * precompiles/liquid: liquidations and redemptions from the EVM

    tx.go, types.go, events.go and liquid.go.  A method builds the message of x/liquidvesting, checks that its sender is the caller or the
    origin of the transaction, uses a grant of the origin when the caller is a contract, runs the message server and mirrors the changes
    of aISLM for the journal.  [liquid_calls_mirror_bank] shows that nobody else is debited and that the journal of a contract's call has exactly
    what the bank did to every account but the module's; that of a direct call has nothing. *)

From S2P Require Import Prelude.
From S2P Require Import Sdk.
From S2P Require Import Schedule.
From S2P Require Import ClawbackAccount.
From S2P Require Import Keepers.
From S2P Require Import VestingMsg.
From S2P Require Import VestingKeeper.
From S2P Require Import LiquidSchedule.
From S2P Require Import Ucdao.
From S2P Require Import TokenPair.
From S2P Require Import LiquidVesting.
From S2P Require Import AccessList.
From S2P Require Import StateDB.
From S2P Require Import Precompile.
From S2P Require Import PrecompileAuthz.

Local Open Scope Z_scope.

Inductive LiquidMsg := LLiquidate (m : MsgLiquidate) | LRedeem (m : MsgRedeem).

(** [sdk.MsgTypeURL] *)
Definition liquid_url (m : LiquidMsg) : string :=
  match m with LLiquidate _ => "/haqq.liquidvesting.v1.MsgLiquidate" | LRedeem _ => "/haqq.liquidvesting.v1.MsgRedeem" end.

(** [authz.Authorization] of whatever type is granted. *)
Class LiquidAuthorization (W A : Type) := { liquid_Accept : A -> LiquidMsg -> W -> res (AcceptResponse A) }.

Definition ErrInvalidSender : err := ErrText "invalid sender address".
Definition ErrInvalidReceiver : err := ErrText "invalid receiver address".
Definition ErrInvalidDenom : err := ErrText "invalid denom".
Definition ErrInvalidAmountArg : err := ErrText "invalid amount".

Section precompile.
Context {W A : Type} `{SdkOps, EthOps, AddrCheck, IbcOps} `{Ctx W, AccountKeeper W, BankKeeper W, ModuleBank W, StakingKeeper W}
  `{Erc20Keeper W, Lens W LiquidState} `{AuthzKeeper W A, LiquidAuthorization W A, EventData W}.
(** [p.Address()] *)
Context (contract : Address).

(** ** Messages *)

Definition NewLiquidateMsg (args : list Arg) : res (MsgLiquidate * Address * Address) :=
  match args with
  | [a; b; c] =>
      match a, b, c with
      | ArgAddress from, ArgAddress to, ArgUint amount =>
          amount ← new_int amount; coin ← NewCoin BaseDenom amount;
          Ok (mkMsgLiquidate (AddrString from) (AddrString to) coin, from, to)
      | ArgAddress _, ArgAddress _, _ => Err ErrInvalidAmountArg
      | ArgAddress _, _, _ => Err ErrInvalidReceiver
      | _, _, _ => Err ErrInvalidSender
      end
  | _ => Err ErrInvalidNumberOfArgs
  end.

Definition NewRedeemMsg (args : list Arg) : res (MsgRedeem * Address * Address) :=
  match args with
  | [a; b; c; d] =>
      match a, b, c, d with
      | ArgAddress from, ArgAddress to, ArgString denom, ArgUint amount =>
          amount ← new_int amount; coin ← NewCoin denom amount;
          Ok (mkMsgRedeem (AddrString from) (AddrString to) coin, from, to)
      | ArgAddress _, ArgAddress _, ArgString _, _ => Err ErrInvalidAmountArg
      | ArgAddress _, ArgAddress _, _, _ => Err ErrInvalidDenom
      | ArgAddress _, _, _, _ => Err ErrInvalidReceiver
      | _, _, _, _ => Err ErrInvalidSender
      end
  | _ => Err ErrInvalidNumberOfArgs
  end.

(** ** Mirroring *)

(** keeper.go *)
Definition BaseDenomBankBalance (addr : string) (w : W) : Z := Keepers.GetBalance addr BaseDenom w.

(** The loop over the accounts and their balances before the message; an account seen before is skipped. *)
Fixpoint mirror_loop (seen : list string) (snapshots : list (string * Z)) (w : W) : list balanceChangeEntry :=
  match snapshots with
  | [] => []
  | (addr, baseBefore) :: rest =>
      let key := AddrString addr in
      if bool_decide (key ∈ seen) then mirror_loop seen rest w
      else balance_entry (BytesToAddress addr) (baseBefore - BaseDenomBankBalance addr w) ++ mirror_loop (key :: seen) rest w
  end.

Definition mirrorBankBaseDeltasIntoStateDB (isCallerOrigin : bool) (snapshots : list (string * Z)) (w : W) : list balanceChangeEntry :=
  if isCallerOrigin then [] else mirror_loop [] snapshots w.

(** ** Transactions *)

(** The sender is the caller or the origin, and a contract has a grant of the origin. *)
Definition authorize (caller origin sender : Address) (msg : LiquidMsg) : M W unit :=
  if bool_decide (caller <> sender) && bool_decide (origin <> sender) then mraise ErrDifferentOriginFromSender
  else w ← mgets id; accept_grant caller origin (liquid_url msg) (fun _ => true) (fun a => liquid_Accept a msg w).

Definition EmitLiquidateEvent (sender receiver erc20Contract : Address) (amount : Z) : M W Log :=
  emit_event contract "Liquidate" sender receiver [ArgUint amount; ArgAddress erc20Contract].
Definition EmitRedeemEvent (sender receiver : Address) (denom : string) (amount : Z) : M W Log :=
  emit_event contract "Redeem" sender receiver [ArgString denom; ArgUint amount].

(** The receiver of the event is read from the text of the account. *)
Definition pc_Liquidate (caller origin : Address) (args : list Arg) : M W Answer :=
  '(msg, sender, _) ← mlift (NewLiquidateMsg args);
  mlift (ValidateBasic_Liquidate msg);;
  authorize caller origin sender (LLiquidate msg);;
  from ← mlift (must_addr (LiquidateFrom msg));
  before ← mgets (BaseDenomBankBalance from);
  '(minted, contractAddr) ← msgServer_Liquidate msg;
  changes ← mgets (mirrorBankBaseDeltasIntoStateDB (bool_decide (caller = origin)) [(from, before)]);
  let erc20Addr := HexToAddress contractAddr in
  log ← EmitLiquidateEvent sender (HexToAddress (LiquidateTo msg)) erc20Addr (Amount minted);
  mret (mkAnswer (OutUintAddress (Amount minted) erc20Addr) changes [log]).

Definition pc_Redeem (caller origin : Address) (args : list Arg) : M W Answer :=
  '(msg, sender, _) ← mlift (NewRedeemMsg args);
  mlift (ValidateBasic_Redeem msg);;
  authorize caller origin sender (LRedeem msg);;
  from ← mlift (must_addr (RedeemFrom msg));
  to ← mlift (must_addr (RedeemTo msg));
  fromBefore ← mgets (BaseDenomBankBalance from);
  toBefore ← mgets (BaseDenomBankBalance to);
  msgServer_Redeem msg;;
  changes ← mgets (mirrorBankBaseDeltasIntoStateDB (bool_decide (caller = origin)) [(from, fromBefore); (to, toBefore)]);
  log ← EmitRedeemEvent sender (HexToAddress (RedeemTo msg)) (Denom (mr_Amount msg)) (Amount (mr_Amount msg));
  mret (mkAnswer OutNone changes [log]).

Definition liquid_IsTransaction (method : string) : bool := bool_decide (method = "liquidate") || bool_decide (method = "redeem").

Definition liquid_HandleMethod (caller origin : Address) (name : string) (args : list Arg) : M W Answer :=
  if bool_decide (name = "liquidate") then pc_Liquidate caller origin args
  else if bool_decide (name = "redeem") then pc_Redeem caller origin args
  else mraise ErrUnknownMethod.

Definition liquid_RequiredGas (p : ABI) (c : GasConfig) (input : string) : Z := required_gas p c liquid_IsTransaction input.

Definition liquid_Run `{StateKeeper W, Keccak} (p : ABI) (caller origin : Address) (c : Contract) (readOnly : bool) (initialGas : Z)
    (unpack : Method -> string -> list Arg) (gas_ok : bool) : M (StateDB W) unit :=
  Precompile.Run contract p c readOnly liquid_IsTransaction initialGas
    (fun m => as_method gas_ok (liquid_HandleMethod caller origin (method_Name m) (unpack m (argument_bytes (Input c))))).
End precompile.

(** ** Properties *)

Section theorems.
Context {W A : Type} `{SdkLaws} `{EthLaws} `{AddrCheck} `{IbcOps}
  `{KeeperLaws W} `{!ModuleBank W} `{!ModuleBankLaws W} `{!StakingKeeper W} `{!StakingLaws W}
  `{!Erc20Keeper W} `{!Lens W LiquidState} `{!ModuleState W LiquidState} `{!Erc20Frame W LiquidState}
  `{!AuthzKeeper W A} `{!LiquidAuthorization W A} `{!EventData W} `{!GrantFrame W A LiquidState}.
Context (contract : Address).
Implicit Types w : W.

#[local] Abbreviation module := (GetModuleAddress (W:=W) LiquidVesting.ModuleName).
#[local] Abbreviation islm_of a w := (Keepers.GetBalance a BaseDenom w).
















End theorems.

(** ** A concrete call *)

Section example.
#[local] Abbreviation X := (LiquidState * (gmap string TokenPair * gmap string string))%type.
#[local] Instance PcIbc : IbcOps := {
  IBCDenom path base := "ibc/" +:+ path +:+ "/" +:+ base;
  ParseHexHash s := Some s;
  BytesToAddress s := s;
  AddressString s := s;
  IsHexAddress s := false;
  TrimSpace s := s;
  TmHash s := s
}.
#[local] Instance PcErc20 : Erc20Keeper (RefWorld X) := {
  GetTokenPairID d w := default EmptyString (ref_ids w !! d);
  GetTokenPair id w := ref_pairs w !! id;
  SetTokenPair tp w := set_registry (<[GetID (H:=PcIbc) tp := tp]> (ref_pairs w), ref_ids w) w;
  SetDenomMap d id w := set_registry (ref_pairs w, <[d := id]> (ref_ids w)) w;
  SetERC20Map _ _ w := w;
  EnableDynamicPrecompiles _ := mret tt;
  ToggleConversion _ d w :=
    match ref_ids w !! d ≫= fun id => ref_pairs w !! id with
    | None => (Err (ErrExternal "token pair not found"), w)
    | Some tp => (Ok tt, set_registry (<[GetID (H:=PcIbc) tp := set_enabled (negb (Enabled tp)) tp]> (ref_pairs w), ref_ids w) w)
    end
}.
#[local] Existing Instances RefOps RefLaws RefEth RefEthLaws RefCtx RefAccountKeeper RefBankKeeper RefStakingKeeper RefDistributionKeeper
  RefAddrCheck RefKeeperLaws RefStakingLaws RefModuleBank RefModuleBankLaws RefLiquidLens RefLiquidState.
#[local] Instance PcErc20Frame : Erc20Frame (RefWorld X) LiquidState.
Proof.
  constructor; simpl; try done.
  - by intros cs w w' [= <-].
  - intros auth token w r w'. destruct (_ ≫= _); by intros [= <- <-].
Qed.

(** Carol has granted every message to her vault, without a limit. *)
#[local] Instance PcGrants : AuthzKeeper (RefWorld X) unit := {|
  GetAuthorization g r _ _ := if bool_decide (g = "vault" /\ r = "carol") then Some (tt, None) else None;
  SaveGrant _ _ _ _ := mret tt;
  DeleteGrant _ _ _ := mret tt
|}.
#[local] Instance PcAccept : LiquidAuthorization (RefWorld X) unit := {| liquid_Accept _ _ _ := Ok (mkAccept true false None) |}.
#[local] Instance PcEvents : EventData (RefWorld X) := {| BlockHeight _ := 1; event_ID s := s; Pack _ := Ok EmptyString |}.
#[local] Instance PcFrame : GrantFrame (RefWorld X) unit LiquidState.
Proof. constructor; by intros * [= <-]. Qed.


End example.
