(* ===== verification/PrecompileSettle.v ===== *)
(** * How a precompile call settles

    A method of a precompile changes the cached store, the journal keeps the balances of the EVM, and the commit at the end of the
    transaction writes the balances of the dirty accounts over the store.  [precompile_call_settles] says what remains of the method's
    change of a balance: all of it if it was mirrored in the journal, or if nobody touched the account; otherwise the commit sets the
    account back. *)

From stdpp Require Import relations.
From S2P Require Import Prelude.
From S2P Require Import AccessList.
From S2P Require Import StateDB.
From S2P Require Import Precompile.
From S2P Require Import StateRevert.
From S2P Require Import StateCommit.
From S2P Require Import PrecompileAuthz.

Local Open Scope Z_scope.

Section settle.
Context {W : Type} `{StateKeeper W, Keccak} {eth : Address -> W -> Prop} {own : Address} `{!StateKeeperLaws W eth own}.
Implicit Types w : W.
Implicit Types s : StateDB W.

(** The balance of an account in a store, and in the StateDB. *)
Definition balance_in (a : Address) (w : W) : Z := from_option Balance 0 (keeper_GetAccount a w).
Definition held (a : Address) (s : StateDB W) : Z := from_option (fun o => Balance (account o)) 0 (lookup_obj s a).
Definition dirty (a : Address) (s : StateDB W) : Prop := is_Some (dirties (db_journal s) !! a).
Definition alive (a : Address) (s : StateDB W) : Prop := forall o, lookup_obj s a = Some o -> suicided o = false.
(** What [Commit] needs of a state: accounts that a store can hold. *)
Definition stored (s : StateDB W) : Prop :=
  (forall a o, stateObjects s !! a = Some o -> storable (account o)) /\ forall a, dirty a s -> eth a (cache_view s).
(** An account that nobody touched has in the StateDB what the store has. *)
Definition agrees (a : Address) (s : StateDB W) : Prop := ~ dirty a s -> balance_in a (cache_view s) = held a s.

(** *** Balance changes *)

(** The state keeps the balances up to [d] for [a], and nobody dies. *)
Definition shifts (a : Address) (d : Z) (s s' : StateDB W) : Prop := held a s' = held a s + d /\ (alive a s -> alive a s').

Lemma shifts_trans a d d' s1 s2 s3 : shifts a d s1 s2 -> shifts a d' s2 s3 -> shifts a (d + d') s1 s3.
Proof. intros [H1 A1] [H2 A2]. split; [lia|auto]. Qed.

Lemma shifts_same a s s' : lookup_obj s' a = lookup_obj s a -> shifts a 0 s s'.
Proof. intros E. unfold shifts, held, alive. rewrite E. split; [lia|done]. Qed.

Lemma getOrNew_shifts b s o s' a : good s -> getOrNewStateObject b s = (o, s') -> shifts a 0 s s'.
Proof.
  intros G. unfold getOrNewStateObject. rewrite (getStateObject_eq b s) by by apply good_keyed.
  destruct (lookup_obj s b) as [o'|] eqn:Eb.
  - intros [= <- <-]. apply shifts_same. rewrite lookup_set. case_decide as Hd; [|done].
    rewrite (lookup_address s b o') in Hd by (done || by apply good_keyed). by subst b.
  - unfold createObject. rewrite (getStateObject_eq b s), Eb by by apply good_keyed. intros [= <- <-].
    unfold shifts, held, alive. rewrite lookup_set, lookup_append. cbn [address newObject]. case_decide as Hd; [|split; [lia|done]].
    subst b. rewrite Eb. split; [done|]. by intros _ o [= <-].
Qed.

Lemma change_shifts e s a : good s -> shifts a (mirrored a [e]) s (add_balance_change s e).
Proof.
  intros G. unfold add_balance_change, AddBalance, SubBalance, object_AddBalance, object_SubBalance, object_SetBalance.
  destruct (getOrNewStateObject (bce_Account e) s) as [o s1] eqn:Eo. pose proof (getOrNew_shifts _ _ _ _ a G Eo) as Hs.
  destruct (getOrNew_ext _ _ _ _ G Eo) as (_ & Hl & Ha). apply live_lookup in Hl.
  assert (Hset : forall x, shifts a (if decide (bce_Account e = a) then x - Balance (account o) else 0) s1
    (setStateObject (setBalance x o) (append (balanceChange (address o) (Balance (account o))) s1))).
  { intros x. unfold shifts, held, alive. rewrite lookup_set, lookup_append. cbn [address setBalance setAccount]. rewrite Ha.
    case_decide as Hd; [|split; [lia|done]]. subst a. rewrite Hl. cbn. split; [lia|]. intros Hv o' [= <-]. cbn. by apply Hv. }
  assert (Hsum : forall x, shifts a (if decide (bce_Account e = a) then x - Balance (account o) else 0) s
    (setStateObject (setBalance x o) (append (balanceChange (address o) (Balance (account o))) s1)))
    by (intros x; apply (shifts_trans a 0 _ s s1); [done|apply Hset]).
  cbn [mirrored foldr]. destruct (bce_Op e); destruct (Z.eqb_spec (bce_Amount e) 0) as [->|].
  - replace (_ + 0) with 0 by (case_decide; lia). done.
  - replace (_ + 0) with (if decide (bce_Account e = a) then Balance (account o) - bce_Amount e - Balance (account o) else 0)
      by (case_decide; lia). apply Hsum.
  - replace (_ + 0) with 0 by (case_decide; lia). done.
  - replace (_ + 0) with (if decide (bce_Account e = a) then Balance (account o) + bce_Amount e - Balance (account o) else 0)
      by (case_decide; lia). apply Hsum.
Qed.

Lemma changes_shift l s a : good s -> shifts a (mirrored a l) s (foldl add_balance_change s l).
Proof.
  revert s. induction l as [|e l IH]; intros s G; [by apply shifts_same|].
  replace (mirrored a (e :: l)) with (mirrored a [e] + mirrored a l) by (simpl; lia).
  eapply shifts_trans; [by apply change_shifts|]. apply IH. eapply good_ext; [done|]. by apply balance_change_ext.
Qed.

Lemma lookup_obj_fields s s' a : ctx s' = ctx s -> stateObjects s' = stateObjects s -> lookup_obj s' a = lookup_obj s a.
Proof. unfold lookup_obj, getStateObject. intros -> ->. destruct (stateObjects s !! a); [done|]. by destruct (keeper_GetAccount a (ctx s)). Qed.

Lemma logs_shift l s a : shifts a 0 s (foldl (fun s l => AddLog l s) s l).
Proof.
  revert s. induction l as [|e l IH]; intros s; [by apply shifts_same|]. simpl.
  apply (shifts_trans _ 0 0 s (AddLog e s)); [by apply shifts_same, lookup_obj_fields|apply IH].
Qed.

(** *** The commit *)

Lemma commit_spec s w w' : db_ok s -> (forall a o, stateObjects s !! a = Some o -> storable (account o)) -> (forall a, dirty a s -> eth a w) ->
  commitWithCtx s w = (Ok tt, w') -> forall a, a <> own -> alive a s ->
  (dirty a s -> balance_in a w' = held a s) /\ (~ dirty a s -> balance_in a w' = balance_in a w).
Proof.
  intros Hok Hst He E a Hown Hal.
  assert (Hm : forall a o, stateObjects s !! a = Some o -> address o = a /\ storable (account o)).
  { intros b o Ho. split; [by apply (good_keyed _ (ok_good _ Hok))|by eapply Hst]. }
  assert (He' : forall b, b ∈ sortedDirties (db_journal s) -> eth b w) by (intros b Hb; by apply He, sortedDirties_spec).
  split.
  - intros Hd. destruct (dirty_live _ _ Hok Hd) as [o Ho]. destruct (Hm _ _ Ho) as [Ea _].
    pose proof (commit_loop_spec _ _ _ _ a o Hm He' (sortedDirties_nodup _) E (proj2 (sortedDirties_spec _ a) Hd) Ho Hown) as C.
    unfold committed in C. rewrite (Hal o) in C by by apply live_lookup. destruct C as [C _]. rewrite Ea in C.
    unfold balance_in, held. by rewrite C, (live_lookup _ _ _ Ho).
  - intros Hd. destruct (commit_loop_frame _ _ _ _ Hm He' E) as [_ U]. destruct (U a) as (U1 & U2 & _).
    { by rewrite sortedDirties_spec. }
    unfold balance_in. destruct (keeper_GetAccount a w) as [x|]; [by rewrite (U1 x)|]. by rewrite U2.
Qed.

Lemma dirty_entry es a : is_Some (dirty_map (W:=W) es !! a) <-> exists e, e ∈ es /\ Dirtied e = Some a.
Proof.
  induction es as [|e es IH]; simpl.
  { rewrite lookup_empty. split; [by intros [? ?]|]. by intros (e & ?%elem_of_nil & _). }
  destruct (Dirtied e) as [b|] eqn:Eb.
  - destruct (decide (b = a)) as [->|N].
    + rewrite lookup_insert_eq. split; [|by eauto]. intros _. exists e. split; [apply list_elem_of_here|done].
    + rewrite lookup_insert_ne, IH by done. split; intros (e' & He & Hd); exists e'; (split; [|done]); [by apply list_elem_of_further|].
      apply elem_of_cons in He as [->|?]; [congruence|done].
  - rewrite IH. split; intros (e' & He & Hd); exists e'; (split; [|done]); [by apply list_elem_of_further|].
    apply elem_of_cons in He as [->|?]; [congruence|done].
Qed.

Lemma ext_dirty s s' a : db_ok s -> ext s s' -> dirty a s -> dirty a s'.
Proof.
  intros [_ D _] [(es & Ej & _) D' _ _]. unfold dirty. rewrite D, (D' D), Ej, !dirty_entry.
  intros (e & He & Hd). exists e. split; [by apply elem_of_app; right|done].
Qed.

(** *** The call *)

(** A call that succeeds: the journal is flushed to the cached store, the method runs on it, and its entries are added to the journal. *)
Lemma run_parts addr p c ro isTx gas methods s s' : good s -> Run addr p c ro isTx gas methods s = (Ok tt, s') ->
  exists m ef w1 w2, commitWithCtx s (cache_view s) = (Ok tt, w1) /\ select_method p c ro isTx = Ok m /\ methods m w1 = (Ok ef, w2) /\
    cache_view s' = w2 /\ ext s s' /\ forall a, shifts a (mirrored a (ef_changes ef)) s s'.
Proof.
  intros G E. assert (X : ext s s') by by eapply Run_ext.
  revert E. unfold Run, mbind at 1, M_bind at 1. rewrite RunSetup_eq.
  destruct (commitWithCtx s (cache_view s)) as [[[]| |] w1]; try done.
  destruct (select_method p c ro isTx) as [m| |]; try done. destruct (Gas c <? gas); [done|].
  unfold RunAtomic, precompile_body, run_method, mbind, M_bind. simpl.
  destruct (methods m w1) as [[ef| |] w2] eqn:Em; try done. simpl. intros E.
  exists m, ef, w1, w2. pose proof (oblivious_foldl (fun s l => AddLog l s) (ef_logs ef) AddLog_oblivious) as O.
  change (with_cache (Some w2) (with_cache (Some w1) s)) with (with_cache (Some w2) s) in E. rewrite (proj1 (O s)) in E.
  set (u := foldl (fun s l => AddLog l s) s (ef_logs ef)) in *.
  assert (Gu : good u) by (eapply good_ext; [done|]; apply foldl_ext; [intros; by apply AddLog_ext|done]).
  destruct (ef_gas_ok ef); [|done]. unfold AddJournalEntries, AddPrecompileFn in E.
  pose proof (oblivious_foldl add_balance_change (ef_changes ef) balance_oblivious) as O'. rewrite (proj1 (O' u)) in E.
  set (v := foldl add_balance_change u (ef_changes ef)) in *.
  assert (Gv : good v) by (eapply good_ext; [done|]; apply foldl_ext; [apply balance_change_ext|done]).
  rewrite getOrNew_cache in E. destruct (getOrNewStateObject addr v) as [o t] eqn:Et. simpl in E.
  destruct (MaxPrecompileCalls <? _); [done|]. injection E as <-. split_and!; [done|done|done|done|done|].
  intros a. rewrite <- (Z.add_0_l (mirrored a _)). apply (shifts_trans _ _ _ s u); [apply logs_shift|].
  rewrite <- (Z.add_0_r (mirrored a _)). apply (shifts_trans _ _ _ u v); [by apply changes_shift|].
  apply (shifts_trans _ 0 0 v t); [by apply (getOrNew_shifts addr v o)|]. by apply shifts_same, lookup_obj_fields.
Qed.

Lemma call_settles c0 cfg addr p c ro isTx gas methods s s' a : rtc db_step (New c0 cfg) s -> stored s -> stored s' ->
  a <> own -> alive a s -> agrees a s -> Run addr p c ro isTx gas methods s = (Ok tt, s') ->
  exists m ef w1 w2, methods m w1 = (Ok ef, w2) /\ let moved := mirrored a (ef_changes ef) in
    balance_in a w1 = held a s /\ held a s' = held a s + moved /\
    forall s'', Commit s' = (Ok tt, s'') ->
      balance_in a (ctx s'') = (if decide (dirty a s') then balance_in a w1 + moved else balance_in a w2) /\
      (balance_in a w2 = balance_in a w1 + moved -> agrees a s' /\ balance_in a (ctx s'') = balance_in a w2) /\
      (dirty a s -> moved = 0 -> balance_in a (ctx s'') = balance_in a w1).
Proof.
  intros Hr [Hs1 Hs2] [Hs1' Hs2'] Hown Hal Hag E. pose proof (reachable_ok _ _ _ Hr) as Hok.
  destruct (run_parts _ _ _ _ _ _ _ _ _ (ok_good _ Hok) E) as (m & ef & w1 & w2 & Ec & _ & Em & Ev & X & Sh).
  pose proof (ext_ok _ _ Hok X) as Hok'. destruct (Sh a) as [Hh Ha]. specialize (Ha Hal).
  destruct (commit_spec s _ _ Hok Hs1 Hs2 Ec a Hown Hal) as [C1 C2].
  assert (Hw1 : balance_in a w1 = held a s).
  { destruct (decide (dirty a s)) as [Hd|Hd]; [by apply C1|]. rewrite C2 by done. by apply Hag. }
  exists m, ef, w1, w2. cbv zeta. split_and!; [done|done|done|]. intros s'' Ecm. unfold Commit in Ecm. fold (cache_view s') in Ecm.
  destruct (commitWithCtx s' (cache_view s')) as [r w3] eqn:E3. injection Ecm as -> <-. simpl.
  destruct (commit_spec s' _ _ Hok' Hs1' Hs2' E3 a Hown Ha) as [D1 D2].
  assert (Heq : balance_in a w3 = if decide (dirty a s') then balance_in a w1 + mirrored a (ef_changes ef) else balance_in a w2).
  { case_decide as Hd; [rewrite D1 by done; lia|]. by rewrite D2, Ev. }
  split_and!; [done| |].
  - intros Hx. split; [intros _; rewrite Ev; lia|]. rewrite Heq. by case_decide.
  - intros Hd Hz. rewrite Heq, decide_True by exact (ext_dirty _ _ _ Hok X Hd). lia.
Qed.

(** C11: What a precompile call does to a balance, from a state of a transaction in which every account that nobody touched has what the store
    has.  The method starts with the balance of the StateDB, and the StateDB then has the mirrored change on top.  If the method's change
    in the store is the mirrored one, the two agree again and the commit keeps it.  If the account had been touched and the method's
    change is not mirrored, the commit sets the account back to the balance before the call; an account that stays untouched keeps what
    the method gave it. *)
Theorem precompile_call_settles c0 cfg addr p c ro isTx gas methods s s' a : rtc db_step (New c0 cfg) s -> stored s -> stored s' ->
  a <> own -> alive a s -> agrees a s -> Run addr p c ro isTx gas methods s = (Ok tt, s') ->
  exists m ef w1 w2, methods m w1 = (Ok ef, w2) /\ let moved := mirrored a (ef_changes ef) in
    balance_in a w1 = held a s /\ held a s' = held a s + moved /\
    forall s'', Commit s' = (Ok tt, s'') ->
      balance_in a (ctx s'') = (if decide (dirty a s') then balance_in a w1 + moved else balance_in a w2) /\
      (balance_in a w2 = balance_in a w1 + moved -> agrees a s' /\ balance_in a (ctx s'') = balance_in a w2) /\
      (dirty a s -> moved = 0 -> balance_in a (ctx s'') = balance_in a w1).
Proof. apply call_settles. Qed.
End settle.

(** ** A concrete call *)

Section example.
#[local] Existing Instances RefStateKeeper RefKeccak RefStateLaws.

(** A method that pays seven of [A]'s coins to [B] and mirrors both changes. *)
Definition ex_pay (w : RefStore) (a : Address) (x : Z) : RefStore :=
  mkRefStore (<[a := mkAccount 3 (balance_in a w + x) (Keccak256Hash EmptyString)]> (rs_accounts w)) (rs_states w) (rs_codes w).
Definition ex_method (_ : Method) : M RefStore effect := fun w =>
  (Ok (mkEffect [NewBalanceChangeEntry "A" 7 Sub; NewBalanceChangeEntry "B" 7 Add] [] true), ex_pay (ex_pay w "A" (-7)) "B" 7).
Definition ex_pay_abi : ABI := mkABI None None (fun _ => Some (mkMethod "pay" Function (fun _ => true))).
(** [A] has 100 and receives five more before the call. *)
Definition ex_touched : StateDB RefStore := AddBalance "A" 5 ex_db.
Definition ex_called : res unit * StateDB RefStore := Run "P" ex_pay_abi ex_call false (fun _ => true) 0 ex_method ex_touched.

Lemma ex_stored (s : StateDB RefStore) : map_Forall (fun _ o => storable (account o)) (stateObjects s) ->
  stored (eth:=fun _ _ => True) s.
Proof. intros Hs. split; [exact Hs|done]. Qed.

Lemma precompile_call_settles_witness :
  held "A" (snd ex_called) = 98 /\ balance_in "A" (ctx (snd (Commit (snd ex_called)))) = held "A" (snd ex_called).
Proof.
  destruct (precompile_call_settles (eth:=fun _ _ => True) (own:="evm") ex_store ex_cfg "P" ex_pay_abi ex_call false (fun _ => true) 0 ex_method
    ex_touched (snd ex_called) "A") as (m & ef & w1 & w2 & Em & H1 & H2 & H3).
  - apply rtc_once. exact (step_AddBalance "A" 5 ex_db).
  - apply ex_stored, (bool_decide_unpack _). vm_compute. exact I.
  - apply ex_stored, (bool_decide_unpack _). vm_compute. exact I.
  - discriminate.
  - intros o Eo. vm_compute in Eo. injection Eo as <-. reflexivity.
  - intros Hn. destruct Hn. vm_compute. eauto.
  - vm_compute. reflexivity.
  - injection Em as <- _. destruct (H3 (snd (Commit (snd ex_called)))) as [Hc _]; [vm_compute; reflexivity|]. split.
    + rewrite H2. vm_compute. reflexivity.
    + rewrite Hc, H2, <- H1, decide_True by (vm_compute; eauto). reflexivity.
Defined.
End example.
