(* ===== verification/DaoPrecompile.v ===== *)
(** * precompiles/ucdao: the DAO from the EVM

    tx.go, types.go, approve.go, query.go, events.go and ucdao.go: the conversion to aHAQQ and the transfers of ownership for a contract
    that the origin has granted them to, the grants themselves and the query of an allowance.  A nil pointer that the code follows is
    [Panic].  The methods change balances of escrow accounts without an entry for the journal. *)

From S2P Require Import Prelude.
From S2P Require Import Sdk.
From S2P Require Import ClawbackAccount.
From S2P Require Import Keepers.
From S2P Require Import VestingMsg.
From S2P Require Import Ucdao.
From S2P Require Import UcdaoInvariant.
From S2P Require Import AccessList.
From S2P Require Import StateDB.
From S2P Require Import Precompile.
From S2P Require Import PrecompileAuthz.

Local Open Scope Z_scope.

(** [sdk.MsgTypeURL] *)
Definition ConvertToHaqqMsgURL : string := "/haqq.ucdao.v1.MsgConvertToHaqq".
Definition TransferOwnershipMsgURL : string := "/haqq.ucdao.v1.MsgTransferOwnership".
Definition TransferOwnershipWithAmountMsgURL : string := "/haqq.ucdao.v1.MsgTransferOwnershipWithAmount".
Definition dao_url (m : Msg) : string :=
  match m with
  | MFund _ => "/haqq.ucdao.v1.MsgFund"
  | MTransferOwnership _ => TransferOwnershipMsgURL
  | MTransferOwnershipWithRatio _ => "/haqq.ucdao.v1.MsgTransferOwnershipWithRatio"
  | MTransferOwnershipWithAmount _ => TransferOwnershipWithAmountMsgURL
  | MConvertToHaqq _ => ConvertToHaqqMsgURL
  end.

(** The authorizations of the module, or one of another type. *)
Inductive DaoAuthz := ConvertAuthz (a : ConvertToHaqqAuthorization) | TransferAuthz (a : TransferOwnershipAuthorization) | OtherAuthz (url : string).

(** [Authorization.MsgTypeURL], the key under which x/authz keeps a grant. *)
Definition authz_url (a : DaoAuthz) : string :=
  match a with ConvertAuthz _ => ConvertToHaqqMsgURL | TransferAuthz _ => TransferOwnershipWithAmountMsgURL | OtherAuthz url => url end.

Definition is_dao_authz (a : DaoAuthz) : bool := match a with OtherAuthz _ => false | _ => true end.

Definition ErrDecreaseAmountTooBig : err := ErrText "amount by which the allowance should be decreased is greater than the authorization limit".
Definition ErrInvalidArg : err := ErrText "invalid argument".
Definition ErrLengthMismatch : err := ErrText "denoms and amounts length mismatch".
Definition ErrNilAmount : err := ErrText "nil amount".
Definition ErrOriginNotOwner : err := ErrText "origin must be the owner".
Definition ErrInvalidType : err := ErrText "invalid type".

Section precompile.
Context {W : Type} `{SdkOps, EthOps, DaoOps, AddrCheck} `{Ctx W, BankKeeper W, BalanceKeeper W, LiquidVestingKeeper W, EthiqKeeper W, Lens W DaoState}
  `{AuthzKeeper W DaoAuthz, EventData W}.
(** [p.Address()] *)
Context (contract : Address).

(** [Authorization.Accept] of either type. *)
Definition dao_Accept (a : DaoAuthz) (msg : Msg) : res (AcceptResponse DaoAuthz) :=
  match a with
  | ConvertAuthz c => resp ← convert_Accept c msg; Ok (accept_map ConvertAuthz resp)
  | TransferAuthz t => resp ← transfer_Accept t msg; Ok (accept_map TransferAuthz resp)
  | OtherAuthz _ => Err ErrUnknownAuthorizationType
  end.

(** ** Messages *)

Definition NewConvertToHaqqMsg (args : list Arg) : res (MsgConvertToHaqq * Address * Address) :=
  match args with
  | [a; b; c] =>
      match a, b, c with
      | ArgAddress sender, ArgAddress receiver, ArgUint amount =>
          amount ← new_int amount; Ok (mkMsgConvert (AddrString sender) (AddrString receiver) amount, sender, receiver)
      | _, _, _ => Err ErrInvalidArg
      end
  | _ => Err ErrInvalidNumberOfArgs
  end.

Definition NewTransferOwnershipMsg (args : list Arg) : res (MsgTransferOwnership * Address * Address) :=
  match args with
  | [a; b] =>
      match a, b with
      | ArgAddress owner, ArgAddress newOwner => Ok (mkMsgTransfer (AddrString owner) (AddrString newOwner), owner, newOwner)
      | _, _ => Err ErrInvalidArg
      end
  | _ => Err ErrInvalidNumberOfArgs
  end.

Fixpoint coins_loop (denoms : list string) (amounts : list (option Z)) (coins : list coin) : res (list coin) :=
  match denoms, amounts with
  | denom :: denoms, amount :: amounts =>
      match amount with
      | None => Err ErrNilAmount
      | Some amount => amount ← new_int amount; coin ← NewCoin denom amount; coins_loop denoms amounts (coins_add coins [coin])
      end
  | _, _ => Ok coins
  end.

Definition NewTransferOwnershipWithAmountMsg (args : list Arg) : res (MsgTransferOwnershipWithAmount * Address * Address) :=
  match args with
  | [a; b; c; d] =>
      match a, b, c, d with
      | ArgAddress owner, ArgAddress newOwner, ArgStrings denoms, ArgUints amounts =>
          if negb (length denoms =? length amounts)%nat then Err ErrLengthMismatch
          else coins ← coins_loop denoms amounts []; Ok (mkMsgAmount (AddrString owner) (AddrString newOwner) coins, owner, newOwner)
      | _, _, _, _ => Err ErrInvalidArg
      end
  | _ => Err ErrInvalidNumberOfArgs
  end.

(** ** Transactions *)

Definition CheckAndAcceptAuthorizationIfNeeded (caller origin : Address) (msg : Msg) : M W unit :=
  accept_grant caller origin (dao_url msg) is_dao_authz (fun a => dao_Accept a msg).

Definition EmitMintHaqqEventWithAmount (sender receiver : Address) (islmAmount haqqAmount : Z) : M W Log :=
  emit_event contract "MintHaqq" sender receiver [ArgUint islmAmount; ArgUint haqqAmount].

Definition pc_ConvertToHaqq (caller origin : Address) (args : list Arg) : M W Answer :=
  '(msg, sender, receiver) ← mlift (NewConvertToHaqqMsg args);
  sender ← mlift (acting caller origin sender);
  CheckAndAcceptAuthorizationIfNeeded caller sender (MConvertToHaqq msg);;
  minted ← msg_ConvertToHaqq msg;
  log ← EmitMintHaqqEventWithAmount sender receiver (mv_IslmAmount msg) (Amount minted);
  mret (mkAnswer (OutUint (Amount minted)) [] [log]).

Definition pc_TransferOwnership (caller origin : Address) (args : list Arg) : M W Answer :=
  '(msg, owner, _) ← mlift (NewTransferOwnershipMsg args);
  owner ← mlift (acting caller origin owner);
  CheckAndAcceptAuthorizationIfNeeded caller owner (MTransferOwnership msg);;
  if bool_decide (origin <> owner) then mraise ErrOriginNotOwner
  else msg_TransferOwnership msg;; mret (answer OutNone).

Definition pc_TransferOwnershipWithAmount (caller origin : Address) (args : list Arg) : M W Answer :=
  '(msg, owner, _) ← mlift (NewTransferOwnershipWithAmountMsg args);
  owner ← mlift (acting caller origin owner);
  CheckAndAcceptAuthorizationIfNeeded caller owner (MTransferOwnershipWithAmount msg);;
  if bool_decide (origin <> owner) then mraise ErrOriginNotOwner
  else msg_TransferOwnershipWithAmount msg;; mret (answer OutNone).

(** ** Grants *)

Definition known_url (url : string) : bool := bool_decide (url = ConvertToHaqqMsgURL) || bool_decide (url = TransferOwnershipMsgURL).

Definition createAuthz (grantee granter : Address) (coin : option coin) (msgType : string) : M W unit :=
  now ← mgets BlockTime;
  let expiration := Some (now + DefaultExpirationDuration) in
  if bool_decide (msgType = ConvertToHaqqMsgURL) then
    a ← mlift (NewConvertToHaqqAuthorization coin);
    mlift (limit_ValidateBasic (ca_SpendLimit a));;
    SaveGrant grantee granter (ConvertAuthz a) expiration
  else if bool_decide (msgType = TransferOwnershipMsgURL) then
    a ← mlift (NewTransferOwnershipAuthorization coin);
    mlift (limit_ValidateBasic (ta_SpendLimit a));;
    SaveGrant grantee granter (TransferAuthz a) expiration
  else mraise ErrInvalidMsgType.

Definition grantOrDeleteAuthz (grantee granter : Address) (coin : option coin) (msgType : string) : M W unit :=
  match coin with
  | None => createAuthz grantee granter coin msgType
  | Some c =>
      if Amount c <=? 0 then (if known_url msgType then DeleteGrant grantee granter msgType else mraise ErrInvalidMsgType)
      else createAuthz grantee granter coin msgType
  end.

Definition lower_limit (limit : coin) (coin : option coin) : res (option Sdk.coin) :=
  x ← coin_amount coin;
  if Amount limit <? x then Err ErrDecreaseAmountTooBig else Ok (Some (mkCoin (Denom limit) (Amount limit - x))).

Definition increaseAllowance (grantee granter : Address) (coin : option coin) (msgURL : string) : M W unit :=
  found ← mgets (CheckAuthzExists grantee granter msgURL);
  '(existing, expiration) ← mlift found;
  if bool_decide (msgURL = ConvertToHaqqMsgURL) then
    match existing with
    | ConvertAuthz a =>
        match ca_SpendLimit a with
        | None => mret tt
        | Some l => l ← mlift (raise_limit l coin); SaveGrant grantee granter (ConvertAuthz (mkConvertAuth l)) expiration
        end
    | _ => mraise ErrUnknownAuthorizationType
    end
  else if bool_decide (msgURL = TransferOwnershipMsgURL) then
    match existing with
    | TransferAuthz a =>
        match ta_SpendLimit a with
        | None => mret tt
        | Some l => l ← mlift (raise_limit l coin); SaveGrant grantee granter (TransferAuthz (mkTransferAuth l)) expiration
        end
    | _ => mraise ErrUnknownAuthorizationType
    end
  else mraise ErrUnknownAuthorizationType.

(** The type of message is the one of the authorization. *)
Definition decreaseAllowance (grantee granter : Address) (coin : option coin) (existing : DaoAuthz) (expiration : option Z) : M W unit :=
  if bool_decide (authz_url existing = ConvertToHaqqMsgURL) then
    match existing with
    | ConvertAuthz a =>
        match ca_SpendLimit a with
        | None => mret tt
        | Some l => l ← mlift (lower_limit l coin); SaveGrant grantee granter (ConvertAuthz (mkConvertAuth l)) expiration
        end
    | _ => mraise ErrUnknownAuthorizationType
    end
  else if bool_decide (authz_url existing = TransferOwnershipMsgURL) then
    match existing with
    | TransferAuthz a =>
        match ta_SpendLimit a with
        | None => mret tt
        | Some l => l ← mlift (lower_limit l coin); SaveGrant grantee granter (TransferAuthz (mkTransferAuth l)) expiration
        end
    | _ => mraise ErrUnknownAuthorizationType
    end
  else mraise ErrUnknownAuthorizationType.

(** The values of the event: the limit is read through the pointer to an authorization to convert, which is nil for one to transfer. *)
Definition event_value (a : option DaoAuthz) : res (option Z) :=
  match a with
  | Some (ConvertAuthz c) => Ok (Some (from_option Amount MaxUint256 (ca_SpendLimit c)))
  | Some (TransferAuthz _) => Panic
  | _ => Ok None
  end.
Fixpoint event_values (grantee granter : Address) (typeURLs : list string) (w : W) : res (list (option Z)) :=
  match typeURLs with
  | [] => Ok []
  | url :: rest => v ← event_value (fst <$> GetAuthorization grantee granter url w); vs ← event_values grantee granter rest w; Ok (v :: vs)
  end.
Definition EmitAllowanceChangeEvent (grantee granter : Address) (typeURLs : list string) : M W Log :=
  newValues ← mgets (event_values grantee granter typeURLs);
  newValues ← mlift newValues;
  emit_event contract "AllowanceChange" grantee granter [ArgStrings typeURLs; ArgUints newValues].
Definition EmitApprovalEvent (grantee granter : Address) (coin : option coin) (typeURLs : list string) : M W Log :=
  emit_approval contract grantee granter coin typeURLs.

Definition Approve (origin : Address) (args : list Arg) : M W Answer :=
  '(grantee, coin, typeURLs) ← mlift (CheckApprovalArgs args BaseDenom);
  each_url known_url (grantOrDeleteAuthz grantee origin coin) typeURLs;;
  done_with (EmitApprovalEvent grantee origin coin typeURLs).

Definition Revoke (origin : Address) (args : list Arg) : M W Answer :=
  '(grantee, typeURLs) ← mlift (CheckRevokeArgs args);
  each_url known_url (DeleteGrant grantee origin) typeURLs;;
  done_with (EmitRevocationEvent contract origin grantee typeURLs).

Definition IncreaseAllowance (origin : Address) (args : list Arg) : M W Answer :=
  '(grantee, coin, typeURLs) ← mlift (CheckApprovalArgs args BaseDenom);
  each_url known_url (increaseAllowance grantee origin coin) typeURLs;;
  done_with (EmitAllowanceChangeEvent grantee origin typeURLs).

Definition DecreaseAllowance (origin : Address) (args : list Arg) : M W Answer :=
  '(grantee, coin, typeURLs) ← mlift (CheckApprovalArgs args BaseDenom);
  each_url known_url (fun url =>
    found ← mgets (CheckAuthzExists grantee origin url);
    '(existing, expiration) ← mlift found;
    decreaseAllowance grantee origin coin existing expiration) typeURLs;;
  done_with (EmitAllowanceChangeEvent grantee origin typeURLs).

(** ** Query *)

Definition Allowance (args : list Arg) (w : W) : res Output :=
  '(grantee, granter, msg) ← CheckAllowanceArgs args;
  match GetAuthorization grantee granter msg w with
  | None => Ok (OutUint 0)
  | Some (ConvertAuthz a, _) => Ok (OutUint (from_option Amount MaxUint256 (ca_SpendLimit a)))
  | Some (TransferAuthz _, _) => Panic
  | Some (OtherAuthz _, _) => Err ErrInvalidType
  end.

(** ** Dispatch *)

Definition dao_HandleMethod (caller origin : Address) (name : string) (args : list Arg) : M W Answer :=
  if bool_decide (name = "approve") then Approve origin args
  else if bool_decide (name = "revoke") then Revoke origin args
  else if bool_decide (name = "increaseAllowance") then IncreaseAllowance origin args
  else if bool_decide (name = "decreaseAllowance") then DecreaseAllowance origin args
  else if bool_decide (name = "convertToHaqq") then pc_ConvertToHaqq caller origin args
  else if bool_decide (name = "transferOwnership") then pc_TransferOwnership caller origin args
  else if bool_decide (name = "transferOwnershipWithAmount") then pc_TransferOwnershipWithAmount caller origin args
  else if bool_decide (name = "allowance") then query (Allowance args)
  else mraise ErrUnknownMethod.

Definition dao_IsTransaction (method : string) : bool :=
  bool_decide (method ∈ ["convertToHaqq"; "transferOwnership"; "transferOwnershipWithAmount"]%string).

Definition dao_RequiredGas (p : ABI) (c : GasConfig) (input : string) : Z := required_gas p c dao_IsTransaction input.

Definition dao_Run `{StateKeeper W, Keccak} (p : ABI) (caller origin : Address) (c : Contract) (readOnly : bool) (initialGas : Z)
    (unpack : Method -> string -> list Arg) (gas_ok : bool) : M (StateDB W) unit :=
  Precompile.Run contract p c readOnly dao_IsTransaction initialGas
    (fun m => as_method gas_ok (dao_HandleMethod caller origin (method_Name m) (unpack m (argument_bytes (Input c))))).
End precompile.

(** ** Properties *)

Section theorems.
Context {W : Type} `{SdkOps, EthOps, DaoOps, AddrCheck} `{Ctx W, BankKeeper W, BalanceKeeper W, LiquidVestingKeeper W, EthiqKeeper W, Lens W DaoState}
  `{AuthzKeeper W DaoAuthz, EventData W}.
Context (contract : Address).
Implicit Types w : W.

(** Who a message acts for, and the run of the message server. *)
Definition dao_sender (m : Msg) : string :=
  match m with
  | MFund m => mf_Depositor m
  | MTransferOwnership m => mt_Owner m
  | MTransferOwnershipWithRatio m => mr_Owner m
  | MTransferOwnershipWithAmount m => ma_Owner m
  | MConvertToHaqq m => mv_Sender m
  end.
Definition dao_exec (m : Msg) : M W unit :=
  match m with
  | MFund m => msg_Fund m
  | MTransferOwnership m => msg_TransferOwnership m
  | MTransferOwnershipWithRatio m => msg_TransferOwnershipWithRatio m;; mret tt
  | MTransferOwnershipWithAmount m => msg_TransferOwnershipWithAmount m
  | MConvertToHaqq m => msg_ConvertToHaqq m;; mret tt
  end.

Definition dao_limit (a : DaoAuthz) : option coin :=
  match a with ConvertAuthz c => ca_SpendLimit c | TransferAuthz t => ta_SpendLimit t | OtherAuthz _ => None end.

(** The grant covers the message and loses what it spends. *)
Definition within_limit (a : DaoAuthz) (m : Msg) (resp : AcceptResponse DaoAuthz) : Prop :=
  forall l, dao_limit a = Some l -> spends m <= Amount l /\
    if decide (Amount l = spends m) then Delete resp = true
    else exists a', Updated resp = Some a' /\ Delete resp = false /\ dao_limit a' = Some (mkCoin (Denom l) (Amount l - spends m)).

Lemma accept_within a m resp : dao_Accept a m = Ok resp -> within_limit a m resp.
Proof.
  intros E l El. destruct a as [[lim]|[lim]|]; [| |done]; simpl in El; subst lim; simpl in E.
  - destruct m as [m|m|m|m|m]; try done. simpl in *. destruct (Z.ltb_spec (Amount l) (mv_IslmAmount m)); [done|]. split; [lia|].
    destruct (Z.eqb_spec (Amount l - mv_IslmAmount m) 0); injection E as <-; case_decide; try lia; [done|]. eexists. done.
  - destruct m as [m|m|m|m|m]; try done. simpl in *. destruct (IsZero (ma_Amount m)); [done|]. destruct (IsValid (ma_Amount m)); [|done]. simpl in E.
    destruct (Z.ltb_spec (Amount l) (transfer_sum (ma_Amount m))); [done|]. split; [lia|].
    destruct (Z.eqb_spec (Amount l - transfer_sum (ma_Amount m)) 0); injection E as <-; case_decide; try lia; [done|]. eexists. done.
Qed.

(** What a call that succeeds did: it settled the grant of the origin, unless the origin called itself, and ran the message. *)
Record dao_call (caller origin from : Address) (msg : Msg) (r : Answer) w w' : Prop := {
  dc_sender : dao_sender msg = AddrString from;
  dc_party : from = caller \/ from = origin;
  dc_run : exists w1, (caller = origin /\ w1 = w \/
      caller <> origin /\ exists a e resp, GetAuthorization caller origin (dao_url msg) w = Some (a, e) /\ dao_Accept a msg = Ok resp /\
        within_limit a msg resp /\ settle_grant caller origin (dao_url msg) e resp w = (Ok tt, w1)) /\
    dao_exec msg w1 = (Ok tt, w');
  dc_all : (exists m, msg = MTransferOwnership m) -> caller = origin;
  dc_changes : an_Changes r = []
}.

Lemma dao_call_intro caller origin from msg r w w1 w' : dao_sender msg = AddrString from -> (from = caller \/ from = origin) ->
  CheckAndAcceptAuthorizationIfNeeded caller origin msg w = (Ok tt, w1) -> dao_exec msg w1 = (Ok tt, w') -> an_Changes r = [] ->
  dao_call caller origin from msg r w w'.
Proof.
  intros Hs Hp E Ex Hc. apply accept_grant_ok in E. constructor; [done|done| | |done].
  - exists w1. split; [|done]. destruct E as [E|(Hn & a & e & resp & Ea & Er & _ & Es)]; [by left|right]. split; [done|].
    exists a, e, resp. split_and!; [done|done|by apply accept_within|done].
  - intros [m ->]. destruct E as [[E _]|(_ & [c|t|u] & e & resp & _ & Er & _)]; done.
Qed.

Lemma pc_ConvertToHaqq_ok caller origin args w r w' : pc_ConvertToHaqq contract caller origin args w = (Ok r, w') ->
  exists from msg, head args = Some (ArgAddress from) /\ dao_call caller origin from msg r w w'.
Proof.
  intros E. unfold pc_ConvertToHaqq in E. apply M_bind_ok in E as ([[msg sender] receiver] & w1 & E1 & E). apply mlift_ok in E1 as [Em ->].
  assert (exists n x, args = [ArgAddress sender; ArgAddress receiver; ArgUint n] /\ msg = mkMsgConvert (AddrString sender) (AddrString receiver) x)
    as (n & x & -> & ->).
  { clear -Em. unfold NewConvertToHaqqMsg in Em. destruct args as [|[] [|[] [|[] [|? ?]]]]; try done.
    destruct (new_int z); try done. injection Em as <- <- <-. eauto. }
  apply M_bind_ok in E as (o & w1 & E1 & E). apply mlift_ok in E1 as [[-> Hp]%acting_ok ->].
  apply M_bind_ok in E as ([] & w1 & Eg & E). apply M_bind_ok in E as (minted & w2 & Ex & E).
  apply M_bind_ok in E as (log & w3 & El & E). injection E as <- <-. apply emit_event_state in El as ->.
  exists sender, (MConvertToHaqq (mkMsgConvert (AddrString sender) (AddrString receiver) x)). split; [done|]. eapply dao_call_intro; [done|done|exact Eg| |done].
  simpl. unfold mbind, M_bind. by rewrite Ex.
Qed.

Lemma pc_TransferOwnership_ok caller origin args w r w' : pc_TransferOwnership caller origin args w = (Ok r, w') ->
  exists from msg, head args = Some (ArgAddress from) /\ dao_call caller origin from msg r w w'.
Proof.
  intros E. unfold pc_TransferOwnership in E. apply M_bind_ok in E as ([[msg sender] receiver] & w1 & E1 & E). apply mlift_ok in E1 as [Em ->].
  assert (args = [ArgAddress sender; ArgAddress receiver] /\ msg = mkMsgTransfer (AddrString sender) (AddrString receiver)) as (-> & ->).
  { clear -Em. unfold NewTransferOwnershipMsg in Em. destruct args as [|[] [|[] [|? ?]]]; try done. by injection Em as <- <- <-. }
  apply M_bind_ok in E as (o & w1 & E1 & E). apply mlift_ok in E1 as [[-> Hp]%acting_ok ->].
  apply M_bind_ok in E as ([] & w1 & Eg & E). rewrite bool_decide_false in E by (intros Hx; by apply Hx).
  apply M_bind_ok in E as ([] & w2 & Ex & E). injection E as <- <-.
  exists sender, (MTransferOwnership (mkMsgTransfer (AddrString sender) (AddrString receiver))). split; [done|]. by eapply dao_call_intro; [| |exact Eg| |].
Qed.

Lemma pc_TransferOwnershipWithAmount_ok caller origin args w r w' : pc_TransferOwnershipWithAmount caller origin args w = (Ok r, w') ->
  exists from msg, head args = Some (ArgAddress from) /\ dao_call caller origin from msg r w w'.
Proof.
  intros E. unfold pc_TransferOwnershipWithAmount in E. apply M_bind_ok in E as ([[msg sender] receiver] & w1 & E1 & E). apply mlift_ok in E1 as [Em ->].
  assert (exists rest cs, args = ArgAddress sender :: rest /\ msg = mkMsgAmount (AddrString sender) (AddrString receiver) cs) as (rest & cs & -> & ->).
  { clear -Em. unfold NewTransferOwnershipWithAmountMsg in Em. destruct args as [|[] [|[] [|[] [|[] [|? ?]]]]]; try done.
    destruct (negb _); [done|]. destruct (coins_loop _ _ _); try done. injection Em as <- <- <-. eauto. }
  apply M_bind_ok in E as (o & w1 & E1 & E). apply mlift_ok in E1 as [[-> Hp]%acting_ok ->].
  apply M_bind_ok in E as ([] & w1 & Eg & E). rewrite bool_decide_false in E by (intros Hx; by apply Hx).
  apply M_bind_ok in E as ([] & w2 & Ex & E). injection E as <- <-.
  exists sender, (MTransferOwnershipWithAmount (mkMsgAmount (AddrString sender) (AddrString receiver) cs)). split; [done|]. by eapply dao_call_intro; [| |exact Eg| |].
Qed.

(** C14: A transaction of the DAO's contract that succeeds runs a message of the caller or of the origin of the transaction and nothing else.
    When the caller is a contract, the origin had granted it this type of message, within the limit of the grant, which loses exactly
    what the message spends and goes when nothing is left; the transfer of everything is for the origin alone, no grant accepts it. *)
Theorem dao_calls_need_consent caller origin name args w r w' : dao_IsTransaction name = true ->
  dao_HandleMethod contract caller origin name args w = (Ok r, w') ->
  exists from msg, head args = Some (ArgAddress from) /\ dao_call caller origin from msg r w w'.
Proof.
  unfold dao_IsTransaction. rewrite bool_decide_eq_true. intros Hn E. unfold dao_HandleMethod in E.
  assert (Hcase : name = "convertToHaqq" \/ name = "transferOwnership" \/ name = "transferOwnershipWithAmount")
    by (rewrite !elem_of_cons, elem_of_nil in Hn; tauto).
  destruct Hcase as [->|[->| ->]]; repeat (rewrite bool_decide_false in E by done); rewrite bool_decide_true in E by done;
    eauto using pc_ConvertToHaqq_ok, pc_TransferOwnership_ok, pc_TransferOwnershipWithAmount_ok.
Qed.
End theorems.
