(* ===== verification/DaoSettle.v ===== *)
(** * The DAO's contract in a transaction

    A reference chain with the DAO, the EVM's accounts and the grants, on which the contract of precompiles/ucdao runs.  The contract adds
    nothing to the journal when it moves aISLM between escrow accounts, so that an escrow account that the transaction has touched is set
    back by the commit while the coins stay where they were sent ([touched_escrow_keeps_its_coins]). *)

From stdpp Require Import relations.
From S2P Require Import Prelude.
From S2P Require Import Sdk.
From S2P Require Import ClawbackAccount.
From S2P Require Import Keepers.
From S2P Require Import AccessList.
From S2P Require Import StateDB.
From S2P Require Import Precompile.
From S2P Require Import StateRevert.
From S2P Require Import StateCommit.
From S2P Require Import EvmParams.
From S2P Require Import EvmKeeper.
From S2P Require Import VestingMsg.
From S2P Require Import Ucdao.
From S2P Require Import UcdaoInvariant.
From S2P Require Import PrecompileAuthz.
From S2P Require Import PrecompileSettle.
From S2P Require Import DaoPrecompile.

Local Open Scope Z_scope.

(** ** Any transaction *)

Section settle.
Context {W : Type} `{SdkOps, EthOps, DaoOps, AddrCheck} `{Ctx W, BankKeeper W, BalanceKeeper W, LiquidVestingKeeper W, EthiqKeeper W, Lens W DaoState}
  `{AuthzKeeper W DaoAuthz, EventData W} `{StateKeeper W, Keccak} {eth : Address -> W -> Prop} {own : Address} `{!StateKeeperLaws W eth own}.
Context (contract : Address).

(** A method of the contract that answers leaves no entry for the journal. *)
Definition unmirrored (m : M W Answer) : Prop := forall w r w', m w = (Ok r, w') -> an_Changes r = [].

Lemma unmirrored_bind {A} (m : M W A) f : (forall x, unmirrored (f x)) -> unmirrored (x ← m; f x).
Proof. intros Hf w r w' E. apply M_bind_ok in E as (x & w1 & _ & E). by apply (Hf x _ _ _ E). Qed.
Lemma unmirrored_ret o l : unmirrored (mret (mkAnswer o [] l)).
Proof. by intros w r w' [= <- _]. Qed.
Lemma unmirrored_raise e : unmirrored (mraise e).
Proof. by intros w r w' E. Qed.
Lemma unmirrored_query f : unmirrored (query f).
Proof. intros w r w'. unfold query. destruct (f w); try done. by intros [= <- _]. Qed.
Lemma unmirrored_done log : unmirrored (done_with log).
Proof. apply unmirrored_bind. intros l. apply unmirrored_ret. Qed.

Lemma dao_unmirrored caller origin name args : unmirrored (dao_HandleMethod contract caller origin name args).
Proof.
  unfold dao_HandleMethod, Approve, Revoke, IncreaseAllowance, DecreaseAllowance, pc_ConvertToHaqq, pc_TransferOwnership,
    pc_TransferOwnershipWithAmount, answer.
  repeat case_bool_decide; repeat (apply unmirrored_bind; intros ?);
    repeat match goal with |- context [let '_ := ?x in _] => destruct x end;
    repeat (apply unmirrored_bind; intros ?); try case_bool_decide; repeat (apply unmirrored_bind; intros ?);
    auto using unmirrored_done, unmirrored_query, unmirrored_raise, unmirrored_ret.
Qed.

(** C28: The DAO's contract gives its balance changes no entry of the journal: an account that the transaction has touched before the call, an
    escrow account that received coins say, has after the transaction exactly the balance it had before the call, whatever the contract
    took from it or gave it. *)
Theorem touched_escrow_keeps_its_coins c0 cfg p caller origin c readOnly gas unpack gas_ok s s' s'' a :
  rtc db_step (New c0 cfg) s -> stored (eth:=eth) s -> stored (eth:=eth) s' -> a <> own -> alive a s -> dirty a s ->
  dao_Run contract p caller origin c readOnly gas unpack gas_ok s = (Ok tt, s') -> Commit s' = (Ok tt, s'') ->
  balance_in a (ctx s'') = held a s.
Proof.
  intros Hr Hs Hs' Ho Ha Hd E Ec. destruct (call_settles (eth:=eth) _ _ _ _ _ _ _ _ _ _ _ _ Hr Hs Hs' Ho Ha ltac:(by intros []) E)
    as (m & ef & w1 & w2 & Em & Hw1 & _ & Hc).
  destruct (Hc _ Ec) as (_ & _ & Hback). rewrite <- Hw1. apply Hback; [done|].
  unfold as_method in Em. apply M_bind_ok in Em as (r & w3 & Em & E3). injection E3 as <- <-. simpl. by rewrite (dao_unmirrored _ _ _ _ _ _ _ Em).
Qed.
End settle.

(** ** A reference chain *)

(** The states of the modules: the DAO, the EVM and the grants by grantee, granter and type of message. *)
Record DaoChain := mkDaoChain {
  dc_dao : DaoState;
  dc_evm : EvmState;
  dc_grants : gmap (string * string * string) (DaoAuthz * option Z)
}.

Section chain.
#[local] Existing Instances RefOps RefLaws RefEth RefEthLaws RefCtx RefAccountKeeper RefBankKeeper RefDistributionKeeper RefModuleBank RefKeeperLaws
  RefModuleBankLaws RefDaoOps RefAddrCheck.
#[local] Abbreviation World := (RefWorld DaoChain).
#[local] Instance DcDao : Lens World DaoState := ref_lens dc_dao (fun s x => mkDaoChain s (dc_evm x) (dc_grants x)).
#[local] Instance DcEvm : Lens World EvmState := ref_lens dc_evm (fun s x => mkDaoChain (dc_dao x) s (dc_grants x)).
#[local] Instance DcGrants : Lens World (gmap (string * string * string) (DaoAuthz * option Z)) :=
  ref_lens dc_grants (fun s x => mkDaoChain (dc_dao x) (dc_evm x) s).
#[local] Instance DcBalances : BalanceKeeper World := { GetAllBalances := rw_all_balances }.
#[local] Instance DcLiquid : LiquidVestingKeeper World := {
  lvk_Redeem from to c := _ ← rw_issue (-1) from [c]; rw_issue 1 to [mkCoin islm (Amount c)]
}.
(** One aHAQQ for every aISLM. *)
#[local] Instance DcEthiq : EthiqKeeper World := {
  ethiqk := Some (fun x from to => _ ← rw_issue (-1) from [mkCoin islm x]; _ ← rw_issue 1 to [mkCoin haqq x]; mret x)
}.
(** x/authz keeps a grant under the type of message of its authorization. *)
#[local] Instance DcAuthz : AuthzKeeper World DaoAuthz := {|
  GetAuthorization g r url w := view w !! (g, r, url);
  SaveGrant g r a e := mmodify (fun w => update (<[(g, r, authz_url a) := (a, e)]> (view w)) w);
  DeleteGrant g r url w := match view w !! (g, r, url) with
    | None => (Err (ErrExternal "authorization not found"), w)
    | Some _ => (Ok tt, update (delete (g, r, url) (view w)) w)
    end
|}.
#[local] Instance DcEvents : EventData World := {| BlockHeight _ := 1; event_ID s := s; Pack _ := Ok EmptyString |}.
#[local] Instance DcRemoval : AccountRemoval World := {
  RemoveAccount acc w := mkWorld (rw_time w) (delete (acc_address acc) (rw_accounts w)) (rw_next w) (rw_balances w) (rw_bonded w) (rw_unbonding w) (rw_ext w)
}.
#[local] Instance DcEvmState : ModuleState World EvmState.
Proof. by apply ref_module_state. Qed.
#[local] Instance DcRemovalLaws : AccountRemovalLaws World.
Proof.
  constructor; simpl; try done.
  - intros acc w. unfold rw_get_account. simpl. by rewrite lookup_delete_eq.
  - intros acc a w Hne. unfold rw_get_account. simpl. by rewrite lookup_delete_ne.
Qed.
#[local] Instance DcCreates : BankCreates World.
Proof.
  constructor; simpl; unfold rw_get_account.
  - intros from m cs w w' a E _. by apply rw_send_ok in E as (_ & -> & _).
  - intros m to cs w w' a E _. by apply rw_send_ok in E as (_ & -> & _).
  - intros m cs w w' a E _. by apply rw_issue_ok in E as (_ & -> & _).
  - intros m cs w w' a E _. by apply rw_issue_ok in E as (_ & -> & _).
Qed.
#[local] Existing Instances EvmKeccak EvmStateKeeper.
#[local] Instance DcKeeperLaws : StateKeeperLaws World (eth_account (W:=World)) (GetModuleAddress (W:=World) EvmKeeper.ModuleName).
Proof. apply evm_keeper_contract. Qed.

(** Alice holds 60 aISLM in the DAO; the contract of the vault has five. *)
Definition dao_account (a : string) : Keepers.Account := EthAcc (mkBaseAccount a 0 0) (HashHex (Keccak256 EmptyString)).
Definition escrow_of (a : string) : string := GetEscrowAddress a.
Definition ex_accounts : list string := ["alice"; "bob"; "vault"; escrow_of "alice"; escrow_of "bob"].
Definition ex_dao_world : World :=
  mkWorld 0 (list_to_map ((fun a => (a, dao_account a)) <$> ex_accounts)) 9
    (list_to_map [((escrow_of "alice", islm), 60%N); (("vault"%string, islm), 5%N)]) ∅ ∅
    (mkDaoChain (mkDao {[islm := 60]} ∅ ∅ (Some Ucdao.DefaultParams) {[holder_key "alice"]})
       (mkEvmState ∅ ∅ (mkParamsStore (Some EvmParams.DefaultParams) EvmParams.DefaultParams)) ∅).

(** Alice lets the vault transfer up to 50 of her coins. *)
Definition ex_approved : World :=
  snd (dao_HandleMethod "dao" "alice" "alice" "approve" [ArgAddress "vault"; ArgUint 50; ArgStrings [TransferOwnershipMsgURL]] ex_dao_world).
Definition ex_transfer_args : list Arg := [ArgAddress "alice"; ArgAddress "bob"; ArgStrings [islm]; ArgUints [Some 40]].
Definition ex_transferred : res Answer * World := dao_HandleMethod "dao" "vault" "alice" "transferOwnershipWithAmount" ex_transfer_args ex_approved.

(** The transaction: the vault sends one coin to Alice's escrow account and then calls the contract. *)
Definition ex_tx0 : StateDB World := New ex_approved ex_cfg.
Definition ex_tx1 : StateDB World := AddBalance (escrow_of "alice") 1 (SubBalance "vault" 1 ex_tx0).
Definition ex_dao_abi : ABI := mkABI None None (fun _ => Some (mkMethod "transferOwnershipWithAmount" Function (fun _ => true))).
Definition ex_tx2 : res unit * StateDB World :=
  dao_Run "dao" ex_dao_abi "vault" "alice" (mkContract "abcd" 0 1000) false 0 (fun _ _ => ex_transfer_args) true ex_tx1.
Definition ex_tx3 : res unit * StateDB World := Commit (snd ex_tx2).

Lemma dao_calls_need_consent_witness : exists msg, dao_call "vault" "alice" "alice" msg (answer OutNone) ex_approved (snd ex_transferred).
Proof.
  destruct (dao_calls_need_consent "dao" "vault" "alice" "transferOwnershipWithAmount" ex_transfer_args ex_approved (answer OutNone) (snd ex_transferred))
    as (from & msg & Ef & C).
  - reflexivity.
  - vm_compute. reflexivity.
  - injection Ef as <-. exists msg. exact C.
Defined.

(** No account of another kind than the EVM's. *)
Definition ex_eth_only (w : World) : bool :=
  bool_decide (es_denom (view w) <> EmptyString) && bool_decide (map_Forall (fun _ x => match x with OtherAcc _ => false | _ => true end = true) (rw_accounts w)).

Definition ex_storable (s : StateDB World) : bool := bool_decide (map_Forall (fun _ o => storable (account o)) (stateObjects s)).
Lemma ex_world_stored (s : StateDB World) : ex_storable s = true -> ex_eth_only (cache_view s) = true ->
  stored (eth:=eth_account (W:=World)) s.
Proof.
  intros Hs%bool_decide_eq_true [Hd He]%andb_prop. split; [exact Hs|]. intros a _. split; [by apply bool_decide_eq_true in Hd|].
  intros b. simpl. unfold rw_get_account. apply bool_decide_eq_true in He. destruct (rw_accounts (cache_view s) !! a) as [x|] eqn:Ea; [|done].
  apply (He a x) in Ea. simpl. intros E. case_match; [|done]. injection E as ->. done.
Qed.

Lemma touched_escrow_keeps_its_coins_witness :
  let w := ctx (snd ex_tx3) in
  balance_in (escrow_of "alice") w = 61 /\ balance_in (escrow_of "bob") w = 40 /\ rw_supply islm w = rw_supply islm ex_approved + 40.
Proof.
  cbv zeta. split; [|vm_compute; done].
  pose proof (touched_escrow_keeps_its_coins (eth:=eth_account (W:=World)) (own:=(GetModuleAddress (W:=World) EvmKeeper.ModuleName)) "dao" ex_approved ex_cfg ex_dao_abi "vault" "alice" (mkContract "abcd" 0 1000)
    false 0 (fun _ _ => ex_transfer_args) true ex_tx1 (snd ex_tx2) (snd ex_tx3) (escrow_of "alice")) as T.
  rewrite T.
  - vm_compute. reflexivity.
  - eapply rtc_l; [exact (step_SubBalance "vault" 1 ex_tx0)|]. apply rtc_once. exact (step_AddBalance (escrow_of "alice") 1 _).
  - apply ex_world_stored; vm_compute; reflexivity.
  - apply ex_world_stored; vm_compute; reflexivity.
  - vm_compute. discriminate.
  - intros o Eo. vm_compute in Eo. injection Eo as <-. reflexivity.
  - vm_compute. eauto.
  - vm_compute. reflexivity.
  - vm_compute. reflexivity.
Defined.
End chain.
