(* ===== verification/EthiqPrecompile.v ===== *)
(** * precompiles/ethiq: burning aISLM for aHAQQ from the EVM

    tx.go, types.go, approve.go, query.go, events.go and ethiq.go: the mints for a contract that the origin has granted them to, by an amount
    or for single applications, the grants themselves and the queries.  Only the balance of the debited account is mirrored for the
    journal.  A nil pointer that the code follows is [Panic]; the average price of a query is its value times 10^18. *)

From stdpp Require Import pretty.
From S2P Require Import Prelude.
From S2P Require Import Sdk.
From S2P Require Import ClawbackAccount.
From S2P Require Import Keepers.
From S2P Require Import VestingMsg.
From S2P Require Import LiquidVesting.
From S2P Require Import Ucdao.
From S2P Require Import EthiqData.
From S2P Require Import EthiqCurve.
From S2P Require Import Ethiq.
From S2P Require Import EthiqQuery.
From S2P Require Import TokenPair.
From S2P Require Import AccessList.
From S2P Require Import StateDB.
From S2P Require Import Precompile.
From S2P Require Import PrecompileAuthz.

Local Open Scope Z_scope.

(** [sdk.MsgTypeURL] *)
Definition MintHaqqMsgURL : string := "/haqq.ethiq.v1.MsgMintHaqq".
Definition MsgMintHaqqByApplicationMsgURL : string := "/haqq.ethiq.v1.MsgMintHaqqByApplication".
Definition ethiq_url (m : EthiqMsg) : string :=
  match m with EMintHaqq _ => MintHaqqMsgURL | EMintHaqqByApplication _ => MsgMintHaqqByApplicationMsgURL end.

(** The authorizations of the module, or one of another type. *)
Inductive EthiqAuthz :=
  | MintAuthz (a : MintHaqqAuthorization)
  | MintAppAuthz (a : MintHaqqByApplicationIDAuthorization)
  | ForeignAuthz (url : string).

(** [Authorization.MsgTypeURL] *)
Definition ethiq_authz_url (a : EthiqAuthz) : string :=
  match a with MintAuthz _ => MintHaqqMsgURL | MintAppAuthz _ => MsgMintHaqqByApplicationMsgURL | ForeignAuthz url => url end.

Definition is_ethiq_authz (a : EthiqAuthz) : bool := match a with ForeignAuthz _ => false | _ => true end.

Definition ErrInvalidSender : err := ErrText "invalid sender".
Definition ErrInvalidReceiver : err := ErrText "invalid receiver".
Definition ErrInvalidMethodsArg : err := ErrText "invalid methods".
Definition ErrDecreaseExceedsLimit : err := ErrText "decrease amount exceeds spend limit".
Definition ErrInvalidType : err := ErrText "invalid type".

Section precompile.
Context {W : Type} `{SdkOps, EthOps, DaoOps, CurveOps, IbcOps, AddrCheck, QueryOps}.
Context `{Ctx W, AccountKeeper W, BankKeeper W, ModuleBank W, BalanceKeeper W, SupplyKeeper W}.
Context `{LiquidVestingKeeper W, UcdaoKeeper W, Lens W EthiqState} `{AuthzKeeper W EthiqAuthz, EventData W}.
(** [p.Address()] *)
Context (contract : Address).

(** [Authorization.Accept] of either type. *)
Definition ethiq_Accept (a : EthiqAuthz) (msg : EthiqMsg) : res (AcceptResponse EthiqAuthz) :=
  match a with
  | MintAuthz m => resp ← mint_Accept m msg; Ok (accept_map MintAuthz resp)
  | MintAppAuthz m => resp ← mint_app_Accept m msg; Ok (accept_map MintAppAuthz resp)
  | ForeignAuthz _ => Err ErrUnknownAuthorizationType
  end.

(** ** Messages and requests *)

Definition NewMintHaqqMsg (args : list Arg) : res (MsgMintHaqq * Address * Address) :=
  match args with
  | [a; b; c] =>
      match a, b, c with
      | ArgAddress sender, ArgAddress receiver, ArgUint amount =>
          amount ← new_int amount; Ok (mkMsgMint (AddrString sender) (AddrString receiver) amount, sender, receiver)
      | ArgAddress _, ArgAddress _, _ => Err ErrInvalidAmount
      | ArgAddress _, _, _ => Err ErrInvalidReceiver
      | _, _, _ => Err ErrInvalidSender
      end
  | _ => Err ErrInvalidNumberOfArgs
  end.

(** [appID.Uint64()] keeps the low 64 bits. *)
Definition NewMintHaqqByApplicationMsg (args : list Arg) : res (MsgMintHaqqByApplication * Address) :=
  match args with
  | [a; b] =>
      match a, b with
      | ArgAddress sender, ArgUint appID => Ok (mkMsgMintApp (AddrString sender) (wrap_u64 appID), sender)
      | ArgAddress _, _ => Err ErrInvalidApplicationID
      | _, _ => Err ErrInvalidSender
      end
  | _ => Err ErrInvalidNumberOfArgs
  end.

Definition NewCalculateRequest (args : list Arg) : res string :=
  match args with
  | [a] => match a with ArgUint amount => Ok (pretty amount) | _ => Err ErrInvalidAmount end
  | _ => Err ErrInvalidNumberOfArgs
  end.

Definition NewCalculateForApplicationRequest (args : list Arg) : res Z :=
  match args with
  | [a] => match a with ArgUint appID => Ok (wrap_u64 appID) | _ => Err ErrInvalidApplicationID end
  | _ => Err ErrInvalidNumberOfArgs
  end.

(** ** Transactions *)

Definition CheckAndAcceptAuthorizationIfNeeded (caller origin : Address) (msg : EthiqMsg) : M W unit :=
  accept_grant caller origin (ethiq_url msg) is_ethiq_authz (fun a => ethiq_Accept a msg).

Definition mirrorBankBaseDeltaIntoStateDB (isCallerOrigin : bool) (debitAccAddr : string) (baseBefore : Z) (w : W) : list balanceChangeEntry :=
  if isCallerOrigin then [] else balance_entry (BytesToAddress debitAccAddr) (baseBefore - BaseDenomBankBalance debitAccAddr w).

Definition emitMintHaqqEvent (event : string) (sender receiver : Address) (data0 data1 : Z) : M W Log :=
  emit_event contract event sender receiver [ArgUint data0; ArgUint data1].
Definition EmitMintHaqqEventWithAmount (sender receiver : Address) (islmAmount haqqAmount : Z) : M W Log :=
  emitMintHaqqEvent "MintHaqq" sender receiver islmAmount haqqAmount.
Definition EmitMintHaqqEventWithApplicationID (sender receiver : Address) (applicationID haqqAmount : Z) : M W Log :=
  emitMintHaqqEvent "MintHaqqByApplication" sender receiver applicationID haqqAmount.

Definition pc_MintHaqq (caller origin : Address) (args : list Arg) : M W Answer :=
  '(msg, sender, receiver) ← mlift (NewMintHaqqMsg args);
  sender ← mlift (acting caller origin sender);
  CheckAndAcceptAuthorizationIfNeeded caller sender (EMintHaqq msg);;
  from ← mlift (must_addr (mm_FromAddress msg));
  baseBefore ← mgets (BaseDenomBankBalance from);
  haqqAmount ← MintHaqq msg;
  changes ← mgets (mirrorBankBaseDeltaIntoStateDB (bool_decide (caller = origin)) from baseBefore);
  log ← EmitMintHaqqEventWithAmount sender receiver (mm_IslmAmount msg) haqqAmount;
  mret (mkAnswer (OutUint haqqAmount) changes [log]).

(** The response has the text of the receiver's address. *)
Definition pc_MintHaqqByApplication (caller origin : Address) (args : list Arg) : M W Answer :=
  '(msg, sender) ← mlift (NewMintHaqqByApplicationMsg args);
  sender ← mlift (acting caller origin sender);
  CheckAndAcceptAuthorizationIfNeeded caller sender (EMintHaqqByApplication msg);;
  application ← mlift (GetApplicationByID (mp_ApplicationId msg));
  debit ← mlift (must_addr (mp_FromAddress msg));
  let debit := if bool_decide (Source application = SOURCE_OF_FUNDS_UCDAO) then GetEscrowAddress debit else debit in
  baseBefore ← mgets (BaseDenomBankBalance debit);
  '(haqqAmount, toAddress) ← MintHaqqByApplication msg;
  receiver ← mlift (must_addr (AddrString toAddress));
  changes ← mgets (mirrorBankBaseDeltaIntoStateDB (bool_decide (caller = origin)) debit baseBefore);
  log ← EmitMintHaqqEventWithApplicationID sender (BytesToAddress receiver) (mp_ApplicationId msg) haqqAmount;
  mret (mkAnswer (OutUint haqqAmount) changes [log]).

(** ** Grants of an amount *)

Definition mint_url (url : string) : bool := bool_decide (url = MintHaqqMsgURL).
Definition mint_app_url (url : string) : bool := bool_decide (url = MsgMintHaqqByApplicationMsgURL).

Definition createMintHaqqAuthz (grantee granter : Address) (coin : option coin) : M W unit :=
  let mintAuthz := mkMintAuth coin in
  mlift (mint_auth_ValidateBasic mintAuthz);;
  now ← mgets BlockTime;
  SaveGrant grantee granter (MintAuthz mintAuthz) (Some (now + DefaultExpirationDuration)).

Definition grantOrDeleteMintHaqqAuthz (grantee granter : Address) (coin : option coin) (msgURL : string) : M W unit :=
  match coin with
  | None => createMintHaqqAuthz grantee granter None
  | Some c => if Amount c <=? 0 then DeleteGrant grantee granter msgURL else createMintHaqqAuthz grantee granter coin
  end.

Definition increaseMintHaqqAllowance (grantee granter : Address) (coin : option coin) (msgURL : string) : M W unit :=
  found ← mgets (CheckAuthzExists grantee granter msgURL);
  '(existing, expiration) ← mlift found;
  match existing with
  | MintAuthz a =>
      match mh_SpendLimit a with
      | None => mret tt
      | Some l => l ← mlift (raise_limit l coin); SaveGrant grantee granter (MintAuthz (mkMintAuth l)) expiration
      end
  | _ => mraise ErrUnknownAuthorizationType
  end.

Definition decreaseMintHaqqAllowance (grantee granter : Address) (coin : option coin) (msgURL : string) : M W unit :=
  found ← mgets (CheckAuthzExists grantee granter msgURL);
  '(existing, expiration) ← mlift found;
  match existing with
  | MintAuthz a =>
      match mh_SpendLimit a with
      | None => mret tt
      | Some l =>
          x ← mlift (coin_amount coin);
          if Amount l <? x then mraise ErrDecreaseExceedsLimit
          else if Amount l - x <=? 0 then DeleteGrant grantee granter msgURL
          else SaveGrant grantee granter (MintAuthz (mkMintAuth (Some (mkCoin (Denom l) (Amount l - x))))) expiration
      end
  | _ => mraise ErrUnknownAuthorizationType
  end.

(** The values of the event: no limit, and no grant, stand for the largest number. *)
Definition ethiq_event_value (grantee granter : Address) (url : string) (w : W) : option Z :=
  match GetAuthorization grantee granter url w with
  | Some (MintAuthz a, _) => Some (from_option Amount MaxUint256 (mh_SpendLimit a))
  | _ => Some MaxUint256
  end.
Definition EmitAllowanceChangeEvent (grantee granter : Address) (typeURLs : list string) : M W Log :=
  newValues ← mgets (fun w => (fun url => ethiq_event_value grantee granter url w) <$> typeURLs);
  emit_event contract "AllowanceChange" grantee granter [ArgStrings typeURLs; ArgUints newValues].
Definition EmitApprovalEvent (grantee granter : Address) (coin : option coin) (typeURLs : list string) : M W Log :=
  emit_approval contract grantee granter coin typeURLs.

Definition Approve (origin : Address) (args : list Arg) : M W Answer :=
  '(grantee, coin, typeURLs) ← mlift (CheckApprovalArgs args BaseDenom);
  each_url mint_url (grantOrDeleteMintHaqqAuthz grantee origin coin) typeURLs;;
  done_with (EmitApprovalEvent grantee origin coin typeURLs).

Definition Revoke (origin : Address) (args : list Arg) : M W Answer :=
  '(grantee, typeURLs) ← mlift (CheckRevokeArgs args);
  each_url mint_url (DeleteGrant grantee origin) typeURLs;;
  done_with (EmitRevocationEvent contract origin grantee typeURLs).

Definition IncreaseAllowance (origin : Address) (args : list Arg) : M W Answer :=
  '(grantee, coin, typeURLs) ← mlift (CheckApprovalArgs args BaseDenom);
  each_url mint_url (increaseMintHaqqAllowance grantee origin coin) typeURLs;;
  done_with (EmitAllowanceChangeEvent grantee origin typeURLs).

Definition DecreaseAllowance (origin : Address) (args : list Arg) : M W Answer :=
  '(grantee, coin, typeURLs) ← mlift (CheckApprovalArgs args BaseDenom);
  each_url mint_url (decreaseMintHaqqAllowance grantee origin coin) typeURLs;;
  done_with (EmitAllowanceChangeEvent grantee origin typeURLs).

(** ** Grants of applications *)

Definition checkApproveApplicationIDArgs (args : list Arg) : res (Address * Z * list string) :=
  match args with
  | [a; b; c] =>
      match a, b, c with
      | ArgAddress grantee, ArgUint appID, ArgStrings methods => Ok (grantee, appID, methods)
      | ArgAddress _, ArgUint _, _ => Err ErrInvalidMethodsArg
      | ArgAddress _, _, _ => Err ErrInvalidApplicationID
      | _, _, _ => Err ErrInvalidGrantee
      end
  | _ => Err ErrInvalidNumberOfArgs
  end.

Definition checkRevokeApplicationIDArgs (args : list Arg) : res (Address * list string) :=
  match args with
  | [a; b] =>
      match a, b with
      | ArgAddress grantee, ArgStrings methods => Ok (grantee, methods)
      | ArgAddress _, _ => Err ErrInvalidMethodsArg
      | _, _ => Err ErrInvalidGrantee
      end
  | _ => Err ErrInvalidNumberOfArgs
  end.

(** The ids of the new grant: those of the one there is, and [appID]. *)
Definition merge_ids (appID : Z) (existing : option (EthiqAuthz * option Z)) : res (list Z) :=
  match existing with
  | None => Ok [appID]
  | Some (MintAppAuthz a, _) =>
      Ok (if bool_decide (appID ∈ ApplicationsList a) then ApplicationsList a else ApplicationsList a ++ [appID])
  | Some _ => Err ErrUnknownAuthorizationType
  end.

Definition ApproveApplicationID (origin : Address) (args : list Arg) : M W Answer :=
  '(grantee, applicationID, methods) ← mlift (checkApproveApplicationIDArgs args);
  each_url mint_app_url (fun _ => mret tt) methods;;
  existing ← mgets (GetAuthorization grantee origin MsgMintHaqqByApplicationMsgURL);
  appIDs ← mlift (merge_ids (wrap_u64 applicationID) existing);
  let a := mkMintAppAuth appIDs in
  mlift (mint_app_ValidateBasic a);;
  now ← mgets BlockTime;
  SaveGrant grantee origin (MintAppAuthz a) (Some (now + DefaultExpirationDuration));;
  done_with (EmitApprovalEvent grantee origin None methods).

Definition RevokeApplicationID (origin : Address) (args : list Arg) : M W Answer :=
  '(grantee, methods) ← mlift (checkRevokeApplicationIDArgs args);
  each_url mint_app_url (DeleteGrant grantee origin) methods;;
  done_with (EmitRevocationEvent contract origin grantee methods).

(** ** Queries *)

Definition estimate_output (r : QueryCalculateResponse) (receiver : option Address) : Output :=
  OutEstimate (EstimatedHaqqAmount r) (SupplyBefore r) (SupplyAfter r) (AveragePrice r) receiver.

Definition pc_Calculate (args : list Arg) (w : W) : res Output :=
  req ← NewCalculateRequest args; r ← query_Calculate (Some req) w; Ok (estimate_output r None).

Definition pc_CalculateForApplication (args : list Arg) (w : W) : res Output :=
  req ← NewCalculateForApplicationRequest args;
  '(r, toAddress) ← CalculateForApplication (Some req) w;
  receiver ← must_addr toAddress;
  Ok (estimate_output r (Some (BytesToAddress receiver))).

Definition Allowance (args : list Arg) (w : W) : res Output :=
  '(grantee, granter, msg) ← CheckAllowanceArgs args;
  match GetAuthorization grantee granter msg w with
  | None => Ok (OutUint 0)
  | Some (MintAuthz a, _) => Ok (OutUint (from_option Amount MaxUint256 (mh_SpendLimit a)))
  | Some _ => Err ErrInvalidType
  end.

(** ** Dispatch *)

Definition ethiq_HandleMethod (caller origin : Address) (name : string) (args : list Arg) : M W Answer :=
  if bool_decide (name = "approve") then Approve origin args
  else if bool_decide (name = "revoke") then Revoke origin args
  else if bool_decide (name = "approveApplicationID") then ApproveApplicationID origin args
  else if bool_decide (name = "revokeApplicationID") then RevokeApplicationID origin args
  else if bool_decide (name = "increaseAllowance") then IncreaseAllowance origin args
  else if bool_decide (name = "decreaseAllowance") then DecreaseAllowance origin args
  else if bool_decide (name = "mintHaqq") then pc_MintHaqq caller origin args
  else if bool_decide (name = "mintHaqqByApplication") then pc_MintHaqqByApplication caller origin args
  else if bool_decide (name = "calculate") then query (pc_Calculate args)
  else if bool_decide (name = "calculateForApplication") then query (pc_CalculateForApplication args)
  else if bool_decide (name = "allowance") then query (Allowance args)
  else mraise ErrUnknownMethod.

Definition ethiq_IsTransaction (method : string) : bool :=
  bool_decide (method ∈ ["mintHaqq"; "mintHaqqByApplication"; "approve"; "revoke"; "approveApplicationID"; "revokeApplicationID";
                         "increaseAllowance"; "decreaseAllowance"]%string).

Definition ethiq_RequiredGas (p : ABI) (c : GasConfig) (input : string) : Z := required_gas p c ethiq_IsTransaction input.

Definition ethiq_Run `{StateKeeper W, Keccak} (p : ABI) (caller origin : Address) (c : Contract) (readOnly : bool) (initialGas : Z)
    (unpack : Method -> string -> list Arg) (gas_ok : bool) : M (StateDB W) unit :=
  Precompile.Run contract p c readOnly ethiq_IsTransaction initialGas
    (fun m => as_method gas_ok (ethiq_HandleMethod caller origin (method_Name m) (unpack m (argument_bytes (Input c))))).
End precompile.

(** ** Properties *)

(** x/authz returns a grant as it was saved, and none that was removed. *)
Class GrantLaws (W : Type) `{AuthzKeeper W EthiqAuthz} : Prop := {
  get_saved g r a e (w w' : W) : SaveGrant g r a e w = (Ok tt, w') -> GetAuthorization g r (ethiq_authz_url a) w' = Some (a, e);
  get_deleted g r url (w w' : W) : DeleteGrant g r url w = (Ok tt, w') -> GetAuthorization g r url w' = None
}.

Section theorems.
Context {W : Type} `{SdkOps, EthOps, DaoOps, CurveOps, IbcOps, AddrCheck, QueryOps}.
Context `{Ctx W, AccountKeeper W, BankKeeper W, ModuleBank W, BalanceKeeper W, SupplyKeeper W}.
Context `{LiquidVestingKeeper W, UcdaoKeeper W, Lens W EthiqState} `{AuthzKeeper W EthiqAuthz, EventData W} `{!GrantLaws W}.
Context (contract : Address).
Implicit Types w : W.

(** The applications that [grantee] may run for [granter]. *)
Definition granted_apps (grantee granter : Address) w : list Z :=
  match GetAuthorization grantee granter MsgMintHaqqByApplicationMsgURL w with Some (MintAppAuthz a, _) => ApplicationsList a | _ => [] end.

(** A grant that accepts an application lists it, and lists it no more afterwards. *)
Lemma app_consent caller origin m w w' : caller <> origin ->
  CheckAndAcceptAuthorizationIfNeeded caller origin (EMintHaqqByApplication m) w = (Ok tt, w') ->
  mp_ApplicationId m ∈ granted_apps caller origin w /\
  granted_apps caller origin w' = filter (fun i => i <> mp_ApplicationId m) (granted_apps caller origin w).
Proof.
  intros Hn E. apply accept_grant_ok in E as [[? _]|(_ & a & e & resp & Ea & Er & _ & Es)]; [done|].
  cbn [ethiq_url] in *. unfold granted_apps. rewrite Ea. destruct a as [[l]|[ids]|]; cbn [ethiq_Accept mint_Accept] in Er; try done.
  cbn [mint_app_Accept ApplicationsList] in *. rewrite remove_id_spec in Er.
  assert (Ein : mp_ApplicationId m ∈ ids) by (destruct ids; [done|]; case_bool_decide; [done|]; by simpl in Er).
  split; [done|]. rewrite bool_decide_true in Er by done. cbn [negb] in Er. destruct ids as [|i0 ids]; [by apply elem_of_nil in Ein|].
  destruct (filter _ _) as [|j rest] eqn:Ef; injection Er as <-; unfold settle_grant in Es; cbn in Es.
  - by rewrite (get_deleted _ _ _ _ _ Es).
  - pose proof (get_saved _ _ _ _ _ _ Es) as Hs. cbn [ethiq_authz_url] in Hs. by rewrite Hs.
Qed.

(** A contract runs an application for the origin of the transaction only under a grant that lists it, and the grant then loses
    exactly this application, all others stay. *)
Theorem application_grant_used_once caller origin args w r w' : caller <> origin ->
  ethiq_HandleMethod contract caller origin "mintHaqqByApplication" args w = (Ok r, w') ->
  exists from n out w1, args = [ArgAddress from; ArgUint n] /\ (from = caller \/ from = origin) /\ wrap_u64 n ∈ granted_apps caller origin w /\
    granted_apps caller origin w1 = filter (fun i => i <> wrap_u64 n) (granted_apps caller origin w) /\
    MintHaqqByApplication (mkMsgMintApp (AddrString from) (wrap_u64 n)) w1 = (Ok out, w').
Proof.
  intros Hn E. unfold ethiq_HandleMethod in E. repeat (rewrite bool_decide_false in E by done). rewrite bool_decide_true in E by done.
  unfold pc_MintHaqqByApplication in E. apply M_bind_ok in E as ([msg sender] & w1 & E1 & E). apply mlift_ok in E1 as [Em ->].
  assert (exists n, args = [ArgAddress sender; ArgUint n] /\ msg = mkMsgMintApp (AddrString sender) (wrap_u64 n)) as (n & -> & ->).
  { clear -Em. unfold NewMintHaqqByApplicationMsg in Em. destruct args as [|[] [|[] [|? ?]]]; try done. injection Em as <- <-. eauto. }
  apply M_bind_ok in E as (o & w1 & E1 & E). apply mlift_ok in E1 as [[-> Hp]%acting_ok ->].
  apply M_bind_ok in E as ([] & w1 & Eg & E). destruct (app_consent _ _ _ _ _ Hn Eg) as [Hin Hout].
  apply M_bind_ok in E as (app & w2 & E1 & E). apply mlift_ok in E1 as [_ ->].
  apply M_bind_ok in E as (d & w2 & E1 & E). apply mlift_ok in E1 as [_ ->].
  apply M_bind_ok in E as (before & w2 & E1 & E). apply mgets_ok in E1 as [_ ->].
  apply M_bind_ok in E as ([y to] & w2 & Ex & E).
  apply M_bind_ok in E as (rcv & w3 & E1 & E). apply mlift_ok in E1 as [_ ->].
  apply M_bind_ok in E as (ch & w3 & E1 & E). apply mgets_ok in E1 as [_ ->].
  apply M_bind_ok in E as (log & w3 & El & E). apply emit_event_state in El as ->. injection E as _ <-.
  exists sender, n, (y, to), w1. done.
Qed.

Lemma each_url_nothing known urls w r w' : each_url known (fun _ => mret tt) urls w = (Ok r, w') -> w' = w.
Proof.
  revert w. induction urls as [|u urls IH]; intros w E; simpl in E; [by apply mret_ok in E as [_ ->]|].
  destruct (known u); [|done]. apply M_bind_ok in E as ([] & w1 & E1 & E). apply mret_ok in E1 as [_ ->]. by apply IH.
Qed.

(** An approval of an application adds it to the ones the grantee has, once. *)
Theorem approved_applications_add_up caller origin args w r w' : ethiq_HandleMethod contract caller origin "approveApplicationID" args w = (Ok r, w') ->
  exists grantee n urls, args = [ArgAddress grantee; ArgUint n; ArgStrings urls] /\ wrap_u64 n < TotalNumberOfApplications /\
    granted_apps grantee origin w' =
      if decide (wrap_u64 n ∈ granted_apps grantee origin w) then granted_apps grantee origin w else granted_apps grantee origin w ++ [wrap_u64 n].
Proof.
  intros E. unfold ethiq_HandleMethod in E. repeat (rewrite bool_decide_false in E by done). rewrite bool_decide_true in E by done.
  unfold ApproveApplicationID in E. apply M_bind_ok in E as ([[grantee n] urls] & w1 & E1 & E). apply mlift_ok in E1 as [Em ->].
  assert (args = [ArgAddress grantee; ArgUint n; ArgStrings urls]) as ->.
  { clear -Em. unfold checkApproveApplicationIDArgs in Em. destruct args as [|[] [|[] [|[] [|? ?]]]]; try done. by injection Em as <- <- <-. }
  exists grantee, n, urls. split; [done|]. apply M_bind_ok in E as ([] & w1 & E1 & E). apply each_url_nothing in E1 as ->.
  apply M_bind_ok in E as (existing & w1 & E1 & E). apply mgets_ok in E1 as [-> ->].
  apply M_bind_ok in E as (ids & w1 & E1 & E). apply mlift_ok in E1 as [Ei ->].
  apply M_bind_ok in E as ([] & w1 & E1 & E). apply mlift_ok in E1 as [Ev ->].
  apply M_bind_ok in E as (now & w1 & E1 & E). apply mgets_ok in E1 as [-> ->].
  apply M_bind_ok in E as ([] & w1 & Es & E). unfold done_with in E. apply M_bind_ok in E as (log & w2 & El & E).
  apply emit_event_state in El as ->. injection E as _ <-. pose proof (get_saved _ _ _ _ _ _ Es) as Hs. cbn [ethiq_authz_url] in Hs.
  unfold granted_apps at 1. rewrite Hs. cbn [ApplicationsList]. unfold mint_app_ValidateBasic in Ev. cbn [ApplicationsList] in Ev.
  destruct (forallb IsApplicationExists ids) eqn:Ef; [|done]. rewrite forallb_forall in Ef.
  assert (Hids : wrap_u64 n ∈ ids /\ ids = if decide (wrap_u64 n ∈ granted_apps grantee origin w) then granted_apps grantee origin w
    else granted_apps grantee origin w ++ [wrap_u64 n]).
  { unfold granted_apps. revert Ei. unfold merge_ids. destruct (GetAuthorization _ _ _ w) as [[[|[l]|] ?]|]; try done; cbn [ApplicationsList].
    - case_bool_decide; intros [= <-]; [by rewrite decide_True|]. rewrite decide_False by done. split; [|done]. apply elem_of_app. right. apply list_elem_of_here.
    - intros [= <-]. rewrite decide_False by apply not_elem_of_nil. split; [apply list_elem_of_here|done]. }
  destruct Hids as [Hin ->]. split; [|done]. specialize (Ef (wrap_u64 n)). unfold IsApplicationExists in Ef. apply Z.ltb_lt, Ef.
  by apply list_elem_of_In.
Qed.
End theorems.
