(* ===== verification/SdkWrappers.v ===== *)
(** * x/staking/keeper/msg_server.go and x/bank/keeper/keeper.go: the wrappers of the SDK's keepers

    The message server of x/staking refuses delegations of unvested coins and passes the message on; the bank keeper gives what
    governance and the staking pools burn to the community pool.  The SDK's own keepers are the class [SdkStaking] and the argument
    [base_BurnCoins]. *)

From S2P Require Import Prelude.
From S2P Require Import Sdk.
From S2P Require Import Schedule.
From S2P Require Import ClawbackAccount.
From S2P Require Import Keepers.

Local Open Scope Z_scope.

(** ** Messages of the SDK *)

Record Description := mkDescription {
  Moniker : string; Identity : string; Website : string; SecurityContact : string; Details : string
}.
(** Rates are decimals, as integers times [10 ^ 18]. *)
Record CommissionRates := mkRates { Rate : Z; MaxRate : Z; MaxChangeRate : Z }.

Record MsgCreateValidator := mkMsgCreateValidator {
  mcv_Description : Description;
  mcv_Commission : CommissionRates;
  mcv_MinSelfDelegation : Z;
  mcv_DelegatorAddress : string;
  mcv_ValidatorAddress : string;
  mcv_Pubkey : string;
  mcv_Value : coin
}.
Record MsgEditValidator := mkMsgEditValidator {
  mev_Description : Description;
  mev_ValidatorAddress : string;
  mev_CommissionRate : option Z;
  mev_MinSelfDelegation : option Z
}.
Record MsgDelegate := mkMsgDelegate { DelegatorAddress : string; ValidatorAddress : string; del_Amount : coin }.
Record MsgUndelegate := mkMsgUndelegate { und_DelegatorAddress : string; und_ValidatorAddress : string; und_Amount : coin }.
Record MsgBeginRedelegate := mkMsgBeginRedelegate {
  red_DelegatorAddress : string; red_ValidatorSrcAddress : string; red_ValidatorDstAddress : string; red_Amount : coin
}.
Record MsgCancelUnbonding := mkMsgCancelUnbonding {
  can_DelegatorAddress : string; can_ValidatorAddress : string; can_Amount : coin; can_CreationHeight : Z
}.

(** The SDK's message server; unbondings and redelegations tell when they complete. *)
Class SdkStaking (W : Type) := {
  base_CreateValidator : MsgCreateValidator -> M W unit;
  base_EditValidator : MsgEditValidator -> M W unit;
  base_Delegate : MsgDelegate -> M W unit;
  base_Undelegate : MsgUndelegate -> M W Z;
  base_BeginRedelegate : MsgBeginRedelegate -> M W Z;
  base_CancelUnbonding : MsgCancelUnbonding -> M W unit;
  (** [ValidatorAddressCodec().StringToBytes] *)
  val_StringToBytes : string -> res string
}.

Definition ErrInsufficientVestedCoins : err := ErrText "insufficient vested coins error".

(** ** x/staking *)

Section staking.
Context {W : Type} `{SdkOps, EthOps} `{Ctx W, AccountKeeper W, BankKeeper W, StakingKeeper W, SdkStaking W}.

Definition validateDelegationAmountNotUnvested (delegatorAddress : string) (amount : Z) (w : W) : res unit :=
  match AccAddressFromBech32 delegatorAddress with
  | None => Err ErrInvalidAddress
  | Some addr =>
      match GetAccount addr w with
      | None => Err ErrUnknownAddress
      | Some (ClawbackAcc clawbackAccount) =>
          bondDenom ← BondDenom w;
          let balance := Keepers.GetBalance addr bondDenom w in
          unvestedOnly ← GetVestingCoins clawbackAccount (BlockTime w);
          let delegatableAmt := balance - AmountOf unvestedOnly bondDenom in
          let delegatableAmt := if delegatableAmt <? 0 then 0 else delegatableAmt in
          if delegatableAmt <? amount then Err ErrInsufficientVestedCoins else Ok tt
      | Some _ => Ok tt
      end
  end.

Definition msgServer_Delegate (msg : MsgDelegate) : M W unit :=
  v ← mgets (validateDelegationAmountNotUnvested (DelegatorAddress msg) (Amount (del_Amount msg)));
  mlift v;;
  base_Delegate msg.

Definition msgServer_CreateValidator (msg : MsgCreateValidator) : M W unit :=
  bz ← mwrap ErrInvalidAddress (mlift (val_StringToBytes (W:=W) (mcv_ValidatorAddress msg)));
  v ← mgets (validateDelegationAmountNotUnvested (AddrString bz) (Amount (mcv_Value msg)));
  mlift v;;
  base_CreateValidator msg.
End staking.

(** ** x/bank *)

Section bank.
Context {W : Type} `{AccountKeeper W, DistributionKeeper W} (base_BurnCoins : string -> list coin -> M W unit).

(** [govtypes.ModuleName], [BondedPoolName] and [NotBondedPoolName] *)
Definition pool_of_community (moduleName : string) : bool :=
  bool_decide (moduleName ∈ ["gov"; "bonded_tokens_pool"; "not_bonded_tokens_pool"]%string).

Definition keeper_BurnCoins (moduleName : string) (amounts : list coin) : M W unit := fun w =>
  if pool_of_community moduleName then
    match GetModuleAccount moduleName w with
    | None => (Panic, w)
    | Some acc => FundCommunityPool amounts acc w
    end
  else base_BurnCoins moduleName amounts w.
End bank.

(** ** Properties *)

Section theorems.
Context {W : Type} `{SdkLaws} `{EthLaws} `{KeeperLaws W} `{!StakingKeeper W} `{!SdkStaking W}.
Implicit Types w : W.

(** What the SDK's delegation takes of a balance is at most its amount (rewards may be paid on the way). *)
Class DelegationLaws : Prop := {
  base_delegate_takes msg a d w w' : AccAddressFromBech32 (DelegatorAddress msg) = Some a -> BondDenom w = Ok d ->
    base_Delegate msg w = (Ok tt, w') -> Keepers.GetBalance a d w - Amount (del_Amount msg) <= Keepers.GetBalance a d w'
}.
Context `{!DelegationLaws}.

Lemma validate_delegation del amount w a va d : AccAddressFromBech32 del = Some a -> GetAccount a w = Some (ClawbackAcc va) -> BondDenom w = Ok d ->
  0 < amount -> (validateDelegationAmountNotUnvested del amount w = Ok tt <->
  exists unvested, GetVestingCoins va (BlockTime w) = Ok unvested /\ amount + AmountOf unvested d <= Keepers.GetBalance a d w).
Proof.
  intros Ea Eg Ed Hp. unfold validateDelegationAmountNotUnvested. rewrite Ea, Eg, Ed. simpl.
  destruct (GetVestingCoins va (BlockTime w)) as [u| |]; simpl; [|split; [done|by intros (? & ? & _)]..].
  remember (Keepers.GetBalance a d w - AmountOf u d) as x eqn:Hx. split.
  - destruct (Z.ltb_spec (if x <? 0 then 0 else x) amount) as [|Hle]; [done|]. intros _. exists u. split; [done|].
    destruct (Z.ltb_spec x 0); lia.
  - intros (u' & [= <-] & Hle). rewrite (proj2 (Z.ltb_ge x 0)), (proj2 (Z.ltb_ge x amount)) by lia. done.
Qed.

(** A delegation of a clawback vesting account leaves the coins that are not vested: it is passed on only if the balance covers them
    besides the amount, and the balance covers them still after it. *)
Lemma delegation_keeps_unvested msg w w' a va d : AccAddressFromBech32 (DelegatorAddress msg) = Some a ->
  GetAccount a w = Some (ClawbackAcc va) -> BondDenom w = Ok d -> 0 < Amount (del_Amount msg) ->
  msgServer_Delegate msg w = (Ok tt, w') ->
  exists unvested, GetVestingCoins va (BlockTime w) = Ok unvested /\ AmountOf unvested d <= Keepers.GetBalance a d w'.
Proof.
  intros Ea Eg Ed Hp E. unfold msgServer_Delegate in E. apply M_bind_ok in E as (v & w1 & E1 & E). apply mgets_ok in E1 as [-> ->].
  apply M_bind_ok in E as ([] & w1 & E1 & E). apply mlift_ok in E1 as [E1 ->].
  apply (validate_delegation _ _ _ _ _ _ Ea Eg Ed Hp) in E1 as (u & Eu & Hle). exists u. split; [done|].
  pose proof (base_delegate_takes _ _ _ _ _ Ea Ed E). lia.
Qed.

(** Burning for governance and the staking pools only moves the coins to the community pool. *)
Lemma pool_burn_moves base name amounts w w' a : pool_of_community name = true -> operand amounts -> GetModuleAccount name w = Some a ->
  keeper_BurnCoins base name amounts w = (Ok tt, w') ->
  moved a (GetModuleAddress "distribution") amounts (fun x d => Keepers.GetBalance x d w) (fun x d => Keepers.GetBalance x d w').
Proof. intros Hn Ho Ea E. unfold keeper_BurnCoins in E. rewrite Hn, Ea in E. by apply fund_ok in E as [? _]. Qed.
End theorems.
Arguments DelegationLaws W {_ _ _ _}.
