(* ===== verification/StakingPrecompile.v ===== *)
(** * precompiles/staking: delegations from the EVM

    tx.go, approve.go, types.go, events.go, staking.go and the allowance of query.go.  A method builds a message of x/staking, checks
    who may send it, runs the message server of x/staking/keeper and settles the grant that a contract used.  [staking_calls_need_consent]
    says whose delegations a call can change and what is mirrored for the journal: the amount of a contract's delegation, but not
    the rewards that the SDK pays on the way.  The queries that only pass a request on to the SDK are left out. *)

From S2P Require Import Prelude.
From S2P Require Import Sdk.
From S2P Require Import Schedule.
From S2P Require Import ClawbackAccount.
From S2P Require Import Keepers.
From S2P Require Import VestingMsg.
From S2P Require Import Ucdao.
From S2P Require Import TokenPair.
From S2P Require Import AccessList.
From S2P Require Import StateDB.
From S2P Require Import Precompile.
From S2P Require Import Evm.
From S2P Require Import PrecompileAuthz.
From S2P Require Import SdkWrappers.

Local Open Scope Z_scope.

(** ** Data *)

(** An argument; those of the validators' methods may be structs. *)
Record Commission := mkCommission { com_Rate : Z; com_MaxRate : Z; com_MaxChangeRate : Z }.
Inductive StakingArg := SArg (a : Arg) | SDescription (d : Description) | SCommission (c : Commission).
Definition plain_arg (a : StakingArg) : Arg := match a with SArg a => a | _ => ArgOther end.

(** The messages a grant is for. *)
Inductive StakingMsg :=
  | SDelegate (m : MsgDelegate)
  | SUndelegate (m : MsgUndelegate)
  | SRedelegate (m : MsgBeginRedelegate)
  | SCancelUnbonding (m : MsgCancelUnbonding).

(** [sdk.MsgTypeURL] *)
Definition DelegateMsg : string := "/cosmos.staking.v1beta1.MsgDelegate".
Definition UndelegateMsg : string := "/cosmos.staking.v1beta1.MsgUndelegate".
Definition RedelegateMsg : string := "/cosmos.staking.v1beta1.MsgBeginRedelegate".
Definition CancelUnbondingDelegationMsg : string := "/cosmos.staking.v1beta1.MsgCancelUnbondingDelegation".
Definition staking_url (m : StakingMsg) : string :=
  match m with SDelegate _ => DelegateMsg | SUndelegate _ => UndelegateMsg | SRedelegate _ => RedelegateMsg
  | SCancelUnbonding _ => CancelUnbondingDelegationMsg end.

Inductive AuthorizationType := DelegateAuthz | UndelegateAuthz | RedelegateAuthz | CancelUnbondingDelegationAuthz.

(** [stakingtypes.StakeAuthorization]: the limit, the validators that are allowed and the type. *)
Record StakeAuthorization := mkStakeAuthz { MaxTokens : option coin; AllowList : list string; sa_Type : AuthorizationType }.
Definition set_MaxTokens (m : option coin) (a : StakeAuthorization) : StakeAuthorization := mkStakeAuthz m (AllowList a) (sa_Type a).

(** [StakeAuthorization.MsgTypeURL] *)
Definition authz_url (t : AuthorizationType) : string :=
  match t with DelegateAuthz => DelegateMsg | UndelegateAuthz => UndelegateMsg | RedelegateAuthz => RedelegateMsg
  | CancelUnbondingDelegationAuthz => CancelUnbondingDelegationMsg end.

(** ** Library code *)

(** The grants of x/authz hold authorizations of any type; those of x/staking are the SDK's code. *)
Class StakeAuthorizations (W A : Type) := {
  as_stake : A -> option StakeAuthorization;
  of_stake : StakeAuthorization -> A;
  stake_Accept : StakeAuthorization -> StakingMsg -> W -> res (AcceptResponse StakeAuthorization);
  NewStakeAuthorization : list string -> AuthorizationType -> option coin -> res StakeAuthorization;
  stake_ValidateBasic : StakeAuthorization -> res unit
}.

Class StakingValidators (W : Type) `{StakingKeeper W} := {
  (** the validators [IterateValidators] visits: jailed or not, and the operator *)
  IterateValidators : W -> res (list (bool * string));
  SharesFromTokens : Validator (W:=W) -> Z -> res Z;
  (** [sdk.ValAddress.String], and base64 with the public keys of ed25519 *)
  ValAddrString : string -> string;
  base64_Decode : string -> res string
}.

Definition ErrInvalidDelegator : err := ErrText "invalid delegator address".
Definition ErrInvalidValidator : err := ErrText "invalid validator address".
Definition ErrInvalidDescription : err := ErrText "invalid description".
Definition ErrInvalidCommission : err := ErrText "invalid commission".
Definition ErrInvalidArgType : err := ErrText "invalid type".
Definition ErrInvalidAmountArg : err := ErrText "invalid amount".
Definition ErrInvalidHeight : err := ErrText "invalid creation height".
Definition ErrPubkeySize : err := ErrText "consensus pubkey len is invalid".
Definition ErrExceededAllowance : err := ErrText "amount exceeds allowance".
Definition ErrDecreaseAmountTooBig : err := ErrText "amount by which the allowance should be decreased is greater than the authorization limit".
Definition ErrCannotCallFromContract : err := ErrText "this method can only be called directly to the precompile, not from a smart contract".
Definition ErrDifferentOriginFromValidator : err := ErrText "origin address is not the same as validator operator address".
Definition ErrInvalidValBech32 : err := ErrText "invalid validator bech32".

Definition PubKeySize : nat := 32.

(** [cmn.PackNum]: a number as 32 bytes. *)
Definition PackNum (z : Z) : string := big_endian 32 (z mod 2 ^ 256).

Section precompile.
Context {W A : Type} `{SdkOps, EthOps, IbcOps} `{Ctx W, AccountKeeper W, BankKeeper W, StakingKeeper W, SdkStaking W, !StakingValidators W}
  `{AuthzKeeper W A, StakeAuthorizations W A, EventData W}.
(** [p.Address()] *)
Context (contract : Address).

(** ** Messages *)

(** An address that is not zero. *)
Definition nonzero (a : Arg) (e : err) : res Address :=
  match a with ArgAddress x => if bool_decide (x = zero_address) then Err e else Ok x | _ => Err e end.
Definition text (a : Arg) : res string := match a with ArgString s => Ok s | _ => Err ErrInvalidArgType end.
Definition number (a : Arg) (e : err) : res Z := match a with ArgUint z => Ok z | _ => Err e end.

Definition checkDelegationUndelegationArgs (args : list Arg) : res (Address * string * Z) :=
  match args with
  | [a; b; c] =>
      delegatorAddr ← nonzero a ErrInvalidDelegator; validatorAddress ← text b; amount ← number c ErrInvalidAmountArg;
      Ok (delegatorAddr, validatorAddress, amount)
  | _ => Err ErrInvalidNumberOfArgs
  end.

Definition NewMsgDelegate (args : list Arg) (denom : string) : res (MsgDelegate * Address) :=
  '(delegatorAddr, validatorAddress, amount) ← checkDelegationUndelegationArgs args;
  amount ← new_int amount;
  Ok (mkMsgDelegate (AddrString delegatorAddr) validatorAddress (mkCoin denom amount), delegatorAddr).

Definition NewMsgUndelegate (args : list Arg) (denom : string) : res (MsgUndelegate * Address) :=
  '(delegatorAddr, validatorAddress, amount) ← checkDelegationUndelegationArgs args;
  amount ← new_int amount;
  Ok (mkMsgUndelegate (AddrString delegatorAddr) validatorAddress (mkCoin denom amount), delegatorAddr).

Definition NewMsgRedelegate (args : list Arg) (denom : string) : res (MsgBeginRedelegate * Address) :=
  match args with
  | [a; b; c; d] =>
      delegatorAddr ← nonzero a ErrInvalidDelegator; src ← text b; dst ← text c; amount ← number d ErrInvalidAmountArg;
      amount ← new_int amount;
      Ok (mkMsgBeginRedelegate (AddrString delegatorAddr) src dst (mkCoin denom amount), delegatorAddr)
  | _ => Err ErrInvalidNumberOfArgs
  end.

(** [creationHeight.Int64()] keeps the low 64 bits. *)
Definition NewMsgCancelUnbondingDelegation (args : list Arg) (denom : string) : res (MsgCancelUnbonding * Address) :=
  match args with
  | [a; b; c; d] =>
      delegatorAddr ← nonzero a ErrInvalidDelegator; validatorAddress ← text b; amount ← number c ErrInvalidAmountArg;
      creationHeight ← number d ErrInvalidHeight;
      amount ← new_int amount;
      Ok (mkMsgCancelUnbonding (AddrString delegatorAddr) validatorAddress (mkCoin denom amount) (wrap_i64 creationHeight), delegatorAddr)
  | _ => Err ErrInvalidNumberOfArgs
  end.

(** All three rates of the message are the rate of the argument. *)
Definition NewMsgCreateValidator (args : list StakingArg) (denom : string) : res (MsgCreateValidator * Address) :=
  match args with
  | [a; b; c; d; e; f] =>
      match a, b with
      | SDescription description, SCommission commission =>
          minSelfDelegation ← number (plain_arg c) ErrInvalidAmountArg;
          validatorAddress ← nonzero (plain_arg d) ErrInvalidValidator;
          pubkeyBase64Str ← text (plain_arg e);
          pubkey ← base64_Decode (W:=W) pubkeyBase64Str;
          if negb (bool_decide (String.length pubkey = PubKeySize)) then Err ErrPubkeySize else
          value ← number (plain_arg f) ErrInvalidAmountArg;
          minSelfDelegation ← new_int minSelfDelegation;
          value ← new_int value;
          Ok (mkMsgCreateValidator description
                (mkRates (com_Rate commission) (com_Rate commission) (com_Rate commission)) minSelfDelegation
                (AddrString validatorAddress) (ValAddrString (W:=W) validatorAddress) pubkey (mkCoin denom value), validatorAddress)
      | SDescription _, _ => Err ErrInvalidCommission
      | _, _ => Err ErrInvalidDescription
      end
  | _ => Err ErrInvalidNumberOfArgs
  end.

(** [DoNotModifyCommissionRate] and [DoNotModifyMinSelfDelegation] are -1. *)
Definition NewMsgEditValidator (args : list StakingArg) : res (MsgEditValidator * Address) :=
  match args with
  | [a; b; c; d] =>
      match a with
      | SDescription description =>
          validatorHexAddr ← nonzero (plain_arg b) ErrInvalidValidator;
          commissionRate ← number (plain_arg c) ErrInvalidArgType;
          minSelfDelegation ← number (plain_arg d) ErrInvalidArgType;
          minSelfDelegation ← (if minSelfDelegation =? -1 then Ok None else m ← new_int minSelfDelegation; Ok (Some m));
          Ok (mkMsgEditValidator description (ValAddrString (W:=W) validatorHexAddr)
                (if commissionRate =? -1 then None else Some commissionRate) minSelfDelegation, validatorHexAddr)
      | _ => Err ErrInvalidDescription
      end
  | _ => Err ErrInvalidNumberOfArgs
  end.

(** ** Events *)

(** The log of an event with addresses as topics and numbers as data. *)
Definition emit_numbers (event : string) (topics : list Address) (numbers : list Z) : M W Log :=
  height ← mgets BlockHeight;
  mret (mkLog contract (event_ID (W:=W) event :: (MakeTopic <$> topics)) (foldr (fun z s => PackNum z +:+ s) EmptyString numbers)
          height zero_hash zero_hash 0 0).

Definition val_address (bech : string) : res string :=
  match ValAddressFromBech32 (W:=W) bech with Some a => Ok a | None => Err ErrInvalidValBech32 end.

Definition EmitCreateValidatorEvent (msg : MsgCreateValidator) (validatorAddr : Address) : M W Log :=
  emit_numbers "CreateValidator" [validatorAddr] [Amount (mcv_Value msg)].
Definition EmitEditValidatorEvent (msg : MsgEditValidator) (validatorAddr : Address) : M W Log :=
  emit_numbers "EditValidator" [validatorAddr] [default (-1) (mev_CommissionRate msg); default (-1) (mev_MinSelfDelegation msg)].

(** A validator that is not found is an empty struct, whose tokens are nil. *)
Definition EmitDelegateEvent (msg : MsgDelegate) (delegatorAddr : Address) : M W Log :=
  valAddr ← mlift (val_address (ValidatorAddress msg));
  found ← mgets (GetValidator valAddr);
  newShares ← mlift match found with Ok v => SharesFromTokens v (Amount (del_Amount msg)) | _ => Panic end;
  emit_numbers "Delegate" [delegatorAddr; BytesToAddress valAddr] [Amount (del_Amount msg); newShares].
Definition EmitUnbondEvent (msg : MsgUndelegate) (delegatorAddr : Address) (completionTime : Z) : M W Log :=
  valAddr ← mlift (val_address (und_ValidatorAddress msg));
  emit_numbers "Unbond" [delegatorAddr; BytesToAddress valAddr] [Amount (und_Amount msg); completionTime].
Definition EmitRedelegateEvent (msg : MsgBeginRedelegate) (delegatorAddr : Address) (completionTime : Z) : M W Log :=
  valSrcAddr ← mlift (val_address (red_ValidatorSrcAddress msg));
  valDstAddr ← mlift (val_address (red_ValidatorDstAddress msg));
  emit_numbers "Redelegate" [delegatorAddr; BytesToAddress valSrcAddr; BytesToAddress valDstAddr] [Amount (red_Amount msg); completionTime].
Definition EmitCancelUnbondingDelegationEvent (msg : MsgCancelUnbonding) (delegatorAddr : Address) : M W Log :=
  valAddr ← mlift (val_address (can_ValidatorAddress msg));
  emit_numbers "CancelUnbondingDelegation" [delegatorAddr; BytesToAddress valAddr] [Amount (can_Amount msg); can_CreationHeight msg].

(** ** Grants *)

Definition CheckAuthzAndAllowanceForGranter (grantee granter : Address) (amount : coin) (msgURL : string) (w : W)
    : res (StakeAuthorization * option Z) :=
  match GetAuthorization grantee granter msgURL w with
  | None => Err ErrAuthzDoesNotExistOrExpired
  | Some (msgAuthz, expiration) =>
      match as_stake (W:=W) msgAuthz with
      | None => Err ErrUnknownAuthorizationType
      | Some stakeAuthz =>
          match MaxTokens stakeAuthz with
          | Some limit => if Amount limit <? Amount amount then Err ErrExceededAllowance else Ok (stakeAuthz, expiration)
          | None => Ok (stakeAuthz, expiration)
          end
      end
  end.

(** The response is not asked whether it accepts; without an update a nil authorization is saved, which panics. *)
Definition UpdateStakingAuthorization (grantee granter : Address) (stakeAuthz : StakeAuthorization) (expiration : option Z)
    (messageType : string) (msg : StakingMsg) : M W unit :=
  accepted ← mgets (stake_Accept stakeAuthz msg);
  updatedResponse ← mlift accepted;
  if Delete updatedResponse then DeleteGrant grantee granter messageType
  else match Updated updatedResponse with
       | Some a => SaveGrant grantee granter (of_stake (W:=W) a) expiration
       | None => mlift Panic
       end.

Definition stake_urls (url : string) : bool :=
  bool_decide (url ∈ [DelegateMsg; UndelegateMsg; RedelegateMsg; CancelUnbondingDelegationMsg]).

Definition convertMsgToAuthz (msg : string) : res AuthorizationType :=
  if bool_decide (msg = DelegateMsg) then Ok DelegateAuthz
  else if bool_decide (msg = UndelegateMsg) then Ok UndelegateAuthz
  else if bool_decide (msg = RedelegateMsg) then Ok RedelegateAuthz
  else if bool_decide (msg = CancelUnbondingDelegationMsg) then Ok CancelUnbondingDelegationAuthz
  else Err ErrUnknownAuthorizationType.

(** The validators that are not jailed; an operator that does not decode stops the iteration. *)
Fixpoint active_validators (vals : list (bool * string)) : res (list string) :=
  match vals with
  | [] => Ok []
  | (jailed, operator) :: rest =>
      if jailed : bool then active_validators rest
      else a ← val_address operator; l ← active_validators rest; Ok (a :: l)
  end.

Definition createStakingAuthz (grantee granter : Address) (coin : option coin) (authzType : AuthorizationType) : M W unit :=
  visited ← mgets IterateValidators;
  visited ← mlift visited;
  validators ← mlift (active_validators visited);
  stakingAuthz ← mlift (NewStakeAuthorization (W:=W) (A:=A) validators authzType coin);
  mlift (stake_ValidateBasic (W:=W) (A:=A) stakingAuthz);;
  now ← mgets BlockTime;
  SaveGrant grantee granter (of_stake (W:=W) stakingAuthz) (Some (now + DefaultExpirationDuration)).

Definition grantOrDeleteStakingAuthz (grantee granter : Address) (coin : option coin) (authzType : AuthorizationType) : M W unit :=
  match coin with
  | None => createStakingAuthz grantee granter coin authzType
  | Some c =>
      if Amount c <=? 0 then DeleteGrant grantee granter (authz_url authzType)
      else createStakingAuthz grantee granter coin authzType
  end.

(** The authorization of a type, which must be one of x/staking. *)
Definition stake_grant (grantee granter : Address) (msgURL : string) : M W (StakeAuthorization * option Z) :=
  found ← mgets (CheckAuthzExists grantee granter msgURL);
  '(existing, expiration) ← mlift found;
  match as_stake (W:=W) existing with
  | None => mraise ErrUnknownAuthorizationType
  | Some stakeAuthz => mret (stakeAuthz, expiration)
  end.

(** A coin that is nil is followed only when there is a limit. *)
Definition decreaseAllowance (grantee granter : Address) (coin : option coin) (stakeAuthz : StakeAuthorization) (expiration : option Z) : M W unit :=
  match MaxTokens stakeAuthz with
  | None => mret tt
  | Some limit =>
      x ← mlift (coin_amount coin);
      if Amount limit <? x then mraise ErrDecreaseAmountTooBig
      else SaveGrant grantee granter (of_stake (W:=W) (set_MaxTokens (Some (mkCoin (Denom limit) (Amount limit - x))) stakeAuthz)) expiration
  end.

Definition increaseAllowance (grantee granter : Address) (coin : option coin) (msgURL : string) : M W unit :=
  '(stakeAuthz, expiration) ← stake_grant grantee granter msgURL;
  match MaxTokens stakeAuthz with
  | None => mret tt
  | Some limit =>
      limit ← mlift (raise_limit limit coin);
      SaveGrant grantee granter (of_stake (W:=W) (set_MaxTokens limit stakeAuthz)) expiration
  end.

(** A grant that is missing or of another type is a nil pointer. *)
Definition event_value (grantee granter : Address) (url : string) (w : W) : res (option Z) :=
  match GetAuthorization grantee granter url w with
  | Some (a, _) =>
      match as_stake (W:=W) a with Some s => Ok (Some (from_option Amount MaxUint256 (MaxTokens s))) | None => Panic end
  | None => Panic
  end.
Fixpoint event_values (grantee granter : Address) (urls : list string) (w : W) : res (list (option Z)) :=
  match urls with
  | [] => Ok []
  | url :: rest => v ← event_value grantee granter url w; l ← event_values grantee granter rest w; Ok (v :: l)
  end.
Definition EmitAllowanceChangeEvent (grantee granter : Address) (typeURLs : list string) : M W Log :=
  newValues ← mgets (event_values grantee granter typeURLs);
  newValues ← mlift newValues;
  emit_event contract "AllowanceChange" grantee granter [ArgStrings typeURLs; ArgUints newValues].

Definition Approve (origin : Address) (args : list Arg) : M W Answer :=
  denom ← mgets BondDenom;
  bondDenom ← mlift denom;
  '(grantee, coin, typeURLs) ← mlift (CheckApprovalArgs args bondDenom);
  each_url stake_urls (fun url => t ← mlift (convertMsgToAuthz url); grantOrDeleteStakingAuthz grantee origin coin t) typeURLs;;
  done_with (emit_approval contract grantee origin coin typeURLs).

Definition Revoke (origin : Address) (args : list Arg) : M W Answer :=
  '(grantee, typeURLs) ← mlift (CheckRevokeArgs args);
  each_url stake_urls (fun url => DeleteGrant grantee origin url) typeURLs;;
  done_with (EmitRevocationEvent contract origin grantee typeURLs).

Definition DecreaseAllowance (origin : Address) (args : list Arg) : M W Answer :=
  denom ← mgets BondDenom;
  bondDenom ← mlift denom;
  '(grantee, coin, typeURLs) ← mlift (CheckApprovalArgs args bondDenom);
  each_url stake_urls (fun url => '(a, e) ← stake_grant grantee origin url; decreaseAllowance grantee origin coin a e) typeURLs;;
  done_with (EmitAllowanceChangeEvent grantee origin typeURLs).

(** Grants to cancel unbondings cannot be raised. *)
Definition increase_urls (url : string) : bool := bool_decide (url ∈ [DelegateMsg; UndelegateMsg; RedelegateMsg]).
Definition IncreaseAllowance (origin : Address) (args : list Arg) : M W Answer :=
  denom ← mgets BondDenom;
  bondDenom ← mlift denom;
  '(grantee, coin, typeURLs) ← mlift (CheckApprovalArgs args bondDenom);
  each_url increase_urls (increaseAllowance grantee origin coin) typeURLs;;
  done_with (EmitAllowanceChangeEvent grantee origin typeURLs).

Definition Allowance (args : list Arg) (w : W) : res Output :=
  '(grantee, granter, msg) ← CheckAllowanceArgs args;
  match GetAuthorization grantee granter msg w with
  | None => Ok (OutUint 0)
  | Some (a, _) =>
      match as_stake (W:=W) a with
      | None => Err ErrInvalidArgType
      | Some s => Ok (OutUint (from_option Amount MaxUint256 (MaxTokens s)))
      end
  end.

(** ** Transactions *)

(** What the four methods on delegations share: the delegator is the caller or the origin, a contract needs a grant of the origin
    that covers the amount, the server runs, and the grant is settled. *)
Definition on_behalf {X} (caller origin delegator : Address) (amount : coin) (msg : StakingMsg) (serve : M W X) : M W (Address * X) :=
  granter ← mlift (acting caller origin delegator);
  if bool_decide (caller = origin) then x ← serve; mret (granter, x)
  else
    found ← mgets (CheckAuthzAndAllowanceForGranter caller granter amount (staking_url msg));
    '(stakeAuthz, expiration) ← mlift found;
    x ← serve;
    UpdateStakingAuthorization caller granter stakeAuthz expiration (staking_url msg) msg;;
    mret (granter, x).

(** The balance change is that of the delegator of the message. *)
Definition pc_Delegate (caller origin : Address) (args : list Arg) : M W Answer :=
  denom ← mgets BondDenom;
  bondDenom ← mlift denom;
  '(msg, delegator) ← mlift (NewMsgDelegate args bondDenom);
  '(delegator, _) ← on_behalf caller origin delegator (del_Amount msg) (SDelegate msg) (msgServer_Delegate msg);
  log ← EmitDelegateEvent msg delegator;
  changes ← (if bool_decide (caller = origin) then mret []
             else
               delAccAddr ← mlift (must_addr (DelegatorAddress msg));
               mret [NewBalanceChangeEntry (BytesToAddress delAccAddr) (Amount (del_Amount msg)) Sub]);
  mret (mkAnswer (OutBool true) changes [log]).

Definition pc_Undelegate (caller origin : Address) (args : list Arg) : M W Answer :=
  denom ← mgets BondDenom;
  bondDenom ← mlift denom;
  '(msg, delegator) ← mlift (NewMsgUndelegate args bondDenom);
  '(delegator, completionTime) ← on_behalf caller origin delegator (und_Amount msg) (SUndelegate msg) (base_Undelegate msg);
  log ← EmitUnbondEvent msg delegator completionTime;
  mret (mkAnswer (OutUint completionTime) [] [log]).

Definition pc_Redelegate (caller origin : Address) (args : list Arg) : M W Answer :=
  denom ← mgets BondDenom;
  bondDenom ← mlift denom;
  '(msg, delegator) ← mlift (NewMsgRedelegate args bondDenom);
  '(delegator, completionTime) ← on_behalf caller origin delegator (red_Amount msg) (SRedelegate msg) (base_BeginRedelegate msg);
  log ← EmitRedelegateEvent msg delegator completionTime;
  mret (mkAnswer (OutUint completionTime) [] [log]).

Definition pc_CancelUnbondingDelegation (caller origin : Address) (args : list Arg) : M W Answer :=
  denom ← mgets BondDenom;
  bondDenom ← mlift denom;
  '(msg, delegator) ← mlift (NewMsgCancelUnbondingDelegation args bondDenom);
  '(delegator, _) ← on_behalf caller origin delegator (can_Amount msg) (SCancelUnbonding msg) (base_CancelUnbonding msg);
  log ← EmitCancelUnbondingDelegationEvent msg delegator;
  mret (mkAnswer (OutBool true) [] [log]).

(** A validator is created and edited by its own account, without a contract between. *)
Definition pc_CreateValidator (caller origin : Address) (args : list StakingArg) : M W Answer :=
  denom ← mgets BondDenom;
  bondDenom ← mlift denom;
  '(msg, validatorHexAddr) ← mlift (NewMsgCreateValidator args bondDenom);
  if bool_decide (caller <> origin) then mraise ErrCannotCallFromContract
  else if bool_decide (origin <> validatorHexAddr) then mraise ErrDifferentOriginFromSender
  else
    msgServer_CreateValidator msg;;
    log ← EmitCreateValidatorEvent msg validatorHexAddr;
    mret (mkAnswer (OutBool true) [] [log]).

Definition pc_EditValidator (caller origin : Address) (args : list StakingArg) : M W Answer :=
  '(msg, validatorHexAddr) ← mlift (NewMsgEditValidator args);
  if bool_decide (caller <> origin) then mraise ErrCannotCallFromContract
  else if bool_decide (origin <> validatorHexAddr) then mraise ErrDifferentOriginFromValidator
  else
    base_EditValidator msg;;
    log ← EmitEditValidatorEvent msg validatorHexAddr;
    mret (mkAnswer (OutBool true) [] [log]).

Definition staking_IsTransaction (method : string) : bool :=
  bool_decide (method ∈ ["createValidator"; "editValidator"; "delegate"; "undelegate"; "redelegate"; "cancelUnbondingDelegation";
    "approve"; "revoke"; "increaseAllowance"; "decreaseAllowance"]%string).

(** The queries of the SDK are [others]. *)
Context (others : string -> list Arg -> W -> res Output).
Definition staking_HandleMethod (caller origin : Address) (name : string) (sargs : list StakingArg) : M W Answer :=
  let args := plain_arg <$> sargs in
  if bool_decide (name = "approve") then Approve origin args
  else if bool_decide (name = "revoke") then Revoke origin args
  else if bool_decide (name = "increaseAllowance") then IncreaseAllowance origin args
  else if bool_decide (name = "decreaseAllowance") then DecreaseAllowance origin args
  else if bool_decide (name = "createValidator") then pc_CreateValidator caller origin sargs
  else if bool_decide (name = "editValidator") then pc_EditValidator caller origin sargs
  else if bool_decide (name = "delegate") then pc_Delegate caller origin args
  else if bool_decide (name = "undelegate") then pc_Undelegate caller origin args
  else if bool_decide (name = "redelegate") then pc_Redelegate caller origin args
  else if bool_decide (name = "cancelUnbondingDelegation") then pc_CancelUnbondingDelegation caller origin args
  else if bool_decide (name = "allowance") then query (Allowance args)
  else query (others name args).

Definition staking_RequiredGas (p : ABI) (c : GasConfig) (input : string) : Z := required_gas p c staking_IsTransaction input.

Definition staking_Run `{StateKeeper W, Keccak} (p : ABI) (caller origin : Address) (c : Contract) (readOnly : bool) (initialGas : Z)
    (unpack : Method -> string -> list StakingArg) (gas_ok : bool) : M (StateDB W) unit :=
  Precompile.Run contract p c readOnly staking_IsTransaction initialGas
    (fun m => as_method gas_ok (staking_HandleMethod caller origin (method_Name m) (unpack m (argument_bytes (Input c))))).

(** ** Consent *)

(** A grant of x/staking that covers the amount. *)
Definition stake_granted (grantee granter : Address) (amount : coin) (url : string) (w : W) : Prop :=
  exists a e s, GetAuthorization grantee granter url w = Some (a, e) /\ as_stake (W:=W) a = Some s /\
    forall limit, MaxTokens s = Some limit -> Amount amount <= Amount limit.

Lemma covered_grant grantee granter amount url w s e : CheckAuthzAndAllowanceForGranter grantee granter amount url w = Ok (s, e) ->
  stake_granted grantee granter amount url w.
Proof.
  unfold CheckAuthzAndAllowanceForGranter. destruct (GetAuthorization grantee granter url w) as [[a e']|] eqn:Ea; [|done].
  destruct (as_stake a) as [s'|] eqn:Es; [|done]. intros Hc. exists a, e', s'. split_and!; [done|done|].
  intros limit Hl. rewrite Hl in Hc. destruct (Z.ltb_spec (Amount limit) (Amount amount)); [done|lia].
Qed.

Lemma on_behalf_ok {X} caller origin delegator amount msg (serve : M W X) w granter x w' :
  on_behalf caller origin delegator amount msg serve w = (Ok (granter, x), w') ->
  (delegator = caller \/ delegator = origin) /\ granter = origin /\
  (caller <> origin -> stake_granted caller origin amount (staking_url msg) w) /\ exists w1, serve w = (Ok x, w1).
Proof.
  intros E. unfold on_behalf in E. apply M_bind_ok in E as (g & w1 & E1 & E). injection E1 as E1 <-.
  assert (Hg : (delegator = caller \/ delegator = origin) /\ g = origin).
  { clear E. unfold acting in E1. case_bool_decide; [injection E1 as <-; auto|]. case_bool_decide as Ho; [done|].
    injection E1 as <-. auto. }
  destruct Hg as [Hd ->]. case_bool_decide as Hc.
  - apply M_bind_ok in E as (y & w2 & E2 & [= <- <- <-]). split_and!; [done|done|done|eauto].
  - apply M_bind_ok in E as (found & w2 & E2 & E). injection E2 as <- <-. apply M_bind_ok in E as ([s e] & w3 & E3 & E).
    injection E3 as E3 <-. apply M_bind_ok in E as (y & w4 & E4 & E). apply M_bind_ok in E as ([] & w5 & _ & [= <- <- <-]).
    split_and!; [done|done|intros _; by eapply covered_grant|eauto].
Qed.

Lemma nonzero_ok a e x : nonzero a e = Ok x -> a = ArgAddress x.
Proof. destruct a; simpl; try done. case_bool_decide; [done|]. congruence. Qed.

(** What a method on delegations did: the delegator is the caller or the origin, a contract had the origin's grant for the
    amount and this type of message, and the journal has [changes]. *)
Definition staked (caller origin delegator : Address) (amount : coin) (url : string) (changes : list balanceChangeEntry) (r : Answer) (w : W) : Prop :=
  BondDenom w = Ok (Denom amount) /\ (delegator = caller \/ delegator = origin) /\
  (caller <> origin -> stake_granted caller origin amount url w) /\ an_Changes r = changes.

Definition delegate_changes (caller origin delegator : Address) (amount : coin) : res (list balanceChangeEntry) :=
  if bool_decide (caller = origin) then Ok []
  else a ← must_addr (AddrString delegator); Ok [NewBalanceChangeEntry (BytesToAddress a) (Amount amount) Sub].

Lemma bond_bind {X Y} (r : string -> res X) (f : string -> X -> M W Y) w y w' :
  (denom ← mgets BondDenom; bondDenom ← mlift denom; x ← mlift (r bondDenom); f bondDenom x) w = (Ok y, w') ->
  exists d x, BondDenom w = Ok d /\ r d = Ok x /\ f d x w = (Ok y, w').
Proof.
  intros E. apply M_bind_ok in E as (r' & w1 & E1 & E). injection E1 as <- <-.
  apply M_bind_ok in E as (d & w1 & [Ed ->]%mlift_ok & E). apply M_bind_ok in E as (x & w1 & [Er ->]%mlift_ok & E).
  by exists d, x.
Qed.

(** The amount of a method's arguments, as the coin of the message. *)
Lemma three_args args d v n : checkDelegationUndelegationArgs args = Ok (d, v, n) -> head args = Some (ArgAddress d).
Proof.
  destruct args as [|a [|b [|c [|? ?]]]]; try done. intros E. apply res_bind_ok in E as (d0 & Ed%nonzero_ok & E).
  apply res_bind_ok in E as (v0 & _ & E). apply res_bind_ok in E as (n0 & _ & [= <- <- <-]). by rewrite Ed.
Qed.

Lemma pc_Delegate_ok caller origin args w r w' : pc_Delegate caller origin args w = (Ok r, w') ->
  exists d amount changes, head args = Some (ArgAddress d) /\ delegate_changes caller origin d amount = Ok changes /\
    staked caller origin d amount DelegateMsg changes r w.
Proof.
  intros E. apply bond_bind in E as (bd & [msg d] & Eb & Em & E). cbv beta iota in E.
  apply res_bind_ok in Em as ([[d' v] n] & Ea%three_args & Em). apply res_bind_ok in Em as (z & _ & [= <- <-]).
  apply M_bind_ok in E as ([g []] & w1 & (Hd & -> & Hg & _)%on_behalf_ok & E). apply M_bind_ok in E as (log & w2 & _ & E).
  apply M_bind_ok in E as (changes & w3 & Ec & [= <- <-]). exists d', (mkCoin bd z), changes. split_and!; [done| |by repeat split].
  unfold delegate_changes. case_bool_decide; [by injection Ec as <- <-|].
  apply M_bind_ok in Ec as (a & w4 & [Ea' ->]%mlift_ok & [= <- <-]). cbn [DelegatorAddress] in Ea'. by rewrite Ea'.
Qed.

Lemma pc_Undelegate_ok caller origin args w r w' : pc_Undelegate caller origin args w = (Ok r, w') ->
  exists d amount, head args = Some (ArgAddress d) /\ staked caller origin d amount UndelegateMsg [] r w.
Proof.
  intros E. apply bond_bind in E as (bd & [msg d] & Eb & Em & E). cbv beta iota in E.
  apply res_bind_ok in Em as ([[d' v] n] & Ea%three_args & Em). apply res_bind_ok in Em as (z & _ & [= <- <-]).
  apply M_bind_ok in E as ([g t] & w1 & (Hd & -> & Hg & _)%on_behalf_ok & E). apply M_bind_ok in E as (log & w2 & _ & [= <- <-]).
  exists d', (mkCoin bd z). by repeat split.
Qed.

Lemma pc_Redelegate_ok caller origin args w r w' : pc_Redelegate caller origin args w = (Ok r, w') ->
  exists d amount, head args = Some (ArgAddress d) /\ staked caller origin d amount RedelegateMsg [] r w.
Proof.
  intros E. apply bond_bind in E as (bd & [msg d] & Eb & Em & E). cbv beta iota in E.
  unfold NewMsgRedelegate in Em. destruct args as [|a [|b [|c [|e [|? ?]]]]]; try done.
  apply res_bind_ok in Em as (d' & Ed%nonzero_ok & Em). apply res_bind_ok in Em as (src & _ & Em).
  apply res_bind_ok in Em as (dst & _ & Em). apply res_bind_ok in Em as (n & _ & Em). apply res_bind_ok in Em as (z & _ & [= <- <-]).
  apply M_bind_ok in E as ([g t] & w1 & (Hd & -> & Hg & _)%on_behalf_ok & E). apply M_bind_ok in E as (log & w2 & _ & [= <- <-]).
  exists d', (mkCoin bd z). by rewrite Ed.
Qed.

Lemma pc_Cancel_ok caller origin args w r w' : pc_CancelUnbondingDelegation caller origin args w = (Ok r, w') ->
  exists d amount, head args = Some (ArgAddress d) /\ staked caller origin d amount CancelUnbondingDelegationMsg [] r w.
Proof.
  intros E. apply bond_bind in E as (bd & [msg d] & Eb & Em & E). cbv beta iota in E.
  unfold NewMsgCancelUnbondingDelegation in Em. destruct args as [|a [|b [|c [|e [|? ?]]]]]; try done.
  apply res_bind_ok in Em as (d' & Ed%nonzero_ok & Em). apply res_bind_ok in Em as (v & _ & Em).
  apply res_bind_ok in Em as (n & _ & Em). apply res_bind_ok in Em as (h & _ & Em). apply res_bind_ok in Em as (z & _ & [= <- <-]).
  apply M_bind_ok in E as ([g t] & w1 & (Hd & -> & Hg & _)%on_behalf_ok & E). apply M_bind_ok in E as (log & w2 & _ & [= <- <-]).
  exists d', (mkCoin bd z). by rewrite Ed.
Qed.

(** The methods on delegations and the types of their messages. *)
Definition delegation_methods : list (string * string) :=
  [("delegate", DelegateMsg); ("undelegate", UndelegateMsg); ("redelegate", RedelegateMsg);
   ("cancelUnbondingDelegation", CancelUnbondingDelegationMsg)]%string.

(** A method on delegations that succeeds is for the caller or the origin; a contract had a grant of the origin for the type of
    the message that covers the amount of the staking denomination.  The journal gets the amount of a contract's delegation and nothing else. *)
Theorem staking_calls_need_consent caller origin name url sargs w r w' : (name, url) ∈ delegation_methods ->
  staking_HandleMethod caller origin name sargs w = (Ok r, w') ->
  exists d amount changes, plain_arg <$> head sargs = Some (ArgAddress d) /\
    (if bool_decide (name = "delegate") then delegate_changes caller origin d amount = Ok changes else changes = []) /\
    staked caller origin d amount url changes r w.
Proof.
  assert (Hh : head (plain_arg <$> sargs) = plain_arg <$> head sargs) by by destruct sargs.
  unfold delegation_methods. rewrite !elem_of_cons. rewrite <- Hh.
  intros [[= -> ->]|[[= -> ->]|[[= -> ->]|[[= -> ->]|[]%not_elem_of_nil]]]] E; unfold staking_HandleMethod in E;
    rewrite ?(bool_decide_false (_ = _)), ?(bool_decide_true (_ = _)) in E by done.
  - by apply pc_Delegate_ok in E.
  - apply pc_Undelegate_ok in E as (d & amount & ? & ?). by exists d, amount, [].
  - apply pc_Redelegate_ok in E as (d & amount & ? & ?). by exists d, amount, [].
  - apply pc_Cancel_ok in E as (d & amount & ? & ?). by exists d, amount, [].
Qed.
End precompile.
